(* ===== verification/_CoqProject ===== *)
-Q . S2P
Prelude.v
Types.v
Floats.v
Driver.v
Common.v
Clock.v
AnnounceReceive.v
AnnounceInformation.v
StateSelection.v
AnnounceTransmit.v
IntervalSetting.v
Capable.v
GmStable.v
SyncPath.v
Wire.v
Perfmon.v
Media.v
Mind.v
MdSyncReceive.v
MdSyncSend.v
PdelayReq.v
PdelayResp.v
Signaling.v
ExtPort.v
Llist.v
Getmem.v
Esarray.v
Gptpclock.v
VirtualClock.v
GptpclockFacts.v
GptpclockTime.v
GptpclockStatus.v
ClockSync.v
ClockSyncFacts.v
ClockSyncTime.v
ClockSyncSend.v
Gptpman.v
Dispatch.v
GptpmanFacts.v
BestMaster.v
DispatchFacts.v
Startup.v
StartupFacts.v
Machines.v
