(* ===== verification/Prelude.v ===== *)
(** * A verification of the gPTP stack (IEEE 802.1AS) of enet-tsn-stack

    The program (src/tsn_gptp) keeps the clocks of a network in step.  It is a set
    of cooperating state machines.  Each machine is a C file with a data struct, a
    function [<name>_sm(sm, cts64)] that evaluates the machine until it settles,
    and entry points that deliver an event and evaluate.  The machines of a port
    and of a domain share the per-instance struct (PerTimeAwareSystemGlobal), the
    per-port structs (PerPortGlobal, BmcsPerPortGlobal), the best-master struct
    (BmcsPerTimeAwareSystemGlobal) and the struct of the media-dependent entity
    (MDEntityGlobal).  gptpman.c receives the events of the network driver, calls
    the machines in turn, passes the result of one to the next and keeps the
    domains; gptpclock.c keeps the clocks, which the clock machines adjust and
    applications read through gptpmasterclock.c.

    ** The parts and the files

    The base:
    - [Prelude]: record update, machine integers, byte blocks, tactics.
    - [Types]: the structs of gptpbasetypes.h, mind.h and mdeth.h, one record
      each, with the members of the struct.
    - [Floats]: the [double]s, as binary64, and when an operation is exact.
    - [Driver]: the evaluation loop that all [<name>_sm] functions repeat, as one
      fuelled function over the class [StateMachine], and the rules that give
      termination (a rank that goes down on every further turn), invariants and
      the result of a call from facts about one pass.
    - [Common]: gptpcommon.c and .h: priority vectors and their comparison, log
      intervals, the tick of the event loop.
    - [Perfmon] (gptp_perfmon.c): counters and statistics, their submission.
    - [Llist] (tsn_unibase/ub_llist.c): the linked list, on a heap of nodes.
    - [Getmem] (tsn_unibase/ub_getmem.c): the static memory pools, and the class
      [AllocatorLaws] of what a client of a pool may rely on.
    - [Esarray] (tsn_unibase/ub_esarray.c): the expanding array, over any
      [Allocator].

    The media-independent machines:
    - [AnnounceReceive], [AnnounceInformation], [StateSelection] and
      [AnnounceTransmit] (port_announce_receive_sm.c and so on): the best-master
      algorithm and the announces of a port.
    - [ExtPort]: the two machines that take their place when port states are
      configured from outside (port_announce_information_ext_sm.c,
      port_state_setting_ext_sm.c).
    - [IntervalSetting]: the five machines that set message intervals on request
      (announce_, sync_, link_delay_, gptp_capable_interval_setting_sm.c and
      one_step_tx_oper_setting_sm.c).
    - [Capable]: gptp_capable_transmit_sm.c and gptp_capable_receive_sm.c.
    - [GmStable] (gm_stable_sm.c): the stability of the grandmaster.
    - [SyncPath]: port_sync_sync_receive_sm.c, site_sync_sync_sm.c and
      port_sync_sync_send_sm.c: the relay of time from the slave port to the
      master ports.

    The media-dependent machines, with the octets they send and receive:
    - [Wire]: the common header (mdeth.c) and the announce
      (md_announce_send_sm.c, md_announce_receive_sm.c).
    - [Media]: what they use of the network driver and the hardware clock.
    - [MdSyncReceive], [MdSyncSend]: md_sync_receive_sm.c and md_sync_send_sm.c.
    - [PdelayReq], [PdelayResp]: md_pdelay_req_sm.c and md_pdelay_resp_sm.c.
    - [Signaling]: md_signaling_send_sm.c and md_signaling_receive_sm.c.

    The clocks:
    - [Clock]: the status of a domain's master clock as the machines use it.
    - [Gptpclock]: gptpclock.c, the array of clock entities with the shared
      memory, and the time functions of gptpmasterclock.c.
    - [VirtualClock] (gptpclock_virtual.c): software devices.
    - [ClockSync]: clock_slave_sync_sm.c, clock_master_sync_receive_sm.c,
      clock_master_sync_offset_sm.c and clock_master_sync_send_sm.c.
    - [GptpclockFacts], [GptpclockTime], [GptpclockStatus], [ClockSyncFacts],
      [ClockSyncTime], [ClockSyncSend]: the theorems on these.

    The instance:
    - [Mind]: mind.c and md_entity_glb_init of mdeth.c, the structs at start-up.
    - [Gptpman]: the machines of one domain as gptpman.c puts them together:
      sm_bmcs_perform, portSyncSync_for_all, set_asCapable, the handling of every
      message and of the timeout.
    - [Dispatch]: gptpnet_cb of gptpman.c: every event, on every domain.
    - [Startup]: the start of gptpman.c up to the event loop (gptpman_run): the
      machines of a port (gptpman_port_init, domain_port_sm_init) and of a domain
      (gptpman_domain_init), its clocks and time (init_domain_clock,
      set_domain_thisClock), the one or two configured domains
      (static_domains_init).
    - [GptpmanFacts], [BestMaster], [DispatchFacts], [StartupFacts]: the theorems
      on the composition.
    - [Machines]: the termination of the evaluation loops, put together.

    ** How the model corresponds to the code

    A machine is a module with the C names: the state enum, the data record, one
    definition per [_proc] and [_condition], [allstate_condition], the [switch] of
    the loop body (which runs the proc on a change of state, as the code does),
    the instance [machine] of [StateMachine], the function [<name>_sm], its init
    and its event entries.  A call returns the new data and an [outcome]: the
    returned pointer's target ([Ret (Some r)] or [Ret None] for NULL) or [Crash]
    for the use of a NULL pointer.  What a machine shares are fields of its data
    record; the theorems on single machines hold for arbitrary data, so for
    whatever other machines write between two calls.  [Gptpman] stores the shared
    structs once and loads them into the machine that is evaluated ([Shared]), and
    [Dispatch] does the same with what all domains share.
    Integers are [Z] wrapped at their C width where the code computes, doubles
    are binary64, byte arrays are lists of octets.  Frames given to the driver and
    records given to the database are kept in the order of the calls.

    What lies outside the source is a class, over which the theorems are
    quantified: [Config], [ServoConfig], [ManConfig] and [Gptpgcfg] (items of the
    configuration database), [WireConfig] and [Media] (the driver, the hardware
    clock's timestamps, the random number), [PtpDev] (clock devices and system
    clocks), [PerfDb] (the answer to performance records), [HostOrder] (the
    reading of eight octets in the host's order), [Startup] (the array of network
    devices, the items read at the start, mktime), [Pool] (the size of a memory
    pool), [Platform] and [Conversions]
    (the value of [1u << n] for [n >= 32] and of a conversion of a double that
    does not fit, both undefined in C).  Log output is left out.

    ** What the theorems show

    - The choice of the grandmaster.  Priority vectors are totally ordered by the
      comparison; the grandmaster chosen is the best candidate; exactly one port
      is slave; an announce is taken exactly if it qualifies; superior information
      is recorded and asks for reselection.  The do-while of sm_bmcs_perform ends.
    - Announces leave only selected master ports, say what was selected, and on
      the wire arrive as they were sent, whatever the receive buffer holds (but
      for the one without a path that an Avnu-conformant instance sends); the
      same for signaling messages, and a received one is classified by its TLV.
    - The way of time.  A Sync is handed on only with its own Follow_Up, relayed
      only for the slave port of a present grandmaster, sent only by master ports
      and as received, and a Sync given to the driver and its Follow_Up come out
      of the receiver as what the sender was given.  The Sync of the slave port
      sets the time of the domain to that of the grandmaster, which is what
      applications read, when the servo takes the offset over as it is: the
      theorem lists the conditions, and offsets that are filtered or left to the
      rate are not in it.  The rate stays within its limit.  A grandmaster keeps
      sending the time of its own domain, neither too rarely nor too often.
    - The link.  The delay computed is that of a symmetric link and its judgement
      is that of the threshold; a port is asCapable exactly if its link was
      measured and the neighbour is known to be capable, in every domain at once,
      and loses it with the link.
    - The start.  With clock indices that are those of ports the start of an
      instance uses no network device that is not there, and leaves every domain
      with machines the best-master algorithm can be run on; with another index it
      does not succeed, and a second domain must have the number 1.
    - The clocks.  The operations touch no memory but the entities'; the machines
      using them never crash; a time that is set is the time that is read; and the
      array of entities refines the status interface of [Clock] that the other
      machines were proved against.
    - The base library.  The list operations implement insertion, removal and
      sorting of a sequence; a memory pool is a heap of separate blocks, which
      refuses a request only when no free run is long enough; an expanding array on
      any such heap is a list.
    - Every machine's evaluation ends ([Machines]): the fuel of each machine
      exceeds the rank of its states, so that [<name>_sm] is the result of the loop
      and not a cut-off.  The exceptions are theorems too: the announce transmitter
      needs a positive interval, without which it never returns, and
      PortStateSettingExt never returns when it is disabled from outside.
      The do-while of sm_bmcs_perform has fuel 3, and [BestMaster] shows that it
      takes at most three turns when no slave port is configured statically and
      INITIAL_SLAVE_TIME is 0.

    ** What is not modelled

    Closing, which frees memory; the event loop and hardware access (tilld),
    whose answers are parameters; the configuration database (uniconf and
    the generated access code), whose items are the fields of the configuration
    classes; the memory and mutex handling of the shared memory, the IPC between
    processes and the tools; the test hooks of md_abnormal_hooks.c; the NETCONF
    server and the other base libraries, which do not take part in the protocol. *)

(** ** Prelude: notations, automation and generic lemmas shared by every file

    - record update [r <| f := v |>] and [r <| f ; g := v |>] (a C store through
      a struct member and through a pointer member of a struct);
    - the machine widths the stack uses, as wrapped [Z]s;
    - byte blocks: [memcpy] into the middle of an array, big-endian fields;
    - the tactics and the hint database of the development. *)

From stdpp Require Export base option list numbers.
From Stdlib Require Export ZArith Lia Bool.

#[export] Set Default Proof Using "Type".

Declare Scope gptp_scope.
Delimit Scope gptp_scope with gptp.
Open Scope Z_scope.
Open Scope gptp_scope.

(** ** Record update *)

(** The reader-style expansion of a record into its constructor applied to its
    projections; one instance per struct of the model. *)
Class Eta (R : Type) := eta : R -> R.

Definition eta_ap {R A B : Type} (g : R -> A -> B) (f : R -> A) : R -> B :=
  fun r => g r (f r).

Notation "'fields!' mk [ f1 , .. , fn ]" :=
  (eta_ap .. (eta_ap (fun _ => mk) f1) .. fn)
  (at level 0, mk at level 0, f1 at level 9, fn at level 9, only parsing).

Class Upd {R T : Type} (f : R -> T) := upd : (T -> T) -> R -> R.

Ltac derive_upd R T f :=
  let inst := constr:(_ : Eta R) in
  let e := eval hnf in inst in
  exact (fun (u : T -> T) (r : R) => ltac:(
    let b := eval cbv beta delta [eta_ap] in (e r) in
    match b with
    | context C [f r] => let b' := context C [u (f r)] in exact b'
    end)).

#[export] Hint Extern 1 (@Upd ?R ?T ?f) => derive_upd R T f : typeclass_instances.

#[warnings="-postfix-notation-not-level-1"]
Notation "r <| f := v |>" := (upd (f := f) (fun _ => v) r)
  (at level 12, f at level 9, v at level 200, left associativity) : gptp_scope.
#[warnings="-postfix-notation-not-level-1"]
Notation "r <| f ; g := v |>" :=
  (upd (f := f) (fun s => upd (f := g) (fun _ => v) s) r)
  (at level 12, f at level 9, g at level 9, v at level 200, left associativity) : gptp_scope.
#[warnings="-postfix-notation-not-level-1"]
Notation "r <| f ; g ; h := v |>" :=
  (upd (f := f) (fun s => upd (f := g) (fun t => upd (f := h) (fun _ => v) t) s) r)
  (at level 12, f at level 9, g at level 9, h at level 9, v at level 200,
   left associativity) : gptp_scope.
#[warnings="-postfix-notation-not-level-1"]
Notation "r <| f ::= u |>" := (upd (f := f) u r)
  (at level 12, f at level 9, u at level 200, left associativity) : gptp_scope.
#[warnings="-postfix-notation-not-level-1"]
Notation "r <| f ; g ::= u |>" :=
  (upd (f := f) (fun s => upd (f := g) u s) r)
  (at level 12, f at level 9, g at level 9, u at level 200, left associativity) : gptp_scope.

(** ** Machine integers *)

Definition wrap (w z : Z) : Z := z mod 2 ^ w.
Definition swrap (w z : Z) : Z := (z + 2 ^ (w - 1)) mod 2 ^ w - 2 ^ (w - 1).
Abbreviation u8 := (wrap 8).
Abbreviation u16 := (wrap 16).
Abbreviation u32 := (wrap 32).
Abbreviation u64 := (wrap 64).
Abbreviation i8 := (swrap 8).
Abbreviation i16 := (swrap 16).
Abbreviation i32 := (swrap 32).
Abbreviation i64 := (swrap 64).

Definition fits (w z : Z) : Prop := 0 <= z < 2 ^ w.
Definition sfits (w z : Z) : Prop := - 2 ^ (w - 1) <= z < 2 ^ (w - 1).

Lemma wrap_fits w z : 0 <= w -> fits w (wrap w z).
Proof. intros. apply Z.mod_pos_bound, Z.pow_pos_nonneg; lia. Qed.

Lemma wrap_id w z : fits w z -> wrap w z = z.
Proof. intros. by apply Z.mod_small. Qed.

Lemma swrap_id w z : 0 < w -> sfits w z -> swrap w z = z.
Proof.
  unfold swrap, sfits. intros Hw H.
  assert (2 ^ w = 2 * 2 ^ (w - 1)) by (rewrite <- Z.pow_succ_r by lia; f_equal; lia).
  rewrite Z.mod_small; lia.
Qed.

Lemma swrap_wrap w z : 0 < w -> swrap w (wrap w z) = swrap w z.
Proof.
  intros. unfold swrap, wrap.
  assert (0 < 2 ^ w) by (apply Z.pow_pos_nonneg; lia).
  by rewrite Zplus_mod_idemp_l.
Qed.

Lemma swrap_fits w z : 0 < w -> sfits w (swrap w z).
Proof.
  intros Hw. unfold swrap, sfits.
  assert (2 ^ w = 2 * 2 ^ (w - 1)) by (rewrite <- Z.pow_succ_r by lia; f_equal; lia).
  assert (0 < 2 ^ (w - 1)) by (apply Z.pow_pos_nonneg; lia).
  pose proof (Z.mod_pos_bound (z + 2 ^ (w - 1)) (2 ^ w)). lia.
Qed.

Lemma wrap_swrap w z : 0 < w -> wrap w (swrap w z) = wrap w z.
Proof.
  intros Hw. unfold swrap, wrap. rewrite Zminus_mod_idemp_l. f_equal. lia.
Qed.

Lemma swrap_eq_mod w a b : a mod 2 ^ w = b mod 2 ^ w -> swrap w a = swrap w b.
Proof.
  intros H. unfold swrap. f_equal. rewrite <- (Zplus_mod_idemp_l a), H. apply Zplus_mod_idemp_l.
Qed.

Lemma swrap_mod w a : swrap w a mod 2 ^ w = a mod 2 ^ w.
Proof. unfold swrap. rewrite Zminus_mod_idemp_l. f_equal. lia. Qed.

Lemma swrap_add_l w a b : swrap w (swrap w a + b) = swrap w (a + b).
Proof. apply swrap_eq_mod. by rewrite <- Zplus_mod_idemp_l, swrap_mod, Zplus_mod_idemp_l. Qed.

Lemma swrap_add_r w a b : swrap w (a + swrap w b) = swrap w (a + b).
Proof. by rewrite Z.add_comm, swrap_add_l, Z.add_comm. Qed.

Lemma swrap_sub_l w a b : swrap w (swrap w a - b) = swrap w (a - b).
Proof. apply swrap_add_l. Qed.

Lemma swrap_swrap w a : swrap w (swrap w a) = swrap w a.
Proof. apply swrap_eq_mod, swrap_mod. Qed.

(** ** Byte blocks *)

Definition is_byte (b : Z) : Prop := fits 8 b.
Abbreviation bytes := (Forall is_byte).

(** [memcpy(&dst[off], src, length src)]; a copy that runs past the end of [dst]
    makes the block longer, which the bounds theorems rule out or exhibit. *)
Definition memcpy_at (off : nat) (src dst : list Z) : list Z :=
  take off dst ++ src ++ drop (off + length src) dst.

Lemma memcpy_at_length off src dst :
  (off + length src <= length dst)%nat -> length (memcpy_at off src dst) = length dst.
Proof. intros. unfold memcpy_at. rewrite !length_app, length_take, length_drop. lia. Qed.

Lemma memcpy_at_read off src dst :
  (off <= length dst)%nat -> take (length src) (drop off (memcpy_at off src dst)) = src.
Proof.
  intros. unfold memcpy_at.
  rewrite drop_app_length' by (rewrite length_take; lia).
  by rewrite take_app_length.
Qed.

(** an array member: [a[i]] and [a[i] = v] for an index inside the array *)
Definition aget {A : Type} (d : A) (l : list A) (i : Z) : A := nth (Z.to_nat i) l d.
Definition aset {A : Type} (l : list A) (i : Z) (v : A) : list A := <[Z.to_nat i := v]> l.

#[global] Arguments aget : simpl never.
#[global] Arguments aset : simpl never.

Definition in_array {A : Type} (l : list A) (i : Z) : Prop := 0 <= i < Z.of_nat (length l).

Lemma aset_length {A} (l : list A) i v : length (aset l i v) = length l.
Proof. apply length_insert. Qed.

Lemma aget_aset_eq {A} (d : A) l i v : in_array l i -> aget d (aset l i v) i = v.
Proof.
  unfold in_array, aget, aset. intros. rewrite nth_lookup, list_lookup_insert_eq by lia. done.
Qed.

Lemma aget_aset_ne {A} (d : A) l i j v :
  0 <= i -> 0 <= j -> i <> j -> aget d (aset l i v) j = aget d l j.
Proof.
  unfold aget, aset. intros. rewrite !nth_lookup, list_lookup_insert_ne by lia. done.
Qed.

(** big-endian fields: [htons]/[htonl]/[UB_HTONLL] followed by [memcpy] *)
Fixpoint be_bytes (n : nat) (z : Z) : list Z :=
  match n with
  | O => []
  | S k => u8 (Z.shiftr z (8 * Z.of_nat k)) :: be_bytes k z
  end.

Definition be_val (l : list Z) : Z := fold_left (fun acc b => acc * 256 + b) l 0.

Lemma be_bytes_length n z : length (be_bytes n z) = n.
Proof. induction n; simpl; auto. Qed.

Lemma be_bytes_bytes n z : bytes (be_bytes n z).
Proof. induction n; simpl; constructor; auto. by apply wrap_fits. Qed.

Lemma be_val_shift l acc :
  fold_left (fun acc b => acc * 256 + b) l acc = acc * 256 ^ Z.of_nat (length l) + be_val l.
Proof.
  unfold be_val. revert acc. induction l as [|b l IH]; intros acc.
  - cbn. lia.
  - cbn [fold_left length]. rewrite IH, (IH (0 * 256 + b)).
    rewrite Nat2Z.inj_succ, Z.pow_succ_r by lia. lia.
Qed.

Lemma be_val_cons b l : be_val (b :: l) = b * 256 ^ Z.of_nat (length l) + be_val l.
Proof. unfold be_val at 1. cbn [fold_left]. rewrite be_val_shift. lia. Qed.

(** parse of a printed field is the field, modulo its width *)
Lemma be_val_be_bytes n z : be_val (be_bytes n z) = z mod 256 ^ Z.of_nat n.
Proof.
  induction n as [|n IH].
  - cbn. by rewrite Z.mod_1_r.
  - cbn [be_bytes]. rewrite be_val_cons, be_bytes_length, IH.
    rewrite Nat2Z.inj_succ, Z.pow_succ_r by lia.
    rewrite Z.shiftr_div_pow2 by lia.
    replace (2 ^ (8 * Z.of_nat n)) with (256 ^ Z.of_nat n)
      by (change 256 with (2 ^ 8); rewrite <- Z.pow_mul_r by lia; done).
    assert (0 < 256 ^ Z.of_nat n) by (apply Z.pow_pos_nonneg; lia).
    unfold wrap. change (2 ^ 8) with 256.
    rewrite (Z.mul_comm 256), Z.rem_mul_r by lia. lia.
Qed.

Lemma be_val_bound l : bytes l -> 0 <= be_val l < 256 ^ Z.of_nat (length l).
Proof.
  induction 1 as [|b l Hb _ IH]; [cbn; lia|].
  rewrite be_val_cons. cbn [length]. rewrite Nat2Z.inj_succ, Z.pow_succ_r by lia.
  unfold is_byte, fits in Hb. change (2 ^ 8) with 256 in Hb. nia.
Qed.

(** print of a parsed field is the field's bytes *)
Lemma be_bytes_be_val l : bytes l -> be_bytes (length l) (be_val l) = l.
Proof.
  induction 1 as [|b l Hb Hl IH]; [done|]. cbn [length be_bytes].
  pose proof (be_val_bound _ Hl) as Hv.
  assert (E : forall n z, be_bytes n (z mod 256 ^ Z.of_nat n) = be_bytes n z).
  { clear. assert (G : forall n m z, (n <= m)%nat ->
      be_bytes n (z mod 256 ^ Z.of_nat m) = be_bytes n z).
    { induction n as [|n IH]; intros m z Hm; [done|]. cbn [be_bytes].
      rewrite IH by lia. f_equal. unfold wrap.
      change 256 with (2 ^ 8). rewrite <- Z.pow_mul_r by lia.
      rewrite <- !Z.land_ones by lia. apply Z.bits_inj'. intros k Hk.
      rewrite !Z.land_spec, !Z.shiftr_spec, Z.land_spec by lia.
      destruct (Z.testbit (Z.ones 8) k) eqn:T; [|by rewrite !andb_false_r].
      rewrite Z.testbit_ones_nonneg in T by lia. apply Z.ltb_lt in T.
      rewrite (Z.testbit_ones_nonneg (8 * Z.of_nat m)) by lia.
      rewrite (proj2 (Z.ltb_lt _ _)) by lia. by rewrite andb_true_r. }
    intros. by apply G. }
  f_equal.
  - rewrite be_val_cons, Z.shiftr_div_pow2 by lia.
    replace (2 ^ (8 * Z.of_nat (length l))) with (256 ^ Z.of_nat (length l))
      by (change 256 with (2 ^ 8); rewrite <- Z.pow_mul_r by lia; done).
    rewrite Z.div_add_l by lia. rewrite Z.div_small by lia. rewrite Z.add_0_r.
    by apply wrap_id.
  - rewrite <- E, be_val_cons, Z.add_comm, Z.mod_add, E by lia. exact IH.
Qed.

(** ** Automation *)

(** case analysis on the conditions a handler tests, innermost first *)
Ltac destruct_cond :=
  match goal with
  | |- context [if ?c then _ else _] =>
      lazymatch c with
      | context [if _ then _ else _] => fail
      | _ => let E := fresh "Hc" in destruct c eqn:E
      end
  end.

Ltac destruct_cond_in H :=
  match type of H with
  | context [if ?c then _ else _] =>
      lazymatch c with
      | context [if _ then _ else _] => fail
      | _ => let E := fresh "Hc" in destruct c eqn:E
      end
  end.

(** boolean conjunctions and disjunctions of the guards, as hypotheses *)
Ltac bool_hyps :=
  repeat match goal with
  | H : _ && _ = true |- _ => apply andb_true_iff in H; destruct H
  | H : _ || _ = false |- _ => apply orb_false_iff in H; destruct H
  | H : negb _ = true |- _ => apply negb_true_iff in H
  | H : negb _ = false |- _ => apply negb_false_iff in H
  | H : bool_decide _ = true |- _ => apply bool_decide_eq_true in H
  | H : bool_decide _ = false |- _ => apply bool_decide_eq_false in H
  | H : (_ =? _) = true |- _ => apply Z.eqb_eq in H
  | H : (_ =? _) = false |- _ => apply Z.eqb_neq in H
  | H : (_ <? _) = true |- _ => apply Z.ltb_lt in H
  | H : (_ <? _) = false |- _ => apply Z.ltb_ge in H
  | H : (_ <=? _) = true |- _ => apply Z.leb_le in H
  | H : (_ <=? _) = false |- _ => apply Z.leb_gt in H
  end.

Create HintDb gptp.
Create Rewrite HintDb gptp.
#[export] Hint Resolve wrap_fits be_bytes_bytes : gptp.
#[export] Hint Rewrite @aset_length be_bytes_length memcpy_at_length wrap_id using (auto with gptp; lia) : gptp.
