(* ===== verification/Types.v ===== *)
(** * Types: the structs of gptpbasetypes.h, mind.h and mdeth.h.

    One record per C struct, in a module of the struct's name, with the
    struct's member names.  Conventions: integers are [Z], a byte array
    ([ClockIdentity], [OctetN], [pathTrace]) is the [list Z] of its bytes, an
    array of flags or states is a [list]; [double] is the binary64 [spec_float].
    A pointer that always designates a live struct of the same port or domain is
    inlined as that struct; a nullable pointer is an [option] of the pointee.
    [zero] is what [memset(p, 0, sizeof *p)] leaves. *)

From S2P Require Import Prelude.
From Stdlib Require Import SpecFloat.

Definition XL4_DATA_ABS_MAX_NETDEVS : nat := 16.
Definition MAX_PATH_TRACE_N : nat := 179.
Definition CLOCK_IDENTITY_LENGTH : nat := 8.

(** binary64 with the operations the stack uses *)
Abbreviation double := spec_float.
Definition d0 : double := S754_zero false.
Definition d1 : double := SFone 53 1024.
Definition dadd : double -> double -> double := SFadd 53 1024.
Definition dsub : double -> double -> double := SFsub 53 1024.

(** [memset(p, 0, sizeof *p)] *)
Class Zero (T : Type) := zero : T.

(** ** gptpbasetypes.h *)

Module PortId.

Record PortIdentity := mk {
  clockIdentity : list Z;
  portIndex : Z
}.
#[export] Instance eta_PortIdentity : Eta PortIdentity :=
  fields! mk [clockIdentity, portIndex].
#[export] Instance zero_PortIdentity : Zero PortIdentity :=
  mk (replicate 8 0) 0.
#[export] Instance eqdec_PortIdentity : EqDecision PortIdentity.
Proof. solve_decision. Defined.

End PortId.
Export (hints) PortId.
Abbreviation PortIdentity := PortId.PortIdentity.

Module ClkQ.

Record ClockQuality := mk {
  clockClass : Z;
  clockAccuracy : Z;
  offsetScaledLogVariance : Z
}.
#[export] Instance eta_ClockQuality : Eta ClockQuality :=
  fields! mk [clockClass, clockAccuracy, offsetScaledLogVariance].
#[export] Instance zero_ClockQuality : Zero ClockQuality :=
  mk 0 0 0.
#[export] Instance eqdec_ClockQuality : EqDecision ClockQuality.
Proof. solve_decision. Defined.

End ClkQ.
Export (hints) ClkQ.
Abbreviation ClockQuality := ClkQ.ClockQuality.

Module U48.

Record UInteger48 := mk {
  lsb : Z;
  msb : Z
}.
#[export] Instance eta_UInteger48 : Eta UInteger48 :=
  fields! mk [lsb, msb].
#[export] Instance zero_UInteger48 : Zero UInteger48 :=
  mk 0 0.
#[export] Instance eqdec_UInteger48 : EqDecision UInteger48.
Proof. solve_decision. Defined.

End U48.
Export (hints) U48.
Abbreviation UInteger48 := U48.UInteger48.

Module U48m32.

Record UInteger48m32 := mk {
  lsb : Z;
  msb : Z
}.
#[export] Instance eta_UInteger48m32 : Eta UInteger48m32 :=
  fields! mk [lsb, msb].
#[export] Instance zero_UInteger48m32 : Zero UInteger48m32 :=
  mk 0 0.

End U48m32.
Export (hints) U48m32.
Abbreviation UInteger48m32 := U48m32.UInteger48m32.

Module U112.

Record UInteger112 := mk {
  priority1 : Z;
  clockClass : Z;
  clockAccuracy : Z;
  offsetScaledLogVariance : Z;
  priority2 : Z;
  clockIdentity : list Z
}.
#[export] Instance eta_UInteger112 : Eta UInteger112 :=
  fields! mk [priority1, clockClass, clockAccuracy, offsetScaledLogVariance, priority2, clockIdentity].
#[export] Instance zero_UInteger112 : Zero UInteger112 :=
  mk 0 0 0 0 0 (replicate 8 0).
#[export] Instance eqdec_UInteger112 : EqDecision UInteger112.
Proof. solve_decision. Defined.

End U112.
Export (hints) U112.
Abbreviation UInteger112 := U112.UInteger112.

Module U224.

Record UInteger224 := mk {
  rootSystemIdentity : UInteger112;
  stepsRemoved : Z;
  sourcePortIdentity : PortIdentity;
  portNumber : Z
}.
#[export] Instance eta_UInteger224 : Eta UInteger224 :=
  fields! mk [rootSystemIdentity, stepsRemoved, sourcePortIdentity, portNumber].
#[export] Instance zero_UInteger224 : Zero UInteger224 :=
  mk zero 0 zero 0.
#[export] Instance eqdec_UInteger224 : EqDecision UInteger224.
Proof. solve_decision. Defined.

End U224.
Export (hints) U224.
Abbreviation UInteger224 := U224.UInteger224.

Module SNs.

Record ScaledNs := mk {
  subns : Z;
  nsec : Z;
  nsec_msb : Z
}.
#[export] Instance eta_ScaledNs : Eta ScaledNs :=
  fields! mk [subns, nsec, nsec_msb].
#[export] Instance zero_ScaledNs : Zero ScaledNs :=
  mk 0 0 0.
#[export] Instance eqdec_ScaledNs : EqDecision ScaledNs.
Proof. solve_decision. Defined.

End SNs.
Export (hints) SNs.
Abbreviation ScaledNs := SNs.ScaledNs.

Module UNs.

Record UScaledNs := mk {
  subns : Z;
  nsec : Z;
  nsec_msb : Z
}.
#[export] Instance eta_UScaledNs : Eta UScaledNs :=
  fields! mk [subns, nsec, nsec_msb].
#[export] Instance zero_UScaledNs : Zero UScaledNs :=
  mk 0 0 0.
#[export] Instance eqdec_UScaledNs : EqDecision UScaledNs.
Proof. solve_decision. Defined.

End UNs.
Export (hints) UNs.
Abbreviation UScaledNs := UNs.UScaledNs.

Module TIv.

Record TimeInterval := mk {
  scaledNanoseconds : Z
}.
#[export] Instance eta_TimeInterval : Eta TimeInterval :=
  fields! mk [scaledNanoseconds].
#[export] Instance zero_TimeInterval : Zero TimeInterval :=
  mk 0.

End TIv.
Export (hints) TIv.
Abbreviation TimeInterval := TIv.TimeInterval.

Module Tstamp.

Record Timestamp := mk {
  nanoseconds : Z;
  seconds : UInteger48
}.
#[export] Instance eta_Timestamp : Eta Timestamp :=
  fields! mk [nanoseconds, seconds].
#[export] Instance zero_Timestamp : Zero Timestamp :=
  mk 0 zero.
#[export] Instance eqdec_Timestamp : EqDecision Timestamp.
Proof. solve_decision. Defined.

End Tstamp.
Export (hints) Tstamp.
Abbreviation Timestamp := Tstamp.Timestamp.

Module ExtTs.

Record ExtendedTimestamp := mk {
  fractionalNanoseconds : UInteger48m32;
  seconds : UInteger48
}.
#[export] Instance eta_ExtendedTimestamp : Eta ExtendedTimestamp :=
  fields! mk [fractionalNanoseconds, seconds].
#[export] Instance zero_ExtendedTimestamp : Zero ExtendedTimestamp :=
  mk zero zero.

End ExtTs.
Export (hints) ExtTs.
Abbreviation ExtendedTimestamp := ExtTs.ExtendedTimestamp.

(** ** mind.h *)

Module PortDR.

Record PortPerfMonDataRecord := mk {
  announceTx : Z;
  announceRx : Z;
  announceForeignMasterRx : Z;
  syncTx : Z;
  syncRx : Z;
  followUpTx : Z;
  followUpRx : Z;
  delayReqTx : Z;
  delayReqRx : Z;
  delayRespTx : Z;
  delayRespRx : Z;
  pDelayReqTx : Z;
  pDelayReqRx : Z;
  pDelayRespTx : Z;
  pDelayRespRx : Z;
  pDelayRespFollowUpTx : Z;
  pDelayRespFollowUpRx : Z
}.
#[export] Instance eta_PortPerfMonDataRecord : Eta PortPerfMonDataRecord :=
  fields! mk [announceTx, announceRx, announceForeignMasterRx, syncTx, syncRx, followUpTx, followUpRx, delayReqTx, delayReqRx, delayRespTx, delayRespRx, pDelayReqTx, pDelayReqRx, pDelayRespTx, pDelayRespRx, pDelayRespFollowUpTx, pDelayRespFollowUpRx].
#[export] Instance zero_PortPerfMonDataRecord : Zero PortPerfMonDataRecord :=
  mk 0 0 0 0 0 0 0 0 0 0 0 0 0 0 0 0 0.

End PortDR.
Export (hints) PortDR.
Abbreviation PortPerfMonDataRecord := PortDR.PortPerfMonDataRecord.

Module SigDR.

Record PortPerfMonSignalingDataRecord := mk {
  msgIntervalTx : Z;
  msgIntervalRx : Z;
  asCapableTx : Z;
  asCapableRx : Z;
  signalingRx : Z
}.
#[export] Instance eta_PortPerfMonSignalingDataRecord : Eta PortPerfMonSignalingDataRecord :=
  fields! mk [msgIntervalTx, msgIntervalRx, asCapableTx, asCapableRx, signalingRx].
#[export] Instance zero_PortPerfMonSignalingDataRecord : Zero PortPerfMonSignalingDataRecord :=
  mk 0 0 0 0 0.

End SigDR.
Export (hints) SigDR.
Abbreviation PortPerfMonSignalingDataRecord := SigDR.PortPerfMonSignalingDataRecord.

Module AncDR.

Record PerfMonAncillaryDataRecord := mk {
  N : Z;
  prev_M : Z;
  M : Z;
  prev_V : Z;
  V : Z
}.
#[export] Instance eta_PerfMonAncillaryDataRecord : Eta PerfMonAncillaryDataRecord :=
  fields! mk [N, prev_M, M, prev_V, V].
#[export] Instance zero_PerfMonAncillaryDataRecord : Zero PerfMonAncillaryDataRecord :=
  mk 0 0 0 0 0.

End AncDR.
Export (hints) AncDR.
Abbreviation PerfMonAncillaryDataRecord := AncDR.PerfMonAncillaryDataRecord.

Module PdelayDR.

Record PortPerfMonPeerDelayDataRecord := mk {
  averageMeanLinkDelay : TimeInterval;
  minMeanLinkDelay : TimeInterval;
  maxMeanLinkDelay : TimeInterval;
  stdDevMeanLinkDelay : TimeInterval;
  meanLinkDelay : PerfMonAncillaryDataRecord
}.
#[export] Instance eta_PortPerfMonPeerDelayDataRecord : Eta PortPerfMonPeerDelayDataRecord :=
  fields! mk [averageMeanLinkDelay, minMeanLinkDelay, maxMeanLinkDelay, stdDevMeanLinkDelay, meanLinkDelay].
#[export] Instance zero_PortPerfMonPeerDelayDataRecord : Zero PortPerfMonPeerDelayDataRecord :=
  mk zero zero zero zero zero.

End PdelayDR.
Export (hints) PdelayDR.
Abbreviation PortPerfMonPeerDelayDataRecord := PdelayDR.PortPerfMonPeerDelayDataRecord.

Module PortDS.

Record PerfMonPortDS := mk {
  lastUpdate : list Z;
  index : list Z;
  PMTime : list Z;
  pdelayDR : list PortPerfMonPeerDelayDataRecord;
  portDR : list PortPerfMonDataRecord;
  signalingDR : list PortPerfMonSignalingDataRecord
}.
#[export] Instance eta_PerfMonPortDS : Eta PerfMonPortDS :=
  fields! mk [lastUpdate, index, PMTime, pdelayDR, portDR, signalingDR].
#[export] Instance zero_PerfMonPortDS : Zero PerfMonPortDS :=
  mk (replicate 2 0) (replicate 2 0) (replicate 2 0) (replicate 2 zero) (replicate 2 zero) (replicate 2 zero).

End PortDS.
Export (hints) PortDS.
Abbreviation PerfMonPortDS := PortDS.PerfMonPortDS.

Module ClockDR.

Record ClockPerfMonDataRecord := mk {
  measurementValid : bool;
  periodComplete : bool;
  averageMasterSlaveDelay : TimeInterval;
  minMasterSlaveDelay : TimeInterval;
  maxMasterSlaveDelay : TimeInterval;
  stdDevMasterSlaveDelay : TimeInterval;
  averageSlaveMasterDelay : TimeInterval;
  minSlaveMasterDelay : TimeInterval;
  maxSlaveMasterDelay : TimeInterval;
  stdDevSlaveMasterDelay : TimeInterval;
  averageMeanPathDelay : TimeInterval;
  minMeanPathDelay : TimeInterval;
  maxMeanPathDelay : TimeInterval;
  stdDevMeanPathDelay : TimeInterval;
  averageOffsetFromMaster : TimeInterval;
  minOffsetFromMaster : TimeInterval;
  maxOffsetFromMaster : TimeInterval;
  stdDevOffsetFromMaster : TimeInterval;
  masterSlaveDelay : PerfMonAncillaryDataRecord;
  slaveMasterDelay : PerfMonAncillaryDataRecord;
  meanPathDelay : PerfMonAncillaryDataRecord;
  offsetFromMaster : PerfMonAncillaryDataRecord
}.
#[export] Instance eta_ClockPerfMonDataRecord : Eta ClockPerfMonDataRecord :=
  fields! mk [measurementValid, periodComplete, averageMasterSlaveDelay, minMasterSlaveDelay, maxMasterSlaveDelay, stdDevMasterSlaveDelay, averageSlaveMasterDelay, minSlaveMasterDelay, maxSlaveMasterDelay, stdDevSlaveMasterDelay, averageMeanPathDelay, minMeanPathDelay, maxMeanPathDelay, stdDevMeanPathDelay, averageOffsetFromMaster, minOffsetFromMaster, maxOffsetFromMaster, stdDevOffsetFromMaster, masterSlaveDelay, slaveMasterDelay, meanPathDelay, offsetFromMaster].
#[export] Instance zero_ClockPerfMonDataRecord : Zero ClockPerfMonDataRecord :=
  mk false false zero zero zero zero zero zero zero zero zero zero zero zero zero zero zero zero zero zero zero zero.

End ClockDR.
Export (hints) ClockDR.
Abbreviation ClockPerfMonDataRecord := ClockDR.ClockPerfMonDataRecord.

Module ClockDS.

Record PerfMonClockDS := mk {
  lastUpdate : list Z;
  index : list Z;
  PMTime : list Z;
  clockDR : list ClockPerfMonDataRecord
}.
#[export] Instance eta_PerfMonClockDS : Eta PerfMonClockDS :=
  fields! mk [lastUpdate, index, PMTime, clockDR].
#[export] Instance zero_PerfMonClockDS : Zero PerfMonClockDS :=
  mk (replicate 2 0) (replicate 2 0) (replicate 2 0) (replicate 2 zero).

End ClockDS.
Export (hints) ClockDS.
Abbreviation PerfMonClockDS := ClockDS.PerfMonClockDS.

Module MDSS.

Record MDSyncSend := mk {
  domainIndex : Z;
  followUpCorrectionField : ScaledNs;
  sourcePortIdentity : PortIdentity;
  logMessageInterval : Z;
  preciseOriginTimestamp : Timestamp;
  upstreamTxTime : UScaledNs;
  rateRatio : double;
  gmTimeBaseIndicator : Z;
  lastGmPhaseChange : ScaledNs;
  lastGmFreqChange : double
}.
#[export] Instance eta_MDSyncSend : Eta MDSyncSend :=
  fields! mk [domainIndex, followUpCorrectionField, sourcePortIdentity, logMessageInterval, preciseOriginTimestamp, upstreamTxTime, rateRatio, gmTimeBaseIndicator, lastGmPhaseChange, lastGmFreqChange].
#[export] Instance zero_MDSyncSend : Zero MDSyncSend :=
  mk 0 zero zero 0 zero zero d0 0 zero d0.

End MDSS.
Export (hints) MDSS.
Abbreviation MDSyncSend := MDSS.MDSyncSend.

Module MDSR.

Record MDSyncReceive := mk {
  domainIndex : Z;
  followUpCorrectionField : ScaledNs;
  sourcePortIdentity : PortIdentity;
  logMessageInterval : Z;
  preciseOriginTimestamp : Timestamp;
  upstreamTxTime : UScaledNs;
  rateRatio : double;
  gmTimeBaseIndicator : Z;
  lastGmPhaseChange : ScaledNs;
  lastGmFreqChange : double;
  seqid : Z
}.
#[export] Instance eta_MDSyncReceive : Eta MDSyncReceive :=
  fields! mk [domainIndex, followUpCorrectionField, sourcePortIdentity, logMessageInterval, preciseOriginTimestamp, upstreamTxTime, rateRatio, gmTimeBaseIndicator, lastGmPhaseChange, lastGmFreqChange, seqid].
#[export] Instance zero_MDSyncReceive : Zero MDSyncReceive :=
  mk 0 zero zero 0 zero zero d0 0 zero d0 0.

End MDSR.
Export (hints) MDSR.
Abbreviation MDSyncReceive := MDSR.MDSyncReceive.

Module PSync.

Record PortSyncSync := mk {
  domainIndex : Z;
  localPortIndex : Z;
  syncReceiptTimeoutTime : UScaledNs;
  followUpCorrectionField : ScaledNs;
  sourcePortIdentity : PortIdentity;
  logMessageInterval : Z;
  preciseOriginTimestamp : Timestamp;
  upstreamTxTime : UScaledNs;
  rateRatio : double;
  gmTimeBaseIndicator : Z;
  lastGmPhaseChange : ScaledNs;
  lastGmFreqChange : double;
  syncNextSendTimeoutTime : UScaledNs;
  lastSyncSeqID : Z;
  local_ppg : option Z
}.
#[export] Instance eta_PortSyncSync : Eta PortSyncSync :=
  fields! mk [domainIndex, localPortIndex, syncReceiptTimeoutTime, followUpCorrectionField, sourcePortIdentity, logMessageInterval, preciseOriginTimestamp, upstreamTxTime, rateRatio, gmTimeBaseIndicator, lastGmPhaseChange, lastGmFreqChange, syncNextSendTimeoutTime, lastSyncSeqID, local_ppg].
#[export] Instance zero_PortSyncSync : Zero PortSyncSync :=
  mk 0 0 zero zero zero 0 zero zero d0 0 zero d0 zero 0 None.

End PSync.
Export (hints) PSync.
Abbreviation PortSyncSync := PSync.PortSyncSync.

Module PTASG.

Record PerTimeAwareSystemGlobal := mk {
  BEGIN : bool;
  clockMasterSyncInterval : UScaledNs;
  clockSlaveTime : ExtendedTimestamp;
  syncReceiptTime : ExtendedTimestamp;
  syncReceiptLocalTime : UScaledNs;
  clockSourceFreqOffset : double;
  clockSourcePhaseOffset : ScaledNs;
  clockSourceTimeBaseIndicator : Z;
  clockSourceTimeBaseIndicatorOld : Z;
  clockSourceLastGmPhaseChange : ScaledNs;
  clockSourceLastGmFreqChange : double;
  gmPresent : bool;
  gmRateRatio : double;
  gmTimeBaseIndicator : Z;
  lastGmPhaseChange : ScaledNs;
  lastGmFreqChange : double;
  localClockTickInterval : TimeInterval;
  selectedState : list Z;
  thisClock : list Z;
  parentLogSyncInterval : Z;
  instanceEnable : bool;
  domainIndex : Z;
  thisClockIndex : Z;
  clockMasterLogSyncInterval : Z;
  gm_stable_initdone : bool;
  asCapableOrAll : bool;
  lastSyncSeqID : Z;
  gmIdentity : list Z;
  conformToAvnu : bool;
  gptpInstanceIndex : Z;
  perfmonClockDS : option PerfMonClockDS;
  perfmonEnable : bool;
  perfmonShortPeriod_ms : Z;
  perfmonLongPeriod_ms : Z;
  perfmonCurrentPeriod_ms : Z
}.
#[export] Instance eta_PerTimeAwareSystemGlobal : Eta PerTimeAwareSystemGlobal :=
  fields! mk [BEGIN, clockMasterSyncInterval, clockSlaveTime, syncReceiptTime, syncReceiptLocalTime, clockSourceFreqOffset, clockSourcePhaseOffset, clockSourceTimeBaseIndicator, clockSourceTimeBaseIndicatorOld, clockSourceLastGmPhaseChange, clockSourceLastGmFreqChange, gmPresent, gmRateRatio, gmTimeBaseIndicator, lastGmPhaseChange, lastGmFreqChange, localClockTickInterval, selectedState, thisClock, parentLogSyncInterval, instanceEnable, domainIndex, thisClockIndex, clockMasterLogSyncInterval, gm_stable_initdone, asCapableOrAll, lastSyncSeqID, gmIdentity, conformToAvnu, gptpInstanceIndex, perfmonClockDS, perfmonEnable, perfmonShortPeriod_ms, perfmonLongPeriod_ms, perfmonCurrentPeriod_ms].
#[export] Instance zero_PerTimeAwareSystemGlobal : Zero PerTimeAwareSystemGlobal :=
  mk false zero zero zero zero d0 zero 0 0 zero d0 false d0 0 zero d0 zero (replicate XL4_DATA_ABS_MAX_NETDEVS 0) (replicate 8 0) 0 false 0 0 0 false false 0 (replicate 8 0) false 0 None false 0 0 0.

End PTASG.
Export (hints) PTASG.
Abbreviation PerTimeAwareSystemGlobal := PTASG.PerTimeAwareSystemGlobal.

Module PPGALL.

Record PerPortGlobalForAllDomain := mk {
  asymmetryMeasurementMode : bool;
  neighborRateRatio : double;
  neighborPropDelay : UScaledNs;
  delayAsymmetry : UScaledNs;
  computeNeighborRateRatio : bool;
  computeNeighborPropDelay : bool;
  portOper : bool;
  useMgtSettableLogAnnounceInterval : bool;
  mgtSettableLogAnnounceInterval : Z;
  useMgtSettableLogPdelayReqInterval : bool;
  mgtSettableLogPdelayReqInterval : Z;
  useMgtSettableLogGptpCapableMessageInterval : bool;
  mgtSettableLogGptpCapableMessageInterval : Z
}.
#[export] Instance eta_PerPortGlobalForAllDomain : Eta PerPortGlobalForAllDomain :=
  fields! mk [asymmetryMeasurementMode, neighborRateRatio, neighborPropDelay, delayAsymmetry, computeNeighborRateRatio, computeNeighborPropDelay, portOper, useMgtSettableLogAnnounceInterval, mgtSettableLogAnnounceInterval, useMgtSettableLogPdelayReqInterval, mgtSettableLogPdelayReqInterval, useMgtSettableLogGptpCapableMessageInterval, mgtSettableLogGptpCapableMessageInterval].
#[export] Instance zero_PerPortGlobalForAllDomain : Zero PerPortGlobalForAllDomain :=
  mk false d0 zero zero false false false false 0 false 0 false 0.

End PPGALL.
Export (hints) PPGALL.
Abbreviation PerPortGlobalForAllDomain := PPGALL.PerPortGlobalForAllDomain.

Module PPG.

Record PerPortGlobal := mk {
  asCapable : bool;
  syncReceiptTimeoutTimeInterval : UScaledNs;
  currentLogSyncInterval : Z;
  initialLogSyncInterval : Z;
  syncInterval : UScaledNs;
  ptpPortEnabled : bool;
  thisPort : Z;
  syncLocked : bool;
  neighborGptpCapable : bool;
  syncSlowdown : bool;
  oldAnnounceInterval : UScaledNs;
  forAllDomain : PerPortGlobalForAllDomain;
  syncReceiptTimeout : Z;
  gPtpCapableReceiptTimeout : Z;
  useMgtSettableLogSyncInterval : bool;
  mgtSettableLogSyncInterval : Z;
  initialOneStepTxOper : bool;
  currentOneStepTxOper : bool;
  useMgtSettableOneStepTxOper : bool;
  mgtSettableOneStepTxOper : bool;
  gPtpCapableMessageSlowdown : bool;
  gPtpCapableMessageInterval : UScaledNs;
  oldGptpCapableMessageInterval : UScaledNs;
  currentLogGptpCapableMessageInterval : Z;
  initialLogGptpCapableMessageInterval : Z;
  perfmonDS : option PerfMonPortDS;
  ingressLatency : TimeInterval;
  egressLatency : TimeInterval
}.
#[export] Instance eta_PerPortGlobal : Eta PerPortGlobal :=
  fields! mk [asCapable, syncReceiptTimeoutTimeInterval, currentLogSyncInterval, initialLogSyncInterval, syncInterval, ptpPortEnabled, thisPort, syncLocked, neighborGptpCapable, syncSlowdown, oldAnnounceInterval, forAllDomain, syncReceiptTimeout, gPtpCapableReceiptTimeout, useMgtSettableLogSyncInterval, mgtSettableLogSyncInterval, initialOneStepTxOper, currentOneStepTxOper, useMgtSettableOneStepTxOper, mgtSettableOneStepTxOper, gPtpCapableMessageSlowdown, gPtpCapableMessageInterval, oldGptpCapableMessageInterval, currentLogGptpCapableMessageInterval, initialLogGptpCapableMessageInterval, perfmonDS, ingressLatency, egressLatency].
#[export] Instance zero_PerPortGlobal : Zero PerPortGlobal :=
  mk false zero 0 0 zero false 0 false false false zero zero 0 0 false 0 false false false false false zero zero 0 0 None zero zero.

End PPG.
Export (hints) PPG.
Abbreviation PerPortGlobal := PPG.PerPortGlobal.

Module Hdr.

Record PTPMsgHeader := mk {
  majorSdoId : Z;
  messageType : Z;
  minorVersionPTP : Z;
  versionPTP : Z;
  messageLength : Z;
  domainIndex : Z;
  minorSdoId : Z;
  flags : list Z;
  correctionField : Z;
  messageTypeSpecific : list Z;
  sourcePortIdentity : PortIdentity;
  sequenceId : Z;
  control : Z;
  logMessageInterval : Z
}.
#[export] Instance eta_PTPMsgHeader : Eta PTPMsgHeader :=
  fields! mk [majorSdoId, messageType, minorVersionPTP, versionPTP, messageLength, domainIndex, minorSdoId, flags, correctionField, messageTypeSpecific, sourcePortIdentity, sequenceId, control, logMessageInterval].
#[export] Instance zero_PTPMsgHeader : Zero PTPMsgHeader :=
  mk 0 0 0 0 0 0 0 (replicate 2 0) 0 (replicate 4 0) zero 0 0 0.

End Hdr.
Export (hints) Hdr.
Abbreviation PTPMsgHeader := Hdr.PTPMsgHeader.

Module Ann.

Record PTPMsgAnnounce := mk {
  header : PTPMsgHeader;
  currentUtcOffset : Z;
  grandmasterPriority1 : Z;
  grandmasterClockQuality : ClockQuality;
  grandmasterPriority2 : Z;
  grandmasterIdentity : list Z;
  stepsRemoved : Z;
  timeSource : Z;
  tlvType : Z;
  tlvLength : Z;
  pathSequence : list Z
}.
#[export] Instance eta_PTPMsgAnnounce : Eta PTPMsgAnnounce :=
  fields! mk [header, currentUtcOffset, grandmasterPriority1, grandmasterClockQuality, grandmasterPriority2, grandmasterIdentity, stepsRemoved, timeSource, tlvType, tlvLength, pathSequence].
#[export] Instance zero_PTPMsgAnnounce : Zero PTPMsgAnnounce :=
  mk zero 0 0 zero 0 (replicate 8 0) 0 0 0 0 (replicate (MAX_PATH_TRACE_N * 8) 0).

End Ann.
Export (hints) Ann.
Abbreviation PTPMsgAnnounce := Ann.PTPMsgAnnounce.

Module IvReq.

Record PTPMsgIntervalRequestTLV := mk {
  tlvType : Z;
  lengthField : Z;
  organizationId : list Z;
  organizationSubType : Z;
  linkDelayInterval : Z;
  timeSyncInterval : Z;
  announceInterval : Z;
  flags : Z
}.
#[export] Instance eta_PTPMsgIntervalRequestTLV : Eta PTPMsgIntervalRequestTLV :=
  fields! mk [tlvType, lengthField, organizationId, organizationSubType, linkDelayInterval, timeSyncInterval, announceInterval, flags].
#[export] Instance zero_PTPMsgIntervalRequestTLV : Zero PTPMsgIntervalRequestTLV :=
  mk 0 0 (replicate 3 0) 0 0 0 0 0.

End IvReq.
Export (hints) IvReq.
Abbreviation PTPMsgIntervalRequestTLV := IvReq.PTPMsgIntervalRequestTLV.

Module CapTLV.

Record PTPMsgGPTPCapableTLV := mk {
  tlvType : Z;
  lengthField : Z;
  organizationId : list Z;
  organizationSubType : Z;
  logGptpCapableMessageInterval : Z;
  flags : Z;
  reserved : list Z
}.
#[export] Instance eta_PTPMsgGPTPCapableTLV : Eta PTPMsgGPTPCapableTLV :=
  fields! mk [tlvType, lengthField, organizationId, organizationSubType, logGptpCapableMessageInterval, flags, reserved].
#[export] Instance zero_PTPMsgGPTPCapableTLV : Zero PTPMsgGPTPCapableTLV :=
  mk 0 0 (replicate 3 0) 0 0 0 (replicate 4 0).

End CapTLV.
Export (hints) CapTLV.
Abbreviation PTPMsgGPTPCapableTLV := CapTLV.PTPMsgGPTPCapableTLV.

Module CapIvReq.

Record PTPMsgGPTPCapableMsgIntervalReqTLV := mk {
  tlvType : Z;
  lengthField : Z;
  organizationId : list Z;
  organizationSubType : Z;
  logGptpCapableMessageInterval : Z;
  reserved : list Z
}.
#[export] Instance eta_PTPMsgGPTPCapableMsgIntervalReqTLV : Eta PTPMsgGPTPCapableMsgIntervalReqTLV :=
  fields! mk [tlvType, lengthField, organizationId, organizationSubType, logGptpCapableMessageInterval, reserved].
#[export] Instance zero_PTPMsgGPTPCapableMsgIntervalReqTLV : Zero PTPMsgGPTPCapableMsgIntervalReqTLV :=
  mk 0 0 (replicate 3 0) 0 0 (replicate 3 0).

End CapIvReq.
Export (hints) CapIvReq.
Abbreviation PTPMsgGPTPCapableMsgIntervalReqTLV := CapIvReq.PTPMsgGPTPCapableMsgIntervalReqTLV.

Module BPTASG.

Record BmcsPerTimeAwareSystemGlobal := mk {
  reselect : list bool;
  selected : list bool;
  masterStepsRemoved : Z;
  leap61 : bool;
  leap59 : bool;
  currentUtcOffsetValid : bool;
  ptpTimescale : bool;
  timeTraceable : bool;
  frequencyTraceable : bool;
  currentUtcOffset : Z;
  timeSource : Z;
  sysLeap61 : bool;
  sysLeap59 : bool;
  sysCurrentUTCOffsetValid : bool;
  sysPtpTimescale : bool;
  sysTimeTraceable : bool;
  sysFrequencyTraceable : bool;
  sysCurrentUtcOffset : Z;
  sysTimeSource : Z;
  systemPriority : UInteger224;
  gmPriority : UInteger224;
  lastGmPriority : UInteger224;
  pathTraceCount : Z;
  pathTrace : list Z;
  externalPortConfiguration : Z;
  lastAnnouncePort : Z;
  bmcsQuickUpdate : Z
}.
#[export] Instance eta_BmcsPerTimeAwareSystemGlobal : Eta BmcsPerTimeAwareSystemGlobal :=
  fields! mk [reselect, selected, masterStepsRemoved, leap61, leap59, currentUtcOffsetValid, ptpTimescale, timeTraceable, frequencyTraceable, currentUtcOffset, timeSource, sysLeap61, sysLeap59, sysCurrentUTCOffsetValid, sysPtpTimescale, sysTimeTraceable, sysFrequencyTraceable, sysCurrentUtcOffset, sysTimeSource, systemPriority, gmPriority, lastGmPriority, pathTraceCount, pathTrace, externalPortConfiguration, lastAnnouncePort, bmcsQuickUpdate].
#[export] Instance zero_BmcsPerTimeAwareSystemGlobal : Zero BmcsPerTimeAwareSystemGlobal :=
  mk (replicate XL4_DATA_ABS_MAX_NETDEVS false) (replicate XL4_DATA_ABS_MAX_NETDEVS false) 0 false false false false false false 0 0 false false false false false false 0 0 zero zero zero 0 (replicate (MAX_PATH_TRACE_N * 8) 0) 0 0 0.

End BPTASG.
Export (hints) BPTASG.
Abbreviation BmcsPerTimeAwareSystemGlobal := BPTASG.BmcsPerTimeAwareSystemGlobal.

Module BPPG.

Record BmcsPerPortGlobal := mk {
  announceReceiptTimeoutTimeInterval : UScaledNs;
  announceSlowdown : bool;
  oldAnnounceInterval : UScaledNs;
  infoIs : Z;
  masterPriority : UInteger224;
  currentLogAnnounceInterval : Z;
  initialLogAnnounceInterval : Z;
  announceInterval : UScaledNs;
  messageStepsRemoved : Z;
  newInfo : bool;
  portPriority : UInteger224;
  portStepsRemoved : Z;
  rcvdAnnouncePtr : option PTPMsgAnnounce;
  rcvdMsg : bool;
  updtInfo : bool;
  annLeap61 : bool;
  annLeap59 : bool;
  annCurrentUtcOffsetValid : bool;
  annPtpTimescale : bool;
  annTimeTraceable : bool;
  annFrequencyTraceable : bool;
  annCurrentUtcOffset : Z;
  annTimeSource : Z;
  annPathSequenceCount : Z;
  annPathSequence : list Z;
  announceReceiptTimeout : Z
}.
#[export] Instance eta_BmcsPerPortGlobal : Eta BmcsPerPortGlobal :=
  fields! mk [announceReceiptTimeoutTimeInterval, announceSlowdown, oldAnnounceInterval, infoIs, masterPriority, currentLogAnnounceInterval, initialLogAnnounceInterval, announceInterval, messageStepsRemoved, newInfo, portPriority, portStepsRemoved, rcvdAnnouncePtr, rcvdMsg, updtInfo, annLeap61, annLeap59, annCurrentUtcOffsetValid, annPtpTimescale, annTimeTraceable, annFrequencyTraceable, annCurrentUtcOffset, annTimeSource, annPathSequenceCount, annPathSequence, announceReceiptTimeout].
#[export] Instance zero_BmcsPerPortGlobal : Zero BmcsPerPortGlobal :=
  mk zero false zero 0 zero 0 0 zero 0 false zero 0 None false false false false false false false false 0 0 0 (replicate (MAX_PATH_TRACE_N * 8) 0) 0.

End BPPG.
Export (hints) BPPG.
Abbreviation BmcsPerPortGlobal := BPPG.BmcsPerPortGlobal.

Module SSSsm.

Record SiteSyncSyncSM := mk {
  rcvdPSSync : bool;
  rcvdPSSyncPtr : option PortSyncSync;
  txPSSyncPtrSSS : bool
}.
#[export] Instance eta_SiteSyncSyncSM : Eta SiteSyncSyncSM :=
  fields! mk [rcvdPSSync, rcvdPSSyncPtr, txPSSyncPtrSSS].
#[export] Instance zero_SiteSyncSyncSM : Zero SiteSyncSyncSM :=
  mk false None false.

End SSSsm.
Export (hints) SSSsm.
Abbreviation SiteSyncSyncSM := SSSsm.SiteSyncSyncSM.

Module PSSRsm.

Record PortSyncSyncReceiveSM := mk {
  rcvdMDSync : bool;
  rcvdMDSyncPtr : option MDSyncReceive;
  rateRatio : double
}.
#[export] Instance eta_PortSyncSyncReceiveSM : Eta PortSyncSyncReceiveSM :=
  fields! mk [rcvdMDSync, rcvdMDSyncPtr, rateRatio].
#[export] Instance zero_PortSyncSyncReceiveSM : Zero PortSyncSyncReceiveSM :=
  mk false None d0.

End PSSRsm.
Export (hints) PSSRsm.
Abbreviation PortSyncSyncReceiveSM := PSSRsm.PortSyncSyncReceiveSM.

Module PSSSsm.

Record PortSyncSyncSendSM := mk {
  rcvdPSSync : bool;
  rcvdPSSyncPtr : option PortSyncSync;
  lastPreciseOriginTimestamp : Timestamp;
  lastFollowUpCorrectionField : ScaledNs;
  lastRateRatio : double;
  lastUpstreamTxTime : UScaledNs;
  lastSyncSentTime : UScaledNs;
  lastRcvdPortNum : Z;
  lastGmTimeBaseIndicator : Z;
  lastGmPhaseChange : ScaledNs;
  lastGmFreqChange : double;
  syncReceiptTimeoutTime : UScaledNs;
  numberSyncTransmissions : Z;
  interval1 : UScaledNs
}.
#[export] Instance eta_PortSyncSyncSendSM : Eta PortSyncSyncSendSM :=
  fields! mk [rcvdPSSync, rcvdPSSyncPtr, lastPreciseOriginTimestamp, lastFollowUpCorrectionField, lastRateRatio, lastUpstreamTxTime, lastSyncSentTime, lastRcvdPortNum, lastGmTimeBaseIndicator, lastGmPhaseChange, lastGmFreqChange, syncReceiptTimeoutTime, numberSyncTransmissions, interval1].
#[export] Instance zero_PortSyncSyncSendSM : Zero PortSyncSyncSendSM :=
  mk false None zero zero d0 zero zero 0 0 zero d0 zero 0 zero.

End PSSSsm.
Export (hints) PSSSsm.
Abbreviation PortSyncSyncSendSM := PSSSsm.PortSyncSyncSendSM.

Module PARsm.

Record PortAnnounceReceiveSM := mk {
  rcvdAnnounce : bool
}.
#[export] Instance eta_PortAnnounceReceiveSM : Eta PortAnnounceReceiveSM :=
  fields! mk [rcvdAnnounce].
#[export] Instance zero_PortAnnounceReceiveSM : Zero PortAnnounceReceiveSM :=
  mk false.

End PARsm.
Export (hints) PARsm.
Abbreviation PortAnnounceReceiveSM := PARsm.PortAnnounceReceiveSM.

Module PAIsm.

Record PortAnnounceInformationSM := mk {
  announceReceiptTimeoutTime : UScaledNs;
  messagePriority : UInteger224;
  rcvdInfo : Z
}.
#[export] Instance eta_PortAnnounceInformationSM : Eta PortAnnounceInformationSM :=
  fields! mk [announceReceiptTimeoutTime, messagePriority, rcvdInfo].
#[export] Instance zero_PortAnnounceInformationSM : Zero PortAnnounceInformationSM :=
  mk zero zero 0.

End PAIsm.
Export (hints) PAIsm.
Abbreviation PortAnnounceInformationSM := PAIsm.PortAnnounceInformationSM.

Module PSSELall.

Record PortStateSelectionSMforAllDomain := mk {
  asymmetryMeasurementModeChange : bool
}.
#[export] Instance eta_PortStateSelectionSMforAllDomain : Eta PortStateSelectionSMforAllDomain :=
  fields! mk [asymmetryMeasurementModeChange].
#[export] Instance zero_PortStateSelectionSMforAllDomain : Zero PortStateSelectionSMforAllDomain :=
  mk false.

End PSSELall.
Export (hints) PSSELall.
Abbreviation PortStateSelectionSMforAllDomain := PSSELall.PortStateSelectionSMforAllDomain.

Module PSSELsm.

Record PortStateSelectionSM := mk {
  systemIdentityChange : bool;
  forAllDomain : PortStateSelectionSMforAllDomain
}.
#[export] Instance eta_PortStateSelectionSM : Eta PortStateSelectionSM :=
  fields! mk [systemIdentityChange, forAllDomain].
#[export] Instance zero_PortStateSelectionSM : Zero PortStateSelectionSM :=
  mk false zero.

End PSSELsm.
Export (hints) PSSELsm.
Abbreviation PortStateSelectionSM := PSSELsm.PortStateSelectionSM.

Module PAIXsm.

Record PortAnnounceInformationExtSM := mk {
  rcvdAnnounce : bool;
  messagePriority : UInteger224
}.
#[export] Instance eta_PortAnnounceInformationExtSM : Eta PortAnnounceInformationExtSM :=
  fields! mk [rcvdAnnounce, messagePriority].
#[export] Instance zero_PortAnnounceInformationExtSM : Zero PortAnnounceInformationExtSM :=
  mk false zero.

End PAIXsm.
Export (hints) PAIXsm.
Abbreviation PortAnnounceInformationExtSM := PAIXsm.PortAnnounceInformationExtSM.

Module PSEXall.

Record PortStateSettingExtSMforAllDomain := mk {
  asymmetryMeasurementModeChangeThisPort : bool
}.
#[export] Instance eta_PortStateSettingExtSMforAllDomain : Eta PortStateSettingExtSMforAllDomain :=
  fields! mk [asymmetryMeasurementModeChangeThisPort].
#[export] Instance zero_PortStateSettingExtSMforAllDomain : Zero PortStateSettingExtSMforAllDomain :=
  mk false.

End PSEXall.
Export (hints) PSEXall.
Abbreviation PortStateSettingExtSMforAllDomain := PSEXall.PortStateSettingExtSMforAllDomain.

Module PSEXsm.

Record PortStateSettingExtSM := mk {
  disabledExt : bool;
  rcvdPortStateInd : bool;
  portStateInd : Z;
  forAllDomain : PortStateSettingExtSMforAllDomain
}.
#[export] Instance eta_PortStateSettingExtSM : Eta PortStateSettingExtSM :=
  fields! mk [disabledExt, rcvdPortStateInd, portStateInd, forAllDomain].
#[export] Instance zero_PortStateSettingExtSM : Zero PortStateSettingExtSM :=
  mk false false 0 zero.

End PSEXsm.
Export (hints) PSEXsm.
Abbreviation PortStateSettingExtSM := PSEXsm.PortStateSettingExtSM.

Module PATsm.

Record PortAnnounceTransmitSM := mk {
  announceSendTime : UScaledNs;
  numberAnnounceTransmissions : Z;
  interval2 : UScaledNs
}.
#[export] Instance eta_PortAnnounceTransmitSM : Eta PortAnnounceTransmitSM :=
  fields! mk [announceSendTime, numberAnnounceTransmissions, interval2].
#[export] Instance zero_PortAnnounceTransmitSM : Zero PortAnnounceTransmitSM :=
  mk zero 0 zero.

End PATsm.
Export (hints) PATsm.
Abbreviation PortAnnounceTransmitSM := PATsm.PortAnnounceTransmitSM.

Module AISsm.

Record AnnounceIntervalSettingSM := mk {
  rcvdSignalingMsg2 : bool;
  rcvdSignalingPtr : option PTPMsgIntervalRequestTLV
}.
#[export] Instance eta_AnnounceIntervalSettingSM : Eta AnnounceIntervalSettingSM :=
  fields! mk [rcvdSignalingMsg2, rcvdSignalingPtr].
#[export] Instance zero_AnnounceIntervalSettingSM : Zero AnnounceIntervalSettingSM :=
  mk false None.

End AISsm.
Export (hints) AISsm.
Abbreviation AnnounceIntervalSettingSM := AISsm.AnnounceIntervalSettingSM.

Module GCISsm.

Record GPTPCapableIntervalSettingSM := mk {
  rcvdSignalingMsg4 : bool;
  rcvdSignalingPtr : option PTPMsgGPTPCapableMsgIntervalReqTLV
}.
#[export] Instance eta_GPTPCapableIntervalSettingSM : Eta GPTPCapableIntervalSettingSM :=
  fields! mk [rcvdSignalingMsg4, rcvdSignalingPtr].
#[export] Instance zero_GPTPCapableIntervalSettingSM : Zero GPTPCapableIntervalSettingSM :=
  mk false None.

End GCISsm.
Export (hints) GCISsm.
Abbreviation GPTPCapableIntervalSettingSM := GCISsm.GPTPCapableIntervalSettingSM.

Module GCTsm.

Record gPtpCapableTransmitSM := mk {
  signalingMsgTimeInterval : UScaledNs;
  intervalTimer : UScaledNs;
  numberGptpCapableMessageTransmissions : Z
}.
#[export] Instance eta_gPtpCapableTransmitSM : Eta gPtpCapableTransmitSM :=
  fields! mk [signalingMsgTimeInterval, intervalTimer, numberGptpCapableMessageTransmissions].
#[export] Instance zero_gPtpCapableTransmitSM : Zero gPtpCapableTransmitSM :=
  mk zero zero 0.

End GCTsm.
Export (hints) GCTsm.
Abbreviation gPtpCapableTransmitSM := GCTsm.gPtpCapableTransmitSM.

Module GCRsm.

Record gPtpCapableReceiveSM := mk {
  rcvdGptpCapableTlv : bool;
  rcvdSignalingMsgPtr : option PTPMsgGPTPCapableTLV;
  gPtpCapableReceiptTimeoutInterval : UScaledNs;
  timeoutTime : UScaledNs
}.
#[export] Instance eta_gPtpCapableReceiveSM : Eta gPtpCapableReceiveSM :=
  fields! mk [rcvdGptpCapableTlv, rcvdSignalingMsgPtr, gPtpCapableReceiptTimeoutInterval, timeoutTime].
#[export] Instance zero_gPtpCapableReceiveSM : Zero gPtpCapableReceiveSM :=
  mk false None zero zero.

End GCRsm.
Export (hints) GCRsm.
Abbreviation gPtpCapableReceiveSM := GCRsm.gPtpCapableReceiveSM.

(** ** mdeth.h *)

Module MDEGALL.

Record MDEntityGlobalForAllDomain := mk {
  currentLogPdelayReqInterval : Z;
  initialLogPdelayReqInterval : Z;
  pdelayReqInterval : UScaledNs;
  allowedLostResponses : Z;
  allowedFaults : Z;
  isMeasuringDelay : bool;
  neighborPropDelayThresh : UScaledNs;
  neighborPropDelayMinLimit : UScaledNs;
  asCapableAcrossDomains : bool
}.
#[export] Instance eta_MDEntityGlobalForAllDomain : Eta MDEntityGlobalForAllDomain :=
  fields! mk [currentLogPdelayReqInterval, initialLogPdelayReqInterval, pdelayReqInterval, allowedLostResponses, allowedFaults, isMeasuringDelay, neighborPropDelayThresh, neighborPropDelayMinLimit, asCapableAcrossDomains].
#[export] Instance zero_MDEntityGlobalForAllDomain : Zero MDEntityGlobalForAllDomain :=
  mk 0 0 zero 0 0 false zero zero false.

End MDEGALL.
Export (hints) MDEGALL.
Abbreviation MDEntityGlobalForAllDomain := MDEGALL.MDEntityGlobalForAllDomain.

Module MDEG.

Record MDEntityGlobal := mk {
  syncSequenceId : Z;
  oneStepReceive : bool;
  oneStepTransmit : bool;
  oneStepTxOper : bool;
  forAllDomain : MDEntityGlobalForAllDomain
}.
#[export] Instance eta_MDEntityGlobal : Eta MDEntityGlobal :=
  fields! mk [syncSequenceId, oneStepReceive, oneStepTransmit, oneStepTxOper, forAllDomain].
#[export] Instance zero_MDEntityGlobal : Zero MDEntityGlobal :=
  mk 0 false false false zero.

End MDEG.
Export (hints) MDEG.
Abbreviation MDEntityGlobal := MDEG.MDEntityGlobal.

Module SISsm.

Record SyncIntervalSettingSM := mk {
  rcvdSignalingMsg3 : bool;
  rcvdSignalingPtr : option PTPMsgIntervalRequestTLV
}.
#[export] Instance eta_SyncIntervalSettingSM : Eta SyncIntervalSettingSM :=
  fields! mk [rcvdSignalingMsg3, rcvdSignalingPtr].
#[export] Instance zero_SyncIntervalSettingSM : Zero SyncIntervalSettingSM :=
  mk false None.

End SISsm.
Export (hints) SISsm.
Abbreviation SyncIntervalSettingSM := SISsm.SyncIntervalSettingSM.

Module LDISsm.

Record LinkDelayIntervalSettingSM := mk {
  rcvdSignalingMsg1 : bool;
  rcvdSignalingPtr : option PTPMsgIntervalRequestTLV;
  portEnabled3 : bool
}.
#[export] Instance eta_LinkDelayIntervalSettingSM : Eta LinkDelayIntervalSettingSM :=
  fields! mk [rcvdSignalingMsg1, rcvdSignalingPtr, portEnabled3].
#[export] Instance zero_LinkDelayIntervalSettingSM : Zero LinkDelayIntervalSettingSM :=
  mk false None false.

End LDISsm.
Export (hints) LDISsm.
Abbreviation LinkDelayIntervalSettingSM := LDISsm.LinkDelayIntervalSettingSM.

Module OSTsm.

Record OneStepTxOperSettingSM := mk {
  rcvdSignalingMsg4 : bool;
  rcvdSignalingPtr : option PTPMsgIntervalRequestTLV
}.
#[export] Instance eta_OneStepTxOperSettingSM : Eta OneStepTxOperSettingSM :=
  fields! mk [rcvdSignalingMsg4, rcvdSignalingPtr].
#[export] Instance zero_OneStepTxOperSettingSM : Zero OneStepTxOperSettingSM :=
  mk false None.

End OSTsm.
Export (hints) OSTsm.
Abbreviation OneStepTxOperSettingSM := OSTsm.OneStepTxOperSettingSM.

Module MDASsm.

Record MDAnnounceSendSM := mk {
  rcvdTxAnnounce : bool;
  txAnnouncePtr : option PTPMsgAnnounce
}.
#[export] Instance eta_MDAnnounceSendSM : Eta MDAnnounceSendSM :=
  fields! mk [rcvdTxAnnounce, txAnnouncePtr].
#[export] Instance zero_MDAnnounceSendSM : Zero MDAnnounceSendSM :=
  mk false None.

End MDASsm.
Export (hints) MDASsm.
Abbreviation MDAnnounceSendSM := MDASsm.MDAnnounceSendSM.

Module MDARsm.

Record MDAnnounceReceiveSM := mk {
  rcvdRxAnnounce : bool;
  rxAnnouncePtr : option (list Z)
}.
#[export] Instance eta_MDAnnounceReceiveSM : Eta MDAnnounceReceiveSM :=
  fields! mk [rcvdRxAnnounce, rxAnnouncePtr].
#[export] Instance zero_MDAnnounceReceiveSM : Zero MDAnnounceReceiveSM :=
  mk false None.

End MDARsm.
Export (hints) MDARsm.
Abbreviation MDAnnounceReceiveSM := MDARsm.MDAnnounceReceiveSM.

