(* ===== verification/Floats.v ===== *)
(** * Floats: the double arithmetic of the stack, and when it is exact.

    Rate ratios, frequency offsets and propagation delays are [double]s.  The
    operations are the binary64 ones of the standard library's [SpecFloat]; this
    file adds the conversions C makes between integers and doubles and [ldexp],
    and the criterion the codecs rely on: an operation whose mathematical result
    fits 53 bits is exact.  A double's value is counted in units of [2^-1074],
    the least positive double, so that it is an integer. *)

From Stdlib Require Import SpecFloat.
From S2P Require Import Prelude Types.

Definition dmul : double -> double -> double := SFmul 53 1024.
Definition ddiv : double -> double -> double := SFdiv 53 1024.
Definition dsqrt : double -> double := SFsqrt 53 1024.

(** [(double)z] *)
Definition d_of_Z (z : Z) : double := binary_normalize 53 1024 z 0 false.

(** [ldexp(d, k)] *)
Definition ldexp (d : double) (k : Z) : double := SFldexp 53 1024 d k.

(** The value C leaves undefined when the truncated double does not fit the
    integer type (or is no number): every theorem holds for all choices of it. *)
Class Conversions := { cvt_undefined : double -> Z }.
Definition conversions0 : Conversions := {| cvt_undefined := fun _ => 0 |}.

(** truncation towards zero; None for an infinity or NaN *)
Definition dtrunc (d : double) : option Z :=
  match d with
  | S754_zero _ => Some 0
  | S754_finite s m e =>
      Some (cond_Zopp s (if 0 <=? e then Z.pos m * 2 ^ e else Z.shiftr (Z.pos m) (- e)))
  | _ => None
  end.

Section Convert.
Context `{CV : Conversions}.

(** [(intN_t)d] and [(uintN_t)d] *)
Definition d_to_int (w : Z) (d : double) : Z :=
  match dtrunc d with
  | Some z => if (- 2 ^ (w - 1) <=? z) && (z <? 2 ^ (w - 1)) then z else swrap w (cvt_undefined d)
  | None => swrap w (cvt_undefined d)
  end.

Definition d_to_uint (w : Z) (d : double) : Z :=
  match dtrunc d with
  | Some z => if (0 <=? z) && (z <? 2 ^ w) then z else wrap w (cvt_undefined d)
  | None => wrap w (cvt_undefined d)
  end.

Lemma d_to_int_sfits w d : 0 < w -> sfits w (d_to_int w d).
Proof.
  intros Hw. unfold d_to_int. destruct (dtrunc d) as [z|]; [|by apply swrap_fits].
  destruct_cond; [|by apply swrap_fits]. bool_hyps. done.
Qed.

Lemma d_to_uint_fits w d : 0 <= w -> fits w (d_to_uint w d).
Proof.
  intros Hw. unfold d_to_uint. destruct (dtrunc d) as [z|]; [|by apply wrap_fits].
  destruct_cond; [|by apply wrap_fits]. bool_hyps. done.
Qed.

End Convert.

(** ** Values *)

Definition dval (d : double) : Z :=
  match d with
  | S754_finite s m e => cond_Zopp s (Z.pos m * 2 ^ (e + 1074))
  | _ => 0
  end.

Definition dfinite (d : double) : Prop :=
  match d with
  | S754_zero _ => True
  | S754_finite _ m e => valid_binary 53 1024 d = true
  | _ => False
  end.

(** [N] units fit a double: at most 53 significant bits, below the largest exponent *)
Definition fits_double (N : Z) : Prop :=
  exists M E, N = M * 2 ^ E /\ Z.abs M < 2 ^ 53 /\ 0 <= E /\ Z.abs N < 2 ^ 2098.

Lemma digits_log2 p : Z.pos (digits2_pos p) = Z.log2 (Z.pos p) + 1.
Proof.
  induction p as [p IH|p IH|]; cbn [digits2_pos]; [| |done].
  - rewrite Pos2Z.inj_succ, IH, Pos2Z.inj_xI, Z.log2_succ_double by lia. lia.
  - rewrite Pos2Z.inj_succ, IH, Pos2Z.inj_xO, Z.log2_double by lia. lia.
Qed.

Lemma digits_shift p k : 0 <= k -> Z.log2 (Z.pos p * 2 ^ k) = Z.pos (digits2_pos p) - 1 + k.
Proof. intros. rewrite Z.log2_mul_pow2, digits_log2 by lia. lia. Qed.

(** shifting out zeros loses nothing *)
Lemma shr_exact p a : 0 < a ->
  SpecFloat.iter_pos shr_1 p (Build_shr_record (a * 2 ^ Z.pos p) false false) = Build_shr_record a false false.
Proof.
  revert a. induction p as [p IH|p IH|]; intros a Ha; cbn [SpecFloat.iter_pos].
  - assert (E : shr_1 (Build_shr_record (a * 2 ^ Z.pos p~1) false false) =
                Build_shr_record (a * 2 ^ Z.pos p * 2 ^ Z.pos p) false false).
    { replace (Z.pos p~1) with (Z.pos p + Z.pos p + 1) by lia.
      rewrite !Z.pow_add_r, Z.pow_1_r by lia.
      set (q := 2 ^ Z.pos p). assert (0 < q) by (apply Z.pow_pos_nonneg; lia).
      replace (a * (q * q * 2)) with (2 * (a * q * q)) by ring.
      destruct (a * q * q) eqn:Q; [lia|reflexivity|lia]. }
    rewrite E, (IH (a * 2 ^ Z.pos p)) by (apply Z.mul_pos_pos; [lia|apply Z.pow_pos_nonneg; lia]).
    by apply IH.
  - assert (E : a * 2 ^ Z.pos p~0 = a * 2 ^ Z.pos p * 2 ^ Z.pos p)
      by (replace (Z.pos p~0) with (Z.pos p + Z.pos p) by lia; rewrite Z.pow_add_r by lia; ring).
    rewrite E, (IH (a * 2 ^ Z.pos p)) by (apply Z.mul_pos_pos; [lia|apply Z.pow_pos_nonneg; lia]).
    by apply IH.
  - change (2 ^ 1) with 2. destruct a as [|a|a]; [lia| |lia].
    rewrite Z.mul_comm. reflexivity.
Qed.

Lemma fexp_le e : fexp 53 1024 e = Z.max (e - 53) (-1074).
Proof. unfold fexp, emin. lia. Qed.

(** rounding a representable value is exact *)
Lemma round_aux_exact s m e :
  -1074 <= e -> fits_double (Z.pos m * 2 ^ (e + 1074)) ->
  fexp 53 1024 (Z.pos (digits2_pos m) + e) >= e ->
  let d := binary_round_aux 53 1024 s (Z.pos m) e loc_Exact in
  dfinite d /\ dval d = cond_Zopp s (Z.pos m * 2 ^ (e + 1074)) /\ d <> S754_zero s.
Proof.
  intros He (M & E & HN & HM & HE & HB) Hf. rewrite fexp_le in Hf.
  assert (Hp : 0 < 2 ^ (e + 1074)) by (apply Z.pow_pos_nonneg; lia).
  assert (HM0 : 0 < M). { assert (0 < 2 ^ E) by (apply Z.pow_pos_nonneg; lia). nia. }
  rewrite Z.abs_eq in HM, HB by lia.
  pose proof (digits_shift m (e + 1074) ltac:(lia)) as L.
  assert (LM : Z.log2 (M * 2 ^ E) = Z.log2 M + E) by (rewrite Z.log2_mul_pow2 by lia; lia).
  assert (LM53 : Z.log2 M < 53) by (apply Z.log2_lt_pow2; lia).
  assert (LB : Z.log2 (Z.pos m * 2 ^ (e + 1074)) < 2098) by (apply Z.log2_lt_pow2; lia).
  set (dg := Z.pos (digits2_pos m)) in *. set (e' := Z.max (dg + e - 53) (-1074)) in *.
  assert (HEe : e' + 1074 <= E) by (rewrite HN, LM in L; lia).
  (* the mantissa is a multiple of the power shifted out *)
  assert (D : exists a, 0 < a /\ Z.pos m = a * 2 ^ (e' - e)).
  { exists (M * 2 ^ (E - (e' + 1074))).
    assert (0 < 2 ^ (E - (e' + 1074))) by (apply Z.pow_pos_nonneg; lia).
    split; [nia|]. apply (Z.mul_reg_r _ _ (2 ^ (e + 1074))); [lia|].
    rewrite HN, <- !Z.mul_assoc, <- !Z.pow_add_r by lia. do 2 f_equal. lia. }
  destruct D as (a & Ha & Em). destruct a as [|a|a]; [lia| |lia].
  assert (S1 : shr_fexp 53 1024 (Z.pos m) e loc_Exact = (Build_shr_record (Z.pos a) false false, e')).
  { unfold shr_fexp, Zdigits2. fold dg. rewrite fexp_le. fold e'. cbn [shr_record_of_loc]. unfold shr.
    destruct (e' - e) as [|p|p] eqn:P; [|rewrite Em, shr_exact by lia; f_equal; lia|lia].
    rewrite Em, Z.pow_0_r, Z.mul_1_r. f_equal. lia. }
  assert (Da : Z.pos (digits2_pos a) = dg - (e' - e)).
  { unfold dg. rewrite !digits_log2, Em, Z.log2_mul_pow2 by lia. lia. }
  assert (F' : fexp 53 1024 (Z.pos (digits2_pos a) + e') = e') by (rewrite fexp_le, Da; lia).
  assert (S2 : shr_fexp 53 1024 (Z.pos a) e' loc_Exact = (Build_shr_record (Z.pos a) false false, e')).
  { unfold shr_fexp, Zdigits2. by rewrite F', Z.sub_diag. }
  unfold binary_round_aux. rewrite S1. cbn [shr_m loc_of_shr_record round_nearest_even]. rewrite S2.
  cbn [shr_m]. rewrite (proj2 (Z.leb_le _ _)) by lia. cbn zeta. split_and!.
  - unfold dfinite, valid_binary, bounded, canonical_mantissa.
    rewrite F', Z.eqb_refl. apply Z.leb_le. lia.
  - unfold dval. f_equal. rewrite Em, <- Z.mul_assoc, <- Z.pow_add_r by lia. do 2 f_equal. lia.
  - done.
Qed.

Lemma iter_xO m d : Z.pos (Pos.iter xO m d) = Z.pos m * 2 ^ Z.pos d.
Proof.
  induction d as [|d IH] using Pos.peano_ind; [cbn; lia|].
  rewrite Pos.iter_succ, Pos2Z.inj_xO, IH, Pos2Z.inj_succ, Z.pow_succ_r by lia. ring.
Qed.

Lemma round_exact s m e :
  -1074 <= e -> fits_double (Z.pos m * 2 ^ (e + 1074)) ->
  let d := binary_round 53 1024 s m e in
  dfinite d /\ dval d = cond_Zopp s (Z.pos m * 2 ^ (e + 1074)) /\ d <> S754_zero s.
Proof.
  intros He Hf. unfold binary_round, shl_align. rewrite fexp_le.
  set (e' := Z.max _ _). destruct (e' - e) as [|p|p] eqn:P.
  1,2: apply round_aux_exact; [done|done|rewrite fexp_le; fold e'; lia].
  assert (V : Z.pos (Pos.iter xO m p) * 2 ^ (e' + 1074) = Z.pos m * 2 ^ (e + 1074)).
  { rewrite iter_xO, <- Z.mul_assoc, <- Z.pow_add_r by lia. do 2 f_equal. lia. }
  rewrite <- V. apply round_aux_exact; [lia|by rewrite V|].
  assert (E' : e' = Z.max (Z.log2 (Z.pos m) + 1 + e - 53) (-1074)) by (unfold e'; by rewrite digits_log2).
  rewrite fexp_le, digits_log2, iter_xO, Z.log2_mul_pow2 by lia. lia.
Qed.

Lemma normalize_exact z e b :
  -1074 <= e -> fits_double (z * 2 ^ (e + 1074)) ->
  let d := binary_normalize 53 1024 z e b in
  dfinite d /\ dval d = z * 2 ^ (e + 1074).
Proof.
  intros He Hf. destruct z as [|m|m]; cbn [binary_normalize]; [done| |].
  - destruct (round_exact false m e He Hf) as (A & B & _). done.
  - destruct (round_exact true m e He) as (A & B & _).
    + destruct Hf as (M & E & H1 & H2 & H3 & H4). exists (- M), E. split_and!; [nia|lia|done|].
      rewrite <- Z.abs_opp. by replace (- (Z.pos m * 2 ^ (e + 1074))) with (Z.neg m * 2 ^ (e + 1074)) by lia.
    + split; [done|]. rewrite B. cbn [cond_Zopp]. lia.
Qed.

Lemma fits_double_Z z : Z.abs z <= 2 ^ 52 -> fits_double (z * 2 ^ 1074).
Proof.
  intros H. exists z, 1074. split_and!; [done|lia|lia|].
  rewrite Z.abs_mul, (Z.abs_eq (2 ^ 1074)) by lia.
  apply Z.le_lt_trans with (2 ^ 52 * 2 ^ 1074); [apply Z.mul_le_mono_nonneg_r; lia|].
  rewrite <- Z.pow_add_r by lia. apply Z.pow_lt_mono_r; lia.
Qed.

Lemma fits_double_shift M k : 0 <= k <= 2040 -> Z.abs M < 2 ^ 53 -> fits_double (M * 2 ^ k).
Proof.
  intros Hk HM. exists M, k. split_and!; [done|done|lia|].
  assert (0 < 2 ^ k) by (apply Z.pow_pos_nonneg; lia).
  rewrite Z.abs_mul, (Z.abs_eq (2 ^ k)) by lia.
  apply Z.lt_le_trans with (2 ^ 53 * 2 ^ k); [apply Z.mul_lt_mono_pos_r; lia|].
  rewrite <- Z.pow_add_r by lia. apply Z.pow_le_mono_r; lia.
Qed.

Lemma d_of_Z_exact z : Z.abs z <= 2 ^ 52 -> dfinite (d_of_Z z) /\ dval (d_of_Z z) = z * 2 ^ 1074.
Proof. intros. apply (normalize_exact z 0 false); [lia|]. by apply fits_double_Z. Qed.

Lemma dfinite_exp s m e : dfinite (S754_finite s m e) -> -1074 <= e.
Proof.
  unfold dfinite, valid_binary, bounded, canonical_mantissa. intros H. bool_hyps.
  rewrite fexp_le in *. lia.
Qed.

(** the mantissa of [x] moved to a lower exponent *)
Lemma shl_align_val m e e' :
  e' <= e -> Z.pos (fst (shl_align m e e')) = Z.pos m * 2 ^ (e - e').
Proof.
  intros. unfold shl_align. destruct (e' - e) as [|p|p] eqn:P; [|lia|].
  - replace (e - e') with 0 by lia. cbn. lia.
  - cbn [fst]. rewrite iter_xO. do 2 f_equal. lia.
Qed.

Lemma cond_Zopp_shift s m e e' :
  -1074 <= e' <= e ->
  cond_Zopp s (Z.pos (fst (shl_align m e e'))) * 2 ^ (e' + 1074) = cond_Zopp s (Z.pos m * 2 ^ (e + 1074)).
Proof.
  intros. rewrite shl_align_val by lia.
  assert (E : Z.pos m * 2 ^ (e - e') * 2 ^ (e' + 1074) = Z.pos m * 2 ^ (e + 1074))
    by (rewrite <- Z.mul_assoc, <- Z.pow_add_r by lia; do 2 f_equal; lia).
  destruct s; cbn [cond_Zopp]; lia.
Qed.

Lemma dadd_exact x y :
  dfinite x -> dfinite y -> fits_double (dval x + dval y) ->
  dfinite (dadd x y) /\ dval (dadd x y) = dval x + dval y.
Proof.
  intros Hx Hy Hf. destruct x as [sx| | |sx mx ex]; try (by destruct Hx);
    destruct y as [sy| | |sy my ey]; try (by destruct Hy).
  - by destruct sx, sy.
  - split; [done|]. change (dadd (S754_zero sx) (S754_finite sy my ey)) with (S754_finite sy my ey).
    cbn [dval]. lia.
  - split; [done|]. change (dadd (S754_finite sx mx ex) (S754_zero sy)) with (S754_finite sx mx ex).
    cbn [dval]. lia.
  - pose proof (dfinite_exp _ _ _ Hx). pose proof (dfinite_exp _ _ _ Hy).
    unfold dadd. cbn [SFadd]. set (ez := Z.min ex ey).
    assert (V : (cond_Zopp sx (Z.pos (fst (shl_align mx ex ez))) +
                 cond_Zopp sy (Z.pos (fst (shl_align my ey ez)))) * 2 ^ (ez + 1074) =
                dval (S754_finite sx mx ex) + dval (S754_finite sy my ey))
      by (rewrite Z.mul_add_distr_r, !cond_Zopp_shift by lia; done).
    rewrite <- V in *. by apply normalize_exact; [lia|].
Qed.

Lemma dsub_exact x y :
  dfinite x -> dfinite y -> fits_double (dval x - dval y) ->
  dfinite (dsub x y) /\ dval (dsub x y) = dval x - dval y.
Proof.
  intros Hx Hy Hf. destruct x as [sx| | |sx mx ex]; try (by destruct Hx);
    destruct y as [sy| | |sy my ey]; try (by destruct Hy).
  - by destruct sx, sy.
  - split; [done|]. change (dsub (S754_zero sx) (S754_finite sy my ey)) with (S754_finite (negb sy) my ey).
    cbn [dval]. destruct sy; cbn [negb cond_Zopp]; lia.
  - split; [done|]. change (dsub (S754_finite sx mx ex) (S754_zero sy)) with (S754_finite sx mx ex).
    cbn [dval]. lia.
  - pose proof (dfinite_exp _ _ _ Hx). pose proof (dfinite_exp _ _ _ Hy).
    unfold dsub. cbn [SFsub]. set (ez := Z.min ex ey).
    assert (V : (cond_Zopp sx (Z.pos (fst (shl_align mx ex ez))) -
                 cond_Zopp sy (Z.pos (fst (shl_align my ey ez)))) * 2 ^ (ez + 1074) =
                dval (S754_finite sx mx ex) - dval (S754_finite sy my ey))
      by (rewrite Z.mul_sub_distr_r, !cond_Zopp_shift by lia; done).
    rewrite <- V in *. by apply normalize_exact; [lia|].
Qed.

(** scaling by [2^k]: exact as long as the result has 53 bits above the least unit *)
Lemma ldexp_exact x k M E :
  dfinite x -> dval x = M * 2 ^ E -> Z.abs M < 2 ^ 53 -> 0 <= E <= 2040 -> 0 <= E + k <= 2040 ->
  (k < 0 -> 53 <= E + k) ->
  dfinite (ldexp x k) /\ dval (ldexp x k) = M * 2 ^ (E + k).
Proof.
  intros Hx V HM HE HEk Hk. destruct x as [sx| | |s m e]; try (by destruct Hx).
  - split; [done|]. cbn in V |- *.
    assert (0 < 2 ^ E) by (apply Z.pow_pos_nonneg; lia). assert (M = 0) by nia. subst. lia.
  - pose proof (dfinite_exp _ _ _ Hx) as He.
    assert (Hv : cond_Zopp s (Z.pos m * 2 ^ (e + 1074)) = M * 2 ^ E) by exact V.
    assert (Hlow : -1074 <= e + k).
    { destruct (Z.ltb_spec k 0) as [Hneg|]; [|lia].
      (* a value of at least 2^E has an exponent of at least E - 53 *)
      unfold dfinite, valid_binary, bounded, canonical_mantissa in Hx. bool_hyps.
      rewrite fexp_le, digits_log2 in *.
      assert (HM0 : M <> 0).
      { intros ->. assert (0 < 2 ^ (e + 1074)) by (apply Z.pow_pos_nonneg; lia).
        destruct s; cbn [cond_Zopp] in Hv; nia. }
      assert (A : Z.pos m * 2 ^ (e + 1074) = Z.abs M * 2 ^ E).
      { assert (0 < 2 ^ (e + 1074)) by (apply Z.pow_pos_nonneg; lia).
        assert (0 < 2 ^ E) by (apply Z.pow_pos_nonneg; lia).
        destruct s; cbn [cond_Zopp] in Hv; nia. }
      apply (f_equal Z.log2) in A. rewrite !Z.log2_mul_pow2 in A by lia.
      pose proof (Z.log2_nonneg (Z.abs M)). specialize (Hk Hneg). lia. }
    assert (V2 : cond_Zopp s (Z.pos m * 2 ^ (e + k + 1074)) = M * 2 ^ (E + k)).
    { destruct (Z.le_gt_cases 0 k) as [Hk0|Hk0].
      - rewrite (Z.pow_add_r _ E), Z.mul_assoc, <- Hv by lia.
        replace (e + k + 1074) with (e + 1074 + k) by lia. rewrite (Z.pow_add_r _ (e + 1074)) by lia.
        destruct s; cbn [cond_Zopp]; lia.
      - assert (0 < 2 ^ (- k)) by (apply Z.pow_pos_nonneg; lia).
        apply (Z.mul_reg_r _ _ (2 ^ (- k))); [lia|].
        rewrite <- Z.mul_assoc, <- Z.pow_add_r by lia. replace (E + k + - k) with E by lia. rewrite <- Hv.
        replace (e + 1074) with (e + k + 1074 + - k) by lia. rewrite (Z.pow_add_r _ (e + k + 1074)) by lia.
        destruct s; cbn [cond_Zopp]; lia. }
    destruct (round_exact s m (e + k) Hlow) as (A & B & _).
    { destruct (fits_double_shift M (E + k) HEk HM) as (M1 & E1 & H1 & H2 & H3 & H4).
      destruct s; cbn [cond_Zopp] in V2; [exists (- M1)|exists M1]; exists E1; split_and!; lia. }
    split; [exact A|]. change (ldexp (S754_finite s m e) k) with (binary_round 53 1024 s m (e + k)).
    by rewrite B.
Qed.

Lemma dtrunc_val x : dfinite x -> dtrunc x = Some (Z.quot (dval x) (2 ^ 1074)).
Proof.
  intros Hx. destruct x as [sx| | |s m e]; try (by destruct Hx). pose proof (dfinite_exp _ _ _ Hx) as He.
  cbn [dtrunc dval]. f_equal.
  assert (A : (if 0 <=? e then Z.pos m * 2 ^ e else Z.shiftr (Z.pos m) (- e)) =
              Z.quot (Z.pos m * 2 ^ (e + 1074)) (2 ^ 1074)).
  { destruct (Z.leb_spec 0 e).
    - rewrite Z.pow_add_r, Z.mul_assoc, Z.quot_mul by lia. done.
    - rewrite Z.shiftr_div_pow2, Z.quot_div_nonneg by (try apply Z.mul_nonneg_nonneg; lia).
      replace (2 ^ 1074) with (2 ^ (- e) * 2 ^ (e + 1074)) by (rewrite <- Z.pow_add_r by lia; f_equal; lia).
      rewrite Z.div_mul_cancel_r; [done|apply Z.pow_nonzero; lia|apply Z.pow_nonzero; lia]. }
  rewrite A. destruct s; cbn [cond_Zopp]; [|done]. by rewrite Z.quot_opp_l by lia.
Qed.

(** a double of integral value is converted back to it *)
Lemma d_to_int_exact `{CV : Conversions} w x z :
  dfinite x -> dval x = z * 2 ^ 1074 -> sfits w z -> d_to_int w x = z.
Proof.
  intros Hx V [H1 H2]. unfold d_to_int. rewrite dtrunc_val, V, Z.quot_mul by (done || lia).
  rewrite (proj2 (Z.leb_le _ _)), (proj2 (Z.ltb_lt _ _)) by lia. done.
Qed.

Lemma d1_exact : dfinite d1 /\ dval d1 = 2 ^ 1074.
Proof. split; [reflexivity|]. vm_compute. reflexivity. Qed.

(** multiplication of an integer by 1.0 *)
Lemma dmul_d1 z : Z.abs z <= 2 ^ 52 -> dfinite (dmul d1 (d_of_Z z)) /\ dval (dmul d1 (d_of_Z z)) = z * 2 ^ 1074.
Proof.
  intros Hz. destruct (d_of_Z_exact z Hz) as [F V]. revert F V. generalize (d_of_Z z). intros x F V.
  change d1 with (S754_finite false 4503599627370496 (-52)).
  destruct x as [sx| | |s m e]; try (by destruct F).
  cbn [dmul SFmul xorb]. pose proof F as B. unfold dfinite, valid_binary, bounded, canonical_mantissa in B.
  bool_hyps. rewrite fexp_le in *. cbn [dval] in V.
  assert (Hp : 0 < 2 ^ (e + 1074)) by (apply Z.pow_pos_nonneg; lia).
  assert (A : Z.pos m * 2 ^ (e + 1074) = Z.abs z * 2 ^ 1074).
  { assert (0 < 2 ^ 1074) by (by apply Z.pow_pos_nonneg). destruct s; cbn [cond_Zopp] in V; nia. }
  assert (Z0 : 0 < Z.abs z) by (assert (0 < 2 ^ 1074) by (by apply Z.pow_pos_nonneg); nia).
  assert (L : Z.log2 (Z.pos m) + (e + 1074) = Z.log2 (Z.abs z) + 1074).
  { apply (f_equal Z.log2) in A. rewrite !Z.log2_mul_pow2 in A by lia. lia. }
  rewrite digits_log2 in *. pose proof (Z.log2_nonneg (Z.abs z)). pose proof (Z.log2_nonneg (Z.pos m)).
  assert (E : Z.pos (4503599627370496 * m) * 2 ^ (-52 + e + 1074) = Z.pos m * 2 ^ (e + 1074)).
  { rewrite Pos2Z.inj_mul. change 4503599627370496 with (2 ^ 52).
    replace (e + 1074) with (52 + (-52 + e + 1074)) by lia. rewrite (Z.pow_add_r 2 52) by lia. ring. }
  destruct (round_aux_exact s (4503599627370496 * m) (-52 + e)) as (C & D & _).
  - lia.
  - rewrite E, A. apply fits_double_Z. lia.
  - rewrite fexp_le, digits_log2, Pos2Z.inj_mul. change 4503599627370496 with (2 ^ 52).
    rewrite Z.mul_comm. rewrite Z.log2_mul_pow2 by lia. lia.
  - split; [exact C|]. rewrite D, E. exact V.
Qed.

Lemma dmul_comm x y : dmul x y = dmul y x.
Proof.
  destruct x as [sx| | |sx mx ex], y as [sy| | |sy my ey]; unfold dmul; cbn [SFmul];
    try done; rewrite 1?xorb_comm, 1?(Pos.mul_comm mx), 1?(Z.add_comm ex); done.
Qed.

(** division of an integer by 1.0 *)
Lemma ddiv_d1 z : Z.abs z <= 2 ^ 52 -> dfinite (ddiv (d_of_Z z) d1) /\ dval (ddiv (d_of_Z z) d1) = z * 2 ^ 1074.
Proof.
  intros Hz. destruct (d_of_Z_exact z Hz) as [F V]. revert F V. generalize (d_of_Z z). intros x F V.
  change d1 with (S754_finite false 4503599627370496 (-52)).
  destruct x as [sx| | |s m e]; try (by destruct F).
  pose proof F as B. unfold dfinite, valid_binary, bounded, canonical_mantissa in B.
  bool_hyps. rewrite fexp_le in *. cbn [dval] in V.
  unfold ddiv. cbn [SFdiv]. unfold SFdiv_core_binary, Zdigits2. rewrite fexp_le.
  set (dg := Z.pos (digits2_pos m)) in *. change (Z.pos (digits2_pos 4503599627370496)) with 53.
  set (e' := Z.min _ _). assert (He' : e' <= e) by lia.
  assert (Hlow : -1074 <= e') by lia.
  destruct (e - -52 - e') as [|p|p] eqn:P; [lia| |lia].
  assert (Sh : Z.shiftl (Z.pos m) (Z.pos p) = Z.pos m * 2 ^ (e - e') * 4503599627370496).
  { rewrite Z.shiftl_mul_pow2, <- P by lia. replace (e - -52 - e') with (e - e' + 52) by lia.
    rewrite Z.pow_add_r by lia. change (2 ^ 52) with 4503599627370496. ring. }
  assert (Q : Z.div_eucl (Z.shiftl (Z.pos m) (Z.pos p)) 4503599627370496 = (Z.pos m * 2 ^ (e - e'), 0)).
  { pose proof (Z.div_mul (Z.pos m * 2 ^ (e - e')) 4503599627370496 ltac:(lia)) as D.
    pose proof (Z.mod_mul (Z.pos m * 2 ^ (e - e')) 4503599627370496 ltac:(lia)) as R.
    rewrite <- Sh in D, R. unfold Z.div in D. unfold Z.modulo in R. destruct (Z.div_eucl _ _). by subst. }
  rewrite Q. rewrite xorb_false_r.
  assert (E : Z.pos m * 2 ^ (e - e') * 2 ^ (e' + 1074) = Z.pos m * 2 ^ (e + 1074))
    by (rewrite <- Z.mul_assoc, <- Z.pow_add_r by lia; do 2 f_equal; lia).
  pose proof (Z.pow_pos_nonneg 2 (e - e') ltac:(lia) ltac:(lia)) as Pw.
  pose proof (Z.log2_mul_pow2 (Z.pos m) (e - e') ltac:(lia) ltac:(lia)) as L.
  destruct (Z.pos m * 2 ^ (e - e')) as [|q|q]; [lia| |lia].
  change (new_location 4503599627370496 0) with loc_Exact.
  assert (A : Z.pos m * 2 ^ (e + 1074) = Z.abs z * 2 ^ 1074).
  { assert (0 < 2 ^ (e + 1074)) by (apply Z.pow_pos_nonneg; lia).
    assert (0 < 2 ^ 1074) by (by apply Z.pow_pos_nonneg). destruct s; cbn [cond_Zopp] in V; nia. }
  destruct (round_aux_exact s q e') as (C & D & _); [done| | |].
  - rewrite E, A. apply fits_double_Z. lia.
  - rewrite fexp_le, digits_log2, L. unfold dg in *. rewrite digits_log2 in *. lia.
  - split; [exact C|]. rewrite D, E. exact V.
Qed.

Lemma d_to_uint_exact `{CV : Conversions} w x z :
  dfinite x -> dval x = z * 2 ^ 1074 -> fits w z -> d_to_uint w x = z.
Proof.
  intros Hx V [H1 H2]. unfold d_to_uint. rewrite dtrunc_val, V, Z.quot_mul by (done || lia).
  rewrite (proj2 (Z.leb_le _ _)), (proj2 (Z.ltb_lt _ _)) by lia. done.
Qed.

(** ** Scaled offsets *)

(** a 32-bit scaled offset read from a message: [ldexp(z, -41)] *)
Lemma ldexp_offset z :
  sfits 32 z -> let x := ldexp (d_of_Z z) (-41) in dfinite x /\ dval x = z * 2 ^ 1033.
Proof.
  intros H. unfold sfits in H. change (2 ^ (32 - 1)) with (2 ^ 31) in H.
  destruct (d_of_Z_exact z) as [A B]; [lia|].
  apply (ldexp_exact (d_of_Z z) (-41) z 1074 A B); lia.
Qed.

(** what is read as a frequency offset and scaled again is the offset *)
Lemma freq_offset_round_trip `{CV : Conversions} z :
  sfits 32 z -> d_to_int 32 (ldexp (ldexp (d_of_Z z) (-41)) 41) = z.
Proof.
  intros H. destruct (ldexp_offset z H) as [A B]. cbn zeta in A, B.
  unfold sfits in H. change (2 ^ (32 - 1)) with (2 ^ 31) in H.
  destruct (ldexp_exact _ 41 z 1033 A B) as [C D]; try lia.
  by apply d_to_int_exact.
Qed.

(** [1.0 + ldexp(z, -41)] is computed exactly, and so is its way back *)
Lemma rate_ratio_exact z :
  sfits 32 z -> let r := dadd d1 (ldexp (d_of_Z z) (-41)) in dfinite r /\ dval r = (2 ^ 41 + z) * 2 ^ 1033.
Proof.
  intros H. destruct (ldexp_offset z H) as [A B]. cbn zeta in A, B.
  unfold sfits in H. change (2 ^ (32 - 1)) with (2 ^ 31) in H. destruct d1_exact as [C D].
  assert (V : dval d1 + dval (ldexp (d_of_Z z) (-41)) = (2 ^ 41 + z) * 2 ^ 1033)
    by (rewrite B, D; replace (2 ^ 1074) with (2 ^ 41 * 2 ^ 1033) by (by rewrite <- Z.pow_add_r by lia); lia).
  cbn zeta. rewrite <- V. apply dadd_exact; [done|done|]. rewrite V. apply fits_double_shift; lia.
Qed.

Lemma rate_ratio_round_trip `{CV : Conversions} z :
  sfits 32 z -> d_to_int 32 (ldexp (dsub (dadd d1 (ldexp (d_of_Z z) (-41))) d1) 41) = z.
Proof.
  intros H. destruct (rate_ratio_exact z H) as [A B]. cbn zeta in A, B.
  pose proof H as Hz. unfold sfits in Hz. change (2 ^ (32 - 1)) with (2 ^ 31) in Hz.
  destruct d1_exact as [C D]. set (r := dadd _ _) in *.
  assert (V : dval r - dval d1 = z * 2 ^ 1033)
    by (rewrite B, D; replace (2 ^ 1074) with (2 ^ 41 * 2 ^ 1033) by (by rewrite <- Z.pow_add_r by lia); lia).
  destruct (dsub_exact r d1 A C) as [E F]; [rewrite V; apply fits_double_shift; lia|].
  rewrite V in F. destruct (ldexp_exact _ 41 z 1033 E F) as [G I]; try lia.
  by apply d_to_int_exact.
Qed.
