(* ===== verification/Driver.v ===== *)
(** * Driver: the evaluation loop shared by every state machine of the stack.

    Each [<name>_sm(sm, cts64)] of src/tsn_gptp runs the same loop:
<<
      sm->state = allstate_condition(sm);
      while(true){
        state_change=(sm->last_state != sm->state);
        sm->last_state = sm->state;
        switch(sm->state){ ... if(state_change){retp=proc(sm);} sm->state=condition(sm); ... }
        if(retp!=NULL){return retp;}
        if(sm->last_state == sm->state){break;}
      }
      return retp;
>>
    A machine gives the accessors of [state] and [last_state], the all-state
    condition and the switch; this file gives the loop (with fuel), the
    ranking-function criterion under which the fuel is enough, and the rules by
    which a machine's theorems follow from theorems about one pass. *)

From S2P Require Import Prelude.

(** How a call ends: it returns [retp], or it has dereferenced a NULL pointer. *)
Inductive outcome (R : Type) :=
| Ret (retp : option R)
| Crash.
Arguments Ret {R} retp.
Arguments Crash {R}.

(** What the switch does besides updating the machine: fall through to the two
    tests that end the loop body (with [retp == NULL]), or leave the function. *)
Inductive ctl (R : Type) :=
| Next
| Leave (o : outcome R).
Arguments Next {R}.
Arguments Leave {R} o.

(** [if(retp!=NULL){return retp;}] *)
Definition ret_if {R : Type} (retp : option R) : ctl R :=
  match retp with Some r => Leave (Ret (Some r)) | None => Next end.

(** use of a pointer that may be NULL *)
Definition deref {T S R : Type} (p : option T) (s : S) (k : T -> S * ctl R) : S * ctl R :=
  match p with Some t => k t | None => (s, Leave Crash) end.

(** The interface a state machine offers to the loop. *)
Class StateMachine (S E R : Type) `{EqDecision E} := {
  sm_state : S -> E;
  sm_last : S -> E;
  sm_set_last : E -> S -> S;
  sm_allstate : S -> S;              (* sm->state = allstate_condition(sm) *)
  sm_switch : bool -> S -> S * ctl R;  (* state_change, sm *)
  sm_state_set_last : forall e s, sm_state (sm_set_last e s) = sm_state s;
  sm_last_set_last : forall e s, sm_last (sm_set_last e s) = e
}.

Section Loop.
Context {S E R : Type} `{M : StateMachine S E R}.

Definition state_change (s : S) : bool := bool_decide (sm_last s <> sm_state s).

(** one turn of [while(true)] up to the two closing tests *)
Definition pass (s : S) : S * ctl R :=
  sm_switch (state_change s) (sm_set_last (sm_state s) s).

Fixpoint loop (fuel : nat) (s : S) : option (S * outcome R) :=
  match fuel with
  | O => None
  | Datatypes.S n =>
      match pass s with
      | (s', Leave r) => Some (s', r)
      | (s', Next) =>
          if bool_decide (sm_last s' = sm_state s') then Some (s', Ret None) else loop n s'
      end
  end.

(** the whole function, with [fuel] turns of the loop allowed *)
Definition run (fuel : nat) (s : S) : option (S * outcome R) := loop fuel (sm_allstate s).

(** the result of [run], for a machine proved to end within the fuel *)
Definition exec (fuel : nat) (s : S) : S * outcome R :=
  match run fuel s with Some o => o | None => (s, Ret None) end.

(** the loop takes another turn after [s] *)
Definition turns (s s' : S) : Prop := pass s = (s', Next) /\ sm_last s' <> sm_state s'.

End Loop.

Section Facts.
Context {S E R : Type} `{M : StateMachine S E R}.

Lemma loop_mono n m s o : (n <= m)%nat -> loop n s = Some o -> loop m s = Some o.
Proof.
  revert m s. induction n as [|n IH]; intros m s Hm H; [done|].
  destruct m as [|m]; [lia|]. cbn [loop] in *.
  destruct (pass s) as [s' [|r]]; [|done].
  case_bool_decide; [done|]. apply IH; [lia|done].
Qed.

(** A rank that goes down on every further turn bounds the number of turns. *)
Lemma loop_ends (Inv : S -> Prop) (rank : S -> nat) :
  (forall s s', Inv s -> turns s s' -> Inv s' /\ (rank s' < rank s)%nat) ->
  forall n s, Inv s -> (rank s < n)%nat -> is_Some (loop n s).
Proof.
  intros Hdec n. induction n as [|n IH]; intros s Hi Hr; [lia|]. cbn [loop].
  destruct (pass s) as [s' [|r]] eqn:P; [|by eexists].
  case_bool_decide as Hb; [by eexists|].
  destruct (Hdec s s' Hi (conj P Hb)) as [Hi' Hlt].
  apply IH; [done|lia].
Qed.

(** What every pass preserves, the call preserves. *)
Lemma loop_inv (Inv : S -> Prop) :
  (forall s s' c, Inv s -> pass s = (s', c) -> Inv s') ->
  forall n s s' r, Inv s -> loop n s = Some (s', r) -> Inv s'.
Proof.
  intros Hp n. induction n as [|n IH]; intros s s' r Hi H; [done|]. cbn [loop] in H.
  destruct (pass s) as [s1 [|r1]] eqn:P.
  - case_bool_decide; [injection H as <- _; eauto|]. eapply IH; [|done]. eauto.
  - injection H as <- _. eauto.
Qed.

(** A machine at rest ([last_state == state]) whose switch stays put does nothing more. *)
Lemma loop_stop n s s' :
  pass s = (s', Next) -> sm_last s' = sm_state s' -> loop (Datatypes.S n) s = Some (s', Ret None).
Proof. intros H1 H2. cbn [loop]. rewrite H1, bool_decide_eq_true_2; done. Qed.

Lemma loop_next n s s' :
  pass s = (s', Next) ->
  loop (Datatypes.S n) s =
  if bool_decide (sm_last s' = sm_state s') then Some (s', Ret None) else loop n s'.
Proof. intros H. cbn [loop]. by rewrite H. Qed.

Lemma loop_return n s s' r :
  pass s = (s', Leave r) -> loop (Datatypes.S n) s = Some (s', r).
Proof. intros H. cbn [loop]. by rewrite H. Qed.

Lemma loop_turn n s s' :
  turns s s' -> loop (Datatypes.S n) s = loop n s'.
Proof. intros [H1 H2]. cbn [loop]. by rewrite H1, bool_decide_eq_false_2. Qed.

(** A machine that turns for ever on a set of states never returns. *)
Lemma loop_diverges (D : S -> Prop) :
  (forall s, D s -> exists s', turns s s' /\ D s') ->
  forall n s, D s -> loop n s = None.
Proof.
  intros HD n. induction n as [|n IH]; intros s Hs; [done|].
  destruct (HD s Hs) as (s' & Ht & Hd). rewrite (loop_turn _ _ _ Ht). by apply IH.
Qed.

Lemma exec_run n s : is_Some (run n s) -> run n s = Some (exec n s).
Proof. unfold exec. by intros [o ->]. Qed.

Lemma exec_eq n s o : loop n (sm_allstate s) = Some o -> exec n s = o.
Proof. unfold exec, run. by intros ->. Qed.

(** Passes that never leave the function keep it from crashing. *)
Lemma exec_ret (Inv : S -> Prop) n s :
  (forall s, Inv s -> Inv (sm_allstate s)) ->
  (forall s s' c, Inv s -> pass s = (s', c) -> Inv s' /\ c = Next) ->
  Inv s -> Inv (exec n s).1 /\ (exec n s).2 = Ret None.
Proof.
  intros Ha Hp Hi. unfold exec. destruct (run n s) as [[s' r]|] eqn:H; [|done].
  unfold run in H. cbn. apply Ha in Hi. revert H Hi. generalize (sm_allstate s).
  induction n as [|n IH]; intros s1 H Hi; [done|]. cbn [loop] in H.
  destruct (pass s1) as [s2 c] eqn:P. destruct (Hp _ _ _ Hi P) as [Hi2 ->].
  case_bool_decide; [by injection H as <- <-|]. eauto.
Qed.

(** A call that returns something does it from a pass over a state of the invariant. *)
Lemma exec_leave (Inv : S -> Prop) n s s' r :
  Inv (sm_allstate s) ->
  (forall s s', Inv s -> pass s = (s', Next) -> Inv s') ->
  exec n s = (s', Ret (Some r)) ->
  exists s0, Inv s0 /\ pass s0 = (s', Leave (Ret (Some r))).
Proof.
  intros Hi Hp. unfold exec, run. revert Hi. generalize (sm_allstate s).
  destruct n as [|n]; [intros s1 _ H; cbn in H; congruence|].
  induction n as [|n IH]; intros s1 Hi H; cbn [loop] in H; destruct (pass s1) as [s2 c] eqn:P.
  - destruct c as [|o]; [case_bool_decide; congruence|]. injection H as <- ->. by exists s1.
  - destruct c as [|o].
    + case_bool_decide; [congruence|]. apply (IH s2); [by eapply Hp|]. exact H.
    + injection H as <- ->. by exists s1.
Qed.

(** The rule of a whole call: an invariant of the turns, and what holds when a turn ends the call. *)
Lemma exec_hoare (Inv : S -> Prop) (Post : S -> outcome R -> Prop) n s :
  is_Some (run n s) -> Inv (sm_allstate s) ->
  (forall s s' c, Inv s -> pass s = (s', c) ->
   match c with
   | Next => if bool_decide (sm_last s' = sm_state s') then Post s' (Ret None) else Inv s'
   | Leave o => Post s' o
   end) ->
  Post (exec n s).1 (exec n s).2.
Proof.
  unfold exec, run. intros [[s' o] H] Hi Hp. rewrite H. cbn. revert H Hi. generalize (sm_allstate s).
  induction n as [|n IH]; intros s1 H Hi; [done|]. cbn [loop] in H.
  destruct (pass s1) as [s2 c] eqn:P. specialize (Hp _ _ _ Hi P) as Q.
  destruct c as [|o2]; [|by injection H as <- <-].
  destruct (bool_decide _); [by injection H as <- <-|]. by apply (IH s2).
Qed.

Lemma exec_inv (Inv : S -> Prop) n s :
  (forall s, Inv s -> Inv (sm_allstate s)) ->
  (forall s s' c, Inv s -> pass s = (s', c) -> Inv s') ->
  Inv s -> Inv (exec n s).1.
Proof.
  intros Ha Hp Hi. unfold exec. destruct (run n s) as [[s' r]|] eqn:H; [|done].
  eapply loop_inv; [exact Hp| |exact H]. by apply Ha.
Qed.
End Facts.

(** unfold one pass of a concrete machine *)
Ltac pass_cases H :=
  unfold pass in H; cbn [sm_switch sm_set_last sm_state sm_last] in H.

(** decide the state comparisons whose two sides are constructors *)
Ltac settle_changes :=
  repeat match goal with
  | |- context [bool_decide (?a <> ?b)] =>
      first [rewrite (bool_decide_eq_true_2 (a <> b)) by done
            |rewrite (bool_decide_eq_false_2 (a <> b)) by (intros X; by apply X)]
  end;
  try match goal with
  | H : bool_decide (_ <> _) = false |- _ =>
      apply bool_decide_eq_false in H; exfalso; by apply H
  end.

(** run a concrete evaluation: one turn, and the last turn *)
Ltac turn M := erewrite (loop_turn (M := M)) by (split; [reflexivity|done]).
Ltac last_turn M := apply (loop_stop (M := M)); reflexivity.
