(* ===== verification/Common.v ===== *)
(** * Common: gptpcommon.c and the macros of gptpcommon.h.

    Priority vectors and their comparison (10.3.5 of 802.1AS), log intervals,
    the event-loop tick, and the EUI-48 to EUI-64 mapping.  The comparison is
    proved to be the lexicographic order of the vectors' octet keys, hence a
    strict total order: what best-master selection relies on. *)

From S2P Require Import Prelude Types Driver.

Definition UB_SEC_NS : Z := 1000000000.
Definition U64_MAX : Z := 2 ^ 64 - 1.   (* (uint64_t)-1 *)

(** gptpbasetypes.h: the port states and the GM sync states *)
Definition DisabledPort : Z := 3.
Definition MasterPort : Z := 6.
Definition PassivePort : Z := 7.
Definition SlavePort : Z := 9.
Definition GMSYNC_UNSYNC : Z := 0.
Definition GMSYNC_SYNC : Z := 1.
Definition GMSYNC_SYNC_STABLE : Z := 2.
Definition VALUE_DISABLED : Z := 0.
Definition VALUE_ENABLED : Z := 1.

(** mind.h 10.3.9.4 infoIs and 10.3.11.2.1 rcvInfo *)
Definition Received : Z := 0.
Definition Mine : Z := 1.
Definition Aged : Z := 2.
Definition Disabled : Z := 3.
Definition RepeatedMasterInfo : Z := 0.
Definition SuperiorMasterInfo : Z := 1.
Definition InferiorMasterInfo : Z := 2.
Definition OtherInfo : Z := 3.

(** The value a platform gives to [1u << n] for [n >= 32], which C leaves
    undefined: every theorem holds for all choices of it. *)
Class Platform := { shl_undefined : Z -> Z }.

(** a platform for the witnesses: the undefined shifts give 0 *)
Definition platform0 : Platform := {| shl_undefined := fun _ => 0 |}.

Section LogIntervals.
Context `{PL : Platform}.

(** [1u << (uint8_t)n] *)
Definition shl1 (n : Z) : Z := if u8 n <? 32 then 2 ^ u8 n else u32 (shl_undefined (u8 n)).

Definition LOG_TO_NSEC (x : Z) : Z :=
  if 0 <=? x then u64 (UB_SEC_NS * shl1 x) else UB_SEC_NS / shl1 (- x).

End LogIntervals.

Definition LOG_INTERVAL_IN_RESERVED_RANGE (v : Z) : bool :=
  ((-127 <=? v) && (v <=? -25)) || ((25 <=? v) && (v <=? 125)).

Definition GET_FLAG_BIT (x b : Z) : Z := Z.land x (Z.shiftl 1 b).

Definition eui48to64 (eui48 : list Z) (insert : option (list Z)) : list Z :=
  let ins := match insert with
             | None => [0xff; 0xfe]
             | Some i => [nth 0 i 0; nth 1 i 0]
             end in
  [nth 0 eui48 0; nth 1 eui48 0; nth 2 eui48 0] ++ ins ++
  [nth 3 eui48 0; nth 4 eui48 0; nth 5 eui48 0].

(** the [i]th ClockIdentity of a path trace or path sequence *)
Definition clockid_at (path : list Z) (i : nat) : list Z :=
  take CLOCK_IDENTITY_LENGTH (drop (CLOCK_IDENTITY_LENGTH * i) path).

(** mdeth.c: in the current implementation portNumber = portIndex *)
Definition md_port_index2number (index : Z) : Z := index.
Definition md_port_number2index (number : Z) : Z := number.
Definition md_domain_index2number (index : Z) : Z := index.
Definition md_domain_number2index (number : Z) : Z := number.

Definition HAS_PORT_PRIORITY (pp : UInteger224) : bool :=
  let r := U224.rootSystemIdentity pp in
  negb (U112.priority1 r =? 0) || negb (U112.clockClass r =? 0) ||
  negb (U112.clockAccuracy r =? 0) || negb (U112.offsetScaledLogVariance r =? 0) ||
  negb (U112.priority2 r =? 0) || negb (U224.stepsRemoved pp =? 0).

(** gptp_perfmon.h: [PERFMON_PP*_INC] and [_RST] do [f] to the short and the long
    interval record of a port, when the port has a data set *)
Definition inc32 (z : Z) : Z := u32 (z + 1).
Definition both_DR {A : Type} (f : A -> A) (l : list A) : list A := alter f 1%nat (alter f 0%nat l).
Definition PERFMON_PPMDR (f : PortPerfMonDataRecord -> PortPerfMonDataRecord)
    (ds : option PerfMonPortDS) : option PerfMonPortDS :=
  option_map (fun d => d <| PortDS.portDR ::= both_DR f |>) ds.
Definition PERFMON_PPMSDR (f : PortPerfMonSignalingDataRecord -> PortPerfMonSignalingDataRecord)
    (ds : option PerfMonPortDS) : option PerfMonPortDS :=
  option_map (fun d => d <| PortDS.signalingDR ::= both_DR f |>) ds.

Inductive bmcs_priority_comparison_result :=
| SAME_PRIORITY
| SUPERIOR_PRIORITY
| INFERIOR_PRIORITY.

#[export] Instance bmcs_result_eqdec : EqDecision bmcs_priority_comparison_result.
Proof. solve_decision. Defined.

Definition SELECT_PRIORITY (a b : Z) : bmcs_priority_comparison_result :=
  if a =? b then SAME_PRIORITY else if a <? b then SUPERIOR_PRIORITY else INFERIOR_PRIORITY.

(** [if (result != SAME_PRIORITY) {return result;}] *)
Definition or_else (result next : bmcs_priority_comparison_result) :=
  match result with SAME_PRIORITY => next | _ => result end.

Fixpoint compare_clockid_from (i n : nat) (A B : list Z) : bmcs_priority_comparison_result :=
  match n with
  | O => SAME_PRIORITY
  | S n => or_else (SELECT_PRIORITY (nth i A 0) (nth i B 0)) (compare_clockid_from (S i) n A B)
  end.

Definition compare_clockid (A B : list Z) : bmcs_priority_comparison_result :=
  compare_clockid_from 0 CLOCK_IDENTITY_LENGTH A B.

Definition compare_priority_vectors (A B : UInteger224) : bmcs_priority_comparison_result :=
  let ra := U224.rootSystemIdentity A in
  let rb := U224.rootSystemIdentity B in
  let sa := U224.sourcePortIdentity A in
  let sb := U224.sourcePortIdentity B in
  or_else (SELECT_PRIORITY (U112.priority1 ra) (U112.priority1 rb)) (
  or_else (SELECT_PRIORITY (U112.clockClass ra) (U112.clockClass rb)) (
  or_else (SELECT_PRIORITY (U112.clockAccuracy ra) (U112.clockAccuracy rb)) (
  or_else (SELECT_PRIORITY (U112.offsetScaledLogVariance ra) (U112.offsetScaledLogVariance rb)) (
  or_else (SELECT_PRIORITY (U112.priority2 ra) (U112.priority2 rb)) (
  or_else (compare_clockid (U112.clockIdentity ra) (U112.clockIdentity rb)) (
  or_else (SELECT_PRIORITY (U224.stepsRemoved A) (U224.stepsRemoved B)) (
  or_else (compare_clockid (PortId.clockIdentity sa) (PortId.clockIdentity sb)) (
  or_else (SELECT_PRIORITY (PortId.portIndex sa) (PortId.portIndex sb)) (
  SELECT_PRIORITY (U224.portNumber A) (U224.portNumber B)))))))))).

(** the tick of the event loop: the shortest interval in use, at most 125 ms *)
Definition maxToutIntervalNs : Z := 125000000.

Definition min_tout (interval cur : Z) : Z :=
  if negb (interval =? 0) then (if interval <? cur then interval else cur) else cur.

Definition adjust_tout_interval (crrToutIntervalNs syncIntervalNs AnnounceIntervalNs
    pDelayIntervalNs asCapableIntervalNs : Z) : Z :=
  let m := maxToutIntervalNs in
  let m := min_tout syncIntervalNs m in
  let m := min_tout AnnounceIntervalNs m in
  let m := min_tout pDelayIntervalNs m in
  let m := min_tout asCapableIntervalNs m in
  let m := if maxToutIntervalNs <? m then maxToutIntervalNs else m in
  if negb (u32 m =? crrToutIntervalNs) then u32 m else crrToutIntervalNs.

(** ** The order of priority vectors *)

(** the octets and numbers of a vector in the order 10.3.5 compares them *)
Definition clockid_key (l : list Z) : list Z :=
  map (fun i => nth i l 0) (seq 0 CLOCK_IDENTITY_LENGTH).

Definition priority_key (v : UInteger224) : list Z :=
  let r := U224.rootSystemIdentity v in
  let s := U224.sourcePortIdentity v in
  [U112.priority1 r; U112.clockClass r; U112.clockAccuracy r;
   U112.offsetScaledLogVariance r; U112.priority2 r] ++
  clockid_key (U112.clockIdentity r) ++ [U224.stepsRemoved v] ++
  clockid_key (PortId.clockIdentity s) ++ [PortId.portIndex s; U224.portNumber v].

(** lexicographic comparison of equally long keys *)
Fixpoint lex (a b : list Z) : bmcs_priority_comparison_result :=
  match a, b with
  | x :: a, y :: b => or_else (SELECT_PRIORITY x y) (lex a b)
  | _, _ => SAME_PRIORITY
  end.

Definition superior (a b : UInteger224) : Prop :=
  compare_priority_vectors a b = SUPERIOR_PRIORITY.

#[export] Instance superior_dec a b : Decision (superior a b).
Proof. unfold superior. solve_decision. Defined.

(** both clock identities are 8 octets *)
Definition wf224 (v : UInteger224) : Prop :=
  length (U112.clockIdentity (U224.rootSystemIdentity v)) = CLOCK_IDENTITY_LENGTH /\
  length (PortId.clockIdentity (U224.sourcePortIdentity v)) = CLOCK_IDENTITY_LENGTH.

Lemma or_else_assoc a b c : or_else (or_else a b) c = or_else a (or_else b c).
Proof. by destruct a. Qed.

Lemma lex_app a a' b b' :
  length a = length a' -> lex (a ++ b) (a' ++ b') = or_else (lex a a') (lex b b').
Proof.
  revert a'. induction a as [|x a IH]; intros [|y a'] H; try done.
  cbn. injection H as H. by rewrite IH, or_else_assoc.
Qed.

Lemma compare_clockid_lex A B : compare_clockid A B = lex (clockid_key A) (clockid_key B).
Proof. reflexivity. Qed.

Lemma clockid_key_length l : length (clockid_key l) = 8%nat.
Proof. reflexivity. Qed.

Lemma or_else_same a : or_else a SAME_PRIORITY = a.
Proof. by destruct a. Qed.

Lemma compare_lex A B : compare_priority_vectors A B = lex (priority_key A) (priority_key B).
Proof.
  unfold priority_key, compare_priority_vectors. rewrite !compare_clockid_lex.
  rewrite !lex_app by reflexivity. cbn [lex]. by rewrite !or_else_same, !or_else_assoc.
Qed.

Lemma lex_refl a : lex a a = SAME_PRIORITY.
Proof. induction a as [|x a IH]; [done|]. cbn. unfold SELECT_PRIORITY. by rewrite Z.eqb_refl. Qed.

Lemma lex_same a b : length a = length b -> lex a b = SAME_PRIORITY -> a = b.
Proof.
  revert b. induction a as [|x a IH]; intros [|y b] Hl; try done.
  cbn. unfold SELECT_PRIORITY. injection Hl as Hl.
  destruct (Z.eqb_spec x y) as [->|]; [|by destruct (x <? y)].
  cbn. intros. by rewrite (IH b).
Qed.

Lemma lex_trans a b c :
  length a = length b -> length b = length c ->
  lex a b = SUPERIOR_PRIORITY -> lex b c = SUPERIOR_PRIORITY -> lex a c = SUPERIOR_PRIORITY.
Proof.
  revert b c. induction a as [|x a IH]; intros [|y b] [|z c] H1 H2; try done.
  cbn. unfold SELECT_PRIORITY. injection H1 as H1. injection H2 as H2.
  repeat (destruct_cond; bool_hyps; cbn; try done; try lia). by apply (IH b c).
Qed.

Lemma lex_flip a b :
  length a = length b -> (lex a b = INFERIOR_PRIORITY <-> lex b a = SUPERIOR_PRIORITY).
Proof.
  revert b. induction a as [|x a IH]; intros [|y b] Hl; try done.
  cbn. unfold SELECT_PRIORITY. injection Hl as Hl.
  repeat (destruct_cond; bool_hyps; cbn; try done; try lia). by apply IH.
Qed.

#[export] Instance superior_strict : StrictOrder superior.
Proof.
  split.
  - intros a H. unfold superior in H. by rewrite compare_lex, lex_refl in H.
  - intros a b c. unfold superior. rewrite !compare_lex. by apply lex_trans.
Qed.

Lemma clockid_key_id l : length l = 8%nat -> clockid_key l = l.
Proof. intros H. do 8 (destruct l as [|? l]; [done|]). by destruct l. Qed.

Lemma priority_key_inj a b : wf224 a -> wf224 b -> priority_key a = priority_key b -> a = b.
Proof.
  destruct a as [[]?[]?], b as [[]?[]?]. unfold wf224, priority_key. cbn -[clockid_key].
  intros [A1 A2] [B1 B2]. rewrite !clockid_key_id by done. intros H.
  injection H as -> -> -> -> -> H.
  apply app_inj_1 in H as [-> H]; [|congruence]. injection H as -> H.
  apply app_inj_1 in H as [-> H]; [|congruence]. by injection H as -> ->.
Qed.

Lemma compare_same_iff a b :
  wf224 a -> wf224 b -> (compare_priority_vectors a b = SAME_PRIORITY <-> a = b).
Proof.
  intros Ha Hb. rewrite compare_lex. split; [|intros ->; apply lex_refl].
  intros H. apply lex_same in H; [|done]. by apply priority_key_inj.
Qed.

Lemma superior_trichotomy a b :
  wf224 a -> wf224 b -> superior a b \/ a = b \/ superior b a.
Proof.
  intros Ha Hb. unfold superior.
  destruct (compare_priority_vectors a b) eqn:E; auto.
  - right; left. by apply compare_same_iff.
  - right; right. rewrite compare_lex in *. by apply lex_flip.
Qed.

(** C3. The comparison of priority vectors is the lexicographic order of the octets and numbers
    10.3.5 lists: a strict total order, so that among the vectors of the ports there is always
    exactly one best. *)
Theorem priority_vectors_totally_ordered a b c :
  wf224 a -> wf224 b ->
  compare_priority_vectors a b = lex (priority_key a) (priority_key b) /\
  ~ superior a a /\ (superior a b -> superior b c -> superior a c) /\
  (superior a b \/ a = b \/ superior b a) /\
  (compare_priority_vectors a b = INFERIOR_PRIORITY <-> superior b a).
Proof.
  intros Ha Hb. split_and!.
  - apply compare_lex.
  - apply irreflexivity. apply _.
  - apply transitivity.
  - by apply superior_trichotomy.
  - unfold superior. rewrite !compare_lex. by apply lex_flip.
Qed.

Lemma min_tout_spec i cur :
  0 <= i -> 0 < cur ->
  0 < min_tout i cur <= cur /\ (i <> 0 -> min_tout i cur <= i) /\
  (min_tout i cur = cur \/ min_tout i cur = i).
Proof. intros. unfold min_tout. repeat destruct_cond; bool_hyps; lia. Qed.

(** The tick of the event loop is positive, at most 125 ms and no longer than any of the
    intervals in use, and is one of these. *)
Theorem tout_interval_bounds crr s a p c :
  0 <= s -> 0 <= a -> 0 <= p -> 0 <= c ->
  let t := adjust_tout_interval crr s a p c in
  0 < t <= maxToutIntervalNs /\
  Forall (fun i => i <> 0 -> t <= i) [s; a; p; c] /\ In t [maxToutIntervalNs; s; a; p; c].
Proof.
  intros Hs Ha Hp Hc. unfold adjust_tout_interval.
  assert (H0 : 0 < maxToutIntervalNs) by (unfold maxToutIntervalNs; lia).
  destruct (min_tout_spec s _ Hs H0) as (B1 & C1 & D1).
  destruct (min_tout_spec a _ Ha (proj1 B1)) as (B2 & C2 & D2).
  destruct (min_tout_spec p _ Hp (proj1 B2)) as (B3 & C3 & D3).
  destruct (min_tout_spec c _ Hc (proj1 B3)) as (B4 & C4 & D4).
  set (m1 := min_tout s _) in *. set (m2 := min_tout a m1) in *.
  set (m3 := min_tout p m2) in *. set (m4 := min_tout c m3) in *. clearbody m1 m2 m3 m4.
  rewrite (proj2 (Z.ltb_ge maxToutIntervalNs m4)) by lia.
  rewrite wrap_id by (unfold fits, maxToutIntervalNs in *; lia).
  assert (E : (if negb (m4 =? crr) then m4 else crr) = m4)
    by (destruct (Z.eqb_spec m4 crr) as [->|]; done).
  rewrite E. split_and!; try lia.
  - repeat (constructor; [lia|]). constructor.
  - cbn [In]. lia.
Qed.

(** ** Witnesses *)

Definition vec1 : UInteger224 := zero <| U224.rootSystemIdentity; U112.priority1 := 246 |>.
Definition vec2 : UInteger224 := zero <| U224.rootSystemIdentity; U112.priority1 := 248 |>.

Lemma priority_order_witness : superior vec1 vec2 \/ vec1 = vec2 \/ superior vec2 vec1.
Proof.
  refine (proj1 (proj2 (proj2 (proj2 (priority_vectors_totally_ordered vec1 vec2 vec2 _ _)))));
    split; reflexivity.
Defined.

Lemma tout_interval_witness :
  0 < adjust_tout_interval 125000000 31250000 1000000000 0 1000000000 <= maxToutIntervalNs.
Proof.
  refine (proj1 (tout_interval_bounds 125000000 31250000 1000000000 0 1000000000 _ _ _ _)); lia.
Defined.
