(* ===== verification/Clock.v ===== *)
(** * Clock: the part of gptpclock.c the state machines drive.

    GM synchronisation status, GM identity and the active domain of the master
    clock entity ([clockIndex = 0]) of every domain.  Reads of the configuration
    database are the fields of [Config]; writes to the database and the frequency
    or phase adjustments of the hardware clocks are recorded in [events]. *)

From stdpp Require Import gmap.
From Stdlib Require Import SpecFloat.
From S2P Require Import Prelude Types Common.
#[local] Open Scope Z_scope.
#[local] Open Scope gptp_scope.

(** gptpgcfg_get_intitem / gptpgcfg_get_yang_intitem with YDBI_CONFIG: values the
    stack reads and never writes *)
Class Config := {
  STATIC_PORT_STATE_SLAVE_PORT : Z;
  INITIAL_SLAVE_TIME : Z;
  RESET_FREQADJ_BECOMEGM : Z;
  ACTIVE_DOMAIN_AUTO_SWITCH : Z;
  TEST_SYNC_REC_PORT : Z;
  TEST_SYNC_SEND_PORT : Z;
  CMLDS_MODE : Z;
  NEIGHBOR_PROP_DELAY : Z;
  PRIORITY1 : Z -> Z   (* of a domain's default-ds *)
}.

Inductive event :=
| EvPortState (port domain state : Z)     (* IEEE1588_PTP_TT_PORT_STATE *)
| EvGmState (domain gmstate : Z)          (* IEEE1588_PTP_TT_GMSTATE(_TS64) *)
| EvGmChange (domain : Z) (id : list Z) (becomeGM : bool)   (* a new grandmaster identity *)
| EvAsCapable (domain port : Z) (v : bool)
| EvAdjustGM (domain : Z)                 (* adjust_GM_btw_domains *)
| EvSetAdj (domain adjvppb : Z).          (* gptpclock_setadj of thisClock *)

Module Clock0.

(** od->pp and gcd->pdd[] of the master clock of one domain *)
Record Clock0 := mk {
  gmsync : Z;
  gmchange_ind : Z;
  gmClockId : list Z;
  we_are_gm : bool;
  thisClock_adjppb : Z
}.
#[export] Instance eta_Clock0 : Eta Clock0 :=
  fields! mk [gmsync, gmchange_ind, gmClockId, we_are_gm, thisClock_adjppb].

End Clock0.
Export (hints) Clock0.
Abbreviation Clock0 := Clock0.Clock0.

Module Gcd.

Record gptpclock_data := mk {
  clds : gmap Z Clock0;       (* the entities (clockIndex 0, domain) that are open *)
  active_domain : Z;
  active_domain_switch : Z;
  max_domains : Z;
  events : list event
}.
#[export] Instance eta_gptpclock_data : Eta gptpclock_data :=
  fields! mk [clds, active_domain, active_domain_switch, max_domains, events].

End Gcd.
Export (hints) Gcd.
Abbreviation gptpclock_data := Gcd.gptpclock_data.

Definition emit (e : event) (gcd : gptpclock_data) : gptpclock_data :=
  gcd <| Gcd.events ::= fun l => l ++ [e] |>.

Section Ops.
Context `{CF : Config}.

(** gcd->clds entity (0, domainIndex), as GPTPCLOCK_FN_ENTRY finds it *)
Definition get_clockod (gcd : gptpclock_data) (domainIndex : Z) : option Clock0 :=
  Gcd.clds gcd !! domainIndex.

Definition switch_active_domain (di : Z) (gcd : gptpclock_data) : gptpclock_data :=
  if Gcd.active_domain gcd =? di then gcd else gcd <| Gcd.active_domain := di |>.

(** for(i=0;i<max_domains;i++): the first stable domain; a missing entity ends the search *)
Fixpoint find_stable_domain (n : nat) (i : Z) (gcd : gptpclock_data) : option Z :=
  match n with
  | O => None
  | S n =>
      match get_clockod gcd i with
      | None => None
      | Some od => if Clock0.gmsync od =? GMSYNC_SYNC_STABLE then Some i
                   else find_stable_domain n (i + 1) gcd
      end
  end.

Definition gptpclock_update_active_domain (gcd : gptpclock_data) : gptpclock_data :=
  if 0 <=? Gcd.active_domain_switch gcd then
    switch_active_domain (Gcd.active_domain_switch gcd) gcd
  else if ACTIVE_DOMAIN_AUTO_SWITCH =? 0 then gcd
  else match get_clockod gcd (Gcd.active_domain gcd) with
       | None => gcd
       | Some od =>
           if (Clock0.gmsync od =? GMSYNC_SYNC_STABLE) && (ACTIVE_DOMAIN_AUTO_SWITCH =? 1)
           then gcd
           else match find_stable_domain (Z.to_nat (Gcd.max_domains gcd)) 0 gcd with
                | Some i => switch_active_domain i gcd
                | None => gcd
                end
       end.

Definition gptpclock_set_gmsync (domainIndex gmstate : Z) (gcd : gptpclock_data)
  : gptpclock_data :=
  match get_clockod gcd domainIndex with
  | None => gcd
  | Some od =>
      if Clock0.gmsync od =? gmstate then gcd
      else
        let gcd := gcd <| Gcd.clds ::= <[domainIndex := od <| Clock0.gmsync := gmstate |>]> |> in
        let gcd := gptpclock_update_active_domain gcd in
        emit (EvGmState domainIndex gmstate) gcd
  end.

Definition gptpclock_get_gmsync (domainIndex : Z) (gcd : gptpclock_data) : Z :=
  match get_clockod gcd domainIndex with
  | None => GMSYNC_UNSYNC
  | Some od => if Clock0.gmsync od <? 0 then GMSYNC_UNSYNC else Clock0.gmsync od
  end.

Definition gptpclock_get_adjppb (domainIndex : Z) (gcd : gptpclock_data) : Z :=
  match get_clockod gcd domainIndex with None => 0 | Some od => Clock0.thisClock_adjppb od end.

Definition gptpclock_set_gmchange (domainIndex : Z) (gmIdentity : list Z) (becomeGM : bool)
    (gcd : gptpclock_data) : gptpclock_data :=
  match get_clockod gcd domainIndex with
  | None => gcd
  | Some od =>
      if bool_decide (Clock0.gmClockId od = gmIdentity) then gcd
      else
        let od := od <| Clock0.gmchange_ind ::= fun z => u32 (z + 1) |>
                     <| Clock0.gmClockId := gmIdentity |>
                     <| Clock0.we_are_gm := becomeGM |> in
        let gcd := emit (EvGmChange domainIndex gmIdentity becomeGM)
                     (gcd <| Gcd.clds ::= <[domainIndex := od]> |>) in
        if becomeGM then
          let gcd := if negb (domainIndex =? 0) then emit (EvAdjustGM domainIndex) gcd else gcd in
          if negb (RESET_FREQADJ_BECOMEGM =? 0) then
            emit (EvSetAdj domainIndex 0)
              (gcd <| Gcd.clds ::= alter (fun o => o <| Clock0.thisClock_adjppb := 0 |>) domainIndex |>)
          else gcd
        else gcd
  end.
End Ops.

(** ** GM synchronisation status *)

Section Facts.
Context `{CF : Config}.

Lemma clds_update_active gcd : Gcd.clds (gptpclock_update_active_domain gcd) = Gcd.clds gcd.
Proof.
  unfold gptpclock_update_active_domain, switch_active_domain.
  repeat (case_match; try done).
Qed.

Lemma get_set_gmsync_eq d v gcd :
  is_Some (get_clockod gcd d) -> 0 <= v ->
  gptpclock_get_gmsync d (gptpclock_set_gmsync d v gcd) = v.
Proof.
  intros [od E] Hv. unfold gptpclock_set_gmsync, gptpclock_get_gmsync. rewrite E.
  destruct (Z.eqb_spec (Clock0.gmsync od) v) as [<-|Hne].
  - rewrite E. destruct_cond; bool_hyps; lia.
  - unfold get_clockod, emit. cbn. rewrite clds_update_active. cbn.
    rewrite lookup_insert_eq. cbn. destruct_cond; bool_hyps; lia.
Qed.

Lemma get_set_gmsync_ne d d' v gcd :
  d <> d' -> gptpclock_get_gmsync d' (gptpclock_set_gmsync d v gcd) = gptpclock_get_gmsync d' gcd.
Proof.
  intros Hd. unfold gptpclock_set_gmsync. destruct (get_clockod gcd d) as [od|]; [|done].
  destruct_cond; [done|]. unfold gptpclock_get_gmsync, get_clockod, emit. cbn.
  rewrite clds_update_active. cbn. by rewrite lookup_insert_ne.
Qed.

Lemma set_gmsync_none d v gcd :
  get_clockod gcd d = None -> gptpclock_set_gmsync d v gcd = gcd.
Proof. unfold gptpclock_set_gmsync. by intros ->. Qed.
End Facts.

(** The synchronisation status given to the master clock of a domain is the one read back for
    that domain, the status of the other domains stays, and a domain without a clock entity reads
    as unsynchronised. *)
Theorem gmsync_status_kept `{CF : Config} d d' v gcd :
  is_Some (get_clockod gcd d) -> 0 <= v ->
  let gcd' := gptpclock_set_gmsync d v gcd in
  gptpclock_get_gmsync d gcd' = v /\
  (d <> d' -> gptpclock_get_gmsync d' gcd' = gptpclock_get_gmsync d' gcd) /\
  (get_clockod gcd d' = None -> gptpclock_get_gmsync d' gcd' = GMSYNC_UNSYNC).
Proof.
  intros H Hv. cbn zeta. split_and!; [by apply get_set_gmsync_eq|apply get_set_gmsync_ne|].
  intros N. rewrite get_set_gmsync_ne; [by unfold gptpclock_get_gmsync; rewrite N|].
  intros ->. rewrite N in H. by destruct H.
Qed.

(** a configuration for the witnesses *)
Definition config0 : Config := {|
  STATIC_PORT_STATE_SLAVE_PORT := 0; INITIAL_SLAVE_TIME := 0; RESET_FREQADJ_BECOMEGM := 0;
  ACTIVE_DOMAIN_AUTO_SWITCH := 2; TEST_SYNC_REC_PORT := -1; TEST_SYNC_SEND_PORT := -1;
  CMLDS_MODE := 0; NEIGHBOR_PROP_DELAY := 0; PRIORITY1 := fun _ => 248 |}.

Lemma gmsync_witness :
  let gcd := Gcd.mk {[ 0 := Clock0.mk 0 0 (replicate 8 0) false 0 ]} 0 (-1) 1 [] in
  gptpclock_get_gmsync 0 (gptpclock_set_gmsync (CF := config0) 0 2 gcd) = 2.
Proof.
  intros gcd. refine (proj1 (gmsync_status_kept (CF := config0) 0 1 2 gcd _ _)); [|lia].
  eexists. reflexivity.
Defined.
