(* ===== verification/AnnounceReceive.v ===== *)
(** * AnnounceReceive: port_announce_receive_sm.c (10.3.11, PortAnnounceReceive).

    Qualification of a received Announce: its own announces, announces that have
    come 255 steps and announces whose path already holds this clock are dropped;
    on the slave port the received path, extended with this clock, becomes the
    instance's path trace. *)

From S2P Require Import Prelude Types Driver Common.

Module PAR.

Inductive port_announce_receive_state_t := INIT | DISCARD | RECEIVE | REACTION.
#[export] Instance state_eqdec : EqDecision port_announce_receive_state_t.
Proof. solve_decision. Defined.

(** [rcvdAnnouncePtr] of [bppg], when set, points to [rcvdAnnounce]; both are
    always written together, so the pointee is kept by value in [bppg]. *)
Record port_announce_receive_data := mk {
  ptasg : PerTimeAwareSystemGlobal;
  ppg : PerPortGlobal;
  bptasg : BmcsPerTimeAwareSystemGlobal;
  bppg : BmcsPerPortGlobal;
  state : port_announce_receive_state_t;
  last_state : port_announce_receive_state_t;
  thisSM : PortAnnounceReceiveSM;
  domainIndex : Z;
  portIndex : Z;
  rcvdAnnounce : PTPMsgAnnounce
}.
#[export] Instance eta_data : Eta port_announce_receive_data :=
  fields! mk [ptasg, ppg, bptasg, bppg, state, last_state, thisSM, domainIndex, portIndex,
              rcvdAnnounce].
Abbreviation data := port_announce_receive_data.

Definition PORT_OPER (sm : data) : bool := PPGALL.portOper (PPG.forAllDomain (ppg sm)).
Definition PORT_UP (sm : data) : bool :=
  PORT_OPER sm && PPG.ptpPortEnabled (ppg sm) && PPG.asCapable (ppg sm).

(** the number of path entries a received TLV is taken to hold *)
Definition path_N (m : PTPMsgAnnounce) : nat :=
  Nat.min (Z.to_nat (Ann.tlvLength m / 8)) MAX_PATH_TRACE_N.

Definition already_traversed (m : PTPMsgAnnounce) (thisClock : list Z) : bool :=
  existsb (fun i => bool_decide (clockid_at (Ann.pathSequence m) i = thisClock)) (seq 0 (path_N m)).

Definition qualifyAnnounce (m : PTPMsgAnnounce) (sm : data) : data * bool :=
  let thisClock := PTASG.thisClock (ptasg sm) in
  if bool_decide (PortId.clockIdentity (Hdr.sourcePortIdentity (Ann.header m)) = thisClock)
  then (sm, false)
  else if 255 <=? Ann.stepsRemoved m then (sm, false)
  else if Ann.tlvType m =? 8 then
    let N := path_N m in
    if already_traversed m thisClock then (sm, false)
    else if aget 0 (PTASG.selectedState (ptasg sm)) (PPG.thisPort (ppg sm)) =? SlavePort then
      if (N + 1 <=? MAX_PATH_TRACE_N)%nat then
        (sm <| bptasg; BPTASG.pathTrace ::= fun t =>
                 memcpy_at (8 * N) thisClock
                   (memcpy_at 0 (take (8 * N) (Ann.pathSequence m)) t) |>
            <| bptasg; BPTASG.pathTraceCount := Z.of_nat (N + 1) |>, true)
      else (sm <| bptasg; BPTASG.pathTraceCount := 0 |>, true)
    else (sm, true)
  else (sm <| bptasg; BPTASG.pathTrace := replicate (MAX_PATH_TRACE_N * 8) 0 |>, true).

Definition allstate_condition (sm : data) : port_announce_receive_state_t :=
  if (PTASG.BEGIN (ptasg sm) || negb (PTASG.instanceEnable (ptasg sm)) ||
      (PARsm.rcvdAnnounce (thisSM sm) && negb (PORT_UP sm))) &&
     (BPTASG.externalPortConfiguration (bptasg sm) =? VALUE_DISABLED)
  then DISCARD else state sm.

Definition discard_proc (sm : data) : data :=
  sm <| thisSM; PARsm.rcvdAnnounce := false |> <| bppg; BPPG.rcvdMsg := false |>.

Definition discard_condition (sm : data) : port_announce_receive_state_t :=
  if PARsm.rcvdAnnounce (thisSM sm) && PORT_UP sm then RECEIVE else DISCARD.

Definition receive_proc (m : PTPMsgAnnounce) (sm : data) : data :=
  let sm := sm <| thisSM; PARsm.rcvdAnnounce := false |> in
  let (sm, ok) := qualifyAnnounce m sm in
  sm <| bppg; BPPG.rcvdMsg := ok |>.

Definition receive_condition (sm : data) : port_announce_receive_state_t :=
  if PARsm.rcvdAnnounce (thisSM sm) && PORT_UP sm && negb (BPPG.rcvdMsg (bppg sm))
  then RECEIVE else state sm.

Definition switch (state_change : bool) (sm : data) : data * ctl unit :=
  match state sm with
  | INIT => (sm <| state := DISCARD |>, Next)
  | DISCARD =>
      let sm := if state_change then discard_proc sm else sm in
      (sm <| state := discard_condition sm |>, Next)
  | RECEIVE =>
      if state_change then
        deref (BPPG.rcvdAnnouncePtr (bppg sm)) sm (fun m =>
          let sm := receive_proc m sm in (sm <| state := receive_condition sm |>, Next))
      else (sm <| state := receive_condition sm |>, Next)
  | REACTION => (sm, Next)
  end.

Definition set_last (e : port_announce_receive_state_t) (sm : data) : data :=
  sm <| last_state := e |>.
Definition set_allstate (sm : data) : data := sm <| state := allstate_condition sm |>.

#[export] Instance machine : StateMachine data port_announce_receive_state_t unit := {
  sm_state := state;
  sm_last := last_state;
  sm_set_last := set_last;
  sm_allstate := set_allstate;
  sm_switch := switch;
  sm_state_set_last := fun _ _ => eq_refl;
  sm_last_set_last := fun _ _ => eq_refl
}.

(** at most three turns: INIT, DISCARD, RECEIVE *)
Definition fuel : nat := 4.

Definition port_announce_receive_sm (sm : data) : data * outcome unit := exec fuel sm.

Definition port_announce_receive_sm_init (domainIndex portIndex : Z)
    (ptasg : PerTimeAwareSystemGlobal) (ppg : PerPortGlobal)
    (bptasg : BmcsPerTimeAwareSystemGlobal) (bppg : BmcsPerPortGlobal) : data * outcome unit :=
  port_announce_receive_sm
    (mk ptasg ppg bptasg bppg INIT INIT zero domainIndex portIndex zero).

Definition port_announce_receive_sm_recv_announce (m : PTPMsgAnnounce) (sm : data)
  : data * outcome unit :=
  port_announce_receive_sm
    (sm <| thisSM; PARsm.rcvdAnnounce := true |>
        <| rcvdAnnounce := m |>
        <| bppg; BPPG.rcvdAnnouncePtr := Some m |>
        <| last_state := DISCARD |>).

(** ** Properties *)

Definition rank (sm : data) : nat :=
  match state sm with INIT => 2 | DISCARD => 1 | RECEIVE => 0 | REACTION => 0 end.

Lemma qualify_keeps m sm :
  let sm' := (qualifyAnnounce m sm).1 in
  state sm' = state sm /\ last_state sm' = last_state sm /\ thisSM sm' = thisSM sm /\
  ppg sm' = ppg sm /\ ptasg sm' = ptasg sm /\ bppg sm' = bppg sm.
Proof. unfold qualifyAnnounce. repeat destruct_cond; done. Qed.

Lemma par_receive_keeps m sm :
  let sm' := receive_proc m sm in
  state sm' = state sm /\ last_state sm' = last_state sm /\
  PARsm.rcvdAnnounce (thisSM sm') = false /\ ppg sm' = ppg sm.
Proof.
  unfold receive_proc. cbn zeta.
  pose proof (qualify_keeps m (sm <| thisSM; PARsm.rcvdAnnounce := false |>)) as K. cbn zeta in K.
  destruct (qualifyAnnounce _ _) as [s' ok]. cbn in K |- *.
  destruct K as (-> & -> & -> & -> & _). done.
Qed.

Lemma receive_stays m sm : receive_condition (receive_proc m sm) = state sm.
Proof.
  unfold receive_condition. destruct (par_receive_keeps m sm) as (E & _ & R & _).
  by rewrite R, E.
Qed.

Lemma announce_receive_turns (s s' : data) : turns s s' -> (rank s' < rank s)%nat.
Proof.
  intros [H Hne]. cbn in Hne. unfold pass, switch, rank, deref in *.
  cbn [sm_switch machine sm_set_last set_last sm_state] in H.
  destruct s as [pt pp bt bp st ls th di pi ra]. cbn in *.
  destruct st; cbn in *.
  - injection H as <-. cbn in *. lia.
  - injection H as <-. destruct (state_change _); cbn in *;
      unfold discard_condition in *; repeat (destruct_cond; cbn in *); done || lia.
  - destruct (state_change _).
    + destruct (BPPG.rcvdAnnouncePtr _) as [m|]; [|discriminate]. injection H as <-.
      cbn in *. rewrite receive_stays in *. cbn in *.
      by rewrite (proj1 (proj2 (par_receive_keeps m _))) in Hne.
    + injection H as <-. cbn in *. unfold receive_condition in *.
      destruct_cond; done.
  - by injection H as <-.
Qed.

Lemma announce_receive_sm_ends (sm : data) : run fuel sm = Some (port_announce_receive_sm sm).
Proof.
  apply exec_run. unfold run. apply loop_ends with (Inv := fun _ => True) (rank := rank).
  - intros s s' _ H. split; [done|by apply announce_receive_turns].
  - done.
  - unfold rank, fuel. destruct (state _); lia.
Qed.

(** what qualification decides *)
Definition qualifies (m : PTPMsgAnnounce) (thisClock : list Z) : Prop :=
  PortId.clockIdentity (Hdr.sourcePortIdentity (Ann.header m)) <> thisClock /\
  Ann.stepsRemoved m < 255 /\
  (Ann.tlvType m = 8 -> forall i, (i < path_N m)%nat ->
     clockid_at (Ann.pathSequence m) i <> thisClock).

Lemma already_traversed_spec m c :
  already_traversed m c = true <->
  exists i, (i < path_N m)%nat /\ clockid_at (Ann.pathSequence m) i = c.
Proof.
  unfold already_traversed. rewrite existsb_exists. split; intros (i & H1 & H2); exists i.
  - apply in_seq in H1. apply bool_decide_eq_true in H2. split; [lia|done].
  - split; [apply in_seq; lia|by apply bool_decide_eq_true].
Qed.

Lemma qualify_iff m sm :
  (qualifyAnnounce m sm).2 = true <-> qualifies m (PTASG.thisClock (ptasg sm)).
Proof.
  unfold qualifyAnnounce, qualifies.
  case_bool_decide as H1; [cbn; split; [done|tauto]|].
  destruct (Z.leb_spec 255 (Ann.stepsRemoved m)); [cbn; split; [done|lia]|].
  destruct (Z.eqb_spec (Ann.tlvType m) 8) as [T|T].
  - destruct (already_traversed _ _) eqn:A.
    + cbn. apply already_traversed_spec in A as (i & Hi & E). split; [done|].
      intros (_ & _ & F). by destruct (F T i Hi).
    + assert (forall i, (i < path_N m)%nat ->
        clockid_at (Ann.pathSequence m) i <> PTASG.thisClock (ptasg sm)).
      { intros i Hi E. enough (already_traversed m (PTASG.thisClock (ptasg sm)) = true)
          by congruence. apply already_traversed_spec. eauto. }
      repeat (destruct_cond; cbn); tauto.
  - cbn. naive_solver.
Qed.

(** a machine that has been initialised *)
Definition live (sm : data) : Prop := state sm = DISCARD \/ state sm = RECEIVE.

(** the instance runs and the port takes announces *)
Definition running (sm : data) : Prop :=
  PTASG.BEGIN (ptasg sm) = false /\ PTASG.instanceEnable (ptasg sm) = true /\ PORT_UP sm = true.

Lemma pass_live (s s' : data) c : live s -> pass s = (s', c) -> live s'.
Proof.
  unfold live, pass, switch. cbn [sm_switch machine sm_set_last set_last sm_state].
  destruct s as [pt pp bt bp st ls th di pi ra]. cbn. intros Hl H.
  destruct st; try (destruct Hl; discriminate); cbn in H.
  - injection H as <- _. destruct (state_change _); cbn;
      unfold discard_condition; repeat destruct_cond; cbn; auto.
  - destruct (state_change _).
    + destruct (BPPG.rcvdAnnouncePtr _) as [m|]; cbn in H.
      * injection H as <- _. cbn. rewrite receive_stays. auto.
      * injection H as <- _. auto.
    + injection H as <- _. cbn. unfold receive_condition. destruct_cond; auto.
Qed.

Lemma sm_live sm : live sm -> live (port_announce_receive_sm sm).1.
Proof.
  apply exec_inv.
  - intros s Hs. unfold live. cbn. unfold allstate_condition. destruct_cond; auto.
  - intros s s' c. apply pass_live.
Qed.

(** the machine as [recv_announce] hands it to the loop *)
Definition handed (m : PTPMsgAnnounce) (sm : data) : data :=
  sm <| thisSM; PARsm.rcvdAnnounce := true |> <| rcvdAnnounce := m |>
     <| bppg; BPPG.rcvdAnnouncePtr := Some m |>.

Lemma set_state_id sm e : state sm = e -> sm <| state := e |> = sm.
Proof. destruct sm. cbn. by intros <-. Qed.

Lemma pass_RECEIVE m sm :
  state sm = RECEIVE -> last_state sm <> RECEIVE -> BPPG.rcvdAnnouncePtr (bppg sm) = Some m ->
  pass sm = (receive_proc m (sm <| last_state := RECEIVE |>), Next).
Proof.
  intros E L P. unfold pass, state_change. cbn [sm_switch machine sm_set_last set_last sm_state sm_last].
  rewrite E, bool_decide_eq_true_2 by done. unfold switch, deref.
  destruct sm as [pt pp bt bp st ls th di pi ra]. cbn in E, P |- *. subst. rewrite P.
  rewrite receive_stays. f_equal. apply set_state_id. by rewrite (proj1 (par_receive_keeps m _)).
Qed.

Lemma pass_discard sm :
  state sm = DISCARD -> last_state sm = DISCARD ->
  pass sm = (sm <| state := discard_condition sm |>, Next).
Proof.
  intros E L. unfold pass, state_change. cbn [sm_switch machine sm_set_last set_last sm_state sm_last].
  rewrite E, L, bool_decide_eq_false_2 by naive_solver.
  destruct sm. cbn in *. by subst.
Qed.

Lemma run_RECEIVE m n sm :
  state sm = RECEIVE -> last_state sm <> RECEIVE -> BPPG.rcvdAnnouncePtr (bppg sm) = Some m ->
  loop (S n) sm = Some (receive_proc m (sm <| last_state := RECEIVE |>), Ret None).
Proof.
  intros E L P. apply loop_stop; [by apply pass_RECEIVE|]. cbn.
  destruct (par_receive_keeps m (sm <| last_state := RECEIVE |>)) as (-> & -> & _).
  by destruct sm.
Qed.

(** On a running port the call is one [receive_proc] on the handed message. *)
Lemma recv_running m sm :
  live sm -> running sm ->
  port_announce_receive_sm_recv_announce m sm =
  (receive_proc m (handed m sm <| state := RECEIVE |> <| last_state := RECEIVE |>), Ret None).
Proof.
  intros Hl (HB & HI & HU). unfold port_announce_receive_sm_recv_announce, port_announce_receive_sm.
  set (s0 := handed m sm <| last_state := DISCARD |>).
  change (exec fuel s0 = (receive_proc m (handed m sm <| state := RECEIVE |> <| last_state := RECEIVE |>), Ret None)).
  assert (A : sm_allstate s0 = s0).
  { apply set_state_id. unfold allstate_condition, s0, handed, PORT_UP, PORT_OPER in *. cbn.
    by rewrite HB, HI, HU. }
  unfold exec, run, fuel. rewrite A.
  destruct Hl as [E|E].
  - rewrite (loop_turn _ _ (handed m sm <| state := RECEIVE |> <| last_state := DISCARD |>)).
    + rewrite (run_RECEIVE m); done.
    + split; [|done]. rewrite pass_discard by (done || exact E).
      unfold discard_condition, PORT_UP, PORT_OPER in *. cbn in *. by rewrite HU.
  - rewrite (run_RECEIVE m); [|exact E|done|done]. f_equal. by destruct sm; cbn in *; subst.
Qed.

(** The path trace after an accepted announce on the slave port. *)
Lemma receive_path m sm :
  qualifies m (PTASG.thisClock (ptasg sm)) -> Ann.tlvType m = 8 ->
  aget 0 (PTASG.selectedState (ptasg sm)) (PPG.thisPort (ppg sm)) = SlavePort ->
  (path_N m < MAX_PATH_TRACE_N)%nat ->
  bptasg (receive_proc m sm) =
  (bptasg sm) <| BPTASG.pathTrace ::= fun t =>
       memcpy_at (8 * path_N m) (PTASG.thisClock (ptasg sm))
         (memcpy_at 0 (take (8 * path_N m) (Ann.pathSequence m)) t) |>
     <| BPTASG.pathTraceCount := Z.of_nat (path_N m + 1) |>.
Proof.
  intros Q T S N. unfold receive_proc, qualifyAnnounce.
  assert (A : already_traversed m (PTASG.thisClock (ptasg sm)) = false).
  { apply not_true_is_false. rewrite already_traversed_spec. intros (i & Hi & E).
    destruct Q as (_ & _ & Q). by destruct (Q T i Hi). }
  destruct Q as (Q1 & Q2 & _). cbn.
  rewrite bool_decide_eq_false_2 by done. rewrite (proj2 (Z.leb_gt _ _)) by done.
  rewrite T, S, A. cbn. rewrite (proj2 (Nat.leb_le _ _)) by lia. done.
Qed.

Lemma clockid_at_app l r i :
  length l = (8 * i)%nat -> clockid_at (l ++ r) i = take 8 r.
Proof. intros H. unfold clockid_at, CLOCK_IDENTITY_LENGTH. by rewrite drop_app_length' by done. Qed.

Lemma clockid_at_prefix l r i :
  (8 * i + 8 <= length l)%nat -> clockid_at (l ++ r) i = clockid_at l i.
Proof.
  intros H. unfold clockid_at, CLOCK_IDENTITY_LENGTH. rewrite drop_app_le by lia.
  rewrite take_app_le; [done|]. rewrite length_drop. lia.
Qed.

Lemma clockid_at_take l n i :
  (i < n)%nat -> (8 * n <= length l)%nat -> clockid_at (take (8 * n) l) i = clockid_at l i.
Proof.
  intros H Hl. rewrite <- (take_drop (8 * n) l) at 2. rewrite clockid_at_prefix; [done|].
  rewrite length_take. lia.
Qed.

(** C5. On a running port an Announce is taken over, and flagged as a received message,
    exactly when it was not sent by this clock, has come fewer than 255 steps and (when it
    carries a path trace TLV) its path does not hold this clock. *)
Theorem announce_taken_iff_qualifies m sm :
  live sm -> running sm ->
  let (sm', o) := port_announce_receive_sm_recv_announce m sm in
  o = Ret None /\ live sm' /\ BPPG.rcvdAnnouncePtr (bppg sm') = Some m /\
  PARsm.rcvdAnnounce (thisSM sm') = false /\
  (BPPG.rcvdMsg (bppg sm') = true <-> qualifies m (PTASG.thisClock (ptasg sm))).
Proof.
  intros Hl Hr. rewrite recv_running by done.
  set (s1 := handed m sm <| state := RECEIVE |> <| last_state := RECEIVE |>).
  destruct (par_receive_keeps m s1) as (K1 & _ & K3 & _).
  split; [done|]. split; [right; by rewrite K1|]. split; [|split; [done|split]];
    unfold receive_proc in *.
  - destruct (qualify_keeps m (s1 <| thisSM; PARsm.rcvdAnnounce := false |>))
      as (_ & _ & _ & _ & _ & B).
    destruct (qualifyAnnounce _ _). cbn in *. by rewrite B.
  - pose proof (proj1 (qualify_iff m (s1 <| thisSM; PARsm.rcvdAnnounce := false |>))).
    destruct (qualifyAnnounce _ _). cbn in *. auto.
  - pose proof (proj2 (qualify_iff m (s1 <| thisSM; PARsm.rcvdAnnounce := false |>))).
    destruct (qualifyAnnounce _ _). cbn in *. auto.
Qed.

(** Loop prevention: the path trace a slave port stores is the received path followed by
    this clock, in one entry more, and no earlier entry of it is this clock. *)
Theorem path_trace_extended m sm :
  live sm -> running sm -> qualifies m (PTASG.thisClock (ptasg sm)) -> Ann.tlvType m = 8 ->
  aget 0 (PTASG.selectedState (ptasg sm)) (PPG.thisPort (ppg sm)) = SlavePort ->
  (path_N m < MAX_PATH_TRACE_N)%nat ->
  length (PTASG.thisClock (ptasg sm)) = 8%nat ->
  length (Ann.pathSequence m) = (8 * MAX_PATH_TRACE_N)%nat ->
  length (BPTASG.pathTrace (bptasg sm)) = (8 * MAX_PATH_TRACE_N)%nat ->
  let b := bptasg (port_announce_receive_sm_recv_announce m sm).1 in
  BPTASG.pathTraceCount b = Z.of_nat (path_N m) + 1 /\
  length (BPTASG.pathTrace b) = (8 * MAX_PATH_TRACE_N)%nat /\
  clockid_at (BPTASG.pathTrace b) (path_N m) = PTASG.thisClock (ptasg sm) /\
  forall i, (i < path_N m)%nat ->
    clockid_at (BPTASG.pathTrace b) i = clockid_at (Ann.pathSequence m) i /\
    clockid_at (BPTASG.pathTrace b) i <> PTASG.thisClock (ptasg sm).
Proof.
  intros Hl Hr Q T S N Lc Lp Lt. rewrite recv_running by done. cbn [fst].
  rewrite receive_path by done. cbn -[path_N clockid_at memcpy_at MAX_PATH_TRACE_N Nat.mul].
  set (src := take (8 * path_N m) (Ann.pathSequence m)).
  assert (Ls : length src = (8 * path_N m)%nat) by (unfold src; rewrite length_take; lia).
  set (c := PTASG.thisClock (ptasg sm)) in *.
  set (t := memcpy_at (8 * path_N m) c (memcpy_at 0 src (BPTASG.pathTrace (bptasg sm)))).
  assert (Et : exists r, t = src ++ c ++ r).
  { exists (drop (8 * path_N m + length c) (memcpy_at 0 src (BPTASG.pathTrace (bptasg sm)))).
    unfold t at 1, memcpy_at at 1. f_equal. unfold memcpy_at. rewrite take_0. cbn [app].
    by apply take_app_length'. }
  assert (Ht : length t = (8 * MAX_PATH_TRACE_N)%nat).
  { assert (H0 : length (memcpy_at 0 src (BPTASG.pathTrace (bptasg sm))) = (8 * MAX_PATH_TRACE_N)%nat)
      by (rewrite memcpy_at_length; lia).
    unfold t. rewrite memcpy_at_length; lia. }
  destruct Et as (r & Et).
  assert (Hp : forall i, (i < path_N m)%nat -> clockid_at t i = clockid_at (Ann.pathSequence m) i).
  { intros i Hi. rewrite Et, clockid_at_prefix by lia. unfold src. apply clockid_at_take; lia. }
  repeat split; [lia|done| | |].
  - rewrite Et, clockid_at_app by lia. by rewrite take_app_length' by lia.
  - by apply Hp.
  - rewrite Hp by done. destruct Q as (_ & _ & Q). by apply Q.
Qed.

(** ** Witnesses *)

Definition thisClock0 : list Z := [2;0;0;0;0;0;0;1].
Definition gmClock0 : list Z := [2;0;0;0;0;0;0;9].

(** port 1 of an instance of clock [thisClock0], up and selected as slave port *)
Definition slave0 : data :=
  (port_announce_receive_sm_init 0 1
    (zero <| PTASG.instanceEnable := true |> <| PTASG.thisClock := thisClock0 |>
          <| PTASG.selectedState ::= fun l => aset l 1 SlavePort |>)
    (zero <| PPG.asCapable := true |> <| PPG.ptpPortEnabled := true |> <| PPG.thisPort := 1 |>
          <| PPG.forAllDomain; PPGALL.portOper := true |>)
    zero zero).1.

Definition announce0 : PTPMsgAnnounce :=
  zero <| Ann.header; Hdr.sourcePortIdentity; PortId.clockIdentity := gmClock0 |>
       <| Ann.tlvType := 8 |> <| Ann.tlvLength := 8 |>
       <| Ann.pathSequence ::= memcpy_at 0 gmClock0 |>.

Lemma qualifies0 : qualifies announce0 thisClock0.
Proof.
  split; [by vm_compute|split; [by vm_compute|]]. intros _ i Hi.
  assert (i = 0)%nat as -> by (change (path_N announce0) with 1%nat in Hi; lia). by vm_compute.
Qed.

Lemma announce_taken_witness :
  BPPG.rcvdMsg (bppg (port_announce_receive_sm_recv_announce announce0 slave0).1) = true.
Proof.
  pose proof (announce_taken_iff_qualifies announce0 slave0) as H.
  destruct (port_announce_receive_sm_recv_announce announce0 slave0) as [sm' o].
  destruct H as (_ & _ & _ & _ & H).
  - left. reflexivity.
  - repeat split; reflexivity.
  - apply H, qualifies0.
Defined.

Lemma path_trace_witness :
  BPTASG.pathTraceCount (bptasg (port_announce_receive_sm_recv_announce announce0 slave0).1) = 2.
Proof.
  pose proof (path_trace_extended announce0 slave0) as H. cbv zeta in H.
  destruct H as (H & _).
  - left. reflexivity.
  - repeat split; reflexivity.
  - apply qualifies0.
  - reflexivity.
  - reflexivity.
  - vm_compute. lia.
  - reflexivity.
  - reflexivity.
  - reflexivity.
  - rewrite H. reflexivity.
Defined.

End PAR.
