(* ===== verification/AnnounceInformation.v ===== *)
(** * AnnounceInformation: port_announce_information_sm.c (10.3.12, PortAnnounceInformation).

    One port's view of the best master it hears: a received announce is
    superior, repeated or inferior to the port's priority vector; a superior one
    replaces it, and the information ages when announces or syncs stop. *)

From S2P Require Import Prelude Types Driver Common.

Module PAI.

Inductive port_announce_information_state_t :=
| INIT | DISABLED | AGED | UPDATE | CURRENT | RECEIVE
| SUPERIOR_MASTER_PORT | REPEATED_MASTER_PORT | INFERIOR_MASTER_OR_OTHER_PORT | REACTION.
#[export] Instance state_eqdec : EqDecision port_announce_information_state_t.
Proof. solve_decision. Defined.

Record port_announce_information_data := mk {
  ptasg : PerTimeAwareSystemGlobal;
  ppg : PerPortGlobal;
  bptasg : BmcsPerTimeAwareSystemGlobal;
  bppg : BmcsPerPortGlobal;
  state : port_announce_information_state_t;
  last_state : port_announce_information_state_t;
  thisSM : PortAnnounceInformationSM;
  domainIndex : Z;
  portIndex : Z;
  syncReceiptTimeoutTime : UScaledNs
}.
#[export] Instance eta_data : Eta port_announce_information_data :=
  fields! mk [ptasg, ppg, bptasg, bppg, state, last_state, thisSM, domainIndex, portIndex,
              syncReceiptTimeoutTime].
Abbreviation data := port_announce_information_data.

Section Procs.
Context `{PL : Platform}.

Definition PORT_UP (sm : data) : bool :=
  PPGALL.portOper (PPG.forAllDomain (ppg sm)) && PPG.ptpPortEnabled (ppg sm) &&
  PPG.asCapable (ppg sm).
Definition SELECTED (sm : data) : bool := aget false (BPTASG.selected (bptasg sm)) (portIndex sm).

(** RESELECT[sm->portIndex] = true; SELECTED[sm->portIndex] = false; *)
Definition ask_reselect (sm : data) : data :=
  sm <| bptasg; BPTASG.reselect ::= fun l => aset l (portIndex sm) true |>
     <| bptasg; BPTASG.selected ::= fun l => aset l (portIndex sm) false |>.

(** the priority vector a received announce conveys to this port *)
Definition messagePriority_of (m : PTPMsgAnnounce) (thisPort : Z) : UInteger224 :=
  U224.mk
    (U112.mk (Ann.grandmasterPriority1 m)
             (ClkQ.clockClass (Ann.grandmasterClockQuality m))
             (ClkQ.clockAccuracy (Ann.grandmasterClockQuality m))
             (ClkQ.offsetScaledLogVariance (Ann.grandmasterClockQuality m))
             (Ann.grandmasterPriority2 m) (Ann.grandmasterIdentity m))
    (Ann.stepsRemoved m) (Hdr.sourcePortIdentity (Ann.header m))
    (md_port_index2number thisPort).

(** rcvdInfo: classifies the announce and stores its priority vector *)
Definition rcvdInfo (m : PTPMsgAnnounce) (sm : data) : data * Z :=
  let thisPort := PPG.thisPort (ppg sm) in
  let sm := sm <| thisSM; PAIsm.messagePriority := messagePriority_of m thisPort |>
               <| bppg; BPPG.messageStepsRemoved := Ann.stepsRemoved m |> in
  let pp := BPPG.portPriority (bppg sm) in
  let mp := PAIsm.messagePriority (thisSM sm) in
  let (sm, info) :=
    if negb (aget 0 (PTASG.selectedState (ptasg sm)) thisPort =? DisabledPort) then
      if bool_decide (pp = mp) then (sm, RepeatedMasterInfo)
      else if bool_decide (compare_priority_vectors mp pp = SUPERIOR_PRIORITY) then
        (sm <| ppg; PPG.perfmonDS ::= PERFMON_PPMDR (fun r => r <| PortDR.announceRx := 0 |>) |>,
         SuperiorMasterInfo)
      else (sm, InferiorMasterInfo)
    else (sm, OtherInfo) in
  (sm <| ppg; PPG.perfmonDS ::= PERFMON_PPMDR (fun r => r <| PortDR.announceRx ::= inc32 |>) |>,
   info).

Definition flag (m : PTPMsgAnnounce) (mask : Z) : bool :=
  Z.land (aget 0 (Hdr.flags (Ann.header m)) 1) mask =? mask.

Definition recordOtherAnnounceInfo (m : PTPMsgAnnounce) (sm : data) : data :=
  sm <| bppg; BPPG.annLeap61 := flag m 1 |>
     <| bppg; BPPG.annLeap59 := flag m 2 |>
     <| bppg; BPPG.annCurrentUtcOffsetValid := flag m 4 |>
     <| bppg; BPPG.annPtpTimescale := flag m 8 |>
     <| bppg; BPPG.annTimeTraceable := flag m 16 |>
     <| bppg; BPPG.annFrequencyTraceable := flag m 32 |>
     <| bppg; BPPG.annCurrentUtcOffset := Ann.currentUtcOffset m |>
     <| bppg; BPPG.annTimeSource := Ann.timeSource m |>
     <| bppg; BPPG.annPathSequenceCount := u8 (Ann.tlvLength m / 8) |>
     <| bppg; BPPG.annPathSequence ::=
          memcpy_at 0 (take (Z.to_nat (Ann.tlvLength m)) (Ann.pathSequence m)) |>
     <| ptasg; PTASG.gmIdentity := Ann.grandmasterIdentity m |>.

Definition allstate_condition (sm : data) : port_announce_information_state_t :=
  if ((negb (PORT_UP sm) && negb (BPPG.infoIs (bppg sm) =? Disabled)) ||
      PTASG.BEGIN (ptasg sm) || negb (PTASG.instanceEnable (ptasg sm))) &&
     (BPTASG.externalPortConfiguration (bptasg sm) =? VALUE_DISABLED)
  then DISABLED else state sm.

Definition disabled_proc (cts64 : Z) (sm : data) : data :=
  ask_reselect
    (sm <| bppg; BPPG.rcvdMsg := false |>
        <| thisSM; PAIsm.announceReceiptTimeoutTime; UNs.nsec := cts64 |>
        <| bppg; BPPG.infoIs := Disabled |>).

Definition disabled_condition (sm : data) : port_announce_information_state_t :=
  if PORT_UP sm then AGED
  else if BPPG.rcvdMsg (bppg sm) then DISABLED
  else state sm.

Definition aged_proc (sm : data) : data :=
  let sm := ask_reselect (sm <| bppg; BPPG.infoIs := Aged |>) in
  sm <| bppg; BPPG.annPathSequenceCount := 0 |>
     <| ptasg; PTASG.gmIdentity := PTASG.thisClock (ptasg sm) |>.

Definition aged_condition (sm : data) : port_announce_information_state_t :=
  if SELECTED sm && BPPG.updtInfo (bppg sm) then UPDATE else AGED.

Definition update_proc (sm : data) : data :=
  sm <| bppg; BPPG.portPriority := BPPG.masterPriority (bppg sm) |>
     <| bppg; BPPG.portStepsRemoved := BPTASG.masterStepsRemoved (bptasg sm) |>
     <| bppg; BPPG.updtInfo := false |>
     <| bppg; BPPG.infoIs := Mine |>
     <| bppg; BPPG.newInfo := true |>.

Definition update_condition (sm : data) : port_announce_information_state_t := CURRENT.

Definition current_proc (sm : data) : data := sm.

(** the information received has not been refreshed in time *)
Definition receipt_timeout (cts64 : Z) (sm : data) : bool :=
  (UNs.nsec (PAIsm.announceReceiptTimeoutTime (thisSM sm)) <=? cts64) ||
  ((UNs.nsec (syncReceiptTimeoutTime sm) <=? cts64) && PTASG.gmPresent (ptasg sm)).

Definition current_condition (cts64 : Z) (sm : data) : port_announce_information_state_t :=
  if SELECTED sm && BPPG.updtInfo (bppg sm) then UPDATE
  else if (BPPG.infoIs (bppg sm) =? Received) && receipt_timeout cts64 sm &&
          negb (BPPG.updtInfo (bppg sm)) && negb (BPPG.rcvdMsg (bppg sm)) then AGED
  else if BPPG.rcvdMsg (bppg sm) && negb (BPPG.updtInfo (bppg sm)) then RECEIVE
  else CURRENT.

Definition receive_proc (m : PTPMsgAnnounce) (sm : data) : data :=
  let (sm, info) := rcvdInfo m sm in
  sm <| thisSM; PAIsm.rcvdInfo := info |>.

Definition receive_condition (sm : data) : port_announce_information_state_t :=
  let info := PAIsm.rcvdInfo (thisSM sm) in
  let asym := PPGALL.asymmetryMeasurementMode (PPG.forAllDomain (ppg sm)) in
  if (info =? RepeatedMasterInfo) && negb asym then REPEATED_MASTER_PORT
  else if ((info =? InferiorMasterInfo) || (info =? OtherInfo)) && negb asym then
    INFERIOR_MASTER_OR_OTHER_PORT
  else if (info =? SuperiorMasterInfo) && negb asym then SUPERIOR_MASTER_PORT
  else RECEIVE.

(** the log interval a superior master's syncs are expected at *)
Definition sync_log_interval (p : PerPortGlobal) : Z :=
  if PPG.useMgtSettableLogSyncInterval p then PPG.mgtSettableLogSyncInterval p
  else PPG.initialLogSyncInterval p.

Definition superior_master_port_proc (m : PTPMsgAnnounce) (cts64 : Z) (sm : data) : data :=
  let sm := sm <| bppg; BPPG.portPriority := PAIsm.messagePriority (thisSM sm) |>
               <| bppg; BPPG.portStepsRemoved := Ann.stepsRemoved m |> in
  let sm := recordOtherAnnounceInfo m sm in
  let A := Hdr.logMessageInterval (Ann.header m) in
  let artti := u64 (u8 (BPPG.announceReceiptTimeout (bppg sm)) * LOG_TO_NSEC A) in
  let sm := sm <| bppg; BPPG.announceReceiptTimeoutTimeInterval; UNs.nsec := artti |>
               <| thisSM; PAIsm.announceReceiptTimeoutTime; UNs.nsec := u64 (cts64 + artti) |> in
  let srtti := u64 (u8 (PPG.syncReceiptTimeout (ppg sm)) * LOG_TO_NSEC (sync_log_interval (ppg sm))) in
  let sm := sm <| ppg; PPG.syncReceiptTimeoutTimeInterval; UNs.nsec := srtti |>
               <| syncReceiptTimeoutTime; UNs.nsec := u64 (cts64 + srtti) |> in
  let sm := ask_reselect (sm <| bppg; BPPG.infoIs := Received |>) in
  sm <| bppg; BPPG.rcvdMsg := false |> <| bppg; BPPG.rcvdAnnouncePtr := None |>.

Definition superior_master_port_condition (sm : data) : port_announce_information_state_t := CURRENT.

Definition repeated_master_port_proc (cts64 : Z) (sm : data) : data :=
  sm <| thisSM; PAIsm.announceReceiptTimeoutTime; UNs.nsec :=
          u64 (cts64 + UNs.nsec (BPPG.announceReceiptTimeoutTimeInterval (bppg sm))) |>
     <| bppg; BPPG.rcvdMsg := false |> <| bppg; BPPG.rcvdAnnouncePtr := None |>.

Definition repeated_master_port_condition (sm : data) : port_announce_information_state_t := CURRENT.

Definition inferior_master_or_other_port_proc (sm : data) : data :=
  sm <| bppg; BPPG.rcvdMsg := false |> <| bppg; BPPG.rcvdAnnouncePtr := None |>.

Definition inferior_master_or_other_port_condition (sm : data)
  : port_announce_information_state_t :=
  if bool_decide (U224.sourcePortIdentity (PAIsm.messagePriority (thisSM sm)) =
                  U224.sourcePortIdentity (BPPG.portPriority (bppg sm))) &&
     negb (BPTASG.bmcsQuickUpdate (bptasg sm) =? 0)
  then AGED else CURRENT.

(** [sm->state = condition(sm)] after the state's procedure *)
Definition go (cond : data -> port_announce_information_state_t) (sm : data) : data * ctl unit :=
  (sm <| state := cond sm |>, Next).

Definition switch (cts64 : Z) (state_change : bool) (sm : data) : data * ctl unit :=
  let on (p : data -> data) (sm : data) := if state_change then p sm else sm in
  let msg := BPPG.rcvdAnnouncePtr (bppg sm) in
  match state sm with
  | INIT => (sm <| state := DISABLED |>, Next)
  | DISABLED => go disabled_condition (on (disabled_proc cts64) sm)
  | AGED => go aged_condition (on aged_proc sm)
  | UPDATE => go update_condition (on update_proc sm)
  | CURRENT => go (current_condition cts64) (on current_proc sm)
  | RECEIVE =>
      if state_change then deref msg sm (fun m => go receive_condition (receive_proc m sm))
      else go receive_condition sm
  | SUPERIOR_MASTER_PORT =>
      if state_change then
        deref msg sm (fun m =>
          go superior_master_port_condition (superior_master_port_proc m cts64 sm))
      else go superior_master_port_condition sm
  | REPEATED_MASTER_PORT =>
      go repeated_master_port_condition (on (repeated_master_port_proc cts64) sm)
  | INFERIOR_MASTER_OR_OTHER_PORT =>
      go inferior_master_or_other_port_condition (on inferior_master_or_other_port_proc sm)
  | REACTION => (sm, Next)
  end.

Definition set_last (e : port_announce_information_state_t) (sm : data) : data :=
  sm <| last_state := e |>.
Definition set_allstate (sm : data) : data := sm <| state := allstate_condition sm |>.

Definition machine (cts64 : Z)
  : StateMachine data port_announce_information_state_t unit := {|
  sm_state := state;
  sm_last := last_state;
  sm_set_last := set_last;
  sm_allstate := set_allstate;
  sm_switch := switch cts64;
  sm_state_set_last := fun _ _ => eq_refl;
  sm_last_set_last := fun _ _ => eq_refl
|}.

(** the ranking function below stays under 41 *)
Definition fuel : nat := 41.

Definition port_announce_information_sm (cts64 : Z) (sm : data) : data * outcome unit :=
  exec (M := machine cts64) fuel sm.

Definition port_announce_information_sm_init (domainIndex portIndex : Z)
    (ptasg : PerTimeAwareSystemGlobal) (ppg : PerPortGlobal)
    (bptasg : BmcsPerTimeAwareSystemGlobal) (bppg : BmcsPerPortGlobal) : data :=
  (mk ptasg ppg bptasg bppg INIT INIT zero domainIndex portIndex zero)
    <| syncReceiptTimeoutTime; UNs.nsec := U64_MAX |>.

Definition port_announce_information_sm_SyncReceiptTimeoutTime (pss : PortSyncSync) (sm : data)
  : data :=
  sm <| syncReceiptTimeoutTime := PSync.syncReceiptTimeoutTime pss |>.

End Procs.

(** ** The machine ends *)

Section Facts.
Context `{PL : Platform}.

(** the port's entries of [selected] and [reselect] exist *)
Definition in_range (sm : data) : Prop :=
  in_array (BPTASG.selected (bptasg sm)) (portIndex sm) /\
  in_array (BPTASG.reselect (bptasg sm)) (portIndex sm).

Definition rank (sm : data) : nat :=
  let u := Nat.b2n (BPPG.updtInfo (bppg sm)) in
  let r := Nat.b2n (BPPG.rcvdMsg (bppg sm)) in
  let ch := bool_decide (last_state sm <> state sm) in
  match state sm with
  | INIT => 40
  | DISABLED => 39
  | AGED => if ch then 0 else 38
  | UPDATE => if ch then 10 * r + 8 else 37
  | RECEIVE => if ch then 12 + 9 * u else 36
  | SUPERIOR_MASTER_PORT | REPEATED_MASTER_PORT | INFERIOR_MASTER_OR_OTHER_PORT =>
      if ch then 11 + 9 * u else 35
  | CURRENT => 10 * r + 9 * u + 3
  | REACTION => 0
  end.

(** the fields the ranking, the ranges and the conditions depend on *)
Ltac pass_simpl H :=
  unfold pass in H; cbn [sm_switch machine sm_set_last set_last sm_state sm_last] in H;
  unfold switch, go, deref in H; cbn in H.

Lemma pass_in_range cts64 (s s' : data) c :
  in_range s -> pass (M := machine cts64) s = (s', c) -> in_range s'.
Proof.
  intros Hr H. pass_simpl H.
  unfold in_range, in_array in *.
  destruct (state s); cbn in H.
  all: try destruct (state_change _).
  all: try destruct (BPPG.rcvdAnnouncePtr _).
  all: injection H as <- _; cbn.
  all: try (unfold receive_proc, rcvdInfo; repeat destruct_cond).
  all: cbn; rewrite ?aset_length; done.
Qed.

Lemma change_eq cts64 sm :
  state_change (M := machine cts64) sm = bool_decide (last_state sm <> state sm).
Proof. reflexivity. Qed.

Lemma information_turns cts64 (s s' : data) :
  in_range s -> turns (M := machine cts64) s s' -> (rank s' < rank s)%nat.
Proof.
  intros Hr [H Hne]. pass_simpl H. cbn in Hne. rewrite change_eq in H.
  destruct Hr as [Hs _].
  destruct s as [pt pp bt bp st ls th di pi sr]. unfold rank at 2. cbn in *.
  destruct (BPPG.updtInfo bp) eqn:U, (BPPG.rcvdMsg bp) eqn:R.
  all: destruct st; cbn in H; try (case_bool_decide as Hch; cbn in H).
  all: try destruct (BPPG.rcvdAnnouncePtr _); try discriminate H.
  all: injection H as <-; cbn in Hne.
  all: unfold aged_condition, update_condition, disabled_condition, receive_condition,
    current_condition, inferior_master_or_other_port_condition, superior_master_port_condition,
    repeated_master_port_condition, SELECTED, receive_proc, rcvdInfo, aged_proc, ask_reselect in *;
    cbn in *.
  all: rewrite ?aget_aset_eq, ?U, ?R in * by done; cbn in *.
  all: repeat (destruct_cond_in Hne; cbn in Hne); try done; unfold rank; cbn; rewrite ?U, ?R;
    cbn; settle_changes; cbn; try lia; repeat (destruct_cond; cbn); settle_changes; cbn; lia.
Qed.

Lemma allstate_in_range sm : in_range sm -> in_range (set_allstate sm).
Proof. done. Qed.

Lemma run_ends cts64 sm :
  in_range sm ->
  run (M := machine cts64) fuel sm = Some (port_announce_information_sm cts64 sm).
Proof.
  intros Hr. apply exec_run. unfold run.
  apply (loop_ends (M := machine cts64)) with (Inv := in_range) (rank := rank).
  - intros s s' Hs Ht. split; [|by eapply information_turns].
    destruct Ht. by eapply pass_in_range.
  - exact Hr.
  - assert (rank_bound : forall s0, (rank s0 < fuel)%nat).
    { intros s0. unfold rank, fuel.
      destruct (state s0), (BPPG.updtInfo (bppg s0)), (BPPG.rcvdMsg (bppg s0));
        cbn; repeat case_match; lia. }
    apply rank_bound.
Qed.

(** A message flag or a state that reads the announce implies there is an announce. *)
Definition reads_announce (st : port_announce_information_state_t) : bool :=
  match st with RECEIVE | SUPERIOR_MASTER_PORT => true | _ => false end.

Definition msg_ok (sm : data) : Prop :=
  BPPG.rcvdMsg (bppg sm) || reads_announce (state sm) = true ->
  is_Some (BPPG.rcvdAnnouncePtr (bppg sm)).

Lemma pass_msg_ok cts64 (s s' : data) c :
  msg_ok s -> pass (M := machine cts64) s = (s', c) -> msg_ok s' /\ c = Next.
Proof.
  unfold msg_ok. intros Hm H. pass_simpl H. rewrite change_eq in H.
  destruct s as [pt pp bt bp st ls th di pi sr]. cbn in Hm.
  destruct st; cbn in H; try (case_bool_decide as Hch; cbn in H).
  all: try (rewrite orb_true_r in Hm; destruct (Hm eq_refl) as [m Em];
            pose proof Em as Em'; cbn in H; rewrite Em in H).
  all: injection H as <- <-; (split; [|done]); cbn.
  all: unfold aged_condition, update_condition, disabled_condition, receive_condition,
    current_condition, inferior_master_or_other_port_condition, superior_master_port_condition,
    repeated_master_port_condition, receive_proc, rcvdInfo; cbn.
  all: rewrite ?orb_false_r in Hm; repeat (destruct_cond; cbn); intros; bool_hyps;
    repeat match goal with E : true = _ |- _ => symmetry in E end;
    rewrite ?Em'; try done; apply Hm; by destruct (BPPG.rcvdMsg bp).
Qed.

(** ** One received announce, from CURRENT back to CURRENT *)

Definition at_ (st ls : port_announce_information_state_t) (sm : data) : data :=
  sm <| state := st |> <| last_state := ls |>.

Lemma at_id sm : at_ (state sm) (last_state sm) sm = sm.
Proof. by destruct sm. Qed.

Lemma pass_current cts64 ls sm :
  pass (M := machine cts64) (at_ CURRENT ls sm) =
  (at_ (current_condition cts64 sm) CURRENT sm, Next).
Proof. destruct sm. unfold pass. cbn. by destruct (state_change _). Qed.

Lemma receive_at st ls m sm : receive_proc m (at_ st ls sm) = at_ st ls (receive_proc m sm).
Proof. destruct sm. unfold receive_proc, rcvdInfo, at_. cbn. repeat destruct_cond; done. Qed.

Lemma pass_receive cts64 ls m sm :
  ls <> RECEIVE -> BPPG.rcvdAnnouncePtr (bppg sm) = Some m ->
  pass (M := machine cts64) (at_ RECEIVE ls sm) =
  (at_ (receive_condition (receive_proc m sm)) RECEIVE (receive_proc m sm), Next).
Proof.
  intros L E. unfold pass. rewrite change_eq. cbn. rewrite bool_decide_eq_true_2 by done.
  destruct sm as [pt pp bt bp st l th di pi sr]. unfold switch. cbn in *. rewrite E. cbn.
  change (set_last RECEIVE (at_ RECEIVE ls ?x)) with (at_ RECEIVE RECEIVE x).
  rewrite receive_at. generalize (receive_proc m (mk pt pp bt bp st l th di pi sr)).
  by intros [].
Qed.

Lemma superior_at st ls m cts64 sm :
  superior_master_port_proc m cts64 (at_ st ls sm) = at_ st ls (superior_master_port_proc m cts64 sm).
Proof. destruct sm. cbv -[wrap LOG_TO_NSEC Z.add Z.mul aset memcpy_at take flag Z.div]. reflexivity. Qed.

Lemma pass_superior cts64 ls m sm :
  ls <> SUPERIOR_MASTER_PORT -> BPPG.rcvdAnnouncePtr (bppg sm) = Some m ->
  pass (M := machine cts64) (at_ SUPERIOR_MASTER_PORT ls sm) =
  (at_ CURRENT SUPERIOR_MASTER_PORT (superior_master_port_proc m cts64 sm), Next).
Proof.
  intros L E. unfold pass. rewrite change_eq. cbn. rewrite bool_decide_eq_true_2 by done.
  unfold switch, deref, go, superior_master_port_condition.
  change (state (set_last _ _)) with SUPERIOR_MASTER_PORT. cbn iota.
  change (set_last SUPERIOR_MASTER_PORT (at_ SUPERIOR_MASTER_PORT ls sm))
    with (at_ SUPERIOR_MASTER_PORT SUPERIOR_MASTER_PORT sm).
  change (BPPG.rcvdAnnouncePtr _) with (BPPG.rcvdAnnouncePtr (bppg sm)).
  rewrite E, superior_at. by generalize (superior_master_port_proc m cts64 sm); intros [].
Qed.

Lemma pass_repeated cts64 ls sm :
  ls <> REPEATED_MASTER_PORT ->
  pass (M := machine cts64) (at_ REPEATED_MASTER_PORT ls sm) =
  (at_ CURRENT REPEATED_MASTER_PORT (repeated_master_port_proc cts64 sm), Next).
Proof.
  intros L. unfold pass. rewrite change_eq. cbn. rewrite bool_decide_eq_true_2 by done.
  by destruct sm.
Qed.

Lemma pass_inferior cts64 ls sm :
  ls <> INFERIOR_MASTER_OR_OTHER_PORT ->
  pass (M := machine cts64) (at_ INFERIOR_MASTER_OR_OTHER_PORT ls sm) =
  (at_ (inferior_master_or_other_port_condition sm) INFERIOR_MASTER_OR_OTHER_PORT
       (inferior_master_or_other_port_proc sm), Next).
Proof.
  intros L. unfold pass. rewrite change_eq. cbn. rewrite bool_decide_eq_true_2 by done.
  by destruct sm.
Qed.

Lemma loop_at cts64 n st ls st' sm sm' :
  pass (M := machine cts64) (at_ st ls sm) = (at_ st' st sm', Next) ->
  loop (M := machine cts64) (S n) (at_ st ls sm) =
  if bool_decide (st = st') then Some (at_ st' st sm', Ret None)
  else loop (M := machine cts64) n (at_ st' st sm').
Proof. intros P. by rewrite (loop_next (M := machine cts64) _ _ _ P). Qed.

(** an enabled port at rest in CURRENT with announce [m] to be read *)
Definition waiting (m : PTPMsgAnnounce) (sm : data) : Prop :=
  state sm = CURRENT /\ last_state sm = CURRENT /\ in_range sm /\
  PORT_UP sm = true /\ PTASG.BEGIN (ptasg sm) = false /\ PTASG.instanceEnable (ptasg sm) = true /\
  BPPG.updtInfo (bppg sm) = false /\ BPPG.rcvdMsg (bppg sm) = true /\
  BPPG.rcvdAnnouncePtr (bppg sm) = Some m /\
  PPGALL.asymmetryMeasurementMode (PPG.forAllDomain (ppg sm)) = false /\
  aget 0 (PTASG.selectedState (ptasg sm)) (PPG.thisPort (ppg sm)) <> DisabledPort.

Abbreviation pp_of sm := (BPPG.portPriority (bppg sm)).
Abbreviation mp_of m sm := (messagePriority_of m (PPG.thisPort (ppg sm))).

(** the first two turns: CURRENT, RECEIVE *)
Lemma run_receive cts64 m sm n :
  waiting m sm ->
  loop (M := machine cts64) (S (S n)) (sm_allstate (StateMachine := machine cts64) sm) =
  let sm1 := receive_proc m sm in
  let st := receive_condition sm1 in
  if bool_decide (RECEIVE = st) then Some (at_ st RECEIVE sm1, Ret None)
  else loop (M := machine cts64) n (at_ st RECEIVE sm1).
Proof.
  intros (E & L & _ & HU & HB & HI & Hu & Hr & Hp & Ha & Hs).
  assert (A : sm_allstate (StateMachine := machine cts64) sm = at_ CURRENT CURRENT sm).
  { cbn. unfold set_allstate, allstate_condition. rewrite HU, HB, HI. cbn. rewrite E.
    by destruct sm; cbn in *; subst. }
  rewrite A, (loop_at _ _ _ _ _ _ _ (pass_current _ _ _)).
  unfold current_condition. rewrite Hu, Hr, andb_false_r. cbn [negb].
  rewrite andb_false_r. cbn [andb].
  rewrite (loop_at _ _ _ _ _ _ _ (pass_receive _ CURRENT m _ ltac:(done) Hp)). reflexivity.
Qed.

Lemma receive_proc_fields m sm :
  let sm1 := receive_proc m sm in
  BPPG.portPriority (bppg sm1) = pp_of sm /\
  PAIsm.messagePriority (thisSM sm1) = mp_of m sm /\
  BPPG.rcvdAnnouncePtr (bppg sm1) = BPPG.rcvdAnnouncePtr (bppg sm) /\
  BPPG.updtInfo (bppg sm1) = BPPG.updtInfo (bppg sm) /\
  BPPG.infoIs (bppg sm1) = BPPG.infoIs (bppg sm) /\
  BPPG.announceReceiptTimeout (bppg sm1) = BPPG.announceReceiptTimeout (bppg sm) /\
  BPPG.announceReceiptTimeoutTimeInterval (bppg sm1) =
    BPPG.announceReceiptTimeoutTimeInterval (bppg sm) /\
  PPGALL.asymmetryMeasurementMode (PPG.forAllDomain (ppg sm1)) =
    PPGALL.asymmetryMeasurementMode (PPG.forAllDomain (ppg sm)) /\
  ptasg sm1 = ptasg sm /\ bptasg sm1 = bptasg sm /\ portIndex sm1 = portIndex sm /\
  syncReceiptTimeoutTime sm1 = syncReceiptTimeoutTime sm.
Proof. unfold receive_proc, rcvdInfo. destruct sm. cbn. repeat destruct_cond; done. Qed.

Lemma receive_proc_info m sm :
  aget 0 (PTASG.selectedState (ptasg sm)) (PPG.thisPort (ppg sm)) <> DisabledPort ->
  PAIsm.rcvdInfo (thisSM (receive_proc m sm)) =
  if bool_decide (pp_of sm = mp_of m sm) then RepeatedMasterInfo
  else if bool_decide (superior (mp_of m sm) (pp_of sm)) then SuperiorMasterInfo
  else InferiorMasterInfo.
Proof.
  intros Hs. unfold receive_proc, rcvdInfo. destruct sm. cbn in *.
  rewrite (proj2 (Z.eqb_neq _ _)) by done. cbn. unfold superior. repeat destruct_cond; done.
Qed.

(** the fields of interest after a superior announce *)
Definition superior_result (m : PTPMsgAnnounce) (cts64 : Z) (sm sm' : data) : Prop :=
  BPPG.portPriority (bppg sm') = mp_of m sm /\
  BPPG.portStepsRemoved (bppg sm') = Ann.stepsRemoved m /\
  BPPG.rcvdMsg (bppg sm') = false /\ BPPG.rcvdAnnouncePtr (bppg sm') = None /\
  BPPG.infoIs (bppg sm') = Received /\
  aget false (BPTASG.reselect (bptasg sm')) (portIndex sm) = true /\
  aget false (BPTASG.selected (bptasg sm')) (portIndex sm) = false /\
  PTASG.gmIdentity (ptasg sm') = Ann.grandmasterIdentity m /\
  UNs.nsec (PAIsm.announceReceiptTimeoutTime (thisSM sm')) =
    u64 (cts64 + u64 (u8 (BPPG.announceReceiptTimeout (bppg sm)) *
                      LOG_TO_NSEC (Hdr.logMessageInterval (Ann.header m)))).

Lemma superior_fields m cts64 sm :
  let sm' := superior_master_port_proc m cts64 sm in
  BPPG.portPriority (bppg sm') = PAIsm.messagePriority (thisSM sm) /\
  BPPG.portStepsRemoved (bppg sm') = Ann.stepsRemoved m /\
  BPPG.rcvdMsg (bppg sm') = false /\ BPPG.rcvdAnnouncePtr (bppg sm') = None /\
  BPPG.infoIs (bppg sm') = Received /\
  BPTASG.reselect (bptasg sm') = aset (BPTASG.reselect (bptasg sm)) (portIndex sm) true /\
  BPTASG.selected (bptasg sm') = aset (BPTASG.selected (bptasg sm)) (portIndex sm) false /\
  PTASG.gmIdentity (ptasg sm') = Ann.grandmasterIdentity m /\
  UNs.nsec (PAIsm.announceReceiptTimeoutTime (thisSM sm')) =
    u64 (cts64 + u64 (u8 (BPPG.announceReceiptTimeout (bppg sm)) *
                      LOG_TO_NSEC (Hdr.logMessageInterval (Ann.header m)))) /\
  UNs.nsec (syncReceiptTimeoutTime sm') =
    u64 (cts64 + u64 (u8 (PPG.syncReceiptTimeout (ppg sm)) *
                      LOG_TO_NSEC (sync_log_interval (ppg sm)))) /\
  BPPG.updtInfo (bppg sm') = BPPG.updtInfo (bppg sm) /\ portIndex sm' = portIndex sm /\
  PTASG.gmPresent (ptasg sm') = PTASG.gmPresent (ptasg sm).
Proof. repeat apply conj; reflexivity. Qed.

Lemma receive_proc_ppg m sm :
  sync_log_interval (ppg (receive_proc m sm)) = sync_log_interval (ppg sm) /\
  PPG.syncReceiptTimeout (ppg (receive_proc m sm)) = PPG.syncReceiptTimeout (ppg sm).
Proof. unfold receive_proc, rcvdInfo. destruct sm. cbn. repeat destruct_cond; done. Qed.

Lemma receive_times m sm :
  PAIsm.announceReceiptTimeoutTime (thisSM (receive_proc m sm)) =
  PAIsm.announceReceiptTimeoutTime (thisSM sm).
Proof. unfold receive_proc, rcvdInfo. destruct sm. cbn. repeat destruct_cond; done. Qed.

#[local] Opaque superior_master_port_proc receive_proc loop.

(** the condition under which CURRENT is left for AGED, with no message pending *)
Definition timed_out (cts64 : Z) (sm : data) : Prop :=
  BPPG.infoIs (bppg sm) = Received /\ receipt_timeout cts64 sm = true.

(** the last turn: CURRENT with nothing to do *)
Lemma loop_current_rest cts64 n ls sm :
  BPPG.updtInfo (bppg sm) = false -> BPPG.rcvdMsg (bppg sm) = false -> ~ timed_out cts64 sm ->
  loop (M := machine cts64) (S n) (at_ CURRENT ls sm) = Some (at_ CURRENT CURRENT sm, Ret None).
Proof.
  intros U R T. rewrite (loop_at _ _ _ _ _ _ _ (pass_current _ _ _)).
  unfold current_condition. rewrite U, R, andb_false_r. cbn [andb negb].
  destruct ((BPPG.infoIs (bppg sm) =? Received) && receipt_timeout cts64 sm) eqn:E; [|done].
  destruct T. bool_hyps. by split.
Qed.

Lemma pass_aged cts64 ls sm :
  in_range sm -> ls <> AGED ->
  pass (M := machine cts64) (at_ AGED ls sm) = (at_ AGED AGED (aged_proc sm), Next).
Proof.
  intros [R _] L. unfold pass. rewrite change_eq.
  change (state (at_ AGED ls sm)) with AGED. change (last_state (at_ AGED ls sm)) with ls.
  cbn [sm_state sm_switch machine]. rewrite bool_decide_eq_true_2 by done.
  destruct sm. unfold switch, go, aged_condition, SELECTED. cbn in *.
  by rewrite aget_aset_eq.
Qed.

Lemma exec_waiting cts64 m sm o :
  waiting m sm ->
  (let sm1 := receive_proc m sm in
   let st := receive_condition sm1 in
   RECEIVE <> st /\ loop (M := machine cts64) 39 (at_ st RECEIVE sm1) = Some o) ->
  port_announce_information_sm cts64 sm = o.
Proof.
  intros W (N & Hl). apply (exec_eq (M := machine cts64)). unfold fuel.
  rewrite (run_receive _ m) by done. cbv zeta. by rewrite bool_decide_eq_false_2.
Qed.

Lemma receive_condition_info m sm info :
  waiting m sm -> PAIsm.rcvdInfo (thisSM (receive_proc m sm)) = info ->
  receive_condition (receive_proc m sm) =
  if info =? RepeatedMasterInfo then REPEATED_MASTER_PORT
  else if (info =? InferiorMasterInfo) || (info =? OtherInfo) then INFERIOR_MASTER_OR_OTHER_PORT
  else if info =? SuperiorMasterInfo then SUPERIOR_MASTER_PORT else RECEIVE.
Proof.
  intros (_ & _ & _ & _ & _ & _ & _ & _ & _ & Ha & _) E. unfold receive_condition. rewrite E.
  destruct (receive_proc_fields m sm) as (_ & _ & _ & _ & _ & _ & _ & -> & _). rewrite Ha.
  cbn [negb]. by rewrite !andb_true_r.
Qed.

(** the times a superior announce sets, against [cts64] *)
Definition superior_fresh (m : PTPMsgAnnounce) (cts64 : Z) (sm : data) : Prop :=
  cts64 < u64 (cts64 + u64 (u8 (BPPG.announceReceiptTimeout (bppg sm)) *
                            LOG_TO_NSEC (Hdr.logMessageInterval (Ann.header m)))) /\
  (PTASG.gmPresent (ptasg sm) = true ->
   cts64 < u64 (cts64 + u64 (u8 (PPG.syncReceiptTimeout (ppg sm)) *
                             LOG_TO_NSEC (sync_log_interval (ppg sm))))).

Lemma exec_superior m cts64 sm :
  waiting m sm -> superior (mp_of m sm) (pp_of sm) -> superior_fresh m cts64 sm ->
  port_announce_information_sm cts64 sm =
  (at_ CURRENT CURRENT (superior_master_port_proc m cts64 (receive_proc m sm)), Ret None).
Proof.
  intros W Hsup [F1 F2]. pose proof W as (_ & _ & _ & _ & _ & _ & Hu & _ & Hp & _ & Hs).
  pose proof (receive_proc_info m sm Hs) as I.
  rewrite bool_decide_eq_false_2, bool_decide_eq_true_2 in I; [|done|].
  2: { intros E. rewrite E in Hsup. by apply (irreflexivity superior) in Hsup. }
  apply (exec_waiting _ m); [done|]. cbv zeta. rewrite (receive_condition_info _ _ _ W I).
  cbn [Z.eqb Pos.eqb SuperiorMasterInfo RepeatedMasterInfo InferiorMasterInfo OtherInfo orb].
  split; [done|].
  destruct (receive_proc_fields m sm) as (_ & _ & P & U & _ & T1 & _ & _ & G & _).
  destruct (receive_proc_ppg m sm) as (S1 & S2).
  erewrite (loop_at _ _ _ _ _ _ _ (pass_superior _ RECEIVE m _ ltac:(done) (eq_trans P Hp))).
  rewrite bool_decide_eq_false_2 by done.
  destruct (superior_fields m cts64 (receive_proc m sm))
    as (_ & _ & R & _ & _ & _ & _ & _ & TT & ST & U' & _ & GP).
  apply loop_current_rest; [by rewrite U', U|exact R|].
  intros [_ H]. unfold receipt_timeout in H. rewrite TT, ST, GP, T1, G, S1, S2 in H.
  apply orb_true_iff in H as [H|H]; bool_hyps; [lia|]. specialize (F2 H0). lia.
Qed.

Lemma superior_result_at m cts64 sm st ls sm' :
  superior_result m cts64 sm sm' -> superior_result m cts64 sm (at_ st ls sm').
Proof. by destruct sm'. Qed.

Lemma superior_proc_result m cts64 sm :
  in_range sm -> superior_result m cts64 sm (superior_master_port_proc m cts64 (receive_proc m sm)).
Proof.
  intros [R1 R2].
  destruct (receive_proc_fields m sm) as (_ & F2 & _ & _ & _ & F5 & _ & _ & _ & F9 & F10 & _).
  destruct (superior_fields m cts64 (receive_proc m sm))
    as (E1 & E2 & E3 & E4 & E5 & E6 & E7 & E8 & E9 & _).
  revert E1 E2 E3 E4 E5 E6 E7 E8 E9.
  generalize (superior_master_port_proc m cts64 (receive_proc m sm)). intros s'.
  rewrite F2, F9, F10, F5. intros. unfold superior_result.
  rewrite E6, E7, !aget_aset_eq by done. done.
Qed.

(** C4. A superior announce replaces the port's priority vector: the vector, the steps removed
    and the GM identity become the message's, the information is Received until the announce
    receipt timeout, and the port asks the state selection to run again. *)
Theorem superior_announce_taken m cts64 sm :
  waiting m sm -> superior (mp_of m sm) (pp_of sm) -> superior_fresh m cts64 sm ->
  let (sm', o) := port_announce_information_sm cts64 sm in
  o = Ret None /\ state sm' = CURRENT /\ superior_result m cts64 sm sm'.
Proof.
  intros W Hsup F. rewrite (exec_superior m) by done. split; [done|]. split; [done|].
  by apply superior_result_at, superior_proc_result; destruct W as (_ & _ & R & _).
Qed.

(** what a repeated or inferior announce leaves alone *)
Definition same_election (sm sm' : data) : Prop :=
  BPPG.portPriority (bppg sm') = BPPG.portPriority (bppg sm) /\
  BPPG.infoIs (bppg sm') = BPPG.infoIs (bppg sm) /\
  bptasg sm' = bptasg sm /\ ptasg sm' = ptasg sm /\ portIndex sm' = portIndex sm.

Lemma same_election_at sm sm' st ls : same_election sm sm' -> same_election sm (at_ st ls sm').
Proof. by destruct sm'. Qed.

Lemma repeated_fields cts64 sm :
  let sm' := repeated_master_port_proc cts64 sm in
  same_election sm sm' /\ BPPG.rcvdMsg (bppg sm') = false /\
  BPPG.updtInfo (bppg sm') = BPPG.updtInfo (bppg sm) /\
  UNs.nsec (PAIsm.announceReceiptTimeoutTime (thisSM sm')) =
    u64 (cts64 + UNs.nsec (BPPG.announceReceiptTimeoutTimeInterval (bppg sm))) /\
  syncReceiptTimeoutTime sm' = syncReceiptTimeoutTime sm.
Proof. repeat apply conj; reflexivity. Qed.

Lemma inferior_fields sm :
  let sm' := inferior_master_or_other_port_proc sm in
  same_election sm sm' /\ BPPG.rcvdMsg (bppg sm') = false /\
  BPPG.updtInfo (bppg sm') = BPPG.updtInfo (bppg sm) /\ thisSM sm' = thisSM sm /\
  syncReceiptTimeoutTime sm' = syncReceiptTimeoutTime sm.
Proof. repeat apply conj; reflexivity. Qed.

Lemma receive_same_election m sm : same_election sm (receive_proc m sm).
Proof.
  destruct (receive_proc_fields m sm) as (F1 & _ & _ & _ & F5 & _ & _ & _ & F9 & F10 & F11 & _).
  done.
Qed.

Lemma same_election_trans a b c : same_election a b -> same_election b c -> same_election a c.
Proof.
  unfold same_election. intros (-> & -> & -> & -> & ->) (-> & -> & -> & -> & ->). done.
Qed.

(** the information held is refreshed or not aged at [cts64] *)
Definition repeated_fresh (cts64 : Z) (sm : data) : Prop :=
  BPPG.infoIs (bppg sm) <> Received \/
  (cts64 < u64 (cts64 + UNs.nsec (BPPG.announceReceiptTimeoutTimeInterval (bppg sm))) /\
   (PTASG.gmPresent (ptasg sm) = true -> cts64 < UNs.nsec (syncReceiptTimeoutTime sm))).

#[local] Opaque repeated_master_port_proc inferior_master_or_other_port_proc.

Lemma exec_repeated m cts64 sm :
  waiting m sm -> mp_of m sm = pp_of sm -> repeated_fresh cts64 sm ->
  port_announce_information_sm cts64 sm =
  (at_ CURRENT CURRENT (repeated_master_port_proc cts64 (receive_proc m sm)), Ret None).
Proof.
  intros W Heq F. pose proof W as (_ & _ & _ & _ & _ & _ & Hu & _ & Hp & _ & Hs).
  pose proof (receive_proc_info m sm Hs) as I. rewrite bool_decide_eq_true_2 in I by done.
  apply (exec_waiting _ m); [done|]. cbv zeta. rewrite (receive_condition_info _ _ _ W I).
  cbn [Z.eqb Pos.eqb RepeatedMasterInfo]. split; [done|].
  rewrite (loop_at _ _ _ _ _ _ _ (pass_repeated _ RECEIVE _ ltac:(done))).
  rewrite bool_decide_eq_false_2 by done.
  destruct (receive_proc_fields m sm) as (_ & _ & _ & U & N & _ & T & _ & G & _ & _ & SR).
  destruct (repeated_fields cts64 (receive_proc m sm)) as ((_ & I' & _ & P' & _) & R & U' & TT & ST).
  apply loop_current_rest; [by rewrite U', U|exact R|].
  intros [X H]. unfold receipt_timeout in H. rewrite TT, ST, P', T, G, SR in H.
  rewrite I', N in X. destruct F as [F|[F1 F2]]; [done|].
  apply orb_true_iff in H as [H|H]; bool_hyps; [lia|]. specialize (F2 H0). lia.
Qed.

(** A repeated announce only refreshes the announce receipt timeout: the port's vector, the
    source of its information and the state of the selection stay as they are. *)
Theorem repeated_announce_refreshes m cts64 sm :
  waiting m sm -> mp_of m sm = pp_of sm -> repeated_fresh cts64 sm ->
  let (sm', o) := port_announce_information_sm cts64 sm in
  o = Ret None /\ state sm' = CURRENT /\ same_election sm sm' /\
  BPPG.rcvdMsg (bppg sm') = false /\
  UNs.nsec (PAIsm.announceReceiptTimeoutTime (thisSM sm')) =
    u64 (cts64 + UNs.nsec (BPPG.announceReceiptTimeoutTimeInterval (bppg sm))).
Proof.
  intros W E F. rewrite (exec_repeated m) by done.
  destruct (receive_proc_fields m sm) as (_ & _ & _ & _ & _ & _ & T & _).
  destruct (repeated_fields cts64 (receive_proc m sm)) as (S1 & R & _ & TT & _).
  pose proof (same_election_trans _ _ _ (receive_same_election m sm) S1) as S2.
  rewrite T in TT. revert S2 R TT. generalize (repeated_master_port_proc cts64 (receive_proc m sm)).
  intros [] S2 R TT. by split_and!; try apply same_election_at.
Qed.

Lemma aged_fields sm :
  let sm' := aged_proc sm in
  BPPG.portPriority (bppg sm') = BPPG.portPriority (bppg sm) /\
  BPPG.infoIs (bppg sm') = Aged /\
  BPTASG.reselect (bptasg sm') = aset (BPTASG.reselect (bptasg sm)) (portIndex sm) true /\
  BPTASG.selected (bptasg sm') = aset (BPTASG.selected (bptasg sm)) (portIndex sm) false /\
  PTASG.gmIdentity (ptasg sm') = PTASG.thisClock (ptasg sm) /\
  BPPG.rcvdMsg (bppg sm') = BPPG.rcvdMsg (bppg sm).
Proof. repeat apply conj; reflexivity. Qed.

#[local] Opaque aged_proc.

(** an announce that is neither repeated nor superior *)
Definition inferior_msg (m : PTPMsgAnnounce) (sm : data) : Prop :=
  mp_of m sm <> pp_of sm /\ ~ superior (mp_of m sm) (pp_of sm).

(** it comes from the port's current master and the quick update is configured *)
Definition quick_update (m : PTPMsgAnnounce) (sm : data) : Prop :=
  Hdr.sourcePortIdentity (Ann.header m) = U224.sourcePortIdentity (pp_of sm) /\
  BPTASG.bmcsQuickUpdate (bptasg sm) <> 0.

Lemma exec_inferior m cts64 sm o :
  waiting m sm -> inferior_msg m sm ->
  (let sm1 := receive_proc m sm in
   let st := inferior_master_or_other_port_condition sm1 in
   loop (M := machine cts64) 38
     (at_ st INFERIOR_MASTER_OR_OTHER_PORT (inferior_master_or_other_port_proc sm1)) = Some o) ->
  port_announce_information_sm cts64 sm = o.
Proof.
  intros W [N1 N2] L. pose proof W as (_ & _ & _ & _ & _ & _ & Hu & _ & Hp & _ & Hs).
  pose proof (receive_proc_info m sm Hs) as I.
  rewrite !bool_decide_eq_false_2 in I by congruence.
  apply (exec_waiting _ m); [done|]. cbv zeta in L |- *. rewrite (receive_condition_info _ _ _ W I).
  cbn [Z.eqb Pos.eqb RepeatedMasterInfo InferiorMasterInfo orb]. split; [done|].
  rewrite (loop_at _ _ _ _ _ _ _ (pass_inferior _ RECEIVE _ ltac:(done))).
  rewrite bool_decide_eq_false_2; [exact L|].
  unfold inferior_master_or_other_port_condition. by destruct_cond.
Qed.

Lemma inferior_condition_quick m sm :
  inferior_master_or_other_port_condition (receive_proc m sm) = AGED <-> quick_update m sm.
Proof.
  unfold inferior_master_or_other_port_condition, quick_update.
  destruct (receive_proc_fields m sm) as (-> & -> & _ & _ & _ & _ & _ & _ & _ & -> & _).
  change (U224.sourcePortIdentity (messagePriority_of m _))
    with (Hdr.sourcePortIdentity (Ann.header m)).
  destruct_cond.
  - apply andb_true_iff in Hc as [H1 H2]. bool_hyps. done.
  - split; [done|]. intros [E Q]. apply andb_false_iff in Hc as [Hc|Hc]; bool_hyps; done.
Qed.

(** An inferior announce is dropped: the port's vector and the selection stay as they are. *)
Theorem inferior_announce_dropped m cts64 sm :
  waiting m sm -> inferior_msg m sm -> ~ quick_update m sm -> ~ timed_out cts64 sm ->
  let (sm', o) := port_announce_information_sm cts64 sm in
  o = Ret None /\ state sm' = CURRENT /\ same_election sm sm' /\
  BPPG.rcvdMsg (bppg sm') = false.
Proof.
  intros W I Q T. set (s2 := inferior_master_or_other_port_proc (receive_proc m sm)).
  destruct (receive_proc_fields m sm) as (_ & _ & _ & U & N & _ & _ & _ & G & _ & _ & SR).
  destruct (inferior_fields (receive_proc m sm)) as (S1 & R & U' & TH & SR').
  rewrite (exec_inferior m cts64 sm (at_ CURRENT CURRENT s2, Ret None)); [|done|done|].
  - pose proof (same_election_trans _ _ _ (receive_same_election m sm) S1) as S2.
    fold s2 in R, S2. revert R S2. generalize s2. intros [] R S2.
    by split_and!; try apply same_election_at.
  - cbv zeta. fold s2. replace (inferior_master_or_other_port_condition _) with CURRENT; cycle 1.
    { pose proof (proj1 (inferior_condition_quick m sm)) as QQ.
      unfold inferior_master_or_other_port_condition in *. destruct_cond; [|done].
      destruct Q. by apply QQ. }
    pose proof W as (_ & _ & _ & _ & _ & _ & Hu & _).
    apply loop_current_rest; [by unfold s2; rewrite U', U|exact R|].
    intros [X Y]. apply T. destruct S1 as (_ & I1 & _ & P1 & _). unfold s2 in *.
    rewrite I1, N in X. split; [done|]. unfold receipt_timeout in *.
    rewrite SR', P1, G, SR, TH in Y. rewrite <- Y. f_equal.
    by rewrite receive_times.
Qed.

(** With the quick update configured, an inferior announce from the port's own master ages
    the port's information at once and asks the state selection to run again. *)
Theorem quick_update_ages m cts64 sm :
  waiting m sm -> inferior_msg m sm -> quick_update m sm ->
  let (sm', o) := port_announce_information_sm cts64 sm in
  o = Ret None /\ state sm' = AGED /\ BPPG.infoIs (bppg sm') = Aged /\
  BPPG.rcvdMsg (bppg sm') = false /\
  aget false (BPTASG.reselect (bptasg sm')) (portIndex sm) = true /\
  aget false (BPTASG.selected (bptasg sm')) (portIndex sm) = false.
Proof.
  intros W I Q. set (s2 := inferior_master_or_other_port_proc (receive_proc m sm)).
  destruct (inferior_fields (receive_proc m sm)) as (S1 & R & _).
  pose proof (same_election_trans _ _ _ (receive_same_election m sm) S1) as (_ & _ & B & _ & P).
  pose proof W as (_ & _ & [R1 R2] & _).
  rewrite (exec_inferior m cts64 sm (at_ AGED AGED (aged_proc s2), Ret None)); [|done|done|].
  - destruct (aged_fields s2) as (_ & A1 & A2 & A3 & _ & A4). fold s2 in R, B, P.
    rewrite B, P in A2, A3. rewrite R in A4.
    revert A1 A2 A3 A4. generalize (aged_proc s2). intros [] A1 A2 A3 A4. cbn in *.
    rewrite A2, A3, !aget_aset_eq by done. done.
  - cbv zeta. fold s2. apply inferior_condition_quick in Q as ->.
    rewrite (loop_at _ _ _ _ _ _ _
      (pass_aged _ INFERIOR_MASTER_OR_OTHER_PORT s2 ltac:(unfold in_range, s2; by rewrite B, P) ltac:(done))).
    by rewrite bool_decide_eq_true_2.
Qed.

Lemma disabled_fields cts64 sm :
  let sm' := disabled_proc cts64 sm in
  BPPG.infoIs (bppg sm') = Disabled /\ BPPG.rcvdMsg (bppg sm') = false /\
  BPTASG.reselect (bptasg sm') = aset (BPTASG.reselect (bptasg sm)) (portIndex sm) true /\
  BPTASG.selected (bptasg sm') = aset (BPTASG.selected (bptasg sm)) (portIndex sm) false /\
  PORT_UP sm' = PORT_UP sm.
Proof. repeat apply conj; reflexivity. Qed.

#[local] Opaque disabled_proc.

Lemma pass_disabled cts64 ls sm :
  PORT_UP sm = false -> ls <> DISABLED ->
  pass (M := machine cts64) (at_ DISABLED ls sm) = (at_ DISABLED DISABLED (disabled_proc cts64 sm), Next).
Proof.
  intros U L. unfold pass. rewrite change_eq.
  change (state (at_ DISABLED ls sm)) with DISABLED. change (last_state (at_ DISABLED ls sm)) with ls.
  cbn [sm_state sm_switch machine]. rewrite bool_decide_eq_true_2 by done.
  unfold switch. change (state (sm_set_last _ _)) with DISABLED. cbn iota.
  change (sm_set_last _ _) with (at_ DISABLED DISABLED sm).
  assert (E : disabled_proc cts64 (at_ DISABLED DISABLED sm) = at_ DISABLED DISABLED (disabled_proc cts64 sm))
    by by destruct sm.
  rewrite E. destruct (disabled_fields cts64 sm) as (_ & R & _ & _ & U').
  rewrite U in U'. revert R U'. generalize (disabled_proc cts64 sm). intros [] R U'.
  unfold go, disabled_condition. change (PORT_UP (at_ _ _ ?x)) with (PORT_UP x). rewrite U'.
  change (bppg (at_ _ _ ?x)) with (bppg x). by rewrite R.
Qed.

(** Whatever the machine was doing, a port that stops being operational, enabled or
    asCapable drops its information and any pending message and asks for a new selection. *)
Theorem port_down_disables cts64 sm :
  in_range sm -> PORT_UP sm = false -> BPPG.infoIs (bppg sm) <> Disabled ->
  BPTASG.externalPortConfiguration (bptasg sm) = VALUE_DISABLED -> last_state sm <> DISABLED ->
  let (sm', o) := port_announce_information_sm cts64 sm in
  o = Ret None /\ state sm' = DISABLED /\ BPPG.infoIs (bppg sm') = Disabled /\
  BPPG.rcvdMsg (bppg sm') = false /\
  aget false (BPTASG.reselect (bptasg sm')) (portIndex sm) = true /\
  aget false (BPTASG.selected (bptasg sm')) (portIndex sm) = false.
Proof.
  intros [R1 R2] U I X L.
  assert (E : port_announce_information_sm cts64 sm =
              (at_ DISABLED DISABLED (disabled_proc cts64 sm), Ret None)).
  { apply (exec_eq (M := machine cts64)).
    replace (sm_allstate (StateMachine := machine cts64) sm) with (at_ DISABLED (last_state sm) sm).
    - unfold fuel. rewrite (loop_at _ _ _ _ _ _ _ (pass_disabled _ (last_state sm) _ U L)).
      by rewrite bool_decide_eq_true_2.
    - cbn. unfold set_allstate, allstate_condition. rewrite U, X, (proj2 (Z.eqb_neq _ _) I).
      by destruct sm. }
  rewrite E. destruct (disabled_fields cts64 sm) as (A1 & A2 & A3 & A4 & _).
  revert A1 A2 A3 A4. generalize (disabled_proc cts64 sm). intros [] A1 A2 A3 A4. cbn in *.
  rewrite A3, A4, !aget_aset_eq by done. done.
Qed.

(** The machine's evaluation always ends within the fuel. *)
Theorem announce_information_ends cts64 sm :
  in_range sm ->
  run (M := machine cts64) fuel sm = Some (port_announce_information_sm cts64 sm).
Proof. apply run_ends. Qed.

Lemma allstate_msg_ok sm : msg_ok sm -> msg_ok (set_allstate sm).
Proof.
  unfold set_allstate, msg_ok, allstate_condition. intros Hs. destruct_cond; [|by destruct sm].
  cbn. rewrite orb_false_r. intros R. apply Hs. by rewrite R.
Qed.

(** No NULL dereference: as long as a pending message comes with its announce, an
    evaluation returns normally and leaves a state in which the same holds. *)
Theorem announce_information_no_null cts64 sm :
  msg_ok sm ->
  msg_ok (port_announce_information_sm cts64 sm).1 /\
  (port_announce_information_sm cts64 sm).2 = Ret None.
Proof.
  refine (exec_ret (M := machine cts64) msg_ok fuel sm allstate_msg_ok (pass_msg_ok cts64)).
Qed.

End Facts.

(** ** Witnesses *)

Section Witnesses.

#[local] Existing Instance platform0.

Definition clockA : list Z := [2;0;0;0;0;0;0;1].
Definition clockG : list Z := [2;0;0;0;0;0;0;9].

(** an announce of grandmaster [clockG] with priority1 [p1] *)
Definition announce (p1 : Z) : PTPMsgAnnounce :=
  zero <| Ann.header; Hdr.sourcePortIdentity; PortId.clockIdentity := clockG |>
       <| Ann.grandmasterPriority1 := p1 |> <| Ann.grandmasterIdentity := clockG |>.

(** port 1, up, in CURRENT, holding the vector of [announce 100], with [m] to be read *)
Definition port1 (m : PTPMsgAnnounce) : data :=
  at_ CURRENT CURRENT
    (mk (zero <| PTASG.instanceEnable := true |> <| PTASG.thisClock := clockA |>
              <| PTASG.selectedState ::= fun l => aset l 1 SlavePort |>)
        (zero <| PPG.asCapable := true |> <| PPG.ptpPortEnabled := true |> <| PPG.thisPort := 1 |>
              <| PPG.syncReceiptTimeout := 3 |>
              <| PPG.forAllDomain; PPGALL.portOper := true |>)
        (zero <| BPTASG.bmcsQuickUpdate := 1 |>)
        (zero <| BPPG.portPriority := messagePriority_of (announce 100) 1 |>
              <| BPPG.announceReceiptTimeout := 3 |>
              <| BPPG.announceReceiptTimeoutTimeInterval; UNs.nsec := 3000000000 |>
              <| BPPG.infoIs := Received |>
              <| BPPG.rcvdMsg := true |> <| BPPG.rcvdAnnouncePtr := Some m |>)
        CURRENT CURRENT
        (zero <| PAIsm.announceReceiptTimeoutTime; UNs.nsec := 4000000000 |>) 0 1
        (zero <| UNs.nsec := U64_MAX |>)).

Lemma waiting_port1 m : waiting m (port1 m).
Proof. unfold waiting, in_range, in_array. split_and!; try reflexivity; vm_compute; done. Defined.

Lemma superior_announce_witness :
  superior_result (announce 50) 1000 (port1 (announce 50))
    (port_announce_information_sm 1000 (port1 (announce 50))).1.
Proof.
  pose proof (superior_announce_taken (announce 50) 1000 (port1 (announce 50))
    (waiting_port1 _) ltac:(by vm_compute) ltac:(vm_compute; done)) as T.
  destruct (port_announce_information_sm 1000 (port1 (announce 50))). apply T.
Defined.

Lemma repeated_announce_witness :
  same_election (port1 (announce 100))
    (port_announce_information_sm 1000 (port1 (announce 100))).1.
Proof.
  pose proof (repeated_announce_refreshes (announce 100) 1000 (port1 (announce 100))
    (waiting_port1 _) ltac:(reflexivity) ltac:(right; vm_compute; done)) as T.
  destruct (port_announce_information_sm 1000 (port1 (announce 100))). apply T.
Defined.

(** the same announce sent by port 5 of the master: not the port's own master *)
Definition announce_other : PTPMsgAnnounce :=
  announce 200 <| Ann.header; Hdr.sourcePortIdentity; PortId.portIndex := 5 |>.

Lemma inferior_announce_witness :
  same_election (port1 announce_other)
    (port_announce_information_sm 1000 (port1 announce_other)).1.
Proof.
  pose proof (inferior_announce_dropped announce_other 1000 (port1 announce_other)
    (waiting_port1 _) ltac:(split; vm_compute; done) ltac:(by intros [? _])
    ltac:(by intros [_ ?])) as T.
  destruct (port_announce_information_sm 1000 (port1 announce_other)). apply T.
Defined.

Lemma quick_update_witness :
  BPPG.infoIs (bppg (port_announce_information_sm 1000 (port1 (announce 200))).1) = Aged.
Proof.
  pose proof (quick_update_ages (announce 200) 1000 (port1 (announce 200))
    (waiting_port1 _) ltac:(split; vm_compute; done) ltac:(split; [reflexivity|by vm_compute])) as T.
  destruct (port_announce_information_sm 1000 (port1 (announce 200))). apply T.
Defined.

(** the port of [port1] once asCapable is lost *)
Definition port_lost : data := port1 (announce 50) <| ppg; PPG.asCapable := false |>.

Lemma port_down_witness :
  BPPG.infoIs (bppg (port_announce_information_sm 1000 port_lost).1) = Disabled.
Proof.
  pose proof (port_down_disables 1000 port_lost) as T.
  destruct (port_announce_information_sm 1000 port_lost).
  apply T; try reflexivity; done.
Defined.

Lemma announce_information_ends_witness :
  run (M := machine 1000) fuel port_lost = Some (port_announce_information_sm 1000 port_lost).
Proof. apply (announce_information_ends 1000 port_lost). split; vm_compute; done. Defined.

Lemma announce_information_no_null_witness :
  (port_announce_information_sm 1000 (port1 (announce 50))).2 = Ret None.
Proof.
  apply (announce_information_no_null 1000 (port1 (announce 50))). intros _. by eexists.
Defined.

End Witnesses.
End PAI.
