(* ===== verification/StateSelection.v ===== *)
(** * StateSelection: port_state_selection_sm.c (10.3.13, PortStateSelection).

    The core of best-master selection: from the priority vectors of the ports the
    best grandmaster is chosen ([updtStatesTree]), each port is given its role and
    the master clock is told whether this instance is the grandmaster. *)

From stdpp Require Import gmap.
From S2P Require Import Prelude Types Floats Driver Common Clock.
#[local] Open Scope Z_scope.
#[local] Open Scope gptp_scope.

Module PSSEL.

Inductive port_state_selection_state_t := INIT | INIT_BRIDGE | STATE_SELECTION | REACTION.
#[export] Instance state_eqdec : EqDecision port_state_selection_state_t.
Proof. solve_decision. Defined.

(** [ppgl] and [bppgl] are the arrays of the instance's ports, indexed by port; [gcd] is the
    clock module's state. *)
Record port_state_selection_data := mk {
  ptasg : PerTimeAwareSystemGlobal;
  ppgl : list PerPortGlobal;
  bptasg : BmcsPerTimeAwareSystemGlobal;
  bppgl : list BmcsPerPortGlobal;
  state : port_state_selection_state_t;
  last_state : port_state_selection_state_t;
  thisSM : PortStateSelectionSM;
  domainIndex : Z;
  max_ports : Z;
  init_slave_ts : Z;
  deferred_gmsync : bool;
  gcd : gptpclock_data
}.
#[export] Instance eta_data : Eta port_state_selection_data :=
  fields! mk [ptasg, ppgl, bptasg, bppgl, state, last_state, thisSM, domainIndex, max_ports,
              init_slave_ts, deferred_gmsync, gcd].
Abbreviation data := port_state_selection_data.

(** for(i=a;i<b;i++) *)
Definition for_ (a b : Z) {S : Type} (body : Z -> S -> S) (s : S) : S :=
  fold_left (fun s i => body i s) (seqZ a (b - a)) s.

Definition bppg (sm : data) (i : Z) : BmcsPerPortGlobal := aget zero (bppgl sm) i.
Definition ppg (sm : data) (i : Z) : PerPortGlobal := aget zero (ppgl sm) i.
Definition SELECTED_STATE (sm : data) (i : Z) : Z := aget 0 (PTASG.selectedState (ptasg sm)) i.
Definition NETDEVS : Z := Z.of_nat XL4_DATA_ABS_MAX_NETDEVS.

Definition set_selected_state (i st : Z) (sm : data) : data :=
  sm <| ptasg; PTASG.selectedState ::= fun l => aset l i st |>.

(** gptpgcfg_set_yang_port_item(.., IEEE1588_PTP_TT_PORT_STATE, i, sm->domainIndex, ..) *)
Definition publish_port_state (i : Z) (sm : data) : data :=
  sm <| gcd ::= emit (EvPortState i (domainIndex sm) (SELECTED_STATE sm i)) |>.

(** memset(v, b, sizeof(UInteger224)) *)
Definition memset224 (b : Z) : UInteger224 :=
  let w := b * 256 + b in
  U224.mk (U112.mk b b b w b (replicate 8 b)) w (PortId.mk (replicate 8 b) w) w.

Section Procs.
Context `{CF : Config}.

Definition set_gmsync (v : Z) (sm : data) : data :=
  sm <| gcd ::= gptpclock_set_gmsync (PTASG.domainIndex (ptasg sm)) v |>.

(** the loops that give every port a state of its own *)
Definition set_all_states (st : Z -> Z) (sm : data) : data :=
  for_ 0 NETDEVS (fun i sm => publish_port_state i (set_selected_state i (st i) sm)) sm.

Definition set_lastGmPriority (v : UInteger224) (sm : data) : data :=
  sm <| bptasg; BPTASG.lastGmPriority := v |>.

Definition path_is_thisClock (sm : data) : data :=
  sm <| bptasg; BPTASG.pathTrace ::= memcpy_at 0 (PTASG.thisClock (ptasg sm)) |>
     <| bptasg; BPTASG.pathTraceCount := 1 |>.

Definition updateStateDisabledTree (sm : data) : data :=
  let sm := set_all_states (fun _ => DisabledPort) sm in
  path_is_thisClock (set_lastGmPriority (memset224 1) sm).

Definition clearReselectTree (sm : data) : data :=
  sm <| bptasg; BPTASG.reselect := replicate XL4_DATA_ABS_MAX_NETDEVS false |>.

Definition setSelectedTree (sm : data) : data :=
  sm <| bptasg; BPTASG.selected := replicate XL4_DATA_ABS_MAX_NETDEVS true |>.

(** the part of portStateUpdate that gives the port its role: [*selected_state], [updtInfo] *)
Definition port_role (gmPriority : UInteger224) (masterStepsRemoved selected_state : Z)
    (b : BmcsPerPortGlobal) (p : PerPortGlobal) (gmPathPriority : UInteger224) : Z * bool :=
  if BPPG.infoIs b =? Disabled then (DisabledPort, false)
  else if PPGALL.asymmetryMeasurementMode (PPG.forAllDomain p) then (PassivePort, false)
  else if BPPG.infoIs b =? Aged then (MasterPort, true)
  else if BPPG.infoIs b =? Mine then
    (MasterPort,
     if negb (bool_decide (BPPG.masterPriority b = BPPG.portPriority b)) ||
        negb (masterStepsRemoved =? BPPG.portStepsRemoved b)
     then true else BPPG.updtInfo b)
  else if BPPG.infoIs b =? Received then
    if bool_decide (gmPriority = gmPathPriority) then (SlavePort, false)
    else if negb (bool_decide (compare_priority_vectors (BPPG.masterPriority b) (BPPG.portPriority b)
                               = SUPERIOR_PRIORITY))
    then (PassivePort, false)
    else (MasterPort, true)
  else (selected_state, BPPG.updtInfo b).

(** portStateUpdate for port [i]; the returned flag says the state changed *)
Definition portStateUpdate (i : Z) (gmPathPriority : UInteger224) (sm : data) : data * bool :=
  let b := bppg sm i in
  let oldState := SELECTED_STATE sm i in
  let (st, updt) := port_role (BPTASG.gmPriority (bptasg sm)) (BPTASG.masterStepsRemoved (bptasg sm))
                      oldState b (ppg sm i) gmPathPriority in
  let sm := set_selected_state i st sm <| bppgl ::= fun l => aset l i (b <| BPPG.updtInfo := updt |>) |> in
  let sm :=
    if (st =? SlavePort) && negb (oldState =? SlavePort) then
      let N := Nat.min (Z.to_nat (BPPG.annPathSequenceCount b)) MAX_PATH_TRACE_N in
      if (N + 1 <=? MAX_PATH_TRACE_N)%nat then
        sm <| bptasg; BPTASG.pathTrace ::= fun t =>
                memcpy_at (8 * N) (PTASG.thisClock (ptasg sm))
                  (memcpy_at 0 (take (8 * N) (BPPG.annPathSequence b)) t) |>
           <| bptasg; BPTASG.pathTraceCount := Z.of_nat (N + 1) |>
      else sm <| bptasg; BPTASG.pathTraceCount := 0 |>
    else sm in
  (sm, negb (oldState =? st)).

Definition update_lastGmInfo (sm : data) : data :=
  let p := ptasg sm in
  sm <| ptasg; PTASG.gmTimeBaseIndicator ::= fun z => u16 (z + 1) |>
     <| ptasg; PTASG.lastGmPhaseChange := zero |>
     <| ptasg; PTASG.lastGmFreqChange :=
          if negb (RESET_FREQADJ_BECOMEGM =? 0) then
            ddiv (d_of_Z (- gptpclock_get_adjppb (PTASG.domainIndex p) (gcd sm))) (d_of_Z 1000000000)
          else d0 |>.

(** gmPathPriority[i] *)
Definition gm_path_priority (b : BmcsPerPortGlobal) : UInteger224 :=
  if HAS_PORT_PRIORITY (BPPG.portPriority b) && negb (BPPG.infoIs b =? Aged) then
    BPPG.portPriority b <| U224.stepsRemoved ::= fun z => u16 (z + 1) |>
  else memset224 255.

(** gmPriority and the time properties start as the system's own *)
Definition start_gm (sm : data) : data :=
  let b := bptasg sm in
  sm <| bptasg; BPTASG.lastGmPriority := BPTASG.gmPriority b |>
     <| bptasg; BPTASG.gmPriority := BPTASG.systemPriority b |>
     <| bptasg; BPTASG.leap61 := BPTASG.sysLeap61 b |>
     <| bptasg; BPTASG.leap59 := BPTASG.sysLeap59 b |>
     <| bptasg; BPTASG.currentUtcOffsetValid := BPTASG.sysCurrentUTCOffsetValid b |>
     <| bptasg; BPTASG.ptpTimescale := BPTASG.sysPtpTimescale b |>
     <| bptasg; BPTASG.timeTraceable := BPTASG.sysTimeTraceable b |>
     <| bptasg; BPTASG.frequencyTraceable := BPTASG.sysFrequencyTraceable b |>
     <| bptasg; BPTASG.currentUtcOffset := BPTASG.sysCurrentUtcOffset b |>
     <| bptasg; BPTASG.timeSource := BPTASG.sysTimeSource b |>.

(** the port may offer its path's grandmaster *)
Definition offers (thisClock : list Z) (b : BmcsPerPortGlobal) : bool :=
  negb (BPPG.infoIs b =? Disabled) &&
  negb (bool_decide (PortId.clockIdentity (U224.sourcePortIdentity (gm_path_priority b)) = thisClock)).

(** one turn of the loop that looks for the best grandmaster *)
Definition offer_gm (i : Z) (sm : data) : data :=
  let b := bppg sm i in
  if offers (PTASG.thisClock (ptasg sm)) b &&
     bool_decide (compare_priority_vectors (gm_path_priority b) (BPTASG.gmPriority (bptasg sm))
                  = SUPERIOR_PRIORITY)
  then
    sm <| bptasg; BPTASG.gmPriority := gm_path_priority b |>
       <| bptasg; BPTASG.leap61 := BPPG.annLeap61 b |>
       <| bptasg; BPTASG.leap59 := BPPG.annLeap59 b |>
       <| bptasg; BPTASG.currentUtcOffsetValid := BPPG.annCurrentUtcOffsetValid b |>
       <| bptasg; BPTASG.ptpTimescale := BPPG.annPtpTimescale b |>
       <| bptasg; BPTASG.timeTraceable := BPPG.annTimeTraceable b |>
       <| bptasg; BPTASG.frequencyTraceable := BPPG.annFrequencyTraceable b |>
       <| bptasg; BPTASG.currentUtcOffset := BPPG.annCurrentUtcOffset b |>
       <| bptasg; BPTASG.timeSource := BPPG.annTimeSource b |>
  else sm.

Definition choose_gm (sm : data) : data := for_ 0 (max_ports sm) offer_gm (start_gm sm).

(** masterPriority of a port: the GM's vector, offered by this clock and port *)
Definition masterPriority_for (gmPriority : UInteger224) (thisClock : list Z) (thisPort : Z)
  : UInteger224 :=
  gmPriority <| U224.sourcePortIdentity; PortId.clockIdentity := thisClock |>
             <| U224.sourcePortIdentity; PortId.portIndex := thisPort |>
             <| U224.portNumber := md_port_index2number thisPort |>.

Definition set_masterPriority (i : Z) (sm : data) : data :=
  let mp := masterPriority_for (BPTASG.gmPriority (bptasg sm)) (PTASG.thisClock (ptasg sm))
              (PPG.thisPort (ppg sm i)) in
  sm <| bppgl ::= fun l => aset l i (aget zero l i <| BPPG.masterPriority := mp |>) |>.

Definition compute_masterPriority (sm : data) : data :=
  let sm := for_ 0 (max_ports sm) set_masterPriority sm in
  sm <| bptasg; BPTASG.masterStepsRemoved :=
          U224.stepsRemoved (BPTASG.gmPriority (bptasg sm)) |>.

(** one turn of the loop that assigns the states of ports 1.. *)
Definition assign_port (gmPath : Z -> UInteger224) (i : Z) (sm : data) : data :=
  let oldState := SELECTED_STATE sm i in
  let (sm, changed) := portStateUpdate i (gmPath i) sm in
  if changed then
    let sm := publish_port_state i sm in
    if oldState =? SlavePort then set_gmsync GMSYNC_UNSYNC sm else sm
  else sm.

Definition slavePortAvail (sm : data) : bool :=
  existsb (fun i => SELECTED_STATE sm i =? SlavePort) (seqZ 1 (max_ports sm - 1)).

(** the state of port 0 (the instance's own clock) and what it means for the clock *)
Definition assign_port0 (gmchange : bool) (sm : data) : data :=
  let avail := slavePortAvail sm in
  let oldState := SELECTED_STATE sm 0 in
  let sm := if avail then set_selected_state 0 PassivePort sm
            else let sm := set_selected_state 0 SlavePort sm in
                 if gmchange then update_lastGmInfo sm else sm in
  let sm := if gmchange then
              sm <| gcd ::= gptpclock_set_gmchange (PTASG.domainIndex (ptasg sm))
                      (U112.clockIdentity (U224.rootSystemIdentity (BPTASG.gmPriority (bptasg sm))))
                      (negb avail) |>
            else sm in
  if negb (oldState =? SELECTED_STATE sm 0) then
    let sm := publish_port_state 0 sm in
    if SELECTED_STATE sm 0 =? SlavePort then
      if deferred_gmsync sm then sm else set_gmsync GMSYNC_SYNC_STABLE sm
    else set_gmsync GMSYNC_UNSYNC sm
  else sm.

Definition gm_clockIdentity (sm : data) : list Z :=
  U112.clockIdentity (U224.rootSystemIdentity (BPTASG.gmPriority (bptasg sm))).

(** the new grandmaster's identity is returned when the grandmaster has changed *)
Definition updtStatesTree (sm : data) : data * option (list Z) :=
  let gmPath i := gm_path_priority (bppg sm i) in
  let sm := choose_gm sm in
  let gmchange := negb (bool_decide (BPTASG.lastGmPriority (bptasg sm) = BPTASG.gmPriority (bptasg sm))) in
  let rval := if gmchange then Some (gm_clockIdentity sm) else None in
  let sm := compute_masterPriority sm in
  let sm := for_ 1 (max_ports sm) (assign_port gmPath) sm in
  let sm := sm <| ptasg; PTASG.gmPresent :=
                    U112.priority1 (U224.rootSystemIdentity (BPTASG.gmPriority (bptasg sm))) <? 255 |> in
  let sm := assign_port0 gmchange sm in
  (if bool_decide (PTASG.thisClock (ptasg sm) = gm_clockIdentity sm)
   then path_is_thisClock sm else sm, rval).

Definition set_system_priority1 (v : Z) (sm : data) : data :=
  sm <| bptasg; BPTASG.systemPriority ::=
          fun s => s <| U224.rootSystemIdentity; U112.priority1 := v |> |>.

(** the label clearexit of proc_init_slave *)
Definition end_init_slave (sm : data) : data * option (list Z) :=
  let sm := sm <| deferred_gmsync := false |> <| init_slave_ts := 0 |> in
  updtStatesTree (set_system_priority1 (u8 (PRIORITY1 (domainIndex sm))) sm).

Definition proc_init_slave (cts64 : Z) (sm : data) : data * option (list Z) :=
  if negb (SELECTED_STATE sm 0 =? SlavePort) &&
     (GMSYNC_SYNC <=? gptpclock_get_gmsync 0 (gcd sm)) && PTASG.gm_stable_initdone (ptasg sm)
  then end_init_slave sm
  else if init_slave_ts sm <? cts64 then
    end_init_slave (if SELECTED_STATE sm 0 =? SlavePort then set_gmsync GMSYNC_SYNC_STABLE sm else sm)
  else (sm, None).

Definition proc_deferred_gmsync (cts64 : Z) (sm : data) : data * option (list Z) :=
  if negb (init_slave_ts sm =? 0) then proc_init_slave cts64 sm
  else if domainIndex sm =? 0 then (sm, None)
  else if GMSYNC_SYNC_STABLE <=? gptpclock_get_gmsync 0 (gcd sm) then
    let sm := if SELECTED_STATE sm 0 =? SlavePort then set_gmsync GMSYNC_SYNC_STABLE sm else sm in
    (sm <| deferred_gmsync := false |>, None)
  else (sm, None).

Definition set_gmPresent (v : bool) (sm : data) : data := sm <| ptasg; PTASG.gmPresent := v |>.

Definition allstate_condition (sm : data) : port_state_selection_state_t :=
  if (PTASG.BEGIN (ptasg sm) || negb (PTASG.instanceEnable (ptasg sm))) &&
     (BPTASG.externalPortConfiguration (bptasg sm) =? VALUE_DISABLED)
  then INIT_BRIDGE else state sm.

Definition init_bridge_proc (sm : data) : data :=
  let static_slave := STATIC_PORT_STATE_SLAVE_PORT in
  if 0 <=? static_slave then
    let sm := set_all_states (fun i => if i =? static_slave then SlavePort else MasterPort) sm in
    let sm := set_gmPresent true sm in
    if static_slave =? 0 then set_gmsync GMSYNC_SYNC_STABLE sm else sm
  else updateStateDisabledTree sm.

(** [None]: [ppgl[static_slave]] is read outside the array *)
Definition init_bridge_condition (sm : data) : option (data * port_state_selection_state_t) :=
  let static_slave := STATIC_PORT_STATE_SLAVE_PORT in
  if 0 <=? static_slave then
    if NETDEVS <=? static_slave then Some (sm, INIT_BRIDGE)
    else if static_slave =? 0 then Some (sm, INIT_BRIDGE)
    else
      p ← ppgl sm !! Z.to_nat static_slave;
      if PPG.asCapable p then
        Some (if gptpclock_get_gmsync (PTASG.domainIndex (ptasg sm)) (gcd sm) <? GMSYNC_SYNC
              then set_gmsync GMSYNC_SYNC sm else sm, INIT_BRIDGE)
      else Some (set_gmsync GMSYNC_UNSYNC sm, INIT_BRIDGE)
  else Some (sm, STATE_SELECTION).

Definition state_selection_proc (cts64 : Z) (sm : data) : data * option (list Z) :=
  let sm := sm <| thisSM; PSSELsm.systemIdentityChange := false |>
               <| thisSM; PSSELsm.forAllDomain; PSSELall.asymmetryMeasurementModeChange := false |> in
  let sm := clearReselectTree sm in
  let sm :=
    if (domainIndex sm =? 0) && negb (INITIAL_SLAVE_TIME =? 0) &&
       negb (PTASG.gm_stable_initdone (ptasg sm)) then
      set_system_priority1 254 sm
        <| init_slave_ts := i64 (cts64 + INITIAL_SLAVE_TIME * UB_SEC_NS) |>
        <| deferred_gmsync := true |>
    else sm in
  let sm :=
    if negb (domainIndex sm =? 0) && negb (PTASG.gm_stable_initdone (ptasg sm))
    then sm <| deferred_gmsync := true |> else sm in
  let (sm, rval) := updtStatesTree sm in
  (setSelectedTree sm, rval).

(** a port or a system change asks for the states to be computed again *)
Definition reselected (sm : data) : bool :=
  existsb id (BPTASG.reselect (bptasg sm)) ||
  PSSELsm.systemIdentityChange (thisSM sm) ||
  PSSELall.asymmetryMeasurementModeChange (PSSELsm.forAllDomain (thisSM sm)).

Definition state_selection_condition (sm : data) : data :=
  if reselected sm then sm <| last_state := REACTION |> <| state := STATE_SELECTION |> else sm.

Definition switch (cts64 : Z) (state_change : bool) (sm : data) : data * ctl (list Z) :=
  match state sm with
  | INIT => (sm <| state := INIT_BRIDGE |>, Next)
  | INIT_BRIDGE =>
      let sm := if state_change then init_bridge_proc sm else sm in
      deref (init_bridge_condition sm) sm (fun r => (r.1 <| state := r.2 |>, Next))
  | STATE_SELECTION =>
      let (sm, retp) := if deferred_gmsync sm then proc_deferred_gmsync (i64 cts64) sm
                        else (sm, None) in
      match retp with
      | Some _ => (sm, ret_if retp)
      | None =>
          let (sm, retp) := if state_change then state_selection_proc (i64 cts64) sm
                            else (sm, None) in
          (state_selection_condition sm, ret_if retp)
      end
  | REACTION => (sm, Next)
  end.

Definition set_last (e : port_state_selection_state_t) (sm : data) : data := sm <| last_state := e |>.
Definition set_allstate (sm : data) : data := sm <| state := allstate_condition sm |>.

Definition machine (cts64 : Z) : StateMachine data port_state_selection_state_t (list Z) := {|
  sm_state := state;
  sm_last := last_state;
  sm_set_last := set_last;
  sm_allstate := set_allstate;
  sm_switch := switch cts64;
  sm_state_set_last := fun _ _ => eq_refl;
  sm_last_set_last := fun _ _ => eq_refl
|}.

(** INIT, INIT_BRIDGE, STATE_SELECTION and one reselection *)
Definition fuel : nat := 6.

Definition port_state_selection_sm (cts64 : Z) (sm : data) : data * outcome (list Z) :=
  exec (M := machine cts64) fuel sm.

Definition port_state_selection_sm_init (domainIndex : Z) (ptasg : PerTimeAwareSystemGlobal)
    (ppgl : list PerPortGlobal) (bptasg : BmcsPerTimeAwareSystemGlobal)
    (bppgl : list BmcsPerPortGlobal) (max_ports : Z) (gcd : gptpclock_data) : data :=
  mk ptasg ppgl bptasg bppgl INIT INIT zero domainIndex max_ports 0 false gcd.

End Procs.

(** ** Loops *)

Lemma for_ind (P : Z -> data -> Prop) a b body sm :
  a <= b -> P a sm -> (forall i s, a <= i < b -> P i s -> P (i + 1) (body i s)) ->
  P b (for_ a b body sm).
Proof.
  intros Hab Ha Hs. unfold for_.
  assert (G : forall n a, b = a + Z.of_nat n -> forall s, P a s ->
    (forall i s, a <= i < b -> P i s -> P (i + 1) (body i s)) ->
    P b (fold_left (fun s i => body i s) (seqZ a (Z.of_nat n)) s)).
  { clear. induction n as [|n IH]; intros a E s Ha Hs.
    - cbn. by replace b with a by lia.
    - rewrite seqZ_cons by lia. cbn [fold_left]. replace (Z.pred (Z.of_nat (S n))) with (Z.of_nat n) by lia.
      apply IH; [lia| |].
      + rewrite <- Z.add_1_r. apply Hs; [lia|done].
      + intros i s' Hi. apply Hs. lia. }
  replace (b - a) with (Z.of_nat (Z.to_nat (b - a))) by lia. apply G; [lia|done|done].
Qed.

Lemma for_nil a b (body : Z -> data -> data) sm : b <= a -> for_ a b body sm = sm.
Proof. intros. unfold for_. by rewrite seqZ_nil by lia. Qed.

Lemma for_inv (P : data -> Prop) a b body sm :
  P sm -> (forall i s, P s -> P (body i s)) -> P (for_ a b body sm).
Proof.
  intros Hp Hb. unfold for_. revert sm Hp. induction (seqZ a (b - a)) as [|i l IH]; intros sm Hp; [done|].
  cbn. apply IH. by apply Hb.
Qed.

(** a body that leaves [f] alone leaves it alone in the loop *)
Lemma for_frame {A : Type} (f : data -> A) a b body sm :
  (forall i s, f (body i s) = f s) -> f (for_ a b body sm) = f sm.
Proof. intros H. apply (for_inv (fun s => f s = f sm)); [done|]. intros i s <-. apply H. Qed.

#[local] Opaque for_.

(** ** What each phase leaves alone *)

Section Facts.
Context `{CF : Config}.

(** the parts of the instance that updtStatesTree reads and does not write *)
Definition fixed (sm : data) :=
  (PTASG.thisClock (ptasg sm), BPTASG.systemPriority (bptasg sm), BPTASG.reselect (bptasg sm),
   thisSM sm, (state sm, last_state sm), (domainIndex sm, max_ports sm), ppgl sm,
   (PTASG.gm_stable_initdone (ptasg sm), init_slave_ts sm, deferred_gmsync sm)).

Definition gm (sm : data) : UInteger224 := BPTASG.gmPriority (bptasg sm).

(** per port: the source of its information and the vector it holds *)
Definition held (b : BmcsPerPortGlobal) := (BPPG.infoIs b, BPPG.portPriority b).

Lemma held_path b b' : held b = held b' -> gm_path_priority b = gm_path_priority b'.
Proof. unfold held, gm_path_priority. intros H. injection H as -> ->. done. Qed.

Lemma held_offers c b b' : held b = held b' -> offers c b = offers c b'.
Proof. intros H. unfold offers. rewrite (held_path _ _ H). injection H as -> _. done. Qed.

Lemma fixed_publish i sm : fixed (publish_port_state i sm) = fixed sm.
Proof. done. Qed.

Lemma fixed_set_gmsync v sm : fixed (set_gmsync v sm) = fixed sm.
Proof. done. Qed.

Lemma offer_gm_fixed i sm : fixed (offer_gm i sm) = fixed sm /\ bppgl (offer_gm i sm) = bppgl sm.
Proof. unfold offer_gm. destruct_cond; done. Qed.

Lemma offer_gm_gm i sm :
  gm (offer_gm i sm) =
  if offers (PTASG.thisClock (ptasg sm)) (bppg sm i) &&
     bool_decide (superior (gm_path_priority (bppg sm i)) (gm sm))
  then gm_path_priority (bppg sm i) else gm sm.
Proof. unfold offer_gm, gm, superior. destruct_cond; done. Qed.

Lemma offer_gm_lastGm i sm :
  BPTASG.lastGmPriority (bptasg (offer_gm i sm)) = BPTASG.lastGmPriority (bptasg sm).
Proof. unfold offer_gm. destruct_cond; done. Qed.

Lemma set_masterPriority_fixed i sm :
  fixed (set_masterPriority i sm) = fixed sm /\ bptasg (set_masterPriority i sm) = bptasg sm /\
  ptasg (set_masterPriority i sm) = ptasg sm.
Proof. done. Qed.

Lemma held_aset l i (u : BmcsPerPortGlobal) j :
  0 <= i -> 0 <= j -> held u = held (aget zero l i) ->
  held (aget zero (aset l i u) j) = held (aget zero l j).
Proof.
  intros Hi Hj Hu. destruct (decide (i = j)) as [<-|Hne].
  - destruct (decide (in_array l i)) as [Hin|Hout].
    + by rewrite aget_aset_eq.
    + unfold aget, aset, in_array in *. rewrite list_insert_ge by lia. done.
  - by rewrite aget_aset_ne.
Qed.

Lemma set_masterPriority_held i j sm :
  0 <= i -> 0 <= j -> held (bppg (set_masterPriority i sm) j) = held (bppg sm j).
Proof. intros. by apply held_aset. Qed.

Definition set_updt (b : BmcsPerPortGlobal) (u : bool) : BmcsPerPortGlobal :=
  b <| BPPG.updtInfo := u |>.

Lemma held_updt b u : held (set_updt b u) = held b.
Proof. done. Qed.

(** portStateUpdate, field by field *)
Lemma portStateUpdate_fields i g sm :
  let st := (port_role (gm sm) (BPTASG.masterStepsRemoved (bptasg sm)) (SELECTED_STATE sm i)
               (bppg sm i) (ppg sm i) g).1 in
  let sm' := (portStateUpdate i g sm).1 in
  fixed sm' = fixed sm /\ gm sm' = gm sm /\
  BPTASG.lastGmPriority (bptasg sm') = BPTASG.lastGmPriority (bptasg sm) /\
  PTASG.gmPresent (ptasg sm') = PTASG.gmPresent (ptasg sm) /\
  PTASG.selectedState (ptasg sm') = aset (PTASG.selectedState (ptasg sm)) i st /\
  length (bppgl sm') = length (bppgl sm) /\
  (0 <= i -> forall j, 0 <= j -> held (bppg sm' j) = held (bppg sm j)).
Proof.
  unfold portStateUpdate. fold (gm sm).
  destruct (port_role _ _ _ _ _ _) as [st updt]. cbn zeta.
  destruct ((st =? SlavePort) && negb (SELECTED_STATE sm i =? SlavePort));
    [destruct (Nat.leb _ _)|]; repeat apply conj; try reflexivity; try apply aset_length.
  all: intros Hi j Hj;
    exact (held_aset (bppgl sm) i (set_updt (bppg sm i) updt) j Hi Hj (held_updt _ _)).
Qed.

Lemma assign_port_eq gp i sm :
  let sm' := (portStateUpdate i (gp i) sm).1 in
  fixed (assign_port gp i sm) = fixed sm' /\ bptasg (assign_port gp i sm) = bptasg sm' /\
  ptasg (assign_port gp i sm) = ptasg sm' /\ bppgl (assign_port gp i sm) = bppgl sm'.
Proof.
  unfold assign_port. destruct (portStateUpdate i (gp i) sm) as [sm' changed].
  destruct changed; [|done]. destruct (_ =? SlavePort); done.
Qed.

Lemma assign_port0_fields b sm :
  let sm' := assign_port0 b sm in
  fixed sm' = fixed sm /\ bptasg sm' = bptasg sm /\
  PTASG.gmPresent (ptasg sm') = PTASG.gmPresent (ptasg sm) /\
  PTASG.selectedState (ptasg sm') =
    aset (PTASG.selectedState (ptasg sm)) 0 (if slavePortAvail sm then PassivePort else SlavePort).
Proof.
  unfold assign_port0. cbn zeta.
  destruct (slavePortAvail sm), b; repeat destruct_cond; repeat apply conj; reflexivity.
Qed.

(** ** Choosing the grandmaster *)

(** the vectors the election is held among *)
Definition candidate (sm : data) (v : UInteger224) : Prop :=
  v = BPTASG.systemPriority (bptasg sm) \/
  exists i, 0 <= i < max_ports sm /\ offers (PTASG.thisClock (ptasg sm)) (bppg sm i) = true /\
            v = gm_path_priority (bppg sm i).

(** candidates among the first [n] ports *)
Definition candidate_upto (n : Z) (sm : data) (v : UInteger224) : Prop :=
  v = BPTASG.systemPriority (bptasg sm) \/
  exists i, 0 <= i < n /\ offers (PTASG.thisClock (ptasg sm)) (bppg sm i) = true /\
            v = gm_path_priority (bppg sm i).

Definition best (C : UInteger224 -> Prop) (g : UInteger224) : Prop :=
  C g /\ forall v, C v -> ~ superior v g.

Lemma fixed_clock s s' : fixed s = fixed s' -> PTASG.thisClock (ptasg s) = PTASG.thisClock (ptasg s').
Proof. unfold fixed. intros H. by injection H. Qed.

Lemma best_step n sm s i :
  i = n -> 0 <= n -> fixed s = fixed sm -> bppgl s = bppgl sm -> best (candidate_upto n sm) (gm s) ->
  best (candidate_upto (n + 1) sm) (gm (offer_gm i s)).
Proof.
  intros -> Hn Hf Hb [C B]. rewrite offer_gm_gm, (fixed_clock _ _ Hf).
  assert (Eb : bppg s n = bppg sm n) by (unfold bppg; by rewrite Hb). rewrite Eb.
  assert (M : forall v, candidate_upto n sm v -> candidate_upto (n + 1) sm v).
  { intros v [->|(j & Hj & O & ->)]; [by left|right; exists j; split; [lia|done]]. }
  assert (Inv : forall v, candidate_upto (n + 1) sm v -> candidate_upto n sm v \/
            offers (PTASG.thisClock (ptasg sm)) (bppg sm n) = true /\ v = gm_path_priority (bppg sm n)).
  { intros v [->|(j & Hj & O & ->)]; [left; by left|].
    destruct (decide (j = n)) as [->|]; [by right|]. left. right. exists j. split; [lia|done]. }
  destruct (offers _ _) eqn:O; cbn [andb]; [|].
  - case_bool_decide as S; split.
    + right. exists n. split; [lia|done].
    + intros v [V|[_ ->]]%Inv; [|apply irreflexivity, _].
      intros V2. apply (B v V). by transitivity (gm_path_priority (bppg sm n)).
    + by apply M.
    + intros v [V|[_ ->]]%Inv; [by apply B|done].
  - split; [by apply M|]. intros v [V|[? _]]%Inv; [by apply B|done].
Qed.

Lemma choose_gm_best sm :
  0 <= max_ports sm ->
  best (candidate sm) (gm (choose_gm sm)) /\ fixed (choose_gm sm) = fixed sm /\
  bppgl (choose_gm sm) = bppgl sm /\ ptasg (choose_gm sm) = ptasg sm /\
  BPTASG.lastGmPriority (bptasg (choose_gm sm)) = gm sm.
Proof.
  intros Hm. unfold choose_gm.
  pose (P := fun n s => best (candidate_upto n sm) (gm s) /\ fixed s = fixed sm /\
     bppgl s = bppgl sm /\ ptasg s = ptasg sm /\ BPTASG.lastGmPriority (bptasg s) = gm sm).
  change (P (max_ports sm) (for_ 0 (max_ports sm) offer_gm (start_gm sm))).
  apply for_ind; [done| |].
  - split; [|done]. split; [by left|]. intros v [->|(j & Hj & _)]; [|lia].
    apply irreflexivity, _.
  - intros i s Hi (B & F & L & T & G). split; [|split; [|split; [|split]]].
    + by apply best_step; try lia.
    + by rewrite (proj1 (offer_gm_fixed i s)).
    + by rewrite (proj2 (offer_gm_fixed i s)).
    + rewrite <- T. unfold offer_gm. by destruct_cond.
    + by rewrite offer_gm_lastGm.
Qed.

(** ** Assigning the roles *)

(** the port hears the grandmaster [g] *)
Definition hears (g : UInteger224) (b : BmcsPerPortGlobal) (p : PerPortGlobal) : Prop :=
  BPPG.infoIs b = Received /\ PPGALL.asymmetryMeasurementMode (PPG.forAllDomain p) = false /\
  g = gm_path_priority b.

Lemma role_slave g msr old b p :
  Received <= BPPG.infoIs b <= Disabled ->
  (port_role g msr old b p (gm_path_priority b)).1 = SlavePort <-> hears g b p.
Proof.
  unfold hears, port_role, Received, Disabled, Aged, Mine. intros Hr.
  repeat (destruct_cond; cbn; bool_hyps; try (split; [done|lia])); try lia;
    first [split; [done|intros (? & ? & ?); congruence]|by split; [intros _; split_and!|]].
Qed.

Definition infos_ok (sm : data) : Prop :=
  forall i, 1 <= i < max_ports sm -> Received <= BPPG.infoIs (bppg sm i) <= Disabled.

(** the arrays hold every port *)
Definition sized (sm : data) : Prop :=
  1 <= max_ports sm <= Z.of_nat (length (PTASG.selectedState (ptasg sm))).

Lemma selected_aset l i v j :
  in_array l i -> 0 <= j -> aget 0 (aset l i v) j = if i =? j then v else aget 0 l j.
Proof.
  intros Hi Hj. destruct (Z.eqb_spec i j) as [<-|Hne]; [by apply aget_aset_eq|].
  apply aget_aset_ne; unfold in_array in Hi; lia.
Qed.

(** what holds after the states of ports 1..[i-1] have been assigned *)
Definition assigned (sm : data) (i : Z) (s : data) : Prop :=
  fixed s = fixed sm /\ gm s = gm sm /\
  length (PTASG.selectedState (ptasg s)) = length (PTASG.selectedState (ptasg sm)) /\
  (forall j, 0 <= j -> held (bppg s j) = held (bppg sm j)) /\
  (forall j, 1 <= j < i -> SELECTED_STATE s j = SlavePort <-> hears (gm sm) (bppg sm j) (ppg sm j)) /\
  SELECTED_STATE s 0 = SELECTED_STATE sm 0 /\
  BPTASG.lastGmPriority (bptasg s) = BPTASG.lastGmPriority (bptasg sm).

Lemma fixed_ppgl s s' : fixed s = fixed s' -> ppgl s = ppgl s'.
Proof. unfold fixed. intros H. by injection H. Qed.

Lemma fixed_ports s s' : fixed s = fixed s' -> max_ports s = max_ports s'.
Proof. unfold fixed. intros H. by injection H. Qed.

Lemma assigned_step sm i s gp :
  sized sm -> infos_ok sm -> 1 <= i < max_ports sm -> gp i = gm_path_priority (bppg sm i) ->
  assigned sm i s -> assigned sm (i + 1) (assign_port gp i s).
Proof.
  intros Hz Hok Hi Hg (F & G & L & Hh & Hs & H0 & HL).
  destruct (assign_port_eq gp i s) as (E1 & E2 & E3 & E4).
  destruct (portStateUpdate_fields i (gp i) s) as (A1 & A2 & A3 & A4 & A5 & A6 & A7).
  assert (Hin : in_array (PTASG.selectedState (ptasg s)) i) by (unfold in_array, sized in *; lia).
  assert (ES : forall j, 0 <= j -> SELECTED_STATE (assign_port gp i s) j =
     if i =? j then (port_role (gm s) (BPTASG.masterStepsRemoved (bptasg s)) (SELECTED_STATE s i)
               (bppg s i) (ppg s i) (gp i)).1 else SELECTED_STATE s j).
  { intros j Hj. unfold SELECTED_STATE at 1. rewrite E3, A5. by apply selected_aset. }
  unfold assigned. repeat apply conj.
  - congruence.
  - unfold gm in *. rewrite E2. congruence.
  - rewrite E3, A5, aset_length. done.
  - intros j Hj. unfold bppg at 1. rewrite E4. rewrite <- Hh by done. apply A7; lia.
  - intros j Hj. rewrite ES by lia. destruct (Z.eqb_spec i j) as [<-|Hne]; [|apply Hs; lia].
    pose proof (Hh i ltac:(lia)) as Hhi. unfold ppg. rewrite (fixed_ppgl _ _ F), Hg, G.
    rewrite <- (held_path _ _ Hhi), role_slave; fold (ppg sm i).
    + unfold hears. rewrite (held_path _ _ Hhi). injection Hhi as -> _. done.
    + injection Hhi as -> _. by apply Hok.
  - rewrite ES by lia. by rewrite (proj2 (Z.eqb_neq _ _)) by lia.
  - rewrite E2. congruence.
Qed.

Lemma compute_masterPriority_fields sm :
  let s := compute_masterPriority sm in
  fixed s = fixed sm /\ gm s = gm sm /\ ptasg s = ptasg sm /\
  BPTASG.lastGmPriority (bptasg s) = BPTASG.lastGmPriority (bptasg sm) /\
  (forall j, 0 <= j -> held (bppg s j) = held (bppg sm j)).
Proof.
  unfold compute_masterPriority.
  set (f := for_ 0 (max_ports sm) set_masterPriority sm).
  assert (F1 : fixed f = fixed sm) by (apply (for_frame fixed); done).
  assert (F2 : bptasg f = bptasg sm) by (apply (for_frame bptasg); done).
  assert (F3 : ptasg f = ptasg sm) by (apply (for_frame ptasg); done).
  assert (F4 : forall j, 0 <= j -> held (bppg f j) = held (bppg sm j)).
  { intros j Hj. destruct (Z_le_gt_dec 0 (max_ports sm)) as [Hm|Hm].
    - unfold f. apply (for_ind (fun _ s => held (bppg s j) = held (bppg sm j))); [done|done|].
      intros i s Hi <-. apply set_masterPriority_held; lia.
    - unfold f. by rewrite for_nil by lia. }
  clearbody f. cbn zeta. repeat apply conj.
  - by rewrite <- F1.
  - unfold gm. by rewrite <- F2.
  - done.
  - by rewrite <- F2.
  - exact F4.
Qed.

Lemma choose_gm_frame sm :
  fixed (choose_gm sm) = fixed sm /\ BPTASG.lastGmPriority (bptasg (choose_gm sm)) = gm sm.
Proof.
  split; unfold choose_gm.
  - rewrite (for_frame fixed); [done|]. intros i s. apply offer_gm_fixed.
  - rewrite (for_frame (fun s => BPTASG.lastGmPriority (bptasg s))); [done|]. apply offer_gm_lastGm.
Qed.

#[local] Opaque choose_gm compute_masterPriority assign_port0.

(** the instance whose selection runs: the arrays fit and [infoIs] is one of its four values *)
Definition selectable (sm : data) : Prop := sized sm /\ infos_ok sm.

Lemma hears_held g b b' p : held b = held b' -> hears g b p <-> hears g b' p.
Proof. intros H. unfold hears. rewrite (held_path _ _ H). injection H as -> _. done. Qed.

Lemma slavePortAvail_spec sm :
  slavePortAvail sm = true <-> exists j, 1 <= j < max_ports sm /\ SELECTED_STATE sm j = SlavePort.
Proof.
  unfold slavePortAvail. rewrite existsb_exists. split.
  - intros (j & Hj & E). apply list_elem_of_In, elem_of_seqZ in Hj. apply Z.eqb_eq in E.
    exists j. split; [lia|exact E].
  - intros (j & Hj & E). exists j. split; [apply list_elem_of_In, elem_of_seqZ; lia|].
    by apply Z.eqb_eq.
Qed.

(** the instance when the states of ports 1.. have been assigned *)
Definition ports_assigned (sm : data) : data :=
  let gmPath i := gm_path_priority (bppg sm i) in
  let sm := compute_masterPriority (choose_gm sm) in
  for_ 1 (max_ports sm) (assign_port gmPath) sm.

Lemma ports_assigned_spec sm :
  selectable sm ->
  let s := ports_assigned sm in
  let g := gm (choose_gm sm) in
  fixed s = fixed sm /\ gm s = g /\
  length (PTASG.selectedState (ptasg s)) = length (PTASG.selectedState (ptasg sm)) /\
  (forall j, 1 <= j < max_ports sm ->
     SELECTED_STATE s j = SlavePort <-> hears g (bppg sm j) (ppg sm j)).
Proof.
  intros [Hz Hok]. destruct (choose_gm_best sm) as (_ & F1 & L1 & T1 & G1); [unfold sized in Hz; lia|].
  destruct (compute_masterPriority_fields (choose_gm sm)) as (F2 & G2 & T2 & _ & H2).
  unfold ports_assigned. cbn zeta. set (s2 := compute_masterPriority (choose_gm sm)) in *.
  set (gp := fun i => gm_path_priority (bppg sm i)).
  assert (M2 : max_ports s2 = max_ports sm) by (by rewrite (fixed_ports _ _ F2), (fixed_ports _ _ F1)).
  assert (Hh : forall j, 0 <= j -> held (bppg s2 j) = held (bppg sm j)).
  { intros j Hj. rewrite H2 by done. unfold bppg. by rewrite L1. }
  set (s3 := for_ 1 (max_ports s2) (assign_port gp) s2).
  assert (A : assigned s2 (max_ports s2) s3).
  { assert (Hz2 : sized s2) by (unfold sized in *; rewrite M2, T2, T1; done).
    apply for_ind; [unfold sized in Hz2; lia| |].
    - unfold assigned. split_and!; try done. intros; lia.
    - intros i s Hi. apply assigned_step; [done| |done|].
      + intros j Hj. rewrite M2 in Hj. pose proof (Hh j ltac:(lia)) as E. injection E as -> _.
        by apply Hok.
      + unfold gp. symmetry. apply held_path, Hh. lia. }
  destruct A as (F3 & G3 & L3 & _ & S3 & _). rewrite M2 in S3.
  assert (P3 : ppgl s2 = ppgl sm) by (by rewrite (fixed_ppgl _ _ F2), (fixed_ppgl _ _ F1)).
  split_and!; [congruence|congruence|by rewrite L3, T2, T1|].
  intros j Hj. rewrite S3, G2 by done. unfold ppg. rewrite P3. apply hears_held, Hh. lia.
Qed.

(** the GM differs from the one before *)
Definition gm_changed (sm : data) : bool := negb (bool_decide (gm sm = gm (choose_gm sm))).

Definition publish_gmPresent (sm : data) : data :=
  sm <| ptasg; PTASG.gmPresent := U112.priority1 (U224.rootSystemIdentity (gm sm)) <? 255 |>.

Lemma updtStatesTree_phases sm :
  BPTASG.lastGmPriority (bptasg (choose_gm sm)) = gm sm ->
  let s := assign_port0 (gm_changed sm) (publish_gmPresent (ports_assigned sm)) in
  let t := (updtStatesTree sm).1 in
  fixed t = fixed s /\ gm t = gm s /\ ptasg t = ptasg s /\
  (updtStatesTree sm).2 = if gm_changed sm then Some (gm_clockIdentity (choose_gm sm)) else None.
Proof.
  intros G1. unfold updtStatesTree, gm_changed. cbn zeta. rewrite G1.
  fold (ports_assigned sm). fold (gm (choose_gm sm)).
  set (ch := negb _).
  change (ports_assigned sm <| ptasg; PTASG.gmPresent := _ |>)
    with (publish_gmPresent (ports_assigned sm)).
  generalize (assign_port0 ch (publish_gmPresent (ports_assigned sm))). intros s5.
  case_bool_decide; repeat apply conj; reflexivity.
Qed.

Lemma updt_fixed sm : fixed (updtStatesTree sm).1 = fixed sm.
Proof.
  destruct (choose_gm_frame sm) as [F G]. destruct (updtStatesTree_phases sm G) as (-> & _).
  destruct (assign_port0_fields (gm_changed sm) (publish_gmPresent (ports_assigned sm))) as (-> & _).
  change (fixed (ports_assigned sm) = fixed sm). unfold ports_assigned. cbn zeta.
  rewrite (for_frame fixed), (proj1 (compute_masterPriority_fields _)); [done|].
  intros i s. rewrite (proj1 (assign_port_eq _ _ _)).
  apply (portStateUpdate_fields i _ s).
Qed.

(** everything the later theorems use of updtStatesTree *)
Lemma updtStatesTree_spec sm :
  selectable sm ->
  let s := (updtStatesTree sm).1 in
  let g := gm (choose_gm sm) in
  fixed s = fixed sm /\ gm s = g /\ best (candidate sm) g /\
  PTASG.gmPresent (ptasg s) = (U112.priority1 (U224.rootSystemIdentity g) <? 255) /\
  (forall j, 1 <= j < max_ports sm ->
     SELECTED_STATE s j = SlavePort <-> hears g (bppg sm j) (ppg sm j)) /\
  (SELECTED_STATE s 0 = SlavePort <->
     forall j, 1 <= j < max_ports sm -> ~ hears g (bppg sm j) (ppg sm j)) /\
  (updtStatesTree sm).2 =
    (if bool_decide (gm sm = g) then None else Some (U112.clockIdentity (U224.rootSystemIdentity g))).
Proof.
  intros Hsel. destruct (ports_assigned_spec sm Hsel) as (F3 & G3 & L3 & S3).
  pose proof Hsel as [Hz _].
  destruct (choose_gm_best sm) as (B & _ & _ & _ & G1); [unfold sized in Hz; lia|].
  destruct (updtStatesTree_phases sm G1) as (Ft & Gt & Pt & ->).
  set (s4 := publish_gmPresent (ports_assigned sm)) in *.
  destruct (assign_port0_fields (gm_changed sm) s4) as (F5 & B5 & P5 & S5).
  assert (Hl : in_array (PTASG.selectedState (ptasg s4)) 0).
  { unfold in_array. change (ptasg s4) with (ptasg s4). change (PTASG.selectedState (ptasg s4)) with
      (PTASG.selectedState (ptasg (ports_assigned sm))). rewrite L3. unfold sized in Hz. lia. }
  assert (Sj : forall j, 0 <= j -> SELECTED_STATE (updtStatesTree sm).1 j =
     if 0 =? j then (if slavePortAvail s4 then PassivePort else SlavePort)
     else SELECTED_STATE (ports_assigned sm) j).
  { intros j Hj. unfold SELECTED_STATE at 1. rewrite Pt, S5. by apply selected_aset. }
  cbn zeta. split_and!.
  - rewrite Ft, F5. exact F3.
  - rewrite Gt. unfold gm. rewrite B5. exact G3.
  - done.
  - rewrite Pt, P5. unfold s4, publish_gmPresent. cbn. by rewrite G3.
  - intros j Hj. rewrite Sj by lia. rewrite (proj2 (Z.eqb_neq _ _)) by lia. by apply S3.
  - rewrite Sj by lia. cbn [Z.eqb]. pose proof (slavePortAvail_spec s4) as SA.
    change (max_ports s4) with (max_ports (ports_assigned sm)) in SA.
    rewrite (fixed_ports _ _ F3) in SA. destruct (slavePortAvail s4).
    + split; [done|]. intros N. destruct (proj1 SA eq_refl) as (j & Hj & E).
      apply S3 in E; [|done]. by destruct (N j Hj).
    + split; [|done]. intros _ j Hj E. apply S3 in E; [|done].
      discriminate (proj2 SA (ex_intro _ j (conj Hj E))).
  - unfold gm_changed. by case_bool_decide.
Qed.

#[local] Opaque updtStatesTree.

(** C1. The grandmaster chosen is the best of the system's own priority vector and the path
    vectors of the ports that may offer one: it is one of them and none of them is superior. *)
Theorem gm_is_best_candidate sm :
  selectable sm -> best (candidate sm) (gm (updtStatesTree sm).1).
Proof. intros H. by destruct (updtStatesTree_spec sm H) as (_ & -> & B & _). Qed.

(** the ports hold distinct vectors: each received vector carries its port's own number *)
Definition numbered (sm : data) : Prop :=
  (forall i, 1 <= i < max_ports sm -> BPPG.infoIs (bppg sm i) = Received ->
     HAS_PORT_PRIORITY (BPPG.portPriority (bppg sm i)) = true /\
     U224.portNumber (BPPG.portPriority (bppg sm i)) = PPG.thisPort (ppg sm i)) /\
  (forall i j, 1 <= i < max_ports sm -> 1 <= j < max_ports sm ->
     PPG.thisPort (ppg sm i) = PPG.thisPort (ppg sm j) -> i = j).

Lemma hears_unique g sm i j :
  numbered sm -> 1 <= i < max_ports sm -> 1 <= j < max_ports sm ->
  hears g (bppg sm i) (ppg sm i) -> hears g (bppg sm j) (ppg sm j) -> i = j.
Proof.
  intros [N D] Hi Hj (I1 & _ & E1) (I2 & _ & E2). apply D; [done|done|].
  destruct (N i Hi I1) as [P1 Q1], (N j Hj I2) as [P2 Q2].
  rewrite <- Q1, <- Q2. rewrite E1 in E2. unfold gm_path_priority in E2.
  rewrite P1, P2, I1, I2 in E2. cbn in E2.
  apply (f_equal U224.portNumber) in E2. exact E2.
Qed.

#[local] Instance hears_dec g b p : Decision (hears g b p).
Proof. unfold hears. apply _. Defined.

Lemma some_port (P : Z -> Prop) `{forall i, Decision (P i)} n m :
  (exists i, n <= i < m /\ P i) \/ (forall i, n <= i < m -> ~ P i).
Proof.
  destruct (decide (Exists P (seqZ n (m - n)))) as [E|E].
  - left. apply Exists_exists in E as (i & Hi%list_elem_of_In & Pi). exists i.
    apply elem_of_seqZ in Hi. split; [lia|done].
  - right. intros i Hi Pi. apply E, Exists_exists. exists i.
    split; [apply list_elem_of_In, elem_of_seqZ; lia|done].
Qed.

(** C2. After the states have been assigned exactly one of the ports 0.. is the slave port: port
    0, this clock, when no port hears the chosen grandmaster, and else the port that does. *)
Theorem exactly_one_slave_port sm :
  selectable sm -> numbered sm ->
  let s := (updtStatesTree sm).1 in
  exists i, 0 <= i < max_ports sm /\ SELECTED_STATE s i = SlavePort /\
    (forall j, 0 <= j < max_ports sm -> SELECTED_STATE s j = SlavePort -> j = i) /\
    (i <> 0 <-> exists j, 1 <= j < max_ports sm /\ hears (gm s) (bppg sm j) (ppg sm j)).
Proof.
  intros Hsel Hn. destruct (updtStatesTree_spec sm Hsel) as (_ & G & _ & _ & S & S0 & _).
  cbn zeta. rewrite G. pose proof Hsel as [Hz _]. unfold sized in Hz.
  destruct (some_port (fun j => hears (gm (choose_gm sm)) (bppg sm j) (ppg sm j)) 1 (max_ports sm))
    as [(i & Hi & P)|N].
  - exists i. split_and!; [lia|lia|by apply S| |].
    + intros j Hj E. destruct (decide (j = 0)) as [->|].
      * exfalso. apply (proj1 S0 E i Hi P).
      * apply (hears_unique (gm (choose_gm sm)) sm); [done|lia|done| |done]. apply S; [lia|done].
    + split; [by exists i|intros; lia].
  - exists 0. split_and!; [lia|lia|by apply S0| |].
    + intros j Hj E. destruct (decide (j = 0)) as [->|]; [done|].
      exfalso. apply (N j ltac:(lia)). apply S; [lia|done].
    + split; [done|]. intros (j & Hj & P) _. by apply (N j Hj).
Qed.

(** gmPresent tells a grandmaster-capable one (priority1 below 255), and the call returns the
    new grandmaster's identity exactly when the grandmaster vector has changed. *)
Theorem gm_change_reported sm :
  selectable sm ->
  let (s, r) := updtStatesTree sm in
  PTASG.gmPresent (ptasg s) = (U112.priority1 (U224.rootSystemIdentity (gm s)) <? 255) /\
  r = if bool_decide (gm sm = gm s) then None
      else Some (U112.clockIdentity (U224.rootSystemIdentity (gm s))).
Proof.
  intros Hsel. destruct (updtStatesTree_spec sm Hsel) as (_ & G & _ & P & _ & _ & R).
  destruct (updtStatesTree sm) as [s r]. cbn in *. by rewrite G.
Qed.

(** ** The machine *)

(** what the loop needs of an instance *)
Lemma fixed_selection s s' :
  fixed s = fixed s' -> reselected s = reselected s' /\ state s = state s' /\ last_state s = last_state s'.
Proof. unfold fixed, reselected. intros H. injection H as _ _ R T E L _ _ _ _ _ _. by rewrite R, T. Qed.

Definition rank (sm : data) : nat :=
  match state sm with
  | INIT => 3
  | INIT_BRIDGE => 2
  | STATE_SELECTION => if bool_decide (last_state sm <> state sm) then 0 else 1
  | REACTION => 0
  end.

(** the parts of [fixed] the loop looks at *)
Definition loop_view (sm : data) := (reselected sm, state sm, last_state sm).

Lemma fixed_view s s' : fixed s = fixed s' -> loop_view s = loop_view s'.
Proof. intros H. unfold loop_view. by destruct (fixed_selection _ _ H) as (-> & -> & ->). Qed.

Lemma end_init_slave_view sm : loop_view (end_init_slave sm).1 = loop_view sm.
Proof. unfold end_init_slave. by rewrite (fixed_view _ _ (updt_fixed _)). Qed.

Lemma deferred_view cts64 sm : loop_view (proc_deferred_gmsync cts64 sm).1 = loop_view sm.
Proof.
  unfold proc_deferred_gmsync, proc_init_slave.
  repeat destruct_cond; rewrite ?end_init_slave_view; done.
Qed.

(** the instance as state_selection_proc hands it to updtStatesTree *)
Definition prepared (cts64 : Z) (sm : data) : data :=
  let sm := clearReselectTree
    (sm <| thisSM; PSSELsm.systemIdentityChange := false |>
        <| thisSM; PSSELsm.forAllDomain; PSSELall.asymmetryMeasurementModeChange := false |>) in
  let sm :=
    if (domainIndex sm =? 0) && negb (INITIAL_SLAVE_TIME =? 0) &&
       negb (PTASG.gm_stable_initdone (ptasg sm)) then
      set_system_priority1 254 sm
        <| init_slave_ts := i64 (cts64 + INITIAL_SLAVE_TIME * UB_SEC_NS) |>
        <| deferred_gmsync := true |>
    else sm in
  if negb (domainIndex sm =? 0) && negb (PTASG.gm_stable_initdone (ptasg sm))
  then sm <| deferred_gmsync := true |> else sm.

Lemma state_selection_proc_eq cts64 sm :
  state_selection_proc cts64 sm =
  let (s, r) := updtStatesTree (prepared cts64 sm) in (setSelectedTree s, r).
Proof. reflexivity. Qed.

Lemma prepared_view cts64 sm :
  loop_view (prepared cts64 sm) = (false, state sm, last_state sm) /\
  BPTASG.reselect (bptasg (prepared cts64 sm)) = replicate XL4_DATA_ABS_MAX_NETDEVS false.
Proof. unfold prepared. repeat destruct_cond; done. Qed.

Lemma state_selection_view cts64 sm :
  loop_view (state_selection_proc cts64 sm).1 = (false, state sm, last_state sm).
Proof.
  rewrite state_selection_proc_eq. pose proof (updt_fixed (prepared cts64 sm)) as F.
  apply fixed_view in F. rewrite (proj1 (prepared_view cts64 sm)) in F.
  destruct (updtStatesTree _) as [s r]. exact F.
Qed.

Lemma state_selection_condition_id sm :
  reselected sm = false -> state_selection_condition sm = sm.
Proof. unfold state_selection_condition. by intros ->. Qed.

Lemma set_all_states_last st sm : last_state (set_all_states st sm) = last_state sm.
Proof. unfold set_all_states. by rewrite (for_frame last_state). Qed.

#[local] Opaque set_all_states.

Lemma path_is_thisClock_last sm : last_state (path_is_thisClock sm) = last_state sm.
Proof. done. Qed.

Lemma set_gmPresent_last v sm : last_state (set_gmPresent v sm) = last_state sm.
Proof. done. Qed.

Lemma set_lastGm_last v sm : last_state (set_lastGmPriority v sm) = last_state sm.
Proof. done. Qed.

Lemma set_gmsync_last v sm : last_state (set_gmsync v sm) = last_state sm.
Proof. done. Qed.

Lemma init_bridge_last sm : last_state (init_bridge_proc sm) = last_state sm.
Proof.
  unfold init_bridge_proc, updateStateDisabledTree. destruct (0 <=? _).
  - destruct (_ =? 0); rewrite ?set_gmsync_last, set_gmPresent_last; apply set_all_states_last.
  - rewrite path_is_thisClock_last, set_lastGm_last. apply set_all_states_last.
Qed.

Lemma init_bridge_condition_last sm s e :
  init_bridge_condition sm = Some (s, e) ->
  last_state s = last_state sm /\ (e = INIT_BRIDGE \/ e = STATE_SELECTION).
Proof.
  assert (K : forall s0 e0, Some (s0, e0) = Some (s, e) -> last_state s0 = last_state sm ->
    e0 = INIT_BRIDGE \/ e0 = STATE_SELECTION ->
    last_state s = last_state sm /\ (e = INIT_BRIDGE \/ e = STATE_SELECTION))
    by (intros s0 e0 [= -> ->]; auto).
  unfold init_bridge_condition. destruct (0 <=? _); [|intros H; eapply K; eauto].
  destruct (NETDEVS <=? _); [intros H; eapply K; eauto|].
  destruct (_ =? 0); [intros H; eapply K; eauto|].
  destruct (ppgl sm !! _) as [p|]; [|done]. cbn [mbind option_bind].
  destruct (PPG.asCapable p).
  - intros H. eapply K; [exact H| |auto]. by destruct (gptpclock_get_gmsync _ _ <? _).
  - intros H. eapply K; [exact H| |auto]. apply set_gmsync_last.
Qed.

Lemma pssel_pass_eq cts64 sm :
  pass (M := machine cts64) sm =
  switch cts64 (bool_decide (last_state sm <> state sm)) (set_last (state sm) sm).
Proof. reflexivity. Qed.

#[local] Opaque state_selection_proc init_bridge_proc init_bridge_condition proc_deferred_gmsync.

Lemma selection_turns cts64 (s s' : data) : turns (M := machine cts64) s s' -> (rank s' < rank s)%nat.
Proof.
  intros [H Hne]. rewrite pssel_pass_eq in H. cbn in Hne. unfold switch in H.
  change (state (set_last (state s) s)) with (state s) in H.
  unfold rank at 2. destruct (state s) eqn:E.
  - injection H as <-. cbn. lia.
  - set (s0 := if _ : bool then init_bridge_proc _ else _) in H.
    destruct (init_bridge_condition s0) as [[s1 e]|] eqn:I; [|discriminate].
    injection H as <-. apply init_bridge_condition_last in I as [L Le]. cbn in *.
    assert (L0 : last_state s0 = INIT_BRIDGE).
    { unfold s0. destruct_cond; [by rewrite init_bridge_last|done]. }
    rewrite L, L0 in Hne. destruct Le as [->| ->]; [done|].
    unfold rank. cbn. rewrite L, L0. settle_changes. lia.
  - set (p := if _ : bool then proc_deferred_gmsync _ _ else _) in H.
    assert (V : loop_view p.1 = (reselected s, STATE_SELECTION, STATE_SELECTION)).
    { unfold p. destruct_cond; [rewrite deferred_view|]; unfold loop_view; cbn; by rewrite E. }
    destruct p as [s1 [r|]]; [discriminate|]. cbn in V.
    case_bool_decide as C.
    + exfalso. pose proof (state_selection_view (i64 cts64) s1) as V2.
      destruct (state_selection_proc (i64 cts64) s1) as [s2 [r|]]; [discriminate|].
      cbn in V2. injection H as <-. unfold loop_view in V, V2.
      injection V as V0 V1 V3. injection V2 as V2 V4 V5.
      rewrite state_selection_condition_id in Hne by done. congruence.
    + injection H as <-. unfold state_selection_condition in *.
      unfold loop_view in V. injection V as V0 V1 V3.
      destruct_cond; [|congruence]. unfold rank. cbn. settle_changes. lia.
  - by injection H as <-.
Qed.

(** the evaluation always ends *)
Lemma state_selection_ends cts64 sm :
  run (M := machine cts64) fuel sm = Some (port_state_selection_sm cts64 sm).
Proof.
  apply exec_run. unfold run.
  apply (loop_ends (M := machine cts64)) with (Inv := fun _ => True) (rank := rank); [|done|].
  - intros s s' _ H. split; [done|by eapply selection_turns].
  - unfold rank, fuel. destruct (state _); try case_bool_decide; lia.
Qed.

(** a running instance, past its start-up, whose ports have asked for a selection *)
Definition asks_selection (sm : data) : Prop :=
  selectable sm /\ state sm = STATE_SELECTION /\ last_state sm = STATE_SELECTION /\
  PTASG.BEGIN (ptasg sm) = false /\ PTASG.instanceEnable (ptasg sm) = true /\
  deferred_gmsync sm = false /\ PTASG.gm_stable_initdone (ptasg sm) = true /\
  reselected sm = true.

Lemma prepared_candidates cts64 sm :
  PTASG.gm_stable_initdone (ptasg sm) = true ->
  prepared cts64 sm = clearReselectTree
    (sm <| thisSM; PSSELsm.systemIdentityChange := false |>
        <| thisSM; PSSELsm.forAllDomain; PSSELall.asymmetryMeasurementModeChange := false |>).
Proof.
  intros H. unfold prepared.
  change (PTASG.gm_stable_initdone (ptasg (clearReselectTree ?x)))
    with (PTASG.gm_stable_initdone (ptasg sm)).
  rewrite H. cbn [negb]. rewrite !andb_false_r.
  change (PTASG.gm_stable_initdone (ptasg (clearReselectTree ?x)))
    with (PTASG.gm_stable_initdone (ptasg sm)).
  by rewrite H, !andb_false_r.
Qed.

#[local] Opaque state_selection_proc.

(** one pass over STATE_SELECTION of an instance that has nothing deferred *)
Lemma pass_selection cts64 sm :
  state sm = STATE_SELECTION -> deferred_gmsync sm = false ->
  pass (M := machine cts64) sm =
  let s0 := set_last STATE_SELECTION sm in
  let (s1, r) := if bool_decide (last_state sm <> STATE_SELECTION)
                 then state_selection_proc (i64 cts64) s0 else (s0, None) in
  (state_selection_condition s1, ret_if r).
Proof.
  intros E D. rewrite pssel_pass_eq. unfold switch. rewrite E. change (state (set_last _ sm)) with (state sm).
  rewrite E. change (deferred_gmsync (set_last _ sm)) with (deferred_gmsync sm). by rewrite D.
Qed.

(** the machine after the turn that only notes that a selection is asked for *)
Definition asked (sm : data) : data := sm <| last_state := REACTION |> <| state := STATE_SELECTION |>.

Lemma exec_selection cts64 sm :
  asks_selection sm ->
  port_state_selection_sm cts64 sm =
  let (s, r) := state_selection_proc (i64 cts64) (set_last STATE_SELECTION (asked sm)) in (s, Ret r).
Proof.
  intros (_ & E & L & HB & HI & D & _ & R).
  assert (A : sm_allstate (StateMachine := machine cts64) sm = sm).
  { cbn. unfold set_allstate, allstate_condition. rewrite HB, HI. cbn. by destruct sm. }
  apply (exec_eq (M := machine cts64)). rewrite A. unfold fuel.
  rewrite (loop_turn (M := machine cts64) _ _ (asked sm)).
  2: { split; [|done]. rewrite pass_selection by done. rewrite L. cbn zeta.
       rewrite bool_decide_eq_false_2 by (intros X; by apply X). unfold state_selection_condition.
       change (reselected (set_last STATE_SELECTION sm)) with (reselected sm). rewrite R.
       by destruct sm. }
  pose proof (state_selection_view (i64 cts64) (set_last STATE_SELECTION (asked sm))) as V.
  assert (P : pass (M := machine cts64) (asked sm) =
    let (s, r) := state_selection_proc (i64 cts64) (set_last STATE_SELECTION (asked sm)) in
    (state_selection_condition s, ret_if r)) by (by rewrite pass_selection).
  destruct (state_selection_proc _ _) as [s r]. cbn in V. unfold loop_view in V.
  injection V as V1 V2 V3. rewrite state_selection_condition_id in P by done.
  destruct r as [r|]; [by apply (loop_return (M := machine cts64))|].
  apply (loop_stop (M := machine cts64)); [done|]. cbn. congruence.
Qed.

Lemma selectable_prepared cts64 sm :
  PTASG.gm_stable_initdone (ptasg sm) = true -> selectable sm ->
  selectable (prepared cts64 (set_last STATE_SELECTION (asked sm))).
Proof. intros H. rewrite prepared_candidates by done. done. Qed.

(** When a port asks for a selection, one evaluation makes it: no port asks any more, every
    port is marked selected, the grandmaster is the best candidate, and a changed grandmaster is
    returned to the caller. *)
Theorem selection_made cts64 sm :
  asks_selection sm ->
  let (s, o) := port_state_selection_sm cts64 sm in
  reselected s = false /\
  BPTASG.reselect (bptasg s) = replicate XL4_DATA_ABS_MAX_NETDEVS false /\
  BPTASG.selected (bptasg s) = replicate XL4_DATA_ABS_MAX_NETDEVS true /\
  state s = STATE_SELECTION /\ best (candidate sm) (gm s) /\
  o = Ret (if bool_decide (gm sm = gm s) then None
           else Some (U112.clockIdentity (U224.rootSystemIdentity (gm s)))).
Proof.
  intros Ha. rewrite exec_selection by done. pose proof Ha as (Hs & E & L & _ & _ & _ & Hi & _).
  pose proof (state_selection_view (i64 cts64) (set_last STATE_SELECTION (asked sm))) as V.
  rewrite state_selection_proc_eq in *.
  set (p := prepared (i64 cts64) (set_last STATE_SELECTION (asked sm))) in *.
  assert (Hp : selectable p) by (by apply selectable_prepared).
  destruct (updtStatesTree_spec p Hp) as (F & G & B & _ & _ & _ & R).
  assert (C : candidate p = candidate sm /\ gm p = gm sm).
  { unfold p. rewrite prepared_candidates by done. done. }
  destruct C as [C1 C2]. rewrite C1 in B. rewrite C2 in R.
  assert (Er : BPTASG.reselect (bptasg p) = replicate XL4_DATA_ABS_MAX_NETDEVS false)
    by apply prepared_view.
  destruct (updtStatesTree p) as [s r]. cbn [fst snd] in *.
  unfold fixed in F. injection F as _ _ F _ _ _ _ _ _ _ _.
  unfold loop_view in V. injection V as V1 V2 V3.
  split_and!; [exact V1|by rewrite <- Er|done|exact V2| |].
  - change (gm (setSelectedTree s)) with (gm s). by rewrite G.
  - change (gm (setSelectedTree s)) with (gm s). by rewrite R, G.
Qed.

End Facts.

(** ** Witnesses *)

Section Witnesses.

Definition config0 : Config := {|
  STATIC_PORT_STATE_SLAVE_PORT := -1; INITIAL_SLAVE_TIME := 0; RESET_FREQADJ_BECOMEGM := 0;
  ACTIVE_DOMAIN_AUTO_SWITCH := 0; TEST_SYNC_REC_PORT := 0; TEST_SYNC_SEND_PORT := 0;
  CMLDS_MODE := 0; NEIGHBOR_PROP_DELAY := 0; PRIORITY1 := fun _ => 246 |}.
#[local] Existing Instance config0.

Definition clockA : list Z := [2;0;0;0;0;0;0;1].
Definition clockG : list Z := [2;0;0;0;0;0;0;9].

(** the vector port [n] has received from the grandmaster [clockG] of priority1 100 *)
Definition received (n : Z) : UInteger224 :=
  U224.mk (U112.mk 100 248 254 17258 248 clockG) 0 (PortId.mk clockG 1) n.

Definition rport (n : Z) : BmcsPerPortGlobal :=
  zero <| BPPG.infoIs := Received |> <| BPPG.portPriority := received n |>.

(** an instance of clock [clockA] with two ports that hear [clockG] *)
Definition two_ports : data :=
  mk (zero <| PTASG.instanceEnable := true |> <| PTASG.thisClock := clockA |>
           <| PTASG.gm_stable_initdone := true |>)
     [zero; zero <| PPG.thisPort := 1 |>; zero <| PPG.thisPort := 2 |>]
     (zero <| BPTASG.systemPriority := U224.mk (U112.mk 246 248 254 17258 248 clockA) 0 (PortId.mk clockA 0) 0 |>
           <| BPTASG.reselect ::= fun l => aset l 1 true |>)
     [zero <| BPPG.infoIs := Disabled |>; rport 1; rport 2]
     STATE_SELECTION STATE_SELECTION zero 0 3 0 false
     (Gcd.mk ∅ 0 (-1) 1 []).

Lemma two_ports_selectable : selectable two_ports.
Proof.
  split; [split; vm_compute; done|]. intros i Hi. change (max_ports two_ports) with 3 in Hi.
  assert (i = 1 \/ i = 2) as [-> | ->] by lia; vm_compute; done.
Defined.

Lemma two_ports_numbered : numbered two_ports.
Proof.
  split.
  - intros i Hi. change (max_ports two_ports) with 3 in Hi.
    assert (i = 1 \/ i = 2) as [-> | ->] by lia; vm_compute; done.
  - intros i j Hi Hj. change (max_ports two_ports) with 3 in *.
    assert (i = 1 \/ i = 2) as [-> | ->] by lia; assert (j = 1 \/ j = 2) as [-> | ->] by lia;
      vm_compute; done.
Defined.

Lemma gm_is_best_witness : best (candidate two_ports) (gm (updtStatesTree two_ports).1).
Proof. apply (gm_is_best_candidate two_ports two_ports_selectable). Defined.

Lemma exactly_one_slave_witness :
  exists i, 0 <= i < 3 /\ SELECTED_STATE (updtStatesTree two_ports).1 i = SlavePort.
Proof.
  destruct (exactly_one_slave_port two_ports two_ports_selectable two_ports_numbered)
    as (i & Hi & E & _).
  exists i. split; [exact Hi|exact E].
Defined.

Lemma gm_change_reported_witness :
  (updtStatesTree two_ports).2 = Some clockG.
Proof.
  pose proof (gm_change_reported two_ports two_ports_selectable) as H.
  assert (G : gm (updtStatesTree two_ports).1 = received 1 <| U224.stepsRemoved := 1 |>) by reflexivity.
  destruct (updtStatesTree two_ports) as [s r]. cbn [fst] in G. destruct H as [_ H].
  rewrite G in H. exact H.
Defined.

Lemma two_ports_asks : asks_selection two_ports.
Proof. split; [apply two_ports_selectable|]. repeat split. Defined.

Lemma selection_made_witness :
  reselected (port_state_selection_sm 1000 two_ports).1 = false.
Proof.
  pose proof (selection_made 1000 two_ports two_ports_asks) as H.
  destruct (port_state_selection_sm 1000 two_ports). apply H.
Defined.

End Witnesses.
End PSSEL.
