(* ===== verification/AnnounceTransmit.v ===== *)
(** * AnnounceTransmit: port_announce_transmit_sm.c (10.3.16, PortAnnounceTransmit).

    When the port sends an announce and what it says.  An announce leaves only a
    selected master port; between two of them the machine waits [interval2]. *)

From S2P Require Import Prelude Types Driver Common.

Module PAT.

Inductive port_announce_transmit_state_t :=
| INIT | TRANSMIT_INIT | TRANSMIT_PERIODIC | IDLE | TRANSMIT_ANNOUNCE | REACTION.
#[export] Instance state_eqdec : EqDecision port_announce_transmit_state_t.
Proof. solve_decision. Defined.

Record port_announce_transmit_data := mk {
  ptasg : PerTimeAwareSystemGlobal;
  ppg : PerPortGlobal;
  bptasg : BmcsPerTimeAwareSystemGlobal;
  bppg : BmcsPerPortGlobal;
  state : port_announce_transmit_state_t;
  last_state : port_announce_transmit_state_t;
  thisSM : PortAnnounceTransmitSM;
  domainIndex : Z;
  portIndex : Z;
  announceTx : PTPMsgAnnounce
}.
#[export] Instance eta_data : Eta port_announce_transmit_data :=
  fields! mk [ptasg, ppg, bptasg, bppg, state, last_state, thisSM, domainIndex, portIndex,
              announceTx].
Abbreviation data := port_announce_transmit_data.

Definition SELECTED_STATE (sm : data) : Z := aget 0 (PTASG.selectedState (ptasg sm)) (portIndex sm).

(** selected and up to date *)
Definition SELECTED (sm : data) : bool :=
  aget false (BPTASG.selected (bptasg sm)) (portIndex sm) && negb (BPPG.updtInfo (bppg sm)).

(** the bits txAnnounce ors into flags[1] *)
Definition time_flags (b : BmcsPerTimeAwareSystemGlobal) : Z :=
  let bit (c : bool) (m : Z) (f : Z) := if c then Z.lor f m else f in
  bit (BPTASG.frequencyTraceable b) 0x20
  (bit (BPTASG.timeTraceable b) 0x10
  (bit (BPTASG.ptpTimescale b) 0x08
  (bit (BPTASG.currentUtcOffsetValid b) 0x04
  (bit (BPTASG.leap59 b) 0x02
  (bit (BPTASG.leap61 b) 0x01 0))))).

(** the message txAnnounce makes of the previous one *)
Definition announce_of (b : BmcsPerTimeAwareSystemGlobal) (mp : UInteger224) (m : PTPMsgAnnounce)
  : PTPMsgAnnounce :=
  let r := U224.rootSystemIdentity mp in
  let N := BPTASG.pathTraceCount b in
  let m :=
    m <| Ann.header; Hdr.sequenceId ::= fun z => u16 (z + 1) |>
      <| Ann.header; Hdr.flags ::= fun f => aset f 1 (Z.lor (aget 0 f 1) (time_flags b)) |>
      <| Ann.currentUtcOffset := BPTASG.currentUtcOffset b |>
      <| Ann.grandmasterPriority1 := U112.priority1 r |>
      <| Ann.grandmasterClockQuality; ClkQ.clockClass := U112.clockClass r |>
      <| Ann.grandmasterClockQuality; ClkQ.clockAccuracy := U112.clockAccuracy r |>
      <| Ann.grandmasterClockQuality; ClkQ.offsetScaledLogVariance := U112.offsetScaledLogVariance r |>
      <| Ann.grandmasterPriority2 := U112.priority2 r |>
      <| Ann.grandmasterIdentity := U112.clockIdentity r |>
      <| Ann.stepsRemoved := BPTASG.masterStepsRemoved b |>
      <| Ann.timeSource := BPTASG.timeSource b |>
      <| Ann.tlvType := 8 |> in
  if N <=? Z.of_nat MAX_PATH_TRACE_N then
    m <| Ann.tlvLength := 8 * N |>
      <| Ann.pathSequence ::= memcpy_at 0 (take (8 * Z.to_nat N) (BPTASG.pathTrace b)) |>
  else m <| Ann.tlvLength := 0 |>.

Definition txAnnounce (sm : data) : data :=
  sm <| announceTx ::= announce_of (bptasg sm) (BPPG.masterPriority (bppg sm)) |>.

Definition allstate_condition (sm : data) : port_announce_transmit_state_t :=
  if PTASG.BEGIN (ptasg sm) || negb (PTASG.instanceEnable (ptasg sm)) || negb (PPG.asCapable (ppg sm))
  then TRANSMIT_INIT
  else if BPPG.currentLogAnnounceInterval (bppg sm) =? 127 then TRANSMIT_INIT
  else state sm.

Definition transmit_init_proc (sm : data) : data :=
  sm <| bppg; BPPG.newInfo := true |> <| bppg; BPPG.announceSlowdown := false |>
     <| thisSM; PATsm.numberAnnounceTransmissions := 0 |>.

Definition transmit_init_condition (sm : data) : port_announce_transmit_state_t :=
  if BPPG.currentLogAnnounceInterval (bppg sm) =? 127 then TRANSMIT_INIT else IDLE.

Definition transmit_periodic_proc (sm : data) : data :=
  sm <| bppg; BPPG.newInfo ::= fun b => b || (SELECTED_STATE sm =? MasterPort) |>.

Definition transmit_periodic_condition (sm : data) : port_announce_transmit_state_t := IDLE.

Definition idle_proc (cts64 : Z) (sm : data) : data :=
  sm <| thisSM; PATsm.announceSendTime; UNs.nsec :=
          u64 (cts64 + UNs.nsec (PATsm.interval2 (thisSM sm))) |>.

(** the port may announce now *)
Definition may_announce (sm : data) : bool :=
  (SELECTED_STATE sm =? MasterPort) &&
  (SELECTED sm || (BPTASG.externalPortConfiguration (bptasg sm) =? VALUE_ENABLED)) &&
  negb (PPGALL.asymmetryMeasurementMode (PPG.forAllDomain (ppg sm))).

Definition idle_condition (cts64 : Z) (sm : data) : port_announce_transmit_state_t :=
  let due := UNs.nsec (PATsm.announceSendTime (thisSM sm)) in
  if BPPG.newInfo (bppg sm) && may_announce sm && (cts64 <? due) then TRANSMIT_ANNOUNCE
  else if (due <=? cts64) &&
          (SELECTED sm || (BPTASG.externalPortConfiguration (bptasg sm) =? VALUE_DISABLED))
  then TRANSMIT_PERIODIC else state sm.

Definition transmit_announce_proc (sm : data) : data * option PTPMsgAnnounce :=
  let sm := txAnnounce (sm <| bppg; BPPG.newInfo := false |>) in
  let sm :=
    if BPPG.announceSlowdown (bppg sm) then
      if u8 (BPPG.announceReceiptTimeout (bppg sm)) <=? PATsm.numberAnnounceTransmissions (thisSM sm)
      then sm <| thisSM; PATsm.interval2 := BPPG.announceInterval (bppg sm) |>
              <| thisSM; PATsm.numberAnnounceTransmissions := 0 |>
              <| bppg; BPPG.announceSlowdown := false |>
      else sm <| thisSM; PATsm.interval2 := PPG.oldAnnounceInterval (ppg sm) |>
              <| thisSM; PATsm.numberAnnounceTransmissions ::= fun z => u8 (z + 1) |>
    else sm <| thisSM; PATsm.numberAnnounceTransmissions := 0 |>
            <| thisSM; PATsm.interval2 := BPPG.announceInterval (bppg sm) |> in
  (sm, Some (announceTx sm)).

Definition transmit_announce_condition (sm : data) : data :=
  sm <| last_state := IDLE |> <| state := IDLE |>.

Definition switch (cts64 : Z) (state_change : bool) (sm : data) : data * ctl PTPMsgAnnounce :=
  let on (p : data -> data) (sm : data) := if state_change then p sm else sm in
  let go (cond : data -> port_announce_transmit_state_t) (sm : data) : data * ctl PTPMsgAnnounce :=
    (sm <| state := cond sm |>, Next) in
  match state sm with
  | INIT => (sm <| state := TRANSMIT_INIT |>, Next)
  | TRANSMIT_INIT => go transmit_init_condition (on transmit_init_proc sm)
  | TRANSMIT_PERIODIC => go transmit_periodic_condition (on transmit_periodic_proc sm)
  | IDLE => go (idle_condition cts64) (on (idle_proc cts64) sm)
  | TRANSMIT_ANNOUNCE =>
      let (sm, retp) := if state_change then transmit_announce_proc sm else (sm, None) in
      (transmit_announce_condition sm, ret_if retp)
  | REACTION => (sm, Next)
  end.

Definition set_last (e : port_announce_transmit_state_t) (sm : data) : data :=
  sm <| last_state := e |>.
Definition set_allstate (sm : data) : data := sm <| state := allstate_condition sm |>.

Definition machine (cts64 : Z) : StateMachine data port_announce_transmit_state_t PTPMsgAnnounce := {|
  sm_state := state;
  sm_last := last_state;
  sm_set_last := set_last;
  sm_allstate := set_allstate;
  sm_switch := switch cts64;
  sm_state_set_last := fun _ _ => eq_refl;
  sm_last_set_last := fun _ _ => eq_refl
|}.

(** INIT, TRANSMIT_INIT, IDLE, TRANSMIT_PERIODIC, IDLE, TRANSMIT_ANNOUNCE *)
Definition fuel : nat := 7.

Definition port_announce_transmit_sm (cts64 : Z) (sm : data) : data * outcome PTPMsgAnnounce :=
  exec (M := machine cts64) fuel sm.

Definition port_announce_transmit_sm_init (domainIndex portIndex : Z)
    (ptasg : PerTimeAwareSystemGlobal) (ppg : PerPortGlobal)
    (bptasg : BmcsPerTimeAwareSystemGlobal) (bppg : BmcsPerPortGlobal) : data :=
  (mk ptasg ppg bptasg bppg INIT INIT zero domainIndex portIndex zero)
    <| thisSM; PATsm.interval2; UNs.nsec := 1000000000 |>.

(** ** The evaluation ends, and when it does not *)

(** the waiting time is positive and the send time does not wrap *)
Definition interval_ok (cts64 : Z) (sm : data) : Prop :=
  let i := UNs.nsec (PATsm.interval2 (thisSM sm)) in 0 < i /\ 0 <= cts64 /\ cts64 + i < 2 ^ 64.

Definition rank (sm : data) : nat :=
  match state sm with
  | INIT => 5
  | TRANSMIT_INIT => 4
  | IDLE => if bool_decide (last_state sm <> state sm) then 2 else 4
  | TRANSMIT_PERIODIC => 3
  | TRANSMIT_ANNOUNCE => 1
  | REACTION => 0
  end.

Lemma pat_pass_eq cts64 sm :
  pass (M := machine cts64) sm =
  switch cts64 (bool_decide (last_state sm <> state sm)) (set_last (state sm) sm).
Proof. reflexivity. Qed.

Lemma transmit_turns cts64 (s s' : data) :
  interval_ok cts64 s -> turns (M := machine cts64) s s' ->
  interval_ok cts64 s' /\ (rank s' < rank s)%nat.
Proof.
  intros (I1 & I2 & I3) [H Hne]. rewrite pat_pass_eq in H. cbn in Hne.
  destruct s as [pt pp bt bp st ls th di pi tx]. unfold rank at 2. unfold switch in H. cbn in *.
  destruct st; cbn in H; try (case_bool_decide as C; cbn in H).
  all: try discriminate H; injection H as <-; cbn in Hne.
  all: unfold transmit_init_condition, transmit_periodic_condition, idle_condition in *; cbn in *.
  all: try (rewrite (wrap_id 64) in * by (unfold fits; lia)).
  all: repeat (destruct_cond_in Hne; cbn in Hne); try done; bool_hyps; try lia.
  all: split; [done|]; unfold rank; cbn; settle_changes; lia.
Qed.

Lemma allstate_interval cts64 sm : interval_ok cts64 sm -> interval_ok cts64 (set_allstate sm).
Proof. done. Qed.

(** The evaluation of the announce transmitter ends whenever its waiting time is positive and
    the send time does not wrap around. *)
Theorem announce_transmit_ends cts64 sm :
  interval_ok cts64 sm ->
  run (M := machine cts64) fuel sm = Some (port_announce_transmit_sm cts64 sm).
Proof.
  intros Hi. apply exec_run. unfold run.
  apply (loop_ends (M := machine cts64)) with (Inv := interval_ok cts64) (rank := rank).
  - intros s s'. apply transmit_turns.
  - exact Hi.
  - unfold rank, fuel. destruct (state _); try case_bool_decide; lia.
Qed.

(** a running transmitter that waits, with a waiting time of 0 *)
Definition spinning (cts64 : Z) (sm : data) : Prop :=
  0 <= cts64 < 2 ^ 64 /\
  PATsm.interval2 (thisSM sm) = zero /\
  BPTASG.externalPortConfiguration (bptasg sm) = VALUE_DISABLED /\
  (state sm = IDLE /\ last_state sm <> IDLE \/
   state sm = TRANSMIT_PERIODIC /\ last_state sm <> TRANSMIT_PERIODIC).

Lemma spinning_turns cts64 sm :
  spinning cts64 sm -> exists sm', turns (M := machine cts64) sm sm' /\ spinning cts64 sm'.
Proof.
  intros (Hc & Hi & He & Hst). unfold turns. rewrite pat_pass_eq.
  destruct sm as [pt pp bt bp st ls th di pi tx]. cbn in Hi, He, Hst.
  destruct Hst as [[-> L]|[-> L]]; unfold switch; cbn; rewrite bool_decide_eq_true_2 by done; cbn.
  - eexists. split; [split; [reflexivity|]|]; cbn.
    all: unfold idle_condition, spinning; cbn; rewrite Hi, He; cbn; rewrite Z.add_0_r.
    all: rewrite (wrap_id 64) by (unfold fits; lia).
    all: rewrite Z.ltb_irrefl, Z.leb_refl, andb_false_r, orb_true_r; cbn; auto 10.

  - eexists. split; [split; [reflexivity|]|]; cbn; [done|].
    unfold spinning. cbn. split_and!; auto; lia.
Qed.

(** the transmitter is due and [interval2] is 0 *)
Definition due_with_no_interval (cts64 : Z) (sm : data) : Prop :=
  0 <= cts64 < 2 ^ 64 /\ state sm = IDLE /\ last_state sm = IDLE /\
  allstate_condition sm = IDLE /\ PATsm.interval2 (thisSM sm) = zero /\
  BPTASG.externalPortConfiguration (bptasg sm) = VALUE_DISABLED /\
  UNs.nsec (PATsm.announceSendTime (thisSM sm)) <= cts64.

(** With a waiting time of 0 (what [interval2] becomes when an announce is sent in slow-down
    while ppg->oldAnnounceInterval, which no announce machine sets, is 0) the evaluation never
    returns: it goes round between IDLE and TRANSMIT_PERIODIC for ever. *)
Theorem zero_interval_never_returns cts64 sm n :
  due_with_no_interval cts64 sm -> run (M := machine cts64) n sm = None.
Proof.
  intros (Hc & E & L & A & Hi & He & Hd). unfold run.
  replace (sm_allstate (StateMachine := machine cts64) sm) with sm
    by (cbn; unfold set_allstate; rewrite A; destruct sm; cbn in *; by subst).
  destruct n as [|n]; [done|].
  destruct sm as [pt pp bt bp st ls th di pi tx]. cbn in E, L, Hi, He, Hd. subst.
  erewrite (loop_turn (M := machine cts64)); cycle 1.
  { split; [rewrite pat_pass_eq; unfold switch; cbn; settle_changes; reflexivity|].
    cbn. unfold idle_condition. cbn. rewrite He.
    rewrite (proj2 (Z.ltb_ge _ _)), (proj2 (Z.leb_le _ _)) by done.
    rewrite andb_false_r, orb_true_r. done. }
  apply (loop_diverges (M := machine cts64) (spinning cts64)); [apply spinning_turns|].
  unfold spinning. cbn. unfold idle_condition. cbn. rewrite He.
  rewrite (proj2 (Z.ltb_ge _ _)), (proj2 (Z.leb_le _ _)) by done.
  rewrite andb_false_r, orb_true_r. cbn. split_and!; auto; lia.
Qed.

(** ** What is sent, and by whom *)

(** [s] is on the way from [sm0] to a transmission *)
Definition on_the_way (sm0 s : data) : Prop :=
  bptasg s = bptasg sm0 /\ ptasg s = ptasg sm0 /\ ppg s = ppg sm0 /\
  portIndex s = portIndex sm0 /\ announceTx s = announceTx sm0 /\
  BPPG.masterPriority (bppg s) = BPPG.masterPriority (bppg sm0) /\
  BPPG.updtInfo (bppg s) = BPPG.updtInfo (bppg sm0) /\
  (state s = TRANSMIT_ANNOUNCE -> may_announce sm0 = true).

Lemma may_announce_frame sm0 s : on_the_way sm0 s -> may_announce s = may_announce sm0.
Proof.
  intros (E1 & E2 & E3 & E4 & _ & _ & E5 & _).
  unfold may_announce, SELECTED, SELECTED_STATE. by rewrite E1, E2, E3, E4, E5.
Qed.

Lemma idle_condition_announce cts64 sm :
  state sm <> TRANSMIT_ANNOUNCE -> idle_condition cts64 sm = TRANSMIT_ANNOUNCE -> may_announce sm = true.
Proof.
  unfold idle_condition. intros H. destruct_cond; [bool_hyps; done|]. by destruct_cond.
Qed.

Lemma pass_next cts64 s s' :
  state s <> TRANSMIT_ANNOUNCE -> pass (M := machine cts64) s = (s', Next) ->
  forall sm0, on_the_way sm0 s -> on_the_way sm0 s'.
Proof.
  intros Hst H sm0 W. pose proof (may_announce_frame _ _ W) as M. rewrite pat_pass_eq in H.
  unfold on_the_way in W. destruct s as [pt pp bt bp st ls th di pi tx].
  unfold switch in H. cbn in H, W, M, Hst.
  destruct st; try done; cbn in H; try (case_bool_decide as C; cbn in H); injection H as <-.
  all: destruct W as (E1 & E2 & E3 & E4 & E5 & E6 & E7 & E8); unfold on_the_way; cbn.
  all: split_and!; try done.
  all: try (unfold transmit_init_condition; destruct_cond; done).
  all: intros X; apply idle_condition_announce in X; [|done]; rewrite <- M; exact X.
Qed.

(** the states a machine rests in *)
Definition resting (sm : data) : Prop := state sm <> TRANSMIT_ANNOUNCE.

Lemma announce_proc_fields sm :
  let (s, r) := transmit_announce_proc sm in
  r = Some (announceTx s) /\
  announceTx s = announce_of (bptasg sm) (BPPG.masterPriority (bppg sm)) (announceTx sm) /\
  BPPG.newInfo (bppg s) = false.
Proof.
  unfold transmit_announce_proc. repeat destruct_cond; repeat apply conj; reflexivity.
Qed.

#[local] Opaque announce_of.

Lemma pass_announce cts64 sm0 s s' c :
  on_the_way sm0 s -> pass (M := machine cts64) s = (s', c) ->
  match c with
  | Next => on_the_way sm0 s' /\ (state s = TRANSMIT_ANNOUNCE -> state s' = IDLE /\ last_state s' = IDLE)
  | Leave o => exists m, o = Ret (Some m) /\ may_announce sm0 = true /\
      m = announce_of (bptasg sm0) (BPPG.masterPriority (bppg sm0)) (announceTx sm0) /\
      announceTx s' = m /\ BPPG.newInfo (bppg s') = false /\ state s' = IDLE
  end.
Proof.
  intros W P. destruct (decide (state s = TRANSMIT_ANNOUNCE)) as [E|E].
  - rewrite pat_pass_eq in P. unfold switch in P.
    change (state (set_last (state s) s)) with (state s) in P. rewrite E in P.
    destruct W as (E1 & E2 & E3 & E4 & E5 & E6 & E7 & E8).
    case_bool_decide.
    + pose proof (announce_proc_fields (set_last TRANSMIT_ANNOUNCE s)) as F.
      destruct (transmit_announce_proc _) as [s1 r]. destruct F as (-> & F2 & F3).
      injection P as <- <-. exists (announceTx s1). split_and!; auto.
      rewrite F2. change (bptasg (set_last _ s)) with (bptasg s).
      change (bppg (set_last _ s)) with (bppg s). change (announceTx (set_last _ s)) with (announceTx s).
      by rewrite E1, E5, E6.
    + injection P as <- <-. split; [|done]. unfold on_the_way. by split_and!.
  - destruct c as [|o].
    + split; [by eapply pass_next|done].
    + exfalso. rewrite pat_pass_eq in P. unfold switch in P.
      change (state (set_last (state s) s)) with (state s) in P. by destruct (state s).
Qed.

(** an announce the machine gives is the message of the data it was given *)
Lemma announce_given cts64 sm s' m :
  resting sm ->
  port_announce_transmit_sm cts64 sm = (s', Ret (Some m)) ->
  may_announce sm = true /\
  m = announce_of (bptasg sm) (BPPG.masterPriority (bppg sm)) (announceTx sm) /\
  announceTx s' = m /\ BPPG.newInfo (bppg s') = false /\ state s' = IDLE.
Proof.
  intros Hr H.
  apply (exec_leave (M := machine cts64) (on_the_way sm)) in H as (s0 & W & P).
  - destruct (pass_announce cts64 sm s0 s' _ W P) as (m' & [= <-] & R). exact R.
  - cbn. unfold set_allstate, on_the_way, allstate_condition, resting in *. cbn.
    split_and!; try done. repeat destruct_cond; done.
  - intros s1 s2 W P. apply (pass_announce cts64 sm s1 s2 Next W P).
Qed.


(** What the announce of a path of [N] clocks says, [N] within the announce's room: the TLV of 8 N octets
    with the path, the grandmaster and the steps removed the instance has, and a sequence number one after
    that of the last announce, modulo 2^16. *)
Theorem announce_says cts64 sm s' m :
  0 <= BPTASG.pathTraceCount (bptasg sm) <= Z.of_nat MAX_PATH_TRACE_N ->
  length (BPTASG.pathTrace (bptasg sm)) = (8 * MAX_PATH_TRACE_N)%nat ->
  resting sm -> port_announce_transmit_sm cts64 sm = (s', Ret (Some m)) ->
  let N := BPTASG.pathTraceCount (bptasg sm) in
  let gm := U224.rootSystemIdentity (BPPG.masterPriority (bppg sm)) in
  Ann.tlvType m = 8 /\ Ann.tlvLength m = 8 * N /\
  take (8 * Z.to_nat N) (Ann.pathSequence m) = take (8 * Z.to_nat N) (BPTASG.pathTrace (bptasg sm)) /\
  Ann.stepsRemoved m = BPTASG.masterStepsRemoved (bptasg sm) /\
  Ann.grandmasterIdentity m = U112.clockIdentity gm /\ Ann.grandmasterPriority1 m = U112.priority1 gm /\
  Hdr.sequenceId (Ann.header m) = u16 (Hdr.sequenceId (Ann.header (announceTx sm)) + 1).
Proof.
  intros [N1 N2] L Re E. destruct (announce_given cts64 sm s' m Re E) as (_ & -> & _). cbv zeta.
  generalize (announceTx sm) (BPPG.masterPriority (bppg sm)). intros t mp. revert N1 N2 L. generalize (bptasg sm). intros b N1 N2 L.
  with_strategy transparent [announce_of] unfold announce_of. rewrite (proj2 (Z.leb_le _ _)) by done. split_and!; try reflexivity.
  set (n := Z.to_nat (BPTASG.pathTraceCount b)).
  assert (Ln : length (take (8 * n) (BPTASG.pathTrace b)) = (8 * n)%nat) by (rewrite length_take; unfold n; lia).
  change (take (8 * n) (memcpy_at 0 (take (8 * n) (BPTASG.pathTrace b)) (Ann.pathSequence t)) = take (8 * n) (BPTASG.pathTrace b)).
  unfold memcpy_at. rewrite take_0. cbn [app]. rewrite <- Ln at 1. apply take_app_length.
Qed.

(** A time property flag once announced is announced for ever: the flags are or-ed into the
    previous message's, so a cleared leap61 (here any bit) stays set in what is sent. *)
Theorem announce_flags_sticky b mp m i :
  in_array (Hdr.flags (Ann.header m)) 1 ->
  Z.testbit (aget 0 (Hdr.flags (Ann.header m)) 1) i = true ->
  Z.testbit (aget 0 (Hdr.flags (Ann.header (announce_of b mp m))) 1) i = true.
Proof.
  intros Hin Hb.
  assert (E : Hdr.flags (Ann.header (announce_of b mp m)) =
    aset (Hdr.flags (Ann.header m)) 1 (Z.lor (aget 0 (Hdr.flags (Ann.header m)) 1) (time_flags b))).
  { with_strategy transparent [announce_of] unfold announce_of. by destruct_cond. }
  rewrite E, aget_aset_eq by done. by rewrite Z.lor_spec, Hb.
Qed.

(** ** Witnesses *)

Definition clockA : list Z := [2;0;0;0;0;0;0;1].

(** port 1 of clock [clockA], selected master, with information to announce *)
Definition master1 : data :=
  mk (zero <| PTASG.instanceEnable := true |> <| PTASG.thisClock := clockA |>
           <| PTASG.selectedState ::= fun l => aset l 1 MasterPort |>)
     (zero <| PPG.asCapable := true |> <| PPG.thisPort := 1 |>)
     (zero <| BPTASG.selected ::= fun l => aset l 1 true |>
           <| BPTASG.pathTrace ::= memcpy_at 0 clockA |> <| BPTASG.pathTraceCount := 1 |>
           <| BPTASG.leap61 := true |>)
     (zero <| BPPG.newInfo := true |> <| BPPG.announceInterval; UNs.nsec := 1000000000 |>
           <| BPPG.masterPriority; U224.rootSystemIdentity; U112.clockIdentity := clockA |>)
     IDLE IDLE
     (zero <| PATsm.announceSendTime; UNs.nsec := 2000000000 |>
           <| PATsm.interval2; UNs.nsec := 1000000000 |>) 0 1 zero.

Lemma announce_transmit_ends_witness :
  run (M := machine 5) fuel master1 = Some (port_announce_transmit_sm 5 master1).
Proof. apply (announce_transmit_ends 5 master1). repeat split; vm_compute; done. Defined.

(** [master1] after it has sent in slow-down with no old interval, when the next one is due *)
Definition stuck1 : data :=
  master1 <| thisSM; PATsm.interval2 := zero |> <| bppg; BPPG.announceSlowdown := true |>.

Lemma zero_interval_witness : run (M := machine 3000000000) 1000 stuck1 = None.
Proof.
  apply (zero_interval_never_returns 3000000000 stuck1).
  unfold due_with_no_interval. split_and!; try reflexivity; vm_compute; done.
Defined.


Lemma announce_says_witness : exists s' m, port_announce_transmit_sm 5 master1 = (s', Ret (Some m)) /\ Ann.tlvLength m = 8.
Proof.
  eexists _, _. split; [vm_compute; reflexivity|].
  refine (proj1 (proj2 (announce_says 5 master1 _ _ _ _ _ _))); [by vm_compute..|vm_compute; reflexivity].
Defined.

Lemma announce_flags_sticky_witness :
  Z.testbit (aget 0 (Hdr.flags (Ann.header (announce_of zero zero
    (announce_of (bptasg master1) zero zero)))) 1) 0 = true.
Proof.
  apply (announce_flags_sticky zero zero (announce_of (bptasg master1) zero zero) 0).
  - by vm_compute.
  - reflexivity.
Defined.

End PAT.
