(* ===== verification/IntervalSetting.v ===== *)
(** * IntervalSetting: the five machines that set a port's message intervals.

    announce_interval_setting_sm.c (AIS), sync_interval_setting_sm.c (SIS),
    link_delay_interval_setting_sm.c (LDIS), gptp_capable_interval_setting_sm.c
    (GCIS) and one_step_tx_oper_setting_sm.c (OST).  A signaling message from the
    peer asks for an interval; tables 10-15 to 10-18 give special values their
    meaning: reserved and -128 change nothing, 126 is the initial interval, any
    other value is the interval itself. *)

From S2P Require Import Prelude Types Driver Common Clock.
#[local] Open Scope Z_scope.
#[local] Open Scope gptp_scope.

Section Request.
Context `{PL : Platform}.

(** the switch on the requested log interval: (current log interval, interval in ns) *)
Definition interval_request (v initial : Z) (cur : Z * Z) : Z * Z :=
  if LOG_INTERVAL_IN_RESERVED_RANGE v then cur
  else if v =? -128 then cur
  else if v =? 126 then (initial, LOG_TO_NSEC initial)
  else (v, LOG_TO_NSEC v).

End Request.

Lemma GET_FLAG_BIT_testbit x b : 0 <= b -> negb (GET_FLAG_BIT x b =? 0) = Z.testbit x b.
Proof.
  intros Hb. unfold GET_FLAG_BIT. rewrite Z.shiftl_1_l.
  destruct (Z.testbit x b) eqn:E.
  - apply negb_true_iff, Z.eqb_neq. intros H.
    assert (T : Z.testbit (Z.land x (2 ^ b)) b = true) by (by rewrite Z.land_spec, E, Z.pow2_bits_true).
    by rewrite H, Z.testbit_0_l in T.
  - apply negb_false_iff, Z.eqb_eq. apply Z.bits_inj'. intros n Hn.
    rewrite Z.land_spec, Z.testbit_0_l, Z.pow2_bits_eqb by lia.
    destruct (Z.eqb_spec b n) as [<-|]; [by rewrite E|by rewrite andb_false_r].
Qed.

(** the states all five machines have *)
Inductive setting_state_t := INIT | NOT_ENABLED | INITIALIZE | SET_INTERVAL | REACTION.
#[export] Instance setting_state_eqdec : EqDecision setting_state_t.
Proof. solve_decision. Defined.

(** INIT, NOT_ENABLED, INITIALIZE, SET_INTERVAL and one REACTION *)
Definition setting_fuel : nat := 8.

(** the turns left from a state, given whether it is entered anew and whether a message waits *)
Definition setting_rank (st last : setting_state_t) (rcvd : bool) : nat :=
  match st with
  | INIT => 6
  | NOT_ENABLED => 5
  | INITIALIZE => 4
  | REACTION => 2
  | SET_INTERVAL => if bool_decide (last <> st) then 1 else 3
  end.

Lemma setting_rank_fuel st last rcvd : (setting_rank st last rcvd < setting_fuel)%nat.
Proof. unfold setting_rank, setting_fuel. destruct st; try case_bool_decide; lia. Qed.

(** ** Announce interval *)

Module AIS.

Record announce_interval_setting_data := mk {
  ptasg : PerTimeAwareSystemGlobal;
  ppg : PerPortGlobal;
  bppg : BmcsPerPortGlobal;
  state : setting_state_t;
  last_state : setting_state_t;
  thisSM : AnnounceIntervalSettingSM;
  domainIndex : Z;
  portIndex : Z
}.
#[export] Instance eta_data : Eta announce_interval_setting_data :=
  fields! mk [ptasg, ppg, bppg, state, last_state, thisSM, domainIndex, portIndex].
Abbreviation data := announce_interval_setting_data.

Section Procs.
Context `{PL : Platform}.

Definition use_mgt (sm : data) : bool :=
  PPGALL.useMgtSettableLogAnnounceInterval (PPG.forAllDomain (ppg sm)).
Definition PORT_UP (sm : data) : bool :=
  PPGALL.portOper (PPG.forAllDomain (ppg sm)) && PPG.ptpPortEnabled (ppg sm).

Definition set_announce (i : Z * Z) (sm : data) : data :=
  sm <| bppg; BPPG.currentLogAnnounceInterval := i.1 |>
     <| bppg; BPPG.announceInterval; UNs.nsec := i.2 |>.

Definition allstate_condition (sm : data) : setting_state_t :=
  if PTASG.BEGIN (ptasg sm) || negb (PTASG.instanceEnable (ptasg sm)) ||
     negb (PORT_UP sm) || use_mgt sm
  then NOT_ENABLED else state sm.

Definition not_enabled_proc (sm : data) : data :=
  if use_mgt sm then
    let v := PPGALL.mgtSettableLogAnnounceInterval (PPG.forAllDomain (ppg sm)) in
    set_announce (v, LOG_TO_NSEC v) sm
  else sm.

Definition not_enabled_condition (sm : data) : setting_state_t :=
  if PORT_UP sm && negb (use_mgt sm) then INITIALIZE else NOT_ENABLED.

Definition initialize_proc (sm : data) : data :=
  let v := BPPG.initialLogAnnounceInterval (bppg sm) in
  let sm := set_announce (v, LOG_TO_NSEC v) sm <| thisSM; AISsm.rcvdSignalingMsg2 := false |> in
  sm <| bppg; BPPG.oldAnnounceInterval := BPPG.announceInterval (bppg sm) |>
     <| bppg; BPPG.announceSlowdown := false |>.

Definition initialize_condition (sm : data) : setting_state_t :=
  if AISsm.rcvdSignalingMsg2 (thisSM sm) then SET_INTERVAL else INITIALIZE.

Definition set_intervals_proc (m : PTPMsgIntervalRequestTLV) (sm : data) : data :=
  let cur := (BPPG.currentLogAnnounceInterval (bppg sm), UNs.nsec (BPPG.announceInterval (bppg sm))) in
  let sm := set_announce
    (interval_request (IvReq.announceInterval m) (BPPG.initialLogAnnounceInterval (bppg sm)) cur) sm in
  sm <| thisSM; AISsm.rcvdSignalingMsg2 := false |>
     <| bppg; BPPG.announceSlowdown :=
          UNs.nsec (BPPG.announceInterval (bppg sm)) <? UNs.nsec (BPPG.oldAnnounceInterval (bppg sm)) |>.

Definition set_intervals_condition (sm : data) : setting_state_t :=
  if AISsm.rcvdSignalingMsg2 (thisSM sm) then REACTION else SET_INTERVAL.

Definition switch (state_change : bool) (sm : data) : data * ctl unit :=
  let go (cond : data -> setting_state_t) (sm : data) : data * ctl unit :=
    (sm <| state := cond sm |>, Next) in
  let on (p : data -> data) (sm : data) := if state_change then p sm else sm in
  match state sm with
  | INIT => (sm <| state := NOT_ENABLED |>, Next)
  | NOT_ENABLED => go not_enabled_condition (on not_enabled_proc sm)
  | INITIALIZE => go initialize_condition (on initialize_proc sm)
  | SET_INTERVAL =>
      if state_change then
        deref (AISsm.rcvdSignalingPtr (thisSM sm)) sm (fun m =>
          go set_intervals_condition (set_intervals_proc m sm))
      else go set_intervals_condition sm
  | REACTION => (sm <| state := SET_INTERVAL |>, Next)
  end.

Definition set_last (e : setting_state_t) (sm : data) : data := sm <| last_state := e |>.
Definition set_allstate (sm : data) : data := sm <| state := allstate_condition sm |>.

Definition machine : StateMachine data setting_state_t unit := {|
  sm_state := state;
  sm_last := last_state;
  sm_set_last := set_last;
  sm_allstate := set_allstate;
  sm_switch := switch;
  sm_state_set_last := fun _ _ => eq_refl;
  sm_last_set_last := fun _ _ => eq_refl
|}.

Definition announce_interval_setting_sm (sm : data) : data * outcome unit :=
  exec (M := machine) setting_fuel sm.

Definition announce_interval_setting_sm_init (domainIndex portIndex : Z)
    (ptasg : PerTimeAwareSystemGlobal) (ppg : PerPortGlobal) (bppg : BmcsPerPortGlobal) : data :=
  mk ptasg ppg bppg INIT INIT zero domainIndex portIndex.

Definition announce_interval_setting_sm_SignalingMsg2 (m : PTPMsgIntervalRequestTLV) (sm : data)
  : data * outcome unit :=
  announce_interval_setting_sm
    (sm <| thisSM; AISsm.rcvdSignalingPtr := Some m |>
        <| thisSM; AISsm.rcvdSignalingMsg2 := true |>).

Lemma ais_pass_eq sm :
  pass (M := machine) sm = switch (bool_decide (last_state sm <> state sm)) (set_last (state sm) sm).
Proof. reflexivity. Qed.

Definition rank (sm : data) : nat :=
  setting_rank (state sm) (last_state sm) (AISsm.rcvdSignalingMsg2 (thisSM sm)).

Lemma ais_turns (s s' : data) : turns (M := machine) s s' -> (rank s' < rank s)%nat.
Proof.
  intros [H Hne]. rewrite ais_pass_eq in H. cbn in Hne.
  destruct s as [pt pp bp st ls th di pi]. unfold rank at 2. unfold switch, deref in H. cbn in *.
  destruct st; cbn in H; try (case_bool_decide as C; cbn in H).
  all: try (destruct (AISsm.rcvdSignalingPtr th); [|discriminate H]).
  all: injection H as <-; cbn in Hne.
  all: unfold not_enabled_proc, not_enabled_condition, initialize_condition,
    set_intervals_condition in *; cbn in *.
  all: repeat (destruct_cond_in Hne; cbn in Hne); try done; unfold rank, setting_rank; cbn;
    settle_changes; cbn; try lia.
Qed.

Lemma ais_ends sm : run (M := machine) setting_fuel sm = Some (announce_interval_setting_sm sm).
Proof.
  apply exec_run. unfold run.
  apply (loop_ends (M := machine)) with (Inv := fun _ => True) (rank := rank); [|done|].
  - intros s s' _ H. split; [done|by apply ais_turns].
  - apply setting_rank_fuel.
Qed.

(** an enabled port that waits for requests *)
Definition open (sm : data) : Prop :=
  PTASG.BEGIN (ptasg sm) = false /\ PTASG.instanceEnable (ptasg sm) = true /\
  PORT_UP sm = true /\ use_mgt sm = false /\
  last_state sm = state sm /\ (state sm = INITIALIZE \/ state sm = SET_INTERVAL).

Lemma ais_request_exec m sm :
  open sm ->
  announce_interval_setting_sm_SignalingMsg2 m sm =
  (set_intervals_proc m
     (sm <| thisSM; AISsm.rcvdSignalingPtr := Some m |>
         <| thisSM; AISsm.rcvdSignalingMsg2 := true |>
         <| state := SET_INTERVAL |> <| last_state := SET_INTERVAL |>), Ret None).
Proof.
  intros (HB & HI & HU & HM & L & Hst). apply (exec_eq (M := machine)).
  destruct sm as [pt pp bp st ls th di pi]. cbn in L, Hst. subst ls.
  set (s0 := _ <| thisSM; AISsm.rcvdSignalingMsg2 := true |>).
  assert (A : sm_allstate (StateMachine := machine) s0 = s0).
  { cbn. unfold set_allstate, allstate_condition, s0, PORT_UP, use_mgt in *. cbn in *.
    by rewrite HB, HI, HU, HM. }
  rewrite A. unfold s0, setting_fuel.
  destruct Hst as [-> | ->]; turn machine; [|turn machine]; last_turn machine.
Qed.

(** A request for an announce interval on an enabled port is applied at once: the port's log
    interval and interval follow the table of special values, and the slow-down flag says that
    the interval is now shorter than the one kept as the old interval. *)
Theorem announce_interval_requested m sm :
  open sm ->
  let (s, o) := announce_interval_setting_sm_SignalingMsg2 m sm in
  o = Ret None /\ open s /\ state s = SET_INTERVAL /\
  AISsm.rcvdSignalingMsg2 (thisSM s) = false /\
  (BPPG.currentLogAnnounceInterval (bppg s), UNs.nsec (BPPG.announceInterval (bppg s))) =
    interval_request (IvReq.announceInterval m) (BPPG.initialLogAnnounceInterval (bppg sm))
      (BPPG.currentLogAnnounceInterval (bppg sm), UNs.nsec (BPPG.announceInterval (bppg sm))) /\
  BPPG.announceSlowdown (bppg s) =
    (UNs.nsec (BPPG.announceInterval (bppg s)) <? UNs.nsec (BPPG.oldAnnounceInterval (bppg sm))).
Proof.
  intros Ho. rewrite ais_request_exec by done. destruct Ho as (HB & HI & HU & HM & L & Hst).
  destruct sm as [pt pp bp st ls th di pi]. cbn in *.
  unfold open. split_and!; try done; try (right; done).
  set (i := interval_request _ _ _). clearbody i. by destruct i.
Qed.

End Procs.
End AIS.

(** ** Sync interval *)

Module SIS.

Record sync_interval_setting_data := mk {
  ptasg : PerTimeAwareSystemGlobal;
  ppg : PerPortGlobal;
  state : setting_state_t;
  last_state : setting_state_t;
  thisSM : SyncIntervalSettingSM;
  domainIndex : Z;
  portIndex : Z
}.
#[export] Instance eta_data : Eta sync_interval_setting_data :=
  fields! mk [ptasg, ppg, state, last_state, thisSM, domainIndex, portIndex].
Abbreviation data := sync_interval_setting_data.

Section Procs.
Context `{PL : Platform}.

Definition use_mgt (sm : data) : bool := PPG.useMgtSettableLogSyncInterval (ppg sm).
Definition PORT_UP (sm : data) : bool :=
  PPGALL.portOper (PPG.forAllDomain (ppg sm)) && PPG.ptpPortEnabled (ppg sm).

Definition set_sync (i : Z * Z) (sm : data) : data :=
  sm <| ppg; PPG.currentLogSyncInterval := i.1 |> <| ppg; PPG.syncInterval; UNs.nsec := i.2 |>.

Definition allstate_condition (sm : data) : setting_state_t :=
  if PTASG.BEGIN (ptasg sm) || negb (PTASG.instanceEnable (ptasg sm)) ||
     negb (PORT_UP sm) || use_mgt sm
  then NOT_ENABLED else state sm.

Definition not_enabled_proc (sm : data) : data :=
  if use_mgt sm then
    let v := PPG.mgtSettableLogSyncInterval (ppg sm) in set_sync (v, LOG_TO_NSEC v) sm
  else sm.

Definition not_enabled_condition (sm : data) : setting_state_t :=
  if PORT_UP sm && negb (use_mgt sm) then INITIALIZE else NOT_ENABLED.

Definition initialize_proc (sm : data) : data :=
  let v := PPG.initialLogSyncInterval (ppg sm) in
  set_sync (v, LOG_TO_NSEC v) sm <| thisSM; SISsm.rcvdSignalingMsg3 := false |>.

Definition initialize_condition (sm : data) : setting_state_t :=
  if SISsm.rcvdSignalingMsg3 (thisSM sm) then SET_INTERVAL else INITIALIZE.

(** a changed interval also becomes the clock master's *)
Definition set_interval_proc (m : PTPMsgIntervalRequestTLV) (sm : data) : data :=
  let cur := (PPG.currentLogSyncInterval (ppg sm), UNs.nsec (PPG.syncInterval (ppg sm))) in
  let i := interval_request (IvReq.timeSyncInterval m) (PPG.initialLogSyncInterval (ppg sm)) cur in
  let sm := set_sync i sm in
  let sm := if negb (cur.2 =? i.2) then
              sm <| ptasg; PTASG.clockMasterLogSyncInterval := i.1 |>
                 <| ptasg; PTASG.clockMasterSyncInterval; UNs.nsec := i.2 |>
            else sm in
  sm <| thisSM; SISsm.rcvdSignalingMsg3 := false |>.

Definition set_interval_condition (sm : data) : data :=
  (if SISsm.rcvdSignalingMsg3 (thisSM sm) then sm <| last_state := REACTION |> else sm)
    <| state := SET_INTERVAL |>.

Definition switch (state_change : bool) (sm : data) : data * ctl unit :=
  let go (cond : data -> setting_state_t) (sm : data) : data * ctl unit :=
    (sm <| state := cond sm |>, Next) in
  let on (p : data -> data) (sm : data) := if state_change then p sm else sm in
  match state sm with
  | INIT => (sm <| state := NOT_ENABLED |>, Next)
  | NOT_ENABLED => go not_enabled_condition (on not_enabled_proc sm)
  | INITIALIZE =>
      if state_change then (initialize_proc sm, Next) else go initialize_condition sm
  | SET_INTERVAL =>
      if state_change then
        deref (SISsm.rcvdSignalingPtr (thisSM sm)) sm (fun m =>
          (set_interval_condition (set_interval_proc m sm), Next))
      else (set_interval_condition sm, Next)
  | REACTION => (sm, Next)
  end.

Definition set_last (e : setting_state_t) (sm : data) : data := sm <| last_state := e |>.
Definition set_allstate (sm : data) : data := sm <| state := allstate_condition sm |>.

Definition machine : StateMachine data setting_state_t unit := {|
  sm_state := state;
  sm_last := last_state;
  sm_set_last := set_last;
  sm_allstate := set_allstate;
  sm_switch := switch;
  sm_state_set_last := fun _ _ => eq_refl;
  sm_last_set_last := fun _ _ => eq_refl
|}.

Definition sync_interval_setting_sm (sm : data) : data * outcome unit :=
  exec (M := machine) setting_fuel sm.

Definition sync_interval_setting_sm_init (domainIndex portIndex : Z)
    (ptasg : PerTimeAwareSystemGlobal) (ppg : PerPortGlobal) : data * outcome unit :=
  sync_interval_setting_sm (mk ptasg ppg INIT INIT zero domainIndex portIndex).

Definition sync_interval_setting_SignalingMsg3 (m : PTPMsgIntervalRequestTLV) (sm : data)
  : data * outcome unit :=
  sync_interval_setting_sm
    (sm <| thisSM; SISsm.rcvdSignalingPtr := Some m |>
        <| thisSM; SISsm.rcvdSignalingMsg3 := true |>).

Lemma sis_pass_eq sm :
  pass (M := machine) sm = switch (bool_decide (last_state sm <> state sm)) (set_last (state sm) sm).
Proof. reflexivity. Qed.

Definition rank (sm : data) : nat :=
  setting_rank (state sm) (last_state sm) (SISsm.rcvdSignalingMsg3 (thisSM sm)).

Lemma sis_turns (s s' : data) : turns (M := machine) s s' -> (rank s' < rank s)%nat.
Proof.
  intros [H Hne]. rewrite sis_pass_eq in H. cbn in Hne.
  destruct s as [pt pp st ls th di pi]. unfold rank at 2. unfold switch, deref in H. cbn in *.
  destruct st; cbn in H; try (case_bool_decide as C; cbn in H).
  all: try (destruct (SISsm.rcvdSignalingPtr th); [|discriminate H]).
  all: injection H as <-; cbn in Hne.
  all: unfold not_enabled_proc, not_enabled_condition, initialize_condition, set_interval_condition in *; cbn in *.
  all: unfold rank, setting_rank; cbn in *; repeat (destruct_cond_in Hne; cbn in *); try done;
    settle_changes; cbn; lia.
Qed.

Lemma sis_ends sm : run (M := machine) setting_fuel sm = Some (sync_interval_setting_sm sm).
Proof.
  apply exec_run. unfold run.
  apply (loop_ends (M := machine)) with (Inv := fun _ => True) (rank := rank); [|done|].
  - intros s s' _ H. split; [done|by apply sis_turns].
  - apply setting_rank_fuel.
Qed.

(** an enabled port that waits for requests *)
Definition open (sm : data) : Prop :=
  PTASG.BEGIN (ptasg sm) = false /\ PTASG.instanceEnable (ptasg sm) = true /\
  PORT_UP sm = true /\ use_mgt sm = false /\
  last_state sm = state sm /\ (state sm = INITIALIZE \/ state sm = SET_INTERVAL).

Lemma sis_settles m sm : state sm = SET_INTERVAL -> set_interval_condition (set_interval_proc m sm) = set_interval_proc m sm.
Proof.
  intros E. unfold set_interval_condition, set_interval_proc. destruct sm. cbn in *. subst.
  repeat destruct_cond; done.
Qed.

Lemma sis_pass_set m sm :
  state sm = SET_INTERVAL -> last_state sm <> SET_INTERVAL ->
  SISsm.rcvdSignalingPtr (thisSM sm) = Some m ->
  pass (M := machine) sm = (set_interval_proc m (set_last SET_INTERVAL sm), Next).
Proof.
  intros E L P. rewrite sis_pass_eq, E, bool_decide_eq_true_2 by done.
  unfold switch. change (state (set_last _ sm)) with (state sm). rewrite E.
  change (thisSM (set_last _ sm)) with (thisSM sm). rewrite P. cbn [deref].
  by rewrite sis_settles.
Qed.

Lemma sis_set_ends n m sm :
  state sm = SET_INTERVAL -> last_state sm <> SET_INTERVAL ->
  SISsm.rcvdSignalingPtr (thisSM sm) = Some m ->
  loop (M := machine) (S n) sm = Some (set_interval_proc m (set_last SET_INTERVAL sm), Ret None).
Proof.
  intros E L P. apply (loop_stop (M := machine)); [by apply sis_pass_set|].
  destruct sm. cbn in *. subst. unfold set_interval_proc. repeat destruct_cond; done.
Qed.

Lemma sis_request_exec m sm :
  open sm ->
  sync_interval_setting_SignalingMsg3 m sm =
  (set_interval_proc m
     (sm <| thisSM; SISsm.rcvdSignalingPtr := Some m |>
         <| thisSM; SISsm.rcvdSignalingMsg3 := true |>
         <| state := SET_INTERVAL |> <| last_state := SET_INTERVAL |>), Ret None).
Proof.
  intros (HB & HI & HU & HM & L & Hst). apply (exec_eq (M := machine)).
  destruct sm as [pt pp st ls th di pi]. cbn in L, Hst. subst ls.
  set (s0 := _ <| thisSM; SISsm.rcvdSignalingMsg3 := true |>).
  assert (A : sm_allstate (StateMachine := machine) s0 = s0).
  { cbn. unfold set_allstate, allstate_condition, s0, PORT_UP, use_mgt in *. cbn in *.
    by rewrite HB, HI, HU, HM. }
  rewrite A. unfold s0, setting_fuel.
  destruct Hst as [-> | ->]; turn machine; [|]; by rewrite (sis_set_ends _ m).
Qed.

Lemma sis_proc_fields m sm :
  let old := (PPG.currentLogSyncInterval (ppg sm), UNs.nsec (PPG.syncInterval (ppg sm))) in
  let i := interval_request (IvReq.timeSyncInterval m) (PPG.initialLogSyncInterval (ppg sm)) old in
  let s := set_interval_proc m sm in
  state s = state sm /\ SISsm.rcvdSignalingMsg3 (thisSM s) = false /\
  (PPG.currentLogSyncInterval (ppg s), UNs.nsec (PPG.syncInterval (ppg s))) = i /\
  (PTASG.clockMasterLogSyncInterval (ptasg s), UNs.nsec (PTASG.clockMasterSyncInterval (ptasg s))) =
    if old.2 =? i.2
    then (PTASG.clockMasterLogSyncInterval (ptasg sm), UNs.nsec (PTASG.clockMasterSyncInterval (ptasg sm)))
    else i.
Proof.
  cbv zeta. unfold set_interval_proc. set (i := interval_request _ _ _). clearbody i.
  destruct i as [i1 i2]. cbn [fst snd].
  destruct (UNs.nsec (PPG.syncInterval (ppg sm)) =? i2); repeat apply conj; reflexivity.
Qed.

(** A request for a sync interval on an enabled port is applied at once; when it changes the
    interval the clock master's sync interval follows it, else the clock master keeps its own. *)
Theorem sync_interval_requested m sm :
  open sm ->
  let (s, o) := sync_interval_setting_SignalingMsg3 m sm in
  let old := (PPG.currentLogSyncInterval (ppg sm), UNs.nsec (PPG.syncInterval (ppg sm))) in
  let new := (PPG.currentLogSyncInterval (ppg s), UNs.nsec (PPG.syncInterval (ppg s))) in
  o = Ret None /\ state s = SET_INTERVAL /\ SISsm.rcvdSignalingMsg3 (thisSM s) = false /\
  new = interval_request (IvReq.timeSyncInterval m) (PPG.initialLogSyncInterval (ppg sm)) old /\
  (PTASG.clockMasterLogSyncInterval (ptasg s), UNs.nsec (PTASG.clockMasterSyncInterval (ptasg s))) =
    if old.2 =? new.2
    then (PTASG.clockMasterLogSyncInterval (ptasg sm), UNs.nsec (PTASG.clockMasterSyncInterval (ptasg sm)))
    else new.
Proof.
  intros Ho. rewrite sis_request_exec by done.
  set (s0 := sm <| thisSM; SISsm.rcvdSignalingPtr := _ |> <| thisSM; SISsm.rcvdSignalingMsg3 := _ |>
    <| state := _ |> <| last_state := _ |>).
  destruct (sis_proc_fields m s0) as (E1 & E2 & E3 & E4). rewrite E1, E2, E3, E4. done.
Qed.

End Procs.
End SIS.

(** ** Link delay (pdelay request) interval *)

Module LDIS.

Record link_delay_interval_setting_data := mk {
  ptasg : PerTimeAwareSystemGlobal;
  ppg : PerPortGlobal;
  mdeg : MDEntityGlobal;
  state : setting_state_t;
  last_state : setting_state_t;
  thisSM : LinkDelayIntervalSettingSM;
  portIndex : Z;
  cmlds_mode : Z
}.
#[export] Instance eta_data : Eta link_delay_interval_setting_data :=
  fields! mk [ptasg, ppg, mdeg, state, last_state, thisSM, portIndex, cmlds_mode].
Abbreviation data := link_delay_interval_setting_data.

Section Procs.
Context `{PL : Platform} `{CF : Config}.

Definition use_mgt (sm : data) : bool :=
  PPGALL.useMgtSettableLogPdelayReqInterval (PPG.forAllDomain (ppg sm)).
Definition PORT_UP (sm : data) : bool :=
  PPGALL.portOper (PPG.forAllDomain (ppg sm)) && LDISsm.portEnabled3 (thisSM sm).
Definition pdelay_log (sm : data) : Z := MDEGALL.currentLogPdelayReqInterval (MDEG.forAllDomain (mdeg sm)).
Definition pdelay_initial (sm : data) : Z :=
  MDEGALL.initialLogPdelayReqInterval (MDEG.forAllDomain (mdeg sm)).
Definition pdelay_nsec (sm : data) : Z :=
  UNs.nsec (MDEGALL.pdelayReqInterval (MDEG.forAllDomain (mdeg sm))).

Definition set_pdelay (i : Z * Z) (sm : data) : data :=
  sm <| mdeg; MDEG.forAllDomain; MDEGALL.currentLogPdelayReqInterval := i.1 |>
     <| mdeg ::= fun g => g <| MDEG.forAllDomain; MDEGALL.pdelayReqInterval; UNs.nsec := i.2 |> |>.

Definition set_compute (rate delay : bool) (sm : data) : data :=
  sm <| ppg; PPG.forAllDomain; PPGALL.computeNeighborRateRatio := rate |>
     <| ppg; PPG.forAllDomain; PPGALL.computeNeighborPropDelay := delay |>.

Definition allstate_condition (sm : data) : setting_state_t :=
  if PTASG.BEGIN (ptasg sm) || negb (PORT_UP sm) || use_mgt sm then NOT_ENABLED else state sm.

Definition not_enabled_proc (sm : data) : data :=
  if use_mgt sm then
    let v := PPGALL.mgtSettableLogPdelayReqInterval (PPG.forAllDomain (ppg sm)) in
    set_pdelay (v, LOG_TO_NSEC v) sm
  else sm.

Definition not_enabled_condition (sm : data) : setting_state_t :=
  if PORT_UP sm && negb (use_mgt sm) then INITIALIZE else NOT_ENABLED.

Definition initialize_proc (sm : data) : data :=
  let v := pdelay_initial sm in
  set_compute true true (set_pdelay (v, LOG_TO_NSEC v) sm)
    <| thisSM; LDISsm.rcvdSignalingMsg1 := false |>.

Definition initialize_condition (sm : data) : setting_state_t :=
  if LDISsm.rcvdSignalingMsg1 (thisSM sm) then SET_INTERVAL else INITIALIZE.

Definition COMPUTE_NEIGHBOR_RATE_RATIO_BIT : Z := 0.
Definition COMPUTE_NEIGHBOR_PROP_DELAY_BIT : Z := 1.

Definition set_interval_proc (m : PTPMsgIntervalRequestTLV) (sm : data) : data :=
  let i := interval_request (IvReq.linkDelayInterval m) (pdelay_initial sm)
             (pdelay_log sm, pdelay_nsec sm) in
  set_compute (negb (GET_FLAG_BIT (IvReq.flags m) COMPUTE_NEIGHBOR_RATE_RATIO_BIT =? 0))
    (negb (GET_FLAG_BIT (IvReq.flags m) COMPUTE_NEIGHBOR_PROP_DELAY_BIT =? 0)) (set_pdelay i sm)
    <| thisSM; LDISsm.rcvdSignalingMsg1 := false |>.

Definition set_interval_condition (sm : data) : data :=
  (if LDISsm.rcvdSignalingMsg1 (thisSM sm) then sm <| last_state := REACTION |> else sm)
    <| state := SET_INTERVAL |>.

Definition switch (state_change : bool) (sm : data) : data * ctl unit :=
  let go (cond : data -> setting_state_t) (sm : data) : data * ctl unit :=
    (sm <| state := cond sm |>, Next) in
  let on (p : data -> data) (sm : data) := if state_change then p sm else sm in
  match state sm with
  | INIT => (sm <| state := NOT_ENABLED |>, Next)
  | NOT_ENABLED => go not_enabled_condition (on not_enabled_proc sm)
  | INITIALIZE => go initialize_condition (on initialize_proc sm)
  | SET_INTERVAL =>
      if state_change then
        deref (LDISsm.rcvdSignalingPtr (thisSM sm)) sm (fun m =>
          (set_interval_condition (set_interval_proc m sm), Next))
      else (set_interval_condition sm, Next)
  | REACTION => (sm, Next)
  end.

Definition set_last (e : setting_state_t) (sm : data) : data := sm <| last_state := e |>.
Definition set_allstate (sm : data) : data := sm <| state := allstate_condition sm |>.

Definition machine : StateMachine data setting_state_t unit := {|
  sm_state := state;
  sm_last := last_state;
  sm_set_last := set_last;
  sm_allstate := set_allstate;
  sm_switch := switch;
  sm_state_set_last := fun _ _ => eq_refl;
  sm_last_set_last := fun _ _ => eq_refl
|}.

Definition link_delay_interval_setting_sm (sm : data) : data * outcome unit :=
  exec (M := machine) setting_fuel sm.

Definition link_delay_interval_setting_sm_init (portIndex : Z)
    (ptasg : PerTimeAwareSystemGlobal) (ppg : PerPortGlobal) (mdeg : MDEntityGlobal) : data :=
  (mk ptasg ppg mdeg INIT INIT zero portIndex CMLDS_MODE)
    <| thisSM; LDISsm.portEnabled3 := PPG.ptpPortEnabled ppg |>.

Definition link_delay_interval_setting_SignalingMsg1 (m : PTPMsgIntervalRequestTLV) (sm : data)
  : data * outcome unit :=
  link_delay_interval_setting_sm
    (sm <| thisSM; LDISsm.rcvdSignalingPtr := Some m |>
        <| thisSM; LDISsm.rcvdSignalingMsg1 := true |>).

Lemma ldis_pass_eq sm :
  pass (M := machine) sm = switch (bool_decide (last_state sm <> state sm)) (set_last (state sm) sm).
Proof. reflexivity. Qed.

Definition rank (sm : data) : nat :=
  setting_rank (state sm) (last_state sm) (LDISsm.rcvdSignalingMsg1 (thisSM sm)).

Lemma ldis_turns (s s' : data) : turns (M := machine) s s' -> (rank s' < rank s)%nat.
Proof.
  intros [H Hne]. rewrite ldis_pass_eq in H. cbn in Hne.
  destruct s as [pt pp md st ls th pi cm]. unfold rank at 2. unfold switch, deref in H. cbn in *.
  destruct st; cbn in H; try (case_bool_decide as C; cbn in H).
  all: try (destruct (LDISsm.rcvdSignalingPtr th); [|discriminate H]).
  all: injection H as <-; cbn in Hne.
  all: unfold not_enabled_proc, not_enabled_condition, initialize_condition, set_interval_condition in *; cbn in *.
  all: unfold rank, setting_rank; cbn in *; repeat (destruct_cond_in Hne; cbn in *); try done;
    settle_changes; cbn; lia.
Qed.

Lemma ldis_ends sm : run (M := machine) setting_fuel sm = Some (link_delay_interval_setting_sm sm).
Proof.
  apply exec_run. unfold run.
  apply (loop_ends (M := machine)) with (Inv := fun _ => True) (rank := rank); [|done|].
  - intros s s' _ H. split; [done|by apply ldis_turns].
  - apply setting_rank_fuel.
Qed.

(** an enabled port that waits for requests *)
Definition open (sm : data) : Prop :=
  PTASG.BEGIN (ptasg sm) = false /\
  PORT_UP sm = true /\ use_mgt sm = false /\
  last_state sm = state sm /\ (state sm = INITIALIZE \/ state sm = SET_INTERVAL).

Lemma ldis_settles m sm : state sm = SET_INTERVAL -> set_interval_condition (set_interval_proc m sm) = set_interval_proc m sm.
Proof.
  intros E. unfold set_interval_condition, set_interval_proc. destruct sm. cbn in *. subst.
  repeat destruct_cond; done.
Qed.

Lemma ldis_pass_set m sm :
  state sm = SET_INTERVAL -> last_state sm <> SET_INTERVAL ->
  LDISsm.rcvdSignalingPtr (thisSM sm) = Some m ->
  pass (M := machine) sm = (set_interval_proc m (set_last SET_INTERVAL sm), Next).
Proof.
  intros E L P. rewrite ldis_pass_eq, E, bool_decide_eq_true_2 by done.
  unfold switch. change (state (set_last _ sm)) with (state sm). rewrite E.
  change (thisSM (set_last _ sm)) with (thisSM sm). rewrite P. cbn [deref].
  by rewrite ldis_settles.
Qed.

Lemma ldis_set_ends n m sm :
  state sm = SET_INTERVAL -> last_state sm <> SET_INTERVAL ->
  LDISsm.rcvdSignalingPtr (thisSM sm) = Some m ->
  loop (M := machine) (S n) sm = Some (set_interval_proc m (set_last SET_INTERVAL sm), Ret None).
Proof.
  intros E L P. apply (loop_stop (M := machine)); [by apply ldis_pass_set|].
  destruct sm. cbn in *. subst. unfold set_interval_proc. repeat destruct_cond; done.
Qed.

Lemma ldis_request_exec m sm :
  open sm ->
  link_delay_interval_setting_SignalingMsg1 m sm =
  (set_interval_proc m
     (sm <| thisSM; LDISsm.rcvdSignalingPtr := Some m |>
         <| thisSM; LDISsm.rcvdSignalingMsg1 := true |>
         <| state := SET_INTERVAL |> <| last_state := SET_INTERVAL |>), Ret None).
Proof.
  intros (HB & HU & HM & L & Hst). apply (exec_eq (M := machine)).
  destruct sm as [pt pp md st ls th pi cm]. cbn in L, Hst. subst ls.
  set (s0 := _ <| thisSM; LDISsm.rcvdSignalingMsg1 := true |>).
  assert (A : sm_allstate (StateMachine := machine) s0 = s0).
  { cbn. unfold set_allstate, allstate_condition, s0, PORT_UP, use_mgt in *. cbn in *.
    by rewrite HB, HU, HM. }
  rewrite A. unfold s0, setting_fuel.
  destruct Hst as [-> | ->]; turn machine; [|]; by rewrite (ldis_set_ends _ m).
Qed.

(** A request for a link delay interval on an enabled port is applied at once, and the two
    compute flags of the port are those of the message. *)
Theorem link_delay_interval_requested m sm :
  open sm ->
  let (s, o) := link_delay_interval_setting_SignalingMsg1 m sm in
  o = Ret None /\ state s = SET_INTERVAL /\ LDISsm.rcvdSignalingMsg1 (thisSM s) = false /\
  (pdelay_log s, pdelay_nsec s) =
    interval_request (IvReq.linkDelayInterval m) (pdelay_initial sm) (pdelay_log sm, pdelay_nsec sm) /\
  PPGALL.computeNeighborRateRatio (PPG.forAllDomain (ppg s)) = Z.testbit (IvReq.flags m) 0 /\
  PPGALL.computeNeighborPropDelay (PPG.forAllDomain (ppg s)) = Z.testbit (IvReq.flags m) 1.
Proof.
  intros Ho. rewrite ldis_request_exec by done. destruct sm as [pt pp md st ls th pi cm].
  unfold set_interval_proc. rewrite !GET_FLAG_BIT_testbit by (unfold COMPUTE_NEIGHBOR_RATE_RATIO_BIT, COMPUTE_NEIGHBOR_PROP_DELAY_BIT; lia).
  unfold pdelay_log, pdelay_nsec, pdelay_initial. cbn.
  set (i := interval_request _ _ _). clearbody i. by destruct i as [i1 i2].
Qed.

End Procs.
End LDIS.

(** ** gPTP capable message interval *)

Module GCIS.

Record gptp_capable_interval_setting_data := mk {
  ptasg : PerTimeAwareSystemGlobal;
  ppg : PerPortGlobal;
  state : setting_state_t;
  last_state : setting_state_t;
  thisSM : GPTPCapableIntervalSettingSM;
  domainIndex : Z;
  portIndex : Z;
  signalingMsg : PTPMsgGPTPCapableMsgIntervalReqTLV
}.
#[export] Instance eta_data : Eta gptp_capable_interval_setting_data :=
  fields! mk [ptasg, ppg, state, last_state, thisSM, domainIndex, portIndex, signalingMsg].
Abbreviation data := gptp_capable_interval_setting_data.

Section Procs.
Context `{PL : Platform}.

Definition use_mgt (sm : data) : bool :=
  PPGALL.useMgtSettableLogGptpCapableMessageInterval (PPG.forAllDomain (ppg sm)).
Definition PORT_UP (sm : data) : bool :=
  PPGALL.portOper (PPG.forAllDomain (ppg sm)) && PPG.ptpPortEnabled (ppg sm).

Definition set_capable (i : Z * Z) (sm : data) : data :=
  sm <| ppg; PPG.currentLogGptpCapableMessageInterval := i.1 |>
     <| ppg; PPG.gPtpCapableMessageInterval; UNs.nsec := i.2 |>.

Definition allstate_condition (sm : data) : setting_state_t :=
  if PTASG.BEGIN (ptasg sm) || negb (PTASG.instanceEnable (ptasg sm)) ||
     negb (PORT_UP sm) || use_mgt sm
  then NOT_ENABLED else state sm.

Definition not_enabled_proc (sm : data) : data :=
  if use_mgt sm then
    let v := PPGALL.mgtSettableLogGptpCapableMessageInterval (PPG.forAllDomain (ppg sm)) in
    set_capable (v, LOG_TO_NSEC v) sm
  else sm.

Definition not_enabled_condition (sm : data) : setting_state_t :=
  if PORT_UP sm && negb (use_mgt sm) then INITIALIZE else NOT_ENABLED.

(** the old interval is kept in oldAnnounceInterval, as the source does *)
Definition initialize_proc (sm : data) : data :=
  let v := PPG.initialLogGptpCapableMessageInterval (ppg sm) in
  let sm := set_capable (v, LOG_TO_NSEC v) sm <| thisSM; GCISsm.rcvdSignalingMsg4 := false |> in
  sm <| ppg; PPG.oldAnnounceInterval; UNs.nsec := UNs.nsec (PPG.gPtpCapableMessageInterval (ppg sm)) |>
     <| ppg; PPG.gPtpCapableMessageSlowdown := false |>.

Definition initialize_condition (sm : data) : setting_state_t :=
  if GCISsm.rcvdSignalingMsg4 (thisSM sm) then SET_INTERVAL else INITIALIZE.

Definition set_interval_proc (m : PTPMsgGPTPCapableMsgIntervalReqTLV) (sm : data) : data :=
  let cur := (PPG.currentLogGptpCapableMessageInterval (ppg sm),
              UNs.nsec (PPG.gPtpCapableMessageInterval (ppg sm))) in
  let sm :=
    if negb (use_mgt sm) then
      set_capable (interval_request (CapIvReq.logGptpCapableMessageInterval m)
                     (PPG.initialLogGptpCapableMessageInterval (ppg sm)) cur) sm
    else sm in
  sm <| ppg; PPG.gPtpCapableMessageSlowdown :=
          UNs.nsec (PPG.gPtpCapableMessageInterval (ppg sm)) <? UNs.nsec (PPG.oldAnnounceInterval (ppg sm)) |>
     <| thisSM; GCISsm.rcvdSignalingMsg4 := false |>.

Definition set_interval_condition (sm : data) : data :=
  sm <| state := if GCISsm.rcvdSignalingMsg4 (thisSM sm) then REACTION else SET_INTERVAL |>.

Definition switch (state_change : bool) (sm : data) : data * ctl unit :=
  let go (cond : data -> setting_state_t) (sm : data) : data * ctl unit :=
    (sm <| state := cond sm |>, Next) in
  let on (p : data -> data) (sm : data) := if state_change then p sm else sm in
  match state sm with
  | INIT => (sm <| state := NOT_ENABLED |>, Next)
  | NOT_ENABLED => go not_enabled_condition (on not_enabled_proc sm)
  | INITIALIZE => go initialize_condition (on initialize_proc sm)
  | SET_INTERVAL =>
      if state_change then
        deref (GCISsm.rcvdSignalingPtr (thisSM sm)) sm (fun m =>
          (set_interval_condition (set_interval_proc m sm), Next))
      else (set_interval_condition sm, Next)
  | REACTION => (sm <| state := SET_INTERVAL |>, Next)
  end.

Definition set_last (e : setting_state_t) (sm : data) : data := sm <| last_state := e |>.
Definition set_allstate (sm : data) : data := sm <| state := allstate_condition sm |>.

Definition machine : StateMachine data setting_state_t unit := {|
  sm_state := state;
  sm_last := last_state;
  sm_set_last := set_last;
  sm_allstate := set_allstate;
  sm_switch := switch;
  sm_state_set_last := fun _ _ => eq_refl;
  sm_last_set_last := fun _ _ => eq_refl
|}.

Definition gptp_capable_interval_setting_sm (sm : data) : data * outcome unit :=
  exec (M := machine) setting_fuel sm.

Definition gptp_capable_interval_setting_sm_init (domainIndex portIndex : Z)
    (ptasg : PerTimeAwareSystemGlobal) (ppg : PerPortGlobal) : data :=
  mk ptasg ppg INIT INIT zero domainIndex portIndex zero.

Definition gptp_capable_interval_setting_sm_SignalingMsg4 (m : PTPMsgGPTPCapableMsgIntervalReqTLV) (sm : data)
  : data * outcome unit :=
  gptp_capable_interval_setting_sm
    (sm <| thisSM; GCISsm.rcvdSignalingPtr := Some m |>
        <| thisSM; GCISsm.rcvdSignalingMsg4 := true |>).

Lemma gcis_pass_eq sm :
  pass (M := machine) sm = switch (bool_decide (last_state sm <> state sm)) (set_last (state sm) sm).
Proof. reflexivity. Qed.

Definition rank (sm : data) : nat :=
  setting_rank (state sm) (last_state sm) (GCISsm.rcvdSignalingMsg4 (thisSM sm)).

Lemma gcis_turns (s s' : data) : turns (M := machine) s s' -> (rank s' < rank s)%nat.
Proof.
  intros [H Hne]. rewrite gcis_pass_eq in H. cbn in Hne.
  destruct s as [pt pp st ls th di pi sg]. unfold rank at 2. unfold switch, deref in H. cbn in *.
  destruct st; cbn in H; try (case_bool_decide as C; cbn in H).
  all: try (destruct (GCISsm.rcvdSignalingPtr th); [|discriminate H]).
  all: injection H as <-; cbn in Hne.
  all: unfold not_enabled_proc, not_enabled_condition, initialize_condition, set_interval_condition in *; cbn in *.
  all: unfold rank, setting_rank; cbn in *; repeat (destruct_cond_in Hne; cbn in *); try done;
    settle_changes; cbn; lia.
Qed.

Lemma gcis_ends sm : run (M := machine) setting_fuel sm = Some (gptp_capable_interval_setting_sm sm).
Proof.
  apply exec_run. unfold run.
  apply (loop_ends (M := machine)) with (Inv := fun _ => True) (rank := rank); [|done|].
  - intros s s' _ H. split; [done|by apply gcis_turns].
  - apply setting_rank_fuel.
Qed.

(** an enabled port that waits for requests *)
Definition open (sm : data) : Prop :=
  PTASG.BEGIN (ptasg sm) = false /\ PTASG.instanceEnable (ptasg sm) = true /\
  PORT_UP sm = true /\ use_mgt sm = false /\
  last_state sm = state sm /\ (state sm = INITIALIZE \/ state sm = SET_INTERVAL).

Lemma gcis_settles m sm : state sm = SET_INTERVAL -> set_interval_condition (set_interval_proc m sm) = set_interval_proc m sm.
Proof.
  intros E. unfold set_interval_condition, set_interval_proc. destruct sm. cbn in *. subst.
  repeat destruct_cond; done.
Qed.

Lemma gcis_pass_set m sm :
  state sm = SET_INTERVAL -> last_state sm <> SET_INTERVAL ->
  GCISsm.rcvdSignalingPtr (thisSM sm) = Some m ->
  pass (M := machine) sm = (set_interval_proc m (set_last SET_INTERVAL sm), Next).
Proof.
  intros E L P. rewrite gcis_pass_eq, E, bool_decide_eq_true_2 by done.
  unfold switch. change (state (set_last _ sm)) with (state sm). rewrite E.
  change (thisSM (set_last _ sm)) with (thisSM sm). rewrite P. cbn [deref].
  by rewrite gcis_settles.
Qed.

Lemma gcis_set_ends n m sm :
  state sm = SET_INTERVAL -> last_state sm <> SET_INTERVAL ->
  GCISsm.rcvdSignalingPtr (thisSM sm) = Some m ->
  loop (M := machine) (S n) sm = Some (set_interval_proc m (set_last SET_INTERVAL sm), Ret None).
Proof.
  intros E L P. apply (loop_stop (M := machine)); [by apply gcis_pass_set|].
  destruct sm. cbn in *. subst. unfold set_interval_proc. repeat destruct_cond; done.
Qed.

Lemma gcis_request_exec m sm :
  open sm ->
  gptp_capable_interval_setting_sm_SignalingMsg4 m sm =
  (set_interval_proc m
     (sm <| thisSM; GCISsm.rcvdSignalingPtr := Some m |>
         <| thisSM; GCISsm.rcvdSignalingMsg4 := true |>
         <| state := SET_INTERVAL |> <| last_state := SET_INTERVAL |>), Ret None).
Proof.
  intros (HB & HI & HU & HM & L & Hst). apply (exec_eq (M := machine)).
  destruct sm as [pt pp st ls th di pi sg]. cbn in L, Hst. subst ls.
  set (s0 := _ <| thisSM; GCISsm.rcvdSignalingMsg4 := true |>).
  assert (A : sm_allstate (StateMachine := machine) s0 = s0).
  { cbn. unfold set_allstate, allstate_condition, s0, PORT_UP, use_mgt in *. cbn in *.
    by rewrite HB, HI, HU, HM. }
  rewrite A. unfold s0, setting_fuel.
  destruct Hst as [-> | ->]; turn machine; [|turn machine]; by rewrite (gcis_set_ends _ m).
Qed.

(** A request for a gPTP capable message interval on an enabled port is applied at once. The
    slow-down flag it sets compares with oldAnnounceInterval, and oldGptpCapableMessageInterval,
    which the transmitter sends at in slow-down, stays what it was. *)
Theorem capable_interval_requested m sm :
  open sm ->
  let (s, o) := gptp_capable_interval_setting_sm_SignalingMsg4 m sm in
  o = Ret None /\ state s = SET_INTERVAL /\ GCISsm.rcvdSignalingMsg4 (thisSM s) = false /\
  (PPG.currentLogGptpCapableMessageInterval (ppg s), UNs.nsec (PPG.gPtpCapableMessageInterval (ppg s))) =
    interval_request (CapIvReq.logGptpCapableMessageInterval m)
      (PPG.initialLogGptpCapableMessageInterval (ppg sm))
      (PPG.currentLogGptpCapableMessageInterval (ppg sm), UNs.nsec (PPG.gPtpCapableMessageInterval (ppg sm))) /\
  PPG.gPtpCapableMessageSlowdown (ppg s) =
    (UNs.nsec (PPG.gPtpCapableMessageInterval (ppg s)) <? UNs.nsec (PPG.oldAnnounceInterval (ppg sm))) /\
  PPG.oldGptpCapableMessageInterval (ppg s) = PPG.oldGptpCapableMessageInterval (ppg sm).
Proof.
  intros Ho. rewrite gcis_request_exec by done. destruct Ho as (_ & _ & _ & HM & _).
  destruct sm as [pt pp st ls th di pi sg]. unfold set_interval_proc.
  change (use_mgt _) with (use_mgt (mk pt pp st ls th di pi sg)). rewrite HM. cbn.
  set (i := interval_request _ _ _). clearbody i. by destruct i as [i1 i2].
Qed.

End Procs.
End GCIS.

(** ** One-step transmission *)

Module OST.

Record one_step_tx_oper_setting_data := mk {
  ptasg : PerTimeAwareSystemGlobal;
  ppg : PerPortGlobal;
  mdeg : MDEntityGlobal;
  state : setting_state_t;
  last_state : setting_state_t;
  thisSM : OneStepTxOperSettingSM;
  domainIndex : Z;
  portIndex : Z
}.
#[export] Instance eta_data : Eta one_step_tx_oper_setting_data :=
  fields! mk [ptasg, ppg, mdeg, state, last_state, thisSM, domainIndex, portIndex].
Abbreviation data := one_step_tx_oper_setting_data.

Section Procs.
Context `{PL : Platform}.

Definition use_mgt (sm : data) : bool := PPG.useMgtSettableOneStepTxOper (ppg sm).
Definition PORT_UP (sm : data) : bool :=
  PPGALL.portOper (PPG.forAllDomain (ppg sm)) && PPG.ptpPortEnabled (ppg sm).

(** currentOneStepTxOper = v; oneStepTxOper = currentOneStepTxOper && oneStepTransmit *)
Definition set_one_step (v : bool) (sm : data) : data :=
  sm <| ppg; PPG.currentOneStepTxOper := v |>
     <| mdeg; MDEG.oneStepTxOper := v && MDEG.oneStepTransmit (mdeg sm) |>.

Definition allstate_condition (sm : data) : setting_state_t :=
  if PTASG.BEGIN (ptasg sm) || negb (PTASG.instanceEnable (ptasg sm)) ||
     negb (PORT_UP sm) || use_mgt sm
  then NOT_ENABLED else state sm.

Definition not_enabled_proc (sm : data) : data :=
  if use_mgt sm then set_one_step (PPG.mgtSettableOneStepTxOper (ppg sm)) sm else sm.

Definition not_enabled_condition (sm : data) : setting_state_t :=
  if PORT_UP sm && negb (use_mgt sm) then INITIALIZE else NOT_ENABLED.

Definition initialize_proc (sm : data) : data :=
  set_one_step (PPG.initialOneStepTxOper (ppg sm)) sm.

Definition initialize_condition (sm : data) : setting_state_t :=
  if OSTsm.rcvdSignalingMsg4 (thisSM sm) then SET_INTERVAL else INITIALIZE.

Definition ONE_STEP_RECEIVE_CAPABLE_BIT : Z := 2.

(** SET_INTERVAL stands for SET_ONE_STEP_TX_OPER *)
Definition set_one_step_tx_oper_proc (m : PTPMsgIntervalRequestTLV) (sm : data) : data :=
  set_one_step (negb (GET_FLAG_BIT (IvReq.flags m) ONE_STEP_RECEIVE_CAPABLE_BIT =? 0)) sm
    <| thisSM; OSTsm.rcvdSignalingMsg4 := false |>.

Definition set_one_step_tx_oper_condition (sm : data) : data :=
  (if OSTsm.rcvdSignalingMsg4 (thisSM sm) then sm <| last_state := REACTION |> else sm)
    <| state := SET_INTERVAL |>.

Definition switch (state_change : bool) (sm : data) : data * ctl unit :=
  let go (cond : data -> setting_state_t) (sm : data) : data * ctl unit :=
    (sm <| state := cond sm |>, Next) in
  let on (p : data -> data) (sm : data) := if state_change then p sm else sm in
  match state sm with
  | INIT => (sm <| state := NOT_ENABLED |>, Next)
  | NOT_ENABLED => go not_enabled_condition (on not_enabled_proc sm)
  | INITIALIZE => go initialize_condition (on initialize_proc sm)
  | SET_INTERVAL =>
      if state_change then
        deref (OSTsm.rcvdSignalingPtr (thisSM sm)) sm (fun m =>
          (set_one_step_tx_oper_condition (set_one_step_tx_oper_proc m sm), Next))
      else (set_one_step_tx_oper_condition sm, Next)
  | REACTION => (sm, Next)
  end.

Definition set_last (e : setting_state_t) (sm : data) : data := sm <| last_state := e |>.
Definition set_allstate (sm : data) : data := sm <| state := allstate_condition sm |>.

Definition machine : StateMachine data setting_state_t unit := {|
  sm_state := state;
  sm_last := last_state;
  sm_set_last := set_last;
  sm_allstate := set_allstate;
  sm_switch := switch;
  sm_state_set_last := fun _ _ => eq_refl;
  sm_last_set_last := fun _ _ => eq_refl
|}.

Definition one_step_tx_oper_setting_sm (sm : data) : data * outcome unit :=
  exec (M := machine) setting_fuel sm.

Definition one_step_tx_oper_setting_sm_init (domainIndex portIndex : Z)
    (ptasg : PerTimeAwareSystemGlobal) (ppg : PerPortGlobal) (mdeg : MDEntityGlobal) : data :=
  mk ptasg ppg mdeg INIT INIT zero domainIndex portIndex.

Definition one_step_tx_oper_setting_SignalingMsg4 (m : PTPMsgIntervalRequestTLV) (sm : data)
  : data * outcome unit :=
  one_step_tx_oper_setting_sm
    (sm <| thisSM; OSTsm.rcvdSignalingPtr := Some m |>
        <| thisSM; OSTsm.rcvdSignalingMsg4 := true |>).

Lemma ost_pass_eq sm :
  pass (M := machine) sm = switch (bool_decide (last_state sm <> state sm)) (set_last (state sm) sm).
Proof. reflexivity. Qed.

Definition rank (sm : data) : nat :=
  setting_rank (state sm) (last_state sm) (OSTsm.rcvdSignalingMsg4 (thisSM sm)).

Lemma ost_turns (s s' : data) : turns (M := machine) s s' -> (rank s' < rank s)%nat.
Proof.
  intros [H Hne]. rewrite ost_pass_eq in H. cbn in Hne.
  destruct s as [pt pp md st ls th di pi]. unfold rank at 2. unfold switch, deref in H. cbn in *.
  destruct st; cbn in H; try (case_bool_decide as C; cbn in H).
  all: try (destruct (OSTsm.rcvdSignalingPtr th); [|discriminate H]).
  all: injection H as <-; cbn in Hne.
  all: unfold not_enabled_proc, not_enabled_condition, initialize_condition, set_one_step_tx_oper_condition in *; cbn in *.
  all: unfold rank, setting_rank; cbn in *; repeat (destruct_cond_in Hne; cbn in *); try done;
    settle_changes; cbn; lia.
Qed.

Lemma ost_ends sm : run (M := machine) setting_fuel sm = Some (one_step_tx_oper_setting_sm sm).
Proof.
  apply exec_run. unfold run.
  apply (loop_ends (M := machine)) with (Inv := fun _ => True) (rank := rank); [|done|].
  - intros s s' _ H. split; [done|by apply ost_turns].
  - apply setting_rank_fuel.
Qed.

(** an enabled port that waits for requests *)
Definition open (sm : data) : Prop :=
  PTASG.BEGIN (ptasg sm) = false /\ PTASG.instanceEnable (ptasg sm) = true /\
  PORT_UP sm = true /\ use_mgt sm = false /\
  last_state sm = state sm /\ (state sm = INITIALIZE \/ state sm = SET_INTERVAL).

Lemma ost_settles m sm : state sm = SET_INTERVAL -> set_one_step_tx_oper_condition (set_one_step_tx_oper_proc m sm) = set_one_step_tx_oper_proc m sm.
Proof.
  intros E. unfold set_one_step_tx_oper_condition, set_one_step_tx_oper_proc. destruct sm. cbn in *. subst.
  repeat destruct_cond; done.
Qed.

Lemma ost_pass_set m sm :
  state sm = SET_INTERVAL -> last_state sm <> SET_INTERVAL ->
  OSTsm.rcvdSignalingPtr (thisSM sm) = Some m ->
  pass (M := machine) sm = (set_one_step_tx_oper_proc m (set_last SET_INTERVAL sm), Next).
Proof.
  intros E L P. rewrite ost_pass_eq, E, bool_decide_eq_true_2 by done.
  unfold switch. change (state (set_last _ sm)) with (state sm). rewrite E.
  change (thisSM (set_last _ sm)) with (thisSM sm). rewrite P. cbn [deref].
  by rewrite ost_settles.
Qed.

Lemma ost_set_ends n m sm :
  state sm = SET_INTERVAL -> last_state sm <> SET_INTERVAL ->
  OSTsm.rcvdSignalingPtr (thisSM sm) = Some m ->
  loop (M := machine) (S n) sm = Some (set_one_step_tx_oper_proc m (set_last SET_INTERVAL sm), Ret None).
Proof.
  intros E L P. apply (loop_stop (M := machine)); [by apply ost_pass_set|].
  destruct sm. cbn in *. subst. unfold set_one_step_tx_oper_proc. repeat destruct_cond; done.
Qed.

Lemma ost_request_exec m sm :
  open sm ->
  one_step_tx_oper_setting_SignalingMsg4 m sm =
  (set_one_step_tx_oper_proc m
     (sm <| thisSM; OSTsm.rcvdSignalingPtr := Some m |>
         <| thisSM; OSTsm.rcvdSignalingMsg4 := true |>
         <| state := SET_INTERVAL |> <| last_state := SET_INTERVAL |>), Ret None).
Proof.
  intros (HB & HI & HU & HM & L & Hst). apply (exec_eq (M := machine)).
  destruct sm as [pt pp md st ls th di pi]. cbn in L, Hst. subst ls.
  set (s0 := _ <| thisSM; OSTsm.rcvdSignalingMsg4 := true |>).
  assert (A : sm_allstate (StateMachine := machine) s0 = s0).
  { cbn. unfold set_allstate, allstate_condition, s0, PORT_UP, use_mgt in *. cbn in *.
    by rewrite HB, HI, HU, HM. }
  rewrite A. unfold s0, setting_fuel.
  destruct Hst as [-> | ->]; turn machine; [|]; by rewrite (ost_set_ends _ m).
Qed.

(** One-step transmission is used exactly when the peer says it can receive it and the port
    can transmit it. *)
Theorem one_step_requested m sm :
  open sm ->
  let (s, o) := one_step_tx_oper_setting_SignalingMsg4 m sm in
  o = Ret None /\ state s = SET_INTERVAL /\ OSTsm.rcvdSignalingMsg4 (thisSM s) = false /\
  PPG.currentOneStepTxOper (ppg s) = Z.testbit (IvReq.flags m) 2 /\
  MDEG.oneStepTxOper (mdeg s) = Z.testbit (IvReq.flags m) 2 && MDEG.oneStepTransmit (mdeg sm).
Proof.
  intros Ho. rewrite ost_request_exec by done. destruct sm as [pt pp md st ls th di pi].
  unfold set_one_step_tx_oper_proc.
  rewrite !GET_FLAG_BIT_testbit by (unfold ONE_STEP_RECEIVE_CAPABLE_BIT; lia). done.
Qed.

End Procs.
End OST.

(** ** All five *)

Section All.
Context `{PL : Platform} `{CF : Config}.

(** What a request does to an interval: reserved values and -128 leave it, 126 gives the initial
    log interval, every other value is taken as it is. *)
Theorem interval_request_table v initial cur :
  sfits 8 v ->
  interval_request v initial cur =
  if decide (-128 <= v <= -25 \/ 25 <= v <= 125) then cur
  else if decide (v = 126) then (initial, LOG_TO_NSEC initial) else (v, LOG_TO_NSEC v).
Proof.
  unfold sfits, interval_request, LOG_INTERVAL_IN_RESERVED_RANGE. intros Hv. change (2 ^ (8 - 1)) with 128 in Hv.
  repeat (destruct_cond; bool_hyps); repeat case_decide; try done; try lia.
  all: apply orb_true_iff in Hc as [Hc|Hc]; bool_hyps; lia.
Qed.

End All.

(** ** Witnesses *)

Section Witnesses.
#[local] Existing Instance platform0.
#[local] Instance config_is : Config := {|
  STATIC_PORT_STATE_SLAVE_PORT := -1; INITIAL_SLAVE_TIME := 0; RESET_FREQADJ_BECOMEGM := 0;
  ACTIVE_DOMAIN_AUTO_SWITCH := 0; TEST_SYNC_REC_PORT := 0; TEST_SYNC_SEND_PORT := 0;
  CMLDS_MODE := 0; NEIGHBOR_PROP_DELAY := 0; PRIORITY1 := fun _ => 246 |}.

Definition enabled_ptasg : PerTimeAwareSystemGlobal := zero <| PTASG.instanceEnable := true |>.
Definition enabled_ppg : PerPortGlobal :=
  zero <| PPG.ptpPortEnabled := true |> <| PPG.forAllDomain; PPGALL.portOper := true |>.
(** 2^-3 s announces, 2^-2 s syncs, 2^1 s pdelay requests; compute flags and one-step set *)
Definition request0 : PTPMsgIntervalRequestTLV :=
  zero <| IvReq.announceInterval := -3 |> <| IvReq.timeSyncInterval := -2 |>
       <| IvReq.linkDelayInterval := 1 |> <| IvReq.flags := 7 |>.

Definition ais0 : AIS.data :=
  (AIS.announce_interval_setting_sm (AIS.announce_interval_setting_sm_init 0 1 enabled_ptasg enabled_ppg zero)).1.
Definition sis0 : SIS.data :=
  (SIS.sync_interval_setting_sm_init 0 1 enabled_ptasg enabled_ppg).1.
Definition ldis0 : LDIS.data :=
  (LDIS.link_delay_interval_setting_sm (LDIS.link_delay_interval_setting_sm_init 1 enabled_ptasg enabled_ppg zero)).1.
Definition gcis0 : GCIS.data :=
  (GCIS.gptp_capable_interval_setting_sm (GCIS.gptp_capable_interval_setting_sm_init 0 1 enabled_ptasg enabled_ppg)).1.
Definition ost0 : OST.data :=
  (OST.one_step_tx_oper_setting_sm (OST.one_step_tx_oper_setting_sm_init 0 1 enabled_ptasg enabled_ppg
     (zero <| MDEG.oneStepTransmit := true |>))).1.

Lemma announce_interval_requested_witness :
  AIS.state (AIS.announce_interval_setting_sm_SignalingMsg2 request0 ais0).1 = SET_INTERVAL.
Proof.
  pose proof (AIS.announce_interval_requested request0 ais0) as T.
  destruct (AIS.announce_interval_setting_sm_SignalingMsg2 request0 ais0) as [s o].
  apply T. unfold AIS.open. split_and!; try reflexivity. left. reflexivity.
Defined.

Lemma sync_interval_requested_witness :
  SIS.state (SIS.sync_interval_setting_SignalingMsg3 request0 sis0).1 = SET_INTERVAL.
Proof.
  pose proof (SIS.sync_interval_requested request0 sis0) as T.
  destruct (SIS.sync_interval_setting_SignalingMsg3 request0 sis0) as [s o].
  apply T. unfold SIS.open. split_and!; try reflexivity. left. reflexivity.
Defined.

Lemma link_delay_interval_requested_witness :
  PPGALL.computeNeighborRateRatio
    (PPG.forAllDomain (LDIS.ppg (LDIS.link_delay_interval_setting_SignalingMsg1 request0 ldis0).1)) = true.
Proof.
  pose proof (LDIS.link_delay_interval_requested request0 ldis0) as T.
  destruct (LDIS.link_delay_interval_setting_SignalingMsg1 request0 ldis0) as [s o].
  apply T. unfold LDIS.open. split_and!; try reflexivity. left. reflexivity.
Defined.

Lemma capable_interval_requested_witness :
  GCIS.state (GCIS.gptp_capable_interval_setting_sm_SignalingMsg4 zero gcis0).1 = SET_INTERVAL.
Proof.
  pose proof (GCIS.capable_interval_requested zero gcis0) as T.
  destruct (GCIS.gptp_capable_interval_setting_sm_SignalingMsg4 zero gcis0) as [s o].
  apply T. unfold GCIS.open. split_and!; try reflexivity. left. reflexivity.
Defined.

Lemma one_step_requested_witness :
  MDEG.oneStepTxOper (OST.mdeg (OST.one_step_tx_oper_setting_SignalingMsg4 request0 ost0).1) = true.
Proof.
  pose proof (OST.one_step_requested request0 ost0) as T.
  destruct (OST.one_step_tx_oper_setting_SignalingMsg4 request0 ost0) as [s o].
  apply T. unfold OST.open. split_and!; try reflexivity. left. reflexivity.
Defined.

Lemma interval_request_table_witness : interval_request 126 1 (0, 0) = (1, 2000000000).
Proof. exact (interval_request_table 126 1 (0, 0) ltac:(split; by vm_compute)). Defined.

End Witnesses.
