(* ===== verification/Capable.v ===== *)
(** * Capable: the gPTP-capable TLV machines of a port.

    gptp_capable_transmit_sm.c (GCT) tells the neighbour, once an interval, that
    this port speaks gPTP; gptp_capable_receive_sm.c (GCR) keeps
    [neighborGptpCapable], which is set by the neighbour's TLV and is withdrawn
    when no TLV has come for the receipt timeout. *)

From S2P Require Import Prelude Types Driver Common.

(** ** Transmission *)

Module GCT.

Inductive gptp_capable_transmit_state_t := INIT | NOT_ENABLED | INITIALIZE | TRANSMIT_TLV | REACTION.
#[export] Instance state_eqdec : EqDecision gptp_capable_transmit_state_t.
Proof. solve_decision. Defined.

Record gptp_capable_transmit_data := mk {
  ptasg : PerTimeAwareSystemGlobal;
  ppg : PerPortGlobal;
  state : gptp_capable_transmit_state_t;
  last_state : gptp_capable_transmit_state_t;
  thisSM : gPtpCapableTransmitSM;
  domainIndex : Z;
  portIndex : Z;
  signalingMsg : PTPMsgGPTPCapableTLV
}.
#[export] Instance eta_data : Eta gptp_capable_transmit_data :=
  fields! mk [ptasg, ppg, state, last_state, thisSM, domainIndex, portIndex, signalingMsg].
Abbreviation data := gptp_capable_transmit_data.

Section Procs.
Context `{PL : Platform}.

Definition PORT_UP (sm : data) : bool :=
  PPGALL.portOper (PPG.forAllDomain (ppg sm)) && PPG.ptpPortEnabled (ppg sm).

Definition setGptpCapableTlv (sm : data) : data :=
  sm <| signalingMsg := CapTLV.mk 0x8000 12 [0x00; 0x80; 0xC2] 4
          (PPG.currentLogGptpCapableMessageInterval (ppg sm)) 0
          (replicate (length (CapTLV.reserved (signalingMsg sm))) 0) |>.

Definition allstate_condition (sm : data) : gptp_capable_transmit_state_t :=
  if PTASG.BEGIN (ptasg sm) || negb (PTASG.instanceEnable (ptasg sm)) || negb (PORT_UP sm)
  then NOT_ENABLED
  else if PPG.currentLogGptpCapableMessageInterval (ppg sm) =? 127 then INITIALIZE
  else state sm.

Definition not_enabled_proc (sm : data) : data := sm.

Definition not_enabled_condition (sm : data) : gptp_capable_transmit_state_t :=
  if PORT_UP sm then INITIALIZE else NOT_ENABLED.

Definition initialize_proc (cts64 : Z) (sm : data) : data :=
  sm <| thisSM; GCTsm.signalingMsgTimeInterval; UNs.nsec :=
          u64 (UB_SEC_NS * shl1 (PPG.currentLogGptpCapableMessageInterval (ppg sm))) |>
     <| thisSM; GCTsm.intervalTimer; UNs.nsec := cts64 |>
     <| ppg; PPG.gPtpCapableMessageSlowdown := false |>.

Definition initialize_condition (sm : data) : gptp_capable_transmit_state_t :=
  if PPG.currentLogGptpCapableMessageInterval (ppg sm) =? 127 then INITIALIZE else TRANSMIT_TLV.

(** the interval to the next TLV, with the slow-down bookkeeping *)
Definition next_interval3 (sm : data) : data * Z :=
  if PPG.gPtpCapableMessageSlowdown (ppg sm) then
    if PPG.gPtpCapableReceiptTimeout (ppg sm) <=? GCTsm.numberGptpCapableMessageTransmissions (thisSM sm)
    then (sm <| thisSM; GCTsm.numberGptpCapableMessageTransmissions := 0 |>
             <| ppg; PPG.gPtpCapableMessageSlowdown := false |>,
          UNs.nsec (PPG.gPtpCapableMessageInterval (ppg sm)))
    else (sm <| thisSM; GCTsm.numberGptpCapableMessageTransmissions ::= fun z => u8 (z + 1) |>,
          UNs.nsec (PPG.oldGptpCapableMessageInterval (ppg sm)))
  else (sm <| thisSM; GCTsm.numberGptpCapableMessageTransmissions := 0 |>,
        UNs.nsec (PPG.gPtpCapableMessageInterval (ppg sm))).

Definition transmit_tlv_proc (sm : data) : data * option PTPMsgGPTPCapableTLV :=
  let (sm, interval3) := next_interval3 sm in
  let t := u64 (UNs.nsec (GCTsm.intervalTimer (thisSM sm)) + interval3) in
  let sm := setGptpCapableTlv (sm <| thisSM; GCTsm.intervalTimer; UNs.nsec := t |>) in
  (sm, Some (signalingMsg sm)).

Definition transmit_tlv_condition (cts64 : Z) (sm : data) : data :=
  if PPG.currentLogGptpCapableMessageInterval (ppg sm) =? 127 then sm <| state := INITIALIZE |>
  else
    let sm := if UNs.nsec (GCTsm.intervalTimer (thisSM sm)) <=? cts64
              then sm <| last_state := REACTION |> else sm in
    sm <| state := TRANSMIT_TLV |>.

Definition switch (cts64 : Z) (state_change : bool) (sm : data) : data * ctl PTPMsgGPTPCapableTLV :=
  let on (p : data -> data) (sm : data) := if state_change then p sm else sm in
  match state sm with
  | INIT => (sm <| state := NOT_ENABLED |>, Next)
  | NOT_ENABLED =>
      let sm := on not_enabled_proc sm in (sm <| state := not_enabled_condition sm |>, Next)
  | INITIALIZE =>
      let sm := on (initialize_proc cts64) sm in (sm <| state := initialize_condition sm |>, Next)
  | TRANSMIT_TLV =>
      if state_change then let (sm, retp) := transmit_tlv_proc sm in (sm, ret_if retp)
      else (transmit_tlv_condition cts64 sm, Next)
  | REACTION => (sm, Next)
  end.

Definition set_last (e : gptp_capable_transmit_state_t) (sm : data) : data :=
  sm <| last_state := e |>.
Definition set_allstate (sm : data) : data := sm <| state := allstate_condition sm |>.

Definition machine (cts64 : Z)
  : StateMachine data gptp_capable_transmit_state_t PTPMsgGPTPCapableTLV := {|
  sm_state := state;
  sm_last := last_state;
  sm_set_last := set_last;
  sm_allstate := set_allstate;
  sm_switch := switch cts64;
  sm_state_set_last := fun _ _ => eq_refl;
  sm_last_set_last := fun _ _ => eq_refl
|}.

(** INIT, NOT_ENABLED, INITIALIZE or the resting TRANSMIT_TLV, then one transmission *)
Definition fuel : nat := 7.

Definition gptp_capable_transmit_sm (cts64 : Z) (sm : data) : data * outcome PTPMsgGPTPCapableTLV :=
  exec (M := machine cts64) fuel sm.

Definition gptp_capable_transmit_sm_init (domainIndex portIndex : Z)
    (ptasg : PerTimeAwareSystemGlobal) (ppg : PerPortGlobal) : data :=
  mk ptasg ppg INIT INIT zero domainIndex portIndex zero.

Definition rank (sm : data) : nat :=
  match state sm with
  | INIT => 6
  | NOT_ENABLED => 5
  | INITIALIZE => 3
  | TRANSMIT_TLV => if bool_decide (last_state sm <> state sm) then 1 else 4
  | REACTION => 0
  end.

Lemma gct_pass_eq cts64 sm :
  pass (M := machine cts64) sm =
  switch cts64 (bool_decide (last_state sm <> state sm)) (set_last (state sm) sm).
Proof. reflexivity. Qed.

Lemma gct_turns cts64 (s s' : data) :
  turns (M := machine cts64) s s' -> (rank s' < rank s)%nat.
Proof.
  intros [H Hne]. rewrite gct_pass_eq in H. cbn in Hne.
  destruct s as [pt pp st ls th di pi tx]. unfold rank at 2. unfold switch in H. cbn in *.
  destruct st; cbn in H; try (case_bool_decide as C; cbn in H).
  all: try (unfold transmit_tlv_proc in H; destruct (next_interval3 _); discriminate H).
  all: injection H as <-; cbn in Hne.
  all: unfold not_enabled_condition, initialize_condition, transmit_tlv_condition in *; cbn in *.
  all: repeat (destruct_cond_in Hne; cbn in Hne); try done; unfold rank; cbn; settle_changes; lia.
Qed.

Lemma gct_ends cts64 sm :
  run (M := machine cts64) fuel sm = Some (gptp_capable_transmit_sm cts64 sm).
Proof.
  apply exec_run. unfold run.
  apply (loop_ends (M := machine cts64)) with (Inv := fun _ => True) (rank := rank); [|done|].
  - intros s s' _ H. split; [done|by eapply gct_turns].
  - unfold rank, fuel. destruct (state _); try case_bool_decide; lia.
Qed.

(** an enabled port between two transmissions *)
Definition open (sm : data) : Prop :=
  PTASG.BEGIN (ptasg sm) = false /\ PTASG.instanceEnable (ptasg sm) = true /\ PORT_UP sm = true /\
  PPG.currentLogGptpCapableMessageInterval (ppg sm) <> 127 /\
  state sm = TRANSMIT_TLV /\ last_state sm = TRANSMIT_TLV.

Lemma gct_allstate sm : open sm -> set_allstate sm = sm.
Proof.
  intros (HB & HI & HU & HL & Hs & _). unfold set_allstate, allstate_condition.
  rewrite HB, HI, HU. cbn. rewrite (proj2 (Z.eqb_neq _ _) HL). destruct sm; cbn in *. done.
Qed.

Lemma gct_wait cts64 sm :
  open sm -> cts64 < UNs.nsec (GCTsm.intervalTimer (thisSM sm)) ->
  gptp_capable_transmit_sm cts64 sm = (sm, Ret None).
Proof.
  intros Ho Hc. apply (exec_eq (M := machine cts64)).
  change (sm_allstate (StateMachine := machine cts64) sm) with (set_allstate sm).
  rewrite gct_allstate by done. destruct Ho as (_ & _ & _ & HL & Hs & Hl).
  destruct sm as [pt pp st ls th di pi tx]. cbn in Hs, Hl, HL, Hc. subst.
  apply (loop_stop (M := machine cts64)); [|done].
  rewrite gct_pass_eq. unfold switch, set_last. cbn. settle_changes.
  unfold transmit_tlv_condition. cbn.
  by rewrite (proj2 (Z.eqb_neq _ _) HL), (proj2 (Z.leb_gt _ _) Hc).
Qed.

Lemma gct_send cts64 sm :
  open sm -> UNs.nsec (GCTsm.intervalTimer (thisSM sm)) <= cts64 ->
  gptp_capable_transmit_sm cts64 sm =
  ((transmit_tlv_proc sm).1, Ret (transmit_tlv_proc sm).2).
Proof.
  intros Ho Hc. apply (exec_eq (M := machine cts64)).
  change (sm_allstate (StateMachine := machine cts64) sm) with (set_allstate sm).
  rewrite gct_allstate by done. destruct Ho as (_ & _ & _ & HL & Hs & Hl).
  destruct sm as [pt pp st ls th di pi tx]. cbn in Hs, Hl, HL, Hc. subst.
  unfold fuel. erewrite (loop_turn (M := machine cts64)); cycle 1.
  { split; [|shelve]. rewrite gct_pass_eq. unfold switch, set_last. cbn. settle_changes.
    unfold transmit_tlv_condition. cbn.
    rewrite (proj2 (Z.eqb_neq _ _) HL), (proj2 (Z.leb_le _ _) Hc). reflexivity. }
  apply (loop_return (M := machine cts64)).
  rewrite gct_pass_eq. unfold switch, set_last. cbn. settle_changes.
  set (s0 := mk _ _ _ _ _ _ _ _).
  match goal with |- context [let (_, _) := transmit_tlv_proc ?x in _] => change x with s0 end.
  unfold transmit_tlv_proc. by destruct (next_interval3 s0).
  Unshelve. done.
Qed.

(** On an enabled port the gPTP-capable TLV leaves exactly when the interval timer has
    expired; the TLV announces the port's interval, and the timer moves on by the interval (by
    the old one while the port is slowing down). *)
Theorem capable_tlv_when_due cts64 sm :
  open sm ->
  let (s, o) := gptp_capable_transmit_sm cts64 sm in
  let due := UNs.nsec (GCTsm.intervalTimer (thisSM sm)) <=? cts64 in
  open s /\
  o = Ret (if due then
    Some (CapTLV.mk 0x8000 12 [0x00; 0x80; 0xC2] 4
            (PPG.currentLogGptpCapableMessageInterval (ppg sm)) 0
            (replicate (length (CapTLV.reserved (signalingMsg sm))) 0)) else None) /\
  UNs.nsec (GCTsm.intervalTimer (thisSM s)) =
    if due then u64 (UNs.nsec (GCTsm.intervalTimer (thisSM sm)) + (next_interval3 sm).2)
    else UNs.nsec (GCTsm.intervalTimer (thisSM sm)).
Proof.
  intros Ho. destruct (Z.leb_spec (UNs.nsec (GCTsm.intervalTimer (thisSM sm))) cts64) as [D|D].
  - rewrite gct_send by done. unfold transmit_tlv_proc, next_interval3.
    destruct sm as [pt pp st ls th di pi tx]. unfold open, PORT_UP in *. cbn in *.
    by repeat (destruct_cond; cbn).
  - by rewrite gct_wait.
Qed.

End Procs.
End GCT.

(** ** Reception *)

Module GCR.

Inductive gptp_capable_receive_state_t := INIT | NOT_ENABLED | INITIALIZE | RECEIVED_TLV | REACTION.
#[export] Instance state_eqdec : EqDecision gptp_capable_receive_state_t.
Proof. solve_decision. Defined.

Record gptp_capable_receive_data := mk {
  ptasg : PerTimeAwareSystemGlobal;
  ppg : PerPortGlobal;
  state : gptp_capable_receive_state_t;
  last_state : gptp_capable_receive_state_t;
  thisSM : gPtpCapableReceiveSM;
  domainIndex : Z;
  portIndex : Z
}.
#[export] Instance eta_data : Eta gptp_capable_receive_data :=
  fields! mk [ptasg, ppg, state, last_state, thisSM, domainIndex, portIndex].
Abbreviation data := gptp_capable_receive_data.

Section Procs.
Context `{PL : Platform}.

Definition PORT_UP (sm : data) : bool :=
  PPGALL.portOper (PPG.forAllDomain (ppg sm)) && PPG.ptpPortEnabled (ppg sm).

Definition allstate_condition (sm : data) : gptp_capable_receive_state_t :=
  if PTASG.BEGIN (ptasg sm) || negb (PTASG.instanceEnable (ptasg sm)) || negb (PORT_UP sm)
  then NOT_ENABLED else state sm.

Definition not_enabled_proc (sm : data) : data := sm.

Definition not_enabled_condition (sm : data) : gptp_capable_receive_state_t :=
  if PORT_UP sm then INITIALIZE else NOT_ENABLED.

Definition initialize_proc (sm : data) : data :=
  if negb (PPG.neighborGptpCapable (ppg sm)) then sm
  else sm <| ppg; PPG.neighborGptpCapable := false |>.

Definition initialize_condition (sm : data) : gptp_capable_receive_state_t :=
  if GCRsm.rcvdGptpCapableTlv (thisSM sm) then RECEIVED_TLV else INITIALIZE.

(** (uint8_t)gPtpCapableReceiptTimeout * LOG_TO_NSEC(..) *)
Definition timeout_interval (m : PTPMsgGPTPCapableTLV) (sm : data) : Z :=
  u64 (u8 (PPG.gPtpCapableReceiptTimeout (ppg sm)) *
       LOG_TO_NSEC (CapTLV.logGptpCapableMessageInterval m)).

Definition received_tlv_proc (cts64 : Z) (m : PTPMsgGPTPCapableTLV) (sm : data) : data :=
  let sm := sm <| thisSM; GCRsm.rcvdGptpCapableTlv := false |>
               <| thisSM; GCRsm.gPtpCapableReceiptTimeoutInterval; UNs.nsec := timeout_interval m sm |> in
  let sm := sm <| thisSM; GCRsm.timeoutTime; UNs.nsec :=
                    u64 (cts64 + UNs.nsec (GCRsm.gPtpCapableReceiptTimeoutInterval (thisSM sm))) |> in
  if PPG.neighborGptpCapable (ppg sm) then sm else sm <| ppg; PPG.neighborGptpCapable := true |>.

Definition received_tlv_condition (cts64 : Z) (sm : data) : data :=
  if UNs.nsec (GCRsm.timeoutTime (thisSM sm)) <=? cts64 then sm <| state := INITIALIZE |>
  else
    let sm := if GCRsm.rcvdGptpCapableTlv (thisSM sm) then sm <| last_state := REACTION |> else sm in
    sm <| state := RECEIVED_TLV |>.

Definition switch (cts64 : Z) (state_change : bool) (sm : data) : data * ctl unit :=
  let on (p : data -> data) (sm : data) := if state_change then p sm else sm in
  match state sm with
  | INIT => (sm <| state := NOT_ENABLED |>, Next)
  | NOT_ENABLED =>
      let sm := on not_enabled_proc sm in (sm <| state := not_enabled_condition sm |>, Next)
  | INITIALIZE =>
      let sm := on initialize_proc sm in (sm <| state := initialize_condition sm |>, Next)
  | RECEIVED_TLV =>
      if state_change then
        deref (GCRsm.rcvdSignalingMsgPtr (thisSM sm)) sm (fun m =>
          (received_tlv_condition cts64 (received_tlv_proc cts64 m sm), Next))
      else (received_tlv_condition cts64 sm, Next)
  | REACTION => (sm, Next)
  end.

Definition set_last (e : gptp_capable_receive_state_t) (sm : data) : data :=
  sm <| last_state := e |>.
Definition set_allstate (sm : data) : data := sm <| state := allstate_condition sm |>.

Definition machine (cts64 : Z) : StateMachine data gptp_capable_receive_state_t unit := {|
  sm_state := state;
  sm_last := last_state;
  sm_set_last := set_last;
  sm_allstate := set_allstate;
  sm_switch := switch cts64;
  sm_state_set_last := fun _ _ => eq_refl;
  sm_last_set_last := fun _ _ => eq_refl
|}.

(** INIT, NOT_ENABLED or the resting RECEIVED_TLV, then INITIALIZE, RECEIVED_TLV, INITIALIZE *)
Definition fuel : nat := 8.

Definition gptp_capable_receive_sm (cts64 : Z) (sm : data) : data * outcome unit :=
  exec (M := machine cts64) fuel sm.

Definition gptp_capable_receive_sm_init (domainIndex portIndex : Z)
    (ptasg : PerTimeAwareSystemGlobal) (ppg : PerPortGlobal) : data :=
  (gptp_capable_receive_sm 0 (mk ptasg ppg INIT INIT zero domainIndex portIndex)).1.

Definition gptp_capable_receive_rcvdSignalingMsg (m : PTPMsgGPTPCapableTLV) (cts64 : Z) (sm : data)
  : data * outcome unit :=
  gptp_capable_receive_sm cts64
    (sm <| thisSM; GCRsm.rcvdGptpCapableTlv := true |>
        <| thisSM; GCRsm.rcvdSignalingMsgPtr := Some m |>).

Definition rank (sm : data) : nat :=
  match state sm with
  | INIT => 6
  | NOT_ENABLED => 5
  | INITIALIZE => if GCRsm.rcvdGptpCapableTlv (thisSM sm) then 3 else 1
  | RECEIVED_TLV => if bool_decide (last_state sm <> state sm) then 2 else 4
  | REACTION => 0
  end.

Lemma gcr_pass_eq cts64 sm :
  pass (M := machine cts64) sm =
  switch cts64 (bool_decide (last_state sm <> state sm)) (set_last (state sm) sm).
Proof. reflexivity. Qed.

(** what the reception leaves, on either branch of the final test *)
Lemma gcr_received_fields cts64 m sm :
  let s := received_tlv_proc cts64 m sm in
  ptasg s = ptasg sm /\ state s = state sm /\ last_state s = last_state sm /\
  domainIndex s = domainIndex sm /\ portIndex s = portIndex sm /\
  PPG.neighborGptpCapable (ppg s) = true /\
  PPG.forAllDomain (ppg s) = PPG.forAllDomain (ppg sm) /\
  PPG.ptpPortEnabled (ppg s) = PPG.ptpPortEnabled (ppg sm) /\
  GCRsm.rcvdGptpCapableTlv (thisSM s) = false /\
  UNs.nsec (GCRsm.timeoutTime (thisSM s)) = u64 (cts64 + timeout_interval m sm).
Proof.
  unfold received_tlv_proc. destruct_cond; repeat apply conj; try reflexivity. exact Hc.
Qed.

Lemma gcr_turns cts64 (s s' : data) :
  turns (M := machine cts64) s s' -> (rank s' < rank s)%nat.
Proof.
  intros [H Hne]. rewrite gcr_pass_eq in H. cbn in Hne.
  destruct s as [pt pp st ls th di pi]. unfold rank at 2. unfold switch, deref in H. cbn in *.
  destruct st; cbn in H; try (case_bool_decide as C; cbn in H).
  all: try (destruct (GCRsm.rcvdSignalingMsgPtr th) as [m|]; [|discriminate H]).
  all: injection H as <-; cbn in Hne.
  all: unfold not_enabled_condition, initialize_condition, received_tlv_condition, initialize_proc,
    received_tlv_proc in *; cbn in *.
  all: repeat (destruct_cond_in Hne; cbn in Hne); try done; unfold rank; cbn; settle_changes;
    repeat (destruct_cond; cbn in * ); settle_changes; try congruence; lia.
Qed.

Lemma gcr_ends cts64 sm :
  run (M := machine cts64) fuel sm = Some (gptp_capable_receive_sm cts64 sm).
Proof.
  apply exec_run. unfold run.
  apply (loop_ends (M := machine cts64)) with (Inv := fun _ => True) (rank := rank); [|done|].
  - intros s s' _ H. split; [done|by eapply gcr_turns].
  - unfold rank, fuel. destruct (state _); repeat destruct_cond; try case_bool_decide; lia.
Qed.

(** an enabled port at rest *)
Definition enabled (sm : data) : Prop :=
  PTASG.BEGIN (ptasg sm) = false /\ PTASG.instanceEnable (ptasg sm) = true /\ PORT_UP sm = true.
Definition at_rest (sm : data) : Prop :=
  last_state sm = state sm /\ (state sm = INITIALIZE \/ state sm = RECEIVED_TLV).

(** a TLV has been heard; it is good until [t] *)
Definition heard_until (t : Z) (sm : data) : Prop :=
  enabled sm /\ state sm = RECEIVED_TLV /\ last_state sm = RECEIVED_TLV /\
  GCRsm.rcvdGptpCapableTlv (thisSM sm) = false /\
  PPG.neighborGptpCapable (ppg sm) = true /\ UNs.nsec (GCRsm.timeoutTime (thisSM sm)) = t.

Lemma gcr_allstate sm : enabled sm -> set_allstate sm = sm.
Proof.
  intros (HB & HI & HU). unfold set_allstate, allstate_condition. rewrite HB, HI, HU. by destruct sm.
Qed.

(** the turn that takes the TLV *)
Lemma gcr_take n cts64 m i s :
  enabled s -> state s = RECEIVED_TLV -> last_state s <> RECEIVED_TLV ->
  GCRsm.rcvdSignalingMsgPtr (thisSM s) = Some m ->
  timeout_interval m s = i -> cts64 < u64 (cts64 + i) ->
  exists s', loop (M := machine cts64) (S n) s = Some (s', Ret None) /\
             heard_until (u64 (cts64 + i)) s'.
Proof.
  intros He Hs Hl Hm <- Hpos.
  set (s1 := received_tlv_proc cts64 m (set_last RECEIVED_TLV s)).
  pose proof (gcr_received_fields cts64 m (set_last RECEIVED_TLV s)) as F. fold s1 in F. cbn in F.
  change (timeout_interval m (set_last RECEIVED_TLV s)) with (timeout_interval m s) in F.
  destruct F as (F1 & F2 & F3 & F4 & F5 & F6 & F7 & F8 & F9 & F10).
  exists (s1 <| state := RECEIVED_TLV |>). split.
  - apply (loop_stop (M := machine cts64)).
    + rewrite gcr_pass_eq, bool_decide_eq_true_2 by congruence. unfold switch, set_last at 1. cbn.
      rewrite Hs. unfold set_last at 1. cbn. rewrite Hm. cbn. fold s1. unfold received_tlv_condition.
      rewrite F10, (proj2 (Z.leb_gt _ _) Hpos), F9. done.
    + change (last_state s1 = RECEIVED_TLV). by rewrite F3.
  - unfold heard_until, enabled, PORT_UP in *. cbn. rewrite F1, F7, F8. by rewrite F3.
Qed.

(** the turn through INITIALIZE with a TLV waiting *)
Lemma gcr_take_init n cts64 m i s :
  enabled s -> state s = INITIALIZE -> GCRsm.rcvdGptpCapableTlv (thisSM s) = true ->
  GCRsm.rcvdSignalingMsgPtr (thisSM s) = Some m ->
  timeout_interval m s = i -> cts64 < u64 (cts64 + i) ->
  exists s', loop (M := machine cts64) (S (S n)) s = Some (s', Ret None) /\
             heard_until (u64 (cts64 + i)) s'.
Proof.
  intros He Hs Hr Hm Hi Hpos. destruct s as [pt pp st ls th di pi]. cbn in Hs, Hr, Hm. subst st.
  erewrite (loop_turn (M := machine cts64)); cycle 1.
  { split; [rewrite gcr_pass_eq; unfold switch; cbn; reflexivity|].
    cbn. unfold initialize_condition, initialize_proc. cbn. repeat (destruct_cond; cbn); congruence. }
  eapply gcr_take with (m := m); try done; unfold initialize_condition, initialize_proc; cbn.
  all: repeat (destruct_cond; cbn); solve [congruence|exact He|exact Hi].
Qed.

(** an enabled port that hears a TLV takes it *)
Lemma gcr_hear cts64 m sm :
  enabled sm -> at_rest sm -> cts64 < u64 (cts64 + timeout_interval m sm) ->
  exists s, gptp_capable_receive_rcvdSignalingMsg m cts64 sm = (s, Ret None) /\
            heard_until (u64 (cts64 + timeout_interval m sm)) s.
Proof.
  intros He [Hl Hst] Hpos. unfold gptp_capable_receive_rcvdSignalingMsg.
  set (s0 := _ <| thisSM; GCRsm.rcvdSignalingMsgPtr := Some m |>).
  assert (He0 : enabled s0) by exact He.
  cut (exists s, loop (M := machine cts64) fuel s0 = Some (s, Ret None) /\
                 heard_until (u64 (cts64 + timeout_interval m sm)) s).
  { intros (s & E & H). exists s. split; [|done]. apply (exec_eq (M := machine cts64)).
    change (sm_allstate (StateMachine := machine cts64) s0) with (set_allstate s0).
    by rewrite gcr_allstate. }
  unfold fuel. destruct sm as [pt pp st ls th di pi]. cbn in Hl, Hst. subst ls.
  destruct Hst as [-> | ->]; [by apply gcr_take_init with (m := m)|].
  destruct (Z.leb_spec (UNs.nsec (GCRsm.timeoutTime th)) cts64) as [D|D].
  all: erewrite (loop_turn (M := machine cts64) _ s0);
    [|split; [rewrite gcr_pass_eq; unfold switch, s0; cbn; settle_changes;
              unfold received_tlv_condition; cbn;
              first [rewrite (proj2 (Z.leb_le _ _) D)|rewrite (proj2 (Z.leb_gt _ _) D)]; reflexivity
             |done]].
  - by apply gcr_take_init with (m := m).
  - by apply gcr_take with (m := m).
Qed.

(** until its time is over, and then *)
Lemma gcr_tick cts64 t sm :
  heard_until t sm ->
  exists s, gptp_capable_receive_sm cts64 sm = (s, Ret None) /\
    if cts64 <? t then s = sm
    else state s = INITIALIZE /\ last_state s = INITIALIZE /\
         PPG.neighborGptpCapable (ppg s) = false.
Proof.
  intros (He & Hs & Hl & Hr & Hn & Ht).
  cut (exists s, loop (M := machine cts64) fuel sm = Some (s, Ret None) /\
    if cts64 <? t then s = sm
    else state s = INITIALIZE /\ last_state s = INITIALIZE /\
         PPG.neighborGptpCapable (ppg s) = false).
  { intros (s & E & H). exists s. split; [|done]. apply (exec_eq (M := machine cts64)).
    change (sm_allstate (StateMachine := machine cts64) sm) with (set_allstate sm).
    by rewrite gcr_allstate. }
  destruct sm as [pt pp st ls th di pi]. cbn in Hs, Hl, Hr, Hn, Ht. subst st ls.
  unfold fuel. destruct (Z.ltb_spec cts64 t) as [D|D]; rewrite <- Ht in D.
  - eexists. split; [|reflexivity]. apply (loop_stop (M := machine cts64)); [|done].
    rewrite gcr_pass_eq. unfold switch, set_last. cbn. settle_changes.
    unfold received_tlv_condition. cbn. by rewrite (proj2 (Z.leb_gt _ _) D), Hr.
  - erewrite (loop_turn (M := machine cts64));
      [|split; [rewrite gcr_pass_eq; unfold switch; cbn; settle_changes;
                unfold received_tlv_condition; cbn; rewrite (proj2 (Z.leb_le _ _) D); reflexivity
               |done]].
    eexists. split.
    + apply (loop_stop (M := machine cts64)).
      * rewrite gcr_pass_eq. unfold switch. cbn. settle_changes.
        unfold initialize_condition, initialize_proc. cbn. rewrite Hn. cbn. rewrite Hr. reflexivity.
      * reflexivity.
    + done.
Qed.

(** C36. A gPTP-capable TLV heard on an enabled port makes the neighbour gPTP-capable, for exactly
    the receipt timeout: a later evaluation before the deadline changes nothing, the first one at
    or after it withdraws the capability. *)
Theorem neighbor_capable_until_timeout cts64 m sm t' :
  enabled sm -> at_rest sm -> cts64 < u64 (cts64 + timeout_interval m sm) ->
  let (s, o) := gptp_capable_receive_rcvdSignalingMsg m cts64 sm in
  let (s', o') := gptp_capable_receive_sm t' s in
  o = Ret None /\ o' = Ret None /\
  PPG.neighborGptpCapable (ppg s) = true /\
  PPG.neighborGptpCapable (ppg s') = (t' <? u64 (cts64 + timeout_interval m sm)).
Proof.
  intros He Hr Hp. destruct (gcr_hear _ _ _ He Hr Hp) as (s & -> & H).
  destruct (gcr_tick t' _ _ H) as (s' & -> & H'). destruct H as (_ & _ & _ & _ & Hn & _).
  split_and!; try done. destruct (t' <? _); [by subst|by destruct H' as (_ & _ & ->)].
Qed.

End Procs.
End GCR.

(** ** Witnesses *)

Module CapableWitness.

Definition ptasg0 : PerTimeAwareSystemGlobal := zero <| PTASG.instanceEnable := true |>.
Definition ppg0 : PerPortGlobal :=
  zero <| PPG.ptpPortEnabled := true |> <| PPG.forAllDomain; PPGALL.portOper := true |>
       <| PPG.gPtpCapableReceiptTimeout := 9 |>
       <| PPG.gPtpCapableMessageInterval; UNs.nsec := 1000000000 |>.
Definition tlv0 : PTPMsgGPTPCapableTLV := zero.

Definition sender0 : GCT.gptp_capable_transmit_data :=
  GCT.mk ptasg0 ppg0 GCT.TRANSMIT_TLV GCT.TRANSMIT_TLV
    (zero <| GCTsm.intervalTimer; UNs.nsec := 100 |>) 0 1 zero.
Definition listener0 : GCR.gptp_capable_receive_data :=
  GCR.mk ptasg0 ppg0 GCR.INITIALIZE GCR.INITIALIZE zero 0 1.

Lemma capable_tlv_witness :
  UNs.nsec (GCTsm.intervalTimer (GCT.thisSM (GCT.gptp_capable_transmit_sm (PL := platform0) 200 sender0).1))
  = 1000000100.
Proof.
  assert (O : GCT.open sender0) by (repeat split; vm_compute; done).
  pose proof (GCT.capable_tlv_when_due (PL := platform0) 200 sender0 O) as H.
  destruct (GCT.gptp_capable_transmit_sm 200 sender0) as [s o]. destruct H as (_ & _ & H). exact H.
Defined.

Lemma neighbor_capable_witness :
  PPG.neighborGptpCapable (GCR.ppg
    (GCR.gptp_capable_receive_sm (PL := platform0) 9000000005
       (GCR.gptp_capable_receive_rcvdSignalingMsg (PL := platform0) tlv0 5 listener0).1).1) = false.
Proof.
  assert (E : GCR.enabled listener0) by (repeat split; vm_compute; done).
  assert (R : GCR.at_rest listener0) by (split; [|left]; reflexivity).
  assert (P : 5 < u64 (5 + GCR.timeout_interval (PL := platform0) tlv0 listener0)) by (vm_compute; done).
  pose proof (GCR.neighbor_capable_until_timeout (PL := platform0) 5 tlv0 listener0 9000000005 E R P) as H.
  destruct (GCR.gptp_capable_receive_rcvdSignalingMsg tlv0 5 listener0) as [s o]. cbn [fst].
  destruct (GCR.gptp_capable_receive_sm 9000000005 s) as [s' o'].
  destruct H as (_ & _ & _ & H). exact H.
Defined.

End CapableWitness.
