(* ===== verification/GmStable.v ===== *)
(** * GmStable: gm_stable_sm.c, the stability of the grandmaster of a domain.

    The machine follows the synchronisation status the clock module keeps
    ([gptpclock_get_gmsync]): a domain is stable once its clock is, and a change
    of grandmaster makes it start over. *)

From stdpp Require Import gmap.
From S2P Require Import Prelude Types Driver Common Clock.
#[local] Open Scope Z_scope.
#[local] Open Scope gptp_scope.

Module GMS.

Inductive gm_stable_state_t := INIT | INITIALIZE | GM_LOST | GM_UNSTABLE | GM_STABLE | REACTION.
#[export] Instance state_eqdec : EqDecision gm_stable_state_t.
Proof. solve_decision. Defined.

(** [gcd] is the clock module's state *)
Record gm_stable_data := mk {
  ptasg : PerTimeAwareSystemGlobal;
  state : gm_stable_state_t;
  last_state : gm_stable_state_t;
  domainIndex : Z;
  clockIdentity : list Z;
  gm_change : bool;
  gcd : gptpclock_data
}.
#[export] Instance eta_data : Eta gm_stable_data :=
  fields! mk [ptasg, state, last_state, domainIndex, clockIdentity, gm_change, gcd].
Abbreviation data := gm_stable_data.

Section Procs.
Context `{CF : Config}.

(** gptpclock_get_gmsync(GPTPINSTNUM, sm->ptasg->domainIndex) *)
Definition gmsync_now (sm : data) : Z := gptpclock_get_gmsync (PTASG.domainIndex (ptasg sm)) (gcd sm).

(** gptpclock_set_gmsync(GPTPINSTNUM, sm->domainIndex, v) *)
Definition set_gmsync (v : Z) (sm : data) : data := sm <| gcd ::= gptpclock_set_gmsync (domainIndex sm) v |>.

Definition allstate_condition (sm : data) : gm_stable_state_t :=
  if PTASG.BEGIN (ptasg sm) || negb (PTASG.asCapableOrAll (ptasg sm)) then INITIALIZE else state sm.

Definition initialize_proc (sm : data) : data :=
  let sm := sm <| ptasg; PTASG.gm_stable_initdone := false |> in
  if negb (aget 0 (PTASG.selectedState (ptasg sm)) 0 =? SlavePort)
  then set_gmsync GMSYNC_UNSYNC sm else set_gmsync GMSYNC_SYNC_STABLE sm.

Definition initialize_condition (sm : data) : gm_stable_state_t :=
  if PTASG.asCapableOrAll (ptasg sm) && (GMSYNC_SYNC <=? gmsync_now sm) then GM_UNSTABLE else INITIALIZE.

Definition gm_lost_proc (sm : data) : data := sm <| gm_change := false |>.

Definition gm_lost_condition (sm : data) : gm_stable_state_t :=
  if gmsync_now sm <? GMSYNC_SYNC_STABLE then GM_UNSTABLE else GM_LOST.

Definition gm_unstable_proc (sm : data) : data :=
  if gmsync_now sm =? GMSYNC_SYNC_STABLE then set_gmsync GMSYNC_SYNC sm else sm.

Definition gm_unstable_condition (sm : data) : gm_stable_state_t :=
  if gmsync_now sm =? GMSYNC_SYNC_STABLE then GM_STABLE
  else if gm_change sm then GM_LOST else GM_UNSTABLE.

Definition gm_stable_proc (sm : data) : data := sm <| ptasg; PTASG.gm_stable_initdone := true |>.

Definition gm_stable_condition (sm : data) : gm_stable_state_t :=
  if gm_change sm then GM_LOST else GM_STABLE.

Definition switch (state_change : bool) (sm : data) : data * ctl unit :=
  let go (p : data -> data) (cond : data -> gm_stable_state_t) : data * ctl unit :=
    let sm := if state_change then p sm else sm in (sm <| state := cond sm |>, Next) in
  match state sm with
  | INIT => (sm <| state := INITIALIZE |>, Next)
  | INITIALIZE => go initialize_proc initialize_condition
  | GM_LOST => go gm_lost_proc gm_lost_condition
  | GM_UNSTABLE => go gm_unstable_proc gm_unstable_condition
  | GM_STABLE => go gm_stable_proc gm_stable_condition
  | REACTION => (sm, Next)
  end.

Definition set_last (e : gm_stable_state_t) (sm : data) : data := sm <| last_state := e |>.
Definition set_allstate (sm : data) : data := sm <| state := allstate_condition sm |>.

Definition machine : StateMachine data gm_stable_state_t unit := {|
  sm_state := state;
  sm_last := last_state;
  sm_set_last := set_last;
  sm_allstate := set_allstate;
  sm_switch := switch;
  sm_state_set_last := fun _ _ => eq_refl;
  sm_last_set_last := fun _ _ => eq_refl
|}.

(** INIT, INITIALIZE, a resting GM_LOST, then at most GM_UNSTABLE, GM_STABLE, GM_LOST,
    GM_UNSTABLE, GM_STABLE: the change of grandmaster is consumed once *)
Definition fuel : nat := 9.

Definition gm_stable_sm (sm : data) : data * outcome unit := exec (M := machine) fuel sm.

Definition gm_stable_sm_init (domainIndex : Z) (ptasg : PerTimeAwareSystemGlobal)
    (gcd : gptpclock_data) : data :=
  mk ptasg INIT INIT domainIndex (replicate CLOCK_IDENTITY_LENGTH 0) false gcd.

Definition gm_stable_gm_change (id : list Z) (sm : data) : data :=
  if bool_decide (clockIdentity sm = id) then sm
  else (gm_stable_sm (sm <| clockIdentity := id |> <| gm_change := true |>)).1.

Definition rank (sm : data) : nat :=
  match state sm with
  | INIT => 8
  | INITIALIZE => 7
  | GM_LOST => if bool_decide (last_state sm <> state sm) then 3 else 6
  | GM_UNSTABLE => if gm_change sm then 5 else 2
  | GM_STABLE => if gm_change sm then 4 else 1
  | REACTION => 0
  end.

Lemma gms_pass_eq sm :
  pass (M := machine) sm = switch (bool_decide (last_state sm <> state sm)) (set_last (state sm) sm).
Proof. reflexivity. Qed.

Lemma gms_turns (s s' : data) : turns (M := machine) s s' -> (rank s' < rank s)%nat.
Proof.
  intros [H Hne]. rewrite gms_pass_eq in H. cbn in Hne.
  destruct s as [pt st ls di ci gc cd]. unfold rank at 2. unfold switch in H. cbn in *.
  destruct st; cbn in H; try (case_bool_decide as C; cbn in H); injection H as <-; cbn in Hne.
  all: unfold initialize_condition, gm_lost_condition, gm_unstable_condition, gm_stable_condition,
    initialize_proc, gm_unstable_proc in *; cbn in *.
  all: repeat (destruct_cond_in Hne; cbn in Hne); try done; unfold rank; cbn; settle_changes;
    repeat (destruct_cond; cbn in * ); settle_changes; try congruence; try lia.
Qed.

(** the machine always returns: a change of grandmaster is consumed at
    its first pass through GM_LOST, so the machine cannot go round twice. *)
Lemma gm_stable_ends sm : run (M := machine) fuel sm = Some (gm_stable_sm sm).
Proof.
  apply exec_run. unfold run.
  apply (loop_ends (M := machine)) with (Inv := fun _ => True) (rank := rank); [|done|].
  - intros s s' _ H. split; [done|by apply gms_turns].
  - unfold rank, fuel. destruct (state _); repeat destruct_cond; try case_bool_decide; lia.
Qed.

(** every pass keeps: a finished start-up means a stable clock *)
Definition stable_if_done (sm : data) : Prop :=
  (PTASG.gm_stable_initdone (ptasg sm) = true ->
   gmsync_now sm = GMSYNC_SYNC_STABLE /\ (state sm = GM_STABLE \/ state sm = GM_LOST)) /\
  (state sm = GM_STABLE -> last_state sm <> GM_STABLE -> gmsync_now sm = GMSYNC_SYNC_STABLE).

Lemma stable_pass s s' c : stable_if_done s -> pass (M := machine) s = (s', c) -> stable_if_done s'.
Proof.
  intros [I1 I2] H. rewrite gms_pass_eq in H.
  destruct s as [pt st ls di ci gc cd]. unfold switch in H. cbn in *.
  destruct st; cbn in H; try (case_bool_decide as C; cbn in H); injection H as <- _.
  all: unfold stable_if_done, initialize_condition, gm_lost_condition, gm_unstable_condition,
    gm_stable_condition, initialize_proc, gm_unstable_proc, gmsync_now in *; cbn in *.
  all: repeat (destruct_cond; cbn in * ); bool_hyps; split; intros; try done.
  all: try (destruct I1 as [I1 [I3|I3]]; [done| |]); try congruence; auto; lia.
Qed.

Lemma stable_allstate sm :
  last_state sm = state sm -> PTASG.gm_stable_initdone (ptasg sm) = false ->
  stable_if_done (set_allstate sm).
Proof.
  intros L D. unfold stable_if_done, set_allstate, allstate_condition. cbn.
  split; [by rewrite D|]. destruct_cond; [done|]. by rewrite L.
Qed.

(** The start-up of a domain ([gm_stable_initdone], which lets best-master selection hand over
    a static slave port) is only finished by an evaluation that finds the domain's clock stable. *)
Theorem initdone_only_when_stable sm :
  last_state sm = state sm -> PTASG.gm_stable_initdone (ptasg sm) = false ->
  let s := (gm_stable_sm sm).1 in
  PTASG.gm_stable_initdone (ptasg s) = true -> gmsync_now s = GMSYNC_SYNC_STABLE.
Proof.
  intros L D s Hs. pose proof (gm_stable_ends sm) as E. fold fuel in E.
  unfold s in *. destruct (gm_stable_sm sm) as [s1 o].
  assert (I : stable_if_done s1).
  { eapply (loop_inv (M := machine)); [apply stable_pass| |exact E]. by apply stable_allstate. }
  exact (proj1 (proj1 I Hs)).
Qed.

(** a running domain between two evaluations, with a status of the clock module's *)
Definition settled (sm : data) : Prop :=
  PTASG.BEGIN (ptasg sm) = false /\ PTASG.asCapableOrAll (ptasg sm) = true /\
  last_state sm = state sm /\ (state sm = GM_STABLE \/ state sm = GM_UNSTABLE) /\
  gmsync_now sm <= GMSYNC_SYNC_STABLE.

(** evaluate one pass over a concrete state, with the status rewritten by [G] *)
Ltac eval_pass G :=
  rewrite gms_pass_eq; unfold switch, set_last; cbn; settle_changes;
  unfold gm_lost_condition, gm_unstable_condition, gm_stable_condition, gm_unstable_proc,
    gm_lost_proc, gmsync_now; cbn; repeat (rewrite G; cbn); reflexivity.
Ltac pass_on G := erewrite (loop_turn (M := machine)) by (split; [eval_pass G|done]).

(** When best-master selection reports another grandmaster, a settled domain records it and
    leaves the stable state at once: it is GM_LOST while its clock still counts as stable and
    GM_UNSTABLE otherwise; a report of the grandmaster already known changes nothing. *)
Theorem gm_change_unsettles id sm :
  settled sm ->
  let s := gm_stable_gm_change id sm in
  if bool_decide (clockIdentity sm = id) then s = sm
  else clockIdentity s = id /\ gm_change s = false /\ gcd s = gcd sm /\
       state s = (if gmsync_now sm =? GMSYNC_SYNC_STABLE then GM_LOST else GM_UNSTABLE) /\
       last_state s = state s.
Proof.
  intros (HB & HA & L & Hst & Hg). unfold gm_stable_gm_change. case_bool_decide as Hid; [done|].
  set (s0 := _ <| gm_change := true |>).
  assert (A : set_allstate s0 = s0).
  { unfold set_allstate, allstate_condition, s0. cbn. rewrite HB, HA. by destruct sm. }
  assert (R : forall r, loop (M := machine) fuel s0 = Some r -> gm_stable_sm s0 = r).
  { intros r E. apply (exec_eq (M := machine)).
    change (sm_allstate (StateMachine := machine) s0) with (set_allstate s0). by rewrite A. }
  clear A. destruct sm as [pt st ls di ci gc cd]. unfold gmsync_now in *. cbn in L, Hst, Hg, HB, HA.
  subst ls. cbn [ptasg gcd]. unfold s0, fuel in *.
  destruct (Z.eqb_spec (gptpclock_get_gmsync (PTASG.domainIndex pt) cd) GMSYNC_SYNC_STABLE) as [G|G].
  - destruct Hst as [-> | ->].
    + erewrite R; cycle 1.
      { pass_on G. apply (loop_stop (M := machine)); [eval_pass G|done]. }
      done.
    + erewrite R; cycle 1.
      { pass_on G. pass_on G. apply (loop_stop (M := machine)); [eval_pass G|done]. }
      done.
  - assert (G1 := proj2 (Z.eqb_neq _ _) G).
    assert (G2 : (gptpclock_get_gmsync (PTASG.domainIndex pt) cd <? GMSYNC_SYNC_STABLE) = true)
      by (apply Z.ltb_lt; lia).
    destruct Hst as [-> | ->].
    + erewrite R; cycle 1.
      { pass_on G1. pass_on G2. apply (loop_stop (M := machine)); [eval_pass G1|done]. }
      done.
    + erewrite R; cycle 1.
      { pass_on G1. pass_on G2. apply (loop_stop (M := machine)); [eval_pass G1|done]. }
      done.
Qed.

End Procs.

(** ** Witnesses *)

(** domain 0 with a clock of status [v] *)
Definition domain0 (st : gm_stable_state_t) (v : Z) : data :=
  mk (zero <| PTASG.asCapableOrAll := true |>) st st 0 (replicate 8 0) false
     (Gcd.mk {[ 0 := Clock0.mk v 0 (replicate 8 0) false 0 ]} 0 (-1) 1 []).

Lemma initdone_witness :
  gmsync_now (gm_stable_sm (CF := config0) (domain0 GM_UNSTABLE 2)).1 = GMSYNC_SYNC_STABLE.
Proof.
  apply (initdone_only_when_stable (CF := config0) (domain0 GM_UNSTABLE 2)); vm_compute; reflexivity.
Defined.

Lemma gm_change_unsettles_witness :
  state (gm_stable_gm_change (CF := config0) [2;0;0;0;0;0;0;1] (domain0 GM_STABLE 1)) = GM_UNSTABLE.
Proof.
  assert (S : settled (domain0 GM_STABLE 1)).
  { unfold settled. split_and!; try (vm_compute; done). left. reflexivity. }
  pose proof (gm_change_unsettles (CF := config0) [2;0;0;0;0;0;0;1] (domain0 GM_STABLE 1) S) as H.
  rewrite bool_decide_eq_false_2 in H by (vm_compute; discriminate).
  destruct H as (_ & _ & _ & H & _). exact H.
Defined.

End GMS.
