(* ===== verification/SyncPath.v ===== *)
(** * SyncPath: the relay of time through an instance.

    port_sync_sync_receive_sm.c (PSSR, 10.2.8) turns what a port receives into a
    PortSyncSync, site_sync_sync_sm.c (SSS, 10.2.7) relays the one of the slave
    port, port_sync_sync_send_sm.c (PSSS, 10.2.12) makes of it what each master
    port sends. *)

From stdpp Require Import gmap.
From S2P Require Import Prelude Types Driver Common Clock.
#[local] Open Scope Z_scope.
#[local] Open Scope gptp_scope.

(** ** PortSyncSyncReceive *)

Module PSSR.

Inductive port_sync_sync_receive_state_t := INIT | DISCARD | RECEIVED_SYNC | REACTION.
#[export] Instance state_eqdec : EqDecision port_sync_sync_receive_state_t.
Proof. solve_decision. Defined.

Record port_sync_sync_receive_data := mk {
  ptasg : PerTimeAwareSystemGlobal;
  ppg : PerPortGlobal;
  state : port_sync_sync_receive_state_t;
  last_state : port_sync_sync_receive_state_t;
  thisSM : PortSyncSyncReceiveSM;
  domainIndex : Z;
  portIndex : Z;
  portSyncSync : PortSyncSync
}.
#[export] Instance eta_data : Eta port_sync_sync_receive_data :=
  fields! mk [ptasg, ppg, state, last_state, thisSM, domainIndex, portIndex, portSyncSync].
Abbreviation data := port_sync_sync_receive_data.

Section Procs.
Context `{PL : Platform}.

Definition RCVD_MDSYNC (sm : data) : bool := PSSRsm.rcvdMDSync (thisSM sm).
Definition PORT_UP (sm : data) : bool :=
  PPGALL.portOper (PPG.forAllDomain (ppg sm)) && PPG.ptpPortEnabled (ppg sm) &&
  PPG.asCapable (ppg sm).

(** what [m] becomes on a port with the given timeout interval; [local_ppg] is the port's index *)
Definition psync_of (thisPort portIndex tout_interval cts64 : Z) (m : MDSyncReceive) (rateRatio : double)
    (p : PortSyncSync) : PortSyncSync :=
  let interval := LOG_TO_NSEC (MDSR.logMessageInterval m) in
  p <| PSync.localPortIndex := i16 thisPort |>
    <| PSync.local_ppg := Some portIndex |>
    <| PSync.domainIndex := MDSR.domainIndex m |>
    <| PSync.followUpCorrectionField := MDSR.followUpCorrectionField m |>
    <| PSync.sourcePortIdentity := MDSR.sourcePortIdentity m |>
    <| PSync.logMessageInterval := MDSR.logMessageInterval m |>
    <| PSync.preciseOriginTimestamp := MDSR.preciseOriginTimestamp m |>
    <| PSync.upstreamTxTime := MDSR.upstreamTxTime m |>
    <| PSync.syncReceiptTimeoutTime; UNs.nsec := u64 (cts64 + tout_interval) |>
    <| PSync.rateRatio := rateRatio |>
    <| PSync.gmTimeBaseIndicator := MDSR.gmTimeBaseIndicator m |>
    <| PSync.lastGmPhaseChange := MDSR.lastGmPhaseChange m |>
    <| PSync.lastGmFreqChange := MDSR.lastGmFreqChange m |>
    <| PSync.lastSyncSeqID := MDSR.seqid m |>
    <| PSync.syncNextSendTimeoutTime; UNs.nsec := u64 (cts64 + interval + interval / 2) |>.

Definition setPSSyncPSSR (m : MDSyncReceive) (rateRatio : double) (cts64 : Z) (sm : data) : data :=
  sm <| portSyncSync ::= psync_of (PPG.thisPort (ppg sm)) (portIndex sm)
          (UNs.nsec (PPG.syncReceiptTimeoutTimeInterval (ppg sm))) cts64 m rateRatio |>.

Definition received_sync (cts64 : Z) (m : MDSyncReceive) (sm : data) : data * option PortSyncSync :=
  let sm := sm <| thisSM; PSSRsm.rcvdMDSync := false |> in
  let rateRatio := dadd (MDSR.rateRatio m)
                     (dsub (PPGALL.neighborRateRatio (PPG.forAllDomain (ppg sm))) d1) in
  let sm := sm <| ppg; PPG.syncReceiptTimeoutTimeInterval; UNs.nsec :=
                    u64 (u8 (PPG.syncReceiptTimeout (ppg sm)) * LOG_TO_NSEC (MDSR.logMessageInterval m)) |> in
  let sm := setPSSyncPSSR m rateRatio cts64 sm in
  let sm := sm <| ptasg; PTASG.parentLogSyncInterval := MDSR.logMessageInterval m |> in
  (sm, Some (portSyncSync sm)).

(** allstate_condition, which may also set last_state *)
Definition allstate_condition (sm : data) : data * port_sync_sync_receive_state_t :=
  if PTASG.BEGIN (ptasg sm) || negb (PTASG.instanceEnable (ptasg sm)) ||
     (RCVD_MDSYNC sm && negb (PORT_UP sm))
  then (sm <| last_state := REACTION |>, DISCARD)
  else (sm, state sm).

Definition discard_proc (sm : data) : data := sm <| thisSM; PSSRsm.rcvdMDSync := false |>.

Definition discard_condition (sm : data) : port_sync_sync_receive_state_t :=
  if RCVD_MDSYNC sm && PORT_UP sm then RECEIVED_SYNC else DISCARD.

Definition received_sync_proc (cts64 : Z) (m : MDSyncReceive) (sm : data) : data * option PortSyncSync :=
  received_sync cts64 m sm.

Definition received_sync_condition (sm : data) : port_sync_sync_receive_state_t :=
  if RCVD_MDSYNC sm && PORT_UP sm &&
     negb (PPGALL.asymmetryMeasurementMode (PPG.forAllDomain (ppg sm)))
  then REACTION else RECEIVED_SYNC.

Definition switch (cts64 : Z) (state_change : bool) (sm : data) : data * ctl PortSyncSync :=
  match state sm with
  | INIT => (sm <| state := DISCARD |>, Next)
  | DISCARD =>
      if state_change then (discard_proc sm <| state := RECEIVED_SYNC |>, Next)
      else (sm <| state := discard_condition sm |>, Next)
  | RECEIVED_SYNC =>
      if state_change then
        deref (PSSRsm.rcvdMDSyncPtr (thisSM sm)) sm (fun m =>
          let (sm, retp) := received_sync_proc cts64 m sm in
          (sm <| state := received_sync_condition sm |>, ret_if retp))
      else (sm <| state := received_sync_condition sm |>, Next)
  | REACTION => (sm, Next)
  end.

Definition set_last (e : port_sync_sync_receive_state_t) (sm : data) : data :=
  sm <| last_state := e |>.
Definition set_allstate (sm : data) : data :=
  let (sm, st) := allstate_condition sm in sm <| state := st |>.

Definition machine (cts64 : Z) : StateMachine data port_sync_sync_receive_state_t PortSyncSync := {|
  sm_state := state;
  sm_last := last_state;
  sm_set_last := set_last;
  sm_allstate := set_allstate;
  sm_switch := switch cts64;
  sm_state_set_last := fun _ _ => eq_refl;
  sm_last_set_last := fun _ _ => eq_refl
|}.

(** INIT, DISCARD, RECEIVED_SYNC and one to stop *)
Definition fuel : nat := 6.

Definition port_sync_sync_receive_sm (cts64 : Z) (sm : data) : data * outcome PortSyncSync :=
  exec (M := machine cts64) fuel sm.

Definition port_sync_sync_receive_sm_init (domainIndex portIndex : Z)
    (ptasg : PerTimeAwareSystemGlobal) (ppg : PerPortGlobal) : data :=
  mk ptasg ppg INIT INIT zero domainIndex portIndex zero.

Definition port_sync_sync_receive_sm_recvMDSync (m : MDSyncReceive) (cts64 : Z) (sm : data)
  : data * outcome PortSyncSync :=
  port_sync_sync_receive_sm cts64
    (sm <| thisSM; PSSRsm.rcvdMDSync := true |> <| thisSM; PSSRsm.rcvdMDSyncPtr := Some m |>
        <| last_state := REACTION |>).

Definition rank (sm : data) : nat :=
  match state sm with
  | INIT => 4
  | DISCARD => 3
  | RECEIVED_SYNC => if bool_decide (last_state sm <> state sm) then 1 else 2
  | REACTION => 0
  end.

Lemma pssr_pass_eq cts64 sm :
  pass (M := machine cts64) sm =
  switch cts64 (bool_decide (last_state sm <> state sm)) (set_last (state sm) sm).
Proof. reflexivity. Qed.

Lemma pssr_turns cts64 (s s' : data) :
  turns (M := machine cts64) s s' -> (rank s' < rank s)%nat.
Proof.
  intros [H Hne]. rewrite pssr_pass_eq in H. cbn in Hne.
  destruct s as [pt pp st ls th di pi ps]. unfold rank at 2. unfold switch, deref in H. cbn in *.
  destruct st; cbn in H; try (case_bool_decide as C; cbn in H).
  all: try (destruct (PSSRsm.rcvdMDSyncPtr th) as [m|]; discriminate H).
  all: injection H as <-; cbn in Hne.
  all: unfold discard_condition, received_sync_condition in *; cbn in *.
  all: repeat (destruct_cond_in Hne; cbn in Hne); try done; unfold rank; cbn; settle_changes; lia.
Qed.

Lemma pssr_ends cts64 sm :
  run (M := machine cts64) fuel sm = Some (port_sync_sync_receive_sm cts64 sm).
Proof.
  apply exec_run. unfold run.
  apply (loop_ends (M := machine cts64)) with (Inv := fun _ => True) (rank := rank); [|done|].
  - intros s s' _ H. split; [done|by eapply pssr_turns].
  - unfold rank, fuel. destruct (state _); try case_bool_decide; lia.
Qed.

(** [o] and [s] are what the call leaves after it has taken [m] on the port of [sm] *)
Definition taken (cts64 : Z) (m : MDSyncReceive) (sm s : data) (o : outcome PortSyncSync) : Prop :=
  o = Ret (Some (portSyncSync s)) /\
  state s = RECEIVED_SYNC /\ last_state s = RECEIVED_SYNC /\ RCVD_MDSYNC s = false /\
  portSyncSync s = psync_of (PPG.thisPort (ppg sm)) (portIndex sm)
    (u64 (u8 (PPG.syncReceiptTimeout (ppg sm)) * LOG_TO_NSEC (MDSR.logMessageInterval m))) cts64 m
    (dadd (MDSR.rateRatio m) (dsub (PPGALL.neighborRateRatio (PPG.forAllDomain (ppg sm))) d1))
    (portSyncSync sm) /\
  PTASG.parentLogSyncInterval (ptasg s) = MDSR.logMessageInterval m.

(** the turn that takes the message *)
Lemma pssr_take n cts64 m sm s :
  state s = RECEIVED_SYNC -> last_state s <> RECEIVED_SYNC ->
  PSSRsm.rcvdMDSyncPtr (thisSM s) = Some m ->
  ppg s = ppg sm -> portIndex s = portIndex sm -> portSyncSync s = portSyncSync sm ->
  exists s' o, loop (M := machine cts64) (S n) s = Some (s', o) /\ taken cts64 m sm s' o.
Proof.
  intros Hs Hl Hm E1 E2 E3. unfold taken. rewrite <- E1, <- E2, <- E3. clear E1 E2 E3.
  destruct s as [pt pp st ls th di pi ps]. cbn in Hs, Hl, Hm. subst st.
  eexists _, _. split.
  - apply (loop_return (M := machine cts64)). rewrite pssr_pass_eq, bool_decide_eq_true_2 by done.
    unfold switch, set_last. cbn -[received_sync_proc]. rewrite Hm. reflexivity.
  - repeat apply conj; reflexivity.
Qed.

Lemma pssr_deliver cts64 m s :
  state s <> REACTION -> last_state s = REACTION ->
  PSSRsm.rcvdMDSyncPtr (thisSM s) = Some m ->
  exists s' o, loop (M := machine cts64) fuel s = Some (s', o) /\ taken cts64 m s s' o.
Proof.
  intros Hs Hl Hm. unfold fuel. destruct s as [pt pp st ls th di pi ps]. cbn in Hs, Hl, Hm. subst ls.
  destruct st; [| | |done].
  - turn (machine cts64). turn (machine cts64). by apply pssr_take.
  - turn (machine cts64). by apply pssr_take.
  - by apply pssr_take.
Qed.

(** Every Sync a port receives is turned into a PortSyncSync: the follow-up data is copied, the
    rate ratio is corrected by the neighbour's, the receipt timeout and the next send time follow
    from the message interval.  This holds on a port that is down or not asCapable too: there the
    machine passes through DISCARD and then takes the message all the same. *)
Theorem sync_taken_as_received cts64 m sm :
  state sm <> REACTION ->
  let (s, o) := port_sync_sync_receive_sm_recvMDSync m cts64 sm in taken cts64 m sm s o.
Proof.
  intros Hst. unfold port_sync_sync_receive_sm_recvMDSync, port_sync_sync_receive_sm.
  set (s0 := _ <| last_state := REACTION |>).
  destruct (pssr_deliver cts64 m (set_allstate s0)) as (s & o & E & T).
  - unfold set_allstate, allstate_condition. by destruct_cond.
  - unfold set_allstate, allstate_condition. by destruct_cond.
  - unfold set_allstate, allstate_condition. by destruct_cond.
  - rewrite (exec_eq (M := machine cts64) _ _ _ E). unfold taken in *.
    revert T. unfold set_allstate, allstate_condition. by destruct_cond.
Qed.

End Procs.
End PSSR.

(** ** SiteSyncSync *)

Module SSS.

Inductive site_sync_sync_state_t := INIT | INITIALIZING | RECEIVING_SYNC | REACTION.
#[export] Instance state_eqdec : EqDecision site_sync_sync_state_t.
Proof. solve_decision. Defined.

(** [gcd] is the clock module's state *)
Record site_sync_sync_data := mk {
  ptasg : PerTimeAwareSystemGlobal;
  state : site_sync_sync_state_t;
  last_state : site_sync_sync_state_t;
  thisSM : SiteSyncSyncSM;
  domainIndex : Z;
  portSyncSync : PortSyncSync;
  site_sync_timeout : Z;
  site_sync_sendtime : Z;
  gcd : gptpclock_data
}.
#[export] Instance eta_data : Eta site_sync_sync_data :=
  fields! mk [ptasg, state, last_state, thisSM, domainIndex, portSyncSync, site_sync_timeout,
              site_sync_sendtime, gcd].
Abbreviation data := site_sync_sync_data.

Section Procs.
Context `{CF : Config}.

Definition RCVD_PSSYNC (sm : data) : bool := SSSsm.rcvdPSSync (thisSM sm).
Definition SELECTED_STATE (sm : data) (i : Z) : Z := aget 0 (PTASG.selectedState (ptasg sm)) i.
Definition GM_PRESENT (sm : data) : bool := PTASG.gmPresent (ptasg sm).

(** the port [p] came in on is the slave port of a present grandmaster, or the test port *)
Definition from_slave_port (p : PortSyncSync) (sm : data) : bool :=
  ((SELECTED_STATE sm (PSync.localPortIndex p) =? SlavePort) && GM_PRESENT sm) ||
  (TEST_SYNC_REC_PORT =? PSync.localPortIndex p).

Definition allstate_condition (sm : data) : data * site_sync_sync_state_t :=
  if PTASG.BEGIN (ptasg sm) || negb (PTASG.instanceEnable (ptasg sm))
  then (sm <| last_state := REACTION |>, INITIALIZING) else (sm, state sm).

Definition initializing_proc (sm : data) : data := sm <| thisSM; SSSsm.rcvdPSSync := false |>.

Definition initializing_condition (sm : data) : data * ctl PortSyncSync :=
  if RCVD_PSSYNC sm then
    deref (SSSsm.rcvdPSSyncPtr (thisSM sm)) sm (fun p =>
      (sm <| state := if from_slave_port p sm then RECEIVING_SYNC else INITIALIZING |>, Next))
  else (sm <| state := INITIALIZING |>, Next).

(** [p] is *RCVD_PSSYNC_PTR *)
Definition setPSSyncSend (p : PortSyncSync) (sm : data) : data :=
  sm <| portSyncSync := p |>
     <| site_sync_timeout := UNs.nsec (PSync.syncReceiptTimeoutTime p) |>
     <| site_sync_sendtime := UNs.nsec (PSync.syncNextSendTimeoutTime p) |>.

Definition receiving_sync_proc (p : PortSyncSync) (sm : data) : data * option PortSyncSync :=
  let sm := sm <| thisSM; SSSsm.rcvdPSSync := false |> in
  let sm := setPSSyncSend p sm <| thisSM; SSSsm.txPSSyncPtrSSS := true |> in
  let sm := sm <| ptasg; PTASG.parentLogSyncInterval := PSync.logMessageInterval p |> in
  (sm, Some (portSyncSync sm)).

(** the Sync of the slave port is overdue but not yet lost *)
Definition overdue (cts64 : Z) (sm : data) : bool :=
  (SELECTED_STATE sm (PSync.localPortIndex (portSyncSync sm)) =? SlavePort) && GM_PRESENT sm &&
  (negb (site_sync_timeout sm =? 0) && (cts64 <=? site_sync_timeout sm)) &&
  negb (site_sync_sendtime sm =? 0) && (site_sync_sendtime sm <? cts64).

(** the received [p] gives way to the stored one *)
Definition use_stored (p : PortSyncSync) (sm : data) : bool :=
  (UNs.nsec (PSync.syncReceiptTimeoutTime p) =? U64_MAX) ||
  (UNs.nsec (PSync.syncReceiptTimeoutTime p) <=? site_sync_sendtime sm).

(** the last test of receiving_sync_condition: the slave port's Sync is lost *)
Definition check_site_timeout (cts64 : Z) (sm : data) : data :=
  if negb (site_sync_timeout sm =? 0) && (site_sync_timeout sm <? cts64) then
    let sm := sm <| site_sync_timeout := 0 |> in
    if 0 <? STATIC_PORT_STATE_SLAVE_PORT
    then sm <| gcd ::= gptpclock_set_gmsync (PTASG.domainIndex (ptasg sm)) GMSYNC_UNSYNC |> else sm
  else sm.

(** the effect of receiving_sync_condition on [sm] when RCVD_PSSYNC, with TX_PSSYNC_PTR_SSS set *)
Definition receive_again (cts64 : Z) (p : PortSyncSync) (sm : data) : data :=
  let sm := if from_slave_port p sm then sm <| last_state := REACTION |> else sm in
  if overdue cts64 sm then
    let sm := if use_stored p sm
              then sm <| thisSM; SSSsm.rcvdPSSyncPtr := Some (portSyncSync sm) |> else sm in
    sm <| last_state := REACTION |>
  else sm.

Definition receiving_sync_condition (cts64 : Z) (sm : data) : data * ctl PortSyncSync :=
  if RCVD_PSSYNC sm then
    deref (SSSsm.rcvdPSSyncPtr (thisSM sm)) sm (fun p =>
      if SSSsm.txPSSyncPtrSSS (thisSM sm) then
        (check_site_timeout cts64 (receive_again cts64 p sm) <| state := RECEIVING_SYNC |>, Next)
      else (sm, Leave Crash))
  else (check_site_timeout cts64 sm <| state := RECEIVING_SYNC |>, Next).

Definition switch (cts64 : Z) (state_change : bool) (sm : data) : data * ctl PortSyncSync :=
  match state sm with
  | INIT => (sm <| state := INITIALIZING |>, Next)
  | INITIALIZING => initializing_condition (if state_change then initializing_proc sm else sm)
  | RECEIVING_SYNC =>
      if state_change then
        deref (SSSsm.rcvdPSSyncPtr (thisSM sm)) sm (fun p =>
          let (sm, retp) := receiving_sync_proc p sm in
          let (sm, c) := receiving_sync_condition cts64 sm in
          match c with Leave _ => (sm, c) | Next => (sm, ret_if retp) end)
      else receiving_sync_condition cts64 sm
  | REACTION => (sm, Next)
  end.

Definition set_last (e : site_sync_sync_state_t) (sm : data) : data := sm <| last_state := e |>.
Definition set_allstate (sm : data) : data :=
  let (sm, st) := allstate_condition sm in sm <| state := st |>.

Definition machine (cts64 : Z) : StateMachine data site_sync_sync_state_t PortSyncSync := {|
  sm_state := state;
  sm_last := last_state;
  sm_set_last := set_last;
  sm_allstate := set_allstate;
  sm_switch := switch cts64;
  sm_state_set_last := fun _ _ => eq_refl;
  sm_last_set_last := fun _ _ => eq_refl
|}.

(** INIT or a resting RECEIVING_SYNC, INITIALIZING, RECEIVING_SYNC *)
Definition fuel : nat := 6.

Definition site_sync_sync_sm (cts64 : Z) (sm : data) : data * outcome PortSyncSync :=
  exec (M := machine cts64) fuel sm.

Definition site_sync_sync_sm_init (domainIndex : Z) (ptasg : PerTimeAwareSystemGlobal)
    (gcd : gptpclock_data) : data :=
  (site_sync_sync_sm 0 (mk ptasg INIT INIT zero domainIndex zero 0 0 gcd)).1.

Definition site_sync_sync_sm_portSyncSync (p : PortSyncSync) (cts64 : Z) (sm : data)
  : data * outcome PortSyncSync :=
  site_sync_sync_sm cts64
    (sm <| thisSM; SSSsm.rcvdPSSync := true |> <| thisSM; SSSsm.rcvdPSSyncPtr := Some p |>).

Definition rank (sm : data) : nat :=
  match state sm with
  | INIT => 4
  | INITIALIZING => 3
  | RECEIVING_SYNC => if bool_decide (last_state sm <> state sm) then 1 else 2
  | REACTION => 0
  end.

Lemma sss_pass_eq cts64 sm :
  pass (M := machine cts64) sm =
  switch cts64 (bool_decide (last_state sm <> state sm)) (set_last (state sm) sm).
Proof. reflexivity. Qed.

Lemma check_site_timeout_fields cts64 sm :
  let s := check_site_timeout cts64 sm in
  ptasg s = ptasg sm /\ state s = state sm /\ last_state s = last_state sm /\
  thisSM s = thisSM sm /\ portSyncSync s = portSyncSync sm /\
  site_sync_sendtime s = site_sync_sendtime sm /\
  (site_sync_timeout s = 0 \/ site_sync_timeout s = site_sync_timeout sm).
Proof. unfold check_site_timeout. repeat destruct_cond; repeat apply conj; auto. Qed.

Lemma receive_again_fields cts64 p sm :
  let s := receive_again cts64 p sm in
  ptasg s = ptasg sm /\ state s = state sm /\
  last_state s = (if from_slave_port p sm || overdue cts64 sm then REACTION else last_state sm) /\
  portSyncSync s = portSyncSync sm /\ SSSsm.rcvdPSSync (thisSM s) = SSSsm.rcvdPSSync (thisSM sm) /\
  SSSsm.rcvdPSSyncPtr (thisSM s) =
    (if overdue cts64 sm && use_stored p sm then Some (portSyncSync sm)
     else SSSsm.rcvdPSSyncPtr (thisSM sm)).
Proof.
  unfold receive_again.
  assert (O : forall e, overdue cts64 (sm <| last_state := e |>) = overdue cts64 sm) by reflexivity.
  assert (U : forall e, use_stored p (sm <| last_state := e |>) = use_stored p sm) by reflexivity.
  destruct (from_slave_port p sm); rewrite ?O, ?U; destruct (overdue cts64 sm); cbn -[overdue use_stored].
  all: try (change (use_stored p (sm <| last_state := REACTION |>)) with (use_stored p sm)).
  all: try destruct (use_stored p sm); repeat apply conj; reflexivity.
Qed.

#[local] Opaque check_site_timeout receive_again.

Lemma sss_turns cts64 (s s' : data) :
  turns (M := machine cts64) s s' -> (rank s' < rank s)%nat.
Proof.
  intros [H Hne]. rewrite sss_pass_eq in H. cbn in Hne.
  destruct s as [pt st ls th di ps t1 t2 cd]. unfold rank at 2.
  unfold switch, initializing_condition, receiving_sync_condition, deref, RCVD_PSSYNC in H. cbn in *.
  destruct st; cbn in H; try (case_bool_decide as C; cbn in H).
  all: repeat case_match; try discriminate H; injection H as <-; cbn in Hne; try done.
  all: unfold rank; cbn; settle_changes; try lia.
  all: rewrite bool_decide_eq_true_2 by done; lia.
Qed.

Lemma sss_ends cts64 sm :
  run (M := machine cts64) fuel sm = Some (site_sync_sync_sm cts64 sm).
Proof.
  apply exec_run. unfold run.
  apply (loop_ends (M := machine cts64)) with (Inv := fun _ => True) (rank := rank); [|done|].
  - intros s s' _ H. split; [done|by eapply sss_turns].
  - unfold rank, fuel. destruct (state _); try case_bool_decide; lia.
Qed.

(** a running instance between two calls *)
Definition at_rest (sm : data) : Prop :=
  PTASG.BEGIN (ptasg sm) = false /\ PTASG.instanceEnable (ptasg sm) = true /\
  last_state sm = state sm /\
  (state sm = INITIALIZING \/ state sm = RECEIVING_SYNC /\ SSSsm.txPSSyncPtrSSS (thisSM sm) = true).

(** what the site relays on receipt of [p] *)
Definition relayed (cts64 : Z) (p : PortSyncSync) (sm : data) : option PortSyncSync :=
  if bool_decide (state sm = RECEIVING_SYNC) && overdue cts64 sm
  then Some (if use_stored p sm then portSyncSync sm else p)
  else if from_slave_port p sm then Some p else None.

(** the call has relayed [q] *)
Definition sent (q : PortSyncSync) (s : data) (o : outcome PortSyncSync) : Prop :=
  o = Ret (Some q) /\ state s = RECEIVING_SYNC /\ last_state s = RECEIVING_SYNC /\
  portSyncSync s = q /\ RCVD_PSSYNC s = false /\ SSSsm.txPSSyncPtrSSS (thisSM s) = true /\
  PTASG.parentLogSyncInterval (ptasg s) = PSync.logMessageInterval q.

(** the turn that relays *)
Lemma sss_send n cts64 q s :
  state s = RECEIVING_SYNC -> last_state s <> RECEIVING_SYNC ->
  SSSsm.rcvdPSSyncPtr (thisSM s) = Some q ->
  exists s' o, loop (M := machine cts64) (S n) s = Some (s', o) /\ sent q s' o.
Proof.
  intros Hs Hl Hq. destruct s as [pt st ls th di ps t1 t2 cd]. cbn in Hs, Hl, Hq. subst st.
  eexists _, _. split.
  - apply (loop_return (M := machine cts64)). rewrite sss_pass_eq, bool_decide_eq_true_2 by done.
    unfold switch, set_last. cbn. rewrite Hq. cbn. reflexivity.
  - unfold sent, RCVD_PSSYNC. cbn. pose proof (check_site_timeout_fields cts64) as F.
    match goal with |- context [check_site_timeout _ ?x] =>
      destruct (F x) as (-> & _ & -> & -> & -> & _) end.
    done.
Qed.

Lemma sss_allstate sm :
  PTASG.BEGIN (ptasg sm) = false -> PTASG.instanceEnable (ptasg sm) = true -> set_allstate sm = sm.
Proof.
  intros HB HI. unfold set_allstate, allstate_condition. rewrite HB, HI. by destruct sm.
Qed.

(** the pass over a resting machine that has just received [p] *)
Lemma sss_pass_initializing cts64 p s :
  state s = INITIALIZING -> last_state s = INITIALIZING -> RCVD_PSSYNC s = true ->
  SSSsm.rcvdPSSyncPtr (thisSM s) = Some p ->
  pass (M := machine cts64) s =
  (s <| state := if from_slave_port p s then RECEIVING_SYNC else INITIALIZING |>, Next).
Proof.
  intros Hs Hl Hr Hp. rewrite sss_pass_eq, Hs, Hl. settle_changes.
  destruct s as [pt st ls th di ps t1 t2 cd]. cbn in Hs, Hl, Hr, Hp. subst.
  unfold switch, initializing_condition, RCVD_PSSYNC in *. cbn in *. by rewrite Hr, Hp.
Qed.

Lemma sss_pass_receiving cts64 p s :
  state s = RECEIVING_SYNC -> last_state s = RECEIVING_SYNC -> RCVD_PSSYNC s = true ->
  SSSsm.rcvdPSSyncPtr (thisSM s) = Some p -> SSSsm.txPSSyncPtrSSS (thisSM s) = true ->
  pass (M := machine cts64) s =
  (check_site_timeout cts64 (receive_again cts64 p s) <| state := RECEIVING_SYNC |>, Next).
Proof.
  intros Hs Hl Hr Hp Ht. rewrite sss_pass_eq, Hs, Hl. settle_changes.
  destruct s as [pt st ls th di ps t1 t2 cd]. cbn in Hs, Hl, Hr, Hp, Ht. subst.
  unfold switch, receiving_sync_condition, RCVD_PSSYNC in *. cbn in *. by rewrite Hr, Hp, Ht.
Qed.

(** what a call that relays nothing leaves alone *)
Definition kept (sm s : data) (o : outcome PortSyncSync) : Prop :=
  o = Ret None /\ state s = state sm /\ last_state s = state sm /\
  portSyncSync s = portSyncSync sm /\ ptasg s = ptasg sm.

Definition relay_result (cts64 : Z) (p : PortSyncSync) (sm s : data) (o : outcome PortSyncSync) : Prop :=
  match relayed cts64 p sm with Some q => sent q s o | None => kept sm s o end.

Lemma sss_receive cts64 p s :
  at_rest s -> RCVD_PSSYNC s = true -> SSSsm.rcvdPSSyncPtr (thisSM s) = Some p ->
  exists s' o, loop (M := machine cts64) fuel s = Some (s', o) /\ relay_result cts64 p s s' o.
Proof.
  intros (_ & _ & Hl & Hst) Hr Hp. unfold fuel, relay_result, relayed.
  destruct Hst as [Hs | [Hs Htx]]; rewrite Hs in *; cbn [bool_decide decide_rel andb].
  - pose proof (sss_pass_initializing cts64 p s Hs Hl Hr Hp) as P.
    rewrite bool_decide_eq_false_2 by done. cbn [andb].
    destruct (from_slave_port p s) eqn:F.
    + erewrite (loop_turn (M := machine cts64)); [|split; [exact P|cbn; by rewrite Hl]].
      by apply sss_send; [|cbn; rewrite Hl|].
    + eexists _, _. split; [apply (loop_stop (M := machine cts64)); [exact P|exact Hl]|].
      unfold kept. cbn. by rewrite Hs, Hl.
  - pose proof (sss_pass_receiving cts64 p s Hs Hl Hr Hp Htx) as P.
    rewrite bool_decide_eq_true_2 by done. cbn [andb].
    pose proof (receive_again_fields cts64 p s) as F. set (s1 := receive_again cts64 p s) in *.
    pose proof (check_site_timeout_fields cts64 s1) as G. cbn in F, G.
    set (s2 := check_site_timeout cts64 s1) in *. clearbody s2 s1.
    destruct F as (F1 & F2 & F3 & F4 & F5 & F6), G as (G1 & G2 & G3 & G4 & G5 & _).
    rewrite Hl in F3.
    assert (Q : SSSsm.rcvdPSSyncPtr (thisSM s2) =
                Some (if overdue cts64 s && use_stored p s then portSyncSync s else p)).
    { rewrite G4, F6, Hp. by destruct (_ && _). }
    destruct (overdue cts64 s); [|destruct (from_slave_port p s)]; cbn in F3, Q.
    1: rewrite orb_true_r in F3.
    1-2: erewrite (loop_turn (M := machine cts64)); [|split; [exact P|cbn; by rewrite G3, F3]];
      by apply sss_send; [|cbn; rewrite G3, F3|].
    eexists _, _. split; [apply (loop_stop (M := machine cts64)); [exact P|cbn; by rewrite G3, F3]|].
    unfold kept. cbn. by rewrite Hs, G1, F1, G3, F3, G5, F4.
Qed.

(** the evaluation with a PortSyncSync *)
Lemma sss_relay cts64 p sm :
  at_rest sm -> let (s, o) := site_sync_sync_sm_portSyncSync p cts64 sm in relay_result cts64 p sm s o.
Proof.
  intros (HB & HI & Hl & Hst). unfold site_sync_sync_sm_portSyncSync, site_sync_sync_sm.
  set (s0 := _ <| thisSM; SSSsm.rcvdPSSyncPtr := Some p |>).
  destruct (sss_receive cts64 p s0) as (s & o & E & H); try reflexivity; [by repeat split|].
  rewrite (exec_eq (M := machine cts64) _ s0 (s, o)); [exact H|].
  change (sm_allstate (StateMachine := machine cts64) s0) with (set_allstate s0).
  by rewrite sss_allstate.
Qed.

(** C7. The site relays a PortSyncSync exactly when it comes from the slave port of a present
    grandmaster (or from the port configured for tests); in the window between the expected and
    the latest time of the slave port's next Sync it relays on any receipt, the stored one unless
    the received one expires later. *)
Theorem site_sync_relay cts64 p sm :
  at_rest sm ->
  let (s, o) := site_sync_sync_sm_portSyncSync p cts64 sm in
  match relayed cts64 p sm with Some q => sent q s o | None => kept sm s o end.
Proof. exact (sss_relay cts64 p sm). Qed.

End Procs.
End SSS.

(** ** PortSyncSyncSend *)

Module PSSS.

Inductive port_sync_sync_send_state_t := INIT | TRANSMIT_INIT | SEND_MD_SYNC | SYNC_RECEIPT_TIMEOUT | REACTION.
#[export] Instance state_eqdec : EqDecision port_sync_sync_send_state_t.
Proof. solve_decision. Defined.

Record port_sync_sync_send_data := mk {
  ptasg : PerTimeAwareSystemGlobal;
  ppg : PerPortGlobal;
  state : port_sync_sync_send_state_t;
  last_state : port_sync_sync_send_state_t;
  thisSM : PortSyncSyncSendSM;
  domainIndex : Z;
  portIndex : Z;
  mdSyncSend : MDSyncSend
}.
#[export] Instance eta_data : Eta port_sync_sync_send_data :=
  fields! mk [ptasg, ppg, state, last_state, thisSM, domainIndex, portIndex, mdSyncSend].
Abbreviation data := port_sync_sync_send_data.

Section Procs.
Context `{CF : Config}.

Definition RCVD_PSSYNC (sm : data) : bool := PSSSsm.rcvdPSSync (thisSM sm).
Definition PORT_UP (sm : data) : bool :=
  PPGALL.portOper (PPG.forAllDomain (ppg sm)) && PPG.ptpPortEnabled (ppg sm) &&
  PPG.asCapable (ppg sm).
Definition SYNC_LOCKED (sm : data) : bool := PPG.syncLocked (ppg sm).

(** the port may send: up, and master or the port configured for tests *)
Definition may_send (sm : data) : bool :=
  PORT_UP sm &&
  ((aget 0 (PTASG.selectedState (ptasg sm)) (portIndex sm) =? MasterPort) ||
   (TEST_SYNC_SEND_PORT =? portIndex sm)).

(** (uint16_t)RCVD_PSSYNC_PTR->localPortIndex != THIS_PORT *)
Definition other_port (p : PortSyncSync) (sm : data) : bool :=
  negb (u16 (PSync.localPortIndex p) =? PPG.thisPort (ppg sm)).

Definition setMDSync (sm : data) : data :=
  let t := thisSM sm in
  sm <| mdSyncSend :=
    MDSS.mk (PTASG.domainIndex (ptasg sm)) (PSSSsm.lastFollowUpCorrectionField t)
      (PortId.mk (PTASG.thisClock (ptasg sm)) (PPG.thisPort (ppg sm)))
      (PPG.currentLogSyncInterval (ppg sm)) (PSSSsm.lastPreciseOriginTimestamp t)
      (PSSSsm.lastUpstreamTxTime t) (PSSSsm.lastRateRatio t) (PSSSsm.lastGmTimeBaseIndicator t)
      (PSSSsm.lastGmPhaseChange t) (PSSSsm.lastGmFreqChange t) |>.

Definition allstate_condition (sm : data) : data * port_sync_sync_send_state_t :=
  if PTASG.BEGIN (ptasg sm) || negb (PTASG.instanceEnable (ptasg sm)) ||
     (RCVD_PSSYNC sm && negb (PORT_UP sm))
  then (sm <| last_state := REACTION |>, TRANSMIT_INIT)
  else if PPG.currentLogSyncInterval (ppg sm) =? 127 then (sm, TRANSMIT_INIT)
  else (sm, state sm).

Definition transmit_init_proc (sm : data) : data :=
  sm <| thisSM; PSSSsm.rcvdPSSync := false |> <| ppg; PPG.syncSlowdown := false |>
     <| thisSM; PSSSsm.numberSyncTransmissions := 0 |>.

(** a received PortSyncSync of another port may be sent from here *)
Definition wait_condition (waiting : port_sync_sync_send_state_t) (sm : data)
  : data * ctl MDSyncSend :=
  if RCVD_PSSYNC sm then
    deref (PSSSsm.rcvdPSSyncPtr (thisSM sm)) sm (fun p =>
      (sm <| state := if other_port p sm && may_send sm then SEND_MD_SYNC else waiting |>, Next))
  else (sm <| state := waiting |>, Next).

Definition transmit_init_condition (sm : data) : data * ctl MDSyncSend :=
  if PPG.currentLogSyncInterval (ppg sm) =? 127 then (sm <| state := TRANSMIT_INIT |>, Next)
  else wait_condition TRANSMIT_INIT sm.

(** the part of send_md_sync_proc that records [p] *)
Definition record_psync (p : PortSyncSync) (sm : data) : data :=
  sm <| thisSM; PSSSsm.lastRcvdPortNum := u16 (PSync.localPortIndex p) |>
     <| thisSM; PSSSsm.lastPreciseOriginTimestamp := PSync.preciseOriginTimestamp p |>
     <| thisSM; PSSSsm.lastFollowUpCorrectionField := PSync.followUpCorrectionField p |>
     <| thisSM; PSSSsm.lastRateRatio := PSync.rateRatio p |>
     <| thisSM; PSSSsm.lastUpstreamTxTime := PSync.upstreamTxTime p |>
     <| thisSM; PSSSsm.lastGmTimeBaseIndicator := PSync.gmTimeBaseIndicator p |>
     <| thisSM; PSSSsm.lastGmPhaseChange := PSync.lastGmPhaseChange p |>
     <| thisSM; PSSSsm.lastGmFreqChange := PSync.lastGmFreqChange p |>
     <| thisSM; PSSSsm.syncReceiptTimeoutTime := PSync.syncReceiptTimeoutTime p |>
     <| ppg; PPG.syncLocked :=
          PTASG.parentLogSyncInterval (ptasg sm) =? PPG.currentLogSyncInterval (ppg sm) |>.

(** and the rest of it *)
Definition send_recorded (cts64 : Z) (sm : data) : data * option MDSyncSend :=
  let sm := sm <| thisSM; PSSSsm.rcvdPSSync := false |>
               <| thisSM; PSSSsm.lastSyncSentTime; UNs.nsec := cts64 |> in
  let sm := setMDSync sm in
  let retv := mdSyncSend sm in
  let sm :=
    if PPG.syncSlowdown (ppg sm) then
      if u8 (PPG.syncReceiptTimeout (ppg sm)) <=? PSSSsm.numberSyncTransmissions (thisSM sm)
      then sm <| thisSM; PSSSsm.interval1 := PPG.syncInterval (ppg sm) |>
              <| thisSM; PSSSsm.numberSyncTransmissions := 0 |>
              <| ppg; PPG.syncSlowdown := false |>
      else sm <| thisSM; PSSSsm.interval1 := PPG.syncInterval (ppg sm) |>
              <| thisSM; PSSSsm.numberSyncTransmissions ::= fun z => u8 (z + 1) |>
    else sm <| thisSM; PSSSsm.numberSyncTransmissions := 0 |>
            <| thisSM; PSSSsm.interval1 := PPG.syncInterval (ppg sm) |> in
  (sm, Some retv).

Definition send_md_sync_proc (cts64 : Z) (sm : data) : data * ctl MDSyncSend :=
  let send sm := let (sm, retv) := send_recorded cts64 sm in (sm, ret_if retv) in
  if RCVD_PSSYNC sm then
    deref (PSSSsm.rcvdPSSyncPtr (thisSM sm)) sm (fun p => send (record_psync p sm))
  else send sm.

(** an unlocked port whose interval has passed *)
Definition interval_passed (cts64 : Z) (sm : data) : bool :=
  negb (SYNC_LOCKED sm) &&
  (UNs.nsec (PSSSsm.interval1 (thisSM sm)) <=?
   u64 (cts64 - UNs.nsec (PSSSsm.lastSyncSentTime (thisSM sm)))) &&
  negb (PSSSsm.lastRcvdPortNum (thisSM sm) =? PPG.thisPort (ppg sm)).

Definition send_md_sync_condition (cts64 : Z) (sm : data) : data * ctl MDSyncSend :=
  let again (b : bool) : data * ctl MDSyncSend :=
    ((if (b || interval_passed cts64 sm) && may_send sm then sm <| last_state := REACTION |> else sm)
       <| state := SEND_MD_SYNC |>, Next) in
  if (UNs.nsec (PSSSsm.syncReceiptTimeoutTime (thisSM sm)) <=? cts64) && negb (SYNC_LOCKED sm)
  then (sm <| state := SYNC_RECEIPT_TIMEOUT |>, Next)
  else if RCVD_PSSYNC sm && SYNC_LOCKED sm then
    deref (PSSSsm.rcvdPSSyncPtr (thisSM sm)) sm (fun p => again (other_port p sm))
  else again false.

Definition sync_receipt_timeout_proc (sm : data) : data := sm <| thisSM; PSSSsm.rcvdPSSync := false |>.

Definition sync_receipt_timeout_condition (sm : data) : data * ctl MDSyncSend :=
  wait_condition SYNC_RECEIPT_TIMEOUT sm.

Definition switch (cts64 : Z) (state_change : bool) (sm : data) : data * ctl MDSyncSend :=
  let on (p : data -> data) (sm : data) := if state_change then p sm else sm in
  match state sm with
  | INIT => (sm <| state := TRANSMIT_INIT |>, Next)
  | TRANSMIT_INIT => transmit_init_condition (on transmit_init_proc sm)
  | SEND_MD_SYNC =>
      if state_change then send_md_sync_proc cts64 sm else send_md_sync_condition cts64 sm
  | SYNC_RECEIPT_TIMEOUT => sync_receipt_timeout_condition (on sync_receipt_timeout_proc sm)
  | REACTION => (sm, Next)
  end.

Definition set_last (e : port_sync_sync_send_state_t) (sm : data) : data := sm <| last_state := e |>.
Definition set_allstate (sm : data) : data :=
  let (sm, st) := allstate_condition sm in sm <| state := st |>.

Definition machine (cts64 : Z) : StateMachine data port_sync_sync_send_state_t MDSyncSend := {|
  sm_state := state;
  sm_last := last_state;
  sm_set_last := set_last;
  sm_allstate := set_allstate;
  sm_switch := switch cts64;
  sm_state_set_last := fun _ _ => eq_refl;
  sm_last_set_last := fun _ _ => eq_refl
|}.

(** INIT or a resting SEND_MD_SYNC, TRANSMIT_INIT or SYNC_RECEIPT_TIMEOUT, SEND_MD_SYNC *)
Definition fuel : nat := 6.

Definition port_sync_sync_send_sm (cts64 : Z) (sm : data) : data * outcome MDSyncSend :=
  exec (M := machine cts64) fuel sm.

Definition port_sync_sync_send_sm_init (domainIndex portIndex : Z)
    (ptasg : PerTimeAwareSystemGlobal) (ppg : PerPortGlobal) : data :=
  mk ptasg ppg INIT INIT zero domainIndex portIndex zero.

Definition port_sync_sync_send_sm_portSyncSync (p : PortSyncSync) (cts64 : Z) (sm : data)
  : data * outcome MDSyncSend :=
  port_sync_sync_send_sm cts64
    (sm <| thisSM; PSSSsm.rcvdPSSync := true |> <| thisSM; PSSSsm.rcvdPSSyncPtr := Some p |>).

Definition rank (sm : data) : nat :=
  match state sm with
  | INIT => 4
  | TRANSMIT_INIT | SYNC_RECEIPT_TIMEOUT => 2
  | SEND_MD_SYNC => if bool_decide (last_state sm <> state sm) then 1 else 3
  | REACTION => 0
  end.

Lemma psss_pass_eq cts64 sm :
  pass (M := machine cts64) sm =
  switch cts64 (bool_decide (last_state sm <> state sm)) (set_last (state sm) sm).
Proof. reflexivity. Qed.

(** a pass over SEND_MD_SYNC that is entered always leaves the function *)
Lemma send_leaves cts64 sm s : send_md_sync_proc cts64 sm <> (s, Next).
Proof.
  unfold send_md_sync_proc, deref, send_recorded.
  destruct (RCVD_PSSYNC sm); [destruct (PSSSsm.rcvdPSSyncPtr _)|]; intros H; discriminate H.
Qed.

Lemma psss_turns cts64 (s s' : data) :
  turns (M := machine cts64) s s' -> (rank s' < rank s)%nat.
Proof.
  intros [H Hne]. rewrite psss_pass_eq in H. cbn in Hne.
  destruct s as [pt pp st ls th di pi ms]. unfold rank at 2.
  unfold switch in H. cbn -[send_md_sync_proc] in *.
  destruct st; cbn -[send_md_sync_proc] in H; try (case_bool_decide as C; cbn -[send_md_sync_proc] in H).
  all: try (by apply send_leaves in H).
  all: unfold transmit_init_condition, sync_receipt_timeout_condition, wait_condition,
    send_md_sync_condition, deref, transmit_init_proc, sync_receipt_timeout_proc, RCVD_PSSYNC in *; cbn in *.
  all: repeat case_match; try discriminate H; injection H as <-; cbn in Hne; try done.
  all: unfold rank; cbn; settle_changes; try lia.
  all: rewrite bool_decide_eq_true_2 by done; lia.
Qed.

Lemma psss_ends cts64 sm :
  run (M := machine cts64) fuel sm = Some (port_sync_sync_send_sm cts64 sm).
Proof.
  apply exec_run. unfold run.
  apply (loop_ends (M := machine cts64)) with (Inv := fun _ => True) (rank := rank); [|done|].
  - intros s s' _ H. split; [done|by eapply psss_turns].
  - unfold rank, fuel. destruct (state _); try case_bool_decide; lia.
Qed.

(** what a port sends of [p] *)
Definition md_of (p : PortSyncSync) (sm : data) : MDSyncSend :=
  MDSS.mk (PTASG.domainIndex (ptasg sm)) (PSync.followUpCorrectionField p)
    (PortId.mk (PTASG.thisClock (ptasg sm)) (PPG.thisPort (ppg sm)))
    (PPG.currentLogSyncInterval (ppg sm)) (PSync.preciseOriginTimestamp p)
    (PSync.upstreamTxTime p) (PSync.rateRatio p) (PSync.gmTimeBaseIndicator p)
    (PSync.lastGmPhaseChange p) (PSync.lastGmFreqChange p).

Lemma send_recorded_fields cts64 sm :
  let (s, r) := send_recorded cts64 sm in
  r = Some (mdSyncSend (setMDSync sm)) /\ mdSyncSend s = mdSyncSend (setMDSync sm) /\
  state s = state sm /\ last_state s = last_state sm /\ ptasg s = ptasg sm /\
  RCVD_PSSYNC s = false /\ PPG.syncLocked (ppg s) = PPG.syncLocked (ppg sm) /\
  UNs.nsec (PSSSsm.lastSyncSentTime (thisSM s)) = cts64 /\
  PSSSsm.interval1 (thisSM s) = PPG.syncInterval (ppg sm).
Proof. unfold send_recorded. repeat destruct_cond; repeat apply conj; reflexivity. Qed.

#[local] Opaque send_recorded.

(** [s] is on the way from [sm0] to a transmission *)
Definition on_the_way (sm0 s : data) : Prop :=
  ptasg s = ptasg sm0 /\ portIndex s = portIndex sm0 /\
  PPG.forAllDomain (ppg s) = PPG.forAllDomain (ppg sm0) /\
  PPG.ptpPortEnabled (ppg s) = PPG.ptpPortEnabled (ppg sm0) /\
  PPG.asCapable (ppg s) = PPG.asCapable (ppg sm0) /\
  PPG.thisPort (ppg s) = PPG.thisPort (ppg sm0) /\
  PPG.currentLogSyncInterval (ppg s) = PPG.currentLogSyncInterval (ppg sm0) /\
  (state s = SEND_MD_SYNC -> last_state s <> SEND_MD_SYNC -> may_send sm0 = true).

Lemma may_send_frame sm0 s : on_the_way sm0 s -> may_send s = may_send sm0.
Proof.
  intros (E1 & E2 & E3 & E4 & E5 & _). unfold may_send, PORT_UP. by rewrite E1, E2, E3, E4, E5.
Qed.

Lemma psss_pass_next cts64 s s' :
  pass (M := machine cts64) s = (s', Next) ->
  forall sm0, on_the_way sm0 s -> on_the_way sm0 s'.
Proof.
  intros H sm0 W. pose proof (may_send_frame _ _ W) as M. rewrite psss_pass_eq in H.
  unfold on_the_way in W. destruct s as [pt pp st ls th di pi ms].
  unfold switch in H. cbn -[send_md_sync_proc may_send] in *.
  destruct st; cbn -[send_md_sync_proc] in H; try (case_bool_decide as C; cbn -[send_md_sync_proc] in H).
  all: try (by apply send_leaves in H).
  all: unfold transmit_init_condition, sync_receipt_timeout_condition, wait_condition,
    send_md_sync_condition, deref, transmit_init_proc, sync_receipt_timeout_proc, RCVD_PSSYNC in *;
    cbn -[may_send] in H.
  all: repeat case_match; try discriminate H; injection H as <-.
  all: destruct W as (E1 & E2 & E3 & E4 & E5 & E6 & E7 & E8); unfold on_the_way.
  all: split_and!; try done; cbn -[may_send]; intros S L; bool_hyps; try done.
  all: rewrite <- M; match goal with H : may_send _ = true |- _ => exact H end.
Qed.

(** the fields of a message the port fills in itself *)
Definition own_fields (sm : data) (m : MDSyncSend) : Prop :=
  MDSS.domainIndex m = PTASG.domainIndex (ptasg sm) /\
  MDSS.sourcePortIdentity m = PortId.mk (PTASG.thisClock (ptasg sm)) (PPG.thisPort (ppg sm)) /\
  MDSS.logMessageInterval m = PPG.currentLogSyncInterval (ppg sm).

Lemma send_own_fields cts64 s s' m :
  send_md_sync_proc cts64 s = (s', Leave (Ret (Some m))) -> own_fields s m.
Proof.
  unfold send_md_sync_proc, deref. intros H.
  destruct (RCVD_PSSYNC s); [destruct (PSSSsm.rcvdPSSyncPtr (thisSM s)) as [p|]|]; try discriminate H.
  - pose proof (send_recorded_fields cts64 (record_psync p s)) as F.
    destruct (send_recorded cts64 (record_psync p s)) as [s1 r]. destruct F as [-> _].
    cbn in H. injection H as <- <-. repeat apply conj; reflexivity.
  - pose proof (send_recorded_fields cts64 s) as F.
    destruct (send_recorded cts64 s) as [s1 r]. destruct F as [-> _].
    cbn in H. injection H as <- <-. repeat apply conj; reflexivity.
Qed.

Lemma psss_pass_leave cts64 s s' m :
  pass (M := machine cts64) s = (s', Leave (Ret (Some m))) ->
  state s = SEND_MD_SYNC /\ last_state s <> SEND_MD_SYNC /\ own_fields s m.
Proof.
  intros H. rewrite psss_pass_eq in H. unfold switch in H. cbn -[send_md_sync_proc] in H.
  destruct (state s) eqn:E.
  all: try (unfold transmit_init_condition, sync_receipt_timeout_condition, wait_condition, deref in H;
            repeat case_match; discriminate H).
  case_bool_decide as C.
  - apply send_own_fields in H. done.
  - unfold send_md_sync_condition, deref in H. repeat case_match; discriminate H.
Qed.

(** C8. A port sends Sync only while it is up, asCapable and either selected as master or
    configured as the sending test port; what it sends carries its own identity, domain and
    current interval. *)
Theorem sync_only_from_master cts64 sm s m :
  last_state sm = state sm ->
  port_sync_sync_send_sm cts64 sm = (s, Ret (Some m)) ->
  may_send sm = true /\ own_fields sm m.
Proof.
  intros L H.
  destruct (exec_leave (M := machine cts64) (on_the_way sm) fuel sm s m) as (s0 & W & P); [| |done|].
  - change (on_the_way sm (set_allstate sm)). unfold on_the_way, set_allstate, allstate_condition.
    repeat destruct_cond; split_and!; try done. cbn. by rewrite L.
  - intros s1 s2 W P. by eapply psss_pass_next.
  - apply psss_pass_leave in P as (E & C & O).
    destruct W as (E1 & E2 & E3 & E4 & E5 & E6 & E7 & E8). split; [by apply E8|].
    unfold own_fields in *. by rewrite <- E1, <- E6, <- E7.
Qed.

(** a running port between two calls that takes what it is given: not yet sending, or locked to
    the parent's interval *)
Definition ready (sm : data) : Prop :=
  PTASG.BEGIN (ptasg sm) = false /\ PTASG.instanceEnable (ptasg sm) = true /\
  PPG.currentLogSyncInterval (ppg sm) <> 127 /\ last_state sm = state sm /\
  (state sm = TRANSMIT_INIT \/ state sm = SYNC_RECEIPT_TIMEOUT \/
   state sm = SEND_MD_SYNC /\ SYNC_LOCKED sm = true).

(** the call has sent [p] *)
Definition forwarded (cts64 : Z) (p : PortSyncSync) (sm s : data) (o : outcome MDSyncSend) : Prop :=
  o = Ret (Some (md_of p sm)) /\ state s = SEND_MD_SYNC /\ last_state s = SEND_MD_SYNC /\
  RCVD_PSSYNC s = false /\
  SYNC_LOCKED s = (PTASG.parentLogSyncInterval (ptasg sm) =? PPG.currentLogSyncInterval (ppg sm)) /\
  UNs.nsec (PSSSsm.lastSyncSentTime (thisSM s)) = cts64 /\
  PSSSsm.interval1 (thisSM s) = PPG.syncInterval (ppg sm).

(** the turn that sends *)
Lemma psss_send n cts64 p sm s :
  state s = SEND_MD_SYNC -> last_state s <> SEND_MD_SYNC -> RCVD_PSSYNC s = true ->
  PSSSsm.rcvdPSSyncPtr (thisSM s) = Some p -> ptasg s = ptasg sm -> ppg s = ppg sm ->
  exists s' o, loop (M := machine cts64) (S n) s = Some (s', o) /\ forwarded cts64 p sm s' o.
Proof.
  intros Hs Hl Hr Hp E1 E2. unfold forwarded, md_of. rewrite <- E1, <- E2. clear E1 E2.
  destruct s as [pt pp st ls th di pi ms]. cbn in Hs, Hl, Hp. unfold RCVD_PSSYNC in Hr. cbn in Hr.
  subst st. set (s1 := record_psync p (mk pt pp SEND_MD_SYNC SEND_MD_SYNC th di pi ms)).
  pose proof (send_recorded_fields cts64 s1) as F.
  destruct (send_recorded cts64 s1) as [s2 r] eqn:R. destruct F as [-> F].
  eexists _, _. split.
  - apply (loop_return (M := machine cts64)). rewrite psss_pass_eq, bool_decide_eq_true_2 by done.
    unfold switch, send_md_sync_proc, RCVD_PSSYNC. cbn. rewrite Hr, Hp. cbn.
    match goal with |- context [send_recorded cts64 ?x] => change x with s1 end.
    rewrite R. reflexivity.
  - destruct F as (_ & F1 & F2 & _ & F3 & F4 & F5 & F6). unfold SYNC_LOCKED. by rewrite F1, F2, F4, F6.
Qed.

(** [HM] and [HO] hold of every version of the state with the same port and message *)
Ltac may_go HM HO :=
  match goal with |- context [other_port ?p ?x] =>
    match goal with |- context [may_send ?y] =>
      rewrite (HO : other_port p x = true), (HM : may_send y = true) end end.

(** a ready port with something of another port to send goes on to send it *)
Lemma psss_go cts64 p s :
  ready s -> may_send s = true -> other_port p s = true -> RCVD_PSSYNC s = true ->
  PSSSsm.rcvdPSSyncPtr (thisSM s) = Some p ->
  exists s1, turns (M := machine cts64) s s1 /\ state s1 = SEND_MD_SYNC /\
    last_state s1 <> SEND_MD_SYNC /\ thisSM s1 = thisSM s /\ ptasg s1 = ptasg s /\ ppg s1 = ppg s.
Proof.
  intros (_ & _ & HC & L & Hst) HM HO Hr Hp.
  exists (s <| last_state := if bool_decide (state s = SEND_MD_SYNC) then REACTION else state s |>
            <| state := SEND_MD_SYNC |>).
  unfold turns. rewrite psss_pass_eq, L.
  destruct s as [pt pp st ls th di pi ms]. cbn -[may_send other_port RCVD_PSSYNC] in L, Hst, HC, Hp. subst ls.
  assert (R : PSSSsm.rcvdPSSync th = true) by exact Hr.
  destruct Hst as [-> | [-> | [-> Hk]]]; settle_changes; cbn -[switch]; split_and!; try done.
  - unfold switch, transmit_init_condition, wait_condition, RCVD_PSSYNC. cbn -[may_send other_port].
    rewrite (proj2 (Z.eqb_neq _ _) HC), R, Hp. cbn -[may_send other_port].
    by may_go HM HO.
  - unfold switch, sync_receipt_timeout_condition, wait_condition, RCVD_PSSYNC. cbn -[may_send other_port].
    rewrite R, Hp. cbn -[may_send other_port]. by may_go HM HO.
  - unfold switch, send_md_sync_condition, RCVD_PSSYNC, SYNC_LOCKED in *.
    cbn -[may_send other_port interval_passed] in *. rewrite Hk, andb_false_r, R, Hp.
    cbn -[may_send other_port interval_passed]. by may_go HM HO.
Qed.

(** C25. A PortSyncSync of another port given to a ready master port is sent at once: the origin
    timestamp, correction, rate ratio and time base are those received, and the port is locked
    exactly when its interval is its parent's. *)
Theorem sync_forwarded cts64 p sm :
  ready sm -> may_send sm = true -> other_port p sm = true ->
  let (s, o) := port_sync_sync_send_sm_portSyncSync p cts64 sm in forwarded cts64 p sm s o.
Proof.
  intros (HB & HI & HC & L & Hst) HM HO. unfold port_sync_sync_send_sm_portSyncSync, port_sync_sync_send_sm.
  set (s0 := _ <| thisSM; PSSSsm.rcvdPSSyncPtr := Some p |>).
  assert (A : set_allstate s0 = s0).
  { unfold set_allstate, allstate_condition. cbn -[PORT_UP].
    change (PORT_UP s0) with (PORT_UP sm). rewrite HB, HI.
    unfold may_send in HM. apply andb_true_iff in HM as [-> _]. cbn.
    rewrite (proj2 (Z.eqb_neq _ _) HC). by destruct sm. }
  cut (exists s o, loop (M := machine cts64) fuel s0 = Some (s, o) /\ forwarded cts64 p sm s o).
  { intros (s & o & E & H). rewrite (exec_eq (M := machine cts64) _ s0 (s, o)); [exact H|].
    change (sm_allstate (StateMachine := machine cts64) s0) with (set_allstate s0). by rewrite A. }
  clear A. unfold fuel.
  destruct (psss_go cts64 p s0) as (s1 & T & E1 & E2 & E3 & E4 & E5); try done.
  rewrite (loop_turn (M := machine cts64) _ _ _ T).
  by apply psss_send; try done; unfold RCVD_PSSYNC; rewrite E3.
Qed.

End Procs.
End PSSS.

(** ** Witnesses *)

Module SyncWitness.

(** a bridge whose port 1 is slave, port 2 master and port 3 passive *)
Definition bridge : PerTimeAwareSystemGlobal :=
  zero <| PTASG.instanceEnable := true |> <| PTASG.gmPresent := true |>
       <| PTASG.thisClock := [2;0;0;0;0;0;0;1] |> <| PTASG.parentLogSyncInterval := -3 |>
       <| PTASG.selectedState ::= fun l => aset (aset (aset l 1 SlavePort) 2 MasterPort) 3 PassivePort |>.
Definition port (n : Z) : PerPortGlobal :=
  zero <| PPG.asCapable := true |> <| PPG.ptpPortEnabled := true |> <| PPG.thisPort := n |>
       <| PPG.forAllDomain; PPGALL.portOper := true |> <| PPG.syncReceiptTimeout := 3 |>
       <| PPG.forAllDomain; PPGALL.neighborRateRatio := d1 |>
       <| PPG.currentLogSyncInterval := -3 |> <| PPG.syncInterval; UNs.nsec := 125000000 |>.
Definition sync1 : MDSyncReceive :=
  zero <| MDSR.logMessageInterval := -3 |> <| MDSR.rateRatio := d1 |> <| MDSR.seqid := 7 |>.

(** port 1, but not asCapable *)
Definition incapable1 : PSSR.port_sync_sync_receive_data :=
  PSSR.mk bridge (port 1 <| PPG.asCapable := false |>) PSSR.RECEIVED_SYNC PSSR.RECEIVED_SYNC zero 0 1 zero.

Lemma sync_taken_witness :
  PSSR.taken (PL := platform0) 1000 sync1 incapable1
    (PSSR.port_sync_sync_receive_sm_recvMDSync (PL := platform0) sync1 1000 incapable1).1
    (PSSR.port_sync_sync_receive_sm_recvMDSync (PL := platform0) sync1 1000 incapable1).2.
Proof.
  assert (N : PSSR.state incapable1 <> PSSR.REACTION) by discriminate.
  pose proof (PSSR.sync_taken_as_received (PL := platform0) 1000 sync1 incapable1 N) as H.
  destruct (PSSR.port_sync_sync_receive_sm_recvMDSync sync1 1000 incapable1) as [s o]. exact H.
Defined.

Definition clock0 : gptpclock_data := Gcd.mk ∅ 0 (-1) 1 [].

(** a PortSyncSync of port [n], good until [t] and followed by another at [t'] *)
Definition psync (n t t' : Z) : PortSyncSync :=
  zero <| PSync.localPortIndex := n |> <| PSync.logMessageInterval := -3 |>
       <| PSync.syncReceiptTimeoutTime; UNs.nsec := t |>
       <| PSync.syncNextSendTimeoutTime; UNs.nsec := t' |>.

(** the site relays port 1 *)
Definition site1 : SSS.site_sync_sync_data :=
  SSS.mk bridge SSS.RECEIVING_SYNC SSS.RECEIVING_SYNC (zero <| SSSsm.txPSSyncPtrSSS := true |>) 0
    (psync 1 3000 1500) 3000 1500 clock0.

Lemma site_sync_relay_witness :
  (SSS.site_sync_sync_sm_portSyncSync (CF := config0) (psync 1 4000 2500) 1000 site1).2
  = Ret (Some (psync 1 4000 2500)).
Proof.
  assert (R : SSS.at_rest site1)
    by (unfold SSS.at_rest; split_and!; try reflexivity; right; split; reflexivity).
  pose proof (SSS.site_sync_relay (CF := config0) 1000 (psync 1 4000 2500) site1 R) as H.
  destruct (SSS.site_sync_sync_sm_portSyncSync (psync 1 4000 2500) 1000 site1) as [s o].
  destruct (SSS.relayed 1000 (psync 1 4000 2500) site1) as [q|] eqn:E; vm_compute in E.
  - injection E as <-. exact (proj1 H).
  - discriminate E.
Defined.

(** when the Sync of the slave port is overdue, one that comes in on the passive port 3 is relayed *)
Lemma overdue_relays_passive_port :
  SSS.SELECTED_STATE site1 3 = PassivePort /\
  (SSS.site_sync_sync_sm_portSyncSync (CF := config0) (psync 3 4000 2500) 2000 site1).2
  = Ret (Some (psync 3 4000 2500)).
Proof. split; vm_compute; reflexivity. Qed.

(** the master port 2, locked to its parent *)
Definition master2 : PSSS.port_sync_sync_send_data :=
  PSSS.mk bridge (port 2 <| PPG.syncLocked := true |>) PSSS.SEND_MD_SYNC PSSS.SEND_MD_SYNC zero 0 2 zero.

Lemma sync_forwarded_witness :
  (PSSS.port_sync_sync_send_sm_portSyncSync (CF := config0) (psync 1 4000 2500) 1000 master2).2
  = Ret (Some (PSSS.md_of (psync 1 4000 2500) master2)).
Proof.
  assert (R : PSSS.ready master2).
  { unfold PSSS.ready. split_and!; try reflexivity; [vm_compute; discriminate|].
    right. right. split; reflexivity. }
  pose proof (PSSS.sync_forwarded (CF := config0) 1000 (psync 1 4000 2500) master2 R) as H.
  specialize (H ltac:(vm_compute; reflexivity) ltac:(vm_compute; reflexivity)).
  destruct (PSSS.port_sync_sync_send_sm_portSyncSync (psync 1 4000 2500) 1000 master2) as [s o].
  exact (proj1 H).
Defined.

(** [master2] with a PortSyncSync waiting *)
Definition master2' : PSSS.port_sync_sync_send_data :=
  PSSS.mk bridge (port 2 <| PPG.syncLocked := true |>) PSSS.SEND_MD_SYNC PSSS.SEND_MD_SYNC
    (zero <| PSSSsm.rcvdPSSync := true |> <| PSSSsm.rcvdPSSyncPtr := Some (psync 1 4000 2500) |>)
    0 2 zero.

Lemma sync_only_from_master_witness : PSSS.may_send (CF := config0) master2' = true.
Proof.
  refine (proj1 (PSSS.sync_only_from_master (CF := config0) 1000 master2'
    (PSSS.port_sync_sync_send_sm (CF := config0) 1000 master2').1 (PSSS.md_of (psync 1 4000 2500) master2) _ _)).
  - reflexivity.
  - vm_compute; reflexivity.
Defined.

End SyncWitness.
