(* ===== verification/Wire.v ===== *)
(** * Wire: the announce message on the wire.

    mdeth.c (the common header), md_announce_send_sm.c (MDAS) and
    md_announce_receive_sm.c (MDAR).  A frame is the list of its octets.  The
    composer writes the packed struct member by member, so a composed frame is
    the concatenation of its members; the parser reads members at their offsets
    from the receive buffer, which may be longer than the frame. *)

From S2P Require Import Prelude Types Driver Common.

(** what the header template reads from the configuration: the minor version of a port, the
    ptpTimescale bit and the build option MODE_8021_AS_2011 *)
Class WireConfig := {
  MINOR_VERSION_NUMBER : Z -> Z;
  PTP_TIMESCALE : Z;
  MODE_8021_AS_2011 : bool
}.

(** ** The common header *)

Definition SYNC : Z := 0.
Definition PDELAY_RESP : Z := 3.
Definition FOLLOW_UP : Z := 8.
Definition ANNOUNCE : Z := 11.

(** the 34 octets md_compose_head writes, in the order of the offsets MDPTPMSG_* *)
Definition head_octets (head : PTPMsgHeader) : list Z :=
  [u8 (Z.lor (Z.shiftl (Hdr.majorSdoId head) 4) (Hdr.messageType head));
   u8 (Z.lor (Z.shiftl (Hdr.minorVersionPTP head) 4) (Hdr.versionPTP head))] ++
  be_bytes 2 (Hdr.messageLength head) ++
  [u8 (md_domain_index2number (Hdr.domainIndex head)); u8 (Hdr.minorSdoId head)] ++
  Hdr.flags head ++
  be_bytes 8 (Hdr.correctionField head) ++
  Hdr.messageTypeSpecific head ++
  PortId.clockIdentity (Hdr.sourcePortIdentity head) ++
  be_bytes 2 (md_port_index2number (PortId.portIndex (Hdr.sourcePortIdentity head))) ++
  be_bytes 2 (Hdr.sequenceId head) ++
  [u8 (Hdr.control head); u8 (Hdr.logMessageInterval head)].

Definition md_compose_head (head : PTPMsgHeader) (phead : list Z) : list Z :=
  memcpy_at 0 (head_octets head) phead.

(** [n] octets, or the big-endian number, at an offset *)
Definition octets (off n : nat) (f : list Z) : list Z := take n (drop off f).
Definition octet (off : nat) (f : list Z) : Z := nth off f 0.
Definition ntoh (off n : nat) (f : list Z) : Z := be_val (octets off n f).

Definition md_decompose_head (phead : list Z) : PTPMsgHeader :=
  Hdr.mk (Z.land (Z.shiftr (octet 0 phead) 4) 0xf) (Z.land (octet 0 phead) 0xf)
         (Z.land (Z.shiftr (octet 1 phead) 4) 0xf) (Z.land (octet 1 phead) 0xf)
         (ntoh 2 2 phead) (md_domain_number2index (octet 4 phead)) (octet 5 phead)
         (octets 6 2 phead) (i64 (ntoh 8 8 phead)) (octets 16 4 phead)
         (PortId.mk (octets 20 8 phead) (md_port_number2index (ntoh 28 2 phead)))
         (ntoh 30 2 phead) (octet 32 phead) (i8 (octet 33 phead)).

Section Template.
Context `{WC : WireConfig}.

Definition md_header_template (portIndex msgtype len : Z) (portId : PortIdentity)
    (seqid logMessageInterval : Z) : PTPMsgHeader :=
  Hdr.mk 1 msgtype (u8 (MINOR_VERSION_NUMBER portIndex)) 2 (u16 len) 0 0
    [if (msgtype =? SYNC) || (msgtype =? PDELAY_RESP) then 2 else 0;
     if (msgtype =? ANNOUNCE) || MODE_8021_AS_2011
     then u8 (Z.shiftl (Z.land PTP_TIMESCALE 1) 3) else 0]
    0 (replicate 4 0) portId (u16 seqid)
    (if MODE_8021_AS_2011 then
       if msgtype =? SYNC then 0 else if msgtype =? FOLLOW_UP then 2 else 5
     else 0)
    logMessageInterval.

(** the send buffer's first [ssize] octets: cleared, then the header; None without a network *)
Definition md_header_compose {N : Type} (gpnetd : option N) (msgtype ssize : Z) (thisClock : list Z)
    (thisPort seqid logMessageInterval : Z) : option (list Z) :=
  match gpnetd with
  | None => None
  | Some _ =>
      let head := md_header_template thisPort msgtype ssize (PortId.mk thisClock thisPort)
                    seqid logMessageInterval in
      Some (md_compose_head head (replicate (Z.to_nat ssize) 0))
  end.

End Template.

(** ** Facts about the header *)

(** the members have the widths of the struct *)
Definition wf_head (h : PTPMsgHeader) : Prop :=
  fits 4 (Hdr.majorSdoId h) /\ fits 4 (Hdr.messageType h) /\ fits 4 (Hdr.minorVersionPTP h) /\
  fits 4 (Hdr.versionPTP h) /\ fits 16 (Hdr.messageLength h) /\ fits 8 (Hdr.domainIndex h) /\
  fits 8 (Hdr.minorSdoId h) /\ length (Hdr.flags h) = 2%nat /\
  sfits 64 (Hdr.correctionField h) /\ length (Hdr.messageTypeSpecific h) = 4%nat /\
  length (PortId.clockIdentity (Hdr.sourcePortIdentity h)) = 8%nat /\
  fits 16 (PortId.portIndex (Hdr.sourcePortIdentity h)) /\ fits 16 (Hdr.sequenceId h) /\
  fits 8 (Hdr.control h) /\ sfits 8 (Hdr.logMessageInterval h).

Lemma be_fits n z : fits (8 * Z.of_nat n) z -> be_val (be_bytes n z) = z.
Proof.
  intros H. rewrite be_val_be_bytes. apply Z.mod_small. unfold fits in H.
  by rewrite Z.pow_mul_r in H by lia.
Qed.

Lemma be_signed n z :
  (0 < n)%nat -> sfits (8 * Z.of_nat n) z -> swrap (8 * Z.of_nat n) (be_val (be_bytes n z)) = z.
Proof.
  intros Hn H. rewrite be_val_be_bytes.
  replace (256 ^ Z.of_nat n) with (2 ^ (8 * Z.of_nat n)) by (rewrite Z.pow_mul_r by lia; done).
  change (z mod 2 ^ (8 * Z.of_nat n)) with (wrap (8 * Z.of_nat n) z).
  rewrite swrap_wrap by lia. apply swrap_id; [lia|done].
Qed.

Lemma nibbles a b :
  fits 4 a -> fits 4 b ->
  let o := u8 (Z.lor (Z.shiftl a 4) b) in Z.land (Z.shiftr o 4) 0xf = a /\ Z.land o 0xf = b.
Proof.
  intros Ha Hb.
  assert (T : forallb (fun a => forallb (fun b =>
    let o := u8 (Z.lor (Z.shiftl a 4) b) in
    (Z.land (Z.shiftr o 4) 0xf =? a) && (Z.land o 0xf =? b)) (seqZ 0 16)) (seqZ 0 16) = true)
    by (vm_compute; reflexivity).
  rewrite forallb_forall in T. specialize (T a).
  rewrite forallb_forall in T. specialize (T ltac:(apply list_elem_of_In, elem_of_seqZ; unfold fits in *; lia) b
    ltac:(apply list_elem_of_In, elem_of_seqZ; unfold fits in *; lia)).
  cbn zeta in *. bool_hyps. done.
Qed.

(** the header a receiver takes from a composed one is the header *)
Lemma head_round_trip h rest : wf_head h -> md_decompose_head (head_octets h ++ rest) = h.
Proof.
  intros (N1 & N2 & N3 & N4 & W1 & W2 & W3 & L1 & W4 & L2 & L3 & W5 & W6 & W7 & W8).
  destruct h as [sdo ty mv v len dom msdo fl cf mts [cid pi] seq ctl li]. cbn in *.
  destruct fl as [|f0 [|f1 [|]]]; try discriminate L1.
  do 4 (destruct mts as [|? mts]; [discriminate L2|]). destruct mts; [|discriminate L2].
  do 8 (destruct cid as [|? cid]; [discriminate L3|]). destruct cid; [|discriminate L3].
  destruct (nibbles sdo ty N1 N2) as [E1 E2], (nibbles mv v N3 N4) as [E3 E4].
  unfold md_decompose_head. cbn -[be_val Z.land Z.shiftr Z.shiftl Z.lor wrap swrap be_bytes].
  rewrite E1, E2, E3, E4, (wrap_id 8 dom), (wrap_id 8 msdo), (wrap_id 8 ctl) by done. f_equal.
  - exact (be_fits 2 len W1).
  - exact (be_signed 8 cf ltac:(lia) W4).
  - f_equal. exact (be_fits 2 pi W5).
  - exact (be_fits 2 seq W6).
  - rewrite swrap_wrap by lia. apply swrap_id; [lia|done].
Qed.

Lemma head_octets_length h : wf_head h -> length (head_octets h) = 34%nat.
Proof.
  intros (_ & _ & _ & _ & _ & _ & _ & L1 & _ & L2 & L3 & _). unfold head_octets.
  rewrite !length_app, !be_bytes_length, L1, L2, L3. done.
Qed.

Lemma head_length h :
  length (Hdr.flags h) = 2%nat -> length (Hdr.messageTypeSpecific h) = 4%nat ->
  length (PortId.clockIdentity (Hdr.sourcePortIdentity h)) = 8%nat -> length (head_octets h) = 34%nat.
Proof. intros H1 H2 H3. unfold head_octets. by rewrite !length_app, !be_bytes_length, H1, H2, H3. Qed.

(** the header in a cleared buffer *)
Lemma compose_in_cleared h n :
  length (Hdr.flags h) = 2%nat -> length (Hdr.messageTypeSpecific h) = 4%nat ->
  length (PortId.clockIdentity (Hdr.sourcePortIdentity h)) = 8%nat ->
  md_compose_head h (replicate (34 + n) 0) = head_octets h ++ replicate n 0.
Proof.
  intros H1 H2 H3. unfold md_compose_head, memcpy_at. rewrite take_0, drop_replicate. cbn [app].
  rewrite (head_length h) by done. do 2 f_equal. lia.
Qed.

(** members read at their offsets *)
Lemma head_reads h rest :
  wf_head h ->
  let b := head_octets h ++ rest in
  octet 4 b = Hdr.domainIndex h /\ ntoh 30 2 b = Hdr.sequenceId h /\
  PortId.mk (octets 20 8 b) (ntoh 28 2 b) = Hdr.sourcePortIdentity h /\
  i8 (octet 33 b) = Hdr.logMessageInterval h.
Proof.
  intros W b. pose proof (head_round_trip h rest W) as E. fold b in E. rewrite <- E. by split_and!.
Qed.

Lemma correction_read h rest :
  length (Hdr.flags h) = 2%nat -> ntoh 8 8 (head_octets h ++ rest) = u64 (Hdr.correctionField h).
Proof.
  intros L. destruct h as [sdo ty mv v len dom msdo fl cf mts id seq ctl li]. cbn [Hdr.flags] in L.
  destruct fl as [|f0 [|f1 [|]]]; try discriminate L. exact (be_val_be_bytes 8 cf).
Qed.

(** ** MDAnnounceSend *)

Module MDAS.

Inductive md_announce_send_state_t := INIT | INITIALIZE | SEND_ANNOUNCE | REACTION.
#[export] Instance state_eqdec : EqDecision md_announce_send_state_t.
Proof. solve_decision. Defined.

(** [gpnetd]: the frames given to the network, None if there is no network *)
Record md_announce_send_data := mk {
  gpnetd : option (list (list Z));
  ptasg : PerTimeAwareSystemGlobal;
  ppg : PerPortGlobal;
  bppg : BmcsPerPortGlobal;
  state : md_announce_send_state_t;
  last_state : md_announce_send_state_t;
  thisSM : MDAnnounceSendSM;
  domainIndex : Z;
  portIndex : Z
}.
#[export] Instance eta_data : Eta md_announce_send_data :=
  fields! mk [gpnetd, ptasg, ppg, bppg, state, last_state, thisSM, domainIndex, portIndex].
Abbreviation data := md_announce_send_data.

(** the frame has 68 octets before the path sequence *)
Definition frame_size (N : Z) : Z := 1500 - (Z.of_nat MAX_PATH_TRACE_N - N) * 8.

Section Procs.
Context `{WC : WireConfig}.
(** gptpnet_send_whook(..)==-1: the driver refuses the frame *)
Variable refuses : list (list Z) -> list Z -> bool.

(** the members of MDPTPMsgAnnounce after the header *)
Definition announce_body (m : PTPMsgAnnounce) (N : nat) : list Z :=
  replicate 10 0 ++ be_bytes 2 (Ann.currentUtcOffset m) ++ [0; u8 (Ann.grandmasterPriority1 m)] ++
  [u8 (ClkQ.clockClass (Ann.grandmasterClockQuality m));
   u8 (ClkQ.clockAccuracy (Ann.grandmasterClockQuality m))] ++
  be_bytes 2 (ClkQ.offsetScaledLogVariance (Ann.grandmasterClockQuality m)) ++
  [u8 (Ann.grandmasterPriority2 m)] ++ Ann.grandmasterIdentity m ++
  be_bytes 2 (Ann.stepsRemoved m) ++ [u8 (Ann.timeSource m)] ++
  be_bytes 2 (Ann.tlvType m) ++ be_bytes 2 (Ann.tlvLength m) ++
  take (8 * N) (Ann.pathSequence m).

(** the header as it leaves: the template's with the domain and the flags of the announce *)
Definition announce_head (m : PTPMsgAnnounce) (sm : data) : PTPMsgHeader :=
  md_header_template (PPG.thisPort (ppg sm)) ANNOUNCE (frame_size (Ann.tlvLength m / 8))
    (PortId.mk (PTASG.thisClock (ptasg sm)) (PPG.thisPort (ppg sm)))
    (Hdr.sequenceId (Ann.header m)) (BPPG.currentLogAnnounceInterval (bppg sm))
  <| Hdr.domainIndex := md_domain_index2number (PTASG.domainIndex (ptasg sm)) |>
  <| Hdr.flags := [aget 0 (Hdr.flags (Ann.header m)) 0; aget 0 (Hdr.flags (Ann.header m)) 1] |>.

(** the octets sendAnnounce hands over: the last four are cut off without a path trace if the
    instance conforms to Avnu *)
Definition announce_frame (m : PTPMsgAnnounce) (sm : data) : list Z :=
  let N := Ann.tlvLength m / 8 in
  let f := head_octets (announce_head m sm) ++ announce_body m (Z.to_nat N) in
  if (Ann.tlvLength m =? 0) && PTASG.conformToAvnu (ptasg sm) then take 64 f else f.

(** the result code of the C function, and the new state *)
Definition sendAnnounce (m : PTPMsgAnnounce) (sm : data) : data * Z :=
  match gpnetd sm with
  | None => (sm, -1)
  | Some net =>
      let f := announce_frame m sm in
      if refuses net f then (sm, -2)
      else (sm <| gpnetd := Some (net ++ [f]) |>
               <| ppg; PPG.perfmonDS ::= PERFMON_PPMDR (fun r => r <| PortDR.announceTx ::= inc32 |>) |>, 0)
  end.

Definition PORT_UP (sm : data) : bool :=
  PPGALL.portOper (PPG.forAllDomain (ppg sm)) && PPG.ptpPortEnabled (ppg sm) &&
  PPG.asCapable (ppg sm).

Definition allstate_condition (sm : data) : data * md_announce_send_state_t :=
  if PTASG.BEGIN (ptasg sm) || negb (PTASG.instanceEnable (ptasg sm)) || negb (PORT_UP sm)
  then (sm <| last_state := REACTION |>, INITIALIZE) else (sm, state sm).

Definition initialize_proc (sm : data) : data := sm.

Definition initialize_condition (sm : data) : md_announce_send_state_t :=
  if MDASsm.rcvdTxAnnounce (thisSM sm) then SEND_ANNOUNCE else INITIALIZE.

Definition send_announce_proc (m : PTPMsgAnnounce) (sm : data) : data * Z :=
  sendAnnounce m (sm <| thisSM; MDASsm.rcvdTxAnnounce := false |>).

Definition send_announce_condition (sm : data) : data :=
  (if MDASsm.rcvdTxAnnounce (thisSM sm) then sm <| last_state := REACTION |> else sm)
    <| state := SEND_ANNOUNCE |>.

Definition switch (state_change : bool) (sm : data) : data * ctl unit :=
  match state sm with
  | INIT => (sm <| state := INITIALIZE |>, Next)
  | INITIALIZE =>
      let sm := if state_change then initialize_proc sm else sm in
      (sm <| state := initialize_condition sm |>, Next)
  | SEND_ANNOUNCE =>
      if state_change then
        deref (MDASsm.txAnnouncePtr (thisSM sm)) sm (fun m =>
          let (sm, rc) := send_announce_proc m sm in
          if rc =? -2 then (sm <| last_state := REACTION |>, Leave (Ret None)) else (sm, Next))
      else (send_announce_condition sm, Next)
  | REACTION => (sm, Next)
  end.

Definition set_last (e : md_announce_send_state_t) (sm : data) : data := sm <| last_state := e |>.
Definition set_allstate (sm : data) : data :=
  let (sm, st) := allstate_condition sm in sm <| state := st |>.

Definition machine : StateMachine data md_announce_send_state_t unit := {|
  sm_state := state;
  sm_last := last_state;
  sm_set_last := set_last;
  sm_allstate := set_allstate;
  sm_switch := switch;
  sm_state_set_last := fun _ _ => eq_refl;
  sm_last_set_last := fun _ _ => eq_refl
|}.

(** INIT, INITIALIZE, a resting SEND_ANNOUNCE, SEND_ANNOUNCE *)
Definition fuel : nat := 6.

Definition md_announce_send_sm (sm : data) : data * outcome unit := exec (M := machine) fuel sm.

Definition md_announce_send_sm_init (domainIndex portIndex : Z) (gpnetd : option (list (list Z)))
    (ptasg : PerTimeAwareSystemGlobal) (ppg : PerPortGlobal) (bppg : BmcsPerPortGlobal) : data :=
  mk gpnetd ptasg ppg bppg INIT INIT zero domainIndex portIndex.

Definition md_announce_send_sm_mdAnnouncSend (m : PTPMsgAnnounce) (sm : data) : data * outcome unit :=
  md_announce_send_sm
    (sm <| thisSM; MDASsm.rcvdTxAnnounce := true |> <| thisSM; MDASsm.txAnnouncePtr := Some m |>
        <| last_state := REACTION |>).

Definition rank (sm : data) : nat :=
  match state sm with
  | INIT => 4
  | INITIALIZE => 3
  | SEND_ANNOUNCE => if bool_decide (last_state sm <> state sm) then 1 else 2
  | REACTION => 0
  end.

Lemma mdas_pass_eq sm :
  pass (M := machine) sm = switch (bool_decide (last_state sm <> state sm)) (set_last (state sm) sm).
Proof. reflexivity. Qed.

(** the header of the frame is md_header_compose's, with the domain number (octet 4) and the flags
    (octets 6 and 7) written over it *)
Lemma announce_head_written m sm net :
  gpnetd sm = Some net -> length (PTASG.thisClock (ptasg sm)) = 8%nat ->
  let size := frame_size (Ann.tlvLength m / 8) in
  exists buf,
    md_header_compose (gpnetd sm) ANNOUNCE size (PTASG.thisClock (ptasg sm)) (PPG.thisPort (ppg sm))
      (Hdr.sequenceId (Ann.header m)) (BPPG.currentLogAnnounceInterval (bppg sm)) = Some buf /\
    memcpy_at 6 [aget 0 (Hdr.flags (Ann.header m)) 0; aget 0 (Hdr.flags (Ann.header m)) 1]
      (memcpy_at 4 [u8 (PTASG.domainIndex (ptasg sm))] buf) =
    head_octets (announce_head m sm) ++ replicate (Z.to_nat size - 34) 0.
Proof.
  intros Hn Hc size. unfold md_header_compose, md_compose_head. rewrite Hn. eexists. split; [reflexivity|].
  unfold announce_head. fold size.
  destruct (PTASG.thisClock (ptasg sm)) as [|c0 [|c1 [|c2 [|c3 [|c4 [|c5 [|c6 [|c7 [|]]]]]]]]];
    try discriminate Hc.
  unfold memcpy_at at 3. rewrite take_0, drop_replicate.
  cbn [length Nat.add head_octets app md_header_template]. reflexivity.
Qed.

(** sendAnnounce touches the network and the counters only *)
Lemma sendAnnounce_fields m sm :
  let (s, rc) := sendAnnounce m sm in
  state s = state sm /\ last_state s = last_state sm /\ thisSM s = thisSM sm /\ ptasg s = ptasg sm /\
  (rc = -2 -> gpnetd s = gpnetd sm) /\
  (rc = 0 -> exists net, gpnetd sm = Some net /\ gpnetd s = Some (net ++ [announce_frame m sm])) /\
  (rc = 0 \/ rc = -2 \/ rc = -1 /\ gpnetd sm = None).
Proof.
  unfold sendAnnounce. destruct (gpnetd sm) as [net|] eqn:E; [destruct (refuses net _)|].
  all: cbn -[announce_frame]; split_and!; auto; try lia; try (intros; lia).
  intros _. by exists net.
Qed.

#[local] Opaque sendAnnounce announce_frame.

Lemma mdas_turns (s s' : data) : turns (M := machine) s s' -> (rank s' < rank s)%nat.
Proof.
  intros [H Hne]. rewrite mdas_pass_eq in H. cbn in Hne.
  destruct s as [net pt pp bp st ls th di pi]. unfold rank at 2.
  unfold switch, deref, send_announce_proc in H. cbn in *.
  destruct st; cbn in H; try (case_bool_decide as C; cbn in H).
  all: try (destruct (MDASsm.txAnnouncePtr th) as [m|]; [|discriminate H]).
  all: try match type of H with context [sendAnnounce ?m ?x] =>
    pose proof (sendAnnounce_fields m x) as F; destruct (sendAnnounce m x) as [s1 rc];
    destruct F as (F1 & F2 & _); cbn in F1, F2; destruct (rc =? -2); [discriminate H|] end.
  all: injection H as <-; cbn in Hne; unfold initialize_condition in *; cbn in Hne.
  all: try congruence; repeat (destruct_cond_in Hne; cbn in Hne); try done.
  all: unfold rank; cbn; settle_changes; repeat (destruct_cond; cbn in * ); settle_changes; try done; lia.
Qed.

Lemma mdas_ends sm : run (M := machine) fuel sm = Some (md_announce_send_sm sm).
Proof.
  apply exec_run. unfold run.
  apply (loop_ends (M := machine)) with (Inv := fun _ => True) (rank := rank); [|done|].
  - intros s s' _ H. split; [done|by apply mdas_turns].
  - unfold rank, fuel. destruct (state _); try case_bool_decide; lia.
Qed.

(** the call has given [m] to the network, or will try again at the next one *)
Definition handed (m : PTPMsgAnnounce) (sm s : data) (o : outcome unit) : Prop :=
  o = Ret None /\ state s = SEND_ANNOUNCE /\ MDASsm.txAnnouncePtr (thisSM s) = Some m /\
  exists net, gpnetd sm = Some net /\
  if refuses net (announce_frame m sm) then gpnetd s = Some net /\ last_state s = REACTION
  else gpnetd s = Some (net ++ [announce_frame m sm]) /\ last_state s = SEND_ANNOUNCE.

(** the turn that sends *)
Lemma mdas_send n m sm s :
  state s = SEND_ANNOUNCE -> last_state s <> SEND_ANNOUNCE ->
  MDASsm.txAnnouncePtr (thisSM s) = Some m -> is_Some (gpnetd s) ->
  gpnetd s = gpnetd sm -> announce_frame m s = announce_frame m sm ->
  exists s' o, loop (M := machine) (S n) s = Some (s', o) /\ handed m sm s' o.
Proof.
  intros Hs Hl Hm [net Hn] E1 E2. unfold handed. rewrite <- E1, <- E2. clear E1 E2.
  destruct s as [nt pt pp bp st ls th di pi]. cbn in Hs, Hl, Hm, Hn. subst st nt.
  set (s1 := mk (Some net) pt pp bp SEND_ANNOUNCE SEND_ANNOUNCE (th <| MDASsm.rcvdTxAnnounce := false |>) di pi).
  assert (P : pass (M := machine) (mk (Some net) pt pp bp SEND_ANNOUNCE ls th di pi) =
    let (s2, rc) := sendAnnounce m s1 in
    if rc =? -2 then (s2 <| last_state := REACTION |>, Leave (Ret None)) else (s2, Next)).
  { rewrite mdas_pass_eq, bool_decide_eq_true_2 by done. unfold switch. cbn. rewrite Hm. reflexivity. }
  assert (F : announce_frame m s1 = announce_frame m (mk (Some net) pt pp bp SEND_ANNOUNCE ls th di pi))
    by (with_strategy transparent [announce_frame] reflexivity).
  rewrite <- F.
  assert (S : sendAnnounce m s1 = if refuses net (announce_frame m s1) then (s1, -2)
    else (s1 <| gpnetd := Some (net ++ [announce_frame m s1]) |>
             <| ppg; PPG.perfmonDS ::= PERFMON_PPMDR (fun r => r <| PortDR.announceTx ::= inc32 |>) |>, 0))
    by (with_strategy transparent [sendAnnounce] reflexivity).
  rewrite S in P. clear S. destruct (refuses net (announce_frame m s1)) eqn:R; cbn in P.
  - eexists _, _. split; [by apply (loop_return (M := machine))|].
    split_and!; try done. exists net. split; [done|]. cbn -[announce_frame]. by rewrite R.
  - eexists _, _. split; [apply (loop_stop (M := machine)); [exact P|done]|].
    split_and!; try done. exists net. split; [done|]. by rewrite R.
Qed.

Lemma announce_frame_eq m s s' :
  ptasg s = ptasg s' -> ppg s = ppg s' -> bppg s = bppg s' -> announce_frame m s = announce_frame m s'.
Proof.
  with_strategy transparent [announce_frame] unfold announce_frame, announce_head. by intros -> -> ->.
Qed.

(** the turn through INITIALIZE with an announce waiting, then the one that sends *)
Lemma mdas_send_init n m sm s :
  state s = INITIALIZE -> MDASsm.rcvdTxAnnounce (thisSM s) = true ->
  MDASsm.txAnnouncePtr (thisSM s) = Some m -> is_Some (gpnetd s) ->
  gpnetd s = gpnetd sm -> announce_frame m s = announce_frame m sm ->
  exists s' o, loop (M := machine) (S (S n)) s = Some (s', o) /\ handed m sm s' o.
Proof.
  intros Hs Hr Hm Hn E1 E2. destruct s as [nt pt pp bp st ls th di pi]. cbn in Hs, Hr, Hm, Hn, E1. subst st.
  assert (P : pass (M := machine) (mk nt pt pp bp INITIALIZE ls th di pi) =
              (mk nt pt pp bp SEND_ANNOUNCE INITIALIZE th di pi, Next)).
  { rewrite mdas_pass_eq. unfold switch. cbn. unfold initialize_condition, initialize_proc.
    destruct_cond; cbn; by rewrite Hr. }
  erewrite (loop_turn (M := machine)); [|split; [exact P|discriminate]].
  by apply mdas_send.
Qed.

Lemma mdas_deliver m s :
  state s <> REACTION -> last_state s = REACTION -> MDASsm.rcvdTxAnnounce (thisSM s) = true ->
  MDASsm.txAnnouncePtr (thisSM s) = Some m -> is_Some (gpnetd s) ->
  exists s' o, loop (M := machine) fuel s = Some (s', o) /\ handed m s s' o.
Proof.
  intros Hs Hl Hr Hm Hn. unfold fuel. destruct (state s) eqn:St; [| | |done].
  - destruct s as [nt pt pp bp st ls th di pi]. cbn in St, Hl, Hr, Hm, Hn. subst.
    turn machine. by apply mdas_send_init.
  - by apply mdas_send_init.
  - apply mdas_send; congruence.
Qed.

(** An announce handed to the sender is composed and given to the network in that call; if the
    driver refuses it, the machine stays armed and the next evaluation sends it again. *)
Theorem announce_handed_to_network m sm :
  state sm <> REACTION -> is_Some (gpnetd sm) ->
  let (s, o) := md_announce_send_sm_mdAnnouncSend m sm in
  handed m sm s o /\
  (last_state s = REACTION -> allstate_condition s = (s, state s) ->
   let (s', o') := md_announce_send_sm s in handed m s s' o').
Proof.
  intros Hs Hn. unfold md_announce_send_sm_mdAnnouncSend, md_announce_send_sm.
  set (s0 := _ <| last_state := REACTION |>).
  destruct (mdas_deliver m (set_allstate s0)) as (s & o & E & H).
  1-5: unfold set_allstate, allstate_condition; by destruct_cond.
  rewrite (exec_eq (M := machine) _ _ _ E).
  assert (H' : handed m sm s o).
  { unfold handed in *.
    rewrite (announce_frame_eq m sm (set_allstate s0))
      by (unfold set_allstate, allstate_condition; by destruct_cond).
    replace (gpnetd sm) with (gpnetd (set_allstate s0))
      by (unfold set_allstate, allstate_condition; by destruct_cond). exact H. }
  split; [exact H'|]. intros L A. destruct H' as (_ & St & Pt & net & _ & G).
  destruct (mdas_send 5 m s s) as (s' & o' & E' & H'); try done.
  - congruence.
  - destruct (refuses _ _); destruct G as [-> G]; eauto.
  - rewrite (exec_eq (M := machine) _ s (s', o')); [done|].
    change (sm_allstate (StateMachine := machine) s) with (set_allstate s). unfold set_allstate.
    rewrite A. replace (s <| state := state s |>) with s by (by destruct s). exact E'.
Qed.

End Procs.
End MDAS.

(** ** MDAnnounceReceive *)

Module MDAR.

Inductive md_announce_receive_state_t := INIT | INITIALIZE | RECV_ANNOUNCE | REACTION.
#[export] Instance state_eqdec : EqDecision md_announce_receive_state_t.
Proof. solve_decision. Defined.

Record md_announce_receive_data := mk {
  ptasg : PerTimeAwareSystemGlobal;
  ppg : PerPortGlobal;
  state : md_announce_receive_state_t;
  last_state : md_announce_receive_state_t;
  thisSM : MDAnnounceReceiveSM;
  domainIndex : Z;
  portIndex : Z;
  rcvdAnnounce : PTPMsgAnnounce;
  cmlds_mode : Z
}.
#[export] Instance eta_data : Eta md_announce_receive_data :=
  fields! mk [ptasg, ppg, state, last_state, thisSM, domainIndex, portIndex, rcvdAnnounce, cmlds_mode].
Abbreviation data := md_announce_receive_data.

Definition IEEE_1588_ANNOUNCE_NO_TLV_SIZE : Z := 64.

(** the fixed members, read at their offsets *)
Definition read_fixed (buf : list Z) (a : PTPMsgAnnounce) : PTPMsgAnnounce :=
  a <| Ann.currentUtcOffset := i16 (ntoh 44 2 buf) |>
    <| Ann.grandmasterPriority1 := octet 47 buf |>
    <| Ann.grandmasterClockQuality :=
         ClkQ.mk (octet 48 buf) (octet 49 buf) (ntoh 50 2 buf) |>
    <| Ann.grandmasterPriority2 := octet 52 buf |>
    <| Ann.grandmasterIdentity := octets 53 8 buf |>
    <| Ann.stepsRemoved := ntoh 61 2 buf |>
    <| Ann.timeSource := octet 63 buf |>.

(** the TLV, when the message is long enough to have one; false: malformed *)
Definition read_tlv (buf : list Z) (a : PTPMsgAnnounce) : PTPMsgAnnounce * bool :=
  let len := ntoh 2 2 buf in
  if IEEE_1588_ANNOUNCE_NO_TLV_SIZE <? len then
    let tlvLength := ntoh 66 2 buf in
    let a := a <| Ann.tlvType := ntoh 64 2 buf |> <| Ann.tlvLength := tlvLength |>
               <| Ann.pathSequence := replicate (MAX_PATH_TRACE_N * 8) 0xFF |> in
    if (tlvLength <=? len - (IEEE_1588_ANNOUNCE_NO_TLV_SIZE + 2 + 2)) &&
       (tlvLength / 8 <=? Z.of_nat MAX_PATH_TRACE_N)
    then (a <| Ann.pathSequence ::= memcpy_at 0 (octets 68 (Z.to_nat tlvLength) buf) |>, true)
    else (a, false)
  else (a, true).

Definition recAnnounce (buf : list Z) (sm : data) : data * option PTPMsgAnnounce :=
  let sm := sm <| rcvdAnnounce; Ann.header := md_decompose_head buf |> in
  if (cmlds_mode sm =? 0) && negb (Hdr.majorSdoId (Ann.header (rcvdAnnounce sm)) =? 1) then (sm, None)
  else
    let (a, ok) := read_tlv buf (read_fixed buf (rcvdAnnounce sm)) in
    let sm := sm <| rcvdAnnounce := a |> in
    if ok then
      (sm <| ppg; PPG.perfmonDS ::=
               PERFMON_PPMDR (fun r => r <| PortDR.announceForeignMasterRx ::= inc32 |>) |>, Some a)
    else (sm, None).

Definition PORT_UP (sm : data) : bool :=
  PPGALL.portOper (PPG.forAllDomain (ppg sm)) && PPG.ptpPortEnabled (ppg sm) &&
  PPG.asCapable (ppg sm).

Definition allstate_condition (sm : data) : data * md_announce_receive_state_t :=
  if PTASG.BEGIN (ptasg sm) || negb (PTASG.instanceEnable (ptasg sm)) || negb (PORT_UP sm)
  then (sm <| last_state := REACTION |>, INITIALIZE) else (sm, state sm).

Definition initialize_proc (sm : data) : data := sm.

Definition initialize_condition (sm : data) : md_announce_receive_state_t :=
  if MDARsm.rcvdRxAnnounce (thisSM sm) then RECV_ANNOUNCE else INITIALIZE.

Definition recv_announce_proc (buf : list Z) (sm : data) : data * option PTPMsgAnnounce :=
  recAnnounce buf (sm <| thisSM; MDARsm.rcvdRxAnnounce := false |>).

Definition recv_announce_condition (sm : data) : data :=
  (if MDARsm.rcvdRxAnnounce (thisSM sm) then sm <| last_state := REACTION |> else sm)
    <| state := RECV_ANNOUNCE |>.

Definition switch (state_change : bool) (sm : data) : data * ctl PTPMsgAnnounce :=
  match state sm with
  | INIT => (sm <| state := INITIALIZE |>, Next)
  | INITIALIZE =>
      let sm := if state_change then initialize_proc sm else sm in
      (sm <| state := initialize_condition sm |>, Next)
  | RECV_ANNOUNCE =>
      if state_change then
        deref (MDARsm.rxAnnouncePtr (thisSM sm)) sm (fun buf =>
          let (sm, retp) := recv_announce_proc buf sm in (sm, ret_if retp))
      else (recv_announce_condition sm, Next)
  | REACTION => (sm, Next)
  end.

Definition set_last (e : md_announce_receive_state_t) (sm : data) : data := sm <| last_state := e |>.
Definition set_allstate (sm : data) : data :=
  let (sm, st) := allstate_condition sm in sm <| state := st |>.

Definition machine : StateMachine data md_announce_receive_state_t PTPMsgAnnounce := {|
  sm_state := state;
  sm_last := last_state;
  sm_set_last := set_last;
  sm_allstate := set_allstate;
  sm_switch := switch;
  sm_state_set_last := fun _ _ => eq_refl;
  sm_last_set_last := fun _ _ => eq_refl
|}.

(** INIT, INITIALIZE, a resting RECV_ANNOUNCE, RECV_ANNOUNCE *)
Definition fuel : nat := 6.

Definition md_announce_receive_sm (sm : data) : data * outcome PTPMsgAnnounce :=
  exec (M := machine) fuel sm.

(** [cmlds] is XL4_EXTMOD_XL4GPTP_CMLDS_MODE *)
Definition md_announce_receive_sm_init (domainIndex portIndex cmlds : Z)
    (ptasg : PerTimeAwareSystemGlobal) (ppg : PerPortGlobal) : data :=
  mk ptasg ppg INIT INIT zero domainIndex portIndex zero cmlds.

Definition md_announce_receive_sm_mdAnnounceRec (buf : list Z) (sm : data)
  : data * outcome PTPMsgAnnounce :=
  md_announce_receive_sm
    (sm <| thisSM; MDARsm.rcvdRxAnnounce := true |> <| thisSM; MDARsm.rxAnnouncePtr := Some buf |>
        <| last_state := REACTION |>).

Definition rank (sm : data) : nat :=
  match state sm with
  | INIT => 4
  | INITIALIZE => 3
  | RECV_ANNOUNCE => if bool_decide (last_state sm <> state sm) then 1 else 2
  | REACTION => 0
  end.

Lemma mdar_pass_eq sm :
  pass (M := machine) sm = switch (bool_decide (last_state sm <> state sm)) (set_last (state sm) sm).
Proof. reflexivity. Qed.

(** recAnnounce touches the message and the counters only *)
Lemma recAnnounce_fields buf sm :
  let (s, r) := recAnnounce buf sm in
  state s = state sm /\ last_state s = last_state sm /\ thisSM s = thisSM sm /\ ptasg s = ptasg sm.
Proof.
  unfold recAnnounce. destruct_cond; [repeat apply conj; reflexivity|].
  destruct (read_tlv _ _) as [a ok]. destruct ok; repeat apply conj; reflexivity.
Qed.

#[local] Opaque recAnnounce.

Lemma mdar_turns (s s' : data) : turns (M := machine) s s' -> (rank s' < rank s)%nat.
Proof.
  intros [H Hne]. rewrite mdar_pass_eq in H. cbn in Hne.
  destruct s as [pt pp st ls th di pi ra cm]. unfold rank at 2.
  unfold switch, deref, recv_announce_proc in H. cbn in *.
  destruct st; cbn in H; try (case_bool_decide as C; cbn in H).
  all: try (destruct (MDARsm.rxAnnouncePtr th) as [m|]; [|discriminate H]).
  all: try match type of H with context [recAnnounce ?m ?x] =>
    pose proof (recAnnounce_fields m x) as F; destruct (recAnnounce m x) as [s1 r];
    destruct F as (F1 & F2 & _); cbn in F1, F2; destruct r; [discriminate H|] end.
  all: injection H as <-; cbn in Hne; unfold initialize_condition in *; cbn in Hne.
  all: try congruence; repeat (destruct_cond_in Hne; cbn in Hne); try done.
  all: unfold rank; cbn; settle_changes; repeat (destruct_cond; cbn in * ); settle_changes; try done; lia.
Qed.

Lemma mdar_ends sm : run (M := machine) fuel sm = Some (md_announce_receive_sm sm).
Proof.
  apply exec_run. unfold run.
  apply (loop_ends (M := machine)) with (Inv := fun _ => True) (rank := rank); [|done|].
  - intros s s' _ H. split; [done|by apply mdar_turns].
  - unfold rank, fuel. destruct (state _); try case_bool_decide; lia.
Qed.

(** the result of a call that has parsed [buf] *)
Definition parsed (buf : list Z) (sm s : data) (o : outcome PTPMsgAnnounce) : Prop :=
  exists sm1, rcvdAnnounce sm1 = rcvdAnnounce sm /\ cmlds_mode sm1 = cmlds_mode sm /\
  o = Ret (recAnnounce buf sm1).2 /\ rcvdAnnounce s = rcvdAnnounce (recAnnounce buf sm1).1.

(** the turn that parses *)
Lemma mdar_parse n buf sm s :
  state s = RECV_ANNOUNCE -> last_state s <> RECV_ANNOUNCE ->
  MDARsm.rxAnnouncePtr (thisSM s) = Some buf ->
  rcvdAnnounce s = rcvdAnnounce sm -> cmlds_mode s = cmlds_mode sm ->
  exists s' o, loop (M := machine) (S n) s = Some (s', o) /\ parsed buf sm s' o.
Proof.
  intros Hs Hl Hb E1 E2. unfold parsed. rewrite <- E1, <- E2. clear E1 E2.
  destruct s as [pt pp st ls th di pi ra cm]. cbn in Hs, Hl, Hb. subst st.
  set (s1 := mk pt pp RECV_ANNOUNCE RECV_ANNOUNCE (th <| MDARsm.rcvdRxAnnounce := false |>) di pi ra cm).
  assert (P : pass (M := machine) (mk pt pp RECV_ANNOUNCE ls th di pi ra cm) =
    let (s2, r) := recAnnounce buf s1 in (s2, ret_if r)).
  { rewrite mdar_pass_eq, bool_decide_eq_true_2 by done. unfold switch. cbn. rewrite Hb. reflexivity. }
  pose proof (recAnnounce_fields buf s1) as F.
  destruct (recAnnounce buf s1) as [s2 [a|]] eqn:R; cbn in P.
  - eexists _, _. split; [by apply (loop_return (M := machine))|]. exists s1. by rewrite R.
  - eexists _, _. split; [apply (loop_stop (M := machine)); [exact P|]|exists s1; by rewrite R].
    destruct F as (F1 & F2 & _). cbn in *. congruence.
Qed.

Lemma mdar_parse_init n buf sm s :
  state s = INITIALIZE -> MDARsm.rcvdRxAnnounce (thisSM s) = true ->
  MDARsm.rxAnnouncePtr (thisSM s) = Some buf ->
  rcvdAnnounce s = rcvdAnnounce sm -> cmlds_mode s = cmlds_mode sm ->
  exists s' o, loop (M := machine) (S (S n)) s = Some (s', o) /\ parsed buf sm s' o.
Proof.
  intros Hs Hr Hb E1 E2. destruct s as [pt pp st ls th di pi ra cm]. cbn in Hs, Hr, Hb, E1, E2. subst st.
  assert (P : pass (M := machine) (mk pt pp INITIALIZE ls th di pi ra cm) =
              (mk pt pp RECV_ANNOUNCE INITIALIZE th di pi ra cm, Next)).
  { rewrite mdar_pass_eq. unfold switch. cbn. unfold initialize_condition, initialize_proc.
    destruct_cond; cbn; by rewrite Hr. }
  erewrite (loop_turn (M := machine)); [|split; [exact P|discriminate]]. by apply mdar_parse.
Qed.

(** every frame is parsed in the call that delivers it *)
Lemma mdar_deliver buf sm :
  state sm <> REACTION ->
  let (s, o) := md_announce_receive_sm_mdAnnounceRec buf sm in parsed buf sm s o.
Proof.
  intros Hs. unfold md_announce_receive_sm_mdAnnounceRec, md_announce_receive_sm.
  set (s0 := _ <| last_state := REACTION |>).
  cut (exists s o, loop (M := machine) fuel (set_allstate s0) = Some (s, o) /\ parsed buf sm s o).
  { intros (s & o & E & H). by rewrite (exec_eq (M := machine) _ _ _ E). }
  unfold fuel, set_allstate, allstate_condition. destruct_cond; [by apply mdar_parse_init|].
  destruct sm as [pt pp st ls th di pi ra cm]. cbn in Hs. unfold s0. destruct st; [| | |done].
  - turn machine. by apply mdar_parse_init.
  - by apply mdar_parse_init.
  - by apply mdar_parse.
Qed.

End MDAR.

(** ** From the sender to the receiver *)

Section RoundTrip.
Context `{WC : WireConfig}.

(** the members of an announce have the widths of the struct *)
Definition wf_announce (m : PTPMsgAnnounce) : Prop :=
  sfits 16 (Ann.currentUtcOffset m) /\ fits 8 (Ann.grandmasterPriority1 m) /\
  fits 8 (ClkQ.clockClass (Ann.grandmasterClockQuality m)) /\
  fits 8 (ClkQ.clockAccuracy (Ann.grandmasterClockQuality m)) /\
  fits 16 (ClkQ.offsetScaledLogVariance (Ann.grandmasterClockQuality m)) /\
  fits 8 (Ann.grandmasterPriority2 m) /\ length (Ann.grandmasterIdentity m) = 8%nat /\
  fits 16 (Ann.stepsRemoved m) /\ fits 8 (Ann.timeSource m) /\ fits 16 (Ann.tlvType m) /\
  length (Ann.pathSequence m) = (8 * MAX_PATH_TRACE_N)%nat.

(** the TLV holds [N] whole identities *)
Definition path_entries (m : PTPMsgAnnounce) (N : nat) : Prop :=
  Ann.tlvLength m = 8 * Z.of_nat N /\ (N <= MAX_PATH_TRACE_N)%nat.

(** what the receiver has of [m]: unused path entries are all ones *)
Definition as_received (m : PTPMsgAnnounce) (N : nat) (sm : MDAS.data) : PTPMsgAnnounce :=
  m <| Ann.header := MDAS.announce_head m sm |>
    <| Ann.pathSequence :=
         take (8 * N) (Ann.pathSequence m) ++ replicate (8 * MAX_PATH_TRACE_N - 8 * N) 0xFF |>.

Lemma octets_skip a b off n : length a = 34%nat -> octets (34 + off) n (a ++ b) = octets off n b.
Proof. intros H. unfold octets. rewrite <- H at 1. by rewrite drop_app_add'. Qed.

Lemma octet_skip a b off : length a = 34%nat -> octet (34 + off) (a ++ b) = octet off b.
Proof. intros H. unfold octet. rewrite app_nth2 by lia. f_equal. lia. Qed.

Lemma ntoh_skip a b off n : length a = 34%nat -> ntoh (34 + off) n (a ++ b) = ntoh off n b.
Proof. intros H. unfold ntoh. by rewrite octets_skip. Qed.

Lemma body_fixed h m N rest a :
  length h = 34%nat -> wf_announce m ->
  let r := MDAR.read_fixed (h ++ MDAS.announce_body m N ++ rest) a in
  Ann.currentUtcOffset r = Ann.currentUtcOffset m /\
  Ann.grandmasterPriority1 r = Ann.grandmasterPriority1 m /\
  Ann.grandmasterClockQuality r = Ann.grandmasterClockQuality m /\
  Ann.grandmasterPriority2 r = Ann.grandmasterPriority2 m /\
  Ann.grandmasterIdentity r = Ann.grandmasterIdentity m /\
  Ann.stepsRemoved r = Ann.stepsRemoved m /\ Ann.timeSource r = Ann.timeSource m /\
  Ann.header r = Ann.header a /\ Ann.tlvType r = Ann.tlvType a /\ Ann.tlvLength r = Ann.tlvLength a.
Proof.
  intros Hh (W1 & W2 & W3 & W4 & W5 & W6 & L1 & W7 & W8 & _).
  destruct m as [hd utc p1 [cc ca lv] p2 gid steps ts tt tl path]. cbn in W1, W2, W3, W4, W5, W6, L1, W7, W8.
  do 8 (destruct gid as [|? gid]; [discriminate L1|]). destruct gid; [|discriminate L1].
  unfold MDAR.read_fixed. cbn -[octets octet ntoh swrap MDAS.announce_body].
  rewrite (ntoh_skip h _ 10 2), (octet_skip h _ 13), (octet_skip h _ 14), (octet_skip h _ 15),
    (ntoh_skip h _ 16 2), (octet_skip h _ 18), (octets_skip h _ 19 8), (ntoh_skip h _ 27 2),
    (octet_skip h _ 29) by done.
  split_and!; try done.
  - exact (be_signed 2 utc ltac:(lia) W1).
  - exact (wrap_id 8 p1 W2).
  - f_equal; [exact (wrap_id 8 cc W3)|exact (wrap_id 8 ca W4)|exact (be_fits 2 lv W5)].
  - exact (wrap_id 8 p2 W6).
  - exact (be_fits 2 steps W7).
  - exact (wrap_id 8 ts W8).
Qed.

Lemma body_tlv h m N rest :
  length h = 34%nat -> wf_announce m -> path_entries m N ->
  let buf := h ++ MDAS.announce_body m N ++ rest in
  ntoh 64 2 buf = Ann.tlvType m /\ ntoh 66 2 buf = Ann.tlvLength m /\
  octets 68 (8 * N) buf = take (8 * N) (Ann.pathSequence m).
Proof.
  intros Hh (_ & _ & _ & _ & _ & _ & L1 & _ & _ & W9 & L2) [T HN]. cbn zeta.
  destruct m as [hd utc p1 [cc ca lv] p2 gid steps ts tt tl path]. cbn in L1, W9, T.
  cbn [Ann.pathSequence] in L2.
  do 8 (destruct gid as [|? gid]; [discriminate L1|]). destruct gid; [|discriminate L1].
  rewrite (ntoh_skip h _ 30 2), (ntoh_skip h _ 32 2), (octets_skip h _ 34 (8 * N)) by done.
  split_and!.
  - exact (be_fits 2 tt W9).
  - refine (be_fits 2 tl _). unfold fits. change (2 ^ (8 * Z.of_nat 2)) with 65536.
    unfold MAX_PATH_TRACE_N in HN. lia.
  - change (take (8 * N) (take (8 * N) path ++ rest) = take (8 * N) path).
    assert (L : length (take (8 * N) path) = (8 * N)%nat)
      by (rewrite length_take, L2; unfold MAX_PATH_TRACE_N in *; lia).
    rewrite <- L at 1. apply take_app_length.
Qed.

(** the sender's data has the widths of the structs, and the minor version is a nibble *)
Definition wf_sender (m : PTPMsgAnnounce) (sm : MDAS.data) : Prop :=
  fits 4 (MINOR_VERSION_NUMBER (PPG.thisPort (MDAS.ppg sm))) /\
  fits 8 (PTASG.domainIndex (MDAS.ptasg sm)) /\
  length (PTASG.thisClock (MDAS.ptasg sm)) = 8%nat /\ fits 16 (PPG.thisPort (MDAS.ppg sm)) /\
  fits 16 (Hdr.sequenceId (Ann.header m)) /\ sfits 8 (BPPG.currentLogAnnounceInterval (MDAS.bppg sm)).

Lemma frame_size_entries N : MDAS.frame_size (Z.of_nat N) = 68 + 8 * Z.of_nat N.
Proof. unfold MDAS.frame_size, MAX_PATH_TRACE_N. lia. Qed.

Lemma entries_of m N : path_entries m N -> Ann.tlvLength m / 8 = Z.of_nat N.
Proof. intros [-> _]. rewrite Z.mul_comm. by apply Z.div_mul. Qed.

Lemma announce_head_wf m N sm : wf_sender m sm -> path_entries m N -> wf_head (MDAS.announce_head m sm).
Proof.
  intros (W1 & W2 & W3 & W4 & W5 & W6) [T HN]. unfold wf_head, MDAS.announce_head.
  cbn -[MDAS.frame_size wrap swrap fits sfits].
  rewrite (wrap_id 8) by (unfold fits in *; lia). rewrite (wrap_id 16 (Hdr.sequenceId _)) by done.
  split_and!; try done; try apply wrap_fits; try (unfold fits, sfits; lia).
  repeat destruct_cond; unfold fits; lia.
Qed.

Lemma announce_head_length m N sm :
  wf_sender m sm -> path_entries m N -> Hdr.messageLength (MDAS.announce_head m sm) = 68 + 8 * Z.of_nat N.
Proof.
  intros _ HN. unfold MDAS.announce_head. cbn -[MDAS.frame_size wrap].
  rewrite (entries_of m N HN), frame_size_entries. destruct HN as [_ HN].
  apply wrap_id. unfold fits, MAX_PATH_TRACE_N in *. lia.
Qed.

(** the frame as it leaves, unless the TLV is cut off *)
Lemma announce_frame_full m N sm :
  path_entries m N -> (Ann.tlvLength m =? 0) && PTASG.conformToAvnu (MDAS.ptasg sm) = false ->
  MDAS.announce_frame m sm = head_octets (MDAS.announce_head m sm) ++ MDAS.announce_body m N.
Proof.
  intros HN A. unfold MDAS.announce_frame. by rewrite A, (entries_of m N HN), Nat2Z.id.
Qed.

Lemma read_tlv_frame buf m N a :
  path_entries m N -> ntoh 2 2 buf = 68 + 8 * Z.of_nat N ->
  ntoh 64 2 buf = Ann.tlvType m -> ntoh 66 2 buf = Ann.tlvLength m ->
  octets 68 (8 * N) buf = take (8 * N) (Ann.pathSequence m) ->
  length (Ann.pathSequence m) = (8 * MAX_PATH_TRACE_N)%nat ->
  MDAR.read_tlv buf a =
  (a <| Ann.tlvType := Ann.tlvType m |> <| Ann.tlvLength := Ann.tlvLength m |>
     <| Ann.pathSequence :=
          take (8 * N) (Ann.pathSequence m) ++ replicate (8 * MAX_PATH_TRACE_N - 8 * N) 0xFF |>, true).
Proof.
  intros HN Len T1 T2 T3 LP. pose proof (entries_of m N HN) as E. destruct HN as [T HN].
  unfold MDAR.read_tlv. rewrite Len, T1, T2, E, T. unfold MDAR.IEEE_1588_ANNOUNCE_NO_TLV_SIZE.
  rewrite (proj2 (Z.ltb_lt _ _)), (proj2 (Z.leb_le _ _)), (proj2 (Z.leb_le _ (Z.of_nat _))) by lia.
  cbn [andb].
  replace (Z.to_nat (8 * Z.of_nat N)) with (8 * N)%nat by lia. rewrite T3.
  set (p := take (8 * N) (Ann.pathSequence m)).
  assert (Lp : length p = (8 * N)%nat) by (unfold p; rewrite length_take; lia).
  assert (M : memcpy_at 0 p (replicate (MAX_PATH_TRACE_N * 8) 0xFF) =
              p ++ replicate (8 * MAX_PATH_TRACE_N - 8 * N) 0xFF).
  { unfold memcpy_at. rewrite take_0, Lp, drop_replicate. cbn [app]. by f_equal. }
  rewrite <- M. reflexivity.
Qed.

Lemma announce_ext (a b : PTPMsgAnnounce) :
  Ann.header a = Ann.header b -> Ann.currentUtcOffset a = Ann.currentUtcOffset b ->
  Ann.grandmasterPriority1 a = Ann.grandmasterPriority1 b ->
  Ann.grandmasterClockQuality a = Ann.grandmasterClockQuality b ->
  Ann.grandmasterPriority2 a = Ann.grandmasterPriority2 b ->
  Ann.grandmasterIdentity a = Ann.grandmasterIdentity b ->
  Ann.stepsRemoved a = Ann.stepsRemoved b -> Ann.timeSource a = Ann.timeSource b ->
  Ann.tlvType a = Ann.tlvType b -> Ann.tlvLength a = Ann.tlvLength b ->
  Ann.pathSequence a = Ann.pathSequence b -> a = b.
Proof. destruct a, b. cbn. by intros -> -> -> -> -> -> -> -> -> -> ->. Qed.

Lemma recAnnounce_frame m N sm rest r :
  wf_announce m -> wf_sender m sm -> path_entries m N ->
  (MDAR.recAnnounce (head_octets (MDAS.announce_head m sm) ++ MDAS.announce_body m N ++ rest) r).2
  = Some (as_received m N sm).
Proof.
  intros Wm Ws HN. pose proof (announce_head_wf m N sm Ws HN) as Wh.
  set (h := MDAS.announce_head m sm) in *. set (buf := head_octets h ++ _).
  pose proof (head_octets_length h Wh) as Lh.
  assert (D : md_decompose_head buf = h) by (by apply head_round_trip).
  assert (Len : ntoh 2 2 buf = 68 + 8 * Z.of_nat N).
  { change (ntoh 2 2 buf) with (Hdr.messageLength (md_decompose_head buf)). rewrite D.
    by apply announce_head_length. }
  destruct (body_tlv (head_octets h) m N rest Lh Wm HN) as (T1 & T2 & T3). fold buf in T1, T2, T3.
  with_strategy transparent [MDAR.recAnnounce] unfold MDAR.recAnnounce. cbn zeta. rewrite D.
  set (a0 := MDAR.rcvdAnnounce _).
  change (Hdr.majorSdoId (Ann.header a0)) with 1. rewrite andb_false_r.
  rewrite (read_tlv_frame buf m N) by (done || apply Wm). cbn [snd]. f_equal.
  destruct (body_fixed (head_octets h) m N rest a0 Lh Wm) as (B1 & B2 & B3 & B4 & B5 & B6 & B7 & B8 & _).
  fold buf in B1, B2, B3, B4, B5, B6, B7, B8.
  by apply announce_ext; try done.
Qed.

(** C27. An announce that leaves a port arrives: whatever follows the frame in the receive buffer and
    whatever the receiver held before, the receiver returns the sender's announce, with the header
    the sender composed and the path entries it sent.  The announce has fields in the range of their
    types and a path trace TLV of whole identities, no more than there is room for.  The one announce that
    is excepted is the one without path entries (tlvLength 0) of an instance with conformToAvnu: it is sent
    without the TLV but with the length of one with it ([avnu_length_mismatch]). *)
Theorem announce_round_trip m N sm rest r :
  wf_announce m -> wf_sender m sm -> path_entries m N ->
  (Ann.tlvLength m =? 0) && PTASG.conformToAvnu (MDAS.ptasg sm) = false ->
  MDAR.state r <> MDAR.REACTION ->
  (MDAR.md_announce_receive_sm_mdAnnounceRec (MDAS.announce_frame m sm ++ rest) r).2 =
  Ret (Some (as_received m N sm)).
Proof.
  intros Wm Ws HN HA Hr. rewrite (announce_frame_full m N sm HN HA), <- app_assoc.
  pose proof (MDAR.mdar_deliver (head_octets (MDAS.announce_head m sm) ++ MDAS.announce_body m N ++ rest)
    r Hr) as P.
  destruct (MDAR.md_announce_receive_sm_mdAnnounceRec _ r) as [s o].
  destruct P as (sm1 & _ & _ & -> & _). cbn [snd]. f_equal. by apply recAnnounce_frame.
Qed.

(** Without a path trace an Avnu-conformant instance sends 64 octets, but the header was composed
    before the TLV was cut off and still says 68. *)
Theorem avnu_length_mismatch m sm :
  wf_announce m -> wf_sender m sm -> Ann.tlvLength m = 0 -> PTASG.conformToAvnu (MDAS.ptasg sm) = true ->
  length (MDAS.announce_frame m sm) = 64%nat /\
  Hdr.messageLength (md_decompose_head (MDAS.announce_frame m sm)) = 68.
Proof.
  intros Wm Ws T A.
  assert (HN : path_entries m 0) by (split; [exact T|unfold MAX_PATH_TRACE_N; lia]).
  pose proof (announce_head_wf m 0 sm Ws HN) as Wh. pose proof (head_octets_length _ Wh) as Lh.
  unfold MDAS.announce_frame. rewrite A, T. cbn [Z.eqb andb]. change (Z.to_nat (0 / 8)) with 0%nat.
  rewrite take_app_ge by lia. split.
  - rewrite length_app, Lh, length_take. unfold MDAS.announce_body.
    rewrite !length_app, !be_bytes_length, length_replicate, take_0.
    destruct Wm as (_ & _ & _ & _ & _ & _ & -> & _). done.
  - rewrite head_round_trip by done. by rewrite (announce_head_length m 0).
Qed.

End RoundTrip.

(** The copy of the path sequence of a received announce fits the 1432-octet array exactly up to a
    tlvLength of 1432; lengths up to 1439 are accepted too and run over its end. *)
Theorem path_copy_length buf a a' :
  bytes buf -> (68 + 1439 <= length buf)%nat -> 64 < ntoh 2 2 buf -> MDAR.read_tlv buf a = (a', true) ->
  Ann.tlvLength a' < 1440 /\
  Z.of_nat (length (Ann.pathSequence a')) = Z.max 1432 (Ann.tlvLength a').
Proof.
  intros Hb HB HL. unfold MDAR.read_tlv, MDAR.IEEE_1588_ANNOUNCE_NO_TLV_SIZE.
  rewrite (proj2 (Z.ltb_lt _ _) HL). set (t := ntoh 66 2 buf).
  set (src := octets 68 (Z.to_nat t) buf). set (dst := replicate (MAX_PATH_TRACE_N * 8) 0xFF).
  assert (B : 0 <= t) by (unfold t, ntoh, octets; by apply be_val_bound, Forall_take, Forall_drop).
  assert (Ld : length dst = 1432%nat) by (unfold dst; by rewrite length_replicate).
  assert (Ls : t < 1440 -> length src = Z.to_nat t)
    by (intros; unfold src, octets; rewrite length_take, length_drop; lia).
  change (Z.of_nat MAX_PATH_TRACE_N) with 179. clearbody t src dst.
  destruct_cond; [|discriminate]. bool_hyps. intros E. injection E as <-.
  assert (T : t < 1440).
  { pose proof (Z.div_mod t 8 ltac:(lia)). pose proof (Z.mod_pos_bound t 8 ltac:(lia)). lia. }
  split; [exact T|]. destruct a. cbn [Ann.pathSequence Ann.tlvLength upd].
  unfold memcpy_at. rewrite take_0, !length_app, length_drop, Ld, Ls by done. cbn [length]. lia.
Qed.

(** ** Witnesses *)

Module WireWitness.

#[local] Instance wire0 : WireConfig :=
  {| MINOR_VERSION_NUMBER := fun _ => 1; PTP_TIMESCALE := 1; MODE_8021_AS_2011 := false |}.

Definition clockA : list Z := [2;0;0;0;0;0;0;1].

(** an announce of [clockA] with a path trace of one entry *)
Definition announceA : PTPMsgAnnounce :=
  zero <| Ann.currentUtcOffset := -37 |> <| Ann.grandmasterPriority1 := 248 |>
       <| Ann.grandmasterIdentity := clockA |> <| Ann.timeSource := 160 |> <| Ann.tlvType := 8 |>
       <| Ann.tlvLength := 8 |> <| Ann.pathSequence ::= memcpy_at 0 clockA |>
       <| Ann.header; Hdr.sequenceId := 513 |> <| Ann.header; Hdr.flags := [0; 8] |>.

Definition senderA : MDAS.md_announce_send_data :=
  MDAS.mk (Some []) (zero <| PTASG.instanceEnable := true |> <| PTASG.thisClock := clockA |>
                          <| PTASG.conformToAvnu := true |>)
    (zero <| PPG.thisPort := 1 |>) zero MDAS.INIT MDAS.INIT zero 0 1.
Definition receiverB : MDAR.md_announce_receive_data :=
  MDAR.mk zero zero MDAR.RECV_ANNOUNCE MDAR.RECV_ANNOUNCE zero 0 1 zero 0.

Lemma wf_announceA : wf_announce announceA.
Proof. unfold wf_announce. split_and!; vm_compute; done. Qed.

Lemma wf_senderA m : fits 16 (Hdr.sequenceId (Ann.header m)) -> wf_sender m senderA.
Proof. intros H. unfold wf_sender. split_and!; try exact H; vm_compute; done. Qed.

Lemma announce_round_trip_witness :
  (MDAR.md_announce_receive_sm_mdAnnounceRec (MDAS.announce_frame announceA senderA ++ [7; 7; 7]) receiverB).2
  = Ret (Some (as_received announceA 1 senderA)).
Proof.
  apply (announce_round_trip announceA 1 senderA [7; 7; 7] receiverB).
  - apply wf_announceA.
  - apply wf_senderA. vm_compute. done.
  - split; [reflexivity|]. unfold MAX_PATH_TRACE_N. lia.
  - reflexivity.
  - discriminate.
Defined.

(** the network takes everything *)
Definition accepts (_ : list (list Z)) (_ : list Z) : bool := false.

Lemma announce_handed_witness :
  MDAS.handed accepts announceA senderA
    (MDAS.md_announce_send_sm_mdAnnouncSend accepts announceA senderA).1
    (MDAS.md_announce_send_sm_mdAnnouncSend accepts announceA senderA).2.
Proof.
  pose proof (MDAS.announce_handed_to_network accepts announceA senderA) as H.
  specialize (H ltac:(discriminate) ltac:(eexists; reflexivity)).
  destruct (MDAS.md_announce_send_sm_mdAnnouncSend accepts announceA senderA) as [s o].
  exact (proj1 H).
Defined.

Definition no_path : PTPMsgAnnounce := announceA <| Ann.tlvLength := 0 |>.

Lemma avnu_length_witness : length (MDAS.announce_frame no_path senderA) = 64%nat.
Proof.
  refine (proj1 (avnu_length_mismatch no_path senderA _ _ _ _)); try reflexivity.
  - unfold wf_announce. split_and!; vm_compute; done.
  - apply wf_senderA. vm_compute. done.
Defined.

Lemma forallb_bytes l : forallb (fun b => (0 <=? b) && (b <? 256)) l = true -> bytes l.
Proof.
  intros H. apply Forall_forall. intros b Hb. rewrite forallb_forall in H.
  specialize (H b Hb). cbn in H. bool_hyps. unfold is_byte, fits. lia.
Qed.

(** a received frame that says it is 1507 octets long with a path of 1439 *)
Definition long_frame : list Z :=
  memcpy_at 66 [5; 159] (memcpy_at 2 [5; 227] (replicate 1507 0)).

Lemma path_overflow_witness :
  length (Ann.pathSequence (MDAR.read_tlv long_frame zero).1) = 1439%nat.
Proof.
  apply Nat2Z.inj.
  refine (eq_trans (proj2 (path_copy_length long_frame zero (MDAR.read_tlv long_frame zero).1 _ _ _ _)) _).
  - apply forallb_bytes. vm_compute. reflexivity.
  - vm_compute. lia.
  - vm_compute. reflexivity.
  - vm_compute. reflexivity.
  - vm_compute. reflexivity.
Defined.

End WireWitness.
