(* ===== verification/Perfmon.v ===== *)
(** * Perfmon: gptp_perfmon.c, the performance monitoring records.

    Each port and each domain keeps a short-interval (15 min) and a long-interval
    (24 h) record: counters, and for delays the minimum, maximum, running mean
    and deviation.  [gptp_port_perfmon] and [gptp_clock_perfmon] hand a record to
    the configuration database when its interval has passed and start it over.
    The database calls are parameters: their result codes come from [PerfDb], the
    calls made are returned in order. *)

From Stdlib Require Import SpecFloat.
From S2P Require Import Prelude Types Floats Common.

Definition PERFMON_SHORTINTV_DR : nat := 0.
Definition PERFMON_LONGINTV_DR : nat := 1.
Definition PERFMON_ALL_DR : nat := 2.
Definition INVALID_TIMEINTERVAL_VALUE : Z := 0x7FFFFFFFFFFFFFFF.
Definition SCALEDNS_FACTOR : Z := 0x10000.
Definition SHORTINTV_START_IDX : Z := 0.
Definition LONGINTV_START_IDX : Z := 97.
Definition UB_MSEC_NS : Z := 1000000.

(** gptpgcfg_cascade_*_perfmonDS and gptpgcfg_set_*_perfmonDS *)
Inductive perf_call :=
| Cascade (id : nat)
| SetDS (id : nat) (periodComplete : bool) (index : Z).

(** the result codes of these calls, by the calls made before *)
Class PerfDb := { perf_result : list perf_call -> Z }.

Definition perfmon_running_stat_add (x : Z) (anc : PerfMonAncillaryDataRecord)
  : PerfMonAncillaryDataRecord :=
  let anc := anc <| AncDR.N ::= inc32 |> in
  if AncDR.N anc =? 1 then
    anc <| AncDR.M := x |> <| AncDR.prev_M := x |> <| AncDR.prev_V := 0 |>
  else
    let M := i64 (AncDR.prev_M anc + Z.quot (i64 (x - AncDR.prev_M anc)) (AncDR.N anc)) in
    let V := i64 (AncDR.prev_V anc + i64 (i64 (x - AncDR.prev_M anc) * i64 (x - M))) in
    anc <| AncDR.M := M |> <| AncDR.V := V |> <| AncDR.prev_M := M |> <| AncDR.prev_V := V |>.

(** [(max==INVALID||max<scaledns)?scaledns:max] and the same for the minimum *)
Definition stat_max (max scaledns : Z) : Z :=
  if (max =? INVALID_TIMEINTERVAL_VALUE) || (max <? scaledns) then scaledns else max.
Definition stat_min (min scaledns : Z) : Z :=
  if (min =? INVALID_TIMEINTERVAL_VALUE) || (scaledns <? min) then scaledns else min.

Section Add.
Context `{CV : Conversions}.

(** [sqrt(anc->V)*SCALEDNS_FACTOR] *)
Definition stat_dev (anc : PerfMonAncillaryDataRecord) : Z :=
  d_to_int 64 (dmul (dsqrt (d_of_Z (AncDR.V anc))) (d_of_Z SCALEDNS_FACTOR)).

Definition gptp_port_perfmon_ppmpddr_dr_add (v : Z) (dr : PortPerfMonPeerDelayDataRecord)
  : PortPerfMonPeerDelayDataRecord :=
  let scaledns := i64 (v * SCALEDNS_FACTOR) in
  let dr := dr <| PdelayDR.maxMeanLinkDelay; TIv.scaledNanoseconds ::= fun m => stat_max m scaledns |>
               <| PdelayDR.minMeanLinkDelay; TIv.scaledNanoseconds ::= fun m => stat_min m scaledns |>
               <| PdelayDR.meanLinkDelay ::= perfmon_running_stat_add v |> in
  let anc := PdelayDR.meanLinkDelay dr in
  dr <| PdelayDR.averageMeanLinkDelay; TIv.scaledNanoseconds := i64 (AncDR.M anc * SCALEDNS_FACTOR) |>
     <| PdelayDR.stdDevMeanLinkDelay; TIv.scaledNanoseconds := stat_dev anc |>.

Definition gptp_port_perfmon_ppmpddr_add (v : Z) (ds : option PerfMonPortDS) : option PerfMonPortDS :=
  option_map (fun d => d <| PortDS.pdelayDR ::= both_DR (gptp_port_perfmon_ppmpddr_dr_add v) |>) ds.

Inductive CPMDR_params_t :=
| CPMDR_masterSlaveDelay
| CPMDR_slaveMasterDelay
| CPMDR_meanPathDelay
| CPMDR_offsetFromMaster.

Definition gptp_clock_perfmon_cpmdr_dr_add (p : CPMDR_params_t) (v : Z) (dr : ClockPerfMonDataRecord)
  : ClockPerfMonDataRecord :=
  let scaledns := i64 (v * SCALEDNS_FACTOR) in
  match p with
  | CPMDR_masterSlaveDelay =>
      let dr := dr <| ClockDR.maxMasterSlaveDelay; TIv.scaledNanoseconds ::= fun m => stat_max m scaledns |>
                   <| ClockDR.minMasterSlaveDelay; TIv.scaledNanoseconds ::= fun m => stat_min m scaledns |>
                   <| ClockDR.masterSlaveDelay ::= perfmon_running_stat_add v |> in
      let anc := ClockDR.masterSlaveDelay dr in
      dr <| ClockDR.averageMasterSlaveDelay; TIv.scaledNanoseconds := i64 (AncDR.M anc * SCALEDNS_FACTOR) |>
         <| ClockDR.stdDevMasterSlaveDelay; TIv.scaledNanoseconds := stat_dev anc |>
  | CPMDR_slaveMasterDelay =>
      let dr := dr <| ClockDR.maxSlaveMasterDelay; TIv.scaledNanoseconds ::= fun m => stat_max m scaledns |>
                   <| ClockDR.minSlaveMasterDelay; TIv.scaledNanoseconds ::= fun m => stat_min m scaledns |>
                   <| ClockDR.slaveMasterDelay ::= perfmon_running_stat_add v |> in
      let anc := ClockDR.slaveMasterDelay dr in
      dr <| ClockDR.averageSlaveMasterDelay; TIv.scaledNanoseconds := i64 (AncDR.M anc * SCALEDNS_FACTOR) |>
         <| ClockDR.stdDevSlaveMasterDelay; TIv.scaledNanoseconds := stat_dev anc |>
  | CPMDR_meanPathDelay =>
      let dr := dr <| ClockDR.maxMeanPathDelay; TIv.scaledNanoseconds ::= fun m => stat_max m scaledns |>
                   <| ClockDR.minMeanPathDelay; TIv.scaledNanoseconds ::= fun m => stat_min m scaledns |>
                   <| ClockDR.meanPathDelay ::= perfmon_running_stat_add v |> in
      let anc := ClockDR.meanPathDelay dr in
      dr <| ClockDR.averageMeanPathDelay; TIv.scaledNanoseconds := i64 (AncDR.M anc * SCALEDNS_FACTOR) |>
         <| ClockDR.stdDevMeanPathDelay; TIv.scaledNanoseconds := stat_dev anc |>
  | CPMDR_offsetFromMaster =>
      let dr := dr <| ClockDR.maxOffsetFromMaster; TIv.scaledNanoseconds ::= fun m => stat_max m scaledns |>
                   <| ClockDR.minOffsetFromMaster; TIv.scaledNanoseconds ::= fun m => stat_min m scaledns |>
                   <| ClockDR.offsetFromMaster ::= perfmon_running_stat_add v |> in
      let anc := ClockDR.offsetFromMaster dr in
      dr <| ClockDR.averageOffsetFromMaster; TIv.scaledNanoseconds := i64 (AncDR.M anc * SCALEDNS_FACTOR) |>
         <| ClockDR.stdDevOffsetFromMaster; TIv.scaledNanoseconds := stat_dev anc |>
  end.

Definition gptp_clock_perfmon_cpmdr_add (p : CPMDR_params_t) (v : Z) (ds : option PerfMonClockDS)
  : option PerfMonClockDS :=
  option_map (fun d => d <| ClockDS.clockDR ::= both_DR (gptp_clock_perfmon_cpmdr_dr_add p v) |>) ds.
End Add.

(** ** Reset *)

Definition invalid_interval : TimeInterval := TIv.mk INVALID_TIMEINTERVAL_VALUE.

Definition gptp_port_perfmon_ppmpddr_reset : PortPerfMonPeerDelayDataRecord :=
  PdelayDR.mk invalid_interval invalid_interval invalid_interval invalid_interval zero.

Definition gptp_clock_perfmon_cpmdr_reset : ClockPerfMonDataRecord :=
  zero <| ClockDR.averageMasterSlaveDelay := invalid_interval |>
       <| ClockDR.minMasterSlaveDelay := invalid_interval |>
       <| ClockDR.maxMasterSlaveDelay := invalid_interval |>
       <| ClockDR.stdDevMasterSlaveDelay := invalid_interval |>
       <| ClockDR.averageSlaveMasterDelay := invalid_interval |>
       <| ClockDR.minSlaveMasterDelay := invalid_interval |>
       <| ClockDR.maxSlaveMasterDelay := invalid_interval |>
       <| ClockDR.stdDevSlaveMasterDelay := invalid_interval |>
       <| ClockDR.averageMeanPathDelay := invalid_interval |>
       <| ClockDR.minMeanPathDelay := invalid_interval |>
       <| ClockDR.maxMeanPathDelay := invalid_interval |>
       <| ClockDR.stdDevMeanPathDelay := invalid_interval |>
       <| ClockDR.averageOffsetFromMaster := invalid_interval |>
       <| ClockDR.minOffsetFromMaster := invalid_interval |>
       <| ClockDR.maxOffsetFromMaster := invalid_interval |>
       <| ClockDR.stdDevOffsetFromMaster := invalid_interval |>.

Definition start_idx (id : nat) : Z :=
  if bool_decide (id = PERFMON_SHORTINTV_DR) then SHORTINTV_START_IDX else LONGINTV_START_IDX.

Definition gptp_port_perfmon_dr_reset_byid (id : nat) (pmtime cts64 : Z) (ds : PerfMonPortDS)
  : PerfMonPortDS :=
  ds <| PortDS.pdelayDR ::= <[id := gptp_port_perfmon_ppmpddr_reset]> |>
     <| PortDS.portDR ::= <[id := zero]> |>
     <| PortDS.signalingDR ::= <[id := zero]> |>
     <| PortDS.index ::= <[id := start_idx id]> |>
     <| PortDS.PMTime ::= <[id := pmtime]> |>
     <| PortDS.lastUpdate ::= <[id := u32 cts64]> |>.

(** time in units of 10 ms *)
Definition pm_time (cts : Z) : Z := u32 (cts / 10000000 * 10000000 / (10 * UB_MSEC_NS)).

Definition gptp_port_perfmon_dr_reset (type : nat) (cts : Z) (ds : option PerfMonPortDS)
  : option PerfMonPortDS :=
  option_map (fun ds =>
    match type with
    | 0 => gptp_port_perfmon_dr_reset_byid PERFMON_SHORTINTV_DR (pm_time cts) cts ds
    | 1 => gptp_port_perfmon_dr_reset_byid PERFMON_LONGINTV_DR (pm_time cts) cts ds
    | 2 => gptp_port_perfmon_dr_reset_byid PERFMON_LONGINTV_DR (pm_time cts) cts
             (gptp_port_perfmon_dr_reset_byid PERFMON_SHORTINTV_DR (pm_time cts) cts ds)
    | _ => ds
    end%nat) ds.

Definition gptp_clock_perfmon_dr_reset_byid (id : nat) (pmtime cts64 : Z) (ds : PerfMonClockDS)
  : PerfMonClockDS :=
  ds <| ClockDS.clockDR ::= <[id := gptp_clock_perfmon_cpmdr_reset]> |>
     <| ClockDS.index ::= <[id := start_idx id]> |>
     <| ClockDS.PMTime ::= <[id := pmtime]> |>
     <| ClockDS.lastUpdate ::= <[id := u32 cts64]> |>.

Definition gptp_clock_perfmon_dr_reset (type : nat) (cts : Z) (ds : option PerfMonClockDS)
  : option PerfMonClockDS :=
  option_map (fun ds =>
    match type with
    | 0 => gptp_clock_perfmon_dr_reset_byid PERFMON_SHORTINTV_DR (pm_time cts) cts ds
    | 1 => gptp_clock_perfmon_dr_reset_byid PERFMON_LONGINTV_DR (pm_time cts) cts ds
    | 2 => gptp_clock_perfmon_dr_reset_byid PERFMON_LONGINTV_DR (pm_time cts) cts
             (gptp_clock_perfmon_dr_reset_byid PERFMON_SHORTINTV_DR (pm_time cts) cts ds)
    | _ => ds
    end%nat) ds.

(** ** Collection *)

Section Collect.
Context `{DB : PerfDb}.

(** a call to the database after the calls [l]: its result and the calls made now *)
Definition perf_do (c : perf_call) (l : list perf_call) : Z * list perf_call :=
  (perf_result (l ++ [c]), l ++ [c]).

(** the result code, the record and the calls made *)
Definition gptp_port_perfmon_dr_submit (id : nat) (cts64 : Z) (ds : PerfMonPortDS) (l : list perf_call)
  : Z * PerfMonPortDS * list perf_call :=
  let (r, l) := perf_do (Cascade id) l in
  if negb (r =? 0) then (-1, ds, l) else
  let ds := ds <| PortDS.index ::= <[id := start_idx id + 1]> |> in
  let (r, l) := perf_do (SetDS id true (start_idx id + 1)) l in
  if negb (r =? 0) then (-1, ds, l) else
  let ds := gptp_port_perfmon_dr_reset_byid id (pm_time cts64) cts64 ds in
  let (r, l) := perf_do (SetDS id false (start_idx id)) l in
  if negb (r =? 0) then (-1, ds, l) else (0, ds, l).

Definition gptp_port_perfmon_dr_update (id : nat) (ds : PerfMonPortDS) (l : list perf_call)
  : Z * list perf_call :=
  perf_do (SetDS id false (nth id (PortDS.index ds) 0)) l.

(** one of the two intervals *)
Definition port_perfmon_interval (id : nat) (period_ms current_ms cts64 : Z) (ds : PerfMonPortDS)
    (l : list perf_call) : PerfMonPortDS * list perf_call :=
  let pts := u32 (cts64 / (UB_MSEC_NS * 10)) in
  if period_ms / 10 <=? u32 (pts - nth id (PortDS.PMTime ds) 0) then
    let '(_, ds, l) := gptp_port_perfmon_dr_submit id cts64 ds l in
    (ds <| PortDS.lastUpdate ::= <[id := pts]> |>, l)
  else if current_ms / 10 <=? u32 (pts - nth id (PortDS.lastUpdate ds) 0) then
    let (_, l) := gptp_port_perfmon_dr_update id ds l in
    (ds <| PortDS.lastUpdate ::= <[id := pts]> |>, l)
  else (ds, l).

Definition gptp_port_perfmon (ds : option PerfMonPortDS) (cts64 : Z)
    (tasglb : PerTimeAwareSystemGlobal) (l : list perf_call) : option PerfMonPortDS * list perf_call :=
  match ds with
  | None => (None, l)
  | Some ds =>
      let (ds, l) := port_perfmon_interval PERFMON_SHORTINTV_DR (PTASG.perfmonShortPeriod_ms tasglb)
                       (PTASG.perfmonCurrentPeriod_ms tasglb) cts64 ds l in
      let (ds, l) := port_perfmon_interval PERFMON_LONGINTV_DR (PTASG.perfmonLongPeriod_ms tasglb)
                       (PTASG.perfmonCurrentPeriod_ms tasglb) cts64 ds l in
      (Some ds, l)
  end.

Definition gptp_clock_perfmon_dr_submit (id : nat) (cts64 : Z) (ds : PerfMonClockDS) (l : list perf_call)
  : Z * PerfMonClockDS * list perf_call :=
  let (r, l) := perf_do (Cascade id) l in
  if negb (r =? 0) then (-1, ds, l) else
  let ds := ds <| ClockDS.index ::= <[id := start_idx id + 1]> |> in
  let (r, l) := perf_do (SetDS id true (start_idx id + 1)) l in
  if negb (r =? 0) then (-1, ds, l) else
  let ds := gptp_clock_perfmon_dr_reset_byid id (pm_time cts64) cts64 ds in
  let (r, l) := perf_do (SetDS id false (start_idx id)) l in
  if negb (r =? 0) then (-1, ds, l) else (0, ds, l).

Definition gptp_clock_perfmon_dr_update (id : nat) (ds : PerfMonClockDS) (l : list perf_call)
  : Z * list perf_call :=
  perf_do (SetDS id false (nth id (ClockDS.index ds) 0)) l.

Definition clock_perfmon_interval (id : nat) (period_ms current_ms cts64 : Z) (ds : PerfMonClockDS)
    (l : list perf_call) : PerfMonClockDS * list perf_call :=
  let pts := u32 (cts64 / (UB_MSEC_NS * 10)) in
  if period_ms / 10 <=? u32 (pts - nth id (ClockDS.PMTime ds) 0) then
    let '(_, ds, l) := gptp_clock_perfmon_dr_submit id cts64 ds l in
    (ds <| ClockDS.lastUpdate ::= <[id := pts]> |>, l)
  else if current_ms / 10 <=? u32 (pts - nth id (ClockDS.lastUpdate ds) 0) then
    let (_, l) := gptp_clock_perfmon_dr_update id ds l in
    (ds <| ClockDS.lastUpdate ::= <[id := pts]> |>, l)
  else (ds, l).

Definition gptp_clock_perfmon (ds : option PerfMonClockDS) (cts64 : Z)
    (tasglb : PerTimeAwareSystemGlobal) (l : list perf_call) : option PerfMonClockDS * list perf_call :=
  match ds with
  | None => (None, l)
  | Some ds =>
      let (ds, l) := clock_perfmon_interval PERFMON_SHORTINTV_DR (PTASG.perfmonShortPeriod_ms tasglb)
                       (PTASG.perfmonCurrentPeriod_ms tasglb) cts64 ds l in
      let (ds, l) := clock_perfmon_interval PERFMON_LONGINTV_DR (PTASG.perfmonLongPeriod_ms tasglb)
                       (PTASG.perfmonCurrentPeriod_ms tasglb) cts64 ds l in
      (Some ds, l)
  end.
End Collect.

(** ** What a record says of the samples it was given *)

Definition is_max (hi : Z) (xs : list Z) : Prop := In hi xs /\ Forall (fun x => x <= hi) xs.
Definition is_min (lo : Z) (xs : list Z) : Prop := In lo xs /\ Forall (fun x => lo <= x) xs.

(** samples that do not overflow when scaled: below about 39 hours *)
Definition small (x : Z) : Prop := - 2 ^ 46 < x < 2 ^ 46.

(** maximum, minimum and running statistics after the samples [xs] *)
Definition stat_ok (xs : list Z) (max min : Z) (anc : PerfMonAncillaryDataRecord) : Prop :=
  AncDR.N anc = Z.of_nat (length xs) /\
  match xs with
  | [] => max = INVALID_TIMEINTERVAL_VALUE /\ min = INVALID_TIMEINTERVAL_VALUE
  | _ => exists hi lo,
      is_max hi xs /\ is_min lo xs /\ max = hi * SCALEDNS_FACTOR /\ min = lo * SCALEDNS_FACTOR /\
      lo <= AncDR.M anc <= hi /\ AncDR.prev_M anc = AncDR.M anc
  end.

Lemma i64_id z : - 2 ^ 63 <= z < 2 ^ 63 -> i64 z = z.
Proof. intros. apply swrap_id; [lia|]. exact H. Qed.

Lemma small_scaled x : small x -> i64 (x * SCALEDNS_FACTOR) = x * SCALEDNS_FACTOR.
Proof. unfold small, SCALEDNS_FACTOR. intros. apply i64_id. lia. Qed.

(** the mean moves towards the sample, and not past it *)
Lemma mean_between M x n : 2 <= n -> Z.min M x <= M + Z.quot (x - M) n <= Z.max M x.
Proof.
  intros Hn. destruct (Z.le_ge_cases 0 (x - M)).
  - rewrite Z.quot_div_nonneg by lia. pose proof (Z.div_pos (x - M) n ltac:(lia) ltac:(lia)).
    pose proof (Z.mul_div_le (x - M) n ltac:(lia)). nia.
  - replace (x - M) with (- (M - x)) by lia. rewrite Z.quot_opp_l, Z.quot_div_nonneg by lia.
    pose proof (Z.div_pos (M - x) n ltac:(lia) ltac:(lia)).
    pose proof (Z.mul_div_le (M - x) n ltac:(lia)). nia.
Qed.

Lemma stat_add xs max min anc v :
  Forall small xs -> small v -> Z.of_nat (length xs) + 1 < 2 ^ 32 ->
  stat_ok xs max min anc ->
  stat_ok (xs ++ [v]) (stat_max max (v * SCALEDNS_FACTOR)) (stat_min min (v * SCALEDNS_FACTOR))
    (perfmon_running_stat_add v anc).
Proof.
  intros Hs Hv Hl [HN HX]. unfold small in Hv.
  assert (N1 : inc32 (AncDR.N anc) = Z.of_nat (length (xs ++ [v]))).
  { unfold inc32. rewrite HN, length_app, wrap_id by (unfold fits; lia). cbn. lia. }
  assert (HN1 : AncDR.N (perfmon_running_stat_add v anc) = Z.of_nat (length (xs ++ [v]))).
  { rewrite <- N1. unfold perfmon_running_stat_add. by destruct_cond. }
  split; [done|]. destruct (xs ++ [v]) as [|y ys] eqn:Exs; [by destruct xs|]. rewrite <- Exs in *. clear y ys Exs.
  destruct xs as [|x0 xs0].
  - destruct HX as [-> ->]. exists v, v. unfold perfmon_running_stat_add. cbn -[inc32]. rewrite N1. cbn.
    split_and!; try done; try lia; repeat constructor; lia.
  - destruct HX as (hi & lo & [I1 F1] & [I2 F2] & -> & -> & [M1 M2] & PM).
    set (xs := x0 :: xs0) in *. rewrite List.Forall_forall in Hs.
    assert (Sh : small hi) by (by apply Hs).
    assert (Sl : small lo) by (by apply Hs).
    unfold small in Sh, Sl. unfold stat_max, stat_min, INVALID_TIMEINTERVAL_VALUE, SCALEDNS_FACTOR in *.
    assert (MM : AncDR.M (perfmon_running_stat_add v anc) =
                 AncDR.M anc + Z.quot (v - AncDR.M anc) (Z.of_nat (length xs0 + 1 + 1)) /\
                 AncDR.prev_M (perfmon_running_stat_add v anc) = AncDR.M (perfmon_running_stat_add v anc)).
    { unfold perfmon_running_stat_add. cbn -[inc32 i64]. rewrite N1, length_app. cbn [length xs].
      rewrite (proj2 (Z.eqb_neq _ _)) by lia. cbn -[i64 Z.of_nat Nat.add]. rewrite PM.
      replace (Z.of_nat (S (length xs0) + 1)) with (Z.of_nat (length xs0 + 1 + 1)) by lia.
      pose proof (mean_between (AncDR.M anc) v (Z.of_nat (length xs0 + 1 + 1)) ltac:(lia)).
      rewrite (i64_id (v - AncDR.M anc)), i64_id by lia. done. }
    destruct MM as [MM ->].
    pose proof (mean_between (AncDR.M anc) v (Z.of_nat (length xs0 + 1 + 1)) ltac:(lia)).
    exists (Z.max hi v), (Z.min lo v). unfold is_max, is_min. split_and!; try lia.
    + apply in_app_iff. destruct (Z.max_spec hi v) as [[_ ->]|[_ ->]]; cbn; auto.
    + apply Forall_app. split; [|repeat constructor; lia]. eapply Forall_impl; [|exact F1]. cbn. intros. lia.
    + apply in_app_iff. destruct (Z.min_spec lo v) as [[_ ->]|[_ ->]]; cbn; auto.
    + apply Forall_app. split; [|repeat constructor; lia]. eapply Forall_impl; [|exact F2]. cbn. intros. lia.
    + destruct_cond; bool_hyps; [apply orb_true_iff in Hc; destruct Hc; bool_hyps; lia|lia].
    + destruct_cond; bool_hyps; [apply orb_true_iff in Hc; destruct Hc; bool_hyps; lia|lia].
Qed.

Section LinkDelay.
Context `{CV : Conversions}.

(** the record after a sequence of measured link delays *)
Definition link_delay_record (xs : list Z) : PortPerfMonPeerDelayDataRecord :=
  fold_left (fun dr v => gptp_port_perfmon_ppmpddr_dr_add v dr) xs gptp_port_perfmon_ppmpddr_reset.

Lemma link_delay_stat xs :
  Forall small xs -> Z.of_nat (length xs) < 2 ^ 32 ->
  let dr := link_delay_record xs in
  stat_ok xs (TIv.scaledNanoseconds (PdelayDR.maxMeanLinkDelay dr))
    (TIv.scaledNanoseconds (PdelayDR.minMeanLinkDelay dr)) (PdelayDR.meanLinkDelay dr).
Proof.
  induction xs as [|v xs IH] using rev_ind; [done|].
  rewrite Forall_app. intros [Hs Hv] Hl. inversion_clear Hv. rewrite length_app in Hl. cbn in Hl.
  cbn zeta. unfold link_delay_record. rewrite fold_left_app. cbn -[i64 perfmon_running_stat_add stat_dev].
  fold (link_delay_record xs). rewrite small_scaled by done.
  apply stat_add; [done|done|lia|]. apply IH; [done|lia].
Qed.

(** After any sequence of measured link delays the performance record of a port holds how many
    they were, the largest and the smallest of them, and an average that lies between these two. *)
Theorem perfmon_record_of_samples xs :
  xs <> [] -> Forall small xs -> Z.of_nat (length xs) < 2 ^ 32 ->
  let dr := link_delay_record xs in
  AncDR.N (PdelayDR.meanLinkDelay dr) = Z.of_nat (length xs) /\
  exists hi lo avg, is_max hi xs /\ is_min lo xs /\ lo <= avg <= hi /\
    PdelayDR.maxMeanLinkDelay dr = TIv.mk (hi * SCALEDNS_FACTOR) /\
    PdelayDR.minMeanLinkDelay dr = TIv.mk (lo * SCALEDNS_FACTOR) /\
    PdelayDR.averageMeanLinkDelay dr = TIv.mk (avg * SCALEDNS_FACTOR).
Proof.
  intros Hne Hs Hl dr. destruct (link_delay_stat xs Hs Hl) as [HN HX]. fold dr in HN, HX.
  split; [exact HN|]. destruct xs as [|x xs]; [done|].
  destruct HX as (hi & lo & Hi & Lo & E1 & E2 & B & _). exists hi, lo, (AncDR.M (PdelayDR.meanLinkDelay dr)).
  split_and!; try done; try lia.
  - destruct (PdelayDR.maxMeanLinkDelay dr). cbn in *. by subst.
  - destruct (PdelayDR.minMeanLinkDelay dr). cbn in *. by subst.
  - assert (small (AncDR.M (PdelayDR.meanLinkDelay dr))).
    { rewrite List.Forall_forall in Hs. assert (small hi) by (apply Hs, Hi).
      assert (small lo) by (apply Hs, Lo). unfold small in *. lia. }
    rewrite <- small_scaled by done. unfold dr, link_delay_record.
    destruct (exists_last (l := x :: xs) ltac:(done)) as (ys & y & ->). by rewrite fold_left_app.
Qed.
End LinkDelay.

Lemma perfmon_record_witness :
  AncDR.N (PdelayDR.meanLinkDelay (link_delay_record (CV := conversions0) [500; 700; 600])) = 3.
Proof.
  refine (proj1 (perfmon_record_of_samples (CV := conversions0) [500; 700; 600] _ _ _)).
  - discriminate.
  - repeat constructor.
  - reflexivity.
Defined.
