(* ===== verification/Media.v ===== *)
(** * Media: what the media-dependent machines use of the network driver and the hardware clock.

    The driver (gptpnet, under tilld) and the hardware clock are parameters: the
    result of a send, the time after which a transmit timestamp counts as lost,
    the readings and conversions of timestamps, the test hook that may drop or
    change a timestamp.  Every theorem holds for all of them. *)

From S2P Require Import Prelude Types Driver Common Wire.

Class Media := {
  (** gptpnet_send_whook for the frames sent before: -1 on an error, another negative number for a
      frame that will get no transmit timestamp *)
  send_whook : list (list Z) -> list Z -> Z;
  (** gptpnet_txtslost_time *)
  txtslost_time : Z;
  (** gptpclock_getts64 at the time of the evaluation *)
  getts64 : Z -> Z;
  (** gptpclock_tsconv from the port's clock to the domain's *)
  tsconv : Z -> Z;
  (** md_abnormal_timestamp: the timestamp after the hook, None if it is to be dropped *)
  abnormal_timestamp : Z -> Z -> option Z;
  (** rand() *)
  rand : Z
}.

(** a medium that takes every frame and whose clocks agree *)
Definition media0 : Media := {|
  send_whook := fun _ f => Z.of_nat (length f);
  txtslost_time := 30000000;
  getts64 := fun t => t;
  tsconv := fun t => t;
  abnormal_timestamp := fun _ t => Some t;
  rand := 0
|}.

(** a received message: the time of its arrival and its octets; a transmit timestamp *)
Record event_data_recv := ev_recv { ts64 : Z; recbptr : list Z }.
Record event_data_txts := ev_txts { seqid : Z; txts : Z }.

(** use of a pointer (true: it is set): [k] runs if it is not NULL *)
Definition via {T : Type} (p : bool) (k : option T) : option T := if p then k else None.

(** the first [n] octets of a received buffer, copied over a message of a struct *)
Definition recv_into (n : nat) (buf msg : list Z) : list Z := memcpy_at 0 (take n buf) msg.

(** what is read of the copy is what was received *)
Lemma octets_recv off len n buf msg :
  (off + len <= n)%nat -> (n <= length buf)%nat -> octets off len (recv_into n buf msg) = octets off len buf.
Proof.
  intros. unfold octets, recv_into, memcpy_at. rewrite (take_0 msg). cbn [app].
  rewrite drop_app, take_app, length_drop, length_take.
  replace (len - (n `min` length buf - off))%nat with O by lia. rewrite take_0, app_nil_r.
  rewrite skipn_firstn_comm, take_take. f_equal. lia.
Qed.

Lemma ntoh_recv off len n buf msg :
  (off + len <= n)%nat -> (n <= length buf)%nat -> ntoh off len (recv_into n buf msg) = ntoh off len buf.
Proof. intros. unfold ntoh. by rewrite octets_recv. Qed.

Lemma octet_recv off n buf msg :
  (off < n)%nat -> (n <= length buf)%nat -> octet off (recv_into n buf msg) = octet off buf.
Proof.
  intros. unfold octet, recv_into, memcpy_at. rewrite (take_0 msg). cbn [app].
  rewrite app_nth1 by (rewrite length_take; lia).
  rewrite <- (take_drop n buf) at 2. by rewrite app_nth1 by (rewrite length_take; lia).
Qed.

Lemma recv_into_length n buf msg :
  (n <= length msg)%nat -> length (recv_into n buf msg) = length msg.
Proof. intros. unfold recv_into. apply memcpy_at_length. rewrite length_take. lia. Qed.
