(* ===== verification/Mind.v ===== *)
(** * Mind: mind.c and md_entity_glb_init of mdeth.c, the data of the instance and its ports at start-up.

    The structs of [Types] are filled from the configuration database, whose
    readings are the fields of [Gptpgcfg].  What is not read starts as zero. *)

From S2P Require Import Prelude Types Floats Common Clock Perfmon Media.
#[local] Open Scope Z_scope.
#[local] Open Scope gptp_scope.

(** IEEE1588_PTP_TT_*, items of a port *)
Inductive portds_item :=
| LOG_SYNC_INTERVAL | INITIAL_LOG_SYNC_INTERVAL | CURRENT_LOG_SYNC_INTERVAL | SYNC_RECEIPT_TIMEOUT
| LOG_ANNOUNCE_INTERVAL | INITIAL_LOG_ANNOUNCE_INTERVAL | ANNOUNCE_RECEIPT_TIMEOUT | PORT_ENABLE
| INITIAL_LOG_PDELAY_REQ_INTERVAL | CURRENT_LOG_PDELAY_REQ_INTERVAL
| ALLOWED_LOST_RESPONSES | ALLOWED_FAULTS | MEAN_LINK_DELAY_THRESH
| USE_MGT_LOG_GPTP_CAP_INTERVAL | MGT_LOG_GPTP_CAP_INTERVAL
| CURRENT_LOG_GPTP_CAP_INTERVAL | INITIAL_LOG_GPTP_CAP_INTERVAL | GPTP_CAP_RECEIPT_TIMEOUT
| USE_MGT_ONE_STEP_TX_OPER | INITIAL_ONE_STEP_TX_OPER | MGT_ONE_STEP_TX_OPER.

(** items of a domain *)
Inductive yang_item :=
| PERFORMANCE_MONITORING_ENABLE | EXTERNAL_PORT_CONFIG_ENABLE | PTP_TIMESCALE_DS | TIME_SOURCE | PRIORITY1_DS
| CLOCK_CLASS | CLOCK_ACCURACY | OFFSET_SCALED_LOG_VARIANCE | PRIORITY2.

Inductive xl4gptp_item :=
| FOLLOW_AVNU | PERFMON_LONG_PERIOD | PERFMON_SHORT_PERIOD | PERFMON_CURRENT_PERIOD
| BMCS_QUICK_UPDATE_MODE | NEIGHBOR_PROPDELAY_MINLIMIT.

(** gptpgcfg_get_yang_portds_intitem and _int64item, gptpgcfg_get_yang_intitem, gptpgcfg_get_intitem,
    gptpgcfg_get_yang_tscorrection_int64item, and ub_mt_gettime64 *)
Class Gptpgcfg := {
  get_portds : portds_item -> Z -> Z -> Z;   (* port, domain *)
  get_yang : yang_item -> Z -> Z;            (* domain *)
  get_item : xl4gptp_item -> Z;
  ingress_latency : Z -> Z -> Z;
  egress_latency : Z -> Z -> Z;
  now64 : Z
}.

Section Init.
Context `{PL : Platform} `{GCFG : Gptpgcfg} `{ME : Media}.

(** an int kept in a bool *)
Definition int_true (x : Z) : bool := negb (x =? 0).

Definition ptas_glb_init (gptpInstanceIndex domainIndex : Z) : PerTimeAwareSystemGlobal :=
  let g := zero
    <| PTASG.BEGIN := false |>
    <| PTASG.clockMasterLogSyncInterval := i8 (get_portds LOG_SYNC_INTERVAL 0 domainIndex) |> in
  let g := g
    <| PTASG.clockMasterSyncInterval; UNs.nsec := LOG_TO_NSEC (PTASG.clockMasterLogSyncInterval g) |>
    <| PTASG.instanceEnable := true |>
    <| PTASG.domainIndex := domainIndex |>
    <| PTASG.gmRateRatio := d1 |>
    <| PTASG.conformToAvnu := int_true (get_item FOLLOW_AVNU) |>
    <| PTASG.perfmonEnable := int_true (get_yang PERFORMANCE_MONITORING_ENABLE domainIndex) |> in
  let g := if PTASG.perfmonEnable g then
             g <| PTASG.perfmonClockDS := gptp_clock_perfmon_dr_reset 2 now64 (Some zero) |>
               <| PTASG.perfmonLongPeriod_ms := u32 (get_item PERFMON_LONG_PERIOD) |>
               <| PTASG.perfmonShortPeriod_ms := u32 (get_item PERFMON_SHORT_PERIOD) |>
               <| PTASG.perfmonCurrentPeriod_ms := u32 (get_item PERFMON_CURRENT_PERIOD) |>
           else g in
  g <| PTASG.gptpInstanceIndex := gptpInstanceIndex |>.

Definition get_pp_ptpPortEnabled (portIndex domainIndex : Z) : bool :=
  int_true (get_portds PORT_ENABLE portIndex domainIndex).

(** what the ports of all domains share, made with domain 0 *)
Definition pp_glb_all_init (portIndex domainIndex : Z) : PerPortGlobalForAllDomain :=
  zero <| PPGALL.asymmetryMeasurementMode := false |>
       <| PPGALL.portOper := false |>
       <| PPGALL.computeNeighborRateRatio := true |>
       <| PPGALL.computeNeighborPropDelay := true |>
       <| PPGALL.useMgtSettableLogAnnounceInterval := false |>
       <| PPGALL.mgtSettableLogAnnounceInterval := i8 (get_portds LOG_ANNOUNCE_INTERVAL portIndex domainIndex) |>
       <| PPGALL.useMgtSettableLogPdelayReqInterval := false |>
       <| PPGALL.mgtSettableLogPdelayReqInterval :=
            i8 (get_portds INITIAL_LOG_PDELAY_REQ_INTERVAL portIndex domainIndex) |>
       <| PPGALL.useMgtSettableLogGptpCapableMessageInterval :=
            int_true (get_portds USE_MGT_LOG_GPTP_CAP_INTERVAL portIndex domainIndex) |>
       <| PPGALL.mgtSettableLogGptpCapableMessageInterval :=
            i8 (get_portds MGT_LOG_GPTP_CAP_INTERVAL portIndex domainIndex) |>.

(** the one-step setting of the port *)
Definition init_one_step (portIndex domainIndex : Z) (p : PerPortGlobal) : PerPortGlobal :=
  let p := p
    <| PPG.useMgtSettableOneStepTxOper := get_portds USE_MGT_ONE_STEP_TX_OPER portIndex domainIndex =? 1 |>
    <| PPG.initialOneStepTxOper := get_portds INITIAL_ONE_STEP_TX_OPER portIndex domainIndex =? 1 |> in
  if PPG.useMgtSettableOneStepTxOper p then
    let v := get_portds MGT_ONE_STEP_TX_OPER portIndex domainIndex =? 1 in
    p <| PPG.mgtSettableOneStepTxOper := v |> <| PPG.currentOneStepTxOper := v |>
  else p <| PPG.currentOneStepTxOper := PPG.initialOneStepTxOper p |>.

(** [forAllDomain] is NULL for domain 0 *)
Definition pp_glb_init (forAllDomain : option PerPortGlobalForAllDomain) (tasglb : PerTimeAwareSystemGlobal)
    (domainIndex portIndex : Z) : PerPortGlobal :=
  let p := zero <| PPG.forAllDomain := default (pp_glb_all_init portIndex domainIndex) forAllDomain |>
                <| PPG.useMgtSettableLogSyncInterval := false |>
                <| PPG.asCapable := false |>
                <| PPG.currentLogSyncInterval := i8 (get_portds CURRENT_LOG_SYNC_INTERVAL portIndex domainIndex) |>
                <| PPG.initialLogSyncInterval := i8 (get_portds INITIAL_LOG_SYNC_INTERVAL portIndex domainIndex) |>
                <| PPG.syncReceiptTimeout := i8 (get_portds SYNC_RECEIPT_TIMEOUT portIndex domainIndex) |>
                <| PPG.syncInterval; UNs.nsec := LOG_TO_NSEC (get_portds LOG_SYNC_INTERVAL portIndex domainIndex) |> in
  let p := p <| PPG.syncReceiptTimeoutTimeInterval; UNs.nsec :=
                  u64 (u8 (PPG.syncReceiptTimeout p) * UNs.nsec (PPG.syncInterval p)) |>
             <| PPG.ptpPortEnabled := get_pp_ptpPortEnabled portIndex domainIndex |>
             <| PPG.thisPort := portIndex |>
             <| PPG.syncLocked := false |>
             <| PPG.neighborGptpCapable := false |>
             <| PPG.syncSlowdown := false |>
             <| PPG.currentLogGptpCapableMessageInterval :=
                  i8 (get_portds CURRENT_LOG_GPTP_CAP_INTERVAL portIndex domainIndex) |>
             <| PPG.initialLogGptpCapableMessageInterval :=
                  i8 (get_portds INITIAL_LOG_GPTP_CAP_INTERVAL portIndex domainIndex) |>
             <| PPG.gPtpCapableReceiptTimeout := i8 (get_portds GPTP_CAP_RECEIPT_TIMEOUT portIndex domainIndex) |> in
  let p := init_one_step portIndex domainIndex p in
  let p := if PTASG.perfmonEnable tasglb
           then p <| PPG.perfmonDS := gptp_port_perfmon_dr_reset 2 now64 (Some zero) |> else p in
  p <| PPG.ingressLatency; TIv.scaledNanoseconds := ingress_latency portIndex domainIndex |>
    <| PPG.egressLatency; TIv.scaledNanoseconds := egress_latency portIndex domainIndex |>.

Definition bmcs_ptas_glb_init (domainIndex : Z) : BmcsPerTimeAwareSystemGlobal :=
  zero <| BPTASG.externalPortConfiguration := u8 (get_yang EXTERNAL_PORT_CONFIG_ENABLE domainIndex) |>
       <| BPTASG.bmcsQuickUpdate := get_item BMCS_QUICK_UPDATE_MODE |>.

(** the systemPriority vector {SS: 0: {CS: 0}: 0} of 10.3.5 *)
Definition system_priority (thisClock : list Z) (domainIndex : Z) : UInteger224 :=
  U224.mk (U112.mk (u8 (get_yang PRIORITY1_DS domainIndex)) (u8 (get_yang CLOCK_CLASS domainIndex))
             (u8 (get_yang CLOCK_ACCURACY domainIndex)) (u16 (get_yang OFFSET_SCALED_LOG_VARIANCE domainIndex))
             (u8 (get_yang PRIORITY2 domainIndex)) thisClock)
    0 (PortId.mk thisClock 0) 0.

Definition bmcs_ptas_glb_update (ptasglb : PerTimeAwareSystemGlobal) (domainIndex : Z)
    (b : BmcsPerTimeAwareSystemGlobal) : BmcsPerTimeAwareSystemGlobal :=
  let b := b <| BPTASG.sysLeap61 := false |> <| BPTASG.sysLeap59 := false |>
             <| BPTASG.sysCurrentUTCOffsetValid := false |>
             <| BPTASG.sysPtpTimescale := int_true (get_yang PTP_TIMESCALE_DS domainIndex) |>
             <| BPTASG.sysTimeTraceable := false |> <| BPTASG.sysFrequencyTraceable := false |> in
  let b := if BPTASG.sysPtpTimescale b then b <| BPTASG.sysCurrentUtcOffset := 37 |> else b in
  b <| BPTASG.sysTimeSource := u8 (get_yang TIME_SOURCE domainIndex) |>
    <| BPTASG.systemPriority := system_priority (PTASG.thisClock ptasglb) domainIndex |>.

Definition bmcs_pp_glb_init (domainIndex portIndex : Z) : BmcsPerPortGlobal :=
  zero <| BPPG.infoIs := Disabled |>
       <| BPPG.initialLogAnnounceInterval := i8 (get_portds INITIAL_LOG_ANNOUNCE_INTERVAL portIndex domainIndex) |>
       <| BPPG.announceReceiptTimeout := i8 (get_portds ANNOUNCE_RECEIPT_TIMEOUT portIndex domainIndex) |>.

(** what the media-dependent entities of all domains share *)
Definition md_entity_all_init (portIndex : Z) : MDEntityGlobalForAllDomain :=
  let l := i8 (get_portds INITIAL_LOG_PDELAY_REQ_INTERVAL portIndex 0) in
  zero <| MDEGALL.currentLogPdelayReqInterval := i8 (get_portds CURRENT_LOG_PDELAY_REQ_INTERVAL portIndex 0) |>
       <| MDEGALL.initialLogPdelayReqInterval := l |>
       <| MDEGALL.pdelayReqInterval; UNs.nsec := LOG_TO_NSEC l |>
       <| MDEGALL.allowedLostResponses := u16 (get_portds ALLOWED_LOST_RESPONSES portIndex 0) |>
       <| MDEGALL.allowedFaults := u16 (get_portds ALLOWED_FAULTS portIndex 0) |>
       <| MDEGALL.neighborPropDelayThresh; UNs.nsec :=
            Z.shiftr (u64 (get_portds MEAN_LINK_DELAY_THRESH portIndex 0)) 16 |>
       <| MDEGALL.neighborPropDelayMinLimit; UNs.nsec := u64 (get_item NEIGHBOR_PROPDELAY_MINLIMIT) |>.

Definition md_entity_glb_init (forAllDomain : option MDEntityGlobalForAllDomain) (portIndex : Z) : MDEntityGlobal :=
  MDEG.mk (u16 rand) false false false (default (md_entity_all_init portIndex) forAllDomain).

End Init.
