(* ===== verification/MdSyncReceive.v ===== *)
(** * MdSyncReceive: md_sync_receive_sm.c, the reception of Sync and Follow_Up.

    A two-step Sync is kept until the Follow_Up with its sequence number comes or
    the upstream interval has passed; the pair gives one MDSyncReceive.  The
    messages are kept as the octets received, the pointers to them are NULL until
    the first of each. *)

From Stdlib Require Import SpecFloat.
From S2P Require Import Prelude Types Floats Driver Common Perfmon Media Wire.

Module MDSRsm.

Record MDSyncReceiveSM := mk {
  followUpReceiptTimeoutTime : UScaledNs;
  rcvdSync : bool;
  rcvdFollowUp : bool;
  rcvdSyncPtr : bool;        (* u.rcvdSyncPtr designates u.recSync; false: NULL *)
  rcvdFollowUpPtr : bool;    (* designates recFollowUp; false: NULL *)
  upstreamSyncInterval : UScaledNs
}.
#[export] Instance eta_MDSyncReceiveSM : Eta MDSyncReceiveSM :=
  fields! mk [followUpReceiptTimeoutTime, rcvdSync, rcvdFollowUp, rcvdSyncPtr, rcvdFollowUpPtr,
              upstreamSyncInterval].
#[export] Instance zero_MDSyncReceiveSM : Zero MDSyncReceiveSM := mk zero false false false false zero.

End MDSRsm.
Export (hints) MDSRsm.
Abbreviation MDSyncReceiveSM := MDSRsm.MDSyncReceiveSM.

(** ** The members of the messages *)

(** sizeof(MDPTPMsgSync), sizeof(MDPTPMsgSyncOneStep), sizeof(MDPTPMsgFollowUp) *)
Definition SYNC_SIZE : nat := 44.
Definition SYNC_ONE_STEP_SIZE : nat := 76.
Definition FOLLOW_UP_SIZE : nat := 76.

Definition GET_TWO_STEP_BYTE_FLAG (buf : list Z) : bool := Z.testbit (octet 6 buf) 1.

(** the timestamp at octet 34: seconds (16 and 32 bits), nanoseconds *)
Definition read_timestamp (buf : list Z) : Timestamp :=
  Tstamp.mk (ntoh 40 4 buf) (U48.mk (ntoh 36 4 buf) (ntoh 34 2 buf)).

(** members of the Follow_Up information TLV at octet 44 *)
Definition read_rate_ratio (buf : list Z) : double :=
  dadd d1 (ldexp (d_of_Z (i32 (ntoh 54 4 buf))) (-41)).
Definition read_phase_change (buf : list Z) : ScaledNs :=
  SNs.mk (ntoh 70 2 buf) (i64 (ntoh 62 8 buf)) (i16 (ntoh 60 2 buf)).
Definition read_freq_change (buf : list Z) : double :=
  ldexp (d_of_Z (i32 (ntoh 72 4 buf))) (-41).

Module SREC.

Inductive md_sync_receive_state_t := INIT | DISCARD | WAITING_FOR_FOLLOW_UP | WAITING_FOR_SYNC | REACTION.
#[export] Instance state_eqdec : EqDecision md_sync_receive_state_t.
Proof. solve_decision. Defined.

Record md_sync_receive_data := mk {
  ptasg : PerTimeAwareSystemGlobal;
  ppg : PerPortGlobal;
  mdeg : MDEntityGlobal;
  state : md_sync_receive_state_t;
  last_state : md_sync_receive_state_t;
  thisSM : MDSyncReceiveSM;
  domainIndex : Z;
  portIndex : Z;
  mdSyncReceive : MDSyncReceive;
  syncEventIngressTimestamp : Z;
  recSync : list Z;          (* the union u: 76 octets *)
  recFollowUp : list Z;      (* 76 octets *)
  rsync_ts : Z;
  rfup_ts : Z
}.
#[export] Instance eta_data : Eta md_sync_receive_data :=
  fields! mk [ptasg, ppg, mdeg, state, last_state, thisSM, domainIndex, portIndex, mdSyncReceive,
              syncEventIngressTimestamp, recSync, recFollowUp, rsync_ts, rfup_ts].
Abbreviation data := md_sync_receive_data.

Section Procs.
Context `{PL : Platform} `{CV : Conversions}.

Definition PORT_UP (sm : data) : bool :=
  PPGALL.portOper (PPG.forAllDomain (ppg sm)) && PPG.ptpPortEnabled (ppg sm) &&
  PPG.asCapable (ppg sm).
Definition ASYMMETRY_MEASUREMENT_MODE (sm : data) : bool :=
  PPGALL.asymmetryMeasurementMode (PPG.forAllDomain (ppg sm)).
Definition ONE_STEP_RECEIVE (sm : data) : bool := MDEG.oneStepReceive (mdeg sm).

(** GET_TWO_STEP_FLAG(RCVD_SYNC_PTR->head) *)
Definition TWO_STEP_FLAG (sm : data) : bool := Z.testbit (octet 6 (recSync sm)) 1.

(** the correctionField sum: of the Sync, and of the Follow_Up if there is one *)
Definition correction_of (sync fup : list Z) (two_step : bool) : Z :=
  if two_step then u64 (ntoh 8 8 sync + ntoh 8 8 fup) else ntoh 8 8 sync.

(** [neighborPropDelay/neighborRateRatio + delayAsymmetry/rateRatio] *)
Definition upstream_delay (pa : PerPortGlobalForAllDomain) (rateRatio : double) : double :=
  dadd (ddiv (d_of_Z (UNs.nsec (PPGALL.neighborPropDelay pa))) (PPGALL.neighborRateRatio pa))
       (ddiv (d_of_Z (UNs.nsec (PPGALL.delayAsymmetry pa))) rateRatio).

(** the structure handed on; the one-step branch reads lastGmPhaseChange from the Follow_Up *)
Definition md_sync_of (sm : data) : MDSyncReceive :=
  let s := recSync sm in
  let f := recFollowUp sm in
  let body := if TWO_STEP_FLAG sm then f else s in
  let cf := correction_of s f (TWO_STEP_FLAG sm) in
  let rr := read_rate_ratio body in
  mdSyncReceive sm
    <| MDSR.domainIndex := md_domain_number2index (octet 4 s) |>
    <| MDSR.seqid := ntoh 30 2 s |>
    <| MDSR.preciseOriginTimestamp := read_timestamp body |>
    <| MDSR.rateRatio := rr |>
    <| MDSR.gmTimeBaseIndicator := ntoh 58 2 body |>
    <| MDSR.lastGmPhaseChange := read_phase_change f |>
    <| MDSR.lastGmFreqChange := read_freq_change body |>
    <| MDSR.followUpCorrectionField; SNs.nsec := Z.shiftr cf 16 |>
    <| MDSR.followUpCorrectionField; SNs.subns := u16 cf |>
    <| MDSR.sourcePortIdentity := PortId.mk (octets 20 8 s) (md_port_number2index (ntoh 28 2 s)) |>
    <| MDSR.logMessageInterval := i8 (octet 33 s) |>
    <| MDSR.upstreamTxTime; UNs.nsec :=
         u64 (syncEventIngressTimestamp sm -
              d_to_uint 64 (upstream_delay (PPG.forAllDomain (ppg sm)) rr)) |>.

(** MasterSlaveDelay and offsetFromMaster for the performance record *)
Definition master_slave_delay (m : MDSyncReceive) (ingress : Z) : Z :=
  let ts := MDSR.preciseOriginTimestamp m in
  i64 (ingress - (U48.lsb (Tstamp.seconds ts) * UB_SEC_NS + Tstamp.nanoseconds ts) -
       SNs.nsec (MDSR.followUpCorrectionField m)).
Definition offset_from_master (m : MDSyncReceive) (ingress : Z) : Z :=
  d_to_int 64 (dsub (d_of_Z (master_slave_delay m ingress))
    (dmul (MDSR.rateRatio m) (d_of_Z (u64 (ingress - UNs.nsec (MDSR.upstreamTxTime m)))))).

(** None: RCVD_SYNC_PTR or RCVD_FOLLOWUP_PTR is NULL *)
Definition setMDSyncReceive (sm : data) : option (data * MDSyncReceive) :=
  via (MDSRsm.rcvdSyncPtr (thisSM sm)) (via (MDSRsm.rcvdFollowUpPtr (thisSM sm))
    (let m := md_sync_of sm in
     let ingress := syncEventIngressTimestamp sm in
     Some (sm <| mdSyncReceive := m |>
              <| ptasg; PTASG.perfmonClockDS ::= fun ds =>
                   gptp_clock_perfmon_cpmdr_add CPMDR_offsetFromMaster (offset_from_master m ingress)
                     (gptp_clock_perfmon_cpmdr_add CPMDR_masterSlaveDelay (master_slave_delay m ingress) ds) |>, m))).

Definition allstate_condition (sm : data) : data * md_sync_receive_state_t :=
  if PTASG.BEGIN (ptasg sm) || negb (PTASG.instanceEnable (ptasg sm)) || negb (PORT_UP sm)
  then (sm <| last_state := REACTION |>, DISCARD) else (sm, state sm).

Definition discard_proc (sm : data) : data :=
  sm <| thisSM; MDSRsm.rcvdSync := false |> <| thisSM; MDSRsm.rcvdFollowUp := false |>
     <| rsync_ts := 0 |> <| rfup_ts := 0 |>.

(** the next state; None: RCVD_SYNC_PTR is NULL *)
Definition discard_condition (sm : data) : option data :=
  if MDSRsm.rcvdSync (thisSM sm) && PORT_UP sm then
    via (MDSRsm.rcvdSyncPtr (thisSM sm)) (Some (
      if ASYMMETRY_MEASUREMENT_MODE sm then sm <| state := DISCARD |>
      else if TWO_STEP_FLAG sm then sm <| state := WAITING_FOR_FOLLOW_UP |>
      else if ONE_STEP_RECEIVE sm then sm <| state := WAITING_FOR_SYNC |>
      else sm <| last_state := REACTION |> <| state := DISCARD |>))
  else Some (sm <| state := DISCARD |>).

Definition waiting_for_follow_up_proc (cts64 : Z) (sm : data) : option data :=
  via (MDSRsm.rcvdSyncPtr (thisSM sm)) (
    let sm := if MDSRsm.rcvdSync (thisSM sm) then sm <| rsync_ts := cts64 |> else sm in
    let interval := LOG_TO_NSEC (i8 (octet 33 (recSync sm))) in
    Some (sm <| ppg; PPG.perfmonDS ::= PERFMON_PPMDR (fun r => r <| PortDR.syncRx ::= inc32 |>) |>
             <| thisSM; MDSRsm.rcvdSync := false |>
             <| thisSM; MDSRsm.upstreamSyncInterval; UNs.nsec := interval |>
             <| thisSM; MDSRsm.followUpReceiptTimeoutTime; UNs.nsec := u64 (cts64 + interval) |>)).

(** the Follow_Up is the Sync's *)
Definition same_sequence (sm : data) : bool := ntoh 30 2 (recFollowUp sm) =? ntoh 30 2 (recSync sm).

Definition wff_sync (cts64 : Z) (sm : data) : option data :=
  let timeout := (UNs.nsec (MDSRsm.followUpReceiptTimeoutTime (thisSM sm)) <=? cts64) &&
                 negb (ASYMMETRY_MEASUREMENT_MODE sm) in
  let stay := Some (sm <| state := if timeout then DISCARD else WAITING_FOR_FOLLOW_UP |>) in
  if MDSRsm.rcvdSync (thisSM sm) && PORT_UP sm then
    via (MDSRsm.rcvdSyncPtr (thisSM sm)) (
      if TWO_STEP_FLAG sm then stay
      else if ONE_STEP_RECEIVE sm then Some (sm <| state := WAITING_FOR_SYNC |>)
      else if timeout || negb (ASYMMETRY_MEASUREMENT_MODE sm) then Some (sm <| state := DISCARD |>)
      else stay)
  else stay.

Definition waiting_for_follow_up_condition (cts64 : Z) (sm : data) : option data :=
  if MDSRsm.rcvdSync (thisSM sm) && PORT_UP sm && MDSRsm.rcvdSyncPtr (thisSM sm) && TWO_STEP_FLAG sm
  then Some (sm <| last_state := REACTION |> <| state := WAITING_FOR_FOLLOW_UP |>)
  else if MDSRsm.rcvdSync (thisSM sm) && PORT_UP sm && negb (MDSRsm.rcvdSyncPtr (thisSM sm)) then None
  else if MDSRsm.rcvdFollowUp (thisSM sm) then
    via (MDSRsm.rcvdFollowUpPtr (thisSM sm)) (via (MDSRsm.rcvdSyncPtr (thisSM sm)) (
      if same_sequence sm then Some (sm <| state := WAITING_FOR_SYNC |>)
      else wff_sync cts64 (sm <| thisSM; MDSRsm.rcvdFollowUp := false |>)))
  else wff_sync cts64 sm.

Definition waiting_for_sync_proc (cts64 : Z) (sm : data) : option (data * MDSyncReceive) :=
  let sm := sm <| thisSM; MDSRsm.rcvdSync := false |> in
  let sm := if MDSRsm.rcvdFollowUp (thisSM sm) then sm <| rfup_ts := cts64 |> else sm in
  setMDSyncReceive
    (sm <| ppg; PPG.perfmonDS ::= PERFMON_PPMDR (fun r => r <| PortDR.followUpRx ::= inc32 |>) |>
        <| thisSM; MDSRsm.rcvdFollowUp := false |>).

Definition waiting_for_sync_condition (sm : data) : option data :=
  if MDSRsm.rcvdSync (thisSM sm) && PORT_UP sm then
    via (MDSRsm.rcvdSyncPtr (thisSM sm)) (Some (
      if ASYMMETRY_MEASUREMENT_MODE sm then sm <| state := WAITING_FOR_SYNC |>
      else if TWO_STEP_FLAG sm then sm <| state := WAITING_FOR_FOLLOW_UP |>
      else if ONE_STEP_RECEIVE sm then sm <| last_state := REACTION |> <| state := WAITING_FOR_SYNC |>
      else sm <| state := DISCARD |>))
  else Some (sm <| state := WAITING_FOR_SYNC |>).

(** [None] of a proc or a condition is the use of a NULL pointer *)
Definition go (sm : data) (o : option data) : data * ctl MDSyncReceive :=
  match o with Some s => (s, Next) | None => (sm, Leave Crash) end.

(** a proc that returns something leaves the function after the condition has run *)
Definition switch (cts64 : Z) (state_change : bool) (sm : data) : data * ctl MDSyncReceive :=
  match state sm with
  | INIT => (sm <| state := DISCARD |>, Next)
  | DISCARD => let sm := if state_change then discard_proc sm else sm in go sm (discard_condition sm)
  | WAITING_FOR_FOLLOW_UP =>
      if state_change then
        match waiting_for_follow_up_proc cts64 sm with
        | Some s => go s (waiting_for_follow_up_condition cts64 s)
        | None => (sm, Leave Crash)
        end
      else go sm (waiting_for_follow_up_condition cts64 sm)
  | WAITING_FOR_SYNC =>
      if state_change then
        match waiting_for_sync_proc cts64 sm with
        | Some (s, m) =>
            match waiting_for_sync_condition s with
            | Some s => (s, Leave (Ret (Some m)))
            | None => (s, Leave Crash)
            end
        | None => (sm, Leave Crash)
        end
      else go sm (waiting_for_sync_condition sm)
  | REACTION => (sm, Next)
  end.

Definition set_last (e : md_sync_receive_state_t) (sm : data) : data := sm <| last_state := e |>.
Definition set_allstate (sm : data) : data :=
  let (sm, st) := allstate_condition sm in sm <| state := st |>.

Definition machine (cts64 : Z) : StateMachine data md_sync_receive_state_t MDSyncReceive := {|
  sm_state := state;
  sm_last := last_state;
  sm_set_last := set_last;
  sm_allstate := set_allstate;
  sm_switch := switch cts64;
  sm_state_set_last := fun _ _ => eq_refl;
  sm_last_set_last := fun _ _ => eq_refl
|}.

(** INIT or a resting state, WAITING_FOR_FOLLOW_UP, then DISCARD or WAITING_FOR_SYNC *)
Definition fuel : nat := 5.

Definition md_sync_receive_sm (cts64 : Z) (sm : data) : data * outcome MDSyncReceive :=
  exec (M := machine cts64) fuel sm.

Definition md_sync_receive_sm_init (domainIndex portIndex : Z) (ptasg : PerTimeAwareSystemGlobal)
    (ppg : PerPortGlobal) (mdeg : MDEntityGlobal) : data :=
  mk ptasg ppg mdeg INIT INIT zero domainIndex portIndex zero 0
     (replicate SYNC_ONE_STEP_SIZE 0) (replicate FOLLOW_UP_SIZE 0) 0 0.

(** the size check compares with sizeof(sm->u.recSync); on a violation the function returns after
    RCVD_SYNC was set *)
Definition md_sync_receive_sm_recv_sync (edrecv : event_data_recv) (cts64 : Z) (sm : data)
  : data * outcome MDSyncReceive :=
  let sm := sm <| thisSM; MDSRsm.rcvdSync := true |> in
  let size := if GET_TWO_STEP_BYTE_FLAG (recbptr edrecv) then SYNC_SIZE else SYNC_ONE_STEP_SIZE in
  if (size <=? SYNC_SIZE)%nat then
    md_sync_receive_sm cts64
      (sm <| recSync ::= recv_into size (recbptr edrecv) |>
          <| thisSM; MDSRsm.rcvdSyncPtr := true |>
          <| syncEventIngressTimestamp :=
               u64 (ts64 edrecv - TIv.scaledNanoseconds (PPG.ingressLatency (ppg sm))) |>)
  else (sm, Ret None).

Definition md_sync_receive_sm_recv_fup (edrecv : event_data_recv) (cts64 : Z) (sm : data)
  : data * outcome MDSyncReceive :=
  md_sync_receive_sm cts64
    (sm <| thisSM; MDSRsm.rcvdFollowUp := true |>
        <| recFollowUp ::= recv_into FOLLOW_UP_SIZE (recbptr edrecv) |>
        <| thisSM; MDSRsm.rcvdFollowUpPtr := true |>).

End Procs.

(** ** Sequences of events *)

(** what happens to the machine of a port: a message comes, the timer ticks, or the shared data of
    the instance, the port and the media-dependent entity change *)
Inductive event :=
| RecvSync (ed : event_data_recv)
| RecvFollowUp (ed : event_data_recv)
| Tick
| Shared (ptasg : PerTimeAwareSystemGlobal) (ppg : PerPortGlobal) (mdeg : MDEntityGlobal).

Section Events.
Context `{PL : Platform} `{CV : Conversions}.

Definition handle (ev : event) (cts64 : Z) (sm : data) : data * outcome MDSyncReceive :=
  match ev with
  | RecvSync ed => md_sync_receive_sm_recv_sync ed cts64 sm
  | RecvFollowUp ed => md_sync_receive_sm_recv_fup ed cts64 sm
  | Tick => md_sync_receive_sm cts64 sm
  | Shared a b c => (sm <| ptasg := a |> <| ppg := b |> <| mdeg := c |>, Ret None)
  end.

(** the states the machine of a port can be in, where [ok] tells the events that may happen *)
Inductive reachable (ok : event -> Prop) : data -> Prop :=
| reach_init di pi a b c : reachable ok (md_sync_receive_sm_init di pi a b c)
| reach_event ev cts64 sm : reachable ok sm -> ok ev -> reachable ok (handle ev cts64 sm).1.

(** ** Termination *)

#[local] Arguments LOG_TO_NSEC : simpl never.
#[local] Arguments ntoh : simpl never.
#[local] Arguments octet : simpl never.
#[local] Arguments Z.testbit : simpl never.
#[local] Arguments md_sync_of : simpl never.
#[local] Arguments master_slave_delay : simpl never.
#[local] Arguments offset_from_master : simpl never.
#[local] Arguments PERFMON_PPMDR : simpl never.

Definition rank (sm : data) : nat :=
  let changed := bool_decide (last_state sm <> state sm) in
  match state sm with
  | INIT => 4
  | REACTION => 0
  | WAITING_FOR_FOLLOW_UP => if changed then 2 else 3
  | DISCARD | WAITING_FOR_SYNC => if changed then 1 else 3
  end.

Lemma srec_pass_eq cts64 sm :
  pass (M := machine cts64) sm =
  switch cts64 (bool_decide (last_state sm <> state sm)) (set_last (state sm) sm).
Proof. reflexivity. Qed.

(** case analysis of a condition that returned *)
Ltac cases_of H :=
  unfold via in H; repeat destruct_cond_in H; try discriminate H; try (injection H as <-); bool_hyps.

(** the next state of each condition, with [last_state] set anew where it is *)
Lemma discard_next sm s :
  discard_condition sm = Some s ->
  last_state s = last_state sm /\ state s = DISCARD \/
  MDSRsm.rcvdSync (thisSM sm) = true /\
  (last_state s = REACTION /\ state s = DISCARD \/
   last_state s = last_state sm /\ In (state s) [WAITING_FOR_FOLLOW_UP; WAITING_FOR_SYNC]).
Proof. unfold discard_condition. intros H. cases_of H; cbn [state last_state In]; auto 10. Qed.

Lemma wff_sync_next cts64 sm s :
  wff_sync cts64 sm = Some s ->
  last_state s = last_state sm /\ In (state s) [DISCARD; WAITING_FOR_FOLLOW_UP; WAITING_FOR_SYNC].
Proof. unfold wff_sync. intros H. cases_of H; cbn [state last_state In]; auto 10. Qed.

Lemma waiting_for_follow_up_next cts64 sm s :
  waiting_for_follow_up_condition cts64 sm = Some s ->
  MDSRsm.rcvdSync (thisSM sm) = true /\ last_state s = REACTION /\ state s = WAITING_FOR_FOLLOW_UP \/
  last_state s = last_state sm /\ In (state s) [DISCARD; WAITING_FOR_FOLLOW_UP; WAITING_FOR_SYNC].
Proof.
  unfold waiting_for_follow_up_condition. intros H.
  cases_of H; try apply wff_sync_next in H; cbn [state last_state In] in *; auto 10.
Qed.

Lemma waiting_for_sync_next sm s :
  waiting_for_sync_condition sm = Some s ->
  last_state s = last_state sm /\ state s = WAITING_FOR_SYNC \/
  MDSRsm.rcvdSync (thisSM sm) = true /\
  (last_state s = REACTION /\ state s = WAITING_FOR_SYNC \/
   last_state s = last_state sm /\ In (state s) [WAITING_FOR_FOLLOW_UP; DISCARD]).
Proof. unfold waiting_for_sync_condition. intros H. cases_of H; cbn [state last_state In]; auto 10. Qed.

Ltac in_cases :=
  cbn [In] in *; repeat match goal with
  | H : _ /\ _ |- _ => destruct H
  | H : _ \/ _ |- _ => destruct H
  | H : False |- _ => destruct H
  end.

Lemma waiting_for_follow_up_cleared cts64 sm s :
  waiting_for_follow_up_proc cts64 sm = Some s ->
  MDSRsm.rcvdSync (thisSM s) = false /\ last_state s = last_state sm.
Proof.
  unfold waiting_for_follow_up_proc, via. intros H. cases_of H; done.
Qed.

(** the next state [s] of a condition, by its lemma [D], has a lower rank than a state of rank [n] *)
Ltac next_rank D :=
  cbn in D; in_cases; try discriminate;
  repeat match goal with H : _ = state _ |- _ => symmetry in H end;
  repeat match goal with
  | H : state ?s = _ |- context [state ?s] => rewrite H in *
  | H : last_state ?s = _ |- context [last_state ?s] => rewrite H in *
  end;
  try congruence; settle_changes; lia.

Lemma srec_receive_turns cts64 sm sm' :
  turns (M := machine cts64) sm sm' -> (rank sm' < rank sm)%nat.
Proof.
  intros [H T]. rewrite srec_pass_eq in H. change (last_state sm' <> state sm') in T.
  unfold rank, switch, go, set_last in *.
  change (state (sm <| last_state := state sm |>)) with (state sm) in H.
  destruct (state sm) eqn:E.
  - injection H as <-. cbn. settle_changes. lia.
  - destruct (bool_decide _); (destruct (discard_condition _) as [s|] eqn:D; [|discriminate]);
      injection H as <-; apply discard_next in D; next_rank D.
  - destruct (bool_decide _).
    + destruct (waiting_for_follow_up_proc _ _) as [s0|] eqn:P; [|discriminate].
      apply waiting_for_follow_up_cleared in P as [P1 P2].
      destruct (waiting_for_follow_up_condition _ _) as [s|] eqn:D; [|discriminate].
      injection H as <-; apply waiting_for_follow_up_next in D. rewrite P1, P2 in D. next_rank D.
    + destruct (waiting_for_follow_up_condition _ _) as [s|] eqn:D; [|discriminate].
      injection H as <-; apply waiting_for_follow_up_next in D. next_rank D.
  - destruct (bool_decide _).
    + destruct (waiting_for_sync_proc _ _) as [[s0 m]|]; [|discriminate].
      by destruct (waiting_for_sync_condition _).
    + destruct (waiting_for_sync_condition _) as [s|] eqn:D; [|discriminate].
      injection H as <-; apply waiting_for_sync_next in D. next_rank D.
  - injection H as <-. cbn in T. congruence.
Qed.

Lemma md_sync_receive_ends cts64 sm : is_Some (run (M := machine cts64) fuel sm).
Proof.
  apply (loop_ends (M := machine cts64) (fun _ => True) rank).
  - intros s s' _ H. split; [done|]. by apply (srec_receive_turns cts64).
  - done.
  - unfold rank, fuel. destruct (state _); try destruct_cond; lia.
Qed.
(** ** Pairing *)

(** the port takes messages *)
Definition ready (sm : data) : Prop :=
  PTASG.BEGIN (ptasg sm) = false /\ PTASG.instanceEnable (ptasg sm) = true /\ PORT_UP sm = true.

Lemma srec_allstate_ready sm : ready sm -> set_allstate sm = sm.
Proof.
  intros (B & I & U). unfold set_allstate, allstate_condition. rewrite B, I, U. by destruct sm.
Qed.

Lemma set_last_id sm : last_state sm = state sm -> set_last (state sm) sm = sm.
Proof. destruct sm. cbn. by intros ->. Qed.

(** a pass over a machine at rest, and over one that has just changed its state *)
Lemma srec_pass_rest cts64 sm :
  last_state sm = state sm -> pass (M := machine cts64) sm = switch cts64 false sm.
Proof.
  intros H. rewrite srec_pass_eq, set_last_id by done. by rewrite bool_decide_eq_false_2 by tauto.
Qed.

(** a two-step Sync has been taken and is to be waited on *)
Definition new_sync (sm : data) : Prop :=
  MDSRsm.rcvdSync (thisSM sm) = true /\ MDSRsm.rcvdSyncPtr (thisSM sm) = true /\
  TWO_STEP_FLAG sm = true /\ ASYMMETRY_MEASUREMENT_MODE sm = false.

(** the states in which the machine waits for a Sync *)
Definition resting (sm : data) : Prop :=
  last_state sm = state sm /\ In (state sm) [DISCARD; WAITING_FOR_SYNC].

Lemma rest_sync cts64 sm :
  ready sm -> resting sm -> new_sync sm ->
  turns (M := machine cts64) sm (sm <| state := WAITING_FOR_FOLLOW_UP |>).
Proof.
  intros (_ & _ & U) [L R] (S1 & S2 & S3 & S4). split; [|cbn; in_cases; congruence].
  rewrite srec_pass_rest by done. unfold switch.
  destruct R as [<-|[<-|[]]]; unfold discard_condition, waiting_for_sync_condition, via;
    by rewrite U, S1, S2, S3, S4.
Qed.

Lemma rest_quiet cts64 sm :
  resting sm -> MDSRsm.rcvdSync (thisSM sm) = false ->
  loop (M := machine cts64) fuel sm = Some (sm, Ret None).
Proof.
  intros [L R] S. unfold fuel. apply (loop_stop (M := machine cts64)); [|exact L].
  rewrite srec_pass_rest by done. unfold switch.
  destruct R as [E|[E|[]]]; rewrite <- E; unfold discard_condition, waiting_for_sync_condition;
    rewrite S; cbn [andb go]; rewrite E; by destruct sm.
Qed.

(** entering WAITING_FOR_FOLLOW_UP *)
Definition waiting (cts64 : Z) (sm : data) : data :=
  let interval := LOG_TO_NSEC (i8 (octet 33 (recSync sm))) in
  (if MDSRsm.rcvdSync (thisSM sm) then sm <| rsync_ts := cts64 |> else sm)
    <| ppg; PPG.perfmonDS ::= PERFMON_PPMDR (fun r => r <| PortDR.syncRx ::= inc32 |>) |>
    <| thisSM; MDSRsm.rcvdSync := false |>
    <| thisSM; MDSRsm.upstreamSyncInterval; UNs.nsec := interval |>
    <| thisSM; MDSRsm.followUpReceiptTimeoutTime; UNs.nsec := u64 (cts64 + interval) |>
    <| last_state := WAITING_FOR_FOLLOW_UP |> <| state := WAITING_FOR_FOLLOW_UP |>.

Lemma enter_waiting cts64 sm :
  last_state sm <> WAITING_FOR_FOLLOW_UP -> MDSRsm.rcvdSyncPtr (thisSM sm) = true ->
  let s := waiting cts64 sm in
  pass (M := machine cts64) (sm <| state := WAITING_FOR_FOLLOW_UP |>) =
  go s (waiting_for_follow_up_condition cts64 s).
Proof.
  intros L P. cbn zeta. rewrite srec_pass_eq. destruct sm as [pt pp md st la tm di pi m si bs bf r1 r2].
  cbn [last_state thisSM] in *. unfold switch, set_last. cbn [state last_state upd].
  rewrite bool_decide_eq_true_2 by done. unfold waiting_for_follow_up_proc, via. cbn [thisSM upd].
  rewrite P. unfold waiting. cbn [thisSM upd]. by destruct (MDSRsm.rcvdSync tm).
Qed.

(** a Follow_Up has been taken, and it is that of the Sync *)
Definition matching (sm : data) : Prop :=
  MDSRsm.rcvdFollowUp (thisSM sm) = true /\ MDSRsm.rcvdFollowUpPtr (thisSM sm) = true /\
  MDSRsm.rcvdSyncPtr (thisSM sm) = true /\ same_sequence sm = true.

(** what the structure handed on is computed from *)
Lemma md_sync_of_ext a b :
  recSync a = recSync b -> recFollowUp a = recFollowUp b -> mdSyncReceive a = mdSyncReceive b ->
  syncEventIngressTimestamp a = syncEventIngressTimestamp b ->
  PPG.forAllDomain (ppg a) = PPG.forAllDomain (ppg b) -> md_sync_of a = md_sync_of b.
Proof. unfold md_sync_of, TWO_STEP_FLAG. by intros -> -> -> -> ->. Qed.

Lemma set_md_sync_receive sm :
  MDSRsm.rcvdSyncPtr (thisSM sm) = true -> MDSRsm.rcvdFollowUpPtr (thisSM sm) = true ->
  exists s, setMDSyncReceive sm = Some (s, md_sync_of sm) /\ thisSM s = thisSM sm /\
            last_state s = last_state sm /\ state s = state sm /\ mdSyncReceive s = md_sync_of sm /\
            recSync s = recSync sm /\ recFollowUp s = recFollowUp sm.
Proof.
  unfold setMDSyncReceive, via. intros -> ->. eexists. split; [done|].
  by destruct sm as [[] ? ? ? ? ? ? ? ? ? ? ? ? ?].
Qed.

Lemma sync_proc cts64 sm :
  MDSRsm.rcvdSyncPtr (thisSM sm) = true -> MDSRsm.rcvdFollowUpPtr (thisSM sm) = true ->
  exists s, waiting_for_sync_proc cts64 sm = Some (s, md_sync_of sm) /\
            thisSM s = thisSM sm <| MDSRsm.rcvdSync := false |> <| MDSRsm.rcvdFollowUp := false |> /\
            last_state s = last_state sm /\ state s = state sm /\ mdSyncReceive s = md_sync_of sm /\
            recSync s = recSync sm /\ recFollowUp s = recFollowUp sm.
Proof.
  intros P1 P2. unfold waiting_for_sync_proc. cbn zeta.
  match goal with |- context [setMDSyncReceive ?x] => set (s1 := x) end.
  destruct (set_md_sync_receive s1) as (s & H & T & A & B & M & C & D);
    [by unfold s1; destruct sm as [? ? ? ? ? [? ? [] ? ? ?]]..|].
  assert (K : md_sync_of s1 = md_sync_of sm)
    by (apply md_sync_of_ext; unfold s1; by destruct sm as [? ? ? ? ? [? ? [] ? ? ?]]).
  exists s. rewrite H, T, A, B, M, C, D, K. split; [done|].
  unfold s1. by destruct sm as [? ? ? ? ? [? ? [] ? ? ?]].
Qed.

Lemma enter_sync cts64 sm :
  last_state sm <> WAITING_FOR_SYNC -> MDSRsm.rcvdSyncPtr (thisSM sm) = true ->
  MDSRsm.rcvdFollowUpPtr (thisSM sm) = true ->
  exists s, pass (M := machine cts64) (sm <| state := WAITING_FOR_SYNC |>) =
            (s, Leave (Ret (Some (md_sync_of sm)))) /\
            resting s /\ MDSRsm.rcvdSync (thisSM s) = false /\
            MDSRsm.rcvdFollowUp (thisSM s) = false /\ mdSyncReceive s = md_sync_of sm.
Proof.
  intros L P1 P2. rewrite srec_pass_eq. unfold switch, set_last. cbn [state last_state upd].
  rewrite bool_decide_eq_true_2 by done.
  match goal with |- context [waiting_for_sync_proc _ ?x] => set (s1 := x) end.
  destruct (sync_proc cts64 s1) as (s & H & T & A & B & M & _); [done|done|].
  assert (K : md_sync_of s1 = md_sync_of sm) by (by apply md_sync_of_ext).
  rewrite H. cbn beta iota. unfold waiting_for_sync_condition.
  rewrite T, K in *. cbn [andb MDSRsm.rcvdSync upd]. eexists. split; [reflexivity|].
  split_and!; try (destruct s; cbn in *; by subst). split; destruct s; cbn in *; by auto.
Qed.

(** a machine that waits for the Follow_Up *)
Definition awaiting (sm : data) : Prop :=
  last_state sm = WAITING_FOR_FOLLOW_UP /\ state sm = WAITING_FOR_FOLLOW_UP /\
  MDSRsm.rcvdSync (thisSM sm) = false /\ MDSRsm.rcvdSyncPtr (thisSM sm) = true.

Lemma awaiting_match n cts64 sm :
  awaiting sm -> matching sm ->
  exists s, loop (M := machine cts64) (2 + n) sm = Some (s, Ret (Some (md_sync_of sm))) /\
            resting s /\ MDSRsm.rcvdSync (thisSM s) = false /\
            MDSRsm.rcvdFollowUp (thisSM s) = false /\ mdSyncReceive s = md_sync_of sm.
Proof.
  intros (L & E & S & P1) (F & P2 & _ & Q).
  destruct (enter_sync cts64 sm) as (s & H & R); [congruence|done|done|].
  exists s. split; [|exact R]. cbn [Nat.add].
  rewrite (loop_turn (M := machine cts64) _ _ (sm <| state := WAITING_FOR_SYNC |>)).
  - by apply (loop_return (M := machine cts64)).
  - split; [|cbn; congruence]. rewrite srec_pass_rest by congruence. unfold switch. rewrite E.
    unfold waiting_for_follow_up_condition, via. by rewrite S, F, P1, P2, Q.
Qed.

Lemma waiting_awaits cts64 sm :
  MDSRsm.rcvdSyncPtr (thisSM sm) = true -> awaiting (waiting cts64 sm).
Proof.
  intros P. unfold waiting. destruct (MDSRsm.rcvdSync _); split_and!; try done;
    destruct sm as [? ? ? ? ? []]; exact P.
Qed.

Lemma waiting_frame cts64 sm :
  let s := waiting cts64 sm in
  recSync s = recSync sm /\ recFollowUp s = recFollowUp sm /\ mdSyncReceive s = mdSyncReceive sm /\
  syncEventIngressTimestamp s = syncEventIngressTimestamp sm /\
  PPG.forAllDomain (ppg s) = PPG.forAllDomain (ppg sm) /\ (ready sm -> ready s).
Proof. unfold waiting. by destruct sm as [? [] ? ? ? [? [] ? ? ? ?]]. Qed.

Lemma waiting_keeps cts64 sm :
  md_sync_of (waiting cts64 sm) = md_sync_of sm /\ same_sequence (waiting cts64 sm) = same_sequence sm /\
  MDSRsm.rcvdFollowUp (thisSM (waiting cts64 sm)) = MDSRsm.rcvdFollowUp (thisSM sm) /\
  MDSRsm.rcvdFollowUpPtr (thisSM (waiting cts64 sm)) = MDSRsm.rcvdFollowUpPtr (thisSM sm) /\
  MDSRsm.rcvdSyncPtr (thisSM (waiting cts64 sm)) = MDSRsm.rcvdSyncPtr (thisSM sm).
Proof.
  destruct (waiting_frame cts64 sm) as (A & B & C & D & E & _). split; [by apply md_sync_of_ext|].
  unfold same_sequence. rewrite A, B. unfold waiting. by destruct sm as [? ? ? ? ? [? [] ? ? ? ?]].
Qed.

(** a Sync after its Follow_Up *)
Lemma sync_after_follow_up cts64 sm :
  ready sm -> resting sm -> new_sync sm -> matching sm ->
  exists s, loop (M := machine cts64) fuel sm = Some (s, Ret (Some (md_sync_of sm))) /\
            resting s /\ MDSRsm.rcvdSync (thisSM s) = false /\
            MDSRsm.rcvdFollowUp (thisSM s) = false /\ mdSyncReceive s = md_sync_of sm.
Proof.
  intros A R N (F & P2 & P1 & Q).
  destruct (waiting_keeps cts64 sm) as (K1 & K2 & K3 & K4 & K5).
  destruct (enter_sync cts64 (waiting cts64 sm)) as (s & H & X);
    [unfold waiting; by destruct (MDSRsm.rcvdSync _)|congruence|congruence|].
  rewrite K1 in H, X.
  exists s. split; [|exact X]. unfold fuel.
  rewrite (loop_turn (M := machine cts64) _ _ _ (rest_sync cts64 sm A R N)).
  rewrite (loop_turn (M := machine cts64) _ _ (waiting cts64 sm <| state := WAITING_FOR_SYNC |>)).
  { by apply (loop_return (M := machine cts64)). }
  destruct R as [L R]. split; [|unfold waiting; cbn; by destruct (MDSRsm.rcvdSync _)].
  etrans; [apply enter_waiting; [in_cases; congruence|done]|].
  unfold waiting_for_follow_up_condition, via.
  destruct (waiting_awaits cts64 sm P1) as (_ & _ & W & _).
  by rewrite W, K2, K3, K4, K5, F, P1, P2, Q.
Qed.

(** a Sync whose Follow_Up is still to come *)
Lemma sync_starts_wait cts64 sm :
  ready sm -> resting sm -> new_sync sm -> MDSRsm.rcvdFollowUp (thisSM sm) = false ->
  cts64 < u64 (cts64 + LOG_TO_NSEC (i8 (octet 33 (recSync sm)))) ->
  loop (M := machine cts64) fuel sm = Some (waiting cts64 sm, Ret None).
Proof.
  intros A R N F T. destruct (waiting_keeps cts64 sm) as (_ & _ & K3 & _ & K5).
  pose proof N as (_ & P1 & _). destruct (waiting_awaits cts64 sm P1) as (W1 & W2 & W & _).
  unfold fuel. rewrite (loop_turn (M := machine cts64) _ _ _ (rest_sync cts64 sm A R N)).
  apply (loop_stop (M := machine cts64)); [|cbn; congruence].
  destruct R as [L R].
  etrans; [apply enter_waiting; [in_cases; congruence|done]|].
  unfold waiting_for_follow_up_condition, via, wff_sync. rewrite W, K3, F. cbn [andb go].
  replace (UNs.nsec _ <=? cts64) with false; [|symmetry; apply Z.leb_gt].
  - cbn [andb]. unfold waiting. by destruct (MDSRsm.rcvdSync _).
  - unfold waiting. by destruct (MDSRsm.rcvdSync _).
Qed.

(** ** What one message does *)

Definition take_sync (ed : event_data_recv) (sm : data) : data :=
  sm <| thisSM; MDSRsm.rcvdSync := true |>
     <| recSync ::= recv_into SYNC_SIZE (recbptr ed) |>
     <| thisSM; MDSRsm.rcvdSyncPtr := true |>
     <| syncEventIngressTimestamp := u64 (ts64 ed - TIv.scaledNanoseconds (PPG.ingressLatency (ppg sm))) |>.

Definition take_follow_up (ed : event_data_recv) (sm : data) : data :=
  sm <| thisSM; MDSRsm.rcvdFollowUp := true |>
     <| recFollowUp ::= recv_into FOLLOW_UP_SIZE (recbptr ed) |>
     <| thisSM; MDSRsm.rcvdFollowUpPtr := true |>.

(** a received buffer that holds a two-step Sync, and one that holds a Follow_Up *)
Definition two_step_sync (ed : event_data_recv) : Prop :=
  GET_TWO_STEP_BYTE_FLAG (recbptr ed) = true /\ (SYNC_SIZE <= length (recbptr ed))%nat.
Definition follow_up (ed : event_data_recv) : Prop := (FOLLOW_UP_SIZE <= length (recbptr ed))%nat.

Lemma recv_sync_two_step ed cts64 sm :
  two_step_sync ed -> md_sync_receive_sm_recv_sync ed cts64 sm = md_sync_receive_sm cts64 (take_sync ed sm).
Proof. intros [F _]. unfold md_sync_receive_sm_recv_sync. by rewrite F. Qed.

Lemma recv_follow_up ed cts64 sm :
  md_sync_receive_sm_recv_fup ed cts64 sm = md_sync_receive_sm cts64 (take_follow_up ed sm).
Proof. reflexivity. Qed.

Lemma take_sync_ready ed sm : ready sm -> ready (take_sync ed sm).
Proof. done. Qed.
Lemma take_follow_up_ready ed sm : ready sm -> ready (take_follow_up ed sm).
Proof. done. Qed.

Lemma take_new_sync es sm :
  two_step_sync es -> ASYMMETRY_MEASUREMENT_MODE sm = false -> new_sync (take_sync es sm).
Proof.
  intros [F L] A. split_and!; try done. unfold TWO_STEP_FLAG. cbn [recSync take_sync upd].
  rewrite octet_recv; [exact F|unfold SYNC_SIZE; lia|done].
Qed.

(** the sequence numbers compared are those received *)
Lemma take_same es ef sm :
  two_step_sync es -> follow_up ef ->
  same_sequence (take_follow_up ef (take_sync es sm)) =
  (ntoh 30 2 (recbptr ef) =? ntoh 30 2 (recbptr es)).
Proof.
  intros [_ L] F. unfold same_sequence. cbn [recSync recFollowUp take_sync take_follow_up upd].
  by rewrite !ntoh_recv by (done || unfold SYNC_SIZE, FOLLOW_UP_SIZE; lia).
Qed.

Lemma take_awaiting ef sm : awaiting sm -> awaiting (take_follow_up ef sm).
Proof. intros (A & B & C & D). split_and!; done. Qed.

Lemma recv_eq cts64 sm s r :
  ready sm -> loop (M := machine cts64) fuel sm = Some (s, r) -> md_sync_receive_sm cts64 sm = (s, r).
Proof.
  intros R H. apply (exec_eq (M := machine cts64)). change (sm_allstate sm) with (set_allstate sm).
  by rewrite srec_allstate_ready.
Qed.

(** the same state for the purposes of the pairing *)
Definition frame (s sm : data) : Prop :=
  recSync s = recSync sm /\ recFollowUp s = recFollowUp sm /\ mdSyncReceive s = mdSyncReceive sm /\
  syncEventIngressTimestamp s = syncEventIngressTimestamp sm /\
  PPG.forAllDomain (ppg s) = PPG.forAllDomain (ppg sm).

Lemma take_follow_up_frame ef s sm : frame s sm -> frame (take_follow_up ef s) (take_follow_up ef sm).
Proof.
  intros (A & B & C & D & E). unfold frame, take_follow_up. cbn [recSync recFollowUp mdSyncReceive
    syncEventIngressTimestamp ppg upd]. by rewrite B.
Qed.

Lemma frame_same s sm : frame s sm -> same_sequence s = same_sequence sm /\ md_sync_of s = md_sync_of sm.
Proof.
  intros (A & B & C & D & E). split; [|by apply md_sync_of_ext]. unfold same_sequence. by rewrite A, B.
Qed.

Lemma sync_taken ed cts64 sm :
  ready sm -> resting sm -> ASYMMETRY_MEASUREMENT_MODE sm = false ->
  MDSRsm.rcvdFollowUp (thisSM sm) = false -> two_step_sync ed ->
  cts64 < u64 (cts64 + LOG_TO_NSEC (i8 (octet 33 (recbptr ed)))) ->
  exists s, md_sync_receive_sm_recv_sync ed cts64 sm = (s, Ret None) /\
            awaiting s /\ ready s /\ frame s (take_sync ed sm).
Proof.
  intros R Q A F Hs T. pose proof Hs as [_ L].
  exists (waiting cts64 (take_sync ed sm)). rewrite recv_sync_two_step by done.
  destruct (waiting_frame cts64 (take_sync ed sm)) as (W1 & W2 & W3 & W4 & W5 & W6). split_and!.
  - apply recv_eq; [done|]. apply sync_starts_wait; try done; [by apply take_new_sync|].
    cbn [recSync take_sync upd]. rewrite octet_recv; [exact T|unfold SYNC_SIZE; lia|done].
  - by apply waiting_awaits.
  - by apply W6.
  - by split_and!.
Qed.

(** a Follow_Up that comes while it is waited for *)
Lemma follow_up_taken ed cts64 sm :
  ready sm -> awaiting sm -> same_sequence (take_follow_up ed sm) = true ->
  exists s, md_sync_receive_sm_recv_fup ed cts64 sm = (s, Ret (Some (md_sync_of (take_follow_up ed sm)))) /\
            resting s /\ MDSRsm.rcvdSync (thisSM s) = false /\
            MDSRsm.rcvdFollowUp (thisSM s) = false.
Proof.
  intros R A M. destruct (awaiting_match 3 cts64 (take_follow_up ed sm)) as (s & H & X & Y & Z & _).
  - by apply take_awaiting.
  - destruct A as (_ & _ & _ & P). by split_and!.
  - exists s. split; [|done]. rewrite recv_follow_up. apply recv_eq; [by apply take_follow_up_ready|exact H].
Qed.

Lemma pair_taken es ef c1 c2 sm :
  ready sm -> resting sm -> ASYMMETRY_MEASUREMENT_MODE sm = false ->
  MDSRsm.rcvdSync (thisSM sm) = false -> MDSRsm.rcvdFollowUp (thisSM sm) = false ->
  two_step_sync es -> follow_up ef -> ntoh 30 2 (recbptr ef) = ntoh 30 2 (recbptr es) ->
  c1 < u64 (c1 + LOG_TO_NSEC (i8 (octet 33 (recbptr es)))) ->
  let m := md_sync_of (take_follow_up ef (take_sync es sm)) in
  let a := md_sync_receive_sm_recv_sync es c1 sm in
  let b := md_sync_receive_sm_recv_fup ef c1 sm in
  a.2 = Ret None /\ (md_sync_receive_sm_recv_fup ef c2 a.1).2 = Ret (Some m) /\
  b.2 = Ret None /\ (md_sync_receive_sm_recv_sync es c2 b.1).2 = Ret (Some m).
Proof.
  intros R Q A S F Hs Hf N T m. cbn zeta. apply Z.eqb_eq in N.
  pose proof (take_same es ef sm Hs Hf) as M. rewrite N in M.
  destruct (sync_taken es c1 sm) as (s1 & -> & W & R1 & Fr); try done.
  cbn [fst snd]. apply (take_follow_up_frame ef) in Fr. apply frame_same in Fr as [F1 F2].
  destruct (follow_up_taken ef c2 s1) as (s2 & -> & _); [done|done|congruence|].
  assert (E2 : md_sync_receive_sm_recv_fup ef c1 sm = (take_follow_up ef sm, Ret None))
    by (apply recv_eq; [done|by apply rest_quiet]).
  rewrite E2. cbn [fst snd]. split_and!; try done; [by rewrite F2|].
  rewrite recv_sync_two_step by done.
  destruct (sync_after_follow_up c2 (take_sync es (take_follow_up ef sm))) as (s & H & _); try done.
  { by apply take_new_sync. }
  rewrite (recv_eq c2 (take_sync es (take_follow_up ef sm)) s _ R H). cbn [snd]. by apply (f_equal (fun m => Ret (Some m))), md_sync_of_ext.
Qed.

(** C30. A two-step Sync and the Follow_Up with its sequence number give one MDSyncReceive, with the
    same contents whichever of the two comes first: the first is kept without a result, the second
    completes the pair. *)
Theorem sync_and_follow_up_pair es ef c1 c2 sm :
  ready sm -> resting sm -> ASYMMETRY_MEASUREMENT_MODE sm = false ->
  MDSRsm.rcvdSync (thisSM sm) = false -> MDSRsm.rcvdFollowUp (thisSM sm) = false ->
  two_step_sync es -> follow_up ef -> ntoh 30 2 (recbptr ef) = ntoh 30 2 (recbptr es) ->
  c1 < u64 (c1 + LOG_TO_NSEC (i8 (octet 33 (recbptr es)))) ->
  let m := md_sync_of (take_follow_up ef (take_sync es sm)) in
  let a := md_sync_receive_sm_recv_sync es c1 sm in
  let b := md_sync_receive_sm_recv_fup ef c1 sm in
  a.2 = Ret None /\ (md_sync_receive_sm_recv_fup ef c2 a.1).2 = Ret (Some m) /\
  b.2 = Ret None /\ (md_sync_receive_sm_recv_sync es c2 b.1).2 = Ret (Some m).
Proof. apply pair_taken. Qed.

(** the Follow_Up timer of the Sync has run out *)
Definition overdue (cts64 : Z) (sm : data) : bool :=
  (UNs.nsec (MDSRsm.followUpReceiptTimeoutTime (thisSM sm)) <=? cts64) &&
  negb (ASYMMETRY_MEASUREMENT_MODE sm).

(** A Follow_Up with another sequence number than the awaited one is dropped and gives nothing;
    the Sync is still waited on, until its upstream interval has passed: then both are discarded. *)
Theorem unmatched_follow_up_dropped ed cts64 sm :
  ready sm -> awaiting sm -> follow_up ed -> ntoh 30 2 (recbptr ed) <> ntoh 30 2 (recSync sm) ->
  let (s, o) := md_sync_receive_sm_recv_fup ed cts64 sm in
  o = Ret None /\ MDSRsm.rcvdFollowUp (thisSM s) = false /\ mdSyncReceive s = mdSyncReceive sm /\
  (if overdue cts64 sm then resting s /\ state s = DISCARD /\ MDSRsm.rcvdSync (thisSM s) = false
   else awaiting s /\ recSync s = recSync sm).
Proof.
  intros R A F N.
  assert (Q : same_sequence (take_follow_up ed sm) = false).
  { apply Z.eqb_neq. unfold take_follow_up. cbn [recSync recFollowUp upd].
    by rewrite ntoh_recv by (done || unfold FOLLOW_UP_SIZE; lia). }
  pose proof (take_awaiting ed sm A) as (L & E & S & P).
  set (x := take_follow_up ed sm <| thisSM; MDSRsm.rcvdFollowUp := false |>).
  assert (H : pass (M := machine cts64) (take_follow_up ed sm) =
              (x <| state := if overdue cts64 sm then DISCARD else WAITING_FOR_FOLLOW_UP |>, Next)).
  { rewrite srec_pass_rest by congruence. unfold switch. rewrite E.
    unfold waiting_for_follow_up_condition, via. rewrite S, P, Q. cbn [andb negb].
    change (go (take_follow_up ed sm) (wff_sync cts64 x) =
            (x <| state := if overdue cts64 sm then DISCARD else WAITING_FOR_FOLLOW_UP |>, Next)).
    unfold wff_sync. change (MDSRsm.rcvdSync (thisSM x)) with (MDSRsm.rcvdSync (thisSM (take_follow_up ed sm))).
    by rewrite S. }
  destruct A as (L0 & E0 & S0 & P0). rewrite recv_follow_up.
  destruct (overdue cts64 sm) eqn:O.
  - rewrite (recv_eq cts64 _ (discard_proc x <| last_state := DISCARD |> <| state := DISCARD |>) (Ret None)).
    + split_and!; try done. split; [done|]. cbn. auto.
    + by apply take_follow_up_ready.
    + unfold fuel. rewrite (loop_turn (M := machine cts64) _ _ (x <| state := DISCARD |>)).
      * apply (loop_stop (M := machine cts64)); [|done]. rewrite srec_pass_eq. unfold set_last, x, take_follow_up.
        cbn [state last_state upd]. rewrite L0, bool_decide_eq_true_2 by done. reflexivity.
      * split; [exact H|]. cbn. by rewrite L0.
  - rewrite (recv_eq cts64 _ (x <| state := WAITING_FOR_FOLLOW_UP |>) (Ret None)).
    + by split_and!.
    + by apply take_follow_up_ready.
    + unfold fuel. apply (loop_stop (M := machine cts64)); [exact H|]. cbn. by rewrite L0.
Qed.

(** what the structure says, in terms of the buffers received *)
Lemma taken_fields es ef sm :
  two_step_sync es -> follow_up ef ->
  let s := recbptr es in
  let f := recbptr ef in
  let m := md_sync_of (take_follow_up ef (take_sync es sm)) in
  MDSR.domainIndex m = octet 4 s /\ MDSR.seqid m = ntoh 30 2 s /\
  MDSR.sourcePortIdentity m = PortId.mk (octets 20 8 s) (ntoh 28 2 s) /\
  MDSR.logMessageInterval m = i8 (octet 33 s) /\ MDSR.preciseOriginTimestamp m = read_timestamp f /\
  MDSR.rateRatio m = read_rate_ratio f /\ MDSR.gmTimeBaseIndicator m = ntoh 58 2 f /\
  MDSR.lastGmPhaseChange m = read_phase_change f /\ MDSR.lastGmFreqChange m = read_freq_change f /\
  SNs.nsec (MDSR.followUpCorrectionField m) = Z.shiftr (u64 (ntoh 8 8 s + ntoh 8 8 f)) 16 /\
  SNs.subns (MDSR.followUpCorrectionField m) = u16 (u64 (ntoh 8 8 s + ntoh 8 8 f)).
Proof.
  intros Hs Hf. cbn zeta.
  assert (F : TWO_STEP_FLAG (take_follow_up ef (take_sync es sm)) = true)
    by (destruct Hs as [F L]; unfold TWO_STEP_FLAG; cbn [recSync take_sync take_follow_up upd];
        rewrite octet_recv; [exact F|unfold SYNC_SIZE; lia|done]).
  unfold md_sync_of. rewrite F. cbn [recSync recFollowUp take_sync take_follow_up upd].
  unfold correction_of, read_timestamp, read_rate_ratio, read_phase_change, read_freq_change.
  destruct Hs as [_ L]. unfold follow_up in Hf. set (S := SYNC_SIZE) in *. set (FS := FOLLOW_UP_SIZE) in *.
  assert (HS : S = 44%nat) by done. assert (HF : FS = 76%nat) by done. clearbody S FS.
  rewrite !ntoh_recv, !octet_recv, !octets_recv by (done || lia). by split_and!.
Qed.

(** ** Any sequence of events *)

(** only two-step Syncs and whole Follow_Ups come *)
Definition two_step_network (ev : event) : Prop :=
  match ev with
  | RecvSync ed => two_step_sync ed
  | RecvFollowUp ed => follow_up ed
  | _ => True
  end.

(** the pointers are set once the flags are, and the Sync kept is a two-step one; [paired]: the two
    messages kept belong together *)
Definition pointers (sm : data) : Prop :=
  let t := thisSM sm in
  (MDSRsm.rcvdSync t = true -> MDSRsm.rcvdSyncPtr t = true) /\
  (MDSRsm.rcvdFollowUp t = true -> MDSRsm.rcvdFollowUpPtr t = true) /\
  (MDSRsm.rcvdSyncPtr t = true -> TWO_STEP_FLAG sm = true) /\
  (state sm = WAITING_FOR_FOLLOW_UP -> MDSRsm.rcvdSyncPtr t = true) /\
  state sm <> REACTION.
Definition paired (sm : data) : Prop :=
  MDSRsm.rcvdSyncPtr (thisSM sm) = true /\ MDSRsm.rcvdFollowUpPtr (thisSM sm) = true /\
  same_sequence sm = true.

(** what [m] tells is what the Sync [s] and the Follow_Up [f] of one sequence number say *)
Definition of_pair (m : MDSyncReceive) (s f : list Z) : Prop :=
  ntoh 30 2 f = ntoh 30 2 s /\ MDSR.seqid m = ntoh 30 2 s /\
  MDSR.sourcePortIdentity m = PortId.mk (octets 20 8 s) (ntoh 28 2 s) /\
  MDSR.preciseOriginTimestamp m = read_timestamp f /\ MDSR.rateRatio m = read_rate_ratio f /\
  MDSR.gmTimeBaseIndicator m = ntoh 58 2 f /\
  SNs.nsec (MDSR.followUpCorrectionField m) = Z.shiftr (u64 (ntoh 8 8 s + ntoh 8 8 f)) 16.

Lemma md_sync_of_pair sm :
  TWO_STEP_FLAG sm = true -> same_sequence sm = true ->
  of_pair (md_sync_of sm) (recSync sm) (recFollowUp sm).
Proof.
  unfold same_sequence. intros F E%Z.eqb_eq. unfold md_sync_of. rewrite F. by split_and!.
Qed.

(** before a turn, and when a call has ended *)
Definition turning (sm : data) : Prop :=
  pointers sm /\ (state sm = WAITING_FOR_SYNC -> last_state sm = WAITING_FOR_SYNC \/ paired sm).
Definition ended (sm : data) (o : outcome MDSyncReceive) : Prop :=
  pointers sm /\ (state sm = WAITING_FOR_SYNC -> last_state sm = WAITING_FOR_SYNC) /\
  match o with
  | Ret None => True
  | Ret (Some m) => m = mdSyncReceive sm /\ of_pair m (recSync sm) (recFollowUp sm)
  | Crash => False
  end.

Lemma pointers_to st sm :
  pointers sm -> st <> REACTION -> (st = WAITING_FOR_FOLLOW_UP -> MDSRsm.rcvdSyncPtr (thisSM sm) = true) ->
  pointers (sm <| state := st |>).
Proof. intros (P1 & P2 & P3 & _ & _) H1 H2. by split_and!. Qed.

Lemma pointers_last e sm : pointers sm -> pointers (sm <| last_state := e |>).
Proof. done. Qed.

(** the conditions find the pointers they follow, and keep them *)
Lemma discard_ok sm :
  pointers sm -> exists s, discard_condition sm = Some s /\ pointers s /\ state s <> WAITING_FOR_SYNC.
Proof.
  intros P. pose proof P as (P1 & _ & P3 & _). unfold discard_condition, via.
  destruct (MDSRsm.rcvdSync (thisSM sm)); cbn [andb].
  - rewrite (P1 eq_refl), (P3 (P1 eq_refl)). destruct (PORT_UP sm), (ASYMMETRY_MEASUREMENT_MODE sm);
      eexists; (split; [reflexivity|]); (split; [apply pointers_to; auto; discriminate|discriminate]).
  - eexists. split; [reflexivity|]. split; [by apply pointers_to|done].
Qed.

Lemma wff_sync_ok cts64 sm :
  pointers sm -> MDSRsm.rcvdSyncPtr (thisSM sm) = true ->
  exists s, wff_sync cts64 sm = Some s /\ pointers s /\ state s <> WAITING_FOR_SYNC.
Proof.
  intros P Q. pose proof P as (_ & _ & P3 & _). unfold wff_sync, via. cbv zeta. rewrite Q, (P3 Q).
  destruct (_ && PORT_UP sm), (_ && negb _);
    eexists; (split; [reflexivity|]); (split; [by apply pointers_to|done]).
Qed.

Lemma waiting_for_follow_up_ok cts64 sm :
  pointers sm -> MDSRsm.rcvdSyncPtr (thisSM sm) = true ->
  exists s, waiting_for_follow_up_condition cts64 sm = Some s /\ pointers s /\
            (state s = WAITING_FOR_SYNC -> paired s).
Proof.
  intros P Q. pose proof P as (_ & P2 & P3 & _). unfold waiting_for_follow_up_condition, via.
  rewrite Q, (P3 Q). cbn [negb]. rewrite !andb_true_r, andb_false_r.
  destruct (_ && PORT_UP sm).
  { eexists. split; [reflexivity|]. split; [by apply pointers_to|done]. }
  destruct (MDSRsm.rcvdFollowUp (thisSM sm)) eqn:F.
  - rewrite P2 by done. destruct (same_sequence sm) eqn:M.
    + eexists. split; [reflexivity|]. split; [by apply pointers_to|]. intros _.
      split_and!; [exact Q|by apply P2|exact M].
    + destruct (wff_sync_ok cts64 (sm <| thisSM; MDSRsm.rcvdFollowUp := false |>)) as (s & -> & X & Y);
        [|done|by exists s]. destruct P as (A & B & C & D & E). by split_and!.
  - destruct (wff_sync_ok cts64 sm) as (s & -> & X & Y); [done|done|by exists s].
Qed.

Lemma waiting_for_sync_ok sm :
  pointers sm -> last_state sm = WAITING_FOR_SYNC ->
  exists s, waiting_for_sync_condition sm = Some s /\ pointers s /\
            (state s = WAITING_FOR_SYNC -> last_state s = WAITING_FOR_SYNC).
Proof.
  intros P L. pose proof P as (P1 & _ & P3 & _). unfold waiting_for_sync_condition, via.
  destruct (MDSRsm.rcvdSync (thisSM sm)); cbn [andb].
  - rewrite (P1 eq_refl), (P3 (P1 eq_refl)). destruct (PORT_UP sm), (ASYMMETRY_MEASUREMENT_MODE sm);
      eexists; (split; [reflexivity|]); (split; [apply pointers_to; auto; discriminate|done]).
  - eexists. split; [reflexivity|]. split; [by apply pointers_to|done].
Qed.

(** a turn that does not leave the function *)
Lemma turn_next s :
  pointers s -> (state s = WAITING_FOR_SYNC -> last_state s = WAITING_FOR_SYNC \/ paired s) ->
  if bool_decide (last_state s = state s) then ended s (Ret None) else turning s.
Proof.
  intros P W. case_bool_decide as B; [|done]. split_and!; try done. by intros <-.
Qed.

Lemma follow_up_proc_ok cts64 sm :
  pointers sm -> MDSRsm.rcvdSyncPtr (thisSM sm) = true ->
  exists s, waiting_for_follow_up_proc cts64 sm = Some s /\ pointers s /\
            MDSRsm.rcvdSyncPtr (thisSM s) = true.
Proof.
  intros (P1 & P2 & P3 & P4 & P5) Q. unfold waiting_for_follow_up_proc, via. cbv zeta. rewrite Q.
  eexists. split; [reflexivity|]. destruct (MDSRsm.rcvdSync (thisSM sm)); by split_and!.
Qed.

Lemma turn_ok cts64 s s' c :
  turning s -> pass (M := machine cts64) s = (s', c) ->
  match c with
  | Next => if bool_decide (last_state s' = state s') then ended s' (Ret None) else turning s'
  | Leave o => ended s' o
  end.
Proof.
  intros [P W]. rewrite srec_pass_eq. set (changed := bool_decide _).
  assert (C : changed = true -> last_state s <> state s) by (unfold changed; by case_bool_decide).
  clearbody changed. apply (pointers_last (state s)) in P.
  assert (L : last_state (set_last (state s) s) = state s /\ state (set_last (state s) s) = state s) by done.
  assert (W' : paired s -> paired (set_last (state s) s)) by done.
  change (pointers (set_last (state s) s)) in P.
  generalize dependent (set_last (state s) s). intros s0 P [L E] W'.
  unfold switch. rewrite E. destruct (state s) eqn:St.
  - intros [= <- <-]. apply turn_next; [by apply pointers_to|done].
  - destruct (discard_ok (if changed then discard_proc s0 else s0)) as (s1 & -> & P1 & N).
    { destruct changed; [|done]. destruct P as (A & B & D & F & G). by split_and!. }
    intros [= <- <-]. by apply turn_next.
  - assert (Q : MDSRsm.rcvdSyncPtr (thisSM s0) = true) by (by apply P).
    destruct changed.
    + destruct (follow_up_proc_ok cts64 s0) as (s1 & -> & P1 & Q1); [done|done|].
      destruct (waiting_for_follow_up_ok cts64 s1) as (s2 & -> & P2 & N); [done|done|].
      intros [= <- <-]. apply turn_next; auto.
    + destruct (waiting_for_follow_up_ok cts64 s0) as (s2 & -> & P2 & N); [done|done|].
      intros [= <- <-]. apply turn_next; auto.
  - destruct changed.
    + destruct W as [W|W]; [done|exfalso; by apply C|]. apply W' in W as (Q1 & Q2 & Q3).
      destruct (sync_proc cts64 s0 Q1 Q2) as (s1 & -> & T & A & B & M & R1 & R2).
      assert (P1 : pointers s1).
      { destruct P as (G1 & G2 & G3 & G4 & G5). unfold pointers, TWO_STEP_FLAG in *.
        rewrite T, B, R1. by split_and!. }
      unfold waiting_for_sync_condition. rewrite T. cbn [MDSRsm.rcvdSync andb upd].
      intros [= <- <-]. split; [apply pointers_to; auto; discriminate|]. split; [cbn; congruence|].
      split; [done|]. change (of_pair (md_sync_of s0) (recSync s1) (recFollowUp s1)).
      rewrite R1, R2. apply md_sync_of_pair; [by apply P|exact Q3].
    + destruct (waiting_for_sync_ok s0) as (s2 & -> & P2 & N); [done|congruence|].
      intros [= <- <-]. apply turn_next; auto.
  - exfalso. by apply P.
Qed.

Definition at_rest (sm : data) : Prop :=
  pointers sm /\ (state sm = WAITING_FOR_SYNC -> last_state sm = WAITING_FOR_SYNC).

Lemma call_ok cts64 sm :
  at_rest sm -> let (s, o) := md_sync_receive_sm cts64 sm in ended s o.
Proof.
  intros [P W]. unfold md_sync_receive_sm. rewrite (surjective_pairing (exec _ _)).
  apply (exec_hoare (M := machine cts64) turning ended).
  - apply md_sync_receive_ends.
  - change (turning (set_allstate sm)). unfold set_allstate, allstate_condition. destruct (_ || _).
    + split; [by apply pointers_to|done].
    + split; [by apply pointers_to; auto; apply P|]. cbn. auto.
  - intros s s' c. apply turn_ok.
Qed.

Lemma handle_ok ev cts64 sm :
  at_rest sm -> two_step_network ev -> let (s, o) := handle ev cts64 sm in ended s o.
Proof.
  intros [P W] N. destruct ev as [ed|ed| |a b c]; cbn [handle].
  - rewrite recv_sync_two_step by done. apply call_ok. split; [|done].
    pose proof (take_new_sync ed (sm <| ppg; PPG.forAllDomain; PPGALL.asymmetryMeasurementMode := false |>) N eq_refl)
      as (_ & _ & F & _).
    destruct P as (A & B & C & D & E). by split_and!.
  - rewrite recv_follow_up. apply call_ok. split; [|done].
    destruct P as (A & B & C & D & E). by split_and!.
  - by apply call_ok.
  - by split_and!.
Qed.

(** C29. Whatever the order of events, with two-step Syncs only: the machine never follows a NULL
    pointer, and an MDSyncReceive it hands on always comes from a Sync and a Follow_Up of one
    sequence number. *)
Theorem handed_on_syncs_are_pairs ev cts64 sm :
  reachable two_step_network sm -> two_step_network ev ->
  let (s, o) := handle ev cts64 sm in
  o <> Crash /\ forall m, o = Ret (Some m) -> m = mdSyncReceive s /\ of_pair m (recSync s) (recFollowUp s).
Proof.
  intros R N.
  assert (A : at_rest sm).
  { induction R as [di pi a b c|ev' c' sm R IH N']; [done|].
    pose proof (handle_ok ev' c' sm IH N') as E. destruct (handle ev' c' sm) as [s o].
    destruct E as (X & Y & _). by split. }
  pose proof (handle_ok ev cts64 sm A N) as E. destruct (handle ev cts64 sm) as [s o].
  destruct E as (_ & _ & E). split; [by intros ->|]. by intros m ->.
Qed.

(** A one-step Sync is never taken, even by a port with oneStepReceive: the copy is refused
    because the buffer is declared as a two-step message, after the flag of a received Sync has been
    set; on a port that has had no Sync before, the next evaluation follows the NULL pointer. *)
Theorem one_step_sync_refused ed cts64 sm :
  GET_TWO_STEP_BYTE_FLAG (recbptr ed) = false ->
  md_sync_receive_sm_recv_sync ed cts64 sm = (sm <| thisSM; MDSRsm.rcvdSync := true |>, Ret None) /\
  forall c, ready sm -> resting sm -> MDSRsm.rcvdSyncPtr (thisSM sm) = false ->
    (md_sync_receive_sm c (md_sync_receive_sm_recv_sync ed cts64 sm).1).2 = Crash.
Proof.
  intros F. assert (E : md_sync_receive_sm_recv_sync ed cts64 sm =
                        (sm <| thisSM; MDSRsm.rcvdSync := true |>, Ret None))
    by (unfold md_sync_receive_sm_recv_sync; by rewrite F).
  split; [done|]. intros c R [L Q] P. rewrite E. cbn [fst].
  rewrite (recv_eq c (sm <| thisSM; MDSRsm.rcvdSync := true |>)
                     (sm <| thisSM; MDSRsm.rcvdSync := true |>) Crash); [done|exact R|].
  apply (loop_return (M := machine c)). rewrite srec_pass_rest by exact L.
  destruct R as (_ & _ & U). unfold switch.
  destruct Q as [Q|[Q|[]]]; cbn [state upd]; rewrite <- Q;
    unfold discard_condition, waiting_for_sync_condition, via;
    cbn [thisSM upd MDSRsm.rcvdSync MDSRsm.rcvdSyncPtr andb];
    change (PORT_UP (sm <| thisSM; MDSRsm.rcvdSync := true |>)) with (PORT_UP sm); by rewrite U, P.
Qed.
End Events.
End SREC.

(** ** Witnesses *)

Module SRECWitness.
Import SREC.

#[local] Existing Instance platform0.
#[local] Existing Instance conversions0.

Definition up_ppg : PerPortGlobal :=
  zero <| PPG.ptpPortEnabled := true |> <| PPG.asCapable := true |>
       <| PPG.forAllDomain; PPGALL.portOper := true |>
       <| PPG.forAllDomain; PPGALL.neighborRateRatio := d1 |>.
Definition up_ptasg : PerTimeAwareSystemGlobal := zero <| PTASG.instanceEnable := true |>.

(** the frames of sequence number 7: a two-step Sync every 125 ms, its Follow_Up; and a one-step Sync *)
Definition head (ty seq : Z) (flag : Z) (len : Z) : list Z :=
  [Z.lor 16 ty; 18; 0; len; 0; 0; flag; 0] ++ replicate 12 0 ++ [2;0;0;0;0;0;0;1; 0;1; 0;seq; 0; 253].
Definition sync7 : list Z := head 0 7 2 44 ++ replicate 10 0.
Definition fup (seq : Z) : list Z := head 8 seq 0 76 ++ [0;0; 0;0;0;5; 0;0;0;9] ++ replicate 32 0.
Definition one_step7 : list Z := head 0 7 0 76 ++ replicate 42 0.

(** a port that has discarded what came before *)
Definition port : data :=
  md_sync_receive_sm_init 0 1 up_ptasg up_ppg zero <| state := DISCARD |> <| last_state := DISCARD |>.

Lemma pair_witness :
  let m := md_sync_of (take_follow_up (ev_recv 0 (fup 7)) (take_sync (ev_recv 500 sync7) port)) in
  MDSR.seqid m = 7 /\
  (md_sync_receive_sm_recv_fup (ev_recv 0 (fup 7)) 2000
     (md_sync_receive_sm_recv_sync (ev_recv 500 sync7) 1000 port).1).2 = Ret (Some m).
Proof.
  split; [vm_compute; reflexivity|].
  refine (proj1 (proj2 (sync_and_follow_up_pair (ev_recv 500 sync7) (ev_recv 0 (fup 7)) 1000 2000 port
    _ _ _ _ _ _ _ _ _))).
  - split_and!; reflexivity.
  - split; [reflexivity|]. left. reflexivity.
  - reflexivity.
  - reflexivity.
  - reflexivity.
  - split; [reflexivity|]. unfold SYNC_SIZE. cbn. lia.
  - unfold follow_up, FOLLOW_UP_SIZE. cbn. lia.
  - vm_compute. reflexivity.
  - vm_compute. reflexivity.
Defined.

Definition waiting7 : data :=
  port <| state := WAITING_FOR_FOLLOW_UP |> <| last_state := WAITING_FOR_FOLLOW_UP |>
       <| recSync := sync7 |> <| thisSM; MDSRsm.rcvdSyncPtr := true |>
       <| thisSM; MDSRsm.followUpReceiptTimeoutTime; UNs.nsec := 125000000 |>.

Lemma waiting7_ready : ready waiting7 /\ awaiting waiting7.
Proof. split; [split_and!; reflexivity|split_and!; reflexivity]. Defined.
Lemma fup6 : follow_up (ev_recv 0 (fup 6)) /\ ntoh 30 2 (fup 6) <> ntoh 30 2 (recSync waiting7).
Proof. split; [unfold follow_up, FOLLOW_UP_SIZE; cbn; lia|vm_compute; discriminate]. Defined.

Lemma unmatched_witness :
  let (s, o) := md_sync_receive_sm_recv_fup (ev_recv 0 (fup 6)) 2000 waiting7 in
  o = Ret None /\ MDSRsm.rcvdFollowUp (thisSM s) = false.
Proof.
  pose proof (unmatched_follow_up_dropped (ev_recv 0 (fup 6)) 2000 waiting7 (proj1 waiting7_ready)
    (proj2 waiting7_ready) (proj1 fup6) (proj2 fup6)) as H.
  destruct (md_sync_receive_sm_recv_fup _ _ _) as [s o].
  exact (conj (proj1 H) (proj1 (proj2 H))).
Defined.

(** a port that was made and evaluated, and then received the Sync *)
Definition discarding : data := (handle Tick 5 (md_sync_receive_sm_init 0 1 up_ptasg up_ppg zero)).1.
Definition synced7 : data := (handle (RecvSync (ev_recv 500 sync7)) 1000 discarding).1.

Lemma reachable_synced7 : reachable two_step_network synced7.
Proof.
  refine (reach_event _ (RecvSync (ev_recv 500 sync7)) 1000 _ (reach_event _ Tick 5 _ (reach_init _ 0 1 up_ptasg up_ppg zero) I) _).
  split; [reflexivity|]. unfold SYNC_SIZE. cbn. lia.
Qed.

Lemma pairs_witness : exists m s,
  handle (RecvFollowUp (ev_recv 0 (fup 7))) 2000 synced7 = (s, Ret (Some m)) /\ MDSR.seqid m = 7 /\
  recSync s = sync7 ++ replicate 32 0 /\ recFollowUp s = fup 7 /\ of_pair m (recSync s) (fup 7).
Proof.
  pose proof (handed_on_syncs_are_pairs (RecvFollowUp (ev_recv 0 (fup 7))) 2000 synced7 reachable_synced7) as H.
  assert (N : two_step_network (RecvFollowUp (ev_recv 0 (fup 7)))) by (unfold two_step_network, follow_up, FOLLOW_UP_SIZE; cbn; lia).
  specialize (H N). assert (E : exists m s, handle (RecvFollowUp (ev_recv 0 (fup 7))) 2000 synced7 = (s, Ret (Some m)) /\
    MDSR.seqid m = 7 /\ recSync s = sync7 ++ replicate 32 0 /\ recFollowUp s = fup 7).
  { eexists _, _. split; [vm_compute; reflexivity|]. split_and!; reflexivity. }
  destruct E as (m & s & E & Q & S & F). rewrite E in H. destruct H as [_ H]. destruct (H m eq_refl) as [_ P]. rewrite F in P.
  exact (ex_intro _ m (ex_intro _ s (conj E (conj Q (conj S (conj F P)))))).
Defined.

Lemma one_step_witness :
  (md_sync_receive_sm 5 (md_sync_receive_sm_recv_sync (ev_recv 0 one_step7) 4 port).1).2 = Crash.
Proof.
  refine (proj2 (one_step_sync_refused (ev_recv 0 one_step7) 4 port _) 5 _ _ _); try reflexivity.
  - split_and!; reflexivity.
  - split; [reflexivity|]. left. reflexivity.
Defined.

End SRECWitness.
