(* ===== verification/MdSyncSend.v ===== *)
(** * MdSyncSend: md_sync_send_sm.c, the transmission of Sync and Follow_Up.

    A MDSyncSend makes a Sync; when the transmit timestamp of the Sync is known, a
    Follow_Up with the same sequence number carries the origin timestamp, the
    corrections and the Follow_Up information TLV.  The frames are octet lists, in
    the order in which they were given to the driver; the driver and the hardware
    clock are the parameter [Media].  The last section gives the frames to the
    receiver of MdSyncReceive. *)

From stdpp Require Import gmap.
From Stdlib Require Import SpecFloat.
From S2P Require Import Prelude Types Floats Driver Common Clock Wire Perfmon Media MdSyncReceive.
#[local] Open Scope Z_scope.
#[local] Open Scope gptp_scope.

Module MDSSsm.

Record MDSyncSendSM := mk {
  rcvdMDSync : bool;
  rcvdMDTimestampReceive : bool
}.
#[export] Instance eta_MDSyncSendSM : Eta MDSyncSendSM :=
  fields! mk [rcvdMDSync, rcvdMDTimestampReceive].
#[export] Instance zero_MDSyncSendSM : Zero MDSyncSendSM := mk false false.

End MDSSsm.
Export (hints) MDSSsm.
Abbreviation MDSyncSendSM := MDSSsm.MDSyncSendSM.

(** offsets in a Sync or Follow_Up, and in the Follow_Up information TLV *)
Definition MDPTPMSG_PRECISEORIGINTIMESTAMP : nat := 34.
Definition MDPTPMSG_FUPINFOTLV : nat := 44.
Definition MDFOLLOWUPTLV_CUMULATIVESCALEDRATEOFFSET_NL : nat := 10.
Definition MDFOLLOWUPTLV_GMTIMEBASEINDICATOR_NS : nat := 14.
Definition MDFOLLOWUPTLV_LASTGMPHASECHANGE : nat := 16.
Definition MDFOLLOWUPTLV_SCALEDLASTGMFREQCHANGE_NL : nat := 28.

Section Compose.
Context `{CV : Conversions}.

(** 11.4.4.3: of the 8 octets of lastGmPhaseChange.nsec the first four are copied *)
Definition md_followup_information_tlv_compose (tlv : list Z) (rateRatio : double)
    (gmTimeBaseIndicator : Z) (lastGmPhaseChange : ScaledNs) (lastGmFreqChange : double) : list Z :=
  let tlv := memcpy_at 0 ([0; 3] ++ [0; 28] ++ [0; 0x80; 0xC2] ++ [0; 0; 1]) tlv in
  let tlv := memcpy_at MDFOLLOWUPTLV_CUMULATIVESCALEDRATEOFFSET_NL
               (be_bytes 4 (d_to_int 32 (ldexp (dsub rateRatio d1) 41))) tlv in
  let tlv := memcpy_at MDFOLLOWUPTLV_GMTIMEBASEINDICATOR_NS (be_bytes 2 gmTimeBaseIndicator) tlv in
  let tlv := memcpy_at MDFOLLOWUPTLV_LASTGMPHASECHANGE (be_bytes 2 (SNs.nsec_msb lastGmPhaseChange)) tlv in
  let tlv := memcpy_at (MDFOLLOWUPTLV_LASTGMPHASECHANGE + 2)
               (take 4 (be_bytes 8 (SNs.nsec lastGmPhaseChange))) tlv in
  let tlv := memcpy_at (MDFOLLOWUPTLV_LASTGMPHASECHANGE + 6) (be_bytes 2 (SNs.subns lastGmPhaseChange)) tlv in
  memcpy_at MDFOLLOWUPTLV_SCALEDLASTGMFREQCHANGE_NL
    (be_bytes 4 (d_to_int 32 (ldexp lastGmFreqChange 41))) tlv.

End Compose.

Module SSND.

Inductive md_sync_send_state_t :=
| INIT | INITIALIZING | SEND_SYNC_TWO_STEP | SEND_FOLLOW_UP | SEND_SYNC_ONE_STEP
| SET_CORRECTION_FIELD | REACTION.
#[export] Instance state_eqdec : EqDecision md_sync_send_state_t.
Proof. solve_decision. Defined.

(** [gpnetd]: the frames given to the network, None if there is no network; the fields for debug
    output only are left out (tsync_ts, pgap_ts, tfup_ts) *)
Record md_sync_send_data := mk {
  gpnetd : option (list (list Z));
  ptasg : PerTimeAwareSystemGlobal;
  ppg : PerPortGlobal;
  mdeg : MDEntityGlobal;
  gcd : gptpclock_data;
  state : md_sync_send_state_t;
  last_state : md_sync_send_state_t;
  thisSM : MDSyncSendSM;
  domainIndex : Z;
  portIndex : Z;
  rcvdMDSyncPtr : option MDSyncSend;
  txSync_time : Z;
  sync_ts : Z;
  mock_txts64 : Z
}.
#[export] Instance eta_data : Eta md_sync_send_data :=
  fields! mk [gpnetd, ptasg, ppg, mdeg, gcd, state, last_state, thisSM, domainIndex, portIndex,
              rcvdMDSyncPtr, txSync_time, sync_ts, mock_txts64].
Abbreviation data := md_sync_send_data.

Section Procs.
Context `{WC : WireConfig} `{CV : Conversions} `{ME : Media}.

Definition PORT_UP (sm : data) : bool :=
  PPGALL.portOper (PPG.forAllDomain (ppg sm)) && PPG.ptpPortEnabled (ppg sm) &&
  PPG.asCapable (ppg sm).
Definition ASYMMETRY_MEASUREMENT_MODE (sm : data) : bool :=
  PPGALL.asymmetryMeasurementMode (PPG.forAllDomain (ppg sm)).
Definition ONESTEP_TX_OPER (sm : data) : bool := MDEG.oneStepTxOper (mdeg sm).

Definition gptpclock_we_are_gm (sm : data) : bool :=
  match get_clockod (gcd sm) (domainIndex sm) with Some od => Clock0.we_are_gm od | None => false end.

(** the header of a Sync in a cleared buffer of [ssize] octets; octets 33 and 4 are written over *)
Definition composeSyncHeader (m : MDSyncSend) (ssize : Z) (sm : data) : option (list Z) :=
  let id := MDSS.sourcePortIdentity m in
  option_map (fun sdata =>
      memcpy_at 4 [u8 (md_domain_index2number (MDSS.domainIndex m))]
        (memcpy_at 33 [u8 (MDSS.logMessageInterval m)] sdata))
    (md_header_compose (gpnetd sm) SYNC ssize (PortId.clockIdentity id) (PortId.portIndex id)
       (MDEG.syncSequenceId (mdeg sm)) (PPG.currentLogSyncInterval (ppg sm))).

(** the origin timestamp [cf] nanoseconds later: one carry into the seconds *)
Definition origin_plus (ts : Timestamp) (cf : Z) : Timestamp :=
  let tsns := u32 (Tstamp.nanoseconds ts + cf) in
  let tslsb := U48.lsb (Tstamp.seconds ts) in
  let tsmsb := U48.msb (Tstamp.seconds ts) in
  if UB_SEC_NS <=? tsns then
    let tslsb := u32 (tslsb + 1) in
    Tstamp.mk (tsns - UB_SEC_NS) (U48.mk tslsb (if tslsb =? 0 then u16 (tsmsb + 1) else tsmsb))
  else Tstamp.mk tsns (U48.mk tslsb tsmsb).

Definition composeSyncFupTLV (m : MDSyncSend) (cf : Z) (sdata : list Z) : list Z :=
  let ts := origin_plus (MDSS.preciseOriginTimestamp m) cf in
  let sdata := memcpy_at MDPTPMSG_PRECISEORIGINTIMESTAMP (be_bytes 2 (U48.msb (Tstamp.seconds ts))) sdata in
  let sdata := memcpy_at (MDPTPMSG_PRECISEORIGINTIMESTAMP + 2) (be_bytes 4 (U48.lsb (Tstamp.seconds ts))) sdata in
  let sdata := memcpy_at (MDPTPMSG_PRECISEORIGINTIMESTAMP + 6) (be_bytes 4 (Tstamp.nanoseconds ts)) sdata in
  take MDPTPMSG_FUPINFOTLV sdata ++
  md_followup_information_tlv_compose (drop MDPTPMSG_FUPINFOTLV sdata) (MDSS.rateRatio m)
    (MDSS.gmTimeBaseIndicator m) (MDSS.lastGmPhaseChange m) (MDSS.lastGmFreqChange m).

(** the driver has taken the frame: it will report a timestamp, or the time now stands for it *)
Definition sync_sent (f : list Z) (res cts64 : Z) (sm : data) : data :=
  (if res <? 0 then sm <| mock_txts64 := u64 (getts64 cts64) |> else sm)
    <| gpnetd ::= option_map (fun net => net ++ [f]) |>
    <| ppg; PPG.perfmonDS ::= PERFMON_PPMDR (fun r => r <| PortDR.syncTx ::= inc32 |>) |>.

(** the result code of the C function, and the new state *)
Definition send_sync_frame (f : option (list Z)) (cts64 : Z) (sm : data) : data * Z :=
  match f, gpnetd sm with
  | Some f, Some net =>
      let res := send_whook net f in
      if res =? -1 then (sm, res) else (sync_sent f res cts64 sm, Z.abs res)
  | _, _ => (sm, -1)
  end.

Definition sync_frame (m : MDSyncSend) (sm : data) : option (list Z) :=
  composeSyncHeader m (Z.of_nat SYNC_SIZE) sm.

Definition setSyncTwoStep_txSync (m : MDSyncSend) (cts64 : Z) (sm : data) : data * Z :=
  send_sync_frame (sync_frame m sm) cts64 sm.

(** followUpCorrectionField as 2^-16 ns *)
Definition scaled_correction (m : MDSyncSend) : Z :=
  i64 (Z.shiftl (SNs.nsec (MDSS.followUpCorrectionField m)) 16 +
       SNs.subns (MDSS.followUpCorrectionField m)).

(** [rateRatio * (sync_ts - upstreamTxTime)] *)
Definition residence_time (m : MDSyncSend) (sm : data) : Z :=
  d_to_uint 64 (dmul (MDSS.rateRatio m) (d_of_Z (u64 (sync_ts sm - UNs.nsec (MDSS.upstreamTxTime m))))).

Definition follow_up_correction (m : MDSyncSend) (sm : data) : Z :=
  if gptpclock_we_are_gm sm then 0
  else i64 (scaled_correction m + (u64 (Z.shiftl (residence_time m sm) 16) + u16 (residence_time m sm))).

(** the time by which the origin timestamp is moved: a grandmaster sends the time of the Sync *)
Definition follow_up_cf (m : MDSyncSend) (sm : data) : Z :=
  if gptpclock_we_are_gm sm then u64 (sync_ts sm - UNs.nsec (MDSS.upstreamTxTime m)) else 0.

Definition follow_up_head (m : MDSyncSend) (sm : data) : PTPMsgHeader :=
  md_header_template (portIndex sm) FOLLOW_UP (Z.of_nat FOLLOW_UP_SIZE) (MDSS.sourcePortIdentity m)
    (MDEG.syncSequenceId (mdeg sm)) (PPG.currentLogSyncInterval (ppg sm))
  <| Hdr.correctionField := follow_up_correction m sm |>
  <| Hdr.domainIndex := MDSS.domainIndex m |>.

Definition follow_up_frame (m : MDSyncSend) (sm : data) : list Z :=
  composeSyncFupTLV m (follow_up_cf m sm)
    (md_compose_head (follow_up_head m sm) (replicate FOLLOW_UP_SIZE 0)).

(** None: the send buffer of a missing network is used *)
Definition setFollowUp_txFollowUp (m : MDSyncSend) (sm : data) : option (data * Z) :=
  match gpnetd sm with
  | None => None
  | Some net =>
      let f := follow_up_frame m sm in
      Some (if send_whook net f =? -1 then (sm, -1)
            else (sm <| gpnetd := Some (net ++ [f]) |>
                     <| ppg; PPG.perfmonDS ::= PERFMON_PPMDR (fun r => r <| PortDR.followUpTx ::= inc32 |>) |>, 0))
  end.

Definition one_step_frame (m : MDSyncSend) (sm : data) : option (list Z) :=
  option_map (fun sdata =>
      composeSyncFupTLV m 0
        (memcpy_at 8 (be_bytes 8 (if gptpclock_we_are_gm sm then 0 else scaled_correction m)) sdata))
    (composeSyncHeader m (Z.of_nat SYNC_ONE_STEP_SIZE) sm).

Definition setSyncOneStep (m : MDSyncSend) (cts64 : Z) (sm : data) : data * Z :=
  send_sync_frame (one_step_frame m sm) cts64 sm.

Definition allstate_condition (sm : data) : data * md_sync_send_state_t :=
  if PTASG.BEGIN (ptasg sm) || negb (PTASG.instanceEnable (ptasg sm)) || negb (PORT_UP sm)
  then (sm <| last_state := REACTION |>, INITIALIZING) else (sm, state sm).

Definition initializing_proc (sm : data) : data :=
  sm <| thisSM; MDSSsm.rcvdMDSync := false |> <| thisSM; MDSSsm.rcvdMDTimestampReceive := false |>
     <| mdeg; MDEG.syncSequenceId := Z.land rand 0xffff |>.

(** the guard of both Sync states *)
Definition may_send (sm : data) : bool :=
  MDSSsm.rcvdMDSync (thisSM sm) && PORT_UP sm && negb (ASYMMETRY_MEASUREMENT_MODE sm).

Definition initializing_condition (sm : data) : md_sync_send_state_t :=
  if may_send sm && negb (ONESTEP_TX_OPER sm) then SEND_SYNC_TWO_STEP
  else if may_send sm && ONESTEP_TX_OPER sm then SEND_SYNC_ONE_STEP
  else INITIALIZING.

Definition send_sync_two_step_proc (m : MDSyncSend) (cts64 : Z) (sm : data) : data * Z :=
  let sm := sm <| thisSM; MDSSsm.rcvdMDSync := false |> in
  let (sm, res) := setSyncTwoStep_txSync m cts64 sm in
  if res <? 0 then (sm, -1) else (sm <| txSync_time := cts64 |>, 0).

Definition send_sync_two_step_condition (cts64 : Z) (sm : data) : data :=
  if MDSSsm.rcvdMDTimestampReceive (thisSM sm) then sm <| state := SEND_FOLLOW_UP |>
  else if negb (mock_txts64 sm =? 0) then
    sm <| sync_ts := mock_txts64 sm |> <| mock_txts64 := 0 |> <| state := SEND_FOLLOW_UP |>
  else if txtslost_time <=? u64 (cts64 - txSync_time sm) then
    sm <| last_state := REACTION |> <| state := SEND_SYNC_TWO_STEP |>
  else sm <| state := SEND_SYNC_TWO_STEP |>.

Definition send_follow_up_proc (m : MDSyncSend) (sm : data) : option (data * Z) :=
  let sm := sm <| thisSM; MDSSsm.rcvdMDTimestampReceive := false |> in
  match setFollowUp_txFollowUp m sm with
  | None => None
  | Some (sm, res) =>
      Some (if negb (res =? 0) then (sm, -1)
            else (sm <| mdeg; MDEG.syncSequenceId ::= fun z => u16 (z + 1) |>, 0))
  end.

Definition send_follow_up_condition (sm : data) : md_sync_send_state_t :=
  if may_send sm && negb (ONESTEP_TX_OPER sm) then SEND_SYNC_TWO_STEP
  else if may_send sm && ONESTEP_TX_OPER sm then SEND_SYNC_ONE_STEP
  else SEND_FOLLOW_UP.

(** [if(setSyncOneStep(sm, cts64)){return NULL;}] *)
Definition send_sync_one_step_proc (m : MDSyncSend) (cts64 : Z) (sm : data) : data :=
  let sm := sm <| thisSM; MDSSsm.rcvdMDSync := false |> in
  let (sm, res) := setSyncOneStep m cts64 sm in
  if negb (res =? 0) then sm else sm <| mdeg; MDEG.syncSequenceId ::= fun z => u16 (z + 1) |>.

Definition send_sync_one_step_condition (sm : data) : md_sync_send_state_t :=
  if MDSSsm.rcvdMDTimestampReceive (thisSM sm) then SET_CORRECTION_FIELD else SEND_SYNC_ONE_STEP.

Definition set_correction_field_proc (sm : data) : data :=
  sm <| thisSM; MDSSsm.rcvdMDTimestampReceive := false |>.

(** both tests ask for !ONESTEP_TX_OPER *)
Definition set_correction_field_condition (sm : data) : md_sync_send_state_t :=
  if may_send sm && negb (ONESTEP_TX_OPER sm) then SEND_SYNC_TWO_STEP
  else if may_send sm && negb (ONESTEP_TX_OPER sm) then SEND_SYNC_ONE_STEP
  else SET_CORRECTION_FIELD.

(** the function returns 1 (here [Some tt]) when a two-step Sync has been sent, otherwise 0 *)
Definition switch (cts64 : Z) (state_change : bool) (sm : data) : data * ctl unit :=
  match state sm with
  | INIT => (sm <| state := INITIALIZING |>, Next)
  | INITIALIZING =>
      let sm := if state_change then initializing_proc sm else sm in
      (sm <| state := initializing_condition sm |>, Next)
  | SEND_SYNC_TWO_STEP =>
      if state_change then
        deref (rcvdMDSyncPtr sm) sm (fun m =>
          let (sm, res) := send_sync_two_step_proc m cts64 sm in
          if res <? 0 then (sm <| last_state := REACTION |>, Leave (Ret None))
          else (sm, Leave (Ret (Some tt))))
      else (send_sync_two_step_condition cts64 sm, Next)
  | SEND_FOLLOW_UP =>
      if state_change then
        deref (rcvdMDSyncPtr sm) sm (fun m =>
          match send_follow_up_proc m sm with
          | None => (sm, Leave Crash)
          | Some (sm, res) =>
              if res <? 0 then (sm <| last_state := REACTION |>, Leave (Ret None)) else (sm, Next)
          end)
      else (sm <| state := send_follow_up_condition sm |>, Next)
  | SEND_SYNC_ONE_STEP =>
      if state_change then
        deref (rcvdMDSyncPtr sm) sm (fun m =>
          let sm := send_sync_one_step_proc m cts64 sm in
          (sm <| state := send_sync_one_step_condition sm |>, Next))
      else (sm <| state := send_sync_one_step_condition sm |>, Next)
  | SET_CORRECTION_FIELD =>
      let sm := if state_change then set_correction_field_proc sm else sm in
      (sm <| state := set_correction_field_condition sm |>, Next)
  | REACTION => (sm, Next)
  end.

Definition set_last (e : md_sync_send_state_t) (sm : data) : data := sm <| last_state := e |>.
Definition set_allstate (sm : data) : data :=
  let (sm, st) := allstate_condition sm in sm <| state := st |>.

Definition machine (cts64 : Z) : StateMachine data md_sync_send_state_t unit := {|
  sm_state := state;
  sm_last := last_state;
  sm_set_last := set_last;
  sm_allstate := set_allstate;
  sm_switch := switch cts64;
  sm_state_set_last := fun _ _ => eq_refl;
  sm_last_set_last := fun _ _ => eq_refl
|}.

(** INIT, INITIALIZING, SEND_SYNC_ONE_STEP, SET_CORRECTION_FIELD, SEND_SYNC_TWO_STEP; or a resting
    SEND_SYNC_TWO_STEP, SEND_FOLLOW_UP *)
Definition fuel : nat := 8.

Definition md_sync_send_sm (cts64 : Z) (sm : data) : data * outcome unit :=
  exec (M := machine cts64) fuel sm.

Definition md_sync_send_sm_init (domainIndex portIndex : Z) (gpnetd : option (list (list Z)))
    (ptasg : PerTimeAwareSystemGlobal) (ppg : PerPortGlobal) (mdeg : MDEntityGlobal)
    (gcd : gptpclock_data) : data * outcome unit :=
  md_sync_send_sm 0 (mk gpnetd ptasg ppg mdeg gcd INIT INIT zero domainIndex portIndex None 0 0 0).

Definition md_sync_send_sm_mdSyncSend (m : MDSyncSend) (cts64 : Z) (sm : data) : data * outcome unit :=
  md_sync_send_sm cts64 (sm <| thisSM; MDSSsm.rcvdMDSync := true |> <| rcvdMDSyncPtr := Some m |>).

Definition md_sync_send_sm_txts (edtxts : event_data_txts) (cts64 : Z) (sm : data)
  : data * outcome unit :=
  match abnormal_timestamp (seqid edtxts) (txts edtxts) with
  | None => (sm, Ret None)
  | Some ts =>
      md_sync_send_sm cts64
        (sm <| thisSM; MDSSsm.rcvdMDTimestampReceive := true |>
            <| sync_ts := u64 (tsconv ts + TIv.scaledNanoseconds (PPG.egressLatency (ppg sm))) |>)
  end.

End Procs.

(** ** Termination *)

Section Ends.
Context `{WC : WireConfig} `{CV : Conversions} `{ME : Media}.

Definition rank (sm : data) : nat :=
  let changed := bool_decide (last_state sm <> state sm) in
  match state sm with
  | INIT => 7
  | INITIALIZING => 6
  | SEND_FOLLOW_UP => if changed then 3 else 5
  | SEND_SYNC_TWO_STEP => if changed then 1 else 4
  | SEND_SYNC_ONE_STEP => 4
  | SET_CORRECTION_FIELD => 3
  | REACTION => 0
  end.

Lemma ssnd_pass_eq cts64 sm :
  pass (M := machine cts64) sm =
  switch cts64 (bool_decide (last_state sm <> state sm)) (set_last (state sm) sm).
Proof. reflexivity. Qed.

(** what the procs that send leave alone *)
Lemma send_sync_frame_states f cts64 sm :
  let s := (send_sync_frame f cts64 sm).1 in
  state s = state sm /\ last_state s = last_state sm /\ thisSM s = thisSM sm /\ ptasg s = ptasg sm /\
  rcvdMDSyncPtr s = rcvdMDSyncPtr sm.
Proof.
  unfold send_sync_frame, sync_sent. destruct f, (gpnetd sm); try done.
  destruct (_ =? -1); [done|]. cbn [fst]. by destruct (_ <? 0).
Qed.

Lemma send_follow_up_states m sm s res :
  send_follow_up_proc m sm = Some (s, res) -> state s = state sm /\ last_state s = last_state sm.
Proof.
  unfold send_follow_up_proc, setFollowUp_txFollowUp. cbv zeta.
  generalize (follow_up_frame m (sm <| thisSM; MDSSsm.rcvdMDTimestampReceive := false |>)). intros f H.
  destruct (gpnetd _); [|discriminate]. destruct (send_whook _ _ =? -1); cbn in H; by injection H as <- _.
Qed.

Lemma one_step_states m cts64 sm :
  let s := send_sync_one_step_proc m cts64 sm in state s = state sm /\ last_state s = last_state sm.
Proof.
  unfold send_sync_one_step_proc, setSyncOneStep. cbv zeta.
  set (x := sm <| thisSM; MDSSsm.rcvdMDSync := false |>).
  pose proof (send_sync_frame_states (one_step_frame m x) cts64 x) as (A & B & _).
  destruct (send_sync_frame _ _ _) as [s res]. cbn [fst] in *. by destruct (negb _).
Qed.

Lemma send_turns cts64 sm sm' :
  turns (M := machine cts64) sm sm' -> (rank sm' < rank sm)%nat.
Proof.
  intros [H T]. rewrite ssnd_pass_eq in H. change (last_state sm' <> state sm') in T.
  unfold rank, switch, set_last in *.
  change (state (sm <| last_state := state sm |>)) with (state sm) in H.
  destruct (state sm) eqn:E.
  - injection H as <-. cbn. lia.
  - assert (L : last_state sm' = INITIALIZING /\
                exists s, state sm' = initializing_condition s)
      by (destruct (bool_decide _); injection H as <-; split; try done; eexists; reflexivity).
    destruct L as [L [s N]]. rewrite N, L in *. unfold initializing_condition in *.
    repeat (destruct_cond_in T; [settle_changes; lia|]). done.
  - destruct (bool_decide (last_state sm <> _)) eqn:B.
    + unfold deref in H. destruct (rcvdMDSyncPtr _); [|done].
      destruct (send_sync_two_step_proc _ _ _) as [s res]. by destruct (_ <? 0).
    + injection H as <-. unfold send_sync_two_step_condition in *.
      repeat (destruct_cond; cbn in T |- *; [settle_changes; lia|]). cbn in T. done.
  - destruct (bool_decide (last_state sm <> _)) eqn:B.
    + unfold deref in H. destruct (rcvdMDSyncPtr _); [|done].
      destruct (send_follow_up_proc _ _) as [[s res]|] eqn:P; [|done]. destruct (_ <? 0); [done|].
      injection H as <-. apply send_follow_up_states in P as [A A']. cbn in A, A'. congruence.
    + injection H as <-. cbn in *. unfold send_follow_up_condition in *.
      repeat (destruct_cond_in T; [settle_changes; lia|]). done.
  - assert (L : last_state sm' = SEND_SYNC_ONE_STEP /\ exists s, state sm' = send_sync_one_step_condition s).
    { destruct (bool_decide _); unfold deref in H.
      - destruct (rcvdMDSyncPtr _) as [m|]; [|done]. injection H as <-. cbn.
        split; [|by eexists]. by destruct (one_step_states m cts64 (sm <| last_state := SEND_SYNC_ONE_STEP |>)).
      - injection H as <-. split; [done|by eexists]. }
    destruct L as [L [s N]]. rewrite N, L in *. unfold send_sync_one_step_condition in *.
    destruct_cond_in T; [lia|done].
  - assert (L : last_state sm' = SET_CORRECTION_FIELD /\ exists s, state sm' = set_correction_field_condition s)
      by (destruct (bool_decide _); injection H as <-; split; try done; by eexists).
    destruct L as [L [s N]]. rewrite N, L in *. unfold set_correction_field_condition in *.
    repeat (destruct_cond_in T; [settle_changes; lia|]). done.
  - injection H as <-. cbn in T. congruence.
Qed.

Lemma md_sync_send_ends cts64 sm : is_Some (run (M := machine cts64) fuel sm).
Proof.
  apply (loop_ends (M := machine cts64) (fun _ => True) rank).
  - intros s s' _ H. split; [done|]. by apply (send_turns cts64).
  - done.
  - unfold rank, fuel. destruct (state _); try destruct_cond; lia.
Qed.
End Ends.
(** ** The frames *)

Section Frames.
Context `{WC : WireConfig} `{CV : Conversions} `{ME : Media}.

(** the members of the structure sent and of the machine have the widths of the structs *)
Definition wf_timestamp (ts : Timestamp) : Prop :=
  fits 32 (Tstamp.nanoseconds ts) /\ fits 32 (U48.lsb (Tstamp.seconds ts)) /\
  fits 16 (U48.msb (Tstamp.seconds ts)).
Definition wf_send (m : MDSyncSend) (sm : data) : Prop :=
  fits 8 (MDSS.domainIndex m) /\ length (PortId.clockIdentity (MDSS.sourcePortIdentity m)) = 8%nat /\
  fits 16 (PortId.portIndex (MDSS.sourcePortIdentity m)) /\ sfits 8 (MDSS.logMessageInterval m) /\
  wf_timestamp (MDSS.preciseOriginTimestamp m) /\ fits 16 (MDSS.gmTimeBaseIndicator m) /\
  fits 16 (MDEG.syncSequenceId (mdeg sm)) /\ sfits 8 (PPG.currentLogSyncInterval (ppg sm)) /\
  (forall p, fits 4 (MINOR_VERSION_NUMBER p)).

(** the header of the Sync as it leaves *)
Definition sync_head (m : MDSyncSend) (ssize : Z) (sm : data) : PTPMsgHeader :=
  let id := MDSS.sourcePortIdentity m in
  md_header_template (PortId.portIndex id) SYNC ssize id
    (MDEG.syncSequenceId (mdeg sm)) (PPG.currentLogSyncInterval (ppg sm))
  <| Hdr.domainIndex := md_domain_index2number (MDSS.domainIndex m) |>
  <| Hdr.logMessageInterval := MDSS.logMessageInterval m |>.

Lemma compose_sync_header m n sm net :
  gpnetd sm = Some net -> length (PortId.clockIdentity (MDSS.sourcePortIdentity m)) = 8%nat ->
  composeSyncHeader m (34 + Z.of_nat n) sm =
  Some (head_octets (sync_head m (34 + Z.of_nat n) sm) ++ replicate n 0).
Proof.
  intros Hn Hc. unfold composeSyncHeader, md_header_compose. rewrite Hn. unfold option_map.
  replace (Z.to_nat (34 + Z.of_nat n)) with (34 + n)%nat by lia.
  rewrite compose_in_cleared by done. f_equal. unfold sync_head.
  destruct (MDSS.sourcePortIdentity m) as [c pi]. cbn [PortId.clockIdentity PortId.portIndex] in *.
  destruct c as [|c0 [|c1 [|c2 [|c3 [|c4 [|c5 [|c6 [|c7 [|]]]]]]]]]; try discriminate Hc.
  reflexivity.
Qed.

(** the Follow_Up after its header *)
Definition follow_up_body (m : MDSyncSend) (cf : Z) : list Z :=
  let ts := origin_plus (MDSS.preciseOriginTimestamp m) cf in
  let ph := MDSS.lastGmPhaseChange m in
  be_bytes 2 (U48.msb (Tstamp.seconds ts)) ++ be_bytes 4 (U48.lsb (Tstamp.seconds ts)) ++
  be_bytes 4 (Tstamp.nanoseconds ts) ++ [0; 3; 0; 28; 0; 0x80; 0xC2; 0; 0; 1] ++
  be_bytes 4 (d_to_int 32 (ldexp (dsub (MDSS.rateRatio m) d1) 41)) ++
  be_bytes 2 (MDSS.gmTimeBaseIndicator m) ++ be_bytes 2 (SNs.nsec_msb ph) ++
  take 4 (be_bytes 8 (SNs.nsec ph)) ++ be_bytes 2 (SNs.subns ph) ++ replicate 4 0 ++
  be_bytes 4 (d_to_int 32 (ldexp (MDSS.lastGmFreqChange m) 41)).

Lemma compose_fup_tlv m cf h :
  length h = 34%nat -> composeSyncFupTLV m cf (h ++ replicate 42 0) = h ++ follow_up_body m cf.
Proof.
  intros Hh. do 34 (destruct h as [|? h]; [discriminate Hh|]). destruct h; [|discriminate Hh].
  unfold composeSyncFupTLV, follow_up_body.
  generalize (origin_plus (MDSS.preciseOriginTimestamp m) cf). intros ts.
  unfold md_followup_information_tlv_compose.
  generalize (d_to_int 32 (ldexp (dsub (MDSS.rateRatio m) d1) 41)) (d_to_int 32 (ldexp (MDSS.lastGmFreqChange m) 41)).
  intros rr fr. reflexivity.
Qed.

Lemma follow_up_frame_octets m sm :
  length (PortId.clockIdentity (MDSS.sourcePortIdentity m)) = 8%nat ->
  follow_up_frame m sm = head_octets (follow_up_head m sm) ++ follow_up_body m (follow_up_cf m sm).
Proof.
  intros Hc. unfold follow_up_frame. change FOLLOW_UP_SIZE with (34 + 42)%nat.
  rewrite compose_in_cleared by done. apply compose_fup_tlv. by apply head_length.
Qed.

(** ** What the receiver reads *)

(** the timestamp, the rate ratio, the time base indicator and the frequency change *)
Lemma body_reads h m cf rest :
  length h = 34%nat -> wf_timestamp (origin_plus (MDSS.preciseOriginTimestamp m) cf) ->
  fits 16 (MDSS.gmTimeBaseIndicator m) ->
  let b := h ++ follow_up_body m cf ++ rest in
  read_timestamp b = origin_plus (MDSS.preciseOriginTimestamp m) cf /\
  i32 (ntoh 54 4 b) = d_to_int 32 (ldexp (dsub (MDSS.rateRatio m) d1) 41) /\
  ntoh 58 2 b = MDSS.gmTimeBaseIndicator m /\
  i32 (ntoh 72 4 b) = d_to_int 32 (ldexp (MDSS.lastGmFreqChange m) 41).
Proof.
  intros Hh (T1 & T2 & T3) G. unfold read_timestamp, follow_up_body. cbn zeta.
  revert T1 T2 T3. generalize (origin_plus (MDSS.preciseOriginTimestamp m) cf). intros ts T1 T2 T3.
  pose proof (d_to_int_sfits 32 (ldexp (dsub (MDSS.rateRatio m) d1) 41) ltac:(lia)) as R.
  pose proof (d_to_int_sfits 32 (ldexp (MDSS.lastGmFreqChange m) 41) ltac:(lia)) as F.
  revert R F.
  generalize (d_to_int 32 (ldexp (dsub (MDSS.rateRatio m) d1) 41)) (d_to_int 32 (ldexp (MDSS.lastGmFreqChange m) 41)).
  intros rr fr R F.
  rewrite (ntoh_skip h _ 6 4), (ntoh_skip h _ 2 4), (ntoh_skip h _ 0 2), (ntoh_skip h _ 20 4),
    (ntoh_skip h _ 24 2), (ntoh_skip h _ 38 4) by done.
  split_and!.
  - destruct ts as [ns [lsb msb]]. f_equal; [exact (be_fits 4 ns T1)|f_equal].
    + exact (be_fits 4 lsb T2).
    + exact (be_fits 2 msb T3).
  - exact (be_signed 4 rr ltac:(lia) R).
  - exact (be_fits 2 _ G).
  - exact (be_signed 4 fr ltac:(lia) F).
Qed.

(** of the phase change the receiver reads the upper four octets of the nanoseconds, followed by the
    fraction in the place of the next two *)
Lemma body_phase h m cf rest :
  length h = 34%nat ->
  let ph := MDSS.lastGmPhaseChange m in
  octets 60 12 (h ++ follow_up_body m cf ++ rest) =
  be_bytes 2 (SNs.nsec_msb ph) ++ take 4 (be_bytes 8 (SNs.nsec ph)) ++ be_bytes 2 (SNs.subns ph) ++
  replicate 4 0.
Proof. intros Hh. rewrite (octets_skip h _ 26 12) by done. reflexivity. Qed.

End Frames.
(** ** A Sync and its Follow_Up *)

Section Sending.
Context `{WC : WireConfig} `{CV : Conversions} `{ME : Media}.

(** the port sends *)
Definition ready (sm : data) : Prop :=
  PTASG.BEGIN (ptasg sm) = false /\ PTASG.instanceEnable (ptasg sm) = true /\ PORT_UP sm = true.
Definition two_step (sm : data) : Prop :=
  ASYMMETRY_MEASUREMENT_MODE sm = false /\ ONESTEP_TX_OPER sm = false.
(** it waits for the next MDSyncSend *)
Definition resting (sm : data) : Prop :=
  last_state sm = state sm /\ In (state sm) [INITIALIZING; SEND_FOLLOW_UP].

Lemma ssnd_allstate_ready sm : ready sm -> set_allstate sm = sm.
Proof.
  intros (B & I & U). unfold set_allstate, allstate_condition. rewrite B, I, U. by destruct sm.
Qed.

Lemma send_eq cts64 sm o :
  ready sm -> loop (M := machine cts64) fuel sm = Some o -> md_sync_send_sm cts64 sm = o.
Proof.
  intros R H. apply (exec_eq (M := machine cts64)). change (sm_allstate sm) with (set_allstate sm).
  by rewrite ssnd_allstate_ready.
Qed.

Definition sync_octets (m : MDSyncSend) (sm : data) : list Z :=
  head_octets (sync_head m 44 sm) ++ replicate 10 0.

Lemma sync_frame_octets m sm net :
  gpnetd sm = Some net -> length (PortId.clockIdentity (MDSS.sourcePortIdentity m)) = 8%nat ->
  sync_frame m sm = Some (sync_octets m sm).
Proof. intros Hn Hc. exact (compose_sync_header m 10 sm net Hn Hc). Qed.

(** the machine after a Sync has been given to the driver, and when the driver has refused it *)
Definition after_sync (m : MDSyncSend) (res cts64 : Z) (sm : data) : data :=
  sync_sent (sync_octets m sm) res cts64 (sm <| thisSM; MDSSsm.rcvdMDSync := false |>)
    <| txSync_time := cts64 |>.

Lemma two_step_pass m cts64 sm net :
  state sm = SEND_SYNC_TWO_STEP -> last_state sm <> SEND_SYNC_TWO_STEP ->
  rcvdMDSyncPtr sm = Some m -> gpnetd sm = Some net ->
  length (PortId.clockIdentity (MDSS.sourcePortIdentity m)) = 8%nat ->
  let res := send_whook net (sync_octets m sm) in
  pass (M := machine cts64) sm =
  if res =? -1
  then (sm <| thisSM; MDSSsm.rcvdMDSync := false |> <| last_state := REACTION |>, Leave (Ret None))
  else (after_sync m res cts64 (sm <| last_state := SEND_SYNC_TWO_STEP |>), Leave (Ret (Some tt))).
Proof.
  intros E L P N C. cbn zeta. rewrite ssnd_pass_eq, E, bool_decide_eq_true_2 by done.
  unfold switch, set_last. cbn [state upd]. rewrite E. cbn [rcvdMDSyncPtr upd]. rewrite P. unfold deref.
  unfold send_sync_two_step_proc, setSyncTwoStep_txSync.
  set (x := sm <| last_state := SEND_SYNC_TWO_STEP |> <| thisSM; MDSSsm.rcvdMDSync := false |>).
  rewrite (sync_frame_octets m x net N C). unfold send_sync_frame. change (gpnetd x) with (gpnetd sm). rewrite N.
  change (sync_octets m x) with (sync_octets m sm). unfold after_sync.
  change (sync_octets m (sm <| last_state := SEND_SYNC_TWO_STEP |>)) with (sync_octets m sm).
  generalize (sync_octets m sm). intros f. destruct (send_whook net f =? -1) eqn:W.
  - apply Z.eqb_eq in W. rewrite W. cbn [Z.ltb Z.compare]. unfold x. by destruct sm.
  - rewrite (proj2 (Z.ltb_ge (Z.abs _) 0)) by lia. done.
Qed.

(** a Sync has been given to the driver, or will be given again *)
Definition awaiting (m : MDSyncSend) (sm : data) : Prop :=
  last_state sm = SEND_SYNC_TWO_STEP /\ state sm = SEND_SYNC_TWO_STEP /\ rcvdMDSyncPtr sm = Some m /\
  MDSSsm.rcvdMDSync (thisSM sm) = false.
Definition retrying (m : MDSyncSend) (sm : data) : Prop :=
  state sm = SEND_SYNC_TWO_STEP /\ last_state sm = REACTION /\ rcvdMDSyncPtr sm = Some m.

(** what the frames are made of stays *)
Definition same_data (s sm : data) : Prop :=
  mdeg s = mdeg sm /\ PPG.currentLogSyncInterval (ppg s) = PPG.currentLogSyncInterval (ppg sm) /\
  gcd s = gcd sm /\ portIndex s = portIndex sm /\ domainIndex s = domainIndex sm.

(** the outcome of giving the Sync of [sm] to the driver, [net] being the frames before *)
Definition sync_given (m : MDSyncSend) (cts64 : Z) (net : list (list Z)) (sm s : data)
    (o : outcome unit) : Prop :=
  let f := sync_octets m sm in
  let res := send_whook net f in
  (ready sm -> ready s) /\ same_data s sm /\
  if res =? -1 then o = Ret None /\ gpnetd s = Some net /\ retrying m s
  else o = Ret (Some tt) /\ gpnetd s = Some (net ++ [f]) /\ awaiting m s /\
       MDSSsm.rcvdMDTimestampReceive (thisSM s) = MDSSsm.rcvdMDTimestampReceive (thisSM sm) /\
       txSync_time s = cts64 /\ mock_txts64 s = if res <? 0 then u64 (getts64 cts64) else mock_txts64 sm.

Lemma two_step_turn n m cts64 sm net :
  state sm = SEND_SYNC_TWO_STEP -> last_state sm <> SEND_SYNC_TWO_STEP ->
  rcvdMDSyncPtr sm = Some m -> gpnetd sm = Some net ->
  length (PortId.clockIdentity (MDSS.sourcePortIdentity m)) = 8%nat ->
  exists s o, loop (M := machine cts64) (S n) sm = Some (s, o) /\ sync_given m cts64 net sm s o.
Proof.
  intros E L P N C. pose proof (two_step_pass m cts64 sm net E L P N C) as H. cbn zeta in H.
  unfold sync_given. destruct (send_whook net (sync_octets m sm) =? -1).
  - eexists _, _. split; [by apply (loop_return (M := machine cts64))|]. by split_and!.
  - eexists _, _. split; [by apply (loop_return (M := machine cts64))|]. clear H.
    unfold after_sync, sync_sent. change (sync_octets m (sm <| last_state := SEND_SYNC_TWO_STEP |>)) with (sync_octets m sm).
    generalize (sync_octets m sm). intros f.
    destruct (_ <? 0); (split; [done|split; [by split_and!|]]);
      split_and!; try done; cbn [gpnetd upd]; rewrite N; reflexivity.
Qed.

(** C31. A MDSyncSend on a port that may send makes the Sync at once: the driver gets one frame, with
    the sequence number, identity, domain and log interval of the structure.  If the driver refuses
    it, the same Sync is given to it again at the next evaluation, and so on. *)
Theorem sync_given_or_retried m cts64 cts sm net :
  ready sm -> resting sm -> two_step sm -> gpnetd sm = Some net ->
  length (PortId.clockIdentity (MDSS.sourcePortIdentity m)) = 8%nat ->
  (let (s, o) := md_sync_send_sm_mdSyncSend m cts64 sm in sync_given m cts64 net sm s o) /\
  (forall s', ready s' -> retrying m s' -> same_data s' sm -> gpnetd s' = Some net ->
    let (s, o) := md_sync_send_sm cts s' in
    sync_octets m s' = sync_octets m sm /\ sync_given m cts net s' s o).
Proof.
  intros R [L Q] (A & O) N C. split.
  - unfold md_sync_send_sm_mdSyncSend.
    set (x := sm <| thisSM; MDSSsm.rcvdMDSync := true |> <| rcvdMDSyncPtr := Some m |>).
    destruct (two_step_turn 6 m cts64 (x <| state := SEND_SYNC_TWO_STEP |>) net) as (s & o & H & G); try done.
    { change (last_state sm <> SEND_SYNC_TWO_STEP). cbn [In] in Q. rewrite L. by destruct Q as [<-|[<-|[]]]. }
    rewrite (send_eq cts64 x (s, o)); [exact G|exact R|]. unfold fuel. rewrite <- H.
    apply (loop_turn (M := machine cts64)). split.
    + rewrite ssnd_pass_eq. change (last_state x) with (last_state sm). change (state x) with (state sm).
      rewrite bool_decide_eq_false_2 by (intros X; by apply X).
      assert (E : set_last (state sm) x = x) by (unfold set_last, x; rewrite <- L; by destruct sm).
      rewrite E. unfold switch. change (state x) with (state sm).
      assert (F : may_send x && negb (ONESTEP_TX_OPER x) = true).
      { unfold may_send. change (PORT_UP x) with (PORT_UP sm).
        change (ASYMMETRY_MEASUREMENT_MODE x) with (ASYMMETRY_MEASUREMENT_MODE sm).
        change (ONESTEP_TX_OPER x) with (ONESTEP_TX_OPER sm). destruct R as (_ & _ & ->). by rewrite A, O. }
      destruct Q as [<-|[<-|[]]]; unfold initializing_condition, send_follow_up_condition; by rewrite F.
    + change (last_state sm <> SEND_SYNC_TWO_STEP). rewrite L. by destruct Q as [<-|[<-|[]]].
  - intros s' R' (E & L' & P) (D1 & D2 & D3 & D4 & D5) N'.
    destruct (two_step_turn 7 m cts s' net) as (s & o & H & G); try done; [congruence|].
    rewrite (send_eq cts s' (s, o)); [|done|exact H]. split; [|exact G].
    unfold sync_octets, sync_head. by rewrite D1, D2.
Qed.

(** the outcome of giving the Follow_Up of [sm] to the driver *)
Definition follow_up_given (m : MDSyncSend) (net : list (list Z)) (sm s : data) (o : outcome unit) : Prop :=
  let f := follow_up_frame m sm in
  o = Ret None /\ (ready sm -> ready s) /\ state s = SEND_FOLLOW_UP /\
  MDSSsm.rcvdMDTimestampReceive (thisSM s) = false /\
  if send_whook net f =? -1 then gpnetd s = Some net /\ last_state s = REACTION /\ mdeg s = mdeg sm
  else gpnetd s = Some (net ++ [f]) /\ resting s /\
       mdeg s = mdeg sm <| MDEG.syncSequenceId ::= fun z => u16 (z + 1) |>.

Lemma follow_up_frame_ext m a b :
  sync_ts a = sync_ts b -> same_data a b -> follow_up_frame m a = follow_up_frame m b.
Proof.
  intros T (A & B & C & D & E). unfold follow_up_frame, follow_up_head, follow_up_correction,
    follow_up_cf, residence_time, gptpclock_we_are_gm. by rewrite A, B, C, D, E, T.
Qed.

Lemma ssnd_follow_up_turn n m cts64 sm net :
  state sm = SEND_FOLLOW_UP -> last_state sm <> SEND_FOLLOW_UP ->
  rcvdMDSyncPtr sm = Some m -> gpnetd sm = Some net ->
  exists s o, loop (M := machine cts64) (S n) sm = Some (s, o) /\ follow_up_given m net sm s o.
Proof.
  intros E L P N. unfold follow_up_given.
  assert (H : pass (M := machine cts64) sm =
    if send_whook net (follow_up_frame m sm) =? -1
    then (sm <| thisSM; MDSSsm.rcvdMDTimestampReceive := false |> <| last_state := REACTION |>, Leave (Ret None))
    else (sm <| last_state := SEND_FOLLOW_UP |> <| thisSM; MDSSsm.rcvdMDTimestampReceive := false |>
             <| gpnetd := Some (net ++ [follow_up_frame m sm]) |>
             <| ppg; PPG.perfmonDS ::= PERFMON_PPMDR (fun r => r <| PortDR.followUpTx ::= inc32 |>) |>
             <| mdeg; MDEG.syncSequenceId ::= fun z => u16 (z + 1) |>, Next)).
  { rewrite ssnd_pass_eq, E, bool_decide_eq_true_2 by done.
    unfold switch, set_last. cbn [state upd]. rewrite E. cbn [rcvdMDSyncPtr upd]. rewrite P. unfold deref.
    unfold send_follow_up_proc, setFollowUp_txFollowUp. cbv zeta. cbn [gpnetd upd]. rewrite N.
    rewrite (follow_up_frame_ext m _ sm) by (done || by split_and!).
    generalize (follow_up_frame m sm). intros f. destruct (send_whook net f =? -1); [by destruct sm|done]. }
  revert H. generalize (follow_up_frame m sm). intros f. destruct (send_whook net f =? -1); intros H.
  - eexists _, _. split; [by apply (loop_return (M := machine cts64))|]. by split_and!.
  - eexists _, _. split; [apply (loop_stop (M := machine cts64)); [exact H|exact (eq_sym E)]|].
    split_and!; try done. split; [exact (eq_sym E)|]. cbn [state upd]. rewrite E. cbn. auto.
Qed.

Lemma awaiting_pass m cts64 sm :
  awaiting m sm ->
  pass (M := machine cts64) sm = (send_sync_two_step_condition cts64 sm, Next).
Proof.
  intros (L & E & _). rewrite ssnd_pass_eq, L, E, bool_decide_eq_false_2 by (intros X; by apply X).
  assert (S : set_last SEND_SYNC_TWO_STEP sm = sm) by (unfold set_last; rewrite <- L; by destruct sm).
  rewrite S. unfold switch. by rewrite E.
Qed.

(** While the transmit timestamp of a Sync is awaited: the timestamp, once the test hook has let
    it through, makes the Follow_Up, with the time of the Sync taken from it; a driver that gave no
    timestamp makes the Follow_Up come with the time the Sync was given; after the driver's time for
    lost timestamps the same Sync is given again; before it nothing happens. *)
Theorem follow_up_after_timestamp m ev cts64 sm net :
  ready sm -> awaiting m sm -> gpnetd sm = Some net ->
  length (PortId.clockIdentity (MDSS.sourcePortIdentity m)) = 8%nat ->
  (let (s, o) := md_sync_send_sm_txts ev cts64 sm in
   match abnormal_timestamp (seqid ev) (txts ev) with
   | None => s = sm /\ o = Ret None
   | Some t => follow_up_given m net
       (sm <| sync_ts := u64 (tsconv t + TIv.scaledNanoseconds (PPG.egressLatency (ppg sm))) |>) s o
   end) /\
  (MDSSsm.rcvdMDTimestampReceive (thisSM sm) = false ->
   let (s, o) := md_sync_send_sm cts64 sm in
   if negb (mock_txts64 sm =? 0) then follow_up_given m net (sm <| sync_ts := mock_txts64 sm |>) s o
   else if txtslost_time <=? u64 (cts64 - txSync_time sm) then sync_given m cts64 net sm s o
   else s = sm /\ o = Ret None).
Proof.
  intros R A N C. pose proof A as (L & E & P & V). split.
  - unfold md_sync_send_sm_txts. destruct (abnormal_timestamp _ _) as [t|]; [|done].
    set (x := sm <| thisSM; MDSSsm.rcvdMDTimestampReceive := true |> <| sync_ts := _ |>).
    destruct (ssnd_follow_up_turn 6 m cts64 (x <| state := SEND_FOLLOW_UP |>) net) as (s & o & H & G); try done.
    { change (last_state sm <> SEND_FOLLOW_UP). congruence. }
    rewrite (send_eq cts64 x (s, o)); [|exact R|].
    + unfold follow_up_given in *. rewrite (follow_up_frame_ext m _ (x <| state := SEND_FOLLOW_UP |>));
        [exact G|done|by split_and!].
    + unfold fuel. rewrite <- H. apply (loop_turn (M := machine cts64)).
      split; [by apply (awaiting_pass m)|]. change (last_state sm <> SEND_FOLLOW_UP). congruence.
  - intros T. pose proof (awaiting_pass m cts64 sm A) as H. unfold send_sync_two_step_condition in H.
    rewrite T in H. destruct (negb (mock_txts64 sm =? 0)); [|destruct (txtslost_time <=? _)].
    + set (x := sm <| sync_ts := mock_txts64 sm |> <| mock_txts64 := 0 |> <| state := SEND_FOLLOW_UP |>) in *.
      destruct (ssnd_follow_up_turn 6 m cts64 x net) as (s & o & K & G); try done.
      { change (last_state sm <> SEND_FOLLOW_UP). congruence. }
      rewrite (send_eq cts64 sm (s, o)); [|exact R|].
      * unfold follow_up_given in *. rewrite (follow_up_frame_ext m _ x); [exact G|done|by split_and!].
      * unfold fuel. rewrite <- K. apply (loop_turn (M := machine cts64)).
        split; [exact H|]. change (last_state sm <> SEND_FOLLOW_UP). congruence.
    + set (x := sm <| last_state := REACTION |> <| state := SEND_SYNC_TWO_STEP |>) in *.
      destruct (two_step_turn 6 m cts64 x net) as (s & o & K & G); try done.
      rewrite (send_eq cts64 sm (s, o)); [exact G|exact R|].
      unfold fuel. rewrite <- K. by apply (loop_turn (M := machine cts64)).
    + rewrite (send_eq cts64 sm (sm, Ret None)); [done|done|]. unfold fuel.
      apply (loop_stop (M := machine cts64)); [|change (last_state sm = state sm); congruence].
      etrans; [exact H|]. f_equal. clear -E. destruct sm. cbn in E. by subst.
Qed.
End Sending.
(** ** From the sender to the receiver *)

Section Transfer.
Context `{WC : WireConfig} `{CV : Conversions} `{ME : Media} `{PL : Platform}.

Lemma origin_plus_wf ts cf : wf_timestamp ts -> wf_timestamp (origin_plus ts cf).
Proof.
  intros (A & B & C). unfold origin_plus.
  assert (H : fits 32 (u32 (Tstamp.nanoseconds ts + cf))) by (apply wrap_fits; lia).
  destruct (UB_SEC_NS <=? _) eqn:E; [|by split_and!]. bool_hyps. split_and!; cbn [Tstamp.nanoseconds Tstamp.seconds U48.lsb U48.msb].
  - unfold fits, UB_SEC_NS in *. lia.
  - apply wrap_fits. lia.
  - destruct_cond; [apply wrap_fits; lia|done].
Qed.

(** the whole time of a timestamp *)
Definition total_ns (ts : Timestamp) : Z :=
  (U48.msb (Tstamp.seconds ts) * 2 ^ 32 + U48.lsb (Tstamp.seconds ts)) * UB_SEC_NS + Tstamp.nanoseconds ts.

(** a timestamp with less than a second of nanoseconds, and room for the seconds to grow *)
Definition normal (ts : Timestamp) : Prop :=
  Tstamp.nanoseconds ts < UB_SEC_NS /\
  U48.msb (Tstamp.seconds ts) * 2 ^ 32 + U48.lsb (Tstamp.seconds ts) < 2 ^ 48 - 1.

Lemma origin_plus_time ts cf :
  wf_timestamp ts -> normal ts -> 0 <= cf < UB_SEC_NS ->
  total_ns (origin_plus ts cf) = total_ns ts + cf /\ 0 <= Tstamp.nanoseconds (origin_plus ts cf) < UB_SEC_NS.
Proof.
  intros (A & B & C) (N & S) D. destruct ts as [ns [lsb msb]]. cbn [Tstamp.nanoseconds Tstamp.seconds U48.lsb U48.msb] in *.
  unfold total_ns, origin_plus, UB_SEC_NS, fits in *. cbn [Tstamp.nanoseconds Tstamp.seconds U48.lsb U48.msb].
  rewrite (wrap_id 32 (ns + cf)) by (unfold fits; lia).
  destruct (Z.leb_spec 1000000000 (ns + cf)); cbn [Tstamp.nanoseconds Tstamp.seconds U48.lsb U48.msb]; [|lia].
  destruct (Z.eq_dec lsb (2 ^ 32 - 1)) as [->|L].
  - change (u32 (2 ^ 32 - 1 + 1)) with 0. cbn [Z.eqb]. rewrite wrap_id by (unfold fits; lia). lia.
  - rewrite (wrap_id 32 (lsb + 1)) by (unfold fits; lia).
    destruct (Z.eqb_spec (lsb + 1) 0); lia.
Qed.

Lemma origin_plus_0 ts : wf_timestamp ts -> normal ts -> origin_plus ts 0 = ts.
Proof.
  intros (A & B & C) (N & _). destruct ts as [ns [lsb msb]]. cbn [Tstamp.nanoseconds Tstamp.seconds U48.lsb U48.msb] in *.
  unfold origin_plus, fits in *. cbn [Tstamp.nanoseconds Tstamp.seconds U48.lsb U48.msb].
  rewrite Z.add_0_r, wrap_id by (unfold fits; lia). by rewrite (proj2 (Z.leb_gt UB_SEC_NS ns) N).
Qed.

(** C32. A grandmaster sends the time its Sync left: the origin timestamp of the Follow_Up is that of
    the MDSyncSend plus the time from its upstreamTxTime to the transmit timestamp, normalised, if
    that time is below one second; the correction field is then 0. *)
Theorem origin_is_time_of_sync m sm :
  wf_timestamp (MDSS.preciseOriginTimestamp m) -> gptpclock_we_are_gm sm = true ->
  Tstamp.nanoseconds (MDSS.preciseOriginTimestamp m) < UB_SEC_NS ->
  0 <= sync_ts sm - UNs.nsec (MDSS.upstreamTxTime m) < UB_SEC_NS ->
  U48.msb (Tstamp.seconds (MDSS.preciseOriginTimestamp m)) * 2 ^ 32 +
    U48.lsb (Tstamp.seconds (MDSS.preciseOriginTimestamp m)) < 2 ^ 48 - 1 ->
  let ts := origin_plus (MDSS.preciseOriginTimestamp m) (follow_up_cf m sm) in
  total_ns ts = total_ns (MDSS.preciseOriginTimestamp m) + (sync_ts sm - UNs.nsec (MDSS.upstreamTxTime m)) /\
  0 <= Tstamp.nanoseconds ts < UB_SEC_NS /\ follow_up_correction m sm = 0.
Proof.
  intros W G N D S. cbn zeta. unfold follow_up_cf, follow_up_correction. rewrite G.
  rewrite (wrap_id 64) by (unfold fits, UB_SEC_NS in *; lia).
  destruct (origin_plus_time _ _ W (conj N S) D) as [E1 E2]. exact (conj E1 (conj E2 eq_refl)).
Qed.

(** a rate ratio and a frequency offset that the TLV can carry *)
Definition carried_ratio (r : double) : Prop :=
  exists z, sfits 32 z /\ r = dadd d1 (ldexp (d_of_Z z) (-41)).
Definition carried_offset (r : double) : Prop := exists z, sfits 32 z /\ r = ldexp (d_of_Z z) (-41).

Lemma sync_head_wf m sm :
  wf_send m sm -> wf_head (sync_head m 44 sm) /\ Hdr.flags (sync_head m 44 sm) !! 0%nat = Some 2.
Proof.
  intros (W1 & W2 & W3 & W4 & _ & _ & W5 & W6 & W7). split; [|done]. unfold wf_head, sync_head.
  cbn -[wrap swrap fits sfits].
  rewrite (wrap_id 8) by (pose proof (W7 (PortId.portIndex (MDSS.sourcePortIdentity m))); unfold fits in *; lia).
  rewrite (wrap_id 16 (MDEG.syncSequenceId _)) by done.
  split_and!; try done; try apply wrap_fits; try (unfold fits, sfits; lia).
  repeat destruct_cond; unfold fits; lia.
Qed.

Lemma follow_up_head_wf m sm : wf_send m sm -> wf_head (follow_up_head m sm).
Proof.
  intros (W1 & W2 & W3 & W4 & _ & _ & W5 & W6 & W7). unfold wf_head, follow_up_head.
  assert (K : sfits 64 (follow_up_correction m sm))
    by (unfold follow_up_correction; destruct_cond; [unfold sfits; lia|apply swrap_fits; lia]).
  revert K. generalize (follow_up_correction m sm). intros cf K.
  cbn -[wrap swrap fits sfits].
  rewrite (wrap_id 8) by (pose proof (W7 (portIndex sm)); unfold fits in *; lia).
  rewrite (wrap_id 16 (MDEG.syncSequenceId _)) by done.
  split_and!; try done; try apply wrap_fits; try (unfold fits, sfits; lia).
  repeat destruct_cond; unfold fits; lia.
Qed.

(** the buffers a receiver gets, with whatever follows the frames in them *)
Lemma sync_received m sm t rest :
  wf_send m sm -> SREC.two_step_sync (ev_recv t (sync_octets m sm ++ rest)).
Proof.
  intros W. destruct (sync_head_wf m sm W) as [H _]. unfold sync_octets. split; cbn [recbptr].
  - clear H. destruct W as (_ & W & _). reflexivity.
  - rewrite !length_app, head_octets_length, length_replicate by done. unfold SYNC_SIZE. lia.
Qed.

Lemma body_length m cf : length (follow_up_body m cf) = 42%nat.
Proof. reflexivity. Qed.

Lemma follow_up_received m sm t rest :
  wf_send m sm -> SREC.follow_up (ev_recv t (follow_up_frame m sm ++ rest)).
Proof.
  intros W. pose proof (follow_up_head_wf m sm W) as H. unfold SREC.follow_up. cbn [recbptr].
  rewrite follow_up_frame_octets by apply W.
  rewrite !length_app, head_octets_length, body_length by done. unfold FOLLOW_UP_SIZE. lia.
Qed.

(** the time from the upstreamTxTime of [m] to the transmit timestamp of the Sync *)
Definition on_the_way (m : MDSyncSend) (sm : data) : Z := sync_ts sm - UNs.nsec (MDSS.upstreamTxTime m).

(** a ScaledNs in units of 2^-16 ns *)
Definition scaled_ns (t : ScaledNs) : Z := SNs.nsec t * 2 ^ 16 + SNs.subns t.

(** The time that [r], handed on by the receiver, has of the one sent, [m].  From the grandmaster: the
    origin is the time the Sync left, and nothing is corrected.  From another station: the origin is
    that of [m], and the correction that of [m] plus the time on the way at the grandmaster's rate,
    truncated to ns, whose low 16 bits come again as the fraction. *)
Definition time_carried (m : MDSyncSend) (sm : data) (r : MDSyncReceive) : Prop :=
  let t := on_the_way m sm in
  let origin := MDSR.preciseOriginTimestamp r in
  let correction := scaled_ns (MDSR.followUpCorrectionField r) in
  if gptpclock_we_are_gm sm then
    (t < UB_SEC_NS -> total_ns origin = total_ns (MDSS.preciseOriginTimestamp m) + t /\
                      0 <= Tstamp.nanoseconds origin < UB_SEC_NS) /\ correction = 0
  else
    let rate_time := d_to_uint 64 (dmul (MDSS.rateRatio m) (d_of_Z t)) in
    let sum := scaled_ns (MDSS.followUpCorrectionField m) + rate_time * 2 ^ 16 + rate_time mod 2 ^ 16 in
    origin = MDSS.preciseOriginTimestamp m /\ (sum < 2 ^ 63 -> correction = sum).

(** a ratio as the TLV has it: the difference from 1 in units of 2^-41, truncated to 32 bits *)
Definition tlv_offset (x : double) : double := ldexp (d_of_Z (d_to_int 32 (ldexp x 41))) (-41).

(** what the structure [r] handed on by the receiver has of the one sent, [m] *)
Definition carried (m : MDSyncSend) (sm : data) (r : MDSyncReceive) : Prop :=
  MDSR.domainIndex r = MDSS.domainIndex m /\ MDSR.seqid r = MDEG.syncSequenceId (mdeg sm) /\
  MDSR.sourcePortIdentity r = MDSS.sourcePortIdentity m /\
  MDSR.logMessageInterval r = MDSS.logMessageInterval m /\
  time_carried m sm r /\
  MDSR.gmTimeBaseIndicator r = MDSS.gmTimeBaseIndicator m /\
  MDSR.rateRatio r = dadd d1 (tlv_offset (dsub (MDSS.rateRatio m) d1)) /\
  (carried_ratio (MDSS.rateRatio m) -> MDSR.rateRatio r = MDSS.rateRatio m) /\
  MDSR.lastGmFreqChange r = tlv_offset (MDSS.lastGmFreqChange m) /\
  (carried_offset (MDSS.lastGmFreqChange m) -> MDSR.lastGmFreqChange r = MDSS.lastGmFreqChange m).

(** the time of [m] is in order: a normal origin, a Sync sent after it came, a correction that is not
    negative *)
Definition wf_time (m : MDSyncSend) (sm : data) : Prop :=
  normal (MDSS.preciseOriginTimestamp m) /\ 0 <= on_the_way m sm < 2 ^ 64 /\
  0 <= SNs.nsec (MDSS.followUpCorrectionField m) /\ fits 16 (SNs.subns (MDSS.followUpCorrectionField m)).

Lemma correction_sum m sm :
  wf_time m sm -> gptpclock_we_are_gm sm = false ->
  let rate_time := d_to_uint 64 (dmul (MDSS.rateRatio m) (d_of_Z (on_the_way m sm))) in
  let sum := scaled_ns (MDSS.followUpCorrectionField m) + rate_time * 2 ^ 16 + rate_time mod 2 ^ 16 in
  sum < 2 ^ 63 -> u64 (follow_up_correction m sm) = sum.
Proof.
  intros (_ & T & F1 & F2) G. cbv zeta. unfold follow_up_correction, residence_time, scaled_correction. rewrite G.
  fold (on_the_way m sm). rewrite (wrap_id 64 (on_the_way m sm)) by exact T.
  pose proof (d_to_uint_fits 64 (dmul (MDSS.rateRatio m) (d_of_Z (on_the_way m sm))) ltac:(lia)) as R.
  revert R. generalize (d_to_uint 64 (dmul (MDSS.rateRatio m) (d_of_Z (on_the_way m sm)))). intros r R S.
  unfold scaled_ns, fits in *. rewrite !Z.shiftl_mul_pow2 by lia.
  pose proof (Z.mod_pos_bound r (2 ^ 16) ltac:(lia)) as M. change (u16 r) with (r mod 2 ^ 16).
  set (n := SNs.nsec (MDSS.followUpCorrectionField m)) in *. set (f := SNs.subns (MDSS.followUpCorrectionField m)) in *.
  rewrite (wrap_id 64 (r * 2 ^ 16)) by (unfold fits; lia).
  rewrite (swrap_id 64 (n * 2 ^ 16 + f)) by (unfold sfits; lia).
  rewrite swrap_id, wrap_id by (unfold sfits, fits; lia). lia.
Qed.

Lemma time_is_carried m sm r :
  wf_timestamp (MDSS.preciseOriginTimestamp m) -> wf_time m sm ->
  MDSR.preciseOriginTimestamp r = origin_plus (MDSS.preciseOriginTimestamp m) (follow_up_cf m sm) ->
  scaled_ns (MDSR.followUpCorrectionField r) = u64 (follow_up_correction m sm) ->
  time_carried m sm r.
Proof.
  intros W T O C. pose proof T as (N & D & _). unfold time_carried. cbv zeta. rewrite O, C.
  destruct (gptpclock_we_are_gm sm) eqn:G.
  - unfold follow_up_cf, follow_up_correction. rewrite G. fold (on_the_way m sm). split; [|done]. intros B.
    rewrite wrap_id by exact D. by apply origin_plus_time; [| |lia].
  - unfold follow_up_cf. rewrite G, origin_plus_0 by done. split; [done|]. by apply correction_sum.
Qed.

Lemma sync_carried m s0 sm ts tf rest rest' r :
  wf_send m sm -> wf_time m sm -> same_data s0 sm ->
  carried m sm (SREC.md_sync_of
    (SREC.take_follow_up (ev_recv tf (follow_up_frame m sm ++ rest'))
       (SREC.take_sync (ev_recv ts (sync_octets m s0 ++ rest)) r))).
Proof.
  intros W WT (D1 & D2 & _).
  assert (E : sync_octets m s0 = sync_octets m sm) by (unfold sync_octets, sync_head; by rewrite D1, D2).
  rewrite E. clear E D1 D2.
  destruct (SREC.taken_fields _ _ r (sync_received m sm ts rest W) (follow_up_received m sm tf rest' W))
    as (F1 & F2 & F3 & F4 & F5 & F6 & F7 & _ & F9 & F10 & F11).
  set (q := SREC.md_sync_of _) in *. clearbody q. cbn [recbptr] in *.
  destruct (sync_head_wf m sm W) as [Hs _]. pose proof (follow_up_head_wf m sm W) as Hf.
  pose proof W as (_ & Wc & _ & _ & Wt & Wg & Wq & _).
  unfold sync_octets in *. rewrite follow_up_frame_octets in * by exact Wc. rewrite <- !app_assoc in *.
  destruct (head_reads _ (replicate 10 0 ++ rest) Hs) as (A1 & A2 & A3 & A4).
  destruct (body_reads _ m (follow_up_cf m sm) rest' (head_octets_length _ Hf) (origin_plus_wf _ _ Wt) Wg)
    as (B1 & B2 & B3 & B4).
  rewrite !correction_read in * by (exact eq_refl).
  unfold carried. rewrite F1, F2, F3, F4, F6, F7, F9, A1, A2, A3, A4, B3. clear - W WT Wt Wq B1 B2 B4 F5 F10 F11.
  unfold read_rate_ratio, read_freq_change. rewrite B2, B4. split_and!; try done.
  - apply wrap_id, Wq.
  - apply (time_is_carried m sm q Wt WT); [by rewrite F5|]. unfold scaled_ns. rewrite F10, F11.
    cbn [Hdr.correctionField sync_head md_header_template upd follow_up_head].
    generalize (follow_up_correction m sm). intros cf. change (u64 0) with 0. rewrite Z.add_0_l.
    rewrite (wrap_id 64 (u64 cf)) by (apply wrap_fits; lia). rewrite Z.shiftr_div_pow2 by lia.
    unfold wrap at 2. rewrite (Z.mul_comm (_ / _)). symmetry. apply Z.div_mod. lia.
  - intros (z & Hz & ->). by rewrite rate_ratio_round_trip.
  - intros (z & Hz & ->). by rewrite freq_offset_round_trip.
Qed.

(** C10. End to end: the Sync a sender gives to its driver and the Follow_Up it gives after the
    transmit timestamp, received by a port that waits for a Sync, make that port hand on one
    MDSyncReceive with the domain, sequence number, source, log interval and time base of the
    MDSyncSend; with its rate ratio and frequency change cut to the 32 bits of 2^-41 the TLV has for
    each, which are the same where they fit; and with its time.  From the grandmaster this is the origin
    timestamp moved by the time [t] from upstreamTxTime to the transmit timestamp (if [t] is below a
    second), with no correction.  From a bridge it is the same origin, and the correction of the MDSyncSend
    plus [t] times the rate ratio in whole ns, where the low 16 bits of these ns are added once more as a
    fraction, an error below 1 ns (if the sum in units of 2^-16 ns is below 2^63).  The MDSyncSend has
    fields in the range of their types, an origin with nanoseconds below a second, a correction that is
    not negative, and a transmit timestamp not before upstreamTxTime; the receiving port is up, in a
    running instance, without asymmetry measurement mode and without messages pending, and its deadline for
    the Follow_Up does not wrap. *)
Theorem sync_reaches_receiver m s0 sm ts tf rest rest' c1 c2 r :
  wf_send m sm -> wf_time m sm -> same_data s0 sm ->
  SREC.ready r -> SREC.resting r -> SREC.ASYMMETRY_MEASUREMENT_MODE r = false ->
  MDSRsm.rcvdSync (SREC.thisSM r) = false -> MDSRsm.rcvdFollowUp (SREC.thisSM r) = false ->
  c1 < u64 (c1 + LOG_TO_NSEC (MDSS.logMessageInterval m)) ->
  exists q,
    (SREC.md_sync_receive_sm_recv_fup (ev_recv tf (follow_up_frame m sm ++ rest')) c2
       (SREC.md_sync_receive_sm_recv_sync (ev_recv ts (sync_octets m s0 ++ rest)) c1 r).1).2 =
    Ret (Some q) /\ carried m sm q.
Proof.
  intros W WT D R Q A S F T. eexists. split; [|exact (sync_carried m s0 sm ts tf rest rest' r W WT D)].
  assert (E : sync_octets m s0 = sync_octets m sm)
    by (destruct D as (D1 & D2 & _); unfold sync_octets, sync_head; by rewrite D1, D2).
  rewrite E. pose proof W as (_ & Wc & _).
  destruct (sync_head_wf m sm W) as [Hs _]. pose proof (follow_up_head_wf m sm W) as Hf.
  destruct (head_reads _ (replicate 10 0 ++ rest) Hs) as (_ & A2 & _ & A4).
  destruct (head_reads _ (follow_up_body m (follow_up_cf m sm) ++ rest') Hf) as (_ & B2 & _).
  refine (proj1 (proj2 (SREC.pair_taken _ _ c1 c2 r R Q A S F
    (sync_received m sm ts rest W) (follow_up_received m sm tf rest' W) _ _))); cbn [recbptr].
  - rewrite follow_up_frame_octets by exact Wc. unfold sync_octets. rewrite <- !app_assoc.
    rewrite A2, B2. reflexivity.
  - unfold sync_octets. rewrite <- app_assoc, A4. exact T.
Qed.
End Transfer.
(** ** One-step operation *)

Section OneStep.
Context `{WC : WireConfig} `{CV : Conversions} `{ME : Media}.

(** A one-step Sync says in its header that a Follow_Up comes. *)
Lemma one_step_sync_says_two_step m sm net f :
  gpnetd sm = Some net -> length (PortId.clockIdentity (MDSS.sourcePortIdentity m)) = 8%nat ->
  one_step_frame m sm = Some f -> GET_TWO_STEP_BYTE_FLAG f = true.
Proof.
  intros N C. unfold one_step_frame.
  rewrite (compose_sync_header m 42 sm net N C : composeSyncHeader m (Z.of_nat SYNC_ONE_STEP_SIZE) sm = _).
  intros [= <-]. unfold sync_head. destruct (MDSS.sourcePortIdentity m) as [c pi].
  cbn [PortId.clockIdentity PortId.portIndex] in *.
  destruct c as [|c0 [|c1 [|c2 [|c3 [|c4 [|c5 [|c6 [|c7 [|]]]]]]]]]; try discriminate C. reflexivity.
Qed.

(** After the first timestamp of a one-step Sync no MDSyncSend makes a Sync any more. *)
Lemma one_step_sends_no_more m cts64 sm :
  ready sm -> ONESTEP_TX_OPER sm = true -> state sm = SET_CORRECTION_FIELD ->
  last_state sm = SET_CORRECTION_FIELD ->
  md_sync_send_sm_mdSyncSend m cts64 sm =
  (sm <| thisSM; MDSSsm.rcvdMDSync := true |> <| rcvdMDSyncPtr := Some m |>, Ret None).
Proof.
  intros R O E L. unfold md_sync_send_sm_mdSyncSend. set (x := _ <| rcvdMDSyncPtr := Some m |>).
  apply send_eq; [exact R|]. unfold fuel. apply (loop_stop (M := machine cts64)); [|exact (eq_trans L (eq_sym E))].
  rewrite ssnd_pass_eq. change (last_state x) with (last_state sm). change (state x) with (state sm).
  rewrite L, E, bool_decide_eq_false_2 by (intros X; by apply X).
  unfold switch, set_last. change (state (x <| last_state := SET_CORRECTION_FIELD |>)) with (state sm).
  rewrite E. unfold set_correction_field_condition.
  change (ONESTEP_TX_OPER (x <| last_state := SET_CORRECTION_FIELD |>)) with (ONESTEP_TX_OPER sm).
  rewrite O, !andb_false_r. unfold x. destruct sm. cbn in *. by subst.
Qed.
End OneStep.
End SSND.


(** ** Witnesses *)

Module SSNDWitness.
Import SSND.

#[local] Existing Instance conversions0.
#[local] Existing Instance media0.
#[local] Existing Instance platform0.
#[local] Instance wire0 : WireConfig :=
  {| MINOR_VERSION_NUMBER := fun _ => 1; PTP_TIMESCALE := 1; MODE_8021_AS_2011 := false |}.

Definition clockA : list Z := [2;0;0;0;0;0;0;1].

(** a grandmaster's MDSyncSend: 5 s and 999999000 ns, sent up at 1000 ns *)
Definition sync5 : MDSyncSend :=
  zero <| MDSS.sourcePortIdentity := PortId.mk clockA 1 |> <| MDSS.logMessageInterval := -3 |>
       <| MDSS.preciseOriginTimestamp := Tstamp.mk 999999000 (U48.mk 5 0) |>
       <| MDSS.upstreamTxTime; UNs.nsec := 1000 |> <| MDSS.rateRatio := dadd d1 (ldexp (d_of_Z 0) (-41)) |>.
Definition gm_clock : gptpclock_data :=
  Gcd.mk {[ 0 := Clock0.mk 2 0 clockA true 0 ]} 0 (-1) 1 [].

Definition sender : data :=
  mk (Some []) SRECWitness.up_ptasg SRECWitness.up_ppg zero gm_clock INITIALIZING INITIALIZING zero 0 1 None 0 0 0.

Lemma sender_ok : ready sender /\ resting sender /\ two_step sender.
Proof.
  split; [split_and!; reflexivity|]. split; [split; [reflexivity|left; reflexivity]|split; reflexivity].
Defined.

Lemma sync_given_witness :
  let (s, o) := md_sync_send_sm_mdSyncSend sync5 7 sender in sync_given sync5 7 [] sender s o.
Proof.
  exact (proj1 (sync_given_or_retried sync5 7 8 sender [] (proj1 sender_ok) (proj1 (proj2 sender_ok))
    (proj2 (proj2 sender_ok)) eq_refl eq_refl)).
Defined.

(** the sender after the Sync, with the timestamp 2000 ns later *)
Definition sent : data :=
  sender <| state := SEND_SYNC_TWO_STEP |> <| last_state := SEND_SYNC_TWO_STEP |> <| rcvdMDSyncPtr := Some sync5 |>.
Definition stamped : data := sent <| sync_ts := 3000 |>.

Lemma sent_ok : ready sent /\ awaiting sync5 sent.
Proof. split; [split_and!; reflexivity|split_and!; reflexivity]. Defined.

Lemma follow_up_witness :
  let (s, o) := md_sync_send_sm_txts (ev_txts 0 3000) 9 sent in
  follow_up_given sync5 [] stamped s o.
Proof.
  exact (proj1 (follow_up_after_timestamp sync5 (ev_txts 0 3000) 9 sent [] (proj1 sent_ok) (proj2 sent_ok)
    eq_refl eq_refl)).
Defined.

Lemma sync5_wf : wf_timestamp (MDSS.preciseOriginTimestamp sync5) /\ wf_send sync5 stamped.
Proof. split; [split_and!; vm_compute; intuition discriminate|].
  unfold wf_send. split_and!; try reflexivity; try (intros p); vm_compute; intuition discriminate. Defined.

Lemma origin_witness :
  total_ns (origin_plus (MDSS.preciseOriginTimestamp sync5) (follow_up_cf sync5 stamped)) = 6 * UB_SEC_NS + 1000.
Proof.
  refine (eq_trans (proj1 (origin_is_time_of_sync sync5 stamped (proj1 sync5_wf) _ _ _ _)) _); try reflexivity.
  - vm_compute. intuition discriminate.
Defined.

Lemma transfer_witness :
  exists q,
    (SREC.md_sync_receive_sm_recv_fup (ev_recv 0 (follow_up_frame sync5 stamped ++ [9])) 2000
       (SREC.md_sync_receive_sm_recv_sync (ev_recv 500 (sync_octets sync5 sender ++ [])) 1000
          SRECWitness.port).1).2 = Ret (Some q) /\ carried sync5 stamped q.
Proof.
  apply (sync_reaches_receiver sync5 sender stamped 500 0 [] [9] 1000 2000 SRECWitness.port).
  - exact (proj2 sync5_wf).
  - vm_compute. intuition discriminate.
  - split_and!; reflexivity.
  - split_and!; reflexivity.
  - split; [reflexivity|]. left. reflexivity.
  - reflexivity.
  - reflexivity.
  - reflexivity.
  - vm_compute. reflexivity.
Defined.
End SSNDWitness.
