(* ===== verification/PdelayReq.v ===== *)
(** * PdelayReq: md_pdelay_req_sm.c, the initiator of the peer delay measurement.

    A Pdelay_Req is sent every interval; from the timestamps of the request and of
    the response (t1..t4) come the neighbour rate ratio and the propagation delay,
    and from these whether the link may carry gPTP (asCapableAcrossDomains).
    Lost responses and delays out of range are counted and take it away. *)

From Stdlib Require Import SpecFloat.
From S2P Require Import Prelude Types Floats Driver Common Clock Wire Perfmon Media.

Definition PDELAY_REQ : Z := 2.
Definition PDELAY_SIZE : nat := 54.   (* all three messages *)
Definition COMPUTED_PROP_TIME_TOO_BIG : Z := UB_SEC_NS / 100.
Definition CEASETIME_AVNU_MULTIRESPOSE : Z := 5 * 60 * UB_SEC_NS.

(** the value of the 8 octets of a member read without ntoh: the host's byte order *)
Class HostOrder := { host64 : list Z -> Z }.
Definition little_endian : HostOrder := {| host64 := fun l => be_val (rev l) |}.

Module PREQsm.

Record MDPdelayReqSM := mk {
  pdelayIntervalTimer : UScaledNs;
  rcvdPdelayResp : bool;
  rcvdPdelayRespPtr : bool;          (* designates recPdelayResp; false: NULL *)
  rcvdPdelayRespFollowUp : bool;
  rcvdPdelayRespFollowUpPtr : bool;  (* designates recPdelayRespFup *)
  txPdelayReqPtr : bool;             (* designates txPdeayReq *)
  rcvdMDTimestampReceive : bool;
  pdelayReqSequenceId : Z;
  initPdelayRespReceived : bool;
  lostResponses : Z;
  neighborRateRatioValid : bool;
  detectedFaults : Z;
  portEnabled0 : bool;
  multiResponses : Z
}.
#[export] Instance eta_MDPdelayReqSM : Eta MDPdelayReqSM :=
  fields! mk [pdelayIntervalTimer, rcvdPdelayResp, rcvdPdelayRespPtr, rcvdPdelayRespFollowUp,
              rcvdPdelayRespFollowUpPtr, txPdelayReqPtr, rcvdMDTimestampReceive, pdelayReqSequenceId,
              initPdelayRespReceived, lostResponses, neighborRateRatioValid, detectedFaults,
              portEnabled0, multiResponses].
#[export] Instance zero_MDPdelayReqSM : Zero MDPdelayReqSM :=
  mk zero false false false false false false 0 false 0 false 0 false 0.

End PREQsm.
Export (hints) PREQsm.
Abbreviation MDPdelayReqSM := PREQsm.MDPdelayReqSM.

(** members of a Pdelay_Resp or Pdelay_Resp_Follow_Up *)
Definition majorSdoId (buf : list Z) : Z := Z.land (octet 0 buf) 0xF0.
Definition sequenceId (buf : list Z) : Z := ntoh 30 2 buf.
Definition source_clockIdentity (buf : list Z) : list Z := octets 20 8 buf.
Definition source_port (buf : list Z) : list Z := octets 20 10 buf.
Definition requesting_clockIdentity (buf : list Z) : list Z := octets 44 8 buf.
Definition requesting_portNumber (buf : list Z) : Z := ntoh 52 2 buf.

(** requestReceiptTimestamp or requestOriginTimestamp in ns; the upper 16 bits of the seconds are
    not read *)
Definition response_time (buf : list Z) : Z := u64 (ntoh 36 4 buf * UB_SEC_NS + ntoh 40 4 buf).

Definition valid_sdo (buf : list Z) : bool := (majorSdoId buf =? 0x10) || (majorSdoId buf =? 0x20).

Module PREQ.

Inductive md_pdelay_req_state_t :=
| INIT | NOT_ENABLED | INITIAL_SEND_PDELAY_REQ | RESET | SEND_PDELAY_REQ | WAITING_FOR_PDELAY_RESP
| WAITING_FOR_PDELAY_RESP_FOLLOW_UP | WAITING_FOR_PDELAY_INTERVAL_TIMER | REACTION.
#[export] Instance state_eqdec : EqDecision md_pdelay_req_state_t.
Proof. solve_decision. Defined.

Record md_pdelay_req_data := mk {
  gpnetd : option (list (list Z));   (* the frames given to the network *)
  ptasg : PerTimeAwareSystemGlobal;
  ppg : PerPortGlobal;
  mdeg : MDEntityGlobal;
  state : md_pdelay_req_state_t;
  last_state : md_pdelay_req_state_t;
  thisSM : MDPdelayReqSM;
  portIndex : Z;
  t1ts64 : Z;
  t2ts64 : Z;
  t3ts64 : Z;
  t4ts64 : Z;
  txPdeayReq : list Z;
  recPdelayResp : list Z;
  recPdelayRespFup : list Z;
  cmlds_mode : Z;
  mock_txts64 : Z;
  prev_t1ts64 : Z;
  prev_t2ts64 : Z;
  is2011BackwardCompatible : bool
}.
#[export] Instance eta_data : Eta md_pdelay_req_data :=
  fields! mk [gpnetd, ptasg, ppg, mdeg, state, last_state, thisSM, portIndex, t1ts64, t2ts64, t3ts64,
              t4ts64, txPdeayReq, recPdelayResp, recPdelayRespFup, cmlds_mode, mock_txts64,
              prev_t1ts64, prev_t2ts64, is2011BackwardCompatible].
Abbreviation data := md_pdelay_req_data.

Abbreviation port sm := (PPG.forAllDomain (ppg sm)).
Abbreviation link sm := (MDEG.forAllDomain (mdeg sm)).

Section Procs.
Context `{WC : WireConfig} `{CF : Config} `{CV : Conversions} `{HO : HostOrder} `{ME : Media}.

Definition isPdelayIntervalTimerExpired (cts64 : Z) (sm : data) : bool :=
  UNs.nsec (MDEGALL.pdelayReqInterval (link sm)) <=?
  u64 (cts64 - UNs.nsec (PREQsm.pdelayIntervalTimer (thisSM sm))).

(** the request; None without a network *)
Definition pdelay_req_frame (sm : data) : option (list Z) :=
  option_map (fun sdata =>
      if negb (cmlds_mode sm =? 0)
      then memcpy_at 0 [Z.lor (Z.land (octet 0 sdata) 0x0F) 0x20] sdata else sdata)
    (md_header_compose (gpnetd sm) PDELAY_REQ (Z.of_nat PDELAY_SIZE) (PTASG.thisClock (ptasg sm))
       (PPG.thisPort (ppg sm)) (PREQsm.pdelayReqSequenceId (thisSM sm))
       (MDEGALL.currentLogPdelayReqInterval (link sm))).

(** the result code -1 stands for a missing network *)
Definition setPdelayReq (sm : data) : data :=
  match pdelay_req_frame sm with
  | Some f => sm <| txPdeayReq := f |> <| thisSM; PREQsm.txPdelayReqPtr := true |>
  | None => sm <| thisSM; PREQsm.txPdelayReqPtr := false |>
  end.

(** the send of either proc: -1 without a network, -2 if the driver refuses *)
Definition send_request (cts64 : Z) (sm : data) : data * Z :=
  let sm := setPdelayReq sm in
  match PREQsm.txPdelayReqPtr (thisSM sm), gpnetd sm with
  | true, Some net =>
      let res := send_whook net (txPdeayReq sm) in
      if res =? -1 then (sm, -2)
      else ((if res <? 0 then sm <| mock_txts64 := u64 (getts64 cts64) |> else sm)
              <| gpnetd := Some (net ++ [txPdeayReq sm]) |>
              <| ppg; PPG.perfmonDS ::= PERFMON_PPMDR (fun r => r <| PortDR.pDelayReqTx ::= inc32 |>) |>, 0)
  | _, _ => (sm, -1)
  end.

(** the ratio is 1.0 unless both steps are within 50% of the interval *)
Definition measured_ratio (sm : data) : option double :=
  let interval := UNs.nsec (MDEGALL.pdelayReqInterval (link sm)) in
  let dt1 := u64 (t1ts64 sm - prev_t1ts64 sm) in
  let dt2 := u64 (t2ts64 sm - prev_t2ts64 sm) in
  let mind := interval / 2 in
  let maxd := u64 (interval + mind) in
  if (mind <? dt1) && (dt1 <? maxd) && (mind <? dt2) && (dt2 <? maxd) then
    Some (ddiv (dsub (d_of_Z (t2ts64 sm)) (d_of_Z (prev_t2ts64 sm)))
               (dsub (d_of_Z (t1ts64 sm)) (d_of_Z (prev_t1ts64 sm))))
  else None.

Definition computePdelayRateRatio (oldRateRatio : double) (sm : data) : data * double :=
  let r := measured_ratio sm in
  let ratio := match r with Some r => r | None => d1 end in
  ((match r with Some _ => sm <| thisSM; PREQsm.neighborRateRatioValid := true |> | None => sm end)
     <| prev_t1ts64 := t1ts64 sm |> <| prev_t2ts64 := t2ts64 sm |>,
   ddiv (dadd oldRateRatio ratio) (d_of_Z 2)).

(** D = (r (t4 - t1) - (t3 - t2)) / 2, or 0 if it is negative or above 10 ms *)
Definition prop_time (sm : data) : Z :=
  let dts1 := i64 (i64 (t4ts64 sm) - i64 (t1ts64 sm)) in
  let dts1 := d_to_int 64 (dmul (PPGALL.neighborRateRatio (port sm)) (d_of_Z dts1)) in
  let dts2 := i64 (i64 (t3ts64 sm) - i64 (t2ts64 sm)) in
  Z.quot (i64 (dts1 - dts2)) 2.
Definition computePropTime (sm : data) : Z :=
  let rts := prop_time sm in
  if (rts <? 0) || (COMPUTED_PROP_TIME_TOO_BIG <? rts) then 0 else rts.

Definition allstate_condition (sm : data) : md_pdelay_req_state_t :=
  if PTASG.BEGIN (ptasg sm) || negb (PPGALL.portOper (port sm)) || negb (PREQsm.portEnabled0 (thisSM sm))
  then NOT_ENABLED
  else if MDEGALL.currentLogPdelayReqInterval (link sm) =? 127 then INITIAL_SEND_PDELAY_REQ
  else state sm.

Definition not_enabled_proc (sm : data) : data :=
  if negb (NEIGHBOR_PROP_DELAY =? 0) then
    sm <| ppg; PPG.forAllDomain; PPGALL.neighborRateRatio := d1 |>
       <| mdeg; MDEG.forAllDomain; MDEGALL.asCapableAcrossDomains := true |>
       <| ppg; PPG.forAllDomain ::= fun a => a <| PPGALL.neighborPropDelay; UNs.nsec := u64 NEIGHBOR_PROP_DELAY |> |>
  else sm.

Definition not_enabled_condition (sm : data) : md_pdelay_req_state_t :=
  if negb (NEIGHBOR_PROP_DELAY =? 0) then
    if negb (MDEGALL.asCapableAcrossDomains (link sm)) then REACTION else NOT_ENABLED
  else if PPGALL.portOper (port sm) && PREQsm.portEnabled0 (thisSM sm) then INITIAL_SEND_PDELAY_REQ
  else NOT_ENABLED.

Definition initial_send_pdelay_req_proc (cts64 : Z) (sm : data) : data * Z :=
  let sm := sm <| thisSM; PREQsm.initPdelayRespReceived := false |>
               <| thisSM; PREQsm.rcvdPdelayResp := false |>
               <| thisSM; PREQsm.rcvdPdelayRespFollowUp := false |>
               <| ppg; PPG.forAllDomain; PPGALL.neighborRateRatio := d1 |>
               <| prev_t1ts64 := 0 |> <| prev_t2ts64 := 0 |>
               <| thisSM; PREQsm.rcvdMDTimestampReceive := false |>
               <| thisSM; PREQsm.pdelayReqSequenceId := u16 rand |> in
  let (sm, res) := send_request cts64 sm in
  if res <? 0 then (sm, res)
  else (sm <| thisSM; PREQsm.pdelayIntervalTimer := UNs.mk 0 cts64 (UNs.nsec_msb (PREQsm.pdelayIntervalTimer (thisSM sm))) |>
           <| thisSM; PREQsm.lostResponses := 0 |> <| thisSM; PREQsm.multiResponses := 0 |>
           <| thisSM; PREQsm.detectedFaults := 0 |>
           <| mdeg; MDEG.forAllDomain; MDEGALL.isMeasuringDelay := false |>
           <| mdeg; MDEG.forAllDomain; MDEGALL.asCapableAcrossDomains := false |>, 0).

(** what both conditions do when the timestamp of the request does not come: the time the request
    was given to the driver is used, or [again] *)
Definition no_timestamp (cts64 : Z) (again : data -> data) (sm : data) : data :=
  if txtslost_time <=? u64 (cts64 - UNs.nsec (PREQsm.pdelayIntervalTimer (thisSM sm))) then
    if negb (mock_txts64 sm =? 0) then
      sm <| t1ts64 := mock_txts64 sm |> <| mock_txts64 := 0 |> <| state := WAITING_FOR_PDELAY_RESP |>
    else again sm <| last_state := REACTION |>
  else sm.

Definition initial_send_pdelay_req_condition (cts64 : Z) (sm : data) : data :=
  if MDEGALL.currentLogPdelayReqInterval (link sm) =? 127 then sm <| state := INITIAL_SEND_PDELAY_REQ |>
  else if PREQsm.rcvdMDTimestampReceive (thisSM sm) then sm <| state := WAITING_FOR_PDELAY_RESP |>
  else no_timestamp cts64 (fun sm => sm) (sm <| state := INITIAL_SEND_PDELAY_REQ |>).

(** the link no longer carries gPTP *)
Definition not_capable (sm : data) : data :=
  sm <| mdeg; MDEG.forAllDomain; MDEGALL.isMeasuringDelay := false |>
     <| mdeg; MDEG.forAllDomain; MDEGALL.asCapableAcrossDomains := false |>
     <| thisSM; PREQsm.neighborRateRatioValid := false |>
     <| ppg; PPG.forAllDomain; PPGALL.neighborRateRatio := d1 |>.

Definition avnu_cease (sm : data) : data :=
  if PTASG.conformToAvnu (ptasg sm) && negb (PREQsm.multiResponses (thisSM sm) =? 0) &&
     (MDEGALL.allowedLostResponses (link sm) <=? PREQsm.multiResponses (thisSM sm))
  then not_capable sm else sm.

Definition reset_proc (sm : data) : data :=
  let sm := sm <| thisSM; PREQsm.initPdelayRespReceived := false |>
               <| thisSM; PREQsm.rcvdPdelayResp := false |> in
  if PREQsm.lostResponses (thisSM sm) <? MDEGALL.allowedLostResponses (link sm) then
    avnu_cease (sm <| thisSM; PREQsm.lostResponses ::= fun n => u16 (n + 1) |>)
  else if negb (MDEGALL.asCapableAcrossDomains (link sm)) then
    sm <| mdeg; MDEG.forAllDomain; MDEGALL.isMeasuringDelay := false |>
  else avnu_cease (not_capable sm).

Definition reset_condition (cts64 : Z) (sm : data) : data :=
  let next sm := sm <| state := if isPdelayIntervalTimerExpired cts64 sm then SEND_PDELAY_REQ else RESET |> in
  if PTASG.conformToAvnu (ptasg sm) &&
     (MDEGALL.allowedLostResponses (link sm) <=? PREQsm.multiResponses (thisSM sm)) then
    if u64 (cts64 - UNs.nsec (PREQsm.pdelayIntervalTimer (thisSM sm))) <? CEASETIME_AVNU_MULTIRESPOSE
    then sm <| state := RESET |>
    else next (sm <| thisSM; PREQsm.multiResponses := 0 |>)
  else next sm.

Definition send_pdelay_req_proc (cts64 : Z) (sm : data) : data * Z :=
  let sm := sm <| thisSM; PREQsm.rcvdPdelayResp := false |>
               <| thisSM; PREQsm.rcvdPdelayRespFollowUp := false |>
               <| thisSM; PREQsm.pdelayReqSequenceId ::= fun z => u16 (z + 1) |> in
  let (sm, res) := send_request cts64 sm in
  if res <? 0 then (sm, res) else (sm <| thisSM; PREQsm.pdelayIntervalTimer; UNs.nsec := cts64 |>, 0).

(** [pdelayReqSequenceId -= 1]: the request goes out again under the same number *)
Definition same_number (sm : data) : data :=
  sm <| thisSM; PREQsm.pdelayReqSequenceId ::= fun z => u16 (z - 1) |>.

Definition send_pdelay_req_condition (cts64 : Z) (sm : data) : data :=
  if PREQsm.rcvdMDTimestampReceive (thisSM sm) then sm <| state := WAITING_FOR_PDELAY_RESP |>
  else no_timestamp cts64 same_number (sm <| state := SEND_PDELAY_REQ |>).

Definition waiting_for_pdelay_resp_proc (sm : data) : data :=
  sm <| thisSM; PREQsm.rcvdMDTimestampReceive := false |>.

(** the response: from another clock, for a request of this port *)
Definition waiting_for_pdelay_resp_condition (cts64 : Z) (sm : data) : option data :=
  let t := thisSM sm in
  let resp := recPdelayResp sm in
  if isPdelayIntervalTimerExpired cts64 sm then Some (sm <| state := RESET |>)
  else if negb (PREQsm.rcvdPdelayResp t) then
    let stay := sm <| state := WAITING_FOR_PDELAY_RESP |> in
    if PREQsm.rcvdPdelayRespFollowUp t then
      via (PREQsm.txPdelayReqPtr t) (via (PREQsm.rcvdPdelayRespFollowUpPtr t) (Some (
        if sequenceId (txPdeayReq sm) =? sequenceId (recPdelayRespFup sm) then stay
        else stay <| thisSM; PREQsm.rcvdPdelayRespFollowUp := false |>)))
    else Some stay
  else via (PREQsm.rcvdPdelayRespPtr t) (
    if bool_decide (source_clockIdentity resp = PTASG.thisClock (ptasg sm)) then Some (sm <| state := RESET |>)
    else if bool_decide (requesting_clockIdentity resp <> PTASG.thisClock (ptasg sm)) then Some (sm <| state := RESET |>)
    else if negb (md_port_number2index (requesting_portNumber resp) =? PPG.thisPort (ppg sm)) then Some (sm <| state := RESET |>)
    else if negb (valid_sdo resp) then Some (sm <| state := WAITING_FOR_PDELAY_RESP |>)
    else via (PREQsm.txPdelayReqPtr t) (Some (
      if sequenceId (txPdeayReq sm) <? sequenceId resp then sm <| state := RESET |>
      else sm <| state := WAITING_FOR_PDELAY_RESP_FOLLOW_UP |>))).

Definition waiting_for_pdelay_resp_follow_up_proc (sm : data) : data :=
  sm <| thisSM; PREQsm.rcvdPdelayResp := false |>
     <| ppg; PPG.perfmonDS ::= PERFMON_PPMDR (fun r => r <| PortDR.pDelayRespRx ::= inc32 |>) |>.

Definition follow_up_of_response (sm : data) : option data :=
  let t := thisSM sm in
  let resp := recPdelayResp sm in
  let fup := recPdelayRespFup sm in
  let stay := sm <| state := WAITING_FOR_PDELAY_RESP_FOLLOW_UP |> in
  let done := sm <| state := WAITING_FOR_PDELAY_INTERVAL_TIMER |> in
  if negb (PREQsm.rcvdPdelayRespFollowUp t) then Some stay
  else via (PREQsm.rcvdPdelayRespFollowUpPtr t) (
    if negb (valid_sdo fup) then Some stay
    else if bool_decide (source_clockIdentity fup = PTASG.thisClock (ptasg sm)) then Some (sm <| state := RESET |>)
    else via (PREQsm.txPdelayReqPtr t) (
      if negb (sequenceId fup =? sequenceId (txPdeayReq sm)) then Some stay
      else via (PREQsm.rcvdPdelayRespPtr t) (Some (
        if bool_decide (source_port fup = source_port resp) then done
        else if bool_decide (requesting_clockIdentity resp <> PTASG.thisClock (ptasg sm)) then stay
        else if negb (md_port_number2index (requesting_portNumber resp) =? PPG.thisPort (ppg sm)) then stay
        else done)))).

Definition waiting_for_pdelay_resp_follow_up_condition (cts64 : Z) (sm : data) : option data :=
  let t := thisSM sm in
  if isPdelayIntervalTimerExpired cts64 sm then Some (sm <| state := RESET |>)
  else if PREQsm.rcvdPdelayResp t then
    via (PREQsm.rcvdPdelayRespPtr t) (via (PREQsm.txPdelayReqPtr t) (
      if sequenceId (recPdelayResp sm) =? sequenceId (txPdeayReq sm)
      then Some (sm <| thisSM; PREQsm.multiResponses ::= fun n => u16 (n + 1) |> <| state := RESET |>)
      else follow_up_of_response sm))
  else follow_up_of_response sm.

(** the rate ratio and the propagation delay are computed if the port is to compute them *)
Definition measure_ratio (sm : data) : data :=
  if PPGALL.computeNeighborRateRatio (port sm) then
    let (sm, r) := computePdelayRateRatio (PPGALL.neighborRateRatio (port sm)) sm in
    sm <| ppg; PPG.forAllDomain; PPGALL.neighborRateRatio := r |>
  else sm <| thisSM; PREQsm.neighborRateRatioValid := true |>.

Definition set_delay (d : Z) (sm : data) : data :=
  sm <| ppg; PPG.forAllDomain ::= fun a => a <| PPGALL.neighborPropDelay; UNs.nsec := d |> |>.

Definition measure_delay (sm : data) : data :=
  if PPGALL.computeNeighborPropDelay (port sm) then
    let d := computePropTime sm in
    set_delay d sm <| ppg; PPG.perfmonDS ::= gptp_port_perfmon_ppmpddr_add d |>
  else sm.

Definition measure (sm : data) : data :=
  measure_delay (measure_ratio sm) <| mdeg; MDEG.forAllDomain; MDEGALL.isMeasuringDelay := true |>.

Definition noascapable (sm : data) : data :=
  sm <| mdeg; MDEG.forAllDomain; MDEGALL.asCapableAcrossDomains := false |>
     <| mdeg; MDEG.forAllDomain; MDEGALL.isMeasuringDelay := false |>
     <| thisSM; PREQsm.detectedFaults := 0 |>.

(** the previous delay [prev] is put back while the faults are within what is allowed *)
Definition detectedfault (prev : Z) (sm : data) : data :=
  if PREQsm.detectedFaults (thisSM sm) <=? MDEGALL.allowedFaults (link sm) then
    set_delay prev (sm <| thisSM; PREQsm.detectedFaults ::= fun n => u16 (n + 1) |>)
  else noascapable sm.

Definition foreign (sm : data) : bool :=
  bool_decide (source_clockIdentity (recPdelayResp sm) <> PTASG.thisClock (ptasg sm)).

(** what the measured delay says of the link *)
Definition judge (prev : Z) (sm : data) : data :=
  let d := UNs.nsec (PPGALL.neighborPropDelay (port sm)) in
  let valid := PREQsm.neighborRateRatioValid (thisSM sm) in
  if (d <? UNs.nsec (MDEGALL.neighborPropDelayMinLimit (link sm))) && foreign sm && valid
  then detectedfault prev sm
  else if (d <=? UNs.nsec (MDEGALL.neighborPropDelayThresh (link sm))) && foreign sm && valid then
    sm <| ppg; PPG.perfmonDS ::= PERFMON_PPMDR (fun r => r <| PortDR.pDelayRespFollowUpRx ::= inc32 |>) |>
       <| thisSM; PREQsm.detectedFaults := 0 |>
       <| mdeg; MDEG.forAllDomain; MDEGALL.asCapableAcrossDomains := true |>
  else if foreign sm then (if valid then detectedfault prev sm else noascapable sm)
  else detectedfault prev sm.

Definition octet4_zero (buf : list Z) : bool := octet 4 buf =? 0.

Definition waiting_for_pdelay_interval_timer_proc (sm : data) : option data :=
  let prev := UNs.nsec (PPGALL.neighborPropDelay (port sm)) in
  via (PREQsm.rcvdPdelayRespPtr (thisSM sm)) (via (PREQsm.rcvdPdelayRespFollowUpPtr (thisSM sm)) (
    let sm := sm <| thisSM; PREQsm.rcvdPdelayRespFollowUp := false |>
                 <| thisSM; PREQsm.lostResponses := 0 |> <| thisSM; PREQsm.multiResponses := 0 |>
                 <| is2011BackwardCompatible :=
                      (majorSdoId (recPdelayResp sm) =? 0x10) && octet4_zero (recPdelayResp sm) &&
                      (majorSdoId (recPdelayRespFup sm) =? 0x10) && octet4_zero (recPdelayRespFup sm) |> in
    Some (if PPGALL.asymmetryMeasurementMode (port sm) then sm else judge prev (measure sm)))).

Definition waiting_for_pdelay_interval_timer_condition (cts64 : Z) (sm : data) : md_pdelay_req_state_t :=
  if isPdelayIntervalTimerExpired cts64 sm then SEND_PDELAY_REQ else WAITING_FOR_PDELAY_INTERVAL_TIMER.

(** the function returns 1 (here [Some tt]) when a request has been given to the driver, also when
    the driver has refused it; otherwise 0 *)
Definition sent : ctl unit := Leave (Ret (Some tt)).

(** [None] of a proc or a condition is the use of a NULL pointer *)
Definition go (sm : data) (o : option data) : data * ctl unit :=
  match o with Some s => (s, Next) | None => (sm, Leave Crash) end.

Definition switch (cts64 : Z) (state_change : bool) (sm : data) : data * ctl unit :=
  match state sm with
  | INIT => (sm <| state := NOT_ENABLED |>, Next)
  | NOT_ENABLED =>
      let sm := if state_change then not_enabled_proc sm else sm in
      (sm <| state := not_enabled_condition sm |>, Next)
  | INITIAL_SEND_PDELAY_REQ =>
      if state_change then
        let (sm, res) := initial_send_pdelay_req_proc cts64 sm in
        if res =? -2 then (sm <| last_state := REACTION |>, sent)
        else if res =? -1 then (sm <| state := NOT_ENABLED |>, Next)
        else (sm, sent)
      else (initial_send_pdelay_req_condition cts64 sm, Next)
  | RESET =>
      let sm := if state_change then reset_proc sm else sm in
      (reset_condition cts64 sm, Next)
  | SEND_PDELAY_REQ =>
      if state_change then
        let (sm, res) := send_pdelay_req_proc cts64 sm in
        if res =? -2 then (same_number sm <| last_state := REACTION |>, sent)
        else if res =? -1 then (sm <| state := RESET |>, Next)
        else (sm, sent)
      else (send_pdelay_req_condition cts64 sm, Next)
  | WAITING_FOR_PDELAY_RESP =>
      let sm := if state_change then waiting_for_pdelay_resp_proc sm else sm in
      go sm (waiting_for_pdelay_resp_condition cts64 sm)
  | WAITING_FOR_PDELAY_RESP_FOLLOW_UP =>
      let sm := if state_change then waiting_for_pdelay_resp_follow_up_proc sm else sm in
      go sm (waiting_for_pdelay_resp_follow_up_condition cts64 sm)
  | WAITING_FOR_PDELAY_INTERVAL_TIMER =>
      match (if state_change then waiting_for_pdelay_interval_timer_proc sm else Some sm) with
      | Some sm => (sm <| state := waiting_for_pdelay_interval_timer_condition cts64 sm |>, Next)
      | None => (sm, Leave Crash)
      end
  | REACTION => (sm, Next)
  end.

Definition set_last (e : md_pdelay_req_state_t) (sm : data) : data := sm <| last_state := e |>.
Definition set_allstate (sm : data) : data := sm <| state := allstate_condition sm |>.

Definition machine (cts64 : Z) : StateMachine data md_pdelay_req_state_t unit := {|
  sm_state := state;
  sm_last := last_state;
  sm_set_last := set_last;
  sm_allstate := set_allstate;
  sm_switch := switch cts64;
  sm_state_set_last := fun _ _ => eq_refl;
  sm_last_set_last := fun _ _ => eq_refl
|}.

(** the longest way: a send, its response, its follow-up, the interval timer, the next send *)
Definition fuel : nat := 9.

Definition md_pdelay_req_sm (cts64 : Z) (sm : data) : data * outcome unit :=
  exec (M := machine cts64) fuel sm.

Definition md_pdelay_req_sm_init (portIndex : Z) (gpnetd : option (list (list Z)))
    (ptasg : PerTimeAwareSystemGlobal) (ppg : PerPortGlobal) (mdeg : MDEntityGlobal) : data :=
  mk gpnetd ptasg ppg mdeg INIT INIT (zero <| PREQsm.portEnabled0 := PPG.ptpPortEnabled ppg |>)
     portIndex 0 0 0 0 (replicate PDELAY_SIZE 0) (replicate PDELAY_SIZE 0) (replicate PDELAY_SIZE 0)
     CMLDS_MODE 0 0 0 true.

Definition md_pdelay_req_sm_txts (edtxts : event_data_txts) (cts64 : Z) (sm : data)
  : data * outcome unit :=
  match abnormal_timestamp (seqid edtxts) (txts edtxts) with
  | None => (sm, Ret None)
  | Some ts =>
      if bool_decide (state sm <> SEND_PDELAY_REQ /\ state sm <> INITIAL_SEND_PDELAY_REQ) then (sm, Ret None)
      else if negb (seqid edtxts =? PREQsm.pdelayReqSequenceId (thisSM sm)) then (sm, Ret None)
      else md_pdelay_req_sm cts64
             (sm <| t1ts64 := u64 (tsconv ts + TIv.scaledNanoseconds (PPG.egressLatency (ppg sm))) |>
                 <| thisSM; PREQsm.rcvdMDTimestampReceive := true |>)
  end.

(** the correction field is read without ntoh *)
Definition slaveMasterDelay (edrecv : event_data_recv) (sm : data) : Z :=
  i64 (ts64 edrecv - host64 (octets 8 8 (recPdelayResp sm)) - t1ts64 sm).

Definition md_pdelay_req_sm_recv_resp (edrecv : event_data_recv) (cts64 : Z) (sm : data)
  : data * outcome unit :=
  let sm := sm <| thisSM; PREQsm.rcvdPdelayResp := true |>
               <| recPdelayResp ::= recv_into PDELAY_SIZE (recbptr edrecv) |>
               <| thisSM; PREQsm.rcvdPdelayRespPtr := true |> in
  let sm := sm <| t2ts64 := response_time (recPdelayResp sm) |>
               <| t4ts64 := u64 (ts64 edrecv - TIv.scaledNanoseconds (PPG.ingressLatency (ppg sm))) |> in
  md_pdelay_req_sm cts64
    (sm <| ptasg; PTASG.perfmonClockDS ::=
             gptp_clock_perfmon_cpmdr_add CPMDR_slaveMasterDelay (slaveMasterDelay edrecv sm) |>).

Definition md_pdelay_req_sm_recv_respfup (edrecv : event_data_recv) (cts64 : Z) (sm : data)
  : data * outcome unit :=
  let sm := sm <| thisSM; PREQsm.rcvdPdelayRespFollowUp := true |>
               <| recPdelayRespFup ::= recv_into PDELAY_SIZE (recbptr edrecv) |>
               <| thisSM; PREQsm.rcvdPdelayRespFollowUpPtr := true |> in
  md_pdelay_req_sm cts64 (sm <| t3ts64 := response_time (recPdelayRespFup sm) |>).

End Procs.

(** case analysis of a condition that returned; of the cases of a list of states *)
Ltac cases_of H :=
  unfold via in H; repeat destruct_cond_in H; try discriminate H; try (injection H as <-).

Ltac in_cases :=
  cbn [In] in *; repeat match goal with
  | H : _ /\ _ |- _ => destruct H
  | H : _ \/ _ |- _ => destruct H
  | H : False |- _ => destruct H
  end.

(** ** Termination *)

Section Ends.
Context `{WC : WireConfig} `{CF : Config} `{CV : Conversions} `{HO : HostOrder} `{ME : Media}.

Definition rank (sm : data) : nat :=
  let changed := bool_decide (last_state sm <> state sm) in
  match state sm with
  | INIT => 8
  | NOT_ENABLED => 7
  | INITIAL_SEND_PDELAY_REQ | SEND_PDELAY_REQ => if changed then 0 else 6
  | WAITING_FOR_PDELAY_RESP => 5
  | WAITING_FOR_PDELAY_RESP_FOLLOW_UP => 4
  | WAITING_FOR_PDELAY_INTERVAL_TIMER => 3
  | RESET => 2
  | REACTION => 0
  end.

Lemma preq_pass_eq cts64 sm :
  pass (M := machine cts64) sm =
  switch cts64 (bool_decide (last_state sm <> state sm)) (set_last (state sm) sm).
Proof. reflexivity. Qed.

(** what a proc that does not send leaves alone *)
Definition quiet (sm s : data) : Prop :=
  state s = state sm /\ last_state s = last_state sm /\ gpnetd s = gpnetd sm.

(** a proc may set the members of [thisSM] and the shared data only *)
Lemma avnu_cease_quiet sm : quiet sm (avnu_cease sm).
Proof. unfold avnu_cease. by destruct (_ && _). Qed.

Lemma reset_quiet sm : quiet sm (reset_proc sm).
Proof.
  unfold reset_proc. cbv zeta. destruct (_ <? _); [|destruct (negb _)].
  - match goal with |- quiet _ (avnu_cease ?x) => apply (avnu_cease_quiet x) end.
  - done.
  - match goal with |- quiet _ (avnu_cease ?x) => apply (avnu_cease_quiet x) end.
Qed.

Lemma not_enabled_quiet sm : quiet sm (not_enabled_proc sm).
Proof. unfold not_enabled_proc. by destruct (negb _). Qed.

Lemma detectedfault_quiet prev sm : quiet sm (detectedfault prev sm).
Proof. unfold detectedfault, noascapable. by destruct (_ <=? _). Qed.

Lemma judge_quiet prev sm : quiet sm (judge prev sm).
Proof.
  unfold judge. cbv zeta. pose proof (detectedfault_quiet prev sm) as D.
  repeat (destruct (_ && _); [done|]). destruct (foreign sm); [|done].
  by destruct (PREQsm.neighborRateRatioValid _).
Qed.

Lemma measure_quiet sm : quiet sm (measure sm).
Proof.
  assert (A : quiet sm (measure_ratio sm)).
  { unfold measure_ratio, computePdelayRateRatio. generalize (measured_ratio sm). intros r.
    destruct (PPGALL.computeNeighborRateRatio _); [by destruct r|done]. }
  destruct A as (A & B & C). unfold measure, measure_delay, set_delay. cbv zeta. unfold quiet. rewrite <- A, <- B, <- C.
  by destruct (PPGALL.computeNeighborPropDelay _).
Qed.

Lemma interval_timer_quiet sm s :
  waiting_for_pdelay_interval_timer_proc sm = Some s -> quiet sm s.
Proof.
  unfold waiting_for_pdelay_interval_timer_proc, via. cbv zeta.
  destruct (PREQsm.rcvdPdelayRespPtr (thisSM sm)), (PREQsm.rcvdPdelayRespFollowUpPtr (thisSM sm)); try discriminate.
  match goal with |- Some (if _ then ?x else _) = _ -> _ => set (y := x) end.
  assert (Y : quiet sm y) by done. clearbody y. destruct (PPGALL.asymmetryMeasurementMode _); intros [= <-]; [done|].
  destruct (measure_quiet y) as (A & B & C), Y as (A' & B' & C').
  destruct (judge_quiet (UNs.nsec (PPGALL.neighborPropDelay (port sm))) (measure y)) as (A'' & B'' & C'').
  unfold quiet. by rewrite A'', A, B'', B, C'', C.
Qed.

(** the next states of the conditions *)
Definition goes_to (sm s : data) (next : list md_pdelay_req_state_t) : Prop :=
  last_state s = last_state sm /\ gpnetd s = gpnetd sm /\ In (state s) next.

Lemma no_timestamp_next cts64 again sm :
  gpnetd (again sm) = gpnetd sm -> state (again sm) = state sm ->
  let s := no_timestamp cts64 again sm in
  gpnetd s = gpnetd sm /\
  (last_state s = last_state sm /\ In (state s) [state sm; WAITING_FOR_PDELAY_RESP] \/
   last_state s = REACTION /\ state s = state sm).
Proof.
  intros A B. unfold no_timestamp. cbv zeta. repeat destruct_cond; cbn [state last_state gpnetd upd In]; auto 10.
Qed.

Lemma response_next cts64 sm s :
  waiting_for_pdelay_resp_condition cts64 sm = Some s ->
  goes_to sm s [RESET; WAITING_FOR_PDELAY_RESP; WAITING_FOR_PDELAY_RESP_FOLLOW_UP].
Proof.
  unfold waiting_for_pdelay_resp_condition. intros H.
  cases_of H; split_and!; try done; cbn [In state upd]; auto.
Qed.

Lemma follow_up_of_response_next sm s :
  follow_up_of_response sm = Some s ->
  goes_to sm s [RESET; WAITING_FOR_PDELAY_RESP_FOLLOW_UP; WAITING_FOR_PDELAY_INTERVAL_TIMER].
Proof.
  unfold follow_up_of_response. intros H. cases_of H; split_and!; try done; cbn [In state upd]; auto.
Qed.

Lemma follow_up_next cts64 sm s :
  waiting_for_pdelay_resp_follow_up_condition cts64 sm = Some s ->
  goes_to sm s [RESET; WAITING_FOR_PDELAY_RESP_FOLLOW_UP; WAITING_FOR_PDELAY_INTERVAL_TIMER].
Proof.
  unfold waiting_for_pdelay_resp_follow_up_condition. intros H.
  cases_of H; try (by apply follow_up_of_response_next); split_and!; try done; cbn [In state upd]; auto.
Qed.

(** with a network a send is never the result -1 *)
Definition sends (sm : data) (o : data * Z) : Prop :=
  state o.1 = state sm /\ last_state o.1 = last_state sm /\ is_Some (gpnetd o.1) /\ o.2 <> -1.

Lemma send_request_sends cts64 sm : is_Some (gpnetd sm) -> sends sm (send_request cts64 sm).
Proof.
  intros [net N]. unfold send_request, setPdelayReq, pdelay_req_frame, md_header_compose. rewrite N.
  cbn [option_map]. cbv zeta. cbn [thisSM gpnetd upd PREQsm.txPdelayReqPtr]. rewrite N.
  destruct (send_whook _ _ =? -1).
  - split_and!; try done; by eexists.
  - destruct (send_whook _ _ <? 0); split_and!; try done; by eexists.
Qed.

Lemma initial_send_sends cts64 sm : is_Some (gpnetd sm) -> sends sm (initial_send_pdelay_req_proc cts64 sm).
Proof.
  intros N. unfold initial_send_pdelay_req_proc. cbv zeta.
  match goal with |- context [send_request _ ?x] => pose proof (send_request_sends cts64 x N) as S end.
  destruct (send_request _ _) as [s res], S as (A & B & C & D). cbn [fst snd] in *.
  by destruct (res <? 0); split_and!.
Qed.

Lemma send_sends cts64 sm : is_Some (gpnetd sm) -> sends sm (send_pdelay_req_proc cts64 sm).
Proof.
  intros N. unfold send_pdelay_req_proc. cbv zeta.
  match goal with |- context [send_request _ ?x] => pose proof (send_request_sends cts64 x N) as S end.
  destruct (send_request _ _) as [s res], S as (A & B & C & D). cbn [fst snd] in *.
  by destruct (res <? 0); split_and!.
Qed.

(** the next state has a lower rank *)
Ltac next_rank :=
  in_cases; repeat match goal with H : _ = state _ |- _ => symmetry in H end;
  repeat match goal with
  | H : state ?s = _ |- context [state ?s] => rewrite H in *
  | H : last_state ?s = _ |- context [last_state ?s] => rewrite H in *
  end;
  try congruence; settle_changes; lia.

Lemma request_turns cts64 sm sm' :
  is_Some (gpnetd sm) -> turns (M := machine cts64) sm sm' ->
  is_Some (gpnetd sm') /\ (rank sm' < rank sm)%nat.
Proof.
  intros N [H T]. rewrite preq_pass_eq in H. change (last_state sm' <> state sm') in T.
  set (changed := bool_decide _) in H.
  assert (C : rank sm = rank sm) by done. unfold rank in C at 2.
  set (s0 := set_last (state sm) sm) in *.
  assert (L : last_state s0 = state sm /\ state s0 = state sm /\ is_Some (gpnetd s0)) by done.
  clearbody s0. destruct L as (L & S & N0). unfold switch, go in H. rewrite S in H.
  fold changed in C. rewrite C. clear C. unfold rank. destruct (state sm) eqn:E.
  - injection H as <-. split; [exact N0|]. cbn. lia.
  - injection H as <-. destruct (not_enabled_quiet s0) as (A & B & D).
    split; [cbn [gpnetd upd]; destruct changed; congruence|].
    revert T. cbn [state last_state upd]. unfold not_enabled_condition.
    destruct changed; rewrite ?B, ?L; repeat destruct_cond; intros T; settle_changes; try done; lia.
  - destruct changed.
    + destruct (initial_send_sends cts64 s0 N0) as (A & B & D & F).
      destruct (initial_send_pdelay_req_proc cts64 s0) as [s res]. cbn [fst snd] in *.
      destruct (res =? -2); [discriminate|]. destruct (Z.eqb_spec res (-1)); [done|discriminate].
    + injection H as <-. unfold initial_send_pdelay_req_condition in *.
      destruct (_ =? 127); [cbn in T; congruence|].
      destruct (PREQsm.rcvdMDTimestampReceive _); [split; [exact N0|cbn; lia]|].
      destruct (no_timestamp_next cts64 (fun sm => sm) (s0 <| state := INITIAL_SEND_PDELAY_REQ |>)) as [G K]; try done.
      split; [rewrite G; exact N0|]. cbn [state last_state upd] in K. next_rank.
  - injection H as <-. assert (Q : last_state (if changed then reset_proc s0 else s0) = RESET /\
        is_Some (gpnetd (if changed then reset_proc s0 else s0))).
    { destruct (reset_quiet s0) as (A & B & D). destruct changed; split; congruence. }
    destruct Q as [Q1 Q2]. unfold reset_condition in *. cbv zeta in *.
    repeat (destruct_cond; cbn [state last_state gpnetd upd] in * ); try congruence; (split; [done|]);
      settle_changes; lia.
  - destruct changed.
    + destruct (send_sends cts64 s0 N0) as (A & B & D & F).
      destruct (send_pdelay_req_proc cts64 s0) as [s res]. cbn [fst snd] in *.
      destruct (res =? -2); [discriminate|]. destruct (Z.eqb_spec res (-1)); [done|discriminate].
    + injection H as <-. unfold send_pdelay_req_condition in *.
      destruct (PREQsm.rcvdMDTimestampReceive _); [split; [exact N0|cbn; lia]|].
      destruct (no_timestamp_next cts64 same_number (s0 <| state := SEND_PDELAY_REQ |>)) as [G K]; try done.
      split; [rewrite G; exact N0|]. cbn [state last_state upd] in K. next_rank.
  - destruct (waiting_for_pdelay_resp_condition cts64 _) as [s|] eqn:D; [|discriminate]. injection H as <-.
    apply response_next in D as (A & B & D).
    assert (K : last_state s = WAITING_FOR_PDELAY_RESP /\ is_Some (gpnetd s))
      by (rewrite A, B; by destruct changed). split; [apply K|]. next_rank.
  - destruct (waiting_for_pdelay_resp_follow_up_condition cts64 _) as [s|] eqn:D; [|discriminate]. injection H as <-.
    apply follow_up_next in D as (A & B & D).
    assert (K : last_state s = WAITING_FOR_PDELAY_RESP_FOLLOW_UP /\ is_Some (gpnetd s))
      by (rewrite A, B; by destruct changed). split; [apply K|]. next_rank.
  - destruct (if changed then _ else _) as [s|] eqn:D; [|discriminate]. injection H as <-.
    assert (K : quiet s0 s) by (destruct changed; [by apply interval_timer_quiet|injection D as <-; done]).
    destruct K as (A & B & G). cbn [state last_state gpnetd upd] in *.
    split; [congruence|]. unfold waiting_for_pdelay_interval_timer_condition in *.
    destruct (isPdelayIntervalTimerExpired _ _); [|congruence]. rewrite B, L. settle_changes. lia.
  - injection H as <-. congruence.
Qed.

(** With a network the evaluation always returns. *)
Lemma md_pdelay_req_ends cts64 sm : is_Some (gpnetd sm) -> is_Some (run (M := machine cts64) fuel sm).
Proof.
  intros N. apply (loop_ends (M := machine cts64) (fun s => is_Some (gpnetd s)) rank).
  - intros s s' Hi H. by apply (request_turns cts64).
  - exact N.
  - unfold rank, fuel. destruct (state _); try destruct_cond; lia.
Qed.
End Ends.
(** ** The measured delay *)

Section Measure.
Context `{WC : WireConfig} `{CF : Config} `{CV : Conversions} `{HO : HostOrder} `{ME : Media}.

Lemma prop_time_bounds sm : 0 <= computePropTime sm <= 10000000.
Proof.
  unfold computePropTime, COMPUTED_PROP_TIME_TOO_BIG, UB_SEC_NS. cbv zeta.
  destruct_cond; [lia|]. bool_hyps. change (1000000000 / 100) with 10000000 in *. lia.
Qed.

(** a time whose seconds fit the 32 bits that are read of a message: until 2106 *)
Definition ts_ok (t : Z) : Prop := 0 <= t < 2 ^ 32 * UB_SEC_NS.

(** the four timestamps of a link with the delay [d] both ways, the clocks [o] apart; the neighbour
    answers within 2^51 ns (26 days), so that the differences are exact doubles *)
Definition symmetric_times (d o t1 t2 t3 t4 : Z) : Prop :=
  ts_ok t1 /\ ts_ok t2 /\ ts_ok t3 /\ ts_ok t4 /\ 0 <= t3 - t2 < 2 ^ 51 /\
  t2 = t1 + d + o /\ t4 = t3 - o + d /\ 0 <= d.

Lemma i64_small z : - 2 ^ 63 <= z < 2 ^ 63 -> i64 z = z.
Proof. intros. apply swrap_id; unfold sfits; lia. Qed.

Lemma prop_time_formula sm :
  PPGALL.neighborRateRatio (port sm) = d1 ->
  ts_ok (t1ts64 sm) -> ts_ok (t2ts64 sm) -> ts_ok (t3ts64 sm) -> ts_ok (t4ts64 sm) ->
  - 2 ^ 52 <= t4ts64 sm - t1ts64 sm <= 2 ^ 52 ->
  prop_time sm = Z.quot (i64 ((t4ts64 sm - t1ts64 sm) - (t3ts64 sm - t2ts64 sm))) 2.
Proof.
  unfold ts_ok, UB_SEC_NS, prop_time. intros R T1 T2 T3 T4 T. rewrite R. cbv zeta.
  rewrite !(i64_small (t1ts64 sm)), !(i64_small (t2ts64 sm)), !(i64_small (t3ts64 sm)),
    !(i64_small (t4ts64 sm)), (i64_small (t4ts64 sm - t1ts64 sm)), (i64_small (t3ts64 sm - t2ts64 sm)) by lia.
  destruct (dmul_d1 (t4ts64 sm - t1ts64 sm)) as [F V]; [lia|].
  by rewrite (d_to_int_exact 64 _ _ F V) by (unfold sfits; lia).
Qed.

Lemma symmetric_delay d o sm :
  PPGALL.neighborRateRatio (port sm) = d1 ->
  symmetric_times d o (t1ts64 sm) (t2ts64 sm) (t3ts64 sm) (t4ts64 sm) -> d < 2 ^ 50 ->
  computePropTime sm = if d <=? 10000000 then d else 0.
Proof.
  intros R (T1 & T2 & T3 & T4 & A & E2 & E4 & D) B. unfold computePropTime.
  rewrite prop_time_formula by (done || lia).
  replace (t4ts64 sm - t1ts64 sm - (t3ts64 sm - t2ts64 sm)) with (d * 2) by lia.
  rewrite i64_small, Z.quot_mul by lia. unfold COMPUTED_PROP_TIME_TOO_BIG, UB_SEC_NS.
  change (1000000000 / 100) with 10000000.
  rewrite (proj2 (Z.ltb_ge d 0)) by lia. destruct (Z.leb_spec d 10000000), (Z.ltb_spec 10000000 d); done || lia.
Qed.

(** C33. The delay computed lies between 0 and 10 ms whatever the timestamps.  On a link with the same
    delay [d] both ways, up to 13 days, between clocks that run at the same rate, it is exactly [d], or
    0 when [d] is more than 10 ms: for any times until 2106 on either clock, so however far the clocks
    are apart (offset [o]), and for any time the neighbour takes to answer up to 26 days. *)
Theorem delay_of_symmetric_link d o sm :
  0 <= computePropTime sm <= 10000000 /\
  (PPGALL.neighborRateRatio (port sm) = d1 ->
   symmetric_times d o (t1ts64 sm) (t2ts64 sm) (t3ts64 sm) (t4ts64 sm) -> d < 2 ^ 50 ->
   computePropTime sm = if d <=? 10000000 then d else 0).
Proof. split; [apply prop_time_bounds|apply symmetric_delay]. Qed.

Abbreviation capable sm := (MDEGALL.asCapableAcrossDomains (link sm)).
Abbreviation delay sm := (UNs.nsec (PPGALL.neighborPropDelay (port sm))).

(** the delay is within the limits of the port *)
Definition delay_in_range (sm : data) : bool :=
  (UNs.nsec (MDEGALL.neighborPropDelayMinLimit (link sm)) <=? delay sm) &&
  (delay sm <=? UNs.nsec (MDEGALL.neighborPropDelayThresh (link sm))).

(** the neighbour answers with another clock identity, its rate is known and the delay is in range *)
Definition good_link (sm : data) : Prop :=
  delay_in_range sm = true /\ foreign sm = true /\ PREQsm.neighborRateRatioValid (thisSM sm) = true.

Lemma judge_good prev sm :
  foreign sm = true -> PREQsm.neighborRateRatioValid (thisSM sm) = true -> delay_in_range sm = true ->
  capable (judge prev sm) = true /\ PREQsm.detectedFaults (thisSM (judge prev sm)) = 0 /\
  delay (judge prev sm) = delay sm /\
  PREQsm.lostResponses (thisSM (judge prev sm)) = PREQsm.lostResponses (thisSM sm).
Proof.
  intros F V D. unfold judge, delay_in_range in *. rewrite F, V, !andb_true_r.
  apply andb_true_iff in D as [D1 D2]. apply Z.leb_le in D1.
  rewrite (proj2 (Z.ltb_ge _ _)) by exact D1. by rewrite D2.
Qed.

(** What a measurement says of the link, on every branch: in range from a foreign clock with a
    valid rate ratio makes it capable and clears the faults; out of range is a fault that leaves the
    capability and puts the previous delay back, until there are more faults than allowed, when the
    link is not capable any more; without a valid rate ratio it is not capable. *)
Theorem link_judged prev sm :
  let s := judge prev sm in
  let valid := PREQsm.neighborRateRatioValid (thisSM sm) in
  let faults := PREQsm.detectedFaults (thisSM sm) in
  foreign sm = true ->
  (valid = true -> delay_in_range sm = true ->
     capable s = true /\ PREQsm.detectedFaults (thisSM s) = 0 /\ delay s = delay sm) /\
  (valid = true -> delay_in_range sm = false -> faults <= MDEGALL.allowedFaults (link sm) ->
     capable s = capable sm /\ PREQsm.detectedFaults (thisSM s) = u16 (faults + 1) /\ delay s = prev) /\
  (valid = true -> delay_in_range sm = false -> MDEGALL.allowedFaults (link sm) < faults ->
     capable s = false /\ PREQsm.detectedFaults (thisSM s) = 0 /\ delay s = delay sm) /\
  (valid = false -> capable s = false /\ delay s = delay sm).
Proof.
  cbv zeta. intros F. unfold judge, delay_in_range. rewrite F, !andb_true_r.
  destruct (PREQsm.neighborRateRatioValid (thisSM sm)) eqn:V; rewrite ?andb_true_r, ?andb_false_r.
  - split_and!; try (by intros); intros _ D.
    + pose proof (judge_good prev sm F V D) as G. unfold judge in G. rewrite F, V, !andb_true_r in G.
      by destruct G as (G1 & G2 & G3 & _).
    + intros A. assert (K : detectedfault prev sm = set_delay prev (sm <| thisSM; PREQsm.detectedFaults ::= fun n => u16 (n + 1) |>))
        by (unfold detectedfault; by rewrite (proj2 (Z.leb_le _ _) A)).
      destruct (_ <? _) eqn:X; [by rewrite K|]. apply andb_false_iff in D as [D|D]; [bool_hyps; lia|].
      rewrite D. by rewrite K.
    + intros A. assert (K : detectedfault prev sm = noascapable sm)
        by (unfold detectedfault; by rewrite (proj2 (Z.leb_gt _ _) A)).
      destruct (_ <? _) eqn:X; [by rewrite K|]. apply andb_false_iff in D as [D|D]; [bool_hyps; lia|].
      rewrite D. by rewrite K.
  - split_and!; try (by intros); done.
Qed.

(** Consecutive requests without an answer: each one below the number allowed is counted and
    changes nothing else; the next one takes the capability away, and with it the rate ratio. *)
Theorem lost_responses_counted sm :
  PTASG.conformToAvnu (ptasg sm) = false ->
  let s := reset_proc sm in
  let lost := PREQsm.lostResponses (thisSM sm) in
  if lost <? MDEGALL.allowedLostResponses (link sm) then
    PREQsm.lostResponses (thisSM s) = u16 (lost + 1) /\ capable s = capable sm /\ ppg s = ppg sm /\
    PREQsm.neighborRateRatioValid (thisSM s) = PREQsm.neighborRateRatioValid (thisSM sm)
  else capable s = false /\ MDEGALL.isMeasuringDelay (link s) = false /\
    (capable sm = true -> PREQsm.neighborRateRatioValid (thisSM s) = false /\
                          PPGALL.neighborRateRatio (port s) = d1).
Proof.
  intros A. cbv zeta. unfold reset_proc, avnu_cease. cbv zeta. cbn [thisSM mdeg upd PREQsm.lostResponses].
  destruct (_ <? _); [cbn [ptasg upd]; by rewrite A|].
  destruct (capable sm) eqn:C; cbn [negb]; cbn [ptasg upd not_capable]; rewrite ?A; cbn [andb]; split_and!; try done; exact C.
Qed.
End Measure.
(** ** When a link becomes capable *)

Section Becomes.
Context `{WC : WireConfig} `{CF : Config} `{CV : Conversions} `{HO : HostOrder} `{ME : Media}.

Abbreviation capable sm := (MDEGALL.asCapableAcrossDomains (link sm)).

(** a turn that leaves the capability off *)
Definition stays_off (sm s : data) : Prop := capable sm = false -> capable s = false.

Lemma avnu_off sm : stays_off sm (avnu_cease sm).
Proof. unfold stays_off, avnu_cease. by destruct (_ && _). Qed.

Lemma reset_off sm : stays_off sm (reset_proc sm).
Proof.
  unfold stays_off, reset_proc. cbv zeta. intros H. destruct (_ <? _); [|destruct (negb _)]; try done.
  - match goal with |- context [avnu_cease ?x] => by apply (avnu_off x) end.
  - match goal with |- context [avnu_cease ?x] => by apply (avnu_off x) end.
Qed.

Lemma send_request_off cts64 sm : stays_off sm (send_request cts64 sm).1.
Proof.
  unfold stays_off, send_request, setPdelayReq. cbv zeta. intros H.
  destruct (pdelay_req_frame sm); cbn [thisSM upd PREQsm.txPdelayReqPtr gpnetd]; [|done].
  destruct (gpnetd sm); [|done]. destruct (_ =? -1); [done|]. by destruct (_ <? 0).
Qed.

Lemma sends_off cts64 sm :
  stays_off sm (initial_send_pdelay_req_proc cts64 sm).1 /\ stays_off sm (send_pdelay_req_proc cts64 sm).1.
Proof.
  unfold stays_off, initial_send_pdelay_req_proc, send_pdelay_req_proc. cbv zeta. split; intros H.
  - match goal with |- context [send_request _ ?x] => pose proof (send_request_off cts64 x H) as S end.
    destruct (send_request _ _) as [s res]. by destruct (res <? 0).
  - match goal with |- context [send_request _ ?x] => pose proof (send_request_off cts64 x H) as S end.
    destruct (send_request _ _) as [s res]. by destruct (res <? 0).
Qed.

Lemma no_timestamp_off cts64 again sm :
  mdeg (again sm) = mdeg sm -> mdeg (no_timestamp cts64 again sm) = mdeg sm.
Proof. intros H. unfold no_timestamp. by repeat destruct_cond. Qed.

Lemma conditions_keep cts64 sm :
  mdeg (initial_send_pdelay_req_condition cts64 sm) = mdeg sm /\
  mdeg (send_pdelay_req_condition cts64 sm) = mdeg sm /\ mdeg (reset_condition cts64 sm) = mdeg sm /\
  (forall s, waiting_for_pdelay_resp_condition cts64 sm = Some s -> mdeg s = mdeg sm) /\
  (forall s, waiting_for_pdelay_resp_follow_up_condition cts64 sm = Some s -> mdeg s = mdeg sm).
Proof.
  assert (F : forall s, follow_up_of_response sm = Some s -> mdeg s = mdeg sm)
    by (unfold follow_up_of_response; intros s H; by cases_of H).
  split_and!.
  - unfold initial_send_pdelay_req_condition. repeat destruct_cond; try done. by rewrite no_timestamp_off.
  - unfold send_pdelay_req_condition. destruct_cond; [done|]. by rewrite no_timestamp_off.
  - unfold reset_condition. cbv zeta. by repeat destruct_cond.
  - unfold waiting_for_pdelay_resp_condition. intros s H. by cases_of H.
  - unfold waiting_for_pdelay_resp_follow_up_condition. intros s H. cases_of H; try done; by apply F.
Qed.

(** what the interval timer's proc leaves *)
Lemma interval_timer_judges sm s :
  capable sm = false -> waiting_for_pdelay_interval_timer_proc sm = Some s ->
  capable s = true -> good_link s.
Proof.
  intros H. unfold waiting_for_pdelay_interval_timer_proc, via. cbv zeta.
  destruct (PREQsm.rcvdPdelayRespPtr (thisSM sm)), (PREQsm.rcvdPdelayRespFollowUpPtr (thisSM sm)); try discriminate.
  match goal with |- Some (if _ then ?x else _) = _ -> _ => set (y := x) end.
  assert (Y : capable y = false) by done. clearbody y.
  destruct (PPGALL.asymmetryMeasurementMode _); intros [= <-]; [congruence|].
  assert (M : capable (measure y) = false).
  { assert (K : mdeg (measure_ratio y) = mdeg y).
    { unfold measure_ratio, computePdelayRateRatio. generalize (measured_ratio y). intros r.
      destruct (PPGALL.computeNeighborRateRatio _); [by destruct r|done]. }
    unfold measure, measure_delay. destruct (PPGALL.computeNeighborPropDelay _); cbn [mdeg upd set_delay]; by rewrite K. }
  revert M. generalize (measure y). clear. intros z M. generalize (UNs.nsec (PPGALL.neighborPropDelay (port sm))).
  intros prev. unfold judge. cbv zeta.
  assert (D : capable (detectedfault prev z) = false) by (unfold detectedfault; by destruct (_ <=? _)).
  destruct (_ && _) eqn:E1; [congruence|]. destruct ((_ <=? _) && _ && _) eqn:E2.
  - intros _. bool_hyps. unfold good_link, delay_in_range.
    match goal with F : foreign z = true, V : PREQsm.neighborRateRatioValid _ = true |- _ =>
      rewrite F, V, !andb_true_r in E1 end. bool_hyps.
    change (foreign (z <| ppg; PPG.perfmonDS ::= _ |> <| thisSM; PREQsm.detectedFaults := 0 |>
      <| mdeg; MDEG.forAllDomain; MDEGALL.asCapableAcrossDomains := true |>)) with (foreign z).
    split_and!; try done. apply andb_true_iff. split; apply Z.leb_le; done.
  - destruct (foreign z); [destruct (PREQsm.neighborRateRatioValid _)|]; try congruence. done.
Qed.

(** off, or on with a good link and nothing but a send to come in this call *)
Definition off_or_good (s : data) : Prop :=
  is_Some (gpnetd s) /\
  (capable s = false \/
   good_link s /\ state s = SEND_PDELAY_REQ /\ last_state s = WAITING_FOR_PDELAY_INTERVAL_TIMER).
Definition judged (s : data) (o : outcome unit) : Prop := capable s = true -> good_link s.

Lemma off_next s :
  is_Some (gpnetd s) -> capable s = false ->
  if bool_decide (last_state s = state s) then judged s (Ret None) else off_or_good s.
Proof. intros N C. case_bool_decide; [unfold judged; congruence|split; auto]. Qed.

Lemma send_good cts64 sm :
  good_link sm -> good_link (send_pdelay_req_proc cts64 sm).1.
Proof.
  intros G. unfold send_pdelay_req_proc. cbv zeta.
  match goal with |- context [send_request _ ?x] => set (y := x) end.
  assert (Y : good_link y) by exact G. clearbody y.
  assert (S : good_link (send_request cts64 y).1).
  { unfold send_request, setPdelayReq. cbv zeta.
    destruct (pdelay_req_frame y); cbn [thisSM upd PREQsm.txPdelayReqPtr gpnetd]; [|exact Y].
    destruct (gpnetd y); [|exact Y]. destruct (_ =? -1); [exact Y|]. destruct (_ <? 0); exact Y. }
  destruct (send_request _ _) as [s res]. destruct (res <? 0); exact S.
Qed.

Lemma turn_judges cts64 s s' c :
  NEIGHBOR_PROP_DELAY = 0 -> off_or_good s -> pass (M := machine cts64) s = (s', c) ->
  match c with
  | Next => if bool_decide (last_state s' = state s') then judged s' (Ret None) else off_or_good s'
  | Leave o => judged s' o
  end.
Proof.
  intros Z [N [C|(G & E & L)]]; rewrite preq_pass_eq; set (changed := bool_decide _);
    set (s0 := set_last (state s) s).
  - assert (N0 : is_Some (gpnetd s0)) by exact N. assert (C0 : capable s0 = false) by exact C.
    assert (E : state s0 = state s /\ last_state s0 = state s) by done.
    generalize dependent s0. clearbody changed. intros s0 N0 C0 [E L0].
    destruct (conditions_keep cts64 s0) as (K1 & K2 & _). unfold switch, go, sent. rewrite E.
    destruct (state s).
    + intros [= <- <-]. by apply off_next.
    + intros [= <- <-]. assert (Q : not_enabled_proc s0 = s0) by (unfold not_enabled_proc; by rewrite Z).
      rewrite Q. replace (if changed then s0 else s0) with s0 by (by destruct changed). by apply off_next.
    + destruct changed; [|intros [= <- <-]; apply off_next; [|congruence]].
      * destruct (sends_off cts64 s0) as [F _]. specialize (F C0).
        destruct (initial_send_sends cts64 s0 N0) as (_ & _ & D & _).
        destruct (initial_send_pdelay_req_proc cts64 s0) as [s1 res]. cbn [fst snd] in *.
        destruct (res =? -2); [intros [= <- <-]; unfold judged; cbn [mdeg upd]; congruence|].
        destruct (res =? -1); intros [= <- <-]; [by apply off_next|unfold judged; congruence].
      * unfold initial_send_pdelay_req_condition. repeat destruct_cond; try exact N0.
        destruct (no_timestamp_next cts64 (fun sm => sm) (s0 <| state := INITIAL_SEND_PDELAY_REQ |>)) as [G _]; try done.
        rewrite G. exact N0.
    + intros [= <- <-]. set (x := if changed then _ else _).
      assert (X : is_Some (gpnetd x) /\ capable x = false).
      { unfold x. destruct (reset_quiet s0) as (_ & _ & D). destruct changed; [|done]. rewrite D. split; [done|].
        by apply reset_off. }
      destruct X as [X1 X2]. destruct (conditions_keep cts64 x) as (_ & _ & K & _). apply off_next; [|congruence].
      unfold reset_condition. cbv zeta. repeat destruct_cond; exact X1.
    + destruct changed; [|intros [= <- <-]; apply off_next; [|congruence]].
      * destruct (sends_off cts64 s0) as [_ F]. specialize (F C0).
        destruct (send_sends cts64 s0 N0) as (_ & _ & D & _).
        destruct (send_pdelay_req_proc cts64 s0) as [s1 res]. cbn [fst snd] in *.
        destruct (res =? -2); [intros [= <- <-]; unfold judged, same_number; cbn [mdeg upd]; congruence|].
        destruct (res =? -1); intros [= <- <-]; [by apply off_next|unfold judged; congruence].
      * unfold send_pdelay_req_condition. destruct_cond; [exact N0|].
        destruct (no_timestamp_next cts64 same_number (s0 <| state := SEND_PDELAY_REQ |>)) as [G _]; try done.
        rewrite G. exact N0.
    + set (x := if changed then _ else _).
      assert (X : is_Some (gpnetd x) /\ capable x = false) by (unfold x; by destruct changed). clearbody x.
      destruct X as [X1 X2]. destruct (conditions_keep cts64 x) as (_ & _ & _ & K & _).
      destruct (waiting_for_pdelay_resp_condition cts64 x) as [s1|] eqn:D; intros [= <- <-]; [|unfold judged; congruence].
      rewrite <- (K s1 eq_refl) in X2. apply response_next in D as (_ & D & _). apply off_next; congruence.
    + set (x := if changed then _ else _).
      assert (X : is_Some (gpnetd x) /\ capable x = false) by (unfold x; by destruct changed). clearbody x.
      destruct X as [X1 X2]. destruct (conditions_keep cts64 x) as (_ & _ & _ & _ & K).
      destruct (waiting_for_pdelay_resp_follow_up_condition cts64 x) as [s1|] eqn:D; intros [= <- <-]; [|unfold judged; congruence].
      rewrite <- (K s1 eq_refl) in X2. apply follow_up_next in D as (_ & D & _). apply off_next; congruence.
    + destruct changed.
      * destruct (waiting_for_pdelay_interval_timer_proc s0) as [s1|] eqn:D; intros [= <- <-]; [|unfold judged; congruence].
        pose proof (interval_timer_judges s0 s1 C0 D) as J. apply interval_timer_quiet in D as (_ & D1 & D2).
        cbn [last_state state upd]. unfold waiting_for_pdelay_interval_timer_condition.
        rewrite D1, L0. destruct (isPdelayIntervalTimerExpired cts64 s1); settle_changes.
        -- rewrite bool_decide_eq_false_2 by done. split; [cbn [gpnetd upd]; congruence|].
           destruct (capable s1) eqn:Cs; [right|left; exact Cs]. split; [exact (J eq_refl)|].
           split; [done|]. cbn [last_state upd]. congruence.
        -- rewrite bool_decide_eq_true_2 by done. exact J.
      * intros [= <- <-]. by apply off_next.
    + intros [= <- <-]. by apply off_next.
  - assert (C : changed = true) by (unfold changed; apply bool_decide_eq_true_2; congruence).
    assert (N0 : is_Some (gpnetd s0)) by exact N. assert (G0 : good_link s0) by exact G.
    assert (E0 : state s0 = SEND_PDELAY_REQ) by exact E. clearbody s0. unfold switch. rewrite E0, C.
    pose proof (send_good cts64 s0 G0) as F. destruct (send_sends cts64 s0 N0) as (_ & _ & _ & D).
    destruct (send_pdelay_req_proc cts64 s0) as [s1 res]. cbn [fst snd] in *.
    destruct (res =? -2); [intros [= <- <-]; intros _; exact F|].
    destruct (Z.eqb_spec res (-1)); [done|]. intros [= <- <-] _. exact F.
Qed.

(** C34. Unless the delay is configured, a link becomes capable in an evaluation only by a measurement:
    the neighbour answered under another clock identity, its rate ratio is known, and the delay
    lies between the minimum and the threshold of the port. *)
Theorem capable_only_if_measured cts64 sm :
  NEIGHBOR_PROP_DELAY = 0 -> is_Some (gpnetd sm) -> capable sm = false ->
  let (s, o) := md_pdelay_req_sm cts64 sm in capable s = true -> good_link s.
Proof.
  intros Z N C. unfold md_pdelay_req_sm. rewrite (surjective_pairing (exec _ _)).
  apply (exec_hoare (M := machine cts64) off_or_good judged).
  - by apply md_pdelay_req_ends.
  - split; [exact N|left; exact C].
  - intros s s' c. by apply turn_judges.
Qed.
End Becomes.
(** ** One exchange *)

Section Exchange.
Context `{WC : WireConfig} `{CF : Config} `{CV : Conversions} `{HO : HostOrder} `{ME : Media}.

(** the port measures; the request of [sm] is out and its interval has not passed *)
Definition measuring (sm : data) : Prop :=
  PTASG.BEGIN (ptasg sm) = false /\ PPGALL.portOper (port sm) = true /\
  PREQsm.portEnabled0 (thisSM sm) = true /\
  (MDEGALL.currentLogPdelayReqInterval (link sm) =? 127) = false.
Definition requested (sm : data) : Prop :=
  last_state sm = WAITING_FOR_PDELAY_RESP /\ state sm = WAITING_FOR_PDELAY_RESP /\
  PREQsm.txPdelayReqPtr (thisSM sm) = true /\ PREQsm.rcvdPdelayResp (thisSM sm) = false /\
  PREQsm.rcvdPdelayRespFollowUp (thisSM sm) = false.

Lemma allstate_measuring sm : measuring sm -> set_allstate sm = sm.
Proof.
  intros (B & I & U & L). unfold set_allstate, allstate_condition. rewrite B, I, U, L. by destruct sm.
Qed.

Lemma request_eq cts64 sm o :
  measuring sm -> loop (M := machine cts64) fuel sm = Some o -> md_pdelay_req_sm cts64 sm = o.
Proof.
  intros R H. apply (exec_eq (M := machine cts64)). change (sm_allstate sm) with (set_allstate sm).
  by rewrite allstate_measuring.
Qed.

Lemma preq_pass_rest cts64 sm :
  last_state sm = state sm -> pass (M := machine cts64) sm = switch cts64 false sm.
Proof.
  intros H. rewrite preq_pass_eq. replace (set_last (state sm) sm) with sm; [|destruct sm; cbn in *; by subst].
  by rewrite bool_decide_eq_false_2 by tauto.
Qed.

(** an answer to the request of [sm]: the response and its follow-up *)
Definition response_to (sm : data) (buf : list Z) : Prop :=
  (PDELAY_SIZE <= length buf)%nat /\ valid_sdo buf = true /\
  source_clockIdentity buf <> PTASG.thisClock (ptasg sm) /\
  requesting_clockIdentity buf = PTASG.thisClock (ptasg sm) /\
  requesting_portNumber buf = PPG.thisPort (ppg sm) /\ sequenceId buf = sequenceId (txPdeayReq sm).

Lemma preq_received_fields buf old :
  (PDELAY_SIZE <= length buf)%nat ->
  let r := recv_into PDELAY_SIZE buf old in
  valid_sdo r = valid_sdo buf /\ source_clockIdentity r = source_clockIdentity buf /\
  source_port r = source_port buf /\
  requesting_clockIdentity r = requesting_clockIdentity buf /\
  requesting_portNumber r = requesting_portNumber buf /\ sequenceId r = sequenceId buf /\
  response_time r = response_time buf.
Proof.
  intros L. cbv zeta. unfold valid_sdo, majorSdoId, source_clockIdentity, source_port, requesting_clockIdentity,
    requesting_portNumber, sequenceId, response_time.
  set (n := PDELAY_SIZE) in *. assert (N : n = 54%nat) by done. clearbody n.
  rewrite !octet_recv, !octets_recv, !ntoh_recv by (done || lia). by split_and!.
Qed.

Lemma clock_of_port buf : source_clockIdentity buf = take 8 (source_port buf).
Proof. unfold source_clockIdentity, source_port, octets. by rewrite take_take. Qed.

Lemma number_of_port buf : ntoh 28 2 buf = be_val (drop 8 (source_port buf)).
Proof. unfold ntoh, source_port, octets. by rewrite skipn_firstn_comm, drop_drop. Qed.

(** the machine when the response has been taken *)
Definition take_response (ed : event_data_recv) (sm : data) : data :=
  let sm := sm <| thisSM; PREQsm.rcvdPdelayResp := true |>
               <| recPdelayResp ::= recv_into PDELAY_SIZE (recbptr ed) |>
               <| thisSM; PREQsm.rcvdPdelayRespPtr := true |> in
  let sm := sm <| t2ts64 := response_time (recPdelayResp sm) |>
               <| t4ts64 := u64 (ts64 ed - TIv.scaledNanoseconds (PPG.ingressLatency (ppg sm))) |> in
  sm <| ptasg; PTASG.perfmonClockDS ::=
          gptp_clock_perfmon_cpmdr_add CPMDR_slaveMasterDelay (slaveMasterDelay ed sm) |>.

(** what the evaluation uses of the machine with the response taken *)
Definition taken (ed : event_data_recv) (sm x : data) : Prop :=
  last_state x = last_state sm /\ state x = state sm /\
  thisSM x = thisSM sm <| PREQsm.rcvdPdelayResp := true |> <| PREQsm.rcvdPdelayRespPtr := true |> /\
  txPdeayReq x = txPdeayReq sm /\ recPdelayResp x = recv_into PDELAY_SIZE (recbptr ed) (recPdelayResp sm) /\
  t1ts64 x = t1ts64 sm /\ t2ts64 x = response_time (recPdelayResp x) /\
  t4ts64 x = u64 (ts64 ed - TIv.scaledNanoseconds (PPG.ingressLatency (ppg sm))) /\
  prev_t1ts64 x = prev_t1ts64 sm /\ prev_t2ts64 x = prev_t2ts64 sm /\
  ppg x = ppg sm /\ mdeg x = mdeg sm /\ PTASG.thisClock (ptasg x) = PTASG.thisClock (ptasg sm) /\
  (measuring sm -> measuring x).

Lemma take_taken ed sm : taken ed sm (take_response ed sm).
Proof. unfold take_response. generalize (slaveMasterDelay ed). intros f. by split_and!. Qed.

(** the machine after a response has been accepted *)
Definition responded (x : data) : data :=
  waiting_for_pdelay_resp_follow_up_proc (x <| last_state := WAITING_FOR_PDELAY_RESP_FOLLOW_UP |>)
    <| state := WAITING_FOR_PDELAY_RESP_FOLLOW_UP |>.

(** a response that the condition accepts *)
Definition acceptable (x : data) : Prop :=
  valid_sdo (recPdelayResp x) = true /\ source_clockIdentity (recPdelayResp x) <> PTASG.thisClock (ptasg x) /\
  requesting_clockIdentity (recPdelayResp x) = PTASG.thisClock (ptasg x) /\
  requesting_portNumber (recPdelayResp x) = PPG.thisPort (ppg x) /\
  sequenceId (recPdelayResp x) = sequenceId (txPdeayReq x).

Lemma accept_response n cts64 x :
  last_state x = WAITING_FOR_PDELAY_RESP -> state x = WAITING_FOR_PDELAY_RESP ->
  PREQsm.txPdelayReqPtr (thisSM x) = true -> PREQsm.rcvdPdelayResp (thisSM x) = true ->
  PREQsm.rcvdPdelayRespPtr (thisSM x) = true -> PREQsm.rcvdPdelayRespFollowUp (thisSM x) = false ->
  isPdelayIntervalTimerExpired cts64 x = false -> acceptable x ->
  loop (M := machine cts64) (2 + n) x = Some (responded x, Ret None).
Proof.
  intros L E T R P F X (A1 & A2 & A3 & A4 & A5). cbn [Nat.add].
  rewrite (loop_turn (M := machine cts64) _ _ (x <| state := WAITING_FOR_PDELAY_RESP_FOLLOW_UP |>)).
  - apply (loop_stop (M := machine cts64)); [|done]. rewrite preq_pass_eq.
    change (last_state (x <| state := WAITING_FOR_PDELAY_RESP_FOLLOW_UP |>)) with (last_state x).
    rewrite L, bool_decide_eq_true_2 by done. unfold switch, set_last. cbn [state upd].
    unfold waiting_for_pdelay_resp_follow_up_condition, follow_up_of_response, via.
    match goal with |- context [isPdelayIntervalTimerExpired cts64 ?y] =>
      change (isPdelayIntervalTimerExpired cts64 y) with (isPdelayIntervalTimerExpired cts64 x);
      change (PREQsm.rcvdPdelayResp (thisSM y)) with false;
      change (PREQsm.rcvdPdelayRespFollowUp (thisSM y)) with (PREQsm.rcvdPdelayRespFollowUp (thisSM x)) end.
    rewrite X, F. reflexivity.
  - split; [|change (last_state x <> WAITING_FOR_PDELAY_RESP_FOLLOW_UP); congruence].
    rewrite preq_pass_rest by congruence. unfold switch. rewrite E.
    unfold waiting_for_pdelay_resp_condition, via, md_port_number2index. cbv zeta.
    rewrite X, R, P, T, A1, A3, A4, A5. cbn [negb].
    rewrite bool_decide_eq_false_2 by exact A2. rewrite bool_decide_eq_false_2 by tauto.
    rewrite Z.eqb_refl, Z.ltb_irrefl. reflexivity.
Qed.

Lemma response_accepted ed cts64 sm :
  measuring sm -> requested sm -> response_to sm (recbptr ed) ->
  isPdelayIntervalTimerExpired cts64 sm = false ->
  exists x, taken ed sm x /\ acceptable x /\
            md_pdelay_req_sm_recv_resp ed cts64 sm = (responded x, Ret None).
Proof.
  intros M (L & E & T & R & F) (B1 & B2 & B3 & B4 & B5 & B6) X.
  destruct (preq_received_fields (recbptr ed) (recPdelayResp sm) B1) as (V1 & V2 & _ & V4 & V5 & V6 & _).
  change (md_pdelay_req_sm_recv_resp ed cts64 sm) with (md_pdelay_req_sm cts64 (take_response ed sm)).
  pose proof (take_taken ed sm) as K. revert K. generalize (take_response ed sm). intros x K. exists x.
  pose proof K as (K1 & K2 & K3 & K4 & K5 & _ & _ & _ & _ & _ & K11 & K12 & K13 & K14).
  assert (A : acceptable x) by (unfold acceptable; rewrite K5, K4, K11, K13; split_and!; congruence).
  split; [exact K|]. split; [exact A|]. apply request_eq; [by apply K14|].
  apply (accept_response 7); try congruence; try (by rewrite K3).
  unfold isPdelayIntervalTimerExpired in *. rewrite K3, K12. exact X.
Qed.

(** the follow-up of the response that has been accepted *)
Definition follow_up_to (x : data) (buf : list Z) : Prop :=
  (PDELAY_SIZE <= length buf)%nat /\ valid_sdo buf = true /\
  source_clockIdentity buf <> PTASG.thisClock (ptasg x) /\ sequenceId buf = sequenceId (txPdeayReq x) /\
  source_port buf = source_port (recPdelayResp x).

(** the machine with the follow-up taken *)
Definition take_respfup (ef : event_data_recv) (sm : data) : data :=
  let sm := sm <| thisSM; PREQsm.rcvdPdelayRespFollowUp := true |>
               <| recPdelayRespFup ::= recv_into PDELAY_SIZE (recbptr ef) |>
               <| thisSM; PREQsm.rcvdPdelayRespFollowUpPtr := true |> in
  sm <| t3ts64 := response_time (recPdelayRespFup sm) |>.

(** what the evaluation uses of it *)
Definition followed (ef : event_data_recv) (z y : data) : Prop :=
  y = z <| thisSM := thisSM y |> <| recPdelayRespFup := recPdelayRespFup y |>
        <| t3ts64 := response_time (recPdelayRespFup y) |> /\
  thisSM y = thisSM z <| PREQsm.rcvdPdelayRespFollowUp := true |> <| PREQsm.rcvdPdelayRespFollowUpPtr := true |> /\
  recPdelayRespFup y = recv_into PDELAY_SIZE (recbptr ef) (recPdelayRespFup z).

Lemma take_followed ef z : followed ef z (take_respfup ef z).
Proof. destruct z. by split_and!. Qed.

(** the machine whose interval timer's proc runs *)
Definition answered (y : data) : data :=
  y <| state := WAITING_FOR_PDELAY_INTERVAL_TIMER |> <| last_state := WAITING_FOR_PDELAY_INTERVAL_TIMER |>
    <| thisSM; PREQsm.rcvdPdelayRespFollowUp := false |>
    <| thisSM; PREQsm.lostResponses := 0 |> <| thisSM; PREQsm.multiResponses := 0 |>
    <| is2011BackwardCompatible :=
         (majorSdoId (recPdelayResp y) =? 0x10) && octet4_zero (recPdelayResp y) &&
         (majorSdoId (recPdelayRespFup y) =? 0x10) && octet4_zero (recPdelayRespFup y) |>.

Lemma measure_keeps y :
  thisSM (measure y) = thisSM (measure_ratio y) /\ mdeg (measure y) =
  mdeg y <| MDEG.forAllDomain; MDEGALL.isMeasuringDelay := true |>.
Proof.
  assert (A : mdeg (measure_ratio y) = mdeg y).
  { unfold measure_ratio, computePdelayRateRatio. generalize (measured_ratio y). intros r.
    destruct (PPGALL.computeNeighborRateRatio _); [by destruct r|done]. }
  unfold measure, measure_delay, set_delay. cbv zeta. rewrite <- A.
  by destruct (PPGALL.computeNeighborPropDelay _).
Qed.

Lemma judge_timer prev y : PREQsm.pdelayIntervalTimer (thisSM (judge prev y)) = PREQsm.pdelayIntervalTimer (thisSM y)
  /\ MDEGALL.pdelayReqInterval (link (judge prev y)) = MDEGALL.pdelayReqInterval (link y).
Proof. unfold judge, detectedfault, noascapable, set_delay. cbv zeta. repeat destruct_cond; done. Qed.

Lemma measure_timer y : PREQsm.pdelayIntervalTimer (thisSM (measure y)) = PREQsm.pdelayIntervalTimer (thisSM y)
  /\ MDEGALL.pdelayReqInterval (link (measure y)) = MDEGALL.pdelayReqInterval (link y).
Proof.
  destruct (measure_keeps y) as [A B]. rewrite A, B. split; [|done].
  unfold measure_ratio, computePdelayRateRatio. generalize (measured_ratio y). intros r.
  destruct (PPGALL.computeNeighborRateRatio _); [by destruct r|done].
Qed.

Lemma interval_timer_eq x :
  PREQsm.rcvdPdelayRespPtr (thisSM x) = true -> PREQsm.rcvdPdelayRespFollowUpPtr (thisSM x) = true ->
  PPGALL.asymmetryMeasurementMode (port x) = false ->
  state x = WAITING_FOR_PDELAY_INTERVAL_TIMER -> last_state x = WAITING_FOR_PDELAY_INTERVAL_TIMER ->
  waiting_for_pdelay_interval_timer_proc x = Some (judge (UNs.nsec (PPGALL.neighborPropDelay (port x))) (measure (answered x))).
Proof.
  intros P F A S L. unfold waiting_for_pdelay_interval_timer_proc, via. rewrite P, F.
  assert (K : x = x <| state := WAITING_FOR_PDELAY_INTERVAL_TIMER |> <| last_state := WAITING_FOR_PDELAY_INTERVAL_TIMER |>)
    by (destruct x; cbn in *; by subst).
  change (port (x <| thisSM; PREQsm.rcvdPdelayRespFollowUp := false |> <| thisSM; PREQsm.lostResponses := 0 |>
    <| thisSM; PREQsm.multiResponses := 0 |> <| is2011BackwardCompatible :=
         (majorSdoId (recPdelayResp x) =? 0x10) && octet4_zero (recPdelayResp x) &&
         (majorSdoId (recPdelayRespFup x) =? 0x10) && octet4_zero (recPdelayRespFup x) |>)) with (port x).
  cbv zeta. unfold answered. rewrite <- K. cbn [ppg upd]. by rewrite A.
Qed.

(** the evaluation that takes the follow-up: the measurement is made and judged *)
Lemma accept_follow_up n cts64 y :
  last_state y = WAITING_FOR_PDELAY_RESP_FOLLOW_UP -> state y = WAITING_FOR_PDELAY_RESP_FOLLOW_UP ->
  PREQsm.txPdelayReqPtr (thisSM y) = true -> PREQsm.rcvdPdelayResp (thisSM y) = false ->
  PREQsm.rcvdPdelayRespPtr (thisSM y) = true -> PREQsm.rcvdPdelayRespFollowUp (thisSM y) = true ->
  PREQsm.rcvdPdelayRespFollowUpPtr (thisSM y) = true ->
  PPGALL.asymmetryMeasurementMode (port y) = false ->
  isPdelayIntervalTimerExpired cts64 y = false ->
  valid_sdo (recPdelayRespFup y) = true -> source_clockIdentity (recPdelayRespFup y) <> PTASG.thisClock (ptasg y) ->
  sequenceId (recPdelayRespFup y) = sequenceId (txPdeayReq y) ->
  source_port (recPdelayRespFup y) = source_port (recPdelayResp y) ->
  exists z, z = judge (UNs.nsec (PPGALL.neighborPropDelay (port y))) (measure (answered y)) /\
    loop (M := machine cts64) (2 + n) y = Some (z <| state := WAITING_FOR_PDELAY_INTERVAL_TIMER |>, Ret None).
Proof.
  intros L E T R P F Q A X V C S O. cbn [Nat.add].
  rewrite (loop_turn (M := machine cts64) _ _ (y <| state := WAITING_FOR_PDELAY_INTERVAL_TIMER |>)).
  - eexists. split; [reflexivity|]. set (x := set_last WAITING_FOR_PDELAY_INTERVAL_TIMER (y <| state := WAITING_FOR_PDELAY_INTERVAL_TIMER |>)).
    assert (D : waiting_for_pdelay_interval_timer_proc x = Some (judge (UNs.nsec (PPGALL.neighborPropDelay (port x))) (measure (answered x))))
      by (by apply interval_timer_eq).
    change (port x) with (port y) in D. change (answered x) with (answered y) in D.
    destruct (judge_timer (UNs.nsec (PPGALL.neighborPropDelay (port y))) (measure (answered y))) as [J1 J2].
    destruct (measure_timer (answered y)) as [J3 J4]. rewrite J3 in J1. rewrite J4 in J2.
    destruct (interval_timer_quiet x _ D) as (_ & B & _).
    revert D J1 J2 B. generalize (judge (UNs.nsec (PPGALL.neighborPropDelay (port y))) (measure (answered y))).
    intros z D J1 J2 B. apply (loop_stop (M := machine cts64)); [|exact B]. rewrite preq_pass_eq.
    change (last_state (y <| state := WAITING_FOR_PDELAY_INTERVAL_TIMER |>)) with (last_state y).
    rewrite L, bool_decide_eq_true_2 by done.
    change (set_last _ _) with x. unfold switch. change (state x) with WAITING_FOR_PDELAY_INTERVAL_TIMER.
    cbv iota. rewrite D. cbv zeta. unfold waiting_for_pdelay_interval_timer_condition, isPdelayIntervalTimerExpired in *.
    rewrite J1, J2. change (PREQsm.pdelayIntervalTimer (thisSM (answered y))) with (PREQsm.pdelayIntervalTimer (thisSM y)).
    change (link (answered y)) with (link y). by rewrite X.
  - split; [|change (last_state y <> WAITING_FOR_PDELAY_INTERVAL_TIMER); congruence].
    rewrite preq_pass_rest by congruence. unfold switch. rewrite E.
    unfold waiting_for_pdelay_resp_follow_up_condition, follow_up_of_response, via. cbv zeta.
    rewrite X, R, P, T, F, Q, V. cbn [negb]. rewrite bool_decide_eq_false_2 by exact C.
    rewrite S, Z.eqb_refl. cbn [negb]. rewrite bool_decide_eq_true_2 by exact O. reflexivity.
Qed.

(** the rate ratio is 1 and stays 1 with a response received at [t2]: it is not computed, or known
    and computed as 1 *)
Definition same_rate (t2 : Z) (sm : data) : Prop :=
  PPGALL.neighborRateRatio (port sm) = d1 /\
  (PPGALL.computeNeighborRateRatio (port sm) = false \/
   PREQsm.neighborRateRatioValid (thisSM sm) = true /\
   (measured_ratio (sm <| t2ts64 := t2 |>) = None \/ measured_ratio (sm <| t2ts64 := t2 |>) = Some d1)).

Lemma measured_ratio_ext x y :
  MDEGALL.pdelayReqInterval (link x) = MDEGALL.pdelayReqInterval (link y) -> t1ts64 x = t1ts64 y ->
  t2ts64 x = t2ts64 y -> prev_t1ts64 x = prev_t1ts64 y -> prev_t2ts64 x = prev_t2ts64 y ->
  measured_ratio x = measured_ratio y.
Proof. intros A B C D E. unfold measured_ratio. by rewrite A, B, C, D, E. Qed.

Lemma measure_same_rate y :
  same_rate (t2ts64 y) y ->
  let s := measure_ratio y in
  PPGALL.neighborRateRatio (port s) = d1 /\ PREQsm.neighborRateRatioValid (thisSM s) = true /\
  t1ts64 s = t1ts64 y /\ t2ts64 s = t2ts64 y /\ t3ts64 s = t3ts64 y /\ t4ts64 s = t4ts64 y /\
  recPdelayResp s = recPdelayResp y /\ ptasg s = ptasg y /\ mdeg s = mdeg y /\
  PPGALL.computeNeighborPropDelay (port s) = PPGALL.computeNeighborPropDelay (port y) /\
  PREQsm.lostResponses (thisSM s) = PREQsm.lostResponses (thisSM y) /\
  PREQsm.detectedFaults (thisSM s) = PREQsm.detectedFaults (thisSM y).
Proof.
  intros [R V]. cbv zeta. replace (y <| t2ts64 := t2ts64 y |>) with y in V by (by destruct y).
  unfold measure_ratio, computePdelayRateRatio. destruct V as [C|[V M]].
  - rewrite C. split_and!; try done; exact R.
  - destruct (PPGALL.computeNeighborRateRatio (port y)); [|split_and!; try done; exact R].
    revert M. generalize (measured_ratio y). intros r [->| ->]; cbv zeta; rewrite R; split_and!; try done; exact V.
Qed.

(** the measurement on a link with the same delay both ways *)
Lemma measured_link d o w :
  same_rate (t2ts64 w) w -> PPGALL.computeNeighborPropDelay (port w) = true ->
  symmetric_times d o (t1ts64 w) (t2ts64 w) (t3ts64 w) (t4ts64 w) -> d <= 10000000 ->
  foreign w = true ->
  let s := measure w in
  foreign s = true /\ PREQsm.neighborRateRatioValid (thisSM s) = true /\
  UNs.nsec (PPGALL.neighborPropDelay (port s)) = d /\
  mdeg s = mdeg w <| MDEG.forAllDomain; MDEGALL.isMeasuringDelay := true |> /\
  PREQsm.lostResponses (thisSM s) = PREQsm.lostResponses (thisSM w) /\
  PREQsm.detectedFaults (thisSM s) = PREQsm.detectedFaults (thisSM w).
Proof.
  intros R P T D F. cbv zeta.
  destruct (measure_same_rate w R) as (A1 & A2 & A3 & A4 & A5 & A6 & A7 & A8 & A9 & A10 & A11 & A12).
  assert (Q : computePropTime (measure_ratio w) = d).
  { rewrite (symmetric_delay d o) by (rewrite ?A3, ?A4, ?A5, ?A6; done || lia).
    by rewrite (proj2 (Z.leb_le _ _) D). }
  unfold measure, measure_delay. rewrite A10, P. revert Q A1 A2 A7 A8 A9 A11 A12. generalize (measure_ratio w). clear - F.
  intros x Q _ A2 A7 A8 A9 A11 A12. cbv zeta. rewrite Q. unfold foreign, set_delay in *. cbn.
  rewrite A7, A8, A9. by split_and!.
Qed.

(** what a measured delay [d] makes of the port of [sm]: within its limits it is the delay, and the
    link is capable; otherwise it is a fault, that the previous delay and the capability survive as
    long as there are not more than allowed *)
Definition verdict (d : Z) (sm s : data) : Prop :=
  let limits := link sm in
  let faults := PREQsm.detectedFaults (thisSM sm) in
  if (UNs.nsec (MDEGALL.neighborPropDelayMinLimit limits) <=? d) &&
     (d <=? UNs.nsec (MDEGALL.neighborPropDelayThresh limits)) then
    UNs.nsec (PPGALL.neighborPropDelay (port s)) = d /\ MDEGALL.asCapableAcrossDomains (link s) = true /\
    PREQsm.detectedFaults (thisSM s) = 0
  else if faults <=? MDEGALL.allowedFaults limits then
    UNs.nsec (PPGALL.neighborPropDelay (port s)) = UNs.nsec (PPGALL.neighborPropDelay (port sm)) /\
    MDEGALL.asCapableAcrossDomains (link s) = MDEGALL.asCapableAcrossDomains limits /\
    PREQsm.detectedFaults (thisSM s) = u16 (faults + 1)
  else MDEGALL.asCapableAcrossDomains (link s) = false /\ PREQsm.detectedFaults (thisSM s) = 0.

(** the judgement of a delay [d] that has been measured *)
Lemma judge_verdict d sm w :
  foreign w = true -> PREQsm.neighborRateRatioValid (thisSM w) = true ->
  UNs.nsec (PPGALL.neighborPropDelay (port w)) = d ->
  mdeg w = mdeg sm <| MDEG.forAllDomain; MDEGALL.isMeasuringDelay := true |> ->
  PREQsm.detectedFaults (thisSM w) = PREQsm.detectedFaults (thisSM sm) ->
  verdict d sm (judge (UNs.nsec (PPGALL.neighborPropDelay (port sm))) w).
Proof.
  intros F V D G C. set (prev := UNs.nsec (PPGALL.neighborPropDelay (port sm))).
  assert (L1 : MDEGALL.neighborPropDelayMinLimit (link w) = MDEGALL.neighborPropDelayMinLimit (link sm)) by by rewrite G.
  assert (L2 : MDEGALL.neighborPropDelayThresh (link w) = MDEGALL.neighborPropDelayThresh (link sm)) by by rewrite G.
  assert (L3 : MDEGALL.allowedFaults (link w) = MDEGALL.allowedFaults (link sm)) by by rewrite G.
  assert (L4 : MDEGALL.asCapableAcrossDomains (link w) = MDEGALL.asCapableAcrossDomains (link sm)) by by rewrite G.
  assert (Ft : let s := detectedfault prev w in
    if PREQsm.detectedFaults (thisSM sm) <=? MDEGALL.allowedFaults (link sm) then
      UNs.nsec (PPGALL.neighborPropDelay (port s)) = prev /\
      MDEGALL.asCapableAcrossDomains (link s) = MDEGALL.asCapableAcrossDomains (link sm) /\
      PREQsm.detectedFaults (thisSM s) = u16 (PREQsm.detectedFaults (thisSM sm) + 1)
    else MDEGALL.asCapableAcrossDomains (link s) = false /\ PREQsm.detectedFaults (thisSM s) = 0).
  { cbv zeta. unfold detectedfault. rewrite C, L3. destruct (_ <=? _); [|done].
    split_and!; [done|exact L4|]. cbn [thisSM upd set_delay]. cbn. by rewrite C. }
  cbv zeta in Ft. unfold verdict, judge. cbv zeta. fold prev. rewrite F, V, D, L1, L2, !andb_true_r.
  destruct (Z.ltb_spec d (UNs.nsec (MDEGALL.neighborPropDelayMinLimit (link sm)))) as [B|B].
  - by rewrite (proj2 (Z.leb_gt _ _) B).
  - rewrite (proj2 (Z.leb_le _ _) B). cbn [andb]. destruct (d <=? _); [by split_and!|done].
Qed.

(** A whole exchange: a request is out; the response and its follow-up arrive in time from a foreign
    clock, carry the times of its reception and of the response, and on a link with the same delay
    [d] both ways (clock offset [o], same rate) the port judges exactly [d], counts no lost response,
    and waits for the next interval. *)
Lemma exchange_measured ed ef c1 c2 d o sm :
  let t2 := response_time (recbptr ed) in
  let t3 := response_time (recbptr ef) in
  let t4 := u64 (ts64 ed - TIv.scaledNanoseconds (PPG.ingressLatency (ppg sm))) in
  measuring sm -> requested sm ->
  response_to sm (recbptr ed) -> (PDELAY_SIZE <= length (recbptr ef))%nat -> valid_sdo (recbptr ef) = true ->
  sequenceId (recbptr ef) = sequenceId (recbptr ed) -> source_port (recbptr ef) = source_port (recbptr ed) ->
  isPdelayIntervalTimerExpired c1 sm = false -> isPdelayIntervalTimerExpired c2 sm = false ->
  PPGALL.asymmetryMeasurementMode (port sm) = false -> PPGALL.computeNeighborPropDelay (port sm) = true ->
  same_rate t2 sm -> symmetric_times d o (t1ts64 sm) t2 t3 t4 -> d <= 10000000 ->
  let (s, r) := md_pdelay_req_sm_recv_respfup ef c2 (md_pdelay_req_sm_recv_resp ed c1 sm).1 in
  r = Ret None /\ state s = WAITING_FOR_PDELAY_INTERVAL_TIMER /\
  verdict d sm s /\ PREQsm.lostResponses (thisSM s) = 0.
Proof.
  cbv zeta. intros M Q B F1 F2 F3 F4 X1 X2 A P R T D.
  destruct (response_accepted ed c1 sm M Q B X1) as (x & K & AC & ->). cbn [fst].
  destruct B as (B1 & _ & B3 & _ & _ & B6).
  pose proof K as (_ & _ & K3 & K4 & K5 & K6 & K7 & K8 & K9 & K10 & K11 & K12 & K13 & K14).
  destruct (preq_received_fields (recbptr ed) (recPdelayResp sm) B1) as (_ & VC & VP & _ & _ & VS & VT).
  rewrite K5 in K7. rewrite VT in K7. destruct AC as (_ & AC & _ & _ & AS).
  change (md_pdelay_req_sm_recv_respfup ef c2 (responded x))
    with (md_pdelay_req_sm c2 (take_respfup ef (responded x))).
  pose proof (take_followed ef (responded x)) as Y. revert Y. generalize (take_respfup ef (responded x)). intros y (Y0 & Y1 & Y2).
  destruct (preq_received_fields (recbptr ef) (recPdelayRespFup (responded x)) F1) as (WV & WC' & WP & _ & _ & WS & WT).
  assert (PX : PPG.forAllDomain (ppg y) = PPG.forAllDomain (ppg sm)) by (rewrite Y0, <- K11; done).
  assert (PM : mdeg y = mdeg sm) by (rewrite Y0, <- K12; done).
  assert (PA : ptasg y = ptasg x) by (rewrite Y0; done).
  assert (PT : thisSM y = thisSM sm <| PREQsm.rcvdPdelayResp := false |> <| PREQsm.rcvdPdelayRespPtr := true |>
      <| PREQsm.rcvdPdelayRespFollowUp := true |> <| PREQsm.rcvdPdelayRespFollowUpPtr := true |>)
    by (rewrite Y1; cbn [responded waiting_for_pdelay_resp_follow_up_proc thisSM upd]; by rewrite K3).
  assert (PR : recPdelayResp y = recPdelayResp x) by (rewrite Y0; done).
  assert (PQ : txPdeayReq y = txPdeayReq x) by (rewrite Y0; done).
  assert (PI : t1ts64 y = t1ts64 x /\ t2ts64 y = t2ts64 x /\ t4ts64 y = t4ts64 x /\
    prev_t1ts64 y = prev_t1ts64 x /\ prev_t2ts64 y = prev_t2ts64 x /\
    state y = WAITING_FOR_PDELAY_RESP_FOLLOW_UP /\ last_state y = WAITING_FOR_PDELAY_RESP_FOLLOW_UP)
    by (rewrite Y0; done).
  assert (P3 : t3ts64 y = response_time (recbptr ef)) by (rewrite <- WT, <- Y2; rewrite Y0; done).
  assert (PC : PTASG.thisClock (ptasg y) = PTASG.thisClock (ptasg sm)) by congruence.
  assert (PB : PTASG.BEGIN (ptasg y) = false) by (rewrite PA; apply (K14 M)).
  clear Y0 Y1 K14. destruct PI as (I1 & I2 & I4 & I5 & I6 & I7 & I8). destruct M as (_ & M2 & M3 & M4).
  destruct Q as (_ & _ & Q3 & _ & _).
  destruct (accept_follow_up 7 c2 y) as (z & Z & LP); try congruence; try (rewrite PT; try done; exact Q3).
  { unfold isPdelayIntervalTimerExpired in *. by rewrite PT, PM. }
  { rewrite Y2, WC', PC, clock_of_port, F4, <- clock_of_port. exact B3. }
  rewrite (request_eq c2 y _) by (try exact LP; split_and!; try done; try (rewrite PT; exact M3); by rewrite ?PX, ?PM).
  set (w := answered y) in *. assert (SR : same_rate (t2ts64 w) w).
  { change (t2ts64 w) with (t2ts64 y). rewrite I2, K7. destruct R as [R1 R2]. split.
    - change (port w) with (port y). by rewrite PX.
    - change (port w) with (port y). rewrite PX. destruct R2 as [R2|[R2 R3]]; [by left|right]. split.
      + change (PREQsm.neighborRateRatioValid (thisSM w)) with (PREQsm.neighborRateRatioValid (thisSM y)). by rewrite PT.
      + rewrite (measured_ratio_ext _ (sm <| t2ts64 := response_time (recbptr ed) |>)); [exact R3|..]; try done.
        * change (link (w <| t2ts64 := _ |>)) with (link y). by rewrite PM.
        * change (t1ts64 (w <| t2ts64 := _ |>)) with (t1ts64 y). by rewrite I1.
        * change (prev_t1ts64 (w <| t2ts64 := _ |>)) with (prev_t1ts64 y). by rewrite I5.
        * change (prev_t2ts64 (w <| t2ts64 := _ |>)) with (prev_t2ts64 y). by rewrite I6. }
  assert (W : t1ts64 w = t1ts64 sm /\ t2ts64 w = response_time (recbptr ed) /\ t3ts64 w = response_time (recbptr ef) /\
    t4ts64 w = u64 (ts64 ed - TIv.scaledNanoseconds (PPG.ingressLatency (ppg sm))) /\
    PTASG.thisClock (ptasg w) = PTASG.thisClock (ptasg sm) /\
    source_clockIdentity (recPdelayResp w) = source_clockIdentity (recbptr ed) /\
    mdeg w = mdeg sm /\ PREQsm.lostResponses (thisSM w) = 0 /\ port w = port sm /\
    PREQsm.detectedFaults (thisSM w) = PREQsm.detectedFaults (thisSM sm)).
  { change (t1ts64 w) with (t1ts64 y). change (t2ts64 w) with (t2ts64 y). change (t3ts64 w) with (t3ts64 y).
    change (t4ts64 w) with (t4ts64 y). change (ptasg w) with (ptasg y). change (recPdelayResp w) with (recPdelayResp y).
    change (mdeg w) with (mdeg y). change (port w) with (port y).
    change (PREQsm.detectedFaults (thisSM w)) with (PREQsm.detectedFaults (thisSM y)).
    rewrite PR, K5, VC, PT. split_and!; try congruence; done. }
  clearbody w. destruct W as (W1 & W2 & W3 & W4 & W5 & W6 & W7 & W8 & W9 & W10).
  assert (Ep : UNs.nsec (PPGALL.neighborPropDelay (port y)) = UNs.nsec (PPGALL.neighborPropDelay (port sm))) by (by rewrite PX).
  set (prev := UNs.nsec (PPGALL.neighborPropDelay (port y))) in *. clearbody prev. subst z.
  destruct (measured_link d o w) as (N1 & N2 & N3 & N4 & N5 & N6); try congruence; try (rewrite ?W1, ?W2, ?W3, ?W4; done).
  { unfold foreign. apply bool_decide_eq_true_2. congruence. }
  assert (J : verdict d sm (judge prev (measure w))) by (rewrite Ep; apply judge_verdict; congruence).
  assert (LR : PREQsm.lostResponses (thisSM (judge prev (measure w))) = PREQsm.lostResponses (thisSM (measure w))).
  { unfold judge, detectedfault, noascapable, set_delay. cbv zeta. repeat destruct_cond; done. }
  split_and!; try done. cbn [thisSM upd]. congruence.
Qed.
End Exchange.
End PREQ.
