(* ===== verification/PdelayResp.v ===== *)
(** * PdelayResp: md_pdelay_resp_sm.c, the responder of the peer delay measurement.

    Every Pdelay_Req is answered by a Pdelay_Resp with the time of its reception;
    when the transmit timestamp of the response is known, a
    Pdelay_Resp_Follow_Up carries it.  The last section composes the responder
    with the initiator of [PdelayReq]. *)

From S2P Require Import Prelude Types Floats Driver Common Clock Wire Perfmon Media PdelayReq.

Definition PDELAY_RESP_FOLLOW_UP : Z := 10.

Module PRESPsm.

Record MDPdelayRespSM := mk {
  rcvdPdelayReq : bool;
  rcvdMDTimestampReceive : bool;
  txPdelayRespPtr : bool;            (* designates txPdelayResp; false: NULL *)
  txPdelayRespFollowUpPtr : bool;    (* designates txPdelayRespFollowUp *)
  portEnabled1 : bool;
  rcvdPdelayReqPtr : bool            (* designates the copy of the request *)
}.
#[export] Instance eta_MDPdelayRespSM : Eta MDPdelayRespSM :=
  fields! mk [rcvdPdelayReq, rcvdMDTimestampReceive, txPdelayRespPtr, txPdelayRespFollowUpPtr,
              portEnabled1, rcvdPdelayReqPtr].
#[export] Instance zero_MDPdelayRespSM : Zero MDPdelayRespSM := mk false false false false false false.

End PRESPsm.
Export (hints) PRESPsm.
Abbreviation MDPdelayRespSM := PRESPsm.MDPdelayRespSM.

Module PRSP.

Inductive md_pdelay_resp_state_t :=
| INIT | NOT_ENABLED | INITIAL_WAITING_FOR_PDELAY_REQ | WAITING_FOR_PDELAY_REQ
| SENT_PDELAY_RESP_WAITING_FOR_TIMESTAMP | REACTION.
#[export] Instance state_eqdec : EqDecision md_pdelay_resp_state_t.
Proof. solve_decision. Defined.

Record md_pdelay_resp_data := mk {
  gpnetd : option (list (list Z));   (* the frames given to the network *)
  ptasg : PerTimeAwareSystemGlobal;
  ppg : PerPortGlobal;
  state : md_pdelay_resp_state_t;
  last_state : md_pdelay_resp_state_t;
  thisSM : MDPdelayRespSM;
  portIndex : Z;
  rcvdPdelayReq : list Z;
  txPdelayResp : list Z;
  txPdelayRespFollowUp : list Z;
  ts2 : Z;
  ts3 : Z;
  txPdelayResp_time : Z;
  cmlds_mode : Z;
  last_seqid : Z;
  mock_txts64 : Z;
  is2011BackwardCompatible : bool
}.
#[export] Instance eta_data : Eta md_pdelay_resp_data :=
  fields! mk [gpnetd, ptasg, ppg, state, last_state, thisSM, portIndex, rcvdPdelayReq, txPdelayResp,
              txPdelayRespFollowUp, ts2, ts3, txPdelayResp_time, cmlds_mode, last_seqid, mock_txts64,
              is2011BackwardCompatible].
Abbreviation data := md_pdelay_resp_data.

Section Procs.
Context `{WC : WireConfig} `{CF : Config} `{ME : Media}.

(** sdoId and domain number: those of the request in CMLDS mode, otherwise domain 0's *)
Definition setMajorSdoIdPdelayResp (sm : data) (sdata : list Z) : list Z :=
  if negb (cmlds_mode sm =? 0) then
    memcpy_at 4 [octet 4 (rcvdPdelayReq sm)]
      (memcpy_at 0 [Z.lor (Z.land (octet 0 sdata) 0x0F) (majorSdoId (rcvdPdelayReq sm))] sdata)
  else memcpy_at 4 [0] (memcpy_at 0 [Z.lor (Z.land (octet 0 sdata) 0x0F) 0x10] sdata).

(** both messages: the header with the number of the request, a time (UB_NSEC2TS, the signed
    division) and the port that asked; None without a network *)
Definition response_frame (msgtype ts : Z) (sm : data) : option (list Z) :=
  option_map (fun sdata =>
      memcpy_at 44 (source_port (rcvdPdelayReq sm))
        (memcpy_at 40 (be_bytes 4 (u32 (Z.rem ts 1000000000)))
          (memcpy_at 36 (be_bytes 4 (u32 (Z.quot ts 1000000000)))
            (setMajorSdoIdPdelayResp sm sdata))))
    (md_header_compose (gpnetd sm) msgtype (Z.of_nat PDELAY_SIZE) (PTASG.thisClock (ptasg sm))
       (PPG.thisPort (ppg sm)) (sequenceId (rcvdPdelayReq sm)) 0x7f).

Definition setPdelayResp (sm : data) : data :=
  match response_frame PDELAY_RESP (ts2 sm) sm with
  | Some f => sm <| txPdelayResp := f |> <| thisSM; PRESPsm.txPdelayRespPtr := true |>
  | None => sm <| thisSM; PRESPsm.txPdelayRespPtr := false |>
  end.

Definition setPdelayRespFollowUp (sm : data) : data :=
  match response_frame PDELAY_RESP_FOLLOW_UP (ts3 sm) sm with
  | Some f => sm <| txPdelayRespFollowUp := f |> <| thisSM; PRESPsm.txPdelayRespFollowUpPtr := true |>
  | None => sm <| thisSM; PRESPsm.txPdelayRespFollowUpPtr := false |>
  end.

Definition allstate_condition (sm : data) : md_pdelay_resp_state_t :=
  if PTASG.BEGIN (ptasg sm) || negb (PPGALL.portOper (PPG.forAllDomain (ppg sm))) ||
     negb (PRESPsm.portEnabled1 (thisSM sm))
  then NOT_ENABLED else state sm.

Definition not_enabled_proc (sm : data) : data := sm.

Definition not_enabled_condition (sm : data) : md_pdelay_resp_state_t :=
  if PRESPsm.portEnabled1 (thisSM sm) then INITIAL_WAITING_FOR_PDELAY_REQ else NOT_ENABLED.

Definition initial_waiting_for_pdelay_req_proc (sm : data) : data :=
  sm <| thisSM; PRESPsm.rcvdPdelayReq := false |> <| last_seqid := -1 |>.

Definition initial_waiting_for_pdelay_req_condition (sm : data) : md_pdelay_resp_state_t :=
  if PRESPsm.rcvdPdelayReq (thisSM sm) then SENT_PDELAY_RESP_WAITING_FOR_TIMESTAMP
  else INITIAL_WAITING_FOR_PDELAY_REQ.

(** a pointer is used before it is known: the request's, and the network in the send *)
Definition waiting_for_pdelay_req_proc (sm : data) : option (data * Z) :=
  via (PRESPsm.rcvdPdelayReqPtr (thisSM sm)) (
    let sm := setPdelayRespFollowUp sm in
    match gpnetd sm with
    | None => None
    | Some net =>
        if send_whook net (txPdelayRespFollowUp sm) =? -1 then Some (sm, -1)
        else Some (sm <| gpnetd := Some (net ++ [txPdelayRespFollowUp sm]) |>
                      <| ppg; PPG.perfmonDS ::=
                           PERFMON_PPMDR (fun r => r <| PortDR.pDelayRespFollowUpTx ::= inc32 |>) |>, 0)
    end).

Definition waiting_for_pdelay_req_condition (sm : data) : md_pdelay_resp_state_t :=
  if PRESPsm.rcvdPdelayReq (thisSM sm) then SENT_PDELAY_RESP_WAITING_FOR_TIMESTAMP
  else WAITING_FOR_PDELAY_REQ.

Definition sent_pdelay_resp_waiting_for_timestamp_proc (cts64 : Z) (sm : data) : option (data * Z) :=
  via (PRESPsm.rcvdPdelayReqPtr (thisSM sm)) (
    let sm := setPdelayResp (sm <| thisSM; PRESPsm.rcvdPdelayReq := false |>)
                <| thisSM; PRESPsm.rcvdMDTimestampReceive := false |> in
    match gpnetd sm with
    | None => None
    | Some net =>
        let res := send_whook net (txPdelayResp sm) in
        if res =? -1 then Some (sm, -1)
        else
          let sm := sm <| gpnetd := Some (net ++ [txPdelayResp sm]) |>
                       <| txPdelayResp_time := cts64 |>
                       <| ppg; PPG.perfmonDS ::=
                            PERFMON_PPMDR (fun r => r <| PortDR.pDelayRespTx ::= inc32 |>) |> in
          if res <? 0 then Some (sm <| mock_txts64 := u64 (getts64 cts64) |>, - res)
          else Some (sm, res)
    end).

Definition sent_pdelay_resp_waiting_for_timestamp_condition (cts64 : Z) (sm : data) : data :=
  if PRESPsm.rcvdMDTimestampReceive (thisSM sm) then sm <| state := WAITING_FOR_PDELAY_REQ |>
  else if txtslost_time <=? u64 (cts64 - txPdelayResp_time sm) then
    if negb (mock_txts64 sm =? 0) then
      sm <| ts3 := i64 (mock_txts64 sm) |> <| mock_txts64 := 0 |> <| state := WAITING_FOR_PDELAY_REQ |>
    else sm <| last_state := REACTION |> <| state := SENT_PDELAY_RESP_WAITING_FOR_TIMESTAMP |>
  else sm <| state := SENT_PDELAY_RESP_WAITING_FOR_TIMESTAMP |>.

(** [Some tt] is the result 1: a response has been given to the driver *)
Definition switch (cts64 : Z) (state_change : bool) (sm : data) : data * ctl unit :=
  match state sm with
  | INIT => (sm <| state := NOT_ENABLED |>, Next)
  | NOT_ENABLED =>
      let sm := if state_change then not_enabled_proc sm else sm in
      (sm <| state := not_enabled_condition sm |>, Next)
  | INITIAL_WAITING_FOR_PDELAY_REQ =>
      let sm := if state_change then initial_waiting_for_pdelay_req_proc sm else sm in
      (sm <| state := initial_waiting_for_pdelay_req_condition sm |>, Next)
  | WAITING_FOR_PDELAY_REQ =>
      if state_change then
        match waiting_for_pdelay_req_proc sm with
        | None => (sm, Leave Crash)
        | Some (sm, res) =>
            if negb (res =? 0) then (sm <| last_state := REACTION |>, Leave (Ret None))
            else (sm <| state := waiting_for_pdelay_req_condition sm |>, Next)
        end
      else (sm <| state := waiting_for_pdelay_req_condition sm |>, Next)
  | SENT_PDELAY_RESP_WAITING_FOR_TIMESTAMP =>
      if state_change then
        match sent_pdelay_resp_waiting_for_timestamp_proc cts64 sm with
        | None => (sm, Leave Crash)
        | Some (sm, res) =>
            if res <? 0 then (sm <| last_state := REACTION |>, Leave (Ret None))
            else (sm, Leave (Ret (Some tt)))
        end
      else (sent_pdelay_resp_waiting_for_timestamp_condition cts64 sm, Next)
  | REACTION => (sm, Next)
  end.

Definition set_last (e : md_pdelay_resp_state_t) (sm : data) : data := sm <| last_state := e |>.
Definition set_allstate (sm : data) : data := sm <| state := allstate_condition sm |>.

Definition machine (cts64 : Z) : StateMachine data md_pdelay_resp_state_t unit := {|
  sm_state := state;
  sm_last := last_state;
  sm_set_last := set_last;
  sm_allstate := set_allstate;
  sm_switch := switch cts64;
  sm_state_set_last := fun _ _ => eq_refl;
  sm_last_set_last := fun _ _ => eq_refl
|}.

(** INIT, NOT_ENABLED, INITIAL_WAITING, a resting SENT, WAITING, the send *)
Definition fuel : nat := 8.

Definition md_pdelay_resp_sm (cts64 : Z) (sm : data) : data * outcome unit :=
  exec (M := machine cts64) fuel sm.

Definition md_pdelay_resp_sm_init (portIndex : Z) (gpnetd : option (list (list Z)))
    (ptasg : PerTimeAwareSystemGlobal) (ppg : PerPortGlobal) : data :=
  mk gpnetd ptasg ppg INIT INIT (zero <| PRESPsm.portEnabled1 := PPG.ptpPortEnabled ppg |>) portIndex
     (replicate PDELAY_SIZE 0) (replicate PDELAY_SIZE 0) (replicate PDELAY_SIZE 0) 0 0 0 CMLDS_MODE 0 0 true.

(** the request with its sdoId and its number checked; false: it is dropped *)
Definition take_request (edrecv : event_data_recv) (sm : data) : data * bool :=
  let sm := sm <| rcvdPdelayReq ::= recv_into PDELAY_SIZE (recbptr edrecv) |>
               <| thisSM; PRESPsm.rcvdPdelayReqPtr := true |> in
  let sdo := majorSdoId (rcvdPdelayReq sm) in
  if negb (sdo =? 0x10) && negb (sdo =? 0x20) then (sm, false)
  else
    let sm := sm <| is2011BackwardCompatible := (sdo =? 0x10) && (octet 4 (rcvdPdelayReq sm) =? 0) |> in
    let recsqid := sequenceId (rcvdPdelayReq sm) in
    if (0 <=? last_seqid sm) && negb (Z.land (last_seqid sm + 1) 0xffff =? recsqid)
    then (sm <| last_seqid := -1 |>, false)
    else (sm <| ppg; PPG.perfmonDS ::= PERFMON_PPMDR (fun r => r <| PortDR.pDelayReqRx ::= inc32 |>) |>
             <| last_seqid := recsqid |> <| thisSM; PRESPsm.rcvdPdelayReq := true |>
             <| ts2 := i64 (ts64 edrecv - TIv.scaledNanoseconds (PPG.ingressLatency (ppg sm))) |>, true).

Definition md_pdelay_resp_sm_recv_req (edrecv : event_data_recv) (cts64 : Z) (sm : data)
  : data * outcome unit :=
  let (sm, ok) := take_request edrecv sm in
  if ok then md_pdelay_resp_sm cts64 sm else (sm, Ret None).

Definition md_pdelay_resp_sm_txts (edtxts : event_data_txts) (cts64 : Z) (sm : data)
  : data * outcome unit :=
  match abnormal_timestamp (seqid edtxts) (txts edtxts) with
  | None => (sm, Ret None)
  | Some ts =>
      if bool_decide (state sm <> SENT_PDELAY_RESP_WAITING_FOR_TIMESTAMP) then (sm, Ret None)
      else if negb (PRESPsm.rcvdPdelayReqPtr (thisSM sm)) then (sm, Crash)
      else if negb (seqid edtxts =? sequenceId (rcvdPdelayReq sm)) then (sm, Ret None)
      else
        let (sm, o) := md_pdelay_resp_sm cts64
          (sm <| ts3 := i64 (tsconv ts + TIv.scaledNanoseconds (PPG.egressLatency (ppg sm))) |>
              <| thisSM; PRESPsm.rcvdMDTimestampReceive := true |>) in
        (sm, match o with Ret _ => Ret None | Crash => Crash end)
  end.

End Procs.

(** ** Termination *)

Section Ends.
Context `{WC : WireConfig} `{CF : Config} `{ME : Media}.

Definition rank (sm : data) : nat :=
  match state sm with
  | INIT => 6
  | NOT_ENABLED => 5
  | INITIAL_WAITING_FOR_PDELAY_REQ => 4
  | SENT_PDELAY_RESP_WAITING_FOR_TIMESTAMP => if bool_decide (last_state sm <> state sm) then 0 else 3
  | WAITING_FOR_PDELAY_REQ => 2
  | REACTION => 0
  end.

Lemma prsp_pass_eq cts64 sm :
  pass (M := machine cts64) sm =
  switch cts64 (bool_decide (last_state sm <> state sm)) (set_last (state sm) sm).
Proof. reflexivity. Qed.

(** a send leaves the states alone *)
Lemma sends_keep cts64 sm s res :
  waiting_for_pdelay_req_proc sm = Some (s, res) \/
  sent_pdelay_resp_waiting_for_timestamp_proc cts64 sm = Some (s, res) ->
  state s = state sm /\ last_state s = last_state sm.
Proof.
  unfold waiting_for_pdelay_req_proc, sent_pdelay_resp_waiting_for_timestamp_proc, via,
    setPdelayResp, setPdelayRespFollowUp.
  intros [H|H]; destruct (PRESPsm.rcvdPdelayReqPtr (thisSM sm)); try discriminate H; cbv zeta in H.
  - destruct (response_frame _ _ _); cbn [gpnetd upd] in H; (destruct (gpnetd sm); [|discriminate H]);
      destruct (_ =? -1); by injection H as <- _.
  - destruct (response_frame _ _ _); cbn [gpnetd upd] in H; (destruct (gpnetd sm); [|discriminate H]);
      (destruct (_ =? -1); [by injection H as <- _|]); destruct (_ <? 0); by injection H as <- _.
Qed.

Lemma response_turns cts64 sm sm' : turns (M := machine cts64) sm sm' -> (rank sm' < rank sm)%nat.
Proof.
  intros [H T]. rewrite prsp_pass_eq in H. change (last_state sm' <> state sm') in T.
  unfold switch in H. change (state (set_last (state sm) sm)) with (state sm) in H.
  unfold rank. set (c := bool_decide (last_state sm <> state sm)) in *. destruct (state sm) eqn:E.
  - injection H as <-. cbn. lia.
  - assert (H' : (set_last NOT_ENABLED sm) <| state := not_enabled_condition sm |> = sm')
      by (by destruct c; injection H as <-).
    clear H. subst sm'. revert T. unfold not_enabled_condition. cbn [state last_state set_last upd].
    destruct (PRESPsm.portEnabled1 _); [lia|done].
  - injection H as <-. revert T. unfold initial_waiting_for_pdelay_req_condition.
    destruct c; cbn [state last_state set_last upd thisSM initial_waiting_for_pdelay_req_proc PRESPsm.rcvdPdelayReq];
      [done|]. destruct (PRESPsm.rcvdPdelayReq _); [intros _; settle_changes; lia|done].
  - assert (H' : exists s, (state s = WAITING_FOR_PDELAY_REQ /\ last_state s = WAITING_FOR_PDELAY_REQ) /\
        s <| state := waiting_for_pdelay_req_condition s |> = sm').
    { destruct c; [|injection H as <-; by exists (set_last WAITING_FOR_PDELAY_REQ sm)].
      destruct (waiting_for_pdelay_req_proc _) as [[s res]|] eqn:P; [|discriminate H].
      destruct (sends_keep cts64 _ s res (or_introl P)) as [A B].
      destruct (negb (res =? 0)); [discriminate H|]. injection H as <-.
      exists s. split; [split; [rewrite A; exact E|exact B]|done]. }
    clear H. destruct H' as (s & [A B] & <-). revert T. cbn [state last_state upd]. unfold waiting_for_pdelay_req_condition.
    rewrite B. destruct (PRESPsm.rcvdPdelayReq _); [intros _; settle_changes; lia|done].
  - destruct c.
    + destruct (sent_pdelay_resp_waiting_for_timestamp_proc _ _) as [[s res]|]; [|discriminate H].
      destruct (res <? 0); discriminate H.
    + injection H as <-. revert T. unfold sent_pdelay_resp_waiting_for_timestamp_condition.
      repeat destruct_cond; cbn [state last_state upd set_last]; intros T; settle_changes; try done; lia.
  - injection H as <-. cbn in T. congruence.
Qed.

(** The evaluation always returns. *)
Lemma md_pdelay_resp_ends cts64 sm : is_Some (run (M := machine cts64) fuel sm).
Proof.
  apply (loop_ends (M := machine cts64) (fun _ => True) rank).
  - intros s s' _ H. split; [done|by apply (response_turns cts64)].
  - done.
  - unfold rank, fuel. destruct (state _); try destruct_cond; lia.
Qed.
End Ends.
(** ** A request answered *)

Section Answers.
Context `{WC : WireConfig} `{CF : Config} `{ME : Media}.

Definition ready (sm : data) : Prop :=
  PTASG.BEGIN (ptasg sm) = false /\ PPGALL.portOper (PPG.forAllDomain (ppg sm)) = true /\
  PRESPsm.portEnabled1 (thisSM sm) = true.
(** at rest, waiting for a request *)
Definition waiting (sm : data) : Prop :=
  last_state sm = state sm /\
  (state sm = INITIAL_WAITING_FOR_PDELAY_REQ \/ state sm = WAITING_FOR_PDELAY_REQ).
(** the response is out and waits for its timestamp *)
Definition awaiting (sm : data) : Prop :=
  last_state sm = SENT_PDELAY_RESP_WAITING_FOR_TIMESTAMP /\ state sm = SENT_PDELAY_RESP_WAITING_FOR_TIMESTAMP /\
  PRESPsm.rcvdPdelayReqPtr (thisSM sm) = true /\ PRESPsm.rcvdPdelayReq (thisSM sm) = false.

(** [s] answers the request of [x] *)
Definition same_request (x s : data) : Prop :=
  rcvdPdelayReq s = rcvdPdelayReq x /\ ptasg s = ptasg x /\ cmlds_mode s = cmlds_mode x /\
  PPG.thisPort (ppg s) = PPG.thisPort (ppg x) /\ PPG.egressLatency (ppg s) = PPG.egressLatency (ppg x) /\
  PPG.forAllDomain (ppg s) = PPG.forAllDomain (ppg x) /\
  PRESPsm.portEnabled1 (thisSM s) = PRESPsm.portEnabled1 (thisSM x) /\
  PRESPsm.rcvdPdelayReqPtr (thisSM s) = PRESPsm.rcvdPdelayReqPtr (thisSM x).

(** the frame of a message, when there is a network *)
Definition frame (msgtype ts : Z) (sm : data) : list Z :=
  default [] (response_frame msgtype ts (sm <| gpnetd := Some [] |>)).

Lemma response_frame_eq msgtype ts sm net :
  gpnetd sm = Some net -> response_frame msgtype ts sm = Some (frame msgtype ts sm).
Proof.
  intros N. unfold frame, response_frame, md_header_compose. cbn [gpnetd upd]. rewrite N. reflexivity.
Qed.

Lemma frame_ext msgtype ts x s : same_request x s -> frame msgtype ts s = frame msgtype ts x.
Proof.
  intros (A & B & C & D & _). unfold frame, response_frame, md_header_compose, setMajorSdoIdPdelayResp.
  cbn [gpnetd upd ptasg ppg cmlds_mode rcvdPdelayReq option_map default from_option]. by rewrite A, B, C, D.
Qed.

Lemma prsp_allstate_ready sm : ready sm -> set_allstate sm = sm.
Proof.
  intros (B & I & P). unfold set_allstate, allstate_condition. rewrite B, I, P. by destruct sm.
Qed.

Lemma response_eq cts64 sm o :
  ready sm -> loop (M := machine cts64) fuel sm = Some o -> md_pdelay_resp_sm cts64 sm = o.
Proof.
  intros R H. apply (exec_eq (M := machine cts64)). change (sm_allstate sm) with (set_allstate sm).
  by rewrite prsp_allstate_ready.
Qed.

(** the send of the response, or its refusal, after which the next evaluation sends again *)
Definition response_sent (net : list (list Z)) (x s : data) (o : outcome unit) : Prop :=
  let f := frame PDELAY_RESP (ts2 x) x in
  same_request x s /\ state s = SENT_PDELAY_RESP_WAITING_FOR_TIMESTAMP /\
  if send_whook net f =? -1 then o = Ret None /\ gpnetd s = Some net /\ last_state s = REACTION
  else o = Ret (Some tt) /\ gpnetd s = Some (net ++ [f]) /\ awaiting s.

Lemma sent_turn n cts64 x net :
  gpnetd x = Some net -> PRESPsm.rcvdPdelayReqPtr (thisSM x) = true -> 
  state x = SENT_PDELAY_RESP_WAITING_FOR_TIMESTAMP -> last_state x <> SENT_PDELAY_RESP_WAITING_FOR_TIMESTAMP ->
  exists s o, loop (M := machine cts64) (S n) x = Some (s, o) /\ response_sent net x s o.
Proof.
  intros N P E L. unfold response_sent.
  assert (F : forall y, gpnetd y = gpnetd x -> response_frame PDELAY_RESP (ts2 y) y = Some (frame PDELAY_RESP (ts2 y) y))
    by (intros y Y; apply (response_frame_eq _ _ _ net); congruence).
  destruct (pass (M := machine cts64) x) as [s c] eqn:PQ. pose proof PQ as Q. revert Q.
  rewrite prsp_pass_eq, bool_decide_eq_true_2 by congruence. unfold switch.
  change (state (set_last (state x) x)) with (state x). rewrite E.
  unfold sent_pdelay_resp_waiting_for_timestamp_proc, via, setPdelayResp. cbv zeta.
  change (PRESPsm.rcvdPdelayReqPtr (thisSM (set_last SENT_PDELAY_RESP_WAITING_FOR_TIMESTAMP x)))
    with (PRESPsm.rcvdPdelayReqPtr (thisSM x)). rewrite P.
  rewrite F by done. cbn [gpnetd upd set_last txPdelayResp]. rewrite N.
  change (frame PDELAY_RESP (ts2 (set_last SENT_PDELAY_RESP_WAITING_FOR_TIMESTAMP x <| thisSM; PRESPsm.rcvdPdelayReq := false |>))
    (set_last SENT_PDELAY_RESP_WAITING_FOR_TIMESTAMP x <| thisSM; PRESPsm.rcvdPdelayReq := false |>))
    with (frame PDELAY_RESP (ts2 x) x).
  set (f := frame PDELAY_RESP (ts2 x) x). set (res := send_whook net f).
  destruct (Z.eqb_spec res (-1)) as [Er|Er]; [change (-1 <? 0) with true|destruct (Z.ltb_spec res 0)];
    [|rewrite (proj2 (Z.ltb_ge (- res) 0)) by lia|rewrite (proj2 (Z.ltb_ge res 0)) by lia];
    clearbody f res; intros Q; injection Q as <- <-; eexists _, _;
    (split; [apply (loop_return (M := machine cts64)); exact PQ|]); clear PQ.
  - subst res. split_and!; done.
  - by split_and!.
  - by split_and!.
Qed.

(** the request has been taken *)
Lemma request_taken ed b x :
  take_request ed b = (x, true) ->
  state x = state b /\ last_state x = last_state b /\ gpnetd x = gpnetd b /\ ptasg x = ptasg b /\
  cmlds_mode x = cmlds_mode b /\ PPG.forAllDomain (ppg x) = PPG.forAllDomain (ppg b) /\
  PPG.thisPort (ppg x) = PPG.thisPort (ppg b) /\ PPG.egressLatency (ppg x) = PPG.egressLatency (ppg b) /\
  rcvdPdelayReq x = recv_into PDELAY_SIZE (recbptr ed) (rcvdPdelayReq b) /\
  PRESPsm.rcvdPdelayReq (thisSM x) = true /\ PRESPsm.rcvdPdelayReqPtr (thisSM x) = true /\
  PRESPsm.portEnabled1 (thisSM x) = PRESPsm.portEnabled1 (thisSM b) /\
  ts2 x = i64 (ts64 ed - TIv.scaledNanoseconds (PPG.ingressLatency (ppg b))) /\
  last_seqid x = sequenceId (rcvdPdelayReq x) /\ valid_sdo (rcvdPdelayReq x) = true.
Proof.
  unfold take_request. cbv zeta. set (r := rcvdPdelayReq (_ <| thisSM; PRESPsm.rcvdPdelayReqPtr := true |>)).
  assert (R : r = recv_into PDELAY_SIZE (recbptr ed) (rcvdPdelayReq b)) by done. clearbody r.
  destruct (negb (majorSdoId r =? 16) && negb (majorSdoId r =? 32)) eqn:S; [done|].
  assert (V : valid_sdo r = true).
  { unfold valid_sdo. by destruct (majorSdoId r =? 16), (majorSdoId r =? 32). }
  destruct ((0 <=? _) && _); [done|]. intros H. apply (f_equal fst) in H. cbn [fst] in H. subst x. rewrite R in *.
  split_and!; try done; exact R.
Qed.

Lemma recv_answers ed cts64 b x net :
  ready b -> waiting b -> gpnetd b = Some net -> take_request ed b = (x, true) ->
  exists s o, md_pdelay_resp_sm_recv_req ed cts64 b = (s, o) /\ response_sent net x s o.
Proof.
  intros (R1 & R2 & R3) [L E] N T. unfold md_pdelay_resp_sm_recv_req. rewrite T.
  apply request_taken in T as (T1 & T2 & T3 & T4 & T5 & T6 & T7 & T8 & T9 & T10 & T11 & T12 & _).
  assert (R : ready x) by (split_and!; congruence).
  assert (N' : gpnetd x = Some net) by congruence. clear T9.
  assert (S : pass (M := machine cts64) x = (x <| state := SENT_PDELAY_RESP_WAITING_FOR_TIMESTAMP |>, Next)).
  { rewrite prsp_pass_eq, bool_decide_eq_false_2 by (intros X; apply X; congruence).
    assert (Q : set_last (state x) x = x) by (rewrite T1, <- L, <- T2; by destruct x).
    rewrite Q. unfold switch. rewrite T1.
    destruct E as [-> | ->]; unfold initial_waiting_for_pdelay_req_condition, waiting_for_pdelay_req_condition;
      by rewrite T10. }
  assert (D : last_state x <> SENT_PDELAY_RESP_WAITING_FOR_TIMESTAMP)
    by (rewrite T2, L; destruct E as [-> | ->]; done).
  destruct (sent_turn 6 cts64 (x <| state := SENT_PDELAY_RESP_WAITING_FOR_TIMESTAMP |>) net) as (s & o & Q & W); try done.
  exists s, o. split; [|exact W]. apply response_eq; [exact R|]. unfold fuel.
  rewrite (loop_turn (M := machine cts64) _ _ _ (conj S D)). exact Q.
Qed.

(** the send of the follow-up *)
Definition follow_up_sent (net : list (list Z)) (x s : data) (o : outcome unit) : Prop :=
  let f := frame PDELAY_RESP_FOLLOW_UP (ts3 x) x in
  o = Ret None /\ state s = WAITING_FOR_PDELAY_REQ /\
  if send_whook net f =? -1 then gpnetd s = Some net /\ last_state s = REACTION
  else gpnetd s = Some (net ++ [f]) /\ waiting s.

Lemma prsp_follow_up_turn n cts64 x net :
  gpnetd x = Some net -> PRESPsm.rcvdPdelayReqPtr (thisSM x) = true ->
  PRESPsm.rcvdPdelayReq (thisSM x) = false ->
  state x = WAITING_FOR_PDELAY_REQ -> last_state x <> WAITING_FOR_PDELAY_REQ ->
  exists s o, loop (M := machine cts64) (S n) x = Some (s, o) /\ follow_up_sent net x s o.
Proof.
  intros N P Z E L. unfold follow_up_sent.
  destruct (pass (M := machine cts64) x) as [s c] eqn:PQ. pose proof PQ as Q. revert Q.
  rewrite prsp_pass_eq, bool_decide_eq_true_2 by congruence. unfold switch.
  change (state (set_last (state x) x)) with (state x). rewrite E.
  unfold waiting_for_pdelay_req_proc, via, setPdelayRespFollowUp. cbv zeta.
  change (thisSM (set_last WAITING_FOR_PDELAY_REQ x)) with (thisSM x). rewrite P.
  rewrite (response_frame_eq _ _ (set_last WAITING_FOR_PDELAY_REQ x) net) by exact N.
  cbn [gpnetd upd set_last txPdelayRespFollowUp]. rewrite N.
  change (frame PDELAY_RESP_FOLLOW_UP (ts3 (set_last WAITING_FOR_PDELAY_REQ x)) (set_last WAITING_FOR_PDELAY_REQ x))
    with (frame PDELAY_RESP_FOLLOW_UP (ts3 x) x).
  set (f := frame PDELAY_RESP_FOLLOW_UP (ts3 x) x). set (res := send_whook net f).
  destruct (Z.eqb_spec res (-1)) as [Er|Er]; cbn [negb Z.eqb];
    clearbody f res; intros Q; injection Q as <- <-.
  - eexists _, _. split; [apply (loop_return (M := machine cts64)); exact PQ|]. clear PQ. split_and!; try done; exact E.
  - assert (C : forall y, PRESPsm.rcvdPdelayReq (thisSM y) = false -> waiting_for_pdelay_req_condition y = WAITING_FOR_PDELAY_REQ)
      by (unfold waiting_for_pdelay_req_condition; by intros y ->).
    rewrite C in PQ by exact Z. eexists _, _. split; [apply (loop_stop (M := machine cts64)); [exact PQ|done]|]. clear PQ.
    split_and!; try done. split; [done|by right].
Qed.

Lemma txts_answers et ts cts64 b net :
  ready b -> awaiting b -> gpnetd b = Some net ->
  abnormal_timestamp (seqid et) (txts et) = Some ts -> seqid et = sequenceId (rcvdPdelayReq b) ->
  exists s o, md_pdelay_resp_sm_txts et cts64 b = (s, o) /\
    follow_up_sent net (b <| ts3 := i64 (tsconv ts + TIv.scaledNanoseconds (PPG.egressLatency (ppg b))) |>) s o.
Proof.
  intros R (L & E & P & Q) N A S. unfold md_pdelay_resp_sm_txts. rewrite A.
  rewrite bool_decide_eq_false_2 by (intros X; by apply X). rewrite P, S, Z.eqb_refl. cbn [negb].
  set (y := b <| ts3 := _ |>). set (x := y <| thisSM; PRESPsm.rcvdMDTimestampReceive := true |>).
  assert (N' : gpnetd x = Some net) by exact N. assert (R' : ready x) by exact R.
  assert (T : PRESPsm.rcvdMDTimestampReceive (thisSM x) = true) by done.
  assert (P' : PRESPsm.rcvdPdelayReqPtr (thisSM x) = true) by exact P.
  assert (Q' : PRESPsm.rcvdPdelayReq (thisSM x) = false) by exact Q.
  assert (L' : last_state x = state x) by (change (last_state b = state b); congruence).
  assert (E' : state x = SENT_PDELAY_RESP_WAITING_FOR_TIMESTAMP) by exact E.
  assert (S' : pass (M := machine cts64) x = (x <| state := WAITING_FOR_PDELAY_REQ |>, Next)).
  { rewrite prsp_pass_eq, bool_decide_eq_false_2 by (intros X; by apply X).
    assert (K : set_last (state x) x = x) by (rewrite <- L'; by destruct x).
    rewrite K. unfold switch. rewrite E'. unfold sent_pdelay_resp_waiting_for_timestamp_condition. by rewrite T. }
  assert (FX : same_request y x) by done. assert (TX : ts3 x = ts3 y) by done. clearbody x.
  assert (D : last_state x <> WAITING_FOR_PDELAY_REQ) by congruence.
  destruct (prsp_follow_up_turn 6 cts64 (x <| state := WAITING_FOR_PDELAY_REQ |>) net) as (s & o & F & W); try done.
  exists s, o. split.
  - assert (K : md_pdelay_resp_sm cts64 x = (s, o)).
    { apply response_eq; [exact R'|]. unfold fuel. rewrite (loop_turn (M := machine cts64) _ _ _ (conj S' D)). exact F. }
    rewrite K. destruct W as (-> & _). done.
  - revert W. unfold follow_up_sent.
    change (frame PDELAY_RESP_FOLLOW_UP (ts3 (x <| state := WAITING_FOR_PDELAY_REQ |>)) (x <| state := WAITING_FOR_PDELAY_REQ |>))
      with (frame PDELAY_RESP_FOLLOW_UP (ts3 x) x).
    by rewrite (frame_ext _ _ _ _ FX), TX.
Qed.

(** A Pdelay_Req that arrives while the port waits for one: with a wrong sdoId, or out of sequence,
    it is dropped without any answer, and after a gap in the numbers the next one is taken whatever its
    number; otherwise one Pdelay_Resp with the time of its reception goes to the driver, or, if the
    driver refuses it, the next evaluation makes it again. *)
Theorem request_answered ed cts64 b net :
  ready b -> waiting b -> gpnetd b = Some net ->
  let (s, o) := md_pdelay_resp_sm_recv_req ed cts64 b in
  let req := recv_into PDELAY_SIZE (recbptr ed) (rcvdPdelayReq b) in
  let in_sequence := (last_seqid b <? 0) || (Z.land (last_seqid b + 1) 0xffff =? sequenceId req) in
  if valid_sdo req && in_sequence then
    exists x, take_request ed b = (x, true) /\ rcvdPdelayReq x = req /\ last_seqid x = sequenceId req /\
      ts2 x = i64 (ts64 ed - TIv.scaledNanoseconds (PPG.ingressLatency (ppg b))) /\ response_sent net x s o
  else o = Ret None /\ gpnetd s = Some net /\ ready s /\ waiting s /\ (valid_sdo req = true -> last_seqid s = -1).
Proof.
  intros R W N. set (req := recv_into PDELAY_SIZE (recbptr ed) (rcvdPdelayReq b)). cbv zeta.
  destruct (valid_sdo req && _) eqn:V.
  - assert (T : exists x, take_request ed b = (x, true)).
    { apply andb_true_iff in V as [V1 V2]. unfold take_request. cbv zeta.
      change (rcvdPdelayReq (b <| rcvdPdelayReq ::= _ |> <| thisSM; PRESPsm.rcvdPdelayReqPtr := true |>)) with req.
      unfold valid_sdo in V1. rewrite <- negb_orb, V1. cbn [negb].
      match goal with |- context [?a && negb ?c] => assert (K : a && negb c = false) end.
      { change (last_seqid (b <| rcvdPdelayReq ::= _ |> <| thisSM; PRESPsm.rcvdPdelayReqPtr := true |> <| is2011BackwardCompatible := _ |>))
          with (last_seqid b).
        change (rcvdPdelayReq (b <| rcvdPdelayReq ::= _ |> <| thisSM; PRESPsm.rcvdPdelayReqPtr := true |> <| is2011BackwardCompatible := _ |>))
          with req.
        apply orb_true_iff in V2 as [V2| ->]; [|by rewrite andb_false_r]. rewrite Z.leb_antisym, V2. done. }
      rewrite K. by eexists. }
    destruct T as [x T]. destruct (recv_answers ed cts64 b x net R W N T) as (s & o & -> & S).
    exists x. pose proof (request_taken _ _ _ T) as (_ & _ & _ & _ & _ & _ & _ & _ & T9 & _ & _ & _ & T13 & T14 & _).
    split_and!; try exact T9; try exact T13; try done. by rewrite T14, T9.
  - unfold md_pdelay_resp_sm_recv_req.
    assert (T : exists x, take_request ed b = (x, false) /\ gpnetd x = Some net /\ ready x /\ waiting x /\
      (valid_sdo req = true -> last_seqid x = -1)).
    { unfold take_request. cbv zeta.
      change (rcvdPdelayReq (b <| rcvdPdelayReq ::= _ |> <| thisSM; PRESPsm.rcvdPdelayReqPtr := true |>)) with req.
      unfold valid_sdo in *. rewrite <- negb_orb. destruct (_ || _); cbn [negb andb] in *.
      - match goal with |- context [?a && negb ?c] => assert (K : a && negb c = true) end.
        { change (last_seqid (b <| rcvdPdelayReq ::= _ |> <| thisSM; PRESPsm.rcvdPdelayReqPtr := true |> <| is2011BackwardCompatible := _ |>))
            with (last_seqid b).
          change (rcvdPdelayReq (b <| rcvdPdelayReq ::= _ |> <| thisSM; PRESPsm.rcvdPdelayReqPtr := true |> <| is2011BackwardCompatible := _ |>))
            with req.
          apply orb_false_iff in V as [V2 ->]. by rewrite Z.leb_antisym, V2. }
        rewrite K. eexists. by split_and!.
      - eexists. by split_and!. }
    destruct T as (x & -> & T). by split.
Qed.

(** The transmit timestamp of the Pdelay_Resp: only with the number of the request it makes the
    Pdelay_Resp_Follow_Up, with that time plus the egress latency, go to the driver; with another
    number, or dropped by the test hook, it changes nothing. *)
Theorem response_followed_up et cts64 b net :
  ready b -> awaiting b -> gpnetd b = Some net ->
  let (s, o) := md_pdelay_resp_sm_txts et cts64 b in
  match abnormal_timestamp (seqid et) (txts et) with
  | Some ts =>
      if seqid et =? sequenceId (rcvdPdelayReq b) then
        follow_up_sent net (b <| ts3 := i64 (tsconv ts + TIv.scaledNanoseconds (PPG.egressLatency (ppg b))) |>) s o
      else s = b /\ o = Ret None
  | None => s = b /\ o = Ret None
  end.
Proof.
  intros R W N. destruct (abnormal_timestamp (seqid et) (txts et)) as [ts|] eqn:A.
  - destruct (Z.eqb_spec (seqid et) (sequenceId (rcvdPdelayReq b))) as [S|S].
    + by destruct (txts_answers et ts cts64 b net R W N A S) as (s & o & -> & F).
    + destruct W as (_ & E & P & _). unfold md_pdelay_resp_sm_txts.
      rewrite A, bool_decide_eq_false_2 by (intros X; by apply X).
      rewrite P, (proj2 (Z.eqb_neq _ _)) by done. done.
  - unfold md_pdelay_resp_sm_txts. by rewrite A.
Qed.

End Answers.

(** ** The two ends of a link *)

Section Link.
Context `{WC : WireConfig} `{CF : Config} `{CV : Conversions} `{HO : HostOrder} `{ME : Media}.

(** the sdoId is the upper half of the first octet *)
Lemma sdo_of_or a r : 0 <= a < 16 -> majorSdoId [Z.lor a (Z.land r 0xF0)] = Z.land r 0xF0.
Proof.
  intros A. unfold majorSdoId, octet. cbn [nth]. rewrite Z.land_lor_distr_l, <- Z.land_assoc.
  change (Z.land 0xF0 0xF0) with 0xF0.
  assert (K : Z.land a 0xF0 = 0).
  { apply Z.bits_inj'. intros n Hn. rewrite Z.land_spec, Z.bits_0.
    destruct (Z.ltb_spec n 4).
    - assert (T : Z.testbit 0xF0 n = false) by (assert (C : n = 0 \/ n = 1 \/ n = 2 \/ n = 3) by lia; destruct C as [C|[C|[C|C]]]; by subst).
      by rewrite T, andb_false_r.
    - assert (a = 0 \/ 0 < a) as [-> |] by lia; [by rewrite Z.bits_0|].
      rewrite Z.bits_above_log2; [done|lia|]. apply Z.lt_le_trans with 4; [|lia]. apply Z.log2_lt_pow2; lia. }
  by rewrite K.
Qed.

(** what a receiver reads of a response *)
Lemma frame_reads msgtype ts b rest :
  (msgtype = PDELAY_RESP \/ msgtype = PDELAY_RESP_FOLLOW_UP) ->
  length (PTASG.thisClock (ptasg b)) = 8%nat -> (54 <= length (rcvdPdelayReq b))%nat ->
  fits 16 (sequenceId (rcvdPdelayReq b)) -> valid_sdo (rcvdPdelayReq b) = true ->
  0 <= ts < 2 ^ 32 * UB_SEC_NS ->
  let f := frame msgtype ts b ++ rest in
  (54 <= length f)%nat /\ valid_sdo f = true /\
  source_port f = PTASG.thisClock (ptasg b) ++ be_bytes 2 (PPG.thisPort (ppg b)) /\
  requesting_clockIdentity f = source_clockIdentity (rcvdPdelayReq b) /\
  requesting_portNumber f = ntoh 28 2 (rcvdPdelayReq b) /\
  sequenceId f = sequenceId (rcvdPdelayReq b) /\ response_time f = ts.
Proof.
  intros M C L S V T. cbv zeta. unfold frame, response_frame, setMajorSdoIdPdelayResp, md_header_compose.
  cbn [gpnetd upd option_map ptasg ppg cmlds_mode rcvdPdelayReq default from_option].
  change (Z.to_nat (Z.of_nat PDELAY_SIZE)) with (34 + 20)%nat.
  destruct (PTASG.thisClock (ptasg b)) as [|c0 [|c1 [|c2 [|c3 [|c4 [|c5 [|c6 [|c7 [|]]]]]]]]]; try discriminate C.
  rewrite compose_in_cleared by done.
  assert (P : exists p0 p1 p2 p3 p4 p5 p6 p7 p8 p9, source_port (rcvdPdelayReq b) = [p0;p1;p2;p3;p4;p5;p6;p7;p8;p9]).
  { assert (K : length (source_port (rcvdPdelayReq b)) = 10%nat)
      by (unfold source_port, octets; rewrite length_take, length_drop; lia).
    destruct (source_port (rcvdPdelayReq b)) as [|p0 [|p1 [|p2 [|p3 [|p4 [|p5 [|p6 [|p7 [|p8 [|p9 [|]]]]]]]]]]]; try discriminate K.
    by eexists _, _, _, _, _, _, _, _, _, _. }
  destruct P as (p0 & p1 & p2 & p3 & p4 & p5 & p6 & p7 & p8 & p9 & P).
  assert (E1 : source_clockIdentity (rcvdPdelayReq b) = [p0;p1;p2;p3;p4;p5;p6;p7])
    by (rewrite PREQ.clock_of_port, P; done).
  assert (E2 : ntoh 28 2 (rcvdPdelayReq b) = be_val [p8;p9]) by (by rewrite PREQ.number_of_port, P).
  assert (Q : u16 (sequenceId (rcvdPdelayReq b)) = sequenceId (rcvdPdelayReq b)) by (by apply wrap_id).
  assert (T1 : u32 (Z.quot ts 1000000000) = ts / 1000000000 /\ fits 32 (ts / 1000000000)).
  { unfold UB_SEC_NS in T. rewrite Z.quot_div_nonneg by lia.
    assert (F : fits 32 (ts / 1000000000)) by (unfold fits; split; [apply Z.div_pos|apply Z.div_lt_upper_bound]; lia).
    split; [by apply wrap_id|done]. }
  assert (T2 : u32 (Z.rem ts 1000000000) = ts mod 1000000000 /\ fits 32 (ts mod 1000000000)).
  { rewrite Z.rem_mod_nonneg by lia. pose proof (Z.mod_pos_bound ts 1000000000 ltac:(lia)).
    assert (F : fits 32 (ts mod 1000000000)) by (unfold fits; lia). split; [by apply wrap_id|done]. }
  destruct T1 as [T1 F1], T2 as [T2 F2]. rewrite T1, T2, P, E1, E2.
  set (t1 := ts / 1000000000) in *. set (t2 := ts mod 1000000000) in *.
  assert (TS : u64 (t1 * UB_SEC_NS + t2) = ts).
  { unfold t1, t2, UB_SEC_NS in *. rewrite Z.mul_comm, <- Z.div_mod by lia. apply wrap_id. unfold fits. lia. }
  clearbody t1 t2. set (sq := sequenceId (rcvdPdelayReq b)) in *. unfold head_octets.
  match goal with |- context [?x ++ rest] => set (f := x ++ rest) end.
  assert (R : octets 20 10 f = [c0; c1; c2; c3; c4; c5; c6; c7] ++ be_bytes 2 (PPG.thisPort (ppg b)) /\
    octets 30 2 f = be_bytes 2 (u16 sq) /\ octets 36 4 f = be_bytes 4 t1 /\ octets 40 4 f = be_bytes 4 t2 /\
    octets 44 8 f = [p0; p1; p2; p3; p4; p5; p6; p7] /\ octets 52 2 f = [p8; p9] /\ (54 <= length f)%nat /\
    octet 0 f = Z.lor (Z.land (u8 (Z.lor (Z.shiftl 1 4) msgtype)) 0x0F)
      (if negb (cmlds_mode b =? 0) then majorSdoId (rcvdPdelayReq b) else 0x10)).
  { unfold f. destruct (cmlds_mode b =? 0); cbn [negb]; split_and!; try reflexivity;
      rewrite length_app; apply Nat.le_add_r. }
  clearbody f. destruct R as (R1 & R2 & R3 & R4 & R5 & R6 & R7 & R8).
  unfold source_port, requesting_clockIdentity, requesting_portNumber, sequenceId, response_time, ntoh.
  rewrite R1, R2, R3, R4, R5, R6. split_and!; try done.
  - assert (S0 : exists r, (if negb (cmlds_mode b =? 0) then majorSdoId (rcvdPdelayReq b) else 16) = Z.land r 0xF0 /\
        (Z.land r 0xF0 = 0x10 \/ Z.land r 0xF0 = 0x20)).
    { destruct (cmlds_mode b =? 0); cbn [negb]; [exists 0x10; split; [done|by left]|].
      exists (octet 0 (rcvdPdelayReq b)). split; [done|]. revert V. unfold valid_sdo, majorSdoId.
      generalize (Z.land (octet 0 (rcvdPdelayReq b)) 240). intros z V. apply orb_true_iff in V as [V|V]; bool_hyps; auto. }
    destruct S0 as (r & S0 & S1). rewrite S0 in R8.
    assert (K : majorSdoId f = Z.land r 0xF0).
    { transitivity (majorSdoId [octet 0 f]); [done|]. rewrite R8. destruct M as [-> | ->]; by apply sdo_of_or. }
    unfold valid_sdo. rewrite K. by destruct S1 as [-> | ->].
  - rewrite be_fits by (apply wrap_fits; lia). exact Q.
  - rewrite !be_fits by done. exact TS.
Qed.
(** what a receiver reads of the request that is out *)
Lemma request_reads a f rest :
  PREQ.pdelay_req_frame a = Some f -> length (PTASG.thisClock (PREQ.ptasg a)) = 8%nat ->
  let r := f ++ rest in
  (54 <= length r)%nat /\ valid_sdo r = true /\
  source_port r = PTASG.thisClock (PREQ.ptasg a) ++ be_bytes 2 (PPG.thisPort (PREQ.ppg a)) /\
  sequenceId r = u16 (PREQsm.pdelayReqSequenceId (PREQ.thisSM a)).
Proof.
  intros F C. cbv zeta. revert F. unfold PREQ.pdelay_req_frame, md_header_compose.
  destruct (PREQ.gpnetd a); [|discriminate]. cbn [option_map].
  change (Z.to_nat (Z.of_nat PDELAY_SIZE)) with (34 + 20)%nat.
  destruct (PTASG.thisClock (PREQ.ptasg a)) as [|c0 [|c1 [|c2 [|c3 [|c4 [|c5 [|c6 [|c7 [|]]]]]]]]]; try discriminate C.
  rewrite compose_in_cleared by done. unfold head_octets. intros F. injection F as <-.
  unfold sequenceId, ntoh, valid_sdo, majorSdoId, source_port.
  assert (K : forall q, be_val (be_bytes 2 (u16 q)) = u16 q) by (intros q; apply be_fits, wrap_fits; lia).
  destruct (negb (PREQ.cmlds_mode a =? 0)); (split_and!; [|reflexivity|reflexivity|exact (K _)]);
    rewrite length_app; apply Nat.le_add_r.
Qed.

(** the driver takes every frame and the timestamps arrive unchanged *)
Definition good_medium : Prop :=
  (forall net f, send_whook net f <> -1) /\ (forall q t, abnormal_timestamp q t = Some t).

(** the responder's part: its two frames *)
Lemma both_frames_sent ed u3 c1 c2 b x net :
  good_medium -> ready b -> waiting b -> gpnetd b = Some net -> take_request ed b = (x, true) ->
  let b1 := (md_pdelay_resp_sm_recv_req ed c1 b).1 in
  let t3 := i64 (tsconv u3 + TIv.scaledNanoseconds (PPG.egressLatency (ppg b))) in
  let (b2, o) := md_pdelay_resp_sm_txts (ev_txts (sequenceId (rcvdPdelayReq x)) u3) c2 b1 in
  gpnetd b2 = Some (net ++ [frame PDELAY_RESP (ts2 x) x; frame PDELAY_RESP_FOLLOW_UP t3 x]) /\ waiting b2.
Proof.
  intros [G1 G2] R W N T. cbv zeta. destruct (recv_answers ed c1 b x net R W N T) as (s & o & -> & S). cbn [fst].
  destruct (request_taken _ _ _ T) as (_ & _ & _ & T4 & _ & T6 & _ & T8 & _ & _ & _ & T12 & _).
  destruct S as (S1 & _ & S). rewrite (proj2 (Z.eqb_neq (send_whook net _) (-1)) (G1 _ _)) in S. destruct S as (_ & S2 & S3).
  pose proof S1 as (Q1 & Q2 & _ & _ & Q5 & Q6 & Q7 & _).
  assert (R' : ready s) by (destruct R as (R1 & R2 & R3); split_and!; congruence).
  destruct (txts_answers (ev_txts (sequenceId (rcvdPdelayReq x)) u3) u3 c2 s _ R' S3 S2 (G2 _ _)) as (s2 & o2 & E & F);
    [cbn [seqid]; by rewrite Q1|].
  rewrite E. destruct F as (_ & _ & F). rewrite (proj2 (Z.eqb_neq (send_whook _ _) (-1)) (G1 _ _)) in F. destruct F as [F1 F2].
  split; [|exact F2]. rewrite F1, <- app_assoc. cbn [app].
  match goal with |- context [frame PDELAY_RESP_FOLLOW_UP _ ?y] =>
    rewrite (frame_ext PDELAY_RESP_FOLLOW_UP _ x y S1) end.
  cbn [ts3 upd]. by rewrite Q5, T8.
Qed.

(** C9. The peer delay over a link, from end to end: the initiator's request, the responder's Pdelay_Resp
    and Pdelay_Resp_Follow_Up, each read from the octets the other side gave to its driver, in time, on
    a link with the same delay [d] both ways of at most 10 ms, clocks [o] apart (any times until 2106,
    the answer within 26 days), the initiator's rate ratio being 1 and staying so.  Then the initiator
    judges the delay [d] exactly: from the port's minimum to its threshold it becomes the port's delay
    and the link is capable; otherwise the previous delay and capability stay while the faults are no
    more than allowed, and then the link is not capable.  The responder waits for the next request. *)
Theorem peer_delay_measured a b net x r2 u3 r4 tf c1 c2 c3 c4 pad pad' pad'' d o :
  let t1 := PREQ.t1ts64 a in
  let t2 := i64 (r2 - TIv.scaledNanoseconds (PPG.ingressLatency (ppg b))) in
  let t3 := i64 (tsconv u3 + TIv.scaledNanoseconds (PPG.egressLatency (ppg b))) in
  let t4 := u64 (r4 - TIv.scaledNanoseconds (PPG.ingressLatency (PREQ.ppg a))) in
  let request := ev_recv r2 (PREQ.txPdeayReq a ++ pad) in
  good_medium -> PREQ.measuring a -> PREQ.requested a ->
  PREQ.pdelay_req_frame a = Some (PREQ.txPdeayReq a) ->
  length (PTASG.thisClock (PREQ.ptasg a)) = 8%nat -> fits 16 (PPG.thisPort (PREQ.ppg a)) ->
  PREQ.isPdelayIntervalTimerExpired c3 a = false -> PREQ.isPdelayIntervalTimerExpired c4 a = false ->
  PPGALL.asymmetryMeasurementMode (PPG.forAllDomain (PREQ.ppg a)) = false ->
  PPGALL.computeNeighborPropDelay (PPG.forAllDomain (PREQ.ppg a)) = true ->
  PREQ.same_rate t2 a ->
  ready b -> waiting b -> gpnetd b = Some net -> length (rcvdPdelayReq b) = 54%nat ->
  length (PTASG.thisClock (ptasg b)) = 8%nat -> PTASG.thisClock (ptasg b) <> PTASG.thisClock (PREQ.ptasg a) ->
  take_request request b = (x, true) ->
  PREQ.symmetric_times d o t1 t2 t3 t4 -> d <= 10000000 ->
  let b1 := (md_pdelay_resp_sm_recv_req request c1 b).1 in
  let (b2, _) := md_pdelay_resp_sm_txts (ev_txts (sequenceId (PREQ.txPdeayReq a)) u3) c2 b1 in
  waiting b2 /\
  exists resp fup, gpnetd b2 = Some (net ++ [resp; fup]) /\
    let a1 := (PREQ.md_pdelay_req_sm_recv_resp (ev_recv r4 (resp ++ pad')) c3 a).1 in
    let (s, r) := PREQ.md_pdelay_req_sm_recv_respfup (ev_recv tf (fup ++ pad'')) c4 a1 in
    r = Ret None /\ PREQ.verdict d a s.
Proof.
  cbv zeta. intros G M Q F CA PA X3 X4 AS CP SR R W N LB CB D T ST B.
  pose proof ST as (T1 & T2 & T3 & T4 & _).
  destruct (request_taken _ _ _ T) as (_ & _ & _ & K4 & _ & _ & _ & _ & K9 & _ & _ & _ & K13 & _ & K15).
  cbn [recbptr ts64] in *.
  destruct (request_reads a _ pad F CA) as (A1 & A2 & A3 & A4).
  destruct (request_reads a _ [] F CA) as (_ & _ & _ & A5). rewrite app_nil_r in A5.
  destruct (PREQ.preq_received_fields _ (rcvdPdelayReq b) A1) as (_ & _ & V3 & _ & _ & V6 & _).
  rewrite <- K9 in V3, V6. rewrite A4, <- A5 in V6. rewrite A3 in V3.
  assert (SQ : fits 16 (sequenceId (rcvdPdelayReq x))) by (rewrite V6, A5; apply wrap_fits; lia).
  assert (LX : (54 <= length (rcvdPdelayReq x))%nat) by (rewrite K9, recv_into_length; [lia|unfold PDELAY_SIZE; lia]).
  pose proof (both_frames_sent _ u3 c1 c2 b x net G R W N T) as S. cbv zeta in S. rewrite V6 in S.
  destruct (md_pdelay_resp_sm_txts _ _ _) as [b2 o2]. destruct S as [S1 S2]. split; [exact S2|].
  eexists _, _. split; [exact S1|]. rewrite K13. rewrite <- K4 in CB, D.
  set (t2 := i64 (r2 - _)) in *. set (t3 := i64 (tsconv u3 + _)) in *.
  assert (U2 : 0 <= t2 < 2 ^ 32 * UB_SEC_NS) by assumption.
  assert (U3 : 0 <= t3 < 2 ^ 32 * UB_SEC_NS) by assumption.
  destruct (frame_reads PDELAY_RESP t2 x pad' (or_introl eq_refl) CB LX SQ K15 U2) as (I1 & I2 & I3 & I4 & I5 & I6 & I7).
  destruct (frame_reads PDELAY_RESP_FOLLOW_UP t3 x pad'' (or_intror eq_refl) CB LX SQ K15 U3)
    as (J1 & J2 & J3 & _ & _ & J6 & J7).
  clearbody t2 t3. revert I1 I2 I3 I4 I5 I6 I7 J1 J2 J3 J6 J7.
  generalize (frame PDELAY_RESP t2 x ++ pad') (frame PDELAY_RESP_FOLLOW_UP t3 x ++ pad''). intros resp fup. intros.
  assert (SC : source_clockIdentity (rcvdPdelayReq x) = PTASG.thisClock (PREQ.ptasg a))
    by (rewrite PREQ.clock_of_port, V3, <- CA; apply take_app_length).
  assert (SN : ntoh 28 2 (rcvdPdelayReq x) = PPG.thisPort (PREQ.ppg a)).
  { rewrite PREQ.number_of_port, V3, <- CA, drop_app_length. by apply (be_fits 2). }
  pose proof (PREQ.exchange_measured (ev_recv r4 resp) (ev_recv tf fup) c3 c4 d o a) as E. cbv zeta in E.
  cbn [recbptr ts64] in E. rewrite I7, J7 in E.
  destruct (PREQ.md_pdelay_req_sm_recv_respfup _ _ _) as [s r]. cbv iota in E.
  destruct E as (Z1 & _ & Z3 & _); try done; try congruence.
  { split_and!; try done; try congruence. rewrite PREQ.clock_of_port, I3, <- CB, take_app_length. exact D. }
Qed.
End Link.
End PRSP.


(** ** Witnesses: an initiator A and a responder B, 300 ns apart *)

Module PDelayWitness.
Import (hints) PREQ.
Import (hints) PRSP.

#[local] Existing Instance conversions0.
#[local] Existing Instance media0.
#[local] Existing Instance config0.
#[local] Existing Instance little_endian.
#[local] Instance wire0 : WireConfig :=
  {| MINOR_VERSION_NUMBER := fun _ => 1; PTP_TIMESCALE := 1; MODE_8021_AS_2011 := false |}.

Definition clockA : list Z := [2;0;0;0;0;0;0;1].
Definition clockB : list Z := [2;0;0;0;0;0;0;2].

Definition linkA : MDEntityGlobal :=
  zero <| MDEG.forAllDomain; MDEGALL.pdelayReqInterval := UNs.mk 0 1000000000 0 |>
       <| MDEG.forAllDomain; MDEGALL.neighborPropDelayThresh := UNs.mk 0 800000 0 |>
       <| MDEG.forAllDomain; MDEGALL.allowedLostResponses := 3 |>
       <| MDEG.forAllDomain; MDEGALL.allowedFaults := 9 |>.
Definition portA : PerPortGlobal :=
  zero <| PPG.ptpPortEnabled := true |> <| PPG.thisPort := 1 |>
       <| PPG.forAllDomain; PPGALL.portOper := true |>
       <| PPG.forAllDomain; PPGALL.computeNeighborPropDelay := true |>
       <| PPG.forAllDomain; PPGALL.neighborRateRatio := d1 |>.
Definition portB : PerPortGlobal :=
  zero <| PPG.ptpPortEnabled := true |> <| PPG.thisPort := 2 |> <| PPG.forAllDomain; PPGALL.portOper := true |>.

(** A has sent its request at 1000 ns and has its timestamp; it waits for the response *)
Definition reqA : PREQ.data :=
  PREQ.setPdelayReq (PREQ.md_pdelay_req_sm_init 1 (Some []) (zero <| PTASG.thisClock := clockA |>) portA linkA
    <| PREQ.thisSM; PREQsm.pdelayReqSequenceId := 77 |>).
Definition a0 : PREQ.data :=
  reqA <| PREQ.state := PREQ.WAITING_FOR_PDELAY_RESP |> <| PREQ.last_state := PREQ.WAITING_FOR_PDELAY_RESP |>
       <| PREQ.t1ts64 := 1000 |>.
Definition b0 : PRSP.data :=
  PRSP.md_pdelay_resp_sm_init 2 (Some []) (zero <| PTASG.thisClock := clockB |>) portB
    <| PRSP.state := PRSP.WAITING_FOR_PDELAY_REQ |> <| PRSP.last_state := PRSP.WAITING_FOR_PDELAY_REQ |>
    <| PRSP.last_seqid := 76 |>.

Definition request : event_data_recv := ev_recv 6300 (PREQ.txPdeayReq a0 ++ []).

Lemma b0_ok : PRSP.ready b0 /\ PRSP.waiting b0 /\ PRSP.gpnetd b0 = Some [].
Proof. repeat split; right; reflexivity. Defined.

Lemma request_answered_witness :
  let (s, o) := PRSP.md_pdelay_resp_sm_recv_req request 7000 b0 in
  exists x, PRSP.take_request request b0 = (x, true) /\ PRSP.response_sent [] x s o.
Proof.
  pose proof (PRSP.request_answered request 7000 b0 [] (proj1 b0_ok) (proj1 (proj2 b0_ok)) eq_refl) as H.
  destruct (PRSP.md_pdelay_resp_sm_recv_req request 7000 b0) as [s o]. cbv zeta in H.
  match type of H with if ?c then _ else _ => assert (C : c = true) by (vm_compute; reflexivity); rewrite C in H end.
  destruct H as (x & H1 & _ & _ & _ & H2). exists x. exact (conj H1 H2).
Defined.

(** B with its response out *)
Definition b1 : PRSP.data :=
  b0 <| PRSP.rcvdPdelayReq := PREQ.txPdeayReq a0 |> <| PRSP.thisSM; PRESPsm.rcvdPdelayReqPtr := true |>
     <| PRSP.state := PRSP.SENT_PDELAY_RESP_WAITING_FOR_TIMESTAMP |>
     <| PRSP.last_state := PRSP.SENT_PDELAY_RESP_WAITING_FOR_TIMESTAMP |>.

Lemma response_followed_witness :
  let (s, o) := PRSP.md_pdelay_resp_sm_txts (ev_txts 77 7300) 8000 b1 in
  PRSP.follow_up_sent [] (b1 <| PRSP.ts3 := 7300 |>) s o.
Proof.
  exact (PRSP.response_followed_up (ev_txts 77 7300) 8000 b1 [] (conj eq_refl (conj eq_refl eq_refl))
    (conj eq_refl (conj eq_refl (conj eq_refl eq_refl))) eq_refl).
Defined.

Definition x0 : PRSP.data := (PRSP.take_request request b0).1.

Lemma good : PRSP.good_medium.
Proof. split; [intros net f; cbn; lia|intros q t; reflexivity]. Defined.

(** B's frames and what A makes of them: 300 ns, and a capable link *)
Lemma peer_delay_witness :
  let (b2, _) := PRSP.md_pdelay_resp_sm_txts (ev_txts (sequenceId (PREQ.txPdeayReq a0)) 7300) 8000
                   (PRSP.md_pdelay_resp_sm_recv_req request 7000 b0).1 in
  PRSP.waiting b2 /\
  exists resp fup, PRSP.gpnetd b2 = Some [resp; fup] /\
    let a1 := (PREQ.md_pdelay_req_sm_recv_resp (ev_recv 2600 (resp ++ [])) 9000 a0).1 in
    let (s, r) := PREQ.md_pdelay_req_sm_recv_respfup (ev_recv 0 (fup ++ [9])) 9500 a1 in
    UNs.nsec (PPGALL.neighborPropDelay (PPG.forAllDomain (PREQ.ppg s))) = 300 /\
    MDEGALL.asCapableAcrossDomains (MDEG.forAllDomain (PREQ.mdeg s)) = true.
Proof.
  pose proof (PRSP.peer_delay_measured a0 b0 [] x0 6300 7300 2600 0 7000 8000 9000 9500 [] [] [9] 300 5000
    good) as H. cbv zeta in H. change (ev_recv 6300 (PREQ.txPdeayReq a0 ++ [])) with request in H.
  destruct (PRSP.md_pdelay_resp_sm_txts _ _ _) as [b2 o]. cbv iota in H. destruct H as (Hw & resp & fup & Hn & Hv).
  all: match goal with
  | |- @eq _ _ _ => vm_compute; reflexivity
  | |- _ <= _ => vm_compute; discriminate
  | |- _ => idtac
  end.
  - repeat split; vm_compute; reflexivity.
  - repeat split; vm_compute; reflexivity.
  - vm_compute; intuition discriminate.
  - split; [vm_compute; reflexivity|left; vm_compute; reflexivity].
  - exact (proj1 b0_ok).
  - exact (proj1 (proj2 b0_ok)).
  - vm_compute; discriminate.
  - vm_compute; intuition discriminate.
  - split; [exact Hw|]. exists resp, fup. split; [exact Hn|]. cbv zeta.
    destruct (PREQ.md_pdelay_req_sm_recv_respfup _ _ _) as [s r]. destruct Hv as [_ V].
    unfold PREQ.verdict in V. cbv zeta in V.
    match type of V with if ?c then _ else _ => assert (C : c = true) by (vm_compute; reflexivity); rewrite C in V end.
    exact (conj (proj1 V) (proj1 (proj2 V))).
Defined.

(** the measurement itself, on the timestamps 1000, 6300, 7300 and 2600 *)
Definition stamped : PREQ.data :=
  a0 <| PREQ.t2ts64 := 6300 |> <| PREQ.t3ts64 := 7300 |> <| PREQ.t4ts64 := 2600 |>.

Lemma delay_witness : PREQ.computePropTime stamped = 300.
Proof.
  apply (proj2 (PREQ.delay_of_symmetric_link 300 5000 stamped)); try (vm_compute; reflexivity);
    vm_compute; intuition discriminate.
Defined.

(** a measured link 300 ns long; the same with the delay 900 us *)
Definition from_b (d : Z) : PREQ.data :=
  PREQ.set_delay d (stamped <| PREQ.recPdelayResp := PRSP.frame PDELAY_RESP 6300 x0 |>
    <| PREQ.thisSM; PREQsm.neighborRateRatioValid := true |>).

Lemma link_judged_witness :
  MDEGALL.asCapableAcrossDomains (MDEG.forAllDomain (PREQ.mdeg (PREQ.judge 0 (from_b 300)))) = true /\
  UNs.nsec (PPGALL.neighborPropDelay (PPG.forAllDomain (PREQ.ppg (PREQ.judge 300 (from_b 900000))))) = 300.
Proof.
  split.
  - apply (PREQ.link_judged 0 (from_b 300)); vm_compute; reflexivity.
  - apply (PREQ.link_judged 300 (from_b 900000)); vm_compute; first [reflexivity|discriminate].
Defined.

Lemma lost_witness :
  PREQsm.lostResponses (PREQ.thisSM (PREQ.reset_proc a0)) = 1.
Proof.
  assert (H := PREQ.lost_responses_counted a0 eq_refl).
  cbv zeta in H. exact (proj1 H).
Defined.

(** B's answer has been taken by A, which has the follow-up too: the evaluation that makes the link
    capable *)
Definition followed_up : PREQ.data :=
  PREQ.take_respfup (ev_recv 9500 (PRSP.frame PDELAY_RESP_FOLLOW_UP 7300 x0))
    (PREQ.md_pdelay_req_sm_recv_resp (ev_recv 2600 (PRSP.frame PDELAY_RESP 6300 x0)) 9000 a0).1.

Lemma capable_witness :
  MDEGALL.asCapableAcrossDomains (MDEG.forAllDomain (PREQ.mdeg followed_up)) = false /\
  let (s, o) := PREQ.md_pdelay_req_sm 9500 followed_up in
  MDEGALL.asCapableAcrossDomains (MDEG.forAllDomain (PREQ.mdeg s)) = true /\ PREQ.good_link s /\
  UNs.nsec (PPGALL.neighborPropDelay (PPG.forAllDomain (PREQ.ppg s))) = 300.
Proof.
  split; [vm_compute; reflexivity|].
  assert (E : let (s, o) := PREQ.md_pdelay_req_sm 9500 followed_up in
    MDEGALL.asCapableAcrossDomains (MDEG.forAllDomain (PREQ.mdeg s)) = true /\
    UNs.nsec (PPGALL.neighborPropDelay (PPG.forAllDomain (PREQ.ppg s))) = 300) by (vm_compute; split; reflexivity).
  pose proof (PREQ.capable_only_if_measured 9500 followed_up eq_refl) as H.
  destruct (PREQ.md_pdelay_req_sm 9500 followed_up) as [s o]. destruct E as [E1 E2].
  split; [exact E1|]. split; [|exact E2]. apply H; [|vm_compute; reflexivity|exact E1].
  exists []. vm_compute. reflexivity.
Defined.
End PDelayWitness.
