(* ===== verification/Signaling.v ===== *)
(** * Signaling: the signaling messages on the wire.

    md_signaling_send_sm.c (MSGS) puts a message interval request TLV or a
    gPTP-capable TLV into a frame; md_signaling_receive_sm.c (MSGR) classifies a
    received frame by its TLV and hands the parsed TLV on; gptpman.c gives it to
    the interval setting machines or to the gPTP-capable receiver, which are
    modelled in [IntervalSetting] and [Capable]. *)

From S2P Require Import Prelude Types Driver Common Clock Wire Media.
#[local] Open Scope Z_scope.
#[local] Open Scope gptp_scope.

Definition SIGNALING : Z := 12.
(** sizes of MDPTPMsgIntervalRequestTLV and MDPTPMsgGPTPCapableTLV *)
Definition SIGNALING_SIZE : nat := 60.

(** a message to send, by the struct the pointer designates *)
Inductive tx_message :=
| tx_interval_request (m : PTPMsgIntervalRequestTLV)
| tx_capable (m : PTPMsgGPTPCapableTLV).

Definition organizationSubType (m : tx_message) : Z :=
  match m with
  | tx_interval_request m => IvReq.organizationSubType m
  | tx_capable m => CapTLV.organizationSubType m
  end.

(** the structs agree up to organizationSubType; a cast reads the members behind it at their offsets *)
Definition as_interval_request (m : tx_message) : PTPMsgIntervalRequestTLV :=
  match m with
  | tx_interval_request m => m
  | tx_capable m =>
      IvReq.mk (CapTLV.tlvType m) (CapTLV.lengthField m) (CapTLV.organizationId m)
        (CapTLV.organizationSubType m) (CapTLV.logGptpCapableMessageInterval m) (i8 (CapTLV.flags m))
        (i8 (aget 0 (CapTLV.reserved m) 0)) (u8 (aget 0 (CapTLV.reserved m) 1))
  end.
Definition as_capable (m : tx_message) : PTPMsgGPTPCapableTLV :=
  match m with
  | tx_capable m => m
  | tx_interval_request m =>
      CapTLV.mk (IvReq.tlvType m) (IvReq.lengthField m) (IvReq.organizationId m)
        (IvReq.organizationSubType m) (IvReq.linkDelayInterval m) (u8 (IvReq.timeSyncInterval m))
        [u8 (IvReq.announceInterval m); u8 (IvReq.flags m)]
  end.

(** ** MDSignalingSend *)

Module MSGS.

Inductive md_signaling_send_state_t := INIT | INITIALIZE | SEND_SIGNALING | REACTION.
#[export] Instance state_eqdec : EqDecision md_signaling_send_state_t.
Proof. solve_decision. Defined.

Inductive md_signaling_type_t :=
| MD_SIGNALING_NONE | MD_SIGNALING_MSG_INTERVAL_REQ | MD_SIGNALING_GPTP_CAPABLE.
#[export] Instance type_eqdec : EqDecision md_signaling_type_t.
Proof. solve_decision. Defined.

Record md_signaling_send_data := mk {
  gpnetd : option (list (list Z));   (* the frames given to the network *)
  ptasg : PerTimeAwareSystemGlobal;
  ppg : PerPortGlobal;
  state : md_signaling_send_state_t;
  last_state : md_signaling_send_state_t;
  domainIndex : Z;
  portIndex : Z;
  stype : md_signaling_type_t;
  rcvd_txmsg : option tx_message;
  txmsg_interval_req : PTPMsgIntervalRequestTLV;
  sequenceId : Z;
  cmlds_mode : Z
}.
#[export] Instance eta_data : Eta md_signaling_send_data :=
  fields! mk [gpnetd, ptasg, ppg, state, last_state, domainIndex, portIndex, stype, rcvd_txmsg,
              txmsg_interval_req, sequenceId, cmlds_mode].
Abbreviation data := md_signaling_send_data.

(** PTPSignalingMsgCommonHeader *)
Definition common_header (tlvType lengthField : Z) (organizationId : list Z) (subType : Z) : list Z :=
  be_bytes 2 tlvType ++ be_bytes 2 lengthField ++ organizationId ++
  [Z.land (Z.shiftr subType 16) 0xff; Z.land (Z.shiftr subType 8) 0xff; Z.land subType 0xff].

Definition setup_gptp_capable_tlv (m : PTPMsgGPTPCapableTLV) (sdata : list Z) : list Z :=
  memcpy_at 44
    (common_header (CapTLV.tlvType m) (CapTLV.lengthField m) (CapTLV.organizationId m)
       (CapTLV.organizationSubType m) ++
     [u8 (CapTLV.logGptpCapableMessageInterval m); u8 (CapTLV.flags m)]) sdata.

Definition setup_msg_interval_req_tlv (m : PTPMsgIntervalRequestTLV) (sdata : list Z) : list Z :=
  memcpy_at 44
    (common_header (IvReq.tlvType m) (IvReq.lengthField m) (IvReq.organizationId m)
       (IvReq.organizationSubType m) ++
     [u8 (IvReq.linkDelayInterval m); u8 (IvReq.timeSyncInterval m); u8 (IvReq.announceInterval m);
      u8 (IvReq.flags m)]) sdata.

Section Procs.
Context `{WC : WireConfig} `{CF : Config} `{ME : Media}.

(** the header, the target port identity (all ones), the domain and the sdoId *)
Definition signaling_head (sm : data) : option (list Z) :=
  option_map (fun sdata =>
      let sdata := memcpy_at 4 [u8 (md_domain_index2number (PTASG.domainIndex (ptasg sm)))]
                     (memcpy_at 34 (replicate 10 0xff) sdata) in
      if negb (cmlds_mode sm =? 0)
      then memcpy_at 0 [Z.lor (Z.land (octet 0 sdata) 0x0F) 0x20] sdata else sdata)
    (md_header_compose (gpnetd sm) SIGNALING (Z.of_nat SIGNALING_SIZE) (PTASG.thisClock (ptasg sm))
       (PPG.thisPort (ppg sm)) (sequenceId sm) 0x7f).

Definition signaling_tlv (m : tx_message) (sm : data) (sdata : list Z) : list Z :=
  match stype sm with
  | MD_SIGNALING_MSG_INTERVAL_REQ => setup_msg_interval_req_tlv (as_interval_request m) sdata
  | MD_SIGNALING_GPTP_CAPABLE => setup_gptp_capable_tlv (as_capable m) sdata
  | MD_SIGNALING_NONE => sdata
  end.

(** the counters go up before the send *)
Definition count_signaling (sm : data) : data :=
  match stype sm with
  | MD_SIGNALING_MSG_INTERVAL_REQ =>
      sm <| ppg; PPG.perfmonDS ::= PERFMON_PPMSDR (fun r => r <| SigDR.msgIntervalTx ::= inc32 |>) |>
  | MD_SIGNALING_GPTP_CAPABLE =>
      sm <| ppg; PPG.perfmonDS ::= PERFMON_PPMSDR (fun r => r <| SigDR.asCapableTx ::= inc32 |>) |>
  | MD_SIGNALING_NONE => sm
  end.

(** None: the message pointer is NULL *)
Definition sendSignaling (sm : data) : option (data * Z) :=
  if bool_decide (stype sm = MD_SIGNALING_NONE) then Some (sm, -1)
  else match signaling_head sm, gpnetd sm with
  | Some sdata, Some net =>
      m ← rcvd_txmsg sm;
      let f := signaling_tlv m sm sdata in
      let sm := count_signaling sm in
      Some (if send_whook net f =? -1 then (sm, -2)
            else (sm <| gpnetd := Some (net ++ [f]) |> <| sequenceId ::= fun z => u16 (z + 1) |>, 0))
  | _, _ => Some (sm, -1)
  end.

Definition PORT_UP (sm : data) : bool :=
  PPGALL.portOper (PPG.forAllDomain (ppg sm)) && PPG.ptpPortEnabled (ppg sm).

Definition allstate_condition (sm : data) : data * md_signaling_send_state_t :=
  if PTASG.BEGIN (ptasg sm) || negb (PTASG.instanceEnable (ptasg sm)) || negb (PORT_UP sm)
  then (sm <| last_state := REACTION |>, INITIALIZE) else (sm, state sm).

Definition initialize_proc (sm : data) : data := sm <| sequenceId := u16 rand |>.

Definition initialize_condition (sm : data) : md_signaling_send_state_t :=
  if bool_decide (stype sm <> MD_SIGNALING_NONE) then SEND_SIGNALING else INITIALIZE.

Definition send_signaling_proc (sm : data) : option (data * Z) :=
  '(sm, res) ← sendSignaling sm;
  Some (if res =? -2 then (sm, -1) else (sm <| stype := MD_SIGNALING_NONE |>, 0)).

Definition send_signaling_condition (sm : data) : data :=
  (if bool_decide (stype sm <> MD_SIGNALING_NONE) then sm <| last_state := REACTION |> else sm)
    <| state := SEND_SIGNALING |>.

Definition switch (state_change : bool) (sm : data) : data * ctl unit :=
  match state sm with
  | INIT => (sm <| state := INITIALIZE |>, Next)
  | INITIALIZE =>
      let sm := if state_change then initialize_proc sm else sm in
      (sm <| state := initialize_condition sm |>, Next)
  | SEND_SIGNALING =>
      if state_change then
        match send_signaling_proc sm with
        | None => (sm, Leave Crash)
        | Some (sm, res) =>
            if negb (res =? 0) then (sm <| last_state := REACTION |>, Leave (Ret None)) else (sm, Next)
        end
      else (send_signaling_condition sm, Next)
  | REACTION => (sm, Next)
  end.

Definition set_last (e : md_signaling_send_state_t) (sm : data) : data := sm <| last_state := e |>.
Definition set_allstate (sm : data) : data :=
  let (sm, st) := allstate_condition sm in sm <| state := st |>.

Definition machine : StateMachine data md_signaling_send_state_t unit := {|
  sm_state := state;
  sm_last := last_state;
  sm_set_last := set_last;
  sm_allstate := set_allstate;
  sm_switch := switch;
  sm_state_set_last := fun _ _ => eq_refl;
  sm_last_set_last := fun _ _ => eq_refl
|}.

(** INIT, INITIALIZE, a resting SEND_SIGNALING, SEND_SIGNALING *)
Definition fuel : nat := 6.

Definition md_signaling_send_sm (sm : data) : data * outcome unit := exec (M := machine) fuel sm.

Definition md_signaling_send_sm_init (domainIndex portIndex : Z) (gpnetd : option (list (list Z)))
    (ptasg : PerTimeAwareSystemGlobal) (ppg : PerPortGlobal) : data :=
  mk gpnetd ptasg ppg INIT INIT domainIndex portIndex MD_SIGNALING_NONE None zero 0 CMLDS_MODE.

(** any other subtype drops the message, and with it the one that may still wait *)
Definition md_signaling_send_sm_mdSignalingSend (m : tx_message) (sm : data) : data * outcome unit :=
  let sub := organizationSubType m in
  if sub =? 2 then
    md_signaling_send_sm (sm <| stype := MD_SIGNALING_MSG_INTERVAL_REQ |> <| rcvd_txmsg := Some m |>
                             <| last_state := REACTION |>)
  else if sub =? 4 then
    md_signaling_send_sm (sm <| stype := MD_SIGNALING_GPTP_CAPABLE |> <| rcvd_txmsg := Some m |>
                             <| last_state := REACTION |>)
  else (sm <| stype := MD_SIGNALING_NONE |>, Ret None).

Definition md_signaling_send_set_msg_interval_req (logSync logAnnounce logPdelay : Z) (sm : data)
  : data * PTPMsgIntervalRequestTLV :=
  let m := txmsg_interval_req sm
    <| IvReq.tlvType := 3 |> <| IvReq.lengthField := 12 |> <| IvReq.organizationId := [0; 0x80; 0xC2] |>
    <| IvReq.organizationSubType := 2 |> <| IvReq.linkDelayInterval := logPdelay |>
    <| IvReq.timeSyncInterval := logSync |> <| IvReq.announceInterval := logAnnounce |>
    <| IvReq.flags := 0 |> in
  (sm <| txmsg_interval_req := m |>, m).

End Procs.

(** ** Termination *)

Section Ends.
Context `{WC : WireConfig} `{CF : Config} `{ME : Media}.

Definition rank (sm : data) : nat :=
  match state sm with
  | INIT => 4
  | INITIALIZE => 3
  | SEND_SIGNALING => if bool_decide (last_state sm <> state sm) then 1 else 2
  | REACTION => 0
  end.

Lemma msgs_pass_eq sm :
  pass (M := machine) sm = switch (bool_decide (last_state sm <> state sm)) (set_last (state sm) sm).
Proof. reflexivity. Qed.

(** what a send leaves alone *)
Lemma sendSignaling_fields sm s res :
  sendSignaling sm = Some (s, res) -> state s = state sm /\ last_state s = last_state sm.
Proof.
  unfold sendSignaling, count_signaling. destruct (bool_decide _); [by intros [= <- _]|].
  destruct (signaling_head sm), (gpnetd sm); try (by intros [= <- _]).
  destruct (rcvd_txmsg sm) as [m|]; cbn [mbind option_bind]; [|done].
  destruct (stype sm), (send_whook _ _ =? -1); by intros [= <- _].
Qed.

Lemma send_signaling_fields sm s res :
  send_signaling_proc sm = Some (s, res) -> state s = state sm /\ last_state s = last_state sm.
Proof.
  unfold send_signaling_proc. destruct (sendSignaling sm) as [[x r]|] eqn:E; cbn [mbind option_bind]; [|done].
  apply sendSignaling_fields in E. destruct (r =? -2); intros [= <- _]; exact E.
Qed.

Lemma signaling_turns s s' : turns (M := machine) s s' -> (rank s' < rank s)%nat.
Proof.
  intros [H T]. rewrite msgs_pass_eq in H. change (last_state s' <> state s') in T.
  unfold switch in H. change (state (set_last (state s) s)) with (state s) in H.
  unfold rank. set (c := bool_decide (last_state s <> state s)) in *. destruct (state s) eqn:E.
  - injection H as <-. cbn. lia.
  - injection H as <-. revert T. unfold initialize_condition.
    replace (stype (if c then _ else _)) with (stype s) by (by destruct c).
    destruct c; cbn [state last_state upd set_last initialize_proc]; destruct (bool_decide _); try done;
      intros _; settle_changes; lia.
  - destruct c.
    + destruct (send_signaling_proc _) as [[x r]|] eqn:P; [|discriminate H].
      destruct (send_signaling_fields _ _ _ P) as [A B]. destruct (negb (r =? 0)); [discriminate H|].
      injection H as <-. exfalso. apply T. rewrite A, B. exact (eq_sym E).
    + injection H as <-. revert T. unfold send_signaling_condition.
      destruct (bool_decide (stype _ <> _)); cbn [state last_state upd set_last]; [|done].
      intros _. settle_changes. lia.
  - injection H as <-. cbn in T. congruence.
Qed.

Lemma md_signaling_send_ends sm : run (M := machine) fuel sm = Some (md_signaling_send_sm sm).
Proof.
  apply exec_run. unfold run.
  apply (loop_ends (M := machine)) with (Inv := fun _ => True) (rank := rank); [|done|].
  - intros s s' _ H. split; [done|by apply signaling_turns].
  - unfold rank, fuel. destruct (state _); try case_bool_decide; lia.
Qed.

(** ** What is sent *)

(** the octets of the message *)
Definition signaling_frame (m : tx_message) (sm : data) : list Z :=
  default [] (signaling_tlv m sm <$> signaling_head sm).

(** the result of a send by the machine [x]: the frame is out and the message done, or it waits *)
Definition signaling_sent (m : tx_message) (net : list (list Z)) (x s : data) (o : outcome unit) : Prop :=
  let f := signaling_frame m x in
  o = Ret None /\ state s = SEND_SIGNALING /\
  if send_whook net f =? -1 then
    gpnetd s = Some net /\ stype s = stype x /\ rcvd_txmsg s = Some m /\ last_state s = REACTION
  else gpnetd s = Some (net ++ [f]) /\ stype s = MD_SIGNALING_NONE /\ sequenceId s = u16 (sequenceId x + 1).

Lemma signaling_turn n m net x :
  state x = SEND_SIGNALING -> last_state x <> SEND_SIGNALING -> stype x <> MD_SIGNALING_NONE ->
  gpnetd x = Some net -> rcvd_txmsg x = Some m ->
  exists s o, loop (M := machine) (S n) x = Some (s, o) /\ signaling_sent m net x s o.
Proof.
  intros E L T N R. unfold signaling_sent.
  assert (H : exists h, signaling_head x = Some h)
    by (unfold signaling_head, md_header_compose; rewrite N; by eexists).
  destruct H as [h H].
  assert (F : signaling_frame m x = signaling_tlv m x h) by (unfold signaling_frame; by rewrite H).
  destruct (pass (M := machine) x) as [s c] eqn:P. pose proof P as Q. revert Q.
  rewrite msgs_pass_eq, bool_decide_eq_true_2 by congruence. unfold switch.
  change (state (set_last (state x) x)) with (state x). rewrite E. unfold send_signaling_proc, sendSignaling.
  change (stype (set_last SEND_SIGNALING x)) with (stype x). rewrite bool_decide_eq_false_2 by done.
  change (signaling_head (set_last SEND_SIGNALING x)) with (signaling_head x). rewrite H.
  change (gpnetd (set_last SEND_SIGNALING x)) with (gpnetd x). rewrite N.
  change (rcvd_txmsg (set_last SEND_SIGNALING x)) with (rcvd_txmsg x). rewrite R. cbn [mbind option_bind].
  change (signaling_tlv m (set_last SEND_SIGNALING x) h) with (signaling_tlv m x h). rewrite <- F.
  generalize (signaling_frame m x). intros f.
  assert (K : forall y, state (count_signaling y) = state y /\ last_state (count_signaling y) = last_state y /\
     gpnetd (count_signaling y) = gpnetd y /\ stype (count_signaling y) = stype y /\
     rcvd_txmsg (count_signaling y) = rcvd_txmsg y /\ sequenceId (count_signaling y) = sequenceId y)
    by (intros y; unfold count_signaling; destruct (stype y) eqn:Ey; split_and!; try done; exact Ey).
  destruct (K (set_last SEND_SIGNALING x)) as (K1 & K2 & K3 & K4 & K5 & K6).
  revert K1 K2 K3 K4 K5 K6. generalize (count_signaling (set_last SEND_SIGNALING x)). clear K F H.
  intros y K1 K2 K3 K4 K5 K6. destruct (send_whook net f =? -1); intros Q; injection Q as <- <-.
  - eexists _, _. split; [apply (loop_return (M := machine)); exact P|]. clear P.
    cbn [gpnetd stype rcvd_txmsg state last_state upd]. split_and!; try done.
    + by rewrite K1.
    + by rewrite K3.
    + by rewrite K5.
  - eexists _, _. split; [apply (loop_stop (M := machine)); [exact P|]|].
    + change (last_state y = state y). by rewrite K1, K2.
    + clear P. cbn [gpnetd stype sequenceId state upd]. rewrite K6. split_and!; try done. by rewrite K1.
Qed.

(** [x] has the configuration of [sm]: what a frame is made of, but for the number *)
Definition same_head (sm x : data) : Prop :=
  ptasg x = ptasg sm /\ ppg x = ppg sm /\ cmlds_mode x = cmlds_mode sm /\ gpnetd x = gpnetd sm.

Lemma signaling_initialize n m net y :
  state y = INITIALIZE -> last_state y <> INITIALIZE -> stype y <> MD_SIGNALING_NONE ->
  gpnetd y = Some net -> rcvd_txmsg y = Some m ->
  exists s o, loop (M := machine) (S (S n)) y = Some (s, o) /\
    signaling_sent m net (y <| sequenceId := u16 rand |>) s o.
Proof.
  intros E L T N R.
  assert (P : pass (M := machine) y =
    (set_last INITIALIZE y <| sequenceId := u16 rand |> <| state := SEND_SIGNALING |>, Next)).
  { rewrite msgs_pass_eq, bool_decide_eq_true_2 by congruence. unfold switch.
    change (state (set_last (state y) y)) with (state y). rewrite E. unfold initialize_condition.
    change (stype (initialize_proc (set_last INITIALIZE y))) with (stype y). by rewrite bool_decide_eq_true_2. }
  set (z := _ <| state := SEND_SIGNALING |>) in P.
  assert (Z : turns (M := machine) y z) by (split; [exact P|change (INITIALIZE <> SEND_SIGNALING); discriminate]).
  rewrite (loop_turn (M := machine) _ _ _ Z).
  destruct (signaling_turn n m net z) as (s & o & H & G); try done.
  exists s, o. split; [exact H|exact G].
Qed.

Lemma signaling_delivered m t net sm :
  state sm <> REACTION -> t <> MD_SIGNALING_NONE -> gpnetd sm = Some net ->
  exists x s o,
    md_signaling_send_sm (sm <| stype := t |> <| rcvd_txmsg := Some m |> <| last_state := REACTION |>) = (s, o) /\
    same_head sm x /\ stype x = t /\ (sequenceId x = sequenceId sm \/ sequenceId x = u16 rand) /\
    signaling_sent m net x s o.
Proof.
  intros S T N. set (y := _ <| last_state := REACTION |>).
  assert (Y : same_head sm y /\ stype y = t /\ sequenceId y = sequenceId sm /\ rcvd_txmsg y = Some m /\
    last_state y = REACTION /\ state y = state sm) by done. clearbody y. destruct Y as (Y1 & Y2 & Y3 & Y4 & Y5 & Y6).
  assert (N' : gpnetd y = Some net) by (rewrite <- N; apply Y1). assert (T' : stype y <> MD_SIGNALING_NONE) by congruence.
  assert (I : forall z, z = y \/ z = y <| last_state := INIT |> -> 
    exists s o, loop (M := machine) 4 (z <| state := INITIALIZE |>) = Some (s, o) /\
      signaling_sent m net (z <| state := INITIALIZE |> <| sequenceId := u16 rand |>) s o).
  { intros z Z. apply (signaling_initialize 2); destruct Z; subst z; try done. change (last_state y <> INITIALIZE). congruence. }
  cut (exists x s o, loop (M := machine) fuel (set_allstate y) = Some (s, o) /\
    same_head sm x /\ stype x = t /\ (sequenceId x = sequenceId sm \/ sequenceId x = u16 rand) /\
    signaling_sent m net x s o).
  { intros (x & s & o & E & H). exists x, s, o. split; [exact (exec_eq (M := machine) _ _ _ E)|exact H]. }
  unfold set_allstate, allstate_condition, fuel. destruct (_ || _).
  - destruct (I y (or_introl eq_refl)) as (s & o & E & H).
    exists (y <| state := INITIALIZE |> <| sequenceId := u16 rand |>), s, o.
    replace (y <| last_state := REACTION |>) with y by (clear - Y5; rewrite <- Y5; by destruct y).
    split; [exact (loop_mono (M := machine) 4 6 _ _ ltac:(lia) E)|]. split; [exact Y1|]. split; [exact Y2|]. split; [by right|exact H].
  - replace (y <| state := state y |>) with y by (by destruct y).
    destruct (state sm) eqn:E; [| | |done].
    + destruct (I (y <| last_state := INIT |>) (or_intror eq_refl)) as (s & o & E' & H).
      exists (y <| last_state := INIT |> <| state := INITIALIZE |> <| sequenceId := u16 rand |>), s, o.
      set (z := y <| last_state := INIT |> <| state := INITIALIZE |>) in *.
      assert (Z : turns (M := machine) y z).
      { split; [|change (INIT <> INITIALIZE); discriminate]. rewrite msgs_pass_eq. unfold switch.
        change (state (set_last (state y) y)) with (state y). by rewrite Y6. }
      rewrite (loop_turn (M := machine) _ _ _ Z). split; [exact (loop_mono (M := machine) 4 5 _ _ ltac:(lia) E')|].
      split; [exact Y1|]. split; [exact Y2|]. split; [by right|exact H].
    + destruct (signaling_initialize 4 m net y) as (s & o & E' & H); try done; try congruence.
      exists (y <| sequenceId := u16 rand |>), s, o. split; [exact E'|]. split; [exact Y1|]. split; [exact Y2|]. split; [by right|exact H].
    + destruct (signaling_turn 5 m net y) as (s & o & E' & H); try done; try congruence.
      eexists y, s, o. split; [exact E'|]. split; [exact Y1|]. split; [exact Y2|]. split; [by left|exact H].
Qed.
End Ends.
End MSGS.

(** ** MDSignalingReceive *)

(** what the receiver hands on, by the struct it has filled *)
Inductive rx_message :=
| rx_interval_request (m : PTPMsgIntervalRequestTLV)
| rx_capable (m : PTPMsgGPTPCapableTLV)
| rx_capable_interval_request (m : PTPMsgGPTPCapableMsgIntervalReqTLV).

Inductive gPTPSignalingMsgType :=
| SINALING_MSG_INTERVAL_REQ | SINALING_GPTP_CAPABLE | SINALING_GPTP_CAPABLE_INTERVAL_REQ
| SIGNALING_GPTP_NOT_SUPPORTED.

Module MSGR.

Inductive md_signaling_receive_state_t := INIT | INITIALIZE | RECV_SIGNALING | REACTION.
#[export] Instance state_eqdec : EqDecision md_signaling_receive_state_t.
Proof. solve_decision. Defined.

Record md_signaling_receive_data := mk {
  ptasg : PerTimeAwareSystemGlobal;
  ppg : PerPortGlobal;
  state : md_signaling_receive_state_t;
  last_state : md_signaling_receive_state_t;
  domainIndex : Z;
  portIndex : Z;
  recv : bool;
  rcvd_rxmsg : option (list Z);
  gctlm : PTPMsgGPTPCapableTLV;
  gcmirtlm : PTPMsgGPTPCapableMsgIntervalReqTLV;
  mrtlm : PTPMsgIntervalRequestTLV
}.
#[export] Instance eta_data : Eta md_signaling_receive_data :=
  fields! mk [ptasg, ppg, state, last_state, domainIndex, portIndex, recv, rcvd_rxmsg, gctlm, gcmirtlm, mrtlm].
Abbreviation data := md_signaling_receive_data.

Definition subType (buf : list Z) : Z :=
  Z.lor (Z.lor (Z.shiftl (octet 51 buf) 16) (Z.shiftl (octet 52 buf) 8)) (octet 53 buf).

Definition recv_gptp_capable (buf : list Z) (sm : data) : data :=
  sm <| gctlm ::= fun g => g <| CapTLV.tlvType := ntoh 44 2 buf |> <| CapTLV.lengthField := ntoh 46 2 buf |>
       <| CapTLV.organizationId := octets 48 3 buf |> <| CapTLV.organizationSubType := subType buf |>
       <| CapTLV.logGptpCapableMessageInterval := i8 (octet 54 buf) |> <| CapTLV.flags := octet 55 buf |> |>.

Definition recv_gptp_capable_msg_interval_req (buf : list Z) (sm : data) : data :=
  sm <| gcmirtlm ::= fun g => g <| CapIvReq.tlvType := ntoh 44 2 buf |> <| CapIvReq.lengthField := ntoh 46 2 buf |>
       <| CapIvReq.organizationId := octets 48 3 buf |> <| CapIvReq.organizationSubType := subType buf |>
       <| CapIvReq.logGptpCapableMessageInterval := i8 (octet 54 buf) |>
       <| CapIvReq.reserved := octets 55 3 buf |> |>.

Definition recv_msg_interval_req (buf : list Z) (sm : data) : data :=
  sm <| mrtlm ::= fun g => g <| IvReq.tlvType := ntoh 44 2 buf |> <| IvReq.lengthField := ntoh 46 2 buf |>
       <| IvReq.organizationId := octets 48 3 buf |> <| IvReq.organizationSubType := subType buf |>
       <| IvReq.linkDelayInterval := i8 (octet 54 buf) |> <| IvReq.timeSyncInterval := i8 (octet 55 buf) |>
       <| IvReq.announceInterval := i8 (octet 56 buf) |> <| IvReq.flags := octet 57 buf |> |>.

Definition PORT_UP (sm : data) : bool :=
  PPGALL.portOper (PPG.forAllDomain (ppg sm)) && PPG.ptpPortEnabled (ppg sm).

Definition allstate_condition (sm : data) : data * md_signaling_receive_state_t :=
  if PTASG.BEGIN (ptasg sm) || negb (PTASG.instanceEnable (ptasg sm)) || negb (PORT_UP sm)
  then (sm <| last_state := REACTION |>, INITIALIZE) else (sm, state sm).

Definition initialize_proc (sm : data) : data := sm.

Definition initialize_condition (sm : data) : md_signaling_receive_state_t :=
  if recv sm then RECV_SIGNALING else INITIALIZE.

Definition classify_rx_signaling_type (buf : list Z) : gPTPSignalingMsgType :=
  if negb (octet 48 buf =? 0) || negb (octet 49 buf =? 0x80) || negb (octet 50 buf =? 0xC2)
  then SIGNALING_GPTP_NOT_SUPPORTED
  else if negb (octet 51 buf =? 0) || negb (octet 52 buf =? 0) then SIGNALING_GPTP_NOT_SUPPORTED
  else
    let tlvtype := ntoh 44 2 buf in
    let tlvlen := ntoh 46 2 buf in
    let stype := octet 53 buf in
    if (tlvtype =? 0x0003) && (tlvlen =? 12) && (stype =? 2) then SINALING_MSG_INTERVAL_REQ
    else if (tlvtype =? 0x8000) && (tlvlen =? 12) && (stype =? 4) then SINALING_GPTP_CAPABLE
    else if (tlvtype =? 0x8000) && (tlvlen =? 10) && (stype =? 5) then SINALING_GPTP_CAPABLE_INTERVAL_REQ
    else SIGNALING_GPTP_NOT_SUPPORTED.

Definition recv_signaling_proc (buf : list Z) (sm : data) : data * option rx_message :=
  let sm := sm <| recv := false |> in
  match classify_rx_signaling_type buf with
  | SINALING_MSG_INTERVAL_REQ =>
      let sm := recv_msg_interval_req buf
        (sm <| ppg; PPG.perfmonDS ::= PERFMON_PPMSDR (fun r => r <| SigDR.msgIntervalRx ::= inc32 |>) |>) in
      (sm, Some (rx_interval_request (mrtlm sm)))
  | SINALING_GPTP_CAPABLE =>
      let sm := recv_gptp_capable buf
        (sm <| ppg; PPG.perfmonDS ::= PERFMON_PPMSDR (fun r => r <| SigDR.asCapableRx ::= inc32 |>) |>) in
      (sm, Some (rx_capable (gctlm sm)))
  | SINALING_GPTP_CAPABLE_INTERVAL_REQ =>
      let sm := recv_gptp_capable_msg_interval_req buf sm in
      (sm, Some (rx_capable_interval_request (gcmirtlm sm)))
  | SIGNALING_GPTP_NOT_SUPPORTED => (sm, None)
  end.

Definition recv_signaling_condition (sm : data) : data :=
  (if recv sm then sm <| last_state := REACTION |> else sm) <| state := RECV_SIGNALING |>.

Definition switch (state_change : bool) (sm : data) : data * ctl rx_message :=
  match state sm with
  | INIT => (sm <| state := INITIALIZE |>, Next)
  | INITIALIZE =>
      let sm := if state_change then initialize_proc sm else sm in
      (sm <| state := initialize_condition sm |>, Next)
  | RECV_SIGNALING =>
      if state_change then
        deref (rcvd_rxmsg sm) sm (fun buf =>
          let (sm, retp) := recv_signaling_proc buf sm in (sm, ret_if retp))
      else (recv_signaling_condition sm, Next)
  | REACTION => (sm, Next)
  end.

Definition set_last (e : md_signaling_receive_state_t) (sm : data) : data := sm <| last_state := e |>.
Definition set_allstate (sm : data) : data :=
  let (sm, st) := allstate_condition sm in sm <| state := st |>.

Definition machine : StateMachine data md_signaling_receive_state_t rx_message := {|
  sm_state := state;
  sm_last := last_state;
  sm_set_last := set_last;
  sm_allstate := set_allstate;
  sm_switch := switch;
  sm_state_set_last := fun _ _ => eq_refl;
  sm_last_set_last := fun _ _ => eq_refl
|}.

Definition fuel : nat := 6.

Definition md_signaling_receive_sm (sm : data) : data * outcome rx_message := exec (M := machine) fuel sm.

Definition md_signaling_receive_sm_init (domainIndex portIndex : Z)
    (ptasg : PerTimeAwareSystemGlobal) (ppg : PerPortGlobal) : data :=
  mk ptasg ppg INIT INIT domainIndex portIndex false None zero zero zero.

Definition md_signaling_receive_sm_mdSignalingRec (edrecv : event_data_recv) (sm : data)
  : data * outcome rx_message :=
  md_signaling_receive_sm
    (sm <| recv := true |> <| rcvd_rxmsg := Some (recbptr edrecv) |> <| last_state := REACTION |>
        <| ppg; PPG.perfmonDS ::= PERFMON_PPMSDR (fun r => r <| SigDR.signalingRx ::= inc32 |>) |>).

(** ** Termination and result *)

Definition rank (sm : data) : nat :=
  match state sm with
  | INIT => 4
  | INITIALIZE => 3
  | RECV_SIGNALING => if bool_decide (last_state sm <> state sm) then 1 else 2
  | REACTION => 0
  end.

Lemma msgr_pass_eq sm :
  pass (M := machine) sm = switch (bool_decide (last_state sm <> state sm)) (set_last (state sm) sm).
Proof. reflexivity. Qed.

Lemma recv_proc_fields buf sm :
  state (recv_signaling_proc buf sm).1 = state sm /\ last_state (recv_signaling_proc buf sm).1 = last_state sm.
Proof. unfold recv_signaling_proc. by destruct (classify_rx_signaling_type buf). Qed.

Lemma msgr_receive_turns s s' : turns (M := machine) s s' -> (rank s' < rank s)%nat.
Proof.
  intros [H T]. rewrite msgr_pass_eq in H. change (last_state s' <> state s') in T.
  unfold switch in H. change (state (set_last (state s) s)) with (state s) in H.
  unfold rank. set (c := bool_decide (last_state s <> state s)) in *. destruct (state s) eqn:E.
  - injection H as <-. cbn. lia.
  - injection H as <-. revert T. unfold initialize_condition.
    replace (recv (if c then _ else _)) with (recv s) by (by destruct c).
    destruct c; cbn [state last_state upd set_last initialize_proc]; destruct (recv s); try done;
      intros _; settle_changes; lia.
  - destruct c.
    + unfold deref in H. destruct (rcvd_rxmsg _) as [buf|]; [|discriminate H].
      destruct (recv_proc_fields buf (set_last RECV_SIGNALING s)) as [A B].
      destruct (recv_signaling_proc buf _) as [x r]. cbn [fst] in *. destruct r; [discriminate H|].
      injection H as <-. exfalso. apply T. rewrite A, B. exact (eq_sym E).
    + injection H as <-. revert T. unfold recv_signaling_condition.
      destruct (recv _); cbn [state last_state upd set_last]; [|done].
      intros _. settle_changes. lia.
  - injection H as <-. cbn in T. congruence.
Qed.

Lemma md_signaling_receive_ends sm : run (M := machine) fuel sm = Some (md_signaling_receive_sm sm).
Proof.
  apply exec_run. unfold run.
  apply (loop_ends (M := machine)) with (Inv := fun _ => True) (rank := rank); [|done|].
  - intros s s' _ H. split; [done|by apply msgr_receive_turns].
  - unfold rank, fuel. destruct (state _); try case_bool_decide; lia.
Qed.

(** the TLVs stored by the machine *)
Definition same_tlvs (x s : data) : Prop := gctlm s = gctlm x /\ gcmirtlm s = gcmirtlm x /\ mrtlm s = mrtlm x.

(** the proc's result depends on the stored TLVs only by what it does not overwrite *)
Lemma recv_proc_ext buf x y :
  same_tlvs x y ->
  (recv_signaling_proc buf y).2 = (recv_signaling_proc buf x).2 /\
  same_tlvs (recv_signaling_proc buf x).1 (recv_signaling_proc buf y).1.
Proof.
  intros (A & B & C). unfold recv_signaling_proc, recv_msg_interval_req, recv_gptp_capable,
    recv_gptp_capable_msg_interval_req, same_tlvs.
  destruct (classify_rx_signaling_type buf); cbn; rewrite ?A, ?B, ?C; by split_and!.
Qed.

Lemma receive_turn n buf y :
  state y = RECV_SIGNALING -> last_state y <> RECV_SIGNALING -> rcvd_rxmsg y = Some buf ->
  exists s, loop (M := machine) (S n) y = Some (s, Ret (recv_signaling_proc buf y).2) /\
    same_tlvs (recv_signaling_proc buf y).1 s.
Proof.
  intros E L R.
  assert (P : pass (M := machine) y =
    (let (s, r) := recv_signaling_proc buf (set_last RECV_SIGNALING y) in (s, ret_if r))).
  { rewrite msgr_pass_eq, bool_decide_eq_true_2 by congruence. unfold switch.
    change (state (set_last (state y) y)) with (state y). rewrite E.
    change (rcvd_rxmsg (set_last RECV_SIGNALING y)) with (rcvd_rxmsg y). by rewrite R. }
  destruct (recv_proc_ext buf y (set_last RECV_SIGNALING y)) as [A B]; [done|].
  destruct (recv_proc_fields buf (set_last RECV_SIGNALING y)) as [F1 F2].
  destruct (recv_signaling_proc buf (set_last RECV_SIGNALING y)) as [s r]. cbn [fst snd] in *. rewrite <- A.
  exists s. split; [|exact B]. destruct r as [r|].
  - by apply (loop_return (M := machine)).
  - apply (loop_stop (M := machine)); [exact P|]. change (last_state s = state s). by rewrite F1, F2.
Qed.

(** every frame is classified and parsed in the call that delivers it *)
Lemma signaling_received ed sm :
  state sm <> REACTION ->
  exists s, md_signaling_receive_sm_mdSignalingRec ed sm = (s, Ret (recv_signaling_proc (recbptr ed) sm).2) /\
    same_tlvs (recv_signaling_proc (recbptr ed) sm).1 s.
Proof.
  intros SR. unfold md_signaling_receive_sm_mdSignalingRec. set (y := _ <| ppg; PPG.perfmonDS ::= _ |>).
  assert (Y : same_tlvs sm y /\ rcvd_rxmsg y = Some (recbptr ed) /\ recv y = true /\
    last_state y = REACTION /\ state y = state sm) by done.
  clearbody y. destruct Y as (Y1 & Y2 & Y3 & Y4 & Y5).
  assert (I : forall n z, state z = INITIALIZE -> same_tlvs sm z -> rcvd_rxmsg z = Some (recbptr ed) -> recv z = true ->
    exists s, loop (M := machine) (2 + n) z = Some (s, Ret (recv_signaling_proc (recbptr ed) sm).2) /\
      same_tlvs (recv_signaling_proc (recbptr ed) sm).1 s).
  { intros n z Z1 Z2 Z3 Z4. set (x := z <| last_state := INITIALIZE |> <| state := RECV_SIGNALING |>).
    assert (T : turns (M := machine) z x).
    { split; [|change (INITIALIZE <> RECV_SIGNALING); discriminate]. rewrite msgr_pass_eq. unfold switch.
      change (state (set_last (state z) z)) with (state z). rewrite Z1. unfold initialize_proc.
      replace (if bool_decide _ then _ else _) with (set_last INITIALIZE z) by (by destruct (bool_decide _)).
      unfold initialize_condition. change (recv (set_last INITIALIZE z)) with (recv z). by rewrite Z4. }
    change (2 + n)%nat with (S (S n)). rewrite (loop_turn (M := machine) (S n) _ _ T).
    destruct (receive_turn n (recbptr ed) x) as (s & H & G); try done.
    destruct (recv_proc_ext (recbptr ed) sm x Z2) as [A (B1 & B2 & B3)]. rewrite A in H.
    exists s. split; [exact H|]. destruct G as (G1 & G2 & G3). split_and!; congruence. }
  cut (exists s, loop (M := machine) fuel (set_allstate y) = Some (s, Ret (recv_signaling_proc (recbptr ed) sm).2) /\
      same_tlvs (recv_signaling_proc (recbptr ed) sm).1 s).
  { intros (s & E & H). exists s. split; [exact (exec_eq (M := machine) _ _ _ E)|exact H]. }
  unfold set_allstate, allstate_condition, fuel. destruct (_ || _).
  - by apply (I 4%nat).
  - replace (y <| state := state y |>) with y by (by destruct y).
    destruct (state sm) eqn:E; [| | |done].
    + set (z := y <| last_state := INIT |> <| state := INITIALIZE |>).
      assert (T : turns (M := machine) y z).
      { split; [|change (INIT <> INITIALIZE); discriminate]. rewrite msgr_pass_eq. unfold switch.
        change (state (set_last (state y) y)) with (state y). by rewrite Y5. }
      rewrite (loop_turn (M := machine) 5 _ _ T). by apply (I 3%nat).
    + by apply (I 4%nat).
    + destruct (receive_turn 5 (recbptr ed) y) as (s & H & G); try congruence.
      destruct (recv_proc_ext (recbptr ed) sm y Y1) as [A (B1 & B2 & B3)]. rewrite A in H.
      exists s. split; [exact H|]. destruct G as (G1 & G2 & G3). split_and!; congruence.
Qed.

End MSGR.

(** ** From the sender to the receiver *)

Section RoundTrip.
Context `{WC : WireConfig} `{CF : Config} `{ME : Media}.

(** a message as the stack makes it: the members have the widths of the struct, and TLV type, length,
    organization and subtype are those of the TLV *)
Definition wf_message (m : tx_message) : Prop :=
  match m with
  | tx_interval_request m =>
      IvReq.tlvType m = 0x0003 /\ IvReq.lengthField m = 12 /\ IvReq.organizationId m = [0; 0x80; 0xC2] /\
      IvReq.organizationSubType m = 2 /\ sfits 8 (IvReq.linkDelayInterval m) /\
      sfits 8 (IvReq.timeSyncInterval m) /\ sfits 8 (IvReq.announceInterval m) /\ fits 8 (IvReq.flags m)
  | tx_capable m =>
      CapTLV.tlvType m = 0x8000 /\ CapTLV.lengthField m = 12 /\ CapTLV.organizationId m = [0; 0x80; 0xC2] /\
      CapTLV.organizationSubType m = 4 /\ sfits 8 (CapTLV.logGptpCapableMessageInterval m) /\
      fits 8 (CapTLV.flags m)
  end.

(** what the receiver [r] hands on for it; the reserved octets of its struct are not written *)
Definition handed_on (m : tx_message) (r : MSGR.data) : rx_message :=
  match m with
  | tx_interval_request m => rx_interval_request m
  | tx_capable m => rx_capable (m <| CapTLV.reserved := CapTLV.reserved (MSGR.gctlm r) |>)
  end.

Definition type_of (m : tx_message) : MSGS.md_signaling_type_t :=
  match m with
  | tx_interval_request _ => MSGS.MD_SIGNALING_MSG_INTERVAL_REQ
  | tx_capable _ => MSGS.MD_SIGNALING_GPTP_CAPABLE
  end.

Lemma i8_u8 z : sfits 8 z -> i8 (u8 z) = z.
Proof. intros H. rewrite swrap_wrap by lia. by apply swrap_id. Qed.

(** the octets of the TLV in the frame *)
Lemma signaling_octets m sm net rest :
  wf_message m -> MSGS.gpnetd sm = Some net -> MSGS.stype sm = type_of m ->
  length (PTASG.thisClock (MSGS.ptasg sm)) = 8%nat ->
  let f := MSGS.signaling_frame m sm ++ rest in
  octets 44 10 f = (match m with tx_interval_request _ => [0; 3; 0; 12; 0; 0x80; 0xC2; 0; 0; 2]
                            | tx_capable _ => [0x80; 0; 0; 12; 0; 0x80; 0xC2; 0; 0; 4] end) /\
  octets 54 2 f = (match m with
     | tx_interval_request m => [u8 (IvReq.linkDelayInterval m); u8 (IvReq.timeSyncInterval m)]
     | tx_capable m => [u8 (CapTLV.logGptpCapableMessageInterval m); u8 (CapTLV.flags m)] end) /\
  match m with
  | tx_interval_request m => octets 56 2 f = [u8 (IvReq.announceInterval m); u8 (IvReq.flags m)]
  | _ => True end.
Proof.
  intros W N T C. cbv zeta. unfold MSGS.signaling_frame, MSGS.signaling_head, md_header_compose. rewrite N.
  cbn [option_map fmap option_fmap default from_option]. unfold MSGS.signaling_tlv. rewrite T.
  change (Z.to_nat (Z.of_nat SIGNALING_SIZE)) with (34 + 26)%nat.
  destruct (PTASG.thisClock (MSGS.ptasg sm)) as [|c0 [|c1 [|c2 [|c3 [|c4 [|c5 [|c6 [|c7 [|]]]]]]]]]; try discriminate C.
  rewrite compose_in_cleared by done. unfold head_octets.
  destruct m as [m|m]; cbn [type_of as_interval_request as_capable]; destruct m; cbn in W.
  - destruct W as (-> & -> & -> & -> & W). destruct (negb (MSGS.cmlds_mode sm =? 0)); split_and!; reflexivity.
  - destruct W as (-> & -> & -> & -> & W). destruct (negb (MSGS.cmlds_mode sm =? 0)); split_and!; reflexivity.
Qed.

Lemma octets_sub off d n k f : (d + n <= k)%nat -> octets (off + d) n f = take n (drop d (octets off k f)).
Proof.
  intros. unfold octets. rewrite skipn_firstn_comm, drop_drop, take_take. f_equal. lia.
Qed.
Lemma octet_sub off d k f : (d < k)%nat -> octet (off + d) f = nth d (octets off k f) 0.
Proof.
  intros. unfold octet, octets. rewrite nth_firstn, (proj2 (Nat.ltb_lt d k)) by done.
  by rewrite nth_skipn.
Qed.

(** ten octets of a TLV and what follows: the receiver's result *)
Lemma receiver_result m sm net rest r :
  wf_message m -> MSGS.gpnetd sm = Some net -> MSGS.stype sm = type_of m ->
  length (PTASG.thisClock (MSGS.ptasg sm)) = 8%nat ->
  (MSGR.recv_signaling_proc (MSGS.signaling_frame m sm ++ rest) r).2 = Some (handed_on m r).
Proof.
  intros W N T C. destruct (signaling_octets m sm net rest W N T C) as (A & B & D).
  revert A B D. generalize (MSGS.signaling_frame m sm ++ rest). intros f A B D.
  assert (R : octets 48 3 f = [0; 0x80; 0xC2] /\ octet 48 f = 0 /\ octet 49 f = 0x80 /\ octet 50 f = 0xC2 /\
    octet 51 f = 0 /\ octet 52 f = 0 /\ ntoh 46 2 f = 12 /\
    ntoh 44 2 f = (match m with tx_interval_request _ => 3 | _ => 0x8000 end) /\
    octet 53 f = (match m with tx_interval_request _ => 2 | _ => 4 end)).
  { unfold ntoh. rewrite (octets_sub 44 4 3 10), (octet_sub 44 4 10), (octet_sub 44 5 10), (octet_sub 44 6 10),
      (octet_sub 44 7 10), (octet_sub 44 8 10), (octets_sub 44 2 2 10), (octets_sub 44 0 2 10), (octet_sub 44 9 10), A by lia.
    destruct m; split_and!; reflexivity. }
  destruct R as (R1 & R2 & R3 & R4 & R5 & R6 & R7 & R8 & R9).
  assert (X : MSGR.subType f = match m with tx_interval_request _ => 2 | _ => 4 end)
    by (unfold MSGR.subType; rewrite R5, R6, R9; by destruct m).
  unfold MSGR.recv_signaling_proc, MSGR.classify_rx_signaling_type. rewrite R2, R3, R4, R5, R6, R7, R8, R9.
  destruct m as [m|m].
  - cbn [negb orb andb Z.eqb Pos.eqb snd]. f_equal. unfold handed_on, MSGR.recv_msg_interval_req.
    rewrite R1, R7, R8, X, (octet_sub 54 0 2), (octet_sub 54 1 2), (octet_sub 56 0 2), (octet_sub 56 1 2), B, D by lia.
    destruct m. cbn in W. destruct W as (-> & -> & -> & -> & W1 & W2 & W3 & W4).
    cbn -[swrap wrap]. by rewrite !i8_u8, (wrap_id 8) by done.
  - cbn [negb orb andb Z.eqb Pos.eqb snd]. f_equal. unfold handed_on, MSGR.recv_gptp_capable.
    rewrite R1, R7, R8, X, (octet_sub 54 0 2), (octet_sub 54 1 2), B by lia.
    destruct m. cbn in W. destruct W as (-> & -> & -> & -> & W1 & W2).
    cbn -[swrap wrap]. by rewrite !i8_u8, (wrap_id 8) by done.
Qed.

(** C28. A signaling message given to the sender goes out as one frame at once, or waits when the driver
    refuses it; the frame, whatever follows it in the receive buffer, makes the receiver at the other
    end hand on the same TLV: every interval, flag and type of it is as it was given. *)
Theorem signaling_round_trip m sm net t rest r :
  wf_message m -> length (PTASG.thisClock (MSGS.ptasg sm)) = 8%nat -> MSGS.gpnetd sm = Some net ->
  MSGS.state sm <> MSGS.REACTION -> MSGR.state r <> MSGR.REACTION ->
  let (s, o) := MSGS.md_signaling_send_sm_mdSignalingSend m sm in
  o = Ret None /\
  exists f,
    (if send_whook net f =? -1 then MSGS.gpnetd s = Some net /\ MSGS.rcvd_txmsg s = Some m /\ MSGS.stype s = type_of m
     else MSGS.gpnetd s = Some (net ++ [f]) /\ MSGS.stype s = MSGS.MD_SIGNALING_NONE) /\
    (MSGR.md_signaling_receive_sm_mdSignalingRec (ev_recv t (f ++ rest)) r).2 = Ret (Some (handed_on m r)).
Proof.
  intros W C N S R.
  destruct (MSGS.signaling_delivered m (type_of m) net sm S ltac:(by destruct m) N) as (x & s & o & E & (X1 & X2 & X3 & X4) & X5 & X6 & F).
  assert (K : MSGS.md_signaling_send_sm_mdSignalingSend m sm = (s, o)).
  { unfold MSGS.md_signaling_send_sm_mdSignalingSend.
    destruct m as [m|m]; cbn [organizationSubType wf_message type_of] in *; destruct W as (_ & _ & _ & -> & _); exact E. }
  rewrite K. clear K E. destruct F as (-> & _ & F). split; [done|].
  exists (MSGS.signaling_frame m x). split.
  - destruct (send_whook net _ =? -1); [|tauto]. rewrite <- X5. tauto.
  - destruct (MSGR.signaling_received (ev_recv t (MSGS.signaling_frame m x ++ rest)) r R) as (s' & -> & _). cbn [snd recbptr].
    f_equal. apply (receiver_result m x net); congruence.
Qed.

(** The receiver hands on a TLV only for the organization 00-80-C2 and one of the three supported
    (type, length, subtype); any other frame gives nothing, and leaves the TLVs it holds as they were. *)
Theorem signaling_classified ed r :
  MSGR.state r <> MSGR.REACTION ->
  let buf := recbptr ed in
  let tlv := (ntoh 44 2 buf, ntoh 46 2 buf, octets 51 3 buf) in
  let supported :=
    octets 48 3 buf = [0; 0x80; 0xC2] /\
    In tlv [(0x0003, 12, [0; 0; 2]); (0x8000, 12, [0; 0; 4]); (0x8000, 10, [0; 0; 5])] in
  let (s, o) := MSGR.md_signaling_receive_sm_mdSignalingRec ed r in
  (54 <= length buf)%nat ->
  (supported -> exists m, o = Ret (Some m)) /\ (~ supported -> o = Ret None /\ MSGR.same_tlvs r s).
Proof.
  intros R buf tlv supported. destruct (MSGR.signaling_received ed r R) as (s & -> & G). fold buf in G. fold buf. intros L.
  assert (O3 : forall k, (k + 3 <= length buf)%nat -> octets k 3 buf = [octet k buf; octet (k + 1) buf; octet (k + 2) buf]).
  { intros k Hk. assert (Hl : length (octets k 3 buf) = 3%nat) by (unfold octets; rewrite length_take, length_drop; lia).
    rewrite <- (Nat.add_0_r k) at 2. rewrite !(octet_sub k _ 3) by lia.
    destruct (octets k 3 buf) as [|a [|b [|c [|]]]]; try discriminate Hl. done. }
  unfold supported, tlv. rewrite (O3 48%nat), (O3 51%nat) by lia. clear O3 tlv supported.
  revert G. unfold MSGR.recv_signaling_proc, MSGR.classify_rx_signaling_type. cbn [Nat.add]. cbv zeta.
  generalize (octet 48 buf) (octet 49 buf) (octet 50 buf) (octet 51 buf) (octet 52 buf) (octet 53 buf) (ntoh 44 2 buf) (ntoh 46 2 buf).
  intros o1 o2 o3 s1 s2 s3 ty len.
  destruct (Z.eqb_spec o1 0) as [->|], (Z.eqb_spec o2 0x80) as [->|], (Z.eqb_spec o3 0xC2) as [->|]; cbn [negb orb];
    try (intros G; split; [intros [? _]; congruence|intros _; split; [done|exact G]]).
  destruct (Z.eqb_spec s1 0) as [->|], (Z.eqb_spec s2 0) as [->|]; cbn [negb orb];
    try (intros G; split; [intros [_ I]; cbn [In] in I; intuition congruence|intros _; split; [done|exact G]]).
  destruct ((ty =? 3) && (len =? 12) && (s3 =? 2)) eqn:E1; [|destruct ((ty =? 0x8000) && (len =? 12) && (s3 =? 4)) eqn:E2;
    [|destruct ((ty =? 0x8000) && (len =? 10) && (s3 =? 5)) eqn:E3]]; intros G; cbn [fst snd] in *.
  1-3: split; [intros _; by eexists|intros I; exfalso; apply I; split; [done|]; bool_hyps; subst; cbn [In]; auto].
  split; [|intros _; split; [done|exact G]]. intros [_ I]. cbn [In] in I. exfalso.
  destruct I as [I|[I|[I|[]]]]; injection I as <- <- <-; discriminate.
Qed.

End RoundTrip.

(** ** Witnesses *)

Module SignalingWitness.

#[local] Existing Instance media0.
#[local] Existing Instance config0.
#[local] Instance wire0 : WireConfig :=
  {| MINOR_VERSION_NUMBER := fun _ => 1; PTP_TIMESCALE := 1; MODE_8021_AS_2011 := false |}.

Definition clockA : list Z := [2;0;0;0;0;0;0;1].
Definition sender : MSGS.data :=
  MSGS.md_signaling_send_sm_init 0 1 (Some []) (zero <| PTASG.thisClock := clockA |>) zero.
Definition receiver : MSGR.data := MSGR.md_signaling_receive_sm_init 0 1 zero zero.

(** a request for Sync every 125 ms and no other change *)
Definition request : PTPMsgIntervalRequestTLV :=
  (MSGS.md_signaling_send_set_msg_interval_req (-3) (-128) (-128) sender).2.

Lemma request_wf : wf_message (tx_interval_request request).
Proof. split_and!; try reflexivity; vm_compute; intuition discriminate. Defined.

Lemma signaling_round_trip_witness :
  exists f, (MSGR.md_signaling_receive_sm_mdSignalingRec (ev_recv 0 (f ++ [7])) receiver).2 =
            Ret (Some (rx_interval_request request)).
Proof.
  pose proof (signaling_round_trip (tx_interval_request request) sender [] 0 [7] receiver request_wf
    eq_refl eq_refl ltac:(discriminate) ltac:(discriminate)) as H.
  destruct (MSGS.md_signaling_send_sm_mdSignalingSend _ _) as [s o].
  destruct H as (_ & f & _ & H). exists f. exact H.
Defined.

(** a TLV of the same organization with another subtype *)
Definition unknown : list Z := replicate 44 0 ++ [0; 3; 0; 12; 0; 0x80; 0xC2; 0; 0; 9; 0; 0; 0; 0].

Lemma signaling_classified_witness :
  (MSGR.md_signaling_receive_sm_mdSignalingRec (ev_recv 0 unknown) receiver).2 = Ret None.
Proof.
  pose proof (signaling_classified (ev_recv 0 unknown) receiver ltac:(discriminate)) as H. cbv zeta in H.
  destruct (MSGR.md_signaling_receive_sm_mdSignalingRec _ _) as [s o]. cbn [snd].
  refine (proj1 (proj2 (H _) _)).
  - vm_compute. repeat constructor.
  - intros [_ I]. cbn [In] in I. vm_compute in I. intuition discriminate.
Defined.
End SignalingWitness.
