(* ===== verification/ExtPort.v ===== *)
(** * ExtPort: the machines for externally configured port states.

    port_announce_information_ext_sm.c (PAIE) and port_state_setting_ext_sm.c
    (PSSE), which gptpman.c runs instead of PortAnnounceInformation and
    PortStateSelection when externalPortConfiguration is enabled. *)

From S2P Require Import Prelude Types Driver Common.
#[local] Open Scope Z_scope.
#[local] Open Scope gptp_scope.

(** ** PortAnnounceInformationExt *)

Module PAIE.

Inductive port_announce_information_ext_state_t := INIT | INITIALIZE | RECEIVE | REACTION.
#[export] Instance state_eqdec : EqDecision port_announce_information_ext_state_t.
Proof. solve_decision. Defined.

Record port_announce_information_ext_data := mk {
  ptasg : PerTimeAwareSystemGlobal;
  ppg : PerPortGlobal;
  bptasg : BmcsPerTimeAwareSystemGlobal;
  bppg : BmcsPerPortGlobal;
  state : port_announce_information_ext_state_t;
  last_state : port_announce_information_ext_state_t;
  thisSM : PortAnnounceInformationExtSM;
  domainIndex : Z;
  portIndex : Z
}.
#[export] Instance eta_data : Eta port_announce_information_ext_data :=
  fields! mk [ptasg, ppg, bptasg, bppg, state, last_state, thisSM, domainIndex, portIndex].
Abbreviation data := port_announce_information_ext_data.

Definition PORT_UP (sm : data) : bool :=
  PPGALL.portOper (PPG.forAllDomain (ppg sm)) && PPG.ptpPortEnabled (ppg sm) && PPG.asCapable (ppg sm).

(** the priority vector the announce conveys to this port *)
Definition messagePriority_of (m : PTPMsgAnnounce) (thisPort : Z) : UInteger224 :=
  U224.mk
    (U112.mk (Ann.grandmasterPriority1 m)
             (ClkQ.clockClass (Ann.grandmasterClockQuality m))
             (ClkQ.clockAccuracy (Ann.grandmasterClockQuality m))
             (ClkQ.offsetScaledLogVariance (Ann.grandmasterClockQuality m))
             (Ann.grandmasterPriority2 m) (Ann.grandmasterIdentity m))
    (Ann.stepsRemoved m) (Hdr.sourcePortIdentity (Ann.header m))
    (md_port_index2number thisPort).

(** the path trace of a slave port: the one announced with this clock behind it, or empty *)
Definition path_of (m : PTPMsgAnnounce) (thisClock path : list Z) : list Z :=
  let N := Nat.min (Z.to_nat (Ann.stepsRemoved m + 1)) MAX_PATH_TRACE_N in
  if (N <? MAX_PATH_TRACE_N)%nat then
    memcpy_at (8 * N) thisClock (memcpy_at 0 (take (8 * N) (Ann.pathSequence m)) path)
  else replicate (8 * MAX_PATH_TRACE_N) 0.

Definition rcvdInfoExt (m : PTPMsgAnnounce) (sm : data) : data :=
  let thisPort := PPG.thisPort (ppg sm) in
  let sm := sm <| thisSM; PAIXsm.messagePriority := messagePriority_of m thisPort |>
               <| bppg; BPPG.messageStepsRemoved := Ann.stepsRemoved m |> in
  if aget 0 (PTASG.selectedState (ptasg sm)) thisPort =? SlavePort then
    sm <| bptasg; BPTASG.pathTrace ::= path_of m (PTASG.thisClock (ptasg sm)) |>
  else sm.

Definition flag (m : PTPMsgAnnounce) (mask : Z) : bool :=
  Z.land (aget 0 (Hdr.flags (Ann.header m)) 1) mask =? mask.

Definition recordOtherAnnounceInfo (m : PTPMsgAnnounce) (sm : data) : data :=
  sm <| bppg; BPPG.annLeap61 := flag m 1 |>
     <| bppg; BPPG.annLeap59 := flag m 2 |>
     <| bppg; BPPG.annCurrentUtcOffsetValid := flag m 4 |>
     <| bppg; BPPG.annPtpTimescale := flag m 8 |>
     <| bppg; BPPG.annTimeTraceable := flag m 16 |>
     <| bppg; BPPG.annFrequencyTraceable := flag m 32 |>
     <| bppg; BPPG.annCurrentUtcOffset := Ann.currentUtcOffset m |>
     <| bppg; BPPG.annTimeSource := Ann.timeSource m |>.

Definition allstate_condition (sm : data) : port_announce_information_ext_state_t :=
  if (negb (PORT_UP sm) || PTASG.BEGIN (ptasg sm) || negb (PTASG.instanceEnable (ptasg sm))) &&
     (BPTASG.externalPortConfiguration (bptasg sm) =? VALUE_ENABLED)
  then INITIALIZE else state sm.

Definition initialize_proc (sm : data) : data :=
  sm <| thisSM; PAIXsm.rcvdAnnounce := false |> <| bppg; BPPG.updtInfo := false |>.

Definition initialize_condition (sm : data) : port_announce_information_ext_state_t :=
  if PORT_UP sm && PAIXsm.rcvdAnnounce (thisSM sm) then RECEIVE else INITIALIZE.

(** returns the message priority vector of the machine *)
Definition receive_proc (m : PTPMsgAnnounce) (sm : data) : data :=
  let sm := recordOtherAnnounceInfo m (rcvdInfoExt m sm) in
  sm <| bppg; BPPG.portStepsRemoved := u16 (BPPG.messageStepsRemoved (bppg sm) + 1) |>.

Definition receive_condition (sm : data) : port_announce_information_ext_state_t :=
  if PORT_UP sm && PAIXsm.rcvdAnnounce (thisSM sm) then REACTION else RECEIVE.

Definition switch (state_change : bool) (sm : data) : data * ctl UInteger224 :=
  match state sm with
  | INIT => (sm <| state := INITIALIZE |>, Next)
  | INITIALIZE =>
      let sm := if state_change then initialize_proc sm else sm in
      (sm <| state := initialize_condition sm |>, Next)
  | RECEIVE =>
      if state_change then
        deref (BPPG.rcvdAnnouncePtr (bppg sm)) sm (fun m =>
          let sm := receive_proc m sm in
          (sm <| state := receive_condition sm |>, Leave (Ret (Some (PAIXsm.messagePriority (thisSM sm))))))
      else (sm <| state := receive_condition sm |>, Next)
  | REACTION => (sm, Next)
  end.

Definition set_last (e : port_announce_information_ext_state_t) (sm : data) : data := sm <| last_state := e |>.
Definition set_allstate (sm : data) : data := sm <| state := allstate_condition sm |>.

Definition machine : StateMachine data port_announce_information_ext_state_t UInteger224 := {|
  sm_state := state;
  sm_last := last_state;
  sm_set_last := set_last;
  sm_allstate := set_allstate;
  sm_switch := switch;
  sm_state_set_last := fun _ _ => eq_refl;
  sm_last_set_last := fun _ _ => eq_refl
|}.

(** INIT, INITIALIZE, RECEIVE, REACTION *)
Definition fuel : nat := 6.

Definition port_announce_information_ext_sm (sm : data) : data * outcome UInteger224 :=
  exec (M := machine) fuel sm.

Definition port_announce_information_ext_sm_init (domainIndex portIndex : Z)
    (ptasg : PerTimeAwareSystemGlobal) (ppg : PerPortGlobal)
    (bptasg : BmcsPerTimeAwareSystemGlobal) (bppg : BmcsPerPortGlobal) : data :=
  mk ptasg ppg bptasg bppg INIT INIT zero domainIndex portIndex.

(** ** The machine as the stack runs it *)

Lemma paie_pass_eq sm :
  pass (M := machine) sm = switch (bool_decide (last_state sm <> state sm)) (set_last (state sm) sm).
Proof. reflexivity. Qed.

Definition rank (sm : data) : nat :=
  match state sm with INIT => 4 | INITIALIZE => 3 | RECEIVE => 2 | REACTION => 1 end.

Lemma paie_receive_keeps m sm :
  state (receive_proc m sm) = state sm /\ last_state (receive_proc m sm) = last_state sm.
Proof. unfold receive_proc, rcvdInfoExt. cbv zeta. by destruct (_ =? _). Qed.

Lemma ext_turns s s' : turns (M := machine) s s' -> (rank s' < rank s)%nat.
Proof.
  intros [H T]. rewrite paie_pass_eq in H. change (last_state s' <> state s') in T.
  unfold switch in H. change (state (set_last (state s) s)) with (state s) in H.
  unfold rank. set (c := bool_decide (last_state s <> state s)) in *. destruct (state s) eqn:E.
  - injection H as <-. cbn. lia.
  - injection H as <-. revert T. unfold initialize_condition.
    destruct c; cbn [state last_state upd set_last initialize_proc]; destruct (_ && _); try done; intros _; lia.
  - destruct c.
    + unfold deref in H. destruct (BPPG.rcvdAnnouncePtr _); discriminate H.
    + injection H as <-. revert T. unfold receive_condition. cbn [state last_state upd set_last].
      destruct (_ && _); [intros _; lia|done].
  - injection H as <-. cbn in T. congruence.
Qed.

Lemma port_announce_information_ext_ends sm :
  run (M := machine) fuel sm = Some (port_announce_information_ext_sm sm).
Proof.
  apply exec_run. unfold run.
  apply (loop_ends (M := machine)) with (Inv := fun _ => True) (rank := rank); [|done|].
  - intros s s' _ H. split; [done|by apply ext_turns].
  - unfold rank, fuel. destruct (state _); lia.
Qed.

(** what gptpman.c does with the machine: it is made, and evaluated whatever the other machines have
    done to the shared structs in between; nothing else in the stack touches it *)
Inductive evaluated : data -> Prop :=
| ev_init di pi ptasg ppg bptasg bppg :
    evaluated (port_announce_information_ext_sm_init di pi ptasg ppg bptasg bppg)
| ev_eval s pt pp bt bp :
    evaluated s ->
    evaluated (port_announce_information_ext_sm
                 (s <| ptasg := pt |> <| ppg := pp |> <| bptasg := bt |> <| bppg := bp |>)).1.

Definition idle (s : data) : Prop :=
  PAIXsm.rcvdAnnounce (thisSM s) = false /\ (state s = INIT \/ state s = INITIALIZE).

Lemma paie_idle_pass s s' c : idle s -> pass (M := machine) s = (s', c) -> idle s' /\ c = Next.
Proof.
  intros [R E]. rewrite paie_pass_eq. unfold switch. change (state (set_last (state s) s)) with (state s).
  set (b := bool_decide _). destruct E as [-> | ->]; intros [= <- <-].
  - split; [split; [exact R|by right]|done].
  - split; [|done]. unfold initialize_condition.
    assert (Q : forall y, PAIXsm.rcvdAnnounce (thisSM y) = false ->
      idle (y <| state := if PORT_UP y && PAIXsm.rcvdAnnounce (thisSM y) then RECEIVE else INITIALIZE |>))
      by (intros y H; rewrite H, andb_false_r; split; [exact H|by right]).
    destruct b; by apply Q.
Qed.

Lemma paie_idle_allstate s : idle s -> idle (set_allstate s).
Proof.
  intros [R E]. unfold set_allstate, allstate_condition. destruct (_ && _); [split; [exact R|by right]|].
  split; [exact R|exact E].
Qed.

Lemma paie_idle_evaluated s : evaluated s -> idle s.
Proof.
  intros E. induction E as [|s pt pp bt bp E I]; [split; [done|by left]|].
  apply (exec_ret (M := machine) idle); [exact paie_idle_allstate|exact paie_idle_pass|exact I].
Qed.

Lemma idle_returns s : idle s -> (port_announce_information_ext_sm s).2 = Ret None.
Proof. intros I. exact (proj2 (exec_ret (M := machine) idle fuel s paie_idle_allstate paie_idle_pass I)). Qed.

(** Even with [rcvdAnnounce] set, a machine that has taken one announce takes no other: it rests in
    REACTION until the port goes down. *)
Lemma ext_stuck_in_reaction sm :
  state sm = REACTION -> set_allstate sm = sm ->
  port_announce_information_ext_sm sm = (sm <| last_state := REACTION |>, Ret None).
Proof.
  intros E A. apply (exec_eq (M := machine)). change (sm_allstate sm) with (set_allstate sm). rewrite A.
  apply (loop_stop (M := machine)); [|exact (eq_sym E)].
  rewrite paie_pass_eq. unfold switch, set_last. change (state (sm <| last_state := state sm |>)) with (state sm).
  by rewrite E.
Qed.

End PAIE.

(** ** PortStateSettingExt *)

Module PSSE.

Inductive port_state_setting_ext_state_t := INIT | INITIALIZE | STATE_SETTING | REACTION.
#[export] Instance state_eqdec : EqDecision port_state_setting_ext_state_t.
Proof. solve_decision. Defined.

Record port_state_setting_ext_data := mk {
  ptasg : PerTimeAwareSystemGlobal;
  ppgl : list PerPortGlobal;
  bptasg : BmcsPerTimeAwareSystemGlobal;
  bppgl : list BmcsPerPortGlobal;
  state : port_state_setting_ext_state_t;
  last_state : port_state_setting_ext_state_t;
  thisSM : PortStateSettingExtSM;
  domainIndex : Z;
  portIndex : Z;
  max_ports : Z;
  messagePriority : UInteger224
}.
#[export] Instance eta_data : Eta port_state_setting_ext_data :=
  fields! mk [ptasg, ppgl, bptasg, bppgl, state, last_state, thisSM, domainIndex, portIndex, max_ports,
              messagePriority].
Abbreviation data := port_state_setting_ext_data.

Definition bppg (sm : data) (i : Z) : BmcsPerPortGlobal := aget zero (bppgl sm) i.
Definition ppg (sm : data) (i : Z) : PerPortGlobal := aget zero (ppgl sm) i.
Definition SELECTED_STATE (sm : data) (i : Z) : Z := aget 0 (PTASG.selectedState (ptasg sm)) i.

Definition set_selected_state (i st : Z) (sm : data) : data :=
  sm <| ptasg; PTASG.selectedState ::= fun l => aset l i st |>.

(** the first slave port from port [a] on *)
Definition slave_from (a : Z) (sm : data) : option Z :=
  find (fun i => SELECTED_STATE sm i =? SlavePort) (seqZ a (max_ports sm - a)).

Definition path_is_thisClock (sm : data) : data :=
  sm <| bptasg; BPTASG.pathTrace :=
          memcpy_at 0 (PTASG.thisClock (ptasg sm)) (replicate (8 * MAX_PATH_TRACE_N) 0) |>.

Definition resetStateDisabledTree (sm : data) : data :=
  let sm := set_selected_state (portIndex sm) DisabledPort sm in
  match slave_from 0 sm with Some _ => sm | None => path_is_thisClock sm end.

(** the time properties and the grandmaster: the announced ones when there is a slave port *)
Definition use_announced (slaveIndex : Z) (sm : data) : data :=
  let b := bppg sm (portIndex sm) in
  let sm := sm <| bptasg ::= fun t => t
      <| BPTASG.leap61 := BPPG.annLeap61 b |> <| BPTASG.leap59 := BPPG.annLeap59 b |>
      <| BPTASG.currentUtcOffsetValid := BPPG.annCurrentUtcOffsetValid b |>
      <| BPTASG.ptpTimescale := BPPG.annPtpTimescale b |>
      <| BPTASG.timeTraceable := BPPG.annTimeTraceable b |>
      <| BPTASG.frequencyTraceable := BPPG.annFrequencyTraceable b |>
      <| BPTASG.currentUtcOffset := BPPG.annCurrentUtcOffset b |>
      <| BPTASG.timeSource := BPPG.annTimeSource b |>
      <| BPTASG.masterStepsRemoved := BPPG.portStepsRemoved (bppg sm slaveIndex) |> |> in
  if U112.priority1 (U224.rootSystemIdentity (messagePriority sm)) <? 255 then
    sm <| ptasg; PTASG.gmPresent := true |>
       <| ptasg; PTASG.gmIdentity :=
            U112.clockIdentity (U224.rootSystemIdentity (BPPG.masterPriority b)) |>
  else sm <| ptasg; PTASG.gmPresent := false |>.

Definition use_system (sm : data) : data :=
  let sm := sm <| bptasg ::= fun t => t
      <| BPTASG.gmPriority := BPTASG.systemPriority t |>
      <| BPTASG.leap61 := BPTASG.sysLeap61 t |> <| BPTASG.leap59 := BPTASG.sysLeap59 t |>
      <| BPTASG.currentUtcOffsetValid := BPTASG.sysCurrentUTCOffsetValid t |>
      <| BPTASG.ptpTimescale := BPTASG.sysPtpTimescale t |>
      <| BPTASG.timeTraceable := BPTASG.sysTimeTraceable t |>
      <| BPTASG.frequencyTraceable := BPTASG.sysFrequencyTraceable t |>
      <| BPTASG.currentUtcOffset := BPTASG.sysCurrentUtcOffset t |>
      <| BPTASG.timeSource := BPTASG.sysTimeSource t |>
      <| BPTASG.masterStepsRemoved := 0 |> |> in
  let root := U224.rootSystemIdentity (BPTASG.systemPriority (bptasg sm)) in
  if U112.priority1 root <? 255 then
    sm <| ptasg; PTASG.gmPresent := true |> <| ptasg; PTASG.gmIdentity := U112.clockIdentity root |>
  else sm <| ptasg; PTASG.gmPresent := false |>.

(** the state of this port, and of port 0 *)
Definition assign_state (slavePortAvail : bool) (sm : data) : data :=
  let i := portIndex sm in
  let st :=
    if PSEXsm.disabledExt (thisSM sm) then DisabledPort
    else if PPGALL.asymmetryMeasurementMode (PPG.forAllDomain (ppg sm i)) then PassivePort
    else PSEXsm.portStateInd (thisSM sm) in
  let sm := set_selected_state i st sm in
  if SELECTED_STATE sm i =? SlavePort then set_selected_state 0 PassivePort sm
  else if negb slavePortAvail then set_selected_state 0 SlavePort sm
  else sm.

Definition set_priorities (slavePortAvail : bool) (sm : data) : data :=
  let i := portIndex sm in
  let sm := if SELECTED_STATE sm i =? SlavePort
            then sm <| bptasg; BPTASG.gmPriority := messagePriority sm |> else sm in
  let sm := if negb slavePortAvail
            then sm <| bptasg ::= fun t => t <| BPTASG.gmPriority := BPTASG.systemPriority t |> |> else sm in
  let thisPort := PPG.thisPort (ppg sm i) in
  sm <| bppgl ::= fun l => aset l i (aget zero l i
    <| BPPG.masterPriority := BPTASG.gmPriority (bptasg sm)
         <| U224.sourcePortIdentity := PortId.mk (PTASG.thisClock (ptasg sm)) thisPort |>
         <| U224.portNumber := md_port_index2number thisPort |> |>) |>.

Definition updtPortState (sm : data) : data :=
  let slave := slave_from 1 sm in
  let avail := match slave with Some _ => true | None => false end in
  let sm := match slave with Some s => use_announced s sm | None => use_system sm end in
  let sm := set_priorities avail (assign_state avail sm) in
  if negb avail then path_is_thisClock sm else sm.

Definition allstate_condition (sm : data) : port_state_setting_ext_state_t :=
  if (PTASG.BEGIN (ptasg sm) || negb (PTASG.instanceEnable (ptasg sm))) &&
     (BPTASG.externalPortConfiguration (bptasg sm) =? VALUE_ENABLED)
  then INITIALIZE else state sm.

Definition initialize_proc (sm : data) : data := resetStateDisabledTree sm.

(** asymmetryMeasurementModeChangeThisPort of [forAllDomain] *)
Definition change_asked (sm : data) : bool :=
  PSEXsm.rcvdPortStateInd (thisSM sm) || PSEXall.asymmetryMeasurementModeChangeThisPort (PSEXsm.forAllDomain (thisSM sm)).

Definition initialize_condition (sm : data) : port_state_setting_ext_state_t :=
  if change_asked sm then STATE_SETTING else INITIALIZE.

Definition state_setting_proc (sm : data) : data :=
  updtPortState sm <| thisSM; PSEXsm.forAllDomain; PSEXall.asymmetryMeasurementModeChangeThisPort := false |>
                   <| thisSM; PSEXsm.rcvdPortStateInd := false |>.

Definition state_setting_condition (sm : data) : data :=
  (if change_asked sm || PSEXsm.disabledExt (thisSM sm) then sm <| last_state := REACTION |> else sm)
    <| state := STATE_SETTING |>.

Definition switch (state_change : bool) (sm : data) : data * ctl unit :=
  match state sm with
  | INIT => (sm <| state := INITIALIZE |>, Next)
  | INITIALIZE =>
      let sm := if state_change then initialize_proc sm else sm in
      (sm <| state := initialize_condition sm |>, Next)
  | STATE_SETTING =>
      let sm := if state_change then state_setting_proc sm else sm in
      (state_setting_condition sm, Next)
  | REACTION => (sm, Next)
  end.

Definition set_last (e : port_state_setting_ext_state_t) (sm : data) : data := sm <| last_state := e |>.
Definition set_allstate (sm : data) : data := sm <| state := allstate_condition sm |>.

Definition machine : StateMachine data port_state_setting_ext_state_t unit := {|
  sm_state := state;
  sm_last := last_state;
  sm_set_last := set_last;
  sm_allstate := set_allstate;
  sm_switch := switch;
  sm_state_set_last := fun _ _ => eq_refl;
  sm_last_set_last := fun _ _ => eq_refl
|}.

(** INIT, INITIALIZE, a resting STATE_SETTING, STATE_SETTING; not enough for any fuel while the port is
    disabled from outside, see below *)
Definition fuel : nat := 6.

Definition port_state_setting_ext_sm (sm : data) : data * outcome unit := exec (M := machine) fuel sm.

(** all octets of the message priority are ones *)
Definition port_state_setting_ext_sm_init (domainIndex portIndex max_ports : Z)
    (ptasg : PerTimeAwareSystemGlobal) (ppgl : list PerPortGlobal)
    (bptasg : BmcsPerTimeAwareSystemGlobal) (bppgl : list BmcsPerPortGlobal) : data :=
  mk ptasg ppgl bptasg bppgl INIT INIT zero domainIndex portIndex max_ports
     (U224.mk (U112.mk 255 255 255 65535 255 (replicate 8 255)) 65535
        (PortId.mk (replicate 8 255) 65535) 65535).

Definition port_state_setting_ext_sm_messagePriority (messagePriority0 : UInteger224) (sm : data) : data :=
  sm <| messagePriority := messagePriority0 |>.

(** ** The machine as the stack runs it *)

Lemma psse_pass_eq sm :
  pass (M := machine) sm = switch (bool_decide (last_state sm <> state sm)) (set_last (state sm) sm).
Proof. reflexivity. Qed.

(** what an update of the port state leaves alone *)
Lemma updt_keeps sm :
  thisSM (updtPortState sm) = thisSM sm /\ state (updtPortState sm) = state sm /\
  last_state (updtPortState sm) = last_state sm.
Proof.
  assert (A : forall i y, thisSM (use_announced i y) = thisSM y /\ state (use_announced i y) = state y /\
      last_state (use_announced i y) = last_state y) by (intros i y; unfold use_announced; cbv zeta; by destruct (_ <? _)).
  assert (S : forall y, thisSM (use_system y) = thisSM y /\ state (use_system y) = state y /\
      last_state (use_system y) = last_state y) by (intros y; unfold use_system; cbv zeta; by destruct (_ <? _)).
  assert (P : forall a z, thisSM (set_priorities a z) = thisSM z /\ state (set_priorities a z) = state z /\
      last_state (set_priorities a z) = last_state z)
    by (intros a z; unfold set_priorities; cbv zeta; by destruct (SELECTED_STATE _ _ =? _), (negb a)).
  assert (Q : forall a y, thisSM (assign_state a y) = thisSM y /\ state (assign_state a y) = state y /\
      last_state (assign_state a y) = last_state y)
    by (intros a y; unfold assign_state; cbv zeta; destruct (SELECTED_STATE _ _ =? _); [done|]; by destruct (negb a)).
  assert (B : forall a y, thisSM (set_priorities a (assign_state a y)) = thisSM y /\
      state (set_priorities a (assign_state a y)) = state y /\
      last_state (set_priorities a (assign_state a y)) = last_state y).
  { intros a y. destruct (P a (assign_state a y)) as (-> & -> & ->). apply Q. }
  unfold updtPortState. cbv zeta. destruct (slave_from 1 sm) as [i|]; cbn [negb].
  - destruct (A i sm) as (<- & <- & <-). apply B.
  - destruct (S sm) as (<- & <- & <-). destruct (B false (use_system sm)) as (B1 & B2 & B3).
    generalize dependent (set_priorities false (assign_state false (use_system sm))).
    intros z B1 B2 B3. by rewrite <- B1, <- B2, <- B3.
Qed.

Inductive evaluated : data -> Prop :=
| ev_init di pi mp ptasg ppgl bptasg bppgl :
    evaluated (port_state_setting_ext_sm_init di pi mp ptasg ppgl bptasg bppgl)
| ev_message s v : evaluated s -> evaluated (port_state_setting_ext_sm_messagePriority v s)
| ev_eval s pt pp bt bp :
    evaluated s ->
    evaluated (port_state_setting_ext_sm
                 (s <| ptasg := pt |> <| ppgl := pp |> <| bptasg := bt |> <| bppgl := bp |>)).1.

Definition idle (s : data) : Prop :=
  change_asked s = false /\ PSEXsm.disabledExt (thisSM s) = false /\ (state s = INIT \/ state s = INITIALIZE).

Lemma reset_keeps sm : thisSM (resetStateDisabledTree sm) = thisSM sm.
Proof. unfold resetStateDisabledTree. cbv zeta. by destruct (slave_from 0 _). Qed.

Lemma psse_idle_pass s s' c : idle s -> pass (M := machine) s = (s', c) -> idle s' /\ c = Next.
Proof.
  intros (R & D & E). rewrite psse_pass_eq. unfold switch. change (state (set_last (state s) s)) with (state s).
  set (b := bool_decide _). unfold idle, change_asked in *. destruct E as [-> | ->]; intros [= <- <-].
  - split; [split; [exact R|split; [exact D|by right]]|done].
  - split; [|done]. unfold initialize_condition, change_asked.
    set (y := if b then _ else _). assert (Y : thisSM y = thisSM s) by (unfold y; destruct b; [exact (reset_keeps (set_last INITIALIZE s))|done]).
    cbn [thisSM state upd]. rewrite Y, R. split; [done|]. split; [exact D|by right].
Qed.

Lemma psse_idle_allstate s : idle s -> idle (set_allstate s).
Proof.
  intros (R & D & E). unfold set_allstate, allstate_condition.
  destruct (_ && _); (split; [exact R|split; [exact D|]]); [by right|exact E].
Qed.

Lemma psse_idle_evaluated s : evaluated s -> idle s.
Proof.
  intros E. induction E as [| |s pt pp bt bp E I]; [split_and!; try done; by left|done|].
  apply (exec_ret (M := machine) idle); [exact psse_idle_allstate|exact psse_idle_pass|exact I].
Qed.

(** turns still to go while the port is not disabled from outside *)
Definition rank (sm : data) : nat :=
  match state sm with
  | INIT => 3
  | INITIALIZE => 2
  | STATE_SETTING => if bool_decide (last_state sm = STATE_SETTING) then 1 else 0
  | REACTION => 0
  end.

Definition not_disabled (sm : data) : Prop := PSEXsm.disabledExt (thisSM sm) = false.

Lemma reset_last sm : last_state (resetStateDisabledTree sm) = last_state sm.
Proof. unfold resetStateDisabledTree. cbv zeta. by destruct (slave_from 0 _). Qed.

Lemma state_setting_settles sm :
  change_asked (state_setting_proc sm) = false /\
  PSEXsm.disabledExt (thisSM (state_setting_proc sm)) = PSEXsm.disabledExt (thisSM sm) /\
  last_state (state_setting_proc sm) = last_state sm.
Proof.
  unfold state_setting_proc. destruct (updt_keeps sm) as (K & _ & L). generalize dependent (updtPortState sm).
  intros y K L. split; [done|]. split; [by rewrite <- K|exact L].
Qed.

Lemma setting_turns s s' :
  not_disabled s -> turns (M := machine) s s' -> not_disabled s' /\ (rank s' < rank s)%nat.
Proof.
  unfold not_disabled. intros D [H N]. revert H N. rewrite psse_pass_eq. unfold switch.
  change (sm_last (StateMachine := machine)) with last_state. change (sm_state (StateMachine := machine)) with state.
  change (state (set_last (state s) s)) with (state s). set (b := bool_decide _).
  destruct (state s) eqn:E; intros [= <-] N; unfold rank; rewrite ?E.
  - split; [exact D|cbn; lia].
  - set (y := if b then _ else _) in *.
    assert (Y : thisSM y = thisSM s /\ last_state y = INITIALIZE)
      by (unfold y; destruct b; [split; [exact (reset_keeps _)|exact (reset_last _)]|done]).
    clearbody y. destruct Y as [Y L]. cbn [thisSM state last_state upd] in *. rewrite Y, L in *.
    split; [exact D|]. unfold initialize_condition in *. destruct (change_asked y); [|done]. cbn. rewrite ?L.
    case_bool_decide; [done|lia].
  - unfold state_setting_condition in *. destruct b eqn:B; unfold b in B.
    + destruct (state_setting_settles (set_last STATE_SETTING s)) as (C & F & L). exfalso. apply N. clear N.
      generalize dependent (state_setting_proc (set_last STATE_SETTING s)). intros y C F L.
      rewrite C, F. change (thisSM (set_last STATE_SETTING s)) with (thisSM s). rewrite D. exact L.
    + apply bool_decide_eq_false, dec_stable in B.
      change (change_asked (set_last STATE_SETTING s)) with (change_asked s) in *.
      change (thisSM (set_last STATE_SETTING s)) with (thisSM s) in *.
      rewrite D, orb_false_r in *. rewrite ?B, ?E. destruct (change_asked s); [|done].
      split; [exact D|]. apply Nat.lt_succ_diag_r.
  - by destruct N.
Qed.

Lemma port_state_setting_ext_ends sm :
  not_disabled sm -> run (M := machine) fuel sm = Some (port_state_setting_ext_sm sm).
Proof.
  intros D. apply exec_run. unfold run.
  apply (loop_ends (M := machine)) with (Inv := not_disabled) (rank := rank).
  - exact setting_turns.
  - exact D.
  - unfold rank, fuel. destruct (state _); try case_bool_decide; lia.
Qed.

(** A port disabled from outside: the machine sets its state again and again and never returns. *)
Definition setting_disabled (sm : data) : Prop :=
  state sm = STATE_SETTING /\ PSEXsm.disabledExt (thisSM sm) = true.

Lemma disabled_turns s : setting_disabled s -> exists s', turns (M := machine) s s' /\ setting_disabled s'.
Proof.
  intros [E D]. set (b := bool_decide (last_state s <> state s)).
  set (y := if b then state_setting_proc (set_last STATE_SETTING s) else set_last STATE_SETTING s).
  exists (y <| last_state := REACTION |> <| state := STATE_SETTING |>).
  assert (Y : PSEXsm.disabledExt (thisSM y) = true).
  { unfold y. destruct b; [|exact D]. unfold state_setting_proc.
    destruct (updt_keeps (set_last STATE_SETTING s)) as (K & _). cbn [thisSM upd PSEXsm.disabledExt]. rewrite K. exact D. }
  split; [|split; [done|exact Y]]. split; [|change (REACTION <> STATE_SETTING); discriminate].
  rewrite psse_pass_eq. unfold switch. change (state (set_last (state s) s)) with (state s). fold b. rewrite E.
  cbv zeta. fold y. unfold state_setting_condition. rewrite Y, orb_true_r. done.
Qed.

End PSSE.

(** With externally configured ports the machines do nothing: no code of the stack sets
    rcvdAnnounce, rcvdPortStateInd or disabledExt, so from their initialisation on, whatever the other
    machines do to the shared structs, PortAnnounceInformationExt never takes an announce (every
    evaluation returns NULL), and PortStateSettingExt never sets a state (it rests in INITIALIZE). *)
Theorem external_configuration_inert :
  (forall s, PAIE.evaluated s -> (PAIE.port_announce_information_ext_sm s).2 = Ret None) /\
  (forall s, PSSE.evaluated s -> PSSE.state s = PSSE.INIT \/ PSSE.state s = PSSE.INITIALIZE).
Proof.
  split.
  - intros s E. by apply PAIE.idle_returns, PAIE.paie_idle_evaluated.
  - intros s E. apply (PSSE.psse_idle_evaluated s E).
Qed.

(** Were a port disabled from outside (disabledExt) while its state is being set, the evaluation
    would never return: the condition asks for another turn until disabledExt is cleared, which the
    turn does not do. *)
Theorem disabled_ext_never_returns sm n :
  PSSE.setting_disabled sm -> PSSE.allstate_condition sm = PSSE.state sm ->
  run (M := PSSE.machine) n sm = None.
Proof.
  intros D A. unfold run. change (sm_allstate sm) with (PSSE.set_allstate sm).
  assert (K : PSSE.set_allstate sm = sm) by (clear D; unfold PSSE.set_allstate; rewrite A; by destruct sm). rewrite K.
  apply (loop_diverges (M := PSSE.machine) PSSE.setting_disabled); [exact PSSE.disabled_turns|exact D].
Qed.

(** The first slave port is given the system's own priority as grandmaster: whether there is a slave
    port is looked up before the port's state is set. *)
Lemma first_slave_uses_system_priority sm :
  PSSE.slave_from 1 sm = None ->
  BPTASG.gmPriority (PSSE.bptasg (PSSE.updtPortState sm)) = BPTASG.systemPriority (PSSE.bptasg sm).
Proof.
  intros H.
  assert (S : forall y, BPTASG.systemPriority (PSSE.bptasg (PSSE.use_system y)) = BPTASG.systemPriority (PSSE.bptasg y))
    by (intros y; unfold PSSE.use_system; cbv zeta; by destruct (_ <? _)).
  assert (Q : forall y, PSSE.bptasg (PSSE.assign_state false y) = PSSE.bptasg y)
    by (intros y; unfold PSSE.assign_state; cbv zeta; cbn [negb]; by destruct (PSSE.SELECTED_STATE _ _ =? _)).
  assert (P : forall y, BPTASG.gmPriority (PSSE.bptasg (PSSE.set_priorities false y)) = BPTASG.systemPriority (PSSE.bptasg y))
    by (intros y; unfold PSSE.set_priorities; cbv zeta; cbn [negb]; by destruct (PSSE.SELECTED_STATE _ _ =? _)).
  assert (T : forall y, BPTASG.gmPriority (PSSE.bptasg (PSSE.path_is_thisClock y)) = BPTASG.gmPriority (PSSE.bptasg y))
    by done.
  unfold PSSE.updtPortState. cbv zeta. rewrite H. cbn [negb]. by rewrite T, P, Q, S.
Qed.

(** ** Witness *)

Module ExtPortWitness.

Definition port1 : PSSE.data :=
  PSSE.mk (zero <| PTASG.instanceEnable := true |>) [zero; zero]
    (zero <| BPTASG.externalPortConfiguration := VALUE_ENABLED |>) [zero; zero]
    PSSE.STATE_SETTING PSSE.INITIALIZE (zero <| PSEXsm.disabledExt := true |>) 0 1 2 zero.

Lemma disabled_witness : run (M := PSSE.machine) 100 port1 = None.
Proof. apply (disabled_ext_never_returns port1 100); [split; reflexivity|reflexivity]. Defined.

Definition enabled : BmcsPerTimeAwareSystemGlobal := zero <| BPTASG.externalPortConfiguration := VALUE_ENABLED |>.

Lemma external_inert_witness :
  (PAIE.port_announce_information_ext_sm
     (PAIE.port_announce_information_ext_sm_init 0 1 zero zero enabled zero)).2 = Ret None /\
  PSSE.state (PSSE.port_state_setting_ext_sm_init 0 1 2 zero [zero; zero] enabled [zero; zero]) = PSSE.INIT.
Proof.
  split.
  - apply (proj1 external_configuration_inert). apply PAIE.ev_init.
  - destruct (proj2 external_configuration_inert _ (PSSE.ev_init 0 1 2 zero [zero; zero] enabled [zero; zero]))
      as [E|E]; [exact E|discriminate E].
Defined.
End ExtPortWitness.
