(* ===== verification/Llist.v ===== *)
(** * Llist: the doubly linked list of tsn_unibase (ub_llist.c, ub_llist.h)

    The nodes are the callers', linked through their own [prev] and [next]
    members, so the model has the memory they live in: a heap from locations to
    nodes, and the list struct, both changed in place by every function.  A
    store through a pointer that designates no node is [None].  A struct
    pointer that may be NULL is an [option].

    The abstract view of a list is the sequence of its nodes; [is_list] says
    that the links of the heap are those of the sequence.  The functions are
    shown to implement insertion, removal and sorting of the sequence. *)

From S2P Require Import Prelude.
From stdpp Require Import list gmap sorting.
#[local] Open Scope Z_scope.
#[local] Open Scope gptp_scope.

Module LL.

Definition loc := positive.

Record ub_list_node := mk_node { prev : option loc; next : option loc; node_data : Z }.
#[export] Instance eta_ub_list_node : Eta ub_list_node := fields! mk_node [prev, next, node_data].

Record ub_list := mk_list { head : option loc; tail : option loc; count : Z }.
#[export] Instance eta_ub_list : Eta ub_list := fields! mk_list [head, tail, count].

Definition heap := gmap loc ub_list_node.

(** the list struct at the argument [ub_list] ([None]: the argument is NULL) and the nodes *)
Record mem := mk { lst : option ub_list; hp : heap }.
#[export] Instance eta_mem : Eta mem := fields! mk [lst, hp].

(** a store to members of the node at [p] *)
Definition store (f : ub_list_node -> ub_list_node) (p : loc) (h : heap) : option heap :=
  match h !! p with Some _ => Some (alter f p h) | None => None end.
Definition set_prev (v : option loc) (n : ub_list_node) : ub_list_node := n <| prev := v |>.
Definition set_next (v : option loc) (n : ub_list_node) : ub_list_node := n <| next := v |>.

(** [if (o != NULL) store f o] *)
Definition store_at (f : ub_list_node -> ub_list_node) (o : option loc) (h : heap) : option heap :=
  match o with Some p => store f p h | None => Some h end.

(** ** The functions *)

Definition ub_list_init (m : mem) : mem :=
  match lst m with Some _ => m <| lst := Some (mk_list None None 0) |> | None => m end.

(** the loop of ub_list_clear from [node] on; [node_clear] may do anything with the node *)
Fixpoint clear_nodes (fuel : nat) (node_clear : loc -> heap -> option heap) (node : option loc) (h : heap) :
    option heap :=
  match fuel, node with
  | _, None => Some h
  | O, Some _ => None
  | S fuel, Some p =>
      n ← h !! p;
      h ← node_clear p h;
      clear_nodes fuel node_clear (next n) h
  end.

Definition ub_list_clear (fuel : nat) (node_clear : loc -> heap -> option heap) (m : mem) : option mem :=
  match lst m with
  | Some l =>
      h ← clear_nodes fuel node_clear (head l) (hp m);
      Some (ub_list_init (m <| hp := h |>))
  | None => Some m
  end.

Definition inc_count (l : ub_list) : ub_list := l <| count ::= fun c => u32 (c + 1) |>.

Definition ub_list_append (node : option loc) (m : mem) : option mem :=
  match lst m, node with
  | Some l, Some p =>
      h ← store (set_prev (tail l)) p (hp m);
      h ← store (set_next None) p h;
      let l1 := match head l with None => l <| head := Some p |> | Some _ => l end in
      h ← store_at (set_next (Some p)) (tail l) h;
      Some (mk (Some (inc_count (l1 <| tail := Some p |>))) h)
  | _, _ => Some m
  end.

Definition ub_list_prepend (node : option loc) (m : mem) : option mem :=
  match lst m, node with
  | Some l, Some p =>
      h ← store (set_prev None) p (hp m);
      h ← store (set_next (head l)) p h;
      h ← store_at (set_prev (Some p)) (head l) h;
      let l1 := match tail l with None => l <| tail := Some p |> | Some _ => l end in
      Some (mk (Some (inc_count (l1 <| head := Some p |>))) h)
  | _, _ => Some m
  end.

Definition ub_list_insert_before (refnode node : option loc) (m : mem) : option mem :=
  match lst m, refnode, node with
  | Some l, Some r, Some p =>
      rn ← hp m !! r;
      h ← store_at (set_next (Some p)) (prev rn) (hp m);
      let l := match prev rn with
               | Some _ => l
               | None => if bool_decide (head l = Some r) then l <| head := Some p |> else l
               end in
      rn ← h !! r;
      h ← store (set_prev (prev rn)) p h;
      h ← store (set_next (Some r)) p h;
      h ← store (set_prev (Some p)) r h;
      Some (mk (Some (inc_count l)) h)
  | _, _, _ => Some m
  end.

Definition ub_list_insert_after (refnode node : option loc) (m : mem) : option mem :=
  match lst m, refnode, node with
  | Some l, Some r, Some p =>
      rn ← hp m !! r;
      h ← store_at (set_prev (Some p)) (next rn) (hp m);
      let l := match next rn with
               | Some _ => l
               | None => if bool_decide (tail l = Some r) then l <| tail := Some p |> else l
               end in
      h ← store (set_prev (Some r)) p h;
      rn ← h !! r;
      h ← store (set_next (next rn)) p h;
      h ← store (set_next (Some p)) r h;
      Some (mk (Some (inc_count l)) h)
  | _, _, _ => Some m
  end.

(** the list pointer is not checked, and used in any case for the count *)
Definition ub_list_unlink (node : option loc) (m : mem) : option mem :=
  match node with
  | Some p =>
      l ← lst m;
      n ← hp m !! p;
      h ← store_at (set_next (next n)) (prev n) (hp m);
      let l := match prev n with Some _ => l | None => l <| head := next n |> end in
      n ← h !! p;
      h ← store_at (set_prev (prev n)) (next n) h;
      let l := match next n with Some _ => l | None => l <| tail := prev n |> end in
      h ← store (set_next None) p h;
      h ← store (set_prev None) p h;
      Some (mk (Some (if 0 <? count l then l <| count ::= fun c => c - 1 |> else l)) h)
  | None => Some m
  end.

(** The inner loop of ub_list_sort from [node] on: the new state and the flag [sort].  [sh] is the
    comparator with its argument; it looks at the nodes, which sorting does not change but for the
    links. *)
Fixpoint sort_pass (fuel : nat) (sh : loc -> loc -> bool) (node : option loc) (sort : bool) (m : mem) :
    option (mem * bool) :=
  match fuel with
  | O => None
  | S fuel =>
      match node with
      | None => Some (m, sort)
      | Some a =>
          n ← hp m !! a;
          match next n with
          | None => Some (m, sort)
          | Some b =>
              if sh a b then sort_pass fuel sh (Some b) sort m
              else
                m ← ub_list_unlink (Some a) m;
                m ← ub_list_insert_after (Some b) (Some a) m;
                sort_pass fuel sh (Some a) true m
          end
      end
  end.

(** [passes] bounds the turns of the outer loop, [fuel] those of the inner one *)
Fixpoint sort_loop (passes fuel : nat) (sh : loc -> loc -> bool) (m : mem) : option mem :=
  match passes with
  | O => None
  | S passes =>
      l ← lst m;
      r ← sort_pass fuel sh (head l) false m;
      if (r : mem * bool).2 then sort_loop passes fuel sh r.1 else Some r.1
  end.

Definition ub_list_sort (passes fuel : nat) (sh : option (loc -> loc -> bool)) (m : mem) : option mem :=
  match lst m, sh with
  | Some _, Some sh => sort_loop passes fuel sh m
  | _, _ => Some m
  end.

(** the loop of ub_list_apply; [ah] may change the memory: the next node is read before the call *)
Fixpoint apply_nodes (fuel : nat) (fwd : bool) (ah : loc -> mem -> option (mem * bool))
    (node : option loc) (m : mem) : option (mem * option loc) :=
  match fuel, node with
  | _, None => Some (m, None)
  | O, Some _ => None
  | S fuel, Some cur =>
      n ← hp m !! cur;
      r ← ah cur m;
      if (r : mem * bool).2 then Some (r.1, Some cur)
      else apply_nodes fuel fwd ah (if fwd then next n else prev n) r.1
  end.

Definition ub_list_apply (fuel : nat) (fwd : bool) (ah : option (loc -> mem -> option (mem * bool))) (m : mem) :
    option (mem * option loc) :=
  match lst m, ah with
  | Some l, Some ah => apply_nodes fuel fwd ah (if fwd then head l else tail l) m
  | _, _ => Some (m, None)
  end.

Definition ub_list_head (m : mem) : option loc := l ← lst m; head l.
Definition ub_list_tail (m : mem) : option loc := l ← lst m; tail l.
Definition ub_list_count (m : mem) : Z := match lst m with Some l => count l | None => 0 end.

Definition ub_list_nodedata (node : option loc) (h : heap) : option Z :=
  match node with Some p => node_data <$> h !! p | None => Some 0 end.

(** ** The sequence of nodes of a list *)

Lemma hp_alter_eq f p (h : heap) : alter f p h !! p = f <$> h !! p.
Proof. exact (lookup_alter_eq (M := gmap loc) f h p). Qed.

Lemma hp_alter_ne f p q (h : heap) : p <> q -> alter f p h !! q = h !! q.
Proof. exact (lookup_alter_ne (M := gmap loc) f h p q). Qed.

(** the first node of a segment [ns] followed by [z], and the last of one after [a] *)
Definition first_of (ns : list loc) (z : option loc) : option loc :=
  match ns with [] => z | p :: _ => Some p end.
Definition last_of (a : option loc) (ns : list loc) : option loc :=
  match last ns with Some p => Some p | None => a end.

(** the nodes [ns] are linked in this order, between [a] and [z] *)
Fixpoint seg (h : heap) (a : option loc) (ns : list loc) (z : option loc) : Prop :=
  match ns with
  | [] => True
  | p :: r => (exists d, h !! p = Some (mk_node a (first_of r z) d)) /\ seg h (Some p) r z
  end.

Record is_list (m : mem) (ns : list loc) : Prop := {
  il_seg : seg (hp m) None ns None;
  il_nodup : NoDup ns;
  il_lst : lst m = Some (mk_list (first_of ns None) (last_of None ns) (Z.of_nat (length ns)));
  il_count : Z.of_nat (length ns) < 2 ^ 32
}.

(** the memory is changed at the nodes of [ns] only, and nowhere in its data *)
Definition same_data (h h' : heap) : Prop := forall q, node_data <$> h' !! q = node_data <$> h !! q.

Lemma last_of_cons a p ns : last_of a (p :: ns) = last_of (Some p) ns.
Proof. unfold last_of. rewrite last_cons. by destruct (last ns). Qed.

Lemma last_of_snoc a ns p : last_of a (ns ++ [p]) = Some p.
Proof. unfold last_of. by rewrite last_snoc. Qed.

Lemma last_of_in a ns : last_of a ns = a \/ exists p, p ∈ ns /\ last_of a ns = Some p.
Proof.
  unfold last_of. destruct (last ns) as [p|] eqn:E; [|by left]. right. exists p. split; [|done].
  apply last_Some in E as [l ->]. set_solver.
Qed.

Lemma first_of_app xs ys z : first_of (xs ++ ys) z = first_of xs (first_of ys z).
Proof. by destruct xs. Qed.

Lemma last_of_app a xs ys : last_of a (xs ++ ys) = last_of (last_of a xs) ys.
Proof. revert a. induction xs as [|x xs IH]; intros a; [done|]. cbn. by rewrite !last_of_cons. Qed.

Lemma seg_app h a xs ys z :
  seg h a (xs ++ ys) z <-> seg h a xs (first_of ys z) /\ seg h (last_of a xs) ys z.
Proof.
  revert a. induction xs as [|x xs IH]; intros a; cbn; [intuition|].
  rewrite IH, first_of_app, last_of_cons. intuition.
Qed.

Lemma seg_frame h h' a ns z : (forall p, p ∈ ns -> h' !! p = h !! p) -> seg h a ns z -> seg h' a ns z.
Proof.
  revert a. induction ns as [|p r IH]; intros a F; [done|]. intros [[d D] H]. split.
  - exists d. rewrite F; [done|left].
  - apply IH; [|done]. intros q Q. apply F. by right.
Qed.

Lemma seg_alloc h a ns z p : seg h a ns z -> p ∈ ns -> is_Some (h !! p).
Proof.
  revert a. induction ns as [|q r IH]; intros a; [set_solver|]. intros [[d D] H] [->|P]%elem_of_cons; eauto.
Qed.

(** the end of a segment linked anew *)
Definition alter_at (f : ub_list_node -> ub_list_node) (o : option loc) (h : heap) : heap :=
  match o with Some p => alter f p h | None => h end.

Lemma lookup_alter_at_ne f o (h : heap) q : o <> Some q -> alter_at f o h !! q = h !! q.
Proof. destruct o as [p|]; [|done]. intros N. apply hp_alter_ne. congruence. Qed.

Lemma seg_set_next h xs z v :
  seg h None xs z -> NoDup xs -> seg (alter_at (set_next v) (last_of None xs) h) None xs v.
Proof.
  destruct xs as [|x xs _] using rev_ind; [done|]. rewrite last_of_snoc. cbn [alter_at].
  intros [H1 [[d D] _]]%seg_app N. apply seg_app. split.
  - cbn in *. eapply seg_frame; [|exact H1]. intros p P. apply hp_alter_ne.
    intros ->. apply NoDup_app in N as (_ & N & _). by apply (N p P); left.
  - split; [|done]. exists d. by rewrite hp_alter_eq, D.
Qed.

Lemma seg_set_prev h a ys z v :
  seg h a ys z -> NoDup ys -> seg (alter_at (set_prev v) (first_of ys None) h) v ys z.
Proof.
  destruct ys as [|y ys]; [done|]. intros [[d D] H] N. split.
  - exists d. cbn. by rewrite hp_alter_eq, D.
  - cbn. eapply seg_frame; [|exact H]. intros p P. apply hp_alter_ne. intros ->.
    by apply NoDup_cons in N as [N _].
Qed.

Lemma store_alter f p (h : heap) : is_Some (h !! p) -> store f p h = Some (alter f p h).
Proof. unfold store. by intros [n ->]. Qed.

Lemma store_at_alter f o (h : heap) :
  (forall p, o = Some p -> is_Some (h !! p)) -> store_at f o h = Some (alter_at f o h).
Proof. destruct o as [p|]; [|done]. intros H. by apply store_alter, H. Qed.

Lemma alter_alloc f p (h : heap) q : is_Some (h !! q) -> is_Some (alter f p h !! q).
Proof. unfold heap in *. rewrite (lookup_alter_is_Some (M := gmap loc)). done. Qed.

Lemma alter_at_alloc f o (h : heap) q : is_Some (h !! q) -> is_Some (alter_at f o h !! q).
Proof. destruct o; [apply alter_alloc|done]. Qed.

Lemma same_data_alter f o h :
  (forall n, node_data (f n) = node_data n) -> same_data h (alter_at f o h).
Proof.
  intros F q. destruct o as [p|]; [|done]. cbn. destruct (decide (p = q)) as [->|N].
  - rewrite hp_alter_eq. destruct (h !! q); [|done]. cbn. by rewrite F.
  - by rewrite hp_alter_ne.
Qed.

Lemma same_data_trans h h' h'' : same_data h h' -> same_data h' h'' -> same_data h h''.
Proof. intros A B q. by rewrite B, A. Qed.

(** ** Insertion between two segments *)

(** the heap after [p] is linked in between [xs] and [ys] *)
Definition link (xs : list loc) (p : loc) (ys : list loc) (h : heap) : heap :=
  alter_at (set_prev (Some p)) (first_of ys None)
    (alter_at (set_next (Some p)) (last_of None xs)
       (alter (fun n => set_next (first_of ys None) (set_prev (last_of None xs) n)) p h)).

(** the heap after [p] is taken out *)
Definition unlink (xs : list loc) (p : loc) (ys : list loc) (h : heap) : heap :=
  alter (fun n => set_prev None (set_next None n)) p
    (alter_at (set_prev (last_of None xs)) (first_of ys None)
       (alter_at (set_next (first_of ys None)) (last_of None xs) h)).

Lemma first_of_in ys p : first_of ys None = Some p -> p ∈ ys.
Proof. destruct ys; [done|]. intros [= ->]. by left. Qed.

Lemma last_of_elem xs p : last_of None xs = Some p -> p ∈ xs.
Proof. destruct (last_of_in None xs) as [->|(q & Q & ->)]; [done|]. by intros [= <-]. Qed.

Lemma nodup_middle (xs ys : list loc) p :
  NoDup (xs ++ p :: ys) <-> NoDup (xs ++ ys) /\ (p ∉ xs) /\ (p ∉ ys).
Proof. rewrite <- Permutation_middle, NoDup_cons, not_elem_of_app. tauto. Qed.

Lemma nodup_parts (xs ys : list loc) :
  NoDup (xs ++ ys) -> NoDup xs /\ NoDup ys /\ forall p, p ∈ xs -> p ∉ ys.
Proof. intros (A & B & C)%NoDup_app. split_and!; [done|done|]. intros p P Q. exact (B p P Q). Qed.

Lemma seg_alter_at_out h f o a ns z :
  (forall p, o = Some p -> p ∉ ns) -> seg h a ns z -> seg (alter_at f o h) a ns z.
Proof.
  intros O. apply seg_frame. intros p P. apply lookup_alter_at_ne. intros ->. by destruct (O p).
Qed.

Lemma link_seg xs p ys h :
  seg h None (xs ++ ys) None -> NoDup (xs ++ p :: ys) -> is_Some (h !! p) ->
  seg (link xs p ys h) None (xs ++ p :: ys) None.
Proof.
  intros [Hx Hy]%seg_app (N & Px & Py)%nodup_middle [n D]. apply nodup_parts in N as (Nx & Ny & Xy).
  unfold link. set (h1 := alter _ p h).
  assert (F : forall a ns z, p ∉ ns -> seg h a ns z -> seg h1 a ns z).
  { intros a ns z P. apply seg_frame. intros q Q. apply hp_alter_ne. by intros ->. }
  assert (Lx : forall q, last_of None xs = Some q -> q ∉ p :: ys)
    by (intros q Q%last_of_elem [->|H]%elem_of_cons; [done|by apply (Xy q)]).
  assert (Fy : forall q, first_of ys None = Some q -> q ∉ xs ++ [p])
    by (intros q Q%first_of_in [H| ->%list_elem_of_singleton]%elem_of_app; [by apply (Xy q)|done]).
  apply seg_app. split; [|split].
  - apply seg_alter_at_out; [intros q Q H; apply (Fy q Q); set_solver|]. cbn [first_of].
    by eapply seg_set_next, Nx; apply F.
  - exists (node_data n). rewrite lookup_alter_at_ne, lookup_alter_at_ne.
    + unfold h1. by rewrite hp_alter_eq, D.
    + intros Q. apply (Lx p Q). by left.
    + intros Q. apply (Fy p Q). set_solver.
  - apply seg_set_prev with (a := last_of None xs); [|done].
    apply seg_alter_at_out; [|by apply F]. intros q Q H. apply (Lx q Q). by right.
Qed.

Lemma unlink_seg xs p ys h :
  seg h None (xs ++ p :: ys) None -> NoDup (xs ++ p :: ys) ->
  seg (unlink xs p ys h) None (xs ++ ys) None /\ is_Some (unlink xs p ys h !! p).
Proof.
  intros [Hx [[d D] Hy]]%seg_app (N & Px & Py)%nodup_middle. apply nodup_parts in N as (Nx & Ny & Xy).
  unfold unlink. set (h1 := alter_at _ (last_of None xs) h). set (h2 := alter_at _ _ h1).
  assert (S1 : seg h1 None xs (first_of ys None)) by (eapply seg_set_next, Nx; exact Hx).
  assert (S2 : seg h2 (last_of None xs) ys None).
  { eapply seg_set_prev, Ny. apply seg_alter_at_out; [|exact Hy]. intros q Q%last_of_elem. by apply Xy. }
  split.
  - apply seg_frame with (h := h2).
    { intros q Q. apply hp_alter_ne. intros ->. by apply elem_of_app in Q as [Q|Q]. }
    apply seg_app. split; [|exact S2]. apply seg_alter_at_out; [|exact S1].
    intros q Q%first_of_in H. by apply (Xy q).
  - apply alter_alloc, alter_at_alloc, alter_at_alloc. by rewrite D.
Qed.

Lemma link_data xs p ys h : same_data h (link xs p ys h).
Proof.
  unfold link. do 2 (eapply same_data_trans; [|by apply same_data_alter]).
  by apply (same_data_alter _ (Some p)).
Qed.

Lemma unlink_data xs p ys h : same_data h (unlink xs p ys h).
Proof.
  unfold unlink. eapply same_data_trans; [|by apply (same_data_alter _ (Some p))].
  eapply same_data_trans; by apply same_data_alter.
Qed.

(** ** What each function does to the sequence *)

Lemma hp_alter_compose f g p (h : heap) : alter f p (alter g p h) = alter (fun n => f (g n)) p h.
Proof. exact (alter_alter_eq (M := gmap loc) f g h p). Qed.

Lemma alter_at_comm f g p o (h : heap) :
  o <> Some p -> alter f p (alter_at g o h) = alter_at g o (alter f p h).
Proof. destruct o as [q|]; [|done]. intros N. apply (alter_alter_ne (M := gmap loc)). congruence. Qed.

Definition linked_list (m : mem) (xs : list loc) (p : loc) (ys : list loc) : mem :=
  mk (Some (mk_list (first_of (xs ++ p :: ys) None) (last_of None (xs ++ p :: ys))
              (Z.of_nat (length (xs ++ p :: ys)))))
    (link xs p ys (hp m)).

Definition unlinked_list (m : mem) (xs : list loc) (p : loc) (ys : list loc) : mem :=
  mk (Some (mk_list (first_of (xs ++ ys) None) (last_of None (xs ++ ys)) (Z.of_nat (length (xs ++ ys)))))
    (unlink xs p ys (hp m)).

(** a node that may be put into the list [ns] *)
Definition insertable (m : mem) (p : loc) (ns : list loc) : Prop :=
  (p ∉ ns) /\ is_Some (hp m !! p) /\ Z.of_nat (S (length ns)) < 2 ^ 32.

Lemma linked_is_list m xs p ys :
  is_list m (xs ++ ys) -> insertable m p (xs ++ ys) -> is_list (linked_list m xs p ys) (xs ++ p :: ys).
Proof.
  intros [A B C D] (P & Q & R). apply not_elem_of_app in P as [P1 P2].
  assert (N : NoDup (xs ++ p :: ys)) by (by apply nodup_middle).
  split; [by apply link_seg|done|done|]. rewrite length_app in *. cbn [length]. lia.
Qed.

Lemma unlinked_is_list m xs p ys : is_list m (xs ++ p :: ys) -> is_list (unlinked_list m xs p ys) (xs ++ ys).
Proof.
  intros [A B C D]. split; [by apply unlink_seg|by apply nodup_middle in B as [B _]|done|].
  rewrite length_app in *. cbn [length] in D. cbn. lia.
Qed.

Lemma u32_len (n : nat) : Z.of_nat (S n) < 2 ^ 32 -> u32 (Z.of_nat n + 1) = Z.of_nat (S n).
Proof. intros H. rewrite wrap_id; [lia|]. unfold fits. lia. Qed.

Lemma length_middle (xs ys : list loc) p : length (xs ++ p :: ys) = S (length (xs ++ ys)).
Proof. rewrite !length_app. cbn. lia. Qed.

Lemma last_ne_in xs p : p ∉ xs -> last_of None xs <> Some p.
Proof. by intros P Q%last_of_elem. Qed.

Lemma first_ne_in ys p : p ∉ ys -> first_of ys None <> Some p.
Proof. by intros P Q%first_of_in. Qed.

Lemma append_linked m ns p :
  is_list m ns -> insertable m p ns -> ub_list_append (Some p) m = Some (linked_list m ns p []).
Proof.
  intros L (P & A & R). pose proof (il_seg _ _ L) as G. unfold ub_list_append. rewrite (il_lst _ _ L). cbn.
  rewrite store_alter by done. cbn. rewrite store_alter by (by apply alter_alloc). cbn.
  rewrite store_at_alter by (intros q Q%last_of_elem; by eapply alter_alloc, alter_alloc, seg_alloc).
  cbn. unfold linked_list, link, inc_count. rewrite hp_alter_compose. do 2 f_equal.
  rewrite length_middle, app_nil_r, last_of_snoc, <- u32_len by done. by destruct ns.
Qed.

Lemma prepend_linked m ns p :
  is_list m ns -> insertable m p ns -> ub_list_prepend (Some p) m = Some (linked_list m [] p ns).
Proof.
  intros L (P & A & R). pose proof (il_seg _ _ L) as G. unfold ub_list_prepend. rewrite (il_lst _ _ L). cbn.
  rewrite store_alter by done. cbn. rewrite store_alter by (by apply alter_alloc). cbn.
  rewrite store_at_alter by (intros q Q%first_of_in; by eapply alter_alloc, alter_alloc, seg_alloc).
  cbn. unfold linked_list, link, inc_count. rewrite hp_alter_compose. do 2 f_equal.
  cbn [length app first_of]. rewrite <- u32_len by done.
  destruct ns as [|x ns _] using rev_ind; [done|]. by rewrite app_comm_cons, !last_of_snoc.
Qed.

Lemma insert_before_linked m xs r zs p :
  is_list m (xs ++ r :: zs) -> insertable m p (xs ++ r :: zs) ->
  ub_list_insert_before (Some r) (Some p) m = Some (linked_list m xs p (r :: zs)).
Proof.
  intros L (P & A & R). destruct L as [G N E _]. apply not_elem_of_app in P as [P1 P2].
  apply not_elem_of_cons in P2 as [P2 P3]. apply nodup_middle in N as (N & X1 & X2).
  apply seg_app in G as [G1 [[d D] G2]]. unfold ub_list_insert_before. rewrite E. cbn.
  rewrite D. cbn.
  rewrite store_at_alter by (intros q Q%last_of_elem; exact (seg_alloc _ _ _ _ _ G1 Q)). cbn.
  rewrite lookup_alter_at_ne by (by apply last_ne_in). rewrite D. cbn.
  rewrite store_alter by (by apply alter_at_alloc). cbn.
  rewrite store_alter by (by apply alter_alloc, alter_at_alloc). cbn.
  rewrite store_alter by (apply alter_alloc, alter_alloc, alter_at_alloc; by rewrite D). cbn.
  unfold linked_list, link, inc_count. cbn [first_of alter_at].
  rewrite hp_alter_compose, (alter_at_comm _ _ p) by (by apply last_ne_in). do 2 f_equal.
  rewrite (length_middle xs (r :: zs) p), <- u32_len by done. rewrite !first_of_app.
  destruct xs as [|x xs _] using rev_ind.
  - cbn [app first_of last_of]. rewrite bool_decide_eq_true_2 by done. cbn. by rewrite !last_of_cons.
  - rewrite last_of_snoc, !last_of_app, !last_of_cons. by destruct xs.
Qed.

Lemma insert_after_linked m xs r ys p :
  is_list m (xs ++ r :: ys) -> insertable m p (xs ++ r :: ys) ->
  ub_list_insert_after (Some r) (Some p) m = Some (linked_list m (xs ++ [r]) p ys).
Proof.
  intros L (P & A & R). destruct L as [G N E _]. apply not_elem_of_app in P as [P1 P2].
  apply not_elem_of_cons in P2 as [P2 P3]. apply nodup_middle in N as (N & X1 & X2).
  apply seg_app in G as [G1 [[d D] G2]]. unfold ub_list_insert_after. rewrite E. cbn.
  rewrite D. cbn.
  rewrite store_at_alter by (intros q Q%first_of_in; exact (seg_alloc _ _ _ _ _ G2 Q)). cbn.
  rewrite store_alter by (by apply alter_at_alloc). cbn.
  rewrite hp_alter_ne, lookup_alter_at_ne by (done || by apply first_ne_in). rewrite D. cbn.
  rewrite store_alter by (by apply alter_alloc, alter_at_alloc). cbn.
  rewrite store_alter by (apply alter_alloc, alter_alloc, alter_at_alloc; by rewrite D). cbn.
  unfold linked_list, link, inc_count. rewrite last_of_snoc. cbn [alter_at].
  rewrite hp_alter_compose, (alter_at_comm _ _ p), (alter_at_comm _ _ r) by (by apply first_ne_in). do 2 f_equal.
  assert (K : length ((xs ++ [r]) ++ p :: ys) = S (length (xs ++ r :: ys)))
    by (rewrite !length_app; cbn; lia).
  rewrite K, <- u32_len by done. rewrite <- app_assoc. cbn [app].
  rewrite !first_of_app, !last_of_app, !last_of_cons.
  destruct ys as [|y ys]; [by rewrite bool_decide_eq_true_2|by rewrite !last_of_cons].
Qed.

Lemma unlink_unlinked m xs p ys :
  is_list m (xs ++ p :: ys) -> ub_list_unlink (Some p) m = Some (unlinked_list m xs p ys).
Proof.
  intros [G N E C]. apply nodup_middle in N as (N & X1 & X2). apply nodup_parts in N as (_ & _ & X).
  apply seg_app in G as [G1 [[d D] G2]]. unfold ub_list_unlink. rewrite E. cbn. rewrite D. cbn [prev next mbind option_bind].
  rewrite store_at_alter by (intros q Q%last_of_elem; exact (seg_alloc _ _ _ _ _ G1 Q)). cbn [mbind option_bind].
  rewrite lookup_alter_at_ne by (by apply last_ne_in). rewrite D. cbn [prev next mbind option_bind].
  rewrite store_at_alter by (intros q Q%first_of_in; eapply alter_at_alloc, seg_alloc; eauto). cbn [mbind option_bind].
  rewrite store_alter by (apply alter_at_alloc, alter_at_alloc; by rewrite D). cbn [mbind option_bind].
  rewrite store_alter by (apply alter_alloc, alter_at_alloc, alter_at_alloc; by rewrite D). cbn [mbind option_bind].
  unfold unlinked_list, unlink. rewrite hp_alter_compose. do 2 f_equal.
  rewrite !first_of_app, !last_of_app, last_of_cons. cbn [first_of].
  assert (K : Z.of_nat (length (xs ++ p :: ys)) - 1 = Z.of_nat (length (xs ++ ys))) by (rewrite length_middle; lia).
  assert (J : 0 < Z.of_nat (length (xs ++ p :: ys))) by (rewrite length_middle; lia).
  revert K J. generalize (Z.of_nat (length (xs ++ p :: ys))). intros c <- J. apply Z.ltb_lt in J.
  destruct xs as [|x xs _] using rev_ind; [|rewrite last_of_snoc; cbn].
  - destruct ys; cbn; rewrite ?J, ?last_of_cons; cbn; by rewrite ?last_of_cons.
  - destruct ys; cbn; rewrite J; cbn; rewrite ?last_of_cons; destruct xs; cbn; done.
Qed.

(** ** The contract: operations on a sequence *)

Inductive list_op :=
| Append (p : loc)
| Prepend (p : loc)
| InsertBefore (r p : loc)
| InsertAfter (r p : loc)
| Unlink (p : loc).

Definition exec (op : list_op) (m : mem) : option mem :=
  match op with
  | Append p => ub_list_append (Some p) m
  | Prepend p => ub_list_prepend (Some p) m
  | InsertBefore r p => ub_list_insert_before (Some r) (Some p) m
  | InsertAfter r p => ub_list_insert_after (Some r) (Some p) m
  | Unlink p => ub_list_unlink (Some p) m
  end.

(** [f] at the first [r] of [ns] *)
Fixpoint replace_at (r : loc) (f : list loc) (ns : list loc) : list loc :=
  match ns with
  | [] => []
  | x :: l => if decide (x = r) then f ++ l else x :: replace_at r f l
  end.

(** The sequence after an operation; [None] where the contract does not allow it: the inserted node
    must not be in the list, the reference node or the removed one must be, and the number of nodes
    must fit the counter. *)
Definition spec (op : list_op) (ns : list loc) : option (list loc) :=
  let room := bool_decide (Z.of_nat (S (length ns)) < 2 ^ 32) in
  let new p l := if room && bool_decide (p ∉ ns) then Some l else None in
  match op with
  | Append p => new p (ns ++ [p])
  | Prepend p => new p (p :: ns)
  | InsertBefore r p => if bool_decide (r ∈ ns) then new p (replace_at r [p; r] ns) else None
  | InsertAfter r p => if bool_decide (r ∈ ns) then new p (replace_at r [r; p] ns) else None
  | Unlink p => if bool_decide (p ∈ ns) then Some (replace_at p [] ns) else None
  end.

(** the node a list gets by the operation *)
Definition new_node (op : list_op) : option loc :=
  match op with
  | Append p | Prepend p | InsertBefore _ p | InsertAfter _ p => Some p
  | Unlink _ => None
  end.

Fixpoint exec_all (ops : list list_op) (m : mem) : option mem :=
  match ops with [] => Some m | op :: ops => m ← exec op m; exec_all ops m end.

Fixpoint spec_all (ops : list list_op) (ns : list loc) : option (list loc) :=
  match ops with [] => Some ns | op :: ops => ns ← spec op ns; spec_all ops ns end.

Lemma replace_split r f ns : r ∈ ns ->
  exists xs zs, ns = xs ++ r :: zs /\ replace_at r f ns = xs ++ f ++ zs.
Proof.
  induction ns as [|x l IH]; [set_solver|]. intros I. cbn. destruct (decide (x = r)) as [->|N].
  - by exists [], l.
  - destruct IH as (xs & zs & -> & ->); [by apply elem_of_cons in I as [->|I]|]. by exists (x :: xs), zs.
Qed.

Lemma data_alloc h h' p : same_data h h' -> is_Some (h !! p) -> is_Some (h' !! p).
Proof. intros D [n H]. specialize (D p). rewrite H in D. destruct (h' !! p); [eauto|done]. Qed.

Lemma exec_simulates op m ns ns' :
  is_list m ns -> spec op ns = Some ns' -> (forall p, new_node op = Some p -> is_Some (hp m !! p)) ->
  exists m', exec op m = Some m' /\ is_list m' ns' /\ same_data (hp m) (hp m').
Proof.
  intros L S A.
  assert (New : forall p (l : list loc), new_node op = Some p ->
    (if bool_decide (Z.of_nat (Datatypes.S (length ns)) < 2 ^ 32) && bool_decide (p ∉ ns) then Some l else None) = Some ns' ->
    insertable m p ns /\ l = ns').
  { intros p l E. destruct (bool_decide _ && _) eqn:B; [|done]. intros [= <-].
    apply andb_true_iff in B as [B1%bool_decide_eq_true B2%bool_decide_eq_true].
    split; [|done]. by split_and!; [|apply A|]. }
  destruct op as [p|p|r p|r p|p]; cbn [spec exec new_node] in *.
  - apply New in S as [I <-]; [|done]. eexists. split; [by apply append_linked|]. split; [|apply link_data].
    apply linked_is_list; by rewrite app_nil_r.
  - apply New in S as [I <-]; [|done]. eexists. split; [by apply prepend_linked|]. split; [|apply link_data].
    by apply (linked_is_list m [] p ns).
  - destruct (bool_decide (r ∈ ns)) eqn:R; [|done]. apply bool_decide_eq_true in R. apply New in S as [I <-]; [|done].
    destruct (replace_split r [p; r] ns R) as (xs & zs & -> & ->).
    eexists. split; [by apply insert_before_linked|]. split; [|apply link_data].
    by apply (linked_is_list m xs p (r :: zs)).
  - destruct (bool_decide (r ∈ ns)) eqn:R; [|done]. apply bool_decide_eq_true in R. apply New in S as [I <-]; [|done].
    destruct (replace_split r [r; p] ns R) as (xs & zs & -> & ->).
    eexists. split; [by apply insert_after_linked|]. split; [|apply link_data].
    change (xs ++ [r; p] ++ zs) with (xs ++ [r] ++ p :: zs). rewrite app_assoc.
    apply linked_is_list; by rewrite <- app_assoc.
  - destruct (bool_decide (p ∈ ns)) eqn:R; [|done]. apply bool_decide_eq_true in R. injection S as <-.
    destruct (replace_split p [] ns R) as (xs & zs & -> & ->).
    eexists. split; [by apply unlink_unlinked|]. split; [|apply unlink_data].
    by apply unlinked_is_list.
Qed.

(** ** Traversal *)

Lemma apply_forward fuel f h ns z m :
  seg h z ns None -> hp m = h -> (length ns <= fuel)%nat ->
  apply_nodes fuel true (fun p m => Some (m, f p)) (first_of ns None) m = Some (m, List.find f ns).
Proof.
  intros G E. revert z fuel G. induction ns as [|p r IH]; intros z fuel; [by destruct fuel|].
  intros [[d D] G] F. destruct fuel as [|fuel]; [cbn in F; lia|]. cbn. rewrite E, D. cbn.
  destruct (f p); [done|]. apply (IH (Some p)); [exact G|cbn in F; lia].
Qed.

Lemma apply_backward fuel f h ns z m :
  seg h None ns z -> hp m = h -> (length ns <= fuel)%nat ->
  apply_nodes fuel false (fun p m => Some (m, f p)) (last_of None ns) m = Some (m, List.find f (reverse ns)).
Proof.
  intros G E. revert z fuel G. induction ns as [|p r IH] using rev_ind; intros z fuel; [by destruct fuel|].
  intros [G [[d D] _]]%seg_app F. rewrite length_app in F. cbn in F. destruct fuel as [|fuel]; [lia|].
  rewrite last_of_snoc, reverse_app. cbn. rewrite E, D. cbn.
  destruct (f p); [done|]. apply (IH (Some p)); [exact G|lia].
Qed.

Lemma exec_all_simulates ops m ns ns' :
  is_list m ns -> spec_all ops ns = Some ns' ->
  (forall op p, op ∈ ops -> new_node op = Some p -> is_Some (hp m !! p)) ->
  exists m', exec_all ops m = Some m' /\ is_list m' ns' /\ same_data (hp m) (hp m').
Proof.
  revert m ns. induction ops as [|op ops IH]; intros m ns L; cbn.
  - intros [= <-] _. by exists m.
  - destruct (spec op ns) as [n1|] eqn:S; [|done]. cbn. intros S' A.
    destruct (exec_simulates op m ns n1 L S) as (m1 & -> & L1 & D1); [intros p; apply A; by left|]. cbn.
    destruct (IH m1 n1 L1 S') as (m2 & -> & L2 & D2).
    { intros o p O P. eapply data_alloc; [exact D1|]. apply (A o p); [by right|done]. }
    exists m2. split_and!; [done|done|]. by eapply same_data_trans.
Qed.

(** C39. The linked list implements a sequence: from a well-formed list, any series of insertions and
    removals the contract allows runs without a store through a stray pointer, leaves the data of all
    nodes as it was, and ends in a well-formed list of exactly the nodes, in the order, that the same
    series gives on the sequence; head, tail and count are those of the sequence, and a traversal in
    either direction stops at the first node, in that direction, that its function accepts. *)
Theorem llist_refines_sequence ops m ns ns' :
  is_list m ns -> spec_all ops ns = Some ns' ->
  (forall op p, op ∈ ops -> new_node op = Some p -> is_Some (hp m !! p)) ->
  exists m', exec_all ops m = Some m' /\ is_list m' ns' /\ same_data (hp m) (hp m') /\
    ub_list_head m' = ns' !! 0%nat /\ ub_list_tail m' = last ns' /\ ub_list_count m' = Z.of_nat (length ns') /\
    forall f fuel, (length ns' <= fuel)%nat ->
      ub_list_apply fuel true (Some (fun p m => Some (m, f p))) m' = Some (m', List.find f ns') /\
      ub_list_apply fuel false (Some (fun p m => Some (m, f p))) m' = Some (m', List.find f (reverse ns')).
Proof.
  intros L S A. destruct (exec_all_simulates ops m ns ns' L S A) as (m' & E & L' & D).
  exists m'. split_and!; [done|done|done| | | |]; destruct L' as [G N H C].
  - unfold ub_list_head. rewrite H. by destruct ns'.
  - unfold ub_list_tail. rewrite H. cbn. unfold last_of. by destruct (last ns').
  - unfold ub_list_count. by rewrite H.
  - intros f fuel F. unfold ub_list_apply. rewrite H. split.
    + by apply (apply_forward fuel f (hp m') ns' None).
    + by apply (apply_backward fuel f (hp m') ns' None).
Qed.

(** ** Sorting *)

Section Sort.
Context (sh : loc -> loc -> bool).

(** one pass over a sequence, with [a] in hand *)
Fixpoint bubble (a : loc) (l : list loc) : list loc * bool :=
  match l with
  | [] => ([a], false)
  | b :: r =>
      if sh a b then let (x, s) := bubble b r in (a :: x, s)
      else let (x, _) := bubble a r in (b :: x, true)
  end.

(** the pairs that stand in the wrong order *)
Definition wrong (x : loc) (l : list loc) : nat := length (filter (fun y => sh x y = false) l).
Fixpoint inversions (l : list loc) : nat :=
  match l with [] => 0%nat | x :: r => (wrong x r + inversions r)%nat end.

Lemma bubble_perm a l : (bubble a l).1 ≡ₚ a :: l.
Proof.
  revert a. induction l as [|b r IH]; intros a; [done|]. cbn. destruct (sh a b).
  - destruct (bubble b r) as [x s] eqn:E. cbn. specialize (IH b). rewrite E in IH. by rewrite <- IH.
  - destruct (bubble a r) as [x s] eqn:E. cbn. specialize (IH a). rewrite E in IH. cbn in IH. rewrite IH. apply perm_swap.
Qed.

Lemma wrong_perm x l l' : l ≡ₚ l' -> wrong x l = wrong x l'.
Proof. unfold wrong. by intros ->. Qed.

Lemma wrong_cons x y l : wrong x (y :: l) = ((if sh x y then 0 else 1) + wrong x l)%nat.
Proof. unfold wrong. rewrite filter_cons. by destruct (sh x y). Qed.

Definition total_on (ns : list loc) : Prop :=
  forall x y, x ∈ ns -> y ∈ ns -> sh x y = false -> sh y x = true.

Lemma total_on_sub l l' : l ⊆ l' -> total_on l' -> total_on l.
Proof. intros H T x y X Y. apply T; by apply H. Qed.

Lemma bubble_inversions a l :
  total_on (a :: l) ->
  (inversions (bubble a l).1 + (if (bubble a l).2 then 1 else 0) <= inversions (a :: l))%nat.
Proof.
  revert a. induction l as [|b r IH]; intros a T; [done|]. cbn [bubble]. destruct (sh a b) eqn:E.
  - specialize (IH b). pose proof (bubble_perm b r) as P. destruct (bubble b r) as [x s]. cbn [fst snd] in *.
    change (inversions (a :: x)) with (wrong a x + inversions x)%nat.
    change (inversions (a :: b :: r)) with (wrong a (b :: r) + inversions (b :: r))%nat.
    rewrite (wrong_perm a x (b :: r) P). assert (I := IH (total_on_sub _ _ ltac:(intros u U; by right) T)). lia.
  - specialize (IH a). pose proof (bubble_perm a r) as P. destruct (bubble a r) as [x s]. cbn [fst snd] in *.
    change (inversions (b :: x)) with (wrong b x + inversions x)%nat. cbn [inversions] in *.
    rewrite (wrong_perm b x (a :: r) P), !wrong_cons, E.
    rewrite (T a b) by (done || by repeat constructor).
    assert (I := IH (total_on_sub (a :: r) _ ltac:(intros u [->|U]%elem_of_cons; [by left|by do 2 right]) T)).
    destruct s; lia.
Qed.

Lemma bubble_settled a l : (bubble a l).2 = false -> (bubble a l).1 = a :: l /\ Sorted sh (a :: l).
Proof.
  revert a. induction l as [|b r IH]; intros a; [by repeat constructor|]. cbn. destruct (sh a b) eqn:E.
  - specialize (IH b). destruct (bubble b r) as [x s]. cbn in *. intros S. destruct (IH S) as [-> O].
    split; [done|]. constructor; [exact O|]. constructor. by rewrite E.
  - by destruct (bubble a r).
Qed.

Lemma sort_pass_bubbles fuel m xs a l s :
  is_list m (xs ++ a :: l) -> (length l < fuel)%nat ->
  exists m', sort_pass fuel sh (Some a) s m = Some (m', s || (bubble a l).2) /\
    is_list m' (xs ++ (bubble a l).1) /\ same_data (hp m) (hp m').
Proof.
  revert fuel m xs a s. induction l as [|b r IH]; intros fuel m xs a s L F;
    (destruct fuel as [|fuel]; [cbn in F; lia|]); cbn [sort_pass];
    pose proof (il_seg _ _ L) as [_ [[d D] _]]%seg_app; rewrite D; cbn [mbind option_bind next first_of].
  - exists m. by rewrite orb_false_r.
  - cbn [bubble length] in *. destruct (sh a b).
    + destruct (IH fuel m (xs ++ [a]) b s) as (m' & -> & L' & D'); [by rewrite <- app_assoc|lia|].
      exists m'. destruct (bubble b r) as [x t]. rewrite <- app_assoc in L'. done.
    + rewrite (unlink_unlinked m xs a (b :: r) L). cbn [mbind option_bind].
      pose proof (unlinked_is_list _ _ _ _ L) as L1. pose proof (unlink_data xs a (b :: r) (hp m)) as D1.
      assert (I : insertable (unlinked_list m xs a (b :: r)) a (xs ++ b :: r)).
      { destruct L as [G N _ C]. pose proof N as (_ & A1 & A2)%nodup_middle. split; [by apply not_elem_of_app|].
        split; [by apply unlink_seg|]. rewrite length_app in *. cbn in *. lia. }
      rewrite (insert_after_linked _ xs b r a L1 I). cbn [mbind option_bind].
      set (m1 := linked_list _ _ _ _).
      assert (L2 : is_list m1 ((xs ++ [b]) ++ a :: r)) by (apply linked_is_list; by rewrite <- app_assoc).
      destruct (IH fuel m1 (xs ++ [b]) a true L2) as (m' & -> & L' & D'); [lia|].
      exists m'. destruct (bubble a r) as [x t]. rewrite <- app_assoc in L'. rewrite orb_true_r. split_and!; [done|done|].
      eapply same_data_trans, D'. eapply same_data_trans; [exact D1|apply link_data].
Qed.

Lemma sort_loop_sorts passes fuel m ns :
  is_list m ns -> total_on ns -> (inversions ns < passes)%nat -> (length ns < fuel)%nat ->
  exists m' ns', sort_loop passes fuel sh m = Some m' /\ is_list m' ns' /\ ns' ≡ₚ ns /\ Sorted sh ns' /\
    same_data (hp m) (hp m').
Proof.
  revert m ns. induction passes as [|k IH]; intros m ns L T I F; [lia|]. cbn [sort_loop].
  rewrite (il_lst _ _ L). cbn [mbind option_bind head].
  destruct ns as [|a l]; [destruct fuel; [cbn in F; lia|]; by exists m, []|].
  destruct (sort_pass_bubbles fuel m [] a l false L) as (m1 & E & L1 & D1); [cbn in F; lia|].
  cbn [first_of]. rewrite E. cbn [mbind option_bind fst snd orb]. cbn [app] in L1.
  pose proof (bubble_perm a l) as P. pose proof (bubble_inversions a l T) as J.
  destruct (bubble a l).2 eqn:B.
  - destruct (IH m1 (bubble a l).1 L1) as (m2 & n2 & -> & L2 & P2 & S2 & D2).
    + intros x y X Y. apply T; by rewrite <- P.
    + lia.
    + by rewrite P.
    + exists m2, n2. split_and!; [done|done|by rewrite P2, P|done|by eapply same_data_trans].
  - destruct (bubble_settled a l B) as [Q S]. rewrite Q in L1. by exists m1, (a :: l).
Qed.

Lemma inversions_bound ns : (inversions ns <= length ns * length ns)%nat.
Proof.
  induction ns as [|x r IH]; [done|]. cbn.
  assert (W : (wrong x r <= length r)%nat) by apply length_filter. lia.
Qed.
End Sort.

(** C40. ub_list_sort, with a comparator that never rejects both orders of two nodes: the loops end,
    within as many passes as the list has pairs in the wrong order and one more, without a store
    through a stray pointer, in a well-formed list of the same nodes with the same data, in which the
    comparator accepts every two neighbours; if it is transitive, every two nodes. *)
Theorem list_sort_sorts sh m ns passes fuel :
  is_list m ns -> total_on sh ns -> (length ns * length ns < passes)%nat -> (length ns < fuel)%nat ->
  exists m' ns', ub_list_sort passes fuel (Some sh) m = Some m' /\ is_list m' ns' /\ ns' ≡ₚ ns /\
    Sorted sh ns' /\ (Transitive sh -> StronglySorted sh ns') /\ same_data (hp m) (hp m').
Proof.
  intros L T P F. pose proof (inversions_bound sh ns) as B.
  destruct (sort_loop_sorts sh passes fuel m ns) as (m' & ns' & E & L' & Q & S & D); [done..|lia|done|].
  exists m', ns'. unfold ub_list_sort. rewrite (il_lst _ _ L). split_and!; try done.
  intros Tr. by apply Sorted_StronglySorted.
Qed.

(** The note of ub_llist.h: a comparator that rejects both orders of two nodes swaps them for ever. *)
Lemma sort_never_ends sh m a b passes fuel :
  sh a b = false -> sh b a = false -> is_list m [a; b] -> (2 <= fuel)%nat ->
  ub_list_sort passes fuel (Some sh) m = None.
Proof.
  intros A B L F. unfold ub_list_sort. rewrite (il_lst _ _ L).
  revert m a b A B L. induction passes as [|k IH]; intros m a b A B L; [done|]. cbn [sort_loop].
  rewrite (il_lst _ _ L). cbn [mbind option_bind head first_of].
  destruct (sort_pass_bubbles sh fuel m [] a [b] false L) as (m1 & -> & L1 & _); [cbn; lia|].
  cbn [mbind option_bind fst snd orb app bubble] in *. rewrite A in *. cbn in *. by apply (IH m1 b a).
Qed.

End LL.

Module LLWitness.
Import LL.

Definition nodes : heap :=
  <[1%positive := mk_node None None 10]> (<[2%positive := mk_node None None 20]>
    (<[3%positive := mk_node None None 30]> ∅)).
Definition empty_list : mem := mk (Some (mk_list None None 0)) nodes.

(** 3, 1, 2 in a row *)
Definition three : mem :=
  mk (Some (mk_list (Some 3) (Some 2) 3)%positive)
    (<[1 := mk_node (Some 3) (Some 2) 10]> (<[2 := mk_node (Some 1) None 20]>
      (<[3 := mk_node None (Some 1) 30]> ∅)))%positive.

Lemma empty_is_list : is_list empty_list [].
Proof. split; [done|constructor|done|done]. Qed.

Lemma three_is_list : is_list three [3; 1; 2]%positive.
Proof.
  split; [|by apply (bool_decide_unpack _); vm_compute|done|done].
  cbn. split_and!; [by exists 30|by exists 10|by exists 20|done].
Qed.

Lemma llist_witness :
  exists m', exec_all [Append 1; Prepend 2; InsertAfter 2 3; Unlink 1]%positive empty_list = Some m' /\
    is_list m' [2; 3]%positive /\ ub_list_count m' = 2.
Proof.
  destruct (llist_refines_sequence [Append 1; Prepend 2; InsertAfter 2 3; Unlink 1]%positive empty_list []
    [2; 3]%positive empty_is_list) as (m' & E & L & _ & _ & _ & C & _).
  - vm_compute. reflexivity.
  - intros op p O P. assert (K : p ∈ [1; 2; 3]%positive).
    { repeat (apply elem_of_cons in O as [->|O]; [first [discriminate P|injection P as <-; by repeat constructor]|]). by apply elem_of_nil in O. }
    repeat (apply elem_of_cons in K as [->|K]; [by eexists; vm_compute|]). by apply elem_of_nil in K.
  - exists m'. split; [exact E|]. split; [exact L|exact C].
Defined.

Lemma list_sort_witness :
  exists m', ub_list_sort 10 4 (Some Pos.leb) three = Some m' /\ is_list m' [1; 2; 3]%positive.
Proof.
  destruct (list_sort_sorts Pos.leb three [3; 1; 2]%positive 10 4 three_is_list) as (m' & ns' & E & L & _).
  - intros x y _ _ H%Pos.leb_gt. by apply Pos.leb_le, Pos.lt_le_incl.
  - cbn. lia.
  - cbn. lia.
  - exists m'. split; [exact E|]. assert (R : ub_list_sort 10 4 (Some Pos.leb) three = Some m') by exact E.
    vm_compute in R. injection R as <-. 
    split; [|by apply (bool_decide_unpack _); vm_compute|reflexivity|reflexivity].
    cbn. split_and!; [by exists 10|by exists 20|by exists 30|done].
Defined.
End LLWitness.
