(* ===== verification/Getmem.v ===== *)
(** * Getmem: the static memory pools of tsn_unibase (ub_getmem.c, ub_getmem.h)

    A pool is an array of [fragnum] fragments of [fragsize] bytes and a table
    [busysizes]: the entry of the first fragment of a block holds the number of
    its fragments, every other entry is 0.  A pointer is its distance in bytes
    from the start of the array, as the functions compute it; [None] is NULL.

    The class [Allocator] is what the rest of the stack may rely on: a heap of
    blocks that do not overlap, whose content only their owner changes.  The
    pool is shown to be one, and to refuse a request only when no run of free
    fragments is long enough. *)

From S2P Require Import Prelude.
From stdpp Require Import list gmap.
#[local] Open Scope Z_scope.
#[local] Open Scope gptp_scope.

Module GetMem.

(** the arguments [fragsize] and [fragnum], the same in every call on a pool *)
Class Pool := {
  fragsize : Z;
  fragnum : Z;
  fragsize_range : 0 < fragsize < 2 ^ 16;
  fragnum_range : 0 <= fragnum < 2 ^ 16;
  area_range : fragsize * fragnum < 2 ^ 31
}.

(** the statically allocated arrays *)
Record pool := mk_pool { mem : list Z; busysizes : list Z }.
#[export] Instance eta_pool : Eta pool := fields! mk_pool [mem, busysizes].

Definition UB_SD_ALIGN (x : Z) : Z := Z.land (wrap 64 (u32 x + 7)) (wrap 64 (Z.lnot 7)).

(** the next multiple of the size of a pointer *)
Lemma align_spec x :
  0 <= x < 2 ^ 32 -> x <= UB_SD_ALIGN x < x + 8 /\ UB_SD_ALIGN x mod 8 = 0.
Proof.
  intros X. unfold UB_SD_ALIGN. rewrite (wrap_id 32) by (unfold fits; lia). rewrite (wrap_id 64) by (unfold fits; lia).
  replace (wrap 64 (Z.lnot 7)) with (Z.shiftl (Z.ones 61) 3) by by vm_compute.
  assert (E : Z.land (x + 7) (Z.shiftl (Z.ones 61) 3) = Z.shiftl (Z.land (Z.shiftr (x + 7) 3) (Z.ones 61)) 3).
  { apply Z.bits_inj'. intros n N. rewrite Z.land_spec, !Z.shiftl_spec, Z.land_spec by lia.
    destruct (Z.lt_ge_cases n 3) as [L|L]; [rewrite !(Z.testbit_neg_r _ (n - 3)) by lia; by rewrite !andb_false_r|].
    rewrite Z.shiftr_spec by lia. by rewrite Z.sub_add. }
  rewrite E, Z.land_ones, Z.shiftr_div_pow2, Z.shiftl_mul_pow2 by lia. change (2 ^ 3) with 8.
  pose proof (Z.div_mod (x + 7) 8 ltac:(lia)). pose proof (Z.mod_pos_bound (x + 7) 8 ltac:(lia)).
  assert (0 <= (x + 7) / 8) by (apply Z.div_pos; lia).
  rewrite (Z.mod_small ((x + 7) / 8)) by lia. split; [lia|]. apply Z.mod_mul. lia.
Qed.

(** UB_SD_GETMEM_DEF: static arrays are zero *)
Definition getmem_def (FRAGSIZE FRAGNUM : Z) : pool :=
  mk_pool (replicate (Z.to_nat (UB_SD_ALIGN FRAGSIZE * u32 FRAGNUM)) 0) (replicate (Z.to_nat FRAGNUM) 0).

(** [memmove(&mem[dst], &mem[src], len)] *)
Definition memmove (dst src len : Z) (m : list Z) : list Z :=
  memcpy_at (Z.to_nat dst) (take (Z.to_nat len) (drop (Z.to_nat src) m)) m.

Section Functions.
Context {P : Pool}.

(** The loop of ub_static_getmem: [Some (Some (pi, i))] when it breaks, [Some None] when it runs to
    the end; [None] when [fuel] is too small or [busysizes] shorter than [fragnum].  [max_np] is only
    logged. *)
Fixpoint look (fuel : nat) (size : Z) (busysizes : list Z) (i pi np : Z) : option (option (Z * Z)) :=
  match fuel with
  | O => None
  | S fuel =>
      if i <? fragnum then
        n ← busysizes !! Z.to_nat i;
        let '(i, pi, np) :=
          if n =? 0 then (i + 1, if pi =? -1 then i else pi, np + 1) else (i + n, -1, 0) in
        if size <=? np * fragsize then Some (Some (pi, i)) else look fuel size busysizes i pi np
      else Some None
  end.

(** [None]: [busysizes] is written outside of its bounds; [size] is a size_t, compared as an int *)
Definition ub_static_getmem (size : Z) (s : pool) : option (option Z * pool) :=
  if size =? 0 then Some (None, s)
  else
    r ← look (S (Z.to_nat fragnum)) (i32 size) (busysizes s) 0 (-1) 0;
    match r with
    | None => Some (None, s)
    | Some (pi, i) =>
        if pi <? 0 then None
        else Some (Some (pi * fragsize), s <| busysizes ::= <[Z.to_nat pi := u16 (i - pi)]> |>)
    end.

(** the index of the fragment [p] points at, when it points at the start of one *)
Definition frag_index (p : Z) : option Z :=
  let dp := i32 p in
  let cpi := Z.quot dp fragsize in
  if (dp <? 0) || (fragnum <=? cpi) || negb (cpi * fragsize =? dp) then None else Some cpi.

Definition ub_static_relmem (p : option Z) (s : pool) : option pool :=
  match p with
  | None => Some s
  | Some p =>
      match frag_index p with
      | None => Some s
      | Some cpi =>
          n ← busysizes s !! Z.to_nat cpi;
          if n =? 0 then Some s else Some (s <| busysizes ::= <[Z.to_nat cpi := 0]> |>)
      end
  end.

Definition ub_static_regetmem (p : option Z) (nsize : Z) (s : pool) : option (option Z * pool) :=
  match p with
  | None => ub_static_getmem nsize s
  | Some p =>
      if nsize =? 0 then s ← ub_static_relmem (Some p) s; Some (None, s)
      else
        match frag_index p with
        | None => Some (None, s)
        | Some cpi =>
            let nbusy := u16 (Z.quot (i32 nsize + fragsize - 1) fragsize) in
            cbusy ← busysizes s !! Z.to_nat cpi;
            if nbusy <=? cbusy then Some (Some p, s <| busysizes ::= <[Z.to_nat cpi := nbusy]> |>)
            else
              r ← ub_static_getmem nsize (s <| busysizes ::= <[Z.to_nat cpi := 0]> |>);
              match r with
              | (None, s) => Some (None, s <| busysizes ::= <[Z.to_nat cpi := cbusy]> |>)
              | (Some np, s) =>
                  Some (Some np, if np =? p then s else s <| mem ::= memmove np p (cbusy * fragsize) |>)
              end
        end
  end.

(** the number of free fragments *)
Definition ub_static_print_usage (s : pool) : Z :=
  fragnum - fold_right Z.add 0 (take (Z.to_nat fragnum) (busysizes s)).

(** what the owner of a pointer does with the memory *)
Definition read (p : Z) (n : nat) (s : pool) : list Z := take n (drop (Z.to_nat p) (mem s)).
Definition write (p : Z) (bs : list Z) (s : pool) : pool := s <| mem ::= memcpy_at (Z.to_nat p) bs |>.

End Functions.

(** ** The layout of a pool *)

(** a free fragment, or a block of [k] of them *)
Inductive cell := Free | Block (k : nat).

Definition cell_entries (c : cell) : list Z :=
  match c with Free => [0] | Block k => Z.of_nat k :: replicate (k - 1) 0 end.
Definition cell_width (c : cell) : nat := match c with Free => 1 | Block k => k end.
Definition cell_ok (c : cell) : Prop := (1 <= cell_width c)%nat.

Definition entries (cs : list cell) : list Z := concat (map cell_entries cs).
Definition width (cs : list cell) : nat := sum_list_with cell_width cs.

Lemma entries_app a b : entries (a ++ b) = entries a ++ entries b.
Proof. unfold entries. by rewrite map_app, concat_app. Qed.

Lemma entries_cons c cs : entries (c :: cs) = cell_entries c ++ entries cs.
Proof. done. Qed.

Lemma width_app a b : width (a ++ b) = (width a + width b)%nat.
Proof. apply sum_list_with_app. Qed.

Lemma width_free k : width (replicate k Free) = k.
Proof. unfold width. induction k; cbn; [done|]. unfold width in IHk. lia. Qed.

Lemma entries_free k : entries (replicate k Free) = replicate k 0.
Proof. unfold entries. induction k as [|k IH]; [done|]. cbn. by rewrite IH. Qed.

Lemma cell_entries_length c : cell_ok c -> length (cell_entries c) = cell_width c.
Proof. unfold cell_ok. destruct c as [|k]; cbn; [done|]. rewrite length_replicate. lia. Qed.

Lemma entries_length cs : Forall cell_ok cs -> length (entries cs) = width cs.
Proof.
  induction 1 as [|c cs C _ IH]; [done|]. cbn. unfold entries in *. cbn.
  by rewrite length_app, IH, cell_entries_length.
Qed.

(** overwriting the entry after a prefix *)
Lemma insert_at {A} (a : list A) (x y : A) (b : list A) n :
  n = length a -> <[n := y]> (a ++ x :: b) = a ++ y :: b.
Proof. intros ->. rewrite insert_app_r_alt by done. by rewrite Nat.sub_diag. Qed.

Lemma free_ok k : Forall cell_ok (replicate k Free).
Proof. apply Forall_replicate. unfold cell_ok. cbn. lia. Qed.

(** A request of [k] fragments takes the first run of [k] free ones: where it ends, from a run of
    [np] before the cells *)
Fixpoint first_fit (k np pos : nat) (cs : list cell) : option nat :=
  match cs with
  | [] => None
  | Free :: cs => if (k <=? S np)%nat then Some (S pos) else first_fit k (S np) (S pos) cs
  | Block n :: cs => first_fit k 0 (pos + n) cs
  end.

Lemma first_fit_split k np pos cs e :
  (np < k)%nat -> (np <= pos)%nat -> first_fit k np pos cs = Some e ->
  exists c1 c2, replicate np Free ++ cs = c1 ++ replicate k Free ++ c2 /\ (width c1 + (pos - np) + k = e)%nat.
Proof.
  revert np pos. induction cs as [|c cs IH]; intros np pos K N; [done|]. destruct c as [|n]; cbn.
  - destruct (Nat.leb_spec k (S np)) as [L|L].
    + intros [= <-]. exists [], cs. assert (k = S np) as -> by lia. cbn [app]. split; [|cbn; lia].
      by rewrite replicate_S_end, <- app_assoc.
    + intros F. apply IH in F as (c1 & c2 & E & W); [|lia|lia]. exists c1, c2. split; [|lia].
      by rewrite <- E, replicate_S_end, <- app_assoc.
  - intros F. apply IH in F as (c1 & c2 & E & W); [|lia|lia]. cbn in E.
    exists (replicate np Free ++ Block n :: c1), c2. split; [by rewrite E, <- app_assoc|].
    rewrite width_app, width_free. unfold width in *. cbn. lia.
Qed.

Lemma first_fit_complete k np pos c1 c2 :
  (0 < k)%nat -> first_fit k np pos (c1 ++ replicate k Free ++ c2) <> None.
Proof.
  intros K. revert np pos. induction c1 as [|c c1 IH]; intros np pos; cbn [app].
  - assert (G : forall j np pos, (k <= np + j)%nat -> (0 < j)%nat -> first_fit k np pos (replicate j Free ++ c2) <> None).
    { clear np pos. induction j as [|j IH]; intros np pos J1 J2; [lia|]. cbn.
      destruct (Nat.leb_spec k (S np)); [done|]. apply IH; lia. }
    apply G; lia.
  - destruct c as [|n]; cbn; [|apply IH]. destruct (k <=? S np)%nat; [done|apply IH].
Qed.

Section Layout.
Context {P : Pool}.

(** the number of fragments a request of [size] bytes needs *)
Definition frags (size : Z) : nat := Z.to_nat ((size + fragsize - 1) / fragsize).

Lemma frags_spec size np : 0 < size -> size <= Z.of_nat np * fragsize <-> (frags size <= np)%nat.
Proof.
  intros S. unfold frags. pose proof fragsize_range as [F _].
  assert (fragsize <> 0) as N0 by lia. pose proof (Z.div_mod (size + fragsize - 1) fragsize N0) as D.
  pose proof (Z.mod_pos_bound (size + fragsize - 1) fragsize F) as M.
  assert (0 <= (size + fragsize - 1) / fragsize) by (apply Z.div_pos; lia).
  revert D M H. generalize ((size + fragsize - 1) / fragsize) ((size + fragsize - 1) mod fragsize).
  intros q r D M H. split; intros L.
  - assert (q < Z.of_nat np + 1); [|lia]. apply (Z.mul_lt_mono_pos_r fragsize); lia.
  - assert (q * fragsize <= Z.of_nat np * fragsize) by (apply Z.mul_le_mono_nonneg_r; lia). lia.
Qed.

Lemma frags_pos size : 0 < size -> (0 < frags size)%nat.
Proof.
  intros S. destruct (decide (frags size <= 0)%nat) as [L|]; [|lia]. apply frags_spec in L; lia.
Qed.

(** the loop of ub_static_getmem is [first_fit] *)
Lemma look_first_fit fuel size pre cs np :
  0 < size -> Forall cell_ok cs -> Z.of_nat (length (pre ++ entries cs)) = fragnum ->
  (np <= length pre)%nat -> (np < frags size)%nat -> (width cs < fuel)%nat ->
  look fuel size (pre ++ entries cs) (Z.of_nat (length pre))
    (if (0 <? np)%nat then Z.of_nat (length pre) - Z.of_nat np else -1) (Z.of_nat np) =
  Some ((fun e => (Z.of_nat e - Z.of_nat (frags size), Z.of_nat e)) <$>
        first_fit (frags size) np (length pre) cs).
Proof.
  intros S W. revert fuel pre np. induction W as [|c cs C W IH]; intros fuel pre np L N K F.
  { destruct fuel; [cbn in F; lia|]. cbn. rewrite app_nil_r in L. rewrite L. destruct (Z.ltb_spec fragnum fragnum); [lia|done]. }
  unfold entries in *. cbn [map concat] in *. destruct fuel as [|fuel]; [cbn in F; lia|]. cbn [look].
  assert (Lt : (Z.of_nat (length pre) <? fragnum) = true).
  { apply Z.ltb_lt. rewrite <- L, !length_app, (cell_entries_length c C). unfold cell_ok in C. lia. }
  rewrite Lt, Nat2Z.id, lookup_app_r, Nat.sub_diag by done.
  assert (E : (pre ++ cell_entries c ++ concat (map cell_entries cs)) =
              (pre ++ cell_entries c) ++ concat (map cell_entries cs)) by by rewrite app_assoc.
  rewrite E in L |- *. destruct c as [|n].
  - cbn [cell_entries app lookup list_lookup first_fit mbind option_bind]. rewrite Z.eqb_refl.
    replace (Z.of_nat np + 1) with (Z.of_nat (Datatypes.S np)) by lia.
    replace (Z.of_nat (length pre) + 1) with (Z.of_nat (length (pre ++ [0]))) by (rewrite length_app; cbn; lia).
    replace (if (if (0 <? np)%nat then Z.of_nat (length pre) - Z.of_nat np else -1) =? -1
             then Z.of_nat (length pre) else _) with (Z.of_nat (length pre) - Z.of_nat np).
    2: { destruct (Nat.ltb_spec 0 np), (Z.eqb_spec (Z.of_nat (length pre) - Z.of_nat np) (-1)); cbn; lia. }
    pose proof (frags_spec size (Datatypes.S np) S) as FS.
    destruct (Nat.leb_spec (frags size) (Datatypes.S np)) as [B|B], (Z.leb_spec size (Z.of_nat (Datatypes.S np) * fragsize)) as [Q|Q].
    + cbn. rewrite length_app. cbn. do 3 f_equal; lia.
    + exfalso. apply FS in B. lia.
    + exfalso. apply FS in Q. lia.
    + specialize (IH fuel (pre ++ [0]) (Datatypes.S np)).
      assert (LP : length (pre ++ [0]) = Datatypes.S (length pre)) by (rewrite length_app; cbn; lia).
      rewrite LP in IH. cbn [Nat.ltb Nat.leb] in IH. rewrite LP.
      replace (Z.of_nat (length pre) - Z.of_nat np)
        with (Z.of_nat (Datatypes.S (length pre)) - Z.of_nat (Datatypes.S np)) by lia.
      apply IH; [exact L|lia|lia|unfold width in *; cbn in F; lia].
  - cbn [cell_entries app lookup list_lookup first_fit mbind option_bind].
    unfold cell_ok in C; cbn in C. destruct (Z.eqb_spec (Z.of_nat n) 0) as [?|_]; [lia|].
    destruct (Z.leb_spec size (0 * fragsize)); [lia|].
    specialize (IH fuel (pre ++ cell_entries (Block n)) 0%nat).
    assert (LB : length (pre ++ cell_entries (Block n)) = (length pre + n)%nat).
    { rewrite length_app, cell_entries_length; [done|exact C]. }
    rewrite LB in IH. cbn [Nat.ltb Nat.leb] in IH.
    replace (Z.of_nat (length pre) + Z.of_nat n) with (Z.of_nat (length pre + n)) by lia.
    apply IH; [exact L|lia|lia|unfold width in *; cbn in F; lia].
Qed.

(** ** The blocks of a pool *)

Definition fs : nat := Z.to_nat fragsize.

(** the bytes of the block of [n] fragments from the fragment [pos] on *)
Definition block_bytes (pos n : nat) (m : list Z) : list Z := take (n * fs) (drop (pos * fs) m).

Definition addr (pos : nat) : Z := Z.of_nat pos * fragsize.

Fixpoint owned (pos : nat) (cs : list cell) (m : list Z) : gmap Z (list Z) :=
  match cs with
  | [] => ∅
  | Free :: cs => owned (S pos) cs m
  | Block n :: cs => <[addr pos := block_bytes pos n m]> (owned (pos + n) cs m)
  end.

(** the pool [s] has the blocks [h], at their addresses, with their bytes *)
Record pool_holds (s : pool) (h : gmap Z (list Z)) : Prop := {
  ph_cells : exists cs, busysizes s = entries cs /\ Forall cell_ok cs /\ Z.of_nat (width cs) = fragnum /\
                        h = owned 0 cs (mem s);
  ph_mem : length (mem s) = (Z.to_nat fragnum * fs)%nat
}.

Lemma addr_inj a b : addr a = addr b -> a = b.
Proof. unfold addr. pose proof fragsize_range. nia. Qed.

Lemma owned_key pos cs m p bs :
  Forall cell_ok cs -> owned pos cs m !! p = Some bs -> exists q, p = addr q /\ (pos <= q < pos + width cs)%nat.
Proof.
  intros W. revert pos. induction W as [|c cs C W IH]; intros pos; [done|].
  unfold width in *. unfold cell_ok in C. destruct c as [|n]; cbn [owned sum_list_with cell_width] in *.
  - intros H. apply IH in H as (q & -> & Q). exists q. split; [done|lia].
  - intros [[<- _]|[_ H]]%lookup_insert_Some; [exists pos; split; [done|lia]|].
    apply IH in H as (q & -> & Q). exists q. split; [done|lia].
Qed.

Lemma owned_out pos cs m q :
  Forall cell_ok cs -> (q < pos \/ pos + width cs <= q)%nat -> owned pos cs m !! addr q = None.
Proof.
  intros W Q. destruct (owned pos cs m !! addr q) as [bs|] eqn:E; [|done].
  apply owned_key in E as (q' & E & Q'); [|done]. apply addr_inj in E as ->. lia.
Qed.

Lemma owned_app pos a b m :
  owned pos (a ++ b) m = owned pos a m ∪ owned (pos + width a) b m.
Proof.
  revert pos. induction a as [|c a IH]; intros pos; cbn.
  - by rewrite (left_id_L ∅ (∪)), Nat.add_0_r.
  - unfold width in *. destruct c as [|n]; cbn; rewrite IH.
    + do 2 f_equal. lia.
    + rewrite <- insert_union_l. do 3 f_equal. lia.
Qed.

Lemma owned_free pos n m : owned pos (replicate n Free) m = ∅.
Proof. revert pos. induction n as [|n IH]; intros pos; [done|apply IH]. Qed.

(** a block between two parts of the layout *)
Lemma owned_block c1 n c2 m :
  Forall cell_ok c1 -> Forall cell_ok (Block n :: c2) ->
  owned 0 (c1 ++ Block n :: c2) m =
    <[addr (width c1) := block_bytes (width c1) n m]> (owned 0 (c1 ++ replicate n Free ++ c2) m) /\
  owned 0 (c1 ++ replicate n Free ++ c2) m !! addr (width c1) = None.
Proof.
  intros W1 [N W2]%Forall_cons. unfold cell_ok in N; cbn in N. rewrite !owned_app, owned_free, width_free, (left_id_L ∅ (∪)).
  cbn [owned Nat.add]. split.
  - rewrite insert_union_r; [done|]. apply owned_out; [done|]. lia.
  - apply lookup_union_None. split; apply owned_out; try done; lia.
Qed.

Lemma owned_find pos cs m p bs :
  owned pos cs m !! p = Some bs ->
  exists c1 n c2, cs = c1 ++ Block n :: c2 /\ p = addr (pos + width c1) /\ bs = block_bytes (pos + width c1) n m.
Proof.
  revert pos. induction cs as [|c cs IH]; intros pos; [done|]. destruct c as [|n]; cbn.
  - intros (c1 & n & c2 & -> & -> & ->)%IH. exists (Free :: c1), n, c2.
    unfold width. cbn. by rewrite !Nat.add_succ_r.
  - intros [[<- <-]|[_ (c1 & k & c2 & -> & -> & ->)%IH]]%lookup_insert_Some.
    + exists [], n, cs. unfold width. cbn. by rewrite Nat.add_0_r.
    + exists (Block n :: c1), k, c2. unfold width. cbn. by rewrite !Nat.add_assoc.
Qed.

(** bytes written elsewhere do not change a block *)
Lemma block_bytes_memcpy pos n off src m :
  (off + length src <= length m)%nat -> ((pos + n) * fs <= off \/ off + length src <= pos * fs)%nat ->
  block_bytes pos n (memcpy_at off src m) = block_bytes pos n m.
Proof.
  intros L D. unfold block_bytes, memcpy_at. apply list_eq. intros i.
  destruct (decide (i < n * fs)%nat) as [I|I]; [|by rewrite !lookup_take_ge by lia].
  rewrite !lookup_take_lt, !lookup_drop by done. destruct D as [D|D].
  - rewrite lookup_app_l by (rewrite length_take; lia). by rewrite lookup_take_lt by lia.
  - rewrite lookup_app_r by (rewrite length_take; lia). rewrite length_take.
    rewrite lookup_app_r by lia. rewrite lookup_drop. f_equal. lia.
Qed.

Lemma owned_memcpy pos cs off src m :
  (off + length src <= length m)%nat -> ((pos + width cs) * fs <= off \/ off + length src <= pos * fs)%nat ->
  owned pos cs (memcpy_at off src m) = owned pos cs m.
Proof.
  intros L. revert pos. induction cs as [|c cs IH]; intros pos D; [done|].
  unfold width in *. destruct c as [|n]; cbn in *.
  - apply IH. destruct D; [left|right]; nia.
  - rewrite IH by (destruct D; [left|right]; nia). f_equal. apply block_bytes_memcpy; [done|].
    destruct D; [left|right]; nia.
Qed.

(** a block's own bytes *)
Lemma block_bytes_own pos n off src m :
  ((pos + n) * fs <= length m)%nat -> (off + length src <= n * fs)%nat ->
  block_bytes pos n (memcpy_at (pos * fs + off) src m) = memcpy_at off src (block_bytes pos n m).
Proof.
  intros L D. unfold block_bytes, memcpy_at. apply list_eq. intros i.
  assert (LT : length (take off (take (n * fs) (drop (pos * fs) m))) = off)
    by (rewrite !length_take, length_drop; lia).
  destruct (decide (i < n * fs)%nat) as [I|I].
  2: { rewrite lookup_take_ge by lia. symmetry. apply lookup_ge_None.
       rewrite !length_app, LT, length_drop, length_take, length_drop. lia. }
  rewrite lookup_take_lt, lookup_drop by done.
  destruct (decide (i < off)%nat) as [J|J].
  - rewrite !lookup_app_l by (rewrite ?LT, ?length_take; lia).
    rewrite !lookup_take_lt, lookup_drop by lia. done.
  - rewrite !(lookup_app_r (take _ _)) by (rewrite ?LT, ?length_take; lia). rewrite LT, length_take.
    replace (pos * fs + i - (pos * fs + off) `min` length m)%nat with (i - off)%nat by lia.
    destruct (decide (i - off < length src)%nat) as [K|K]; [by rewrite !lookup_app_l by done|].
    rewrite !lookup_app_r, !lookup_drop, lookup_take_lt, lookup_drop by lia. f_equal. lia.
Qed.

(** ** What the functions do to the layout *)

Lemma i32_small x : 0 <= x < 2 ^ 31 -> i32 x = x.
Proof. intros X. apply swrap_id; [lia|]. unfold sfits. lia. Qed.

Lemma u16_small x : 0 <= x < 2 ^ 16 -> u16 x = x.
Proof. intros X. by apply wrap_id. Qed.

Definition layout (s : pool) (cs : list cell) : Prop :=
  busysizes s = entries cs /\ Forall cell_ok cs /\ Z.of_nat (width cs) = fragnum.

Lemma entries_block c1 k c2 :
  (0 < k)%nat -> Forall cell_ok c1 ->
  <[width c1 := Z.of_nat k]> (entries (c1 ++ replicate k Free ++ c2)) = entries (c1 ++ Block k :: c2).
Proof.
  intros K W. rewrite !entries_app, entries_free. destruct k as [|k]; [lia|]. cbn [replicate app].
  rewrite insert_at by by rewrite entries_length. unfold entries at 3. cbn. by rewrite Nat.sub_0_r.
Qed.

Lemma entries_unblock c1 k c2 :
  (0 < k)%nat -> Forall cell_ok c1 ->
  <[width c1 := 0]> (entries (c1 ++ Block k :: c2)) = entries (c1 ++ replicate k Free ++ c2).
Proof.
  intros K W. rewrite !entries_app, entries_free. destruct k as [|k]; [lia|]. unfold entries at 2. cbn.
  rewrite insert_at by by rewrite entries_length. by rewrite Nat.sub_0_r.
Qed.

Lemma getmem_layout size s cs :
  layout s cs -> 0 < size < 2 ^ 31 ->
  (exists c1 c2, cs = c1 ++ replicate (frags size) Free ++ c2 /\
     ub_static_getmem size s =
       Some (Some (addr (width c1)), mk_pool (mem s) (entries (c1 ++ Block (frags size) :: c2)))) \/
  (ub_static_getmem size s = Some (None, s) /\ forall c1 c2, cs <> c1 ++ replicate (frags size) Free ++ c2).
Proof.
  intros (B & W & N) Z. pose proof (frags_pos size ltac:(lia)) as K. unfold ub_static_getmem.
  destruct (Z.eqb_spec size 0); [lia|]. rewrite i32_small by lia. rewrite B.
  rewrite (look_first_fit _ size [] cs 0); cbn [app length]; rewrite ?entries_length by done; try lia; [|done].
  destruct (first_fit (frags size) 0 0 cs) as [e|] eqn:F; cbn.
  - left. apply first_fit_split in F as (c1 & c2 & E & We); [|lia|lia]. cbn in E. subst cs.
    exists c1, c2. split; [done|].
    replace (Z.of_nat e - Z.of_nat (frags size)) with (Z.of_nat (width c1)) by lia.
    destruct (Z.ltb_spec (Z.of_nat (width c1)) 0); [lia|].
    rewrite Nat2Z.id. replace (Z.of_nat e - Z.of_nat (width c1)) with (Z.of_nat (frags size)) by lia.
    apply Forall_app in W as [W _]. rewrite u16_small.
    + rewrite !width_app, width_free in N. pose proof fragnum_range. cbn [upd].
      rewrite <- entries_block by (try done; lia). rewrite <- B. by destruct s.
    + rewrite !width_app, width_free in N. pose proof fragnum_range. lia.
  - right. split; [done|]. intros c1 c2 ->. by apply first_fit_complete in F.
Qed.

(** a pointer to the start of a block *)
Lemma frag_index_addr c1 k c2 :
  Z.of_nat (width (c1 ++ Block k :: c2)) = fragnum -> (0 < k)%nat ->
  frag_index (addr (width c1)) = Some (Z.of_nat (width c1)).
Proof.
  intros W K. rewrite width_app in W. unfold width at 2 in W. cbn in W. unfold frag_index, addr.
  pose proof fragsize_range. pose proof area_range. pose proof fragnum_range.
  assert (Z.of_nat (width c1) < fragnum) by lia.
  assert (0 <= Z.of_nat (width c1) * fragsize < 2 ^ 31) by nia.
  rewrite i32_small, Z.quot_mul by lia.
  destruct (Z.ltb_spec (Z.of_nat (width c1) * fragsize) 0); [lia|].
  destruct (Z.leb_spec fragnum (Z.of_nat (width c1))); [lia|]. by rewrite Z.eqb_refl.
Qed.

Lemma entries_lookup c1 k c2 :
  Forall cell_ok c1 -> entries (c1 ++ Block k :: c2) !! width c1 = Some (Z.of_nat k).
Proof.
  intros W. rewrite entries_app, lookup_app_r by by rewrite entries_length.
  by rewrite entries_length, Nat.sub_diag.
Qed.

Lemma relmem_layout s c1 k c2 :
  layout s (c1 ++ Block k :: c2) ->
  ub_static_relmem (Some (addr (width c1))) s =
    Some (mk_pool (mem s) (entries (c1 ++ replicate k Free ++ c2))).
Proof.
  intros (B & [W [K _]%Forall_cons]%Forall_app & N). unfold cell_ok in K. cbn in K. unfold ub_static_relmem.
  rewrite (frag_index_addr c1 k c2) by (done || lia). rewrite B, Nat2Z.id, entries_lookup by done. cbn.
  destruct (Z.eqb_spec (Z.of_nat k) 0); [lia|].
  rewrite <- entries_unblock by (try done; lia). rewrite <- B. by destruct s.
Qed.

Lemma layout_free s c1 k c2 m :
  layout s (c1 ++ Block k :: c2) -> layout (mk_pool m (entries (c1 ++ replicate k Free ++ c2))) (c1 ++ replicate k Free ++ c2).
Proof.
  intros (B & [W [K W2]%Forall_cons]%Forall_app & N). split; [done|]. split.
  - apply Forall_app; split; [done|]. apply Forall_app; split; [apply free_ok|done].
  - rewrite !width_app, width_free in *. unfold width in *. cbn in *. lia.
Qed.

Lemma layout_block s c1 k c2 m :
  layout s (c1 ++ replicate k Free ++ c2) -> (0 < k)%nat ->
  layout (mk_pool m (entries (c1 ++ Block k :: c2))) (c1 ++ Block k :: c2).
Proof.
  intros (B & [W [_ W2]%Forall_app]%Forall_app & N) K. split; [done|]. split.
  - apply Forall_app; split; [done|]. apply Forall_cons; split; [unfold cell_ok; cbn; lia|done].
  - rewrite !width_app, width_free in *. unfold width in *. cbn in *. lia.
Qed.

(** a size whose fragments are counted in 16 bits, without overflow of an int on the way *)
Definition max_size : Z := Z.min (65535 * fragsize) (2 ^ 31 - fragsize).

Lemma nbusy_frags size :
  0 < size <= max_size -> u16 (Z.quot (i32 size + fragsize - 1) fragsize) = Z.of_nat (frags size).
Proof.
  unfold max_size. intros Z. pose proof fragsize_range. rewrite i32_small by lia.
  rewrite Z.quot_div_nonneg by lia. unfold frags. rewrite Z2Nat.id by (apply Z.div_pos; lia).
  apply u16_small. split; [apply Z.div_pos; lia|]. apply Z.div_lt_upper_bound; lia.
Qed.

Lemma entries_shrink c1 n k c2 :
  (0 < k <= n)%nat -> Forall cell_ok c1 ->
  <[width c1 := Z.of_nat k]> (entries (c1 ++ Block n :: c2)) = entries (c1 ++ Block k :: replicate (n - k) Free ++ c2).
Proof.
  intros K W. rewrite !entries_app, !entries_cons, entries_app, entries_free. cbn [cell_entries app].
  rewrite insert_at by by rewrite entries_length. do 2 f_equal.
  rewrite (app_assoc (replicate (k - 1) 0)), <- replicate_add. do 2 f_equal. lia.
Qed.

Lemma regetmem_layout s c1 n c2 size :
  layout s (c1 ++ Block n :: c2) -> 0 < size <= max_size ->
  let k := frags size in
  let p := addr (width c1) in
  ((k <= n)%nat /\ ub_static_regetmem (Some p) size s =
     Some (Some p, mk_pool (mem s) (entries (c1 ++ Block k :: replicate (n - k) Free ++ c2)))) \/
  ((n < k)%nat /\ ub_static_regetmem (Some p) size s = Some (None, s)) \/
  ((n < k)%nat /\ exists d1 d2, c1 ++ replicate n Free ++ c2 = d1 ++ replicate k Free ++ d2 /\
     ub_static_regetmem (Some p) size s =
     Some (Some (addr (width d1)),
           mk_pool (if addr (width d1) =? p then mem s
                    else memmove (addr (width d1)) p (Z.of_nat n * fragsize) (mem s))
                   (entries (d1 ++ Block k :: d2)))).
Proof.
  intros Ly Z k p. pose proof Ly as (B & [W [K _]%Forall_cons]%Forall_app & N). unfold cell_ok in K; cbn in K.
  pose proof (frags_pos size ltac:(lia)) as Kp. fold k in Kp.
  unfold ub_static_regetmem. destruct (Z.eqb_spec size 0); [lia|]. unfold p.
  rewrite (frag_index_addr c1 n c2) by (done || lia). rewrite nbusy_frags by done. fold k.
  rewrite B, Nat2Z.id, entries_lookup by done. cbn.
  destruct (Z.leb_spec (Z.of_nat k) (Z.of_nat n)) as [L|L].
  { left. split; [lia|]. rewrite <- entries_shrink by (try done; lia). rewrite <- B. by destruct s. }
  right. set (s1 := upd _ s).
  assert (E1 : s1 = mk_pool (mem s) (entries (c1 ++ replicate n Free ++ c2))).
  { rewrite <- entries_unblock by (try done; lia). rewrite <- B. by destruct s. }
  assert (L1 : layout s1 (c1 ++ replicate n Free ++ c2)) by (rewrite E1; by apply (layout_free s)).
  destruct (getmem_layout size s1 _ L1) as [(d1 & d2 & E & ->)|[-> _]]; [unfold max_size in Z; lia| |]; fold k.
  - right. split; [lia|]. exists d1, d2. split; [done|]. rewrite E1. cbn. by destruct (_ =? _).
  - left. split; [lia|]. cbn. do 2 f_equal. rewrite E1. cbn [upd]. destruct s as [m b]. cbn in *. subst b.
    unfold upd. cbn. by rewrite entries_block by (try done; lia).
Qed.

End Layout.

End GetMem.

(** ** What the rest of the stack relies on *)

(** UB_SD_GETMEM, UB_SD_REGETMEM and UB_SD_RELMEM of one pool, and the accesses through the pointers
    they give; [None] is undefined behaviour *)
Class Allocator (S : Type) := {
  al_get : Z -> S -> option (option Z * S);
  al_reget : option Z -> Z -> S -> option (option Z * S);
  al_rel : option Z -> S -> option S;
  al_read : Z -> nat -> S -> list Z;
  al_write : Z -> list Z -> S -> S
}.

Module Alloc.

(** the blocks [h'] after a request of [n] bytes on the blocks [h] *)
Definition got (h : gmap Z (list Z)) (n : Z) (r : option Z) (h' : gmap Z (list Z)) : Prop :=
  match r with
  | Some p => 0 < n /\ h !! p = None /\ exists bs, n <= Z.of_nat (length bs) /\ h' = <[p := bs]> h
  | None => h' = h
  end.

(** the same after the block at [p], of the bytes [bs], is asked to have [n] bytes *)
Definition regot (h : gmap Z (list Z)) (p : Z) (bs : list Z) (n : Z) (r : option Z) (h' : gmap Z (list Z)) : Prop :=
  match r with
  | Some p' =>
      0 < n /\ delete p h !! p' = None /\
      exists bs', n <= Z.of_nat (length bs') /\ h' = <[p' := bs']> (delete p h) /\
        let l := Nat.min (Z.to_nat n) (length bs) in take l bs' = take l bs
  | None => if n =? 0 then h' = delete p h else h' = h /\ Z.of_nat (length bs) < n
  end.

End Alloc.

(** [al_holds s h]: the blocks are [h]; requests are of [al_max] bytes at most *)
Class AllocatorLaws (S : Type) {A : Allocator S} := {
  al_holds : S -> gmap Z (list Z) -> Prop;
  al_max : Z;
  al_get_spec n s h : al_holds s h -> 0 <= n <= al_max ->
    exists r s' h', al_get n s = Some (r, s') /\ al_holds s' h' /\ Alloc.got h n r h';
  al_reget_none n s : al_reget None n s = al_get n s;
  al_reget_spec p n s h bs : al_holds s h -> 0 <= n <= al_max -> h !! p = Some bs ->
    exists r s' h', al_reget (Some p) n s = Some (r, s') /\ al_holds s' h' /\ Alloc.regot h p bs n r h';
  al_rel_none s : al_rel None s = Some s;
  al_rel_spec p s h bs : al_holds s h -> h !! p = Some bs ->
    exists s', al_rel (Some p) s = Some s' /\ al_holds s' (delete p h);
  al_read_spec p off n s h bs : al_holds s h -> h !! p = Some bs -> (off + n <= length bs)%nat ->
    al_read (p + Z.of_nat off) n s = take n (drop off bs);
  al_write_spec p off bs' s h bs : al_holds s h -> h !! p = Some bs -> (off + length bs' <= length bs)%nat ->
    al_holds (al_write (p + Z.of_nat off) bs' s) (<[p := memcpy_at off bs' bs]> h)
}.

Module PoolAllocator.
Import GetMem.

Section Instances.
Context {P : Pool}.

#[export] Instance pool_allocator : Allocator pool := {
  al_get := ub_static_getmem;
  al_reget := ub_static_regetmem;
  al_rel := ub_static_relmem;
  al_read := GetMem.read;
  al_write := GetMem.write
}.

Lemma holds_layout s h : pool_holds s h ->
  exists cs, layout s cs /\ h = owned 0 cs (mem s) /\ length (mem s) = (width cs * fs)%nat.
Proof.
  intros [(cs & B & W & N & H) M]. exists cs. split; [done|]. split; [done|]. rewrite M. f_equal. lia.
Qed.

Lemma layout_holds s cs : layout s cs -> length (mem s) = (width cs * fs)%nat -> pool_holds s (owned 0 cs (mem s)).
Proof.
  intros (B & W & N) M. split; [by exists cs|]. rewrite M. f_equal. lia.
Qed.

Lemma fs_pos : (0 < fs)%nat.
Proof. unfold fs. pose proof fragsize_range. lia. Qed.

Lemma block_bytes_length pos n m :
  ((pos + n) * fs <= length m)%nat -> length (block_bytes pos n m) = (n * fs)%nat.
Proof. intros L. unfold block_bytes. rewrite length_take, length_drop. nia. Qed.

Lemma frags_bytes n k : 0 < n -> (frags n <= k)%nat -> n <= Z.of_nat (k * fs).
Proof. intros N K. apply (frags_spec n k) in K; [|done]. unfold fs. pose proof fragsize_range. lia. Qed.

Lemma bytes_frags n k : 0 < n -> (k < frags n)%nat -> Z.of_nat (k * fs) < n.
Proof.
  intros N K. destruct (Z.le_gt_cases n (Z.of_nat (k * fs))) as [L|L]; [|lia].
  pose proof fragsize_range. assert (frags n <= k)%nat; [|lia]. apply frags_spec; [done|]. unfold fs in L. lia.
Qed.

(** the layout with a new block where [k] fragments were free *)
Lemma new_block_holds s c1 k c2 m :
  layout s (c1 ++ replicate k Free ++ c2) -> (0 < k)%nat ->
  length m = (width (c1 ++ replicate k Free ++ c2) * fs)%nat ->
  pool_holds (mk_pool m (entries (c1 ++ Block k :: c2)))
    (<[addr (width c1) := block_bytes (width c1) k m]> (owned 0 (c1 ++ replicate k Free ++ c2) m)) /\
  owned 0 (c1 ++ replicate k Free ++ c2) m !! addr (width c1) = None /\
  length (block_bytes (width c1) k m) = (k * fs)%nat.
Proof.
  intros Ly K M. pose proof (layout_block s c1 k c2 m Ly K) as Lb.
  assert (Wd : width (c1 ++ Block k :: c2) = width (c1 ++ replicate k Free ++ c2))
    by (rewrite !width_app, width_free; done).
  pose proof Lb as (_ & [W1 W2]%Forall_app & _). destruct (owned_block c1 k c2 m W1 W2) as [O N].
  split_and!; [|exact N|].
  - rewrite <- O. apply layout_holds; [exact Lb|]. cbn. by rewrite Wd.
  - apply block_bytes_length. rewrite M, !width_app, width_free. nia.
Qed.

Lemma pool_get n s h : pool_holds s h -> 0 <= n <= max_size ->
  exists r s' h', ub_static_getmem n s = Some (r, s') /\ pool_holds s' h' /\ Alloc.got h n r h'.
Proof.
  intros H N. destruct (decide (n = 0)) as [->|Z]; [by exists None, s, h|].
  destruct (holds_layout s h H) as (cs & Ly & -> & M).
  destruct (getmem_layout n s cs Ly) as [(c1 & c2 & -> & ->)|[-> _]].
  - unfold max_size in N. pose proof fragsize_range. lia.
  - pose proof (frags_pos n ltac:(lia)) as K.
    destruct (new_block_holds s c1 (frags n) c2 (mem s) Ly K M) as (Hs & F & L).
    do 3 eexists. split; [done|]. split; [exact Hs|]. cbn. split_and!; [lia|exact F|].
    eexists. split; [|done]. rewrite L. by apply frags_bytes; [lia|].
  - by exists None, s, (owned 0 cs (mem s)).
Qed.

Lemma pool_find s h p bs : pool_holds s h -> h !! p = Some bs ->
  exists c1 n c2, layout s (c1 ++ Block n :: c2) /\ p = addr (width c1) /\ bs = block_bytes (width c1) n (mem s) /\
    (0 < n)%nat /\ length (mem s) = (width (c1 ++ Block n :: c2) * fs)%nat /\ length bs = (n * fs)%nat /\
    h = <[p := bs]> (owned 0 (c1 ++ replicate n Free ++ c2) (mem s)) /\
    delete p h = owned 0 (c1 ++ replicate n Free ++ c2) (mem s).
Proof.
  intros H E. destruct (holds_layout s h H) as (cs & Ly & -> & M).
  destruct (owned_find 0 cs (mem s) p bs E) as (c1 & n & c2 & -> & -> & ->). cbn [Nat.add].
  pose proof Ly as (_ & W & _). apply Forall_app in W as [W1 W2]. pose proof W2 as [K _]%Forall_cons.
  unfold cell_ok in K; cbn in K. destruct (owned_block c1 n c2 (mem s) W1 W2) as [O F].
  exists c1, n, c2. split_and!; [done|done|done|lia|done| |done|].
  - apply block_bytes_length. rewrite M, width_app. unfold width. cbn. nia.
  - rewrite O. by apply delete_insert_id.
Qed.

Lemma width_swap c1 n c2 : width (c1 ++ replicate n Free ++ c2) = width (c1 ++ Block n :: c2).
Proof. by rewrite !width_app, width_free. Qed.

Lemma pool_rel p s h bs : pool_holds s h -> h !! p = Some bs ->
  exists s', ub_static_relmem (Some p) s = Some s' /\ pool_holds s' (delete p h).
Proof.
  intros H E. destruct (pool_find s h p bs H E) as (c1 & n & c2 & Ly & -> & _ & K & M & _ & _ & ->).
  rewrite (relmem_layout s c1 n c2 Ly). eexists. split; [done|].
  apply (layout_holds (mk_pool (mem s) _)); [by apply (layout_free s)|]. cbn. by rewrite width_swap.
Qed.

Lemma addr_nat pos : Z.to_nat (addr pos) = (pos * fs)%nat.
Proof. unfold addr, fs. pose proof fragsize_range. rewrite Z2Nat.inj_mul by lia. by rewrite Nat2Z.id. Qed.

(** copying into free fragments changes no block *)
Lemma owned_memcpy_free d1 k d2 src m :
  (length src <= k * fs)%nat -> length m = (width (d1 ++ replicate k Free ++ d2) * fs)%nat ->
  owned 0 (d1 ++ replicate k Free ++ d2) (memcpy_at (width d1 * fs) src m) =
  owned 0 (d1 ++ replicate k Free ++ d2) m.
Proof.
  intros L M. rewrite !width_app, width_free in M.
  rewrite !owned_app, !owned_free, width_free, !(left_id_L ∅ (∪)).
  f_equal; apply owned_memcpy; nia.
Qed.

Lemma moved_block d1 k d2 bs m :
  (length bs <= k * fs)%nat -> length m = (width (d1 ++ replicate k Free ++ d2) * fs)%nat ->
  take (length bs) (block_bytes (width d1) k (memcpy_at (width d1 * fs) bs m)) = bs.
Proof.
  intros L M. rewrite !width_app, width_free in M.
  assert (B : ((width d1 + k) * fs <= length m)%nat) by nia.
  pose proof (block_bytes_own (width d1) k 0 bs m B ltac:(lia)) as O. rewrite Nat.add_0_r in O. rewrite O.
  by apply (memcpy_at_read 0); lia.
Qed.

Lemma pool_shrink s h p bs c1 n c2 size :
  pool_holds s h -> layout s (c1 ++ Block n :: c2) -> p = addr (width c1) ->
  length (mem s) = (width (c1 ++ Block n :: c2) * fs)%nat -> bs = block_bytes (width c1) n (mem s) ->
  length bs = (n * fs)%nat -> delete p h = owned 0 (c1 ++ replicate n Free ++ c2) (mem s) ->
  0 < size -> (frags size <= n)%nat ->
  let s' := mk_pool (mem s) (entries (c1 ++ Block (frags size) :: replicate (n - frags size) Free ++ c2)) in
  exists h', pool_holds s' h' /\ Alloc.regot h p bs size (Some p) h'.
Proof.
  intros H Ly -> M Eb Lb D S K s'. pose proof (frags_pos size S) as Kp.
  assert (Sp : c1 ++ replicate n Free ++ c2 = c1 ++ replicate (frags size) Free ++ replicate (n - frags size) Free ++ c2)
    by (rewrite (app_assoc (replicate (frags size) Free)), <- replicate_add; do 3 f_equal; lia).
  pose proof (layout_free s c1 n c2 (mem s) Ly) as Lf. rewrite <- width_swap in M. rewrite Sp in *.
  destruct (new_block_holds _ c1 (frags size) _ (mem s) Lf Kp M) as (Hs & F & L).
  eexists. split; [exact Hs|]. cbn. split_and!; [done|by rewrite D|]. eexists. split; [|split; [by rewrite D|]].
  - rewrite L. by apply frags_bytes.
  - rewrite Lb. subst bs. unfold block_bytes. rewrite !take_take. f_equal.
    pose proof (frags_bytes size (frags size) S ltac:(lia)). assert (frags size * fs <= n * fs)%nat by nia. lia.
Qed.

Lemma pool_grow s h bs c1 n c2 d1 k d2 size :
  pool_holds s h -> layout s (c1 ++ Block n :: c2) ->
  length (mem s) = (width (c1 ++ Block n :: c2) * fs)%nat -> bs = block_bytes (width c1) n (mem s) ->
  length bs = (n * fs)%nat -> delete (addr (width c1)) h = owned 0 (c1 ++ replicate n Free ++ c2) (mem s) ->
  0 < size -> k = frags size -> (n < k)%nat -> c1 ++ replicate n Free ++ c2 = d1 ++ replicate k Free ++ d2 ->
  let p := addr (width c1) in
  let m' := if addr (width d1) =? p then mem s else memmove (addr (width d1)) p (Z.of_nat n * fragsize) (mem s) in
  exists h', pool_holds (mk_pool m' (entries (d1 ++ Block k :: d2))) h' /\
             Alloc.regot h p bs size (Some (addr (width d1))) h'.
Proof.
  intros H Ly M Eb Lb D S Ek K E p m'. fold p in D.
  pose proof (layout_free s c1 n c2 (mem s) Ly) as Lf. rewrite <- width_swap in M. rewrite E in M, Lf, D.
  assert (Em : owned 0 (d1 ++ replicate k Free ++ d2) m' = owned 0 (d1 ++ replicate k Free ++ d2) (mem s) /\
               length m' = length (mem s) /\ take (length bs) (block_bytes (width d1) k m') = bs).
  { assert (Lk : (length bs <= k * fs)%nat) by (rewrite Lb; nia).
    subst m'. destruct (Z.eqb_spec (addr (width d1)) p) as [A|A].
    - split_and!; [done|done|]. apply addr_inj in A. rewrite A, Lb, Eb. unfold block_bytes.
      rewrite take_take. f_equal. nia.
    - assert (Mv : memmove (addr (width d1)) p (Z.of_nat n * fragsize) (mem s) = memcpy_at (width d1 * fs) bs (mem s)).
      { unfold memmove, p. rewrite !addr_nat. f_equal. rewrite Eb. unfold block_bytes. f_equal.
        change (Z.of_nat n * fragsize) with (addr n). apply addr_nat. }
      rewrite Mv. split_and!; [by apply owned_memcpy_free| |by eapply moved_block].
      apply memcpy_at_length. rewrite M, !width_app, width_free. nia. }
  destruct Em as (Em & Lm & Tk).
  destruct (new_block_holds _ d1 k d2 m' Lf ltac:(lia)) as (Hs & F & L); [by rewrite Lm|].
  rewrite Em, <- D in Hs, F. eexists. split; [exact Hs|]. cbn [Alloc.regot]. split_and!; [done|exact F|].
  eexists. split; [|split; [done|]].
  - rewrite L. subst k. by apply frags_bytes.
  - assert (Q : Z.of_nat (n * fs) < size) by (apply bytes_frags; [done|by rewrite <- Ek]).
    rewrite Lb in Tk |- *. replace (Nat.min (Z.to_nat size) (n * fs)) with (n * fs)%nat by lia.
    rewrite Tk. rewrite <- Lb. by rewrite firstn_all.
Qed.

Lemma pool_reget p n s h bs : pool_holds s h -> 0 <= n <= max_size -> h !! p = Some bs ->
  exists r s' h', ub_static_regetmem (Some p) n s = Some (r, s') /\ pool_holds s' h' /\ Alloc.regot h p bs n r h'.
Proof.
  intros H N E. destruct (decide (n = 0)) as [->|Z].
  { destruct (pool_rel p s h bs H E) as (s' & R & H'). exists None, s', (delete p h).
    unfold ub_static_regetmem. cbn [Z.eqb]. rewrite R. by split_and!. }
  destruct (pool_find s h p bs H E) as (c1 & k & c2 & Ly & -> & Eb & K & M & Lb & _ & D).
  destruct (regetmem_layout s c1 k c2 n Ly ltac:(lia)) as [[L ->]|[[L ->]|(L & d1 & d2 & Ed & ->)]].
  - destruct (pool_shrink s h _ bs c1 k c2 n H Ly eq_refl M Eb Lb D ltac:(lia) L) as (h' & Hs & G).
    by exists (Some (addr (width c1))), (mk_pool (mem s) (entries (c1 ++ Block (frags n) :: replicate (k - frags n) Free ++ c2))), h'.
  - exists None, s, h. split_and!; [done|done|]. cbn. destruct (Z.eqb_spec n 0); [done|].
    split; [done|]. rewrite Lb. apply bytes_frags; [lia|done].
  - destruct (pool_grow s h bs c1 k c2 d1 (frags n) d2 n H Ly M Eb Lb D ltac:(lia) eq_refl L Ed) as (h' & Hs & G).
    by do 3 eexists.
Qed.

Lemma pool_read p off n s h bs : pool_holds s h -> h !! p = Some bs -> (off + n <= length bs)%nat ->
  GetMem.read (p + Z.of_nat off) n s = take n (drop off bs).
Proof.
  intros H E L. destruct (pool_find s h p bs H E) as (c1 & k & c2 & Ly & -> & Eb & K & M & Lb & _ & _).
  unfold GetMem.read. rewrite Z2Nat.inj_add, addr_nat, Nat2Z.id by (unfold addr; pose proof fragsize_range; lia).
  rewrite Eb. unfold block_bytes. rewrite skipn_firstn_comm, take_take, drop_drop. f_equal. lia.
Qed.

Lemma pool_write p off bs' s h bs : pool_holds s h -> h !! p = Some bs -> (off + length bs' <= length bs)%nat ->
  pool_holds (GetMem.write (p + Z.of_nat off) bs' s) (<[p := memcpy_at off bs' bs]> h).
Proof.
  intros H E L. destruct (pool_find s h p bs H E) as (c1 & k & c2 & Ly & -> & Eb & K & M & Lb & Eh & D).
  unfold GetMem.write. rewrite Z2Nat.inj_add, addr_nat, Nat2Z.id by (unfold addr; pose proof fragsize_range; lia).
  set (m' := memcpy_at (width c1 * fs + off) bs' (mem s)).
  pose proof (layout_free s c1 k c2 (mem s) Ly) as Lf. rewrite <- width_swap in M.
  assert (Wd := M). rewrite !width_app, width_free in Wd.
  assert (Lm : length m' = length (mem s)) by (apply memcpy_at_length; nia).
  destruct (new_block_holds _ c1 k c2 m' Lf K) as (Hs & F & Lk); [by rewrite Lm|].
  assert (Em : owned 0 (c1 ++ replicate k Free ++ c2) m' = owned 0 (c1 ++ replicate k Free ++ c2) (mem s)).
  { rewrite !owned_app, !owned_free, width_free, !(left_id_L ∅ (∪)). f_equal; apply owned_memcpy; nia. }
  unfold m' in Hs at 2. rewrite block_bytes_own, <- Eb in Hs by nia. rewrite Em, <- D, insert_delete_eq in Hs.
  destruct Ly as (B & _). destruct s as [m b]. cbn in *. subst b. exact Hs.
Qed.

#[export] Instance pool_laws : AllocatorLaws pool := {
  al_holds := pool_holds;
  al_max := max_size;
  al_get_spec := pool_get;
  al_reget_none := fun n s => eq_refl;
  al_reget_spec := pool_reget;
  al_rel_none := fun s => eq_refl;
  al_rel_spec := pool_rel;
  al_read_spec := pool_read;
  al_write_spec := pool_write
}.

End Instances.
End PoolAllocator.

(** ** What a pool promises *)

Module PoolFacts.
Import GetMem PoolAllocator.

(** a call on a pool *)
Inductive call :=
| Get (n : Z)
| Reget (p : option Z) (n : Z)
| Rel (p : option Z)
| Write (p : Z) (off : nat) (bs : list Z).

Section Facts.
Context {P : Pool}.

Definition exec (c : call) (s : pool) : option (option Z * pool) :=
  match c with
  | Get n => ub_static_getmem n s
  | Reget p n => ub_static_regetmem p n s
  | Rel p => s ← ub_static_relmem p s; Some (None, s)
  | Write p off bs => Some (None, GetMem.write (p + Z.of_nat off) bs s)
  end.

(** what a client may do when the blocks are [h]: sizes are not absurd, pointers are live (or NULL),
    writes stay in their block *)
Definition allowed (c : call) (h : gmap Z (list Z)) : Prop :=
  match c with
  | Get n => 0 <= n <= max_size
  | Reget p n => 0 <= n <= max_size /\ forall q, p = Some q -> is_Some (h !! q)
  | Rel p => forall q, p = Some q -> is_Some (h !! q)
  | Write p off bs => exists b, h !! p = Some b /\ (off + length bs <= length b)%nat
  end.

(** the result and the blocks after the call *)
Definition effect (c : call) (h : gmap Z (list Z)) (r : option Z) (h' : gmap Z (list Z)) : Prop :=
  match c with
  | Get n | Reget None n => Alloc.got h n r h'
  | Reget (Some p) n => exists bs, h !! p = Some bs /\ Alloc.regot h p bs n r h'
  | Rel p => r = None /\ h' = match p with Some p => delete p h | None => h end
  | Write p off bs => r = None /\ h' = alter (memcpy_at off bs) p h
  end.

(** two blocks have no byte in common, and all are inside of the array *)
Definition separate (h : gmap Z (list Z)) : Prop :=
  forall p bs, h !! p = Some bs ->
    0 <= p /\ p + Z.of_nat (length bs) <= fragsize * fragnum /\ 0 < Z.of_nat (length bs) /\
    forall q bs', h !! q = Some bs' -> p < q -> p + Z.of_nat (length bs) <= q.

Lemma owned_separate pos cs m p bs q bs' :
  Forall cell_ok cs -> ((pos + width cs) * fs <= length m)%nat ->
  owned pos cs m !! p = Some bs -> owned pos cs m !! q = Some bs' -> p < q -> p + Z.of_nat (length bs) <= q.
Proof.
  intros W. revert pos. induction W as [|c cs C W IH]; intros pos M; [done|].
  unfold width in *. unfold cell_ok in C. destruct c as [|n]; cbn [owned sum_list_with cell_width] in *.
  - apply IH. lia.
  - pose proof fragsize_range. intros Hp Hq L.
    assert (M' : ((pos + n) * fs <= length m)%nat) by nia.
    assert (Bn : Z.of_nat (length (block_bytes pos n m)) = Z.of_nat n * fragsize)
      by (rewrite block_bytes_length by done; unfold fs; lia).
    apply lookup_insert_Some in Hp as [[<- <-]|[_ Hp]]; apply lookup_insert_Some in Hq as [[<- _]|[_ Hq]]; [lia| | |].
    + apply owned_key in Hq as (q' & -> & Q); [|done]. rewrite Bn. unfold addr. nia.
    + apply owned_key in Hp as (p' & -> & Q); [|done]. unfold addr in L. nia.
    + apply (IH (pos + n)%nat); [nia|done|done|done].
Qed.

Lemma pool_separate s h : pool_holds s h -> separate h.
Proof.
  intros H p bs E. destruct (pool_find s h p bs H E) as (c1 & n & c2 & (_ & W & N) & -> & _ & K & M & L & _ & _).
  pose proof fragsize_range. rewrite L. unfold fs. split_and!.
  - unfold addr. lia.
  - rewrite <- N, width_app. unfold width at 3. cbn. unfold addr. nia.
  - lia.
  - intros q bs' E' Q. destruct (holds_layout s h H) as (cs & (_ & Wc & _) & -> & Mc).
    pose proof (owned_separate 0 cs (mem s) _ bs q bs' Wc ltac:(cbn; lia) E E' Q) as S.
    unfold fs in L. by rewrite <- L.
Qed.

Lemma entries_find cs i n :
  Forall cell_ok cs -> entries cs !! i = Some n -> n <> 0 ->
  exists c1 k c2, cs = c1 ++ Block k :: c2 /\ width c1 = i.
Proof.
  intros W. revert i. induction W as [|c cs C W IH]; intros i; [done|]. rewrite entries_cons. intros E N.
  destruct (decide (i < cell_width c)%nat) as [I|I].
  - rewrite lookup_app_l in E by by rewrite cell_entries_length. destruct c as [|k]; cbn in E, I.
    + destruct i; [|lia]. cbn in E. congruence.
    + destruct i as [|i]; [by exists [], k, cs|]. cbn in E. apply lookup_replicate in E as [-> _]. done.
  - rewrite lookup_app_r, cell_entries_length in E by (rewrite ?cell_entries_length; done || lia).
    destruct (IH _ E N) as (c1 & k & c2 & -> & Wd). exists (c :: c1), k, c2. split; [done|].
    unfold width in *. cbn. lia.
Qed.

Lemma frag_index_spec p i : frag_index p = Some i -> sfits 32 p -> 0 <= i < fragnum /\ p = i * fragsize.
Proof.
  unfold frag_index. intros E Sp. rewrite (swrap_id 32) in E by (done || lia).
  destruct (Z.ltb_spec p 0); [done|]. destruct (Z.leb_spec fragnum (Z.quot p fragsize)); [done|].
  destruct (Z.eqb_spec (Z.quot p fragsize * fragsize) p); [|done]. injection E as <-.
  pose proof fragsize_range. split; [|done]. split; [|done]. apply Z.quot_pos; lia.
Qed.

(** a pointer that is not the start of a live block is not released *)
Lemma relmem_stale s h p :
  pool_holds s h -> sfits 32 p -> h !! p = None -> ub_static_relmem (Some p) s = Some s.
Proof.
  intros H Sp F. destruct (holds_layout s h H) as (cs & (B & W & N) & -> & M). unfold ub_static_relmem.
  destruct (frag_index p) as [i|] eqn:E; [|done]. destruct (frag_index_spec p i E Sp) as [I ->].
  destruct (busysizes s !! Z.to_nat i) as [n|] eqn:L; cbn.
  2: { apply lookup_ge_None in L. rewrite B, entries_length in L by done. lia. }
  destruct (Z.eqb_spec n 0) as [|Nz]; [done|]. exfalso. rewrite B in L.
  destruct (entries_find cs _ n W L Nz) as (c1 & k & c2 & -> & Wd). apply Forall_app in W as [W1 W2].
  destruct (owned_block c1 k c2 (mem s) W1 W2) as [O _]. rewrite O in F.
  assert (A : addr (width c1) = i * fragsize) by (unfold addr; by rewrite Wd, Z2Nat.id by lia).
  by rewrite A, lookup_insert_eq in F.
Qed.

(** [k] fragments that no block touches are free in the layout *)
Lemma free_prefix k pos cs m :
  Forall cell_ok cs -> (k <= width cs)%nat -> ((pos + width cs) * fs <= length m)%nat ->
  (forall p bs, owned pos cs m !! p = Some bs -> p + Z.of_nat (length bs) <= addr pos \/ addr (pos + k) <= p) ->
  exists c2, cs = replicate k Free ++ c2.
Proof.
  intros W. revert pos cs W. induction k as [|k IH]; intros pos cs W K M F; [by exists cs|].
  unfold width in *. destruct W as [|c cs C W]; [cbn in K; lia|]. unfold cell_ok in C.
  destruct c as [|n]; cbn [owned sum_list_with cell_width] in *.
  - destruct (IH (S pos) cs W) as (c2 & ->); [lia|lia| |by exists c2].
    intros p bs E. destruct (F p bs E) as [L|L]; [|right; by rewrite <- Nat.add_succ_comm in L].
    left. unfold addr in *. pose proof fragsize_range. lia.
  - exfalso. destruct (F (addr pos) (block_bytes pos n m)) as [L|L]; [by apply lookup_insert_eq| |].
    + rewrite block_bytes_length in L by nia. pose proof fs_pos. nia.
    + unfold addr in L. pose proof fragsize_range. nia.
Qed.

Lemma free_run pos cs m q k :
  Forall cell_ok cs -> (0 < k)%nat -> (pos <= q)%nat -> (q + k <= pos + width cs)%nat ->
  ((pos + width cs) * fs <= length m)%nat ->
  (forall p bs, owned pos cs m !! p = Some bs -> p + Z.of_nat (length bs) <= addr q \/ addr (q + k) <= p) ->
  exists c1 c2, cs = c1 ++ replicate k Free ++ c2.
Proof.
  intros W K. revert pos. induction W as [|c cs C W IH]; intros pos Q N M F.
  { unfold width in N. cbn in N. lia. }
  destruct (decide (q = pos)) as [->|Ne].
  { destruct (free_prefix k pos (c :: cs) m) as (c2 & ->); [by constructor|lia|done|done|]. by exists [], c2. }
  unfold width in *. unfold cell_ok in C. destruct c as [|n]; cbn [owned sum_list_with cell_width] in *.
  - destruct (IH (S pos)) as (c1 & c2 & ->); [lia|lia|lia|done|]. by exists (Free :: c1), c2.
  - pose proof fragsize_range.
    assert (O : owned (pos + n) cs m !! addr pos = None) by (apply owned_out; [done|lia]).
    destruct (F (addr pos) (block_bytes pos n m)) as [L|L]; [by apply lookup_insert_eq| |].
    + rewrite block_bytes_length in L by nia. unfold addr, fs in L.
      assert (pos + n <= q)%nat by nia.
      destruct (IH (pos + n)%nat) as (c1 & c2 & ->); [lia|lia|nia| |by exists (Block n :: c1), c2].
      intros p bs E. apply F. rewrite lookup_insert_ne; [done|]. intros <-. congruence.
    + exfalso. unfold addr in L. nia.
Qed.

Lemma getmem_def_holds F N :
  fragsize = UB_SD_ALIGN F -> fragnum = N -> pool_holds (getmem_def F N) ∅.
Proof.
  intros EF EN. pose proof fragnum_range. pose proof fragsize_range. split.
  - exists (replicate (Z.to_nat N) Free). cbn. rewrite entries_free, width_free, owned_free.
    split_and!; [done|apply free_ok|lia|done].
  - unfold getmem_def. cbn [mem]. rewrite length_replicate. unfold fs. rewrite <- EF, <- EN.
    rewrite wrap_id by (unfold fits; lia). rewrite Z2Nat.inj_mul by lia. lia.
Qed.

(** C26. A memory pool of fragments is a heap of separate blocks.  It starts empty.  Every call of a
    client is defined (no access outside of the tables) and has the effect of the corresponding operation
    on the heap: a request gives a new block of at least its size, or nothing and no change; a request to
    resize keeps the content up to the smaller of the sizes, wherever the block goes, can fail only when
    the block must grow, and then leaves it; a release removes the block; no other block's content is
    touched.  In every state the blocks are inside of the array and have no byte in common.  The client
    asks for at most 65535 fragments and for no more than an int holds with a fragment added
    ([regetmem_counts_in_16_bits] and [getmem_compares_int] tell what happens otherwise), passes only
    pointers to live blocks or NULL, and writes only into its blocks. *)
Theorem pool_refines_heap :
  (forall F N, fragsize = UB_SD_ALIGN F -> fragnum = N -> pool_holds (getmem_def F N) ∅) /\
  forall s h, pool_holds s h -> separate h /\
    forall c, allowed c h -> exists r s' h', exec c s = Some (r, s') /\ pool_holds s' h' /\ effect c h r h'.
Proof.
  split; [exact getmem_def_holds|]. intros s h H. split; [by apply (pool_separate s)|].
  intros c Al. destruct c as [n|[p|] n|[p|]|p off bs]; cbn [exec allowed effect] in *.
  - by apply pool_get.
  - destruct Al as [N Lp]. destruct (Lp p eq_refl) as [bs E].
    destruct (pool_reget p n s h bs H N E) as (r & s' & h' & R & H' & G). exists r, s', h'. eauto.
  - destruct Al as [N _]. by apply pool_get.
  - destruct (Al p eq_refl) as [bs E]. destruct (pool_rel p s h bs H E) as (s' & -> & H').
    exists None, s', (delete p h). by split_and!.
  - by exists None, s, h.
  - destruct Al as (b & E & L). do 3 eexists. split; [done|]. split; [by apply (pool_write p off bs s h b)|].
    split; [done|]. apply map_eq. intros q. destruct (decide (p = q)) as [<-|Ne].
    + by rewrite lookup_insert_eq, lookup_alter_eq, E.
    + by rewrite lookup_insert_ne, lookup_alter_ne.
Qed.

(** A pool refuses a request only when it cannot be met: if the request returns NULL, every run of
    fragments of the size needed touches a live block.  And the release of a pointer that is not that
    of a live block (released before, inside of a block, outside of the array) changes nothing. *)
Theorem pool_refuses_only_when_full s h :
  pool_holds s h ->
  (forall n s', 0 < n <= max_size -> ub_static_getmem n s = Some (None, s') ->
     forall q, (Z.of_nat q + Z.of_nat (frags n) <= fragnum) ->
     exists p bs, h !! p = Some bs /\ p < addr (q + frags n) /\ addr q < p + Z.of_nat (length bs)) /\
  (forall p, sfits 32 p -> h !! p = None -> ub_static_relmem (Some p) s = Some s).
Proof.
  intros H. split; [|by intros p; apply relmem_stale]. intros n s' N G q Q.
  destruct (holds_layout s h H) as (cs & Ly & -> & M). pose proof Ly as (_ & W & Wn).
  destruct (getmem_layout n s cs Ly) as [(c1 & c2 & _ & R)|[_ No]];
    [unfold max_size in N; pose proof fragsize_range; lia|congruence|].
  destruct (decide (map_Exists (fun p bs => p < addr (q + frags n) /\ addr q < p + Z.of_nat (length bs))
              (owned 0 cs (mem s)))) as [(p & bs & E & B)|F]; [by exists p, bs|].
  exfalso. destruct (free_run 0 cs (mem s) q (frags n)) as (c1 & c2 & E); [done|apply frags_pos; lia|lia|cbn; lia|cbn; lia| |].
  - intros p bs E. destruct (Z.le_gt_cases (p + Z.of_nat (length bs)) (addr q)) as [L|L]; [by left|].
    destruct (Z.le_gt_cases (addr (q + frags n)) p) as [L'|L']; [by right|].
    exfalso. apply F. exists p, bs. split; [done|lia].
  - by apply (No c1 c2).
Qed.

End Facts.
End PoolFacts.

(** ** At concrete pools *)

Module PoolWitness.
Import GetMem PoolAllocator PoolFacts.

(** four fragments of 8 bytes *)
#[export] Instance pool4 : Pool.
Proof. by refine {| fragsize := 8; fragnum := 4 |}. Defined.

(** all of it one block *)
Definition full4 : pool := mk_pool (replicate 32 7) [4; 0; 0; 0].

Lemma full4_holds : pool_holds full4 {[ 0 := replicate 32 7 ]}.
Proof.
  split; [|done]. exists [Block 4]. split_and!; [done| |done|by vm_compute].
  repeat constructor.
Qed.

Lemma pool_witness :
  exists r s h, ub_static_getmem 20 (getmem_def 5 4) = Some (r, s) /\ pool_holds s h /\ separate h /\
                Alloc.got ∅ 20 r h /\ r = Some 0.
Proof.
  destruct pool_refines_heap as [I R].
  destruct (R (getmem_def 5 4) ∅) as [_ C]; [by apply I|].
  destruct (C (Get 20)) as (r & s & h & E & H & G); [by vm_compute|].
  exists r, s, h. split_and!; [exact E|exact H|apply (proj1 (R s h H))|exact G|].
  vm_compute in E. by injection E as <- _.
Defined.

Lemma pool_full_witness :
  (exists p bs, ({[ 0 := replicate 32 7 ]} : gmap Z (list Z)) !! p = Some bs /\ p < 8 /\ 0 < p + Z.of_nat (length bs)) /\
  ub_static_relmem (Some 8) full4 = Some full4.
Proof.
  destruct (pool_refuses_only_when_full full4 _ full4_holds) as [F R]. split.
  - destruct (F 1 full4) with (q := 0%nat) as (p & bs & E & B); [by vm_compute|by vm_compute|by vm_compute|].
    exists p, bs. split; [exact E|exact B].
  - apply R; [by vm_compute|done].
Defined.

(** the number of fragments asked for is kept in 16 bits: a request of 65536 fragments is granted, and
    the block is free afterwards *)
Theorem regetmem_counts_in_16_bits :
  ub_static_regetmem (Some 0) (65536 * 8) full4 = Some (Some 0, mk_pool (replicate 32 7) [0; 0; 0; 0]).
Proof. by vm_compute. Qed.

(** a size of 2^31 is negative as an int: the loop breaks at once, without a free fragment *)
Theorem getmem_compares_int : ub_static_getmem (2 ^ 31) full4 = None.
Proof. by vm_compute. Qed.

End PoolWitness.
