(* ===== verification/Esarray.v ===== *)
(** * Esarray: the expanding array of tsn_unibase (ub_esarray.c)

    An array of elements of one size in a block of memory that grows and
    shrinks by a unit.  The memory comes from an [Allocator]; the array is
    shown to be a list of elements whatever the allocator answers, and the
    other blocks of the allocator are left alone.

    [None] as the result of a function is undefined behaviour.  A pointer to an
    element is an address of the allocator.  The mutex that the functions hold
    while they run is left out. *)

From S2P Require Import Prelude Getmem.
From stdpp Require Import list gmap.
#[local] Open Scope Z_scope.
#[local] Open Scope gptp_scope.

Module ES.

Record ub_esarray := mk_esarray {
  expnd_unit : Z;
  expand_hysteresis : Z;
  element_size : Z;
  uaelement_size : Z;
  allocate_nums : Z;
  element_nums : Z;
  max_element_nums : Z;
  data : option Z;
  data_lock : bool
}.
#[export] Instance eta_ub_esarray : Eta ub_esarray :=
  fields! mk_esarray [expnd_unit, expand_hysteresis, element_size, uaelement_size, allocate_nums,
                      element_nums, max_element_nums, data, data_lock].

(** sizeof(ub_esarray_cstd_t) *)
Definition esarray_bytes : Z := 48.

Section Functions.
Context {T : Type} {A : Allocator T}.

(** an int converted to a size_t *)
Definition as_size (n : Z) : Z := wrap 64 (i32 n).

(** [&eah->data[element_size * i]]; an array without memory has no elements to point at *)
Definition ele_ptr (e : ub_esarray) (i : Z) : option Z :=
  d ← data e; Some (d + element_size e * i).

Definition get_newele_nomutex (e : ub_esarray) (s : T) : option (option Z * ub_esarray * T) :=
  if max_element_nums e <=? element_nums e then Some (None, e, s)
  else
    let give (e : ub_esarray) (s : T) :=
      p ← ele_ptr e (element_nums e);
      Some (Some p, e <| element_nums ::= fun n => n + 1 |>, s) in
    if allocate_nums e <=? element_nums e then
      if data_lock e then Some (None, e, s)
      else
        r ← al_reget (data e) (as_size (element_size e * (allocate_nums e + expnd_unit e))) s;
        match r with
        | (None, s) => Some (None, e, s)
        | (Some np, s) =>
            give (e <| allocate_nums ::= fun n => n + expnd_unit e |> <| data := Some np |>) s
        end
    else give e s.

Definition del_index_nomutex (index : Z) (e : ub_esarray) (s : T) : option (Z * ub_esarray * T) :=
  if (element_nums e <? i32 (index + 1)) || (index <? 0) then Some (-1, e, s)
  else
    let rest := element_nums e - (index + 1) in
    s ← (if 0 <? rest then
           dst ← ele_ptr e index;
           src ← ele_ptr e (index + 1);
           Some (al_write dst (al_read src (Z.to_nat (element_size e * rest)) s) s)
         else Some s);
    let e := e <| element_nums ::= fun n => n - 1 |> in
    if element_nums e <=? allocate_nums e - 2 * expnd_unit e then
      if data_lock e then Some (0, e, s)
      else
        r ← al_reget (data e) (as_size (element_size e * (allocate_nums e - expnd_unit e))) s;
        let '(np, s) := r in
        let e := e <| data := np |> in
        if (0 <? element_nums e) && negb (bool_decide (is_Some np)) then Some (-1, e, s)
        else Some (0, e <| allocate_nums ::= fun n => n - expnd_unit e |>, s)
    else Some (0, e, s).

Definition ub_esarray_ele_nums (e : ub_esarray) : Z := element_nums e.

Definition ub_esarray_get_newele (e : ub_esarray) (s : T) : option (option Z * ub_esarray * T) :=
  get_newele_nomutex e s.

Definition ub_esarray_get_ele (e : ub_esarray) (index : Z) : option Z :=
  if (element_nums e <=? index) || (index <? 0) then None else ele_ptr e index.

Definition ub_esarray_add_ele (ed : list Z) (e : ub_esarray) (s : T) : option (Z * ub_esarray * T) :=
  r ← get_newele_nomutex e s;
  match r with
  | (None, e, s) => Some (-1, e, s)
  | (Some pt, e, s) => Some (0, e, al_write pt (take (Z.to_nat (uaelement_size e)) ed) s)
  end.

(** the copy of the element at [resd] that the pop functions give, and its removal *)
Definition pop_at (index : Z) (e : ub_esarray) (s : T) : option (Z * option (list Z) * ub_esarray * T) :=
  match ub_esarray_get_ele e index with
  | None => Some (-1, None, e, s)
  | Some resd =>
      let ed := al_read resd (Z.to_nat (uaelement_size e)) s in
      r ← del_index_nomutex index e s;
      let '(_, e, s) := r in
      Some (0, Some ed, e, s)
  end.

Definition ub_esarray_pop_ele (e : ub_esarray) (s : T) : option (Z * option (list Z) * ub_esarray * T) :=
  if data_lock e then Some (-1, None, e, s) else pop_at 0 e s.

Definition ub_esarray_pop_last_ele (e : ub_esarray) (s : T) : option (Z * option (list Z) * ub_esarray * T) :=
  if data_lock e then Some (-1, None, e, s)
  else if element_nums e =? 0 then Some (-1, None, e, s)
  else pop_at (element_nums e - 1) e s.

(** the search loops: the first index from [i] on, of [n] left, that [f] accepts *)
Fixpoint search (f : Z -> bool) (n : nat) (i : Z) : option Z :=
  match n with
  | O => None
  | S n => if f i then Some i else search f n (i + 1)
  end.

Definition del_found (i : option Z) (e : ub_esarray) (s : T) : option (Z * ub_esarray * T) :=
  match i with None => Some (-1, e, s) | Some i => del_index_nomutex i e s end.

Definition ub_esarray_del_ele (ed : list Z) (e : ub_esarray) (s : T) : option (Z * ub_esarray * T) :=
  if data_lock e then Some (-1, e, s)
  else
    let n := Z.to_nat (uaelement_size e) in
    let same i := match ele_ptr e i with Some p => bool_decide (al_read p n s = take n ed) | None => false end in
    del_found (search same (Z.to_nat (element_nums e)) 0) e s.

Definition ub_esarray_del_index (index : Z) (e : ub_esarray) (s : T) : option (Z * ub_esarray * T) :=
  if data_lock e then Some (-1, e, s) else del_index_nomutex index e s.

Definition ub_esarray_del_pointer (ed : option Z) (e : ub_esarray) (s : T) : option (Z * ub_esarray * T) :=
  if data_lock e then Some (-1, e, s)
  else del_found (search (fun i => bool_decide (ele_ptr e i = ed)) (Z.to_nat (element_nums e)) 0) e s.

Definition ub_esarray_data_lock (e : ub_esarray) : Z * ub_esarray :=
  (if data_lock e then -1 else 0, e <| data_lock := true |>).

Definition ub_esarray_data_unlock (e : ub_esarray) : Z * ub_esarray :=
  (if data_lock e then 0 else -1, e <| data_lock := false |>).

(** the instance is in memory of another pool, of the state [I] *)
Context {I : Type} {AI : Allocator I}.

Definition ub_esarray_init (expnd element max : Z) (si : I) (s : T) :
    option (option (Z * ub_esarray) * I * T) :=
  r ← al_get esarray_bytes si;
  match r with
  | (None, si) => Some (None, si, s)
  | (Some p, si) =>
      let e := mk_esarray expnd 0 (i32 (GetMem.UB_SD_ALIGN element)) element 0 0 max None false in
      r ← get_newele_nomutex e s;
      let '(_, e, s) := r in
      Some (Some (p, e <| element_nums := 0 |>), si, s)
  end.

Definition ub_esarray_close (p : Z) (e : ub_esarray) (si : I) (s : T) : option (I * T) :=
  s ← al_rel (data e) s;
  si ← al_rel (Some p) si;
  Some (si, s).

End Functions.

(** ** The elements in a block *)

(** the element [i] of [ua] bytes, at a distance of [es] *)
Definition elem (es ua i : nat) (bs : list Z) : list Z := take ua (drop (es * i) bs).
Definition elems (es ua n : nat) (bs : list Z) : list (list Z) := (fun i => elem es ua i bs) <$> seq 0 n.

Lemma elems_length es ua n bs : length (elems es ua n bs) = n.
Proof. unfold elems. by rewrite length_fmap, length_seq. Qed.

Lemma elems_lookup es ua n bs i : (i < n)%nat -> elems es ua n bs !! i = Some (elem es ua i bs).
Proof. intros L. unfold elems. by rewrite list_lookup_fmap, lookup_seq_lt. Qed.

Lemma elems_snoc es ua n bs : elems es ua (S n) bs = elems es ua n bs ++ [elem es ua n bs].
Proof. unfold elems. by rewrite seq_S, fmap_app. Qed.

(** a byte of an element *)
Lemma elem_lookup es ua i bs j : (j < ua)%nat -> elem es ua i bs !! j = bs !! (es * i + j)%nat.
Proof. intros J. unfold elem. by rewrite lookup_take_lt, lookup_drop. Qed.

Lemma elem_ext es ua i bs i' bs' :
  (forall j, (j < ua)%nat -> bs !! (es * i + j)%nat = bs' !! (es * i' + j)%nat) ->
  elem es ua i bs = elem es ua i' bs'.
Proof.
  intros H. apply list_eq. intros j. destruct (decide (j < ua)%nat) as [J|J].
  - rewrite !elem_lookup by done. by apply H.
  - unfold elem. by rewrite !lookup_take_ge by lia.
Qed.

Lemma elems_ext es ua n bs l :
  length l = n -> (forall i, (i < n)%nat -> l !! i = Some (elem es ua i bs)) -> elems es ua n bs = l.
Proof.
  intros L H. apply list_eq. intros i. destruct (decide (i < n)%nat) as [J|J].
  - by rewrite elems_lookup, H.
  - rewrite !lookup_ge_None_2; [done|lia|rewrite elems_length; lia].
Qed.

Lemma memcpy_at_lookup off src bs j :
  (off + length src <= length bs)%nat ->
  memcpy_at off src bs !! j = if decide (off <= j < off + length src)%nat then src !! (j - off)%nat else bs !! j.
Proof.
  intros L. unfold memcpy_at. destruct (decide (j < off)%nat) as [J|J].
  - rewrite lookup_app_l, lookup_take_lt by (rewrite ?length_take; lia). by rewrite decide_False by lia.
  - rewrite lookup_app_r by (rewrite length_take; lia). rewrite length_take.
    replace (j - off `min` length bs)%nat with (j - off)%nat by lia.
    destruct (decide (j - off < length src)%nat) as [K|K].
    + rewrite lookup_app_l by done. by rewrite decide_True by lia.
    + rewrite lookup_app_r, lookup_drop by lia. rewrite decide_False by lia. f_equal. lia.
Qed.

Section Blocks.
Context (es ua : nat) (Hua : (0 < ua <= es)%nat).
#[local] Set Default Proof Using "All".

(** the first bytes decide on the elements *)
Lemma elems_prefix n l bs bs' :
  (es * n <= l)%nat -> take l bs' = take l bs -> elems es ua n bs' = elems es ua n bs.
Proof.
  intros L T. apply elems_ext; [apply elems_length|]. intros i I. rewrite elems_lookup by done. f_equal.
  apply elem_ext. intros j J. assert (es * i + j < l)%nat by nia.
  rewrite <- (lookup_take_lt bs l), <- (lookup_take_lt bs' l) by done. by rewrite T.
Qed.

(** an element written at the end *)
Lemma elems_write n v bs :
  length v = ua -> (es * S n <= length bs)%nat ->
  elems es ua (S n) (memcpy_at (es * n) v bs) = elems es ua n bs ++ [v].
Proof.
  intros V L. rewrite elems_snoc. f_equal.
  - apply elems_ext; [apply elems_length|]. intros i I. rewrite elems_lookup by done. f_equal.
    apply elem_ext. intros j J. rewrite memcpy_at_lookup by nia. by rewrite decide_False by nia.
  - f_equal. unfold elem. rewrite <- V. apply memcpy_at_read. nia.
Qed.

(** the elements after the one at [i] moved over it *)
Lemma elems_delete n i bs :
  (i < n)%nat -> (es * n <= length bs)%nat ->
  elems es ua (n - 1) (memcpy_at (es * i) (take (es * (n - (i + 1))) (drop (es * (i + 1)) bs)) bs) =
  delete i (elems es ua n bs).
Proof.
  intros I L. set (src := take _ _).
  assert (Ls : length src = (es * (n - (i + 1)))%nat) by (unfold src; rewrite length_take, length_drop; nia).
  apply elems_ext.
  - rewrite length_delete by (rewrite elems_lookup by done; eauto). by rewrite elems_length.
  - intros k K. destruct (decide (k < i)%nat) as [C|C].
    + rewrite list_lookup_delete_lt, elems_lookup by lia. f_equal. apply elem_ext. intros j J.
      rewrite memcpy_at_lookup by (rewrite Ls; nia). by rewrite decide_False by nia.
    + rewrite list_lookup_delete_ge, elems_lookup by lia. f_equal. apply elem_ext. intros j J.
      rewrite memcpy_at_lookup by (rewrite Ls; nia). rewrite decide_True by (rewrite Ls; nia).
      unfold src. rewrite lookup_take_lt, lookup_drop by nia. f_equal. nia.
Qed.

Lemma elems_delete_last n bs : (0 < n)%nat -> elems es ua (n - 1) bs = delete (n - 1)%nat (elems es ua n bs).
Proof.
  intros N. destruct n as [|n]; [lia|]. rewrite elems_snoc. replace (S n - 1)%nat with n by lia.
  rewrite delete_take_drop, take_app_length', drop_ge; rewrite ?length_app, ?elems_length; cbn; [|lia|done].
  by rewrite app_nil_r.
Qed.
End Blocks.

End ES.

(** ** The array is a list *)

Module ESFacts.
Import ES.
Import (hints) ES.

Section Facts.
Context {T : Type} {A : Allocator T} {L : AllocatorLaws T}.

Definition ES (e : ub_esarray) : nat := Z.to_nat (element_size e).
Definition UA (e : ub_esarray) : nat := Z.to_nat (uaelement_size e).
Definition max_of (e : ub_esarray) : Z := Z.max 0 (max_element_nums e).

(** [e] holds the elements [els] in memory of the allocator in the state [s], whose other blocks
    are [h] *)
Record es_inv (h : gmap Z (list Z)) (e : ub_esarray) (s : T) (els : list (list Z)) : Prop := {
  inv_unit : 0 < expnd_unit e;
  inv_size : 0 < uaelement_size e <= element_size e;
  inv_area : element_size e * (max_of e + expnd_unit e) <= Z.min al_max (2 ^ 31 - 1);
  inv_nums : element_nums e = Z.of_nat (length els);
  inv_max : Z.of_nat (length els) <= max_of e;
  inv_alloc : Z.of_nat (length els) <= allocate_nums e < max_of e + expnd_unit e;
  inv_data : match data e with
             | None => allocate_nums e = 0 /\ al_holds s h
             | Some d =>
                 h !! d = None /\ exists bs, al_holds s (<[d := bs]> h) /\
                   element_size e * allocate_nums e <= Z.of_nat (length bs) /\
                   els = elems (ES e) (UA e) (length els) bs
             end
}.

(** what no function but init changes *)
Definition same_shape (e e' : ub_esarray) : Prop :=
  expnd_unit e' = expnd_unit e /\ element_size e' = element_size e /\ uaelement_size e' = uaelement_size e /\
  max_element_nums e' = max_element_nums e.

(** the size asked for when the array grows *)
Definition grown (e : ub_esarray) : Z := element_size e * (allocate_nums e + expnd_unit e).

Definition has_room (e : ub_esarray) : bool := element_nums e <? allocate_nums e.

Lemma as_size_id n : 0 <= n < 2 ^ 31 -> as_size n = n.
Proof. intros N. unfold as_size. rewrite GetMem.i32_small by done. apply wrap_id. unfold fits. lia. Qed.

Lemma sizes h e s els : es_inv h e s els ->
  (0 < UA e <= ES e)%nat /\ element_size e = Z.of_nat (ES e) /\ uaelement_size e = Z.of_nat (UA e).
Proof. intros I. destruct (inv_size _ _ _ _ I). unfold UA, ES. lia. Qed.

(** the state of an array with memory at [d], of the bytes [bs] *)
Lemma inv_some h e s els d bs :
  es_inv h e s els -> forall e' s' els' alloc,
  e' = e <| allocate_nums := alloc |> <| data := Some d |> <| element_nums := Z.of_nat (length els') |> ->
  h !! d = None -> al_holds s' (<[d := bs]> h) -> element_size e * alloc <= Z.of_nat (length bs) ->
  els' = elems (ES e) (UA e) (length els') bs -> Z.of_nat (length els') <= max_of e ->
  Z.of_nat (length els') <= alloc < max_of e + expnd_unit e -> es_inv h e' s' els'.
Proof.
  intros [] e' s' els' alloc -> D H Ln E M R. split; cbn; try done. split; [done|]. by exists bs.
Qed.

Lemma grown_bounds h e s els :
  es_inv h e s els -> element_nums e < max_element_nums e -> allocate_nums e <= element_nums e ->
  0 < grown e <= al_max /\ grown e < 2 ^ 31.
Proof.
  intros [] M R. unfold grown, max_of in *.
  assert (element_size e * (allocate_nums e + expnd_unit e) <= element_size e * (max_element_nums e + expnd_unit e))
    by (apply Z.mul_le_mono_nonneg_l; lia).
  rewrite Z.max_r in * by lia. nia.
Qed.

(** the memory after the array is asked to grow *)
Lemma grow_sim h e s els :
  es_inv h e s els -> element_nums e < max_element_nums e -> allocate_nums e <= element_nums e ->
  exists r s', al_reget (data e) (grown e) s = Some (r, s') /\
    match r with
    | None => es_inv h e s' els
    | Some d => es_inv h (e <| allocate_nums ::= fun n => n + expnd_unit e |> <| data := Some d |>) s' els
    end.
Proof.
  intros I M R. pose proof (grown_bounds h e s els I M R) as [G _]. pose proof I as [U Sz Ar N Mx Al D].
  destruct (sizes _ _ _ _ I) as (Hu & Es & _).
  assert (Ex : forall d bs' s', h !! d = None -> al_holds s' (<[d := bs']> h) -> grown e <= Z.of_nat (length bs') ->
            els = elems (ES e) (UA e) (length els) bs' ->
            es_inv h (e <| allocate_nums ::= fun n => n + expnd_unit e |> <| data := Some d |>) s' els).
  { intros d bs' s' Hd Hs Ln El. eapply (inv_some h e s els d bs' I); try done.
    - clear - N. destruct e. cbn in *. by subst.
    - unfold max_of in *. lia. }
  destruct (data e) as [d|] eqn:Ed.
  - destruct D as (Hd & bs & Hs & Ln & El).
    destruct (al_reget_spec d (grown e) s _ bs Hs) as (r & s' & h' & -> & H' & G'); [lia|apply lookup_insert_eq|].
    exists r, s'. split; [done|]. destruct r as [d'|]; cbn [Alloc.regot Alloc.got] in G'.
    + rewrite delete_insert_id in G' by done. destruct G' as (_ & Hd' & bs' & Ln' & -> & Tk).
      apply (Ex d' bs'); [done|done|done|]. rewrite El at 1.
      symmetry. apply (elems_prefix _ _ Hu _ (Nat.min (Z.to_nat (grown e)) (length bs))); [|done].
      unfold grown in *. nia.
    + destruct (Z.eqb_spec (grown e) 0); [lia|]. destruct G' as [-> _].
      split; try done. rewrite Ed. split; [done|]. by exists bs.
  - destruct D as [Z0 Hs]. rewrite al_reget_none.
    destruct (al_get_spec (grown e) s h Hs) as (r & s' & h' & -> & H' & G'); [lia|].
    exists r, s'. split; [done|]. destruct r as [d'|]; cbn [Alloc.regot Alloc.got] in G'.
    + destruct G' as (_ & Hd' & bs' & Ln' & ->). apply (Ex d' bs'); [done|done|done|].
      assert (length els = 0%nat) as E0 by lia. apply nil_length_inv in E0. by subst els.
    + subst h'. split; try done. by rewrite Ed.
Qed.

(** an element at the end, of whatever the memory has there *)
Lemma take_new h e s els d :
  es_inv h e s els -> data e = Some d -> has_room e = true -> element_nums e < max_element_nums e ->
  ele_ptr e (element_nums e) = Some (d + Z.of_nat (ES e * length els)) /\
  exists v, length v = UA e /\ es_inv h (e <| element_nums ::= fun n => n + 1 |>) s (els ++ [v]).
Proof.
  intros I Ed R M. pose proof I as [U Sz Ar N Mx Al D]. destruct (sizes _ _ _ _ I) as (Hu & Es & _).
  unfold has_room in R. apply Z.ltb_lt in R. split.
  - unfold ele_ptr. rewrite Ed. cbn. f_equal. rewrite N, Es. lia.
  - rewrite Ed in D. destruct D as (Hd & bs & Hs & Ln & El).
    exists (elem (ES e) (UA e) (length els) bs). split.
    + unfold elem. rewrite length_take, length_drop. nia.
    + eapply (inv_some h e s els d bs I _ _ _ (allocate_nums e)); rewrite ?length_app; cbn [length]; try done.
      * clear - N Ed. destruct e. cbn in *. subst. unfold upd. cbn. f_equal. lia.
      * rewrite Nat.add_1_r, elems_snoc, <- El. done.
      * unfold max_of. lia.
      * lia.
Qed.

(** the last element written *)
Lemma write_last h e s els u v d :
  es_inv h e s (els ++ [u]) -> data e = Some d -> length v = UA e ->
  es_inv h e (al_write (d + Z.of_nat (ES e * length els)) v s) (els ++ [v]).
Proof.
  intros I Ed V. pose proof I as [U Sz Ar N Mx Al D]. destruct (sizes _ _ _ _ I) as (Hu & Es & _).
  rewrite Ed in D. destruct D as (Hd & bs & Hs & Ln & El). rewrite length_app in *. cbn in *.
  rewrite Nat.add_1_r in *.
  assert (Lb : (ES e * S (length els) <= length bs)%nat) by nia.
  assert (Hw : al_holds (al_write (d + Z.of_nat (ES e * length els)) v s) (<[d := memcpy_at (ES e * length els) v bs]> h)).
  { rewrite <- (insert_insert_eq h d _ bs). eapply al_write_spec; [exact Hs|apply lookup_insert_eq|]. rewrite V. nia. }
  refine (inv_some h e s _ d _ I e _ (els ++ [v]) (allocate_nums e) _ Hd Hw _ _ _ _);
    rewrite ?length_app; cbn [length]; rewrite ?Nat.add_1_r; [|  | |exact Mx|exact Al].
  - clear - N Ed. destruct e. cbn in *. subst. unfold upd. cbn. reflexivity.
  - rewrite memcpy_at_length; [exact Ln|]. rewrite V. nia.
  - rewrite elems_write by done. rewrite elems_snoc in El. apply app_inj_2 in El as [<- _]; done.
Qed.

(** a block of the allocator moved or shrunk, enough of it kept *)
Lemma shrink_sim h e s els d :
  es_inv h e s els -> data e = Some d -> element_nums e <= allocate_nums e - 2 * expnd_unit e ->
  exists d' s', al_reget (Some d) (as_size (element_size e * (allocate_nums e - expnd_unit e))) s = Some (Some d', s') /\
    es_inv h (e <| data := Some d' |> <| allocate_nums ::= fun n => n - expnd_unit e |>) s' els.
Proof.
  intros I Ed R. pose proof I as [U Sz Ar N Mx Al D]. destruct (sizes _ _ _ _ I) as (Hu & Es & _).
  rewrite Ed in D. destruct D as (Hd & bs & Hs & Ln & El).
  set (n := element_size e * (allocate_nums e - expnd_unit e)).
  assert (Bn : 0 < n <= element_size e * allocate_nums e /\ element_size e * Z.of_nat (length els) <= n) by (unfold n; nia).
  assert (Bm : element_size e * allocate_nums e <= element_size e * (max_of e + expnd_unit e))
    by (apply Z.mul_le_mono_nonneg_l; lia).
  rewrite as_size_id by lia.
  destruct (al_reget_spec d n s _ bs Hs) as (r & s' & h' & -> & H' & G'); [lia|apply lookup_insert_eq|].
  destruct r as [d'|]; cbn [Alloc.regot Alloc.got] in G'.
  - rewrite delete_insert_id in G' by done. destruct G' as (_ & Hd' & bs' & Ln' & -> & Tk).
    exists d', s'. split; [done|].
    eapply (inv_some h e s els d' bs' I _ _ _ (allocate_nums e - expnd_unit e)); try done.
    + clear - N. destruct e. cbn in *. by subst.
    + rewrite El at 1. symmetry. apply (elems_prefix _ _ Hu _ (Nat.min (Z.to_nat n) (length bs))); [nia|done].
    + lia.
  - destruct (Z.eqb_spec n 0); [lia|]. lia.
Qed.

Lemma same_shape_refl e : same_shape e e.
Proof. by split_and!. Qed.

(** get_newele_nomutex *)
Lemma new_sim h e s els :
  es_inv h e s els ->
  exists r e' s', get_newele_nomutex e s = Some (r, e', s') /\ same_shape e e' /\ data_lock e' = data_lock e /\
    match r with
    | None =>
        e' = e /\ es_inv h e s' els /\
        (max_element_nums e <= element_nums e \/
         has_room e = false /\ (data_lock e = true \/ al_reget (data e) (grown e) s = Some (None, s')))
    | Some p =>
        element_nums e < max_element_nums e /\ (has_room e = true \/ data_lock e = false) /\
        exists d v, data e' = Some d /\ p = d + Z.of_nat (ES e * length els) /\ length v = UA e /\
                    es_inv h e' s' (els ++ [v])
    end.
Proof.
  intros I. unfold get_newele_nomutex.
  destruct (Z.leb_spec (max_element_nums e) (element_nums e)) as [M|M].
  { exists None, e, s. split_and!; auto using same_shape_refl. }
  assert (Nm : has_room e = negb (allocate_nums e <=? element_nums e)) by (unfold has_room; lia).
  destruct (Z.leb_spec (allocate_nums e) (element_nums e)) as [R|R]; cbn [negb] in Nm.
  - destruct (data_lock e) eqn:Lk.
    { exists None, e, s. split_and!; auto using same_shape_refl. }
    pose proof (grown_bounds h e s els I M R) as [G G']. fold (grown e). rewrite as_size_id by lia.
    destruct (grow_sim h e s els I M R) as (r & s' & Er & Ir). rewrite Er. cbn [mbind option_bind].
    destruct r as [d|]; [|exists None, e, s'; split_and!; auto using same_shape_refl].
    set (e1 := upd (fun _ => Some d) _) in *.
    destruct (take_new h e1 s' els d Ir eq_refl) as (-> & v & V & Iv).
    + unfold has_room, e1. cbn. pose proof (inv_unit _ _ _ _ I). pose proof (inv_alloc _ _ _ _ Ir).
      pose proof (inv_nums _ _ _ _ I). pose proof (inv_alloc _ _ _ _ I). lia.
    + exact M.
    + do 3 eexists. split; [done|]. split; [done|]. split; [exact Lk|]. split; [done|]. split; [by right|].
      exists d, v. by split_and!.
  - pose proof (inv_data _ _ _ _ I) as D. destruct (data e) as [d|] eqn:Ed.
    + destruct (take_new h e s els d I Ed Nm M) as (-> & v & V & Iv).
      do 3 eexists. split; [done|]. split; [done|]. split; [done|]. split; [done|]. split; [by left|].
      exists d, v. by split_and!.
    + destruct D as [D _]. pose proof (inv_nums _ _ _ _ I). lia.
Qed.

(** the memory after the elements behind [i] are moved *)
Lemma move_sim h e s els d i :
  es_inv h e s els -> data e = Some d -> (i < length els)%nat ->
  let rest := element_nums e - (Z.of_nat i + 1) in
  exists s', (if 0 <? rest then
                dst ← ele_ptr e (Z.of_nat i);
                src ← ele_ptr e (Z.of_nat i + 1);
                Some (al_write dst (al_read src (Z.to_nat (element_size e * rest)) s) s)
              else Some s) = Some s' /\
    es_inv h (e <| element_nums ::= fun n => n - 1 |>) s' (delete i els).
Proof.
  intros I Ed Hi rest. pose proof I as [U Sz Ar N Mx Al D]. destruct (sizes _ _ _ _ I) as (Hu & Es & _).
  rewrite Ed in D. destruct D as (Hd & bs & Hs & Ln & El).
  assert (Ld : length (delete i els) = (length els - 1)%nat) by (apply length_delete, lookup_lt_is_Some; done).
  assert (Lb : (ES e * length els <= length bs)%nat) by nia.
  assert (Ex : forall s' bs', al_holds s' (<[d := bs']> h) -> length bs' = length bs ->
    delete i els = elems (ES e) (UA e) (length els - 1) bs' ->
    es_inv h (e <| element_nums ::= fun n => n - 1 |>) s' (delete i els)).
  { intros s' bs' Hs' L' E'.
    refine (inv_some h e s _ d _ I _ s' (delete i els) (allocate_nums e) _ Hd Hs' _ _ _ _); rewrite ?Ld; [| |exact E'| |].
    - clear - N Ed Hi. destruct e. cbn in *. subst. unfold upd. cbn. f_equal. lia.
    - by rewrite L'.
    - lia.
    - lia. }
  destruct (Z.ltb_spec 0 rest) as [R|R].
  - unfold ele_ptr. rewrite Ed. cbn.
    replace (d + element_size e * Z.of_nat i) with (d + Z.of_nat (ES e * i)) by lia.
    replace (d + element_size e * (Z.of_nat i + 1)) with (d + Z.of_nat (ES e * (i + 1))) by lia.
    replace (Z.to_nat (element_size e * rest)) with (ES e * (length els - (i + 1)))%nat by (unfold rest; nia).
    rewrite (al_read_spec d _ _ s _ bs Hs (lookup_insert_eq _ _ _)) by nia.
    set (src := take _ _).
    assert (Ls : length src = (ES e * (length els - (i + 1)))%nat) by (unfold src; rewrite length_take, length_drop; nia).
    eexists. split; [done|]. apply (Ex _ (memcpy_at (ES e * i) src bs)).
    + rewrite <- (insert_insert_eq h d _ bs). eapply al_write_spec; [exact Hs|apply lookup_insert_eq|]. rewrite Ls. nia.
    + apply memcpy_at_length. rewrite Ls. nia.
    + unfold src. rewrite elems_delete by done. by rewrite <- El.
  - exists s. split; [done|]. apply (Ex s bs); [done|done|].
    assert (i = (length els - 1)%nat) as -> by (unfold rest in R; lia).
    rewrite (elems_delete_last _ _ Hu) by lia. by rewrite <- El.
Qed.

(** del_index_nomutex *)
Lemma del_sim h e s els i :
  es_inv h e s els -> data_lock e = false -> (i < length els)%nat ->
  exists e' s', del_index_nomutex (Z.of_nat i) e s = Some (0, e', s') /\ same_shape e e' /\ data_lock e' = false /\
                es_inv h e' s' (delete i els).
Proof.
  intros I Lk Hi. pose proof I as [U Sz Ar N Mx Al D]. unfold del_index_nomutex.
  assert (Z.of_nat (length els) < 2 ^ 31) by nia.
  rewrite GetMem.i32_small by lia.
  destruct (Z.ltb_spec (element_nums e) (Z.of_nat i + 1)); [lia|].
  destruct (Z.ltb_spec (Z.of_nat i) 0); [lia|]. cbn [orb].
  destruct (data e) as [d|] eqn:Ed; [|lia].
  destruct (move_sim h e s els d i I Ed Hi) as (s1 & E1 & I1). rewrite E1. cbn [mbind option_bind].
  set (e1 := upd _ e) in *. change (data e1) with (data e). rewrite Ed.
  change (data_lock e1) with (data_lock e). rewrite Lk.
  destruct (Z.leb_spec (element_nums e1) (allocate_nums e1 - 2 * expnd_unit e1)) as [R|R].
  - destruct (shrink_sim h e1 s1 _ d I1 Ed R) as (d' & s2 & E2 & I2). rewrite E2. cbn [mbind option_bind].
    rewrite bool_decide_eq_true_2 by eauto. rewrite andb_false_r.
    do 2 eexists. split; [done|]. split; [done|]. split; [exact Lk|exact I2].
  - do 2 eexists. split; [done|]. split; [done|]. split; [exact Lk|exact I1].
Qed.

(** an element through its pointer *)
Lemma read_ele h e s els i x :
  es_inv h e s els -> els !! i = Some x ->
  exists d, data e = Some d /\ ele_ptr e (Z.of_nat i) = Some (d + Z.of_nat (ES e * i)) /\
            al_read (d + Z.of_nat (ES e * i)) (UA e) s = x.
Proof.
  intros I X. pose proof I as [U Sz Ar N Mx Al D]. destruct (sizes _ _ _ _ I) as (Hu & Es & _).
  pose proof (lookup_lt_Some _ _ _ X) as Hi.
  destruct (data e) as [d|] eqn:Ed; [|lia]. destruct D as (Hd & bs & Hs & Ln & El). exists d.
  split; [done|]. split; [unfold ele_ptr; rewrite Ed; cbn; f_equal; lia|].
  rewrite (al_read_spec d _ _ s _ bs Hs (lookup_insert_eq _ _ _)) by nia.
  rewrite El, elems_lookup in X by done. by injection X.
Qed.

Lemma es_search_spec f n k :
  match search f n k with
  | Some j => k <= j < k + Z.of_nat n /\ f j = true /\ forall i, k <= i < j -> f i = false
  | None => forall i, k <= i < k + Z.of_nat n -> f i = false
  end.
Proof.
  revert k. induction n as [|n IH]; intros k; cbn; [lia|]. destruct (f k) eqn:F; [split_and!; [lia|lia|done|lia]|].
  specialize (IH (k + 1)). destruct (search f n (k + 1)) as [j|].
  - destruct IH as (J & Fj & B). split_and!; [lia|lia|done|]. intros i Hi.
    destruct (decide (i = k)) as [->|]; [done|]. apply B. lia.
  - intros i Hi. destruct (decide (i = k)) as [->|]; [done|]. apply IH. lia.
Qed.

(** the search for an element *)
Lemma search_elem h e s els v :
  es_inv h e s els -> length v = UA e ->
  search (fun i => match ele_ptr e i with
                   | Some p => bool_decide (al_read p (UA e) s = take (UA e) v)
                   | None => false
                   end) (Z.to_nat (element_nums e)) 0 =
  (fun '(i, _) => Z.of_nat i) <$> list_find (fun x => x = v) els.
Proof.
  intros I V. rewrite take_ge by lia. set (f := fun i => _).
  assert (F : forall i x, els !! i = Some x -> f (Z.of_nat i) = bool_decide (x = v)).
  { intros i x X. destruct (read_ele h e s els i x I X) as (d & _ & P & R). unfold f. by rewrite P, R. }
  rewrite (inv_nums _ _ _ _ I), Nat2Z.id. pose proof (es_search_spec f (length els) 0) as Sp.
  destruct (search f (length els) 0) as [j|]; symmetry.
  - destruct Sp as (J & Fj & B). destruct (lookup_lt_is_Some_2 els (Z.to_nat j)) as [x X]; [lia|].
    pose proof (F _ _ X) as Fx. rewrite Z2Nat.id, Fj in Fx by lia. symmetry in Fx. apply bool_decide_eq_true in Fx.
    assert (Lf : list_find (fun x => x = v) els = Some (Z.to_nat j, x)).
    { apply list_find_Some. split_and!; [done|done|]. intros k y Y K E. specialize (F k y Y).
      rewrite B in F by lia. symmetry in F. by apply bool_decide_eq_false in F. }
    rewrite Lf. cbn. f_equal. lia.
  - assert (Lf : list_find (fun x => x = v) els = None); [|by rewrite Lf].
    apply list_find_None, Forall_lookup. intros k y Y E. specialize (F k y Y). pose proof (lookup_lt_Some _ _ _ Y).
    rewrite Sp in F by lia. symmetry in F. by apply bool_decide_eq_false in F.
Qed.

(** the search for a pointer to an element *)
Lemma search_pointer h e s els i :
  es_inv h e s els -> (i < length els)%nat ->
  search (fun k => bool_decide (ele_ptr e k = ele_ptr e (Z.of_nat i))) (Z.to_nat (element_nums e)) 0 = Some (Z.of_nat i).
Proof.
  intros I Hi. destruct (lookup_lt_is_Some_2 els i Hi) as [x X]. destruct (sizes _ _ _ _ I) as (Hu & Es & _).
  destruct (read_ele h e s els i x I X) as (d & Ed & _ & _). set (f := fun k => _).
  assert (F : forall k, f k = bool_decide (k = Z.of_nat i)).
  { intros k. unfold f. apply bool_decide_ext. unfold ele_ptr. rewrite Ed. cbn. split; [|by intros ->].
    intros E. injection E. rewrite Es. nia. }
  rewrite (inv_nums _ _ _ _ I), Nat2Z.id. pose proof (es_search_spec f (length els) 0) as Sp.
  destruct (search f (length els) 0) as [j|].
  - destruct Sp as (_ & Fj & _). rewrite F in Fj. apply bool_decide_eq_true in Fj. by subst.
  - specialize (Sp (Z.of_nat i) ltac:(lia)). rewrite F in Sp. by rewrite bool_decide_eq_true_2 in Sp.
Qed.

(** ** Programs on an array *)

(** a call; the element a caller of get_newele writes, and the pointer del_pointer is given, come with
    it *)
Inductive op :=
| Add (v : list Z)
| NewEle (v : list Z)
| Pop
| PopLast
| DelEle (v : list Z)
| DelIndex (i : Z)
| DelPointer (i : Z)
| GetEle (i : Z)
| EleNums
| Lock
| Unlock.

Definition result : Type := Z * option (list Z).

Definition code (r : option (Z * ub_esarray * T)) : option (result * ub_esarray * T) :=
  (fun '(c, e, s) => ((c, None), e, s)) <$> r.

Definition exec (o : op) (e : ub_esarray) (s : T) : option (result * ub_esarray * T) :=
  match o with
  | Add v => code (ub_esarray_add_ele v e s)
  | NewEle v =>
      r ← ub_esarray_get_newele e s;
      match r with
      | (None, e, s) => Some ((-1, None), e, s)
      | (Some p, e, s) => Some ((0, None), e, al_write p v s)
      end
  | Pop => (fun '(c, x, e, s) => ((c, x), e, s)) <$> ub_esarray_pop_ele e s
  | PopLast => (fun '(c, x, e, s) => ((c, x), e, s)) <$> ub_esarray_pop_last_ele e s
  | DelEle v => code (ub_esarray_del_ele v e s)
  | DelIndex i => code (ub_esarray_del_index i e s)
  | DelPointer i => code (ub_esarray_del_pointer (ub_esarray_get_ele e i) e s)
  | GetEle i =>
      match ub_esarray_get_ele e i with
      | None => Some ((-1, None), e, s)
      | Some p => Some ((0, Some (al_read p (UA e) s)), e, s)
      end
  | EleNums => Some ((ub_esarray_ele_nums e, None), e, s)
  | Lock => let '(c, e) := ub_esarray_data_lock e in Some ((c, None), e, s)
  | Unlock => let '(c, e) := ub_esarray_data_unlock e in Some ((c, None), e, s)
  end.

Fixpoint exec_all (os : list op) (e : ub_esarray) (s : T) : option (list result * ub_esarray * T) :=
  match os with
  | [] => Some ([], e, s)
  | o :: os =>
      r ← exec o e s;
      let '(x, e, s) := r in
      r ← exec_all os e s;
      let '(xs, e, s) := r in
      Some (x :: xs, e, s)
  end.

(** what is asked of a caller: elements of the right size, no index of INT_MAX *)
Definition valid (ua : Z) (o : op) : Prop :=
  match o with
  | Add v | NewEle v | DelEle v => Z.of_nat (length v) = ua
  | DelIndex i => i < 2 ^ 31 - 1
  | _ => True
  end.

(** the list and the lock *)
Definition astate : Type := list (list Z) * bool.

(** the element [i] of the list, if the lock allows its removal *)
Definition removed (i : option nat) (give : bool) (st : astate) : result * astate :=
  let '(els, lk) := st in
  match (if lk : bool then None else i) with
  | Some i => ((0, if give then els !! i else None), (delete i els, lk))
  | None => ((-1, None), (els, lk))
  end.

Definition in_list (els : list (list Z)) (i : Z) : option nat :=
  if (0 <=? i) && (i <? Z.of_nat (length els)) then Some (Z.to_nat i) else None.

(** the operation on the list, of [max] elements at most; [ok]: there is memory for a new element *)
Definition spec (max : Z) (ok : bool) (o : op) (st : astate) : result * astate :=
  let '(els, lk) := st in
  match o with
  | Add v | NewEle v =>
      if (Z.of_nat (length els) <? max) && ok then ((0, None), (els ++ [v], lk)) else ((-1, None), st)
  | Pop => removed (in_list els 0) true st
  | PopLast => removed (in_list els (Z.of_nat (length els) - 1)) true st
  | DelEle v => removed (fst <$> list_find (fun x => x = v) els) false st
  | DelIndex i | DelPointer i => removed (in_list els i) false st
  | GetEle i =>
      match in_list els i with
      | Some i => ((0, els !! i), st)
      | None => ((-1, None), st)
      end
  | EleNums => ((Z.of_nat (length els), None), st)
  | Lock => ((if lk : bool then -1 else 0, None), (els, true))
  | Unlock => ((if lk : bool then 0 else -1, None), (els, false))
  end.

(** the allocator has refused a request *)
Definition refuses : Prop := exists p n s s', 0 < n <= al_max /\ al_reget p n s = Some (None, s').

(** a run on the list: memory for a new element is missing only when the array is locked, or the
    allocator refuses it *)
Inductive runs (max : Z) : list op -> astate -> list result -> astate -> Prop :=
| runs_nil st : runs max [] st [] st
| runs_cons o os st ok x st' xs st'' :
    (ok = false -> st.2 = true \/ refuses) ->
    spec max ok o st = (x, st') -> runs max os st' xs st'' -> runs max (o :: os) st (x :: xs) st''.

Lemma in_list_some els i k : in_list els i = Some k -> i = Z.of_nat k /\ (k < length els)%nat.
Proof.
  unfold in_list. destruct (Z.leb_spec 0 i), (Z.ltb_spec i (Z.of_nat (length els))); try done.
  cbn. intros [= <-]. lia.
Qed.

Lemma in_list_none els i : in_list els i = None -> i < 0 \/ Z.of_nat (length els) <= i.
Proof.
  unfold in_list. destruct (Z.leb_spec 0 i), (Z.ltb_spec i (Z.of_nat (length els))); try done; lia.
Qed.

Lemma get_ele_spec h e s els i :
  es_inv h e s els ->
  ub_esarray_get_ele e i = match in_list els i with Some k => ele_ptr e (Z.of_nat k) | None => None end.
Proof.
  intros I. unfold ub_esarray_get_ele. rewrite (inv_nums _ _ _ _ I).
  destruct (in_list els i) as [k|] eqn:E.
  - apply in_list_some in E as [-> K]. destruct (Z.leb_spec (Z.of_nat (length els)) (Z.of_nat k)); [lia|].
    destruct (Z.ltb_spec (Z.of_nat k) 0); [lia|done].
  - apply in_list_none in E. destruct (Z.leb_spec (Z.of_nat (length els)) i), (Z.ltb_spec i 0); done || lia.
Qed.

(** the new state of an operation and its result *)
Definition simulates (h : gmap Z (list Z)) (o : op) (e : ub_esarray) (s : T) (els : list (list Z)) : Prop :=
  exists ok x e' s' els', exec o e s = Some (x, e', s') /\
    spec (max_element_nums e) ok o (els, data_lock e) = (x, (els', data_lock e')) /\
    es_inv h e' s' els' /\ same_shape e e' /\ (ok = false -> data_lock e = true \/ refuses).

(** the functions that take a new element and write it *)
Lemma add_sim h e s els v :
  es_inv h e s els -> length v = UA e ->
  exists ok r e' s' els', get_newele_nomutex e s = Some (r, e', s') /\ same_shape e e' /\ data_lock e' = data_lock e /\
    (ok = false -> data_lock e = true \/ refuses) /\
    match r with
    | None => (Z.of_nat (length els) <? max_element_nums e) && ok = false /\ els' = els /\ es_inv h e' s' els'
    | Some p => (Z.of_nat (length els) <? max_element_nums e) && ok = true /\ els' = els ++ [v] /\
                es_inv h e' (al_write p v s') els'
    end.
Proof.
  intros I V. destruct (new_sim h e s els I) as (r & e' & s' & E & Sh & Lk & R).
  pose proof (inv_nums _ _ _ _ I) as N. destruct r as [p|].
  - destruct R as (M & _ & d & u & Ed & -> & U & Iu). exists true, (Some (d + Z.of_nat (ES e * length els))), e', s', (els ++ [v]).
    split_and!; try done.
    + apply andb_true_iff. split; [lia|done].
    + assert (ES e = ES e' /\ UA e = UA e') as [EE UE] by (destruct Sh as (_ & S1 & S2 & _); unfold ES, UA; by rewrite S1, S2).
      rewrite EE. eapply write_last; [exact Iu|exact Ed|by rewrite <- UE].
  - destruct R as (-> & I' & R). exists (max_element_nums e <=? element_nums e), None, e, s', els.
    split_and!; try done.
    + intros M%Z.leb_gt. destruct R as [R|(Hr & [R|R])]; [lia|by left|]. right.
      unfold has_room in Hr. apply Z.ltb_ge in Hr. pose proof (grown_bounds h e s els I M Hr) as [G _].
      by exists (data e), (grown e), s, s'.
    + rewrite <- N. destruct (Z.leb_spec (max_element_nums e) (element_nums e)), (Z.ltb_spec (element_nums e) (max_element_nums e)); done || lia.
Qed.

(** removal, by whichever function *)
Lemma remove_sim h e s els i give (f : option (result * ub_esarray * T)) :
  es_inv h e s els -> (forall k, i = Some k -> (k < length els)%nat) ->
  f = (if data_lock e then Some ((-1, None), e, s)
       else match i with
            | None => Some ((-1, None), e, s)
            | Some k => (fun '(_, e, s) => ((0, if give : bool then els !! k else None), e, s)) <$> del_index_nomutex (Z.of_nat k) e s
            end) ->
  exists x e' s' els', f = Some (x, e', s') /\ removed i give (els, data_lock e) = (x, (els', data_lock e')) /\
    es_inv h e' s' els' /\ same_shape e e'.
Proof.
  intros I Hi ->. unfold removed. destruct (data_lock e) eqn:Lk.
  { exists (-1, None), e, s, els. rewrite Lk. by split_and!. }
  destruct i as [k|]; [|exists (-1, None), e, s, els; rewrite Lk; by split_and!].
  destruct (del_sim h e s els k I Lk (Hi k eq_refl)) as (e' & s' & -> & Sh & Lk' & I'). cbn.
  do 4 eexists. split; [done|]. rewrite Lk'. by split_and!.
Qed.

Lemma pop_at_eq h e s els i :
  es_inv h e s els ->
  (fun '(c, x, e, s) => ((c, x), e, s)) <$> pop_at i e s =
  match in_list els i with
  | None => Some ((-1, None), e, s)
  | Some k => (fun '(_, e, s) => ((0, els !! k), e, s)) <$> del_index_nomutex (Z.of_nat k) e s
  end.
Proof.
  intros I. unfold pop_at. rewrite (get_ele_spec h e s els i I).
  destruct (in_list els i) as [k|] eqn:E; [|done]. apply in_list_some in E as [-> K].
  destruct (lookup_lt_is_Some_2 els k K) as [x X]. destruct (read_ele h e s els k x I X) as (d & _ & -> & R).
  fold (UA e). rewrite R, X. by destruct (del_index_nomutex (Z.of_nat k) e s) as [[[c e'] s']|].
Qed.

Lemma code_del h e s els (i : option nat) :
  es_inv h e s els ->
  code (del_found (Z.of_nat <$> i) e s) =
  match i with
  | None => Some ((-1, None), e, s)
  | Some k => (fun '(c, e, s) => ((c, None), e, s)) <$> del_index_nomutex (Z.of_nat k) e s
  end.
Proof. by destruct i. Qed.

(** the removal functions are [removed] *)
Lemma exec_removal h e s els o i give :
  es_inv h e s els -> data_lock e = false -> (forall k, i = Some k -> (k < length els)%nat) ->
  exec o e s = match i with
               | None => Some ((-1, None), e, s)
               | Some k => (fun '(c, e, s) => ((c, if give : bool then els !! k else None), e, s)) <$>
                           del_index_nomutex (Z.of_nat k) e s
               end ->
  exists x e' s' els', exec o e s = Some (x, e', s') /\ removed i give (els, data_lock e) = (x, (els', data_lock e')) /\
    es_inv h e' s' els' /\ same_shape e e'.
Proof.
  intros I Lk Hi E. rewrite E. unfold removed. rewrite Lk. destruct i as [k|].
  - destruct (del_sim h e s els k I Lk (Hi k eq_refl)) as (e' & s' & -> & Sh & Lk' & I').
    exists (0, if give then els !! k else None), e', s', (delete k els). rewrite Lk'. by split_and!.
  - exists (-1, None), e, s, els. rewrite Lk. by split_and!.
Qed.

Lemma find_bound (v : list Z) els k : fst <$> list_find (fun x => x = v) els = Some k -> (k < length els)%nat.
Proof.
  destruct (list_find _ els) as [[j y]|] eqn:F; [|done]. cbn. intros [= <-].
  apply list_find_Some in F as (Y & _). by eapply lookup_lt_Some.
Qed.

(** the removals while the array is locked *)
Lemma exec_locked h e s els o i give :
  es_inv h e s els -> data_lock e = true -> exec o e s = Some ((-1, None), e, s) ->
  exists x e' s' els', exec o e s = Some (x, e', s') /\ removed i give (els, data_lock e) = (x, (els', data_lock e')) /\
    es_inv h e' s' els' /\ same_shape e e'.
Proof. intros I Lk E. exists (-1, None), e, s, els. rewrite E, Lk. by split_and!. Qed.

Lemma simulates_removal h e s els o i give :
  (forall ok, spec (max_element_nums e) ok o (els, data_lock e) = removed i give (els, data_lock e)) ->
  (exists x e' s' els', exec o e s = Some (x, e', s') /\ removed i give (els, data_lock e) = (x, (els', data_lock e')) /\
    es_inv h e' s' els' /\ same_shape e e') ->
  simulates h o e s els.
Proof.
  intros Sp (x & e' & s' & els' & E & R & I & Sh). exists true, x, e', s', els'. rewrite Sp. by split_and!.
Qed.

Lemma in_list_nil_last els : (length els = 0)%nat -> in_list els (Z.of_nat (length els) - 1) = None.
Proof. by intros ->. Qed.

Lemma removal_sim h e s els o :
  es_inv h e s els -> valid (uaelement_size e) o ->
  match o with Pop | PopLast | DelEle _ | DelIndex _ | DelPointer _ => simulates h o e s els | _ => True end.
Proof.
  intros I V. pose proof (inv_nums _ _ _ _ I) as N. destruct (sizes _ _ _ _ I) as (Hu & Es & Us).
  destruct o as [v|v| | |v|i|i|i| | |]; try done; cbn [valid] in V;
    (eapply simulates_removal; [intros ok; reflexivity|]);
    (destruct (data_lock e) eqn:Lk; rewrite <- Lk;
     [eapply exec_locked; [exact I|exact Lk|]; cbn; unfold ub_esarray_pop_ele, ub_esarray_pop_last_ele,
        ub_esarray_del_ele, ub_esarray_del_index, ub_esarray_del_pointer; by rewrite Lk
     |eapply exec_removal; [exact I|exact Lk| |]]).
  - intros k E. by apply in_list_some in E as [_ E].
  - cbn [exec]. unfold ub_esarray_pop_ele. rewrite Lk. rewrite (pop_at_eq h e s els _ I).
    destruct (in_list els 0) as [k|] eqn:E; [|done]. apply in_list_some in E as [_ K].
    by destruct (del_sim h e s els k I Lk K) as (e' & s' & -> & _).
  - intros k E. by apply in_list_some in E as [_ E].
  - cbn [exec]. unfold ub_esarray_pop_last_ele. rewrite Lk, N.
    destruct (Z.eqb_spec (Z.of_nat (length els)) 0) as [Z0|Z0]; [by rewrite in_list_nil_last by lia|].
    rewrite (pop_at_eq h e s els _ I).
    destruct (in_list els _) as [k|] eqn:E; [|done]. apply in_list_some in E as [_ K].
    by destruct (del_sim h e s els k I Lk K) as (e' & s' & -> & _).
  - apply find_bound.
  - cbn [exec]. unfold ub_esarray_del_ele. rewrite Lk. fold (UA e).
    rewrite (search_elem h e s els v I) by lia. rewrite <- (code_del h e s els _ I). f_equal. f_equal.
    by destruct (list_find _ els) as [[j y]|].
  - intros k E. by apply in_list_some in E as [_ E].
  - cbn [exec]. unfold ub_esarray_del_index. rewrite Lk.
    destruct (in_list els i) as [k|] eqn:E.
    + apply in_list_some in E as [-> K]. done.
    + apply in_list_none in E. unfold del_index_nomutex, code.
      destruct (Z.ltb_spec i 0); [by rewrite orb_true_r|]. destruct E as [?|E]; [lia|].
      rewrite GetMem.i32_small by lia. rewrite N. destruct (Z.ltb_spec (Z.of_nat (length els)) (i + 1)); [done|lia].
  - intros k E. by apply in_list_some in E as [_ E].
  - cbn [exec]. unfold ub_esarray_del_pointer. rewrite Lk, (get_ele_spec h e s els i I).
    destruct (in_list els i) as [k|] eqn:E.
    + apply in_list_some in E as [-> K]. rewrite (search_pointer h e s els k I K). done.
    + match goal with |- context [search ?f ?n 0] =>
        pose proof (es_search_spec f n 0) as Sp; destruct (search f n 0) as [j|] end; [|done].
      destruct Sp as (J & Fj & _). apply bool_decide_eq_true in Fj.
      destruct (lookup_lt_is_Some_2 els (Z.to_nat j)) as [x X]; [lia|].
      destruct (read_ele h e s els _ x I X) as (d & Ed & _). unfold ele_ptr in Fj. by rewrite Ed in Fj.
Qed.

Lemma es_exec_simulates h e s els o :
  es_inv h e s els -> valid (uaelement_size e) o -> simulates h o e s els.
Proof.
  intros I V. pose proof (removal_sim h e s els o I V) as R. destruct (sizes _ _ _ _ I) as (Hu & Es & Us).
  destruct o as [v|v| | |v|i|i|i| | |]; try exact R; clear R; cbn [valid] in V.
  - destruct (add_sim h e s els v I ltac:(lia)) as (ok & r & e' & s' & els' & E & Sh & Lk & Ok & R).
    cbn [exec]. unfold simulates. exists ok. cbn [exec spec]. unfold ub_esarray_add_ele. rewrite E. cbn.
    rewrite take_ge by (fold (UA e); destruct Sh as (_ & _ & S2 & _); rewrite ?S2; lia).
    destruct r as [p|]; destruct R as (-> & -> & I'); do 4 eexists; (split; [done|]); rewrite Lk; by split_and!.
  - destruct (add_sim h e s els v I ltac:(lia)) as (ok & r & e' & s' & els' & E & Sh & Lk & Ok & R).
    exists ok. cbn [exec spec]. unfold ub_esarray_get_newele. rewrite E. cbn.
    destruct r as [p|]; destruct R as (-> & -> & I'); do 4 eexists; (split; [done|]); rewrite Lk; by split_and!.
  - exists true. cbn [exec spec]. rewrite (get_ele_spec h e s els i I). destruct (in_list els i) as [k|] eqn:E.
    + apply in_list_some in E as [-> K]. destruct (lookup_lt_is_Some_2 els k K) as [x X].
      destruct (read_ele h e s els k x I X) as (d & _ & -> & R). rewrite R, X.
      do 4 eexists. split; [done|]. by split_and!.
    + do 4 eexists. split; [done|]. by split_and!.
  - exists true. cbn [exec spec]. unfold ub_esarray_ele_nums. rewrite (inv_nums _ _ _ _ I).
    do 4 eexists. split; [done|]. by split_and!.
  - exists true. cbn. do 4 eexists. split; [done|]. destruct I. by split_and!.
  - exists true. cbn. do 4 eexists. split; [done|]. destruct I. destruct (data_lock e); by split_and!.
Qed.

Lemma exec_all_runs h os e s els :
  es_inv h e s els -> Forall (valid (uaelement_size e)) os ->
  exists xs e' s' els', exec_all os e s = Some (xs, e', s') /\
    runs (max_element_nums e) os (els, data_lock e) xs (els', data_lock e') /\ es_inv h e' s' els'.
Proof.
  intros I V. revert e s els I V. induction os as [|o os IH]; intros e s els I V.
  - exists [], e, s, els. split_and!; [done|constructor|done].
  - apply Forall_cons in V as [V Vs].
    destruct (es_exec_simulates h e s els o I V) as (ok & x & e1 & s1 & els1 & E & Sp & I1 & (_ & _ & S2 & S3) & Ok).
    destruct (IH e1 s1 els1 I1) as (xs & e' & s' & els' & E' & R & I'); [by rewrite S2|].
    exists (x :: xs), e', s', els'. cbn [exec_all]. rewrite E. cbn. rewrite E'. split_and!; [done| |done].
    rewrite S3 in R. eapply runs_cons; [exact Ok|exact Sp|exact R].
Qed.

(** ** From init to close *)

(** the arguments of init: the size of an element, and room for the greatest array *)
Definition init_ok (expnd element max : Z) : Prop :=
  0 < expnd /\ 0 < element /\ (element + 7) * (Z.max 0 max + expnd) <= Z.min al_max (2 ^ 31 - 1).

Lemma init_elements expnd element max : init_ok expnd element max ->
  i32 (GetMem.UB_SD_ALIGN element) = GetMem.UB_SD_ALIGN element /\
  element <= GetMem.UB_SD_ALIGN element <= element + 7.
Proof.
  intros (U & E & Ar).
  assert ((element + 7) * 1 <= (element + 7) * (Z.max 0 max + expnd)) by (apply Z.mul_le_mono_nonneg_l; lia).
  destruct (GetMem.align_spec element) as [B _]; [lia|]. split; [|lia]. apply GetMem.i32_small. lia.
Qed.

Context {I : Type} {AI : Allocator I} {LI : AllocatorLaws I}.

Lemma emptied h e s els : es_inv h e s els -> es_inv h (e <| element_nums := 0 |>) s [].
Proof.
  intros [U Sz Ar N Mx Al D]. assert (Mz : 0 <= max_of e) by (unfold max_of; lia).
  split; [exact U|exact Sz|exact Ar|done|exact Mz|cbn; split; [lia|apply Al]|].
  change (data (e <| element_nums := 0 |>)) with (data e). destruct (data e) as [d|]; [|exact D].
  destruct D as (Hd & bs & Hs & Ln & _). split; [done|]. by exists bs.
Qed.

(** ub_esarray_init: the array is empty, and its first block is asked for already *)
Lemma init_sim h hi expnd element max si s :
  al_holds s h -> al_holds si hi -> esarray_bytes <= al_max (S := I) -> init_ok expnd element max ->
  (exists si', ub_esarray_init expnd element max si s = Some (None, si', s) /\ al_holds si' hi) \/
  exists p e si' s' b, ub_esarray_init expnd element max si s = Some (Some (p, e), si', s') /\
    es_inv h e s' [] /\ max_element_nums e = max /\ uaelement_size e = element /\ data_lock e = false /\
    al_holds si' (<[p := b]> hi) /\ hi !! p = None.
Proof.
  intros H Hi Mi Ok. pose proof (init_elements _ _ _ Ok) as [Ea Ba]. destruct Ok as (U & E & Ar).
  unfold ub_esarray_init. rewrite Ea.
  destruct (al_get_spec esarray_bytes si hi Hi) as (r & si' & h' & -> & Hi' & G); [by split|]. cbn [mbind option_bind].
  destruct r as [p|]; cbn [Alloc.got] in G; [right|left; subst h'; by exists si'].
  destruct G as (_ & Fp & b & _ & ->). set (e0 := mk_esarray _ _ _ _ _ _ _ _ _).
  assert (I0 : es_inv h e0 s []).
  { split; unfold e0, max_of; cbn; try lia; [|done].
    etransitivity; [|exact Ar]. apply Z.mul_le_mono_nonneg_r; lia. }
  destruct (new_sim h e0 s [] I0) as (r & e1 & s1 & E1 & (S0 & S1 & S2 & S3) & Lk & R). rewrite E1. cbn.
  exists p, (e1 <| element_nums := 0 |>), si', s1, b. split; [done|]. cbn. rewrite S2, S3, Lk. split_and!; try done.
  destruct r as [q|]; [destruct R as (_ & _ & d & v & _ & _ & _ & R)|destruct R as (-> & R & _)]; by eapply emptied.
Qed.

Lemma close_sim h hi e s els p si b :
  es_inv h e s els -> al_holds si (<[p := b]> hi) -> hi !! p = None ->
  exists si' s', ub_esarray_close p e si s = Some (si', s') /\ al_holds s' h /\ al_holds si' hi.
Proof.
  intros Iv Hi Fp. pose proof (inv_data _ _ _ _ Iv) as D. unfold ub_esarray_close.
  assert (Cl : exists s', al_rel (data e) s = Some s' /\ al_holds s' h).
  { destruct (data e) as [d|].
    - destruct D as (Hd & bs & Hs & _). destruct (al_rel_spec d s _ bs Hs (lookup_insert_eq _ _ _)) as (s' & -> & H').
      rewrite delete_insert_id in H' by done. by exists s'.
    - rewrite al_rel_none. exists s. by destruct D. }
  destruct Cl as (s' & -> & H'). cbn.
  destruct (al_rel_spec p si _ b Hi (lookup_insert_eq _ _ _)) as (si' & -> & Hi').
  rewrite delete_insert_id in Hi' by done. by exists si', s'.
Qed.

(** a program that makes an array, uses it and closes it: the results, [None] if there was no memory
    for the instance *)
Definition life (expnd element max : Z) (os : list op) (si : I) (s : T) : option (option (list result) * I * T) :=
  r ← ub_esarray_init expnd element max si s;
  match r with
  | (None, si, s) => Some (None, si, s)
  | (Some (p, e), si, s) =>
      r ← exec_all os e s;
      let '(xs, e, s) := r in
      r ← ub_esarray_close p e si s;
      let '(si, s) := r in
      Some (Some xs, si, s)
  end.

(** An array is a list.  A program that makes an array and then adds, takes, deletes (by index, by
    content, by pointer), reads and counts elements, locks and unlocks it in any order, is defined to
    its end, and its results are those of the same operations on a list of at most the maximal number
    of elements.  A removal fails exactly when the array is locked or the element is not there; an
    addition fails only when the list is full, the array locked, or the memory refused.  And when the
    array is closed the memory pools hold the blocks they held before, with the same content. *)
Theorem esarray_is_a_list h hi expnd element max os si s :
  al_holds s h -> al_holds si hi -> esarray_bytes <= al_max (S := I) -> init_ok expnd element max ->
  Forall (valid element) os ->
  exists r si' s', life expnd element max os si s = Some (r, si', s') /\ al_holds s' h /\ al_holds si' hi /\
    forall xs, r = Some xs -> exists st, runs max os ([], false) xs st.
Proof.
  intros H Hi Mi Ok V. unfold life.
  destruct (init_sim h hi expnd element max si s H Hi Mi Ok)
    as [(si' & -> & Hi')|(p & e & si' & s' & b & -> & Iv & <- & <- & Lk & Hi' & Fp)]; cbn.
  - by exists None, si', s.
  - destruct (exec_all_runs h os e s' [] Iv V) as (xs & e' & s1 & els' & -> & R & Iv'). cbn.
    destruct (close_sim h hi e' s1 els' p si' b Iv' Hi' Fp) as (si2 & s2 & -> & H2 & Hi2). cbn.
    do 3 eexists. split; [done|]. split_and!; [done|done|]. intros ys [= <-]. rewrite Lk in R. eauto.
Qed.

End Facts.
End ESFacts.


(** ** On pools *)

Module ESWitness.
Import GetMem PoolAllocator PoolWitness ES ESFacts.

(** eight fragments of 48 bytes for the instances, as the file has them, and data in four of 8 *)
#[local] Instance pool_inst : Pool.
Proof. by refine {| fragsize := 48; fragnum := 8 |}. Defined.

Definition inst_memory : pool := getmem_def 48 8.
Definition data_memory : pool := getmem_def 8 4.

Definition program : list op :=
  [Add [1; 2; 3]; Add [4; 5; 6]; Add [7; 8; 9]; Lock; Pop; Unlock; Pop; DelEle [7; 8; 9]; EleNums;
   Add [10; 11; 12]; PopLast; PopLast; PopLast].

Lemma esarray_witness :
  exists si' s',
    life (A := @pool_allocator pool4) (AI := @pool_allocator pool_inst) 1 3 8 program inst_memory data_memory =
      Some (Some [(0, None); (0, None); (0, None); (0, None); (-1, None); (0, None); (0, Some [1; 2; 3]); (0, None);
                  (1, None); (0, None); (0, Some [10; 11; 12]); (0, Some [4; 5; 6]); (-1, None)], si', s') /\
    pool_holds (P := pool4) s' ∅ /\ pool_holds (P := pool_inst) si' ∅.
Proof.
  destruct (esarray_is_a_list (A := @pool_allocator pool4) (L := @pool_laws pool4)
              (AI := @pool_allocator pool_inst) (LI := @pool_laws pool_inst)
              ∅ ∅ 1 3 8 program inst_memory data_memory) as (r & si' & s' & E & H & Hi & _).
  - by apply (PoolFacts.getmem_def_holds (P := pool4)).
  - by apply (PoolFacts.getmem_def_holds (P := pool_inst)).
  - by vm_compute.
  - by vm_compute.
  - repeat constructor.
  - exists si', s'. split_and!; [|exact H|exact Hi]. rewrite E. vm_compute in E. injection E as <- _ _. done.
Defined.

End ESWitness.
