(* ===== verification/Gptpclock.v ===== *)
(** * Gptpclock: the clock entities of gptpclock.c and what applications read of them.

    Every clock entity (clockIndex, domainIndex) is an element of an array and
    keeps a hardware clock, a mode, an offset and a rate.  The parameters other
    processes see ([gptp_clock_ppara_t]) are in the entity itself or, for the
    master clock (clockIndex 0) of a domain, in the shared memory: [pp] is a
    pointer, and elements move when another one is deleted, so the model keeps
    the array with its stale rest and [pp] as a reference into it.  The hardware
    clocks, the system clocks and the devices are the class [PtpDev]; writes to
    the database are recorded.  The mutex of the shared memory is left out: the
    calls of one process are in sequence.

    Module [GC] is gptpclock.c, Module [GMC] the time functions of
    gptpmasterclock.c, by which applications read the shared memory. *)

From stdpp Require Import gmap.
From Stdlib Require Import SpecFloat.
From S2P Require Import Prelude Types Floats Common Clock.
#[local] Open Scope Z_scope.
#[local] Open Scope gptp_scope.

(** The platform layer: the functions of a PTP device (an invalid handle is -1,
    a valid one is not negative), the system clocks, and the value a variable
    has before it is set. *)
Class PtpDev := {
  world : Type;
  ptpdev_clock_open : list Z -> world -> Z * world;
  ptpdev_clock_close : Z -> world -> world;
  ptpdev_clock_gettime : Z -> world -> option Z * world;   (* None: fails, leaves the target *)
  ptpdev_clock_setoffset : Z -> Z -> world -> world;
  ptpdev_clock_adjtime : Z -> Z -> world -> Z * world;
  ub_mt_gettime64 : world -> Z * world;
  ub_rt_gettime64 : world -> Z * world;
  uninitialised : Z
}.

Definition PTPFD_INVALID : Z := -1.
Definition PTPFD_VALID (fd : Z) : bool := 0 <=? fd.
Definition MAX_PTPDEV_NAME : nat := 32.

(** [od->pp]: the own [ppe] of an array element, or an entry of the shared memory *)
Inductive ppref :=
| PpEle (i : nat)
| PpShm (d : Z).

Inductive ptpclock_mode_t := PTPCLOCK_MASTER | PTPCLOCK_SLAVE_MAIN | PTPCLOCK_SLAVE_SUB.
Inductive ptpclock_state_t := PTPCLOCK_NOWORK | PTPCLOCK_NOACCESS | PTPCLOCK_RDONLY | PTPCLOCK_RDWR.

#[export] Instance ptpclock_mode_eq_dec : EqDecision ptpclock_mode_t.
Proof. solve_decision. Defined.
#[export] Instance ptpclock_state_eq_dec : EqDecision ptpclock_state_t.
Proof. solve_decision. Defined.
#[export] Instance ppref_eq_dec : EqDecision ppref.
Proof. solve_decision. Defined.

Module Pp.

Record gptp_clock_ppara_t := mk {
  ptpdev : list Z;         (* the characters before the terminating 0 *)
  domainIndex : Z;
  offset64 : Z;
  gmsync : Z;
  gmchange_ind : Z;
  last_setts64 : Z;
  adjrate : double
}.
#[export] Instance eta_gptp_clock_ppara_t : Eta gptp_clock_ppara_t :=
  fields! mk [ptpdev, domainIndex, offset64, gmsync, gmchange_ind, last_setts64, adjrate].

Definition zero : gptp_clock_ppara_t := mk [] 0 0 0 0 0 d0.

End Pp.
Export (hints) Pp.

Module Od.

Record oneclock_data_t := mk {
  pp : ppref;
  ppe : Pp.gptp_clock_ppara_t;
  clockIndex : Z;
  clockId : list Z;
  ptpfd : Z;
  mode : ptpclock_mode_t;
  domainIndex : Z;
  state : ptpclock_state_t;
  offset64 : Z;
  last_setts64 : Z;
  adjrate : double;
  adjvppb : Z;
  ts2diff : Z
}.
#[export] Instance eta_oneclock_data_t : Eta oneclock_data_t :=
  fields! mk [pp, ppe, clockIndex, clockId, ptpfd, mode, domainIndex, state, offset64,
              last_setts64, adjrate, adjvppb, ts2diff].

(** memset(od, 0, sizeof(oneclock_data_t)); the null [pp] is set next *)
Definition zero (p : ppref) : oneclock_data_t :=
  mk p Pp.zero 0 (replicate 8 0) 0 PTPCLOCK_MASTER 0 PTPCLOCK_NOWORK 0 0 d0 0 0.

End Od.
Export (hints) Od.

Module Pdd.

Record per_domain_data_t := mk {
  we_are_gm : bool;
  gmClockId : list Z;
  thisClockIndex : Z;
  thisClock_adjppb : Z
}.
#[export] Instance eta_per_domain_data_t : Eta per_domain_data_t :=
  fields! mk [we_are_gm, gmClockId, thisClockIndex, thisClock_adjppb].

Definition zero : per_domain_data_t := mk false (replicate 8 0) 0 0.

End Pdd.
Export (hints) Pdd.

Module Shm.

Record gptp_master_clock_shm_t := mk {
  max_domains : Z;
  active_domain : Z;
  gcpp : list Pp.gptp_clock_ppara_t
}.
#[export] Instance eta_gptp_master_clock_shm_t : Eta gptp_master_clock_shm_t :=
  fields! mk [max_domains, active_domain, gcpp].

End Shm.
Export (hints) Shm.

Module Gd.

(** [slots] is the memory of the array [clds], of which the first [nums] are elements *)
Record gptpclock_data := mk {
  slots : list Od.oneclock_data_t;
  nums : nat;
  shm : Shm.gptp_master_clock_shm_t;
  pdd : list Pdd.per_domain_data_t;
  active_domain_switch : Z
}.
#[export] Instance eta_gptpclock_data : Eta gptpclock_data :=
  fields! mk [slots, nums, shm, pdd, active_domain_switch].

End Gd.
Export (hints) Gd.

(** writes to the status part of the database *)
Inductive db_write :=
| DbGmState (domain ts64 gmstate : Z)   (* IEEE1588_PTP_TT_GMSTATE_TS64 and _GMSTATE *)
| DbAdjRate (clock domain ppb : Z).     (* IEEE1588_PTP_TT_ADJRATE *)

Module GC.
Section GC.
Context `{DEV : PtpDev} `{CV : Conversions} `{CF : Config}.

Record st := mkst { gcd : Gd.gptpclock_data; wrld : world; db : list db_write }.
#[export] Instance eta_st : Eta st := fields! mkst [gcd, wrld, db].

(** A call: a result and the new state, or None when it uses memory outside the
    array, the shared memory or the per-domain data. *)
Definition M (A : Type) : Type := st -> option (A * st).
#[export] Instance M_ret : MRet M := fun A a s => Some (a, s).
#[export] Instance M_bind : MBind M := fun A B f m s =>
  match m s with Some (a, s') => f a s' | None => None end.

Definition get : M Gd.gptpclock_data := fun s => Some (gcd s, s).
Definition modify (f : Gd.gptpclock_data -> Gd.gptpclock_data) : M unit :=
  fun s => Some (tt, s <| gcd ::= f |>).
Definition lift {A} (o : option A) : M A := fun s => a ← o; Some (a, s).
Definition wr_db (e : db_write) : M unit := fun s => Some (tt, s <| db ::= fun l => l ++ [e] |>).
Definition act {A} (f : world -> A * world) : M A :=
  fun s => let (a, w) := f (wrld s) in Some (a, s <| wrld := w |>).
Definition act_ (f : world -> world) : M unit := act (fun w => (tt, f w)).

(** *** Memory *)

Definition od_at (p : nat) : M Od.oneclock_data_t := fun s =>
  od ← Gd.slots (gcd s) !! p; Some (od, s).

Definition set_od (p : nat) (f : Od.oneclock_data_t -> Od.oneclock_data_t) : M unit := fun s =>
  _ ← Gd.slots (gcd s) !! p; Some (tt, s <| gcd; Gd.slots ::= alter f p |>).

Definition shm_entry (g : Gd.gptpclock_data) (d : Z) : option Pp.gptp_clock_ppara_t :=
  if 0 <=? d then Shm.gcpp (Gd.shm g) !! Z.to_nat d else None.

(** [*od->pp] *)
Definition pp_of (g : Gd.gptpclock_data) (r : ppref) : option Pp.gptp_clock_ppara_t :=
  match r with
  | PpEle i => Od.ppe <$> Gd.slots g !! i
  | PpShm d => shm_entry g d
  end.

Definition alter_pp (f : Pp.gptp_clock_ppara_t -> Pp.gptp_clock_ppara_t) (r : ppref)
    (g : Gd.gptpclock_data) : Gd.gptpclock_data :=
  match r with
  | PpEle i => g <| Gd.slots ::= alter (fun od => od <| Od.ppe ::= f |>) i |>
  | PpShm d => g <| Gd.shm; Shm.gcpp ::= alter f (Z.to_nat d) |>
  end.

Definition set_pp (r : ppref) (f : Pp.gptp_clock_ppara_t -> Pp.gptp_clock_ppara_t) : M unit := fun s =>
  _ ← pp_of (gcd s) r; Some (tt, s <| gcd ::= alter_pp f r |>).

Definition pp_at (p : nat) : M Pp.gptp_clock_ppara_t := fun s =>
  od ← Gd.slots (gcd s) !! p; x ← pp_of (gcd s) (Od.pp od); Some (x, s).

(** [od->pp->...] of the element at [p] is set *)
Definition set_od_pp (p : nat) (f : Pp.gptp_clock_ppara_t -> Pp.gptp_clock_ppara_t) : M unit :=
  od ← od_at p; set_pp (Od.pp od) f.

(** [gcd->pdd[d]] *)
Definition pdd_of (g : Gd.gptpclock_data) (d : Z) : option Pdd.per_domain_data_t :=
  if 0 <=? d then Gd.pdd g !! Z.to_nat d else None.
Definition pdd_at (d : Z) : M Pdd.per_domain_data_t := fun s =>
  x ← pdd_of (gcd s) d; Some (x, s).
Definition set_pdd (d : Z) (f : Pdd.per_domain_data_t -> Pdd.per_domain_data_t) : M unit := fun s =>
  _ ← pdd_of (gcd s) d; Some (tt, s <| gcd; Gd.pdd ::= alter f (Z.to_nat d) |>).

(** *** Finding an entity *)

(** the loop of get_clockod from element [i] on, [n] elements left *)
Fixpoint find_od (n i : nat) (ci di : Z) (g : Gd.gptpclock_data) : option (option nat) :=
  match n with
  | O => Some None
  | S n =>
      od ← Gd.slots g !! i;
      if negb (Od.clockIndex od =? ci) then find_od n (S i) ci di g
      else
        x ← pp_of g (Od.pp od);
        if negb (Pp.domainIndex x =? di) then find_od n (S i) ci di g
        else Some (Some i)
  end.

(** the parameter [domainIndex] is a uint8_t *)
Definition get_clockod (g : Gd.gptpclock_data) (clockIndex domainIndex : Z) : option (option nat) :=
  find_od (Gd.nums g) 0 clockIndex (u8 domainIndex) g.

Definition clockod (clockIndex domainIndex : Z) : M (option nat) := fun s =>
  o ← get_clockod (gcd s) clockIndex domainIndex; Some (o, s).

(** GPTPCLOCK_FN_ENTRY: without the entity or its device the function returns -1 *)
Definition FN_ENTRY (clockIndex domainIndex : Z) (k : nat -> M Z) : M Z :=
  o ← clockod clockIndex domainIndex;
  match o with
  | None => mret (-1)
  | Some p => od ← od_at p; if PTPFD_VALID (Od.ptpfd od) then k p else mret (-1)
  end.

(** GPTP_CLOCK_GETTIME(fd, ts64): the target keeps its value when the device fails *)
Definition GPTP_CLOCK_GETTIME (fd old : Z) : M Z :=
  o ← act (ptpdev_clock_gettime fd); mret (default old o).
Definition GPTP_CLOCK_SETOFFSET (fd offset64 : Z) : M unit := act_ (ptpdev_clock_setoffset fd offset64).

Definition is_mode (m : ptpclock_mode_t) (od : Od.oneclock_data_t) : bool := bool_decide (Od.mode od = m).
Definition nonzero (d : double) : bool := negb (SFeqb d d0).

(** *** Reading and setting time *)

(** the software rate applied to the time since the last setting *)
Definition sw_rate (rate : double) (last ts : Z) : Z :=
  d_to_int 64 (dmul rate (d_of_Z (i64 (ts - last)))).

(** the time an entity shows when its device shows [ts] *)
Definition clock_time (od : Od.oneclock_data_t) (ts : Z) : Z :=
  let dts64 := if nonzero (Od.adjrate od) && is_mode PTPCLOCK_SLAVE_SUB od
               then sw_rate (Od.adjrate od) (Od.last_setts64 od) ts else 0 in
  i64 (i64 (ts + Od.offset64 od) + dts64).

Definition gptpclock_getts_od (ts64 : Z) (p : nat) : M Z :=
  od ← od_at p;
  ts64 ← GPTP_CLOCK_GETTIME (Od.ptpfd od) ts64;
  mret (clock_time od ts64).

Definition gptpclock_setoffset_od (p : nat) : M Z :=
  od ← od_at p;
  if is_mode PTPCLOCK_SLAVE_MAIN od then mret (-1)
  else
    ppd ← pp_at p;
    od0 ← clockod 0 (Pp.domainIndex ppd);
    pd ← pdd_at (Od.domainIndex od);
    odt ← clockod (Pdd.thisClockIndex pd) (Pp.domainIndex ppd);
    if is_mode PTPCLOCK_MASTER od then
      match odt with
      | Some t =>
          if bool_decide (od0 = Some p) then
            tod ← od_at t;
            _ ← set_od_pp p (fun x => x <| Pp.offset64 := i64 (Od.offset64 od + Od.offset64 tod) |>);
            mret 0
          else mret 0
      | None => mret 0
      end
    else
      match od0 with
      | Some z =>
          if bool_decide (odt = Some p) then
            _ ← set_od_pp z (fun x => x <| Pp.last_setts64 := Od.last_setts64 od |>);
            zod ← od_at z;
            _ ← set_od_pp z (fun x => x <| Pp.offset64 := i64 (Od.offset64 zod + Od.offset64 od) |>);
            mret 0
          else mret 0
      | None => mret 0
      end.

Definition gptpclock_setts_offset_od (offset64 : Z) (p : nat) : M Z :=
  od ← od_at p;
  ts ← GPTP_CLOCK_GETTIME (Od.ptpfd od) (Od.last_setts64 od);
  _ ← set_od p (fun od => od <| Od.last_setts64 := ts |>);
  _ ← set_od p (fun od => od <| Od.offset64 := offset64 |>);
  if is_mode PTPCLOCK_SLAVE_MAIN od then
    _ ← set_od p (fun od => od <| Od.offset64 := 0 |>);
    _ ← GPTP_CLOCK_SETOFFSET (Od.ptpfd od) offset64;
    mret 0
  else
    _ ← gptpclock_setoffset_od p;
    mret 0.

Definition gptpclock_setts_od (ts64 : Z) (p : nat) : M Z :=
  od ← od_at p;
  cts64 ← GPTP_CLOCK_GETTIME (Od.ptpfd od) uninitialised;
  _ ← gptpclock_setts_offset_od (i64 (ts64 - cts64)) p;
  mret 0.

Definition time_setoffset64 (offset64 clockIndex domainIndex : Z) : M Z :=
  FN_ENTRY clockIndex domainIndex (fun p =>
    _ ← gptpclock_setts_offset_od offset64 p;
    mret 0).

Definition avarage_time_setoffset (clockIndex domainIndex : Z) : Z := 0.

Definition gptpclock_apply_offset (ts64 clockIndex domainIndex : Z) : M (Z * Z) :=
  o ← clockod clockIndex domainIndex;
  match o with
  | None => mret (-1, ts64)
  | Some p =>
      od ← od_at p;
      if PTPFD_VALID (Od.ptpfd od) then mret (0, i64 (ts64 + Od.offset64 od)) else mret (-1, ts64)
  end.

Definition gptpclock_getts64 (clockIndex domainIndex : Z) : M Z :=
  FN_ENTRY clockIndex domainIndex (fun p => gptpclock_getts_od (-1) p).

Definition gptpclock_gethwts64 (clockIndex domainIndex : Z) : M Z :=
  FN_ENTRY clockIndex domainIndex (fun p =>
    od ← od_at p; GPTP_CLOCK_GETTIME (Od.ptpfd od) uninitialised).

Definition gptpclock_setts64 (ts64 clockIndex domainIndex : Z) : M Z :=
  FN_ENTRY clockIndex domainIndex (fun p => gptpclock_setts_od ts64 p).

Definition gptpclock_setoffset64 (ts64 clockIndex domainIndex : Z) : M Z :=
  FN_ENTRY clockIndex domainIndex (fun p =>
    od ← od_at p;
    if negb (is_mode PTPCLOCK_SLAVE_MAIN od) then
      _ ← set_od p (fun od => od <| Od.offset64 := ts64 |>);
      _ ← gptpclock_setoffset_od p;
      mret 0
    else if 0 <? Od.ts2diff od then
      r ← time_setoffset64 (i64 (Z.quot (Od.ts2diff od) 2 + ts64)) clockIndex domainIndex;
      if i32 (Od.ts2diff od * 10) <? r then mret (-1) else mret 0
    else
      _ ← time_setoffset64 ts64 clockIndex domainIndex;
      mret 0).

(** the last lines of gptpclock_setadj: the value is kept and written to the database *)
Definition record_adj (adjvppb clockIndex : Z) (p : nat) : M Z :=
  _ ← set_od p (fun od => od <| Od.adjvppb := adjvppb |>);
  od ← od_at p;
  _ ← wr_db (DbAdjRate clockIndex (Od.domainIndex od) adjvppb);
  mret 0.

(** case PTPCLOCK_SLAVE_SUB: the offset is set anew so that the new rate starts from now *)
Definition restart_rate (clockIndex domainIndex : Z) (p : nat) : M unit :=
  od ← od_at p;
  if 0 <? Od.ts2diff od then
    _ ← time_setoffset64 (Z.quot (Od.ts2diff od) 2) clockIndex domainIndex;
    mret tt
  else
    ts ← gptpclock_getts_od uninitialised p;
    _ ← gptpclock_setts_od ts p;
    mret tt.

Definition gptpclock_setadj (adjvppb clockIndex domainIndex : Z) : M Z :=
  FN_ENTRY clockIndex domainIndex (fun p =>
    od ← od_at p;
    pd ← pdd_at (Od.domainIndex od);
    _ ← (if Pdd.thisClockIndex pd =? clockIndex then
           set_pdd (Od.domainIndex od) (fun pd => pd <| Pdd.thisClock_adjppb := adjvppb |>)
         else mret tt);
    match Od.mode od with
    | PTPCLOCK_SLAVE_MAIN =>
        r ← act (ptpdev_clock_adjtime (Od.ptpfd od) adjvppb);
        if r <? 0 then mret (-1) else record_adj adjvppb clockIndex p
    | PTPCLOCK_MASTER => mret (-1)
    | PTPCLOCK_SLAVE_SUB =>
        _ ← restart_rate clockIndex domainIndex p;
        let rate := ddiv (d_of_Z adjvppb) (d_of_Z 1000000000) in
        _ ← set_od p (fun od => od <| Od.adjrate := rate |>);
        od0 ← clockod 0 domainIndex;
        match od0 with
        | None => mret (-1)
        | Some z =>
            _ ← set_od_pp z (fun x => x <| Pp.adjrate := rate |>);
            record_adj adjvppb clockIndex p
        end
    end).

(** *** Modes *)

Definition gptpclock_mode_master (clockIndex domainIndex : Z) : M Z :=
  FN_ENTRY clockIndex domainIndex (fun p =>
    _ ← set_od p (fun od => od <| Od.mode := PTPCLOCK_MASTER |>); mret 0).

(** the loop over all entities: is the same clock SLAVE_MAIN in another domain? *)
Fixpoint main_elsewhere (n i : nat) (clockIndex domainIndex : Z) : M bool :=
  match n with
  | O => mret false
  | S n =>
      od1 ← od_at i;
      if negb (Od.clockIndex od1 =? clockIndex) then main_elsewhere n (S i) clockIndex domainIndex
      else
        x ← pp_at i;
        if Pp.domainIndex x =? domainIndex then main_elsewhere n (S i) clockIndex domainIndex
        else if is_mode PTPCLOCK_SLAVE_MAIN od1 then mret true
        else main_elsewhere n (S i) clockIndex domainIndex
  end.

Definition gptpclock_mode_slave_main (clockIndex domainIndex : Z) : M Z :=
  FN_ENTRY clockIndex domainIndex (fun p =>
    g ← get;
    od ← od_at p;
    x ← pp_at p;
    b ← main_elsewhere (Gd.nums g) 0 (Od.clockIndex od) (Pp.domainIndex x);
    if (b : bool) then mret (-1)
    else
      _ ← set_od p (fun od => od <| Od.mode := PTPCLOCK_SLAVE_MAIN |>);
      _ ← set_od p (fun od => od <| Od.adjrate := d0 |>);
      FN_ENTRY 0 domainIndex (fun z =>
        _ ← set_od_pp z (fun x => x <| Pp.adjrate := d0 |>);
        zod ← od_at z;
        _ ← set_od_pp z (fun x => x <| Pp.offset64 := Od.offset64 zod |>);
        mret 0)).

Definition gptpclock_mode_slave_sub (clockIndex domainIndex : Z) : M Z :=
  FN_ENTRY clockIndex domainIndex (fun p =>
    _ ← set_od p (fun od => od <| Od.mode := PTPCLOCK_SLAVE_SUB |>); mret 0).

(** *** Conversion between clocks *)

(** a result and what is stored through the pointer parameter *)
Definition diff_in_two_clocks (tss64 : Z) (p p1 : nat) : M (Z * Z) :=
  ts1 ← gptpclock_getts_od (-1) p;
  ts2 ← gptpclock_getts_od (-1) p1;
  ts3 ← gptpclock_getts_od (-1) p;
  od ← od_at p;
  let ts3 := Z.quot (i64 (ts3 - ts1)) 2 in
  if (0 <? Od.ts2diff od) && (i32 (Od.ts2diff od * 10) <? ts3) then mret (-1, tss64)
  else mret (0, i64 (i64 (ts2 - ts1) - ts3)).

Definition gptpclock_convert (ts64 : Z) (p p1 : nat) : M (Z * Z) :=
  d ← diff_in_two_clocks uninitialised p p1;
  if fst d =? 0 then mret (0, i64 (ts64 + snd d))
  else
    d ← diff_in_two_clocks (snd d) p p1;
    if fst d =? 0 then mret (0, i64 (ts64 + snd d)) else mret (-1, ts64).

(** the entry test of a function that also stores through [ts64] *)
Definition ENTRY2 (ts64 clockIndex domainIndex : Z) (k : nat -> M (Z * Z)) : M (Z * Z) :=
  o ← clockod clockIndex domainIndex;
  match o with
  | None => mret (-1, ts64)
  | Some p => od ← od_at p; if PTPFD_VALID (Od.ptpfd od) then k p else mret (-1, ts64)
  end.

Definition gptpclock_tsconv (ts64 clockIndex domainIndex clockIndex1 domainIndex1 : Z) : M (Z * Z) :=
  if (clockIndex =? clockIndex1) && (domainIndex =? domainIndex1) then mret (0, ts64)
  else ENTRY2 ts64 clockIndex1 domainIndex1 (fun p1 =>
    od1 ← od_at p1;
    if (clockIndex =? clockIndex1) && negb (is_mode PTPCLOCK_SLAVE_SUB od1) then mret (0, ts64)
    else ENTRY2 ts64 clockIndex domainIndex (fun p => gptpclock_convert ts64 p p1)).

Definition gptpclock_d0ClockfromRT (clockIndex : Z) : M Z :=
  FN_ENTRY clockIndex 0 (fun p =>
    ts1 ← gptpclock_getts_od (-1) p;
    ts2 ← act ub_rt_gettime64;
    ts3 ← gptpclock_getts_od (-1) p;
    let ts3 := Z.quot (i64 (ts3 - ts1)) 2 in
    mret (i64 (i64 (ts1 - ts2) + ts3))).

Definition gptpclock_clockid (clockIndex domainIndex : Z) : M (option (list Z)) :=
  o ← clockod clockIndex domainIndex;
  match o with None => mret None | Some p => od ← od_at p; mret (Some (Od.clockId od)) end.

(** 0: the two clocks run at the same rate *)
Definition gptpclock_rate_same (clockIndex domainIndex clockIndex1 domainIndex1 : Z) : M Z :=
  o ← clockod clockIndex domainIndex;
  match o with
  | None => mret (-1)
  | Some p =>
      o1 ← clockod clockIndex1 domainIndex1;
      match o1 with
      | None => mret (-1)
      | Some p1 =>
          od ← od_at p; x ← pp_at p; od1 ← od_at p1; x1 ← pp_at p1;
          let sub := is_mode PTPCLOCK_SLAVE_SUB in
          if bool_decide (Pp.ptpdev x = Pp.ptpdev x1) then
            if negb (sub od) && negb (sub od1) then mret 0
            else if negb (nonzero (Od.adjrate od)) && negb (nonzero (Od.adjrate od1)) then mret 0
            else if negb (nonzero (Od.adjrate od)) && negb (sub od1) then mret 0
            else if negb (nonzero (Od.adjrate od1)) && negb (sub od) then mret 0
            else mret 1
          else mret 1
      end
  end.

(** *** Synchronisation status, grandmaster change, active domain *)

Definition switch_active_domain (di : Z) : M Z :=
  g ← get;
  if Shm.active_domain (Gd.shm g) =? di then mret 1
  else _ ← modify (fun g => g <| Gd.shm; Shm.active_domain := di |>); mret 0.

(** for(i=0;i<max_domains;i++) *)
Fixpoint first_stable (n : nat) (i : Z) : M Z :=
  match n with
  | O => mret (-1)
  | S n =>
      FN_ENTRY 0 i (fun p =>
        x ← pp_at p;
        if Pp.gmsync x =? GMSYNC_SYNC_STABLE then switch_active_domain i else first_stable n (i + 1))
  end.

Definition gptpclock_update_active_domain : M Z :=
  g ← get;
  if 0 <=? Gd.active_domain_switch g then switch_active_domain (Gd.active_domain_switch g)
  else if ACTIVE_DOMAIN_AUTO_SWITCH =? 0 then mret 0
  else FN_ENTRY 0 (Shm.active_domain (Gd.shm g)) (fun p =>
    x ← pp_at p;
    if (Pp.gmsync x =? GMSYNC_SYNC_STABLE) && (ACTIVE_DOMAIN_AUTO_SWITCH =? 1) then mret 0
    else first_stable (Z.to_nat (Shm.max_domains (Gd.shm g))) 0).

Definition adjust_GM_btw_domains (domainIndex : Z) : M Z :=
  FN_ENTRY 0 0 (fun p =>
  FN_ENTRY 0 domainIndex (fun p1 =>
    od1 ← od_at p1;
    pd0 ← pdd_at 0;
    pd1 ← pdd_at (Od.domainIndex od1);
    if negb (Pdd.thisClockIndex pd0 =? Pdd.thisClockIndex pd1) then
      ts64 ← gptpclock_getts_od (-1) p;
      _ ← gptpclock_setts_od ts64 p1;
      mret 0
    else
      _ ← set_od p1 (fun od => od <| Od.adjrate := d0 |>);
      _ ← set_od_pp p1 (fun x => x <| Pp.adjrate := d0 |>);
      od ← od_at p;
      _ ← set_od p1 (fun o => o <| Od.offset64 := Od.offset64 od |>);
      x ← pp_at p;
      _ ← set_od_pp p1 (fun y => y <| Pp.offset64 := Pp.offset64 x |>);
      mret 0)).

Definition gptpclock_active_domain_switch (domainIndex : Z) : M Z :=
  _ ← modify (fun g => g <| Gd.active_domain_switch := domainIndex |>);
  g ← get;
  if (domainIndex <? 0) || (Shm.max_domains (Gd.shm g) <=? domainIndex) then mret 0
  else switch_active_domain domainIndex.

Definition gptpclock_active_domain_status : M Z := g ← get; mret (Shm.active_domain (Gd.shm g)).
Definition gptpclock_active_domain : M Z := g ← get; mret (Shm.active_domain (Gd.shm g)).

Definition gptpclock_we_are_gm (domainIndex : Z) : M bool :=
  pd ← pdd_at domainIndex; mret (Pdd.we_are_gm pd).

Definition gptpclock_set_gmchange (domainIndex : Z) (gmIdentity : list Z) (becomeGM : bool) : M Z :=
  FN_ENTRY 0 domainIndex (fun p =>
    od ← od_at p;
    pd ← pdd_at (Od.domainIndex od);
    if bool_decide (Pdd.gmClockId pd = gmIdentity) then mret 0
    else
      _ ← set_od_pp p (fun x => x <| Pp.gmchange_ind ::= fun z => u32 (z + 1) |>);
      _ ← set_pdd (Od.domainIndex od) (fun pd => pd <| Pdd.gmClockId := gmIdentity |>);
      if becomeGM then
        _ ← set_pdd (Od.domainIndex od) (fun pd => pd <| Pdd.we_are_gm := true |>);
        _ ← (if negb (u8 domainIndex =? 0) then _ ← adjust_GM_btw_domains domainIndex; mret tt
             else mret tt);
        _ ← (if negb (RESET_FREQADJ_BECOMEGM =? 0) then
               pd ← pdd_at (Od.domainIndex od);
               _ ← gptpclock_setadj 0 (Pdd.thisClockIndex pd) domainIndex;
               mret tt
             else mret tt);
        mret 0
      else
        _ ← set_pdd (Od.domainIndex od) (fun pd => pd <| Pdd.we_are_gm := false |>);
        mret 0).

(** [od->pp->gmsync] of the master clock, -1 without one *)
Definition get_gmsync (domainIndex : Z) : M Z :=
  FN_ENTRY 0 domainIndex (fun p => x ← pp_at p; mret (Pp.gmsync x)).

Definition gptpclock_get_gmsync (domainIndex : Z) : M Z :=
  status ← get_gmsync domainIndex;
  mret (if status <? 0 then GMSYNC_UNSYNC else status).

(** GPTP_GET_TS64 *)
Definition GPTP_GET_TS64 (domainIndex : Z) : M Z :=
  st ← gptpclock_get_gmsync domainIndex;
  (* the arguments of gptpclock_getts64 are (domainIndex, 0): clock and domain swapped *)
  if negb (st =? 0) then gptpclock_getts64 domainIndex 0 else act ub_mt_gettime64.

Definition gptpclock_set_gmsync (domainIndex gmstate : Z) : M Z :=
  FN_ENTRY 0 domainIndex (fun p =>
    x ← pp_at p;
    if Pp.gmsync x =? gmstate then mret 0
    else
      _ ← set_od_pp p (fun x => x <| Pp.gmsync := u8 gmstate |>);
      _ ← gptpclock_update_active_domain;
      ts64 ← GPTP_GET_TS64 domainIndex;
      _ ← wr_db (DbGmState (u8 domainIndex) ts64 gmstate);
      mret 0).

Definition gptpclock_get_gmchange_ind (domainIndex : Z) : M Z :=
  FN_ENTRY 0 domainIndex (fun p => x ← pp_at p; mret (i32 (Pp.gmchange_ind x))).

Definition gptpclock_get_adjppb (clockIndex domainIndex : Z) : M Z :=
  o ← clockod clockIndex domainIndex;
  match o with
  | None => mret 0
  | Some p =>
      od ← od_at p;
      if clockIndex =? 0 then pd ← pdd_at (Od.domainIndex od); mret (Pdd.thisClock_adjppb pd)
      else mret (Od.adjvppb od)
  end.

(** *** Adding and deleting entities *)

(** ub_esarray_get_newele: the array has its maximal size from the start *)
Definition new_slot : M (option nat) := fun s =>
  let g := gcd s in
  if (length (Gd.slots g) <=? Gd.nums g)%nat then Some (None, s)
  else Some (Some (Gd.nums g), s <| gcd; Gd.nums := S (Gd.nums g) |>).

(** ub_esarray_del_pointer: the later elements move down by one, the last place keeps its bytes *)
Definition del_slot (i : nat) (g : Gd.gptpclock_data) : Gd.gptpclock_data :=
  if (i <? Gd.nums g)%nat then
    g <| Gd.slots ::= fun l => take i l ++ take (Gd.nums g - 1 - i) (drop (S i) l) ++ drop (Gd.nums g - 1) l |>
      <| Gd.nums := (Gd.nums g - 1)%nat |>
  else g.

Definition gptp_get_ptpfd (ptpdev : list Z) : M (ptpclock_state_t * Z) :=
  fd ← act (ptpdev_clock_open ptpdev);
  mret (if PTPFD_VALID fd then PTPCLOCK_RDWR else PTPCLOCK_NOWORK, fd).

Definition gptpclock_del_clock (clockIndex domainIndex : Z) : M Z :=
  o ← clockod clockIndex domainIndex;
  match o with
  | Some p =>
      od ← od_at p;
      _ ← (if PTPFD_VALID (Od.ptpfd od) then act_ (ptpdev_clock_close (Od.ptpfd od)) else mret tt);
      _ ← modify (del_slot p);
      mret 0
  | None => mret (-1)
  end.

(** the loop that looks for an entity with the same indexes (the domain not cut to 8 bits) *)
Definition exists_od (clockIndex domainIndex : Z) : M bool := fun s =>
  o ← find_od (Gd.nums (gcd s)) 0 clockIndex domainIndex (gcd s);
  Some (match o with Some _ => true | None => false end, s).

(** the new element at [p], before its device is opened *)
Definition fresh_od (p : nat) (clockIndex domainIndex : Z) (id : list Z) : M unit :=
  let r := if negb (clockIndex =? 0) then PpEle p else PpShm domainIndex in
  _ ← set_od p (fun _ => Od.zero r);
  _ ← (if negb (clockIndex =? 0) then mret tt
       else set_pp r (fun _ => Pp.zero <| Pp.gmchange_ind := 1 |>));
  _ ← set_od p (fun od => od <| Od.clockIndex := clockIndex |>);
  _ ← set_od_pp p (fun x => x <| Pp.domainIndex := u8 domainIndex |>);
  _ ← set_od p (fun od => od <| Od.domainIndex := domainIndex |>);
  set_od p (fun od => od <| Od.clockId := id |>).

(** the rest of its data *)
Definition name_od (p : nat) (clockIndex : Z) (ptpdev : list Z) (domainIndex : Z) : M Z :=
  _ ← set_od_pp p (fun x => x <| Pp.ptpdev := take (MAX_PTPDEV_NAME - 1) ptpdev |>);
  _ ← set_od p (fun od => od <| Od.ts2diff := avarage_time_setoffset clockIndex domainIndex |>);
  _ ← set_od_pp p (fun x => x <| Pp.offset64 := 0 |>);
  _ ← set_od p (fun od => od <| Od.offset64 := 0 |>);
  mret 0.

(** its device: an entity without one is deleted again *)
Definition open_od (p : nat) (clockIndex : Z) (ptpdev : list Z) (domainIndex : Z) : M Z :=
  q ← gptp_get_ptpfd ptpdev;
  _ ← set_od p (fun od => od <| Od.state := fst q |> <| Od.ptpfd := snd q |>);
  if bool_decide (fst q = PTPCLOCK_RDWR \/ fst q = PTPCLOCK_RDONLY) then
    name_od p clockIndex ptpdev domainIndex
  else
    _ ← set_od p (fun od => od <| Od.ptpfd := PTPFD_INVALID |>);
    _ ← gptpclock_del_clock clockIndex domainIndex;
    mret (-1).

Definition gptpclock_add_clock (clockIndex : Z) (ptpdev : list Z) (domainIndex : Z) (id : list Z) : M Z :=
  b ← exists_od clockIndex domainIndex;
  if (b : bool) then mret (-1)
  else
    ts64 ← GPTP_GET_TS64 domainIndex;
    _ ← wr_db (DbGmState domainIndex ts64 0);
    o ← new_slot;
    match o with
    | None => mret (-1)
    | Some p =>
        _ ← fresh_od p clockIndex domainIndex id;
        open_od p clockIndex ptpdev domainIndex
    end.

(** the structures of an instance; the shared memory and its mutex could be made *)
Definition gptpclock_init (max_domains max_ports : Z) : Gd.gptpclock_data :=
  Gd.mk (replicate (Z.to_nat (max_domains * max_ports)) (Od.zero (PpEle 0))) 0
        (Shm.mk max_domains 0 (replicate (Z.to_nat max_domains) Pp.zero))
        (replicate (Z.to_nat max_domains) Pdd.zero) (-1).

(** the loop of gptpclock_close: every element is taken off, a SLAVE_MAIN clock gets its rate
    back and the devices are closed *)
Fixpoint close_clocks (n : nat) : M unit :=
  match n with
  | O => mret tt
  | S n =>
      od ← od_at 0;
      _ ← modify (del_slot 0);
      _ ← (if is_mode PTPCLOCK_SLAVE_MAIN od then
             _ ← act (ptpdev_clock_adjtime (Od.ptpfd od) 0); mret tt else mret tt);
      _ ← (if PTPFD_VALID (Od.ptpfd od) then act_ (ptpdev_clock_close (Od.ptpfd od)) else mret tt);
      close_clocks n
  end.
Definition gptpclock_close : M unit :=
  g ← get;
  _ ← close_clocks (Gd.nums g);
  modify (fun g => g <| Gd.shm; Shm.max_domains := 0 |>).

(** *** The clock of the domain *)

(** the branch of a device that can be adjusted: the offsets move into the device *)
Definition main_clock_para (adjrate : double) (clockIndex domainIndex : Z) (p m : nat) : M unit :=
  od ← od_at p;
  _ ← (if negb (Od.offset64 od =? 0) then
         _ ← gptpclock_setoffset64 (Od.offset64 od) clockIndex domainIndex; mret tt else mret tt);
  _ ← (if nonzero adjrate then
         _ ← gptpclock_setadj (d_to_int 32 (dmul adjrate (d_of_Z UB_SEC_NS))) clockIndex domainIndex;
         mret tt else mret tt);
  mod_ ← od_at m;
  _ ← gptpclock_setoffset64 (Od.offset64 mod_) clockIndex domainIndex;
  mret tt.

Definition sub_clock_para (p m : nat) : M unit :=
  od ← od_at p; mod_ ← od_at m;
  set_od p (fun od' => od' <| Od.offset64 := i64 (Od.offset64 od + Od.offset64 mod_) |>).

Definition gptpclock_set_thisClock (clockIndex domainIndex : Z) (set_clock_para : bool) : M Z :=
  if clockIndex =? 0 then mret (-1)
  else
    o ← clockod clockIndex domainIndex;
    match o with
    | None => mret (-1)
    | Some p =>
        om ← clockod 0 domainIndex;
        match om with
        | None => mret (-1)
        | Some m =>
            x ← pp_at p; y ← pp_at m;
            if negb (bool_decide (Pp.ptpdev x = Pp.ptpdev y)) then mret (-1)
            else
              od ← od_at p;
              _ ← set_pdd (Od.domainIndex od) (fun pd => pd <| Pdd.thisClockIndex := clockIndex |>);
              _ ← set_od m (fun o => o <| Od.mode := PTPCLOCK_MASTER |>);
              od ← od_at p;
              r ← (if bool_decide (Od.state od = PTPCLOCK_RDWR) then
                     gptpclock_mode_slave_main clockIndex domainIndex else mret 1);
              _ ← (if r =? 0 then mret 0 else gptpclock_mode_slave_sub clockIndex domainIndex);
              if negb set_clock_para then mret 0
              else
                _ ← (if r =? 0 then main_clock_para (Od.adjrate od) clockIndex domainIndex p m
                     else sub_clock_para p m);
                _ ← set_od m (fun o => o <| Od.offset64 := 0 |>);
                mod_ ← od_at m;
                od ← od_at p;
                _ ← set_od_pp m (fun x => x <| Pp.offset64 := i64 (Od.offset64 mod_ + Od.offset64 od) |>);
                mret 0
        end
    end.
End GC.
End GC.

(** ** gptpmasterclock.c: the time an application reads *)
Module GMC.
Section GMC.
Context `{DEV : PtpDev} `{CV : Conversions}.

(** the shared memory is mapped and the device of every domain is open: [ptpfds] *)
Record gptp_master_clock_data := mk {
  max_domains : Z;
  shm : Shm.gptp_master_clock_shm_t;
  ptpfds : list Z
}.

Definition entry (gmcd : gptp_master_clock_data) (d : Z) : option Pp.gptp_clock_ppara_t :=
  if 0 <=? d then Shm.gcpp (shm gmcd) !! Z.to_nat d else None.

(** the value computed from a device reading [ts]: with a rate, the addition is in double *)
Definition domain_time (x : Pp.gptp_clock_ppara_t) (ts : Z) : Z :=
  let dts := i64 (ts - Pp.last_setts64 x) in
  let ts' := i64 (ts + Pp.offset64 x) in
  if GC.nonzero (Pp.adjrate x)
  then d_to_int 64 (dadd (d_of_Z ts') (dmul (d_of_Z dts) (Pp.adjrate x)))
  else ts'.

(** after the health check; None: -1 *)
Definition gptpmasterclock_get_domain_ts64 (old domainIndex : Z) (gmcd : gptp_master_clock_data)
    (w : world) : option Z * world :=
  if (domainIndex <? 0) || (max_domains gmcd <=? domainIndex) then (None, w)
  else match ptpfds gmcd !! Z.to_nat domainIndex, entry gmcd domainIndex with
       | Some fd, Some x =>
           let (o, w) := ptpdev_clock_gettime fd w in
           (Some (domain_time x (default old o)), w)
       | _, _ => (None, w)
       end.

Definition gptpmasterclock_getts64 (gmcd : gptp_master_clock_data) (w : world) : Z * world :=
  let (o, w) := gptpmasterclock_get_domain_ts64 uninitialised (Shm.active_domain (shm gmcd)) gmcd w in
  (default (-1) o, w).

Definition gptpmasterclock_gm_domainIndex (gmcd : gptp_master_clock_data) : Z :=
  Shm.active_domain (shm gmcd).

Definition gptpmasterclock_gmchange_ind (gmcd : gptp_master_clock_data) : option Z :=
  let i := gptpmasterclock_gm_domainIndex gmcd in
  if i <? 0 then Some (-1) else i32 ∘ Pp.gmchange_ind <$> entry gmcd i.

Definition gptpmasterclock_get_max_domains (gmcd : gptp_master_clock_data) : Z := max_domains gmcd.

(** the time whose low 32 bits are [timestamp], near [ts64] *)
Definition gptpmasterclock_expand_timestamp_ts64 (timestamp ts64 : Z) : Z :=
  let dtime := i64 (timestamp - Z.land ts64 0xffffffff) in
  if 2147483647 <? dtime then u64 (i64 (i64 (i64 (ts64 + -2147483648) + dtime) - 2147483648))
  else if dtime <? -2147483648 then u64 (i64 (i64 (i64 (ts64 + 2147483647) + dtime) - -2147483649))
  else u64 (i64 (ts64 + dtime)).

Definition gptpmasterclock_expand_timestamp (timestamp : Z) (gmcd : gptp_master_clock_data) (w : world)
  : Z * world :=
  let (ts64, w) := gptpmasterclock_getts64 gmcd w in
  (gptpmasterclock_expand_timestamp_ts64 timestamp ts64, w).

(** what gptpmasterclock_wait_until_ts64 decides: 1 passed, 2 very close, 3 too far, or the time to sleep *)
Definition gptpmasterclock_wait_until_ts64 (tts vclose toofar : Z) (gmcd : gptp_master_clock_data)
    (w : world) : (Z + Z) * world :=
  let (cts, w) := gptpmasterclock_getts64 gmcd w in
  let dts := i64 (tts - cts) in
  if dts <? 0 then (inl 1, w)
  else if dts <=? vclose then (inl 2, w)
  else if negb (toofar =? 0) && (toofar <=? dts) then (inl 3, w)
  else (inr dts, w).
End GMC.
End GMC.
