(* ===== verification/VirtualClock.v ===== *)
(** * VirtualClock: the software PTP devices of gptpclock_virtual.c.

    A virtual device advances with the real-time clock, at its own rate and, if
    its name allows adjustment, with the frequency adjustment and offsets it was
    given.  Devices are shared by name and counted.  The file also makes them an
    instance of [PtpDev], in which the theorems on the clock entities are tried. *)

From Stdlib Require Import SpecFloat.
From S2P Require Import Prelude Types Floats Common Clock Gptpclock.
From stdpp Require Import list.
#[local] Open Scope Z_scope.
#[local] Open Scope gptp_scope.

Module VC.

Definition GPTP_VIRTUAL_PTPDEV_FDBASE : Z := 3018.
Definition GPTP_VIRTUAL_PTPDEV_FDMAX : Z := 3117.
Definition PTPVDEV_MAX_NAME : nat := 16.
Definition MAX_VPTPD : nat := 100.
Definition CB_VIRTUAL_PTPDEV_PREFIX : list Z := [99; 98; 112; 116; 112].  (* cbptp *)

Record ptpfd_virtual := mk {
  ptpdev : list Z;
  fd : Z;
  freq_adj : Z;
  lastts : Z;
  lastpts : Z;
  rdwr_mode : bool;
  users : Z;
  vclkrate : Z
}.
#[export] Instance eta_ptpfd_virtual : Eta ptpfd_virtual :=
  fields! mk [ptpdev, fd, freq_adj, lastts, lastpts, rdwr_mode, users, vclkrate].

(** esvptpd: NULL until the first device is opened and after the last one is closed *)
Definition devices := option (list ptpfd_virtual).

Definition find_ptpfd_virtual (ptpfd : Z) (d : devices) : option (nat * ptpfd_virtual) :=
  l ← d; list_find (fun pv => fd pv = ptpfd) l.

Definition put (i : nat) (pv : ptpfd_virtual) (d : devices) : devices := (fun l => <[i := pv]> l) <$> d.

(** the loop over the devices: one of this name, or the largest handle *)
Fixpoint search (name : list Z) (fdmax : Z) (l : list ptpfd_virtual) (i : nat) : nat * ptpfd_virtual + Z :=
  match l with
  | [] => inr fdmax
  | pv :: l =>
      if bool_decide (ptpdev pv = name) then inl (i, pv)
      else search name (Z.max (fd pv) fdmax) l (S i)
  end.

(** [vclkrate]: the configured rate, XL4_EXTMOD_XL4GPTP_PTPVFD_CLOCK_RATE.  None: the array is
    full, and the new element, a null pointer, is written to *)
Definition gptp_vclock_alloc_fd (rate : Z) (name : list Z) (d : devices) : option (Z * devices) :=
  let l := default [] d in
  match search name (GPTP_VIRTUAL_PTPDEV_FDBASE - 1) l 0 with
  | inl (i, pv) => Some (fd pv, put i (pv <| users ::= fun n => n + 1 |>) (Some l))
  | inr fdmax =>
      if (MAX_VPTPD <=? length l)%nat then None
      else if GPTP_VIRTUAL_PTPDEV_FDMAX <? fdmax + 1 then Some (PTPFD_INVALID, Some l)
      else
        let pv := mk (take (PTPVDEV_MAX_NAME - 1) name) (fdmax + 1) 0 0 0
                     (bool_decide (name !! length CB_VIRTUAL_PTPDEV_PREFIX = Some 119)) 1 rate in
        Some (fdmax + 1, Some (l ++ [pv]))
  end.

Definition gptp_vclock_free_fd (ptpfd : Z) (d : devices) : Z * devices :=
  match find_ptpfd_virtual ptpfd d with
  | None => (-1, d)
  | Some (i, pv) =>
      if users pv - 1 =? 0 then
        (0, match delete i (default [] d) with [] => None | l => Some l end)
      else (0, put i (pv <| users ::= fun n => n - 1 |>) d)
  end.

(** [rt]: the value of ub_rt_gettime64 *)
Definition gptp_vclock_settime (rt ptpfd ts64 : Z) (d : devices) : Z * devices :=
  match find_ptpfd_virtual ptpfd d with
  | None => (-1, d)
  | Some (i, pv) =>
      if rdwr_mode pv then (0, put i (pv <| lastpts := ts64 |> <| lastts := rt |>) d) else (-1, d)
  end.

(** the time a device shows [rt - lastts] after its last reading *)
Definition vclock_advance (rt : Z) (pv : ptpfd_virtual) : Z :=
  let dts64 := i64 (rt - lastts pv) in
  let rate := if rdwr_mode pv then i32 (freq_adj pv + vclkrate pv) else vclkrate pv in
  let dpts64 := Z.quot (i64 (dts64 * rate)) UB_SEC_NS in
  i64 (i64 (i64 (lastpts pv) + dts64) + dpts64).

Definition gptp_vclock_gettime (rt ptpfd : Z) (d : devices) : Z * devices :=
  match find_ptpfd_virtual ptpfd d with
  | None => (0, d)
  | Some (i, pv) =>
      let ts := if lastts pv =? 0 then rt else u64 (vclock_advance rt pv) in
      (ts, put i (pv <| lastpts := ts |> <| lastts := rt |>) d)
  end.

Definition gptp_vclock_adjtime (ptpfd adjppb : Z) (d : devices) : Z * devices :=
  match find_ptpfd_virtual ptpfd d with
  | None => (-1, d)
  | Some (i, pv) =>
      if rdwr_mode pv then (0, put i (pv <| freq_adj := adjppb |>) d) else (-1, d)
  end.

(** [rt1], [rt2]: the real time at the reading and after it *)
Definition gptp_vclock_setoffset (rt1 rt2 ptpfd offset64 : Z) (d : devices) : Z * devices :=
  match find_ptpfd_virtual ptpfd d with
  | None => (-1, d)
  | Some (i, pv) =>
      if negb (rdwr_mode pv) then (-1, d)
      else
        let (ts, d) := gptp_vclock_gettime rt1 ptpfd d in
        (0, (fun l => alter (fun pv => pv <| lastpts := u64 (i64 (i64 ts + offset64)) |>
                                          <| lastts := rt2 |>) i l) <$> d)
  end.

(** ** Time *)

Lemma find_put ptpfd d i pv pv' :
  find_ptpfd_virtual ptpfd d = Some (i, pv) -> fd pv' = fd pv ->
  find_ptpfd_virtual ptpfd (put i pv' d) = Some (i, pv').
Proof.
  unfold find_ptpfd_virtual, put. destruct d as [l|]; [|done]. cbn.
  rewrite !list_find_Some. intros (H1 & H2 & H3) F. split_and!.
  - apply list_lookup_insert_eq. by apply lookup_lt_Some in H1.
  - by rewrite F.
  - intros j y Hj Hl. rewrite list_lookup_insert_ne in Hj by lia. by apply (H3 j y).
Qed.

(** the device's handle of an opened device, and a time it has already shown *)
Definition running (d : devices) (ptpfd : Z) (pv : ptpfd_virtual) : Prop :=
  exists i, find_ptpfd_virtual ptpfd d = Some (i, pv) /\ lastts pv <> 0.

Definition rate_of (pv : ptpfd_virtual) : Z :=
  if rdwr_mode pv then freq_adj pv + vclkrate pv else vclkrate pv.

(** no overflow over the span: less than 2^63 / rate nanoseconds and times below 2^63 *)
Definition in_range (pv : ptpfd_virtual) (rt : Z) : Prop :=
  sfits 32 (rate_of pv) /\ 0 <= lastpts pv < 2 ^ 62 /\ 0 <= rt - lastts pv < 2 ^ 60 /\
  sfits 64 ((rt - lastts pv) * rate_of pv) /\
  0 <= lastpts pv + (rt - lastts pv) + Z.quot ((rt - lastts pv) * rate_of pv) UB_SEC_NS < 2 ^ 63.

Lemma vclock_advance_exact rt pv :
  in_range pv rt ->
  u64 (vclock_advance rt pv) =
  lastpts pv + (rt - lastts pv) + Z.quot ((rt - lastts pv) * rate_of pv) UB_SEC_NS.
Proof.
  intros (R & P & D & M & V). unfold vclock_advance.
  assert (E : (if rdwr_mode pv then i32 (freq_adj pv + vclkrate pv) else vclkrate pv) = rate_of pv).
  { unfold rate_of in *. destruct (rdwr_mode pv); [by apply swrap_id|done]. }
  rewrite E, (swrap_id 64 (rt - lastts pv)) by (unfold sfits; lia).
  rewrite (swrap_id 64 (_ * _)) by (try done; lia).
  rewrite (swrap_id 64 (lastpts pv)) by (unfold sfits; lia).
  rewrite (swrap_id 64 (lastpts pv + _)) by (unfold sfits; lia).
  rewrite swrap_id by (unfold sfits; lia). apply wrap_id. unfold fits. lia.
Qed.

(** Rate of a virtual device: between two readings it advances by the real time that passed
    plus that time scaled by the sum of its own rate and, if it may be adjusted, the frequency
    adjustment, in parts per billion. *)
Theorem vclock_runs_at_rate d ptpfd pv rt :
  running d ptpfd pv -> in_range pv rt ->
  fst (gptp_vclock_gettime rt ptpfd d) =
  lastpts pv + (rt - lastts pv) + Z.quot ((rt - lastts pv) * rate_of pv) 1000000000.
Proof.
  intros (i & F & L) R. unfold gptp_vclock_gettime. rewrite F.
  rewrite (proj2 (Z.eqb_neq _ _) L). by apply vclock_advance_exact.
Qed.

(** ** Handles *)

Record wf_devices (l : list ptpfd_virtual) : Prop := {
  wf_fds : NoDup (fd <$> l);
  wf_names : NoDup (ptpdev <$> l);
  wf_each : Forall (fun pv => GPTP_VIRTUAL_PTPDEV_FDBASE <= fd pv <= GPTP_VIRTUAL_PTPDEV_FDMAX /\
                              1 <= users pv) l
}.

Lemma search_spec name l fdmax i :
  match search name fdmax l i with
  | inl (k, pv) => exists j, k = (i + j)%nat /\ l !! j = Some pv /\ ptpdev pv = name
  | inr m => fdmax <= m /\ (forall pv, pv ∈ l -> fd pv <= m /\ ptpdev pv <> name)
  end.
Proof.
  revert fdmax i. induction l as [|pv l IH]; intros fdmax i; cbn [search].
  - split; [lia|]. intros pv H. by apply elem_of_nil in H.
  - case_bool_decide as E.
    + exists 0%nat. by rewrite Nat.add_0_r.
    + specialize (IH (Z.max (fd pv) fdmax) (S i)).
      destruct (search name (Z.max (fd pv) fdmax) l (S i)) as [[k q]|m].
      * destruct IH as (j & -> & H & N). exists (S j). split; [lia|done].
      * destruct IH as [H1 H2]. split; [lia|]. intros q Hq. apply elem_of_cons in Hq as [->|Hq]; [split; [lia|done]|auto].
Qed.

Lemma fmap_insert_same {B} (f : ptpfd_virtual -> B) (l : list ptpfd_virtual) (i : nat) pv pv' :
  l !! i = Some pv -> f pv' = f pv -> f <$> <[i := pv']> l = f <$> l.
Proof.
  intros H E. rewrite list_fmap_insert, E. apply list_insert_id. by rewrite list_lookup_fmap, H.
Qed.

(** counting a user up or down leaves the devices well formed *)
Lemma wf_put l (i : nat) pv pv' :
  wf_devices l -> l !! i = Some pv -> fd pv' = fd pv -> ptpdev pv' = ptpdev pv -> 1 <= users pv' ->
  wf_devices (<[i := pv']> l).
Proof.
  intros [F N E] H Hf Hn Hu. split.
  - by rewrite (fmap_insert_same fd l i pv pv').
  - by rewrite (fmap_insert_same ptpdev l i pv pv').
  - apply Forall_insert; [done|]. rewrite Hf. split; [|done].
    rewrite Forall_lookup in E. by apply (E i pv).
Qed.

(** opening a device: the handle returned stands for that name *)
Lemma alloc_wf rate name l r d' :
  wf_devices l -> (length name < PTPVDEV_MAX_NAME)%nat ->
  gptp_vclock_alloc_fd rate name (Some l) = Some (r, d') ->
  exists l', d' = Some l' /\ wf_devices l' /\
    (r = PTPFD_INVALID /\ l' = l \/ exists (i : nat) pv, l' !! i = Some pv /\ fd pv = r /\ ptpdev pv = name).
Proof.
  intros W Hn. unfold gptp_vclock_alloc_fd. cbn [default from_option id].
  pose proof (search_spec name l (GPTP_VIRTUAL_PTPDEV_FDBASE - 1) 0) as S.
  destruct (search name (GPTP_VIRTUAL_PTPDEV_FDBASE - 1) l 0) as [[k pv]|m].
  - destruct S as (j & -> & H & N). intros [= <- <-]. cbn.
    pose proof (wf_each _ W) as E. rewrite Forall_lookup in E. destruct (E j pv H) as [_ U].
    eexists. split; [done|]. split.
    + apply (wf_put l j pv); [done..|]. cbn. lia.
    + right. eexists j, _. split; [apply list_lookup_insert_eq; by apply lookup_lt_Some in H|done].
  - destruct S as [S1 S2]. destruct (_ <=? _)%nat; [done|].
    destruct (Z.ltb_spec GPTP_VIRTUAL_PTPDEV_FDMAX (m + 1)) as [X|X]; intros [= <- <-].
    { exists l. auto. }
    assert (T : take (PTPVDEV_MAX_NAME - 1) name = name) by (apply take_ge; unfold PTPVDEV_MAX_NAME in *; lia).
    match goal with |- context [take ?n name] => change (take n name) with (take (PTPVDEV_MAX_NAME - 1) name) end.
    rewrite T.
    eexists. split; [done|]. split.
    + destruct W as [F N E]. split.
      * rewrite fmap_app. apply NoDup_app. split; [done|]. split; [|apply NoDup_singleton].
        intros x Hx Hy. apply list_elem_of_fmap in Hx as (pv & -> & Hp). cbn in Hy.
        apply list_elem_of_singleton in Hy. destruct (S2 pv Hp). lia.
      * rewrite fmap_app. apply NoDup_app. split; [done|]. split; [|apply NoDup_singleton].
        intros x Hx Hy. apply list_elem_of_fmap in Hx as (pv & -> & Hp). cbn in Hy.
        apply list_elem_of_singleton in Hy. by destruct (S2 pv Hp).
      * apply Forall_app. split; [done|]. constructor; [|constructor]. cbn. lia.
    + right. exists (length l). eexists. split; [by rewrite lookup_app_r, Nat.sub_diag by lia|].
      done.
Qed.

(** the place of a handle, handles being distinct *)
Lemma find_at (l : list ptpfd_virtual) (i : nat) pv r :
  NoDup (fd <$> l) -> l !! i = Some pv -> fd pv = r -> find_ptpfd_virtual r (Some l) = Some (i, pv).
Proof.
  intros F H E. cbn. apply list_find_Some. split_and!; [done|done|].
  intros k y Hk Hlt Hf. assert (k = i); [|lia].
  apply (NoDup_lookup (fd <$> l) k i r F); rewrite list_lookup_fmap.
  - by rewrite Hk, <- Hf.
  - by rewrite H, <- E.
Qed.

Lemma user_back pv : pv <| users ::= fun n => n + 1 |> <| users ::= fun n => n - 1 |> = pv.
Proof. destruct pv. cbn. unfold upd. cbn. f_equal. lia. Qed.

(** Opening and closing a virtual device are inverse: gptp_vclock_free_fd with the handle
    gptp_vclock_alloc_fd returned leaves the devices as they were, whether the device was in use
    by others (which keep it and its time) or new. *)
Theorem vclock_open_close rate name l r d' :
  wf_devices l -> (length name < PTPVDEV_MAX_NAME)%nat ->
  gptp_vclock_alloc_fd rate name (Some l) = Some (r, d') -> r <> PTPFD_INVALID ->
  exists d'', gptp_vclock_free_fd r d' = (0, d'') /\ default [] d'' = l.
Proof.
  intros W Hn E Hr. destruct (alloc_wf rate name l r d' W Hn E) as (l' & -> & W' & _).
  revert E. unfold gptp_vclock_alloc_fd. cbn [default from_option id].
  pose proof (search_spec name l (GPTP_VIRTUAL_PTPDEV_FDBASE - 1) 0) as S.
  destruct (search name (GPTP_VIRTUAL_PTPDEV_FDBASE - 1) l 0) as [[k pv]|m].
  - destruct S as (j & -> & H & N). cbn [put fmap option_fmap option_map Nat.add]. intros [= <- <-].
    pose proof (wf_each _ W) as U. rewrite Forall_lookup in U. destruct (U j pv H) as [_ Hu].
    unfold gptp_vclock_free_fd. pose proof (lookup_lt_Some _ _ _ H) as L.
    rewrite (find_at _ j (pv <| users ::= fun n => n + 1 |>) (fd pv) (wf_fds _ W'))
      by (try done; by apply list_lookup_insert_eq).
    change (users (pv <| users ::= fun n => n + 1 |>)) with (users pv + 1).
    rewrite (proj2 (Z.eqb_neq (users pv + 1 - 1) 0)) by lia. eexists. split; [done|].
    cbn [put fmap option_fmap option_map default from_option id].
    rewrite user_back, list_insert_insert_eq. by apply list_insert_id.
  - destruct S as [S1 S2]. destruct (_ <=? _)%nat; [done|].
    destruct (Z.ltb_spec GPTP_VIRTUAL_PTPDEV_FDMAX (m + 1)) as [X|X]; [by intros [= <- _]|].
    set (pv := mk _ _ _ _ _ _ _ _). intros [= <- <-]. unfold gptp_vclock_free_fd.
    rewrite (find_at (l ++ [pv]) (length l) pv (m + 1) (wf_fds _ W'))
      by (try done; by rewrite lookup_app_r, Nat.sub_diag by lia).
    cbn [users pv Z.eqb Z.sub Z.add Z.opp Z.pos_sub default from_option id].
    assert (D : delete (length l) (l ++ [pv]) = l) by by rewrite delete_middle, app_nil_r.
    change (1 - 1 =? 0) with true. cbv iota. fold pv. rewrite D.
    exists (match l with [] => None | _ => Some l end). split; [by destruct l|by destruct l].
Qed.

(** an offset given to a device shows at once *)
Lemma vclock_offset_shows d ptpfd pv rt off :
  running d ptpfd pv -> rdwr_mode pv = true -> rt <> 0 -> in_range pv rt ->
  let ts := fst (gptp_vclock_gettime rt ptpfd d) in
  0 <= ts + off < 2 ^ 63 -> sfits 64 off ->
  fst (gptp_vclock_gettime rt ptpfd (snd (gptp_vclock_setoffset rt rt ptpfd off d))) = ts + off.
Proof.
  intros (i & F & L) RW Hr R ts Ht Ho.
  set (pv1 := pv <| lastpts := ts |> <| lastts := rt |>).
  assert (E1 : gptp_vclock_gettime rt ptpfd d = (ts, put i pv1 d)).
  { unfold ts. unfold gptp_vclock_gettime at 1 2. rewrite F. subst pv1 ts. unfold gptp_vclock_gettime. by rewrite F. }
  unfold gptp_vclock_setoffset. rewrite F, RW, E1. cbn [negb snd].
  set (pv2 := pv1 <| lastpts := u64 (i64 (i64 ts + off)) |> <| lastts := rt |>).
  assert (P : (fun l => alter (fun pv => pv <| lastpts := u64 (i64 (i64 ts + off)) |> <| lastts := rt |>) i l) <$>
              put i pv1 d = put i pv2 d).
  { unfold put. destruct d as [l|]; [|done]. cbn. f_equal. apply list_eq. intros k.
    pose proof F as F'. cbn in F'. apply list_find_Some in F' as (Hi & _). pose proof (lookup_lt_Some _ _ _ Hi).
    destruct (decide (i = k)) as [<-|N].
    - by rewrite list_lookup_alter_eq, !list_lookup_insert_eq.
    - by rewrite list_lookup_alter_ne, !list_lookup_insert_ne. }
  rewrite P. unfold gptp_vclock_gettime at 1. rewrite (find_put ptpfd d i pv pv2 F eq_refl).
  change (lastts pv2) with rt. rewrite (proj2 (Z.eqb_neq rt 0) Hr). cbn [fst].
  assert (Ts : 0 <= ts < 2 ^ 63).
  { unfold ts, gptp_vclock_gettime. rewrite F, (proj2 (Z.eqb_neq _ _) L). cbn [fst].
    rewrite vclock_advance_exact by done. apply R. }
  assert (V : u64 (i64 (i64 ts + off)) = ts + off).
  { rewrite (swrap_id 64 ts), swrap_id by (unfold sfits; lia). apply wrap_id. unfold fits. lia. }
  unfold vclock_advance. change (lastts pv2) with rt. change (lastpts pv2) with (u64 (i64 (i64 ts + off))).
  rewrite V, Z.sub_diag. change (i64 0) with 0. rewrite Z.mul_0_l. cbn [Z.quot Z.quotrem].
  change (i64 0) with 0. change (Z.quot 0 UB_SEC_NS) with 0. rewrite !Z.add_0_r, !swrap_swrap, swrap_id by (unfold sfits; lia).
  apply wrap_id. unfold fits. lia.
Qed.
End VC.

(** ** A device of the witnesses *)
Module VcWitness.
Import VC.

(** cbptpw0, which may be adjusted: 100 ppm fast, corrected by -40 ppm, read before at 5 s *)
Definition w0 : ptpfd_virtual :=
  VC.mk (CB_VIRTUAL_PTPDEV_PREFIX ++ [119; 48]) 3018 (-40000) 5000000000 7000000000 true 1 100000.

Lemma rate_witness : fst (gptp_vclock_gettime 6000000000 3018 (Some [w0])) = 8000060000.
Proof.
  refine (vclock_runs_at_rate (Some [w0]) 3018 w0 6000000000 _ _).
  - exists 0%nat. split; [reflexivity|cbn; lia].
  - unfold in_range, sfits. vm_compute. intuition congruence.
Defined.

(** cbptpr1 opened beside it, and closed *)
Lemma open_close_witness : exists d'',
  gptp_vclock_free_fd 3019 (Some [w0; VC.mk (CB_VIRTUAL_PTPDEV_PREFIX ++ [114; 49]) 3019 0 0 0 false 1 5]) = (0, d'') /\
  default [] d'' = [w0].
Proof.
  refine (vclock_open_close 5 (CB_VIRTUAL_PTPDEV_PREFIX ++ [114; 49]) [w0] 3019 _ _ _ _ _).
  - split; [apply NoDup_singleton|apply NoDup_singleton|].
    apply Forall_singleton. cbn. unfold GPTP_VIRTUAL_PTPDEV_FDBASE, GPTP_VIRTUAL_PTPDEV_FDMAX. lia.
  - cbn. unfold PTPVDEV_MAX_NAME. lia.
  - reflexivity.
  - discriminate.
Defined.
End VcWitness.

(** ** Virtual devices as the platform layer *)

Module VirtualDev.

(** the devices, the real time, and the time every reading of it takes *)
Record vworld := mk { devs : VC.devices; rt : Z; step : Z }.
#[export] Instance eta_vworld : Eta vworld := fields! mk [devs, rt, step].

Definition read_rt (w : vworld) : Z * vworld := (rt w, w <| rt ::= fun t => t + step w |>).

(** [rate]: the configured clock rate *)
Definition virtual_dev (rate : Z) : PtpDev := {|
  world := vworld;
  ptpdev_clock_open name w :=
    match VC.gptp_vclock_alloc_fd rate name (devs w) with
    | Some (fd, d) => (fd, w <| devs := d |>)
    | None => (PTPFD_INVALID, w)
    end;
  ptpdev_clock_close fd w := w <| devs := snd (VC.gptp_vclock_free_fd fd (devs w)) |>;
  ptpdev_clock_gettime fd w :=
    let (t, w) := read_rt w in
    let (ts, d) := VC.gptp_vclock_gettime t fd (devs w) in
    (Some (i64 ts), w <| devs := d |>);
  ptpdev_clock_setoffset fd off w :=
    let (t1, w) := read_rt w in let (t2, w) := read_rt w in
    w <| devs := snd (VC.gptp_vclock_setoffset t1 t2 fd off (devs w)) |>;
  ptpdev_clock_adjtime fd ppb w :=
    let (r, d) := VC.gptp_vclock_adjtime fd ppb (devs w) in (r, w <| devs := d |>);
  ub_mt_gettime64 := read_rt;
  ub_rt_gettime64 := read_rt;
  uninitialised := 0
|}.

End VirtualDev.
