(* ===== verification/GptpclockFacts.v ===== *)
(** * GptpclockFacts: the clock entities stay in their memory and show the time they should.

    The identity of the entities (their indexes, the place of their parameters)
    is their [shape].  No operation but adding and deleting changes it, so every
    lookup gives the same entity before and after; [ok] is the rule by which this
    and the absence of stray accesses follow for each operation from its parts. *)

From stdpp Require Import gmap.
From Stdlib Require Import SpecFloat.
From S2P Require Import Prelude Types Floats Common Clock Gptpclock.
Import GC.
Import (hints) GC.
#[local] Open Scope Z_scope.
#[local] Open Scope gptp_scope.

(** ** Shape and well-formedness *)

Module Sh.
Record ident := mk_ident { clockIndex : Z; domainIndex : Z; pp : ppref; ppe_domain : Z; valid : bool }.
Record shape := mk_shape {
  slots : list ident; nums : nat; shm_domains : list Z; pdds : nat; max_domains : Z }.
End Sh.

Definition ident (od : Od.oneclock_data_t) : Sh.ident :=
  Sh.mk_ident (Od.clockIndex od) (Od.domainIndex od) (Od.pp od)
              (Pp.domainIndex (Od.ppe od)) (PTPFD_VALID (Od.ptpfd od)).

Definition shape (g : Gd.gptpclock_data) : Sh.shape :=
  Sh.mk_shape (ident <$> Gd.slots g) (Gd.nums g) (Pp.domainIndex <$> Shm.gcpp (Gd.shm g))
              (length (Gd.pdd g)) (Shm.max_domains (Gd.shm g)).

(** entity [i] as add_clock makes it: the parameters of the master clock are in the shared
    memory, those of the other clocks in the element itself, and they carry its domain *)
Definition wf_ident (sh : Sh.shape) (i : nat) (x : Sh.ident) : Prop :=
  0 <= Sh.domainIndex x < Sh.max_domains sh /\
  (if Sh.clockIndex x =? 0
   then Sh.pp x = PpShm (Sh.domainIndex x) /\
        Sh.shm_domains sh !! Z.to_nat (Sh.domainIndex x) = Some (Sh.domainIndex x)
   else Sh.pp x = PpEle i /\ Sh.ppe_domain x = Sh.domainIndex x).

Record wf_shape (sh : Sh.shape) : Prop := {
  wf_nums : (Sh.nums sh <= length (Sh.slots sh))%nat;
  wf_shm : Z.of_nat (length (Sh.shm_domains sh)) = Sh.max_domains sh;
  wf_pdds : Z.of_nat (Sh.pdds sh) = Sh.max_domains sh;
  wf_max : 0 < Sh.max_domains sh <= 256;
  wf_idents : forall i x, (i < Sh.nums sh)%nat -> Sh.slots sh !! i = Some x -> wf_ident sh i x;
  wf_unique : forall i j x y, (i < Sh.nums sh)%nat -> (j < Sh.nums sh)%nat ->
    Sh.slots sh !! i = Some x -> Sh.slots sh !! j = Some y ->
    Sh.clockIndex x = Sh.clockIndex y -> Sh.domainIndex x = Sh.domainIndex y -> i = j
}.

Definition wf (g : Gd.gptpclock_data) : Prop := wf_shape (shape g).

(** the entity (ci, di) is element [p] *)
Definition entity (sh : Sh.shape) (ci di : Z) (p : nat) : Prop :=
  (p < Sh.nums sh)%nat /\
  exists x, Sh.slots sh !! p = Some x /\ Sh.clockIndex x = ci /\ Sh.domainIndex x = di.

(** ** Lookup by shape *)

Section Lookup.
Context `{DEV : PtpDev}.

Lemma slot_ident g i x :
  Sh.slots (shape g) !! i = Some x -> exists od, Gd.slots g !! i = Some od /\ ident od = x.
Proof. cbn. rewrite list_lookup_fmap_Some. intros (od & -> & H). by exists od. Qed.

Lemma ident_slot g i od : Gd.slots g !! i = Some od -> Sh.slots (shape g) !! i = Some (ident od).
Proof. intros H. cbn. by rewrite list_lookup_fmap, H. Qed.

Lemma slot_lt g i : wf g -> (i < Gd.nums g)%nat -> is_Some (Gd.slots g !! i).
Proof.
  intros W H. apply lookup_lt_is_Some. pose proof (wf_nums _ W) as N. cbn in N.
  rewrite length_fmap in N. lia.
Qed.

(** the parameters an element refers to exist and carry its domain *)
Lemma pp_exists g i od :
  wf g -> (i < Gd.nums g)%nat -> Gd.slots g !! i = Some od ->
  exists x, pp_of g (Od.pp od) = Some x /\ Pp.domainIndex x = Od.domainIndex od.
Proof.
  intros W Hi Ho. destruct (wf_idents _ W i (ident od) Hi (ident_slot _ _ _ Ho)) as [D E].
  cbn in D, E. destruct (Od.clockIndex od =? 0); destruct E as [-> E].
  - cbn. unfold shm_entry. rewrite (proj2 (Z.leb_le _ _)) by lia.
    rewrite list_lookup_fmap_Some in E. destruct E as (x & ? & ->). by exists x.
  - exists (Od.ppe od). cbn. by rewrite Ho.
Qed.

Lemma find_od_entity g ci di :
  wf g -> forall n i, (i + n = Gd.nums g)%nat ->
  exists o, find_od n i ci di g = Some o /\
    match o with
    | Some p => (i <= p)%nat /\ entity (shape g) ci di p
    | None => forall p, (i <= p)%nat -> ~ entity (shape g) ci di p
    end.
Proof.
  intros W n. induction n as [|n IH]; intros i Hn; cbn [find_od].
  - exists None. split; [done|]. intros p Hp [H _]. cbn in H. lia.
  - destruct (slot_lt g i W) as [od Ho]; [lia|]. rewrite Ho. cbn.
    destruct (pp_exists g i od W) as (x & Hx & Hd); [lia|done|].
    assert (E : entity (shape g) (Od.clockIndex od) (Od.domainIndex od) i).
    { split; [cbn; lia|]. exists (ident od). by rewrite (ident_slot _ _ _ Ho). }
    assert (N : forall p, (i <= p)%nat -> entity (shape g) ci di p ->
      (S i <= p)%nat \/ Od.clockIndex od = ci /\ Od.domainIndex od = di).
    { intros p Hp [Hl (y & Hy & Hc & Hdi)]. destruct (decide (p = i)) as [->|]; [|left; lia].
      rewrite (ident_slot _ _ _ Ho) in Hy. injection Hy as <-. by right. }
    destruct (IH (S i)) as (o & Fo & Po); [lia|].
    rewrite Hx. cbn. rewrite Hd.
    destruct (Z.eqb_spec (Od.clockIndex od) ci) as [<-|C]; cbn.
    + destruct (Z.eqb_spec (Od.domainIndex od) di) as [<-|D]; cbn.
      * exists (Some i). split; [done|]. split; [lia|done].
      * exists o. split; [done|]. destruct o as [p|].
        { destruct Po. split; [lia|done]. }
        intros p Hp He. destruct (N p Hp He) as [?|[_ ?]]; [|done]. by apply (Po p).
    + exists o. split; [done|]. destruct o as [p|].
      { destruct Po. split; [lia|done]. }
      intros p Hp He. destruct (N p Hp He) as [?|[? _]]; [|done]. by apply (Po p).
Qed.

Lemma entity_unique g ci di p q :
  wf g -> entity (shape g) ci di p -> entity (shape g) ci di q -> p = q.
Proof.
  intros W [Hp (x & Hx & Cx & Dx)] [Hq (y & Hy & Cy & Dy)].
  apply (wf_unique _ W p q x y); congruence.
Qed.

(** get_clockod finds the entity, if there is one *)
Lemma get_clockod_entity g ci di p :
  wf g -> entity (shape g) ci di p -> get_clockod g ci di = Some (Some p).
Proof.
  intros W E. assert (D : u8 di = di).
  { apply wrap_id. destruct E as [Hp (x & Hx & _ & <-)].
    destruct (wf_idents _ W p x Hp Hx) as [D _]. pose proof (wf_max _ W). unfold fits. lia. }
  unfold get_clockod. rewrite D.
  destruct (find_od_entity g ci di W (Gd.nums g) 0 eq_refl) as (o & -> & P). destruct o as [q|].
  - destruct P as [_ P]. by rewrite (entity_unique g ci di p q W E P).
  - destruct (P p); [lia|done].
Qed.

Lemma get_clockod_result g ci di :
  wf g -> exists o, get_clockod g ci di = Some o /\
    match o with
    | Some p => entity (shape g) ci (u8 di) p
    | None => forall p, ~ entity (shape g) ci (u8 di) p
    end.
Proof.
  intros W. unfold get_clockod.
  destruct (find_od_entity g ci (u8 di) W (Gd.nums g) 0 eq_refl) as (o & -> & P).
  exists o. split; [done|]. destruct o as [p|]; [by destruct P|]. intros p. apply P. lia.
Qed.

Lemma get_clockod_shape g g' ci di :
  wf g -> shape g' = shape g -> get_clockod g' ci di = get_clockod g ci di.
Proof.
  intros W E. assert (W' : wf g') by (unfold wf; by rewrite E).
  destruct (get_clockod_result g ci di W) as (o & -> & P).
  destruct (get_clockod_result g' ci di W') as (o' & -> & P'). rewrite E in P'.
  f_equal. destruct o as [p|], o' as [p'|]; [|by destruct (P' p)|by destruct (P p')|done].
  f_equal. by apply (entity_unique g ci (u8 di)).
Qed.
End Lookup.

(** ** No operation leaves its memory or moves an entity *)

Lemma alter_insert_same {A} (f : A -> A) (i : nat) (x : A) (l : list A) : alter f i (<[i := x]> l) = <[i := f x]> l.
Proof.
  apply list_eq. intros j. destruct (decide (i = j)) as [<-|N].
  - rewrite list_lookup_alter_eq. destruct (decide (i < length l)%nat).
    + by rewrite !list_lookup_insert_eq by done.
    + by rewrite !list_insert_ge, !(lookup_ge_None_2 l) by lia.
  - by rewrite list_lookup_alter_ne, !list_lookup_insert_ne.
Qed.

Lemma alter_const {A} (x : A) (i : nat) (l : list A) : alter (fun _ => x) i l = <[i := x]> l.
Proof.
  apply list_eq. intros j. destruct (decide (i = j)) as [<-|N].
  - rewrite list_lookup_alter_eq. destruct (decide (i < length l)%nat) as [L|L].
    + rewrite list_lookup_insert_eq by done. by destruct (lookup_lt_is_Some_2 l i L) as [y ->].
    + by rewrite list_insert_ge, !(lookup_ge_None_2 l) by lia.
  - by rewrite list_lookup_alter_ne, list_lookup_insert_ne.
Qed.

Lemma alter_alter {A} (f g : A -> A) (i : nat) (l : list A) : alter f i (alter g i l) = alter (fun x => f (g x)) i l.
Proof.
  apply list_eq. intros j. destruct (decide (i = j)) as [<-|N].
  - rewrite !list_lookup_alter_eq. by destruct (l !! i).
  - by rewrite !list_lookup_alter_ne.
Qed.

Lemma fmap_alter_same {A B} (f : A -> B) (u : A -> A) (i : nat) (l : list A) :
  (forall x, l !! i = Some x -> f (u x) = f x) -> f <$> alter u i l = f <$> l.
Proof.
  intros H. apply list_eq. intros j. rewrite !list_lookup_fmap.
  destruct (decide (i = j)) as [<-|N].
  - rewrite list_lookup_alter_eq. destruct (l !! i) as [x|] eqn:E; [|done]. cbn. by rewrite H.
  - by rewrite list_lookup_alter_ne.
Qed.

Section Ok.
#[local] Set Default Proof Using "DEV sh W".
Context `{DEV : PtpDev}.
Variable sh : Sh.shape.
Hypothesis W : wf_shape sh.

(** from any state of this shape the call returns, in a state of this shape *)
Definition ok {A} (m : M A) (Q : A -> Prop) : Prop := forall s,
  shape (gcd s) = sh -> exists a s', m s = Some (a, s') /\ shape (gcd s') = sh /\ Q a.

Definition any {A} : A -> Prop := fun _ => True.
Definition live (p : nat) : Prop := (p < Sh.nums sh)%nat.
Definition domain (d : Z) : Prop := 0 <= d < Sh.max_domains sh.

Lemma ok_ret {A} (a : A) (Q : A -> Prop) : Q a -> ok (mret a) Q.
Proof. intros H s Hs. by exists a, s. Qed.

Lemma ok_bind {A B} (m : M A) (f : A -> M B) Q R :
  ok m Q -> (forall a, Q a -> ok (f a) R) -> ok (m ≫= f) R.
Proof.
  intros Hm Hf s Hs. destruct (Hm s Hs) as (a & s1 & E & H1 & Qa).
  destruct (Hf a Qa s1 H1) as (b & s2 & E2 & H2 & Rb). exists b, s2.
  split; [|done]. unfold mbind, M_bind. by rewrite E.
Qed.

Lemma ok_any {A} (m : M A) Q : ok m Q -> ok m any.
Proof. intros H s Hs. destruct (H s Hs) as (a & s' & ? & ? & _). by exists a, s'. Qed.

Lemma ok_get : ok get (fun g => shape g = sh).
Proof. intros s Hs. by exists (gcd s), s. Qed.

Lemma ok_act {A} (f : world -> A * world) : ok (act f) any.
Proof. intros s Hs. unfold act. destruct (f (wrld s)) as [a w]. by eexists _, _. Qed.

Lemma ok_wr_db e : ok (wr_db e) any.
Proof. intros s Hs. by eexists _, _. Qed.

Lemma ok_modify f : (forall g, shape (f g) = shape g) -> ok (modify f) any.
Proof. intros H s Hs. eexists _, _. split; [done|]. split; [|done]. cbn. by rewrite H. Qed.

Lemma live_lt s p : shape (gcd s) = sh -> live p -> (p < Gd.nums (gcd s))%nat.
Proof. unfold live. intros <-. done. Qed.

Lemma wf_of s : shape (gcd s) = sh -> wf (gcd s).
Proof. unfold wf. by intros ->. Qed.
#[local] Hint Resolve live_lt wf_of : core.

Lemma live_slot s p : shape (gcd s) = sh -> live p -> exists od, Gd.slots (gcd s) !! p = Some od.
Proof. intros. apply slot_lt; eauto. Qed.

Lemma ok_od_at p : live p -> ok (od_at p) (fun od => Sh.slots sh !! p = Some (ident od)).
Proof.
  intros Hp s Hs. destruct (live_slot s p Hs Hp) as [od Ho]. exists od, s.
  unfold od_at. rewrite Ho. split; [done|]. split; [done|]. rewrite <- Hs. by apply ident_slot.
Qed.

Lemma ok_set_od p f :
  live p -> (forall od, Sh.slots sh !! p = Some (ident od) -> ident (f od) = ident od) ->
  ok (set_od p f) any.
Proof.
  intros Hp Hf s Hs. destruct (live_slot s p Hs Hp) as [od Ho].
  unfold set_od. rewrite Ho. eexists _, _. split; [done|]. split; [|done].
  rewrite <- Hs. unfold shape. cbn. f_equal. apply fmap_alter_same.
  intros x Hx. apply Hf. rewrite <- Hs. by apply ident_slot.
Qed.

Lemma alter_pp_shape r f g :
  (forall x, Pp.domainIndex (f x) = Pp.domainIndex x) -> shape (alter_pp f r g) = shape g.
Proof.
  intros H. destruct r as [i|d]; unfold shape; cbn; f_equal; apply fmap_alter_same; intros x _.
  - unfold ident. cbn. by rewrite H.
  - apply H.
Qed.

Lemma ok_pp_at p : live p -> ok (pp_at p)
  (fun x => exists od, Sh.slots sh !! p = Some (ident od) /\ Pp.domainIndex x = Od.domainIndex od).
Proof.
  intros Hp s Hs. destruct (live_slot s p Hs Hp) as [od Ho].
  destruct (pp_exists (gcd s) p od) as (x & Hx & D); [eauto..|].
  exists x, s. unfold pp_at. rewrite Ho. cbn. rewrite Hx. split; [done|]. split; [done|].
  exists od. split; [|done]. rewrite <- Hs. by apply ident_slot.
Qed.

Lemma ok_set_od_pp p f :
  live p -> (forall x, Pp.domainIndex (f x) = Pp.domainIndex x) -> ok (set_od_pp p f) any.
Proof.
  intros Hp Hf s Hs. destruct (live_slot s p Hs Hp) as [od Ho].
  destruct (pp_exists (gcd s) p od) as (x & Hx & D); [eauto..|].
  unfold set_od_pp, mbind, M_bind, od_at, set_pp. rewrite Ho. cbn. rewrite Hx. cbn.
  eexists _, _. split; [done|]. split; [|done]. cbn. by rewrite alter_pp_shape.
Qed.

Lemma domain_pdd s d : shape (gcd s) = sh -> domain d -> is_Some (pdd_of (gcd s) d).
Proof.
  intros Hs Hd. unfold pdd_of. rewrite (proj2 (Z.leb_le _ _)) by apply Hd.
  apply lookup_lt_is_Some. pose proof (wf_pdds _ W) as P. unfold domain in Hd.
  rewrite <- Hs in P, Hd. cbn in P, Hd. lia.
Qed.

Lemma ok_pdd_at d : domain d -> ok (pdd_at d) any.
Proof.
  intros Hd s Hs. destruct (domain_pdd s d Hs Hd) as [x Hx].
  unfold pdd_at. rewrite Hx. by exists x, s.
Qed.

Lemma ok_set_pdd d f : domain d -> ok (set_pdd d f) any.
Proof.
  intros Hd s Hs. destruct (domain_pdd s d Hs Hd) as [x Hx]. unfold set_pdd. rewrite Hx.
  eexists _, _. split; [done|]. split; [|done]. rewrite <- Hs. unfold shape. cbn.
  by rewrite length_alter.
Qed.

Lemma ok_clockod ci di : ok (clockod ci di)
  (fun o => forall p, o = Some p -> live p /\ entity sh ci (u8 di) p).
Proof.
  intros s Hs. destruct (get_clockod_result (gcd s) ci di) as (o & E & P); [eauto|].
  exists o, s. unfold clockod. rewrite E. split; [done|]. split; [done|].
  intros p ->. rewrite Hs in P. split; [apply P|done].
Qed.

Lemma live_domain p od : live p -> Sh.slots sh !! p = Some (ident od) -> domain (Od.domainIndex od).
Proof. intros Hp H. by destruct (wf_idents _ W p _ Hp H) as [D _]. Qed.

Lemma ok_FN_ENTRY ci di k :
  (forall p, live p -> entity sh ci (u8 di) p -> ok (k p) any) -> ok (FN_ENTRY ci di k) any.
Proof.
  intros Hk. unfold FN_ENTRY. eapply ok_bind; [apply ok_clockod|]. intros [p|] H; [|by apply ok_ret].
  destruct (H p eq_refl) as [Hl He]. eapply ok_bind; [by apply ok_od_at|]. intros od _.
  destruct_cond; [by apply Hk|by apply ok_ret].
Qed.

Lemma ok_ENTRY2 ts ci di k :
  (forall p, live p -> ok (k p) any) -> ok (ENTRY2 ts ci di k) any.
Proof.
  intros Hk. unfold ENTRY2. eapply ok_bind; [apply ok_clockod|]. intros [p|] H; [|by apply ok_ret].
  destruct (H p eq_refl) as [Hl He]. eapply ok_bind; [by apply ok_od_at|]. intros od _.
  destruct_cond; [by apply Hk|by apply ok_ret].
Qed.
End Ok.

Create HintDb ok.
#[export] Hint Resolve ok_ret ok_get ok_act ok_wr_db ok_od_at ok_pp_at ok_pdd_at ok_set_pdd ok_clockod live_domain : ok.

(** one step of a proof of [ok]: a bind, a test, a match on a result, or a known operation *)
Ltac ok_step :=
  match goal with
  | H : forall p, Some ?q = Some p -> _ |- _ => destruct (H q eq_refl); clear H
  | |- forall _, _ => intros
  | |- ok _ (_ ≫= _) _ => eapply ok_bind; [eassumption|solve [eauto with ok]|]
  | |- ok _ (_ ≫= _) _ => apply ok_bind with (Q := any); [eassumption| |]
  | |- ok _ (FN_ENTRY _ _ _) _ => apply ok_FN_ENTRY; [eassumption|]
  | |- ok _ (ENTRY2 _ _ _ _) _ => apply ok_ENTRY2; [eassumption|]
  | |- ok _ (set_od _ _) _ => eapply ok_any; [eassumption|apply ok_set_od; [eassumption..|done]]
  | |- ok _ (set_od_pp _ _) _ => eapply ok_any; [eassumption|apply ok_set_od_pp; [eassumption..|done]]
  | |- ok _ (if ?c then _ else _) _ => destruct c
  | |- ok _ (match ?o with _ => _ end) _ => destruct o
  | |- ok _ (mret _) _ => by apply ok_ret
  | |- ok _ _ _ => solve [eauto with ok]
  | |- ok _ _ _ => solve [eapply ok_any; [eassumption|]; eauto with ok]
  end.
Ltac ok_auto := repeat ok_step.

Section Operations.
Context `{DEV : PtpDev} `{CV : Conversions} `{CF : Config}.
Variable sh : Sh.shape.
Hypothesis W : wf_shape sh.
#[local] Set Default Proof Using "All".

Lemma ok_gettime fd old : ok sh (GPTP_CLOCK_GETTIME fd old) any.
Proof. unfold GPTP_CLOCK_GETTIME. ok_auto. Qed.
#[local] Hint Resolve ok_gettime : ok.

Lemma ok_getts_od ts p : live sh p -> ok sh (gptpclock_getts_od ts p) any.
Proof. intros. unfold gptpclock_getts_od. ok_auto. Qed.
#[local] Hint Resolve ok_getts_od : ok.

Lemma ok_setoffset_od p : live sh p -> ok sh (gptpclock_setoffset_od p) any.
Proof. intros. unfold gptpclock_setoffset_od. ok_auto. Qed.
#[local] Hint Resolve ok_setoffset_od : ok.

Lemma ok_setts_offset_od o p : live sh p -> ok sh (gptpclock_setts_offset_od o p) any.
Proof. intros. unfold gptpclock_setts_offset_od, GPTP_CLOCK_SETOFFSET, act_. ok_auto. Qed.
#[local] Hint Resolve ok_setts_offset_od : ok.

Lemma ok_setts_od ts p : live sh p -> ok sh (gptpclock_setts_od ts p) any.
Proof. intros. unfold gptpclock_setts_od. ok_auto. Qed.
#[local] Hint Resolve ok_setts_od : ok.

Lemma ok_time_setoffset64 o ci di : ok sh (time_setoffset64 o ci di) any.
Proof. unfold time_setoffset64. ok_auto. Qed.
#[local] Hint Resolve ok_time_setoffset64 : ok.

Lemma ok_setoffset64 ts ci di : ok sh (gptpclock_setoffset64 ts ci di) any.
Proof. unfold gptpclock_setoffset64. ok_auto. Qed.
#[local] Hint Resolve ok_setoffset64 : ok.

Lemma ok_setadj ppb ci di : ok sh (gptpclock_setadj ppb ci di) any.
Proof. unfold gptpclock_setadj, restart_rate, record_adj. ok_auto.
Qed.
#[local] Hint Resolve ok_setadj : ok.

Lemma ok_getts64 ci di : ok sh (gptpclock_getts64 ci di) any.
Proof. unfold gptpclock_getts64. ok_auto. Qed.
#[local] Hint Resolve ok_getts64 : ok.

Lemma ok_main_elsewhere n i ci di :
  (i + n <= Sh.nums sh)%nat -> ok sh (main_elsewhere n i ci di) any.
Proof.
  revert i. induction n as [|n IH]; intros i H; cbn [main_elsewhere]; [by apply ok_ret|].
  assert (live sh i) by (unfold live; lia).
  assert (ok sh (main_elsewhere n (S i) ci di) any) by (apply IH; lia).
  ok_auto.
Qed.

Lemma ok_mode_slave_main ci di : ok sh (gptpclock_mode_slave_main ci di) any.
Proof.
  unfold gptpclock_mode_slave_main. ok_auto.
  apply ok_main_elsewhere. cbn beta in *. subst sh. cbn. lia.
Qed.
#[local] Hint Resolve ok_mode_slave_main : ok.

Lemma ok_mode_slave_sub ci di : ok sh (gptpclock_mode_slave_sub ci di) any.
Proof. unfold gptpclock_mode_slave_sub. ok_auto. Qed.
#[local] Hint Resolve ok_mode_slave_sub : ok.

Lemma ok_tsconv ts ci di ci1 di1 : ok sh (gptpclock_tsconv ts ci di ci1 di1) any.
Proof. unfold gptpclock_tsconv, gptpclock_convert, diff_in_two_clocks. ok_auto. Qed.

Lemma ok_switch_active_domain di : ok sh (switch_active_domain di) any.
Proof. unfold switch_active_domain. ok_auto. by apply ok_modify. Qed.
#[local] Hint Resolve ok_switch_active_domain : ok.

Lemma ok_first_stable n i : ok sh (first_stable n i) any.
Proof. revert i. induction n; intros i; cbn [first_stable]; ok_auto. Qed.
#[local] Hint Resolve ok_first_stable : ok.

Lemma ok_update_active_domain : ok sh gptpclock_update_active_domain any.
Proof. unfold gptpclock_update_active_domain. ok_auto. Qed.
#[local] Hint Resolve ok_update_active_domain : ok.

Lemma ok_adjust_GM di : ok sh (adjust_GM_btw_domains di) any.
Proof.
  unfold adjust_GM_btw_domains.
  assert (domain sh 0) by (pose proof (wf_max _ W); unfold domain; lia). ok_auto.
Qed.
#[local] Hint Resolve ok_adjust_GM : ok.

Lemma ok_set_gmchange di id b : ok sh (gptpclock_set_gmchange di id b) any.
Proof. unfold gptpclock_set_gmchange. ok_auto. Qed.

Lemma ok_get_gmsync di : ok sh (gptpclock_get_gmsync di) any.
Proof. unfold gptpclock_get_gmsync, get_gmsync. ok_auto. Qed.
#[local] Hint Resolve ok_get_gmsync : ok.

Lemma ok_GET_TS64 di : ok sh (GPTP_GET_TS64 di) any.
Proof. unfold GPTP_GET_TS64. ok_auto. Qed.
#[local] Hint Resolve ok_GET_TS64 : ok.

Lemma ok_set_gmsync di v : ok sh (gptpclock_set_gmsync di v) any.
Proof. unfold gptpclock_set_gmsync. ok_auto. Qed.

Lemma ok_set_thisClock ci di b : ok sh (gptpclock_set_thisClock ci di b) any.
Proof. unfold gptpclock_set_thisClock, main_clock_para, sub_clock_para. ok_auto. Qed.
End Operations.

(** ** Adding an entity *)

Section Add.
Context `{DEV : PtpDev} `{CV : Conversions} `{CF : Config}.

(** the data of an entity just added, and the state after it *)
Definition added_od (p : nat) (ci di : Z) (id : list Z) : Od.oneclock_data_t :=
  Od.zero (if ci =? 0 then PpShm di else PpEle p)
    <| Od.ppe; Pp.domainIndex := (if ci =? 0 then 0 else u8 di) |>
    <| Od.clockIndex := ci |> <| Od.domainIndex := di |> <| Od.clockId := id |>.

Definition added (p : nat) (ci di : Z) (id : list Z) (g : Gd.gptpclock_data) : Gd.gptpclock_data :=
  g <| Gd.slots ::= <[p := added_od p ci di id]> |>
    <| Gd.shm; Shm.gcpp ::= (if ci =? 0 then
         alter (fun _ => Pp.zero <| Pp.gmchange_ind := 1 |> <| Pp.domainIndex := u8 di |>) (Z.to_nat di)
       else fun l => l) |>.

Lemma fresh_od_added p ci di id s :
  (p < length (Gd.slots (gcd s)))%nat ->
  0 <= di < Z.of_nat (length (Shm.gcpp (Gd.shm (gcd s)))) ->
  fresh_od p ci di id s = Some (tt, s <| gcd ::= added p ci di id |>).
Proof.
  intros Hp Hd. destruct (lookup_lt_is_Some_2 _ _ Hp) as [od Ho].
  destruct (lookup_lt_is_Some_2 (Shm.gcpp (Gd.shm (gcd s))) (Z.to_nat di)) as [x Hx]; [lia|].
  unfold fresh_od, set_od_pp, set_od, od_at, set_pp, mbind, M_bind, added.
  destruct s as [g w b]. cbn in *.
  assert (L : forall od, <[p:=od]> (Gd.slots g) !! p = Some od) by (intros; by apply list_lookup_insert_eq).
  destruct g as [sl n [md ad gp] pd sw]. cbn in *.
  destruct (Z.eqb_spec ci 0) as [->|N]; cbn [negb]; rewrite Ho; cbn; repeat (unfold upd; cbn).
  all: unfold added_od, shm_entry; rewrite ?(proj2 (Z.eqb_neq ci 0)) by done.
  all: repeat (first [progress (unfold upd, shm_entry; cbn) | rewrite alter_insert_same | rewrite L | rewrite alter_const
    | rewrite (proj2 (Z.leb_le 0 di)) by lia | rewrite Hx | rewrite list_lookup_insert_eq by lia]).
  all: reflexivity.
Qed.

Definition new_ident (p : nat) (ci di : Z) (v : bool) : Sh.ident :=
  Sh.mk_ident ci di (if ci =? 0 then PpShm di else PpEle p) (if ci =? 0 then 0 else di) v.

Definition grow_shm (ci di : Z) (l : list Z) : list Z := if ci =? 0 then <[Z.to_nat di := di]> l else l.

Definition grow (ci di : Z) (v : bool) (sh : Sh.shape) : Sh.shape :=
  let p := Sh.nums sh in
  Sh.mk_shape (<[p := new_ident p ci di v]> (Sh.slots sh)) (S p) (grow_shm ci di (Sh.shm_domains sh))
              (Sh.pdds sh) (Sh.max_domains sh).

Lemma grow_shm_length ci di l : length (grow_shm ci di l) = length l.
Proof. unfold grow_shm. destruct_cond; [apply length_insert|done]. Qed.

(** the domains in the shared memory that are there stay *)
Lemma grow_shm_keeps ci di l d :
  0 <= di -> 0 <= d -> l !! Z.to_nat d = Some d -> grow_shm ci di l !! Z.to_nat d = Some d.
Proof.
  intros Hd Hdi H. unfold grow_shm. destruct_cond; [|done]. destruct (decide (d = di)) as [->|N].
  - apply list_lookup_insert_eq. by apply lookup_lt_Some in H.
  - rewrite list_lookup_insert_ne by lia. done.
Qed.

Lemma wf_ident_grow sh ci di sh' i x :
  0 <= di -> Sh.shm_domains sh' = grow_shm ci di (Sh.shm_domains sh) ->
  Sh.max_domains sh' = Sh.max_domains sh ->
  wf_ident sh i x -> wf_ident sh' i x.
Proof.
  intros Hdi E M [D H]. split; [by rewrite M|]. rewrite E. destruct (Sh.clockIndex x =? 0); [|done].
  destruct H as [? H]. split; [done|]. apply grow_shm_keeps; [done|lia|done].
Qed.

Lemma domain_u8 sh d : wf_shape sh -> domain sh d -> u8 d = d.
Proof. intros W D. apply wrap_id. pose proof (wf_max _ W). unfold domain, fits in *. lia. Qed.

(** an entity of a new pair of indexes in the next place keeps the array well formed *)
Lemma wf_grow sh ci di v :
  wf_shape sh -> domain sh di -> (forall q, ~ entity sh ci di q) ->
  (Sh.nums sh < length (Sh.slots sh))%nat ->
  wf_shape (grow ci di v sh).
Proof.
  intros W D N L. unfold grow. set (p := Sh.nums sh) in *. set (x := new_ident p ci di v).
  assert (S1 : <[p := x]> (Sh.slots sh) !! p = Some x) by (by apply list_lookup_insert_eq).
  assert (S2 : forall i y, (i < S p)%nat -> <[p := x]> (Sh.slots sh) !! i = Some y ->
    i = p /\ y = x \/ (i < p)%nat /\ Sh.slots sh !! i = Some y).
  { intros i y Hi Hy. destruct (decide (i = p)) as [->|E].
    - rewrite S1 in Hy. left. split; congruence.
    - rewrite list_lookup_insert_ne in Hy by done. right. split; [lia|done]. }
  assert (N' : forall i y, (i < p)%nat -> Sh.slots sh !! i = Some y ->
    Sh.clockIndex y = ci -> Sh.domainIndex y = di -> False).
  { intros i y Hi Hy Hc Hd. apply (N i). split; [done|]. by exists y. }
  split; cbn [grow Sh.nums Sh.slots Sh.shm_domains Sh.pdds Sh.max_domains].
  - rewrite length_insert. lia.
  - rewrite grow_shm_length. apply (wf_shm _ W).
  - apply (wf_pdds _ W).
  - apply (wf_max _ W).
  - intros i y Hi Hy. destruct (S2 i y Hi Hy) as [[-> ->]|[Hi' Hy']].
    + split; [done|]. subst x. cbn. unfold grow_shm. destruct (ci =? 0); [|done].
      split; [done|]. apply list_lookup_insert_eq. pose proof (wf_shm _ W). unfold domain in D. lia.
    + apply (wf_ident_grow sh ci di); try done; [apply D|]. by apply (wf_idents _ W i y).
  - intros i j y z Hi Hj Hy Hz C E.
    destruct (S2 i y Hi Hy) as [[-> ->]|[Hi' Hy']], (S2 j z Hj Hz) as [[-> ->]|[Hj' Hz']].
    + done.
    + destruct (N' j z Hj' Hz'); [by rewrite <- C|by rewrite <- E].
    + destruct (N' i y Hi' Hy'); [by rewrite C|by rewrite E].
    + by apply (wf_unique _ W i j y z).
Qed.

(** when its device cannot be opened the new entity is taken away again *)
Definition ungrow (ci di : Z) (v : bool) (sh : Sh.shape) : Sh.shape :=
  let p := Sh.nums sh in
  Sh.mk_shape (<[p := new_ident p ci di v]> (Sh.slots sh)) p (grow_shm ci di (Sh.shm_domains sh))
              (Sh.pdds sh) (Sh.max_domains sh).

Lemma wf_ungrow sh ci di v :
  wf_shape sh -> domain sh di -> (Sh.nums sh < length (Sh.slots sh))%nat -> wf_shape (ungrow ci di v sh).
Proof.
  intros W D L. unfold ungrow. set (x := new_ident _ _ _ _).
  assert (E : forall i y, (i < Sh.nums sh)%nat -> <[Sh.nums sh := x]> (Sh.slots sh) !! i = Some y ->
    Sh.slots sh !! i = Some y) by (intros i y Hi; by rewrite list_lookup_insert_ne by lia).
  split; cbn.
  - rewrite length_insert. lia.
  - rewrite grow_shm_length. apply (wf_shm _ W).
  - apply (wf_pdds _ W).
  - apply (wf_max _ W).
  - intros i y Hi Hy. apply (wf_ident_grow sh ci di); try done; [apply D|].
    by apply (wf_idents _ W i y Hi), E.
  - intros i j y z Hi Hj Hy Hz. apply (wf_unique _ W i j y z); auto.
Qed.

Lemma shape_added ci di id g :
  wf g -> domain (shape g) di ->
  shape (added (Gd.nums g) ci di id (g <| Gd.nums := S (Gd.nums g) |>)) = grow ci di true (shape g).
Proof.
  intros W D. pose proof (domain_u8 _ _ W D) as U. unfold grow, shape, added. cbn. f_equal.
  - rewrite list_fmap_insert. f_equal. unfold ident, added_od, new_ident. cbn.
    rewrite U. by destruct (ci =? 0).
  - unfold grow_shm. destruct (ci =? 0); [|done]. rewrite alter_const, list_fmap_insert. cbn. by rewrite U.
Qed.

(** an operation on the new entity that only changes whether its device is valid *)
Lemma shape_set_new ci di v v' sh (s : st) f :
  shape (gcd s) = grow ci di v sh -> (Sh.nums sh < length (Sh.slots sh))%nat ->
  (forall od, ident od = new_ident (Sh.nums sh) ci di v -> ident (f od) = new_ident (Sh.nums sh) ci di v') ->
  exists s', set_od (Sh.nums sh) f s = Some (tt, s') /\ shape (gcd s') = grow ci di v' sh.
Proof.
  intros E L Hf. set (p := Sh.nums sh) in *.
  assert (Hp : Sh.slots (shape (gcd s)) !! p = Some (new_ident p ci di v)).
  { rewrite E. cbn. by apply list_lookup_insert_eq. }
  destruct (slot_ident _ _ _ Hp) as (od & Ho & Hi).
  unfold set_od. rewrite Ho. eexists. split; [done|].
  unfold shape in *. cbn. unfold grow in *. injection E as E1 E2 E3 E4 E5. f_equal; try done.
  fold p in E1. apply list_eq. intros i. rewrite list_lookup_fmap. destruct (decide (p = i)) as [<-|N].
  - rewrite list_lookup_alter_eq, Ho. fold p. rewrite list_lookup_insert_eq by done. cbn. f_equal. by apply Hf.
  - rewrite list_lookup_alter_ne by done. fold p. rewrite list_lookup_insert_ne by done.
    rewrite <- list_lookup_fmap, E1. by rewrite list_lookup_insert_ne.
Qed.

Lemma bind_run {A B} (m : M A) (f : A -> M B) s a s' : m s = Some (a, s') -> (m ≫= f) s = f a s'.
Proof. unfold mbind, M_bind. by intros ->. Qed.

Lemma del_last g : (0 < Gd.nums g <= length (Gd.slots g))%nat ->
  del_slot (Gd.nums g - 1) g = g <| Gd.nums := (Gd.nums g - 1)%nat |>.
Proof.
  intros H. unfold del_slot. rewrite (proj2 (Nat.ltb_lt _ _)) by lia.
  destruct g as [sl n shm pd sw]. cbn in *. repeat (unfold upd; cbn). f_equal.
  rewrite Nat.sub_diag. cbn. apply take_drop.
Qed.

Lemma new_entity ci di v sh :
  (Sh.nums sh < length (Sh.slots sh))%nat -> entity (grow ci di v sh) ci di (Sh.nums sh).
Proof.
  intros L. split; [cbn; lia|]. eexists. split; [by apply list_lookup_insert_eq|done].
Qed.

Lemma get_ptpfd_run dev s : exists fd s',
  gptp_get_ptpfd dev s = Some ((if PTPFD_VALID fd then PTPCLOCK_RDWR else PTPCLOCK_NOWORK, fd), s') /\
  gcd s' = gcd s.
Proof.
  unfold gptp_get_ptpfd, mbind, M_bind, act. destruct (ptpdev_clock_open dev (wrld s)) as [fd w].
  by exists fd, (s <| wrld := w |>).
Qed.

Lemma ok_name_od sh (W : wf_shape sh) p ci dev di : live sh p -> ok sh (name_od p ci dev di) (fun r => r = 0).
Proof. intros. unfold name_od. ok_auto. Qed.

Lemma act_gcd {A} (f : world -> A * world) s : exists a s', act f s = Some (a, s') /\ gcd s' = gcd s.
Proof. unfold act. destruct (f (wrld s)) as [a w]. by eexists _, _. Qed.

Lemma del_clock_last sh ci di s :
  wf_shape sh -> domain sh di -> (forall q, ~ entity sh ci di q) ->
  (Sh.nums sh < length (Sh.slots sh))%nat -> shape (gcd s) = grow ci di false sh ->
  exists r s', gptpclock_del_clock ci di s = Some (r, s') /\ shape (gcd s') = ungrow ci di false sh.
Proof.
  intros W D N L E. unfold gptpclock_del_clock. pose proof (wf_grow sh ci di false W D N L) as W'.
  assert (Wg : wf (gcd s)) by (unfold wf; by rewrite E).
  assert (C : clockod ci di s = Some (Some (Sh.nums sh), s)).
  { unfold clockod. rewrite (get_clockod_entity (gcd s) ci di (Sh.nums sh) Wg); [done|].
    rewrite E. by apply new_entity. }
  rewrite (bind_run _ _ _ _ _ C).
  assert (Hs : Sh.slots (shape (gcd s)) !! Sh.nums sh = Some (new_ident (Sh.nums sh) ci di false)).
  { rewrite E. by apply list_lookup_insert_eq. }
  destruct (slot_ident _ _ _ Hs) as (od & Ho & Hi).
  rewrite (bind_run _ _ s od s) by (unfold od_at; by rewrite Ho).
  unfold ident, new_ident in Hi. injection Hi as _ _ _ _ V. rewrite V.
  assert (En : Gd.nums (gcd s) = S (Sh.nums sh)) by (change (Sh.nums (shape (gcd s)) = S (Sh.nums sh)); by rewrite E).
  assert (El : length (Gd.slots (gcd s)) = length (Sh.slots sh)).
  { transitivity (length (Sh.slots (shape (gcd s)))); [cbn; by rewrite length_fmap|].
    rewrite E. cbn. by rewrite length_insert. }
  eexists _, _. split; [done|]. cbn [gcd].
  change (shape (del_slot (Sh.nums sh) (gcd s)) = ungrow ci di false sh).
  replace (Sh.nums sh) with (Gd.nums (gcd s) - 1)%nat by lia. rewrite del_last by lia.
  unfold ungrow. unfold grow in E. rewrite En. cbn. rewrite Nat.sub_0_r.
  injection E as E1 E2 E3 E4 E5. unfold shape. cbn. by rewrite E1, E3, E4, E5.
Qed.

(** the result of opening the device decides whether the new entity stays *)
Lemma open_od_shape sh ci dev di s :
  wf_shape sh -> domain sh di -> (forall q, ~ entity sh ci di q) ->
  (Sh.nums sh < length (Sh.slots sh))%nat -> shape (gcd s) = grow ci di true sh ->
  exists r s', open_od (Sh.nums sh) ci dev di s = Some (r, s') /\
    (r = 0 /\ shape (gcd s') = grow ci di true sh \/ r = -1 /\ shape (gcd s') = ungrow ci di false sh).
Proof.
  intros W D N L E. set (p := Sh.nums sh). unfold open_od.
  destruct (get_ptpfd_run dev s) as (fd & s0 & Q & G).
  rewrite (bind_run _ _ _ _ _ Q). rewrite <- G in E. cbn [fst snd].
  destruct (PTPFD_VALID fd) eqn:V.
  - destruct (shape_set_new ci di true true sh s0
      (fun od => od <| Od.state := PTPCLOCK_RDWR |> <| Od.ptpfd := fd |>) E L) as (s1 & E1 & H1).
    { intros od. unfold ident, new_ident. cbn. rewrite V. by intros [= -> -> -> ->]. }
    rewrite (bind_run _ _ _ _ _ E1), bool_decide_eq_true_2 by auto.
    pose proof (wf_grow sh ci di true W D N L) as W'.
    assert (Lp : live (grow ci di true sh) p) by (unfold live; cbn; lia).
    destruct (ok_name_od _ W' p ci dev di Lp s1 H1) as (r & s2 & E2 & H2 & ->).
    exists 0, s2. split; [done|]. by left.
  - destruct (shape_set_new ci di true false sh s0
      (fun od => od <| Od.state := PTPCLOCK_NOWORK |> <| Od.ptpfd := fd |>) E L) as (s1 & E1 & H1).
    { intros od. unfold ident, new_ident. cbn. rewrite V. by intros [= -> -> -> ->]. }
    rewrite (bind_run _ _ _ _ _ E1), bool_decide_eq_false_2 by (intros [?|?]; done).
    destruct (shape_set_new ci di false false sh s1
      (fun od => od <| Od.ptpfd := PTPFD_INVALID |>) H1 L) as (s2 & E2 & H2).
    { intros od. unfold ident, new_ident. cbn. by intros [= -> -> -> ->]. }
    rewrite (bind_run _ _ _ _ _ E2).
    destruct (del_clock_last sh ci di s2 W D N L H2) as (r & s3 & E3 & H3).
    rewrite (bind_run _ _ _ _ _ E3). exists (-1), s3. split; [done|]. by right.
Qed.

(** Adding an entity: it is there afterwards, or the entities are as before. *)
Lemma add_clock_shape sh ci dev di id s :
  wf_shape sh -> domain sh di -> shape (gcd s) = sh ->
  exists r s', gptpclock_add_clock ci dev di id s = Some (r, s') /\
    (r = 0 /\ shape (gcd s') = grow ci di true sh /\ (forall q, ~ entity sh ci di q) /\
       (Sh.nums sh < length (Sh.slots sh))%nat \/
     r = -1 /\ (shape (gcd s') = sh \/
       shape (gcd s') = ungrow ci di false sh /\ (Sh.nums sh < length (Sh.slots sh))%nat)).
Proof using CF CV DEV.
  intros W D E. unfold gptpclock_add_clock.
  assert (Wg : wf (gcd s)) by (unfold wf; by rewrite E).
  destruct (find_od_entity (gcd s) ci di Wg (Gd.nums (gcd s)) 0 eq_refl) as (o & Fo & Po).
  rewrite (bind_run _ _ s (match o with Some _ => true | None => false end) s)
    by (unfold exists_od; by rewrite Fo).
  destruct o as [q|].
  { exists (-1), s. split; [done|]. right. by auto. }
  assert (N : forall q, ~ entity sh ci di q) by (intros q; rewrite <- E; apply Po; lia).
  destruct (ok_GET_TS64 sh W di s E) as (ts & s1 & E1 & H1 & _).
  rewrite (bind_run _ _ _ _ _ E1), (bind_run _ _ _ tt (s1 <| db ::= fun l => l ++ [DbGmState di ts 0] |>)) by done.
  set (s2 := s1 <| db ::= _ |>). assert (H2 : shape (gcd s2) = sh) by done. clearbody s2. clear H1 E1.
  assert (Ln : length (Gd.slots (gcd s2)) = length (Sh.slots sh) /\ Gd.nums (gcd s2) = Sh.nums sh).
  { rewrite <- H2. cbn. by rewrite length_fmap. }
  destruct Ln as [Ls Ln].
  destruct (Nat.leb_spec (length (Gd.slots (gcd s2))) (Gd.nums (gcd s2))) as [F|F].
  { rewrite (bind_run _ _ s2 None s2) by (unfold new_slot; by rewrite (proj2 (Nat.leb_le _ _))).
    exists (-1), s2. split; [done|]. right. by auto. }
  set (s3 := s2 <| gcd; Gd.nums := S (Gd.nums (gcd s2)) |>).
  assert (NS : new_slot s2 = Some (Some (Gd.nums (gcd s2)), s3))
    by (unfold new_slot; by rewrite (proj2 (Nat.leb_gt _ _))).
  rewrite (bind_run _ _ _ _ _ NS).
  assert (Dg : 0 <= di < Z.of_nat (length (Shm.gcpp (Gd.shm (gcd s2))))).
  { pose proof (wf_shm _ W) as M. rewrite <- H2 in M, D. cbn in M. rewrite length_fmap in M.
    unfold domain in D. cbn in D. lia. }
  rewrite (bind_run _ _ _ _ _ (fresh_od_added (Gd.nums (gcd s2)) ci di id s3 F Dg)).
  rewrite Ln. destruct (open_od_shape sh ci dev di (s3 <| gcd ::= added (Sh.nums sh) ci di id |>) W D N)
    as (r & s5 & E5 & R); [lia| |].
  { rewrite <- H2 at 2. rewrite <- shape_added with (id := id); [|unfold wf; by rewrite H2|by rewrite H2].
    rewrite Ln. subst s3. rewrite Ln. reflexivity. }
  exists r, s5. split; [done|]. destruct R as [[-> R]|[-> R]]; [left|right].
  - split_and!; [done|done|done|lia].
  - split; [done|]. right. split; [done|lia].
Qed.
End Add.

(** ** Any sequence of calls *)

(** the calls the rest of the stack makes (an entity is deleted only by add_clock itself) *)
Inductive clock_call :=
| AddClock (ci : Z) (dev : list Z) (di : Z) (id : list Z)
| SetThisClock (ci di : Z) (para : bool)
| GetTs64 (ci di : Z)
| SetTs64 (ts ci di : Z)
| SetOffset64 (ts ci di : Z)
| SetAdj (ppb ci di : Z)
| TsConv (ts ci di ci1 di1 : Z)
| SetGmSync (di v : Z)
| GetGmSync (di : Z)
| SetGmChange (di : Z) (id : list Z) (become : bool).

Section Calls.
Context `{DEV : PtpDev} `{CV : Conversions} `{CF : Config}.

Definition clock_call_run (c : clock_call) : M unit :=
  match c with
  | AddClock ci dev di id => _ ← gptpclock_add_clock ci dev di id; mret tt
  | SetThisClock ci di para => _ ← gptpclock_set_thisClock ci di para; mret tt
  | GetTs64 ci di => _ ← gptpclock_getts64 ci di; mret tt
  | SetTs64 ts ci di => _ ← gptpclock_setts64 ts ci di; mret tt
  | SetOffset64 ts ci di => _ ← gptpclock_setoffset64 ts ci di; mret tt
  | SetAdj ppb ci di => _ ← gptpclock_setadj ppb ci di; mret tt
  | TsConv ts ci di ci1 di1 => _ ← gptpclock_tsconv ts ci di ci1 di1; mret tt
  | SetGmSync di v => _ ← gptpclock_set_gmsync di v; mret tt
  | GetGmSync di => _ ← gptpclock_get_gmsync di; mret tt
  | SetGmChange di id become => _ ← gptpclock_set_gmchange di id become; mret tt
  end.

Fixpoint clock_calls (cs : list clock_call) : M unit :=
  match cs with
  | [] => mret tt
  | c :: cs => _ ← clock_call_run c; clock_calls cs
  end.

(** an entity is added for a domain of the instance *)
Definition valid_call (max_domains : Z) (c : clock_call) : Prop :=
  match c with AddClock _ _ di _ => 0 <= di < max_domains | _ => True end.

Lemma ok_setts64 sh (W : wf_shape sh) ts ci di : ok sh (gptpclock_setts64 ts ci di) any.
Proof using All. unfold gptpclock_setts64. ok_auto. by apply ok_setts_od. Qed.

Lemma clock_call_wf c s :
  wf (gcd s) -> valid_call (Sh.max_domains (shape (gcd s))) c ->
  exists s', clock_call_run c s = Some (tt, s') /\ wf (gcd s') /\
             Sh.max_domains (shape (gcd s')) = Sh.max_domains (shape (gcd s)).
Proof using All.
  intros W V. set (sh := shape (gcd s)) in *.
  assert (K : forall A (m : M A), ok sh m any ->
    exists s', (_ ← m; mret tt) s = Some (tt, s') /\ wf (gcd s') /\ Sh.max_domains (shape (gcd s')) = Sh.max_domains sh).
  { intros A m H. destruct (H s eq_refl) as (a & s' & E & E' & _). exists s'.
    rewrite (bind_run _ _ _ _ _ E). unfold wf. by rewrite E'. }
  destruct c; cbn [clock_call_run]; [|apply K..].
  - cbn in V. destruct (add_clock_shape sh ci dev di id s W V eq_refl) as (r & s' & E & R).
    exists s'. rewrite (bind_run _ _ _ _ _ E). split; [done|]. unfold wf.
    destruct R as [(_ & -> & N & L)|(_ & [->|[-> L]])]; cbn [Sh.max_domains grow ungrow].
    + split; [by apply wf_grow|done].
    + done.
    + split; [by apply wf_ungrow|done].
  - by apply ok_set_thisClock.
  - by apply ok_getts64.
  - by apply ok_setts64.
  - by apply ok_setoffset64.
  - by apply ok_setadj.
  - by apply ok_tsconv.
  - by apply ok_set_gmsync.
  - by apply ok_get_gmsync.
  - by apply ok_set_gmchange.
Qed.

Lemma wf_init md mp : 0 < md <= 256 -> wf (gptpclock_init md mp).
Proof.
  intros H. split; cbn; rewrite ?length_fmap, ?length_replicate; lia.
Qed.

Lemma clock_calls_wf cs s :
  wf (gcd s) -> Forall (valid_call (Sh.max_domains (shape (gcd s)))) cs ->
  exists s', clock_calls cs s = Some (tt, s') /\ wf (gcd s').
Proof using All.
  intros W V. remember (Sh.max_domains (shape (gcd s))) as md eqn:M. symmetry in M.
  revert s W M. induction V as [|c cs Hc _ IH]; intros s W M; [by exists s|].
  cbn [clock_calls]. destruct (clock_call_wf c s W) as (s1 & E & W1 & M1); [by rewrite M|].
  rewrite (bind_run _ _ _ _ _ E). apply IH; [done|by rewrite M1].
Qed.

(** C22. Memory of the clock entities: whatever sequence of calls follows the initialisation for up
    to 256 domains, with clocks added for domains of the instance, every call returns - no
    reference leaves the array of entities, the shared memory or the per-domain data - and every
    entity keeps the parameters that belong to it: those of a master clock are the shared memory
    of its own domain, those of another clock its own. *)
Theorem clocks_well_formed md mp w cs :
  0 < md <= 256 -> Forall (valid_call md) cs ->
  exists s', clock_calls cs (mkst (gptpclock_init md mp) w []) = Some (tt, s') /\ wf (gcd s').
Proof using All.
  intros M V. apply clock_calls_wf; [by apply wf_init|done].
Qed.
End Calls.
