(* ===== verification/GptpclockTime.v ===== *)
(** * GptpclockTime: what the clock entities and the applications read.

    The time of an entity is its device's reading, moved by the entity's offset
    and, in SLAVE_SUB mode, by its software rate.  Here: a time that is set is the
    time that is read later, plus what the device advanced; a new rate starts from
    the time shown; and an application that reads the shared memory gets the time
    of the domain. *)

From stdpp Require Import gmap.
From Stdlib Require Import SpecFloat.
From S2P Require Import Prelude Types Floats Common Clock Gptpclock VirtualClock GptpclockFacts.
Import GC.
Import (hints) GC.
#[local] Open Scope Z_scope.
#[local] Open Scope gptp_scope.

(** ** Operations that only touch the shared parameters *)

(** an entity without the parameters kept in the element *)
Definition core (od : Od.oneclock_data_t) : Od.oneclock_data_t := od <| Od.ppe := Pp.zero |>.

Section Quiet.
Context `{DEV : PtpDev} `{CV : Conversions} `{CF : Config}.

Definition same_clocks (s s' : st) : Prop :=
  core <$> Gd.slots (gcd s') = core <$> Gd.slots (gcd s) /\ wrld s' = wrld s /\
  Gd.pdd (gcd s') = Gd.pdd (gcd s) /\ Gd.nums (gcd s') = Gd.nums (gcd s).

Definition quiet {A} (m : M A) : Prop := forall s a s', m s = Some (a, s') -> same_clocks s s'.

Lemma same_clocks_refl s : same_clocks s s.
Proof. done. Qed.

Lemma quiet_ret {A} (a : A) : quiet (mret a).
Proof. intros s b s' [= <- <-]. done. Qed.

Lemma quiet_bind {A B} (m : M A) (f : A -> M B) : quiet m -> (forall a, quiet (f a)) -> quiet (m ≫= f).
Proof.
  intros Hm Hf s b s' E. unfold mbind, M_bind in E. destruct (m s) as [[a s1]|] eqn:E1; [|done].
  destruct (Hm _ _ _ E1) as (A1 & A2 & A3 & A4). destruct (Hf _ _ _ _ E) as (B1 & B2 & B3 & B4).
  unfold same_clocks. by rewrite B1, B2, B3, B4.
Qed.

Lemma quiet_read {A} (r : Gd.gptpclock_data -> option A) :
  quiet (fun s => x ← r (gcd s); Some (x, s)).
Proof. intros s a s' E. cbn in E. by destruct (r (gcd s)) as [x|]; [injection E as <- <-|]. Qed.

Lemma quiet_clockod ci di : quiet (clockod ci di).
Proof. apply (quiet_read (fun g => get_clockod g ci di)). Qed.
Lemma quiet_od_at p : quiet (od_at p).
Proof. apply (quiet_read (fun g => Gd.slots g !! p)). Qed.
Lemma quiet_pdd_at d : quiet (pdd_at d).
Proof. apply (quiet_read (fun g => pdd_of g d)). Qed.
Lemma quiet_pp_at p : quiet (pp_at p).
Proof.
  intros s a s' E. unfold pp_at in E. destruct (Gd.slots (gcd s) !! p) as [od|]; [|done]. cbn in E.
  by destruct (pp_of (gcd s) (Od.pp od)); [injection E as <- <-|].
Qed.

Lemma quiet_set_od_pp p f : quiet (set_od_pp p f).
Proof.
  apply quiet_bind; [apply quiet_od_at|]. intros od s a s' E. unfold set_pp in E.
  destruct (pp_of (gcd s) (Od.pp od)); [|done]. injection E as <- <-.
  unfold same_clocks. cbn. destruct (Od.pp od); cbn; [|done].
  by rewrite fmap_alter_same by done.
Qed.
End Quiet.

Create HintDb quiet.
#[export] Hint Resolve quiet_ret quiet_clockod quiet_od_at quiet_pdd_at quiet_pp_at quiet_set_od_pp : quiet.
Ltac quiet_step :=
  match goal with
  | |- forall _, _ => intros
  | |- quiet (_ ≫= _) => apply quiet_bind
  | |- quiet (if ?c then _ else _) => destruct c
  | |- quiet (match ?o with _ => _ end) => destruct o
  | |- quiet _ => solve [eauto with quiet]
  end.

Section Time.
Context `{DEV : PtpDev} `{CV : Conversions} `{CF : Config}.

Lemma quiet_setoffset_od p : quiet (gptpclock_setoffset_od p).
Proof. unfold gptpclock_setoffset_od. repeat quiet_step. Qed.

(** entity (ci, di) is element [p] with the data [od], and its device is open *)
Record at_entity (s : st) (ci di : Z) (p : nat) (od : Od.oneclock_data_t) : Prop := {
  at_wf : wf (gcd s);
  at_place : entity (shape (gcd s)) ci di p;
  at_data : Gd.slots (gcd s) !! p = Some od;
  at_open : PTPFD_VALID (Od.ptpfd od) = true
}.

Lemma FN_ENTRY_run s ci di p od k : at_entity s ci di p od -> FN_ENTRY ci di k s = k p s.
Proof.
  intros [W P D O]. unfold FN_ENTRY.
  rewrite (bind_run _ _ s (Some p) s) by (unfold clockod; by rewrite (get_clockod_entity _ _ _ p W P)).
  rewrite (bind_run _ _ s od s) by (unfold od_at; by rewrite D). by rewrite O.
Qed.

Lemma od_at_run s p od : Gd.slots (gcd s) !! p = Some od -> od_at p s = Some (od, s).
Proof. unfold od_at. by intros ->. Qed.

Lemma gettime_run s fd old h w :
  ptpdev_clock_gettime fd (wrld s) = (Some h, w) ->
  GPTP_CLOCK_GETTIME fd old s = Some (h, s <| wrld := w |>).
Proof. intros E. unfold GPTP_CLOCK_GETTIME, mbind, M_bind, act. by rewrite E. Qed.

Lemma set_od_run s p f od : Gd.slots (gcd s) !! p = Some od ->
  set_od p f s = Some (tt, s <| gcd; Gd.slots ::= alter f p |>).
Proof. unfold set_od. by intros ->. Qed.

Lemma getts_od_run s p od old h w :
  Gd.slots (gcd s) !! p = Some od -> ptpdev_clock_gettime (Od.ptpfd od) (wrld s) = (Some h, w) ->
  gptpclock_getts_od old p s = Some (clock_time od h, s <| wrld := w |>).
Proof.
  intros D G. unfold gptpclock_getts_od. rewrite (bind_run _ _ _ _ _ (od_at_run _ _ _ D)).
  by rewrite (bind_run _ _ _ _ _ (gettime_run _ _ _ _ _ G)).
Qed.

Lemma getts64_run s ci di p od h w :
  at_entity s ci di p od -> ptpdev_clock_gettime (Od.ptpfd od) (wrld s) = (Some h, w) ->
  gptpclock_getts64 ci di s = Some (clock_time od h, s <| wrld := w |>).
Proof.
  intros A G. unfold gptpclock_getts64. rewrite (FN_ENTRY_run _ _ _ _ _ _ A).
  apply getts_od_run; [apply A|done].
Qed.

(** what is kept of an entity when its data changes without its identity *)
Lemma at_entity_core s s' ci di p od od' :
  at_entity s ci di p od -> shape (gcd s') = shape (gcd s) ->
  core <$> Gd.slots (gcd s') !! p = Some (core od') -> Od.ptpfd od' = Od.ptpfd od ->
  exists od'', at_entity s' ci di p od'' /\ core od'' = core od'.
Proof.
  intros [W P D O] E C F. destruct (Gd.slots (gcd s') !! p) as [od''|] eqn:D'; [|done].
  change (Some (core od'') = Some (core od')) in C. apply (inj Some) in C. exists od''. split; [|done]. split; [|by rewrite E|done|].
  - unfold wf. by rewrite E.
  - assert (Od.ptpfd od'' = Od.ptpfd od') as -> by (change (Od.ptpfd (core od'') = Od.ptpfd (core od')); by rewrite C).
    by rewrite F.
Qed.

Lemma clock_time_core od od' h : core od = core od' -> clock_time od h = clock_time od' h.
Proof.
  intros E. change (clock_time (core od) h = clock_time (core od') h). by rewrite E.
Qed.

#[local] Set Default Proof Using "All".

(** setting the offset of an entity with a software offset *)
Lemma setts_offset_od_run s ci di p od off c w :
  at_entity s ci di p od -> Od.mode od <> PTPCLOCK_SLAVE_MAIN ->
  ptpdev_clock_gettime (Od.ptpfd od) (wrld s) = (Some c, w) ->
  exists s' od', gptpclock_setts_offset_od off p s = Some (0, s') /\ wrld s' = w /\
    at_entity s' ci di p od' /\ shape (gcd s') = shape (gcd s) /\
    core od' = core (od <| Od.last_setts64 := c |> <| Od.offset64 := off |>).
Proof.
  intros A M G. destruct A as [W P D O]. pose proof P as [Lp _].
  unfold gptpclock_setts_offset_od. rewrite (bind_run _ _ _ _ _ (od_at_run _ _ _ D)).
  rewrite (bind_run _ _ _ _ _ (gettime_run _ _ _ _ _ G)).
  set (s1 := s <| wrld := w |>).
  set (s2 := s1 <| gcd; Gd.slots ::= alter (fun od => od <| Od.last_setts64 := c |>) p |>).
  set (s3 := s2 <| gcd; Gd.slots ::= alter (fun od => od <| Od.offset64 := off |>) p |>).
  assert (E2 : set_od p (fun od => od <| Od.last_setts64 := c |>) s1 = Some (tt, s2)) by by apply (set_od_run _ _ _ od).
  assert (D2 : Gd.slots (gcd s2) !! p = Some (od <| Od.last_setts64 := c |>)).
  { subst s2 s1. cbn. by rewrite list_lookup_alter_eq, D. }
  assert (E3 : set_od p (fun od => od <| Od.offset64 := off |>) s2 = Some (tt, s3)) by by eapply set_od_run.
  assert (D3 : Gd.slots (gcd s3) !! p = Some (od <| Od.last_setts64 := c |> <| Od.offset64 := off |>)).
  { subst s3. cbn -[s2]. by rewrite list_lookup_alter_eq, D2. }
  rewrite (bind_run _ _ _ _ _ E2), (bind_run _ _ _ _ _ E3). unfold is_mode.
  rewrite bool_decide_eq_false_2 by done.
  assert (H3 : shape (gcd s3) = shape (gcd s)).
  { subst s3 s2 s1. unfold shape. cbn. by rewrite !fmap_alter_same by done. }
  destruct (ok_setoffset_od (shape (gcd s)) W p Lp s3 H3) as (r & s4 & E4 & H4 & _).
  rewrite (bind_run _ _ _ _ _ E4). destruct (quiet_setoffset_od p _ _ _ E4) as (Q & Qw & _ & _).
  destruct (at_entity_core s s4 ci di p od (od <| Od.last_setts64 := c |> <| Od.offset64 := off |>))
    as (od' & A' & C'); [by split|done| |done|].
  { rewrite <- list_lookup_fmap, Q, list_lookup_fmap, D3. done. }
  exists s4, od'. split_and!; [done|by rewrite Qw|done|done|done].
Qed.

(** the reading [h] seen after the entity was set to [ts] when its device showed [c1], and its
    last setting noted at [c2] *)
Definition time_since (od : Od.oneclock_data_t) (ts c1 c2 h : Z) : Z :=
  clock_time (od <| Od.last_setts64 := c2 |> <| Od.offset64 := i64 (ts - c1) |>) h.

Lemma setts_od_run s ci di p od ts c1 c2 w1 w2 :
  at_entity s ci di p od -> Od.mode od <> PTPCLOCK_SLAVE_MAIN ->
  ptpdev_clock_gettime (Od.ptpfd od) (wrld s) = (Some c1, w1) ->
  ptpdev_clock_gettime (Od.ptpfd od) w1 = (Some c2, w2) ->
  exists s' od', gptpclock_setts_od ts p s = Some (0, s') /\ wrld s' = w2 /\
    at_entity s' ci di p od' /\ shape (gcd s') = shape (gcd s) /\
    core od' = core (od <| Od.last_setts64 := c2 |> <| Od.offset64 := i64 (ts - c1) |>).
Proof.
  intros A M G1 G2. unfold gptpclock_setts_od.
  rewrite (bind_run _ _ _ _ _ (od_at_run _ _ _ (at_data _ _ _ _ _ A))).
  rewrite (bind_run _ _ _ _ _ (gettime_run _ _ _ _ _ G1)). cbn [default].
  assert (A1 : at_entity (s <| wrld := w1 |>) ci di p od) by (destruct A; by split).
  destruct (setts_offset_od_run (s <| wrld := w1 |>) ci di p od (i64 (ts - c1)) c2 w2 A1 M G2)
    as (s' & od' & E & R).
  exists s', od'. by rewrite (bind_run _ _ _ _ _ E).
Qed.

Lemma time_since_master od ts c1 c2 h :
  Od.mode od = PTPCLOCK_MASTER -> sfits 64 (ts - c1) -> sfits 64 (ts + (h - c1)) ->
  time_since od ts c1 c2 h = ts + (h - c1).
Proof.
  intros M F1 F2. unfold time_since, clock_time, is_mode. cbn. rewrite M, andb_false_r.
  rewrite (swrap_id 64 (ts - c1)) by done.
  replace (h + (ts - c1)) with (ts + (h - c1)) by lia.
  rewrite (swrap_id 64 (ts + (h - c1))), Z.add_0_r by done. by apply swrap_id.
Qed.

(** C37. Setting and reading a clock that has no hardware adjustment: gptpclock_setts64 makes the
    entity show the given time, so that a later gptpclock_getts64 returns that time plus what the
    device advanced in between, plus in SLAVE_SUB mode the software rate of that span. *)
Theorem time_set_is_time_read s ci di p od ts c1 c2 h w1 w2 w3 :
  at_entity s ci di p od -> Od.mode od <> PTPCLOCK_SLAVE_MAIN ->
  ptpdev_clock_gettime (Od.ptpfd od) (wrld s) = (Some c1, w1) ->
  ptpdev_clock_gettime (Od.ptpfd od) w1 = (Some c2, w2) ->
  ptpdev_clock_gettime (Od.ptpfd od) w2 = (Some h, w3) ->
  sfits 64 (ts - c1) -> sfits 64 (ts + (h - c1)) ->
  exists s' s'', gptpclock_setts64 ts ci di s = Some (0, s') /\
    gptpclock_getts64 ci di s' = Some (i64 (ts + (h - c1) +
      if nonzero (Od.adjrate od) && is_mode PTPCLOCK_SLAVE_SUB od
      then sw_rate (Od.adjrate od) c2 h else 0), s'').
Proof.
  intros A M G1 G2 G3 F1 F2.
  destruct (setts_od_run s ci di p od ts c1 c2 w1 w2 A M G1 G2) as (s' & od' & E & Ew & A' & _ & C).
  exists s', (s' <| wrld := w3 |>). split.
  { unfold gptpclock_setts64. by rewrite (FN_ENTRY_run _ _ _ _ _ _ A). }
  assert (F : Od.ptpfd od' = Od.ptpfd od).
  { change (Od.ptpfd (core od') = Od.ptpfd od). by rewrite C. }
  rewrite (getts64_run s' ci di p od' h w3) by (try done; by rewrite Ew, F).
  rewrite (clock_time_core _ _ h C). do 2 f_equal. unfold clock_time. cbn.
  rewrite (swrap_id 64 (ts - c1)) by done.
  replace (h + (ts - c1)) with (ts + (h - c1)) by lia. by rewrite (swrap_id 64 (ts + (h - c1))).
Qed.

(** ** The shared memory *)

Lemma at_entity_data s s' ci di p od od' :
  at_entity s ci di p od -> shape (gcd s') = shape (gcd s) ->
  Gd.slots (gcd s') !! p = Some od' -> Od.ptpfd od' = Od.ptpfd od -> at_entity s' ci di p od'.
Proof.
  intros [W P D O] E D' F. split; [unfold wf; by rewrite E|by rewrite E|done|by rewrite F].
Qed.

(** the identity of an entity, from its place *)
Lemma at_entity_ident s ci di p od : at_entity s ci di p od ->
  Od.clockIndex od = ci /\ Od.domainIndex od = di /\ 0 <= di < Sh.max_domains (shape (gcd s)) /\
  Od.pp od = (if ci =? 0 then PpShm di else PpEle p).
Proof.
  intros [W [L (x & Hx & C & D)] Ho _]. rewrite (ident_slot _ _ _ Ho) in Hx. injection Hx as <-.
  destruct (wf_idents _ W p (ident od) L (ident_slot _ _ _ Ho)) as [Hd R]. cbn in C, D, Hd, R. subst.
  split_and!; try done; [apply Hd..|]. destruct (Od.clockIndex od =? 0); apply R.
Qed.

Lemma clockod_run s ci di p od : at_entity s ci di p od -> clockod ci di s = Some (Some p, s).
Proof.
  intros [W P D O]. unfold clockod. by rewrite (get_clockod_entity _ _ _ p W P).
Qed.

(** the clocks of domain [d]: the master clock [z], thisClock [t] with clock index [tci], and the
    entry [x] of the shared memory *)
Record domain_clocks (s : st) (d tci : Z) (z : nat) (zod : Od.oneclock_data_t) (t : nat)
    (tod : Od.oneclock_data_t) (x : Pp.gptp_clock_ppara_t) : Prop := {
  dc_master : at_entity s 0 d z zod;
  dc_this : at_entity s tci d t tod;
  dc_mode : Od.mode zod = PTPCLOCK_MASTER;
  dc_tmode : Od.mode tod <> PTPCLOCK_MASTER;
  dc_tci : tci <> 0;
  dc_diff : Od.ts2diff tod = 0;
  dc_pdd : exists pd, pdd_of (gcd s) d = Some pd /\ Pdd.thisClockIndex pd = tci;
  dc_shm : shm_entry (gcd s) d = Some x
}.

(** what the other processes need of the two clocks is in the shared memory *)
Definition shm_current (zod tod : Od.oneclock_data_t) (x : Pp.gptp_clock_ppara_t) : Prop :=
  Pp.offset64 x = i64 (Od.offset64 zod + Od.offset64 tod) /\
  (Od.mode tod = PTPCLOCK_SLAVE_MAIN -> Od.offset64 tod = 0 /\ Pp.adjrate x = d0) /\
  (Od.mode tod = PTPCLOCK_SLAVE_SUB ->
     Pp.adjrate x = Od.adjrate tod /\ Pp.last_setts64 x = Od.last_setts64 tod).

Definition shm_alter (d : Z) (f : Pp.gptp_clock_ppara_t -> Pp.gptp_clock_ppara_t) (s : st) : st :=
  s <| gcd ::= alter_pp f (PpShm d) |>.

Lemma shm_alter_entry d f s x : shm_entry (gcd s) d = Some x -> shm_entry (gcd (shm_alter d f s)) d = Some (f x).
Proof.
  unfold shm_entry, shm_alter. cbn. destruct (0 <=? d); [|done]. intros H. cbn.
  by rewrite list_lookup_alter_eq, H.
Qed.

Lemma shm_alter_clocks d f s d' tci z zod t tod x :
  (forall x, Pp.domainIndex (f x) = Pp.domainIndex x) ->
  domain_clocks s d tci z zod t tod x -> d' = d ->
  domain_clocks (shm_alter d' f s) d tci z zod t tod (f x).
Proof.
  intros Hf [M T M1 M2 C D P X] ->.
  assert (E : shape (gcd (shm_alter d f s)) = shape (gcd s))
    by by apply (alter_pp_shape _ (at_wf _ _ _ _ _ M)).
  split; try done.
  - by apply (at_entity_data s _ 0 d z zod); [|exact E|apply M|].
  - by apply (at_entity_data s _ tci d t tod); [|exact E|apply T|].
  - by apply shm_alter_entry.
Qed.

(** gptpclock_setoffset_od writes the combined offset to the shared memory *)
Lemma setoffset_od_master s d tci z zod t tod x :
  domain_clocks s d tci z zod t tod x ->
  gptpclock_setoffset_od z s =
  Some (0, shm_alter d (fun x => x <| Pp.offset64 := i64 (Od.offset64 zod + Od.offset64 tod) |>) s).
Proof.
  intros [M T M1 M2 C D (pd & P & Pt) X].
  destruct (at_entity_ident _ _ _ _ _ M) as (Zc & Zd & Dd & Zp). cbn in Zp.
  destruct (pp_exists (gcd s) z zod (at_wf _ _ _ _ _ M)) as (x' & Hx & Hd);
    [apply (at_place _ _ _ _ _ M)|apply (at_data _ _ _ _ _ M)|].
  assert (x' = x) as -> by (rewrite Zp in Hx; cbn in Hx; congruence).
  pose proof (at_data _ _ _ _ _ M) as Zs. pose proof (at_data _ _ _ _ _ T) as Ts.
  unfold gptpclock_setoffset_od. rewrite (bind_run _ _ _ _ _ (od_at_run _ _ _ Zs)).
  unfold is_mode. rewrite bool_decide_eq_false_2 by (by rewrite M1).
  rewrite (bind_run _ _ s x s) by (unfold pp_at; rewrite Zs; cbn; by rewrite Hx).
  rewrite Hd, Zd, (bind_run _ _ _ _ _ (clockod_run _ _ _ _ _ M)).
  rewrite (bind_run _ _ s pd s) by (unfold pdd_at; by rewrite P).
  rewrite Pt, (bind_run _ _ _ _ _ (clockod_run _ _ _ _ _ T)).
  rewrite !bool_decide_eq_true_2 by done.
  rewrite (bind_run _ _ _ _ _ (od_at_run _ _ _ Ts)).
  unfold set_od_pp, set_pp, mbind, M_bind, od_at. rewrite Zs. cbn. rewrite Zp. cbn. by rewrite X.
Qed.

Lemma setoffset_od_this s d tci z zod t tod x :
  domain_clocks s d tci z zod t tod x -> Od.mode tod = PTPCLOCK_SLAVE_SUB ->
  gptpclock_setoffset_od t s =
  Some (0, shm_alter d (fun x => x <| Pp.offset64 := i64 (Od.offset64 zod + Od.offset64 tod) |>)
             (shm_alter d (fun x => x <| Pp.last_setts64 := Od.last_setts64 tod |>) s)).
Proof.
  intros DC Sub. pose proof DC as [M T M1 M2 C D (pd & P & Pt) X].
  destruct (at_entity_ident _ _ _ _ _ M) as (_ & _ & _ & Zp). cbn in Zp.
  destruct (at_entity_ident _ _ _ _ _ T) as (_ & Td & _).
  destruct (pp_exists (gcd s) t tod (at_wf _ _ _ _ _ T)) as (x' & Hx & Hd);
    [apply (at_place _ _ _ _ _ T)|apply (at_data _ _ _ _ _ T)|].
  pose proof (at_data _ _ _ _ _ M) as Zs. pose proof (at_data _ _ _ _ _ T) as Ts.
  unfold gptpclock_setoffset_od. rewrite (bind_run _ _ _ _ _ (od_at_run _ _ _ Ts)).
  unfold is_mode. rewrite bool_decide_eq_false_2 by (by rewrite Sub).
  rewrite (bind_run _ _ s x' s) by (unfold pp_at; rewrite Ts; cbn; by rewrite Hx).
  rewrite Hd, Td, (bind_run _ _ _ _ _ (clockod_run _ _ _ _ _ M)).
  rewrite (bind_run _ _ s pd s) by (unfold pdd_at; by rewrite P).
  rewrite Pt, (bind_run _ _ _ _ _ (clockod_run _ _ _ _ _ T)).
  rewrite bool_decide_eq_false_2 by done. rewrite bool_decide_eq_true_2 by done.
  set (f1 := fun x => x <| Pp.last_setts64 := Od.last_setts64 tod |>).
  set (f2 := fun x => x <| Pp.offset64 := i64 (Od.offset64 zod + Od.offset64 tod) |>).
  assert (G : forall f s' x', Gd.slots (gcd s') = Gd.slots (gcd s) -> shm_entry (gcd s') d = Some x' ->
    set_od_pp z f s' = Some (tt, shm_alter d f s')).
  { intros f s' x'' E X''. unfold set_od_pp, set_pp, mbind, M_bind, od_at. rewrite E, Zs. cbn.
    rewrite Zp. cbn. by rewrite X''. }
  rewrite (bind_run _ _ _ _ _ (G f1 s x eq_refl X)).
  assert (Zs' : Gd.slots (gcd (shm_alter d f1 s)) !! z = Some zod) by done.
  rewrite (bind_run _ _ _ _ _ (od_at_run _ _ _ Zs')).
  by rewrite (bind_run _ _ _ _ _ (G f2 (shm_alter d f1 s) (f1 x) eq_refl (shm_alter_entry _ _ _ _ X))).
Qed.

Definition slot_alter (p : nat) (f : Od.oneclock_data_t -> Od.oneclock_data_t) (s : st) : st :=
  s <| gcd; Gd.slots ::= alter f p |>.

Lemma set_od_slot p f s od : Gd.slots (gcd s) !! p = Some od -> set_od p f s = Some (tt, slot_alter p f s).
Proof. apply set_od_run. Qed.

Lemma slot_alter_shape p f s :
  (forall od, ident (f od) = ident od) -> shape (gcd (slot_alter p f s)) = shape (gcd s).
Proof. intros H. unfold shape. cbn. by rewrite fmap_alter_same by (intros; apply H). Qed.

Lemma clocks_differ s d tci z zod t tod x : domain_clocks s d tci z zod t tod x -> z <> t.
Proof.
  intros [M T _ _ C _ _ _] ->. apply C.
  destruct (at_entity_ident _ _ _ _ _ M) as (E1 & _), (at_entity_ident _ _ _ _ _ T) as (E2 & _).
  pose proof (at_data _ _ _ _ _ M). pose proof (at_data _ _ _ _ _ T). congruence.
Qed.

(** a change to the data of one of the two clocks *)
Lemma slot_alter_master f s d tci z zod t tod x :
  (forall od, ident (f od) = ident od) -> (forall od, Od.mode (f od) = Od.mode od) ->
  (forall od, Od.ptpfd (f od) = Od.ptpfd od) ->
  domain_clocks s d tci z zod t tod x -> domain_clocks (slot_alter z f s) d tci z (f zod) t tod x.
Proof.
  intros F1 F2 F3 DC. pose proof (clocks_differ _ _ _ _ _ _ _ _ DC) as N.
  destruct DC as [M T M1 M2 C D P X]. pose proof (slot_alter_shape z f s F1) as E. split; try done.
  - apply (at_entity_data s _ 0 d z zod _ M E); [|done]. cbn. by rewrite list_lookup_alter_eq, (at_data _ _ _ _ _ M).
  - apply (at_entity_data s _ tci d t tod _ T E); [|done]. cbn. rewrite list_lookup_alter_ne by done. apply T.
  - by rewrite F2.
Qed.

Lemma slot_alter_this f s d tci z zod t tod x :
  (forall od, ident (f od) = ident od) -> (forall od, Od.mode (f od) = Od.mode od) ->
  (forall od, Od.ptpfd (f od) = Od.ptpfd od) -> (forall od, Od.ts2diff (f od) = Od.ts2diff od) ->
  domain_clocks s d tci z zod t tod x -> domain_clocks (slot_alter t f s) d tci z zod t (f tod) x.
Proof.
  intros F1 F2 F3 F4 DC. pose proof (clocks_differ _ _ _ _ _ _ _ _ DC) as N.
  destruct DC as [M T M1 M2 C D P X]. pose proof (slot_alter_shape t f s F1) as E. split; try done.
  - apply (at_entity_data s _ 0 d z zod _ M E); [|done]. cbn. rewrite list_lookup_alter_ne by done. apply M.
  - apply (at_entity_data s _ tci d t tod _ T E); [|done]. cbn. by rewrite list_lookup_alter_eq, (at_data _ _ _ _ _ T).
  - by rewrite F2.
  - by rewrite F4.
Qed.

Lemma domain_clocks_world w s d tci z zod t tod x :
  domain_clocks s d tci z zod t tod x -> domain_clocks (s <| wrld := w |>) d tci z zod t tod x.
Proof. intros [[W1 P1 D1 O1] [W2 P2 D2 O2] M1 M2 C D P X]. split; try done. Qed.

Lemma domain_clocks_db f s d tci z zod t tod x :
  domain_clocks s d tci z zod t tod x -> domain_clocks (s <| db ::= f |>) d tci z zod t tod x.
Proof. intros [[W1 P1 D1 O1] [W2 P2 D2 O2] M1 M2 C D P X]. split; try done. Qed.

Lemma gettime_any fd old s : exists h w, GPTP_CLOCK_GETTIME fd old s = Some (h, s <| wrld := w |>).
Proof.
  unfold GPTP_CLOCK_GETTIME, mbind, M_bind, act.
  destruct (ptpdev_clock_gettime fd (wrld s)) as [o w]. by exists (default old o), w.
Qed.

Lemma setoffset64_master ts s d tci z zod t tod x :
  domain_clocks s d tci z zod t tod x ->
  exists s', gptpclock_setoffset64 ts 0 d s = Some (0, s') /\
    domain_clocks s' d tci z (zod <| Od.offset64 := ts |>) t tod
                  (x <| Pp.offset64 := i64 (ts + Od.offset64 tod) |>).
Proof.
  intros DC. pose proof (dc_master _ _ _ _ _ _ _ _ DC) as M.
  pose (g1 := fun od => od <| Od.offset64 := ts |>).
  assert (DC1 := slot_alter_master g1 s d tci z zod t tod x
    (fun _ => eq_refl) (fun _ => eq_refl) (fun _ => eq_refl) DC).
  pose (g2 := fun x => x <| Pp.offset64 := i64 (ts + Od.offset64 tod) |>).
  eexists. split; [|apply (shm_alter_clocks d g2 _ d _ _ _ _ _ _ (fun _ => eq_refl) DC1 eq_refl)].
  unfold gptpclock_setoffset64. rewrite (FN_ENTRY_run _ _ _ _ _ _ M).
  rewrite (bind_run _ _ _ _ _ (od_at_run _ _ _ (at_data _ _ _ _ _ M))).
  unfold is_mode. rewrite (dc_mode _ _ _ _ _ _ _ _ DC), bool_decide_eq_false_2 by done. cbn [negb].
  rewrite (bind_run _ _ _ _ _ (set_od_slot z g1 s zod (at_data _ _ _ _ _ M))).
  by rewrite (bind_run _ _ _ _ _ (setoffset_od_master _ _ _ _ _ _ _ _ DC1)).
Qed.

(** setting the offset of thisClock in SLAVE_SUB mode *)
Lemma setoffset_od_this_current s d tci z zod t tod x :
  domain_clocks s d tci z zod t tod x -> Od.mode tod = PTPCLOCK_SLAVE_SUB ->
  Pp.adjrate x = Od.adjrate tod ->
  exists s' x', gptpclock_setoffset_od t s = Some (0, s') /\ domain_clocks s' d tci z zod t tod x' /\
    shm_current zod tod x'.
Proof.
  intros DC Sub R.
  set (f1 := fun x => x <| Pp.last_setts64 := Od.last_setts64 tod |>).
  set (f2 := fun x => x <| Pp.offset64 := i64 (Od.offset64 zod + Od.offset64 tod) |>).
  exists (shm_alter d f2 (shm_alter d f1 s)), (f2 (f1 x)).
  split_and!; [by apply (setoffset_od_this s d tci z zod t tod x)| |].
  - apply shm_alter_clocks; [done| |done]. by apply shm_alter_clocks.
  - split_and!; [done|by rewrite Sub|done].
Qed.

Lemma setts_offset_this_sub off s d tci z zod t tod x :
  domain_clocks s d tci z zod t tod x -> Od.mode tod = PTPCLOCK_SLAVE_SUB ->
  Pp.adjrate x = Od.adjrate tod ->
  exists s' tod' x', gptpclock_setts_offset_od off t s = Some (0, s') /\
    domain_clocks s' d tci z zod t tod' x' /\ shm_current zod tod' x' /\
    Od.mode tod' = PTPCLOCK_SLAVE_SUB /\ Pp.adjrate x' = Od.adjrate tod'.
Proof.
  intros DC Sub R. pose proof (at_data _ _ _ _ _ (dc_this _ _ _ _ _ _ _ _ DC)) as Ts.
  destruct (gettime_any (Od.ptpfd tod) (Od.last_setts64 tod) s) as (h & w & G).
  set (s1 := s <| wrld := w |>).
  pose (g1 := fun od => od <| Od.last_setts64 := h |>).
  pose (g2 := fun od => od <| Od.offset64 := off |>).
  pose (g3 := fun od => od <| Od.offset64 := 0 |>).
  assert (DC1 := slot_alter_this g1 s1 d tci z zod t tod x
    (fun _ => eq_refl) (fun _ => eq_refl) (fun _ => eq_refl) (fun _ => eq_refl)
    (domain_clocks_world w _ _ _ _ _ _ _ _ DC)).
  assert (DC2 := slot_alter_this g2 _ d tci z zod t _ x
    (fun _ => eq_refl) (fun _ => eq_refl) (fun _ => eq_refl) (fun _ => eq_refl) DC1).
  destruct (setoffset_od_this_current _ _ _ _ _ _ _ _ DC2 Sub R) as (s' & x' & E & DC' & Cur).
  exists s', (tod <| Od.last_setts64 := h |> <| Od.offset64 := off |>), x'. split_and!; try done; [|by apply Cur].
  unfold gptpclock_setts_offset_od. rewrite (bind_run _ _ _ _ _ (od_at_run _ _ _ Ts)).
  rewrite (bind_run _ _ _ _ _ G).
  rewrite (bind_run _ _ _ _ _ (set_od_slot t g1 s1 tod Ts)).
  rewrite (bind_run _ _ _ _ _ (set_od_slot t g2 _ _ (at_data _ _ _ _ _ (dc_this _ _ _ _ _ _ _ _ DC1)))).
  unfold is_mode. rewrite Sub, bool_decide_eq_false_2 by done. by rewrite (bind_run _ _ _ _ _ E).
Qed.

(** ... and in SLAVE_MAIN mode, where the offset goes to the device *)
Lemma setts_offset_this_main off s d tci z zod t tod x :
  domain_clocks s d tci z zod t tod x -> Od.mode tod = PTPCLOCK_SLAVE_MAIN ->
  exists s' tod', gptpclock_setts_offset_od off t s = Some (0, s') /\
    domain_clocks s' d tci z zod t tod' x /\ Od.mode tod' = PTPCLOCK_SLAVE_MAIN /\ Od.offset64 tod' = 0.
Proof.
  intros DC Main. pose proof (at_data _ _ _ _ _ (dc_this _ _ _ _ _ _ _ _ DC)) as Ts.
  destruct (gettime_any (Od.ptpfd tod) (Od.last_setts64 tod) s) as (h & w & G).
  set (s1 := s <| wrld := w |>).
  pose (g1 := fun od => od <| Od.last_setts64 := h |>).
  pose (g2 := fun od => od <| Od.offset64 := off |>).
  pose (g3 := fun od => od <| Od.offset64 := 0 |>).
  assert (DC1 := slot_alter_this g1 s1 d tci z zod t tod x
    (fun _ => eq_refl) (fun _ => eq_refl) (fun _ => eq_refl) (fun _ => eq_refl)
    (domain_clocks_world w _ _ _ _ _ _ _ _ DC)).
  assert (DC2 := slot_alter_this g2 _ d tci z zod t _ x
    (fun _ => eq_refl) (fun _ => eq_refl) (fun _ => eq_refl) (fun _ => eq_refl) DC1).
  assert (DC3 := slot_alter_this g3 _ d tci z zod t _ x
    (fun _ => eq_refl) (fun _ => eq_refl) (fun _ => eq_refl) (fun _ => eq_refl) DC2).
  eexists _, _. split; [|split; [eapply domain_clocks_world, DC3|done]].
  unfold gptpclock_setts_offset_od. rewrite (bind_run _ _ _ _ _ (od_at_run _ _ _ Ts)).
  rewrite (bind_run _ _ _ _ _ G).
  rewrite (bind_run _ _ _ _ _ (set_od_slot t g1 s1 tod Ts)).
  rewrite (bind_run _ _ _ _ _ (set_od_slot t g2 _ _ (at_data _ _ _ _ _ (dc_this _ _ _ _ _ _ _ _ DC1)))).
  unfold is_mode. rewrite Main, bool_decide_eq_true_2 by done.
  rewrite (bind_run _ _ _ _ _ (set_od_slot t g3 _ _ (at_data _ _ _ _ _ (dc_this _ _ _ _ _ _ _ _ DC2)))).
  reflexivity.
Qed.

Lemma pdd_alter_of f d g pd : pdd_of g d = Some pd ->
  pdd_of (g <| Gd.pdd ::= alter f (Z.to_nat d) |>) d = Some (f pd).
Proof.
  unfold pdd_of. destruct (0 <=? d); [|done]. intros H. cbn. by rewrite list_lookup_alter_eq, H.
Qed.

(** gptpclock_setadj notes the rate of thisClock in the domain's data *)
Lemma domain_clocks_pdd f s d tci z zod t tod x :
  (forall pd, Pdd.thisClockIndex (f pd) = Pdd.thisClockIndex pd) ->
  domain_clocks s d tci z zod t tod x ->
  exists s', set_pdd d f s = Some (tt, s') /\ wrld s' = wrld s /\ domain_clocks s' d tci z zod t tod x.
Proof.
  intros F [M T M1 M2 C D (pd & P & Pt) X].
  exists (s <| gcd; Gd.pdd ::= alter f (Z.to_nat d) |>). split; [unfold set_pdd; by rewrite P|].
  assert (E : shape (gcd (s <| gcd; Gd.pdd ::= alter f (Z.to_nat d) |>)) = shape (gcd s)).
  { unfold shape. cbn. by rewrite length_alter. }
  split; [done|]. split; try done.
  - by apply (at_entity_data s _ 0 d z zod); [|exact E|apply M|].
  - by apply (at_entity_data s _ tci d t tod); [|exact E|apply T|].
  - exists (f pd). split; [by apply pdd_alter_of|]. by rewrite F.
Qed.

Lemma record_adj_this ppb s d tci z zod t tod x :
  domain_clocks s d tci z zod t tod x ->
  exists s', record_adj ppb tci t s = Some (0, s') /\
    domain_clocks s' d tci z zod t (tod <| Od.adjvppb := ppb |>) x.
Proof.
  intros DC. pose (g1 := fun od => od <| Od.adjvppb := ppb |>).
  assert (DC1 := slot_alter_this g1 s d tci z zod t tod x
    (fun _ => eq_refl) (fun _ => eq_refl) (fun _ => eq_refl) (fun _ => eq_refl) DC).
  eexists. split; [|apply domain_clocks_db, DC1].
  unfold record_adj. rewrite (bind_run _ _ _ _ _ (set_od_slot t g1 s tod (at_data _ _ _ _ _ (dc_this _ _ _ _ _ _ _ _ DC)))).
  rewrite (bind_run _ _ _ _ _ (od_at_run _ _ _ (at_data _ _ _ _ _ (dc_this _ _ _ _ _ _ _ _ DC1)))).
  reflexivity.
Qed.

Lemma restart_rate_this s d tci z zod t tod x :
  domain_clocks s d tci z zod t tod x -> Od.mode tod = PTPCLOCK_SLAVE_SUB ->
  Pp.adjrate x = Od.adjrate tod ->
  exists s' tod' x', restart_rate tci d t s = Some (tt, s') /\
    domain_clocks s' d tci z zod t tod' x' /\ shm_current zod tod' x' /\
    Od.mode tod' = PTPCLOCK_SLAVE_SUB /\ Pp.adjrate x' = Od.adjrate tod'.
Proof.
  intros DC Sub R. pose proof (at_data _ _ _ _ _ (dc_this _ _ _ _ _ _ _ _ DC)) as Ts.
  unfold restart_rate. rewrite (bind_run _ _ _ _ _ (od_at_run _ _ _ Ts)).
  rewrite (dc_diff _ _ _ _ _ _ _ _ DC). cbn [Z.ltb Z.compare].
  destruct (gettime_any (Od.ptpfd tod) uninitialised s) as (h & w & G).
  assert (E1 : gptpclock_getts_od uninitialised t s = Some (clock_time tod h, s <| wrld := w |>)).
  { unfold gptpclock_getts_od. rewrite (bind_run _ _ _ _ _ (od_at_run _ _ _ Ts)).
    by rewrite (bind_run _ _ _ _ _ G). }
  rewrite (bind_run _ _ _ _ _ E1).
  pose proof (domain_clocks_world w _ _ _ _ _ _ _ _ DC) as DC1.
  set (s1 := s <| wrld := w |>) in *.
  destruct (gettime_any (Od.ptpfd tod) uninitialised s1) as (h2 & w2 & G2).
  destruct (setts_offset_this_sub (i64 (clock_time tod h - h2)) _ d tci z zod t tod x
    (domain_clocks_world w2 _ _ _ _ _ _ _ _ DC1) Sub R) as (s' & tod' & x' & E & DC' & Cur & Sub' & R').
  exists s', tod', x'. split_and!; try done.
  assert (E2 : gptpclock_setts_od (clock_time tod h) t s1 = Some (0, s')).
  { unfold gptpclock_setts_od. rewrite (bind_run _ _ _ _ _ (od_at_run s1 t tod Ts)).
    rewrite (bind_run _ _ _ _ _ G2). by rewrite (bind_run _ _ _ _ _ E). }
  by rewrite (bind_run _ _ _ _ _ E2).
Qed.

(** the shared memory of domain [d] shows its clocks *)
Definition shows (s : st) (d tci : Z) : Prop :=
  exists z zod t tod x, domain_clocks s d tci z zod t tod x /\ shm_current zod tod x.

(** the calls by which the servo of a domain steers its clocks *)
Inductive servo_call :=
| MasterOffset (ts : Z)      (* gptpclock_setoffset64 on the master clock *)
| ThisOffset (ts : Z)        (* ... on thisClock *)
| ThisRate (ppb : Z).        (* gptpclock_setadj on thisClock *)

Definition servo_run (d tci : Z) (c : servo_call) : M Z :=
  match c with
  | MasterOffset ts => gptpclock_setoffset64 ts 0 d
  | ThisOffset ts => gptpclock_setoffset64 ts tci d
  | ThisRate ppb => gptpclock_setadj ppb tci d
  end.

Fixpoint servo_calls (d tci : Z) (cs : list servo_call) : M unit :=
  match cs with
  | [] => mret tt
  | c :: cs => _ ← servo_run d tci c; servo_calls d tci cs
  end.

Lemma mode_main_or_sub m : m <> PTPCLOCK_MASTER -> m = PTPCLOCK_SLAVE_MAIN \/ m = PTPCLOCK_SLAVE_SUB.
Proof. destruct m; auto. done. Qed.

(** in SLAVE_MAIN mode both go to the device *)
Lemma main_offset ts s d tci z zod t tod x :
  domain_clocks s d tci z zod t tod x -> Od.mode tod = PTPCLOCK_SLAVE_MAIN ->
  exists s' tod', gptpclock_setoffset64 ts tci d s = Some (0, s') /\
    domain_clocks s' d tci z zod t tod' x /\ Od.mode tod' = PTPCLOCK_SLAVE_MAIN /\ Od.offset64 tod' = 0.
Proof.
  intros DC Main. pose proof (dc_this _ _ _ _ _ _ _ _ DC) as T.
  destruct (setts_offset_this_main ts _ _ _ _ _ _ _ _ DC Main) as (s' & tod' & E & R).
  exists s', tod'. split; [|done]. unfold gptpclock_setoffset64. rewrite (FN_ENTRY_run _ _ _ _ _ _ T).
  rewrite (bind_run _ _ _ _ _ (od_at_run _ _ _ (at_data _ _ _ _ _ T))). unfold is_mode.
  rewrite Main, bool_decide_eq_true_2 by done. cbn [negb].
  rewrite (dc_diff _ _ _ _ _ _ _ _ DC). cbn [Z.ltb Z.compare].
  assert (E' : time_setoffset64 ts tci d s = Some (0, s')).
  { unfold time_setoffset64. rewrite (FN_ENTRY_run _ _ _ _ _ _ T). by rewrite (bind_run _ _ _ _ _ E). }
  by rewrite (bind_run _ _ _ _ _ E').
Qed.

(** the first lines of gptpclock_setadj *)
Lemma setadj_start ppb s d tci z zod t tod x :
  domain_clocks s d tci z zod t tod x ->
  exists s1, domain_clocks s1 d tci z zod t tod x /\ wrld s1 = wrld s /\ forall k,
    (od ← od_at t; pd ← pdd_at (Od.domainIndex od);
     _ ← (if Pdd.thisClockIndex pd =? tci then
            set_pdd (Od.domainIndex od) (fun pd => pd <| Pdd.thisClock_adjppb := ppb |>)
          else mret tt); (k od : M Z)) s = k tod s1.
Proof.
  intros DC. pose proof (dc_this _ _ _ _ _ _ _ _ DC) as T. pose proof (at_data _ _ _ _ _ T) as Ts.
  destruct (at_entity_ident _ _ _ _ _ T) as (_ & Td & _).
  pose proof (dc_pdd _ _ _ _ _ _ _ _ DC) as (pd & P & Pt).
  pose (f0 := fun pd => pd <| Pdd.thisClock_adjppb := ppb |>).
  destruct (domain_clocks_pdd f0 s d tci z zod t tod x (fun _ => eq_refl) DC) as (s1 & E1 & Ew & DC1).
  exists s1. split; [done|]. split; [done|]. intros k.
  rewrite (bind_run _ _ _ _ _ (od_at_run _ _ _ Ts)), Td.
  rewrite (bind_run _ _ s pd s) by (unfold pdd_at; by rewrite P).
  rewrite Pt, Z.eqb_refl. cbv iota. by rewrite (bind_run _ _ _ _ _ E1).
Qed.

Lemma main_rate ppb s d tci z zod t tod x :
  domain_clocks s d tci z zod t tod x -> Od.mode tod = PTPCLOCK_SLAVE_MAIN ->
  exists r s' tod', gptpclock_setadj ppb tci d s = Some (r, s') /\
    domain_clocks s' d tci z zod t tod' x /\ Od.mode tod' = PTPCLOCK_SLAVE_MAIN /\
    Od.offset64 tod' = Od.offset64 tod.
Proof.
  intros DC Main. unfold gptpclock_setadj. rewrite (FN_ENTRY_run _ _ _ _ _ _ (dc_this _ _ _ _ _ _ _ _ DC)).
  destruct (setadj_start ppb s d tci z zod t tod x DC) as (s1 & DC1 & _ & E0). rewrite E0.
  rewrite Main. unfold act, mbind, M_bind.
  destruct (ptpdev_clock_adjtime (Od.ptpfd tod) ppb (wrld s1)) as [r w].
  pose proof (domain_clocks_world w _ _ _ _ _ _ _ _ DC1) as DC2.
  destruct (r <? 0); [by exists (-1), (s1 <| wrld := w |>), tod|].
  destruct (record_adj_this ppb _ _ _ _ _ _ _ _ DC2) as (s3 & E3 & DC3). rewrite E3.
  by exists 0, s3, (tod <| Od.adjvppb := ppb |>).
Qed.

Lemma this_offset_shows ts s d tci : shows s d tci ->
  exists r s', gptpclock_setoffset64 ts tci d s = Some (r, s') /\ shows s' d tci.
Proof.
  intros (z & zod & t & tod & x & DC & C1 & C2 & C3).
  pose proof (dc_this _ _ _ _ _ _ _ _ DC) as T.
  destruct (mode_main_or_sub _ (dc_tmode _ _ _ _ _ _ _ _ DC)) as [Main|Sub].
  - destruct (main_offset ts _ _ _ _ _ _ _ _ DC Main) as (s' & tod' & E & DC' & Main' & Off).
    exists 0, s'. split; [done|]. exists z, zod, t, tod', x.
    split; [done|]. destruct (C2 Main) as [O1 O2]. split_and!; [by rewrite Off, C1, O1|done|by rewrite Main'].
  - unfold gptpclock_setoffset64. rewrite (FN_ENTRY_run _ _ _ _ _ _ T).
    rewrite (bind_run _ _ _ _ _ (od_at_run _ _ _ (at_data _ _ _ _ _ T))). unfold is_mode.
    rewrite Sub, bool_decide_eq_false_2 by done. cbn [negb]. destruct (C3 Sub) as [R1 R2].
    pose (g1 := fun od => od <| Od.offset64 := ts |>).
    assert (DC1 := slot_alter_this g1 s d tci z zod t tod x
      (fun _ => eq_refl) (fun _ => eq_refl) (fun _ => eq_refl) (fun _ => eq_refl) DC).
    rewrite (bind_run _ _ _ _ _ (set_od_slot t g1 s tod (at_data _ _ _ _ _ T))).
    destruct (setoffset_od_this_current _ _ _ _ _ _ _ _ DC1 Sub R1) as (s' & x' & E & DC' & Cur).
    rewrite (bind_run _ _ _ _ _ E). exists 0, s'. split; [done|]. by exists z, zod, t, (g1 tod), x'.
Qed.

Lemma this_rate_shows ppb s d tci : shows s d tci ->
  exists r s', gptpclock_setadj ppb tci d s = Some (r, s') /\ shows s' d tci.
Proof.
  intros (z & zod & t & tod & x & DC & C1 & C2 & C3).
  destruct (mode_main_or_sub _ (dc_tmode _ _ _ _ _ _ _ _ DC)) as [Main|Sub].
  - destruct (main_rate ppb _ _ _ _ _ _ _ _ DC Main) as (r & s' & tod' & E & DC' & Main' & Off).
    exists r, s'. split; [done|]. exists z, zod, t, tod', x. split; [done|].
    destruct (C2 Main). split_and!; [by rewrite Off|by rewrite Off|by rewrite Main'].
  - unfold gptpclock_setadj. rewrite (FN_ENTRY_run _ _ _ _ _ _ (dc_this _ _ _ _ _ _ _ _ DC)).
    destruct (setadj_start ppb s d tci z zod t tod x DC) as (s1 & DC1 & _ & E0). rewrite E0.
    rewrite Sub. destruct (C3 Sub) as [R1 R2].
    destruct (restart_rate_this s1 d tci z zod t tod x DC1 Sub R1) as (s2 & tod2 & x2 & E2 & DC2 & Cur2 & Sub2 & _).
    rewrite (bind_run _ _ _ _ _ E2).
    set (rate := ddiv (d_of_Z ppb) (d_of_Z 1000000000)).
    pose (g1 := fun od => od <| Od.adjrate := rate |>).
    assert (DC3 := slot_alter_this g1 s2 d tci z zod t tod2 x2
      (fun _ => eq_refl) (fun _ => eq_refl) (fun _ => eq_refl) (fun _ => eq_refl) DC2).
    rewrite (bind_run _ _ _ _ _ (set_od_slot t g1 s2 tod2 (at_data _ _ _ _ _ (dc_this _ _ _ _ _ _ _ _ DC2)))).
    pose proof (dc_master _ _ _ _ _ _ _ _ DC3) as M3.
    rewrite (bind_run _ _ _ _ _ (clockod_run _ _ _ _ _ M3)).
    pose (f1 := fun x => x <| Pp.adjrate := rate |>).
    assert (DC4 := shm_alter_clocks d f1 _ d _ _ _ _ _ _ (fun _ => eq_refl) DC3 eq_refl).
    assert (E4 : set_od_pp z f1 (slot_alter t g1 s2) = Some (tt, shm_alter d f1 (slot_alter t g1 s2))).
    { destruct (at_entity_ident _ _ _ _ _ M3) as (_ & _ & _ & Zp). cbn in Zp.
      pose proof (at_data _ _ _ _ _ M3) as Zs.
      unfold set_od_pp, set_pp. rewrite (bind_run _ _ _ _ _ (od_at_run _ _ _ Zs)). rewrite Zp. cbn [pp_of].
      by rewrite (dc_shm _ _ _ _ _ _ _ _ DC3). }
    rewrite (bind_run _ _ _ _ _ E4).
    destruct (record_adj_this ppb _ _ _ _ _ _ _ _ DC4) as (s5 & E5 & DC5). rewrite E5.
    exists 0, s5. split; [done|]. eexists z, zod, t, _, _. split; [exact DC5|].
    destruct Cur2 as (K1 & K2 & K3). destruct (K3 Sub2) as [K4 K5].
    split_and!; [exact K1|cbn; by rewrite Sub2|done].
Qed.

(** *** The two clocks of a domain right after they were added *)

Record added_pair (s : st) (d ci : Z) (z : nat) (zod : Od.oneclock_data_t) (t : nat)
    (tod : Od.oneclock_data_t) (x : Pp.gptp_clock_ppara_t) : Prop := {
  ap_master : at_entity s 0 d z zod;
  ap_this : at_entity s ci d t tod;
  ap_ci : ci <> 0;
  ap_dev : Pp.ptpdev (Od.ppe tod) = Pp.ptpdev x;
  ap_shm : shm_entry (gcd s) d = Some x;
  ap_diff : Od.ts2diff tod = 0;
  ap_rate : Od.adjrate tod = d0 /\ Pp.adjrate x = d0;
  ap_last : Od.last_setts64 tod = 0 /\ Pp.last_setts64 x = 0
}.

Lemma main_elsewhere_state n i ci di s b s' : main_elsewhere n i ci di s = Some (b, s') -> s' = s.
Proof.
  revert i. induction n as [|n IH]; intros i E; cbn [main_elsewhere] in E; [by injection E as <- <-|].
  unfold mbind, M_bind, od_at, pp_at in E. destruct (Gd.slots (gcd s) !! i) as [od|] eqn:Ho; [|done]. cbn in E.
  destruct (negb _); [by apply (IH (S i))|]. rewrite Ho in E. cbn in E.
  destruct (pp_of (gcd s) (Od.pp od)) as [x|]; [|done]. cbn in E.
  destruct (_ =? _); [by apply (IH (S i))|]. destruct (is_mode _ _); [by injection E as <- <-|by apply (IH (S i))].
Qed.

(** making thisClock a slave clock, in either mode, is the only change to its data *)
Definition becomes (m : ptpclock_mode_t) (od : Od.oneclock_data_t) : Od.oneclock_data_t :=
  if bool_decide (m = PTPCLOCK_SLAVE_MAIN) then od <| Od.mode := m |> <| Od.adjrate := d0 |>
  else od <| Od.mode := m |>.

(** the state in which thisClock is noted and has mode [m] *)
Definition this_noted (s : st) (d ci : Z) (z : nat) (t : nat) (m : ptpclock_mode_t) : st :=
  slot_alter t (becomes m) (slot_alter z (fun o => o <| Od.mode := PTPCLOCK_MASTER |>)
    (s <| gcd; Gd.pdd ::= alter (fun pd => pd <| Pdd.thisClockIndex := ci |>) (Z.to_nat d) |>)).

Lemma this_noted_clocks s d ci z zod t tod x m :
  added_pair s d ci z zod t tod x -> m <> PTPCLOCK_MASTER ->
  domain_clocks (this_noted s d ci z t m) d ci z (zod <| Od.mode := PTPCLOCK_MASTER |>) t (becomes m tod) x.
Proof.
  intros [M T C Dv X Df R L] Hm.
  assert (N : z <> t).
  { intros ->. apply C. destruct (at_entity_ident _ _ _ _ _ M) as (E1 & _), (at_entity_ident _ _ _ _ _ T) as (E2 & _).
    pose proof (at_data _ _ _ _ _ M). pose proof (at_data _ _ _ _ _ T). congruence. }
  assert (E : shape (gcd (this_noted s d ci z t m)) = shape (gcd s)).
  { unfold this_noted. rewrite slot_alter_shape, slot_alter_shape; [|done|].
    - unfold shape. cbn. by rewrite length_alter.
    - intros od. unfold becomes. by destruct (bool_decide _). }
  assert (B : Od.ptpfd (becomes m tod) = Od.ptpfd tod /\ Od.mode (becomes m tod) = m /\
              Od.ts2diff (becomes m tod) = Od.ts2diff tod) by (unfold becomes; by destruct (bool_decide _)).
  destruct B as (B1 & B2 & B3).
  destruct (at_entity_ident _ _ _ _ _ M) as (_ & _ & Dd & _).
  destruct (domain_pdd (shape (gcd s)) (at_wf _ _ _ _ _ M) s d eq_refl Dd) as [pd P].
  split; try done.
  - apply (at_entity_data s _ 0 d z zod _ M E); [|done]. cbn.
    rewrite list_lookup_alter_ne, list_lookup_alter_eq by done. by rewrite (at_data _ _ _ _ _ M).
  - apply (at_entity_data s _ ci d t tod _ T E); [|done]. cbn.
    rewrite list_lookup_alter_eq, list_lookup_alter_ne by done. by rewrite (at_data _ _ _ _ _ T).
  - by rewrite B2.
  - by rewrite B3.
  - exists (pd <| Pdd.thisClockIndex := ci |>). split; [|done].
    by apply (pdd_alter_of (fun pd => pd <| Pdd.thisClockIndex := ci |>)).
Qed.

(** storing through the master clock's [pp] *)
Lemma set_master_pp f s d tci z zod t tod x : domain_clocks s d tci z zod t tod x ->
  set_od_pp z f s = Some (tt, shm_alter d f s).
Proof.
  intros DC. pose proof (dc_master _ _ _ _ _ _ _ _ DC) as M.
  destruct (at_entity_ident _ _ _ _ _ M) as (_ & _ & _ & Zp). cbn in Zp.
  unfold set_od_pp, set_pp. rewrite (bind_run _ _ _ _ _ (od_at_run _ _ _ (at_data _ _ _ _ _ M))).
  rewrite Zp. cbn [pp_of]. by rewrite (dc_shm _ _ _ _ _ _ _ _ DC).
Qed.

(** the last lines of gptpclock_set_thisClock: the offset has moved to thisClock *)
Lemma clear_master_offset s d tci z zod t tod x :
  domain_clocks s d tci z zod t tod x ->
  exists s', (_ ← set_od z (fun o => o <| Od.offset64 := 0 |>);
              mod_ ← od_at z; od ← od_at t;
              _ ← set_od_pp z (fun x => x <| Pp.offset64 := i64 (Od.offset64 mod_ + Od.offset64 od) |>);
              mret 0) s = Some (0, s') /\
    domain_clocks s' d tci z (zod <| Od.offset64 := 0 |>) t tod
                  (x <| Pp.offset64 := i64 (0 + Od.offset64 tod) |>).
Proof.
  intros DC. pose (g1 := fun o => o <| Od.offset64 := 0 |>).
  pose (g2 := fun x => x <| Pp.offset64 := i64 (0 + Od.offset64 tod) |>).
  assert (DC1 := slot_alter_master g1 s d tci z zod t tod x (fun _ => eq_refl) (fun _ => eq_refl) (fun _ => eq_refl) DC).
  assert (DC2 := shm_alter_clocks d g2 _ d _ _ _ _ _ _ (fun _ => eq_refl) DC1 eq_refl).
  eexists. split; [|exact DC2].
  rewrite (bind_run _ _ _ _ _ (set_od_slot z g1 s zod (at_data _ _ _ _ _ (dc_master _ _ _ _ _ _ _ _ DC)))).
  rewrite (bind_run _ _ _ _ _ (od_at_run _ _ _ (at_data _ _ _ _ _ (dc_master _ _ _ _ _ _ _ _ DC1)))).
  rewrite (bind_run _ _ _ _ _ (od_at_run _ _ _ (at_data _ _ _ _ _ (dc_this _ _ _ _ _ _ _ _ DC1)))).
  by rewrite (bind_run _ _ _ _ _ (set_master_pp g2 _ _ _ _ _ _ _ _ DC1)).
Qed.

(** the offsets move into the device *)
Lemma main_clock_para_run rate s d tci z zod t tod x :
  domain_clocks s d tci z zod t tod x -> Od.mode tod = PTPCLOCK_SLAVE_MAIN ->
  exists s' tod', main_clock_para rate tci d t z s = Some (tt, s') /\
    domain_clocks s' d tci z zod t tod' x /\ Od.mode tod' = PTPCLOCK_SLAVE_MAIN /\ Od.offset64 tod' = 0.
Proof.
  intros DC Main. unfold main_clock_para.
  rewrite (bind_run _ _ _ _ _ (od_at_run _ _ _ (at_data _ _ _ _ _ (dc_this _ _ _ _ _ _ _ _ DC)))).
  assert (A1 : exists s1 tod1, (if negb (Od.offset64 tod =? 0) then
      _ ← gptpclock_setoffset64 (Od.offset64 tod) tci d; mret tt else mret tt) s = Some (tt, s1) /\
      domain_clocks s1 d tci z zod t tod1 x /\ Od.mode tod1 = PTPCLOCK_SLAVE_MAIN).
  { destruct (negb _); [|by exists s, tod].
    destruct (main_offset (Od.offset64 tod) _ _ _ _ _ _ _ _ DC Main) as (s1 & tod1 & E & R & Q & _).
    exists s1, tod1. by rewrite (bind_run _ _ _ _ _ E). }
  destruct A1 as (s1 & tod1 & E1 & DC1 & Main1). rewrite (bind_run _ _ _ _ _ E1).
  assert (A2 : exists s2 tod2, (if nonzero rate then
      _ ← gptpclock_setadj (d_to_int 32 (dmul rate (d_of_Z UB_SEC_NS))) tci d; mret tt else mret tt) s1 =
      Some (tt, s2) /\ domain_clocks s2 d tci z zod t tod2 x /\ Od.mode tod2 = PTPCLOCK_SLAVE_MAIN).
  { destruct (nonzero rate); [|by exists s1, tod1].
    destruct (main_rate (d_to_int 32 (dmul rate (d_of_Z UB_SEC_NS))) _ _ _ _ _ _ _ _ DC1 Main1)
      as (r & s2 & tod2 & E & R & Q & _).
    exists s2, tod2. by rewrite (bind_run _ _ _ _ _ E). }
  destruct A2 as (s2 & tod2 & E2 & DC2 & Main2). rewrite (bind_run _ _ _ _ _ E2).
  rewrite (bind_run _ _ _ _ _ (od_at_run _ _ _ (at_data _ _ _ _ _ (dc_master _ _ _ _ _ _ _ _ DC2)))).
  destruct (main_offset (Od.offset64 zod) _ _ _ _ _ _ _ _ DC2 Main2) as (s3 & tod3 & E3 & R3).
  exists s3, tod3. by rewrite (bind_run _ _ _ _ _ E3).
Qed.

(** the state in which thisClock is noted, before its mode is set *)
Definition noted (s : st) (d ci : Z) (z : nat) : st :=
  slot_alter z (fun o => o <| Od.mode := PTPCLOCK_MASTER |>)
    (s <| gcd; Gd.pdd ::= alter (fun pd => pd <| Pdd.thisClockIndex := ci |>) (Z.to_nat d) |>).

Lemma noted_this s d ci z zod t tod x :
  added_pair s d ci z zod t tod x -> at_entity (noted s d ci z) ci d t tod.
Proof.
  intros A. pose proof (clocks_differ _ _ _ _ _ _ _ _ (this_noted_clocks _ _ _ _ _ _ _ _ PTPCLOCK_SLAVE_SUB A ltac:(done))) as N.
  destruct A as [M T C Dv X Df R L].
  apply (at_entity_data s _ ci d t tod _ T); [|cbn; rewrite list_lookup_alter_ne by done; apply T|done].
  unfold noted. rewrite slot_alter_shape by done. unfold shape. cbn. by rewrite length_alter.
Qed.

Lemma slot_alter_twice p f g s : slot_alter p f (slot_alter p g s) = slot_alter p (fun od => f (g od)) s.
Proof. unfold slot_alter. destruct s as [[sl n sm pd sw] w b]. repeat (unfold upd; cbn). by rewrite alter_alter. Qed.

Lemma mode_slave_main_run s d ci z zod t tod x :
  added_pair s d ci z zod t tod x ->
  exists r s', gptpclock_mode_slave_main ci d (noted s d ci z) = Some (r, s') /\
    (r = -1 /\ s' = noted s d ci z \/
     r = 0 /\ exists x', domain_clocks s' d ci z (zod <| Od.mode := PTPCLOCK_MASTER |>) t
                          (becomes PTPCLOCK_SLAVE_MAIN tod) x' /\ Pp.adjrate x' = d0).
Proof.
  intros A. set (s2 := noted s d ci z). pose proof (noted_this _ _ _ _ _ _ _ _ A) as T2.
  pose proof (this_noted_clocks _ _ _ _ _ _ _ _ PTPCLOCK_SLAVE_MAIN A ltac:(done)) as DC.
  change (this_noted s d ci z t PTPCLOCK_SLAVE_MAIN) with (slot_alter t (becomes PTPCLOCK_SLAVE_MAIN) s2) in DC.
  set (zod' := zod <| Od.mode := PTPCLOCK_MASTER |>) in *.
  pose proof (at_wf _ _ _ _ _ T2) as W2. fold s2 in T2, W2.
  unfold gptpclock_mode_slave_main. rewrite (FN_ENTRY_run _ _ _ _ _ _ T2).
  rewrite (bind_run _ _ s2 (gcd s2) s2) by done.
  rewrite (bind_run _ _ _ _ _ (od_at_run _ _ _ (at_data _ _ _ _ _ T2))).
  destruct (ok_pp_at _ W2 t (proj1 (at_place _ _ _ _ _ T2)) s2 eq_refl) as (y & s2' & Ey & _ & _).
  assert (s2' = s2) as ->.
  { unfold pp_at in Ey. rewrite (at_data _ _ _ _ _ T2) in Ey.
    cbn [mbind option_bind] in Ey.
    destruct (pp_of (gcd s2) (Od.pp tod)); [|done]. cbn in Ey. congruence. }
  rewrite (bind_run _ _ _ _ _ Ey).
  destruct (ok_main_elsewhere _ W2 (Gd.nums (gcd s2)) 0 (Od.clockIndex tod) (Pp.domainIndex y)
    (Nat.le_refl _) s2 eq_refl) as (b & s2' & Eb & _ & _).
  rewrite (main_elsewhere_state _ _ _ _ _ _ _ Eb) in Eb. rewrite (bind_run _ _ _ _ _ Eb).
  destruct b; [by exists (-1), s2; auto|].
  pose (g1 := fun od => od <| Od.mode := PTPCLOCK_SLAVE_MAIN |>).
  pose (g2 := fun od => od <| Od.adjrate := d0 |>).
  rewrite (bind_run _ _ _ _ _ (set_od_slot t g1 s2 tod (at_data _ _ _ _ _ T2))).
  assert (D1 : Gd.slots (gcd (slot_alter t g1 s2)) !! t = Some (g1 tod)).
  { change (alter g1 t (Gd.slots (gcd s2)) !! t = Some (g1 tod)).
    by rewrite list_lookup_alter_eq, (at_data _ _ _ _ _ T2). }
  rewrite (bind_run _ _ _ _ _ (set_od_slot t g2 _ _ D1)), slot_alter_twice.
  change (fun od => g2 (g1 od)) with (becomes PTPCLOCK_SLAVE_MAIN).
  rewrite (FN_ENTRY_run _ _ _ _ _ _ (dc_master _ _ _ _ _ _ _ _ DC)).
  pose (f1 := fun x => x <| Pp.adjrate := d0 |>).
  pose (f2 := fun x => x <| Pp.offset64 := Od.offset64 zod' |>).
  assert (DC1 := shm_alter_clocks d f1 _ d _ _ _ _ _ _ (fun _ => eq_refl) DC eq_refl).
  assert (DC2 := shm_alter_clocks d f2 _ d _ _ _ _ _ _ (fun _ => eq_refl) DC1 eq_refl).
  rewrite (bind_run _ _ _ _ _ (set_master_pp f1 _ _ _ _ _ _ _ _ DC)).
  rewrite (bind_run _ _ _ _ _ (od_at_run _ _ _ (at_data _ _ _ _ _ (dc_master _ _ _ _ _ _ _ _ DC1)))).
  rewrite (bind_run _ _ _ _ _ (set_master_pp f2 _ _ _ _ _ _ _ _ DC1)).
  eexists 0, _. split; [done|]. right. split; [done|]. by exists (f2 (f1 x)).
Qed.

Lemma mode_slave_sub_run s d ci z zod t tod x :
  added_pair s d ci z zod t tod x ->
  gptpclock_mode_slave_sub ci d (noted s d ci z) = Some (0, this_noted s d ci z t PTPCLOCK_SLAVE_SUB).
Proof.
  intros A. pose proof (noted_this _ _ _ _ _ _ _ _ A) as T2.
  unfold gptpclock_mode_slave_sub. rewrite (FN_ENTRY_run _ _ _ _ _ _ T2).
  pose (g1 := fun od => od <| Od.mode := PTPCLOCK_SLAVE_SUB |>).
  by rewrite (bind_run _ _ _ _ _ (set_od_slot t g1 _ tod (at_data _ _ _ _ _ T2))).
Qed.

Lemma pp_at_run s ci d p od x : at_entity s ci d p od ->
  (if ci =? 0 then shm_entry (gcd s) d = Some x else x = Od.ppe od) -> pp_at p s = Some (x, s).
Proof.
  intros A H. destruct (at_entity_ident _ _ _ _ _ A) as (_ & _ & _ & P). unfold pp_at.
  rewrite (at_data _ _ _ _ _ A). cbn [mbind option_bind]. rewrite P. destruct (ci =? 0); cbn.
  - by rewrite H.
  - by rewrite (at_data _ _ _ _ _ A), H.
Qed.

(** the beginning of gptpclock_set_thisClock, up to the choice of the mode *)
Lemma set_thisClock_start s d ci z zod t tod x para :
  added_pair s d ci z zod t tod x ->
  gptpclock_set_thisClock ci d para s =
  (r ← (if bool_decide (Od.state tod = PTPCLOCK_RDWR) then gptpclock_mode_slave_main ci d else mret 1);
   _ ← (if r =? 0 then mret 0 else gptpclock_mode_slave_sub ci d);
   if negb para then mret 0
   else
     _ ← (if r =? 0 then main_clock_para (Od.adjrate tod) ci d t z else sub_clock_para t z);
     _ ← set_od z (fun o => o <| Od.offset64 := 0 |>);
     mod_ ← od_at z; od ← od_at t;
     _ ← set_od_pp z (fun x => x <| Pp.offset64 := i64 (Od.offset64 mod_ + Od.offset64 od) |>);
     mret 0) (noted s d ci z).
Proof.
  intros A. pose proof (noted_this _ _ _ _ _ _ _ _ A) as T2. destruct A as [M T C Dv X _ _ _].
  unfold gptpclock_set_thisClock. rewrite (proj2 (Z.eqb_neq ci 0) C).
  rewrite (bind_run _ _ _ _ _ (clockod_run _ _ _ _ _ T)), (bind_run _ _ _ _ _ (clockod_run _ _ _ _ _ M)).
  assert (Pt : pp_at t s = Some (Od.ppe tod, s)).
  { apply (pp_at_run s ci d t tod _ T). by rewrite (proj2 (Z.eqb_neq ci 0) C). }
  rewrite (bind_run _ _ _ _ _ Pt), (bind_run _ _ _ _ _ (pp_at_run s 0 d z zod x M X)).
  rewrite bool_decide_eq_true_2 by done. cbn [negb].
  rewrite (bind_run _ _ _ _ _ (od_at_run _ _ _ (at_data _ _ _ _ _ T))).
  destruct (at_entity_ident _ _ _ _ _ T) as (_ & Td & _). rewrite Td.
  destruct (at_entity_ident _ _ _ _ _ M) as (_ & _ & Dd & _).
  destruct (domain_pdd (shape (gcd s)) (at_wf _ _ _ _ _ M) s d eq_refl Dd) as [pd P].
  pose (f0 := fun pd => pd <| Pdd.thisClockIndex := ci |>).
  set (s1 := s <| gcd; Gd.pdd ::= alter f0 (Z.to_nat d) |>).
  assert (E0 : set_pdd d f0 s = Some (tt, s1)) by (unfold set_pdd; by rewrite P).
  rewrite (bind_run _ _ _ _ _ E0).
  pose (g0 := fun o => o <| Od.mode := PTPCLOCK_MASTER |>).
  rewrite (bind_run _ _ _ _ _ (set_od_slot z g0 s1 zod (at_data _ _ _ _ _ M))).
  by rewrite (bind_run _ _ _ _ _ (od_at_run (noted s d ci z) _ _ (at_data _ _ _ _ _ T2))).
Qed.

Lemma set_thisClock_shows s d ci z zod t tod x :
  added_pair s d ci z zod t tod x ->
  exists s', gptpclock_set_thisClock ci d true s = Some (0, s') /\ shows s' d ci.
Proof.
  intros A. rewrite (set_thisClock_start _ _ _ _ _ _ _ _ true A). cbn [negb].
  destruct (ap_rate _ _ _ _ _ _ _ _ A) as [R1 R2]. destruct (ap_last _ _ _ _ _ _ _ _ A) as [L1 L2].
  assert (B : exists r s2, (if bool_decide (Od.state tod = PTPCLOCK_RDWR)
      then gptpclock_mode_slave_main ci d else mret 1) (noted s d ci z) = Some (r, s2) /\
    (r <> 0 /\ s2 = noted s d ci z \/
     r = 0 /\ exists x', domain_clocks s2 d ci z (zod <| Od.mode := PTPCLOCK_MASTER |>) t
                          (becomes PTPCLOCK_SLAVE_MAIN tod) x' /\ Pp.adjrate x' = d0)).
  { destruct (bool_decide _); [|by exists 1, (noted s d ci z); auto].
    destruct (mode_slave_main_run _ _ _ _ _ _ _ _ A) as (r & s2 & E & [[-> H]|H]);
      [exists (-1), s2|exists r, s2]; split; auto. }
  destruct B as (r & s2 & E & [[R ->]|[-> (x' & DC & Rx)]]); rewrite (bind_run _ _ _ _ _ E).
  - rewrite (proj2 (Z.eqb_neq r 0) R).
    rewrite (bind_run _ _ _ _ _ (mode_slave_sub_run _ _ _ _ _ _ _ _ A)).
    pose proof (this_noted_clocks _ _ _ _ _ _ _ _ PTPCLOCK_SLAVE_SUB A ltac:(done)) as DC.
    unfold sub_clock_para. set (zod' := zod <| Od.mode := PTPCLOCK_MASTER |>) in *.
    set (tod' := becomes PTPCLOCK_SLAVE_SUB tod) in *.
    pose (g1 := fun od' => od' <| Od.offset64 := i64 (Od.offset64 tod' + Od.offset64 zod') |>).
    assert (DC1 := slot_alter_this g1 _ d ci z _ t _ x (fun _ => eq_refl) (fun _ => eq_refl) (fun _ => eq_refl)
      (fun _ => eq_refl) DC).
    assert (E1 : (od ← od_at t; mod_ ← od_at z;
      set_od t (fun od' => od' <| Od.offset64 := i64 (Od.offset64 od + Od.offset64 mod_) |>))
      (this_noted s d ci z t PTPCLOCK_SLAVE_SUB) = Some (tt, slot_alter t g1 (this_noted s d ci z t PTPCLOCK_SLAVE_SUB))).
    { rewrite (bind_run _ _ _ _ _ (od_at_run _ _ _ (at_data _ _ _ _ _ (dc_this _ _ _ _ _ _ _ _ DC)))).
      rewrite (bind_run _ _ _ _ _ (od_at_run _ _ _ (at_data _ _ _ _ _ (dc_master _ _ _ _ _ _ _ _ DC)))).
      apply (set_od_slot t g1 _ _ (at_data _ _ _ _ _ (dc_this _ _ _ _ _ _ _ _ DC))). }
    rewrite (bind_run _ _ _ _ _ E1).
    destruct (clear_master_offset _ _ _ _ _ _ _ _ DC1) as (s3 & E3 & DC3). rewrite E3.
    exists s3. split; [done|]. eexists z, _, t, _, _. split; [exact DC3|].
    subst tod'. unfold becomes in *. rewrite bool_decide_eq_false_2 in * by done.
    split_and!; [done|done|]. intros _. cbn. by rewrite R1, R2, L1, L2.
  - cbn [Z.eqb]. rewrite (bind_run _ _ s2 0 s2) by done.
    destruct (main_clock_para_run (Od.adjrate tod) _ _ _ _ _ _ _ _ DC) as (s3 & tod3 & E3 & DC3 & Main3 & O3);
      [unfold becomes; by rewrite bool_decide_eq_true_2|].
    rewrite (bind_run _ _ _ _ _ E3).
    destruct (clear_master_offset _ _ _ _ _ _ _ _ DC3) as (s4 & E4 & DC4). rewrite E4.
    exists s4. split; [done|]. eexists z, _, t, _, _. split; [exact DC4|].
    split_and!; [done|done|by rewrite Main3].
Qed.

(** *** What an application reads *)

Lemma servo_shows c s d tci : shows s d tci -> exists r s', servo_run d tci c s = Some (r, s') /\ shows s' d tci.
Proof.
  intros H. destruct c as [ts|ts|ppb]; cbn [servo_run]; [|by apply this_offset_shows|by apply this_rate_shows].
  destruct H as (z & zod & t & tod & x & DC & C1 & C2 & C3).
  destruct (setoffset64_master ts s d tci z zod t tod x DC) as (s' & E & DC').
  exists 0, s'. split; [done|]. eexists z, _, t, tod, _. split; [exact DC'|]. by split_and!.
Qed.

Lemma servo_calls_shows cs s d tci : shows s d tci ->
  exists s', servo_calls d tci cs s = Some (tt, s') /\ shows s' d tci.
Proof.
  revert s. induction cs as [|c cs IH]; intros s H; [by exists s|]. cbn [servo_calls].
  destruct (servo_shows c s d tci H) as (r & s1 & E & H1). rewrite (bind_run _ _ _ _ _ E). by apply IH.
Qed.

(** an application that has mapped the shared memory of [g] and opened the device [fd] of domain [d] *)
Definition mapped (gmcd : GMC.gptp_master_clock_data) (g : Gd.gptpclock_data) (d fd : Z) : Prop :=
  GMC.shm gmcd = Gd.shm g /\ GMC.max_domains gmcd = Shm.max_domains (Gd.shm g) /\
  GMC.ptpfds gmcd !! Z.to_nat d = Some fd.

Lemma domain_ts64_run gmcd g d fd x old h w w1 :
  mapped gmcd g d fd -> 0 <= d < Shm.max_domains (Gd.shm g) -> shm_entry g d = Some x ->
  ptpdev_clock_gettime fd w = (Some h, w1) ->
  GMC.gptpmasterclock_get_domain_ts64 old d gmcd w = (Some (GMC.domain_time x h), w1).
Proof.
  intros (Es & Em & Ef) D X G. unfold GMC.gptpmasterclock_get_domain_ts64.
  rewrite Em, (proj2 (Z.ltb_ge d 0)), (proj2 (Z.leb_gt _ d)), Ef by lia. cbn [orb].
  unfold GMC.entry. rewrite Es. unfold shm_entry in X. rewrite X. by rewrite G.
Qed.

(** the time shown through the shared memory, without a software rate *)
Lemma domain_time_current zod tod x h :
  Od.mode zod = PTPCLOCK_MASTER -> shm_current zod tod x ->
  (Od.mode tod = PTPCLOCK_SLAVE_MAIN -> GMC.domain_time x h = clock_time zod h) /\
  (Od.mode tod = PTPCLOCK_SLAVE_SUB -> nonzero (Od.adjrate tod) = false ->
   GMC.domain_time x h = i64 (clock_time tod h + Od.offset64 zod)).
Proof.
  intros Mz (C1 & C2 & C3). unfold GMC.domain_time, clock_time, is_mode. split.
  - intros Main. destruct (C2 Main) as [O R].
    rewrite R, C1, O, Mz, andb_false_r, !Z.add_0_r, swrap_swrap, swrap_add_r. done.
  - intros Sub N. destruct (C3 Sub) as [R _]. rewrite R, N, C1. cbn.
    rewrite Z.add_0_r, swrap_swrap, swrap_add_r, swrap_add_l. f_equal. lia.
Qed.

Lemma at_entity_world w s ci di p od : at_entity s ci di p od -> at_entity (s <| wrld := w |>) ci di p od.
Proof. intros []. by split. Qed.

Lemma at_entity_slot f s ci di p od :
  at_entity s ci di p od -> (forall od, ident (f od) = ident od) -> (forall od, Od.ptpfd (f od) = Od.ptpfd od) ->
  at_entity (slot_alter p f s) ci di p (f od) /\ shape (gcd (slot_alter p f s)) = shape (gcd s).
Proof.
  intros A F1 F2. pose proof (slot_alter_shape p f s F1) as E. split; [|done].
  apply (at_entity_data s _ ci di p od _ A E); [|done]. cbn. by rewrite list_lookup_alter_eq, (at_data _ _ _ _ _ A).
Qed.

(** C23. Applications read the time of the domain: once thisClock of a domain is chosen among clocks
    just added, and after any sequence of offset and rate settings by the servo, an application
    that reads the shared memory gets, for the same reading of the device, exactly the time
    gptpclock_getts64 gives for the master clock, if thisClock is adjusted in hardware; if it is
    adjusted in software and its rate is 0, the time of thisClock moved by the master's offset. *)
Theorem application_reads_domain_time s d ci z zod t tod x cs :
  added_pair s d ci z zod t tod x ->
  exists s', (_ ← gptpclock_set_thisClock ci d true; servo_calls d ci cs) s = Some (tt, s') /\
  exists z' zod' t' tod' x', domain_clocks s' d ci z' zod' t' tod' x' /\
  forall gmcd fd old h w w1 w2,
    mapped gmcd (gcd s') d fd -> ptpdev_clock_gettime fd w = (Some h, w1) ->
    (Od.mode tod' = PTPCLOCK_SLAVE_MAIN ->
     ptpdev_clock_gettime (Od.ptpfd zod') (wrld s') = (Some h, w2) ->
     exists v, gptpclock_getts64 0 d s' = Some (v, s' <| wrld := w2 |>) /\
       GMC.gptpmasterclock_get_domain_ts64 old d gmcd w = (Some v, w1)) /\
    (Od.mode tod' = PTPCLOCK_SLAVE_SUB -> nonzero (Od.adjrate tod') = false ->
     ptpdev_clock_gettime (Od.ptpfd tod') (wrld s') = (Some h, w2) ->
     exists v, gptpclock_getts64 ci d s' = Some (v, s' <| wrld := w2 |>) /\
       GMC.gptpmasterclock_get_domain_ts64 old d gmcd w = (Some (i64 (v + Od.offset64 zod')), w1)).
Proof.
  intros A. destruct (set_thisClock_shows _ _ _ _ _ _ _ _ A) as (s1 & E1 & H1).
  destruct (servo_calls_shows cs s1 d ci H1) as (s' & E & H).
  exists s'. split; [by rewrite (bind_run _ _ _ _ _ E1)|].
  destruct H as (z' & zod' & t' & tod' & x' & DC & Cur). exists z', zod', t', tod', x'. split; [done|].
  intros gmcd fd old h w w1 w2 Map G.
  destruct (at_entity_ident _ _ _ _ _ (dc_master _ _ _ _ _ _ _ _ DC)) as (_ & _ & Dd & _).
  rewrite (domain_ts64_run gmcd (gcd s') d fd x' old h w w1 Map Dd (dc_shm _ _ _ _ _ _ _ _ DC) G).
  destruct (domain_time_current zod' tod' x' h (dc_mode _ _ _ _ _ _ _ _ DC) Cur) as [T1 T2]. split.
  - intros Main G2. rewrite (T1 Main). eexists. split; [|done].
    apply (getts64_run _ _ _ _ _ _ _ (dc_master _ _ _ _ _ _ _ _ DC) G2).
  - intros Sub N G2. rewrite (T2 Sub N). eexists. split; [|done].
    apply (getts64_run _ _ _ _ _ _ _ (dc_this _ _ _ _ _ _ _ _ DC) G2).
Qed.

(** A new software rate starts from the time shown: gptpclock_setadj on thisClock in SLAVE_SUB
    mode leaves a clock that at a later device reading [h] shows the time it showed when the rate
    was set, plus what the device advanced, plus the new rate applied to that span. *)
Theorem rate_change_continues ppb s d tci z zod t tod x r0 r1 r2 h w0 w1 w2 w3 :
  domain_clocks s d tci z zod t tod x -> Od.mode tod = PTPCLOCK_SLAVE_SUB ->
  ptpdev_clock_gettime (Od.ptpfd tod) (wrld s) = (Some r0, w0) ->
  ptpdev_clock_gettime (Od.ptpfd tod) w0 = (Some r1, w1) ->
  ptpdev_clock_gettime (Od.ptpfd tod) w1 = (Some r2, w2) ->
  ptpdev_clock_gettime (Od.ptpfd tod) w2 = (Some h, w3) ->
  let rate := ddiv (d_of_Z ppb) (d_of_Z 1000000000) in
  exists s' s'', gptpclock_setadj ppb tci d s = Some (0, s') /\
    gptpclock_getts64 tci d s' =
    Some (i64 (clock_time tod r0 + (h - r1) + if nonzero rate then sw_rate rate r2 h else 0), s'').
Proof.
  intros DC Sub G0 G1 G2 G3 rate. pose proof (dc_this _ _ _ _ _ _ _ _ DC) as T.
  unfold gptpclock_setadj. rewrite (FN_ENTRY_run _ _ _ _ _ _ T).
  destruct (setadj_start ppb s d tci z zod t tod x DC) as (s1 & DC1 & Ew & E0). rewrite E0, Sub.
  pose proof (dc_this _ _ _ _ _ _ _ _ DC1) as T1. rewrite <- Ew in G0.
  destruct (setts_od_run (s1 <| wrld := w0 |>) tci d t tod (clock_time tod r0) r1 r2 w1 w2
    (at_entity_world w0 _ _ _ _ _ T1) ltac:(by rewrite Sub) G1 G2) as (s2 & od2 & E2 & W2 & T2 & Sh2 & C2).
  assert (E3 : restart_rate tci d t s1 = Some (tt, s2)).
  { unfold restart_rate. rewrite (bind_run _ _ _ _ _ (od_at_run _ _ _ (at_data _ _ _ _ _ T1))).
    rewrite (dc_diff _ _ _ _ _ _ _ _ DC). cbn [Z.ltb Z.compare].
    rewrite (bind_run _ _ _ _ _ (getts_od_run _ _ _ uninitialised _ _ (at_data _ _ _ _ _ T1) G0)).
    by rewrite (bind_run _ _ _ _ _ E2). }
  rewrite (bind_run _ _ _ _ _ E3). fold rate.
  pose (g1 := fun od => od <| Od.adjrate := rate |>).
  rewrite (bind_run _ _ _ _ _ (set_od_slot t g1 s2 od2 (at_data _ _ _ _ _ T2))).
  destruct (at_entity_slot g1 s2 tci d t od2 T2 (fun _ => eq_refl) (fun _ => eq_refl)) as [T3 Sh3].
  set (s3 := slot_alter t g1 s2) in *.
  assert (Mz : clockod 0 d s3 = Some (Some z, s3)).
  { unfold clockod. rewrite (get_clockod_entity (gcd s3) 0 d z (at_wf _ _ _ _ _ T3)); [done|].
    rewrite Sh3, Sh2. apply (at_place _ _ _ _ _ (dc_master _ _ _ _ _ _ _ _ DC1)). }
  rewrite (bind_run _ _ _ _ _ Mz).
  pose (f1 := fun x => x <| Pp.adjrate := rate |>).
  assert (Lz : live (shape (gcd s3)) z).
  { unfold live. rewrite Sh3, Sh2. apply (at_place _ _ _ _ _ (dc_master _ _ _ _ _ _ _ _ DC1)). }
  destruct (ok_set_od_pp _ (at_wf _ _ _ _ _ T3) z f1 Lz (fun _ => eq_refl) s3 eq_refl) as ([] & s4 & E4 & Sh4 & _).
  rewrite (bind_run _ _ _ _ _ E4).
  destruct (quiet_set_od_pp z f1 _ _ _ E4) as (Q1 & Q2 & _).
  destruct (at_entity_core s3 s4 tci d t _ (g1 od2) T3 Sh4) as (od4 & T4 & C4); [|done|].
  { rewrite <- list_lookup_fmap, Q1, list_lookup_fmap. by rewrite (at_data _ _ _ _ _ T3). }
  pose (g2 := fun od => od <| Od.adjvppb := ppb |>).
  destruct (at_entity_slot g2 s4 tci d t od4 T4 (fun _ => eq_refl) (fun _ => eq_refl)) as [T5 Sh5].
  set (s5 := slot_alter t g2 s4) in *.
  set (s6 := s5 <| db ::= fun l => l ++ [DbAdjRate tci (Od.domainIndex (g2 od4)) ppb] |>).
  assert (E6 : record_adj ppb tci t s4 = Some (0, s6)).
  { unfold record_adj. rewrite (bind_run _ _ _ _ _ (set_od_slot t g2 s4 od4 (at_data _ _ _ _ _ T4))).
    by rewrite (bind_run _ _ _ _ _ (od_at_run s5 _ _ (at_data _ _ _ _ _ T5))). }
  rewrite E6. exists s6, (s6 <| wrld := w3 |>). split; [done|].
  assert (T6 : at_entity s6 tci d t (g2 od4)) by (destruct T5; by split).
  assert (F : Od.ptpfd (g2 od4) = Od.ptpfd tod).
  { change (Od.ptpfd (core od4) = Od.ptpfd tod). rewrite C4.
    change (Od.ptpfd (core od2) = Od.ptpfd tod). by rewrite C2. }
  rewrite (getts64_run s6 tci d t (g2 od4) h w3 T6).
  2:{ rewrite F. change (wrld s6) with (wrld s4). rewrite Q2. change (wrld s3) with (wrld s2). by rewrite W2. }
  do 2 f_equal. 
  change (clock_time (g2 od4) h) with (clock_time (core od4) h). rewrite C4.
  change (clock_time (core (g1 od2)) h) with (clock_time (g1 (core od2)) h). rewrite C2.
  unfold clock_time at 1, is_mode. cbn. rewrite Sub, bool_decide_eq_true_2, andb_true_r by done.
  set (rt := if nonzero rate then _ else 0).
  rewrite swrap_add_l, <- (swrap_add_l 64 (h + _) rt), swrap_add_r, swrap_add_l. f_equal. lia.
Qed.
End Time.

(** ** Expanding a 32-bit timestamp *)

Lemma expand_cases timestamp ts64 :
  fits 32 timestamp -> 2 ^ 31 <= ts64 < 2 ^ 62 ->
  let dtime := timestamp - ts64 mod 2 ^ 32 in
  GMC.gptpmasterclock_expand_timestamp_ts64 timestamp ts64 =
  if 2 ^ 31 - 1 <? dtime then ts64 + dtime - 2 ^ 32
  else if dtime <? - 2 ^ 31 then ts64 + dtime + 2 ^ 32 else ts64 + dtime.
Proof.
  intros Ht Hs dtime. unfold fits in Ht.
  assert (Hl : Z.land ts64 0xffffffff = ts64 mod 2 ^ 32) by (change 0xffffffff with (Z.ones 32); by rewrite Z.land_ones).
  assert (Hm : 0 <= ts64 mod 2 ^ 32 < 2 ^ 32) by by apply Z.mod_pos_bound.
  assert (F : forall z, - 2 ^ 33 <= z < 2 ^ 62 + 2 ^ 33 -> i64 z = z)
    by (intros z Hz; apply swrap_id; [lia|unfold sfits; lia]).
  assert (U : forall z, 0 <= z < 2 ^ 63 -> u64 z = z)
    by (intros z Hz; apply wrap_id; unfold fits; lia).
  assert (D : ts64 mod 2 ^ 32 <= ts64) by (apply Z.mod_le; lia).
  unfold GMC.gptpmasterclock_expand_timestamp_ts64. rewrite Hl, (F (timestamp - _)) by lia. fold dtime.
  change 2147483647 with (2 ^ 31 - 1). change (-2147483648) with (- 2 ^ 31).
  change 2147483648 with (2 ^ 31). change (-2147483649) with (- 2 ^ 31 - 1).
  destruct (Z.ltb_spec (2 ^ 31 - 1) dtime); [|destruct (Z.ltb_spec dtime (- 2 ^ 31))].
  all: rewrite ?(F (ts64 + _)) by lia.
  all: rewrite ?(F (ts64 + _ + _)) by lia.
  all: rewrite ?(F (ts64 + _ + dtime - _)) by lia.
  all: rewrite U by lia; lia.
Qed.

(** C38. Round trip of timestamps through their low 32 bits: gptpmasterclock_expand_timestamp_ts64
    gives back every time that lies within 2^31 ns of the reference time, for reference times from 2^31 ns
    after the epoch to 2^62 ns (the year 2116). *)
Theorem timestamp_expands_back ts ref :
  2 ^ 31 <= ref < 2 ^ 62 -> 0 <= ts -> - 2 ^ 31 <= ts - ref < 2 ^ 31 ->
  GMC.gptpmasterclock_expand_timestamp_ts64 (ts mod 2 ^ 32) ref = ts.
Proof.
  intros Hr Ht Hd. rewrite expand_cases; [|by apply wrap_fits|done]. cbn zeta.
  pose proof (Z.mod_pos_bound ref (2 ^ 32) eq_refl). pose proof (Z.mod_pos_bound ts (2 ^ 32) eq_refl).
  pose proof (Z.div_mod ref (2 ^ 32) ltac:(lia)). pose proof (Z.div_mod ts (2 ^ 32) ltac:(lia)).
  set (a := ref / 2 ^ 32) in *. set (b := ts / 2 ^ 32) in *.
  set (ra := ref mod 2 ^ 32) in *. set (rb := ts mod 2 ^ 32) in *. clearbody a b ra rb.
  assert (b = a - 1 \/ b = a \/ b = a + 1) as [->|[->| ->]] by lia;
  destruct (Z.ltb_spec (2 ^ 31 - 1) (rb - ra)); [lia| |lia| |lia|]; destruct (Z.ltb_spec (rb - ra) (- 2 ^ 31)); lia.
Qed.

Lemma timestamp_witness :
  GMC.gptpmasterclock_expand_timestamp_ts64 (1700000000123456789 mod 2 ^ 32) 1700000001623456789 =
  1700000000123456789.
Proof. apply (timestamp_expands_back 1700000000123456789 1700000001623456789); lia. Defined.

(** ** Two clocks on a virtual device *)

Module ClockWitness.
Import VirtualDev.
#[local] Existing Instances conversions0 config0.
#[local] Instance dev : PtpDev := virtual_dev 100000.   (* 100 ppm fast *)

(** cbptpw0, an adjustable device *)
Definition name : list Z := VC.CB_VIRTUAL_PTPDEV_PREFIX ++ [119; 48].
Definition world0 : world := VirtualDev.mk None 1000000000 10.

(** the master clock and clock 1 of the only domain *)
Definition calls : list clock_call :=
  [AddClock 0 name 0 (replicate 8 1); AddClock 1 name 0 (replicate 8 2)].
Definition booted : option (unit * st) := clock_calls calls (mkst (gptpclock_init 1 2) world0 []).
Definition gcd0 : Gd.gptpclock_data := Eval vm_compute in
  match booted with Some (_, s) => gcd s | None => gptpclock_init 1 2 end.
Definition world1 : world := Eval vm_compute in match booted with Some (_, s) => wrld s | None => world0 end.
Definition db0 : list db_write := Eval vm_compute in match booted with Some (_, s) => db s | None => [] end.
Definition s0 : st := mkst gcd0 world1 db0.
Definition od0 : Od.oneclock_data_t := Eval vm_compute in default (Od.zero (PpEle 0)) (Gd.slots (gcd s0) !! 0%nat).
Definition od1 : Od.oneclock_data_t := Eval vm_compute in default (Od.zero (PpEle 0)) (Gd.slots (gcd s0) !! 1%nat).
Definition pp0 : Pp.gptp_clock_ppara_t := Eval vm_compute in default Pp.zero (shm_entry (gcd s0) 0).

Lemma booted_s0 : clock_calls calls (mkst (gptpclock_init 1 2) world0 []) = Some (tt, s0).
Proof. vm_cast_no_check (eq_refl (Some (tt, s0))). Qed.

Lemma clocks_witness : exists s',
  clock_calls calls (mkst (gptpclock_init 1 2) world0 []) = Some (tt, s') /\ wf (gcd s').
Proof.
  apply (clocks_well_formed 1 2 world0 calls); [lia|].
  repeat constructor; cbn; lia.
Defined.

Lemma wf_after s s' cs : clock_calls cs s = Some (tt, s') -> wf (gcd s) ->
  Forall (valid_call (Sh.max_domains (shape (gcd s)))) cs -> wf (gcd s').
Proof.
  intros E W V. destruct (clock_calls_wf cs s W V) as (s'' & E' & W'). rewrite E in E'. by injection E' as <-.
Qed.

Lemma wf_s0 : wf (gcd s0).
Proof.
  apply (wf_after _ _ _ booted_s0); [by apply wf_init|].
  repeat constructor; cbn; lia.
Qed.

Lemma at0 : at_entity s0 0 0 0 od0.
Proof. split; [apply wf_s0| |reflexivity|reflexivity]. split; [cbn; lia|]. eexists. split; [reflexivity|done]. Qed.
Lemma at1 : at_entity s0 1 0 1 od1.
Proof. split; [apply wf_s0| |reflexivity|reflexivity]. split; [cbn; lia|]. eexists. split; [reflexivity|done]. Qed.

Lemma pair0 : added_pair s0 0 1 0 od0 1 od1 pp0.
Proof. split; [apply at0|apply at1|lia|reflexivity..| |]; split; reflexivity. Qed.

Lemma application_witness : exists s',
  (_ ← gptpclock_set_thisClock 1 0 true; servo_calls 0 1 [MasterOffset 5000; ThisRate 20000]) s0 = Some (tt, s').
Proof.
  destruct (application_reads_domain_time s0 0 1 0 od0 1 od1 pp0 [MasterOffset 5000; ThisRate 20000] pair0)
    as (s' & E & _).
  exists s'. exact E.
Defined.

(** readings of the device from the state on *)
Lemma time_set_witness : exists v s' s'',
  gptpclock_setts64 1700000000000000000 0 0 s0 = Some (0, s') /\ gptpclock_getts64 0 0 s' = Some (v, s'').
Proof.
  edestruct (time_set_is_time_read s0 0 0 0 od0 1700000000000000000) as (s' & s'' & E1 & E2).
  - apply at0.
  - discriminate.
  - reflexivity.
  - reflexivity.
  - reflexivity.
  - vm_compute. split; discriminate || reflexivity.
  - vm_compute. split; discriminate || reflexivity.
  - eexists _, s', s''. split; [exact E1|exact E2].
Defined.

(** two domains on the same device: thisClock of domain 1 is adjusted in software *)
Definition calls2 : list clock_call :=
  [AddClock 0 name 0 (replicate 8 1); AddClock 1 name 0 (replicate 8 2);
   AddClock 0 name 1 (replicate 8 1); AddClock 1 name 1 (replicate 8 2);
   SetThisClock 1 0 true; SetThisClock 1 1 true].
Definition booted2 : option (unit * st) := clock_calls calls2 (mkst (gptpclock_init 2 2) world0 []).
Definition gcd2 : Gd.gptpclock_data := Eval vm_compute in
  match booted2 with Some (_, s) => gcd s | None => gptpclock_init 1 2 end.
Definition world2 : world := Eval vm_compute in match booted2 with Some (_, s) => wrld s | None => world0 end.
Definition db2 : list db_write := Eval vm_compute in match booted2 with Some (_, s) => db s | None => [] end.
Definition s2 : st := mkst gcd2 world2 db2.
Definition od2 : Od.oneclock_data_t := Eval vm_compute in default (Od.zero (PpEle 0)) (Gd.slots gcd2 !! 2%nat).
Definition od3 : Od.oneclock_data_t := Eval vm_compute in default (Od.zero (PpEle 0)) (Gd.slots gcd2 !! 3%nat).
Definition pp2 : Pp.gptp_clock_ppara_t := Eval vm_compute in default Pp.zero (shm_entry gcd2 1).

Lemma booted_s2 : clock_calls calls2 (mkst (gptpclock_init 2 2) world0 []) = Some (tt, s2).
Proof. vm_cast_no_check (eq_refl (Some (tt, s2))). Qed.

Lemma wf_s2 : wf (gcd s2).
Proof.
  apply (wf_after _ _ _ booted_s2); [by apply wf_init|].
  repeat constructor; cbn; lia.
Qed.

Lemma clocks2 : domain_clocks s2 1 1 2 od2 3 od3 pp2.
Proof.
  split; try reflexivity; try discriminate.
  - split; [apply wf_s2| |reflexivity|reflexivity]. split; [cbn; lia|]. eexists. split; [reflexivity|done].
  - split; [apply wf_s2| |reflexivity|reflexivity]. split; [cbn; lia|]. eexists. split; [reflexivity|done].
  - eexists. split; reflexivity.
Qed.

(** the next readings of the device *)
Definition reading (w : VirtualDev.vworld) : Z * VirtualDev.vworld :=
  match ptpdev_clock_gettime (Od.ptpfd od3) w with (Some h, w) => (h, w) | (None, w) => (0, w) end.
Definition q0 : Z * VirtualDev.vworld := Eval vm_compute in reading world2.
Definition q1 : Z * VirtualDev.vworld := Eval vm_compute in reading (snd q0).
Definition q2 : Z * VirtualDev.vworld := Eval vm_compute in reading (snd q1).
Definition q3 : Z * VirtualDev.vworld := Eval vm_compute in reading (snd q2).

Lemma rate_change_witness : exists v s' s'',
  gptpclock_setadj 20000 1 1 s2 = Some (0, s') /\ gptpclock_getts64 1 1 s' = Some (v, s'').
Proof.
  destruct (rate_change_continues 20000 s2 1 1 2 od2 3 od3 pp2 (fst q0) (fst q1) (fst q2) (fst q3)
    (snd q0) (snd q1) (snd q2) (snd q3) clocks2 eq_refl eq_refl eq_refl eq_refl eq_refl) as (s' & s'' & E1 & E2).
  eexists _, s', s''. split; [exact E1|exact E2].
Defined.

(** *** What goes wrong *)

(** With a software rate the application adds in floating point: near the present time its result
    differs from the daemon's by more than 100 ns for the same reading and parameters. *)
Lemma application_time_rounded :
  let rate := ddiv (d_of_Z 100000) (d_of_Z 1000000000) in
  let x := Pp.zero <| Pp.adjrate := rate |> <| Pp.last_setts64 := 1700000000000000000 |> in
  let od := Od.zero (PpEle 0) <| Od.mode := PTPCLOCK_SLAVE_SUB |> <| Od.adjrate := rate |>
              <| Od.last_setts64 := 1700000000000000000 |> in
  clock_time od 1700000001000000220 = 1700000001000100220 /\
  GMC.domain_time x 1700000001000000220 = 1700000001000100352.
Proof. vm_compute. split; reflexivity. Qed.

(** After deleting an entity that is not the last, the next one moves but its [pp] still points to
    the place it had, now outside the array. *)
Lemma deletion_leaves_pointer :
  match (_ ← clock_calls [AddClock 0 name 0 (replicate 8 1); AddClock 1 name 0 (replicate 8 2);
                          AddClock 2 name 0 (replicate 8 3)];
         gptpclock_del_clock 1 0) (mkst (gptpclock_init 1 3) world0 []) with
  | Some (r, s) => (r, Gd.nums (gcd s), (fun od => (Od.clockIndex od, Od.pp od)) <$> Gd.slots (gcd s) !! 1%nat)
  | None => (1, 0%nat, None)
  end = (0, 2%nat, Some (2, PpEle 2)).
Proof. vm_compute. reflexivity. Qed.

(** The time written with a change of status is read from clock [d] of domain 0, not from the
    master clock of domain [d]: domain 1, whose master clock has been moved by an hour. *)
Lemma gmstate_time_of_other_clock :
  match (_ ← gptpclock_setoffset64 3600000000000 0 1; _ ← gptpclock_set_gmsync 1 2; gptpclock_getts64 0 1) s2 with
  | Some (v, s) => match rev (db s) with
                   | DbGmState d ts v1 :: _ => (d, v1, 3500000000000 <? v - ts)
                   | _ => (0, 0, false)
                   end
  | None => (0, 0, false)
  end = (1, 2, true).
Proof. vm_compute. reflexivity. Qed.

(** When this device becomes grandmaster of domain 1, whose thisClock shares the hardware with
    domain 0, the offset of domain 0 is copied to it; with RESET_FREQADJ_BECOMEGM the rate reset
    then recomputes the shared offset from thisClock's own offset, and it is no longer that of
    domain 0. *)
Lemma becoming_gm_phase :
  let cf := {| STATIC_PORT_STATE_SLAVE_PORT := 0; INITIAL_SLAVE_TIME := 0; RESET_FREQADJ_BECOMEGM := 1;
    ACTIVE_DOMAIN_AUTO_SWITCH := 2; TEST_SYNC_REC_PORT := -1; TEST_SYNC_SEND_PORT := -1;
    CMLDS_MODE := 0; NEIGHBOR_PROP_DELAY := 0; PRIORITY1 := fun _ => 248 |} in
  let offsets (s : st) := (Pp.offset64 <$> shm_entry (gcd s) 0, Pp.offset64 <$> shm_entry (gcd s) 1) in
  let become := gptpclock_set_gmchange (CF := cf) 1 (replicate 8 9) true in
  match (_ ← gptpclock_setoffset64 5000 0 0; _ ← gptpclock_setoffset64 700 1 1; become) s2 with
  | Some (_, s) => bool_decide (fst (offsets s) = Some 5000) && negb (bool_decide (snd (offsets s) = Some 5000))
  | None => false
  end = true.
Proof. vm_compute. reflexivity. Qed.
End ClockWitness.
