(* ===== verification/GptpclockStatus.v ===== *)
(** * GptpclockStatus: gptpclock.c implements the status interface of [Clock].

    The state machines are proved against [Clock], which keeps of a domain only
    the status of its master clock.  Here that abstraction is justified: the
    functions of gptpclock.c on the array of entities, the shared memory and the
    per-domain data simulate those of [Clock], on every domain at once. *)

From Stdlib Require Import SpecFloat.
From S2P Require Import Prelude Types Floats Common Clock Gptpclock VirtualClock GptpclockFacts GptpclockTime.
From stdpp Require Import gmap list.
Import GC.
Import (hints) GC.
#[local] Open Scope Z_scope.
#[local] Open Scope gptp_scope.

(** ** What [Clock] keeps of a state *)

(** the status of domain [d] in the shared memory *)
Definition shm_status (g : Gd.gptpclock_data) (d : Z) : option (Z * Z) :=
  (fun x => (Pp.gmsync x, Pp.gmchange_ind x)) <$> shm_entry g d.

(** the master clock of [d] as [Clock] sees it, if it is there and its device is open *)
Definition master_of (g : Gd.gptpclock_data) (d : Z) : option Clock0 :=
  match get_clockod g 0 d with
  | Some (Some p) =>
      od ← Gd.slots g !! p;
      if PTPFD_VALID (Od.ptpfd od) then
        '(sync, change) ← shm_status g d; pd ← pdd_of g d;
        Some (Clock0.mk sync change (Pdd.gmClockId pd) (Pdd.we_are_gm pd) (Pdd.thisClock_adjppb pd))
      else None
  | _ => None
  end.

Record abstracts (g : Gd.gptpclock_data) (a : gptpclock_data) : Prop := {
  ab_clds : forall d, 0 <= d < 256 -> Gcd.clds a !! d = master_of g d;
  ab_active : Gcd.active_domain a = Shm.active_domain (Gd.shm g);
  ab_switch : Gcd.active_domain_switch a = Gd.active_domain_switch g;
  ab_max : Gcd.max_domains a = Shm.max_domains (Gd.shm g);
  ab_range : 0 <= Shm.active_domain (Gd.shm g) < 256 /\ Gd.active_domain_switch g < 256
}.

(** the same for [Clock]: same entities, same status, same domains *)
Record same_status (g g' : Gd.gptpclock_data) : Prop := {
  ss_shape : shape g' = shape g;
  ss_shm : forall d, shm_status g' d = shm_status g d;
  ss_pdd : forall d, pdd_of g' d = pdd_of g d;
  ss_active : Shm.active_domain (Gd.shm g') = Shm.active_domain (Gd.shm g);
  ss_switch : Gd.active_domain_switch g' = Gd.active_domain_switch g
}.

Section Status.
Context `{DEV : PtpDev} `{CV : Conversions} `{CF : Config}.
#[local] Set Default Proof Using "All".

Lemma slot_valid g g' p od : shape g' = shape g -> Gd.slots g !! p = Some od ->
  exists od', Gd.slots g' !! p = Some od' /\ PTPFD_VALID (Od.ptpfd od') = PTPFD_VALID (Od.ptpfd od).
Proof.
  intros E H. pose proof (ident_slot _ _ _ H) as I. rewrite <- E in I.
  destruct (slot_ident _ _ _ I) as (od' & H' & X). exists od'. split; [done|].
  change (Sh.valid (ident od') = Sh.valid (ident od)). by rewrite X.
Qed.

(** [master_of] by the shape and the status *)
Lemma master_of_eq g g' d :
  wf g -> shape g' = shape g -> shm_status g' d = shm_status g d -> pdd_of g' d = pdd_of g d ->
  master_of g' d = master_of g d.
Proof.
  intros W E S P. unfold master_of. rewrite (get_clockod_shape g g' 0 d W E), S, P.
  destruct (get_clockod g 0 d) as [[p|]|] eqn:C; try done.
  destruct (Gd.slots g !! p) as [od|] eqn:D.
  - destruct (slot_valid g g' p od E D) as (od' & -> & V). cbn. by rewrite V.
  - destruct (Gd.slots g' !! p) as [od'|] eqn:D'; [|done].
    destruct (slot_valid g' g p od' (eq_sym E) D') as (od & ? & _). congruence.
Qed.

Lemma same_abstracts g g' a : wf g -> same_status g g' -> abstracts g a -> abstracts g' a.
Proof.
  intros W [E S P A W'] [B1 B2 B3 B4 B5]. split.
  - intros d Hd. rewrite B1 by done. symmetry. by apply master_of_eq.
  - by rewrite A.
  - by rewrite W'.
  - rewrite B4. change (Sh.max_domains (shape g) = Sh.max_domains (shape g')). by rewrite E.
  - by rewrite A, W'.
Qed.

Lemma same_refl g : same_status g g.
Proof. by split. Qed.
Lemma same_trans g1 g2 g3 : same_status g1 g2 -> same_status g2 g3 -> same_status g1 g3.
Proof. intros [] []. split; congruence. Qed.

(** operations that [Clock] does not see *)
Definition unseen {A} (m : M A) : Prop := forall s a s',
  wf (gcd s) -> m s = Some (a, s') -> same_status (gcd s) (gcd s').

Lemma unseen_wf {A} (m : M A) s a s' : unseen m -> wf (gcd s) -> m s = Some (a, s') -> wf (gcd s').
Proof. intros U W E. unfold wf. by rewrite (ss_shape _ _ (U s a s' W E)). Qed.

Lemma unseen_ret {A} (a : A) : unseen (mret a).
Proof. intros s b s' _ [= <- <-]. apply same_refl. Qed.

Lemma unseen_bind {A B} (m : M A) (f : A -> M B) : unseen m -> (forall a, unseen (f a)) -> unseen (m ≫= f).
Proof.
  intros Hm Hf s b s' W E. unfold mbind, M_bind in E. destruct (m s) as [[a s1]|] eqn:E1; [|done].
  apply (same_trans _ (gcd s1)); [by apply (Hm s a)|].
  apply (Hf a s1 b); [|done]. by apply (unseen_wf m s a).
Qed.

Lemma unseen_gcd {A} (m : M A) : (forall s a s', m s = Some (a, s') -> gcd s' = gcd s) -> unseen m.
Proof. intros H s a s' _ E. rewrite (H s a s' E). apply same_refl. Qed.

Lemma unseen_act {A} (f : world -> A * world) : unseen (act f).
Proof. apply unseen_gcd. intros s a s' E. unfold act in E. destruct (f (wrld s)). by injection E as _ <-. Qed.
Lemma unseen_wr_db e : unseen (wr_db e).
Proof. apply unseen_gcd. by intros s a s' [= _ <-]. Qed.
Lemma unseen_get : unseen get.
Proof. apply unseen_gcd. by intros s a s' [= _ <-]. Qed.
Lemma unseen_od_at p : unseen (od_at p).
Proof. apply unseen_gcd. intros s a s' E. unfold od_at in E. by destruct (_ !! _); [injection E as _ <-|]. Qed.
Lemma unseen_clockod ci di : unseen (clockod ci di).
Proof. apply unseen_gcd. intros s a s' E. unfold clockod in E. by destruct (get_clockod _ _ _); [injection E as _ <-|]. Qed.
Lemma unseen_pdd_at d : unseen (pdd_at d).
Proof. apply unseen_gcd. intros s a s' E. unfold pdd_at in E. by destruct (pdd_of _ _); [injection E as _ <-|]. Qed.
Lemma unseen_pp_at p : unseen (pp_at p).
Proof.
  apply unseen_gcd. intros s a s' E. unfold pp_at in E. destruct (_ !! _) as [od|]; [|done]. cbn [mbind option_bind] in E.
  destruct (pp_of _ _); [|done]. cbn [mbind option_bind] in E. by injection E as _ <-.
Qed.

Lemma unseen_set_od p f : (forall od, ident (f od) = ident od) -> unseen (set_od p f).
Proof.
  intros F s a s' W E. unfold set_od in E. destruct (Gd.slots (gcd s) !! p); [|done].
  injection E as _ <-. split; try done. by apply slot_alter_shape.
Qed.

Lemma shm_status_alter f d d' g :
  (forall x, Pp.gmsync (f x) = Pp.gmsync x /\ Pp.gmchange_ind (f x) = Pp.gmchange_ind x) ->
  shm_status (alter_pp f (PpShm d) g) d' = shm_status g d'.
Proof.
  intros F. unfold shm_status, shm_entry. destruct (0 <=? d'); [|done]. cbn.
  destruct (decide (Z.to_nat d = Z.to_nat d')) as [->|N].
  - rewrite list_lookup_alter_eq. destruct (Shm.gcpp (Gd.shm g) !! Z.to_nat d') as [x|]; [|done].
    cbn. by destruct (F x) as [-> ->].
  - by rewrite list_lookup_alter_ne.
Qed.

Lemma unseen_set_od_pp p f :
  (forall x, Pp.domainIndex (f x) = Pp.domainIndex x) ->
  (forall x, Pp.gmsync (f x) = Pp.gmsync x /\ Pp.gmchange_ind (f x) = Pp.gmchange_ind x) ->
  unseen (set_od_pp p f).
Proof.
  intros F1 F2. apply unseen_bind; [apply unseen_od_at|]. intros od s a s' W E. unfold set_pp in E.
  destruct (pp_of (gcd s) (Od.pp od)); [|done]. injection E as _ <-. cbn [gcd].
  change (same_status (gcd s) (alter_pp f (Od.pp od) (gcd s))).
  pose proof (alter_pp_shape _ W (Od.pp od) f (gcd s) F1) as Sh.
  split; [done| | | |]; destruct (Od.pp od); try done. intros d'. by apply shm_status_alter.
Qed.

Lemma unseen_FN_ENTRY ci di k : (forall p, unseen (k p)) -> unseen (FN_ENTRY ci di k).
Proof.
  intros K. unfold FN_ENTRY. apply unseen_bind; [apply unseen_clockod|]. intros [p|]; [|apply unseen_ret].
  apply unseen_bind; [apply unseen_od_at|]. intros od. destruct (PTPFD_VALID _); [apply K|apply unseen_ret].
Qed.
End Status.

Create HintDb unseen.
#[export] Hint Resolve unseen_ret unseen_act unseen_wr_db unseen_get unseen_od_at unseen_clockod
  unseen_pdd_at unseen_pp_at : unseen.
Ltac unseen_step :=
  match goal with
  | |- forall _, _ => intros
  | |- unseen (_ ≫= _) => apply unseen_bind
  | |- unseen (FN_ENTRY _ _ _) => apply unseen_FN_ENTRY
  | |- unseen (set_od _ _) => by apply unseen_set_od
  | |- unseen (set_od_pp _ _) => apply unseen_set_od_pp; done
  | |- unseen (if ?c then _ else _) => destruct c
  | |- unseen (match ?o with _ => _ end) => destruct o
  | |- unseen _ => solve [eauto with unseen]
  end.
Ltac unseen_auto := repeat unseen_step.

Section Simulation.
Context `{DEV : PtpDev} `{CV : Conversions} `{CF : Config}.
#[local] Set Default Proof Using "All".

Lemma unseen_getts_od ts p : unseen (gptpclock_getts_od ts p).
Proof. unfold gptpclock_getts_od, GPTP_CLOCK_GETTIME. unseen_auto. Qed.
#[local] Hint Resolve unseen_getts_od : unseen.

Lemma unseen_setoffset_od p : unseen (gptpclock_setoffset_od p).
Proof. unfold gptpclock_setoffset_od. unseen_auto. Qed.
#[local] Hint Resolve unseen_setoffset_od : unseen.

Lemma unseen_setts_offset_od o p : unseen (gptpclock_setts_offset_od o p).
Proof. unfold gptpclock_setts_offset_od, GPTP_CLOCK_GETTIME, GPTP_CLOCK_SETOFFSET, act_. unseen_auto. Qed.
#[local] Hint Resolve unseen_setts_offset_od : unseen.

Lemma unseen_setts_od ts p : unseen (gptpclock_setts_od ts p).
Proof. unfold gptpclock_setts_od, GPTP_CLOCK_GETTIME. unseen_auto. Qed.
#[local] Hint Resolve unseen_setts_od : unseen.

Lemma unseen_adjust_GM d : unseen (adjust_GM_btw_domains d).
Proof. unfold adjust_GM_btw_domains. unseen_auto. Qed.
#[local] Hint Resolve unseen_adjust_GM : unseen.

Lemma unseen_get_gmsync d : unseen (gptpclock_get_gmsync d).
Proof. unfold gptpclock_get_gmsync, get_gmsync. unseen_auto. Qed.
#[local] Hint Resolve unseen_get_gmsync : unseen.

Lemma unseen_GET_TS64 d : unseen (GPTP_GET_TS64 d).
Proof. unfold GPTP_GET_TS64, gptpclock_getts64. unseen_auto. Qed.

(** the entry test of the functions on the master clock, on both sides *)
Lemma FN_ENTRY_cases s d k : wf (gcd s) -> 0 <= d < 256 ->
  master_of (gcd s) d = None /\ FN_ENTRY 0 d k s = Some (-1, s) \/
  exists p od x pd, at_entity s 0 d p od /\ shm_entry (gcd s) d = Some x /\ pdd_of (gcd s) d = Some pd /\
    master_of (gcd s) d = Some (Clock0.mk (Pp.gmsync x) (Pp.gmchange_ind x) (Pdd.gmClockId pd)
                                          (Pdd.we_are_gm pd) (Pdd.thisClock_adjppb pd)) /\
    FN_ENTRY 0 d k s = k p s.
Proof.
  intros W Hd. assert (U : u8 d = d) by (apply wrap_id; unfold fits; lia).
  destruct (get_clockod_result (gcd s) 0 d W) as (o & C & P). rewrite U in P.
  unfold master_of. rewrite C. destruct o as [p|].
  - pose proof P as [Lp _]. destruct (slot_lt (gcd s) p W Lp) as [od D]. rewrite D. cbn [mbind option_bind].
    destruct (PTPFD_VALID (Od.ptpfd od)) eqn:V.
    + right. assert (A : at_entity s 0 d p od) by by split.
      destruct (at_entity_ident _ _ _ _ _ A) as (_ & Dd & Dm & Pd). cbn in Pd.
      destruct (pp_exists (gcd s) p od W Lp D) as (x & X & _). rewrite Pd in X. cbn in X.
      destruct (domain_pdd (shape (gcd s)) W s d eq_refl Dm) as [pd Hpd].
      exists p, od, x, pd. split_and!; try done.
      * unfold shm_status. by rewrite X, Hpd.
      * by apply (FN_ENTRY_run s 0 d p od).
    + left. split; [done|]. unfold FN_ENTRY.
      rewrite (bind_run _ _ s (Some p) s) by (unfold clockod; by rewrite C).
      rewrite (bind_run _ _ s od s) by (unfold od_at; by rewrite D). by rewrite V.
  - left. split; [done|]. unfold FN_ENTRY. by rewrite (bind_run _ _ s None s) by (unfold clockod; by rewrite C).
Qed.

Lemma pp_at_master s d p od x : at_entity s 0 d p od -> shm_entry (gcd s) d = Some x -> pp_at p s = Some (x, s).
Proof. intros A X. by apply (pp_at_run s 0 d p od x A). Qed.

(** simulation of one call *)
Definition simulates {A} (m : M A) (f : gptpclock_data -> gptpclock_data) : Prop := forall s a,
  wf (gcd s) -> abstracts (gcd s) a ->
  exists r s', m s = Some (r, s') /\ wf (gcd s') /\ abstracts (gcd s') (f a).

Lemma switch_simulated di : 0 <= di < 256 -> simulates (switch_active_domain di) (Clock.switch_active_domain di).
Proof.
  intros Hd s a W A. unfold switch_active_domain, Clock.switch_active_domain.
  rewrite (bind_run _ _ s (gcd s) s) by done. rewrite (ab_active _ _ A).
  destruct (_ =? di); [by exists 1, s|].
  exists 0, (s <| gcd; Gd.shm; Shm.active_domain := di |>). split; [done|]. split; [done|].
  destruct A as [B1 B2 B3 B4 B5]. split; try done; [|split; [done|apply B5]].
  intros d H. rewrite (master_of_eq (gcd s)); [by apply B1|done..].
Qed.

Lemma first_stable_simulated n i s a :
  0 <= i -> i + Z.of_nat n <= 256 -> wf (gcd s) -> abstracts (gcd s) a ->
  exists r s', first_stable n i s = Some (r, s') /\ wf (gcd s') /\
    abstracts (gcd s') (match find_stable_domain n i a with
                        | Some j => Clock.switch_active_domain j a | None => a end).
Proof.
  revert i. induction n as [|n IH]; intros i Hi Hn W A; cbn [first_stable find_stable_domain].
  - by exists (-1), s.
  - unfold Clock.get_clockod. rewrite (ab_clds _ _ A i) by lia.
    destruct (FN_ENTRY_cases s i (fun p => x ← pp_at p;
      if Pp.gmsync x =? GMSYNC_SYNC_STABLE then switch_active_domain i else first_stable n (i + 1)) W)
      as [[-> ->]|(p & od & x & pd & E & X & P & -> & ->)]; [lia|by exists (-1), s|].
    rewrite (bind_run _ _ _ _ _ (pp_at_master _ _ _ _ _ E X)). cbn [Clock0.gmsync].
    destruct (Pp.gmsync x =? GMSYNC_SYNC_STABLE).
    + apply switch_simulated; [lia|done|done].
    + apply IH; try done; lia.
Qed.

Lemma update_simulated : simulates gptpclock_update_active_domain Clock.gptpclock_update_active_domain.
Proof.
  intros s a W A. unfold gptpclock_update_active_domain, Clock.gptpclock_update_active_domain.
  rewrite (bind_run _ _ s (gcd s) s) by done. rewrite (ab_switch _ _ A).
  destruct (ab_range _ _ A) as [R1 R2].
  destruct (Z.leb_spec 0 (Gd.active_domain_switch (gcd s))).
  { apply switch_simulated; [lia|done|done]. }
  destruct (_ =? 0); [by exists 0, s|]. unfold Clock.get_clockod.
  rewrite (ab_active _ _ A), (ab_clds _ _ A) by done. rewrite (ab_max _ _ A).
  match goal with |- context [FN_ENTRY 0 ?d ?k s] =>
    destruct (FN_ENTRY_cases s d k W R1) as [[-> ->]|(p & od & x & pd & E & X & P & -> & ->)] end.
  { by exists (-1), s. }
  rewrite (bind_run _ _ _ _ _ (pp_at_master _ _ _ _ _ E X)). cbn [Clock0.gmsync].
  destruct (_ && _); [by exists 0, s|].
  pose proof (wf_max _ W) as Mx. change (Sh.max_domains (shape (gcd s))) with (Shm.max_domains (Gd.shm (gcd s))) in Mx.
  destruct (first_stable_simulated (Z.to_nat (Shm.max_domains (Gd.shm (gcd s)))) 0 s a) as (r & s' & E' & W' & A');
    [lia|lia|done|done|]. exists r, s'. split; [done|]. split; [done|].
  by destruct (find_stable_domain _ _ _).
Qed.

(** *** Changes of the status of one domain *)

Definition status_of (x : Pp.gptp_clock_ppara_t) (pd : Pdd.per_domain_data_t) : Clock0 :=
  Clock0.mk (Pp.gmsync x) (Pp.gmchange_ind x) (Pdd.gmClockId pd) (Pdd.we_are_gm pd) (Pdd.thisClock_adjppb pd).

(** the master clock of [d] with its status *)
Record master_at (s : st) (d : Z) (p : nat) (od : Od.oneclock_data_t) (x : Pp.gptp_clock_ppara_t)
    (pd : Pdd.per_domain_data_t) : Prop := {
  ma_entity : at_entity s 0 d p od;
  ma_shm : shm_entry (gcd s) d = Some x;
  ma_pdd : pdd_of (gcd s) d = Some pd
}.

Lemma master_at_status s d p od x pd : master_at s d p od x pd -> master_of (gcd s) d = Some (status_of x pd).
Proof.
  intros [[W P D V] X Y]. unfold master_of. rewrite (get_clockod_entity _ _ _ p W P), D.
  cbn [mbind option_bind]. rewrite V. unfold shm_status. by rewrite X, Y.
Qed.

(** [abstracts] after the status of [d] alone has changed *)
Lemma abstracts_insert s s' a d p od x pd c :
  wf (gcd s) -> abstracts (gcd s) a -> 0 <= d < 256 -> shape (gcd s') = shape (gcd s) ->
  master_at s' d p od x pd -> c = status_of x pd ->
  (forall d', d' <> d -> 0 <= d' -> shm_status (gcd s') d' = shm_status (gcd s) d' /\ pdd_of (gcd s') d' = pdd_of (gcd s) d') ->
  Shm.active_domain (Gd.shm (gcd s')) = Shm.active_domain (Gd.shm (gcd s)) ->
  Gd.active_domain_switch (gcd s') = Gd.active_domain_switch (gcd s) ->
  abstracts (gcd s') (a <| Gcd.clds ::= <[d := c]> |>).
Proof.
  intros W [B1 B2 B3 B4 B5] Hd Sh M -> O A1 A2. split; cbn.
  - intros d' Hd'. destruct (decide (d = d')) as [<-|N].
    + rewrite lookup_insert_eq. symmetry. by apply (master_at_status s' d p od).
    + rewrite lookup_insert_ne, B1 by done. symmetry. destruct (O d') as [O1 O2]; [congruence|lia|].
      by apply master_of_eq.
  - by rewrite A1.
  - by rewrite A2.
  - rewrite B4. change (Sh.max_domains (shape (gcd s)) = Sh.max_domains (shape (gcd s'))). by rewrite Sh.
  - by rewrite A1, A2.
Qed.

Lemma set_pp_master f s d p od x pd a :
  master_at s d p od x pd -> abstracts (gcd s) a -> 0 <= d < 256 ->
  (forall x, Pp.domainIndex (f x) = Pp.domainIndex x) ->
  exists s', set_od_pp p f s = Some (tt, s') /\ shape (gcd s') = shape (gcd s) /\ master_at s' d p od (f x) pd /\
    abstracts (gcd s') (a <| Gcd.clds ::= <[d := status_of (f x) pd]> |>).
Proof.
  intros [E X P] A Hd F. exists (shm_alter d f s).
  destruct (at_entity_ident _ _ _ _ _ E) as (_ & _ & _ & Pp). cbn in Pp.
  pose proof (alter_pp_shape _ (at_wf _ _ _ _ _ E) (PpShm d) f (gcd s) F) as Sh.
  change (shape (gcd (shm_alter d f s)) = shape (gcd s)) in Sh.
  assert (M' : master_at (shm_alter d f s) d p od (f x) pd).
  { split; [|by apply shm_alter_entry|done]. by apply (at_entity_data s _ 0 d p od _ E Sh); [apply E|]. }
  split_and!; [|done|done|].
  - unfold set_od_pp, set_pp. rewrite (bind_run _ _ _ _ _ (od_at_run _ _ _ (at_data _ _ _ _ _ E))).
    rewrite Pp. cbn [pp_of]. by rewrite X.
  - apply (abstracts_insert s _ a d p od (f x) pd); try done; [apply E|].
    intros d' N Hd'. split; [|done]. unfold shm_status, shm_entry. destruct (0 <=? d'); [|done].
    cbn. by rewrite list_lookup_alter_ne by lia.
Qed.

Lemma set_pdd_master f s d p od x pd a :
  master_at s d p od x pd -> abstracts (gcd s) a -> 0 <= d < 256 ->
  exists s', set_pdd d f s = Some (tt, s') /\ shape (gcd s') = shape (gcd s) /\ master_at s' d p od x (f pd) /\
    abstracts (gcd s') (a <| Gcd.clds ::= <[d := status_of x (f pd)]> |>).
Proof.
  intros [E X P] A Hd. exists (s <| gcd; Gd.pdd ::= alter f (Z.to_nat d) |>).
  assert (Sh : shape (gcd (s <| gcd; Gd.pdd ::= alter f (Z.to_nat d) |>)) = shape (gcd s)).
  { unfold shape. cbn. by rewrite length_alter. }
  assert (M' : master_at (s <| gcd; Gd.pdd ::= alter f (Z.to_nat d) |>) d p od x (f pd)).
  { split; [by apply (at_entity_data s _ 0 d p od _ E Sh); [apply E|]|done|by apply pdd_alter_of]. }
  split_and!; [unfold set_pdd; by rewrite P|done|done|].
  apply (abstracts_insert s _ a d p od x (f pd)); try done; [apply E|].
  intros d' N Hd'. split; [done|]. unfold pdd_of. destruct (0 <=? d'); [|done].
  cbn. by rewrite list_lookup_alter_ne by lia.
Qed.

Lemma master_cases s d k : wf (gcd s) -> 0 <= d < 256 ->
  master_of (gcd s) d = None /\ FN_ENTRY 0 d k s = Some (-1, s) \/
  exists p od x pd, master_at s d p od x pd /\ master_of (gcd s) d = Some (status_of x pd) /\
    FN_ENTRY 0 d k s = k p s.
Proof.
  intros W Hd. destruct (FN_ENTRY_cases s d k W Hd) as [?|(p & od & x & pd & E & X & P & M & K)]; [by left|].
  right. exists p, od, x, pd. split_and!; [by split|done|done].
Qed.

(** what follows and is not seen *)
Lemma unseen_after {A} (m : M A) s a : unseen m -> ok (shape (gcd s)) m any ->
  wf (gcd s) -> abstracts (gcd s) a ->
  exists r s', m s = Some (r, s') /\ wf (gcd s') /\ abstracts (gcd s') a /\ same_status (gcd s) (gcd s').
Proof.
  intros U O W Ab. destruct (O s eq_refl) as (r & s' & E & _). exists r, s'.
  pose proof (U s r s' W E) as S. split_and!; [done|by apply (unseen_wf m s r)|by apply (same_abstracts (gcd s))|done].
Qed.

Lemma set_gmsync_simulated d v : 0 <= d < 256 -> fits 8 v ->
  simulates (gptpclock_set_gmsync d v) (Clock.gptpclock_set_gmsync d v).
Proof.
  intros Hd Hv s a W A. unfold gptpclock_set_gmsync, Clock.gptpclock_set_gmsync, Clock.get_clockod.
  rewrite (ab_clds _ _ A d Hd).
  match goal with |- context [FN_ENTRY 0 d ?k s] =>
    destruct (master_cases s d k W Hd) as [[-> ->]|(p & od & x & pd & M & -> & ->)] end.
  { by exists (-1), s. }
  rewrite (bind_run _ _ _ _ _ (pp_at_master _ _ _ _ _ (ma_entity _ _ _ _ _ _ M) (ma_shm _ _ _ _ _ _ M))).
  cbn [Clock0.gmsync status_of]. destruct (Pp.gmsync x =? v); [by exists 0, s|].
  pose (f1 := fun x => x <| Pp.gmsync := u8 v |>).
  destruct (set_pp_master f1 s d p od x pd a M A Hd (fun _ => eq_refl)) as (s1 & E1 & Sh1 & M1 & A1).
  rewrite (bind_run _ _ _ _ _ E1).
  assert (Ec : status_of (f1 x) pd = (status_of x pd) <| Clock0.gmsync := v |>).
  { unfold status_of, f1. cbn. by rewrite (wrap_id 8 v Hv). }
  rewrite Ec in A1. pose proof (at_wf _ _ _ _ _ (ma_entity _ _ _ _ _ _ M1)) as W1.
  destruct (update_simulated s1 _ W1 A1) as (r2 & s2 & E2 & W2 & A2).
  rewrite (bind_run _ _ _ _ _ E2).
  destruct (unseen_after (GPTP_GET_TS64 d) s2 _ (unseen_GET_TS64 d) (ok_GET_TS64 _ W2 d) W2 A2)
    as (r3 & s3 & E3 & W3 & A3 & _).
  rewrite (bind_run _ _ _ _ _ E3).
  exists 0, (s3 <| db ::= fun l => l ++ [DbGmState (u8 d) r3 v] |>). split; [done|]. split; [done|].
  unfold emit. by destruct A3; split.
Qed.

Lemma get_gmsync_simulated d s a : 0 <= d < 256 -> wf (gcd s) -> abstracts (gcd s) a ->
  gptpclock_get_gmsync d s = Some (Clock.gptpclock_get_gmsync d a, s).
Proof.
  intros Hd W A. unfold gptpclock_get_gmsync, get_gmsync, Clock.gptpclock_get_gmsync, Clock.get_clockod.
  rewrite (ab_clds _ _ A d Hd).
  match goal with |- context [FN_ENTRY 0 d ?k] =>
    destruct (master_cases s d k W Hd) as [[-> E]|(p & od & x & pd & M & -> & E)] end.
  - by rewrite (bind_run _ _ _ _ _ E).
  - rewrite (bind_run _ _ _ _ _ (pp_at_master _ _ _ _ _ (ma_entity _ _ _ _ _ _ M) (ma_shm _ _ _ _ _ _ M))) in E.
    by rewrite (bind_run _ _ _ _ _ E).
Qed.

(** thisClock of the domain is there *)
Definition has_this (s : st) (d : Z) (pd : Pdd.per_domain_data_t) : Prop :=
  exists t tod, at_entity s (Pdd.thisClockIndex pd) d t tod.

Lemma unseen_time_setoffset64 o ci di : unseen (time_setoffset64 o ci di).
Proof. unfold time_setoffset64. unseen_auto. Qed.
#[local] Hint Resolve unseen_time_setoffset64 : unseen.

Lemma unseen_restart_rate ci di p : unseen (restart_rate ci di p).
Proof. unfold restart_rate. unseen_auto. Qed.
Lemma unseen_record_adj ppb ci p : unseen (record_adj ppb ci p).
Proof. unfold record_adj. unseen_auto. Qed.
#[local] Hint Resolve unseen_restart_rate unseen_record_adj : unseen.

(** the part of gptpclock_setadj after the rate was noted is not seen *)
Lemma setadj_simulated ppb s d p od x pd a :
  master_at s d p od x pd -> has_this s d pd -> abstracts (gcd s) a -> 0 <= d < 256 ->
  exists r s', gptpclock_setadj ppb (Pdd.thisClockIndex pd) d s = Some (r, s') /\ wf (gcd s') /\
    abstracts (gcd s') (a <| Gcd.clds ::= <[d := status_of x (pd <| Pdd.thisClock_adjppb := ppb |>)]> |>).
Proof.
  intros M (t & tod & T) A Hd. pose proof (at_wf _ _ _ _ _ (ma_entity _ _ _ _ _ _ M)) as W.
  destruct (ok_setadj _ W ppb (Pdd.thisClockIndex pd) d s eq_refl) as (r & s' & E & _).
  exists r, s'. split; [done|]. unfold gptpclock_setadj in E. rewrite (FN_ENTRY_run _ _ _ _ _ _ T) in E.
  destruct (at_entity_ident _ _ _ _ _ T) as (_ & Td & _).
  rewrite (bind_run _ _ _ _ _ (od_at_run _ _ _ (at_data _ _ _ _ _ T))), Td in E.
  rewrite (bind_run _ _ s pd s) in E by (unfold pdd_at; by rewrite (ma_pdd _ _ _ _ _ _ M)).
  rewrite Z.eqb_refl in E. cbv iota in E.
  pose (f0 := fun pd => pd <| Pdd.thisClock_adjppb := ppb |>).
  destruct (set_pdd_master f0 s d p od x pd a M A Hd) as (s1 & E1 & Sh1 & M1 & A1).
  rewrite (bind_run _ _ _ _ _ E1) in E. pose proof (at_wf _ _ _ _ _ (ma_entity _ _ _ _ _ _ M1)) as W1.
  match type of E with ?m s1 = _ => assert (U : unseen m) by (unfold act_; unseen_auto) end.
  split; [by apply (unseen_wf _ s1 r s' U)|].
  apply (same_abstracts (gcd s1)); [done|by apply (U s1 r s')|done].
Qed.

Lemma at_entity_shape s s' ci di p od : at_entity s ci di p od -> shape (gcd s') = shape (gcd s) ->
  exists od', at_entity s' ci di p od'.
Proof.
  intros [W P D V] Sh. destruct (slot_valid _ _ _ _ Sh D) as (od' & D' & V'). exists od'.
  split; [unfold wf; by rewrite Sh|by rewrite Sh|done|by rewrite V'].
Qed.

(** the master clock after something that is not seen *)
Lemma same_master s s' d p od x pd :
  master_at s d p od x pd -> same_status (gcd s) (gcd s') ->
  exists od' x', master_at s' d p od' x' pd /\ status_of x' pd = status_of x pd.
Proof.
  intros [E X P] [S1 S2 S3 _ _]. destruct (at_entity_shape s s' 0 d p od E S1) as [od' E'].
  specialize (S2 d). unfold shm_status in S2. rewrite X in S2. cbn in S2.
  destruct (shm_entry (gcd s') d) as [x'|] eqn:X'; [|done]. cbn in S2. injection S2 as Y1 Y2.
  exists od', x'. split; [|unfold status_of; by rewrite Y1, Y2].
  split; [done|done|]. by rewrite S3.
Qed.

Lemma status_again d c c' (a : gptpclock_data) :
  a <| Gcd.clds ::= <[d := c]> |> <| Gcd.clds ::= <[d := c']> |> = a <| Gcd.clds ::= <[d := c']> |>.
Proof. destruct a. repeat (unfold upd; cbn). by rewrite insert_insert_eq. Qed.

Lemma emit_abstracts e g a : abstracts g a -> abstracts g (Clock.emit e a).
Proof. by intros []; split. Qed.

Lemma alter_insert_status d c x pd (m : gmap Z Clock0) :
  c = status_of x pd ->
  alter (fun o => o <| Clock0.thisClock_adjppb := 0 |>) d (<[d := c]> m) =
  <[d := status_of x (pd <| Pdd.thisClock_adjppb := 0 |>)]> (<[d := c]> m).
Proof. intros ->. by rewrite alter_insert_eq, insert_insert_eq. Qed.

Lemma has_this_shape s s' d pd pd' :
  has_this s d pd -> shape (gcd s') = shape (gcd s) -> Pdd.thisClockIndex pd' = Pdd.thisClockIndex pd ->
  has_this s' d pd'.
Proof.
  intros (t & tod & T) Sh Ix. destruct (at_entity_shape s s' _ d t tod T Sh) as [tod' T'].
  exists t, tod'. by rewrite Ix.
Qed.

(** the last lines of gptpclock_set_gmchange, when this device becomes grandmaster *)
Lemma becoming_gm_simulated d p od x pd s a k :
  0 <= d < 256 -> master_at s d p od x pd -> abstracts (gcd s) (a <| Gcd.clds ::= <[d := status_of x pd]> |>) ->
  RESET_FREQADJ_BECOMEGM = 0 \/ has_this s d pd ->
  k = (_ ← (if negb (u8 d =? 0) then _ ← adjust_GM_btw_domains d; mret tt else mret tt);
       _ ← (if negb (RESET_FREQADJ_BECOMEGM =? 0) then
              pd ← pdd_at d; _ ← gptpclock_setadj 0 (Pdd.thisClockIndex pd) d; mret tt
            else mret tt);
       mret (M := M) 0) ->
  exists r s', k s = Some (r, s') /\ wf (gcd s') /\
    abstracts (gcd s')
      (let gcd := a <| Gcd.clds ::= <[d := status_of x pd]> |> in
       let gcd := if negb (d =? 0) then Clock.emit (EvAdjustGM d) gcd else gcd in
       if negb (RESET_FREQADJ_BECOMEGM =? 0) then
         Clock.emit (EvSetAdj d 0)
           (gcd <| Gcd.clds ::= alter (fun o => o <| Clock0.thisClock_adjppb := 0 |>) d |>)
       else gcd).
Proof.
  intros Hd M A T ->. rewrite (wrap_id 8 d) by done.
  pose proof (at_wf _ _ _ _ _ (ma_entity _ _ _ _ _ _ M)) as W.
  match goal with |- context [(?m ≫= _) s] => set (adj := m) end.
  assert (exists s1, adj s = Some (tt, s1) /\ same_status (gcd s) (gcd s1)) as (s1 & E1 & S1).
  { unfold adj. destruct (negb (d =? 0)); [|by exists s; split; [|apply same_refl]].
    destruct (unseen_after (adjust_GM_btw_domains d) s _ (unseen_adjust_GM d) (ok_adjust_GM _ W d) W A)
      as (r & s1 & E1 & _ & _ & S1). exists s1. by rewrite (bind_run _ _ _ _ _ E1). }
  rewrite (bind_run _ _ _ _ _ E1). cbn zeta.
  set (b := a <| Gcd.clds ::= <[d := status_of x pd]> |>) in *.
  set (b' := if negb (d =? 0) then Clock.emit (EvAdjustGM d) b else b).
  assert (A1 : abstracts (gcd s1) b').
  { apply (same_abstracts (gcd s)); [done|done|]. unfold b'. destruct (negb _); [by apply emit_abstracts|done]. }
  assert (W1 : wf (gcd s1)) by (unfold wf; by rewrite (ss_shape _ _ S1)).
  destruct (RESET_FREQADJ_BECOMEGM =? 0) eqn:R; cbn [negb]; [by exists 0, s1|].
  destruct T as [T|T]; [apply Z.eqb_neq in R; lia|].
  destruct (same_master s s1 d p od x pd M S1) as (od1 & x1 & M1 & Y).
  destruct (setadj_simulated 0 s1 d p od1 x1 pd b' M1) as (r & s2 & E2 & W2 & A2); [|done..|].
  { by apply (has_this_shape s s1 d pd); [|apply S1|]. }
  rewrite (bind_run _ _ s1 tt s2); cycle 1.
  { rewrite (bind_run _ _ s1 pd s1) by (unfold pdd_at; by rewrite (ma_pdd _ _ _ _ _ _ M1)).
    by rewrite (bind_run _ _ _ _ _ E2). }
  exists 0, s2. split_and!; [done..|]. apply emit_abstracts.
  match goal with |- abstracts _ ?c => match type of A2 with abstracts _ ?c' => replace c with c'; [done|] end end.
  unfold b', b. destruct a, (negb (d =? 0)); repeat (unfold upd; cbn);
    by rewrite (alter_insert_status d _ x1 pd).
Qed.

(** what becomes of the grandmaster of [d]: [Clock.gptpclock_set_gmchange] with the state given *)
Lemma set_gmchange_simulated d id b s a :
  0 <= d < 256 -> wf (gcd s) -> abstracts (gcd s) a ->
  (forall pd, pdd_of (gcd s) d = Some pd -> RESET_FREQADJ_BECOMEGM = 0 \/ has_this s d pd) ->
  exists r s', gptpclock_set_gmchange d id b s = Some (r, s') /\ wf (gcd s') /\
    abstracts (gcd s') (Clock.gptpclock_set_gmchange d id b a).
Proof.
  intros Hd W A T. unfold gptpclock_set_gmchange, Clock.gptpclock_set_gmchange, Clock.get_clockod.
  rewrite (ab_clds _ _ A d Hd).
  match goal with |- context [FN_ENTRY 0 d ?k s] =>
    destruct (master_cases s d k W Hd) as [[-> ->]|(p & od & x & pd & M & -> & ->)] end.
  { by exists (-1), s. }
  pose proof (ma_entity _ _ _ _ _ _ M) as E. destruct (at_entity_ident _ _ _ _ _ E) as (_ & Dd & _).
  rewrite (bind_run _ _ _ _ _ (od_at_run _ _ _ (at_data _ _ _ _ _ E))), Dd.
  rewrite (bind_run _ _ s pd s) by (unfold pdd_at; by rewrite (ma_pdd _ _ _ _ _ _ M)).
  specialize (T pd (ma_pdd _ _ _ _ _ _ M)). cbn [Clock0.gmClockId status_of].
  destruct (bool_decide _); [by exists 0, s|].
  pose (f1 := fun x => x <| Pp.gmchange_ind ::= fun z => u32 (z + 1) |>).
  destruct (set_pp_master f1 s d p od x pd a M A Hd (fun _ => eq_refl)) as (s1 & E1 & Sh1 & M1 & A1).
  rewrite (bind_run _ _ _ _ _ E1).
  pose (f2 := fun pd => pd <| Pdd.gmClockId := id |>).
  destruct (set_pdd_master f2 s1 d p od _ _ _ M1 A1 Hd) as (s2 & E2 & Sh2 & M2 & A2).
  rewrite (bind_run _ _ _ _ _ E2). rewrite status_again in A2.
  pose (f3 := fun pd => pd <| Pdd.we_are_gm := b |>).
  destruct (set_pdd_master f3 s2 d p od _ _ _ M2 A2 Hd) as (s3 & E3 & Sh3 & M3 & A3).
  rewrite status_again in A3. pose proof (at_wf _ _ _ _ _ (ma_entity _ _ _ _ _ _ M3)) as W3.
  destruct b; cycle 1.
  { rewrite (bind_run _ _ _ _ _ E3). exists 0, s3. split_and!; [done..|by apply emit_abstracts]. }
  rewrite (bind_run _ _ _ _ _ E3).
  apply (becoming_gm_simulated d p od (f1 x) (f3 (f2 pd)) s3 (Clock.emit (EvGmChange d id true) a) _ Hd M3
           (emit_abstracts _ _ _ A3)); [|done].
  destruct T as [T|T]; [by left|right]. apply (has_this_shape s s3 d pd); [done| |done].
  by rewrite Sh3, Sh2.
Qed.

(** *** thisClock of a domain stays *)

Definition this_index (g : Gd.gptpclock_data) (d : Z) : option Z := Pdd.thisClockIndex <$> pdd_of g d.

Definition keeps_this {A} (m : M A) : Prop := forall s a s', wf (gcd s) -> m s = Some (a, s') ->
  shape (gcd s') = shape (gcd s) /\ forall d, this_index (gcd s') d = this_index (gcd s) d.

Lemma keeps_unseen {A} (m : M A) : unseen m -> keeps_this m.
Proof. intros U s a s' W E. destruct (U s a s' W E) as [S1 _ S3 _ _]. split; [done|]. intros d. unfold this_index. by rewrite S3. Qed.

Lemma keeps_bind {A B} (m : M A) (f : A -> M B) : keeps_this m -> (forall a, keeps_this (f a)) -> keeps_this (m ≫= f).
Proof.
  intros Hm Hf s b s' W E. unfold mbind, M_bind in E. destruct (m s) as [[a s1]|] eqn:E1; [|done].
  destruct (Hm s a s1 W E1) as [S1 T1].
  destruct (Hf a s1 b s') as [S2 T2]; [unfold wf; by rewrite S1|done|].
  split; [congruence|]. intros d. by rewrite T2.
Qed.

Lemma keeps_set_pdd d f : (forall pd, Pdd.thisClockIndex (f pd) = Pdd.thisClockIndex pd) -> keeps_this (set_pdd d f).
Proof.
  intros F s a s' W E. unfold set_pdd in E. destruct (pdd_of (gcd s) d) eqn:P; [|done]. injection E as _ <-.
  split; [unfold shape; cbn; by rewrite length_alter|]. intros d'. unfold this_index, pdd_of.
  destruct (0 <=? d'); [|done]. cbn. destruct (decide (Z.to_nat d = Z.to_nat d')) as [->|N].
  - rewrite list_lookup_alter_eq. destruct (Gd.pdd (gcd s) !! Z.to_nat d'); [|done]. cbn. by rewrite F.
  - by rewrite list_lookup_alter_ne.
Qed.

Lemma keeps_set_od_pp p f : (forall x, Pp.domainIndex (f x) = Pp.domainIndex x) -> keeps_this (set_od_pp p f).
Proof.
  intros F. apply keeps_bind; [apply keeps_unseen, unseen_od_at|]. intros od s a s' W E. unfold set_pp in E.
  destruct (pp_of (gcd s) (Od.pp od)); [|done]. injection E as _ <-.
  split; [by apply (alter_pp_shape _ W)|]. intros d. cbn. by destruct (Od.pp od).
Qed.

Lemma keeps_FN_ENTRY ci di k : (forall p, keeps_this (k p)) -> keeps_this (FN_ENTRY ci di k).
Proof.
  intros K. unfold FN_ENTRY. apply keeps_bind; [apply keeps_unseen, unseen_clockod|]. intros [p|]; [|apply keeps_unseen, unseen_ret].
  apply keeps_bind; [apply keeps_unseen, unseen_od_at|]. intros od.
  destruct (PTPFD_VALID _); [apply K|apply keeps_unseen, unseen_ret].
Qed.

Lemma keeps_switch di : keeps_this (switch_active_domain di).
Proof.
  unfold switch_active_domain. apply keeps_bind; [apply keeps_unseen, unseen_get|]. intros g.
  destruct (_ =? di); [apply keeps_unseen, unseen_ret|].
  apply keeps_bind; [|intros; apply keeps_unseen, unseen_ret].
  intros s a s' W E. unfold modify in E. by injection E as _ <-.
Qed.
End Simulation.

Ltac keeps_step :=
  match goal with
  | |- keeps_this (switch_active_domain _) => apply keeps_switch
  | |- keeps_this (set_pdd _ _) => by apply keeps_set_pdd
  | |- keeps_this (set_od_pp _ _) => by apply keeps_set_od_pp
  | |- keeps_this (FN_ENTRY _ _ _) => apply keeps_FN_ENTRY; intros
  | |- keeps_this (_ ≫= _) => apply keeps_bind; [|intros]
  | |- keeps_this (if ?c then _ else _) => destruct c
  | |- keeps_this (match ?o with _ => _ end) => destruct o
  | |- keeps_this _ => apply keeps_unseen; solve [unseen_auto]
  end.
Ltac keeps_auto := repeat keeps_step.

Section Calls.
Context `{DEV : PtpDev} `{CV : Conversions} `{CF : Config}.
#[local] Set Default Proof Using "All".
#[local] Hint Resolve unseen_setoffset_od unseen_restart_rate unseen_record_adj unseen_adjust_GM unseen_GET_TS64 : unseen.

Lemma keeps_first_stable n i : keeps_this (first_stable n i).
Proof. revert i. induction n as [|n IH]; intros i; cbn [first_stable]; [apply keeps_unseen, unseen_ret|]. keeps_auto. apply IH. Qed.

Lemma keeps_set_gmsync d v : keeps_this (gptpclock_set_gmsync d v).
Proof. unfold gptpclock_set_gmsync, gptpclock_update_active_domain. keeps_auto. apply keeps_first_stable. Qed.

Lemma keeps_set_gmchange d id b : keeps_this (gptpclock_set_gmchange d id b).
Proof. unfold gptpclock_set_gmchange, gptpclock_setadj. keeps_auto. Qed.

(** ** The interface of [Clock] *)

Inductive status_call :=
  SetSync (d v : Z) | GetSync (d : Z) | SetGm (d : Z) (id : list Z) (becomeGM : bool).

Definition call_domain (c : status_call) : Z :=
  match c with SetSync d _ => d | GetSync d => d | SetGm d _ _ => d end.

(** the values fit their C types *)
Definition call_fits (c : status_call) : Prop :=
  fits 8 (call_domain c) /\ match c with SetSync _ v => fits 8 v | _ => True end.

(** gptpclock.c: the value is the status read, 0 for the calls whose result is not used *)
Definition status_run (c : status_call) : M Z :=
  match c with
  | SetSync d v => _ ← gptpclock_set_gmsync d v; mret 0
  | GetSync d => gptpclock_get_gmsync d
  | SetGm d id b => _ ← gptpclock_set_gmchange d id b; mret 0
  end.

Fixpoint status_runs (cs : list status_call) : M (list Z) :=
  match cs with
  | [] => mret []
  | c :: cs => v ← status_run c; vs ← status_runs cs; mret (v :: vs)
  end.

(** the same calls on the abstract state *)
Definition status_spec (c : status_call) (a : gptpclock_data) : Z * gptpclock_data :=
  match c with
  | SetSync d v => (0, Clock.gptpclock_set_gmsync d v a)
  | GetSync d => (Clock.gptpclock_get_gmsync d a, a)
  | SetGm d id b => (0, Clock.gptpclock_set_gmchange d id b a)
  end.

Fixpoint status_specs (cs : list status_call) (a : gptpclock_data) : list Z * gptpclock_data :=
  match cs with
  | [] => ([], a)
  | c :: cs => let (v, a) := status_spec c a in let (vs, a) := status_specs cs a in (v :: vs, a)
  end.

(** the clock adjusted when the device becomes grandmaster of [d] is there, if it is adjusted *)
Definition adjustable (s : st) (d : Z) : Prop :=
  RESET_FREQADJ_BECOMEGM = 0 \/
  exists i t tod, this_index (gcd s) d = Some i /\ at_entity s i d t tod.

Lemma status_run_keeps c : keeps_this (status_run c).
Proof.
  destruct c; cbn [status_run].
  - apply keeps_bind; [apply keeps_set_gmsync|intros; apply keeps_unseen, unseen_ret].
  - apply keeps_unseen, unseen_get_gmsync.
  - apply keeps_bind; [apply keeps_set_gmchange|intros; apply keeps_unseen, unseen_ret].
Qed.

Lemma adjustable_kept {A} (m : M A) s v s' d :
  keeps_this m -> wf (gcd s) -> m s = Some (v, s') -> adjustable s d -> adjustable s' d.
Proof.
  intros K W E [R|(i & t & tod & I & T)]; [by left|right]. destruct (K s v s' W E) as [S1 S2].
  destruct (at_entity_shape s s' i d t tod T S1) as [tod' T']. exists i, t, tod'. split; [by rewrite S2|done].
Qed.

Lemma status_run_simulated c s a :
  call_fits c -> adjustable s (call_domain c) -> wf (gcd s) -> abstracts (gcd s) a ->
  exists s', status_run c s = Some (fst (status_spec c a), s') /\ wf (gcd s') /\
    abstracts (gcd s') (snd (status_spec c a)).
Proof.
  intros [D V] T W A. destruct c as [d v|d|d id b]; cbn in D, V, T.
  - destruct (set_gmsync_simulated d v D V s a W A) as (r & s' & E & W' & A').
    exists s'. split; [|done]. cbn [status_run]. by rewrite (bind_run _ _ _ _ _ E).
  - exists s. split; [|done]. cbn [status_run status_spec fst]. by apply get_gmsync_simulated.
  - destruct (set_gmchange_simulated d id b s a D W A) as (r & s' & E & W' & A').
    { intros pd P. destruct T as [T|(i & t & tod & I & T)]; [by left|right].
      unfold this_index in I. rewrite P in I. injection I as <-. by exists t, tod. }
    exists s'. split; [|done]. cbn [status_run]. by rewrite (bind_run _ _ _ _ _ E).
Qed.

(** C24. The status of the master clocks: the functions of gptpclock.c that keep the synchronisation
    status, the grandmaster and the active domain, working on the array of clock entities, the
    shared memory and the per-domain data, return for every sequence of calls what the abstract
    status of [Clock] (one record for each domain) says, and end in a state that it describes.  The domain
    numbers and status values fit 8 bits, and with RESET_FREQADJ_BECOMEGM the clock that is reset when the
    device becomes grandmaster of a domain is there. *)
Theorem status_interface_implemented cs s a :
  wf (gcd s) -> abstracts (gcd s) a ->
  Forall (fun c => call_fits c /\ adjustable s (call_domain c)) cs ->
  exists s', status_runs cs s = Some (fst (status_specs cs a), s') /\
    wf (gcd s') /\ abstracts (gcd s') (snd (status_specs cs a)).
Proof.
  revert s a. induction cs as [|c cs IH]; intros s a W A F; [by exists s|].
  inversion_clear F as [|? ? [Hf Ha] F'].
  destruct (status_run_simulated c s a Hf Ha W A) as (s1 & E & W1 & A1).
  cbn [status_runs status_specs]. rewrite (bind_run _ _ _ _ _ E).
  destruct (status_spec c a) as [v a1]. cbn [fst snd] in *.
  destruct (IH s1 a1 W1 A1) as (s2 & E2 & W2 & A2).
  { apply (Forall_impl _ _ _ F'). intros c' [Hf' Ha']. split; [done|].
    apply (adjustable_kept (status_run c) s v s1); [apply status_run_keeps|done..]. }
  rewrite (bind_run _ _ _ _ _ E2). destruct (status_specs cs a1) as [vs a2]. by exists s2.
Qed.

(** every state is described by one of [Clock] *)
Definition abstract_of (g : Gd.gptpclock_data) : gptpclock_data :=
  Gcd.mk (list_to_map (omap (fun d => (d,.) <$> master_of g d) (seqZ 0 256)))
    (Shm.active_domain (Gd.shm g)) (Gd.active_domain_switch g) (Shm.max_domains (Gd.shm g)) [].

Lemma abstract_of_abstracts g :
  0 <= Shm.active_domain (Gd.shm g) < 256 -> Gd.active_domain_switch g < 256 -> abstracts g (abstract_of g).
Proof.
  intros R1 R2. split; try done. intros d Hd. cbn.
  assert (forall l, NoDup l -> d ∈ l ->
    (list_to_map (omap (fun d => (d,.) <$> master_of g d) l) : gmap Z Clock0) !! d = master_of g d) as X.
  { induction l as [|i l IH]; intros ND El; [by inversion El|]. apply NoDup_cons in ND as [N ND].
    cbn. apply elem_of_cons in El as [<-|El].
    - destruct (master_of g d) as [c|] eqn:Ec; cbn; [by rewrite lookup_insert_eq|].
      apply not_elem_of_list_to_map_1. intros ([d1 c1] & -> & (e & He & Ie)%list_elem_of_omap)%list_elem_of_fmap.
      destruct (master_of g e); [|done]. cbn in Ie. injection Ie as <- <-. done.
    - assert (i <> d) by (intros ->; done).
      destruct (master_of g i); cbn; [rewrite lookup_insert_ne by done|]; by apply IH. }
  apply X; [apply NoDup_seqZ|]. apply elem_of_seqZ. lia.
Qed.
End Calls.

(** the master clock of the only domain: it becomes grandmaster, and its status is read back *)
Module StatusWitness.
Import VirtualDev ClockWitness.
#[local] Existing Instances conversions0 config0 dev.

Definition calls : list status_call :=
  [SetGm 0 (replicate 8 7) true; SetSync 0 2; GetSync 0; SetSync 0 0; GetSync 0].

Lemma status_witness : exists s', status_runs calls s0 = Some ([0; 0; 2; 0; 0], s') /\ wf (gcd s').
Proof.
  destruct (status_interface_implemented calls s0 (abstract_of (gcd s0)) wf_s0) as (s' & E & W & _).
  - by apply abstract_of_abstracts.
  - repeat constructor; try (by left); cbn; unfold fits; lia.
  - exists s'. split; [|exact W]. rewrite E. apply (f_equal (fun l => Some (l, s'))).
    vm_cast_no_check (eq_refl [0; 0; 2; 0; 0]).
Defined.
End StatusWitness.
