(* ===== verification/ClockSync.v ===== *)
(** * ClockSync: the machines between the Sync messages and the clocks.

    clock_slave_sync_sm.c (CSS, 10.2.13) turns the PortSyncSync of the slave port
    into the time of the grandmaster, clock_master_sync_receive_sm.c (CMSR,
    10.2.11) adjusts phase and rate of the domain's clocks to it,
    clock_master_sync_offset_sm.c (CMSO, 10.2.10) keeps phase and frequency
    changes, and clock_master_sync_send_sm.c (CMSS, 10.2.9) makes the
    PortSyncSync of a grandmaster from its own clock.

    Three of them use the clock entities: their evaluation is a step on the
    machine's data and the state of [Gptpclock] together, and a call that uses
    memory outside the clock arrays, or divides by a configured 0, is a [Crash]. *)

From stdpp Require Import gmap.
From Stdlib Require Import SpecFloat.
From S2P Require Import Prelude Types Floats Driver Common Clock Gptpclock.
#[local] Open Scope Z_scope.
#[local] Open Scope gptp_scope.

(** ** Steps on a machine and the clocks *)

Module Eff.
Section Eff.
Context `{DEV : PtpDev} {D : Type}.

Record clocked := mkc { sm : D; ck : GC.st }.

Definition P (A : Type) : Type := clocked -> option (A * clocked).
#[export] Instance P_ret : MRet P := fun A a s => Some (a, s).
#[export] Instance P_bind : MBind P := fun A B f m s =>
  match m s with Some (a, s') => f a s' | None => None end.

Definition rd : P D := fun s => Some (sm s, s).
Definition wr (f : D -> D) : P unit := fun s => Some (tt, mkc (f (sm s)) (ck s)).
(** a function of gptpclock.c *)
Definition gc {A} (m : GC.M A) : P A := fun s =>
  match m (ck s) with Some (a, c) => Some (a, mkc (sm s) c) | None => None end.
Definition crash {A} : P A := fun _ => None.

(** the body of a machine's switch *)
Definition step {R} (p : P (ctl R)) (s : clocked) : clocked * ctl R :=
  match p s with Some (c, s') => (s', c) | None => (s, Leave Crash) end.
End Eff.
#[global] Arguments clocked {DEV} D.
#[global] Arguments P {DEV} D A.
End Eff.
Export (hints) Eff.
Import Eff.

(** the items of the configuration the servo reads *)
Class ServoConfig := {
  CLOCK_COMPUTE_INTERVAL_MSEC : Z;
  PHASE_OFFSET_IIR_ALPHA_START_VALUE : Z;
  PHASE_OFFSET_IIR_ALPHA_STABLE_VALUE : Z;
  USE_HW_PHASE_ADJUSTMENT : Z;
  PHASE_OFFSET_ADJUST_BY_FREQ : Z;
  PHASE_ADJUSTMENT_BY_FREQ : Z;
  SKIP_FREQADJ_COUNT_MAX : Z;
  QUICK_SYNC_ALGO : Z;
  FREQ_OFFSET_STABLE_PPB : Z;
  FREQ_OFFSET_IIR_ALPHA_START_VALUE : Z;
  FREQ_OFFSET_IIR_ALPHA_STABLE_VALUE : Z;
  FREQ_OFFSET_TIMELEAP_MAX_JUMP_PPB : Z;
  FREQ_OFFSET_UPDATE_MRATE_PPB : Z;
  MAX_ADJUST_RATE_ON_CLOCK : Z
}.

(** ** ClockSlaveSync *)

Module CSSsm.

Record ClockSlaveSyncSM := mk {
  rcvdPSSync : bool;
  rcvdLocalClockTick : bool;
  rcvdPSSyncPtr : option PortSyncSync
}.
#[export] Instance eta_ClockSlaveSyncSM : Eta ClockSlaveSyncSM :=
  fields! mk [rcvdPSSync, rcvdLocalClockTick, rcvdPSSyncPtr].
#[export] Instance zero_ClockSlaveSyncSM : Zero ClockSlaveSyncSM := mk false false None.

End CSSsm.
Export (hints) CSSsm.

Module CSS.

Inductive clock_slave_sync_state_t := INIT | INITIALIZING | SEND_SYNC_INDICATION | REACTION.
#[export] Instance state_eqdec : EqDecision clock_slave_sync_state_t.
Proof. solve_decision. Defined.

Record clock_slave_sync_data := mk {
  ptasg : PerTimeAwareSystemGlobal;
  state : clock_slave_sync_state_t;
  last_state : clock_slave_sync_state_t;
  thisSM : CSSsm.ClockSlaveSyncSM;
  domainIndex : Z
}.
#[export] Instance eta_data : Eta clock_slave_sync_data :=
  fields! mk [ptasg, state, last_state, thisSM, domainIndex].
Abbreviation data := clock_slave_sync_data.

Section Procs.
Context `{DEV : PtpDev} `{CV : Conversions} `{CF : Config}.
(** [*RCVD_PSSYNC_PTR->local_ppg->forAllDomain], by the index of the port *)
Context (ports : Z -> PerPortGlobalForAllDomain).

Definition RCVD_PSSYNC (sm : data) : bool := CSSsm.rcvdPSSync (thisSM sm).
Definition RCVD_LOCAL_CLOCK_TICK (sm : data) : bool := CSSsm.rcvdLocalClockTick (thisSM sm).

Definition updateSlaveTime : P data unit :=
  sm ← rd;
  ts64 ← gc (GC.gptpclock_getts64 (PTASG.thisClockIndex (ptasg sm)) (PTASG.domainIndex (ptasg sm)));
  wr (fun sm => sm <| ptasg; PTASG.clockSlaveTime ::= fun t => t <| ExtTs.seconds; U48.lsb := u32 (Z.quot ts64 UB_SEC_NS) |> |>
                   <| ptasg; PTASG.clockSlaveTime ::= fun t => t <| ExtTs.fractionalNanoseconds; U48m32.msb := u32 (Z.rem ts64 UB_SEC_NS) |> |>).

Definition allstate_condition (sm : data) : clock_slave_sync_state_t :=
  if PTASG.BEGIN (ptasg sm) || negb (PTASG.instanceEnable (ptasg sm)) then INITIALIZING else state sm.

Definition initializing_proc (sm : data) : data := sm <| thisSM; CSSsm.rcvdPSSync := false |>.

Definition initializing_condition (sm : data) : clock_slave_sync_state_t :=
  if RCVD_PSSYNC sm || RCVD_LOCAL_CLOCK_TICK sm then SEND_SYNC_INDICATION else INITIALIZING.

(** the delay of the link on the clock of the grandmaster and on the local clock *)
Definition gm_delay (p : PortSyncSync) (l : PerPortGlobalForAllDomain) : double :=
  dadd (dmul (d_of_Z (UNs.nsec (PPGALL.neighborPropDelay l)))
             (ddiv (PSync.rateRatio p) (PPGALL.neighborRateRatio l)))
       (d_of_Z (UNs.nsec (PPGALL.delayAsymmetry l))).
Definition local_delay (p : PortSyncSync) (l : PerPortGlobalForAllDomain) : double :=
  dadd (ddiv (d_of_Z (UNs.nsec (PPGALL.neighborPropDelay l))) (PPGALL.neighborRateRatio l))
       (ddiv (d_of_Z (UNs.nsec (PPGALL.delayAsymmetry l))) (PSync.rateRatio p)).

(** [nsec += (uint64_t)delay], if the port is known *)
Definition plus_delay (delay : PortSyncSync -> PerPortGlobalForAllDomain -> double) (p : PortSyncSync) (nsec : Z) : Z :=
  match PSync.local_ppg p with
  | Some i => u64 (nsec + d_to_uint 64 (delay p (ports i)))
  | None => nsec
  end.

Definition origin_nsec (p : PortSyncSync) : Z :=
  let o := PSync.preciseOriginTimestamp p in
  u64 (u64 (U48.lsb (Tstamp.seconds o) * UB_SEC_NS) + Tstamp.nanoseconds o +
       u64 (SNs.nsec (PSync.followUpCorrectionField p))).

(** what the proc keeps of the Sync *)
Definition record_sync (p : PortSyncSync) (g : PerTimeAwareSystemGlobal) : PerTimeAwareSystemGlobal :=
  let nsec := plus_delay gm_delay p (origin_nsec p) in
  g <| PTASG.lastSyncSeqID := PSync.lastSyncSeqID p |>
     <| PTASG.syncReceiptTime ::= fun t => t <| ExtTs.seconds; U48.lsb := u32 (nsec / UB_SEC_NS) |> |>
     <| PTASG.syncReceiptTime ::= fun t => t <| ExtTs.fractionalNanoseconds; U48m32.msb := nsec mod UB_SEC_NS |> |>
     <| PTASG.syncReceiptLocalTime; UNs.nsec := plus_delay local_delay p (UNs.nsec (PSync.upstreamTxTime p)) |>
     <| PTASG.gmTimeBaseIndicator := PSync.gmTimeBaseIndicator p |>
     <| PTASG.lastGmPhaseChange := PSync.lastGmPhaseChange p |>
     <| PTASG.lastGmFreqChange := PSync.lastGmFreqChange p |>.

(** with static port roles the neighbor is taken for the grandmaster *)
Definition static_gm (p : PortSyncSync) : P data unit :=
  sm ← rd;
  let id := PortId.clockIdentity (PSync.sourcePortIdentity p) in
  if (0 <? STATIC_PORT_STATE_SLAVE_PORT) && negb (bool_decide (PTASG.gmIdentity (ptasg sm) = id)) then
    _ ← wr (fun sm => sm <| ptasg; PTASG.gmIdentity := id |>);
    _ ← gc (GC.gptpclock_set_gmchange (PTASG.domainIndex (ptasg sm)) id false);
    mret tt
  else mret tt.

(** the result points to syncReceiptTime *)
Definition send_sync_indication_proc : P data (option ExtendedTimestamp) :=
  sm ← rd;
  smret ← (if RCVD_PSSYNC sm then
             match CSSsm.rcvdPSSyncPtr (thisSM sm) with
             | None => crash
             | Some p =>
                 if negb (PSync.localPortIndex p =? 0) then
                   _ ← wr (fun sm => sm <| ptasg ::= record_sync p |>);
                   _ ← static_gm p;
                   sm ← rd;
                   mret (Some (PTASG.syncReceiptTime (ptasg sm)))
                 else mret None
             end
           else mret None);
  _ ← (if RCVD_LOCAL_CLOCK_TICK sm then updateSlaveTime else mret tt);
  _ ← wr (fun sm => sm <| thisSM; CSSsm.rcvdPSSync := false |> <| thisSM; CSSsm.rcvdLocalClockTick := false |>);
  mret smret.

Definition send_sync_indication_condition (sm : data) : data * clock_slave_sync_state_t :=
  (if RCVD_PSSYNC sm || RCVD_LOCAL_CLOCK_TICK sm then sm <| last_state := REACTION |> else sm, SEND_SYNC_INDICATION).

Definition set_state (cond : data -> data * clock_slave_sync_state_t) : P data unit :=
  wr (fun sm => let (sm, st) := cond sm in sm <| state := st |>).

Definition switch (state_change : bool) : P data (ctl ExtendedTimestamp) :=
  sm ← rd;
  match state sm with
  | INIT => _ ← set_state (fun sm => (sm, INITIALIZING)); mret Next
  | INITIALIZING =>
      _ ← (if state_change then wr initializing_proc else mret tt);
      _ ← set_state (fun sm => (sm, initializing_condition sm)); mret Next
  | SEND_SYNC_INDICATION =>
      retp ← (if state_change then send_sync_indication_proc else mret None);
      _ ← set_state send_sync_indication_condition; mret (ret_if retp)
  | REACTION => mret Next
  end.

Definition set_last (e : clock_slave_sync_state_t) (s : clocked data) : clocked data :=
  mkc (sm s <| last_state := e |>) (ck s).
Definition set_allstate (s : clocked data) : clocked data :=
  mkc (sm s <| state := allstate_condition (sm s) |>) (ck s).

Definition machine : StateMachine (clocked data) clock_slave_sync_state_t ExtendedTimestamp := {|
  sm_state s := state (sm s);
  sm_last s := last_state (sm s);
  sm_set_last := set_last;
  sm_allstate := set_allstate;
  sm_switch b := step (switch b);
  sm_state_set_last := fun _ _ => eq_refl;
  sm_last_set_last := fun _ _ => eq_refl
|}.

Definition fuel : nat := 6.

Definition clock_slave_sync_sm (s : clocked data) : clocked data * outcome ExtendedTimestamp :=
  exec (M := machine) fuel s.

Definition clock_slave_sync_sm_init (domainIndex : Z) (ptasg : PerTimeAwareSystemGlobal) : data :=
  mk ptasg INIT INIT zero domainIndex.

Definition clock_slave_sync_sm_loclClockUpdate (s : clocked data) : clocked data * outcome ExtendedTimestamp :=
  clock_slave_sync_sm (mkc (sm s <| thisSM; CSSsm.rcvdLocalClockTick := true |>) (ck s)).

Definition clock_slave_sync_sm_portSyncSync (p : PortSyncSync) (s : clocked data)
  : clocked data * outcome ExtendedTimestamp :=
  clock_slave_sync_sm (mkc (sm s <| thisSM; CSSsm.rcvdPSSync := true |>
                                 <| thisSM; CSSsm.rcvdPSSyncPtr := Some p |>) (ck s)).
End Procs.
End CSS.
Export (hints) CSS.

(** ** ClockMasterSyncSend *)

Module CMSSsm.

Record ClockMasterSyncSendSM := mk { syncSendTime : UScaledNs; txPSSyncPtr : option PortSyncSync }.
#[export] Instance eta_ClockMasterSyncSendSM : Eta ClockMasterSyncSendSM :=
  fields! mk [syncSendTime, txPSSyncPtr].
#[export] Instance zero_ClockMasterSyncSendSM : Zero ClockMasterSyncSendSM := mk zero None.

End CMSSsm.
Export (hints) CMSSsm.

Module CMSS.

Inductive clock_master_sync_send_state_t := INIT | INITIALIZING | SEND_SYNC_INDICATION | REACTION.
#[export] Instance state_eqdec : EqDecision clock_master_sync_send_state_t.
Proof. solve_decision. Defined.

Record clock_master_sync_send_data := mk {
  ptasg : PerTimeAwareSystemGlobal;
  state : clock_master_sync_send_state_t;
  last_state : clock_master_sync_send_state_t;
  thisSM : CMSSsm.ClockMasterSyncSendSM;
  domainIndex : Z;
  portSyncSync : PortSyncSync
}.
#[export] Instance eta_data : Eta clock_master_sync_send_data :=
  fields! mk [ptasg, state, last_state, thisSM, domainIndex, portSyncSync].
Abbreviation data := clock_master_sync_send_data.

Section Procs.
Context `{DEV : PtpDev} `{CV : Conversions}.

Definition SYNC_SEND_TIME (sm : data) : Z := UNs.nsec (CMSSsm.syncSendTime (thisSM sm)).

(** the PortSyncSync: [tx] thisClock's time, [ts] the same time on the master clock *)
Definition psync_of (g : PerTimeAwareSystemGlobal) (tx ts : Z) (p : PortSyncSync) : PortSyncSync :=
  p <| PSync.localPortIndex := 0 |>
    <| PSync.local_ppg := None |>
    <| PSync.domainIndex := PTASG.domainIndex g |>
    <| PSync.upstreamTxTime; UNs.nsec := u64 tx |>
    <| PSync.preciseOriginTimestamp; Tstamp.seconds; U48.lsb := u32 (Z.quot ts UB_SEC_NS) |>
    <| PSync.preciseOriginTimestamp; Tstamp.nanoseconds := u32 (Z.rem ts UB_SEC_NS) |>
    <| PSync.followUpCorrectionField; SNs.subns := 0 |>
    <| PSync.sourcePortIdentity; PortId.clockIdentity := PTASG.thisClock g |>
    <| PSync.sourcePortIdentity; PortId.portIndex := 0 |>
    <| PSync.logMessageInterval := PTASG.clockMasterLogSyncInterval g |>
    <| PSync.syncReceiptTimeoutTime; UNs.nsec := u64 (-1) |>
    <| PSync.rateRatio := PTASG.gmRateRatio g |>
    <| PSync.gmTimeBaseIndicator := PTASG.clockSourceTimeBaseIndicator g |>
    <| PSync.lastGmPhaseChange := PTASG.clockSourceLastGmPhaseChange g |>
    <| PSync.lastGmFreqChange := PTASG.clockSourceLastGmFreqChange g |>
    <| PSync.syncNextSendTimeoutTime; UNs.nsec := u64 (-1) |>.

Definition setPSSyncCMSS : P data PortSyncSync :=
  sm ← rd;
  let g := ptasg sm in
  tx ← gc (GC.gptpclock_getts64 (PTASG.thisClockIndex g) (PTASG.domainIndex g));
  r ← gc (GC.gptpclock_apply_offset tx 0 (PTASG.domainIndex g));
  _ ← wr (fun sm => sm <| portSyncSync ::= psync_of g tx (snd r) |>);
  sm ← rd;
  mret (portSyncSync sm).

Definition allstate_condition (sm : data) : clock_master_sync_send_state_t :=
  if PTASG.BEGIN (ptasg sm) || negb (PTASG.instanceEnable (ptasg sm)) then INITIALIZING else state sm.

Definition initializing_proc (cts64 : Z) (sm : data) : data :=
  sm <| thisSM; CMSSsm.syncSendTime; UNs.nsec := u64 (cts64 + UNs.nsec (PTASG.clockMasterSyncInterval (ptasg sm))) |>.

Definition initializing_condition (cts64 : Z) (sm : data) : clock_master_sync_send_state_t :=
  if SYNC_SEND_TIME sm <=? cts64 then SEND_SYNC_INDICATION else INITIALIZING.

Definition send_sync_indication_proc (cts64 : Z) : P data PortSyncSync :=
  _ ← wr (initializing_proc cts64);
  setPSSyncCMSS.

Definition send_sync_indication_condition (cts64 : Z) (sm : data) : data * clock_master_sync_send_state_t :=
  (if SYNC_SEND_TIME sm <=? cts64 then sm <| last_state := REACTION |> else sm, SEND_SYNC_INDICATION).

Definition set_state (cond : data -> data * clock_master_sync_send_state_t) : P data unit :=
  wr (fun sm => let (sm, st) := cond sm in sm <| state := st |>).

Definition switch (cts64 : Z) (state_change : bool) : P data (ctl PortSyncSync) :=
  sm ← rd;
  match state sm with
  | INIT => _ ← set_state (fun sm => (sm, INITIALIZING)); mret Next
  | INITIALIZING =>
      _ ← (if state_change then wr (initializing_proc cts64) else mret tt);
      _ ← set_state (fun sm => (sm, initializing_condition cts64 sm)); mret Next
  | SEND_SYNC_INDICATION =>
      if state_change then
        retp ← send_sync_indication_proc cts64; mret (ret_if (Some retp))
      else
        _ ← set_state (send_sync_indication_condition cts64); mret Next
  | REACTION => mret Next
  end.

Definition set_last (e : clock_master_sync_send_state_t) (s : clocked data) : clocked data :=
  mkc (sm s <| last_state := e |>) (ck s).
Definition set_allstate (s : clocked data) : clocked data :=
  mkc (sm s <| state := allstate_condition (sm s) |>) (ck s).

Definition machine (cts64 : Z) : StateMachine (clocked data) clock_master_sync_send_state_t PortSyncSync := {|
  sm_state s := state (sm s);
  sm_last s := last_state (sm s);
  sm_set_last := set_last;
  sm_allstate := set_allstate;
  sm_switch b := step (switch cts64 b);
  sm_state_set_last := fun _ _ => eq_refl;
  sm_last_set_last := fun _ _ => eq_refl
|}.

Definition fuel : nat := 6.

Definition clock_master_sync_send_sm (cts64 : Z) (s : clocked data) : clocked data * outcome PortSyncSync :=
  exec (M := machine cts64) fuel s.

Definition clock_master_sync_send_sm_init (domainIndex : Z) (ptasg : PerTimeAwareSystemGlobal) : data :=
  mk ptasg INIT INIT zero domainIndex zero.
End Procs.
End CMSS.
Export (hints) CMSS.

(** ** ClockMasterSyncOffset *)

Module CMSOsm.

Record ClockMasterSyncOffsetSM := mk { rcvdSyncReceiptTime : bool }.
#[export] Instance eta_ClockMasterSyncOffsetSM : Eta ClockMasterSyncOffsetSM := fields! mk [rcvdSyncReceiptTime].
#[export] Instance zero_ClockMasterSyncOffsetSM : Zero ClockMasterSyncOffsetSM := mk false.

End CMSOsm.
Export (hints) CMSOsm.

Module CMSO.

Inductive clock_master_sync_offset_state_t := INIT | INITIALIZING | SEND_SYNC_INDICATION | REACTION.
#[export] Instance state_eqdec : EqDecision clock_master_sync_offset_state_t.
Proof. solve_decision. Defined.

Record clock_master_sync_offset_data := mk {
  ptasg : PerTimeAwareSystemGlobal;
  state : clock_master_sync_offset_state_t;
  last_state : clock_master_sync_offset_state_t;
  thisSM : CMSOsm.ClockMasterSyncOffsetSM;
  domainIndex : Z
}.
#[export] Instance eta_data : Eta clock_master_sync_offset_data :=
  fields! mk [ptasg, state, last_state, thisSM, domainIndex].
Abbreviation data := clock_master_sync_offset_data.

Definition RCVD_SYNC_RECEIPT_TIME (sm : data) : bool := CMSOsm.rcvdSyncReceiptTime (thisSM sm).

Definition allstate_condition (sm : data) : clock_master_sync_offset_state_t :=
  if PTASG.BEGIN (ptasg sm) || negb (PTASG.instanceEnable (ptasg sm)) then INITIALIZING else state sm.

Definition initializing_proc (sm : data) : data := sm <| thisSM; CMSOsm.rcvdSyncReceiptTime := false |>.

Definition initializing_condition (sm : data) : clock_master_sync_offset_state_t :=
  if RCVD_SYNC_RECEIPT_TIME sm then SEND_SYNC_INDICATION else INITIALIZING.

(** the computation for a passive port is commented out in the source *)
Definition send_sync_indication_proc (sm : data) : data :=
  let sm := sm <| thisSM; CMSOsm.rcvdSyncReceiptTime := false |> in
  if aget 0 (PTASG.selectedState (ptasg sm)) 0 =? PassivePort then sm
  else if negb (PTASG.clockSourceTimeBaseIndicator (ptasg sm) =? PTASG.clockSourceTimeBaseIndicatorOld (ptasg sm)) then
    sm <| ptasg; PTASG.clockSourcePhaseOffset := PTASG.clockSourceLastGmPhaseChange (ptasg sm) |>
       <| ptasg; PTASG.clockSourceFreqOffset := PTASG.clockSourceLastGmFreqChange (ptasg sm) |>
  else sm.

Definition send_sync_indication_condition (sm : data) : data * clock_master_sync_offset_state_t :=
  (if RCVD_SYNC_RECEIPT_TIME sm then sm <| last_state := REACTION |> else sm, SEND_SYNC_INDICATION).

Definition switch (state_change : bool) (sm : data) : data * ctl unit :=
  match state sm with
  | INIT => (sm <| state := INITIALIZING |>, Next)
  | INITIALIZING =>
      if state_change then (initializing_proc sm, Next)
      else (sm <| state := initializing_condition sm |>, Next)
  | SEND_SYNC_INDICATION =>
      let sm := if state_change then send_sync_indication_proc sm else sm in
      let (sm, st) := send_sync_indication_condition sm in
      (sm <| state := st |>, Next)
  | REACTION => (sm, Next)
  end.

Definition set_last (e : clock_master_sync_offset_state_t) (sm : data) : data := sm <| last_state := e |>.
Definition set_allstate (sm : data) : data := sm <| state := allstate_condition sm |>.

Definition machine : StateMachine data clock_master_sync_offset_state_t unit := {|
  sm_state := state;
  sm_last := last_state;
  sm_set_last := set_last;
  sm_allstate := set_allstate;
  sm_switch := switch;
  sm_state_set_last := fun _ _ => eq_refl;
  sm_last_set_last := fun _ _ => eq_refl
|}.

Definition fuel : nat := 6.

Definition clock_master_sync_offset_sm (sm : data) : data * outcome unit := exec (M := machine) fuel sm.

Definition clock_master_sync_offset_sm_init (domainIndex : Z) (ptasg : PerTimeAwareSystemGlobal) : data :=
  mk ptasg INIT INIT zero domainIndex.

Definition clock_master_sync_offset_sm_SyncReceiptTime (sm : data) : data * outcome unit :=
  clock_master_sync_offset_sm
    (sm <| thisSM; CMSOsm.rcvdSyncReceiptTime := true |> <| last_state := REACTION |>).
End CMSO.
Export (hints) CMSO.

(** ** ClockMasterSyncReceive *)

Module CMSRsm.

(** rcvdClockSourceReqPtr is not used *)
Record ClockMasterSyncReceiveSM := mk { rcvdClockSourceReq : bool; rcvdLocalClockTick : bool }.
#[export] Instance eta_ClockMasterSyncReceiveSM : Eta ClockMasterSyncReceiveSM :=
  fields! mk [rcvdClockSourceReq, rcvdLocalClockTick].
#[export] Instance zero_ClockMasterSyncReceiveSM : Zero ClockMasterSyncReceiveSM := mk false false.

End CMSRsm.
Export (hints) CMSRsm.

Module CMSR.

Inductive clock_master_sync_receive_state_t := INIT | INITIALIZING | WAITING | RECEIVE_SOURCE_TIME | REACTION.
#[export] Instance state_eqdec : EqDecision clock_master_sync_receive_state_t.
Proof. solve_decision. Defined.

Definition OFFSET_NOT_ADJ : Z := -1.
Definition OFFSET_START_ADJ : Z := 0.
Definition OFFSET_UNSTABLE_ADJ : Z := 1.
Definition OFFSET_STABLE_ADJ : Z := 2.

Definition CMSR_TOO_BIG_PASSTIME_GAP : Z := 100000000.
Definition FREQ_OFFSET_STABLE_TRNS : Z := 3.
Definition PHASE_OFFSET_STABLE_TRNS : Z := 3.
Definition PHASE_NEWGM_CRITERION : Z := 1000000.
Definition PHASE_STABLE_CRITERION : Z := 10000.
Definition PHASE_UNSTABLE_CRITERION : Z := 30000.
Definition SET_PHASE_OFFSETGM_NOOP_RETURN : Z := -99999999.
Definition UB_MSEC_NS : Z := 1000000.

Record clock_master_sync_receive_data := mk {
  ptasg : PerTimeAwareSystemGlobal;
  state : clock_master_sync_receive_state_t;
  last_state : clock_master_sync_receive_state_t;
  thisSM : CMSRsm.ClockMasterSyncReceiveSM;
  domainIndex : Z;
  mrate : double;
  last_lts : Z;
  last_mts : Z;
  gmadjppb : Z;
  alpha : double;
  rate_stable_count : Z;
  rate_is_stable : bool;
  offsetGM : Z;
  offsetGM_stable_count : Z;
  offsetGM_stable : Z;
  gmchange_ind : Z;
  skip_freqadj : Z
}.
#[export] Instance eta_data : Eta clock_master_sync_receive_data :=
  fields! mk [ptasg, state, last_state, thisSM, domainIndex, mrate, last_lts, last_mts, gmadjppb, alpha,
              rate_stable_count, rate_is_stable, offsetGM, offsetGM_stable_count, offsetGM_stable,
              gmchange_ind, skip_freqadj].
Abbreviation data := clock_master_sync_receive_data.

Section Procs.
Context `{DEV : PtpDev} `{CV : Conversions} `{CF : Config} `{SC : ServoConfig}.

Definition RCVD_CLOCK_SOURCE_REQ (sm : data) : bool := CMSRsm.rcvdClockSourceReq (thisSM sm).
Definition RCVD_LOCAL_CLOCK_TICK (sm : data) : bool := CMSRsm.rcvdLocalClockTick (thisSM sm).
Definition domain (sm : data) : Z := PTASG.domainIndex (ptasg sm).

(** the grandmaster is the one the offset got stable with *)
Definition same_gm : P data bool :=
  sm ← rd;
  if negb (gmchange_ind sm =? 0) then
    ind ← gc (GC.gptpclock_get_gmchange_ind (domain sm));
    mret (gmchange_ind sm =? ind)
  else mret false.

(** true: the first big jump, which is left out *)
Definition big_jump : P data bool :=
  same ← same_gm;
  sm ← rd;
  if same && (OFFSET_START_ADJ <=? offsetGM_stable sm) then
    _ ← wr (fun sm => sm <| offsetGM_stable := OFFSET_NOT_ADJ |>); mret true
  else
    _ ← wr (fun sm => sm <| offsetGM_stable := OFFSET_START_ADJ |>); mret false.

(** [(dts/alpha) + (alpha-1) * (sm->offsetGM / alpha)] *)
Definition filter_offset (alpha dts old : Z) : P data Z :=
  if alpha =? 0 then crash
  else mret (i64 (i64 (Z.quot dts alpha) + i64 (i32 (alpha - 1) * i64 (Z.quot old alpha)))).

Definition start_offset (sm : data) : data :=
  sm <| offsetGM_stable := OFFSET_UNSTABLE_ADJ |> <| offsetGM_stable_count := 0 |>.

(** the offset counts as stable after enough small changes *)
Definition count_stable (dofg : Z) : P data unit :=
  if dofg <? PHASE_STABLE_CRITERION then
    _ ← wr (fun sm => sm <| offsetGM_stable_count ::= fun n => i32 (n + 1) |>);
    sm ← rd;
    if PHASE_OFFSET_STABLE_TRNS <=? offsetGM_stable_count sm then
      ind ← gc (GC.gptpclock_get_gmchange_ind (domain sm));
      wr (fun sm => sm <| offsetGM_stable := OFFSET_STABLE_ADJ |> <| gmchange_ind := ind |>
                       <| offsetGM_stable_count := 0 |>)
    else mret tt
  else wr (fun sm => sm <| offsetGM_stable_count := 0 |>).

(** the switch on offsetGM_stable: the new offset; None: the function returns 0 *)
Definition next_offset (dts dofg : Z) : P data (option Z) :=
  sm ← rd;
  if (offsetGM_stable sm =? OFFSET_NOT_ADJ) || (offsetGM_stable sm =? OFFSET_START_ADJ) then
    _ ← wr start_offset; mret (Some dts)
  else if offsetGM_stable sm =? OFFSET_UNSTABLE_ADJ then
    o ← filter_offset PHASE_OFFSET_IIR_ALPHA_START_VALUE dts (offsetGM sm);
    _ ← count_stable dofg;
    mret (Some o)
  else if offsetGM_stable sm =? OFFSET_STABLE_ADJ then
    ind ← gc (GC.gptpclock_get_gmchange_ind (domain sm));
    if negb (gmchange_ind sm =? ind) then
      _ ← wr (fun sm => sm <| offsetGM_stable := OFFSET_START_ADJ |>); mret None
    else
      o ← filter_offset PHASE_OFFSET_IIR_ALPHA_STABLE_VALUE dts (offsetGM sm);
      _ ← (if PHASE_UNSTABLE_CRITERION <? dofg then
             wr (fun sm => sm <| offsetGM_stable := OFFSET_UNSTABLE_ADJ |>) else mret tt);
      mret (Some o)
  else mret (Some 0).

Definition hw_phase (sm : data) : bool := negb (USE_HW_PHASE_ADJUSTMENT =? 0) && (domain sm =? 0).

(** the offset goes to the rate, if it is small and so configured, or to the clock *)
Definition adjust_offset (offset : Z) : P data Z :=
  sm ← rd;
  let od := i64 (offset - offsetGM sm) in
  if (Z.abs od <? PHASE_OFFSET_ADJUST_BY_FREQ) && negb (PHASE_ADJUSTMENT_BY_FREQ =? 0) then mret (i32 od)
  else
    let padj_clockindex := if hw_phase sm then PTASG.thisClockIndex (ptasg sm) else 0 in
    _ ← gc (GC.gptpclock_setoffset64 offset padj_clockindex (domain sm));
    _ ← wr (fun sm => if hw_phase sm then sm <| offsetGM := 0 |> <| skip_freqadj := SKIP_FREQADJ_COUNT_MAX |>
                      else sm <| offsetGM := offset |>);
    mret 0.

Definition set_phase_offsetGM (dts dlts : Z) : P data Z :=
  sm ← rd;
  let dofg := Z.abs (i64 (dts - offsetGM sm)) in
  out ← (if PHASE_NEWGM_CRITERION <=? dofg then big_jump else mret false);
  if (out : bool) then mret 0
  else
    sm ← rd;
    if (0 <? dlts) && (dlts <? i32 (CLOCK_COMPUTE_INTERVAL_MSEC * UB_MSEC_NS)) &&
       (OFFSET_START_ADJ <? offsetGM_stable sm)
    then mret SET_PHASE_OFFSETGM_NOOP_RETURN
    else
      o ← next_offset dts dofg;
      match o with Some offset => adjust_offset offset | None => mret 0 end.

(** no Sync, or the same again *)
Definition reset_rate (sm : data) : data :=
  sm <| rate_stable_count := 0 |> <| rate_is_stable := false |> <| offsetGM_stable := OFFSET_START_ADJ |>
     <| offsetGM_stable_count := 0 |> <| skip_freqadj := 1 |>.

(** the filtered rate of the grandmaster, and its deviation in ppb *)
Definition filtered_rate (dmts dlts : Z) (sm : data) : double :=
  dadd (dmul (alpha sm) (ddiv (d_of_Z dmts) (d_of_Z dlts))) (dmul (dsub d1 (alpha sm)) (mrate sm)).
Definition rate_ppb (nrate : double) : Z := d_to_int 32 (dmul (dsub nrate d1) (d_of_Z 1000000000)).

Definition inverse (n : Z) : double := ddiv d1 (d_of_Z n).

(** the stability of the rate *)
Definition judge_rate (ppb : Z) (sm : data) : data :=
  if negb (rate_is_stable sm) then
    if Z.abs ppb <? FREQ_OFFSET_STABLE_PPB then
      let sm := sm <| rate_stable_count ::= fun n => i32 (n + 1) |> in
      if FREQ_OFFSET_STABLE_TRNS <=? rate_stable_count sm then
        sm <| rate_is_stable := true |> <| alpha := inverse FREQ_OFFSET_IIR_ALPHA_STABLE_VALUE |>
      else sm
    else sm <| rate_stable_count := 0 |>
  else if FREQ_OFFSET_TIMELEAP_MAX_JUMP_PPB <? Z.abs ppb then
    sm <| rate_stable_count := 0 |> <| rate_is_stable := false |>
       <| alpha := inverse FREQ_OFFSET_IIR_ALPHA_START_VALUE |>
  else sm.

Definition limit (maxadj ppb : Z) : Z :=
  if maxadj <? ppb then maxadj else if ppb <? - maxadj then - maxadj else ppb.

Definition adjust_rate (ppb : Z) : P data unit :=
  if FREQ_OFFSET_UPDATE_MRATE_PPB <? Z.abs ppb then
    _ ← wr (fun sm => sm <| gmadjppb ::= fun g => limit MAX_ADJUST_RATE_ON_CLOCK (i32 (g + ppb)) |>);
    sm ← rd;
    _ ← gc (GC.gptpclock_setadj (gmadjppb sm) (PTASG.thisClockIndex (ptasg sm)) (domain sm));
    wr (fun sm => sm <| mrate := d1 |> <| ptasg; PTASG.gmRateRatio := d1 |>)
  else mret tt.

(** the rate, unless the times passed differ too much or it is skipped *)
Definition compute_rate (offset_comp dmts dlts : Z) : P data Z :=
  sm ← rd;
  if CMSR_TOO_BIG_PASSTIME_GAP <? Z.abs (i64 (dmts - dlts)) then mret (-1)
  else if 0 <? skip_freqadj sm then
    _ ← wr (fun sm => sm <| skip_freqadj ::= fun n => n - 1 |>); mret (-1)
  else
    let ppb := rate_ppb (filtered_rate dmts dlts sm) in
    _ ← wr (judge_rate ppb);
    _ ← adjust_rate (i32 (ppb + offset_comp));
    mret 0.

Definition computeGmRateRatio (lts mts : Z) : P data Z :=
  sm ← rd;
  let dlts := i64 (lts - last_lts sm) in
  let dmts := i64 (mts - last_mts sm) in
  if (dmts =? 0) || (dlts =? 0) || (mts =? 0) || (lts =? 0) then _ ← wr reset_rate; mret (-1)
  else
    let dts := i64 (mts - lts) in
    offset_comp ← (if (QUICK_SYNC_ALGO =? 0) || rate_is_stable sm then set_phase_offsetGM dts dlts else mret 0);
    if offset_comp =? SET_PHASE_OFFSETGM_NOOP_RETURN then mret (-1)
    else
      _ ← wr (fun sm => sm <| last_lts := lts |> <| last_mts := mts |>);
      compute_rate offset_comp dmts dlts.

Definition allstate_condition (sm : data) : clock_master_sync_receive_state_t :=
  if PTASG.BEGIN (ptasg sm) || negb (PTASG.instanceEnable (ptasg sm)) then INITIALIZING else state sm.

Definition initializing_proc (sm : data) : data :=
  sm <| ptasg; PTASG.clockSourceTimeBaseIndicatorOld := 0 |> <| mrate := d1 |>
     <| alpha := inverse FREQ_OFFSET_IIR_ALPHA_START_VALUE |> <| last_lts := 0 |> <| last_mts := 0 |>
     <| offsetGM := 0 |> <| rate_stable_count := 0 |> <| rate_is_stable := false |>
     <| offsetGM_stable_count := 0 |> <| skip_freqadj := 0 |>
     <| thisSM; CMSRsm.rcvdClockSourceReq := false |> <| thisSM; CMSRsm.rcvdLocalClockTick := false |>.

Definition waiting_condition (sm : data) : clock_master_sync_receive_state_t :=
  if RCVD_CLOCK_SOURCE_REQ sm || RCVD_LOCAL_CLOCK_TICK sm then RECEIVE_SOURCE_TIME else WAITING.

Definition gm_time (g : PerTimeAwareSystemGlobal) : Z :=
  u64 (u64 (U48.lsb (ExtTs.seconds (PTASG.syncReceiptTime g)) * UB_SEC_NS) +
       U48m32.msb (ExtTs.fractionalNanoseconds (PTASG.syncReceiptTime g))).

Definition record_source (sm : data) : data :=
  sm <| ptasg; PTASG.clockSourceTimeBaseIndicatorOld := PTASG.clockSourceTimeBaseIndicator (ptasg sm) |>
     <| ptasg; PTASG.clockSourceTimeBaseIndicator := PTASG.gmTimeBaseIndicator (ptasg sm) |>
     <| ptasg; PTASG.clockSourceLastGmPhaseChange := PTASG.lastGmPhaseChange (ptasg sm) |>
     <| ptasg; PTASG.clockSourceLastGmFreqChange := PTASG.lastGmFreqChange (ptasg sm) |>.

Definition update_gmsync : P data unit :=
  sm ← rd;
  status ← gc (GC.gptpclock_get_gmsync (domain sm));
  if status =? GMSYNC_UNSYNC then _ ← gc (GC.gptpclock_set_gmsync (domain sm) GMSYNC_SYNC); mret tt
  else if rate_is_stable sm && (offsetGM_stable sm =? OFFSET_STABLE_ADJ) then
    _ ← gc (GC.gptpclock_set_gmsync (domain sm) GMSYNC_SYNC_STABLE); mret tt
  else mret tt.

Definition receive_source_time_proc : P data unit :=
  sm ← rd;
  _ ← (if RCVD_CLOCK_SOURCE_REQ sm then
         _ ← computeGmRateRatio (UNs.nsec (PTASG.syncReceiptLocalTime (ptasg sm))) (gm_time (ptasg sm));
         _ ← wr record_source;
         update_gmsync
       else mret tt);
  wr (fun sm => sm <| thisSM; CMSRsm.rcvdClockSourceReq := false |> <| thisSM; CMSRsm.rcvdLocalClockTick := false |>).

Definition set_state (cond : data -> clock_master_sync_receive_state_t) : P data unit :=
  wr (fun sm => sm <| state := cond sm |>).

Definition switch (state_change : bool) : P data (ctl unit) :=
  sm ← rd;
  match state sm with
  | INIT => _ ← set_state (fun _ => INITIALIZING); mret Next
  | INITIALIZING =>
      _ ← (if state_change then wr initializing_proc else mret tt);
      _ ← set_state (fun _ => WAITING); mret Next
  | WAITING => _ ← set_state waiting_condition; mret Next
  | RECEIVE_SOURCE_TIME =>
      _ ← (if state_change then receive_source_time_proc else mret tt);
      _ ← set_state (fun _ => WAITING); mret Next
  | REACTION => mret Next
  end.

Definition set_last (e : clock_master_sync_receive_state_t) (s : clocked data) : clocked data :=
  mkc (sm s <| last_state := e |>) (ck s).
Definition set_allstate (s : clocked data) : clocked data :=
  mkc (sm s <| state := allstate_condition (sm s) |>) (ck s).

Definition machine : StateMachine (clocked data) clock_master_sync_receive_state_t unit := {|
  sm_state s := state (sm s);
  sm_last s := last_state (sm s);
  sm_set_last := set_last;
  sm_allstate := set_allstate;
  sm_switch b := step (switch b);
  sm_state_set_last := fun _ _ => eq_refl;
  sm_last_set_last := fun _ _ => eq_refl
|}.

Definition fuel : nat := 8.

Definition clock_master_sync_receive_sm (s : clocked data) : clocked data * outcome unit :=
  exec (M := machine) fuel s.

(** INIT_SM_DATA clears the data, and the machine is evaluated once *)
Definition clock_master_sync_receive_sm_init (domainIndex : Z) (ptasg : PerTimeAwareSystemGlobal) (c : GC.st)
  : clocked data * outcome unit :=
  clock_master_sync_receive_sm (mkc (mk ptasg INIT INIT zero domainIndex d0 0 0 0 d0 0 false 0 0 0 0 0) c).

Definition clock_master_sync_receive_sm_ClockSourceReq (s : clocked data) : clocked data * outcome unit :=
  clock_master_sync_receive_sm
    (mkc (sm s <| thisSM; CMSRsm.rcvdClockSourceReq := true |> <| last_state := REACTION |>) (ck s)).
End Procs.
End CMSR.
Export (hints) CMSR.
