(* ===== verification/ClockSyncFacts.v ===== *)
(** * ClockSyncFacts: the clock master and clock slave machines end, use no
    memory they do not own, and keep the rate of the clock within its limit.

    Rules for steps on a machine and the clocks ([Eff.P]) are first: inversion of
    a sequence, what every step keeps, and when a step is defined. *)

From Stdlib Require Import SpecFloat.
From S2P Require Import Prelude Types Floats Driver Common Clock Gptpclock GptpclockFacts ClockSync.
From stdpp Require Import list.
Import Eff.
#[local] Open Scope Z_scope.
#[local] Open Scope gptp_scope.

(** ** Rules *)

Section Rules.
Context `{DEV : PtpDev} {D : Type}.

Lemma pbind_run {A B} (m : P D A) (f : A -> P D B) s a s' :
  m s = Some (a, s') -> (m ≫= f) s = f a s'.
Proof. intros E. unfold mbind, P_bind. by rewrite E. Qed.

Lemma pbind_inv {A B} (m : P D A) (f : A -> P D B) s b s' :
  (m ≫= f) s = Some (b, s') -> exists a s1, m s = Some (a, s1) /\ f a s1 = Some (b, s').
Proof. unfold mbind, P_bind. destruct (m s) as [[a s1]|]; [|done]. by exists a, s1. Qed.

Lemma step_next {R} (p : P D (ctl R)) s s' : step p s = (s', Next) -> p s = Some (Next, s').
Proof. unfold step. destruct (p s) as [[c s1]|]; [|done]. by intros [= -> ->]. Qed.

(** what holds of machine and clocks before a step holds after it *)
Definition keeps (I : clocked D -> Prop) {A} (m : P D A) : Prop := forall s a s',
  I s -> m s = Some (a, s') -> I s'.

Lemma keeps_ret I {A} (a : A) : keeps I (mret a).
Proof. by intros s b s' H [= _ <-]. Qed.
Lemma keeps_rd I : keeps I rd.
Proof. by intros s b s' H [= _ <-]. Qed.
Lemma keeps_crash I {A} : keeps I (crash (A := A)).
Proof. done. Qed.
Lemma pkeeps_bind I {A B} (m : P D A) (f : A -> P D B) : keeps I m -> (forall a, keeps I (f a)) -> keeps I (m ≫= f).
Proof. intros Hm Hf s b s' H E. destruct (pbind_inv _ _ _ _ _ E) as (a & s1 & E1 & E2). exact (Hf a _ _ _ (Hm _ _ _ H E1) E2). Qed.
Lemma keeps_wr (I : clocked D -> Prop) f : (forall s, I s -> I (mkc (f (sm s)) (ck s))) -> keeps I (wr f).
Proof. intros F s a s' H [= _ <-]. by apply F. Qed.

(** ... a function of gptpclock.c keeps what only the machine's data decide *)
Lemma keeps_gc (I : clocked D -> Prop) {A} (m : GC.M A) :
  (forall s c, I s -> I (mkc (sm s) c)) -> keeps I (gc m).
Proof. intros F s a s' H E. unfold gc in E. destruct (m (ck s)) as [[b c]|]; [|done]. injection E as _ <-. by apply F. Qed.

(** the step is defined on clocks of this shape, and leaves clocks of this shape *)
Definition safe (sh : Sh.shape) {A} (m : P D A) : Prop := forall s,
  shape (GC.gcd (ck s)) = sh -> exists a s', m s = Some (a, s') /\ shape (GC.gcd (ck s')) = sh.

Lemma safe_ret sh {A} (a : A) : safe sh (mret a).
Proof. intros s H. by exists a, s. Qed.
Lemma safe_rd sh : safe sh rd.
Proof. intros s H. by exists (sm s), s. Qed.
Lemma safe_wr sh f : safe sh (wr f).
Proof. intros s H. by eexists _, _. Qed.
Lemma safe_bind sh {A B} (m : P D A) (f : A -> P D B) : safe sh m -> (forall a, safe sh (f a)) -> safe sh (m ≫= f).
Proof.
  intros Hm Hf s H. destruct (Hm s H) as (a & s1 & E & H1). destruct (Hf a s1 H1) as (b & s2 & E2 & H2).
  exists b, s2. by rewrite (pbind_run _ _ _ _ _ E).
Qed.
Lemma safe_gc sh {A} (m : GC.M A) Q : ok sh m Q -> safe sh (gc m).
Proof.
  intros O s H. destruct (O (ck s) H) as (a & c & E & H1 & _). exists a, (mkc (sm s) c).
  unfold gc. by rewrite E.
Qed.
End Rules.

Create HintDb safe.
#[export] Hint Resolve safe_ret safe_rd safe_wr : safe.
Ltac safe_step :=
  match goal with
  | |- forall _, _ => intros
  | |- safe _ (_ ≫= _) => apply safe_bind
  | |- safe _ (if ?c then _ else _) => destruct c
  | |- safe _ (match ?o with _ => _ end) => destruct o
  | |- safe _ _ => solve [eauto with safe]
  | |- safe _ (gc _) => solve [eapply safe_gc; eauto with safe]
  end.
Ltac safe_auto := repeat safe_step.

Create HintDb keeps.
#[export] Hint Resolve keeps_ret keeps_rd keeps_crash : keeps.
Ltac keeps_auto :=
  repeat match goal with
  | |- forall _, _ => intros
  | |- keeps _ (_ ≫= _) => apply pkeeps_bind
  | |- keeps _ (if ?c then _ else _) => destruct c
  | |- keeps _ (match ?o with _ => _ end) => destruct o
  | |- keeps _ (gc _) => by apply keeps_gc
  | |- keeps _ (wr _) => by apply keeps_wr
  | |- keeps _ _ => solve [eauto with keeps]
  end.

(** ** Termination *)

Section CSSEnds.
Import CSS.
Context `{DEV : PtpDev} `{CV : Conversions} `{CF : Config} (ports : Z -> PerPortGlobalForAllDomain).

Definition css_rank (s : clocked data) : nat :=
  match state (sm s) with
  | INIT => 4
  | INITIALIZING => 3
  | SEND_SYNC_INDICATION => if bool_decide (last_state (sm s) <> state (sm s)) then 1 else 2
  | REACTION => 0
  end.

Lemma css_proc_clears s r s' : send_sync_indication_proc ports s = Some (r, s') ->
  RCVD_PSSYNC (sm s') = false /\ RCVD_LOCAL_CLOCK_TICK (sm s') = false.
Proof.
  intros E. unfold send_sync_indication_proc in E. do 4 (apply pbind_inv in E as (? & ? & ? & E)).
  injection E as _ <-. match goal with H : wr _ _ = Some _ |- _ => injection H as _ <- end. done.
Qed.

Lemma css_proc_last e : keeps (fun s => last_state (sm s) = e) (send_sync_indication_proc ports).
Proof. unfold send_sync_indication_proc, static_gm, updateSlaveTime. keeps_auto. Qed.

Lemma css_turns s s' : turns (M := machine ports) s s' -> (css_rank s' < css_rank s)%nat.
Proof.
  intros [H N]. unfold pass in H. apply step_next in H. cbn [sm_state machine sm_last sm_set_last] in *.
  unfold switch, set_last in H. apply pbind_inv in H as (d & s1 & E & H). injection E as <- <-. cbn in H.
  unfold css_rank at 2. destruct (state (sm s)) eqn:St.
  - injection H as <-. unfold css_rank. cbn. lia.
  - apply pbind_inv in H as (u & s1 & E & H).
    apply pbind_inv in H as (u' & s2 & E2 & H). injection E2 as _ <-. injection H as <-.
    unfold css_rank. cbn. unfold initializing_condition in *. cbn in N. destruct_cond; cbn in *; [case_bool_decide; lia|].
    destruct (state_change s) in E; injection E as _ <-; by cbn in N.
  - apply pbind_inv in H as (retp & s1 & E & H). apply pbind_inv in H as (u' & s2 & E2 & H).
    injection E2 as _ <-. injection H as R <-. destruct retp; [done|]. cbn in N.
    unfold css_rank. cbn. unfold send_sync_indication_condition in *. destruct (state_change s) eqn:Ch in E.
    + destruct (css_proc_clears _ _ _ E) as [C1 C2]. rewrite C1, C2 in N. cbn in N.
      exfalso. apply N. refine (css_proc_last SEND_SYNC_INDICATION _ _ _ _ E). reflexivity.
    + injection E as <-. unfold state_change in Ch. cbn in Ch. apply bool_decide_eq_false in Ch.
      rewrite St in Ch. destruct_cond; cbn in *; [|by destruct N].
      rewrite (bool_decide_eq_true_2 (REACTION <> _)) by done.
      rewrite (bool_decide_eq_false_2) by naive_solver. lia.
  - injection H as <-. by cbn in N; rewrite St in N.
Qed.
Lemma css_ends s : run (M := machine ports) fuel s = Some (clock_slave_sync_sm ports s).
Proof.
  apply exec_run. unfold run.
  apply (loop_ends (M := machine ports)) with (Inv := fun _ => True) (rank := css_rank); [|done|].
  - intros s1 s2 _ H. split; [done|by apply css_turns].
  - unfold css_rank, fuel. destruct (state _); try case_bool_decide; lia.
Qed.
End CSSEnds.

Section CMSSEnds.
Import CMSS.
Context `{DEV : PtpDev} `{CV : Conversions} (cts64 : Z).

Definition cmss_rank (s : clocked data) : nat :=
  match state (sm s) with
  | INIT => 4
  | INITIALIZING => 3
  | SEND_SYNC_INDICATION => if bool_decide (last_state (sm s) <> state (sm s)) then 1 else 2
  | REACTION => 0
  end.

Lemma cmss_turns s s' : turns (M := machine cts64) s s' -> (cmss_rank s' < cmss_rank s)%nat.
Proof.
  intros [H N]. unfold pass in H. apply step_next in H. cbn [sm_state machine sm_last sm_set_last] in *.
  unfold switch, set_last in H. apply pbind_inv in H as (d & s1 & E & H). injection E as <- <-. cbn in H.
  unfold cmss_rank at 2. destruct (state (sm s)) eqn:St.
  - injection H as <-. unfold cmss_rank. cbn. lia.
  - apply pbind_inv in H as (u & s1 & E & H).
    apply pbind_inv in H as (u' & s2 & E2 & H). injection E2 as _ <-. injection H as <-.
    unfold cmss_rank. cbn. unfold initializing_condition in *. cbn in N. destruct_cond; cbn in *; [case_bool_decide; lia|].
    destruct (state_change s) in E; injection E as _ <-; by cbn in N.
  - unfold state_change in H. cbn in H. rewrite St in H.
    destruct (bool_decide (last_state (sm s) <> SEND_SYNC_INDICATION)) eqn:Ch.
    { apply pbind_inv in H as (retp & s1 & E & H). discriminate H. }
    apply pbind_inv in H as (u & s1 & E & H). injection E as _ <-. injection H as <-. cbn in N.
    unfold cmss_rank. cbn. unfold send_sync_indication_condition in *.
    apply bool_decide_eq_false in Ch. destruct_cond; cbn in *; [|by destruct N].
    rewrite (bool_decide_eq_true_2 (REACTION <> _)) by done.
    lia.
  - injection H as <-. by cbn in N; rewrite St in N.
Qed.

Lemma cmss_ends s : run (M := machine cts64) fuel s = Some (clock_master_sync_send_sm cts64 s).
Proof.
  apply exec_run. unfold run.
  apply (loop_ends (M := machine cts64)) with (Inv := fun _ => True) (rank := cmss_rank); [|done|].
  - intros s1 s2 _ H. split; [done|by apply cmss_turns].
  - unfold cmss_rank, fuel. destruct (state _); try case_bool_decide; lia.
Qed.
End CMSSEnds.

Section CMSOEnds.
Import CMSO.

Definition cmso_rank (sm : data) : nat :=
  match state sm with
  | INIT => 4
  | INITIALIZING => 3
  | SEND_SYNC_INDICATION => if bool_decide (last_state sm <> state sm) then 1 else 2
  | REACTION => 0
  end.

Lemma cmso_proc_clears sm : RCVD_SYNC_RECEIPT_TIME (send_sync_indication_proc sm) = false /\
  last_state (send_sync_indication_proc sm) = last_state sm.
Proof. unfold send_sync_indication_proc. cbv zeta. repeat case_match; done. Qed.

Lemma cmso_turns sm sm' : turns (M := machine) sm sm' -> (cmso_rank sm' < cmso_rank sm)%nat.
Proof.
  intros [H N]. unfold pass in H. cbn [sm_state machine sm_last sm_set_last sm_switch] in *.
  unfold switch, set_last in H. cbn in H. unfold cmso_rank at 2. destruct (state sm) eqn:St.
  - injection H as <-. unfold cmso_rank. cbn. lia.
  - destruct (state_change sm); injection H as <-; [by cbn in N; rewrite St in N|].
    cbn in N. unfold cmso_rank. cbn. unfold initializing_condition in *.
    destruct (RCVD_SYNC_RECEIPT_TIME _); [|done]. case_bool_decide; lia.
  - unfold send_sync_indication_condition in H. destruct (state_change sm) eqn:Ch.
    + destruct (cmso_proc_clears (sm <| last_state := SEND_SYNC_INDICATION |>)) as [C L]. rewrite C in H.
      injection H as <-. cbn in N. by rewrite L in N.
    + unfold state_change in Ch. cbn in Ch. apply bool_decide_eq_false in Ch. rewrite St in Ch.
      destruct_cond_in H; injection H as <-; cbn in N; [|by destruct N].
      unfold cmso_rank. cbn. rewrite (bool_decide_eq_true_2 (REACTION <> _)) by done.
      rewrite (bool_decide_eq_false_2) by naive_solver. lia.
  - injection H as <-. by cbn in N; rewrite St in N.
Qed.

Lemma cmso_ends sm : run (M := machine) fuel sm = Some (clock_master_sync_offset_sm sm).
Proof.
  apply exec_run. unfold run.
  apply (loop_ends (M := machine)) with (Inv := fun _ => True) (rank := cmso_rank); [|done|].
  - intros s1 s2 _ H. split; [done|by apply cmso_turns].
  - unfold cmso_rank, fuel. destruct (state _); try case_bool_decide; lia.
Qed.
End CMSOEnds.

Section CMSREnds.
Import CMSR.
Context `{DEV : PtpDev} `{CV : Conversions} `{CF : Config} `{SC : ServoConfig}.

Definition asked (sm : data) : bool := RCVD_CLOCK_SOURCE_REQ sm || RCVD_LOCAL_CLOCK_TICK sm.

Definition cmsr_rank (s : clocked data) : nat :=
  match state (sm s) with
  | INIT => 6
  | INITIALIZING => 5
  | WAITING => if asked (sm s) then 3 else 1
  | RECEIVE_SOURCE_TIME => if bool_decide (last_state (sm s) <> state (sm s)) then 2 else 4
  | REACTION => 0
  end.

Lemma cmsr_proc_clears s r s' : receive_source_time_proc s = Some (r, s') -> asked (sm s') = false.
Proof.
  intros E. unfold receive_source_time_proc in E. do 2 (apply pbind_inv in E as (? & ? & ? & E)).
  by injection E as _ <-.
Qed.

Lemma cmsr_turns s s' : turns (M := machine) s s' -> (cmsr_rank s' < cmsr_rank s)%nat.
Proof.
  intros [H N]. unfold pass in H. apply step_next in H. cbn [sm_state machine sm_last sm_set_last] in *.
  unfold switch, set_last in H. apply pbind_inv in H as (d & s1 & E & H). injection E as <- <-. cbn in H.
  unfold cmsr_rank at 2. destruct (state (sm s)) eqn:St.
  - injection H as <-. unfold cmsr_rank. cbn. lia.
  - apply pbind_inv in H as (u & s1 & E & H). apply pbind_inv in H as (u' & s2 & E2 & H).
    injection E2 as _ <-. injection H as <-. unfold cmsr_rank. cbn. destruct (asked _); lia.
  - apply pbind_inv in H as (u & s1 & E & H). injection E as _ <-. injection H as <-. cbn in N.
    unfold cmsr_rank. cbn. destruct (asked (sm s)) eqn:A; unfold asked in A;
      unfold waiting_condition, RCVD_CLOCK_SOURCE_REQ, RCVD_LOCAL_CLOCK_TICK in *; cbn in *; rewrite A in *; cbn in *; [|done].
    rewrite bool_decide_eq_true_2 by done. lia.
  - apply pbind_inv in H as (u & s1 & E & H). apply pbind_inv in H as (u' & s2 & E2 & H).
    injection E2 as _ <-. injection H as <-. unfold cmsr_rank. cbn. unfold state_change in E. cbn in E. rewrite St in E.
    destruct (bool_decide (last_state (sm s) <> RECEIVE_SOURCE_TIME)).
    + apply cmsr_proc_clears in E. unfold asked in *. cbn in *. unfold RCVD_CLOCK_SOURCE_REQ, RCVD_LOCAL_CLOCK_TICK in *. cbn in *. rewrite E. lia.
    + destruct (asked _); lia.
  - injection H as <-. by cbn in N; rewrite St in N.
Qed.

Lemma cmsr_ends s : run (M := machine) fuel s = Some (clock_master_sync_receive_sm s).
Proof.
  apply exec_run. unfold run.
  apply (loop_ends (M := machine)) with (Inv := fun _ => True) (rank := cmsr_rank); [|done|].
  - intros s1 s2 _ H. split; [done|by apply cmsr_turns].
  - assert (forall x, (cmsr_rank x < fuel)%nat) as R; [|apply R].
    intros x. unfold cmsr_rank, fuel. destruct (state (sm x)), (asked (sm x)); try case_bool_decide; lia.
Qed.
End CMSREnds.

(** ** Memory *)

Section OkMore.
Context `{DEV : PtpDev} `{CV : Conversions} `{CF : Config} (sh : Sh.shape) (W : wf_shape sh).
#[local] Set Default Proof Using "All".

Lemma ok_get_gmchange_ind di : ok sh (GC.gptpclock_get_gmchange_ind di) any.
Proof. unfold GC.gptpclock_get_gmchange_ind. ok_auto. Qed.

Lemma ok_apply_offset ts ci di : ok sh (GC.gptpclock_apply_offset ts ci di) any.
Proof. unfold GC.gptpclock_apply_offset. ok_auto. Qed.
End OkMore.
#[export] Hint Resolve ok_get_gmchange_ind ok_apply_offset ok_setoffset64 ok_setadj ok_getts64 ok_get_gmsync
  ok_set_gmsync ok_set_gmchange : safe.

(** a machine whose switch is defined, from the states of an invariant, does not crash *)
Lemma exec_safe `{DEV : PtpDev} {D E R : Type} `{EqDecision E} (M : StateMachine (clocked D) E R)
    (sw : bool -> P D (ctl R)) (Inv : clocked D -> Prop) n s :
  is_Some (run (M := M) n s) ->
  (forall b s, sm_switch (StateMachine := M) b s = step (sw b) s) ->
  Inv (sm_allstate s) -> (forall s, Inv s -> Inv (sm_set_last (sm_state s) s)) ->
  (forall b s, Inv s -> exists c s', sw b s = Some (c, s') /\ Inv s' /\ c <> Leave Crash) ->
  Inv (exec (M := M) n s).1 /\ (exec (M := M) n s).2 <> Crash.
Proof.
  intros T Sw Ha Hl Hs.
  apply (exec_hoare (M := M) Inv (fun s o => Inv s /\ o <> Crash)); [done|done|].
  intros s1 s2 c H1 Ps. unfold pass in Ps. rewrite Sw in Ps. unfold step in Ps.
  destruct (Hs (state_change s1) _ (Hl s1 H1)) as (c' & s' & E' & H' & N). rewrite E' in Ps.
  injection Ps as <- <-. destruct c' as [|o]; [by destruct (bool_decide _)|]. split; [done|]. by intros ->.
Qed.

Lemma ret_if_ret {R} (r : option R) : ret_if r <> Leave Crash.
Proof. by destruct r. Qed.

Section CSSSafe.
Import CSS.
Context `{DEV : PtpDev} `{CV : Conversions} `{CF : Config} (ports : Z -> PerPortGlobalForAllDomain).

(** a PortSyncSync that is noted is there *)
Definition sync_there (s : clocked data) : Prop := RCVD_PSSYNC (sm s) = true -> is_Some (CSSsm.rcvdPSSyncPtr (thisSM (sm s))).

Lemma css_proc_safe sh s : wf_shape sh -> shape (GC.gcd (ck s)) = sh -> sync_there s ->
  exists r s', send_sync_indication_proc ports s = Some (r, s') /\ shape (GC.gcd (ck s')) = sh.
Proof.
  intros W Hs J. unfold send_sync_indication_proc. rewrite (pbind_run _ _ s (sm s) s) by done.
  destruct (RCVD_PSSYNC (sm s)) eqn:Rc; [destruct (J Rc) as [p ->]|];
    match goal with |- exists r s', ?m s = _ /\ _ => cut (safe sh m); [by intros Q; apply Q|] end;
    unfold static_gm, updateSlaveTime; safe_auto.
Qed.

Lemma css_keeps_there b : keeps sync_there (switch ports b).
Proof.
  unfold switch. apply pkeeps_bind; [apply keeps_rd|]. intros d.
  assert (keeps sync_there (send_sync_indication_proc ports)).
  { unfold send_sync_indication_proc, static_gm, updateSlaveTime. keeps_auto. }
  destruct (state d); keeps_auto; apply keeps_wr; intros s J; try done.
  - unfold sync_there, send_sync_indication_condition in *. by destruct (_ || _).
Qed.

Lemma css_safe sh s : wf_shape sh -> shape (GC.gcd (ck s)) = sh -> sync_there s ->
  shape (GC.gcd (ck (clock_slave_sync_sm ports s).1)) = sh /\ (clock_slave_sync_sm ports s).2 <> Crash.
Proof.
  intros W Hs J.
  destruct (exec_safe (machine ports) (switch ports) (fun s => shape (GC.gcd (ck s)) = sh /\ sync_there s) fuel s) as [[H _] N];
    [by rewrite css_ends|done|done|done| |done].
  intros b s1 [H1 J1]. assert (Q : exists c s', switch ports b s1 = Some (c, s') /\ shape (GC.gcd (ck s')) = sh /\ c <> Leave Crash).
  { unfold switch. rewrite (pbind_run _ _ s1 (sm s1) s1) by done. destruct (state (sm s1)).
    - by eexists _, _.
    - destruct b; by eexists _, _.
    - destruct b; [|by eexists _, _].
      destruct (css_proc_safe sh s1 W H1 J1) as (r & s2 & E & H2). rewrite (pbind_run _ _ _ _ _ E).
      eexists _, _. split; [done|]. split; [done|apply ret_if_ret].
    - by eexists _, _. }
  destruct Q as (c & s' & E & H' & Nc). exists c, s'. split_and!; [done..| |done]. by apply (css_keeps_there b s1 c s').
Qed.
End CSSSafe.

Section CMSSSafe.
Import CMSS.
Context `{DEV : PtpDev} `{CV : Conversions} `{CF : Config} (cts64 : Z).
#[local] Set Default Proof Using "All".

Lemma cmss_safe sh s : wf_shape sh -> shape (GC.gcd (ck s)) = sh ->
  shape (GC.gcd (ck (clock_master_sync_send_sm cts64 s).1)) = sh /\ (clock_master_sync_send_sm cts64 s).2 <> Crash.
Proof.
  intros W Hs. pose proof (cmss_ends cts64 s) as T. unfold clock_master_sync_send_sm in *.
  apply (exec_safe (machine cts64) (switch cts64) (fun s => shape (GC.gcd (ck s)) = sh) fuel s);
    [by rewrite T|reflexivity|exact Hs|by intros s1 H1|].
  intros b s1 H1. unfold switch. rewrite (pbind_run _ _ s1 (sm s1) s1) by done.
  destruct (state (sm s1)), b; try by eexists _, _.
  assert (Q : safe sh (send_sync_indication_proc cts64)) by (unfold send_sync_indication_proc, setPSSyncCMSS; safe_auto).
  destruct (Q s1 H1) as (r & s2 & E & H2). rewrite (pbind_run _ _ _ _ _ E). by eexists _, _.
Qed.
End CMSSSafe.

Section CMSRSafe.
Import CMSR.
Context `{DEV : PtpDev} `{CV : Conversions} `{CF : Config} `{SC : ServoConfig}.
Variable sh : Sh.shape.
Hypothesis W : wf_shape sh.
Hypothesis alphas : PHASE_OFFSET_IIR_ALPHA_START_VALUE <> 0 /\ PHASE_OFFSET_IIR_ALPHA_STABLE_VALUE <> 0.
#[local] Set Default Proof Using "All".

Lemma safe_filter a dts old : a <> 0 -> safe sh (filter_offset a dts old).
Proof. intros Ha. unfold filter_offset. rewrite (proj2 (Z.eqb_neq _ _) Ha). safe_auto. Qed.
#[local] Hint Resolve safe_filter : safe.

Lemma safe_set_phase dts dlts : safe sh (set_phase_offsetGM dts dlts).
Proof.
  destruct alphas. unfold set_phase_offsetGM, big_jump, same_gm, next_offset, count_stable, adjust_offset. safe_auto.
Qed.

Lemma safe_compute lts mts : safe sh (computeGmRateRatio lts mts).
Proof.
  pose proof safe_set_phase. unfold computeGmRateRatio, compute_rate, adjust_rate. safe_auto.
Qed.

Lemma safe_receive : safe sh receive_source_time_proc.
Proof. pose proof safe_compute. unfold receive_source_time_proc, update_gmsync. safe_auto. Qed.

Lemma cmsr_safe s : shape (GC.gcd (ck s)) = sh ->
  shape (GC.gcd (ck (clock_master_sync_receive_sm s).1)) = sh /\ (clock_master_sync_receive_sm s).2 <> Crash.
Proof.
  intros Hs. pose proof (cmsr_ends s) as T. unfold clock_master_sync_receive_sm in *.
  apply (exec_safe machine switch (fun s => shape (GC.gcd (ck s)) = sh) fuel s);
    [by rewrite T|reflexivity|exact Hs|by intros s1 H1|].
  intros b s1 H1. unfold switch. rewrite (pbind_run _ _ s1 (sm s1) s1) by done.
  destruct (state (sm s1)), b; try by eexists _, _.
  destruct (safe_receive s1 H1) as (r & s2 & E & H2). rewrite (pbind_run _ _ _ _ _ E). by eexists _, _.
Qed.
End CMSRSafe.

(** ** Rates written to the database *)

(** what is written to the database satisfies [Q] *)
Definition writes `{DEV : PtpDev} (Q : db_write -> Prop) {A} (m : GC.M A) : Prop := forall s a s',
  Forall Q (GC.db s) -> m s = Some (a, s') -> Forall Q (GC.db s').

Section Writes.
Import GC.
Context `{DEV : PtpDev} (Q : db_write -> Prop).

Lemma writes_ret {A} (a : A) : writes Q (mret a).
Proof. by intros s b s' H [= _ <-]. Qed.
Lemma writes_bind {A B} (m : M A) (f : A -> M B) : writes Q m -> (forall a, writes Q (f a)) -> writes Q (m ≫= f).
Proof.
  intros Hm Hf s b s' H E. unfold mbind, M_bind in E. destruct (m s) as [[a s1]|] eqn:E1; [|done].
  exact (Hf a _ _ _ (Hm _ _ _ H E1) E).
Qed.
Lemma writes_db {A} (m : M A) : (forall s a s', m s = Some (a, s') -> db s' = db s) -> writes Q m.
Proof. intros F s a s' H E. by rewrite (F _ _ _ E). Qed.
Lemma writes_wr_db e : Q e -> writes Q (wr_db e).
Proof. intros He s a s' H [= _ <-]. cbn. apply Forall_app. by repeat constructor. Qed.
Lemma writes_get : writes Q get.
Proof. apply writes_db. by intros s a s' [= _ <-]. Qed.
Lemma writes_modify f : writes Q (modify f).
Proof. apply writes_db. by intros s a s' [= _ <-]. Qed.
Lemma writes_act {A} (f : world -> A * world) : writes Q (act f).
Proof. apply writes_db. intros s a s' E. unfold act in E. destruct (f (wrld s)). by injection E as _ <-. Qed.
Lemma writes_od_at p : writes Q (od_at p).
Proof. apply writes_db. intros s a s' E. unfold od_at in E. by destruct (_ !! _); [injection E as _ <-|]. Qed.
Lemma writes_set_od p f : writes Q (set_od p f).
Proof. apply writes_db. intros s a s' E. unfold set_od in E. by destruct (_ !! _); [injection E as _ <-|]. Qed.
Lemma writes_set_pp r f : writes Q (set_pp r f).
Proof. apply writes_db. intros s a s' E. unfold set_pp in E. by destruct (pp_of _ _); [injection E as _ <-|]. Qed.
Lemma writes_pdd_at d : writes Q (pdd_at d).
Proof. apply writes_db. intros s a s' E. unfold pdd_at in E. by destruct (pdd_of _ _); [injection E as _ <-|]. Qed.
Lemma writes_set_pdd d f : writes Q (set_pdd d f).
Proof. apply writes_db. intros s a s' E. unfold set_pdd in E. by destruct (pdd_of _ _); [injection E as _ <-|]. Qed.
Lemma writes_clockod ci di : writes Q (clockod ci di).
Proof. apply writes_db. intros s a s' E. unfold clockod in E. by destruct (get_clockod _ _ _); [injection E as _ <-|]. Qed.
Lemma writes_pp_at p : writes Q (pp_at p).
Proof.
  apply writes_db. intros s a s' E. unfold pp_at in E. destruct (_ !! _) as [od|]; [|done]. cbn [mbind option_bind] in E.
  destruct (pp_of _ _); [|done]. by injection E as _ <-.
Qed.
End Writes.
Create HintDb writes.
#[export] Hint Resolve writes_ret writes_get writes_modify writes_act writes_od_at writes_set_od writes_set_pp
  writes_pdd_at writes_set_pdd writes_clockod writes_pp_at : writes.
Ltac writes_auto :=
  repeat match goal with
  | |- forall _, _ => intros
  | |- writes _ (_ ≫= _) => apply writes_bind
  | |- writes _ (GC.FN_ENTRY _ _ _) => unfold GC.FN_ENTRY
  | |- writes _ (GC.set_od_pp _ _) => unfold GC.set_od_pp
  | |- writes _ (if ?c then _ else _) => destruct c
  | |- writes _ (match ?o with _ => _ end) => destruct o
  | |- writes _ (GC.wr_db _) => by apply writes_wr_db
  | |- writes _ _ => solve [eauto with writes]
  end.

Section Limit.
Import CMSR.
Context `{DEV : PtpDev} `{CV : Conversions} `{CF : Config} `{SC : ServoConfig}.

Definition in_limit (ppb : Z) : Prop := - MAX_ADJUST_RATE_ON_CLOCK <= ppb <= MAX_ADJUST_RATE_ON_CLOCK.
Definition rate_ok (e : db_write) : Prop := match e with DbAdjRate _ _ ppb => in_limit ppb | _ => True end.

Lemma writes_time_setoffset64 o ci di : writes rate_ok (GC.time_setoffset64 o ci di).
Proof.
  unfold GC.time_setoffset64, GC.gptpclock_setts_offset_od, GC.GPTP_CLOCK_SETOFFSET, GC.act_,
    GC.gptpclock_setoffset_od, GC.GPTP_CLOCK_GETTIME. writes_auto.
Qed.
#[local] Hint Resolve writes_time_setoffset64 : writes.

Lemma writes_setoffset64 ts ci di : writes rate_ok (GC.gptpclock_setoffset64 ts ci di).
Proof. unfold GC.gptpclock_setoffset64, GC.gptpclock_setoffset_od. writes_auto. Qed.

Lemma writes_setadj ppb ci di : in_limit ppb -> writes rate_ok (GC.gptpclock_setadj ppb ci di).
Proof.
  intros L. unfold GC.gptpclock_setadj, GC.restart_rate, GC.record_adj, GC.gptpclock_getts_od, GC.gptpclock_setts_od,
    GC.gptpclock_setts_offset_od, GC.GPTP_CLOCK_SETOFFSET, GC.act_, GC.gptpclock_setoffset_od, GC.GPTP_CLOCK_GETTIME.
  writes_auto.
Qed.

Lemma writes_get_gmchange_ind d : writes rate_ok (GC.gptpclock_get_gmchange_ind d).
Proof. unfold GC.gptpclock_get_gmchange_ind. writes_auto. Qed.
Lemma writes_get_gmsync d : writes rate_ok (GC.gptpclock_get_gmsync d).
Proof. unfold GC.gptpclock_get_gmsync, GC.get_gmsync. writes_auto. Qed.
#[local] Hint Resolve writes_get_gmsync : writes.

Lemma writes_first_stable n i : writes rate_ok (GC.first_stable n i).
Proof. revert i. induction n as [|n IH]; intros i; cbn [GC.first_stable]; [apply writes_ret|]. unfold GC.switch_active_domain. writes_auto. Qed.
#[local] Hint Resolve writes_first_stable : writes.

Lemma writes_set_gmsync d v : writes rate_ok (GC.gptpclock_set_gmsync d v).
Proof.
  unfold GC.gptpclock_set_gmsync, GC.gptpclock_update_active_domain, GC.switch_active_domain, GC.GPTP_GET_TS64,
    GC.gptpclock_getts64, GC.gptpclock_getts_od, GC.GPTP_CLOCK_GETTIME. writes_auto.
Qed.

(** the rate of the servo and every rate in the database are within the limit *)
Definition limited (s : clocked data) : Prop := in_limit (gmadjppb (sm s)) /\ Forall rate_ok (GC.db (ck s)).

Lemma limited_wr f : (forall d, gmadjppb (f d) = gmadjppb d) -> keeps limited (wr f).
Proof. intros F. apply keeps_wr. intros s [L Q]. split; [cbn; by rewrite F|done]. Qed.

Lemma limited_gc {A} (m : GC.M A) : writes rate_ok m -> keeps limited (gc m).
Proof.
  intros Wm s a s' [L Q] E. unfold gc in E. destruct (m (ck s)) as [[b c]|] eqn:Em; [|done]. injection E as _ <-.
  split; [done|]. exact (Wm _ _ _ Q Em).
Qed.

Lemma limit_in ppb : 0 <= MAX_ADJUST_RATE_ON_CLOCK -> in_limit (limit MAX_ADJUST_RATE_ON_CLOCK ppb).
Proof. intros H. unfold limit, in_limit. destruct_cond; bool_hyps; [lia|]. destruct_cond; bool_hyps; lia. Qed.

Ltac limited_auto :=
  repeat match goal with
  | |- forall _, _ => intros
  | |- keeps _ (_ ≫= _) => apply pkeeps_bind
  | |- keeps _ (if ?c then _ else _) => destruct c
  | |- keeps _ (match ?o with _ => _ end) => destruct o
  | |- keeps limited (gc _) => apply limited_gc; auto using writes_setoffset64, writes_get_gmchange_ind, writes_get_gmsync, writes_set_gmsync
  | |- keeps limited (wr _) => by apply limited_wr; try (intros; destruct_cond)
  | |- keeps _ _ => solve [eauto with keeps]
  end.

Lemma adjust_rate_limited ppb : 0 <= MAX_ADJUST_RATE_ON_CLOCK -> keeps limited (adjust_rate ppb).
Proof.
  intros M s a s' H E. unfold adjust_rate in E. destruct (_ <? _); [|by injection E as _ <-].
  apply pbind_inv in E as (u & s1 & E1 & E). injection E1 as _ <-.
  apply pbind_inv in E as (d & s2 & E2 & E). injection E2 as <- <-.
  apply pbind_inv in E as (r & s3 & E3 & E). refine (limited_wr _ _ s3 a s' _ E); [done|].
  refine (limited_gc _ (writes_setadj _ _ _ _) _ r _ _ E3); [by apply limit_in|].
  split; [by apply limit_in|apply H].
Qed.

Lemma judge_rate_same ppb d : gmadjppb (judge_rate ppb d) = gmadjppb d.
Proof. unfold judge_rate. cbv zeta. repeat case_match; done. Qed.

Lemma switch_limited b : 0 <= MAX_ADJUST_RATE_ON_CLOCK -> keeps limited (switch b).
Proof.
  intros M. unfold switch, receive_source_time_proc, update_gmsync, computeGmRateRatio, compute_rate, set_phase_offsetGM,
    big_jump, same_gm, next_offset, count_stable, adjust_offset, filter_offset, set_state.
  pose proof (fun ppb => adjust_rate_limited ppb M).
  limited_auto. apply limited_wr, judge_rate_same.
Qed.

Lemma cmsr_limited s : 0 <= MAX_ADJUST_RATE_ON_CLOCK -> limited s -> limited (clock_master_sync_receive_sm s).1.
Proof.
  intros M H. unfold clock_master_sync_receive_sm. apply (exec_inv (M := machine) limited); [by intros s1 []| |done].
  intros s1 s2 c H1 P. unfold pass in P. cbn [sm_switch machine] in P. unfold step in P.
  destruct (switch _ _) as [[c' s']|] eqn:E; injection P as <- <-; [|done].
  refine (switch_limited _ M _ _ _ _ E). exact H1.
Qed.

(** the states of the servo: after its initialisation, requests, new times of the grandmaster and
    whatever the other parts do to the clocks without giving a rate *)
Inductive servo_reach (c0 : GC.st) : clocked data -> Prop :=
| servo_init d g : servo_reach c0 (clock_master_sync_receive_sm_init d g c0).1
| servo_request s : servo_reach c0 s -> servo_reach c0 (clock_master_sync_receive_sm_ClockSourceReq s).1
| servo_times s g : servo_reach c0 s -> servo_reach c0 (mkc (sm s <| ptasg := g |>) (ck s))
| servo_clocks s c : servo_reach c0 s -> GC.db c = GC.db (ck s) -> servo_reach c0 (mkc (sm s) c).

(** C20. The servo keeps the rate of the clock within the configured limit: whatever times the Sync
    messages give and whatever state the clocks are in, the frequency adjustment it keeps and every
    rate it has set (as the database records them) lies between -MAX_ADJUST_RATE_ON_CLOCK and
    MAX_ADJUST_RATE_ON_CLOCK. *)
Theorem rate_within_limit c0 s :
  0 <= MAX_ADJUST_RATE_ON_CLOCK -> GC.db c0 = [] -> servo_reach c0 s ->
  - MAX_ADJUST_RATE_ON_CLOCK <= gmadjppb (sm s) <= MAX_ADJUST_RATE_ON_CLOCK /\
  forall ci di ppb, DbAdjRate ci di ppb ∈ GC.db (ck s) ->
    - MAX_ADJUST_RATE_ON_CLOCK <= ppb <= MAX_ADJUST_RATE_ON_CLOCK.
Proof.
  intros M D R. assert (L : limited s).
  { induction R as [d g|s R IH|s g R IH|s c R IH E].
    - apply cmsr_limited; [done|]. split; [unfold in_limit; cbn; lia|]. cbn [ck]. by rewrite D.
    - by apply cmsr_limited.
    - done.
    - destruct IH. split; [done|]. cbn. by rewrite E. }
  destruct L as [L F]. split; [done|]. intros ci di ppb H.
  rewrite Forall_forall in F. exact (F _ H).
Qed.
End Limit.

Section Never.
Context `{DEV : PtpDev} `{CV : Conversions} `{CF : Config} `{SC : ServoConfig}.
#[local] Set Default Proof Using "All".

(** C21. No evaluation of the clock machines uses a clock entity, a parameter of the shared memory or
    a domain that is not there: from well-formed clocks each returns and leaves them well formed,
    ClockSlaveSync when the PortSyncSync it was given is there, ClockMasterSyncReceive when the
    filter constants of the configuration are not zero. *)
Theorem clock_machines_never_crash ports cts64 s1 s2 s3 :
  wf (GC.gcd (ck s1)) -> sync_there s1 -> wf (GC.gcd (ck s2)) -> wf (GC.gcd (ck s3)) ->
  PHASE_OFFSET_IIR_ALPHA_START_VALUE <> 0 -> PHASE_OFFSET_IIR_ALPHA_STABLE_VALUE <> 0 ->
  ((CSS.clock_slave_sync_sm ports s1).2 <> Crash /\ wf (GC.gcd (ck (CSS.clock_slave_sync_sm ports s1).1))) /\
  ((CMSS.clock_master_sync_send_sm cts64 s2).2 <> Crash /\
   wf (GC.gcd (ck (CMSS.clock_master_sync_send_sm cts64 s2).1))) /\
  ((CMSR.clock_master_sync_receive_sm s3).2 <> Crash /\
   wf (GC.gcd (ck (CMSR.clock_master_sync_receive_sm s3).1))).
Proof.
  intros W1 J W2 W3 A1 A2.
  destruct (css_safe ports _ s1 W1 eq_refl J) as [E1 N1].
  destruct (cmss_safe cts64 _ s2 W2 eq_refl) as [E2 N2].
  destruct (cmsr_safe _ W3 (conj A1 A2) s3 eq_refl) as [E3 N3].
  unfold wf in *. rewrite E1, E2, E3. done.
Qed.
End Never.
