(* ===== verification/ClockSyncTime.v ===== *)
(** * ClockSyncTime: the time of the grandmaster becomes the time of the domain.

    From the PortSyncSync the slave port hands on to the time an application
    reads: ClockSlaveSync computes the time of the grandmaster at the reception
    of the Sync, ClockMasterSyncReceive gives its difference from the local clock
    to the master clock of the domain.  Then the other way: the PortSyncSync of a
    grandmaster carries the time of its own domain. *)

From Stdlib Require Import SpecFloat.
From S2P Require Import Prelude Types Floats Driver Common Clock Gptpclock VirtualClock GptpclockFacts GptpclockTime.
From S2P Require Import ClockSync ClockSyncFacts.
From stdpp Require Import list.
Import Eff.
#[local] Open Scope Z_scope.
#[local] Open Scope gptp_scope.

(** ** What of the clocks other functions leave *)

(** the entities, the parameters and the per-domain data *)
Definition view (g : Gd.gptpclock_data) :=
  (Gd.slots g, Gd.nums g, Gd.pdd g, Shm.gcpp (Gd.shm g), Shm.max_domains (Gd.shm g)).

Section Still.
Import GC.
Context `{DEV : PtpDev} `{CV : Conversions} `{CF : Config}.
#[local] Set Default Proof Using "All".

Definition still {A} (m : M A) : Prop := forall s a s', m s = Some (a, s') -> view (gcd s') = view (gcd s).

Lemma still_ret {A} (a : A) : still (mret a).
Proof. by intros s b s' [= _ <-]. Qed.
Lemma still_bind {A B} (m : M A) (f : A -> M B) : still m -> (forall a, still (f a)) -> still (m ≫= f).
Proof.
  intros Hm Hf s b s' E. unfold mbind, M_bind in E. destruct (m s) as [[a s1]|] eqn:E1; [|done].
  rewrite (Hf _ _ _ _ E). exact (Hm _ _ _ E1).
Qed.
Lemma still_get : still get.
Proof. by intros s a s' [= _ <-]. Qed.
Lemma still_act {A} (f : world -> A * world) : still (act f).
Proof. intros s a s' E. unfold act in E. destruct (f (wrld s)). by injection E as _ <-. Qed.
Lemma still_wr_db e : still (wr_db e).
Proof. by intros s a s' [= _ <-]. Qed.
Lemma still_od_at p : still (od_at p).
Proof. intros s a s' E. unfold od_at in E. by destruct (_ !! _); [injection E as _ <-|]. Qed.
Lemma still_clockod ci di : still (clockod ci di).
Proof. intros s a s' E. unfold clockod in E. by destruct (get_clockod _ _ _); [injection E as _ <-|]. Qed.
Lemma still_pp_at p : still (pp_at p).
Proof.
  intros s a s' E. unfold pp_at in E. destruct (_ !! _) as [od|]; [|done]. cbn [mbind option_bind] in E.
  destruct (pp_of _ _); [|done]. by injection E as _ <-.
Qed.
End Still.
Create HintDb still.
#[export] Hint Resolve still_ret still_get still_act still_wr_db still_od_at still_clockod still_pp_at : still.
Ltac still_auto :=
  repeat match goal with
  | |- forall _, _ => intros
  | |- still (_ ≫= _) => apply still_bind
  | |- still (GC.FN_ENTRY _ _ _) => unfold GC.FN_ENTRY
  | |- still (if ?c then _ else _) => destruct c
  | |- still (match ?o with _ => _ end) => destruct o
  | |- still _ => solve [eauto with still]
  end.

Section Steers.
Import GC.
Context `{DEV : PtpDev} `{CV : Conversions} `{CF : Config}.
#[local] Set Default Proof Using "All".

Lemma still_switch di : still (switch_active_domain di).
Proof.
  unfold switch_active_domain. apply still_bind; [apply still_get|]. intros g.
  destruct (_ =? di); [apply still_ret|]. apply still_bind; [|intros; apply still_ret].
  intros s a s' E. unfold modify in E. by injection E as _ <-.
Qed.
#[local] Hint Resolve still_switch : still.

Lemma still_first_stable n i : still (first_stable n i).
Proof. revert i. induction n as [|n IH]; intros i; cbn [first_stable]; [apply still_ret|]. still_auto. Qed.
#[local] Hint Resolve still_first_stable : still.

Lemma still_update : still gptpclock_update_active_domain.
Proof. unfold gptpclock_update_active_domain. still_auto. Qed.
Lemma still_get_gmsync d : still (gptpclock_get_gmsync d).
Proof. unfold gptpclock_get_gmsync, get_gmsync. still_auto. Qed.
#[local] Hint Resolve still_update still_get_gmsync : still.
Lemma still_GET_TS64 d : still (GPTP_GET_TS64 d).
Proof. unfold GPTP_GET_TS64, gptpclock_getts64, gptpclock_getts_od, GPTP_CLOCK_GETTIME. still_auto. Qed.
Lemma still_get_gmchange_ind d : still (gptpclock_get_gmchange_ind d).
Proof. unfold gptpclock_get_gmchange_ind. still_auto. Qed.
#[local] Hint Resolve still_GET_TS64 : still.

Lemma domain_clocks_view s s' d tci z zod t tod x :
  view (gcd s') = view (gcd s) -> domain_clocks s d tci z zod t tod x -> domain_clocks s' d tci z zod t tod x.
Proof.
  intros V [[W1 P1 D1 O1] [W2 P2 D2 O2] M1 M2 C D P X].
  destruct s as [[sl n [md ad pp] pd sw] w db], s' as [[sl' n' [md' ad' pp'] pd' sw'] w' db'].
  unfold view in V. cbn in V. injection V as -> -> -> -> ->. split; try done.
Qed.

(** thisClock of domain [d] is adjusted in hardware, and the master clock shows its time moved by [off] *)
Definition steered (s : st) (d tci off : Z) : Prop :=
  exists z zod t tod x, domain_clocks s d tci z zod t tod x /\ shm_current zod tod x /\
    Od.mode tod = PTPCLOCK_SLAVE_MAIN /\ Od.offset64 zod = off.

Lemma steered_view s s' d tci off : view (gcd s') = view (gcd s) -> steered s d tci off -> steered s' d tci off.
Proof.
  intros V (z & zod & t & tod & x & DC & R). exists z, zod, t, tod, x. split; [|done].
  by apply (domain_clocks_view s s').
Qed.

Lemma steered_offset s d tci off ts : steered s d tci off ->
  exists s', gptpclock_setoffset64 ts 0 d s = Some (0, s') /\ steered s' d tci ts.
Proof.
  intros (z & zod & t & tod & x & DC & (C1 & C2 & C3) & Main & Off).
  destruct (setoffset64_master ts s d tci z zod t tod x DC) as (s' & E & DC').
  exists s'. split; [done|]. eexists z, _, t, tod, _. split; [exact DC'|]. by split_and!.
Qed.

Lemma steered_rate s d tci off ppb : steered s d tci off ->
  exists r s', gptpclock_setadj ppb tci d s = Some (r, s') /\ steered s' d tci off.
Proof.
  intros (z & zod & t & tod & x & DC & (C1 & C2 & C3) & Main & Off).
  destruct (main_rate ppb _ _ _ _ _ _ _ _ DC Main) as (r & s' & tod' & E & DC' & Main' & O').
  exists r, s'. split; [done|]. exists z, zod, t, tod', x. destruct (C2 Main).
  split; [done|]. split; [|done]. split_and!; [by rewrite O'|by rewrite O'|by rewrite Main'].
Qed.

Lemma steered_wf s d tci off : steered s d tci off -> wf (gcd s).
Proof. intros (z & zod & t & tod & x & DC & _). apply (at_wf _ _ _ _ _ (dc_master _ _ _ _ _ _ _ _ DC)). Qed.

Lemma steered_still {A} (m : M A) s d tci off : still m -> ok (shape (gcd s)) m any -> steered s d tci off ->
  exists r s', m s = Some (r, s') /\ steered s' d tci off.
Proof.
  intros S O H. destruct (O s eq_refl) as (r & s' & E & _). exists r, s'. split; [done|].
  by apply (steered_view s s' d tci off (S _ _ _ E)).
Qed.

Lemma steered_get_gmsync s d tci off : steered s d tci off ->
  exists r s', gptpclock_get_gmsync d s = Some (r, s') /\ steered s' d tci off.
Proof.
  intros H. apply steered_still; [apply still_get_gmsync| |done].
  apply ok_get_gmsync, (steered_wf _ _ _ _ H).
Qed.

Lemma steered_set_gmsync s d tci off v : steered s d tci off ->
  exists r s', gptpclock_set_gmsync d v s = Some (r, s') /\ steered s' d tci off.
Proof.
  intros H. pose proof (steered_wf _ _ _ _ H) as W.
  destruct (ok_set_gmsync _ W d v s eq_refl) as (r & s' & E & _). exists r, s'. split; [done|].
  destruct H as (z & zod & t & tod & x & DC & (C1 & C2 & C3) & Main & Off).
  pose proof (dc_master _ _ _ _ _ _ _ _ DC) as M. unfold gptpclock_set_gmsync in E.
  rewrite (FN_ENTRY_run _ _ _ _ _ _ M) in E.
  destruct (at_entity_ident _ _ _ _ _ M) as (_ & _ & _ & Zp). cbn in Zp.
  rewrite (bind_run _ _ s x s) in E.
  2:{ unfold pp_at. rewrite (at_data _ _ _ _ _ M). cbn. rewrite Zp. cbn. by rewrite (dc_shm _ _ _ _ _ _ _ _ DC). }
  destruct (Pp.gmsync x =? v).
  { injection E as _ <-. exists z, zod, t, tod, x. by split_and!. }
  pose (f1 := fun x => x <| Pp.gmsync := u8 v |>).
  pose proof (shm_alter_clocks d f1 s d tci z zod t tod x (fun _ => eq_refl) DC eq_refl) as DC1.
  assert (E1 : set_od_pp z f1 s = Some (tt, shm_alter d f1 s)).
  { unfold set_od_pp, set_pp. rewrite (bind_run _ _ _ _ _ (od_at_run _ _ _ (at_data _ _ _ _ _ M))). rewrite Zp. cbn [pp_of].
    by rewrite (dc_shm _ _ _ _ _ _ _ _ DC). }
  rewrite (bind_run _ _ _ _ _ E1) in E.
  assert (S1 : steered (shm_alter d f1 s) d tci off) by (eexists z, zod, t, tod, _; split; [exact DC1|]; by split_and!).
  apply (steered_view (shm_alter d f1 s)); [|done].
  match type of E with ?m _ = _ => assert (S : still m) by still_auto; exact (S _ _ _ E) end.
Qed.

(** the time an application reads *)
Lemma steered_reads s d tci off gmcd fd old h w w1 :
  steered s d tci off -> mapped gmcd (gcd s) d fd -> ptpdev_clock_gettime fd w = (Some h, w1) ->
  GMC.gptpmasterclock_get_domain_ts64 old d gmcd w = (Some (i64 (h + off)), w1).
Proof.
  intros (z & zod & t & tod & x & DC & Cur & Main & Off) Map G.
  destruct (at_entity_ident _ _ _ _ _ (dc_master _ _ _ _ _ _ _ _ DC)) as (_ & _ & Dd & _).
  rewrite (domain_ts64_run gmcd (gcd s) d fd x old h w w1 Map Dd (dc_shm _ _ _ _ _ _ _ _ DC) G).
  destruct (domain_time_current zod tod x h (dc_mode _ _ _ _ _ _ _ _ DC) Cur) as [T _].
  rewrite (T Main). unfold clock_time, is_mode. rewrite (dc_mode _ _ _ _ _ _ _ _ DC), Off. cbn.
  by rewrite andb_false_r, Z.add_0_r, swrap_swrap.
Qed.
End Steers.

(** ** A new grandmaster *)

Section Adopt.
Import CMSR.
Context `{DEV : PtpDev} `{CV : Conversions} `{CF : Config} `{SC : ServoConfig}.
#[local] Set Default Proof Using "All".

(** the servo of domain [d], whose clocks are steered *)
Record servo_at (s : clocked data) (d tci off : Z) : Prop := {
  sa_domain : PTASG.domainIndex (ptasg (sm s)) = d;
  sa_this : PTASG.thisClockIndex (ptasg (sm s)) = tci;
  sa_steered : steered (ck s) d tci off
}.

Definition same_place (f : data -> data) : Prop := forall sm,
  PTASG.domainIndex (ptasg (f sm)) = PTASG.domainIndex (ptasg sm) /\
  PTASG.thisClockIndex (ptasg (f sm)) = PTASG.thisClockIndex (ptasg sm).

Lemma wr_servo f s d tci off : same_place f -> servo_at s d tci off ->
  exists s', wr f s = Some (tt, s') /\ servo_at s' d tci off.
Proof. intros F [D T S]. eexists. split; [done|]. destruct (F (sm s)). split; cbn; congruence. Qed.

Lemma gc_servo {A} (m : GC.M A) s d tci off off' :
  servo_at s d tci off -> (forall c, steered c d tci off -> exists r c', m c = Some (r, c') /\ steered c' d tci off') ->
  exists r s', gc m s = Some (r, s') /\ servo_at s' d tci off' /\ sm s' = sm s.
Proof.
  intros [D T S] H. destruct (H _ S) as (r & c' & E & S'). exists r, (mkc (sm s) c').
  unfold gc. rewrite E. by split_and!.
Qed.

Lemma judge_rate_place ppb : same_place (judge_rate ppb).
Proof. intros d. unfold judge_rate. cbv zeta. repeat case_match; done. Qed.

Lemma adjust_rate_servo ppb s d tci off : servo_at s d tci off ->
  exists s', adjust_rate ppb s = Some (tt, s') /\ servo_at s' d tci off.
Proof.
  intros H. unfold adjust_rate. destruct (_ <? _); [|by exists s].
  match goal with |- context [(wr ?f ≫= _) s] => destruct (wr_servo f s d tci off (fun _ => conj eq_refl eq_refl) H) as (s1 & E1 & H1) end.
  rewrite (pbind_run _ _ _ _ _ E1), (pbind_run _ _ s1 (sm s1) s1) by done.
  assert (Hd : domain (sm s1) = d) by apply H1. rewrite Hd, (sa_this _ _ _ _ H1).
  destruct (gc_servo (GC.gptpclock_setadj (gmadjppb (sm s1)) tci d) s1 d tci off off H1) as (r & s2 & E2 & H2 & _);
    [intros c; apply steered_rate|].
  rewrite (pbind_run _ _ _ _ _ E2). by apply wr_servo.
Qed.

Lemma compute_rate_servo oc dmts dlts s d tci off : servo_at s d tci off ->
  exists r s', compute_rate oc dmts dlts s = Some (r, s') /\ servo_at s' d tci off.
Proof.
  intros H. unfold compute_rate. rewrite (pbind_run _ _ s (sm s) s) by done.
  destruct (_ <? _); [by exists (-1), s|]. destruct (0 <? _).
  { match goal with |- context [(wr ?f ≫= _) s] => destruct (wr_servo f s d tci off (fun _ => conj eq_refl eq_refl) H) as (s1 & E1 & H1) end.
    exists (-1), s1. by rewrite (pbind_run _ _ _ _ _ E1). }
  match goal with |- context [(wr ?f ≫= _) s] => destruct (wr_servo f s d tci off (judge_rate_place _) H) as (s1 & E1 & H1) end.
  cbv zeta. rewrite (pbind_run _ _ _ _ _ E1).
  match goal with |- context [(adjust_rate ?p ≫= _) s1] => destruct (adjust_rate_servo p s1 d tci off H1) as (s2 & E2 & H2) end.
  exists 0, s2. by rewrite (pbind_run _ _ _ _ _ E2).
Qed.

Lemma update_gmsync_servo s d tci off : servo_at s d tci off ->
  exists s', update_gmsync s = Some (tt, s') /\ servo_at s' d tci off.
Proof.
  intros H. unfold update_gmsync. rewrite (pbind_run _ _ s (sm s) s) by done.
  assert (Hd : domain (sm s) = d) by apply H. rewrite Hd.
  destruct (gc_servo (GC.gptpclock_get_gmsync d) s d tci off off H) as (v & s1 & E1 & H1 & _);
    [intros c; apply steered_get_gmsync|].
  rewrite (pbind_run _ _ _ _ _ E1).
  destruct (v =? GMSYNC_UNSYNC).
  - destruct (gc_servo (GC.gptpclock_set_gmsync d GMSYNC_SYNC) s1 d tci off off H1) as (r & s2 & E2 & H2 & _);
      [intros c; apply steered_set_gmsync|]. exists s2. by rewrite (pbind_run _ _ _ _ _ E2).
  - destruct (_ && _); [|by exists s1].
    destruct (gc_servo (GC.gptpclock_set_gmsync d GMSYNC_SYNC_STABLE) s1 d tci off off H1) as (r & s2 & E2 & H2 & _);
      [intros c; apply steered_set_gmsync|]. exists s2. by rewrite (pbind_run _ _ _ _ _ E2).
Qed.

(** the grandmaster indication of the domain, as the machine reads it *)
Definition gm_ind (c : GC.st) (d : Z) : option Z :=
  (fun x => i32 (Pp.gmchange_ind x)) <$> GC.shm_entry (GC.gcd c) d.

Lemma get_ind_run c d tci off ind : steered c d tci off -> gm_ind c d = Some ind ->
  GC.gptpclock_get_gmchange_ind d c = Some (ind, c).
Proof.
  intros (z & zod & t & tod & x & DC & _) G. pose proof (dc_master _ _ _ _ _ _ _ _ DC) as M.
  unfold gm_ind in G. rewrite (dc_shm _ _ _ _ _ _ _ _ DC) in G. injection G as <-.
  unfold GC.gptpclock_get_gmchange_ind. rewrite (FN_ENTRY_run _ _ _ _ _ _ M).
  destruct (at_entity_ident _ _ _ _ _ M) as (_ & _ & _ & Zp). cbn in Zp.
  rewrite (bind_run _ _ c x c); [done|].
  unfold GC.pp_at. rewrite (at_data _ _ _ _ _ M). cbn. rewrite Zp. cbn. by rewrite (dc_shm _ _ _ _ _ _ _ _ DC).
Qed.

(** the offset is taken over as it is: a jump of at least PHASE_NEWGM_CRITERION that is the second one
    (NOT_ADJ), or under no or another grandmaster than the one the offset was stable with; or a smaller
    difference while no offset is adopted *)
Definition starts_over (dofg ind : Z) (sm : data) : Prop :=
  if PHASE_NEWGM_CRITERION <=? dofg
  then offsetGM_stable sm = OFFSET_NOT_ADJ \/ gmchange_ind sm = 0 \/ gmchange_ind sm <> ind
  else offsetGM_stable sm = OFFSET_NOT_ADJ \/ offsetGM_stable sm = OFFSET_START_ADJ.

(** an offset that is not left to the rate *)
Definition to_clock (od : Z) : Prop := PHASE_ADJUSTMENT_BY_FREQ = 0 \/ PHASE_OFFSET_ADJUST_BY_FREQ <= Z.abs od.

Lemma same_gm_run s d tci off ind : servo_at s d tci off -> gm_ind (ck s) d = Some ind ->
  same_gm s = Some (negb (gmchange_ind (sm s) =? 0) && (gmchange_ind (sm s) =? ind), s).
Proof.
  intros H G. unfold same_gm. rewrite (pbind_run _ _ s (sm s) s) by done.
  destruct (gmchange_ind (sm s) =? 0); [done|]. cbn [negb].
  assert (Hd : domain (sm s) = d) by apply H. rewrite Hd.
  rewrite (pbind_run _ _ s ind s); [done|].
  unfold gc. rewrite (get_ind_run _ d tci off ind (sa_steered _ _ _ _ H) G). by destruct s.
Qed.

(** the state from which the offset is taken over as it is *)
Lemma jump_run dts s d tci off ind :
  servo_at s d tci off -> gm_ind (ck s) d = Some ind ->
  starts_over (Z.abs (i64 (dts - offsetGM (sm s)))) ind (sm s) ->
  exists v, (v = OFFSET_NOT_ADJ \/ v = OFFSET_START_ADJ) /\
  let s1 := mkc (sm s <| offsetGM_stable := v |>) (ck s) in
  (if PHASE_NEWGM_CRITERION <=? Z.abs (i64 (dts - offsetGM (sm s))) then big_jump else mret false) s = Some (false, s1).
Proof.
  intros H G St. unfold starts_over in St. destruct (_ <=? _).
  - exists OFFSET_START_ADJ. split; [by right|]. cbv zeta. unfold big_jump.
    rewrite (pbind_run _ _ _ _ _ (same_gm_run _ _ _ _ _ H G)), (pbind_run _ _ s (sm s) s) by done.
    assert (N : negb (gmchange_ind (sm s) =? 0) && (gmchange_ind (sm s) =? ind) &&
                (OFFSET_START_ADJ <=? offsetGM_stable (sm s)) = false); [|by rewrite N].
    destruct St as [->|[->|Hn]]; [by rewrite andb_false_r|done|].
    by rewrite (proj2 (Z.eqb_neq _ _) Hn), andb_false_r.
  - exists (offsetGM_stable (sm s)). split; [done|]. cbv zeta.
    replace (mkc _ _) with s; [done|]. destruct s as [[] c]. done.
Qed.

Lemma adopt_offset dts dlts s d tci off ind :
  servo_at s d tci off -> gm_ind (ck s) d = Some ind ->
  starts_over (Z.abs (i64 (dts - offsetGM (sm s)))) ind (sm s) ->
  to_clock (i64 (dts - offsetGM (sm s))) -> USE_HW_PHASE_ADJUSTMENT = 0 \/ d <> 0 ->
  exists s', set_phase_offsetGM dts dlts s = Some (0, s') /\ servo_at s' d tci dts.
Proof.
  intros H G St To Hw. destruct (jump_run dts s d tci off ind H G St) as (v & Hv & E1). cbv zeta in E1.
  unfold set_phase_offsetGM. rewrite (pbind_run _ _ s (sm s) s) by done. cbv zeta.
  rewrite (pbind_run _ _ _ _ _ E1).
  set (s1 := mkc (sm s <| offsetGM_stable := v |>) (ck s)).
  assert (H1 : servo_at s1 d tci off) by (destruct H; by split).
  rewrite (pbind_run _ _ s1 (sm s1) s1) by done.
  assert (N : (OFFSET_START_ADJ <? offsetGM_stable (sm s1)) = false) by (cbn; by destruct Hv as [->| ->]).
  rewrite N, andb_false_r.
  assert (E2 : exists s2, next_offset dts (Z.abs (i64 (dts - offsetGM (sm s)))) s1 = Some (Some dts, s2) /\
                 servo_at s2 d tci off /\ offsetGM (sm s2) = offsetGM (sm s)).
  { unfold next_offset. rewrite (pbind_run _ _ s1 (sm s1) s1) by done.
    assert (B : (offsetGM_stable (sm s1) =? OFFSET_NOT_ADJ) || (offsetGM_stable (sm s1) =? OFFSET_START_ADJ) = true)
      by (cbn; by destruct Hv as [->| ->]). rewrite B.
    eexists. split; [done|]. destruct H1. split; [by split|done]. }
  destruct E2 as (s2 & E2 & H2 & O2). rewrite (pbind_run _ _ _ _ _ E2).
  unfold adjust_offset. rewrite (pbind_run _ _ s2 (sm s2) s2) by done. rewrite O2. cbv zeta.
  assert (F : (Z.abs (i64 (dts - offsetGM (sm s))) <? PHASE_OFFSET_ADJUST_BY_FREQ) && negb (PHASE_ADJUSTMENT_BY_FREQ =? 0) = false).
  { destruct To as [->|To]; [by rewrite andb_false_r|]. by rewrite (proj2 (Z.ltb_ge _ _) To). }
  rewrite F. assert (Hd : domain (sm s2) = d) by apply H2.
  assert (P : hw_phase (sm s2) = false).
  { unfold hw_phase. rewrite Hd. destruct Hw as [->|Hw]; [done|]. by rewrite (proj2 (Z.eqb_neq _ _) Hw), andb_false_r. }
  rewrite P, Hd.
  destruct (gc_servo (GC.gptpclock_setoffset64 dts 0 d) s2 d tci off dts H2) as (r & s3 & E3 & H3 & Sm3).
  { intros c Hc. destruct (steered_offset c d tci off dts Hc) as (c' & E & S). by exists 0, c'. }
  rewrite (pbind_run _ _ _ _ _ E3).
  eexists. split; [done|]. destruct H3 as [D3 T3 S3]. rewrite Sm3 in D3, T3. by split; cbn; rewrite ?Sm3, ?P.
Qed.

Lemma receive_keeps_last e : keeps (fun s => last_state (sm s) = e) receive_source_time_proc.
Proof.
  unfold receive_source_time_proc, update_gmsync, computeGmRateRatio, compute_rate, adjust_rate, set_phase_offsetGM, big_jump,
    same_gm, next_offset, count_stable, adjust_offset, filter_offset. keeps_auto.
  all: apply keeps_wr; intros s <-; cbn; unfold judge_rate; cbv zeta; repeat case_match; done.
Qed.

Lemma adopt_compute lts mts s d tci off ind :
  let dts := i64 (mts - lts) in
  servo_at s d tci off -> gm_ind (ck s) d = Some ind ->
  lts <> 0 -> mts <> 0 -> i64 (lts - last_lts (sm s)) <> 0 -> i64 (mts - last_mts (sm s)) <> 0 ->
  QUICK_SYNC_ALGO = 0 \/ rate_is_stable (sm s) = true ->
  starts_over (Z.abs (i64 (dts - offsetGM (sm s)))) ind (sm s) ->
  to_clock (i64 (dts - offsetGM (sm s))) -> USE_HW_PHASE_ADJUSTMENT = 0 \/ d <> 0 ->
  exists r s', computeGmRateRatio lts mts s = Some (r, s') /\ servo_at s' d tci dts.
Proof.
  intros dts H G L0 M0 L1 M1 Q St To Hw. unfold computeGmRateRatio.
  rewrite (pbind_run _ _ s (sm s) s) by done. cbv zeta.
  rewrite (proj2 (Z.eqb_neq _ _) L0), (proj2 (Z.eqb_neq _ _) M0), (proj2 (Z.eqb_neq _ _) L1), (proj2 (Z.eqb_neq _ _) M1).
  cbn [orb]. assert (E : (QUICK_SYNC_ALGO =? 0) || rate_is_stable (sm s) = true)
    by (destruct Q as [->| ->]; [done|by rewrite orb_true_r]). rewrite E.
  destruct (adopt_offset dts (i64 (lts - last_lts (sm s))) s d tci off ind H G St To Hw) as (s1 & E1 & H1).
  rewrite (pbind_run _ _ _ _ _ E1). change (0 =? SET_PHASE_OFFSETGM_NOOP_RETURN) with false. cbv iota.
  match goal with |- context [(wr ?f ≫= _) s1] => destruct (wr_servo f s1 d tci dts (fun _ => conj eq_refl eq_refl) H1) as (s2 & E2 & H2) end.
  rewrite (pbind_run _ _ _ _ _ E2). by apply compute_rate_servo.
Qed.

Lemma step_receive s s' : state (sm s) = RECEIVE_SOURCE_TIME -> receive_source_time_proc s = Some (tt, s') ->
  step (switch true) s = (mkc (sm s' <| state := WAITING |>) (ck s'), Next).
Proof.
  intros St E. unfold step, switch. rewrite (pbind_run _ _ s (sm s) s), St by done.
  by rewrite (pbind_run _ _ _ _ _ E).
Qed.

(** a request to a waiting machine is the proc of RECEIVE_SOURCE_TIME *)
Lemma cmsr_request s s' :
  state (sm s) = WAITING -> PTASG.BEGIN (ptasg (sm s)) = false -> PTASG.instanceEnable (ptasg (sm s)) = true ->
  receive_source_time_proc
    (mkc (sm s <| thisSM; CMSRsm.rcvdClockSourceReq := true |> <| state := RECEIVE_SOURCE_TIME |>
               <| last_state := RECEIVE_SOURCE_TIME |>) (ck s)) = Some (tt, s') ->
  clock_master_sync_receive_sm_ClockSourceReq s =
  (mkc (sm s' <| state := WAITING |> <| last_state := WAITING |>) (ck s'), Ret None).
Proof.
  intros St B En E. unfold clock_master_sync_receive_sm_ClockSourceReq, clock_master_sync_receive_sm.
  apply exec_eq. unfold fuel. destruct s as [[g st ls [req tick] di mr ll lm ga al rc rs og oc os gi sk] c]. cbn in St, B, En, E. subst st.
  set (s0 := sm_allstate _). assert (E0 : s0 = mkc (mk g WAITING REACTION (CMSRsm.mk true tick) di mr ll lm ga al rc rs og oc os gi sk) c).
  { unfold s0. cbn. unfold set_allstate, allstate_condition. cbn. by rewrite B, En. }
  rewrite E0. clear E0 s0.
  rewrite (loop_turn (M := machine) _ _
    (mkc (mk g RECEIVE_SOURCE_TIME WAITING (CMSRsm.mk true tick) di mr ll lm ga al rc rs og oc os gi sk) c)) by (split; [reflexivity|done]).
  assert (P : pass (M := machine) (mkc (mk g RECEIVE_SOURCE_TIME WAITING (CMSRsm.mk true tick) di mr ll lm ga al rc rs og oc os gi sk) c) =
              (mkc (sm s' <| state := WAITING |>) (ck s'), Next)).
  { match type of E with receive_source_time_proc ?x = _ =>
      change (step (switch true) x = (mkc (sm s' <| state := WAITING |>) (ck s'), Next));
      rewrite (step_receive x s' eq_refl E); done end. }
  assert (L : last_state (sm s') = RECEIVE_SOURCE_TIME).
  { refine (_ : (fun s => last_state (sm s) = RECEIVE_SOURCE_TIME) s').
    refine (receive_keeps_last _ _ _ _ _ E). reflexivity. }
  pose proof (cmsr_proc_clears _ _ _ E) as A.
  assert (T : turns (M := machine) (mkc (mk g RECEIVE_SOURCE_TIME WAITING (CMSRsm.mk true tick) di mr ll lm ga al rc rs og oc os gi sk) c)
                (mkc (sm s' <| state := WAITING |>) (ck s'))).
  { split; [exact P|]. cbn. by rewrite L. }
  rewrite (loop_turn (M := machine) _ _ _ T). apply (loop_stop (M := machine)); [|done].
  unfold pass. cbn [sm_switch machine]. unfold step, switch. rewrite (pbind_run _ _ _ _ _ eq_refl). cbn.
  unfold asked in A. unfold waiting_condition. unfold RCVD_CLOCK_SOURCE_REQ, RCVD_LOCAL_CLOCK_TICK in *.
  destruct s' as [[] ?]. unfold set_state, mbind, P_bind, wr, mret, P_ret, set_last. cbn in *. by rewrite A.
Qed.

(** what the request leaves of a new grandmaster's time *)
Lemma adopt_receive s d tci off ind :
  let mts := gm_time (ptasg (sm s)) in
  let lts := UNs.nsec (PTASG.syncReceiptLocalTime (ptasg (sm s))) in
  let dts := i64 (mts - lts) in
  servo_at s d tci off -> gm_ind (ck s) d = Some ind -> RCVD_CLOCK_SOURCE_REQ (sm s) = true ->
  lts <> 0 -> mts <> 0 -> i64 (lts - last_lts (sm s)) <> 0 -> i64 (mts - last_mts (sm s)) <> 0 ->
  QUICK_SYNC_ALGO = 0 \/ rate_is_stable (sm s) = true ->
  starts_over (Z.abs (i64 (dts - offsetGM (sm s)))) ind (sm s) ->
  to_clock (i64 (dts - offsetGM (sm s))) -> USE_HW_PHASE_ADJUSTMENT = 0 \/ d <> 0 ->
  exists s', receive_source_time_proc s = Some (tt, s') /\ servo_at s' d tci dts.
Proof.
  intros mts lts dts H G Rq L0 M0 L1 M1 Q St To Hw.
  unfold receive_source_time_proc. rewrite (pbind_run _ _ s (sm s) s), Rq by done.
  destruct (adopt_compute lts mts s d tci off ind H G L0 M0 L1 M1 Q St To Hw) as (r & s1 & E1 & H1).
  match goal with |- context [(?m ≫= (fun _ => wr ?f)) s] =>
    assert (E : exists s2, m s = Some (tt, s2) /\ servo_at s2 d tci dts) end.
  { rewrite (pbind_run _ _ _ _ _ E1).
    destruct (wr_servo record_source s1 d tci dts (fun _ => conj eq_refl eq_refl) H1) as (s2 & E2 & H2).
    rewrite (pbind_run _ _ _ _ _ E2). by apply update_gmsync_servo. }
  destruct E as (s2 & E2 & H2). rewrite (pbind_run _ _ _ _ _ E2). by apply wr_servo.
Qed.

(** the machine of domain [d] waits for a request, its clocks with the offset [off] *)
Record waiting (s : clocked data) (d tci off : Z) : Prop := {
  wt_state : state (sm s) = WAITING;
  wt_begin : PTASG.BEGIN (ptasg (sm s)) = false;
  wt_enable : PTASG.instanceEnable (ptasg (sm s)) = true;
  wt_servo : servo_at s d tci off
}.

(** a request leaves the offset to the grandmaster's time on the clocks *)
Lemma adopt_request s d tci off ind :
  let mts := gm_time (ptasg (sm s)) in
  let lts := UNs.nsec (PTASG.syncReceiptLocalTime (ptasg (sm s))) in
  let dofg := Z.abs (i64 (i64 (mts - lts) - offsetGM (sm s))) in
  waiting s d tci off -> gm_ind (ck s) d = Some ind ->
  lts <> 0 -> mts <> 0 -> i64 (lts - last_lts (sm s)) <> 0 -> i64 (mts - last_mts (sm s)) <> 0 ->
  QUICK_SYNC_ALGO = 0 \/ rate_is_stable (sm s) = true -> starts_over dofg ind (sm s) ->
  PHASE_ADJUSTMENT_BY_FREQ = 0 \/ PHASE_OFFSET_ADJUST_BY_FREQ <= dofg -> USE_HW_PHASE_ADJUSTMENT = 0 \/ d <> 0 ->
  exists s', clock_master_sync_receive_sm_ClockSourceReq s = (s', Ret None) /\ steered (ck s') d tci (i64 (mts - lts)).
Proof.
  intros mts lts dofg [St B En H] G L0 M0 L1 M1 Q So To Hw.
  set (s0 := mkc (sm s <| thisSM; CMSRsm.rcvdClockSourceReq := true |> <| state := RECEIVE_SOURCE_TIME |>
                       <| last_state := RECEIVE_SOURCE_TIME |>) (ck s)).
  assert (H0 : servo_at s0 d tci off) by (destruct H; by split).
  destruct (adopt_receive s0 d tci off ind H0 G eq_refl L0 M0 L1 M1 Q So To Hw) as (s' & E & H').
  eexists. split; [exact (cmsr_request s s' St B En E)|]. destruct H' as [_ _ S']. exact S'.
Qed.

(** ... and the time every application reads *)
Lemma adopted_reads s' d tci mts lts gmcd fd old h w w1 :
  steered s' d tci (i64 (mts - lts)) -> mapped gmcd (GC.gcd s') d fd -> ptpdev_clock_gettime fd w = (Some h, w1) ->
  GMC.gptpmasterclock_get_domain_ts64 old d gmcd w = (Some (i64 (mts + (h - lts))), w1).
Proof.
  intros S' Map Gt. rewrite (steered_reads _ _ _ _ _ _ old h w w1 S' Map Gt).
  assert (E2 : i64 (h + i64 (mts - lts)) = i64 (mts + (h - lts))) by (rewrite swrap_add_r; f_equal; lia).
  exact (f_equal (fun t => (Some t, w1)) E2).
Qed.

(** C16. The grandmaster's time becomes the time of the domain.  ClockMasterSyncReceive waits in a running
    instance whose thisClock is steered in hardware (SLAVE_MAIN), and is given the time [mts] of the
    grandmaster at the local time [lts], neither of them 0 or as at the last call.  The offset mts - lts
    differs from the one in use either by at least 1 ms (PHASE_NEWGM_CRITERION), and this is not the first
    such jump under the grandmaster with which the offset became stable (for that one the code waits for
    a second jump), or by less while an offset is still to be adopted (OFFSET_NOT_ADJ, OFFSET_START_ADJ).
    Then every application that reads the domain at local time [h] gets [mts + (h - lts)].  The offset must
    be looked at at all (QUICK_SYNC_ALGO is 0 or the rate is stable) and go to the clock: not to the
    hardware (USE_HW_PHASE_ADJUSTMENT is 0 or the domain is not 0), and not to the rate, where
    PHASE_ADJUSTMENT_BY_FREQ puts a difference below PHASE_OFFSET_ADJUST_BY_FREQ (as delivered, below
    100 us).  Other offsets are mixed with the one in use, or wait; they are not in this theorem. *)
Theorem gm_time_adopted s d tci off ind :
  let mts := gm_time (ptasg (sm s)) in
  let lts := UNs.nsec (PTASG.syncReceiptLocalTime (ptasg (sm s))) in
  let dofg := Z.abs (i64 (i64 (mts - lts) - offsetGM (sm s))) in
  waiting s d tci off -> gm_ind (ck s) d = Some ind ->
  lts <> 0 -> mts <> 0 -> i64 (lts - last_lts (sm s)) <> 0 -> i64 (mts - last_mts (sm s)) <> 0 ->
  QUICK_SYNC_ALGO = 0 \/ rate_is_stable (sm s) = true -> starts_over dofg ind (sm s) ->
  PHASE_ADJUSTMENT_BY_FREQ = 0 \/ PHASE_OFFSET_ADJUST_BY_FREQ <= dofg -> USE_HW_PHASE_ADJUSTMENT = 0 \/ d <> 0 ->
  exists s', clock_master_sync_receive_sm_ClockSourceReq s = (s', Ret None) /\
  forall gmcd fd old h w w1,
    mapped gmcd (GC.gcd (ck s')) d fd -> ptpdev_clock_gettime fd w = (Some h, w1) ->
    GMC.gptpmasterclock_get_domain_ts64 old d gmcd w = (Some (i64 (mts + (h - lts))), w1).
Proof.
  intros mts lts dofg W G L0 M0 L1 M1 Q So To Hw.
  destruct (adopt_request s d tci off ind W G L0 M0 L1 M1 Q So To Hw) as (s' & E & S').
  exists s'. split; [exact E|]. intros gmcd fd old h w w1. by apply (adopted_reads (ck s') d tci).
Qed.
End Adopt.

(** ** The time at the reception of a Sync *)

Section Receipt.
Import CSS.
Context `{DEV : PtpDev} `{CV : Conversions} `{CF : Config} (ports : Z -> PerPortGlobalForAllDomain).
#[local] Set Default Proof Using "All".

(** the machine has nothing to do *)
Record css_rests (s : clocked data) : Prop := {
  cr_begin : PTASG.BEGIN (ptasg (sm s)) = false;
  cr_enable : PTASG.instanceEnable (ptasg (sm s)) = true;
  cr_state : state (sm s) = INITIALIZING \/ state (sm s) = SEND_SYNC_INDICATION;
  cr_last : last_state (sm s) = state (sm s);
  cr_sync : CSSsm.rcvdPSSync (thisSM (sm s)) = false;
  cr_tick : CSSsm.rcvdLocalClockTick (thisSM (sm s)) = false
}.

Lemma css_proc_run p s :
  RCVD_PSSYNC (sm s) = true -> RCVD_LOCAL_CLOCK_TICK (sm s) = false -> CSSsm.rcvdPSSyncPtr (thisSM (sm s)) = Some p ->
  PSync.localPortIndex p <> 0 -> STATIC_PORT_STATE_SLAVE_PORT <= 0 ->
  send_sync_indication_proc ports s =
  Some (Some (PTASG.syncReceiptTime (record_sync ports p (ptasg (sm s)))),
        mkc (sm s <| ptasg ::= record_sync ports p |> <| thisSM; CSSsm.rcvdPSSync := false |>
                                        <| thisSM; CSSsm.rcvdLocalClockTick := false |>) (ck s)).
Proof.
  intros R T P N St. unfold send_sync_indication_proc. rewrite (pbind_run _ _ s (sm s) s), R, T, P by done.
  rewrite (proj2 (Z.eqb_neq _ _) N). cbn [negb]. unfold static_gm. rewrite (proj2 (Z.ltb_ge _ _) St). reflexivity.
Qed.

(** the evaluation with a PortSyncSync *)
Lemma css_sync_run p s :
  css_rests s -> PSync.localPortIndex p <> 0 -> STATIC_PORT_STATE_SLAVE_PORT <= 0 ->
  let g := record_sync ports p (ptasg (sm s)) in
  exists s', clock_slave_sync_sm_portSyncSync ports p s = (s', Ret (Some (PTASG.syncReceiptTime g))) /\
             ptasg (sm s') = g /\ ck s' = ck s.
Proof.
  destruct s as [[g st ls [rs tick ptr] di] c]. intros [B En St La Rs Rt] N Sp. cbn in B, En, St, La, Rs, Rt. subst rs tick ls. cbv zeta.
  unfold clock_slave_sync_sm_portSyncSync, clock_slave_sync_sm. cbn [sm ck ptasg].
  set (s1 := mkc (mk g SEND_SYNC_INDICATION SEND_SYNC_INDICATION (CSSsm.mk true false (Some p)) di) c).
  pose proof (css_proc_run p s1 eq_refl eq_refl eq_refl N Sp) as E.
  assert (Q : exists s2, loop (M := machine ports) fuel
      (mkc (mk g st st (CSSsm.mk true false (Some p)) di) c) = Some (s2, Ret (Some (PTASG.syncReceiptTime (record_sync ports p g)))) /\
      ptasg (sm s2) = record_sync ports p g /\ ck s2 = c).
  { eexists. split; [|split].
    - destruct St as [-> | ->]; unfold fuel; turn (machine ports); apply (loop_return (M := machine ports));
        (change (pass (M := machine ports) _) with (step (switch ports true) s1)); unfold step, switch;
        rewrite (pbind_run _ _ s1 (sm s1) s1) by reflexivity; change (state (sm s1)) with SEND_SYNC_INDICATION; cbv iota;
        rewrite (pbind_run _ _ _ _ _ E); reflexivity.
    - reflexivity.
    - reflexivity. }
  destruct Q as (s2 & L & G & C). exists s2. split; [|exact (conj G C)].
  apply exec_eq. rewrite <- L.
  match goal with |- loop _ (sm_allstate ?x) = _ => change x with (mkc (mk g st st (CSSsm.mk true false (Some p)) di) c) end.
  f_equal. unfold machine, sm_allstate, set_allstate, allstate_condition. cbn [sm ck ptasg]. rewrite B, En. reflexivity.
Qed.

(** the seconds and nanoseconds the machine keeps *)
Lemma receipt_split t : 0 <= t < 2 ^ 32 * UB_SEC_NS ->
  u32 (t / UB_SEC_NS) * UB_SEC_NS + t mod UB_SEC_NS = t.
Proof.
  intros H. unfold UB_SEC_NS in *. rewrite (wrap_id 32 (t / 1000000000)).
  - rewrite (Z.div_mod t 1000000000) at 3 by lia. lia.
  - split; [apply Z.div_pos; lia|]. apply Z.div_lt_upper_bound; lia.
Qed.

Lemma plus_delay_at delay p i t : PSync.local_ppg p = Some i -> 0 <= t + d_to_uint 64 (delay p (ports i)) < 2 ^ 64 ->
  plus_delay ports delay p t = t + d_to_uint 64 (delay p (ports i)).
Proof. intros E H. unfold plus_delay. rewrite E. by apply wrap_id. Qed.

(** the delay of a link whose neighbor has the rate of the grandmaster and of the local clock *)
Lemma unit_delay p l n :
  PSync.rateRatio p = d1 -> PPGALL.neighborRateRatio l = d1 -> UNs.nsec (PPGALL.delayAsymmetry l) = 0 ->
  UNs.nsec (PPGALL.neighborPropDelay l) = n -> 0 <= n <= 2 ^ 52 ->
  d_to_uint 64 (gm_delay p l) = n /\ d_to_uint 64 (local_delay p l) = n.
Proof.
  intros R1 R2 A N H. unfold gm_delay, local_delay. rewrite R1, R2, A, N.
  assert (D0 : dfinite (ddiv (d_of_Z 0) d1) /\ dval (ddiv (d_of_Z 0) d1) = 0 * 2 ^ 1074) by (apply ddiv_d1; lia).
  assert (F : fits_double (n * 2 ^ 1074)) by (apply fits_double_Z; lia).
  assert (B : fits 64 n) by (unfold fits; lia).
  assert (D1 : ddiv d1 d1 = d1) by reflexivity. rewrite D1, (dmul_comm _ d1).
  destruct (dmul_d1 n) as [F1 V1]; [lia|]. destruct (ddiv_d1 n) as [F2 V2]; [lia|]. destruct D0 as [F0 V0].
  split.
  - destruct (dadd_exact (dmul d1 (d_of_Z n)) (d_of_Z 0)) as [F3 V3]; [done|done|by rewrite V1, Z.add_0_r|].
    apply d_to_uint_exact; [done| |done]. by rewrite V3, V1, Z.add_0_r.
  - destruct (dadd_exact (ddiv (d_of_Z n) d1) (ddiv (d_of_Z 0) d1)) as [F3 V3]; [done|done|by rewrite V2, V0, Z.add_0_r|].
    apply d_to_uint_exact; [done| |done]. by rewrite V3, V2, V0, Z.add_0_r.
Qed.

(** the times the machine keeps of a Sync *)
Lemma record_sync_times p g i t :
  PSync.local_ppg p = Some i ->
  let o := PSync.preciseOriginTimestamp p in
  let gd := d_to_uint 64 (gm_delay p (ports i)) in
  let ld := d_to_uint 64 (local_delay p (ports i)) in
  let lt := UNs.nsec (PSync.upstreamTxTime p) in
  t = U48.lsb (Tstamp.seconds o) * UB_SEC_NS + Tstamp.nanoseconds o + SNs.nsec (PSync.followUpCorrectionField p) + gd ->
  gd <= t < 2 ^ 32 * UB_SEC_NS -> 0 <= lt + ld < 2 ^ 64 ->
  let rt := PTASG.syncReceiptTime (record_sync ports p g) in
  U48.lsb (ExtTs.seconds rt) * UB_SEC_NS + U48m32.msb (ExtTs.fractionalNanoseconds rt) = t /\
  CMSR.gm_time (record_sync ports p g) = t /\
  UNs.nsec (PTASG.syncReceiptLocalTime (record_sync ports p g)) = lt + ld.
Proof.
  intros L o gd ld lt Et Bt Bl.
  pose proof (d_to_uint_fits 64 (gm_delay p (ports i)) ltac:(lia)) as [G0 _]. fold gd in G0.
  assert (O : origin_nsec p = t - gd).
  { unfold origin_nsec. fold o. unfold wrap. rewrite Zplus_mod_idemp_r, <- Z.add_assoc, Zplus_mod_idemp_l.
    transitivity (u64 (t - gd)); [unfold wrap; f_equal; lia|]. apply wrap_id. unfold fits, UB_SEC_NS in *. lia. }
  assert (T : plus_delay ports gm_delay p (origin_nsec p) = t).
  { rewrite (plus_delay_at _ _ i), O; fold gd; [lia|done|]. rewrite O. unfold UB_SEC_NS in *. lia. }
  cbv zeta. assert (Sum : U48.lsb (ExtTs.seconds (PTASG.syncReceiptTime (record_sync ports p g))) * UB_SEC_NS +
                U48m32.msb (ExtTs.fractionalNanoseconds (PTASG.syncReceiptTime (record_sync ports p g))) = t).
  { unfold record_sync. rewrite T. apply receipt_split. lia. }
  split; [exact Sum|split].
  - unfold CMSR.gm_time, wrap. rewrite Zplus_mod_idemp_l, Sum. apply (wrap_id 64). unfold fits, UB_SEC_NS in *. lia.
  - unfold record_sync. cbn. by apply plus_delay_at.
Qed.

(** C17. The time of the reception of a Sync: given a PortSyncSync of a port, ClockSlaveSync returns the
    origin time plus the corrections plus the delay of the link on the grandmaster's clock, keeps it
    as the time of the grandmaster and, with it, the local time of the same event: the local time of
    the Sync's sending plus the delay on the local clock, as long as the seconds stay below 2^32 and the
    local time in 64 bits.  The machine is at rest in a running instance, and no slave port is configured
    statically.  When both rates are 1 and the link is symmetric both delays are the measured delay of the
    link (up to 2^52 ns), to the nanosecond. *)
Theorem receipt_time_of_sync p s i t :
  css_rests s -> PSync.localPortIndex p <> 0 -> STATIC_PORT_STATE_SLAVE_PORT <= 0 -> PSync.local_ppg p = Some i ->
  let o := PSync.preciseOriginTimestamp p in
  let l := ports i in
  let gd := d_to_uint 64 (gm_delay p l) in
  let ld := d_to_uint 64 (local_delay p l) in
  let lt := UNs.nsec (PSync.upstreamTxTime p) in
  t = U48.lsb (Tstamp.seconds o) * UB_SEC_NS + Tstamp.nanoseconds o + SNs.nsec (PSync.followUpCorrectionField p) + gd ->
  gd <= t < 2 ^ 32 * UB_SEC_NS -> 0 <= lt + ld < 2 ^ 64 ->
  (exists s' rt, clock_slave_sync_sm_portSyncSync ports p s = (s', Ret (Some rt)) /\ ck s' = ck s /\
     PTASG.syncReceiptTime (ptasg (sm s')) = rt /\
     U48.lsb (ExtTs.seconds rt) * UB_SEC_NS + U48m32.msb (ExtTs.fractionalNanoseconds rt) = t /\
     CMSR.gm_time (ptasg (sm s')) = t /\ UNs.nsec (PTASG.syncReceiptLocalTime (ptasg (sm s'))) = lt + ld) /\
  (forall n, PSync.rateRatio p = d1 -> PPGALL.neighborRateRatio l = d1 -> UNs.nsec (PPGALL.delayAsymmetry l) = 0 ->
     UNs.nsec (PPGALL.neighborPropDelay l) = n -> 0 <= n <= 2 ^ 52 -> gd = n /\ ld = n).
Proof.
  intros H N Sp L o l gd ld lt Et Bt Bl. split; [|intros n; apply unit_delay].
  destruct (css_sync_run p s H N Sp) as (s' & E & G & C).
  destruct (record_sync_times p (ptasg (sm s)) i t L Et Bt Bl) as (Sum & T & Lt). rewrite <- G in *.
  eexists s', _. split; [exact E|]. by split_and!.
Qed.
End Receipt.
