(* ===== verification/ClockSyncSend.v ===== *)
(** * ClockSyncSend: a grandmaster keeps sending its time.

    ClockMasterSyncSend, evaluated again and again, gives a PortSyncSync whenever
    its send time has come, so that a bound on the time between evaluations bounds
    the time between the messages; the message carries the time an application
    reads from the domain at the same local time. *)

From S2P Require Import Prelude Types Floats Driver Common Clock Gptpclock VirtualClock GptpclockFacts GptpclockTime.
From S2P Require Import ClockSync ClockSyncFacts ClockSyncTime.
From stdpp Require Import list.
Import Eff.
#[local] Open Scope Z_scope.
#[local] Open Scope gptp_scope.

(** ** One evaluation *)

Section Send.
Import CMSS.
Context `{DEV : PtpDev} `{CV : Conversions} `{CF : Config}.
#[local] Set Default Proof Using "All".

(** the machine waits for its send time, with the interval [iv] *)
Record cmss_rests (iv : Z) (s : clocked data) : Prop := {
  sr_begin : PTASG.BEGIN (ptasg (sm s)) = false;
  sr_enable : PTASG.instanceEnable (ptasg (sm s)) = true;
  sr_state : state (sm s) = INITIALIZING \/ state (sm s) = SEND_SYNC_INDICATION;
  sr_last : last_state (sm s) = state (sm s);
  sr_interval : UNs.nsec (PTASG.clockMasterSyncInterval (ptasg (sm s))) = iv;
  sr_clocks : wf (GC.gcd (ck s))
}.

(** the PortSyncSync the proc makes *)
Lemma cmss_proc_run cts64 s : wf (GC.gcd (ck s)) -> exists tx c1 r c2,
  let g := ptasg (sm s) in
  let p := psync_of g tx (snd r) (portSyncSync (sm s)) in
  GC.gptpclock_getts64 (PTASG.thisClockIndex g) (PTASG.domainIndex g) (ck s) = Some (tx, c1) /\
  GC.gptpclock_apply_offset tx 0 (PTASG.domainIndex g) c1 = Some (r, c2) /\ wf (GC.gcd c2) /\
  send_sync_indication_proc cts64 s = Some (p, mkc (initializing_proc cts64 (sm s) <| portSyncSync := p |>) c2).
Proof.
  intros W. destruct s as [d c]. cbn [sm ck] in *.
  destruct (ok_getts64 _ W (PTASG.thisClockIndex (ptasg d)) (PTASG.domainIndex (ptasg d)) c eq_refl) as (tx & c1 & E1 & S1 & _).
  assert (W1 : wf (GC.gcd c1)) by (unfold wf; by rewrite S1).
  destruct (ok_apply_offset _ W1 tx 0 (PTASG.domainIndex (ptasg d)) c1 eq_refl) as (r & c2 & E2 & S2 & _).
  exists tx, c1, r, c2. split_and!; [done..|unfold wf; by rewrite S2|].
  unfold send_sync_indication_proc, setPSSyncCMSS.
  rewrite (pbind_run _ _ _ tt (mkc (initializing_proc cts64 d) c)) by reflexivity.
  rewrite (pbind_run _ _ _ (initializing_proc cts64 d) (mkc (initializing_proc cts64 d) c)) by reflexivity.
  change (ptasg (initializing_proc cts64 d)) with (ptasg d).
  rewrite (pbind_run _ _ _ tx (mkc (initializing_proc cts64 d) c1)) by (unfold gc; cbn [ck]; by rewrite E1).
  rewrite (pbind_run _ _ _ r (mkc (initializing_proc cts64 d) c2)) by (unfold gc; cbn [ck]; by rewrite E2).
  reflexivity.
Qed.

Ltac pass_cond :=
  unfold pass, state_change; cbn;
  rewrite bool_decide_eq_false_2 by naive_solver;
  unfold step, switch, mbind, P_bind, rd, wr, mret, P_ret, set_state, set_last; cbn;
  unfold initializing_condition, send_sync_indication_condition, SYNC_SEND_TIME; cbn.

Lemma cmss_not_due cts64 iv s : cmss_rests iv s -> cts64 < SYNC_SEND_TIME (sm s) ->
  clock_master_sync_send_sm cts64 s = (s, Ret None).
Proof.
  destruct s as [[g st ls [tm px] di p] c]. intros [B En St La _ _] H. cbn in B, En, St, La. subst ls.
  unfold clock_master_sync_send_sm. apply exec_eq.
  assert (A : sm_allstate (StateMachine := machine cts64) (mkc (mk g st st (CMSSsm.mk tm px) di p) c) =
              mkc (mk g st st (CMSSsm.mk tm px) di p) c).
  { unfold machine, sm_allstate, set_allstate, allstate_condition. cbn [sm ck ptasg]. by rewrite B, En. }
  rewrite A. unfold SYNC_SEND_TIME in H. cbn in H.
  unfold fuel. apply (loop_stop (M := machine cts64)); [|done].
  destruct St as [-> | ->]; pass_cond;
    by rewrite (proj2 (Z.leb_gt _ _) H).
Qed.

Lemma cmss_due cts64 iv s : cmss_rests iv s -> SYNC_SEND_TIME (sm s) <= cts64 ->
  exists tx c1 r s',
  let g := ptasg (sm s) in
  let p := psync_of g tx (snd r) (portSyncSync (sm s)) in
  GC.gptpclock_getts64 (PTASG.thisClockIndex g) (PTASG.domainIndex g) (ck s) = Some (tx, c1) /\
  GC.gptpclock_apply_offset tx 0 (PTASG.domainIndex g) c1 = Some (r, ck s') /\
  clock_master_sync_send_sm cts64 s = (s', Ret (Some p)) /\ cmss_rests iv s' /\
  SYNC_SEND_TIME (sm s') = u64 (cts64 + iv) /\ ptasg (sm s') = g.
Proof.
  destruct s as [[g st ls [tm px] di p] c]. intros [B En St La Iv W] H. cbn in B, En, St, La, Iv, W. subst ls.
  set (s1 := mkc (mk g SEND_SYNC_INDICATION SEND_SYNC_INDICATION (CMSSsm.mk tm px) di p) c).
  destruct (cmss_proc_run cts64 s1 W) as (tx & c1 & r & c2 & E1 & E2 & W2 & E). cbn [sm ck ptasg s1] in E1, E2, E.
  exists tx, c1, r. eexists (mkc _ c2). cbn [sm ck ptasg portSyncSync]. split; [exact E1|]. split; [exact E2|].
  split.
  - unfold clock_master_sync_send_sm. apply exec_eq.
    assert (A : sm_allstate (StateMachine := machine cts64) (mkc (mk g st st (CMSSsm.mk tm px) di p) c) =
                mkc (mk g st st (CMSSsm.mk tm px) di p) c).
    { unfold machine, sm_allstate, set_allstate, allstate_condition. cbn [sm ck ptasg]. by rewrite B, En. }
    rewrite A. unfold SYNC_SEND_TIME in H. cbn in H. unfold fuel.
    set (m1 := mkc (mk g SEND_SYNC_INDICATION (if bool_decide (st = INITIALIZING) then INITIALIZING else REACTION) (CMSSsm.mk tm px) di p) c).
    rewrite (loop_turn (M := machine cts64) _ _ m1).
    + apply (loop_return (M := machine cts64)).
      transitivity (step (switch cts64 true) s1); [by destruct St as [-> | ->]|].
      unfold step, switch. rewrite (pbind_run _ _ s1 (sm s1) s1) by reflexivity.
      change (state (sm s1)) with SEND_SYNC_INDICATION. cbv iota. rewrite (pbind_run _ _ _ _ _ E). reflexivity.
    + unfold m1. destruct St as [-> | ->]; (split; [|done]); pass_cond;
        by rewrite (proj2 (Z.leb_le _ _) H).
  - split; [split; cbn; try done; by right|]. split; [|reflexivity]. cbn. by rewrite Iv.
Qed.

(** ** Evaluation after evaluation *)

(** an evaluation: its time, the instance's data and the clocks it finds *)
Definition evaluation : Type := Z * PerTimeAwareSystemGlobal * GC.st.

(** the PortSyncSyncs of the evaluations, each with the time of its evaluation *)
Fixpoint drive (evs : list evaluation) (s : clocked data) : list (Z * PortSyncSync) * clocked data :=
  match evs with
  | [] => ([], s)
  | (t, g, c) :: evs =>
      let (s1, o) := clock_master_sync_send_sm t (mkc (sm s <| ptasg := g |>) c) in
      let (ps, s2) := drive evs s1 in
      (match o with Ret (Some p) => (t, p) :: ps | _ => ps end, s2)
  end.

(** the instance runs with the interval [iv], times are those of 64 bits *)
Definition running (iv : Z) (e : evaluation) : Prop :=
  let '(t, g, c) := e in
  PTASG.BEGIN g = false /\ PTASG.instanceEnable g = true /\
  UNs.nsec (PTASG.clockMasterSyncInterval g) = iv /\ wf (GC.gcd c) /\ 0 <= t /\ t + iv < 2 ^ 64.

(** from [t0] on, no two evaluations are further apart than [gap] *)
Fixpoint paced (gap t0 : Z) (evs : list evaluation) : Prop :=
  match evs with
  | [] => True
  | (t, _, _) :: evs => t0 <= t <= t0 + gap /\ paced gap t evs
  end.

Fixpoint last_time (t0 : Z) (evs : list evaluation) : Z :=
  match evs with [] => t0 | (t, _, _) :: evs => last_time t evs end.

Lemma paced_last gap t0 evs : paced gap t0 evs -> t0 <= last_time t0 evs.
Proof.
  revert t0. induction evs as [|[[t g] c] evs IH]; intros t0; cbn; [lia|].
  intros [H P]. specialize (IH _ P). lia.
Qed.

Lemma rests_env iv s t g c : cmss_rests iv s -> running iv (t, g, c) -> cmss_rests iv (mkc (sm s <| ptasg := g |>) c).
Proof. intros [B En St La Iv W] (B' & En' & Iv' & W' & _). by split. Qed.

(** the sends at the times [ts] until [last]: the first is due at [due], every other one [iv] after
    the one before; each comes within [gap] of the time it is due, none is missing in the end *)
Fixpoint on_time (iv gap due : Z) (ts : list Z) (last : Z) : Prop :=
  match ts with
  | [] => last < due
  | t :: ts => due <= t < due + gap /\ on_time iv gap (t + iv) ts last
  end.

Lemma on_time_apart iv gap due ts last :
  on_time iv gap due ts last ->
  forall i a b, ts !! i = Some a -> ts !! S i = Some b -> a + iv <= b < a + iv + gap.
Proof.
  revert due. induction ts as [|t ts IH]; intros due; [done|]. intros [_ H] [|i] a b; [|by apply (IH _ H)].
  cbn. intros [= <-]. destruct ts as [|u ts]; [done|]. intros [= <-]. by destruct H.
Qed.

(** C18. A grandmaster keeps sending, neither too rarely nor too often: whenever ClockMasterSyncSend is
    evaluated at least every [gap] nanoseconds (at times that grow and do not wrap), whatever happens to
    the clocks in between, it gives a PortSyncSync within [gap] of its first send time; any two in a row
    are at least the interval and less than the interval and one gap apart; and from the last one to the
    last evaluation less than an interval has passed.  The instance is running and keeps its interval,
    and the machine starts with its first send time still to come. *)
Theorem grandmaster_keeps_sending iv gap t0 evs s :
  cmss_rests iv s -> t0 < SYNC_SEND_TIME (sm s) -> 0 < iv -> Forall (running iv) evs -> paced gap t0 evs ->
  let times := (drive evs s).1.*1 in
  on_time iv gap (SYNC_SEND_TIME (sm s)) times (last_time t0 evs) /\
  forall i a b, times !! i = Some a -> times !! S i = Some b -> a + iv <= b < a + iv + gap.
Proof.
  intros R T0 Iv F Pc times.
  assert (O : on_time iv gap (SYNC_SEND_TIME (sm s)) times (last_time t0 evs)); [|exact (conj O (on_time_apart _ _ _ _ _ O))].
  subst times. revert s t0 R T0 F Pc. induction evs as [|[[t g] c] evs IH]; intros s t0 R T0 F Pc; [exact T0|].
  apply Forall_cons in F as [E F]. cbn [paced] in Pc. destruct Pc as [Ht Pc].
  pose proof (rests_env _ _ _ _ _ R E) as R1. destruct E as (_ & _ & _ & _ & T1 & T2).
  cbn [drive last_time]. change (SYNC_SEND_TIME (sm s)) with (SYNC_SEND_TIME (sm (mkc (sm s <| ptasg := g |>) c))) in *.
  set (s0 := mkc (sm s <| ptasg := g |>) c) in *.
  destruct (Z.lt_ge_cases t (SYNC_SEND_TIME (sm s0))) as [D|D].
  - rewrite (cmss_not_due _ _ _ R1 D). specialize (IH s0 t R1 D F Pc). by destruct (drive evs s0).
  - destruct (cmss_due _ _ _ R1 D) as (tx & c1 & r & s1 & _ & _ & E1 & R2 & N1 & _). rewrite E1.
    rewrite (wrap_id 64) in N1 by (unfold fits; lia). specialize (IH s1 t R2 ltac:(lia) F Pc). rewrite N1 in IH.
    destruct (drive evs s1) as [ps s2]. cbn [fst fmap list_fmap] in *. split; [lia|exact IH].
Qed.

(** ** The time a message carries *)

Lemma apply_offset_run ts c d z zod : at_entity c 0 d z zod -> PTPFD_VALID (Od.ptpfd zod) = true ->
  GC.gptpclock_apply_offset ts 0 d c = Some ((0, i64 (ts + Od.offset64 zod)), c).
Proof.
  intros A V. unfold GC.gptpclock_apply_offset. rewrite (bind_run _ _ _ _ _ (clockod_run _ _ _ _ _ A)).
  rewrite (bind_run _ _ _ _ _ (od_at_run _ _ _ (at_data _ _ _ _ _ A))). by rewrite V.
Qed.

(** the seconds and nanoseconds of a time *)
Lemma ts_split t : 0 <= t < 2 ^ 32 * UB_SEC_NS ->
  u32 (Z.quot t UB_SEC_NS) * UB_SEC_NS + u32 (Z.rem t UB_SEC_NS) = t.
Proof.
  intros H. unfold UB_SEC_NS in *. pose proof (Z.quot_rem' t 1000000000). pose proof (Z.rem_bound_pos t 1000000000).
  rewrite !wrap_id; [lia| |]; unfold fits; nia.
Qed.

(** C19. The PortSyncSync of a grandmaster tells one event by two clocks: upstreamTxTime is the time [h]
    thisClock showed and the origin timestamp the time of the domain at that very reading.  When
    thisClock is the main clock, adjusted in hardware (PTPCLOCK_SLAVE_MAIN, without a rate of its own
    in software), this is the time every application gets from the domain when its device shows
    [h].  The machine waits in a running instance and its send time has come; the clocks of the domain
    and their shared data are in order, and the time of the domain is from 0 to 2^32 seconds. *)
Theorem master_sync_is_domain_time cts64 iv s d tci z zod t tod x h w :
  let T := i64 (h + Od.offset64 zod) in
  cmss_rests iv s -> SYNC_SEND_TIME (sm s) <= cts64 ->
  PTASG.domainIndex (ptasg (sm s)) = d -> PTASG.thisClockIndex (ptasg (sm s)) = tci ->
  domain_clocks (ck s) d tci z zod t tod x -> shm_current zod tod x -> Od.mode tod = PTPCLOCK_SLAVE_MAIN ->
  ptpdev_clock_gettime (Od.ptpfd tod) (GC.wrld (ck s)) = (Some h, w) -> 0 <= T < 2 ^ 32 * UB_SEC_NS ->
  exists s' p, clock_master_sync_send_sm cts64 s = (s', Ret (Some p)) /\
    let o := PSync.preciseOriginTimestamp p in
    UNs.nsec (PSync.upstreamTxTime p) = u64 h /\
    U48.lsb (Tstamp.seconds o) * UB_SEC_NS + Tstamp.nanoseconds o = T /\
    forall gmcd fd old w1 w2, mapped gmcd (GC.gcd (ck s')) d fd -> ptpdev_clock_gettime fd w1 = (Some h, w2) ->
      GMC.gptpmasterclock_get_domain_ts64 old d gmcd w1 = (Some T, w2).
Proof.
  intros T R D Hd Ht DC Cur Main G HT.
  destruct (cmss_due cts64 iv s R D) as (tx & c1 & r & s' & E1 & E2 & E & _).
  rewrite Hd, Ht in E1. rewrite Hd in E2.
  rewrite (getts64_run _ _ _ _ _ _ _ (dc_this _ _ _ _ _ _ _ _ DC) G) in E1. injection E1 as E1 <-.
  assert (Tx : tx = i64 h).
  { rewrite <- E1. unfold GC.clock_time, GC.is_mode. rewrite Main, (proj1 (proj1 (proj2 Cur) Main)).
    cbn. by rewrite andb_false_r, !Z.add_0_r, swrap_swrap. }
  pose proof (at_entity_world w _ _ _ _ _ (dc_master _ _ _ _ _ _ _ _ DC)) as M.
  rewrite (apply_offset_run tx _ _ _ _ M (at_open _ _ _ _ _ M)) in E2. injection E2 as Er Ec.
  assert (Ts : snd r = T) by (rewrite <- Er, Tx; cbn; unfold T; by rewrite swrap_add_l).
  rewrite Ts in E. eexists s', _. split; [exact E|]. cbn zeta. split_and!.
  - cbn. rewrite Tx. by rewrite wrap_swrap.
  - cbn. by apply ts_split.
  - intros gmcd fd old w1 w2 Map Gt. unfold T.
    apply (steered_reads (ck s') d tci (Od.offset64 zod) gmcd fd old h w1 w2); [|done..].
    rewrite <- Ec. apply (steered_view (ck s)); [done|]. by exists z, zod, t, tod, x.
Qed.
End Send.

(** ** The hypotheses hold *)

Module ClockSyncWitness.
Import ClockWitness.
#[local] Existing Instances conversions0 config0 ClockWitness.dev.

(** the configuration the program is delivered with *)
#[local] Instance servo0 : ServoConfig := {|
  CLOCK_COMPUTE_INTERVAL_MSEC := 1000; PHASE_OFFSET_IIR_ALPHA_START_VALUE := 2; PHASE_OFFSET_IIR_ALPHA_STABLE_VALUE := 10;
  USE_HW_PHASE_ADJUSTMENT := 0; PHASE_OFFSET_ADJUST_BY_FREQ := 100000; PHASE_ADJUSTMENT_BY_FREQ := 1;
  SKIP_FREQADJ_COUNT_MAX := 2; QUICK_SYNC_ALGO := 0; FREQ_OFFSET_STABLE_PPB := 100;
  FREQ_OFFSET_IIR_ALPHA_START_VALUE := 2; FREQ_OFFSET_IIR_ALPHA_STABLE_VALUE := 10;
  FREQ_OFFSET_TIMELEAP_MAX_JUMP_PPB := 800; FREQ_OFFSET_UPDATE_MRATE_PPB := 10; MAX_ADJUST_RATE_ON_CLOCK := 1000000 |}.

(** the clocks of one domain, thisClock adjusted in hardware *)
Definition calls3 : list clock_call := calls ++ [SetThisClock 1 0 true].
Definition booted3 : option (unit * GC.st) := clock_calls calls3 (GC.mkst (GC.gptpclock_init 1 2) world0 []).
Definition gcd3 : Gd.gptpclock_data := Eval vm_compute in
  match booted3 with Some (_, s) => GC.gcd s | None => GC.gptpclock_init 1 2 end.
Definition world3 : world := Eval vm_compute in match booted3 with Some (_, s) => GC.wrld s | None => world0 end.
Definition db3 : list db_write := Eval vm_compute in match booted3 with Some (_, s) => GC.db s | None => [] end.
Definition c3 : GC.st := GC.mkst gcd3 world3 db3.
Definition zod3 : Od.oneclock_data_t := Eval vm_compute in default (Od.zero (PpEle 0)) (Gd.slots gcd3 !! 0%nat).
Definition tod3 : Od.oneclock_data_t := Eval vm_compute in default (Od.zero (PpEle 0)) (Gd.slots gcd3 !! 1%nat).
Definition pp3 : Pp.gptp_clock_ppara_t := Eval vm_compute in default Pp.zero (GC.shm_entry gcd3 0).

Lemma booted_c3 : clock_calls calls3 (GC.mkst (GC.gptpclock_init 1 2) world0 []) = Some (tt, c3).
Proof. vm_cast_no_check (eq_refl (Some (tt, c3))). Qed.

Lemma wf_c3 : wf (GC.gcd c3).
Proof. apply (wf_after _ _ _ booted_c3); [by apply wf_init|]. repeat constructor; cbn; lia. Qed.

Lemma clocks3 : domain_clocks c3 0 1 0 zod3 1 tod3 pp3.
Proof.
  split; try reflexivity; try discriminate.
  - split; [apply wf_c3| |reflexivity|reflexivity]. split; [cbn; lia|]. eexists. split; [reflexivity|done].
  - split; [apply wf_c3| |reflexivity|reflexivity]. split; [cbn; lia|]. eexists. split; [reflexivity|done].
  - eexists. split; reflexivity.
Qed.

Lemma current3 : shm_current zod3 tod3 pp3.
Proof. split_and!; [reflexivity|split; reflexivity|discriminate]. Qed.

Lemma steered3 : steered c3 0 1 0.
Proof. exists 0%nat, zod3, 1%nat, tod3, pp3. split; [apply clocks3|]. split; [apply current3|]. split; reflexivity. Qed.

(** the instance: a sync interval of 125 ms, the time of a grandmaster 1700000000 s at 5 s local time *)
Definition g3 : PerTimeAwareSystemGlobal :=
  zero <| PTASG.instanceEnable := true |> <| PTASG.thisClockIndex := 1 |>
       <| PTASG.clockMasterSyncInterval; UNs.nsec := 125000000 |>
       <| PTASG.syncReceiptTime ::= fun t => t <| ExtTs.seconds; U48.lsb := 1700000000 |> |>
       <| PTASG.syncReceiptLocalTime; UNs.nsec := 5000000000 |>.

Definition servo3 : clocked CMSR.data :=
  (CMSR.clock_master_sync_receive_sm_ClockSourceReq
     (CMSR.clock_master_sync_receive_sm_init 0 g3 (GC.mkst gcd3 world3 [])).1).1.

Lemma servo3_reached : servo_reach (GC.mkst gcd3 world3 []) servo3.
Proof. apply servo_request, servo_init. Qed.

Lemma rate_limit_witness :
  - MAX_ADJUST_RATE_ON_CLOCK <= CMSR.gmadjppb (sm servo3) <= MAX_ADJUST_RATE_ON_CLOCK.
Proof.
  exact (proj1 (rate_within_limit (GC.mkst gcd3 world3 []) servo3 (Zle_0_pos 1000000) eq_refl servo3_reached)).
Defined.

Definition css3 : clocked CSS.data := mkc (CSS.mk g3 CSS.INITIALIZING CSS.INITIALIZING zero 0) c3.
Definition cmss3 : clocked CMSS.data := mkc (CMSS.mk g3 CMSS.INITIALIZING CMSS.INITIALIZING (CMSSsm.mk (UNs.mk 0 200 0) None) 0 zero) c3.
Definition cmsr3 : clocked CMSR.data := mkc (CMSR.mk g3 CMSR.WAITING CMSR.WAITING zero 0 d1 1000 2000 0 d0 0 false 0 0 (-1) 0 0) c3.

Lemma never_crash_witness : (CMSR.clock_master_sync_receive_sm cmsr3).2 <> Crash.
Proof.
  apply (clock_machines_never_crash (fun _ => zero) 300 css3 cmss3 cmsr3); try discriminate; apply wf_c3.
Defined.

Lemma adopted_witness : exists s', CMSR.clock_master_sync_receive_sm_ClockSourceReq cmsr3 = (s', Ret None).
Proof.
  destruct (gm_time_adopted cmsr3 0 1 0 (i32 (Pp.gmchange_ind pp3))) as (s' & E & _).
  - split; [reflexivity..|]. split; [reflexivity..|]. apply steered3.
  - reflexivity.
  - discriminate.
  - discriminate.
  - discriminate.
  - discriminate.
  - left. reflexivity.
  - left. reflexivity.
  - right. cbn. discriminate.
  - left. reflexivity.
  - exists s'. exact E.
Defined.

Lemma rests3 : cmss_rests 125000000 cmss3.
Proof. split; try reflexivity; [by left|apply wf_c3]. Qed.

(** five evaluations, at most 60 ms apart: Syncs at 150 ns, and 130 ms and 260 ms later *)
Definition evaluations3 : list evaluation :=
  (fun t => (t, g3, c3)) <$> [150; 250; 60000250; 120000250; 130000250; 190000250; 250000250; 260000250].

Lemma keeps_sending_witness :
  (drive evaluations3 cmss3).1.*1 = [250; 130000250; 260000250] /\
  forall i a b, (drive evaluations3 cmss3).1.*1 !! i = Some a -> (drive evaluations3 cmss3).1.*1 !! S i = Some b ->
    a + 125000000 <= b < a + 185000000.
Proof.
  split; [vm_compute; reflexivity|].
  destruct (grandmaster_keeps_sending 125000000 60000000 150 evaluations3 cmss3) as [_ H].
  - apply rests3.
  - reflexivity.
  - reflexivity.
  - unfold evaluations3. apply Forall_fmap, Forall_forall. intros t Ht.
    split; [reflexivity|]. split; [reflexivity|]. split; [reflexivity|]. split; [apply wf_c3|].
    assert (B : 150 <= t <= 260000250); [|lia].
    revert t Ht. apply Forall_forall. repeat constructor; lia.
  - cbn. lia.
  - intros i a b Ha Hb. specialize (H i a b Ha Hb). lia.
Defined.

Definition reading3 : Z * VirtualDev.vworld := Eval vm_compute in
  match ptpdev_clock_gettime (Od.ptpfd tod3) world3 with (Some h, w) => (h, w) | (None, w) => (0, w) end.

Lemma domain_time_witness : exists s' p, CMSS.clock_master_sync_send_sm 300 cmss3 = (s', Ret (Some p)).
Proof.
  destruct (master_sync_is_domain_time 300 125000000 cmss3 0 1 0 zod3 1 tod3 pp3 (fst reading3) (snd reading3))
    as (s' & p & E & _).
  - apply rests3.
  - discriminate.
  - reflexivity.
  - reflexivity.
  - apply clocks3.
  - apply current3.
  - reflexivity.
  - reflexivity.
  - vm_compute. split; [discriminate|reflexivity].
  - exists s', p. exact E.
Defined.

(** a Sync sent at 1700000000 s by a neighbor 300 ns away *)
Definition psync3 : PortSyncSync :=
  zero <| PSync.localPortIndex := 1 |> <| PSync.local_ppg := Some 1 |> <| PSync.rateRatio := d1 |>
       <| PSync.preciseOriginTimestamp; Tstamp.seconds; U48.lsb := 1700000000 |>
       <| PSync.upstreamTxTime; UNs.nsec := 5000000000 |>.
Definition port3 : PerPortGlobalForAllDomain :=
  zero <| PPGALL.neighborRateRatio := d1 |> <| PPGALL.neighborPropDelay; UNs.nsec := 300 |>.

Lemma receipt_witness : exists s' rt,
  CSS.clock_slave_sync_sm_portSyncSync (fun _ => port3) psync3 css3 = (s', Ret (Some rt)) /\
  U48.lsb (ExtTs.seconds rt) * UB_SEC_NS + U48m32.msb (ExtTs.fractionalNanoseconds rt) = 1700000000000000300.
Proof.
  destruct (receipt_time_of_sync (fun _ => port3) psync3 css3 1 1700000000000000300) as [(s' & rt & E & _ & _ & T & _) _].
  - split; try reflexivity. by left.
  - discriminate.
  - discriminate.
  - reflexivity.
  - vm_compute. reflexivity.
  - vm_compute. split; discriminate || reflexivity.
  - vm_compute. split; discriminate || reflexivity.
  - exists s', rt. split; [exact E|exact T].
Defined.
End ClockSyncWitness.
