(* ===== verification/Gptpman.v ===== *)
(** * Gptpman: the machines of one domain, as gptpman.c puts them together.

    gptpman.c calls the machines and hands the results of one to the next.  The
    machines of a domain share the data of the instance, of its ports and of the
    media-dependent entities by pointers, and they share the clocks of gptpclock.c.
    Here the shared data is stored once, in [gptpsm_tasd_t] and [gptpsm_ptd_t]; a
    machine is evaluated on it by loading it into the machine's data, and what the
    evaluation leaves is stored back ([Shared]).

    Modelled is what gptpman.c does in one domain: the branches of gptpnet_cb_recv and
    gptpnet_cb_txts, the body of the loop of gptpnet_cb_timeout, the way of a Sync
    through the ports and the clocks (portSyncSync_for_all), the best-master machines
    (sm_bmcs_perform) and set_asCapable.  The dispatch over the domains is in [Dispatch]. *)

From stdpp Require Import gmap list.
From Stdlib Require Import SpecFloat.
From S2P Require Import Prelude Types Floats Driver Common Clock AnnounceReceive AnnounceInformation.
From S2P Require Import StateSelection AnnounceTransmit IntervalSetting Capable GmStable SyncPath Wire Perfmon Media.
From S2P Require Import MdSyncReceive MdSyncSend PdelayReq PdelayResp Signaling ExtPort.
From S2P Require Import Gptpclock GptpclockStatus ClockSync.
Import Eff.
Import (hints) PAR PAI PSSEL PAT AIS SIS LDIS GCIS GCT GCR GMS PSSR SSS PSSS MDAS MDAR.
Import (hints) SREC SSND PREQ PRSP MSGS MSGR PAIE PSSE GC.
#[local] Open Scope Z_scope.
#[local] Open Scope gptp_scope.

(** the configuration items gptpman.c reads *)
Class ManConfig := {
  SINGLE_CLOCK_MODE : Z;
  MESSAGE_INTERVAL_REQ_LOGSYNC : Z;
  MESSAGE_INTERVAL_REQ_LOGANNOUNCE : Z;
  MESSAGE_INTERVAL_REQ_LOGLINKDELAY : Z
}.

(** ** The data *)

(** what the machines of a port share *)
Module Glob.
Record globals := mk {
  tas : PerTimeAwareSystemGlobal;
  btas : BmcsPerTimeAwareSystemGlobal;
  pp : PerPortGlobal;
  bpp : BmcsPerPortGlobal;
  md : MDEntityGlobal
}.
#[export] Instance eta_globals : Eta globals := fields! mk [tas, btas, pp, bpp, md].
End Glob.
Export (hints) Glob.
Import Glob(globals).

(** a machine's data with the shared data its pointers lead to *)
Class Shared (D : Type) := {
  load : globals -> D -> D;
  store : D -> globals -> globals;
  store_load : forall g d, store (load g d) g = g
}.

#[export] Program Instance shared_PAI : Shared PAI.data := {|
  load g d := d <| PAI.ptasg := Glob.tas g |> <| PAI.bptasg := Glob.btas g |>
                <| PAI.ppg := Glob.pp g |> <| PAI.bppg := Glob.bpp g |>;
  store d g := g <| Glob.tas := PAI.ptasg d |> <| Glob.btas := PAI.bptasg d |>
                 <| Glob.pp := PAI.ppg d |> <| Glob.bpp := PAI.bppg d |>
|}.
Next Obligation. by intros [] []. Qed.

#[export] Program Instance shared_PSSR : Shared PSSR.data := {|
  load g d := d <| PSSR.ptasg := Glob.tas g |> <| PSSR.ppg := Glob.pp g |>;
  store d g := g <| Glob.tas := PSSR.ptasg d |> <| Glob.pp := PSSR.ppg d |>
|}.
Next Obligation. by intros [] []. Qed.

#[export] Program Instance shared_PSSS : Shared PSSS.data := {|
  load g d := d <| PSSS.ptasg := Glob.tas g |> <| PSSS.ppg := Glob.pp g |>;
  store d g := g <| Glob.tas := PSSS.ptasg d |> <| Glob.pp := PSSS.ppg d |>
|}.
Next Obligation. by intros [] []. Qed.

#[export] Program Instance shared_SREC : Shared SREC.data := {|
  load g d := d <| SREC.ptasg := Glob.tas g |> <| SREC.ppg := Glob.pp g |> <| SREC.mdeg := Glob.md g |>;
  store d g := g <| Glob.tas := SREC.ptasg d |> <| Glob.pp := SREC.ppg d |> <| Glob.md := SREC.mdeg d |>
|}.
Next Obligation. by intros [] []. Qed.

#[export] Program Instance shared_SSND : Shared SSND.data := {|
  load g d := d <| SSND.ptasg := Glob.tas g |> <| SSND.ppg := Glob.pp g |> <| SSND.mdeg := Glob.md g |>;
  store d g := g <| Glob.tas := SSND.ptasg d |> <| Glob.pp := SSND.ppg d |> <| Glob.md := SSND.mdeg d |>
|}.
Next Obligation. by intros [] []. Qed.

#[export] Program Instance shared_PAR : Shared PAR.data := {|
  load g d := d <| PAR.ptasg := Glob.tas g |> <| PAR.bptasg := Glob.btas g |> <| PAR.ppg := Glob.pp g |> <| PAR.bppg := Glob.bpp g |>;
  store d g := g <| Glob.tas := PAR.ptasg d |> <| Glob.btas := PAR.bptasg d |> <| Glob.pp := PAR.ppg d |> <| Glob.bpp := PAR.bppg d |>
|}.
Next Obligation. by intros [] []. Qed.

#[export] Program Instance shared_PAT : Shared PAT.data := {|
  load g d := d <| PAT.ptasg := Glob.tas g |> <| PAT.bptasg := Glob.btas g |> <| PAT.ppg := Glob.pp g |> <| PAT.bppg := Glob.bpp g |>;
  store d g := g <| Glob.tas := PAT.ptasg d |> <| Glob.btas := PAT.bptasg d |> <| Glob.pp := PAT.ppg d |> <| Glob.bpp := PAT.bppg d |>
|}.
Next Obligation. by intros [] []. Qed.

#[export] Program Instance shared_PAIE : Shared PAIE.data := {|
  load g d := d <| PAIE.ptasg := Glob.tas g |> <| PAIE.bptasg := Glob.btas g |> <| PAIE.ppg := Glob.pp g |> <| PAIE.bppg := Glob.bpp g |>;
  store d g := g <| Glob.tas := PAIE.ptasg d |> <| Glob.btas := PAIE.bptasg d |> <| Glob.pp := PAIE.ppg d |> <| Glob.bpp := PAIE.bppg d |>
|}.
Next Obligation. by intros [] []. Qed.

#[export] Program Instance shared_AIS : Shared AIS.data := {|
  load g d := d <| AIS.ptasg := Glob.tas g |> <| AIS.ppg := Glob.pp g |> <| AIS.bppg := Glob.bpp g |>;
  store d g := g <| Glob.tas := AIS.ptasg d |> <| Glob.pp := AIS.ppg d |> <| Glob.bpp := AIS.bppg d |>
|}.
Next Obligation. by intros [] []. Qed.

#[export] Program Instance shared_SIS : Shared SIS.data := {|
  load g d := d <| SIS.ptasg := Glob.tas g |> <| SIS.ppg := Glob.pp g |>;
  store d g := g <| Glob.tas := SIS.ptasg d |> <| Glob.pp := SIS.ppg d |>
|}.
Next Obligation. by intros [] []. Qed.

#[export] Program Instance shared_LDIS : Shared LDIS.data := {|
  load g d := d <| LDIS.ptasg := Glob.tas g |> <| LDIS.ppg := Glob.pp g |> <| LDIS.mdeg := Glob.md g |>;
  store d g := g <| Glob.tas := LDIS.ptasg d |> <| Glob.pp := LDIS.ppg d |> <| Glob.md := LDIS.mdeg d |>
|}.
Next Obligation. by intros [] []. Qed.

#[export] Program Instance shared_GCIS : Shared GCIS.data := {|
  load g d := d <| GCIS.ptasg := Glob.tas g |> <| GCIS.ppg := Glob.pp g |>;
  store d g := g <| Glob.tas := GCIS.ptasg d |> <| Glob.pp := GCIS.ppg d |>
|}.
Next Obligation. by intros [] []. Qed.

#[export] Program Instance shared_GCT : Shared GCT.data := {|
  load g d := d <| GCT.ptasg := Glob.tas g |> <| GCT.ppg := Glob.pp g |>;
  store d g := g <| Glob.tas := GCT.ptasg d |> <| Glob.pp := GCT.ppg d |>
|}.
Next Obligation. by intros [] []. Qed.

#[export] Program Instance shared_GCR : Shared GCR.data := {|
  load g d := d <| GCR.ptasg := Glob.tas g |> <| GCR.ppg := Glob.pp g |>;
  store d g := g <| Glob.tas := GCR.ptasg d |> <| Glob.pp := GCR.ppg d |>
|}.
Next Obligation. by intros [] []. Qed.

#[export] Program Instance shared_MDAS : Shared MDAS.data := {|
  load g d := d <| MDAS.ptasg := Glob.tas g |> <| MDAS.ppg := Glob.pp g |> <| MDAS.bppg := Glob.bpp g |>;
  store d g := g <| Glob.tas := MDAS.ptasg d |> <| Glob.pp := MDAS.ppg d |> <| Glob.bpp := MDAS.bppg d |>
|}.
Next Obligation. by intros [] []. Qed.

#[export] Program Instance shared_MDAR : Shared MDAR.data := {|
  load g d := d <| MDAR.ptasg := Glob.tas g |> <| MDAR.ppg := Glob.pp g |>;
  store d g := g <| Glob.tas := MDAR.ptasg d |> <| Glob.pp := MDAR.ppg d |>
|}.
Next Obligation. by intros [] []. Qed.

#[export] Program Instance shared_PREQ : Shared PREQ.data := {|
  load g d := d <| PREQ.ptasg := Glob.tas g |> <| PREQ.ppg := Glob.pp g |> <| PREQ.mdeg := Glob.md g |>;
  store d g := g <| Glob.tas := PREQ.ptasg d |> <| Glob.pp := PREQ.ppg d |> <| Glob.md := PREQ.mdeg d |>
|}.
Next Obligation. by intros [] []. Qed.

#[export] Program Instance shared_PRSP : Shared PRSP.data := {|
  load g d := d <| PRSP.ptasg := Glob.tas g |> <| PRSP.ppg := Glob.pp g |>;
  store d g := g <| Glob.tas := PRSP.ptasg d |> <| Glob.pp := PRSP.ppg d |>
|}.
Next Obligation. by intros [] []. Qed.

#[export] Program Instance shared_MSGS : Shared MSGS.data := {|
  load g d := d <| MSGS.ptasg := Glob.tas g |> <| MSGS.ppg := Glob.pp g |>;
  store d g := g <| Glob.tas := MSGS.ptasg d |> <| Glob.pp := MSGS.ppg d |>
|}.
Next Obligation. by intros [] []. Qed.

#[export] Program Instance shared_MSGR : Shared MSGR.data := {|
  load g d := d <| MSGR.ptasg := Glob.tas g |> <| MSGR.ppg := Glob.pp g |>;
  store d g := g <| Glob.tas := MSGR.ptasg d |> <| Glob.pp := MSGR.ppg d |>
|}.
Next Obligation. by intros [] []. Qed.

Module Ptd.
(** the data of a port and of its machines; the peer delay machines and LinkDelayIntervalSetting exist
    in domain 0 only *)
Record gptpsm_ptd_t := mk {
  ppglb : PerPortGlobal;
  bppglb : BmcsPerPortGlobal;
  mdeglb : MDEntityGlobal;
  mdsrecd : SREC.data;
  pssrecd : PSSR.data;
  psssendd : PSSS.data;
  mdssendd : SSND.data;
  painfd : PAI.data;
  mdpdreqd : option PREQ.data;
  mdpdrespd : option PRSP.data;
  ldisetd : option LDIS.data;
  aisetd : AIS.data;
  parecd : PAR.data;
  paiextd : PAIE.data;
  patransd : PAT.data;
  pssextd : PSSE.data;
  gctransd : GCT.data;
  gcrecd : GCR.data;
  gcinvsetd : GCIS.data;
  sisetd : SIS.data;
  mdansendd : MDAS.data;
  mdanrecd : MDAR.data;
  mdsigsendd : MSGS.data;
  mdsigrecd : MSGR.data
}.
#[export] Instance eta_gptpsm_ptd_t : Eta gptpsm_ptd_t :=
  fields! mk [ppglb, bppglb, mdeglb, mdsrecd, pssrecd, psssendd, mdssendd, painfd, mdpdreqd, mdpdrespd,
              ldisetd, aisetd, parecd, paiextd, patransd, pssextd, gctransd, gcrecd, gcinvsetd, sisetd,
              mdansendd, mdanrecd, mdsigsendd, mdsigrecd].
End Ptd.
Export (hints) Ptd.
Import Ptd(gptpsm_ptd_t).

Module Tasd.
(** the data of a domain, with the clocks (static data of gptpclock.c), the asCapable values written to
    the configuration and the calls to the database of the performance monitor *)
Record gptpsm_tasd_t `{DEV : PtpDev} := mk {
  tasglb : PerTimeAwareSystemGlobal;
  btasglb : BmcsPerTimeAwareSystemGlobal;
  ptds : list gptpsm_ptd_t;
  sssd : SSS.data;
  cmssendd : CMSS.data;
  cssd : CSS.data;
  cmsrecd : CMSR.data;
  cmsoffsetd : CMSO.data;
  pssd : PSSEL.data;
  gmsd : GMS.data;
  clocks : GC.st;
  cfgd : list (Z * Z * bool);
  perfd : list perf_call
}.
#[global] Arguments mk {DEV}.
#[export] Instance eta_gptpsm_tasd_t `{DEV : PtpDev} : Eta gptpsm_tasd_t :=
  fields! mk [tasglb, btasglb, ptds, sssd, cmssendd, cssd, cmsrecd, cmsoffsetd, pssd, gmsd, clocks, cfgd, perfd].
End Tasd.
Export (hints) Tasd.
Import Tasd(gptpsm_tasd_t).

(** ** Evaluations *)

Module Man.
Section Man.
Context `{DEV : PtpDev} `{CV : Conversions} `{CF : Config} `{SC : ServoConfig} `{PL : Platform}
  `{WC : WireConfig} `{ME : Media} `{PD : PerfDb} `{HO : HostOrder} `{MC : ManConfig}.

Definition M (A : Type) : Type := gptpsm_tasd_t -> option (A * gptpsm_tasd_t).
#[export] Instance M_ret : MRet M := fun A a s => Some (a, s).
#[export] Instance M_bind : MBind M := fun A B f m s =>
  match m s with Some (a, s') => f a s' | None => None end.

(** the result of an evaluation; a crash ends everything *)
Definition returned {A R} (o : outcome R) (s : A) : option (option R * A) :=
  match o with Ret r => Some (r, s) | Crash => None end.

Definition globals_of (ta : gptpsm_tasd_t) (p : gptpsm_ptd_t) : globals :=
  Glob.mk (Tasd.tasglb ta) (Tasd.btasglb ta) (Ptd.ppglb p) (Ptd.bppglb p) (Ptd.mdeglb p).

Definition put_globals (pi : nat) (g : globals) (p : gptpsm_ptd_t) (ta : gptpsm_tasd_t) : gptpsm_tasd_t :=
  ta <| Tasd.tasglb := Glob.tas g |> <| Tasd.btasglb := Glob.btas g |>
     <| Tasd.ptds ::= <[pi := p <| Ptd.ppglb := Glob.pp g |> <| Ptd.bppglb := Glob.bpp g |>
                               <| Ptd.mdeglb := Glob.md g |>]> |>.

(** evaluate [f] on the machine [get] of port [pi] *)
Definition on_port {D R} `{Shared D} (get : gptpsm_ptd_t -> D) (put : D -> gptpsm_ptd_t -> gptpsm_ptd_t)
    (f : D -> D * outcome R) (pi : nat) : M (option R) := fun ta =>
  match Tasd.ptds ta !! pi with
  | None => None
  | Some p =>
      let g := globals_of ta p in
      let (d, o) := f (load g (get p)) in
      returned o (put_globals pi (store d g) (put d p) ta)
  end.

(** the device-independent status of the clocks, for the machines that only use that *)
Definition gcd_of (ta : gptpsm_tasd_t) : gptpclock_data := abstract_of (GC.gcd (Tasd.clocks ta)).

Definition on_pssrecd f pi := on_port (R := PortSyncSync) Ptd.pssrecd (fun d p => p <| Ptd.pssrecd := d |>) f pi.
Definition on_psssendd f pi := on_port (R := MDSyncSend) Ptd.psssendd (fun d p => p <| Ptd.psssendd := d |>) f pi.
Definition on_mdsrecd f pi := on_port (R := MDSyncReceive) Ptd.mdsrecd (fun d p => p <| Ptd.mdsrecd := d |>) f pi.
Definition on_mdssendd (f : SSND.data -> SSND.data * outcome unit) (pi : nat) : M (option unit) := fun ta =>
  on_port Ptd.mdssendd (fun d p => p <| Ptd.mdssendd := d |>)
    (fun d => f (d <| SSND.gcd := gcd_of ta |>)) pi ta.
Definition on_painfd f pi := on_port (R := unit) Ptd.painfd (fun d p => p <| Ptd.painfd := d |>) f pi.

(** a machine that the port may not have: evaluating it without one dereferences NULL *)
Definition on_opt_port {D R} `{Shared D} (get : gptpsm_ptd_t -> option D) (put : D -> gptpsm_ptd_t -> gptpsm_ptd_t)
    (f : D -> D * outcome R) (pi : nat) : M (option R) := fun ta =>
  match Tasd.ptds ta !! pi with
  | None => None
  | Some p => match get p with
              | None => None
              | Some d => on_port (fun _ => d) put f pi ta
              end
  end.

Definition on_mdpdreqd f pi := on_opt_port (R := unit) Ptd.mdpdreqd (fun d p => p <| Ptd.mdpdreqd := Some d |>) f pi.
Definition on_mdpdrespd f pi := on_opt_port (R := unit) Ptd.mdpdrespd (fun d p => p <| Ptd.mdpdrespd := Some d |>) f pi.
Definition on_ldisetd f pi := on_opt_port (R := unit) Ptd.ldisetd (fun d p => p <| Ptd.ldisetd := Some d |>) f pi.
Definition on_aisetd f pi := on_port (R := unit) Ptd.aisetd (fun d p => p <| Ptd.aisetd := d |>) f pi.
Definition on_sisetd f pi := on_port (R := unit) Ptd.sisetd (fun d p => p <| Ptd.sisetd := d |>) f pi.
Definition on_parecd f pi := on_port (R := unit) Ptd.parecd (fun d p => p <| Ptd.parecd := d |>) f pi.
Definition on_paiextd f pi := on_port (R := UInteger224) Ptd.paiextd (fun d p => p <| Ptd.paiextd := d |>) f pi.
Definition on_patransd f pi := on_port (R := PTPMsgAnnounce) Ptd.patransd (fun d p => p <| Ptd.patransd := d |>) f pi.
Definition on_gctransd f pi := on_port (R := PTPMsgGPTPCapableTLV) Ptd.gctransd (fun d p => p <| Ptd.gctransd := d |>) f pi.
Definition on_gcrecd f pi := on_port (R := unit) Ptd.gcrecd (fun d p => p <| Ptd.gcrecd := d |>) f pi.
Definition on_gcinvsetd f pi := on_port (R := unit) Ptd.gcinvsetd (fun d p => p <| Ptd.gcinvsetd := d |>) f pi.
Definition on_mdansendd f pi := on_port (R := unit) Ptd.mdansendd (fun d p => p <| Ptd.mdansendd := d |>) f pi.
Definition on_mdanrecd f pi := on_port (R := PTPMsgAnnounce) Ptd.mdanrecd (fun d p => p <| Ptd.mdanrecd := d |>) f pi.
Definition on_mdsigsendd f pi := on_port (R := unit) Ptd.mdsigsendd (fun d p => p <| Ptd.mdsigsendd := d |>) f pi.
Definition on_mdsigrecd f pi := on_port (R := rx_message) Ptd.mdsigrecd (fun d p => p <| Ptd.mdsigrecd := d |>) f pi.

(** the arrays ppglbl and bppglbl point to the data of the ports *)
Definition ppglbl (ta : gptpsm_tasd_t) : list PerPortGlobal := map Ptd.ppglb (Tasd.ptds ta).
Definition bppglbl (ta : gptpsm_tasd_t) : list BmcsPerPortGlobal := map Ptd.bppglb (Tasd.ptds ta).
Definition put_ports (pl : list PerPortGlobal) (bl : list BmcsPerPortGlobal) (ps : list gptpsm_ptd_t)
  : list gptpsm_ptd_t :=
  imap (fun i p => p <| Ptd.ppglb := default (Ptd.ppglb p) (pl !! i) |>
                     <| Ptd.bppglb := default (Ptd.bppglb p) (bl !! i) |>) ps.

Definition on_pssextd (f : PSSE.data -> PSSE.data * outcome unit) (pi : nat) : M (option unit) := fun ta =>
  match Tasd.ptds ta !! pi with
  | None => None
  | Some p =>
      let (d, o) := f (Ptd.pssextd p <| PSSE.ptasg := Tasd.tasglb ta |> <| PSSE.bptasg := Tasd.btasglb ta |>
                         <| PSSE.ppgl := ppglbl ta |> <| PSSE.bppgl := bppglbl ta |>) in
      returned o (ta <| Tasd.tasglb := PSSE.ptasg d |> <| Tasd.btasglb := PSSE.bptasg d |>
                     <| Tasd.ptds ::= fun ps => put_ports (PSSE.ppgl d) (PSSE.bppgl d)
                                         (<[pi := p <| Ptd.pssextd := d |>]> ps) |>)
  end.

(** the calls of gptpclock_set_gmsync and gptpclock_set_gmchange that changed the status *)
Fixpoint replay (evs : list event) : GC.M unit :=
  match evs with
  | [] => mret tt
  | EvGmState d v :: evs => _ ← GC.gptpclock_set_gmsync d v; replay evs
  | EvGmChange d id b :: evs => _ ← GC.gptpclock_set_gmchange d id b; replay evs
  | _ :: evs => replay evs
  end.

(** a machine that changes the status of the clocks *)
Definition replayed {R} (evs : list event) (o : outcome R) (ta : gptpsm_tasd_t) : option (option R * gptpsm_tasd_t) :=
  match replay evs (Tasd.clocks ta) with
  | None => None
  | Some (_, c) => returned o (ta <| Tasd.clocks := c |>)
  end.

Definition on_sssd (f : SSS.data -> SSS.data * outcome PortSyncSync) : M (option PortSyncSync) := fun ta =>
  let (d, o) := f (Tasd.sssd ta <| SSS.ptasg := Tasd.tasglb ta |> <| SSS.gcd := gcd_of ta |>) in
  replayed (Gcd.events (SSS.gcd d)) o (ta <| Tasd.tasglb := SSS.ptasg d |> <| Tasd.sssd := d |>).

Definition on_pssd (f : PSSEL.data -> PSSEL.data * outcome (list Z)) : M (option (list Z)) := fun ta =>
  let (d, o) := f (Tasd.pssd ta <| PSSEL.ptasg := Tasd.tasglb ta |> <| PSSEL.bptasg := Tasd.btasglb ta |>
                     <| PSSEL.ppgl := ppglbl ta |> <| PSSEL.bppgl := bppglbl ta |> <| PSSEL.gcd := gcd_of ta |>) in
  replayed (Gcd.events (PSSEL.gcd d)) o
    (ta <| Tasd.tasglb := PSSEL.ptasg d |> <| Tasd.btasglb := PSSEL.bptasg d |> <| Tasd.pssd := d |>
        <| Tasd.ptds ::= put_ports (PSSEL.ppgl d) (PSSEL.bppgl d) |>).

Definition on_gmsd (f : GMS.data -> GMS.data * outcome unit) : M (option unit) := fun ta =>
  let (d, o) := f (Tasd.gmsd ta <| GMS.ptasg := Tasd.tasglb ta |> <| GMS.gcd := gcd_of ta |>) in
  replayed (Gcd.events (GMS.gcd d)) o (ta <| Tasd.tasglb := GMS.ptasg d |> <| Tasd.gmsd := d |>).

Definition on_cmssendd (f : clocked CMSS.data -> clocked CMSS.data * outcome PortSyncSync)
  : M (option PortSyncSync) := fun ta =>
  let (s, o) := f (mkc (Tasd.cmssendd ta <| CMSS.ptasg := Tasd.tasglb ta |>) (Tasd.clocks ta)) in
  returned o (ta <| Tasd.tasglb := CMSS.ptasg (sm s) |> <| Tasd.cmssendd := sm s |> <| Tasd.clocks := ck s |>).

(** ptds[i].ppglb->forAllDomain *)
Definition ports_of (ta : gptpsm_tasd_t) (i : Z) : PerPortGlobalForAllDomain :=
  match Tasd.ptds ta !! Z.to_nat i with Some p => PPG.forAllDomain (Ptd.ppglb p) | None => zero end.

Definition on_cssd (f : (Z -> PerPortGlobalForAllDomain) -> clocked CSS.data -> clocked CSS.data * outcome ExtendedTimestamp)
  : M (option ExtendedTimestamp) := fun ta =>
  let (s, o) := f (ports_of ta) (mkc (Tasd.cssd ta <| CSS.ptasg := Tasd.tasglb ta |>) (Tasd.clocks ta)) in
  returned o (ta <| Tasd.tasglb := CSS.ptasg (sm s) |> <| Tasd.cssd := sm s |> <| Tasd.clocks := ck s |>).

Definition on_cmsrecd (f : clocked CMSR.data -> clocked CMSR.data * outcome unit) : M (option unit) := fun ta =>
  let (s, o) := f (mkc (Tasd.cmsrecd ta <| CMSR.ptasg := Tasd.tasglb ta |>) (Tasd.clocks ta)) in
  returned o (ta <| Tasd.tasglb := CMSR.ptasg (sm s) |> <| Tasd.cmsrecd := sm s |> <| Tasd.clocks := ck s |>).

Definition on_cmsoffsetd (f : CMSO.data -> CMSO.data * outcome unit) : M (option unit) := fun ta =>
  let (d, o) := f (Tasd.cmsoffsetd ta <| CMSO.ptasg := Tasd.tasglb ta |>) in
  returned o (ta <| Tasd.tasglb := CMSO.ptasg d |> <| Tasd.cmsoffsetd := d |>).

(** a function of gptpclock.c *)
Definition on_clocks {A} (m : GC.M A) : M A := fun ta =>
  match m (Tasd.clocks ta) with Some (a, c) => Some (a, ta <| Tasd.clocks := c |>) | None => None end.

(** ** The Sync path *)

(** the body of the loop of portSyncSync_for_all *)
Definition portSyncSync_for_port (p : PortSyncSync) (cts64 : Z) (pi : nat) : M unit :=
  smretp ← on_psssendd (PSSS.port_sync_sync_send_sm_portSyncSync p cts64) pi;
  _ ← (match smretp with
       | Some m => _ ← on_mdssendd (SSND.md_sync_send_sm_mdSyncSend m cts64) pi; mret tt
       | None => mret tt
       end);
  _ ← on_painfd (fun d => (PAI.port_announce_information_sm_SyncReceiptTimeoutTime p d, Ret None)) pi;
  mret tt.

Fixpoint for_ports (f : nat -> M unit) (pis : list nat) : M unit :=
  match pis with
  | [] => mret tt
  | pi :: pis => _ ← f pi; for_ports f pis
  end.

(** the ports 1 to max_ports - 1 *)
Definition ports_from_1 (ta : gptpsm_tasd_t) : list nat := seq 1 (length (Tasd.ptds ta) - 1).

Definition portSyncSync_for_all (p : PortSyncSync) (cts64 : Z) : M unit := fun ta =>
  (_ ← for_ports (portSyncSync_for_port p cts64) (ports_from_1 ta);
   _ ← on_cssd (fun ports => CSS.clock_slave_sync_sm_portSyncSync ports p);
   _ ← on_cmsrecd CMSR.clock_master_sync_receive_sm_ClockSourceReq;
   _ ← on_cmsoffsetd CMSO.clock_master_sync_offset_sm_SyncReceiptTime;
   mret tt) ta.

Definition update_portSyncSync_for_all (portIndex : nat) (smret : option MDSyncReceive) (cts64 : Z) : M unit :=
  smret ← (match smret with
           | Some m => on_pssrecd (PSSR.port_sync_sync_receive_sm_recvMDSync m cts64) portIndex
           | None => mret None
           end);
  smret ← (match smret with
           | Some p => on_sssd (SSS.site_sync_sync_sm_portSyncSync p cts64)
           | None => mret None
           end);
  match smret with
  | Some p => portSyncSync_for_all p cts64
  | None => mret tt
  end.

(** the receive time in units of thisClock *)
Definition convert_ts (portIndex : nat) (ed : event_data_recv) : M event_data_recv := fun ta =>
  let pi := if SINGLE_CLOCK_MODE =? 0 then Z.of_nat portIndex else 1 in
  (r ← on_clocks (GC.gptpclock_tsconv (ts64 ed) pi 0 (PTASG.thisClockIndex (Tasd.tasglb ta))
                    (PTASG.domainIndex (Tasd.tasglb ta)));
   mret (ev_recv (snd r) (recbptr ed))) ta.

(** gptpnet_cb_recv, case SYNC: the receive time goes to thisClock first *)
Definition recv_sync (portIndex : nat) (ed : event_data_recv) (cts64 : Z) : M unit :=
  ed ← convert_ts portIndex ed;
  smret ← on_mdsrecd (SREC.md_sync_receive_sm_recv_sync ed cts64) portIndex;
  update_portSyncSync_for_all portIndex smret cts64.

(** gptpnet_cb_recv, case FOLLOW_UP *)
Definition recv_follow_up (portIndex : nat) (ed : event_data_recv) (cts64 : Z) : M unit :=
  smret ← on_mdsrecd (SREC.md_sync_receive_sm_recv_fup ed cts64) portIndex;
  update_portSyncSync_for_all portIndex smret cts64.

(** gptpnet_cb_txts, case SYNC *)
Definition txts_sync (portIndex : nat) (ed : event_data_txts) (cts64 : Z) : M unit :=
  _ ← on_mdssendd (SSND.md_sync_send_sm_txts ed cts64) portIndex;
  mret tt.

(** gptpnet_cb_timeout: the Sync of this instance's own clock *)
Definition timeout_sync (cts64 : Z) : M unit :=
  smret ← on_cmssendd (CMSS.clock_master_sync_send_sm cts64);
  smret ← (match smret with
           | Some p => on_sssd (SSS.site_sync_sync_sm_portSyncSync p cts64)
           | None => mret None
           end);
  match smret with
  | Some p => portSyncSync_for_all p cts64
  | None => mret tt
  end.

(** ** asCapable *)

(** is2011Compatible: the peer of domain 0 speaks the 2011 edition *)
Definition is_rxPdelayMsgAre2011Compatible (p : gptpsm_ptd_t) : bool :=
  match Ptd.mdpdreqd p, Ptd.mdpdrespd p with
  | Some q, Some r => PREQ.is2011BackwardCompatible q && PRSP.is2011BackwardCompatible r
  | _, _ => false
  end.

(** the conditions e) and f) of 10.2.5.1 *)
Definition may_be_asCapable (p : gptpsm_ptd_t) : bool :=
  MDEGALL.asCapableAcrossDomains (MDEG.forAllDomain (Ptd.mdeglb p)) &&
  (PPG.neighborGptpCapable (Ptd.ppglb p) || is_rxPdelayMsgAre2011Compatible p).

Definition set_asCapable (pi : nat) : M unit := fun ta =>
  match Tasd.ptds ta !! pi with
  | None => None
  | Some p =>
      let v := may_be_asCapable p in
      if Bool.eqb (PPG.asCapable (Ptd.ppglb p)) v then Some (tt, ta)
      else Some (tt, ta <| Tasd.ptds ::= <[pi := p <| Ptd.ppglb; PPG.asCapable := v |>]> |>
                        <| Tasd.cfgd ::= fun l => l ++ [(PTASG.domainIndex (Tasd.tasglb ta),
                                                         PPG.thisPort (Ptd.ppglb p), v)] |>)
  end.

(** an assignment to the instance's data; a condition on the data of the moment *)
Definition on_tasglb (f : PerTimeAwareSystemGlobal -> PerTimeAwareSystemGlobal) : M unit :=
  fun ta => Some (tt, ta <| Tasd.tasglb ::= f |>).
Definition if_now {A} (c : gptpsm_tasd_t -> bool) (a b : M A) : M A := fun ta => if c ta then a ta else b ta.

(** asCapableOrAll|=ptds[pi].ppglb->asCapable; *)
Definition or_asCapable (pi : nat) : M unit := fun ta =>
  match Tasd.ptds ta !! pi with
  | None => None
  | Some p => on_tasglb (fun g => g <| PTASG.asCapableOrAll ::= fun b => b || PPG.asCapable (Ptd.ppglb p) |>) ta
  end.

(** ** The best-master machines *)

(** one turn of the do-while of sm_bmcs_perform *)
Definition bmcs_round (pi : nat) (cts64 : Z) : M unit :=
  _ ← on_painfd (PAI.port_announce_information_sm cts64) pi;
  smret ← on_pssd (PSSEL.port_state_selection_sm cts64);
  match smret with
  | Some id =>
      _ ← on_gmsd (fun d => (GMS.gm_stable_gm_change id d, Ret None));
      _ ← on_cmsrecd CMSR.clock_master_sync_receive_sm_ClockSourceReq;
      mret tt
  | None => mret tt
  end.

Definition updtInfo (pi : nat) (ta : gptpsm_tasd_t) : bool :=
  match Tasd.ptds ta !! pi with Some p => BPPG.updtInfo (Ptd.bppglb p) | None => false end.

(** the do-while; [None] also when [n] turns do not suffice, which [bmcs_ends] excludes for [bmcs_fuel]
    without a static slave port and with INITIAL_SLAVE_TIME 0; with them the number of turns is not known *)
Fixpoint bmcs_rounds (n : nat) (pi : nat) (cts64 : Z) : M unit :=
  match n with
  | O => fun _ => None
  | S n =>
      _ ← bmcs_round pi cts64;
      if_now (updtInfo pi) (bmcs_rounds n pi cts64) (mret tt)
  end.

Definition bmcs_fuel : nat := 3.

(** the machines of the external port configuration *)
Definition bmcs_external (pi : nat) : M unit :=
  smret ← on_paiextd PAIE.port_announce_information_ext_sm pi;
  _ ← (match smret with
       | Some v => on_pssextd (fun d => (PSSE.port_state_setting_ext_sm_messagePriority v d, Ret None)) pi
       | None => mret None
       end);
  _ ← on_pssextd PSSE.port_state_setting_ext_sm pi;
  mret tt.

(** gptpnet_send_whook(..)==-1 *)
Definition refuses (net : list (list Z)) (f : list Z) : bool := send_whook net f =? -1.

Definition announce_transmit (pi : nat) (cts64 : Z) : M unit :=
  smret ← on_patransd (PAT.port_announce_transmit_sm cts64) pi;
  match smret with
  | Some m => _ ← on_mdansendd (MDAS.md_announce_send_sm_mdAnnouncSend refuses m) pi; mret tt
  | None => mret tt
  end.

Definition sm_bmcs_perform (pi : nat) (cts64 : Z) : M unit :=
  _ ← if_now (fun ta => BPTASG.externalPortConfiguration (Tasd.btasglb ta) =? VALUE_DISABLED)
        (bmcs_rounds bmcs_fuel pi cts64) (bmcs_external pi);
  announce_transmit pi cts64.

Definition sm_bmcs_domain_port_update (pi : nat) (cts64 : Z) : M unit :=
  _ ← on_aisetd AIS.announce_interval_setting_sm pi;
  _ ← on_sisetd SIS.sync_interval_setting_sm pi;
  sm_bmcs_perform pi cts64.

(** ** The timeout *)

(** the peer delay machines of a port of domain 0 *)
Definition timeout_pdelay (cts64 : Z) (pi : nat) : M unit :=
  _ ← on_mdpdreqd (PREQ.md_pdelay_req_sm cts64) pi;
  _ ← on_mdpdrespd (PRSP.md_pdelay_resp_sm cts64) pi;
  _ ← on_ldisetd LDIS.link_delay_interval_setting_sm pi;
  mret tt.

Definition timeout_capable (cts64 : Z) (pi : nat) : M unit :=
  _ ← set_asCapable pi;
  _ ← or_asCapable pi;
  _ ← on_gcinvsetd GCIS.gptp_capable_interval_setting_sm pi;
  smret ← on_gctransd (GCT.gptp_capable_transmit_sm cts64) pi;
  _ ← (match smret with
       | Some m => on_mdsigsendd (MSGS.md_signaling_send_sm_mdSignalingSend (tx_capable m)) pi
       | None => mret None
       end);
  _ ← on_gcrecd (GCR.gptp_capable_receive_sm cts64) pi;
  mret tt.

(** the messages that were not sent at once *)
Definition timeout_deferred (cts64 : Z) (pi : nat) : M unit :=
  _ ← on_mdssendd (SSND.md_sync_send_sm cts64) pi;
  _ ← on_mdansendd (MDAS.md_announce_send_sm refuses) pi;
  _ ← on_mdsigsendd MSGS.md_signaling_send_sm pi;
  _ ← on_mdsrecd (SREC.md_sync_receive_sm cts64) pi;
  mret tt.

Definition port_perfmon (cts64 : Z) (pi : nat) : M unit := fun ta =>
  match Tasd.ptds ta !! pi with
  | None => None
  | Some p =>
      let (ds, l) := gptp_port_perfmon (PPG.perfmonDS (Ptd.ppglb p)) cts64 (Tasd.tasglb ta) (Tasd.perfd ta) in
      Some (tt, ta <| Tasd.ptds ::= <[pi := p <| Ptd.ppglb; PPG.perfmonDS := ds |>]> |> <| Tasd.perfd := l |>)
  end.

Definition clock_perfmon (cts64 : Z) : M unit := fun ta =>
  let (ds, l) := gptp_clock_perfmon (PTASG.perfmonClockDS (Tasd.tasglb ta)) cts64 (Tasd.tasglb ta) (Tasd.perfd ta) in
  Some (tt, ta <| Tasd.tasglb; PTASG.perfmonClockDS := ds |> <| Tasd.perfd := l |>).

(** the body of the loop over the ports; a domain other than the first without a number goes no further *)
Definition timeout_port (di : nat) (cts64 : Z) (pi : nat) : M unit :=
  _ ← timeout_capable cts64 pi;
  _ ← timeout_deferred cts64 pi;
  if_now (fun ta => negb (Nat.eqb di 0) && (PTASG.domainIndex (Tasd.tasglb ta) =? 0)) (mret tt)
    (_ ← sm_bmcs_domain_port_update pi cts64;
     port_perfmon cts64 pi).

(** gptpnet_cb_timeout for the domain [di] *)
Definition timeout_domain (di : nat) (cts64 : Z) : M unit := fun ta =>
  (_ ← (if Nat.eqb di 0 then for_ports (timeout_pdelay cts64) (ports_from_1 ta) else mret tt);
   _ ← timeout_sync cts64;
   _ ← on_tasglb (fun g => g <| PTASG.asCapableOrAll := false |>);
   _ ← for_ports (timeout_port di cts64) (ports_from_1 ta);
   _ ← on_gmsd GMS.gm_stable_sm;
   clock_perfmon cts64) ta.

(** ** The other messages *)

(** gptpnet_cb_recv, cases PDELAY_REQ, PDELAY_RESP and PDELAY_RESP_FOLLOW_UP *)
Definition recv_pdelay_req (portIndex : nat) (ed : event_data_recv) (cts64 : Z) : M unit :=
  ed ← convert_ts portIndex ed;
  _ ← on_mdpdrespd (PRSP.md_pdelay_resp_sm_recv_req ed cts64) portIndex;
  mret tt.
Definition recv_pdelay_resp (portIndex : nat) (ed : event_data_recv) (cts64 : Z) : M unit :=
  ed ← convert_ts portIndex ed;
  _ ← on_mdpdreqd (PREQ.md_pdelay_req_sm_recv_resp ed cts64) portIndex;
  mret tt.
Definition recv_pdelay_resp_fup (portIndex : nat) (ed : event_data_recv) (cts64 : Z) : M unit :=
  _ ← on_mdpdreqd (PREQ.md_pdelay_req_sm_recv_respfup ed cts64) portIndex;
  mret tt.

(** gptpnet_cb_recv, case ANNOUNCE, after md_announce_receive_sm_mdAnnounceRec *)
Definition recv_announce (portIndex : nat) (m : PTPMsgAnnounce) (cts64 : Z) : M unit :=
  _ ← on_parecd (PAR.port_announce_receive_sm_recv_announce m) portIndex;
  sm_bmcs_perform portIndex cts64.

(** the tick for the intervals of the port, the peer delay interval being [pd] *)
Definition port_tick (pi : nat) (tout : Z) : M Z := fun ta =>
  match Tasd.ptds ta !! pi with
  | None => None
  | Some p =>
      match Ptd.ldisetd p with
      | None => None   (* ldisetd->mdeg *)
      | Some _ =>
          Some (adjust_tout_interval tout
                  (UNs.nsec (PPG.syncInterval (Ptd.ppglb p)))
                  (UNs.nsec (BPPG.announceInterval (Ptd.bppglb p)))
                  (UNs.nsec (MDEGALL.pdelayReqInterval (MDEG.forAllDomain (Ptd.mdeglb p))))
                  (UNs.nsec (PPG.gPtpCapableMessageInterval (Ptd.ppglb p))), ta)
      end
  end.

(** gptpnet_cb_recv, case SIGNALING; the new tick of the event loop is returned *)
Definition recv_signaling (portIndex : nat) (ed : event_data_recv) (cts64 tout : Z) : M Z :=
  smret ← on_mdsigrecd (MSGR.md_signaling_receive_sm_mdSignalingRec ed) portIndex;
  match smret with
  | None => mret tout
  | Some (rx_interval_request m) =>
      _ ← on_sisetd (SIS.sync_interval_setting_SignalingMsg3 m) portIndex;
      _ ← on_ldisetd (LDIS.link_delay_interval_setting_SignalingMsg1 m) portIndex;
      _ ← on_aisetd (AIS.announce_interval_setting_sm_SignalingMsg2 m) portIndex;
      port_tick portIndex tout
  | Some (rx_capable m) =>
      _ ← on_gcrecd (GCR.gptp_capable_receive_rcvdSignalingMsg m cts64) portIndex;
      mret tout
  | Some (rx_capable_interval_request m) =>
      _ ← on_gcinvsetd (GCIS.gptp_capable_interval_setting_sm_SignalingMsg4 m) portIndex;
      port_tick portIndex tout
  end.

(** gptpnet_cb_txts, cases PDELAY_REQ and PDELAY_RESP *)
Definition txts_pdelay_req (portIndex : nat) (ed : event_data_txts) (cts64 : Z) : M unit :=
  _ ← on_mdpdreqd (PREQ.md_pdelay_req_sm_txts ed cts64) portIndex;
  mret tt.
Definition txts_pdelay_resp (portIndex : nat) (ed : event_data_txts) (cts64 : Z) : M unit :=
  _ ← on_mdpdrespd (PRSP.md_pdelay_resp_sm_txts ed cts64) portIndex;
  mret tt.
End Man.
End Man.
Export (hints) Man.
