(* ===== verification/Dispatch.v ===== *)
(** * Dispatch: the events of the network and the domains, gptpnet_cb of gptpman.c.

    The instance is the array of its domains ([gptpman_data]).  The clocks of
    gptpclock.c and what the ports of all domains share are stored once, with
    domain 0; a function of [Gptpman] runs on a domain with the shared data
    loaded, and what it leaves is stored back ([at_domain]).  A domain that was
    never initialised is [None], and its pointers are NULL. *)

From stdpp Require Import gmap list.
From S2P Require Import Prelude Types Floats Driver Common Clock Wire Perfmon Media Mind.
From S2P Require Import PdelayReq PdelayResp IntervalSetting Signaling Gptpclock ClockSync Gptpman.
Import Eff.
Import (hints) GC.
Import Ptd(gptpsm_ptd_t).
Import Tasd(gptpsm_tasd_t).
#[local] Open Scope Z_scope.
#[local] Open Scope gptp_scope.

Definition CB_DUPLEX_FULL : Z := 1.
Definition GPTPNET_INTERVAL_GRANULARITY_NSEC : Z := 7812500.

(** GPTP_ALIGN_TIME of an unsigned 64-bit time *)
Definition GPTP_ALIGN_TIME (x : Z) : Z :=
  u64 (u64 (x + GPTPNET_INTERVAL_GRANULARITY_NSEC / 2) / GPTPNET_INTERVAL_GRANULARITY_NSEC
       * GPTPNET_INTERVAL_GRANULARITY_NSEC).

(** gptpnet_event_t with the data of the event *)
Inductive gptpnet_event_t :=
| GPTPNET_EVENT_NONE
| GPTPNET_EVENT_TIMEOUT
| GPTPNET_EVENT_DEVUP (speed duplex : Z)
| GPTPNET_EVENT_DEVDOWN
| GPTPNET_EVENT_RECV (msgtype domain : Z) (ed : event_data_recv)
| GPTPNET_EVENT_TXTS (msgtype domain : Z) (ed : event_data_txts)
| GPTPNET_EVENT_GUARDUP
| GPTPNET_EVENT_GUARDDOWN
| GPTPNET_EVENT_TX_MSG_INTERVAL_REQ.

Module Gpm.
(** [tout] is the tick of the event loop, gpnetd->tout_interval *)
Record gptpman_data `{DEV : PtpDev} := mk {
  tasds : list (option gptpsm_tasd_t);
  tout : Z
}.
#[global] Arguments mk {DEV}.
#[export] Instance eta_gptpman_data `{DEV : PtpDev} : Eta gptpman_data := fields! mk [tasds, tout].

Section Gpm.
Context `{DEV : PtpDev} `{CV : Conversions} `{CF : Config} `{SC : ServoConfig} `{PL : Platform}
  `{WC : WireConfig} `{ME : Media} `{PD : PerfDb} `{HO : HostOrder} `{MC : ManConfig}.

Definition M (A : Type) : Type := gptpman_data -> option (A * gptpman_data).
#[export] Instance M_ret : MRet M := fun A a s => Some (a, s).
#[export] Instance M_bind : MBind M := fun A B f m s =>
  match m s with Some (a, s') => f a s' | None => None end.

(** ** The domains *)

Definition share_port (p0 p : gptpsm_ptd_t) : gptpsm_ptd_t :=
  p <| Ptd.ppglb; PPG.forAllDomain := PPG.forAllDomain (Ptd.ppglb p0) |>
    <| Ptd.mdeglb; MDEG.forAllDomain := MDEG.forAllDomain (Ptd.mdeglb p0) |>.

(** what is stored with the domain [t0], as the domain [t] sees it *)
Definition share (t0 t : gptpsm_tasd_t) : gptpsm_tasd_t :=
  t <| Tasd.clocks := Tasd.clocks t0 |>
    <| Tasd.ptds ::= imap (fun i p => match Tasd.ptds t0 !! i with Some p0 => share_port p0 p | None => p end) |>.

Definition domain (s : gptpman_data) (di : nat) : option gptpsm_tasd_t := mjoin (tasds s !! di).

Definition put_domain (di : nat) (t : gptpsm_tasd_t) (s : gptpman_data) : gptpman_data :=
  s <| tasds ::= <[di := Some t]> |>.

Definition at_domain {A} (di : nat) (m : Man.M A) : M A := fun s =>
  match domain s 0, domain s di with
  | Some t0, Some t =>
      match m (share t0 t) with
      | None => None
      | Some (a, t') =>
          if Nat.eqb di 0 then Some (a, put_domain 0 t' s)
          else Some (a, put_domain di t' (put_domain 0 (share t' t0) s))
      end
  | _, _ => None
  end.

Definition if_now {A} (c : gptpman_data -> bool) (a b : M A) : M A := fun s => if c s then a s else b s.

(** for(..) *)
Fixpoint for_ {T} (f : T -> M unit) (l : list T) : M unit :=
  match l with
  | [] => mret tt
  | x :: l => _ ← f x; for_ f l
  end.

(** for(di=0;di<gpmand->max_domains;di++) *)
Definition for_domains (f : nat -> M unit) : M unit := fun s => for_ f (seq 0 (length (tasds s))) s.

(** DOMAIN_DATA_EXIST *)
Definition if_exists (di : nat) (m : M unit) : M unit := if_now (fun s => bool_decide (is_Some (domain s di))) m (mret tt).

(** the first domain with the number *)
Fixpoint find_domain (domainIndex : Z) (i : nat) (l : list (option gptpsm_tasd_t)) : option nat :=
  match l with
  | [] => None
  | o :: l =>
      if match o with Some t => PTASG.domainIndex (Tasd.tasglb t) =? domainIndex | None => false end
      then Some i else find_domain domainIndex (S i) l
  end.

(** domain 0 is always index 0 *)
Definition get_domain_index (domainIndex : Z) (s : gptpman_data) : option nat :=
  if domainIndex =? 0 then Some O else find_domain domainIndex 0 (tasds s).

(** ** asCapable *)

(** the value for the port, and asCapableOrAll of the same domain *)
Definition update_asCapable (portIndex : nat) : Man.M unit :=
  _ ← Man.set_asCapable portIndex; Man.or_asCapable portIndex.

(** only the domain of the event starts with FALSE *)
Definition update_asCapable_for_all (domainIndex portIndex : nat) : M unit :=
  _ ← at_domain domainIndex (Man.on_tasglb (fun g => g <| PTASG.asCapableOrAll := false |>));
  for_domains (fun di => if_exists di (at_domain di (update_asCapable portIndex))).

(** ** The events *)

Definition set_portOper (portIndex : nat) (v : bool) : Man.M unit := fun ta =>
  match Tasd.ptds ta !! portIndex with
  | None => None
  | Some p => Some (tt, ta <| Tasd.ptds ::= <[portIndex := p <| Ptd.ppglb; PPG.forAllDomain; PPGALL.portOper := v |>]> |>)
  end.

Definition lose_asCapableAcrossDomains (portIndex : nat) : Man.M unit := fun ta =>
  match Tasd.ptds ta !! portIndex with
  | None => None
  | Some p => Some (tt, ta <| Tasd.ptds ::= <[portIndex :=
                          p <| Ptd.mdeglb; MDEG.forAllDomain; MDEGALL.asCapableAcrossDomains := false |>]> |>)
  end.

(** a domain other than the first without a number is passed over *)
Definition numbered (di : nat) (s : gptpman_data) : bool :=
  match domain s di with
  | Some t => Nat.eqb di 0 || negb (PTASG.domainIndex (Tasd.tasglb t) =? 0)
  | None => false
  end.

Definition gptpnet_cb_devup (portIndex : nat) (speed duplex cts64 : Z) : M unit :=
  if (duplex =? CB_DUPLEX_FULL) && negb (speed <? 100) then
    _ ← at_domain 0 (set_portOper portIndex true);
    for_domains (fun di => if_now (numbered di)
      (_ ← update_asCapable_for_all di portIndex;
       at_domain di (Man.sm_bmcs_domain_port_update portIndex cts64)) (mret tt))
  else mret tt.

(** tasds[di].ptds[portIndex].ppglb->asCapable, without a test that the domain exists *)
Definition drop_asCapable (portIndex : nat) : Man.M unit := fun ta =>
  match Tasd.ptds ta !! portIndex with
  | None => None
  | Some p =>
      if negb (PPG.asCapable (Ptd.ppglb p)) then Some (tt, ta)
      else Some (tt, ta <| Tasd.ptds ::= <[portIndex := p <| Ptd.ppglb; PPG.asCapable := false |>]> |>
                        <| Tasd.cfgd ::= fun l => l ++ [(PTASG.domainIndex (Tasd.tasglb ta), Z.of_nat portIndex, false)] |>)
  end.

Definition gptpnet_cb_devdown (portIndex : nat) : M unit :=
  _ ← at_domain 0 (_ ← set_portOper portIndex false; lose_asCapableAcrossDomains portIndex);
  for_domains (fun di => at_domain di (drop_asCapable portIndex)).

Definition gptpnet_cb_timeout (cts64 : Z) : M unit :=
  for_domains (fun di => if_exists di (at_domain di (Man.timeout_domain di cts64))).

(** the new tick *)
Definition with_tick (m : Z -> M Z) : M unit := fun s =>
  match m (tout s) s with Some (t, s') => Some (tt, s' <| tout := t |>) | None => None end.

Definition gptpnet_cb_recv (portIndex : nat) (msgtype domainNumber : Z) (ed : event_data_recv) (cts64 : Z) : M unit := fun s =>
  match get_domain_index domainNumber s with
  | None => Some (tt, s)
  | Some di =>
      (if msgtype =? SYNC then at_domain di (Man.recv_sync portIndex ed cts64)
       else if msgtype =? PDELAY_REQ then
         if Nat.eqb di 0 then at_domain 0 (Man.recv_pdelay_req portIndex ed cts64) else mret tt
       else if msgtype =? PDELAY_RESP then
         if Nat.eqb di 0 then
           _ ← at_domain 0 (Man.recv_pdelay_resp portIndex ed cts64); update_asCapable_for_all di portIndex
         else mret tt
       else if msgtype =? FOLLOW_UP then at_domain di (Man.recv_follow_up portIndex ed cts64)
       else if msgtype =? PDELAY_RESP_FOLLOW_UP then
         if Nat.eqb di 0 then
           _ ← at_domain 0 (Man.recv_pdelay_resp_fup portIndex ed cts64); update_asCapable_for_all di portIndex
         else mret tt
       else if msgtype =? ANNOUNCE then
         smret ← at_domain 0 (Man.on_mdanrecd (MDAR.md_announce_receive_sm_mdAnnounceRec (recbptr ed)) portIndex);
         match smret with
         | Some m => at_domain di (Man.recv_announce portIndex m cts64)
         | None => mret tt
         end
       else if msgtype =? SIGNALING then
         with_tick (fun t => at_domain di (Man.recv_signaling portIndex ed cts64 t))
       else mret tt) s
  end.

Definition gptpnet_cb_txts (portIndex : nat) (msgtype domainNumber : Z) (ed : event_data_txts) (cts64 : Z) : M unit := fun s =>
  match get_domain_index domainNumber s with
  | None => Some (tt, s)
  | Some di =>
      (if msgtype =? SYNC then at_domain di (Man.txts_sync portIndex ed cts64)
       else if msgtype =? PDELAY_REQ then
         if Nat.eqb di 0 then at_domain 0 (Man.txts_pdelay_req portIndex ed cts64) else mret tt
       else if msgtype =? PDELAY_RESP then
         if Nat.eqb di 0 then at_domain 0 (Man.txts_pdelay_resp portIndex ed cts64) else mret tt
       else mret tt) s
  end.

(** ** The message interval request *)

(** what a slave port changes at once when it asks its master for other intervals *)
Definition adjust_pdelay (logPdelay : Z) (a : MDEntityGlobalForAllDomain) : MDEntityGlobalForAllDomain :=
  if LOG_INTERVAL_IN_RESERVED_RANGE logPdelay then a
  else if logPdelay =? 126 then
    a <| MDEGALL.currentLogPdelayReqInterval := MDEGALL.initialLogPdelayReqInterval a |>
      <| MDEGALL.pdelayReqInterval; UNs.nsec := LOG_TO_NSEC (MDEGALL.initialLogPdelayReqInterval a) |>
  else if logPdelay =? -128 then a
  else a <| MDEGALL.currentLogPdelayReqInterval := logPdelay |>
         <| MDEGALL.pdelayReqInterval; UNs.nsec := LOG_TO_NSEC logPdelay |>.

Definition adjust_sync_tout (logSync : Z) (p : PerPortGlobal) : PerPortGlobal :=
  if LOG_INTERVAL_IN_RESERVED_RANGE logSync || (logSync =? -128) then p
  else p <| PPG.syncReceiptTimeoutTimeInterval; UNs.nsec :=
              u64 (PPG.syncReceiptTimeout p * LOG_TO_NSEC (if logSync =? 126 then PPG.initialLogSyncInterval p else logSync)) |>.

Definition adjust_announce_tout (logAnnounce : Z) (b : BmcsPerPortGlobal) : BmcsPerPortGlobal :=
  if LOG_INTERVAL_IN_RESERVED_RANGE logAnnounce || (logAnnounce =? -128) then b
  else b <| BPPG.announceReceiptTimeoutTimeInterval; UNs.nsec :=
              u64 (BPPG.announceReceiptTimeout b *
                   LOG_TO_NSEC (if logAnnounce =? 126 then BPPG.initialLogAnnounceInterval b else logAnnounce)) |>.

(** ldisetd is NULL in a domain other than 0 *)
Definition gptpnet_adjust_glb_interval_and_tout (pi : nat) (logSync logAnnounce logPdelay : Z) : Man.M unit := fun ta =>
  if negb (aget 0 (PTASG.selectedState (Tasd.tasglb ta)) (Z.of_nat pi) =? SlavePort) then Some (tt, ta)
  else
    match Tasd.ptds ta !! pi with
    | None => None
    | Some p =>
        if bool_decide (Ptd.ldisetd p = None) && negb (LOG_INTERVAL_IN_RESERVED_RANGE logPdelay) && negb (logPdelay =? -128)
        then None
        else Some (tt, ta <| Tasd.ptds ::= <[pi :=
               p <| Ptd.mdeglb; MDEG.forAllDomain ::= adjust_pdelay logPdelay |>
                 <| Ptd.ppglb ::= adjust_sync_tout logSync |>
                 <| Ptd.bppglb ::= adjust_announce_tout logAnnounce |>]> |>)
    end.

(** the tick for the peer delay interval of the port *)
Definition pdelay_tick (pi : nat) (t : Z) : Man.M Z := fun ta =>
  match Tasd.ptds ta !! pi with
  | None => None
  | Some p =>
      match Ptd.ldisetd p with
      | None => None
      | Some _ =>
          Some (adjust_tout_interval t U64_MAX U64_MAX
                  (UNs.nsec (MDEGALL.pdelayReqInterval (MDEG.forAllDomain (Ptd.mdeglb p)))) U64_MAX, ta)
      end
  end.

(** [tout0] is the tick at the start of the request *)
Definition request_intervals (logSync logAnnounce logPdelay tout0 : Z) (pi : nat) : Man.M Z :=
  _ ← gptpnet_adjust_glb_interval_and_tout pi logSync logAnnounce logPdelay;
  _ ← Man.on_mdsigsendd (fun d =>
        let (d, m) := MSGS.md_signaling_send_set_msg_interval_req logSync logAnnounce logPdelay d in
        MSGS.md_signaling_send_sm_mdSignalingSend (tx_interval_request m) d) pi;
  pdelay_tick pi tout0.

Definition request_port (tout0 : Z) (di pi : nat) : M unit := fun s =>
  match at_domain di (request_intervals (i8 MESSAGE_INTERVAL_REQ_LOGSYNC) (i8 MESSAGE_INTERVAL_REQ_LOGANNOUNCE)
                        (i8 MESSAGE_INTERVAL_REQ_LOGLINKDELAY) tout0 pi) s with
  | None => None
  | Some (t, s') => Some (tt, if t =? tout0 then s' else s' <| tout := t |>)
  end.

Definition ports_of_domain (di : nat) (s : gptpman_data) : list nat :=
  match domain s di with Some t => Man.ports_from_1 t | None => [] end.

Definition gptpnet_tx_msg_interval_req : M unit := fun s =>
  for_domains (fun di => if_exists di (fun s1 => for_ (request_port (tout s) di) (ports_of_domain di s1) s1)) s.

(** ** gptpnet_cb *)

Definition gptpnet_cb (portIndex : nat) (event : gptpnet_event_t) (event_ts64 : Z) : M unit :=
  let cts64 := GPTP_ALIGN_TIME (u64 event_ts64) in
  match event with
  | GPTPNET_EVENT_NONE => mret tt
  | GPTPNET_EVENT_TIMEOUT => gptpnet_cb_timeout cts64
  | GPTPNET_EVENT_DEVUP speed duplex => gptpnet_cb_devup portIndex speed duplex cts64
  | GPTPNET_EVENT_DEVDOWN => gptpnet_cb_devdown portIndex
  | GPTPNET_EVENT_RECV msgtype domainNumber ed => gptpnet_cb_recv portIndex msgtype domainNumber ed cts64
  | GPTPNET_EVENT_TXTS msgtype domainNumber ed => gptpnet_cb_txts portIndex msgtype domainNumber ed cts64
  | GPTPNET_EVENT_GUARDUP => at_domain 0 (set_portOper portIndex true)
  | GPTPNET_EVENT_GUARDDOWN => at_domain 0 (set_portOper portIndex false)
  | GPTPNET_EVENT_TX_MSG_INTERVAL_REQ => gptpnet_tx_msg_interval_req
  end.
End Gpm.
End Gpm.
Export (hints) Gpm.
