(* ===== verification/GptpmanFacts.v ===== *)
(** * GptpmanFacts: a Sync from the slave port becomes the time of the domain.

    The Sync path of [Gptpman], from the MDSyncReceive of the slave port to the
    time an application reads: what the machines of the other ports leave alone,
    and the composition of the machines of the site and of the clocks. *)

From Stdlib Require Import SpecFloat.
From S2P Require Import Prelude Types Floats Driver Common Clock AnnounceReceive AnnounceInformation.
From S2P Require Import StateSelection AnnounceTransmit IntervalSetting Capable GmStable SyncPath Wire Media.
From S2P Require Import MdSyncReceive MdSyncSend PdelayReq PdelayResp Signaling ExtPort Gptpclock VirtualClock.
From S2P Require Import GptpclockFacts GptpclockTime GptpclockStatus ClockSync ClockSyncFacts ClockSyncTime ClockSyncSend Gptpman.
From stdpp Require Import list.
Import Eff.
Import (hints) PAI PSSR SSS PSSS SREC SSND PREQ PRSP GC.
Import Glob(globals).
Import Ptd(gptpsm_ptd_t).
Import Tasd(gptpsm_tasd_t).
#[local] Open Scope Z_scope.
#[local] Open Scope gptp_scope.

(** ** What the machines of a port leave alone *)

Section PortFrames.
Context `{CV : Conversions} `{CF : Config} `{PL : Platform} `{WC : WireConfig} `{ME : Media}.
#[local] Set Default Proof Using "All".

(** the instance and what all domains share of the port *)
Definition psss_view (d : PSSS.data) : PerTimeAwareSystemGlobal * PerPortGlobalForAllDomain :=
  (PSSS.ptasg d, PPG.forAllDomain (PSSS.ppg d)).
Definition ssnd_view (d : SSND.data) : PerTimeAwareSystemGlobal * PerPortGlobalForAllDomain :=
  (SSND.ptasg d, PPG.forAllDomain (SSND.ppg d)).

Lemma psss_frame cts64 p d :
  let r := PSSS.port_sync_sync_send_sm_portSyncSync p cts64 d in psss_view r.1 = psss_view d /\ r.2 <> Crash.
Proof.
  unfold PSSS.port_sync_sync_send_sm_portSyncSync. set (d0 := d <| PSSS.thisSM; PSSSsm.rcvdPSSync := true |> <| PSSS.thisSM; PSSSsm.rcvdPSSyncPtr := Some p |>).
  pose (Inv := fun s => psss_view s = psss_view d /\ is_Some (PSSSsm.rcvdPSSyncPtr (PSSS.thisSM s))).
  apply (exec_hoare (M := PSSS.machine cts64) Inv (fun s o => psss_view s = psss_view d /\ o <> Crash)).
  - rewrite PSSS.psss_ends. by eexists.
  - cbn. unfold PSSS.set_allstate, PSSS.allstate_condition. repeat destruct_cond; by split; [|eexists].
  - intros s s' c [V [q Q]]. rewrite PSSS.psss_pass_eq.
    destruct s as [pt pp st ls th di pi ms]. unfold PSSS.switch, PSSS.set_last. cbn in Q.
    unfold PSSS.transmit_init_condition, PSSS.sync_receipt_timeout_condition, PSSS.wait_condition, PSSS.send_md_sync_proc,
      PSSS.send_md_sync_condition, PSSS.send_recorded, deref, PSSS.transmit_init_proc, PSSS.sync_receipt_timeout_proc. cbn. rewrite Q.
    intros H. destruct st; try case_bool_decide; cbn in H; rewrite ?Q in H; cbn in H; repeat case_match; revert V; simplify_eq; intros V; cbn;
      try (destruct (bool_decide _)); (split; [exact V|first [done|by eexists]]).
Qed.

(** a Sync machine that can send: a message is noted and the network is there *)
Definition sending (v : PerTimeAwareSystemGlobal * PerPortGlobalForAllDomain) (s : SSND.data) : Prop :=
  ssnd_view s = v /\ is_Some (SSND.rcvdMDSyncPtr s) /\ is_Some (SSND.gpnetd s).

Lemma send_frame_sending v f cts64 s : sending v s -> sending v (SSND.send_sync_frame f cts64 s).1.
Proof.
  intros (V & Q & [net N]). unfold SSND.send_sync_frame, SSND.sync_sent. rewrite N.
  destruct f as [f|]; [|split; [done|split; [done|by eexists]]].
  destruct (send_whook net f =? -1); [split; [done|split; [done|by eexists]]|].
  destruct (_ <? 0); (split; [exact V|split; [exact Q|]]); cbn; rewrite N; by eexists.
Qed.

Lemma two_step_sending v m cts64 s : sending v s -> sending v (SSND.send_sync_two_step_proc m cts64 s).1.
Proof.
  intros H. unfold SSND.send_sync_two_step_proc, SSND.setSyncTwoStep_txSync.
  match goal with |- context [SSND.send_sync_frame ?f ?c ?x] =>
    pose proof (send_frame_sending v f c x H) as H1; destruct (SSND.send_sync_frame f c x) as [s1 res] end.
  by destruct (res <? 0).
Qed.

Lemma one_step_sending v m cts64 s : sending v s -> sending v (SSND.send_sync_one_step_proc m cts64 s).
Proof.
  intros H. unfold SSND.send_sync_one_step_proc, SSND.setSyncOneStep.
  match goal with |- context [SSND.send_sync_frame ?f ?c ?x] =>
    pose proof (send_frame_sending v f c x H) as H1; destruct (SSND.send_sync_frame f c x) as [s1 res] end.
  by destruct (negb _).
Qed.

Lemma follow_up_sending v m s : sending v s ->
  exists s1 res, SSND.send_follow_up_proc m s = Some (s1, res) /\ sending v s1.
Proof.
  intros (V & Q & [net N]). unfold SSND.send_follow_up_proc, SSND.setFollowUp_txFollowUp. cbn [SSND.gpnetd upd].
  change (SSND.gpnetd (s <| SSND.thisSM; MDSSsm.rcvdMDTimestampReceive := false |>)) with (SSND.gpnetd s). rewrite N.
  destruct (_ =? -1); cbn; eexists _, _; (split; [reflexivity|]); split; [exact V| |exact V|]; (split; [exact Q|]); [by eexists|by eexists].
Qed.

Lemma ssnd_pass_sending v cts64 s s' c : sending v s -> pass (M := SSND.machine cts64) s = (s', c) ->
  sending v s' /\ match c with Next => True | Leave o => o <> Crash end.
Proof.
  rewrite SSND.ssnd_pass_eq. intros H E.
  assert (H0 : sending v (SSND.set_last (SSND.state s) s)) by exact H.
  revert H0 E. generalize (bool_decide (SSND.last_state s <> SSND.state s)) (SSND.set_last (SSND.state s) s).
  clear H s. intros b s H. destruct (proj1 (proj2 H)) as [m Q].
  unfold SSND.switch. destruct (SSND.state s) eqn:St; cbn.
  - by intros [= <- <-].
  - destruct b; by intros [= <- <-].
  - destruct b; [|unfold SSND.send_sync_two_step_condition; repeat destruct_cond; by intros [= <- <-]].
    unfold deref. rewrite Q. pose proof (two_step_sending v m cts64 s H) as H1.
    destruct (SSND.send_sync_two_step_proc m cts64 s) as [s1 res]. destruct (res <? 0); by intros [= <- <-].
  - destruct b; [|by intros [= <- <-]].
    unfold deref. rewrite Q. destruct (follow_up_sending v m s H) as (s1 & res & -> & H1).
    destruct (res <? 0); by intros [= <- <-].
  - destruct b; [|by intros [= <- <-]].
    unfold deref. rewrite Q. pose proof (one_step_sending v m cts64 s H) as H1. by intros [= <- <-].
  - destruct b; by intros [= <- <-].
  - by intros [= <- <-].
Qed.

Lemma ssnd_run cts64 v s : sending v s ->
  let r := SSND.md_sync_send_sm cts64 s in sending v r.1 /\ r.2 <> Crash.
Proof.
  intros H. unfold SSND.md_sync_send_sm.
  apply (exec_hoare (M := SSND.machine cts64) (sending v) (fun s o => sending v s /\ o <> Crash)).
  - apply SSND.md_sync_send_ends.
  - cbn. unfold SSND.set_allstate, SSND.allstate_condition. by destruct_cond.
  - intros s1 s2 c H1 P. destruct (ssnd_pass_sending v cts64 s1 s2 c H1 P) as [H2 Hc].
    destruct c as [|o]; [by destruct (bool_decide _)|done].
Qed.
End PortFrames.

(** ** A Sync sent to every port *)

Section ForPorts.
Import Man.
Context `{DEV : PtpDev} `{CV : Conversions} `{CF : Config} `{SC : ServoConfig} `{PL : Platform} `{WC : WireConfig} `{ME : Media}.
#[local] Set Default Proof Using "All".

Lemma mbind_run {A B} (m : M A) (f : A -> M B) s a s' : m s = Some (a, s') -> (m ≫= f) s = f a s'.
Proof using Type. intros E. unfold mbind, M_bind. by rewrite E. Qed.

(** all but what the sending machines of the ports own *)
Definition site_view (ta : gptpsm_tasd_t) :=
  (Tasd.tasglb ta, Tasd.sssd ta, Tasd.cmssendd ta, Tasd.cssd ta, Tasd.cmsrecd ta, Tasd.cmsoffsetd ta, Tasd.clocks ta,
   map (fun p => PPG.forAllDomain (Ptd.ppglb p)) (Tasd.ptds ta)).

(** every port has its driver *)
Definition nets_open (ta : gptpsm_tasd_t) : Prop :=
  Forall (fun p => is_Some (SSND.gpnetd (Ptd.mdssendd p))) (Tasd.ptds ta).

(** ... and the site is as in [ta0] *)
Definition as_in (ta0 ta : gptpsm_tasd_t) : Prop := site_view ta = site_view ta0 /\ nets_open ta.

Lemma on_port_run {D R} `{Shared D} (get : gptpsm_ptd_t -> D) put (f : D -> D * outcome R) pi ta p d r :
  Tasd.ptds ta !! pi = Some p -> f (load (globals_of ta p) (get p)) = (d, Ret r) ->
  on_port get put f pi ta = Some (r, put_globals pi (store d (globals_of ta p)) (put d p) ta).
Proof using Type. intros E F. unfold on_port. by rewrite E, F. Qed.

Lemma put_as_in ta0 ta pi p q g :
  as_in ta0 ta -> Tasd.ptds ta !! pi = Some p ->
  Glob.tas g = Tasd.tasglb ta -> PPG.forAllDomain (Glob.pp g) = PPG.forAllDomain (Ptd.ppglb p) ->
  is_Some (SSND.gpnetd (Ptd.mdssendd q)) -> as_in ta0 (put_globals pi g q ta).
Proof.
  intros [V N] E T F Q. split.
  - rewrite <- V. unfold site_view, put_globals. cbn. rewrite T. f_equal.
    rewrite list_fmap_insert. apply list_insert_id. rewrite list_lookup_fmap, E. cbn. by rewrite F.
  - unfold nets_open, put_globals. cbn. by apply Forall_insert.
Qed.

Lemma as_in_port ta0 ta pi : as_in ta0 ta -> (pi < length (Tasd.ptds ta0))%nat ->
  exists p, Tasd.ptds ta !! pi = Some p /\ is_Some (SSND.gpnetd (Ptd.mdssendd p)).
Proof.
  intros [V N] L. unfold site_view in V. injection V as _ _ _ _ _ _ _ V.
  assert (Len : length (Tasd.ptds ta) = length (Tasd.ptds ta0)) by (apply (f_equal length) in V; by rewrite !length_map in V).
  destruct (lookup_lt_is_Some_2 (Tasd.ptds ta) pi ltac:(lia)) as [p E]. exists p. split; [done|].
  exact (Forall_lookup_1 _ _ _ _ N E).
Qed.

Lemma psssendd_as_in ta0 ta p cts64 pi : as_in ta0 ta -> (pi < length (Tasd.ptds ta0))%nat ->
  exists r ta', on_psssendd (PSSS.port_sync_sync_send_sm_portSyncSync p cts64) pi ta = Some (r, ta') /\ as_in ta0 ta'.
Proof.
  intros A L. destruct (as_in_port ta0 ta pi A L) as (q & E & Q).
  pose proof (psss_frame cts64 p (load (globals_of ta q) (Ptd.psssendd q))) as [V C].
  destruct (PSSS.port_sync_sync_send_sm_portSyncSync p cts64 (load (globals_of ta q) (Ptd.psssendd q))) as [d o] eqn:R.
  destruct o as [r|]; [|done]. exists r. eexists. split; [by apply on_port_run|].
  unfold psss_view in V. cbn in V. injection V as V1 V2. by apply (put_as_in ta0 ta pi q).
Qed.

Lemma mdssendd_as_in ta0 ta m cts64 pi : as_in ta0 ta -> (pi < length (Tasd.ptds ta0))%nat ->
  exists r ta', on_mdssendd (SSND.md_sync_send_sm_mdSyncSend m cts64) pi ta = Some (r, ta') /\ as_in ta0 ta'.
Proof.
  intros A L. destruct (as_in_port ta0 ta pi A L) as (q & E & Q).
  unfold on_mdssendd, SSND.md_sync_send_sm_mdSyncSend.
  set (d0 := load (globals_of ta q) (Ptd.mdssendd q) <| SSND.gcd := gcd_of ta |> <| SSND.thisSM; MDSSsm.rcvdMDSync := true |>
               <| SSND.rcvdMDSyncPtr := Some m |>).
  pose proof (ssnd_run cts64 (ssnd_view d0) d0) as [[V [_ N]] C]; [split; [done|split; [by eexists|exact Q]]|].
  destruct (SSND.md_sync_send_sm cts64 d0) as [d o] eqn:R. destruct o as [r|]; [|done].
  exists r. eexists. split; [by apply on_port_run|].
  unfold ssnd_view in V. cbn in V. injection V as V1 V2. by apply (put_as_in ta0 ta pi q).
Qed.

Lemma painfd_as_in ta0 ta p pi : as_in ta0 ta -> (pi < length (Tasd.ptds ta0))%nat ->
  exists r ta', on_painfd (fun d => (PAI.port_announce_information_sm_SyncReceiptTimeoutTime p d, Ret None)) pi ta = Some (r, ta') /\ as_in ta0 ta'.
Proof.
  intros A L. destruct (as_in_port ta0 ta pi A L) as (q & E & Q).
  eexists None, _. split; [by apply on_port_run|]. by apply (put_as_in ta0 ta pi q).
Qed.

Lemma for_port_as_in ta0 ta p cts64 pi : as_in ta0 ta -> (pi < length (Tasd.ptds ta0))%nat ->
  exists ta', portSyncSync_for_port p cts64 pi ta = Some (tt, ta') /\ as_in ta0 ta'.
Proof.
  intros A L. unfold portSyncSync_for_port.
  destruct (psssendd_as_in ta0 ta p cts64 pi A L) as (r & ta1 & E1 & A1). rewrite (mbind_run _ _ _ _ _ E1).
  assert (Q : exists ta2, (match r with
      | Some m => _ ← on_mdssendd (SSND.md_sync_send_sm_mdSyncSend m cts64) pi; mret tt
      | None => mret tt end) ta1 = Some (tt, ta2) /\ as_in ta0 ta2).
  { destruct r as [m|]; [|by exists ta1].
    destruct (mdssendd_as_in ta0 ta1 m cts64 pi A1 L) as (r & ta2 & E2 & A2). exists ta2.
    by rewrite (mbind_run _ _ _ _ _ E2). }
  destruct Q as (ta2 & E2 & A2). rewrite (mbind_run _ _ _ _ _ E2).
  destruct (painfd_as_in ta0 ta2 p pi A2 L) as (r3 & ta3 & E3 & A3). rewrite (mbind_run _ _ _ _ _ E3). by exists ta3.
Qed.

Lemma for_ports_as_in ta0 p cts64 pis ta : as_in ta0 ta -> Forall (fun pi => (pi < length (Tasd.ptds ta0))%nat) pis ->
  exists ta', for_ports (portSyncSync_for_port p cts64) pis ta = Some (tt, ta') /\ as_in ta0 ta'.
Proof.
  intros A F. revert ta A. induction F as [|pi pis L F IH]; intros ta A; [by exists ta|].
  cbn [for_ports]. destruct (for_port_as_in ta0 ta p cts64 pi A L) as (ta1 & E1 & A1).
  rewrite (mbind_run _ _ _ _ _ E1). by apply IH.
Qed.

Lemma all_ports_as_in p cts64 ta : nets_open ta ->
  exists ta', for_ports (portSyncSync_for_port p cts64) (ports_from_1 ta) ta = Some (tt, ta') /\ as_in ta ta'.
Proof.
  intros N. apply for_ports_as_in; [done|]. apply Forall_forall. intros pi H.
  apply elem_of_seq in H. lia.
Qed.
End ForPorts.

(** ** The clocks *)

Section Clocks.
Import Man.
Context `{DEV : PtpDev} `{CV : Conversions} `{CF : Config} `{SC : ServoConfig} `{PL : Platform} `{WC : WireConfig} `{ME : Media}.
#[local] Set Default Proof Using "All".

Lemma cmso_returns d : (CMSO.clock_master_sync_offset_sm d).2 = Ret None.
Proof.
  pose proof (cmso_ends d) as T. unfold CMSO.clock_master_sync_offset_sm in *.
  apply (exec_hoare (M := CMSO.machine) (fun _ => True) (fun _ o => o = Ret None)); [by rewrite T|done|].
  intros s s' c _. unfold pass. cbn [sm_switch CMSO.machine]. unfold CMSO.switch, CMSO.send_sync_indication_condition.
  intros H. repeat case_match; simplify_eq; by try destruct (bool_decide _).
Qed.

(** a running domain with steered clocks, whose machines wait for a Sync *)
Record ready (ta : gptpsm_tasd_t) (d tci off : Z) : Prop := {
  rd_nets : nets_open ta;
  rd_css : css_rests (mkc (Tasd.cssd ta <| CSS.ptasg := Tasd.tasglb ta |>) (Tasd.clocks ta));
  rd_cmsr : waiting (mkc (Tasd.cmsrecd ta <| CMSR.ptasg := Tasd.tasglb ta |>) (Tasd.clocks ta)) d tci off
}.

(** the servo takes the time [mts] at [lts] over as it is *)
Record takes_over (ta : gptpsm_tasd_t) (d ind mts lts : Z) : Prop := {
  to_ind : gm_ind (Tasd.clocks ta) d = Some ind;
  to_lts : lts <> 0 /\ i64 (lts - CMSR.last_lts (Tasd.cmsrecd ta)) <> 0;
  to_mts : mts <> 0 /\ i64 (mts - CMSR.last_mts (Tasd.cmsrecd ta)) <> 0;
  to_rate : QUICK_SYNC_ALGO = 0 \/ CMSR.rate_is_stable (Tasd.cmsrecd ta) = true;
  to_offset : let dofg := Z.abs (i64 (i64 (mts - lts) - CMSR.offsetGM (Tasd.cmsrecd ta))) in
    starts_over dofg ind (Tasd.cmsrecd ta) /\ (PHASE_ADJUSTMENT_BY_FREQ = 0 \/ PHASE_OFFSET_ADJUST_BY_FREQ <= dofg);
  to_software : USE_HW_PHASE_ADJUSTMENT = 0 \/ d <> 0
}.

Lemma ports_of_view ta ta' i : map (fun p => PPG.forAllDomain (Ptd.ppglb p)) (Tasd.ptds ta') =
  map (fun p => PPG.forAllDomain (Ptd.ppglb p)) (Tasd.ptds ta) -> ports_of ta' i = ports_of ta i.
Proof.
  intros H. apply (f_equal (fun l => l !! Z.to_nat i)) in H. rewrite !list_lookup_fmap in H. unfold ports_of.
  destruct (Tasd.ptds ta' !! _), (Tasd.ptds ta !! _); cbn in H; congruence.
Qed.

(** the times of the Sync [p]: of the grandmaster at its reception, and of thisClock *)
Definition gm_receipt (l : PerPortGlobalForAllDomain) (p : PortSyncSync) : Z :=
  let o := PSync.preciseOriginTimestamp p in
  U48.lsb (Tstamp.seconds o) * UB_SEC_NS + Tstamp.nanoseconds o + SNs.nsec (PSync.followUpCorrectionField p) +
  d_to_uint 64 (CSS.gm_delay p l).
Definition local_receipt (l : PerPortGlobalForAllDomain) (p : PortSyncSync) : Z :=
  UNs.nsec (PSync.upstreamTxTime p) + d_to_uint 64 (CSS.local_delay p l).

Record sync_in_range (l : PerPortGlobalForAllDomain) (p : PortSyncSync) : Prop := {
  ir_port : PSync.localPortIndex p <> 0;
  ir_gm : d_to_uint 64 (CSS.gm_delay p l) <= gm_receipt l p < 2 ^ 32 * UB_SEC_NS;
  ir_local : 0 <= local_receipt l p < 2 ^ 64
}.

Lemma clocks_take_over ta p i d tci off ind :
  let l := ports_of ta i in
  ready ta d tci off -> STATIC_PORT_STATE_SLAVE_PORT <= 0 -> PSync.local_ppg p = Some i -> sync_in_range l p ->
  takes_over ta d ind (gm_receipt l p) (local_receipt l p) ->
  exists ta',
    (_ ← on_cssd (fun ports => CSS.clock_slave_sync_sm_portSyncSync ports p);
     _ ← on_cmsrecd CMSR.clock_master_sync_receive_sm_ClockSourceReq;
     _ ← on_cmsoffsetd CMSO.clock_master_sync_offset_sm_SyncReceiptTime; mret tt) ta = Some (tt, ta') /\
    steered (Tasd.clocks ta') d tci (i64 (gm_receipt l p - local_receipt l p)).
Proof.
  intros l [_ Hc Hr] St Pi [Np Bg Bl] [Gi [L0 L1] [M0 M1] Rt [So Fr] Sw].
  destruct (css_sync_run (ports_of ta) p _ Hc Np St) as (s1 & E1 & G1 & C1).
  assert (Q1 : on_cssd (fun ports => CSS.clock_slave_sync_sm_portSyncSync ports p) ta =
    Some (Some (PTASG.syncReceiptTime (CSS.record_sync (ports_of ta) p (Tasd.tasglb ta))),
          ta <| Tasd.tasglb := CSS.ptasg (sm s1) |> <| Tasd.cssd := sm s1 |> <| Tasd.clocks := ck s1 |>)).
  { unfold on_cssd. rewrite E1. reflexivity. }
  rewrite (mbind_run _ _ _ _ _ Q1). clear Q1. set (ta1 := ta <| Tasd.tasglb := _ |> <| Tasd.cssd := _ |> <| Tasd.clocks := _ |>).
  cbn [sm ck CSS.ptasg upd] in G1, C1.
  destruct (record_sync_times (ports_of ta) p (Tasd.tasglb ta) i (gm_receipt l p) Pi eq_refl Bg Bl) as (_ & T & Lt).
  fold (local_receipt l p) in Lt.
  set (s2 := mkc (Tasd.cmsrecd ta1 <| CMSR.ptasg := Tasd.tasglb ta1 |>) (Tasd.clocks ta1)).
  assert (G2 : CMSR.ptasg (sm s2) = CSS.record_sync (ports_of ta) p (Tasd.tasglb ta)) by exact G1.
  assert (W2 : waiting s2 d tci off).
  { destruct Hr as [W B En [D Ti S]]. split; [exact W|rewrite G2; exact B|rewrite G2; exact En|].
    split; [rewrite G2; exact D|rewrite G2; exact Ti|]. change (ck s2) with (ck s1). rewrite C1. exact S. }
  rewrite <- G2 in T, Lt.
  destruct (adopt_request s2 d tci off ind W2) as (s3 & E3 & S3);
    rewrite ?T, ?Lt; try done; [change (ck s2) with (ck s1); rewrite C1; exact Gi|].
  rewrite T, Lt in S3.
  assert (Q2 : on_cmsrecd CMSR.clock_master_sync_receive_sm_ClockSourceReq ta1 =
    Some (None, ta1 <| Tasd.tasglb := CMSR.ptasg (sm s3) |> <| Tasd.cmsrecd := sm s3 |> <| Tasd.clocks := ck s3 |>)).
  { unfold on_cmsrecd. fold s2. rewrite E3. reflexivity. }
  rewrite (mbind_run _ _ _ _ _ Q2). clear Q2. set (ta2 := ta1 <| Tasd.tasglb := _ |> <| Tasd.cmsrecd := _ |> <| Tasd.clocks := _ |>).
  unfold CMSO.clock_master_sync_offset_sm_SyncReceiptTime.
  match goal with |- context [on_cmsoffsetd ?f] => set (fo := f) end.
  assert (Q3 : exists ta3, on_cmsoffsetd fo ta2 = Some (None, ta3) /\ Tasd.clocks ta3 = ck s3).
  { unfold on_cmsoffsetd, fo.
    match goal with |- context [CMSO.clock_master_sync_offset_sm ?x] => pose proof (cmso_returns x) as R;
      destruct (CMSO.clock_master_sync_offset_sm x) as [d3 o3] end.
    cbn in R. subst o3. eexists. split; reflexivity. }
  destruct Q3 as (ta3 & E4 & C4). rewrite (mbind_run _ _ _ _ _ E4). exists ta3. split; [reflexivity|]. by rewrite C4.
Qed.

Lemma for_all_takes_over ta p i cts64 d tci off ind :
  let l := ports_of ta i in
  ready ta d tci off -> STATIC_PORT_STATE_SLAVE_PORT <= 0 -> PSync.local_ppg p = Some i -> sync_in_range l p ->
  takes_over ta d ind (gm_receipt l p) (local_receipt l p) ->
  exists ta', portSyncSync_for_all p cts64 ta = Some (tt, ta') /\
    steered (Tasd.clocks ta') d tci (i64 (gm_receipt l p - local_receipt l p)).
Proof.
  intros l R St Pi Rg To. destruct (all_ports_as_in p cts64 ta (rd_nets _ _ _ _ R)) as (ta1 & E1 & [V N]).
  unfold portSyncSync_for_all. rewrite (mbind_run _ _ _ _ _ E1).
  unfold site_view in V. injection V as V1 V2 V3 V4 V5 V6 V7 V8.
  pose proof (ports_of_view ta ta1 i V8) as Pl. fold l in Pl. rewrite <- Pl in *.
  apply (clocks_take_over ta1 p i d tci off ind); [|done..|].
  - destruct R as [_ R1 R2]. split; [done|by rewrite V1, V4, V7|by rewrite V1, V5, V7].
  - destruct To. split; by rewrite ?V5, ?V7.
Qed.
End Clocks.

(** ** The whole path *)

Section Path.
Import Man.
Context `{DEV : PtpDev} `{CV : Conversions} `{CF : Config} `{SC : ServoConfig} `{PL : Platform} `{WC : WireConfig} `{ME : Media}.
#[local] Set Default Proof Using "All".

(** the instance's data but for parentLogSyncInterval, which a Sync sets *)
Definition glob_view (g : PerTimeAwareSystemGlobal) : PerTimeAwareSystemGlobal := g <| PTASG.parentLogSyncInterval := 0 |>.

Lemma glob_view_field {A} (f : PerTimeAwareSystemGlobal -> A) g g' :
  (forall g, f (glob_view g) = f g) -> glob_view g = glob_view g' -> f g = f g'.
Proof. intros F E. by rewrite <- (F g), <- (F g'), E. Qed.

Lemma pssr_frame cts64 m d :
  let r := PSSR.port_sync_sync_receive_sm_recvMDSync m cts64 d in
  glob_view (PSSR.ptasg r.1) = glob_view (PSSR.ptasg d) /\
  PPG.forAllDomain (PSSR.ppg r.1) = PPG.forAllDomain (PSSR.ppg d).
Proof.
  unfold PSSR.port_sync_sync_receive_sm_recvMDSync, PSSR.port_sync_sync_receive_sm. set (d0 := _ <| PSSR.last_state := PSSR.REACTION |>).
  pose (Inv := fun s => glob_view (PSSR.ptasg s) = glob_view (PSSR.ptasg d) /\ PPG.forAllDomain (PSSR.ppg s) = PPG.forAllDomain (PSSR.ppg d)).
  apply (exec_hoare (M := PSSR.machine cts64) Inv (fun s _ => Inv s)).
  - rewrite PSSR.pssr_ends. by eexists.
  - cbn. unfold PSSR.set_allstate, PSSR.allstate_condition. by destruct_cond.
  - intros s s' c [V F]. rewrite PSSR.pssr_pass_eq. destruct s as [pt pp st ls th di pi ps]. unfold PSSR.switch, PSSR.set_last, deref, PSSR.received_sync_proc, PSSR.received_sync.
    intros H. assert (I : Inv s'); [|destruct c as [|o]; [destruct (bool_decide (sm_last s' = sm_state s')); exact I|exact I]].
    destruct st; cbn in H; repeat case_match; revert V F; simplify_eq; intros V F; by split.
Qed.

Lemma sss_frame cts64 p d : STATIC_PORT_STATE_SLAVE_PORT <= 0 ->
  let r := SSS.site_sync_sync_sm_portSyncSync p cts64 d in
  glob_view (SSS.ptasg r.1) = glob_view (SSS.ptasg d) /\ SSS.gcd r.1 = SSS.gcd d.
Proof.
  intros St. unfold SSS.site_sync_sync_sm_portSyncSync, SSS.site_sync_sync_sm. set (d0 := _ <| SSS.thisSM; SSSsm.rcvdPSSyncPtr := Some p |>).
  pose (Inv := fun s => glob_view (SSS.ptasg s) = glob_view (SSS.ptasg d) /\ SSS.gcd s = SSS.gcd d).
  apply (exec_hoare (M := SSS.machine cts64) Inv (fun s _ => Inv s)).
  - rewrite SSS.sss_ends. by eexists.
  - cbn. unfold SSS.set_allstate, SSS.allstate_condition. by destruct_cond.
  - intros s s' c [V F]. rewrite SSS.sss_pass_eq. destruct s as [pt st ls th di ps t1 t2 cd]. cbn [SSS.last_state SSS.state].
    assert (Ct : forall x, Inv x -> Inv (SSS.check_site_timeout cts64 x)).
    { intros x X. unfold SSS.check_site_timeout. rewrite (proj2 (Z.ltb_ge _ _) St). by destruct (_ && _). }
    assert (Rc : forall x, Inv x -> Inv (SSS.receiving_sync_condition cts64 x).1).
    { intros x X. unfold SSS.receiving_sync_condition, deref.
      destruct (SSS.RCVD_PSSYNC x); [|by apply Ct]. destruct (SSSsm.rcvdPSSyncPtr _); [|done]. destruct (SSSsm.txPSSyncPtrSSS _); [|done].
      refine (Ct (SSS.receive_again cts64 _ x) _). unfold SSS.receive_again. repeat destruct_cond; exact X. }
    intros H. assert (I : Inv s'); [|destruct c as [|o]; [destruct (bool_decide (sm_last s' = sm_state s')); exact I|exact I]].
    assert (X : Inv (SSS.set_last st (SSS.mk pt st ls th di ps t1 t2 cd))) by (split; [exact V|exact F]).
    revert X H. generalize (SSS.set_last st (SSS.mk pt st ls th di ps t1 t2 cd)) (bool_decide (ls <> st)). clear -Rc.
    intros x b X H. unfold SSS.switch, SSS.initializing_condition, deref in H. destruct (SSS.state x).
    + by injection H as <- <-.
    + destruct b; repeat case_match; by injection H as <- <-.
    + destruct b.
      * destruct (SSSsm.rcvdPSSyncPtr _) as [q|]; [|by injection H as <- <-]. unfold SSS.receiving_sync_proc in H. cbv beta iota zeta in H.
        match type of H with context [SSS.receiving_sync_condition _ ?y] => pose proof (Rc y X) as Y;
          destruct (SSS.receiving_sync_condition cts64 y) as [y1 c1] end.
        destruct c1; by injection H as <- <-.
      * pose proof (Rc x X) as Y. by destruct (SSS.receiving_sync_condition cts64 x); injection H as <- <-.
    + by injection H as <- <-.
Qed.

(** the port [pi], with the data [q], can take a Sync *)
Record sync_port (ta : gptpsm_tasd_t) (pi : nat) (q : gptpsm_ptd_t) : Prop := {
  sp_port : Tasd.ptds ta !! pi = Some q;
  sp_receive : PSSR.state (Ptd.pssrecd q) <> PSSR.REACTION;
  sp_index : PSSR.portIndex (Ptd.pssrecd q) = Z.of_nat pi
}.

(** the PortSyncSync that [m] becomes there *)
Definition psync_at (q : gptpsm_ptd_t) (cts64 : Z) (m : MDSyncReceive) : PortSyncSync :=
  PSSR.psync_of (PPG.thisPort (Ptd.ppglb q)) (PSSR.portIndex (Ptd.pssrecd q))
    (u64 (u8 (PPG.syncReceiptTimeout (Ptd.ppglb q)) * LOG_TO_NSEC (MDSR.logMessageInterval m))) cts64 m
    (dadd (MDSR.rateRatio m) (dsub (PPGALL.neighborRateRatio (PPG.forAllDomain (Ptd.ppglb q))) d1))
    (PSSR.portSyncSync (Ptd.pssrecd q)).

Lemma ready_kept ta ta' d tci off : ready ta d tci off ->
  glob_view (Tasd.tasglb ta') = glob_view (Tasd.tasglb ta) -> Tasd.cssd ta' = Tasd.cssd ta ->
  Tasd.cmsrecd ta' = Tasd.cmsrecd ta -> Tasd.clocks ta' = Tasd.clocks ta -> nets_open ta' -> ready ta' d tci off.
Proof.
  intros [_ [B En St La Rs Rt] [Ws Wb We [D Ti S]]] V E1 E2 E3 N.
  pose proof (glob_view_field PTASG.BEGIN _ _ (fun _ => eq_refl) V) as VB.
  pose proof (glob_view_field PTASG.instanceEnable _ _ (fun _ => eq_refl) V) as VE.
  pose proof (glob_view_field PTASG.domainIndex _ _ (fun _ => eq_refl) V) as VD.
  pose proof (glob_view_field PTASG.thisClockIndex _ _ (fun _ => eq_refl) V) as VT.
  split; [done| |]; rewrite ?E1, ?E2, ?E3; split; cbn in *; try congruence; try done.
  split; cbn in *; congruence.
Qed.

(** the evaluation of PortSyncSyncReceive *)
Lemma pssrecd_run ta pi q m cts64 : sync_port ta pi q -> nets_open ta ->
  exists ta', on_pssrecd (PSSR.port_sync_sync_receive_sm_recvMDSync m cts64) pi ta = Some (Some (psync_at q cts64 m), ta') /\
    as_in (ta <| Tasd.tasglb := Tasd.tasglb ta' |>) ta' /\ glob_view (Tasd.tasglb ta') = glob_view (Tasd.tasglb ta).
Proof.
  intros [E Re Ix] N. set (d0 := load (globals_of ta q) (Ptd.pssrecd q)).
  pose proof (PSSR.sync_taken_as_received cts64 m d0 Re) as T. pose proof (pssr_frame cts64 m d0) as [V F].
  destruct (PSSR.port_sync_sync_receive_sm_recvMDSync m cts64 d0) as [d o] eqn:R. destruct T as (-> & _ & _ & _ & P & _).
  eexists. split; [unfold on_pssrecd; rewrite (on_port_run _ _ _ _ _ _ _ _ E R); rewrite P; reflexivity|].
  split; [|exact V]. cbn [Tasd.tasglb put_globals upd store shared_PSSR Glob.tas].
  assert (A : as_in (ta <| Tasd.tasglb := PSSR.ptasg d |>) (ta <| Tasd.tasglb := PSSR.ptasg d |>)) by (split; [done|exact N]).
  pose proof (put_as_in _ _ pi q (q <| Ptd.pssrecd := d |>) (store d (globals_of ta q)) A E eq_refl F) as X.
  refine (X _). exact (Forall_lookup_1 _ _ _ _ N E).
Qed.

(** the evaluation of SiteSyncSync on a Sync of the slave port *)
Lemma sssd_run ta p cts64 : STATIC_PORT_STATE_SLAVE_PORT <= 0 ->
  let s := Tasd.sssd ta <| SSS.ptasg := Tasd.tasglb ta |> in
  SSS.at_rest s -> SSS.from_slave_port p s = true -> SSS.overdue cts64 s = false ->
  exists ta', on_sssd (SSS.site_sync_sync_sm_portSyncSync p cts64) ta = Some (Some p, ta') /\
    Tasd.clocks ta' = Tasd.clocks ta /\ Tasd.cssd ta' = Tasd.cssd ta /\ Tasd.cmsrecd ta' = Tasd.cmsrecd ta /\
    Tasd.ptds ta' = Tasd.ptds ta /\ glob_view (Tasd.tasglb ta') = glob_view (Tasd.tasglb ta).
Proof.
  intros St s Re Fr Ov. unfold on_sssd. set (s0 := Tasd.sssd ta <| SSS.ptasg := Tasd.tasglb ta |> <| SSS.gcd := gcd_of ta |>).
  pose proof (SSS.sss_relay cts64 p s0 Re) as T. pose proof (sss_frame cts64 p s0 St) as [V G].
  destruct (SSS.site_sync_sync_sm_portSyncSync p cts64 s0) as [d o]. cbn [fst] in V, G. unfold replayed.
  unfold SSS.relay_result, SSS.relayed in T.
  change (SSS.overdue cts64 s0) with (SSS.overdue cts64 s) in T. change (SSS.from_slave_port p s0) with (SSS.from_slave_port p s) in T.
  rewrite Ov, Fr, andb_false_r in T. destruct T as (-> & _). rewrite G. cbn [replay gcd_of abstract_of Gcd.events SSS.gcd s0 upd].
  eexists. split; [reflexivity|]. by split_and!.
Qed.

(** C11. A Sync from the slave port sets the time of the domain, when its offset is one the servo takes
    over as it is.  A port hands on what it received (an MDSyncReceive); it is the slave port of a present
    grandmaster, the Sync is not overdue, and the machines of the domain are running and at rest.  After
    PortSyncSyncReceive, SiteSyncSync, the sending machines of every port, ClockSlaveSync,
    ClockMasterSyncReceive and ClockMasterSyncOffset have run as gptpman.c calls them, every application
    that reads the domain at local time [h] gets the time of the grandmaster at the Sync's reception (origin,
    corrections and delay of the link) plus what thisClock has advanced since.  thisClock is steered in
    hardware (SLAVE_MAIN); no slave port is configured statically; the receipt times are in range (seconds
    below 2^32) and differ from the last ones.  The offset is taken over ([takes_over]) when it jumps by
    at least 1 ms and this is not the first jump under the grandmaster with which it was stable, or when
    it differs by less and none is adopted yet; QUICK_SYNC_ALGO is 0 or the rate is stable;
    USE_HW_PHASE_ADJUSTMENT is 0 or the domain is not 0; and with PHASE_ADJUSTMENT_BY_FREQ (as delivered)
    the difference is at least PHASE_OFFSET_ADJUST_BY_FREQ, 100 us as delivered: a smaller one goes to the
    rate and is not in this theorem. *)
Theorem sync_sets_domain_time ta pi q m cts64 d tci off ind :
  let p := psync_at q cts64 m in
  let l := PPG.forAllDomain (Ptd.ppglb q) in
  let s := Tasd.sssd ta <| SSS.ptasg := Tasd.tasglb ta |> in
  sync_port ta pi q -> ready ta d tci off ->
  SSS.at_rest s -> SSS.from_slave_port p s = true -> SSS.overdue cts64 s = false ->
  STATIC_PORT_STATE_SLAVE_PORT <= 0 -> sync_in_range l p -> takes_over ta d ind (gm_receipt l p) (local_receipt l p) ->
  exists ta', update_portSyncSync_for_all pi (Some m) cts64 ta = Some (tt, ta') /\
  forall gmcd fd old h w w1,
    mapped gmcd (GC.gcd (Tasd.clocks ta')) d fd -> ptpdev_clock_gettime fd w = (Some h, w1) ->
    GMC.gptpmasterclock_get_domain_ts64 old d gmcd w = (Some (i64 (gm_receipt l p + (h - local_receipt l p))), w1).
Proof.
  intros p l s Sp R Re Fr Ov St Rg To. unfold update_portSyncSync_for_all.
  destruct (pssrecd_run ta pi q m cts64 Sp (rd_nets _ _ _ _ R)) as (ta1 & E1 & [V1 N1] & G1).
  rewrite (mbind_run _ _ _ _ _ E1). fold p. unfold site_view in V1. injection V1 as Vs _ Vc Vr _ Vk Vp.
  pose proof (glob_view_field PTASG.BEGIN _ _ (fun _ => eq_refl) G1) as VB.
  pose proof (glob_view_field PTASG.instanceEnable _ _ (fun _ => eq_refl) G1) as VE.
  pose proof (glob_view_field PTASG.selectedState _ _ (fun _ => eq_refl) G1) as VS.
  pose proof (glob_view_field PTASG.gmPresent _ _ (fun _ => eq_refl) G1) as VG.
  destruct (sssd_run ta1 p cts64 St) as (ta2 & E2 & K2 & C2 & R2 & P2 & G2).
  { cbn in Vs. rewrite Vs. destruct Re as (A & B & Rest). cbn in A, B. split; [by rewrite <- VB in A|]. split; [by rewrite <- VE in B|exact Rest]. }
  { cbn in Vs. rewrite Vs. revert Fr. unfold SSS.from_slave_port, SSS.SELECTED_STATE, SSS.GM_PRESENT. cbn. by rewrite VS, VG. }
  { cbn in Vs. rewrite Vs. revert Ov. unfold SSS.overdue, SSS.SELECTED_STATE, SSS.GM_PRESENT. cbn. by rewrite VS, VG. }
  rewrite (mbind_run _ _ _ _ _ E2). cbn in Vc, Vr, Vk, Vp.
  assert (Pl : ports_of ta2 (PSSR.portIndex (Ptd.pssrecd q)) = l).
  { rewrite (ports_of_view ta ta2) by (rewrite P2; exact Vp). unfold ports_of. by rewrite (sp_index _ _ _ Sp), Nat2Z.id, (sp_port _ _ _ Sp). }
  destruct (for_all_takes_over ta2 p (PSSR.portIndex (Ptd.pssrecd q)) cts64 d tci off ind) as (ta3 & E3 & S3).
  - apply (ready_kept ta); [exact R|congruence..|]. unfold nets_open. rewrite P2. exact N1.
  - exact St.
  - reflexivity.
  - by rewrite Pl.
  - rewrite Pl. destruct To. split; by rewrite ?K2, ?R2, ?Vk, ?Vr.
  - exists ta3. split; [exact E3|]. rewrite Pl in S3. intros gmcd fd old h w w1. by apply (adopted_reads _ d tci).
Qed.
End Path.

(** ** The hypotheses hold *)

Module GptpmanWitness.
Import ClockWitness ClockSyncWitness.
#[local] Existing Instances conversions0 config0 ClockWitness.dev servo0 platform0 media0.
#[local] Instance wire0 : WireConfig := {| MINOR_VERSION_NUMBER := fun _ => 1; PTP_TIMESCALE := 1; MODE_8021_AS_2011 := false |}.

(** port 1 is the slave port *)
Definition g4 : PerTimeAwareSystemGlobal :=
  zero <| PTASG.instanceEnable := true |> <| PTASG.thisClockIndex := 1 |> <| PTASG.gmPresent := true |>
       <| PTASG.selectedState := [PassivePort; SlavePort; MasterPort] |>.
Definition pp4 (i : Z) : PerPortGlobal :=
  zero <| PPG.thisPort := i |> <| PPG.syncReceiptTimeout := 3 |>
       <| PPG.forAllDomain; PPGALL.neighborRateRatio := d1 |> <| PPG.forAllDomain; PPGALL.neighborPropDelay; UNs.nsec := 300 |>.
Definition ptd4 (i : Z) : gptpsm_ptd_t :=
  Ptd.mk (pp4 i) zero zero (SREC.md_sync_receive_sm_init 0 i g4 (pp4 i) zero) (PSSR.port_sync_sync_receive_sm_init 0 i g4 (pp4 i))
    (PSSS.port_sync_sync_send_sm_init 0 i g4 (pp4 i))
    (SSND.md_sync_send_sm_init 0 i (Some []) g4 (pp4 i) zero (abstract_of gcd3)).1
    (PAI.port_announce_information_sm_init 0 i g4 (pp4 i) zero zero) None None None
    (AIS.announce_interval_setting_sm_init 0 i g4 (pp4 i) zero) (PAR.port_announce_receive_sm_init 0 i g4 (pp4 i) zero zero).1
    (PAIE.port_announce_information_ext_sm_init 0 i g4 (pp4 i) zero zero) (PAT.port_announce_transmit_sm_init 0 i g4 (pp4 i) zero zero)
    (PSSE.port_state_setting_ext_sm_init 0 i 3 g4 [] zero []) (GCT.gptp_capable_transmit_sm_init 0 i g4 (pp4 i))
    (GCR.gptp_capable_receive_sm_init 0 i g4 (pp4 i)) (GCIS.gptp_capable_interval_setting_sm_init 0 i g4 (pp4 i))
    (SIS.sync_interval_setting_sm_init 0 i g4 (pp4 i)).1 (MDAS.md_announce_send_sm_init 0 i (Some []) g4 (pp4 i) zero)
    (MDAR.md_announce_receive_sm_init 0 i 0 g4 (pp4 i)) (MSGS.md_signaling_send_sm_init 0 i (Some []) g4 (pp4 i))
    (MSGR.md_signaling_receive_sm_init 0 i g4 (pp4 i)).
Definition tasd4 : gptpsm_tasd_t :=
  Tasd.mk g4 zero [ptd4 0; ptd4 1; ptd4 2] (SSS.site_sync_sync_sm_init 0 g4 (abstract_of gcd3))
    (CMSS.mk g4 CMSS.INITIALIZING CMSS.INITIALIZING zero 0 zero) (CSS.mk g4 CSS.INITIALIZING CSS.INITIALIZING zero 0)
    (CMSR.mk g4 CMSR.WAITING CMSR.WAITING zero 0 d1 1000 2000 0 d0 0 false 0 0 (-1) 0 0)
    (CMSO.clock_master_sync_offset_sm_init 0 g4) (PSSEL.port_state_selection_sm_init 0 g4 [] zero [] 3 (abstract_of gcd3))
    (GMS.gm_stable_sm_init 0 g4 (abstract_of gcd3)) c3 [] [].

(** a Sync sent at 1700000000 s and received at 5 s local time *)
Definition m4 : MDSyncReceive :=
  zero <| MDSR.rateRatio := d1 |> <| MDSR.preciseOriginTimestamp; Tstamp.seconds; U48.lsb := 1700000000 |>
       <| MDSR.upstreamTxTime; UNs.nsec := 5000000000 |>.

Lemma domain_time_set_witness : exists ta',
  Man.update_portSyncSync_for_all 1 (Some m4) 6000000000 tasd4 = Some (tt, ta') /\
  gm_receipt (PPG.forAllDomain (pp4 1)) (psync_at (ptd4 1) 6000000000 m4) = 1700000000000000300.
Proof.
  destruct (sync_sets_domain_time tasd4 1 (ptd4 1) m4 6000000000 0 1 0 (i32 (Pp.gmchange_ind pp3))) as (ta' & E & _).
  - split; [reflexivity|discriminate|reflexivity].
  - split.
    + repeat constructor; by eexists.
    + split; try reflexivity. by left.
    + split; [reflexivity..|]. split; [reflexivity..|]. apply steered3.
  - split; [reflexivity|]. split; [reflexivity|]. split; [reflexivity|]. by left.
  - reflexivity.
  - reflexivity.
  - discriminate.
  - split; [discriminate| |]; vm_compute; split; discriminate || reflexivity.
  - split; [reflexivity|split; vm_compute; discriminate|split; vm_compute; discriminate|by left| |by left].
    cbv zeta. split; [left; reflexivity|right; vm_compute; discriminate].
  - exists ta'. split; [exact E|vm_compute; reflexivity].
Defined.
End GptpmanWitness.
