(* ===== verification/BestMaster.v ===== *)
(** * BestMaster: the best-master machines of a domain, as sm_bmcs_perform puts them together.

    The do-while of sm_bmcs_perform evaluates PortAnnounceInformation of a port and
    PortStateSelection as long as the port has new information to update.  It ends
    after at most three turns, and an announce that a port receives is taken into
    the choice of the grandmaster before the function returns. *)

From Stdlib Require Import SpecFloat.
From S2P Require Import Prelude Types Floats Driver Common Clock AnnounceReceive AnnounceInformation.
From S2P Require Import StateSelection AnnounceTransmit GmStable SyncPath Wire Perfmon Media.
From S2P Require Import Gptpclock GptpclockFacts GptpclockTime GptpclockStatus ClockSync ClockSyncFacts ClockSyncSend Gptpman GptpmanFacts.
From stdpp Require Import list.
Import Eff.
Import (hints) PAR PAI PSSEL PAT GMS MDAS GC.
Import Ptd(gptpsm_ptd_t).
Import Tasd(gptpsm_tasd_t).
#[local] Open Scope Z_scope.
#[local] Open Scope gptp_scope.

(** ** PortAnnounceInformation at rest *)

Section Information.
Import PAI.
Context `{PL : Platform}.
#[local] Set Default Proof Using "All".

Definition asked_for (s : data) : bool := aget false (BPTASG.reselect (bptasg s)) (portIndex s).

(** the instance runs, without the external port configuration; the port is not measured for asymmetry *)
Definition in_service (s : data) : Prop :=
  PTASG.BEGIN (ptasg s) = false /\ PTASG.instanceEnable (ptasg s) = true /\
  BPTASG.externalPortConfiguration (bptasg s) = VALUE_DISABLED /\
  PPGALL.asymmetryMeasurementMode (PPG.forAllDomain (ppg s)) = false.

(** what holds between the passes of the machine *)
Definition sound (s : data) : Prop :=
  state s <> REACTION /\
  (last_state s = DISABLED -> BPPG.infoIs (bppg s) = Disabled) /\
  (BPPG.infoIs (bppg s) = Disabled -> state s = INIT \/ state s = DISABLED \/ (state s = AGED /\ last_state s <> AGED)) /\
  (state s = RECEIVE -> last_state s <> RECEIVE) /\
  (BPPG.updtInfo (bppg s) = true -> SELECTED s = false \/ BPPG.infoIs (bppg s) = Disabled -> asked_for s = true).

(** the fields the ranges and conditions depend on *)
Ltac pass_simpl H :=
  unfold pass in H; cbn [sm_switch machine sm_set_last set_last sm_state sm_last] in H;
  unfold switch, go, deref in H; cbn in H.

Lemma receive_proc_rest m s :
  let s' := receive_proc m s in
  last_state s' = last_state s /\ PORT_UP s' = PORT_UP s /\ BPPG.rcvdMsg (bppg s') = BPPG.rcvdMsg (bppg s).
Proof. unfold receive_proc, rcvdInfo. destruct s. cbn. repeat destruct_cond; done. Qed.

Lemma receive_leaves m s : PPGALL.asymmetryMeasurementMode (PPG.forAllDomain (ppg s)) = false ->
  receive_condition (receive_proc m s) <> RECEIVE.
Proof.
  intros Y. destruct (receive_proc_fields m s) as (_ & _ & _ & _ & _ & _ & _ & As & _).
  unfold receive_condition. rewrite As, Y.
  assert (I : In (PAIsm.rcvdInfo (thisSM (receive_proc m s))) [RepeatedMasterInfo; SuperiorMasterInfo; InferiorMasterInfo; OtherInfo]).
  { unfold receive_proc, rcvdInfo. destruct s. cbn. repeat (destruct_cond; cbn); tauto. }
  cbn [In] in I. by repeat destruct I as [<-|I].
Qed.

Lemma aged_next s : aged_condition s <> REACTION.
Proof. unfold aged_condition. by destruct_cond. Qed.
Lemma current_next cts64 s : current_condition cts64 s <> REACTION.
Proof. unfold current_condition. by repeat destruct_cond. Qed.
Lemma receive_next s : receive_condition s <> REACTION.
Proof. unfold receive_condition. by repeat destruct_cond. Qed.
Lemma inferior_next s : inferior_master_or_other_port_condition s <> REACTION.
Proof. unfold inferior_master_or_other_port_condition. by destruct_cond. Qed.
Lemma disabled_cases s : state s = DISABLED ->
  disabled_condition s = DISABLED \/ (disabled_condition s = AGED /\ PORT_UP s = true).
Proof. unfold disabled_condition. repeat destruct_cond; auto. Qed.
Lemma disabled_next s : state s <> REACTION -> disabled_condition s <> REACTION.
Proof. unfold disabled_condition. by repeat destruct_cond. Qed.

(** every pass keeps the ports and the instance, and either leaves the selection alone or asks for one *)
Lemma pass_sound cts64 s s' : in_range s -> sound s -> in_service s -> pass (M := machine cts64) s = (s', Next) ->
  sound s' /\ in_service s' /\ portIndex s' = portIndex s /\ PORT_UP s' = PORT_UP s.
Proof.
  intros [R1 R2] (St & D & I0 & Rc & A) Sv P.
  pass_simpl P. rewrite change_eq in P. destruct s as [pt pp bt bp st ls th di pi sr].
  unfold in_service, sound, asked_for, SELECTED in *. cbn in *.
  destruct st; cbn in P; try done; try (case_bool_decide as Hch; cbn in P).
  all: try (destruct (BPPG.rcvdAnnouncePtr bp) as [m|]; [|discriminate P]).
  10: { destruct (receive_proc_rest m (set_last RECEIVE (mk pt pp bt bp RECEIVE ls th di pi sr))) as (L & U & _).
       destruct (receive_proc_fields m (set_last RECEIVE (mk pt pp bt bp RECEIVE ls th di pi sr))) as (_ & _ & _ & Up & I & _ & _ & As & T & B & Pi & _).
       pose proof (receive_leaves m (set_last RECEIVE (mk pt pp bt bp RECEIVE ls th di pi sr)) (proj2 (proj2 (proj2 Sv)))) as RL.
       revert RL L U Up I As T B Pi P. generalize (receive_proc m (set_last RECEIVE (mk pt pp bt bp RECEIVE ls th di pi sr))).
       intros [pt1 pp1 bt1 bp1 st1 ls1 th1 di1 pi1 sr1] RL L U Up I As T B Pi P. cbn in *. injection P as <-. subst. cbn.
       split; [split_and!; [apply receive_next|done| |intros Y; by destruct (RL Y)|by rewrite Up, I]|]. 2: { split; [|by split]. rewrite As. exact Sv. }
       rewrite I. intros Y. by destruct (I0 Y) as [|[|[? ?]]]. }
  all: injection P as <-; cbn; (split; [|split; [exact Sv|by split]]).
  all: split; [first [done|apply aged_next|apply current_next|apply receive_next|apply inferior_next|by apply disabled_next]|].
  all: (split; [done || (intros _; by apply D)|]).
  all: (split; [|split; [|try (exact A || done || (intros _ _; by rewrite aget_aset_eq))]]).
  all: try (intros _; done).
  all: try apply dec_stable in Hch; try (by destruct (Rc eq_refl)).
  all: try (intros [=]; done).
  all: try (intros Y; exfalso; destruct (I0 Y) as [X|[X|[X1 X2]]]; congruence).
  all: try (intros _; auto; fail).
  all: try (match goal with |- context [disabled_condition ?x] =>
              destruct (disabled_cases x eq_refl) as [->|[-> _]] end; intros; first [done|by right; left|by right; right; split|subst; by right; right; split]).
Qed.
Lemma pai_pass_eq cts64 s :
  pass (M := machine cts64) s = switch cts64 (bool_decide (last_state s <> state s)) (set_last (state s) s).
Proof. reflexivity. Qed.

(** where the machine rests, and why it does *)
Definition rests (s : data) : Prop :=
  In (state s) [DISABLED; AGED; CURRENT] /\
  (state s <> DISABLED -> SELECTED s && BPPG.updtInfo (bppg s) = false) /\
  (state s = CURRENT -> BPPG.updtInfo (bppg s) = false -> BPPG.rcvdMsg (bppg s) = false).

Lemma at_disabled x : disabled_condition x = DISABLED -> rests (x <| state := disabled_condition x |>).
Proof. intros ->. split; [by left|]. by split. Qed.

Lemma at_aged x : aged_condition x = AGED -> rests (x <| state := aged_condition x |>).
Proof.
  unfold aged_condition. destruct (SELECTED x && _) eqn:C; [done|]. intros _.
  split; [by right; left|]. by split.
Qed.

Lemma at_current cts64 x : current_condition cts64 x = CURRENT -> rests (x <| state := current_condition cts64 x |>).
Proof.
  unfold current_condition. destruct (SELECTED x && _) eqn:C; [done|]. destruct (_ && _ && _ && _); [done|].
  destruct (BPPG.rcvdMsg (bppg x) && _) eqn:C3; [done|]. intros _. split; [by right; right; left|]. split; [done|].
  intros _ U. change (BPPG.updtInfo (bppg x) = false) in U. rewrite U, andb_true_r in C3. exact C3.
Qed.

Lemma pass_rest cts64 s s' : sound s -> in_service s -> pass (M := machine cts64) s = (s', Next) -> last_state s' = state s' ->
  rests s'.
Proof.
  intros (St & _ & _ & Rc & _) Sv P L. rewrite pai_pass_eq in P. set (t := set_last (state s) s) in P.
  assert (Lt : last_state t = state s) by reflexivity. assert (Sv' : in_service t) by exact Sv.
  unfold switch, go in P. change (state t) with (state s) in P.
  destruct (state s) eqn:E; try done.
  - injection P as <-. discriminate L.
  - destruct (bool_decide _); injection P as <-; apply at_disabled; symmetry; exact L.
  - destruct (bool_decide _); injection P as <-; apply at_aged; symmetry; exact L.
  - destruct (bool_decide _); injection P as <-; discriminate L.
  - destruct (bool_decide _); injection P as <-; apply at_current; symmetry; exact L.
  - case_bool_decide as Hch; [|by destruct (Rc eq_refl)]. unfold deref in P.
    destruct (BPPG.rcvdAnnouncePtr (bppg t)) as [m|]; [|discriminate P]. injection P as <-.
    exfalso. apply (receive_leaves m t); [apply Sv'|]. etransitivity; [symmetry; exact L|].
    change (last_state (receive_proc m t) = RECEIVE). by rewrite (proj1 (receive_proc_rest m t)).
  - destruct (bool_decide _); [unfold deref in P; destruct (BPPG.rcvdAnnouncePtr (bppg t)); [|discriminate P]|];
      injection P as <-; discriminate L.
  - destruct (bool_decide _); injection P as <-; discriminate L.
  - exfalso. assert (N : forall x, INFERIOR_MASTER_OR_OTHER_PORT <> inferior_master_or_other_port_condition x).
    { intros x. unfold inferior_master_or_other_port_condition. by destruct_cond. }
    destruct (bool_decide _); injection P as <-; exact (N _ L).
Qed.

(** what an evaluation may start from *)
Record start (s : data) : Prop := {
  st_range : in_range s;
  st_msg : msg_ok s;
  st_sound : sound s;
  st_rest : last_state s = state s;
  st_state : In (state s) [INIT; DISABLED; AGED; CURRENT]
}.

(** the invariant of the passes: a port that is down is DISABLED, or about to be *)
Definition going (up : bool) (i : Z) (s : data) : Prop :=
  in_range s /\ msg_ok s /\ sound s /\ in_service s /\ portIndex s = i /\ PORT_UP s = up /\
  (up = false -> state s = INIT \/ state s = DISABLED).

Lemma pass_going cts64 up i s s' c : going up i s -> pass (M := machine cts64) s = (s', c) -> c = Next /\ going up i s'.
Proof.
  intros (R & M & So & Sv & I & U & Dn) P. destruct (pass_msg_ok _ _ _ _ M P) as [M' ->]. split; [done|].
  destruct (pass_sound cts64 s s' R So Sv P) as (So' & Sv' & I' & U').
  split_and!; [by eapply pass_in_range|done|done|done|congruence|congruence|].
  intros Eu. specialize (Dn Eu). rewrite Eu in U. pass_simpl P. rewrite change_eq in P.
  destruct s as [pt pp bt bp st ls th di pi sr]. cbn in Dn. destruct Dn as [->| ->]; cbn in P.
  - injection P as <-. by right.
  - right. case_bool_decide; injection P as <-; cbn;
      match goal with |- disabled_condition ?x = _ =>
        destruct (disabled_cases x eq_refl) as [|[_ X]]; [done|exfalso; assert (PORT_UP x = false) by exact U; congruence] end.
Qed.

(** an evaluation: afterwards a port with something to update has asked for a selection, and a port
    that is down holds no information *)
Definition informed (up : bool) (i : Z) (r : data) (o : outcome unit) : Prop :=
  o = Ret None /\ start r /\ going up i r /\ In (state r) [DISABLED; AGED; CURRENT] /\
  (BPPG.updtInfo (bppg r) = true -> asked_for r = true) /\
  (up = false -> BPPG.infoIs (bppg r) = Disabled) /\
  (state r = CURRENT -> BPPG.updtInfo (bppg r) = false -> BPPG.rcvdMsg (bppg r) = false).

Lemma rest_informed up i r : going up i r -> rests r -> last_state r = state r -> informed up i r (Ret None).
Proof.
  intros G (Rs & Q & C) L. pose proof G as (R & M & So & Sv & I & U & Dn). split; [done|].
  assert (state r = DISABLED -> BPPG.infoIs (bppg r) = Disabled) as D by (intros E; apply So; congruence).
  split; [split; try done; by right|]. split; [done|]. split; [done|]. split_and!; [| |done].
  - intros Up. apply So; [done|]. destruct (decide (state r = DISABLED)) as [E|E]; [right; by apply D|left].
    specialize (Q E). rewrite Up, andb_true_r in Q. exact Q.
  - intros Eu. destruct (Dn Eu) as [E|E]; [|by apply D]. rewrite E in Rs. cbn in Rs. intuition discriminate.
Qed.

Lemma allstate_going s : start s -> in_service s -> going (PORT_UP s) (portIndex s) (set_allstate s).
Proof.
  intros [R M So Re St] Sv. pose proof So as (So1 & D & I0 & Rc & A). pose proof Sv as (B & En & X & _).
  assert (Al : allstate_condition s = if negb (PORT_UP s) && negb (BPPG.infoIs (bppg s) =? Disabled) then DISABLED else state s).
  { unfold allstate_condition. rewrite B, En, X. change (VALUE_DISABLED =? VALUE_DISABLED) with true. by rewrite !orb_false_r, andb_true_r. }
  split; [exact R|]. split; [by apply allstate_msg_ok|]. split; [|split; [exact Sv|split; [done|split; [done|]]]].
  - unfold set_allstate. rewrite Al. destruct (_ && _); [|by destruct s].
    split; [done|]. split; [exact D|]. split; [by right; left|]. by split.
  - intros U. change (state (set_allstate s)) with (allstate_condition s). rewrite Al, U. cbn [negb andb].
    destruct (BPPG.infoIs (bppg s) =? Disabled) eqn:Di; [|by right]. apply Z.eqb_eq in Di.
    destruct (I0 Di) as [|[|[Y N]]]; [by left|by right|]. by rewrite Re in N.
Qed.

(** an evaluation: afterwards a port with something to update has asked for a selection, and a port
    that is down holds no information *)
Lemma information_run cts64 s : start s -> in_service s ->
  informed (PORT_UP s) (portIndex s) (port_announce_information_sm cts64 s).1 (port_announce_information_sm cts64 s).2.
Proof.
  intros St Sv. unfold port_announce_information_sm.
  refine (exec_hoare (M := machine cts64) (going (PORT_UP s) (portIndex s)) (informed (PORT_UP s) (portIndex s)) fuel s _ _ _).
  - rewrite run_ends by apply St. by eexists.
  - by apply allstate_going.
  - intros s1 s2 c G P. destruct (pass_going cts64 _ _ s1 s2 c G P) as [-> G2].
    destruct (bool_decide _) eqn:L; [|done]. apply bool_decide_eq_true in L. apply rest_informed; [done| |done].
    destruct G as (_ & _ & So & Sv1 & _). by apply (pass_rest cts64 s1).
Qed.
(** *** A selected port with something to update *)

(** the vector is taken over ... *)
Definition taking (m0 : bool) (s : data) : Prop :=
  BPPG.rcvdMsg (bppg s) = m0 /\ asked_for s = false /\
  ((In (state s) [AGED; CURRENT] /\ last_state s = state s /\ SELECTED s && BPPG.updtInfo (bppg s) = true) \/
   (state s = UPDATE /\ last_state s <> UPDATE)).

(** ... and then a message that was waiting may be received *)
Definition taken (m0 : bool) (s : data) : Prop :=
  BPPG.updtInfo (bppg s) = false /\
  In (state s) [AGED; CURRENT; RECEIVE; SUPERIOR_MASTER_PORT; REPEATED_MASTER_PORT; INFERIOR_MASTER_OR_OTHER_PORT] /\
  (In (state s) [AGED; CURRENT] \/ last_state s <> state s) /\
  (state s = AGED -> BPPG.rcvdMsg (bppg s) = false) /\
  (m0 = false -> state s = CURRENT /\ BPPG.rcvdMsg (bppg s) = false /\ asked_for s = false /\ BPPG.infoIs (bppg s) = Mine).

Lemma pass_taking cts64 m0 s s' c : taking m0 s -> pass (M := machine cts64) s = (s', c) ->
  last_state s' <> state s' /\ (taking m0 s' \/ taken m0 s').
Proof.
  intros (Rv & As & Ph) P. rewrite pai_pass_eq in P. set (t := set_last (state s) s) in P.
  unfold switch, go in P. change (state t) with (state s) in P.
  destruct Ph as [(I & L & U)|[E N]].
  - rewrite L, bool_decide_eq_false_2 in P by (intros X; by apply X).
    assert (P' : (t <| state := UPDATE |>, Next) = (s', c)).
    { rewrite <- P. destruct I as [E|[E|[]]]; rewrite <- E; unfold aged_condition, current_condition;
        change (SELECTED t) with (SELECTED s); change (BPPG.updtInfo (bppg t)) with (BPPG.updtInfo (bppg s)); by rewrite U. }
    injection P' as <- _. split; [|left; split; [exact Rv|split; [exact As|]]].
    + change (state s <> UPDATE). destruct I as [<-|[<-|[]]]; done.
    + right. split; [done|]. change (state s <> UPDATE). destruct I as [<-|[<-|[]]]; done.
  - rewrite E, bool_decide_eq_true_2 in P by done. injection P as <- _. split; [change (state s <> CURRENT); by rewrite E|]. right.
    split; [done|]. split; [by right; left|]. split; [left; by right; left|]. split; [done|].
    intros ->. split; [done|]. split; [exact Rv|]. split; [exact As|done].
Qed.

Lemma receive_goes s : In (receive_condition s) [RECEIVE; SUPERIOR_MASTER_PORT; REPEATED_MASTER_PORT; INFERIOR_MASTER_OR_OTHER_PORT].
Proof. unfold receive_condition. repeat destruct_cond; cbn; tauto. Qed.

Lemma inferior_goes s : In (inferior_master_or_other_port_condition s) [AGED; CURRENT].
Proof. unfold inferior_master_or_other_port_condition. destruct_cond; cbn; tauto. Qed.

Lemma current_taken cts64 m0 x : taken m0 x -> state x = CURRENT -> last_state x = CURRENT ->
  taken m0 (x <| state := current_condition cts64 x |>).
Proof.
  intros (U & _ & _ & _ & F) E L. unfold current_condition. rewrite U, andb_false_r. cbn [negb]. rewrite !andb_true_r.
  destruct (BPPG.rcvdMsg (bppg x)) eqn:Rv; cbn [negb andb].
  - rewrite andb_false_r. split; [exact U|]. split; [by right; right; left|].
    split; [right; change (last_state x <> RECEIVE); congruence|]. split; [done|]. intros M. by destruct (F M) as (_ & X & _).
  - rewrite andb_true_r. destruct ((BPPG.infoIs (bppg x) =? Received) && _) eqn:T.
    + split; [exact U|]. split; [by left|]. split; [by left; left|]. split; [intros _; exact Rv|].
      intros M. destruct (F M) as (_ & _ & _ & I). rewrite I in T. discriminate T.
    + split; [exact U|]. split; [by right; left|]. split; [by left; right; left|]. split; [done|].
      intros M. destruct (F M) as (_ & _ & A & I). by split.
Qed.

Lemma pass_taken cts64 m0 s s' : in_service s -> taken m0 s -> pass (M := machine cts64) s = (s', Next) -> taken m0 s'.
Proof.
  intros Sv T P. pose proof T as (U & I & N & Ag & F). rewrite pai_pass_eq in P. set (t := set_last (state s) s) in P.
  unfold switch, go in P. change (state t) with (state s) in P. cbn [In] in I.
  destruct (state s) eqn:E; try (intuition discriminate).
  - assert (Tk : forall x, BPPG.updtInfo (bppg x) = false -> BPPG.rcvdMsg (bppg x) = false -> taken m0 (x <| state := aged_condition x |>)).
    { intros x Ux Rx. unfold aged_condition. rewrite Ux, andb_false_r. split; [exact Ux|]. split; [by left|]. split; [by left; left|].
      split; [done|]. intros M. by destruct (F M) as (X & _). }
    specialize (Ag eq_refl). destruct (bool_decide _); injection P as <-; by apply Tk.
  - assert (C : taken m0 (t <| state := current_condition cts64 t |>)).
    { apply current_taken; [|done..]. split; [exact U|]. split; [by right; left|]. split; [left; by right; left|].
      split; [intros X; change (state s = AGED) in X; congruence|]. intros M. by destruct (F M) as (_ & X). }
    unfold current_proc in P. destruct (bool_decide _); injection P as <-; exact C.
  - destruct N as [[?|[?|[]]]|N]; try done. rewrite bool_decide_eq_true_2 in P by done. unfold deref in P.
    destruct (BPPG.rcvdAnnouncePtr (bppg t)) as [m|]; [|discriminate P]. injection P as <-.
    destruct (receive_proc_fields m t) as (_ & _ & _ & Up & _). destruct (receive_proc_rest m t) as (L & _).
    pose proof (receive_goes (receive_proc m t)) as G. pose proof (receive_leaves m t (proj2 (proj2 (proj2 Sv)))) as Nr.
    set (x := receive_proc m t) in *. split; [by etransitivity; [exact Up|]|].
    split; [|split; [right; change (last_state x <> receive_condition x); rewrite L; intros X; by apply Nr|]].
    + change (state (x <| state := receive_condition x |>)) with (receive_condition x). cbn [In] in *. tauto.
    + split; [|intros M; by destruct (F M)]. change (receive_condition x = AGED -> BPPG.rcvdMsg (bppg x) = false).
      intros X. rewrite X in G. cbn [In] in G. intuition discriminate.
  - destruct N as [[?|[?|[]]]|N]; try done. rewrite bool_decide_eq_true_2 in P by done. unfold deref in P.
    destruct (BPPG.rcvdAnnouncePtr (bppg t)) as [m|]; [|discriminate P]. injection P as <-.
    destruct (superior_fields m cts64 t) as (_ & _ & _ & _ & _ & _ & _ & _ & _ & _ & Up & _).
    change (BPPG.updtInfo (bppg t)) with (BPPG.updtInfo (bppg s)) in Up. rewrite U in Up. unfold superior_master_port_condition.
    revert Up. generalize (superior_master_port_proc m cts64 t). intros x Up.
    split; [exact Up|]. split; [by right; left|]. split; [left; by right; left|].
    split; [done|]. intros M; by destruct (F M).
  - destruct N as [[?|[?|[]]]|N]; try done. rewrite bool_decide_eq_true_2 in P by done. injection P as <-.
    split; [exact U|]. split; [by right; left|]. split; [left; by right; left|]. split; [done|]. intros M; by destruct (F M).
  - destruct N as [[?|[?|[]]]|N]; try done. rewrite bool_decide_eq_true_2 in P by done. injection P as <-.
    pose proof (inferior_goes (inferior_master_or_other_port_proc t)) as G. set (x := inferior_master_or_other_port_proc t) in *.
    split; [exact U|]. change (state (x <| state := inferior_master_or_other_port_condition x |>)) with (inferior_master_or_other_port_condition x).
    cbn [In] in *. split; [tauto|]. split; [tauto|]. split; [done|]. intros M; by destruct (F M).
Qed.

(** afterwards the port has nothing to update and no message, and it asks for a selection only if it
    had a message to receive *)
Lemma update_run cts64 s : start s -> in_service s -> PORT_UP s = true -> In (state s) [AGED; CURRENT] ->
  SELECTED s && BPPG.updtInfo (bppg s) = true -> asked_for s = false ->
  let r := (port_announce_information_sm cts64 s).1 in
  BPPG.updtInfo (bppg r) = false /\ BPPG.rcvdMsg (bppg r) = false /\
  (BPPG.rcvdMsg (bppg s) = false -> asked_for r = false).
Proof.
  intros St Sv Up I U A r. set (m0 := BPPG.rcvdMsg (bppg s)).
  destruct (information_run cts64 s St Sv) as (_ & _ & _ & _ & _ & _ & C). fold r in C.
  pose (Inv := fun x => (taking m0 x \/ taken m0 x) /\ going true (portIndex s) x).
  pose (Post := fun (x : data) (_ : outcome unit) => taken m0 x /\ rests x).
  assert (Post r (port_announce_information_sm cts64 s).2) as [(U' & Il & _ & Ag & F) (Rs & _)].
  { unfold r, port_announce_information_sm. refine (exec_hoare (M := machine cts64) Inv Post fuel s _ _ _).
    - rewrite run_ends by apply St. by eexists.
    - pose proof (allstate_going s St Sv) as G. rewrite Up in G. split; [left|exact G].
      assert (E : allstate_condition s = state s).
      { destruct Sv as (B & En & X & _). unfold allstate_condition. by rewrite Up, B, En. }
      cbn. unfold set_allstate. rewrite E. split; [done|]. split; [exact A|]. left. split; [exact I|]. split; [|exact U].
      exact (st_rest _ St).
    - intros s1 s2 c [T G] P. destruct (pass_going cts64 _ _ s1 s2 c G P) as [-> G2].
      pose proof G as (_ & _ & So & Sv1 & _). destruct T as [T|T].
      + destruct (pass_taking cts64 m0 s1 s2 Next T P) as [N T2]. by rewrite bool_decide_eq_false_2.
      + pose proof (pass_taken cts64 m0 s1 s2 Sv1 T P) as T2. destruct (bool_decide _) eqn:L; [|by split; [right|]].
        apply bool_decide_eq_true in L. split; [exact T2|]. by apply (pass_rest cts64 s1). }
  split; [exact U'|]. split; [|intros M; by destruct (F M) as (_ & _ & X & _)].
  cbn [In] in *. destruct (state r); try (intuition discriminate); auto.
Qed.

(** a port asks only for itself *)
Definition asks_only (i : Z) (l : list bool) (s : data) : Prop :=
  portIndex s = i /\ forall j, 0 <= j -> j <> i -> aget false (BPTASG.reselect (bptasg s)) j = aget false l j.

Lemma pass_reselect cts64 s s' c : pass (M := machine cts64) s = (s', c) -> portIndex s' = portIndex s /\
  (BPTASG.reselect (bptasg s') = BPTASG.reselect (bptasg s) \/
   BPTASG.reselect (bptasg s') = aset (BPTASG.reselect (bptasg s)) (portIndex s) true).
Proof.
  intros P. pass_simpl P. rewrite change_eq in P. destruct s as [pt pp bt bp st ls th di pi sr]. cbn in *.
  destruct st; cbn in P; try (destruct (bool_decide _); cbn in P).
  all: try (destruct (BPPG.rcvdAnnouncePtr bp) as [m|]).
  all: try (injection P as <- _; cbn; auto; fail).
  destruct (receive_proc_fields m (set_last RECEIVE (mk pt pp bt bp RECEIVE ls th di pi sr))) as (_ & _ & _ & _ & _ & _ & _ & _ & _ & B & Pi & _).
  revert B Pi P. generalize (receive_proc m (set_last RECEIVE (mk pt pp bt bp RECEIVE ls th di pi sr))).
  intros x B Pi P. injection P as <- _. cbn in *. rewrite B, Pi. auto.
Qed.

Lemma information_asks cts64 s : 0 <= portIndex s ->
  asks_only (portIndex s) (BPTASG.reselect (bptasg s)) (port_announce_information_sm cts64 s).1.
Proof.
  intros Hi. unfold port_announce_information_sm.
  apply (exec_inv (M := machine cts64)); [done| |by split].
  intros s1 s2 c [I A] P. destruct (pass_reselect cts64 s1 s2 c P) as [E D]. split; [congruence|].
  intros j Hj N. rewrite <- (A j Hj N). destruct D as [-> | ->]; [done|]. apply aget_aset_ne; lia.
Qed.
End Information.

(** ** PortStateSelection at rest *)

Section Selection.
Import PSSEL.
Context `{CF : Config}.
#[local] Set Default Proof Using "All".

(** a port's data but for what a selection writes *)
Definition core (b : BmcsPerPortGlobal) : BmcsPerPortGlobal :=
  b <| BPPG.updtInfo := false |> <| BPPG.masterPriority := zero |>.

Definition instance_on (g : PerTimeAwareSystemGlobal) (b : BmcsPerTimeAwareSystemGlobal) : Prop :=
  PTASG.BEGIN g = false /\ PTASG.instanceEnable g = true /\ BPTASG.externalPortConfiguration b = VALUE_DISABLED.

(** what an evaluation leaves alone *)
Definition service (s : data) :=
  (PTASG.BEGIN (ptasg s), PTASG.instanceEnable (ptasg s), BPTASG.externalPortConfiguration (bptasg s),
   map core (bppgl s), ppgl s, (domainIndex s, max_ports s)).

Lemma core_alter (f : BmcsPerPortGlobal -> BmcsPerPortGlobal) i l :
  (forall b, core (f b) = core b) -> map core (aset l i (f (aget zero l i))) = map core l.
Proof.
  intros F. unfold aset, aget. rewrite list_fmap_insert. destruct (l !! Z.to_nat i) as [x|] eqn:L.
  - rewrite (nth_lookup_Some _ _ _ _ L). apply list_insert_id. rewrite list_lookup_fmap, L. cbn. by rewrite F.
  - rewrite list_insert_ge; [done|]. rewrite length_fmap. by apply lookup_ge_None_1.
Qed.

Lemma choose_gm_service s : service (choose_gm s) = service s.
Proof.
  unfold choose_gm. rewrite (for_frame service); [done|]. intros i x. unfold offer_gm. by destruct_cond.
Qed.

Lemma compute_masterPriority_service s : service (compute_masterPriority s) = service s.
Proof.
  unfold compute_masterPriority. etransitivity; [|apply (for_frame service 0 (max_ports s) set_masterPriority s)].
  - generalize (for_ 0 (max_ports s) set_masterPriority s). done.
  - intros i x. unfold service, set_masterPriority. cbn.
    by rewrite (core_alter (fun b => b <| BPPG.masterPriority := masterPriority_for (BPTASG.gmPriority (bptasg x))
      (PTASG.thisClock (ptasg x)) (PPG.thisPort (ppg x i)) |>)).
Qed.

Lemma assign_port_service gp i s : service (assign_port gp i s) = service s.
Proof.
  assert (P : service (portStateUpdate i (gp i) s).1 = service s).
  { unfold portStateUpdate. destruct (port_role _ _ _ _ _ _) as [st u].
    set (s1 := set_selected_state i st s <| bppgl ::= fun l => aset l i (bppg s i <| BPPG.updtInfo := u |>) |>).
    assert (E : service s1 = service s).
    { unfold service, s1. cbn. unfold bppg. by rewrite (core_alter (fun b => b <| BPPG.updtInfo := u |>)). }
    destruct ((st =? SlavePort) && _); [|exact E]. by destruct (Nat.leb _ _). }
  unfold assign_port. destruct (portStateUpdate i (gp i) s) as [x ch]. rewrite <- P.
  destruct ch; [|done]. by destruct_cond.
Qed.

Lemma assign_port0_service ch s : service (assign_port0 ch s) = service s.
Proof. unfold assign_port0. destruct (slavePortAvail s), ch; repeat destruct_cond; done. Qed.

Lemma updt_service s : service (updtStatesTree s).1 = service s.
Proof.
  unfold updtStatesTree. cbn zeta. set (ch := negb _). set (gp := fun i => gm_path_priority (bppg s i)).
  set (s3 := for_ 1 _ _ _). assert (E : service s3 = service s).
  { unfold s3. rewrite (for_frame service) by apply assign_port_service.
    by rewrite compute_masterPriority_service, choose_gm_service. }
  revert E. generalize s3. intros x E. case_bool_decide; cbn [fst].
  - etransitivity; [|exact E]. etransitivity; [apply assign_port0_service|]. done.
  - etransitivity; [apply assign_port0_service|]. exact E.
Qed.

Lemma core_at l l' i : map core l = map core l' -> core (aget zero l i) = core (aget zero l' i).
Proof. intros E. unfold aget. by rewrite <- !(map_nth core), E. Qed.

Lemma service_core s s' i : service s = service s' -> core (bppg s i) = core (bppg s' i).
Proof. intros E. apply core_at. unfold service in E. by injection E as _ _ _ E _ _ _. Qed.

Lemma service_infoIs s s' i : service s = service s' -> BPPG.infoIs (bppg s i) = BPPG.infoIs (bppg s' i).
Proof. intros E. exact (f_equal BPPG.infoIs (service_core s s' i E)). Qed.

(** a port has something to update only if it holds information *)
Definition informative (m : Z) (s : data) : Prop :=
  forall j, 1 <= j < m -> BPPG.updtInfo (bppg s j) = true -> BPPG.infoIs (bppg s j) <> Disabled.

Lemma role_informative g msr st b p gp : (port_role g msr st b p gp).2 = true -> BPPG.infoIs b <> Disabled.
Proof. unfold port_role. destruct (Z.eqb_spec (BPPG.infoIs b) Disabled); done. Qed.

Lemma assign_port_informative gp i s : 1 <= i -> informative i s -> informative (i + 1) (assign_port gp i s).
Proof.
  intros Hi H j Hj. pose proof (service_infoIs _ _ j (assign_port_service gp i s)) as I. rewrite I. clear I.
  destruct (assign_port_eq gp i s) as (_ & _ & _ & E). unfold bppg at 1. rewrite E. clear E.
  assert (B : bppgl (portStateUpdate i (gp i) s).1 =
    aset (bppgl s) i (bppg s i <| BPPG.updtInfo := (port_role (BPTASG.gmPriority (bptasg s)) (BPTASG.masterStepsRemoved (bptasg s))
      (SELECTED_STATE s i) (bppg s i) (ppg s i) (gp i)).2 |>)).
  { unfold portStateUpdate. destruct (port_role _ _ _ _ _ _) as [st u].
    destruct ((st =? SlavePort) && _); [|done]. by destruct (Nat.leb _ _). }
  rewrite B. clear B. destruct (decide (i = j)) as [<-|N].
  - destruct (decide (in_array (bppgl s) i)) as [In|Out].
    + rewrite aget_aset_eq by done. apply role_informative.
    + unfold aget, aset, in_array in *. rewrite list_insert_ge by lia. rewrite nth_overflow by lia. done.
  - rewrite aget_aset_ne by lia. apply H. lia.
Qed.

Lemma updt_informative s : 1 <= max_ports s -> informative (max_ports s) (updtStatesTree s).1.
Proof.
  intros Hm. unfold updtStatesTree. cbn zeta. set (ch := negb _). set (gp := fun i => gm_path_priority (bppg s i)).
  set (s2 := compute_masterPriority (choose_gm s)).
  assert (M : max_ports s2 = max_ports s).
  { assert (E : service s2 = service s) by (unfold s2; by rewrite compute_masterPriority_service, choose_gm_service).
    unfold service in E. by injection E as _ _ _ _ _ _ E. }
  assert (E : informative (max_ports s) (for_ 1 (max_ports s2) (assign_port gp) s2)).
  { rewrite M. apply (for_ind informative); [done|intros j Hj; lia|]. intros i x Hi. apply assign_port_informative. lia. }
  revert E. generalize (for_ 1 (max_ports s2) (assign_port gp) s2). intros x E.
  assert (B : forall y, bppgl (assign_port0 ch y) = bppgl y).
  { intros y. unfold assign_port0. destruct (slavePortAvail y), ch; repeat destruct_cond; done. }
  intros j Hj. case_bool_decide; unfold bppg; cbn; rewrite B; exact (E j Hj).
Qed.

(** what the choice starts from *)
Definition view (s : data) :=
  (service s, init_slave_ts s, (bppgl s, BPTASG.reselect (bptasg s), BPTASG.selected (bptasg s), thisSM s)).

Lemma view_reselected s s' : view s = view s' -> reselected s = reselected s'.
Proof. unfold view, reselected. intros E. injection E as _ _ _ _ _ _ _ _ _ -> _ ->. done. Qed.

(** an instance that runs, and does not start as a slave for a configured time *)
Definition plain (s : data) : Prop :=
  instance_on (ptasg s) (bptasg s) /\ init_slave_ts s = 0 /\ (domainIndex s = 0 -> INITIAL_SLAVE_TIME = 0) /\ 1 <= max_ports s.

Lemma plain_view s s' : view s = view s' -> plain s' -> plain s.
Proof.
  unfold view, service, plain, instance_on. intros E. injection E as -> -> -> _ _ -> -> ->. done.
Qed.

Lemma deferred_waits cts64 s : plain s ->
  let r := proc_deferred_gmsync cts64 s in
  view r.1 = view s /\ state r.1 = state s /\ last_state r.1 = last_state s /\ r.2 = None.
Proof.
  intros (_ & T & _). unfold proc_deferred_gmsync. rewrite T. cbn [Z.eqb negb]. repeat destruct_cond; done.
Qed.

Lemma prepared_plain cts64 s : plain s ->
  service (prepared cts64 s) = service s /\ init_slave_ts (prepared cts64 s) = 0.
Proof.
  intros (_ & T & D & _). unfold prepared.
  set (s1 := clearReselectTree _). assert (E : service s1 = service s /\ init_slave_ts s1 = 0 /\ domainIndex s1 = domainIndex s) by done.
  destruct E as (E1 & E2 & E3). revert E1 E2 E3. generalize s1. clear s1. intros s1 E1 E2 E3.
  assert (N : (domainIndex s1 =? 0) && negb (INITIAL_SLAVE_TIME =? 0) = false).
  { rewrite E3. destruct (Z.eqb_spec (domainIndex s) 0) as [Z0|]; [|done]. by rewrite (D Z0). }
  rewrite N. cbn [andb]. by destruct_cond.
Qed.

(** the result of a choice: nobody asks any more, every port is selected *)
Definition chosen (s : data) : Prop :=
  BPTASG.reselect (bptasg s) = replicate XL4_DATA_ABS_MAX_NETDEVS false /\
  BPTASG.selected (bptasg s) = replicate XL4_DATA_ABS_MAX_NETDEVS true /\
  reselected s = false /\ informative (max_ports s) s.

Lemma proc_chosen cts64 s : plain s ->
  let t := (state_selection_proc cts64 s).1 in
  service t = service s /\ init_slave_ts t = 0 /\ state t = state s /\ last_state t = last_state s /\ chosen t.
Proof.
  intros P. cbn zeta. pose proof (state_selection_view cts64 s) as V.
  rewrite state_selection_proc_eq in *. destruct (prepared_plain cts64 s P) as [E1 E2].
  set (p := prepared cts64 s) in *. pose proof (updt_service p) as E3. pose proof (updt_fixed p) as F.
  assert (M : max_ports p = max_ports s) by (unfold service in E1; by injection E1).
  pose proof (updt_informative p ltac:(rewrite M; apply P)) as I. rewrite M in I.
  assert (R : BPTASG.reselect (bptasg p) = replicate XL4_DATA_ABS_MAX_NETDEVS false) by apply prepared_view.
  destruct (updtStatesTree p) as [t r]. cbn [fst] in *. unfold loop_view in V. injection V as V1 V2 V3.
  unfold fixed in F. injection F as _ _ F1 _ _ _ _ F2 _ _ F3 _.
  split; [change (service t = service s); congruence|]. split; [change (init_slave_ts t = 0); congruence|].
  split; [exact V2|]. split; [exact V3|]. split; [change (BPTASG.reselect (bptasg t) = replicate XL4_DATA_ABS_MAX_NETDEVS false); congruence|].
  split; [done|]. split; [exact V1|]. change (informative (max_ports t) t). rewrite F2, M. exact I.
Qed.

Context (static : STATIC_PORT_STATE_SLAVE_PORT < 0).

Lemma set_all_states_view st s : view (set_all_states st s) = view s.
Proof. unfold set_all_states. by rewrite (for_frame view). Qed.

Lemma path_view v s : view (path_is_thisClock (set_lastGmPriority v s)) = view s.
Proof. done. Qed.

Lemma disabled_tree_view s : view (updateStateDisabledTree s) = view s.
Proof.
  etransitivity; [exact (path_view (memset224 1) (set_all_states (fun _ => DisabledPort) s))|]. apply set_all_states_view.
Qed.

Lemma init_bridge_view s : view (init_bridge_proc s) = view s.
Proof.
  unfold init_bridge_proc. rewrite (proj2 (Z.leb_gt 0 STATIC_PORT_STATE_SLAVE_PORT)) by done. apply disabled_tree_view.
Qed.

(** between two passes nothing has been chosen yet *)
Definition choosing (s0 s : data) : Prop :=
  plain s0 /\ view s = view s0 /\ In (state s) [INIT; INIT_BRIDGE; STATE_SELECTION].

(** the end of an evaluation: a choice, or nobody has asked for one *)
Definition selection_done (s0 s : data) : Prop :=
  service s = service s0 /\ init_slave_ts s = 0 /\ state s = STATE_SELECTION /\ last_state s = STATE_SELECTION /\
  reselected s = false /\ (chosen s \/ (view s = view s0 /\ reselected s0 = false)).

Lemma chosen_done s0 t : service t = service s0 -> init_slave_ts t = 0 -> state t = STATE_SELECTION -> last_state t = STATE_SELECTION ->
  chosen t -> selection_done s0 (state_selection_condition t).
Proof.
  intros E T S L C. pose proof C as (_ & _ & R & _). rewrite state_selection_condition_id by done.
  split; [done|]. split; [done|]. split; [done|]. split; [done|]. split; [done|by left].
Qed.

Lemma pass_choosing cts64 s0 s s' c : choosing s0 s -> pass (M := machine cts64) s = (s', c) ->
  match c with
  | Next => if bool_decide (last_state s' = state s') then selection_done s0 s' else choosing s0 s'
  | Leave o => o <> Crash /\ selection_done s0 s'
  end.
Proof.
  intros (P0 & V & I) P. rewrite pssel_pass_eq in P. set (t := set_last (state s) s) in P.
  assert (Vt : view t = view s0) by exact V. assert (Lt : last_state t = state s) by reflexivity.
  unfold switch in P. change (state t) with (state s) in P. destruct (state s) eqn:E; cbn [In] in I.
  - injection P as <- <-. rewrite bool_decide_eq_false_2 by done.
    split; [done|]. split; [exact V|]. by right; left.
  - set (x := if bool_decide _ then init_bridge_proc t else t) in P.
    assert (Vx : view x = view s0) by (unfold x; destruct (bool_decide _); [by rewrite init_bridge_view|done]).
    assert (Lx : last_state x = INIT_BRIDGE) by (unfold x; destruct (bool_decide _); [by rewrite init_bridge_last|done]).
    clearbody x. unfold init_bridge_condition in P. rewrite (proj2 (Z.leb_gt 0 STATIC_PORT_STATE_SLAVE_PORT)) in P by done.
    cbn in P. injection P as <- <-. rewrite bool_decide_eq_false_2 by (change (last_state x <> STATE_SELECTION); by rewrite Lx).
    split; [done|]. split; [exact Vx|]. by right; right; left.
  - assert (exists x, (if deferred_gmsync t then proc_deferred_gmsync (i64 cts64) t else (t, None)) = (x, None) /\
      view x = view s0 /\ state x = STATE_SELECTION /\ last_state x = STATE_SELECTION) as (x & Ex & Vx & Sx & Lx).
    { destruct (deferred_gmsync t); [|by exists t].
      destruct (deferred_waits (i64 cts64) t (plain_view t s0 Vt P0)) as (D1 & D2 & D3 & D4).
      destruct (proc_deferred_gmsync (i64 cts64) t) as [x r]. cbn in D1, D2, D3, D4. subst r. exists x.
      split; [done|]. split; [by rewrite D1|]. split; [by rewrite D2|by rewrite D3]. }
    rewrite Ex in P. clear Ex. cbn iota beta in P. destruct (bool_decide (last_state s <> STATE_SELECTION)).
    + destruct (proc_chosen (i64 cts64) x (plain_view x s0 Vx P0)) as (C1 & C2 & C3 & C4 & C5).
      destruct (state_selection_proc (i64 cts64) x) as [y r]. cbn [fst] in *. injection P as <- <-.
      assert (D : selection_done s0 (state_selection_condition y)).
      { apply chosen_done; [|done|congruence|congruence|done]. rewrite C1. exact (f_equal (fun v => v.1.1) Vx). }
      pose proof D as (_ & _ & D1 & D2 & _). unfold ret_if. destruct r as [r|]; [by split|]. by rewrite bool_decide_eq_true_2 by congruence.
    + injection P as <- <-. unfold state_selection_condition. destruct (reselected x) eqn:R.
      * rewrite bool_decide_eq_false_2 by done. split; [done|]. split; [exact Vx|]. by right; right; left.
      * rewrite bool_decide_eq_true_2 by congruence.
        split; [exact (f_equal (fun v => v.1.1) Vx)|]. split; [etransitivity; [exact (f_equal (fun v => v.1.2) Vx)|apply P0]|]. split; [done|]. split; [done|]. split; [done|].
        right. split; [done|]. by rewrite <- (view_reselected x s0 Vx).
  - intuition discriminate.
Qed.

(** an evaluation never crashes; afterwards either a choice has been made, or nobody had asked for one *)
Lemma selection_run cts64 s : plain s -> In (state s) [INIT; STATE_SELECTION] ->
  let r := port_state_selection_sm cts64 s in r.2 <> Crash /\ selection_done s r.1.
Proof.
  intros P I. unfold port_state_selection_sm.
  refine (exec_hoare (M := machine cts64) (choosing s) (fun t o => o <> Crash /\ selection_done s t) fuel s _ _ _).
  - rewrite state_selection_ends. by eexists.
  - pose proof P as ((B & En & X) & _).
    assert (E : allstate_condition s = state s) by (unfold allstate_condition; by rewrite B, En).
    split; [done|]. split; [done|]. cbn. rewrite E. cbn [In] in *. tauto.
  - intros s1 s2 c C E. pose proof (pass_choosing cts64 s s1 s2 c C E) as H. destruct c; [|done].
    cbn [sm_last sm_state machine]. destruct (bool_decide _); [by split|done].
Qed.

(** without a port that asks, nothing is chosen *)
Lemma selection_idle cts64 s : plain s -> state s = STATE_SELECTION -> last_state s = STATE_SELECTION -> reselected s = false ->
  view (port_state_selection_sm cts64 s).1 = view s.
Proof.
  intros P S L R. pose proof P as ((B & En & X) & _).
  set (x := if deferred_gmsync s then (proc_deferred_gmsync (i64 cts64) (set_last STATE_SELECTION s)).1 else set_last STATE_SELECTION s).
  assert (view x = view s /\ state x = STATE_SELECTION /\ last_state x = STATE_SELECTION /\
    (if deferred_gmsync s then proc_deferred_gmsync (i64 cts64) (set_last STATE_SELECTION s) else (set_last STATE_SELECTION s, None)) = (x, None))
    as (Vx & Sx & Lx & Ex).
  { unfold x. destruct (deferred_gmsync s); [|by split_and!].
    destruct (deferred_waits (i64 cts64) (set_last STATE_SELECTION s) P) as (D1 & D2 & D3 & D4).
    destruct (proc_deferred_gmsync (i64 cts64) (set_last STATE_SELECTION s)) as [y r]. cbn [fst snd] in *. subst r.
    split; [exact D1|]. split; [by rewrite D2|]. split; [by rewrite D3|done]. }
  clearbody x. assert (Q : pass (M := machine cts64) s = (x, Next)).
  { rewrite pssel_pass_eq. unfold switch. rewrite S, L. rewrite bool_decide_eq_false_2 by (intros Y; by apply Y).
    change (state (set_last STATE_SELECTION s)) with (state s). rewrite S.
    change (deferred_gmsync (set_last STATE_SELECTION s)) with (deferred_gmsync s). rewrite Ex. cbn.
    by rewrite state_selection_condition_id by (by rewrite (view_reselected x s Vx)). }
  assert (A : sm_allstate (StateMachine := machine cts64) s = s).
  { cbn. unfold set_allstate, allstate_condition. rewrite B, En. cbn. by destruct s. }
  unfold port_state_selection_sm, exec, run. rewrite A. unfold fuel.
  rewrite (loop_stop (M := machine cts64) 5 s x Q) by (cbn; congruence). exact Vx.
Qed.
End Selection.

(** ** The change of the grandmaster *)

Section Change.
#[local] Set Default Proof Using "All".

(** the instance runs before and after *)
Definition same_run (g g' : PerTimeAwareSystemGlobal) : Prop :=
  PTASG.BEGIN g' = PTASG.BEGIN g /\ PTASG.instanceEnable g' = PTASG.instanceEnable g.

Lemma gms_same_run `{CF : Config} s : same_run (GMS.ptasg s) (GMS.ptasg (GMS.gm_stable_sm s).1).
Proof.
  unfold GMS.gm_stable_sm.
  apply (exec_inv (M := GMS.machine) (fun x => same_run (GMS.ptasg s) (GMS.ptasg x))); [done| |done].
  intros s1 s2 c H P. rewrite GMS.gms_pass_eq in P. set (t := GMS.set_last (GMS.state s1) s1) in P.
  assert (Ht : same_run (GMS.ptasg s) (GMS.ptasg t)) by exact H. unfold GMS.switch in P.
  destruct (GMS.state t), (bool_decide (GMS.last_state s1 <> GMS.state s1)); injection P as <- _; try exact Ht.
  - unfold GMS.initialize_proc. by destruct_cond.
  - unfold GMS.gm_unstable_proc. by destruct_cond.
Qed.

Lemma gm_change_same_run `{CF : Config} id s : same_run (GMS.ptasg s) (GMS.ptasg (GMS.gm_stable_gm_change id s)).
Proof.
  unfold GMS.gm_stable_gm_change. destruct (bool_decide _); [done|].
  match goal with |- context [GMS.gm_stable_sm ?x] => exact (gms_same_run x) end.
Qed.

Section Servo.
Import CMSR.
Context `{DEV : PtpDev} `{CV : Conversions} `{CF : Config} `{SC : ServoConfig}.

Definition runs_as (g : PerTimeAwareSystemGlobal) (s : clocked data) : Prop := same_run g (ptasg (sm s)).

Lemma cmsr_keeps_run g b : keeps (runs_as g) (switch b).
Proof.
  assert (K1 : forall a d o, keeps (runs_as g) (filter_offset a d o)) by (intros; unfold filter_offset; keeps_auto).
  assert (K2 : forall d l, keeps (runs_as g) (set_phase_offsetGM d l)).
  { intros. unfold set_phase_offsetGM, big_jump, same_gm, next_offset, count_stable, adjust_offset. keeps_auto.
    apply keeps_wr. intros s H. by destruct (hw_phase (sm s)). }
  assert (K3 : forall x, keeps (runs_as g) (wr (judge_rate x))).
  { intros x. apply keeps_wr. intros s H. unfold judge_rate, runs_as. cbn. by repeat destruct_cond. }
  assert (K4 : forall l m, keeps (runs_as g) (computeGmRateRatio l m)).
  { intros. unfold computeGmRateRatio, compute_rate, adjust_rate. keeps_auto. }
  unfold switch, receive_source_time_proc, update_gmsync, set_state. apply pkeeps_bind; [apply keeps_rd|]. intros d.
  destruct (state d); keeps_auto.
Qed.

Lemma cmsr_same_run sh s : wf_shape sh ->
  PHASE_OFFSET_IIR_ALPHA_START_VALUE <> 0 /\ PHASE_OFFSET_IIR_ALPHA_STABLE_VALUE <> 0 -> shape (GC.gcd (ck s)) = sh ->
  let r := clock_master_sync_receive_sm s in
  r.2 <> Crash /\ shape (GC.gcd (ck r.1)) = sh /\ same_run (ptasg (sm s)) (ptasg (sm r.1)).
Proof.
  intros W A Hs. destruct (cmsr_safe sh W A s Hs) as [E N]. split; [done|]. split; [done|].
  unfold clock_master_sync_receive_sm.
  apply (exec_inv (M := machine) (runs_as (ptasg (sm s)))); [done| |done].
  intros s1 s2 c H P. unfold pass in P. cbn [sm_switch machine sm_state sm_set_last] in P. unfold step in P.
  set (t := set_last _ s1) in P. assert (Ht : runs_as (ptasg (sm s)) t) by exact H.
  destruct (switch _ t) as [[c1 s3]|] eqn:Q; injection P as <- _; [|exact Ht].
  by eapply cmsr_keeps_run.
Qed.
End Servo.
End Change.

(** ** PortAnnounceInformation after a selection *)

Section After.
Import PAI.

Definition lists_after (x y : data) : Prop :=
  (BPTASG.reselect (bptasg y) = replicate XL4_DATA_ABS_MAX_NETDEVS false /\
   BPTASG.selected (bptasg y) = replicate XL4_DATA_ABS_MAX_NETDEVS true /\
   (BPPG.updtInfo (bppg y) = true -> BPPG.infoIs (bppg y) <> Disabled)) \/
  (BPTASG.reselect (bptasg y) = BPTASG.reselect (bptasg x) /\
   BPTASG.selected (bptasg y) = BPTASG.selected (bptasg x) /\
   BPPG.updtInfo (bppg y) = BPPG.updtInfo (bppg x)).

Lemma aget_replicate {A} (a b : A) n i : 0 <= i < Z.of_nat n -> aget a (replicate n b) i = b.
Proof. intros H. unfold aget. apply nth_lookup_Some, lookup_replicate_2. lia. Qed.

(** a selection leaves the machine of the port where it may be evaluated again *)
Lemma start_after x y : state y = state x -> last_state y = last_state x -> portIndex y = portIndex x ->
  core (bppg y) = core (bppg x) -> lists_after x y -> 0 <= portIndex x < PSSEL.NETDEVS -> start x -> start y.
Proof.
  intros S L I C A R [[R1 R2] M (So1 & D & I0 & Rc & Q) Re St].
  assert (Ei : BPPG.infoIs (bppg y) = BPPG.infoIs (bppg x)) by exact (f_equal BPPG.infoIs C).
  assert (Er : BPPG.rcvdMsg (bppg y) = BPPG.rcvdMsg (bppg x)) by exact (f_equal BPPG.rcvdMsg C).
  assert (Ep : BPPG.rcvdAnnouncePtr (bppg y) = BPPG.rcvdAnnouncePtr (bppg x)) by exact (f_equal BPPG.rcvdAnnouncePtr C).
  split.
  - unfold in_range, in_array in *. rewrite I. destruct A as [(-> & -> & _)|(-> & -> & _)]; [|done].
    unfold PSSEL.NETDEVS in R. rewrite !length_replicate. done.
  - unfold msg_ok in *. by rewrite Er, Ep, S.
  - unfold sound, SELECTED, asked_for in *. rewrite S, L, Ei, I. split; [done|]. split; [done|]. split; [done|]. split; [done|].
    destruct A as [(-> & -> & N)|(-> & -> & ->)]; [|done].
    rewrite !aget_replicate by exact R. intros U [X|X]; [done|]. rewrite Ei in N. by destruct (N U).
  - congruence.
  - by rewrite S.
Qed.
End After.

(** ** The turns of sm_bmcs_perform *)

Section Rounds.
Import Man.
Context `{DEV : PtpDev} `{CV : Conversions} `{CF : Config} `{SC : ServoConfig} `{PL : Platform}.
#[local] Set Default Proof Using "All".

(** the machines with the shared data loaded *)
Definition pai (ta : gptpsm_tasd_t) (p : gptpsm_ptd_t) : PAI.data := load (globals_of ta p) (Ptd.painfd p).
Definition pss (ta : gptpsm_tasd_t) : PSSEL.data :=
  Tasd.pssd ta <| PSSEL.ptasg := Tasd.tasglb ta |> <| PSSEL.bptasg := Tasd.btasglb ta |>
               <| PSSEL.ppgl := ppglbl ta |> <| PSSEL.bppgl := bppglbl ta |> <| PSSEL.gcd := gcd_of ta |>.

(** a domain whose best-master machines run, seen from the port *)
Record bmcs_ready (pi : nat) (ta : gptpsm_tasd_t) (p : gptpsm_ptd_t) : Prop := {
  br_port : Tasd.ptds ta !! pi = Some p;
  br_index : PAI.portIndex (Ptd.painfd p) = Z.of_nat pi;
  br_service : in_service (pai ta p);
  br_start : start (pai ta p);
  br_plain : plain (pss ta);
  br_state : PSSEL.state (Tasd.pssd ta) = PSSEL.INIT \/
             (PSSEL.state (Tasd.pssd ta) = PSSEL.STATE_SELECTION /\ PSSEL.last_state (Tasd.pssd ta) = PSSEL.STATE_SELECTION);
  br_ports : 1 <= Z.of_nat pi < PSSEL.max_ports (Tasd.pssd ta) /\ PSSEL.max_ports (Tasd.pssd ta) <= PSSEL.NETDEVS;
  br_clocks : wf (GC.gcd (Tasd.clocks ta))
}.

(** a port that a selection has just given something to update *)
Record fresh (ta : gptpsm_tasd_t) (p : gptpsm_ptd_t) : Prop := {
  fr_updt : BPPG.updtInfo (Ptd.bppglb p) = true;
  fr_up : PAI.PORT_UP (pai ta p) = true;
  fr_selected : PAI.SELECTED (pai ta p) = true;
  fr_state : In (PAI.state (Ptd.painfd p)) [PAI.AGED; PAI.CURRENT];
  fr_quiet : PSSEL.reselected (pss ta) = false;
  fr_chosen : PSSEL.state (Tasd.pssd ta) = PSSEL.STATE_SELECTION
}.

(** *** PortAnnounceInformation *)

Lemma existsb_aget (l : list bool) : existsb id l = false <-> forall j, 0 <= j -> aget false l j = false.
Proof.
  split.
  - intros E j _. unfold aget. destruct (nth_in_or_default (Z.to_nat j) l false) as [I|]; [|done].
    destruct (nth _ l false) eqn:N; [|done]. by rewrite (proj2 (existsb_exists id l) (ex_intro _ true (conj I eq_refl))) in E.
  - intros H. apply not_true_iff_false. intros E. apply existsb_exists in E as (b & I & B).
    apply (In_nth l b false) in I as (n & _ & N). specialize (H (Z.of_nat n) ltac:(lia)).
    unfold aget in H. rewrite Nat2Z.id, N in H. destruct b; done.
Qed.

Lemma painfd_step pi cts64 ta p : bmcs_ready pi ta p ->
  exists ta' p', on_painfd (PAI.port_announce_information_sm cts64) pi ta = Some (None, ta') /\
    pai ta' p' = (PAI.port_announce_information_sm cts64 (pai ta p)).1 /\ bmcs_ready pi ta' p' /\
    Tasd.pssd ta' = Tasd.pssd ta.
Proof.
  intros [Po Ix Sv St Pn Ps Bd Ck]. pose proof (information_run cts64 (pai ta p) St Sv) as (O & St' & G & _).
  pose proof G as (_ & _ & _ & Sv' & Pi & _).
  destruct (PAI.port_announce_information_sm cts64 (pai ta p)) as [d o] eqn:E. cbn [fst snd] in *. subst o.
  set (q := p <| Ptd.painfd := d |> <| Ptd.ppglb := PAI.ppg d |> <| Ptd.bppglb := PAI.bppg d |>).
  eexists _, q. split; [by apply on_port_run|]. set (ta' := put_globals _ _ _ _).
  assert (L : Tasd.ptds ta' !! pi = Some q).
  { unfold ta', put_globals. cbn. apply list_lookup_insert_eq. by eapply lookup_lt_Some. }
  assert (Eq : pai ta' q = d) by (by destruct d). split; [done|]. split; [|done].
  split; [done| | | | |done|done|done].
  - change (PAI.portIndex d = Z.of_nat pi). rewrite Pi. exact Ix.
  - by rewrite Eq.
  - by rewrite Eq.
  - destruct Pn as (_ & P2 & P3 & P4). split; [|by split]. destruct Sv' as (B & En & X & _). by split.
Qed.

(** *** PortStateSelection *)

Lemma put_ports_ppglb pl bl ps : length pl = length ps -> map Ptd.ppglb (put_ports pl bl ps) = pl.
Proof.
  intros L. apply list_eq. intros i. unfold put_ports. rewrite list_lookup_fmap, list_lookup_imap.
  destruct (ps !! i) as [p|] eqn:E; cbn.
  - destruct (lookup_lt_is_Some_2 pl i) as [x X]; [rewrite L; by eapply lookup_lt_Some|]. by rewrite X.
  - symmetry. apply lookup_ge_None_2. rewrite L. by apply lookup_ge_None_1.
Qed.

Lemma put_ports_bppglb pl bl ps : length bl = length ps -> map Ptd.bppglb (put_ports pl bl ps) = bl.
Proof.
  intros L. apply list_eq. intros i. unfold put_ports. rewrite list_lookup_fmap, list_lookup_imap.
  destruct (ps !! i) as [p|] eqn:E; cbn.
  - destruct (lookup_lt_is_Some_2 bl i) as [x X]; [rewrite L; by eapply lookup_lt_Some|]. by rewrite X.
  - symmetry. apply lookup_ge_None_2. rewrite L. by apply lookup_ge_None_1.
Qed.

Lemma replay_ok sh evs : wf_shape sh -> ok sh (replay evs) any.
Proof.
  intros W. induction evs as [|e evs IH]; [by apply ok_ret|].
  destruct e; cbn [replay]; try exact IH.
  all: eapply (ok_bind _ W); [first [apply ok_set_gmsync|apply ok_set_gmchange]; done|intros; exact IH].
Qed.

Lemma replayed_run {R} evs (r : option R) ta : wf (GC.gcd (Tasd.clocks ta)) ->
  exists c, replayed evs (Ret r) ta = Some (r, ta <| Tasd.clocks := c |>) /\ wf (GC.gcd c).
Proof.
  intros W. destruct (replay_ok _ evs W (Tasd.clocks ta) eq_refl) as (u & c & E & H & _).
  exists c. split; [unfold replayed; by rewrite E|]. unfold wf in *. by rewrite H.
Qed.

(** what the evaluation of PortStateSelection means for the port *)
Record selected_again (ta : gptpsm_tasd_t) (p : gptpsm_ptd_t) (ta' : gptpsm_tasd_t) (p' : gptpsm_ptd_t) : Prop := {
  sa_ppg : Ptd.ppglb p' = Ptd.ppglb p;
  sa_core : core (Ptd.bppglb p') = core (Ptd.bppglb p);
  sa_painfd : Ptd.painfd p' = Ptd.painfd p;
  sa_quiet : PSSEL.reselected (pss ta') = false;
  sa_state : PSSEL.state (Tasd.pssd ta') = PSSEL.STATE_SELECTION /\ PSSEL.last_state (Tasd.pssd ta') = PSSEL.STATE_SELECTION;
  sa_lists : (BPTASG.reselect (Tasd.btasglb ta') = replicate XL4_DATA_ABS_MAX_NETDEVS false /\
              BPTASG.selected (Tasd.btasglb ta') = replicate XL4_DATA_ABS_MAX_NETDEVS true /\
              (BPPG.updtInfo (Ptd.bppglb p') = true -> BPPG.infoIs (Ptd.bppglb p') <> Disabled)) \/
             (BPTASG.reselect (Tasd.btasglb ta') = BPTASG.reselect (Tasd.btasglb ta) /\
              BPTASG.selected (Tasd.btasglb ta') = BPTASG.selected (Tasd.btasglb ta) /\
              BPPG.updtInfo (Ptd.bppglb p') = BPPG.updtInfo (Ptd.bppglb p) /\ PSSEL.reselected (pss ta) = false);
  sa_idle : PSSEL.state (Tasd.pssd ta) = PSSEL.STATE_SELECTION -> PSSEL.last_state (Tasd.pssd ta) = PSSEL.STATE_SELECTION ->
            PSSEL.reselected (pss ta) = false -> BPPG.updtInfo (Ptd.bppglb p') = BPPG.updtInfo (Ptd.bppglb p)
}.

Context (static : STATIC_PORT_STATE_SLAVE_PORT < 0).

(** the result of an evaluation, stored *)
Definition stored (d : PSSEL.data) (ta : gptpsm_tasd_t) : gptpsm_tasd_t :=
  ta <| Tasd.tasglb := PSSEL.ptasg d |> <| Tasd.btasglb := PSSEL.bptasg d |> <| Tasd.pssd := d |>
     <| Tasd.ptds ::= put_ports (PSSEL.ppgl d) (PSSEL.bppgl d) |>.

Lemma stored_pss d ta c : length (PSSEL.ppgl d) = length (Tasd.ptds ta) -> length (PSSEL.bppgl d) = length (Tasd.ptds ta) ->
  let t := stored d ta <| Tasd.clocks := c |> in pss t = d <| PSSEL.gcd := gcd_of t |>.
Proof.
  intros L1 L2 t. unfold pss.
  assert (E1 : ppglbl t = PSSEL.ppgl d) by (apply put_ports_ppglb; done).
  assert (E2 : bppglbl t = PSSEL.bppgl d) by (apply put_ports_bppglb; done).
  rewrite E1, E2. unfold t, stored. generalize (gcd_of t). intros g. cbn. by destruct d.
Qed.

Lemma stored_port d ta c pi p b : service d = service (pss ta) -> Tasd.ptds ta !! pi = Some p ->
  PSSEL.bppgl d !! pi = Some b ->
  Tasd.ptds (stored d ta <| Tasd.clocks := c |>) !! pi = Some (p <| Ptd.bppglb := b |>) /\ core b = core (Ptd.bppglb p).
Proof.
  intros S Po B. unfold service in S. injection S as _ _ _ C P _ _.
  change (PSSEL.ppgl d = ppglbl ta) in P. change (map core (PSSEL.bppgl d) = map core (bppglbl ta)) in C. split.
  - cbn. unfold put_ports. rewrite list_lookup_imap, Po. cbn. rewrite B, P. unfold ppglbl. rewrite list_lookup_fmap, Po. cbn.
    by destruct p.
  - apply (f_equal (fun l => l !! pi)) in C. unfold bppglbl in C. rewrite !list_lookup_fmap, B, Po in C. by apply Some_inj in C.
Qed.

Lemma pssd_run cts64 ta : plain (pss ta) -> In (PSSEL.state (pss ta)) [PSSEL.INIT; PSSEL.STATE_SELECTION] -> wf (GC.gcd (Tasd.clocks ta)) ->
  let d := (PSSEL.port_state_selection_sm cts64 (pss ta)).1 in
  exists r c, on_pssd (PSSEL.port_state_selection_sm cts64) ta = Some (r, stored d ta <| Tasd.clocks := c |>) /\
    wf (GC.gcd c) /\ selection_done (pss ta) d.
Proof.
  intros P I W d. destruct (selection_run static cts64 (pss ta) P I) as [N D].
  fold d in D. unfold on_pssd. fold (pss ta). destruct (PSSEL.port_state_selection_sm cts64 (pss ta)) as [d' o] eqn:E.
  cbn [fst snd] in *. subst d. destruct o as [r|]; [|done].
  destruct (replayed_run (Gcd.events (PSSEL.gcd d')) r (stored d' ta) W) as (c & R & Wc).
  exists r, c. split; [exact R|]. by split.
Qed.

Lemma stored_lengths d ta : service d = service (pss ta) ->
  length (PSSEL.ppgl d) = length (Tasd.ptds ta) /\ length (PSSEL.bppgl d) = length (Tasd.ptds ta).
Proof.
  intros S. unfold service in S. injection S as _ _ _ C P _ _. split; [rewrite P; apply length_map|].
  apply (f_equal length) in C. rewrite !length_map in C. rewrite C. apply length_map.
Qed.

Lemma stored_again d ta c pi p b : selection_done (pss ta) d -> Tasd.ptds ta !! pi = Some p -> PSSEL.bppgl d !! pi = Some b ->
  1 <= Z.of_nat pi < PSSEL.max_ports (Tasd.pssd ta) ->
  (PSSEL.state (pss ta) = PSSEL.STATE_SELECTION -> PSSEL.last_state (pss ta) = PSSEL.STATE_SELECTION ->
   PSSEL.reselected (pss ta) = false -> view d = view (pss ta)) ->
  selected_again ta p (stored d ta <| Tasd.clocks := c |>) (p <| Ptd.bppglb := b |>).
Proof.
  intros (D1 & D2 & D3 & D4 & D5 & D6) Po B Bd Id.
  destruct (stored_lengths d ta D1) as [L1 L2]. destruct (stored_port d ta c pi p b D1 Po B) as [_ Cb].
  pose proof (stored_pss d ta c L1 L2) as Ep. cbn zeta in Ep.
  assert (Hb : PSSEL.bppg d (Z.of_nat pi) = b) by (unfold PSSEL.bppg, aget; rewrite Nat2Z.id; by apply nth_lookup_Some).
  assert (Hv : view d = view (pss ta) -> b = Ptd.bppglb p).
  { intros V. assert (V1 : PSSEL.bppgl d = bppglbl ta) by exact (f_equal (fun v => v.2.1.1.1) V).
    rewrite V1 in B. unfold bppglbl in B. rewrite list_lookup_fmap, Po in B. by injection B. }
  split; [done|exact Cb|done| |by split| |].
  - rewrite Ep. exact D5.
  - destruct D6 as [(C1 & C2 & _ & C4)|[V R0]].
    + left. split; [exact C1|]. split; [exact C2|]. change (BPPG.updtInfo b = true -> BPPG.infoIs b <> Disabled).
      rewrite <- Hb. apply C4. assert (M : PSSEL.max_ports d = PSSEL.max_ports (Tasd.pssd ta)) by exact (f_equal (fun v => v.2.2) D1).
      rewrite M. exact Bd.
    + right. split; [exact (f_equal (fun v => v.2.1.1.2) V)|]. split; [exact (f_equal (fun v => v.2.1.2) V)|].
      split; [|done]. change (BPPG.updtInfo b = BPPG.updtInfo (Ptd.bppglb p)). by rewrite Hv.
  - intros H1 H2 H3. change (BPPG.updtInfo b = BPPG.updtInfo (Ptd.bppglb p)). rewrite Hv; [done|]. by apply Id.
Qed.


Lemma again_start ta p ta' p' : selected_again ta p ta' p' -> 0 <= PAI.portIndex (Ptd.painfd p) < PSSEL.NETDEVS ->
  start (pai ta p) -> start (pai ta' p').
Proof.
  intros [_ C P _ _ L _] R St.
  assert (S : PAI.state (Ptd.painfd p') = PAI.state (Ptd.painfd p)) by by rewrite P.
  assert (S2 : PAI.last_state (Ptd.painfd p') = PAI.last_state (Ptd.painfd p)) by by rewrite P.
  assert (S3 : PAI.portIndex (Ptd.painfd p') = PAI.portIndex (Ptd.painfd p)) by by rewrite P.
  apply (start_after (pai ta p) (pai ta' p') S S2 S3 C); [|exact R|exact St].
  destruct L as [L|(L1 & L2 & L3 & _)]; [by left|by right].
Qed.

Lemma stored_plain d ta c : selection_done (pss ta) d -> plain (pss ta) ->
  let t := stored d ta <| Tasd.clocks := c |> in
  plain (pss t) /\ instance_on (Tasd.tasglb t) (Tasd.btasglb t) /\
  PSSEL.max_ports (Tasd.pssd t) = PSSEL.max_ports (Tasd.pssd ta).
Proof.
  intros (D1 & D2 & _) ((P1 & P2 & P3) & P4 & P5 & P6) t.
  destruct (stored_lengths d ta D1) as [L1 L2]. pose proof (stored_pss d ta c L1 L2) as Ep. cbn zeta in Ep. fold t in Ep.
  unfold service in D1. injection D1 as S1 S2 S3 _ _ S6 S7.
  assert (On : instance_on (PSSEL.ptasg d) (PSSEL.bptasg d)).
  { split; [exact (eq_trans S1 P1)|]. split; [exact (eq_trans S2 P2)|exact (eq_trans S3 P3)]. }
  split; [|split; [exact On|exact S7]]. rewrite Ep. split; [exact On|]. split; [exact D2|]. split.
  - intros H. apply P5. exact (eq_trans (eq_sym S6) H).
  - change (1 <= PSSEL.max_ports d). rewrite S7. exact P6.
Qed.

Lemma pssd_step pi cts64 ta p : bmcs_ready pi ta p ->
  exists r ta' p', on_pssd (PSSEL.port_state_selection_sm cts64) ta = Some (r, ta') /\ bmcs_ready pi ta' p' /\
    selected_again ta p ta' p'.
Proof.
  intros [Po Ix Sv St Pn Ps Bd Ck].
  destruct (pssd_run cts64 ta Pn) as (r & c & E & Wc & D); [destruct Ps as [H|[H _]]; [left|right; left]; exact (eq_sym H)|done|].
  pose proof (selection_idle static cts64 (pss ta) Pn) as Id. revert E D Id.
  generalize ((PSSEL.port_state_selection_sm cts64 (pss ta)).1). intros d E D Id.
  destruct (stored_lengths d ta (proj1 D)) as [_ L2].
  destruct (lookup_lt_is_Some_2 (PSSEL.bppgl d) pi) as [b B]; [rewrite L2; by eapply lookup_lt_Some|].
  destruct (stored_port d ta c pi p b (proj1 D) Po B) as [Po' _].
  pose proof (stored_again d ta c pi p b D Po B (proj1 Bd) Id) as SA.
  destruct (stored_plain d ta c D Pn) as (Pn' & On & Mp). cbn zeta in *.
  exists r, (stored d ta <| Tasd.clocks := c |>), (p <| Ptd.bppglb := b |>). split; [exact E|]. split; [|exact SA].
  split; [exact Po'|exact Ix| | |exact Pn'|right; exact (sa_state _ _ _ _ SA)| |exact Wc].
  - destruct Sv as (_ & _ & _ & Y), On as (O1 & O2 & O3). split; [exact O1|]. split; [exact O2|]. split; [exact O3|exact Y].
  - apply (again_start ta p); [exact SA|rewrite Ix; lia|exact St].
  - rewrite Mp. exact Bd.
Qed.

(** *** GmStable and ClockMasterSyncReceive *)

Definition same_ports (ta ta' : gptpsm_tasd_t) : Prop :=
  Tasd.ptds ta' = Tasd.ptds ta /\ Tasd.btasglb ta' = Tasd.btasglb ta /\ Tasd.pssd ta' = Tasd.pssd ta /\
  same_run (Tasd.tasglb ta) (Tasd.tasglb ta').

Lemma same_ports_ready pi ta ta' p : same_ports ta ta' -> wf (GC.gcd (Tasd.clocks ta')) -> bmcs_ready pi ta p -> bmcs_ready pi ta' p.
Proof.
  intros (P & B & S & (R1 & R2)) W [Po Ix (V1 & V2 & V3 & V4) St Pn Ps Bd Ck].
  split; [by rewrite P|done| | | |by rewrite S|by rewrite S|done].
  - split; [exact (eq_trans R1 V1)|]. split; [exact (eq_trans R2 V2)|]. split; [|exact V4].
    change (BPTASG.externalPortConfiguration (Tasd.btasglb ta') = VALUE_DISABLED). by rewrite B.
  - apply (start_after (pai ta p) (pai ta' p)); [done..| |change (0 <= PAI.portIndex (Ptd.painfd p) < PSSEL.NETDEVS); lia|done].
    right. change (PAI.bptasg (pai ta' p)) with (Tasd.btasglb ta'). by rewrite B.
  - destruct Pn as ((P1 & P2 & P3) & P4 & P5 & P6). unfold plain, instance_on, pss. cbn. rewrite B, S.
    split; [split; [exact (eq_trans R1 P1)|split; [exact (eq_trans R2 P2)|exact P3]]|done].
Qed.

Context (alphas : PHASE_OFFSET_IIR_ALPHA_START_VALUE <> 0 /\ PHASE_OFFSET_IIR_ALPHA_STABLE_VALUE <> 0).

Definition gm_changed_to (id : list Z) : M unit :=
  _ ← on_gmsd (fun d => (GMS.gm_stable_gm_change id d, Ret None));
  _ ← on_cmsrecd CMSR.clock_master_sync_receive_sm_ClockSourceReq;
  mret tt.

Lemma gmsd_step id ta : wf (GC.gcd (Tasd.clocks ta)) ->
  exists ta', on_gmsd (fun d => (GMS.gm_stable_gm_change id d, Ret None)) ta = Some (None, ta') /\
    same_ports ta ta' /\ wf (GC.gcd (Tasd.clocks ta')).
Proof.
  intros W. set (d0 := Tasd.gmsd ta <| GMS.ptasg := Tasd.tasglb ta |> <| GMS.gcd := gcd_of ta |>).
  change (exists ta', (let d := GMS.gm_stable_gm_change id d0 in
    replayed (R := unit) (Gcd.events (GMS.gcd d)) (Ret None) (ta <| Tasd.tasglb := GMS.ptasg d |> <| Tasd.gmsd := d |>)) = Some (None, ta') /\
    same_ports ta ta' /\ wf (GC.gcd (Tasd.clocks ta'))).
  pose proof (gm_change_same_run id d0) as R. revert R. generalize (GMS.gm_stable_gm_change id d0). intros d R.
  pose (t := ta <| Tasd.tasglb := GMS.ptasg d |> <| Tasd.gmsd := d |>).
  destruct (replayed_run (R := unit) (Gcd.events (GMS.gcd d)) None t W) as (c & E & Wc).
  exists (t <| Tasd.clocks := c |>). split; [exact E|]. split; [|exact Wc]. by split_and!.
Qed.

Lemma cmsrecd_step ta : wf (GC.gcd (Tasd.clocks ta)) ->
  exists r ta', on_cmsrecd CMSR.clock_master_sync_receive_sm_ClockSourceReq ta = Some (r, ta') /\
    same_ports ta ta' /\ wf (GC.gcd (Tasd.clocks ta')).
Proof.
  intros W. unfold on_cmsrecd, CMSR.clock_master_sync_receive_sm_ClockSourceReq. set (s0 := mkc _ _).
  destruct (cmsr_same_run _ s0 W alphas eq_refl) as (N & Sh & R). revert N Sh R.
  generalize (CMSR.clock_master_sync_receive_sm s0). intros [s o] N Sh R. destruct o as [r|]; [|done].
  eexists r, _. split; [reflexivity|]. split; [by split_and!|]. unfold wf in *. cbn [fst] in Sh. cbn. by rewrite Sh.
Qed.

Lemma same_ports_trans a b c : same_ports a b -> same_ports b c -> same_ports a c.
Proof.
  intros (P1 & P2 & P3 & P4 & P5) (Q1 & Q2 & Q3 & Q4 & Q5). split; [congruence|]. split; [congruence|]. split; [congruence|].
  split; congruence.
Qed.

Lemma change_step id ta : wf (GC.gcd (Tasd.clocks ta)) ->
  exists ta', gm_changed_to id ta = Some (tt, ta') /\ same_ports ta ta' /\ wf (GC.gcd (Tasd.clocks ta')).
Proof.
  intros W. destruct (gmsd_step id ta W) as (t1 & E1 & S1 & W1). destruct (cmsrecd_step t1 W1) as (r & t2 & E2 & S2 & W2).
  exists t2. split; [|split; [by eapply same_ports_trans|done]].
  unfold gm_changed_to. rewrite (mbind_run _ _ _ _ _ E1). by rewrite (mbind_run _ _ _ _ _ E2).
Qed.

(** *** A turn *)

Lemma quiet_asks ta : PSSEL.reselected (pss ta) = false -> forall j, 0 <= j -> aget false (BPTASG.reselect (Tasd.btasglb ta)) j = false.
Proof.
  intros Q. unfold PSSEL.reselected in Q. apply orb_false_iff in Q as [Q _]. apply orb_false_iff in Q as [Q _].
  by apply existsb_aget.
Qed.

Lemma quiet_step ta ta' : Tasd.pssd ta' = Tasd.pssd ta -> PSSEL.reselected (pss ta) = false ->
  (forall j, 0 <= j -> aget false (BPTASG.reselect (Tasd.btasglb ta')) j = false) -> PSSEL.reselected (pss ta') = false.
Proof.
  intros P Q A. unfold PSSEL.reselected in *. apply orb_false_iff in Q as [Q Q3]. apply orb_false_iff in Q as [_ Q2].
  apply existsb_aget in A.
  assert (T : PSSEL.thisSM (pss ta') = PSSEL.thisSM (pss ta)) by (exact (f_equal PSSEL.thisSM P)).
  rewrite T. apply orb_false_iff. split; [|exact Q3]. apply orb_false_iff. by split.
Qed.

(** a port that still has something to update after a turn has just been given it *)
Lemma turn_fresh pi cts64 ta p ta1 p1 ta2 p2 : bmcs_ready pi ta p -> bmcs_ready pi ta1 p1 ->
  pai ta1 p1 = (PAI.port_announce_information_sm cts64 (pai ta p)).1 -> bmcs_ready pi ta2 p2 -> selected_again ta1 p1 ta2 p2 ->
  BPPG.updtInfo (Ptd.bppglb p2) = true -> fresh ta2 p2.
Proof.
  intros B B1 Ep B2 SA U. destruct (information_run cts64 (pai ta p) (br_start _ _ _ B) (br_service _ _ _ B)) as (_ & St & G & Rs & As & Dn & _).
  rewrite <- Ep in St, G, Rs, As, Dn. destruct G as (_ & _ & So & _ & _ & Up & _).
  assert (Ei : BPPG.infoIs (Ptd.bppglb p2) = BPPG.infoIs (Ptd.bppglb p1)) by exact (f_equal BPPG.infoIs (sa_core _ _ _ _ SA)).
  pose proof (br_ports _ _ _ B2) as Bd. pose proof (br_index _ _ _ B2) as Ix. pose proof (br_index _ _ _ B1) as Ix1.
  destruct (sa_lists _ _ _ _ SA) as [(L1 & L2 & L3)|(_ & _ & L3 & Q)].
  - specialize (L3 U). rewrite Ei in L3. split; [done| | | |exact (sa_quiet _ _ _ _ SA)|exact (proj1 (sa_state _ _ _ _ SA))].
    + destruct (PAI.PORT_UP (pai ta p)) eqn:Pu; [|by destruct L3; apply Dn].
      rewrite <- Up. unfold PAI.PORT_UP. change (PAI.ppg (pai ta2 p2)) with (Ptd.ppglb p2). by rewrite (sa_ppg _ _ _ _ SA).
    + unfold PAI.SELECTED. change (PAI.bptasg (pai ta2 p2)) with (Tasd.btasglb ta2). rewrite L2.
      change (PAI.portIndex (pai ta2 p2)) with (PAI.portIndex (Ptd.painfd p2)). rewrite Ix. apply aget_replicate. unfold PSSEL.NETDEVS in Bd. lia.
    + rewrite (sa_painfd _ _ _ _ SA). change (PAI.state (Ptd.painfd p1)) with (PAI.state (pai ta1 p1)).
      destruct Rs as [E|Rs]; [|exact Rs]. destruct L3. apply So. rewrite (st_rest _ St). by rewrite <- E.
  - exfalso. rewrite L3 in U. specialize (As U). unfold asked_for in As.
    change (PAI.bptasg (pai ta1 p1)) with (Tasd.btasglb ta1) in As.
    change (PAI.portIndex (pai ta1 p1)) with (PAI.portIndex (Ptd.painfd p1)) in As. rewrite Ix1 in As.
    rewrite (quiet_asks ta1 Q) in As by lia. discriminate As.
Qed.

(** ... and a turn takes it over; without a message waiting nothing is left to update *)
Lemma turn_takes pi cts64 ta p ta1 p1 ta2 p2 : bmcs_ready pi ta p -> bmcs_ready pi ta1 p1 ->
  pai ta1 p1 = (PAI.port_announce_information_sm cts64 (pai ta p)).1 -> Tasd.pssd ta1 = Tasd.pssd ta ->
  selected_again ta1 p1 ta2 p2 -> fresh ta p ->
  BPPG.rcvdMsg (Ptd.bppglb p2) = false /\
  (BPPG.rcvdMsg (Ptd.bppglb p) = false -> BPPG.updtInfo (Ptd.bppglb p2) = false).
Proof.
  intros B B1 Ep Ps SA [U Up Se St Q Ch].
  assert (As : asked_for (pai ta p) = false).
  { unfold asked_for. change (PAI.bptasg (pai ta p)) with (Tasd.btasglb ta). apply quiet_asks; [done|].
    change (0 <= PAI.portIndex (Ptd.painfd p)). rewrite (br_index _ _ _ B). lia. }
  assert (SU : PAI.SELECTED (pai ta p) && BPPG.updtInfo (PAI.bppg (pai ta p)) = true).
  { rewrite Se. exact U. }
  destruct (update_run cts64 (pai ta p) (br_start _ _ _ B) (br_service _ _ _ B) Up St SU As) as (U1 & R1 & A1).
  assert (Ix : 0 <= PAI.portIndex (pai ta p)) by (change (0 <= PAI.portIndex (Ptd.painfd p)); rewrite (br_index _ _ _ B); lia).
  pose proof (information_asks cts64 (pai ta p) Ix) as [Pi1 Ot]. rewrite <- Ep in U1, R1, A1, Pi1, Ot.
  change (BPPG.updtInfo (Ptd.bppglb p1) = false) in U1. change (BPPG.rcvdMsg (Ptd.bppglb p1) = false) in R1.
  split; [rewrite <- R1; exact (f_equal BPPG.rcvdMsg (sa_core _ _ _ _ SA))|]. intros M. specialize (A1 M).
  assert (Q1 : PSSEL.reselected (pss ta1) = false).
  { apply (quiet_step ta); [done|done|]. intros j Hj. destruct (decide (j = PAI.portIndex (pai ta1 p1))) as [-> |N]; [exact A1|].
    change (Tasd.btasglb ta1) with (PAI.bptasg (pai ta1 p1)). rewrite Ot by congruence.
    by apply (quiet_asks ta). }
  rewrite <- U1. apply (sa_idle _ _ _ _ SA); [by rewrite Ps| |done]. rewrite Ps.
  destruct (br_state _ _ _ B) as [X|[_ X]]; [congruence|exact X].
Qed.

Lemma same_ports_fresh ta ta' p : same_ports ta ta' -> fresh ta p -> fresh ta' p.
Proof.
  intros (P & B & S & R) [U Up Se St Q Ch]. split; [done|exact Up| |done| |by rewrite S].
  - unfold PAI.SELECTED in *. change (PAI.bptasg (pai ta' p)) with (Tasd.btasglb ta'). rewrite B. exact Se.
  - unfold PSSEL.reselected in *. change (PSSEL.bptasg (pss ta')) with (Tasd.btasglb ta'). rewrite B.
    assert (T : PSSEL.thisSM (pss ta') = PSSEL.thisSM (pss ta)) by (exact (f_equal PSSEL.thisSM S)). rewrite T. exact Q.
Qed.

Lemma bmcs_turn pi cts64 ta p : bmcs_ready pi ta p ->
  exists ta' p', bmcs_round pi cts64 ta = Some (tt, ta') /\ bmcs_ready pi ta' p' /\
    (BPPG.updtInfo (Ptd.bppglb p') = true -> fresh ta' p') /\
    (fresh ta p -> BPPG.rcvdMsg (Ptd.bppglb p') = false /\
      (BPPG.rcvdMsg (Ptd.bppglb p) = false -> BPPG.updtInfo (Ptd.bppglb p') = false)).
Proof.
  intros B. destruct (painfd_step pi cts64 ta p B) as (ta1 & p1 & E1 & Ep & B1 & Ps).
  destruct (pssd_step pi cts64 ta1 p1 B1) as (r & ta2 & p2 & E2 & B2 & SA).
  pose proof (turn_fresh pi cts64 ta p ta1 p1 ta2 p2 B B1 Ep B2 SA) as F.
  pose proof (turn_takes pi cts64 ta p ta1 p1 ta2 p2 B B1 Ep Ps SA) as T.
  unfold bmcs_round. rewrite (mbind_run _ _ _ _ _ E1), (mbind_run _ _ _ _ _ E2).
  destruct r as [id|]; [|by exists ta2, p2].
  destruct (change_step id ta2 (br_clocks _ _ _ B2)) as (ta3 & E3 & S3 & W3). exists ta3, p2.
  split; [exact E3|]. split; [by apply (same_ports_ready pi ta2)|]. split; [|exact T].
  intros U. apply (same_ports_fresh ta2); [exact S3|]. by apply F.
Qed.

Lemma updtInfo_at pi ta p : bmcs_ready pi ta p -> updtInfo pi ta = BPPG.updtInfo (Ptd.bppglb p).
Proof. intros B. unfold updtInfo. by rewrite (br_port _ _ _ B). Qed.

Lemma bmcs_unfold pi cts64 t q : bmcs_ready pi t q -> exists t' q', bmcs_ready pi t' q' /\
  (BPPG.updtInfo (Ptd.bppglb q') = true -> fresh t' q') /\
  (fresh t q -> BPPG.rcvdMsg (Ptd.bppglb q') = false /\
    (BPPG.rcvdMsg (Ptd.bppglb q) = false -> BPPG.updtInfo (Ptd.bppglb q') = false)) /\
  updtInfo pi t' = BPPG.updtInfo (Ptd.bppglb q') /\
  forall n, bmcs_rounds (S n) pi cts64 t = if BPPG.updtInfo (Ptd.bppglb q') then bmcs_rounds n pi cts64 t' else Some (tt, t').
Proof.
  intros Bt. destruct (bmcs_turn pi cts64 t q Bt) as (t' & q' & E & B' & F & T). exists t', q'.
  pose proof (updtInfo_at pi t' q' B') as Eu.
  split; [done|]. split; [done|]. split; [done|]. split; [done|]. intros n. cbn [bmcs_rounds].
  rewrite (mbind_run _ _ _ _ _ E). unfold if_now. by rewrite Eu.
Qed.

(** C12. The do-while of sm_bmcs_perform ends: in a running instance without the external port
    configuration, with well-formed clocks, whatever its ports have received, at most three turns
    are made (more allowed turns change nothing), none of them crashes, and afterwards the port has
    nothing left to update.  No slave port is configured statically (STATIC_PORT_STATE_SLAVE_PORT is
    negative), INITIAL_SLAVE_TIME is 0, and the port does not measure asymmetry. *)
Theorem bmcs_ends pi cts64 ta p : bmcs_ready pi ta p ->
  exists ta', updtInfo pi ta' = false /\ forall n, bmcs_rounds (bmcs_fuel + n) pi cts64 ta = Some (tt, ta').
Proof.
  intros B. unfold bmcs_fuel. destruct (bmcs_unfold pi cts64 ta p B) as (t1 & q1 & B1 & F1 & _ & U1 & R1).
  destruct (BPPG.updtInfo (Ptd.bppglb q1)); [|exists t1; split; [done|intros n; exact (R1 _)]]. specialize (F1 eq_refl).
  destruct (bmcs_unfold pi cts64 t1 q1 B1) as (t2 & q2 & B2 & F2 & T2 & U2 & R2). destruct (T2 F1) as [M2 _].
  destruct (BPPG.updtInfo (Ptd.bppglb q2)).
  - specialize (F2 eq_refl). destruct (bmcs_unfold pi cts64 t2 q2 B2) as (t3 & q3 & _ & _ & T3 & U3 & R3).
    destruct (T3 F2) as [_ N]. rewrite (N M2) in U3, R3. exists t3. split; [done|]. intros n. cbn [Nat.add]. by rewrite R1, R2, R3.
  - exists t2. split; [done|]. intros n. cbn [Nat.add]. by rewrite R1, R2.
Qed.
End Rounds.

(** ** Witness *)

Module BestMasterWitness.
Import ClockWitness ClockSyncWitness GptpmanWitness.
#[local] Existing Instances conversions0 ClockWitness.dev servo0 platform0.

(** no static slave port *)
#[local] Instance config5 : Config := {|
  STATIC_PORT_STATE_SLAVE_PORT := -1; INITIAL_SLAVE_TIME := 0; RESET_FREQADJ_BECOMEGM := 0;
  ACTIVE_DOMAIN_AUTO_SWITCH := 2; TEST_SYNC_REC_PORT := -1; TEST_SYNC_SEND_PORT := -1;
  CMLDS_MODE := 0; NEIGHBOR_PROP_DELAY := 0; PRIORITY1 := fun _ => 248 |}.

(** the ports just after the link came up *)
Definition up5 (p : gptpsm_ptd_t) : gptpsm_ptd_t :=
  p <| Ptd.bppglb; BPPG.infoIs := Disabled |> <| Ptd.ppglb; PPG.asCapable := true |> <| Ptd.ppglb; PPG.ptpPortEnabled := true |>
    <| Ptd.ppglb; PPG.forAllDomain; PPGALL.portOper := true |>.
Definition tasd5 : gptpsm_tasd_t := tasd4 <| Tasd.ptds ::= map up5 |>.

Lemma ready5 : bmcs_ready 1 tasd5 (up5 (ptd4 1)).
Proof.
  split; [reflexivity|reflexivity| | | |by left|split; [split|]; vm_compute; discriminate || reflexivity|apply wf_c3].
  - by split_and!.
  - split; [split; split; vm_compute; discriminate || reflexivity|discriminate| |reflexivity|by left].
    split; [discriminate|]. split; [discriminate|]. split; [by left|]. split; discriminate.
  - split; [by split_and!|]. split; [reflexivity|]. split; [reflexivity|]. vm_compute. discriminate.
Qed.

Lemma bmcs_ends_witness : exists ta', Man.updtInfo 1 ta' = false /\ Man.bmcs_rounds Man.bmcs_fuel 1 6000000000 tasd5 = Some (tt, ta').
Proof.
  destruct (bmcs_ends (CF := config5) ltac:(reflexivity) ltac:(split; discriminate) 1 6000000000 tasd5 (up5 (ptd4 1)) ready5)
    as (ta' & U & R).
  exists ta'. split; [exact U|exact (R 0%nat)].
Defined.
End BestMasterWitness.
