(* ===== verification/DispatchFacts.v ===== *)
(** * DispatchFacts: what the events do to every domain.

    The domains of an instance share the clocks and parts of their ports with
    domain 0.  An operation that leaves the shared data alone changes only what
    its own domain sees ([at_domain_own]); from that follow the loops over all
    domains, asCapable after a peer delay measurement and the loss of a link. *)

From S2P Require Import Prelude Types Floats Driver Common Clock Wire Media Mind PdelayReq PdelayResp IntervalSetting Signaling.
From S2P Require Import Gptpclock GptpclockTime ClockSync ClockSyncSend Gptpman Dispatch GptpmanFacts.
From stdpp Require Import list.
Import Eff.
Import (hints) GC.
Import Ptd(gptpsm_ptd_t).
Import Tasd(gptpsm_tasd_t).
#[local] Open Scope Z_scope.
#[local] Open Scope gptp_scope.

Section Domains.
Import Gpm.
Context `{DEV : PtpDev}.

(** what is stored once for all domains *)
Definition shared_port (p : gptpsm_ptd_t) : PerPortGlobalForAllDomain * MDEntityGlobalForAllDomain :=
  (PPG.forAllDomain (Ptd.ppglb p), MDEG.forAllDomain (Ptd.mdeglb p)).
Definition shared (t : gptpsm_tasd_t) := (Tasd.clocks t, map shared_port (Tasd.ptds t)).

(** every domain has the ports of the instance, and domain 0 is there *)
Definition domains_ok (n : nat) (s : gptpman_data) : Prop :=
  is_Some (domain s 0) /\ forall di t, domain s di = Some t -> length (Tasd.ptds t) = n.

(** the data of a domain with what it shares *)
Definition seen (s : gptpman_data) (di : nat) : option gptpsm_tasd_t :=
  t0 ← domain s 0; t ← domain s di; Some (share t0 t).

Lemma shared_lookup t0 t i : shared t0 = shared t -> fmap shared_port (Tasd.ptds t0 !! i) = fmap shared_port (Tasd.ptds t !! i).
Proof. intros E. injection E as _ E. apply (f_equal (fun l => l !! i)) in E. by rewrite !list_lookup_fmap in E. Qed.

Lemma share_port_eq p0 q0 p : shared_port p0 = shared_port q0 -> share_port p0 p = share_port q0 p.
Proof. unfold shared_port, share_port. by intros [= -> ->]. Qed.

Lemma share_port_id p0 p : shared_port p0 = shared_port p -> share_port p0 p = p.
Proof. unfold shared_port, share_port. intros [= -> ->]. by destruct p as [[] ? []]. Qed.

Lemma imap_ext {A B} (f g : nat -> A -> B) l : (forall i x, l !! i = Some x -> f i x = g i x) -> imap f l = imap g l.
Proof.
  intros H. apply list_eq. intros i. rewrite !list_lookup_imap. destruct (l !! i) as [x|] eqn:E; [|done]. cbn. by rewrite (H i x E).
Qed.

Definition ports_with (t0 t : gptpsm_tasd_t) : list gptpsm_ptd_t :=
  imap (fun i p => match Tasd.ptds t0 !! i with Some p0 => share_port p0 p | None => p end) (Tasd.ptds t).

Lemma share_eq t0 t : share t0 t = t <| Tasd.clocks := Tasd.clocks t0 |> <| Tasd.ptds := ports_with t0 t |>.
Proof. done. Qed.

Lemma share_ext t0 t1 t : shared t0 = shared t1 -> share t0 t = share t1 t.
Proof.
  intros E. pose proof (fun i => shared_lookup t0 t1 i E) as L. injection E as C _.
  assert (P : ports_with t0 t = ports_with t1 t).
  { apply imap_ext. intros i p _. specialize (L i). destruct (Tasd.ptds t0 !! i), (Tasd.ptds t1 !! i); cbn in L; try done.
    apply share_port_eq. by apply Some_inj in L. }
  by rewrite !share_eq, C, P.
Qed.

Lemma share_id t0 t : shared t0 = shared t -> share t0 t = t.
Proof.
  intros E. pose proof (fun i => shared_lookup t0 t i E) as L. injection E as C _.
  assert (P : ports_with t0 t = Tasd.ptds t).
  { apply list_eq. unfold ports_with. intros i. rewrite list_lookup_imap. specialize (L i).
    destruct (Tasd.ptds t !! i) as [p|]; [|done]. cbn in *. destruct (Tasd.ptds t0 !! i) as [p0|]; cbn in L; [|done].
    f_equal. apply share_port_id. by apply Some_inj in L. }
  rewrite share_eq, C, P. by destruct t.
Qed.

Lemma share_shared t0 t : length (Tasd.ptds t) = length (Tasd.ptds t0) -> shared (share t0 t) = shared t0.
Proof.
  intros L. unfold shared. f_equal. apply list_eq. intros i. cbn. rewrite !list_lookup_fmap, list_lookup_imap.
  destruct (Tasd.ptds t !! i) as [p|] eqn:E; cbn.
  - destruct (lookup_lt_is_Some_2 (Tasd.ptds t0) i) as [p0 E0]; [rewrite <- L; by eapply lookup_lt_Some|]. by rewrite E0.
  - destruct (Tasd.ptds t0 !! i) as [p0|] eqn:E0; [|done]. apply lookup_lt_Some in E0. apply lookup_ge_None_1 in E. lia.
Qed.

Lemma shared_length t t' : shared t = shared t' -> length (Tasd.ptds t) = length (Tasd.ptds t').
Proof. intros E. injection E as _ E. apply (f_equal length) in E. by rewrite !length_map in E. Qed.

Lemma domain_put s di t : is_Some (domain s di) ->
  domain (put_domain di t s) di = Some t /\ forall dj, dj <> di -> domain (put_domain di t s) dj = domain s dj.
Proof.
  intros [u U]. unfold domain, put_domain in *. cbn. destruct (tasds s !! di) as [o|] eqn:E; [|done]. split.
  - by rewrite list_lookup_insert_eq by (by eapply lookup_lt_Some).
  - intros dj N. by rewrite list_lookup_insert_ne.
Qed.

(** an operation that leaves the shared data alone changes only its own domain *)
Lemma at_domain_own {A} n di (m : Man.M A) s t t' a : domains_ok n s -> seen s di = Some t -> m t = Some (a, t') -> shared t' = shared t ->
  exists s', at_domain di m s = Some (a, s') /\ domains_ok n s' /\ seen s' di = Some t' /\
    (forall dj, dj <> di -> seen s' dj = seen s dj) /\ length (tasds s') = length (tasds s) /\ tout s' = tout s.
Proof.
  intros [[t0 E0] L] Sn Em Sh. unfold seen in Sn. rewrite E0 in Sn. cbn in Sn.
  destruct (domain s di) as [td|] eqn:Ed; [|done]. cbn in Sn. injection Sn as Sn. subst t.
  assert (L0 : length (Tasd.ptds t0) = n) by (by eapply L). assert (Ld : length (Tasd.ptds td) = n) by (by eapply L).
  assert (S0 : shared t' = shared t0) by (rewrite Sh; apply share_shared; congruence).
  assert (Lt : length (Tasd.ptds t') = n) by (rewrite (shared_length _ _ S0); done).
  unfold at_domain. rewrite E0, Ed, Em. destruct (Nat.eqb_spec di 0) as [->|N].
  - eexists. split; [reflexivity|]. destruct (domain_put s 0 t' ltac:(by eexists)) as [Ds Do].
    split; [split|split; [|split; [|split]]].
    + rewrite Ds. by eexists.
    + intros dj u. destruct (decide (dj = 0%nat)) as [->|Nj]; [rewrite Ds; by intros [= <-]|rewrite Do by done; apply L].
    + unfold seen. rewrite !Ds. cbn. f_equal. by apply share_id.
    + intros dj Nj. unfold seen. rewrite Ds, Do, E0 by done. cbn. destruct (domain s dj); [|done]. cbn. f_equal. by apply share_ext.
    + cbn. apply length_insert.
    + done.
  - rewrite (share_id t' t0 S0). eexists. split; [reflexivity|].
    destruct (domain_put s 0 t0 ltac:(by eexists)) as [Zs Zo]. set (z := put_domain 0 t0 s) in *.
    assert (Z : forall dj, domain z dj = domain s dj) by (intros dj; destruct (decide (dj = 0%nat)) as [->|]; [by rewrite Zs, E0|by apply Zo]).
    destruct (domain_put z di t' ltac:(rewrite Z; by eexists)) as [Ds Do].
    split; [split|split; [|split; [|split]]].
    + rewrite Do, Z by done. by eexists.
    + intros dj u. destruct (decide (dj = di)) as [->|Nj]; [rewrite Ds; by intros [= <-]|rewrite Do, Z by done; apply L].
    + unfold seen. rewrite Ds, Do, Z, E0 by done. cbn. f_equal. apply share_id. by symmetry.
    + intros dj Nj. unfold seen. rewrite !Do, !Z by done. done.
    + cbn. by rewrite !length_insert.
    + done.
Qed.

(** ** Loops over the domains *)

Lemma gbind_run {A B} (m : M A) (f : A -> M B) s a s' : m s = Some (a, s') -> (m ≫= f) s = f a s'.
Proof. intros E. unfold mbind, M_bind. by rewrite E. Qed.

(** the same operation [F] in every domain of the list, with a test that the domain exists or without *)
Definition tested (b : bool) (di : nat) (m : M unit) : M unit := if b then if_exists di m else m.

Lemma for_own n b (m : nat -> Man.M unit) (F : nat -> gptpsm_tasd_t -> gptpsm_tasd_t) :
  (forall di t, length (Tasd.ptds t) = n -> m di t = Some (tt, F di t) /\ shared (F di t) = shared t) ->
  forall l s, NoDup l -> domains_ok n s -> (b = false -> forall di, di ∈ l -> is_Some (seen s di)) ->
  exists s', for_ (fun di => tested b di (at_domain di (m di))) l s = Some (tt, s') /\ domains_ok n s' /\
    (forall di, seen s' di = if decide (di ∈ l) then F di <$> seen s di else seen s di) /\
    length (tasds s') = length (tasds s) /\ tout s' = tout s.
Proof.
  intros H. induction l as [|di l IH]; intros s Nd Ok Ex.
  - exists s. split; [done|]. split; [done|]. split; [|done]. intros dj. by destruct (decide (dj ∈ [])) as [X%not_elem_of_nil|].
  - apply NoDup_cons in Nd as [Ni Nd]. cbn [for_].
    assert (exists s1, tested b di (at_domain di (m di)) s = Some (tt, s1) /\ domains_ok n s1 /\
      seen s1 di = F di <$> seen s di /\ (forall dj, dj <> di -> seen s1 dj = seen s dj) /\
      length (tasds s1) = length (tasds s) /\ tout s1 = tout s) as (s1 & E & Ok1 & S1 & O1 & L1 & T1).
    { pose proof Ok as [[t0 E0] L]. destruct (domain s di) as [t|] eqn:Ed.
      - assert (Sd : seen s di = Some (share t0 t)) by (unfold seen; by rewrite E0, Ed).
        assert (Ls : length (Tasd.ptds (share t0 t)) = n).
        { transitivity (length (Tasd.ptds t)); [apply length_imap|by eapply L]. }
        destruct (H di _ Ls) as [Em Sh].
        destruct (at_domain_own n di (m di) s _ _ tt Ok Sd Em Sh) as (s1 & E & Ok1 & S1 & O1 & L1 & T1).
        exists s1. rewrite Sd. split; [|by split_and!]. destruct b; [|exact E].
        unfold tested, if_exists, if_now. rewrite bool_decide_eq_true_2 by (rewrite Ed; by eexists). exact E.
      - assert (Sd : seen s di = None) by (unfold seen; by rewrite E0, Ed). destruct b.
        + exists s. rewrite Sd. split; [|by split_and!]. unfold tested, if_exists, if_now.
          rewrite bool_decide_eq_false_2; [done|]. rewrite Ed. by intros [? ?].
        + destruct (Ex eq_refl di ltac:(by left)) as [u U]. congruence. }
    rewrite (gbind_run _ _ _ _ _ E). destruct (IH s1 Nd Ok1) as (s2 & E2 & Ok2 & S2 & L2 & T2).
    { intros B dj I. rewrite O1 by (by intros ->). apply (Ex B). by right. }
    exists s2. split; [exact E2|]. split; [done|]. split; [|split; congruence]. intros dj. rewrite S2.
    destruct (decide (dj = di)) as [->|N].
    + rewrite decide_False by done. rewrite decide_True by (by left). exact S1.
    + rewrite O1 by done. destruct (decide (dj ∈ l)) as [I|I].
      * by rewrite decide_True by (by right).
      * rewrite decide_False; [done|]. by intros [?|?]%elem_of_cons.
Qed.

Lemma for_domains_own n b (m : nat -> Man.M unit) (F : nat -> gptpsm_tasd_t -> gptpsm_tasd_t) s :
  (forall di t, length (Tasd.ptds t) = n -> m di t = Some (tt, F di t) /\ shared (F di t) = shared t) -> domains_ok n s ->
  (b = false -> forall di, (di < length (tasds s))%nat -> is_Some (domain s di)) ->
  exists s', for_domains (fun di => tested b di (at_domain di (m di))) s = Some (tt, s') /\ domains_ok n s' /\
    (forall di, seen s' di = F di <$> seen s di) /\ tout s' = tout s.
Proof.
  intros H Ok Ex. destruct (for_own n b m F H (seq 0 (length (tasds s))) s (NoDup_seq _ _) Ok) as (s' & E & Ok' & S & _ & T).
  { intros B di I%elem_of_seq. destruct (Ex B di ltac:(lia)) as [t Ed], Ok as [[t0 E0] _]. unfold seen. rewrite E0, Ed. by eexists. }
  exists s'. split; [exact E|]. split; [done|]. split; [|done]. intros di. rewrite S.
  destruct (decide _) as [|N]; [done|]. assert (D : domain s di = None).
  { unfold domain. rewrite lookup_ge_None_2; [done|]. rewrite elem_of_seq in N. lia. }
  unfold seen. rewrite D. by destruct (domain s 0).
Qed.

(** ** asCapable *)

Definition with_capable (v : bool) (p : gptpsm_ptd_t) : gptpsm_ptd_t := p <| Ptd.ppglb; PPG.asCapable := v |>.

(** only the port [pi] has changed, from [p] to [q] *)
Definition port_becomes (pi : nat) (q : gptpsm_ptd_t) (t t' : gptpsm_tasd_t) : Prop :=
  shared t' = shared t /\ Tasd.ptds t' !! pi = Some q /\ forall i, i <> pi -> Tasd.ptds t' !! i = Tasd.ptds t !! i.

Lemma shared_insert pi p q t : Tasd.ptds t !! pi = Some p -> shared_port q = shared_port p ->
  shared (t <| Tasd.ptds ::= <[pi := q]> |>) = shared t.
Proof.
  intros E S. unfold shared. f_equal. cbn. rewrite list_fmap_insert. apply list_insert_id.
  rewrite list_lookup_fmap, E. cbn. by rewrite S.
Qed.

Lemma becomes_insert pi p q t : Tasd.ptds t !! pi = Some p -> shared_port q = shared_port p ->
  port_becomes pi q t (t <| Tasd.ptds ::= <[pi := q]> |>).
Proof.
  intros E S. split; [by apply (shared_insert pi p)|]. cbn. split.
  - apply list_lookup_insert_eq. by eapply lookup_lt_Some.
  - intros i N. by rewrite list_lookup_insert_ne.
Qed.

Lemma update_asCapable_run pi t p : Tasd.ptds t !! pi = Some p ->
  exists t', update_asCapable pi t = Some (tt, t') /\ port_becomes pi (with_capable (Man.may_be_asCapable p) p) t t' /\
    PTASG.asCapableOrAll (Tasd.tasglb t') = PTASG.asCapableOrAll (Tasd.tasglb t) || Man.may_be_asCapable p /\
    Tasd.cfgd t' = Tasd.cfgd t ++ (if Bool.eqb (PPG.asCapable (Ptd.ppglb p)) (Man.may_be_asCapable p) then []
                                   else [(PTASG.domainIndex (Tasd.tasglb t), PPG.thisPort (Ptd.ppglb p), Man.may_be_asCapable p)]).
Proof.
  intros E. unfold update_asCapable. set (v := Man.may_be_asCapable p).
  assert (exists t1, Man.set_asCapable pi t = Some (tt, t1) /\ port_becomes pi (with_capable v p) t t1 /\ Tasd.tasglb t1 = Tasd.tasglb t /\
    Tasd.cfgd t1 = Tasd.cfgd t ++ (if Bool.eqb (PPG.asCapable (Ptd.ppglb p)) v then []
                                   else [(PTASG.domainIndex (Tasd.tasglb t), PPG.thisPort (Ptd.ppglb p), v)]))
    as (t1 & E1 & P1 & G1 & C1).
  { unfold Man.set_asCapable. rewrite E. fold v. destruct (Bool.eqb _ v) eqn:Q.
    - apply eqb_prop in Q. exists t. split; [done|]. rewrite app_nil_r. split; [|done]. split; [done|]. split; [|done].
      rewrite E. f_equal. rewrite <- Q. by destruct p as [[]].
    - eexists. split; [reflexivity|]. split; [|done]. exact (becomes_insert pi p (with_capable v p) t E eq_refl). }
  unfold mbind, Man.M_bind. rewrite E1. pose proof P1 as (_ & L1 & _). unfold Man.or_asCapable. rewrite L1.
  eexists. split; [reflexivity|]. split; [exact P1|]. split; [by cbn; rewrite G1|exact C1].
Qed.

(** the result of [m], for an operation that is defined *)
Definition after (m : Man.M unit) (t : gptpsm_tasd_t) : gptpsm_tasd_t := match m t with Some (_, t') => t' | None => t end.

Lemma port_at {n pi} t : length (Tasd.ptds t) = n -> (pi < n)%nat -> exists p, Tasd.ptds t !! pi = Some p.
Proof. intros L H. apply lookup_lt_is_Some_2. by rewrite L. Qed.

(** the link is good in every domain: the peer delay was measured and is in its limits *)
Definition measured_good (p : gptpsm_ptd_t) : Prop := MDEGALL.asCapableAcrossDomains (MDEG.forAllDomain (Ptd.mdeglb p)) = true.

(** the neighbour sent its gPTP-capable TLV, or both its requests and its responses were those of the 2011 edition *)
Definition neighbour_speaks_gptp (p : gptpsm_ptd_t) : Prop :=
  PPG.neighborGptpCapable (Ptd.ppglb p) = true \/
  exists q r, Ptd.mdpdreqd p = Some q /\ Ptd.mdpdrespd p = Some r /\
    PREQ.is2011BackwardCompatible q = true /\ PRSP.is2011BackwardCompatible r = true.

Lemma may_be_capable_iff p : Man.may_be_asCapable p = true <-> measured_good p /\ neighbour_speaks_gptp p.
Proof.
  unfold Man.may_be_asCapable, Man.is_rxPdelayMsgAre2011Compatible, measured_good, neighbour_speaks_gptp.
  rewrite andb_true_iff, orb_true_iff. split; (intros [M [N|N]]; (split; [exact M|]); [by left|right]).
  - destruct (Ptd.mdpdreqd p) as [q|], (Ptd.mdpdrespd p) as [r|]; try done. apply andb_true_iff in N as [N1 N2]. by exists q, r.
  - destruct N as (q & r & -> & -> & -> & ->). done.
Qed.

(** C14. When the condition is looked at for a port in a domain that is there (after a peer delay response
    or its follow-up was handled), then in every domain the port is asCapable exactly if the link is
    measured good (asCapableAcrossDomains) and the neighbour speaks gPTP: its gPTP-capable TLV was received
    in the domain (neighborGptpCapable), or the peer delay machines of the port exist and the peer delay
    messages on both ways were those of the 2011 edition.  Nothing else of the port changes and the other
    ports keep their data; if the port is asCapable in any domain, asCapableOrAll of that domain is set; a
    value that changed is written to the configuration. *)
Theorem capable_exactly_if n di pi s : domains_ok n s -> (pi < n)%nat -> is_Some (domain s di) ->
  exists s', update_asCapable_for_all di pi s = Some (tt, s') /\ domains_ok n s' /\
    forall dj t p, seen s dj = Some t -> Tasd.ptds t !! pi = Some p ->
    exists t' v, seen s' dj = Some t' /\ port_becomes pi (with_capable v p) t t' /\
      (v = true <-> measured_good p /\ neighbour_speaks_gptp p) /\
      (v = true -> PTASG.asCapableOrAll (Tasd.tasglb t') = true) /\
      (PPG.asCapable (Ptd.ppglb p) <> v ->
       (PTASG.domainIndex (Tasd.tasglb t), PPG.thisPort (Ptd.ppglb p), v) ∈ Tasd.cfgd t').
Proof.
  intros Ok Hp [td Ed]. pose proof Ok as [[t0 E0] L].
  set (clear := Man.on_tasglb (fun g => g <| PTASG.asCapableOrAll := false |>)).
  assert (Sd : seen s di = Some (share t0 td)) by (unfold seen; by rewrite E0, Ed).
  destruct (at_domain_own n di clear s (share t0 td) _ tt Ok Sd eq_refl eq_refl) as (s1 & E1 & Ok1 & S1 & O1 & _).
  destruct (for_domains_own n true (fun _ => update_asCapable pi) (fun _ => after (update_asCapable pi)) s1) as (s2 & E2 & Ok2 & S2 & _);
    [|done|done|].
  { intros _ t Lt. destruct (port_at t Lt Hp) as [p E]. destruct (update_asCapable_run pi t p E) as (t' & Et & (Sh & _) & _).
    unfold after. by rewrite Et. }
  exists s2. split; [unfold update_asCapable_for_all; fold clear; by rewrite (gbind_run _ _ _ _ _ E1)|]. split; [done|].
  intros dj t p Es Ep.
  assert (exists t1, seen s1 dj = Some t1 /\ Tasd.ptds t1 = Tasd.ptds t /\ shared t1 = shared t /\
    PTASG.domainIndex (Tasd.tasglb t1) = PTASG.domainIndex (Tasd.tasglb t)) as (t1 & Es1 & P1 & Sh1 & I1).
  { destruct (decide (dj = di)) as [->|N]; [|exists t; by rewrite O1 by done].
    rewrite Sd in Es. injection Es as <-. eexists. split; [exact S1|]. by split_and!. }
  rewrite <- P1 in Ep. destruct (update_asCapable_run pi t1 p Ep) as (t2 & Et & (B1 & B2 & B3) & Or & Cf).
  exists t2, (Man.may_be_asCapable p). split; [rewrite S2, Es1; cbn; unfold after; by rewrite Et|].
  split; [split; [congruence|split; [done|]]|split; [apply may_be_capable_iff|split]].
  - intros i N. rewrite B3 by done. by rewrite P1.
  - intros V. by rewrite Or, V, orb_true_r.
  - intros N. rewrite Cf, I1. rewrite (proj2 (eqb_false_iff _ _) N). apply elem_of_app. right. by left.
Qed.

(** ** The loss of a link *)

Lemma drop_run pi t p : Tasd.ptds t !! pi = Some p ->
  exists t', drop_asCapable pi t = Some (tt, t') /\ port_becomes pi (with_capable false p) t t'.
Proof.
  intros E. unfold drop_asCapable. rewrite E. destruct (PPG.asCapable (Ptd.ppglb p)) eqn:A; cbn [negb].
  - eexists. split; [reflexivity|]. exact (becomes_insert pi p (with_capable false p) t E eq_refl).
  - exists t. split; [done|]. split; [done|]. split; [|done]. rewrite E. f_equal. rewrite <- A. by destruct p as [[]].
Qed.

(** the port after the link went down, as domain 0 stores it *)
Definition link_down (p : gptpsm_ptd_t) : gptpsm_ptd_t :=
  p <| Ptd.ppglb; PPG.forAllDomain; PPGALL.portOper := false |>
    <| Ptd.mdeglb; MDEG.forAllDomain; MDEGALL.asCapableAcrossDomains := false |>.

Lemma down_run pi t p : Tasd.ptds t !! pi = Some p ->
  (_ ← set_portOper pi false; lose_asCapableAcrossDomains pi) t = Some (tt, t <| Tasd.ptds ::= <[pi := link_down p]> |>).
Proof.
  intros E. unfold mbind, Man.M_bind, set_portOper. rewrite E. unfold lose_asCapableAcrossDomains. cbn [Tasd.ptds upd].
  rewrite list_lookup_insert_eq by (by eapply lookup_lt_Some). do 2 f_equal. unfold upd. cbn. by rewrite list_insert_insert_eq.
Qed.

(** C15. When the link of a port goes down, no domain keeps the port asCapable: everywhere it is not
    operational, not measured and not asCapable afterwards, and it cannot become asCapable by the
    conditions until the link has been measured again.  The loop does not test that a domain exists:
    it needs all of them initialised. *)
Theorem link_loss_everywhere n pi s : domains_ok n s -> (pi < n)%nat ->
  (forall di, (di < length (tasds s))%nat -> is_Some (domain s di)) ->
  exists s', gptpnet_cb_devdown pi s = Some (tt, s') /\ domains_ok n s' /\
    forall di, (di < length (tasds s))%nat -> exists t p, seen s' di = Some t /\ Tasd.ptds t !! pi = Some p /\
      PPGALL.portOper (PPG.forAllDomain (Ptd.ppglb p)) = false /\ PPG.asCapable (Ptd.ppglb p) = false /\
      Man.may_be_asCapable p = false.
Proof.
  intros Ok Hp Ex. pose proof Ok as [[t0 E0] L]. destruct (port_at t0 (L _ _ E0) Hp) as [p0 P0].
  set (t1 := t0 <| Tasd.ptds ::= <[pi := link_down p0]> |>). set (s1 := put_domain 0 t1 s).
  destruct (domain_put s 0 t1 ltac:(by eexists)) as [Ds Do]. fold s1 in Ds, Do.
  assert (E1 : at_domain 0 (_ ← set_portOper pi false; lose_asCapableAcrossDomains pi) s = Some (tt, s1)).
  { unfold at_domain. rewrite E0. rewrite (share_id t0 t0) by done. by rewrite (down_run pi t0 p0 P0). }
  assert (L1 : length (tasds s1) = length (tasds s)) by (apply length_insert).
  assert (Ok1 : domains_ok n s1).
  { split; [rewrite Ds; by eexists|]. intros dj u. destruct (decide (dj = 0%nat)) as [->|N]; [|rewrite Do by done; apply L].
    rewrite Ds. intros [= <-]. unfold t1. cbn. rewrite length_insert. by eapply L. }
  destruct (for_domains_own n false (fun _ => drop_asCapable pi) (fun _ => after (drop_asCapable pi)) s1) as (s2 & E2 & Ok2 & S2 & _); [|done| |].
  { intros _ t Lt. destruct (port_at t Lt Hp) as [p E]. destruct (drop_run pi t p E) as (t' & Et & Sh & _). unfold after. by rewrite Et. }
  { intros _ dj Hj. destruct (decide (dj = 0%nat)) as [->|N]; [rewrite Ds; by eexists|rewrite Do by done; apply Ex; lia]. }
  exists s2. split; [unfold gptpnet_cb_devdown; by rewrite (gbind_run _ _ _ _ _ E1)|]. split; [done|]. intros dj Hj.
  assert (exists t p, seen s1 dj = Some t /\ Tasd.ptds t !! pi = Some p /\ shared_port p = shared_port (link_down p0)) as (t & p & St & Pt & Sp).
  { assert (L0 : Tasd.ptds t1 !! pi = Some (link_down p0)).
    { unfold t1. cbn. apply list_lookup_insert_eq. by eapply lookup_lt_Some. }
    assert (is_Some (domain s1 dj)) as [u U].
    { destruct (decide (dj = 0%nat)) as [->|N]; [rewrite Ds; by eexists|rewrite Do by done; by apply Ex]. }
    destruct (port_at u (proj2 Ok1 _ _ U) Hp) as [q Q].
    exists (share t1 u), (share_port (link_down p0) q). split; [unfold seen; by rewrite Ds, U|]. split; [|done].
    rewrite share_eq. cbn. unfold ports_with. by rewrite list_lookup_imap, Q, L0. }
  destruct (drop_run pi t p Pt) as (t' & Et & _ & Pp & _). exists t', (with_capable false p).
  split; [rewrite S2, St; cbn; unfold after; by rewrite Et|]. split; [exact Pp|].
  assert (F1 : PPG.forAllDomain (Ptd.ppglb p) = PPG.forAllDomain (Ptd.ppglb (link_down p0))) by exact (f_equal fst Sp).
  assert (F2 : MDEG.forAllDomain (Ptd.mdeglb p) = MDEG.forAllDomain (Ptd.mdeglb (link_down p0))) by exact (f_equal snd Sp).
  split; [change (PPGALL.portOper (PPG.forAllDomain (Ptd.ppglb p)) = false); by rewrite F1|]. split; [done|].
  unfold Man.may_be_asCapable. change (Ptd.mdeglb (with_capable false p)) with (Ptd.mdeglb p). by rewrite F2.
Qed.

Lemma put_none di dj t s : domain s di = None -> is_Some (domain s dj) -> domain (put_domain dj t s) di = None.
Proof. intros D [u U]. destruct (domain_put s dj t ltac:(by eexists)) as [_ O]. rewrite O; [done|congruence]. Qed.

Lemma at_domain_none {A} di dj (m : Man.M A) s a s' : domain s di = None -> at_domain dj m s = Some (a, s') -> domain s' di = None.
Proof.
  intros D. unfold at_domain. destruct (domain s 0) as [t0|] eqn:E0; [|done]. destruct (domain s dj) as [t|] eqn:Ed; [|done].
  destruct (m (share t0 t)) as [[b t']|]; [|done]. destruct (Nat.eqb dj 0); intros [= _ <-].
  - apply put_none; [done|by eexists].
  - apply put_none; [apply put_none; [done|by eexists]|].
    destruct (domain_put s 0 (share t' t0) ltac:(by eexists)) as [Ds Do].
    destruct (decide (dj = 0%nat)) as [->|N]; [rewrite Ds; by eexists|rewrite Do by done; by eexists].
Qed.

Lemma for_crash di (m : nat -> Man.M unit) l s : di ∈ l -> domain s di = None -> for_ (fun dj => at_domain dj (m dj)) l s = None.
Proof.
  revert s. induction l as [|dj l IH]; intros s I D; [by apply elem_of_nil in I|]. cbn [for_]. unfold mbind, M_bind.
  destruct (at_domain dj (m dj) s) as [[u s1]|] eqn:E; [|done]. apply IH.
  - apply elem_of_cons in I as [->|I]; [|done]. unfold at_domain in E. rewrite D in E. by destruct (domain s 0).
  - by eapply at_domain_none.
Qed.

(** ... with a domain that has not been initialised the handler uses its NULL port data *)
Theorem link_loss_uninitialised di pi s : (di < length (tasds s))%nat -> domain s di = None -> gptpnet_cb_devdown pi s = None.
Proof.
  intros H D. unfold gptpnet_cb_devdown. set (m := at_domain 0 (_ ← set_portOper pi false; lose_asCapableAcrossDomains pi)).
  destruct (m s) as [[u s1]|] eqn:E; [|unfold mbind at 1, M_bind; by rewrite E].
  rewrite (gbind_run _ _ _ _ _ E). unfold for_domains. apply (for_crash di).
  - apply elem_of_seq. assert (L : length (tasds s1) = length (tasds s)); [|lia]. revert E. unfold m, at_domain.
    destruct (domain s 0) as [t0|]; [|done]. destruct ((_ ← set_portOper pi false; lose_asCapableAcrossDomains pi) (share t0 t0)) as [[b t']|]; [|done]. cbn. intros [= _ <-]. apply length_insert.
  - by eapply at_domain_none.
Qed.
End Domains.

(** ** Witness *)

Module DispatchWitness.
Import ClockWitness ClockSyncWitness GptpmanWitness.
#[local] Existing Instances ClockWitness.dev.

(** two domains of three ports *)
Definition gptp6 : Gpm.gptpman_data := Gpm.mk [Some tasd4; Some (tasd4 <| Tasd.tasglb; PTASG.domainIndex := 1 |>)] 125000000.

Lemma domains6 : domains_ok 3 gptp6.
Proof.
  split; [by eexists|]. intros [|[|di]] t; [intros [= <-]; reflexivity..|done].
Qed.

(** port 1 with a good link, whose neighbour has sent its TLV in domain 1 only *)
Definition good6 (heard : bool) (t : gptpsm_tasd_t) : gptpsm_tasd_t :=
  t <| Tasd.ptds ::= alter (fun p => p <| Ptd.mdeglb; MDEG.forAllDomain; MDEGALL.asCapableAcrossDomains := true |>
                                       <| Ptd.ppglb; PPG.neighborGptpCapable := heard |>) 1%nat |>.
Definition heard6 : Gpm.gptpman_data :=
  Gpm.mk [Some (good6 false tasd4); Some (good6 true (tasd4 <| Tasd.tasglb; PTASG.domainIndex := 1 |>))] 125000000.

Lemma heard6_ok : domains_ok 3 heard6.
Proof.
  split; [by eexists|]. intros [|[|di]] t; [intros [= <-]; reflexivity..|done].
Qed.

(** the port of domain [di], and whether it is asCapable *)
Definition port6 (di : nat) (s : Gpm.gptpman_data) : option gptpsm_ptd_t := t ← seen s di; Tasd.ptds t !! 1%nat.
Definition capable6 (di : nat) (s : Gpm.gptpman_data) : option bool := (fun p => PPG.asCapable (Ptd.ppglb p)) <$> port6 di s.

Lemma capable_exactly_witness : exists s', Gpm.update_asCapable_for_all 0 1 heard6 = Some (tt, s') /\
  capable6 0 heard6 = Some false /\ capable6 1 heard6 = Some false /\ capable6 0 s' = Some false /\ capable6 1 s' = Some true.
Proof.
  destruct (capable_exactly_if 3 0 1 heard6 heard6_ok ltac:(lia) ltac:(by eexists)) as (s' & E & Ok & K).
  assert (G : forall dj, (dj < 2)%nat -> exists v, capable6 dj s' = Some v /\ (v = true <-> dj = 1%nat)).
  { intros dj H. assert (exists t p, seen heard6 dj = Some t /\ Tasd.ptds t !! 1%nat = Some p /\ measured_good p /\
      Ptd.mdpdreqd p = None /\ (PPG.neighborGptpCapable (Ptd.ppglb p) = true <-> dj = 1%nat)) as (t & p & Et & Ep & Gd & Rq & Nb).
    { destruct dj as [|[|dj]]; [..|lia]; (do 2 eexists; split; [reflexivity|split; [reflexivity|split; [reflexivity|split; [reflexivity|]]]]);
        cbn; split; done. }
    destruct (K dj t p Et Ep) as (t' & v & Et' & (_ & L & _) & I & _). exists v. split.
    - unfold capable6, port6. rewrite Et'. cbn. by rewrite L.
    - rewrite I, <- Nb. unfold neighbour_speaks_gptp. rewrite Rq. split; [by intros (_ & [N|(q & r & N & _)])|by split; [|left]]. }
  exists s'. split; [exact E|]. split; [reflexivity|]. split; [reflexivity|].
  destruct (G 0%nat ltac:(lia)) as (v0 & -> & I0), (G 1%nat ltac:(lia)) as (v1 & -> & I1). split.
  - destruct v0; [|done]. by specialize (proj1 I0 eq_refl).
  - by rewrite (proj2 I1 eq_refl).
Defined.

Lemma link_loss_witness : exists s', Gpm.gptpnet_cb_devdown 1 gptp6 = Some (tt, s') /\ domains_ok 3 s'.
Proof.
  destruct (link_loss_everywhere 3 1 gptp6 domains6 ltac:(lia)) as (s' & E & Ok & _).
  - intros [|[|di]] H; [by eexists|by eexists|cbn in H; lia].
  - exists s'. split; [exact E|exact Ok].
Defined.

Lemma uninitialised_witness : Gpm.gptpnet_cb_devdown 1 (Gpm.mk [Some tasd4; None] 125000000) = None.
Proof. apply (link_loss_uninitialised 1 1); [cbn; lia|reflexivity]. Defined.
End DispatchWitness.
