(* ===== verification/Startup.v ===== *)
(** * Startup: the machines and the clocks of a domain are made, gptpman_domain_init of gptpman.c.

    A domain starts from the data of [Mind]; every machine gets its initial data,
    some are evaluated once; then the clocks of the domain are added and its clock
    identity becomes that of its grandmaster.  static_domains_init does this for
    domain 0 and, if it is configured, for a second domain. *)

From stdpp Require Import gmap list.
From S2P Require Import Prelude Types Floats Driver Common Clock AnnounceReceive AnnounceInformation.
From S2P Require Import StateSelection AnnounceTransmit IntervalSetting Capable GmStable SyncPath Wire Perfmon Media Mind.
From S2P Require Import MdSyncReceive MdSyncSend PdelayReq PdelayResp Signaling ExtPort.
From S2P Require Import Gptpclock GptpclockStatus ClockSync Gptpman Dispatch.
Import Eff.
Import (hints) PAR PAI PSSEL PAT AIS SIS LDIS GCIS GCT GCR GMS PSSR SSS PSSS MDAS MDAR.
Import (hints) SREC SSND PREQ PRSP MSGS MSGR PAIE PSSE GC.
Import Ptd(gptpsm_ptd_t).
Import Tasd(gptpsm_tasd_t).
#[local] Open Scope Z_scope.
#[local] Open Scope gptp_scope.

(** a network device: the name of its clock device, empty if it has none, and the identity of its port *)
Module Ndev.
Record netdevice_t := mk { ptpdev : list Z; portid : list Z }.
End Ndev.

(** the array of the network devices, the configuration items that are read here and mktime; a device has
    the index of its port less 1 *)
Class Startup := {
  netdevices : list Ndev.netdevice_t;
  FIRST_DOMAIN_THIS_CLOCK : Z;
  SECOND_DOMAIN_NUMBER : Z;
  SECOND_DOMAIN_THIS_CLOCK : Z;
  CB_MKTIME : Z -> Z -> Z -> Z -> Z -> Z -> Z   (* tm_year, tm_mon, tm_mday, tm_hour, tm_min, tm_sec *)
}.

(** the text of the initial time: the word sysclk, or the six numbers sscanf reads from it, or fewer *)
Inductive init_time :=
| Sysclk
| Numbers (year mon mday hour min sec : Z)
| Malformed.

Module Start.

Section Domain.
Context `{DEV : PtpDev} `{CV : Conversions} `{CF : Config} `{SC : ServoConfig} `{PL : Platform}
  `{WC : WireConfig} `{ME : Media} `{PD : PerfDb} `{HO : HostOrder} `{MC : ManConfig} `{GCFG : Gptpgcfg} `{SU : Startup}.
Import Man.

(** ** Data of machines that are not made yet *)

(** A machine that gptpman.c has not made is a NULL pointer in the code.  Port 0 never gets more than the
    two announce information machines and, in domain 0, the peer delay machines; the data here stands in
    the place of the others and is evaluated by nothing. *)
Definition no_port : gptpsm_ptd_t :=
  Ptd.mk zero zero zero
    (SREC.md_sync_receive_sm_init 0 0 zero zero zero)
    (PSSR.port_sync_sync_receive_sm_init 0 0 zero zero)
    (PSSS.port_sync_sync_send_sm_init 0 0 zero zero)
    (SSND.mk None zero zero zero (abstract_of (GC.gptpclock_init 0 0)) SSND.INIT SSND.INIT zero 0 0 None 0 0 0)
    (PAI.port_announce_information_sm_init 0 0 zero zero zero zero)
    None None None
    (AIS.announce_interval_setting_sm_init 0 0 zero zero zero)
    (PAR.mk zero zero zero zero PAR.INIT PAR.INIT zero 0 0 zero)
    (PAIE.port_announce_information_ext_sm_init 0 0 zero zero zero zero)
    (PAT.port_announce_transmit_sm_init 0 0 zero zero zero zero)
    (PSSE.port_state_setting_ext_sm_init 0 0 0 zero [] zero [])
    (GCT.gptp_capable_transmit_sm_init 0 0 zero zero)
    (GCR.mk zero zero GCR.INIT GCR.INIT zero 0 0)
    (GCIS.gptp_capable_interval_setting_sm_init 0 0 zero zero)
    (SIS.mk zero zero INIT INIT zero 0 0)
    (MDAS.md_announce_send_sm_init 0 0 None zero zero zero)
    (MDAR.md_announce_receive_sm_init 0 0 CMLDS_MODE zero zero)
    (MSGS.md_signaling_send_sm_init 0 0 None zero zero)
    (MSGR.md_signaling_receive_sm_init 0 0 zero zero).

(** the domain with its clocks and without machines *)
Definition no_domain (c : GC.st) : gptpsm_tasd_t :=
  Tasd.mk zero zero []
    (SSS.mk zero SSS.INIT SSS.INIT zero 0 zero 0 0 (abstract_of (GC.gcd c)))
    (CMSS.clock_master_sync_send_sm_init 0 zero)
    (CSS.clock_slave_sync_sm_init 0 zero)
    (CMSR.mk zero CMSR.INIT CMSR.INIT zero 0 d0 0 0 0 d0 0 false 0 0 0 0 0)
    (CMSO.clock_master_sync_offset_sm_init 0 zero)
    (PSSEL.port_state_selection_sm_init 0 zero [] zero [] 0 (abstract_of (GC.gcd c)))
    (GMS.gm_stable_sm_init 0 zero (abstract_of (GC.gcd c)))
    c [] [].

(** ** The machines of a port *)

(** the shared data is where the machine will find it *)
Definition made {D R} (d : D) : D * outcome R := (d, Ret None).

(** domain_zero_port_sm_init: the peer delay machines *)
Definition domain_zero_port_sm_init (pi : nat) : M unit := fun ta =>
  match Tasd.ptds ta !! pi with
  | None => None
  | Some p =>
      let i := Z.of_nat pi in
      let tas := Tasd.tasglb ta in
      let pp := Ptd.ppglb p in
      let md := Ptd.mdeglb p in
      Some (tt, ta <| Tasd.ptds ::= <[pi :=
        p <| Ptd.mdpdreqd := Some (PREQ.md_pdelay_req_sm_init i (Some []) tas pp md) |>
          <| Ptd.mdpdrespd := Some (PRSP.md_pdelay_resp_sm_init i (Some []) tas pp) |>
          <| Ptd.ldisetd := Some (LDIS.link_delay_interval_setting_sm_init i tas pp md) |>]> |>)
  end.

(** the part of domain_port_sm_init for every port *)
Definition information_sm_init (di : Z) (pi : nat) : M unit :=
  let i := Z.of_nat pi in
  _ ← on_painfd (fun d => made (PAI.port_announce_information_sm_init di i (PAI.ptasg d) (PAI.ppg d) (PAI.bptasg d) (PAI.bppg d))) pi;
  _ ← on_paiextd (fun d => made (PAIE.port_announce_information_ext_sm_init di i (PAIE.ptasg d) (PAIE.ppg d) (PAIE.bptasg d) (PAIE.bppg d))) pi;
  mret tt.

(** from md_sync_receive_sm_init to md_sync_send_sm_init *)
Definition sync_sm_init (di : Z) (pi : nat) : M unit :=
  let i := Z.of_nat pi in
  _ ← on_mdsrecd (fun d => made (SREC.md_sync_receive_sm_init di i (SREC.ptasg d) (SREC.ppg d) (SREC.mdeg d))) pi;
  _ ← on_pssrecd (fun d => made (PSSR.port_sync_sync_receive_sm_init di i (PSSR.ptasg d) (PSSR.ppg d))) pi;
  _ ← on_psssendd (fun d => made (PSSS.port_sync_sync_send_sm_init di i (PSSS.ptasg d) (PSSS.ppg d))) pi;
  _ ← on_mdssendd (fun d => SSND.md_sync_send_sm_init di i (Some []) (SSND.ptasg d) (SSND.ppg d) (SSND.mdeg d) (SSND.gcd d)) pi;
  mret tt.

(** from port_announce_receive_sm_init to gptp_capable_interval_setting_sm_init *)
Definition announce_sm_init (di : Z) (pi : nat) : M unit :=
  let i := Z.of_nat pi in
  _ ← on_parecd (fun d => PAR.port_announce_receive_sm_init di i (PAR.ptasg d) (PAR.ppg d) (PAR.bptasg d) (PAR.bppg d)) pi;
  _ ← on_patransd (fun d => made (PAT.port_announce_transmit_sm_init di i (PAT.ptasg d) (PAT.ppg d) (PAT.bptasg d) (PAT.bppg d))) pi;
  _ ← on_gctransd (fun d => made (GCT.gptp_capable_transmit_sm_init di i (GCT.ptasg d) (GCT.ppg d))) pi;
  _ ← on_gcrecd (fun d => made (GCR.gptp_capable_receive_sm_init di i (GCR.ptasg d) (GCR.ppg d))) pi;
  _ ← on_gcinvsetd (fun d => made (GCIS.gptp_capable_interval_setting_sm_init di i (GCIS.ptasg d) (GCIS.ppg d))) pi;
  mret tt.

(** the rest; one_step_tx_oper_setting_sm is made and never evaluated, so a domain has no place for it *)
Definition message_sm_init (di : Z) (pi : nat) : M unit :=
  let i := Z.of_nat pi in
  _ ← on_sisetd (fun d => SIS.sync_interval_setting_sm_init di i (SIS.ptasg d) (SIS.ppg d)) pi;
  _ ← on_aisetd (fun d => made (AIS.announce_interval_setting_sm_init di i (AIS.ptasg d) (AIS.ppg d) (AIS.bppg d))) pi;
  _ ← on_mdansendd (fun d => made (MDAS.md_announce_send_sm_init di i (Some []) (MDAS.ptasg d) (MDAS.ppg d) (MDAS.bppg d))) pi;
  _ ← on_mdanrecd (fun d => made (MDAR.md_announce_receive_sm_init di i CMLDS_MODE (MDAR.ptasg d) (MDAR.ppg d))) pi;
  _ ← on_mdsigsendd (fun d => made (MSGS.md_signaling_send_sm_init di i (Some []) (MSGS.ptasg d) (MSGS.ppg d))) pi;
  _ ← on_mdsigrecd (fun d => made (MSGR.md_signaling_receive_sm_init di i (MSGR.ptasg d) (MSGR.ppg d))) pi;
  mret tt.

Definition domain_port_sm_init (di : Z) (pi : nat) : M unit :=
  _ ← information_sm_init di pi;
  if Nat.eqb pi 0 then mret tt
  else
    _ ← sync_sm_init di pi;
    _ ← announce_sm_init di pi;
    message_sm_init di pi.

(** ** A port *)

(** the global data of a new port; [first] is domain 0, whose port shares its part, for another domain *)
Definition new_port (di : Z) (first : option gptpsm_ptd_t) (pi : nat) (ta : gptpsm_tasd_t) : gptpsm_ptd_t :=
  let i := Z.of_nat pi in
  no_port <| Ptd.mdeglb := md_entity_glb_init (MDEG.forAllDomain ∘ Ptd.mdeglb <$> first) i |>
          <| Ptd.ppglb := pp_glb_init (PPG.forAllDomain ∘ Ptd.ppglb <$> first) (Tasd.tasglb ta) di i |>
          <| Ptd.bppglb := bmcs_pp_glb_init di i |>.

Definition port_globals_init (di : Z) (first : option gptpsm_tasd_t) (pi : nat) : M unit := fun ta =>
  match first with
  | None => Some (tt, ta <| Tasd.ptds ::= fun ps => ps ++ [new_port di None pi ta] |>)
  | Some t0 =>
      match Tasd.ptds t0 !! pi with
      | None => None
      | Some p0 => Some (tt, ta <| Tasd.ptds ::= fun ps => ps ++ [new_port di (Some p0) pi ta] |>)
      end
  end.

(** [max_ports] counts port 0 *)
Definition gptpman_port_init (max_ports : nat) (di : Z) (first : option gptpsm_tasd_t) (pi : nat) : M unit :=
  _ ← port_globals_init di first pi;
  _ ← (if di =? 0 then domain_zero_port_sm_init pi else mret tt);
  _ ← domain_port_sm_init di pi;
  if Nat.eqb pi 0 then mret tt
  else
    _ ← on_pssextd (fun d => made (PSSE.port_state_setting_ext_sm_init di (Z.of_nat pi) (Z.of_nat max_ports) (PSSE.ptasg d) (PSSE.ppgl d)
                                     (PSSE.bptasg d) (PSSE.bppgl d))) pi;
    mret tt.

(** ** A domain *)

(** the data of the domain *)
Definition domain_globals_init (inst di : Z) : M unit := fun ta =>
  Some (tt, ta <| Tasd.tasglb := ptas_glb_init inst di |> <| Tasd.btasglb := bmcs_ptas_glb_init di |>).

(** from site_sync_sync_sm_init to clock_master_sync_offset_sm_init *)
Definition clock_sm_init (di : Z) : M unit :=
  _ ← on_sssd (fun d => made (SSS.site_sync_sync_sm_init di (SSS.ptasg d) (SSS.gcd d)));
  _ ← on_cmssendd (fun s => made (mkc (CMSS.clock_master_sync_send_sm_init di (CMSS.ptasg (sm s))) (ck s)));
  _ ← on_cssd (fun _ s => made (mkc (CSS.clock_slave_sync_sm_init di (CSS.ptasg (sm s))) (ck s)));
  _ ← on_cmsrecd (fun s => CMSR.clock_master_sync_receive_sm_init di (CMSR.ptasg (sm s)) (ck s));
  _ ← on_cmsoffsetd (fun d => made (CMSO.clock_master_sync_offset_sm_init di (CMSO.ptasg d)));
  mret tt.

(** gm_stable_sm_init and port_state_selection_sm_init *)
Definition selection_sm_init (max_ports : nat) (di : Z) : M unit :=
  _ ← on_gmsd (fun d => made (GMS.gm_stable_sm_init di (GMS.ptasg d) (GMS.gcd d)));
  _ ← on_pssd (fun d => made (PSSEL.port_state_selection_sm_init di (PSSEL.ptasg d) (PSSEL.ppgl d) (PSSEL.bptasg d) (PSSEL.bppgl d)
                                (Z.of_nat max_ports) (PSSEL.gcd d)));
  mret tt.

(** gptpman_domain_init after the domain has its place [di] *)
Definition domain_init (inst : Z) (max_ports : nat) (di : Z) (first : option gptpsm_tasd_t) : M unit :=
  _ ← domain_globals_init inst di;
  _ ← clock_sm_init di;
  _ ← for_ports (gptpman_port_init max_ports di first) (seq 0 max_ports);
  selection_sm_init max_ports di.

(** ** The clocks of a domain *)

(** netdevices[ndevIndex]; the index is not checked, and outside the array there is nothing to go on with *)
Definition netdevice (ndevIndex : Z) : GC.M Ndev.netdevice_t := fun c =>
  if ndevIndex <? 0 then None else (fun d => (d, c)) <$> netdevices !! Z.to_nat ndevIndex.

Definition gptpnet_ptpdev (ndevIndex : Z) : GC.M (list Z) := d ← netdevice ndevIndex; mret (Ndev.ptpdev d).

(** the identity of the device, with the number of the domain in it *)
Definition gptpnet_create_clockid (ndevIndex domainNumber : Z) : GC.M (list Z) :=
  d ← netdevice ndevIndex;
  let id := Ndev.portid d in
  mret (if i8 domainNumber =? 0 then id else <[4%nat := u8 domainNumber]> (<[3%nat := 0]> id)).

(** the loop over the clocks, from [i] on; -1 ends it *)
Fixpoint add_clocks (domainIndex thisClockIndex : Z) (n : nat) (i : Z) : GC.M Z :=
  match n with
  | O => mret 0
  | S n =>
      if negb (domainIndex =? 0) && negb (i =? thisClockIndex) then add_clocks domainIndex thisClockIndex n (i + 1)
      else
        ptpdev ← gptpnet_ptpdev (i - 1);
        if bool_decide (ptpdev = []) then add_clocks domainIndex thisClockIndex n (i + 1)
        else
          clkid ← gptpnet_create_clockid (i - 1) domainIndex;
          r ← GC.gptpclock_add_clock i ptpdev domainIndex clkid;
          if r =? 0 then add_clocks domainIndex thisClockIndex n (i + 1) else mret (-1)
  end.

Definition init_domain_clock (max_ports domainIndex thisClockIndex : Z) : GC.M Z :=
  let num_clocks := if SINGLE_CLOCK_MODE =? 0 then max_ports else 2 in
  r ← add_clocks domainIndex thisClockIndex (Z.to_nat (num_clocks - 1)) 1;
  if negb (r =? 0) then mret (-1)
  else
    clkid ← gptpnet_create_clockid (thisClockIndex - 1) domainIndex;
    ptpdev ← gptpnet_ptpdev (thisClockIndex - 1);
    r ← GC.gptpclock_add_clock 0 ptpdev domainIndex clkid;
    mret (if negb (r =? 0) then -1 else 0).

Definition set_domain_thisClock (domainIndex thisClockIndex : Z) : M Z :=
  _ ← on_tasglb (fun g => g <| PTASG.thisClockIndex := thisClockIndex |>);
  _ ← on_clocks (GC.gptpclock_set_thisClock thisClockIndex domainIndex false);
  _ ← on_clocks (GC.gptpclock_setadj 0 thisClockIndex domainIndex);
  o ← on_clocks (GC.gptpclock_clockid thisClockIndex domainIndex);
  match o with
  | None => mret (-1)
  | Some id =>
      _ ← on_tasglb (fun g => g <| PTASG.thisClock := id |> <| PTASG.gmIdentity := id |>);
      mret 0
  end.

(** the time the text says *)
Definition init_time_ts (t : init_time) : GC.M (option Z) :=
  match t with
  | Sysclk => ts ← GC.act ub_rt_gettime64; mret (Some ts)
  | Numbers y mo d h mi s => mret (Some (i64 (CB_MKTIME (y - 1900) (mo - 1) d h mi s * UB_SEC_NS)))
  | Malformed => mret None
  end.

Definition gptpclock_settime_str (t : init_time) (clockIndex domainNumber : Z) : GC.M Z :=
  o ← init_time_ts t;
  match o with
  | None => mret (-1)
  | Some ts => _ ← GC.gptpclock_setts64 ts clockIndex domainNumber; mret 0
  end.

(** bmcs_ptas_glb_update of the domain *)
Definition update_system_priority (domainIndex : Z) : M unit := fun ta =>
  Some (tt, ta <| Tasd.btasglb ::= bmcs_ptas_glb_update (Tasd.tasglb ta) domainIndex |>).


(** the time of the domain when the machines are there *)
Definition domain_time_init (domainIndex thisClockIndex : Z) (inittm : option init_time) : M unit :=
  _ ← set_domain_thisClock domainIndex thisClockIndex;
  _ ← (match inittm with
       | None => mret tt
       | Some t =>
           _ ← on_clocks (GC.gptpclock_setadj 0 thisClockIndex domainIndex);
           _ ← on_clocks (gptpclock_settime_str t 0 domainIndex);
           mret tt
       end);
  update_system_priority domainIndex.
End Domain.

(** ** The instance *)

Section Instance.
Context `{DEV : PtpDev} `{CV : Conversions} `{CF : Config} `{SC : ServoConfig} `{PL : Platform}
  `{WC : WireConfig} `{ME : Media} `{PD : PerfDb} `{HO : HostOrder} `{MC : ManConfig} `{GCFG : Gptpgcfg} `{SU : Startup}.
Import Gpm.

(** the first domain without data, unless one with the number comes before it *)
Fixpoint free_place (domainIndex : Z) (di : nat) (l : list (option gptpsm_tasd_t)) : option nat :=
  match l with
  | [] => None
  | None :: _ => Some di
  | Some t :: l => if PTASG.domainIndex (Tasd.tasglb t) =? domainIndex then None else free_place domainIndex (S di) l
  end.

Definition place (domainIndex : Z) (s : gptpman_data) : option nat :=
  if domainIndex =? 0 then (if (0 <? length (tasds s))%nat then Some O else None)
  else free_place domainIndex 1 (drop 1 (tasds s)).

(** the clocks are those of domain 0; [c] before there is one *)
Definition instance_clocks (c : GC.st) (s : gptpman_data) : GC.st :=
  match domain s 0 with Some t0 => Tasd.clocks t0 | None => c end.

(** the domain is known by its place, not by its number *)
Definition gptpman_domain_init (inst : Z) (max_ports : nat) (c : GC.st) (domainIndex : Z) : M Z := fun s =>
  match place (u8 domainIndex) s with
  | None => Some (-1, s)
  | Some di =>
      (_ ← at_domain di (domain_init inst max_ports (Z.of_nat di) (if Nat.eqb di 0 then None else domain s 0));
       mret 0) (put_domain di (no_domain (instance_clocks c s)) s)
  end.

(** the tick a port asks for; it is written only when it differs from the one at the start *)
Definition port_tick (tout0 : Z) (t : Z) (p : gptpsm_ptd_t) : Z :=
  let n := adjust_tout_interval tout0 (UNs.nsec (PPG.syncInterval (Ptd.ppglb p)))
             (UNs.nsec (BPPG.announceInterval (Ptd.bppglb p)))
             (UNs.nsec (MDEGALL.pdelayReqInterval (MDEG.forAllDomain (Ptd.mdeglb p))))
             (UNs.nsec (PPG.gPtpCapableMessageInterval (Ptd.ppglb p))) in
  if n =? tout0 then t else n.

Definition domain0_tick : M unit := fun s =>
  match domain s 0 with
  | None => None
  | Some t0 => Some (tt, s <| tout := fold_left (port_tick (tout s)) (drop 1 (Tasd.ptds t0)) (tout s) |>)
  end.

(** the machines of the domain, its clocks in the array all domains share, its time *)
Definition start_domain (inst : Z) (max_ports : nat) (c : GC.st) (di this_ci : Z) (inittm : option init_time) : M Z :=
  r ← gptpman_domain_init inst max_ports c di;
  if negb (r =? 0) then mret (-1)
  else
    r ← at_domain 0 (Man.on_clocks (init_domain_clock (Z.of_nat max_ports) di this_ci));
    if negb (r =? 0) then mret (-1)
    else
      _ ← at_domain (Z.to_nat di) (domain_time_init di this_ci inittm);
      mret 0.

Definition static_domains_init (inst : Z) (max_ports : nat) (c : GC.st) (inittm : option init_time) : M Z :=
  r ← start_domain inst max_ports c 0 FIRST_DOMAIN_THIS_CLOCK inittm;
  if negb (r =? 0) then mret (-1)
  else
    _ ← domain0_tick;
    let di := md_domain_number2index (u8 SECOND_DOMAIN_NUMBER) in
    if SECOND_DOMAIN_THIS_CLOCK <? 0 then mret 0
    else start_domain inst max_ports c di SECOND_DOMAIN_THIS_CLOCK inittm.

(** gptpman_run up to the event loop, when memory and the clock data could be had: the arrays of the
    domains are empty, the clocks have room for a master clock besides those of the ports; [tick] is the
    one of the driver *)
Definition gptpman_start (inst max_domains : Z) (tick : Z) (w : world) (inittm : option init_time)
  : option (Z * gptpman_data) :=
  let netdevs := length netdevices in
  if (Z.of_nat netdevs =? 0) || (XL4_DATA_ABS_MAX_NETDEVS <=? S netdevs)%nat then Some (-1, Gpm.mk [] tick)
  else
    static_domains_init inst (S netdevs)
      (GC.mkst (GC.gptpclock_init max_domains (Z.of_nat netdevs + 1)) w []) inittm
      (Gpm.mk (replicate (Z.to_nat max_domains) None) tick).
End Instance.
End Start.
