(* ===== verification/StartupFacts.v ===== *)
(** * StartupFacts: a domain that starts is ready.

    The machines and clocks that static_domains_init makes are those the theorems
    of [BestMaster] ask for: the start returns, and in every domain it made the
    best-master machines of every port can be evaluated. *)

From S2P Require Import Prelude Types Floats Driver Common Clock AnnounceReceive AnnounceInformation.
From S2P Require Import StateSelection AnnounceTransmit IntervalSetting Capable GmStable SyncPath Wire Perfmon Media Mind.
From S2P Require Import MdSyncReceive MdSyncSend PdelayReq PdelayResp Signaling ExtPort.
From S2P Require Import Gptpclock VirtualClock GptpclockFacts GptpclockTime GptpclockStatus ClockSync ClockSyncFacts ClockSyncSend.
From S2P Require Import Gptpman Dispatch GptpmanFacts BestMaster DispatchFacts Startup.
From stdpp Require Import list.
Import Eff.
Import (hints) PAR PAI PSSEL PAT AIS SIS LDIS GCIS GCT GCR GMS PSSR SSS PSSS MDAS MDAR.
Import (hints) SREC SSND PREQ PRSP MSGS MSGR PAIE PSSE GC.
Import Glob(globals).
Import Ptd(gptpsm_ptd_t).
Import Tasd(gptpsm_tasd_t).
#[local] Open Scope Z_scope.
#[local] Open Scope gptp_scope.

(** ** The shared data of a port that was not evaluated yet *)

Definition site_on (t : PerTimeAwareSystemGlobal) (b : BmcsPerTimeAwareSystemGlobal) : Prop :=
  PTASG.BEGIN t = false /\ PTASG.instanceEnable t = true /\ BPTASG.externalPortConfiguration b = VALUE_DISABLED /\
  length (BPTASG.reselect b) = XL4_DATA_ABS_MAX_NETDEVS /\ length (BPTASG.selected b) = XL4_DATA_ABS_MAX_NETDEVS.

Definition port_new (p : PerPortGlobal) (b : BmcsPerPortGlobal) : Prop :=
  PPGALL.asymmetryMeasurementMode (PPG.forAllDomain p) = false /\
  BPPG.infoIs b = Disabled /\ BPPG.updtInfo b = false /\ BPPG.rcvdMsg b = false.

Definition calm (g : globals) : Prop := site_on (Glob.tas g) (Glob.btas g) /\ port_new (Glob.pp g) (Glob.bpp g).

(** ** Machines that are evaluated when they are made *)

Section Evaluated.
Context `{PL : Platform} `{CF : Config} `{CV : Conversions} `{WC : WireConfig} `{ME : Media}.
#[local] Set Default Proof Using "All".


(** the states a machine can be in without an event *)
Ltac by_state H P b := destruct b; destruct H as [<-|[<-|H]]; [| |(destruct H as [<-|[]] || destruct H)|
                                                              | |(destruct H as [<-|[]] || destruct H)]; cbn in P.

Lemma par_init_calm di pi g d : calm g -> load g d = d ->
  let r := PAR.port_announce_receive_sm_init di pi (PAR.ptasg d) (PAR.ppg d) (PAR.bptasg d) (PAR.bppg d) in
  calm (store r.1 g) /\ r.2 = Ret None.
Proof.
  intros C L. unfold PAR.port_announce_receive_sm_init, PAR.port_announce_receive_sm.
  edestruct (exec_ret (M := PAR.machine) (fun s : PAR.data => calm (store s g) /\ PARsm.rcvdAnnounce (PAR.thisSM s) = false /\
    In (PAR.state s) [PAR.INIT; PAR.DISCARD])) as [H1 H2]; [| | |split; [exact (proj1 H1)|exact H2]].
  - intros s (H1 & H2 & H3). split; [exact H1|]. split; [exact H2|]. cbn in *.
    unfold PAR.allstate_condition. destruct_cond; tauto.
  - intros s s' c (H1 & H2 & H3) P.
    change (PAR.switch (bool_decide (PAR.last_state s <> PAR.state s)) (PAR.set_last (PAR.state s) s) = (s', c)) in P.
    revert P. generalize (bool_decide (PAR.last_state s <> PAR.state s)). intros b P.
    unfold PAR.switch, PAR.discard_condition in P.
    destruct s as [a1 a2 a3 a4 st ls th a5 a6 a7]. cbn in H2, H3.
    by_state H3 P b; rewrite ?H2 in P; injection P as <- <-;
      (split; [split; [destruct H1 as [S (A & I & U & R)]; by split|split; [done|cbn; repeat case_match; cbn in *; congruence || tauto]]|done]).
  - split; [|split; [done|by left]]. rewrite <- L in *. by destruct g.
Qed.

Lemma sis_init_calm di pi g d : calm g -> load g d = d ->
  let r := SIS.sync_interval_setting_sm_init di pi (SIS.ptasg d) (SIS.ppg d) in
  calm (store r.1 g) /\ r.2 = Ret None.
Proof.
  intros C L. unfold SIS.sync_interval_setting_sm_init, SIS.sync_interval_setting_sm.
  edestruct (exec_ret (M := SIS.machine) (fun s : SIS.data => calm (store s g) /\ SISsm.rcvdSignalingMsg3 (SIS.thisSM s) = false /\
    In (SIS.state s) [INIT; NOT_ENABLED; INITIALIZE])) as [H1 H2]; [| | |split; [exact (proj1 H1)|exact H2]].
  - intros s (H1 & H2 & H3). split; [exact H1|]. split; [exact H2|]. cbn in *.
    unfold SIS.allstate_condition. destruct_cond; tauto.
  - intros s s' c (H1 & H2 & H3) P. rewrite SIS.sis_pass_eq in P.
    revert P. generalize (bool_decide (SIS.last_state s <> SIS.state s)). intros b P.
    unfold SIS.switch, SIS.not_enabled_condition, SIS.initialize_condition, SIS.not_enabled_proc in P.
    destruct s as [a1 a2 st ls th a5 a6]. cbn in H2, H3.
    by_state H3 P b; rewrite ?H2 in P; repeat destruct_cond_in P; injection P as <- <-;
      (split; [split; [destruct H1 as [S (A & I & U & R)]; by split|split; [done|cbn; repeat case_match; cbn in *; congruence || tauto]]|done]).
  - split; [|split; [done|by left]]. rewrite <- L in *. by destruct g.
Qed.

Lemma gcr_init_calm di pi g d : calm g -> load g d = d ->
  calm (store (GCR.gptp_capable_receive_sm_init di pi (GCR.ptasg d) (GCR.ppg d)) g).
Proof.
  intros C L. unfold GCR.gptp_capable_receive_sm_init, GCR.gptp_capable_receive_sm.
  edestruct (exec_ret (M := GCR.machine 0) (fun s : GCR.data => calm (store s g) /\ GCRsm.rcvdGptpCapableTlv (GCR.thisSM s) = false /\
    In (GCR.state s) [GCR.INIT; GCR.NOT_ENABLED; GCR.INITIALIZE])) as [H1 H2]; [| | |exact (proj1 H1)].
  - intros s (H1 & H2 & H3). split; [exact H1|]. split; [exact H2|]. cbn in *.
    unfold GCR.allstate_condition. destruct_cond; tauto.
  - intros s s' c (H1 & H2 & H3) P. rewrite GCR.gcr_pass_eq in P.
    revert P. generalize (bool_decide (GCR.last_state s <> GCR.state s)). intros b P.
    unfold GCR.switch, GCR.not_enabled_condition, GCR.initialize_condition, GCR.not_enabled_proc, GCR.initialize_proc in P.
    destruct s as [a1 a2 st ls th a5 a6]. cbn in H2, H3.
    by_state H3 P b; rewrite ?H2 in P; repeat destruct_cond_in P; injection P as <- <-;
      (split; [split; [destruct H1 as [S (A & I & U & R)]; by split|split; [done|cbn; rewrite ?H2; repeat case_match; cbn in *; congruence || tauto]]|done]).
  - split; [|split; [done|by left]]. rewrite <- L in *. by destruct g.
Qed.

Lemma ssnd_init_calm di pi g d : calm g -> Glob.tas g = SSND.ptasg d -> Glob.pp g = SSND.ppg d -> Glob.md g = SSND.mdeg d ->
  let r := SSND.md_sync_send_sm_init di pi (Some []) (SSND.ptasg d) (SSND.ppg d) (SSND.mdeg d) (SSND.gcd d) in
  calm (store r.1 g) /\ r.2 = Ret None.
Proof.
  intros C L1 L2 L3. unfold SSND.md_sync_send_sm_init, SSND.md_sync_send_sm.
  edestruct (exec_ret (M := SSND.machine 0) (fun s : SSND.data => calm (store s g) /\ MDSSsm.rcvdMDSync (SSND.thisSM s) = false /\
    In (SSND.state s) [SSND.INIT; SSND.INITIALIZING])) as [H1 H2]; [| | |split; [exact (proj1 H1)|exact H2]].
  - intros s (H1 & H2 & H3). cbn [sm_allstate SSND.machine]. unfold SSND.set_allstate, SSND.allstate_condition.
    destruct_cond; (split; [exact H1|]; split; [exact H2|]; cbn in *; tauto).
  - intros s s' c (H1 & H2 & H3) P. rewrite SSND.ssnd_pass_eq in P.
    revert P. generalize (bool_decide (SSND.last_state s <> SSND.state s)). intros b P.
    unfold SSND.switch, SSND.initializing_condition, SSND.may_send, SSND.initializing_proc in P.
    destruct s as [a0 a1 a2 a3 a4 st ls th a5 a6 a7 a8 a9]. cbn in H2, H3.
    by_state H3 P b; rewrite ?H2 in P; cbn in P; repeat destruct_cond_in P; injection P as <- <-;
      (split; [split; [destruct H1 as [S (A & I & U & R)]; by split|split; [done|cbn; rewrite ?H2; repeat case_match; cbn in *; congruence || tauto]]|done]).
  - split; [|split; [done|by left]]. destruct g. cbn in *. by subst.
Qed.

(** the site machine changes neither the instance nor the clocks *)
Lemma sss_init_site di t c :
  let d := SSS.site_sync_sync_sm_init di t c in SSS.ptasg d = t /\ SSS.gcd d = c.
Proof.
  unfold SSS.site_sync_sync_sm_init, SSS.site_sync_sync_sm.
  edestruct (exec_ret (M := SSS.machine 0) (fun s : SSS.data => (SSS.ptasg s = t /\ SSS.gcd s = c) /\ SSSsm.rcvdPSSync (SSS.thisSM s) = false /\
    In (SSS.state s) [SSS.INIT; SSS.INITIALIZING])) as [H1 H2]; [| | |exact (proj1 H1)].
  - intros s (H1 & H2 & H3). cbn [sm_allstate SSS.machine]. unfold SSS.set_allstate, SSS.allstate_condition.
    destruct_cond; (split; [exact H1|]; split; [exact H2|]; cbn in *; tauto).
  - intros s s' r (H1 & H2 & H3) P. rewrite SSS.sss_pass_eq in P.
    revert P. generalize (bool_decide (SSS.last_state s <> SSS.state s)). intros b P.
    unfold SSS.switch, SSS.initializing_condition, SSS.initializing_proc, SSS.RCVD_PSSYNC in P.
    destruct s as [a1 st ls th a2 a3 a4 a5 a6]. cbn in H1, H2, H3.
    by_state H3 P b; rewrite ?H2 in P; cbn in P; injection P as <- <-;
      (split; [split; [exact H1|split; [done|cbn; repeat case_match; cbn in *; congruence || tauto]]|done]).
  - split; [done|]. split; [done|by left].
Qed.
End Evaluated.

(** ** The machines of a port *)

Section Ports.
Import Man Start.
Context `{DEV : PtpDev} `{CV : Conversions} `{CF : Config} `{SC : ServoConfig} `{PL : Platform}
  `{WC : WireConfig} `{ME : Media} `{PD : PerfDb} `{HO : HostOrder} `{MC : ManConfig} `{GCFG : Gptpgcfg} `{SU : Startup}.

#[local] Set Default Proof Using "All".

(** from a state in [P] the operation returns, in a state in [Q] *)
Definition takes {A} (P : gptpsm_tasd_t -> Prop) (m : M A) (Q : gptpsm_tasd_t -> Prop) : Prop :=
  forall ta, P ta -> exists a ta', m ta = Some (a, ta') /\ Q ta'.

Lemma takes_bind {A B} P (m : M A) Q (f : A -> M B) R : takes P m Q -> (forall a, takes Q (f a) R) -> takes P (m ≫= f) R.
Proof.
  intros H1 H2 ta T. destruct (H1 ta T) as (a & t1 & E1 & T1). destruct (H2 a t1 T1) as (b & t2 & E2 & T2).
  exists b, t2. split; [|done]. by rewrite (mbind_run _ _ _ _ _ E1).
Qed.

Lemma takes_ret {A} P (a : A) : takes P (mret a) P.
Proof. intros ta T. by exists a, ta. Qed.

Lemma takes_ports (I : nat -> gptpsm_tasd_t -> Prop) (f : nat -> M unit) n : (forall i, (i < n)%nat -> takes (I i) (f i) (I (S i))) ->
  takes (I O) (for_ports f (seq 0 n)) (I n).
Proof.
  intros H. assert (G : forall m k, (k + m = n)%nat -> takes (I k) (for_ports f (seq k m)) (I n)).
  { induction m as [|m IH]; intros k E; cbn [seq for_ports].
    - replace k with n by lia. apply takes_ret.
    - eapply takes_bind; [apply H; lia|]. intros _. apply IH. lia. }
  apply G. lia.
Qed.

(** PortAnnounceInformation as it was made *)
Definition informed_at (i : nat) (p : gptpsm_ptd_t) : Prop :=
  PAI.portIndex (Ptd.painfd p) = Z.of_nat i /\ PAI.state (Ptd.painfd p) = PAI.INIT /\ PAI.last_state (Ptd.painfd p) = PAI.INIT.

Definition max_domains_of (ta : gptpsm_tasd_t) : Z := Shm.max_domains (Gd.shm (GC.gcd (Tasd.clocks ta))).

(** a domain with [n] ports, the first [k] with their PortAnnounceInformation *)
Record booted (md : Z) (n k : nat) (ta : gptpsm_tasd_t) : Prop := {
  bo_site : site_on (Tasd.tasglb ta) (Tasd.btasglb ta);
  bo_len : length (Tasd.ptds ta) = n;
  bo_port : forall i p, Tasd.ptds ta !! i = Some p -> port_new (Ptd.ppglb p) (Ptd.bppglb p);
  bo_info : forall i p, (i < k)%nat -> Tasd.ptds ta !! i = Some p -> informed_at i p;
  bo_wf : wf (GC.gcd (Tasd.clocks ta));
  bo_max : max_domains_of ta = md
}.

Lemma booted_calm md n k ta i p : booted md n k ta -> Tasd.ptds ta !! i = Some p -> calm (globals_of ta p).
Proof. intros B L. split; [exact (bo_site _ _ _ _ B)|exact (bo_port _ _ _ _ B i p L)]. Qed.

(** the port is replaced by one with the same announce information *)
Lemma put_booted md n k ta pi p q g : booted md n k ta -> Tasd.ptds ta !! pi = Some p -> calm g ->
  ((pi < k)%nat -> informed_at pi q) -> booted md n k (put_globals pi g q ta).
Proof.
  intros [S L Po In W Mx] E [C1 C2] H. split; [exact C1|by cbn; rewrite length_insert| | |done|done].
  - intros i x. cbn. intros X. destruct (decide (i = pi)) as [->|N].
    + rewrite list_lookup_insert_eq in X by (by eapply lookup_lt_Some). injection X as <-. exact C2.
    + rewrite list_lookup_insert_ne in X by done. by eapply Po.
  - intros i x Hi. cbn. intros X. destruct (decide (i = pi)) as [->|N].
    + rewrite list_lookup_insert_eq in X by (by eapply lookup_lt_Some). injection X as <-. exact (H Hi).
    + rewrite list_lookup_insert_ne in X by done. by eapply In.
Qed.

Lemma port_there md n k ta pi : booted md n k ta -> (pi < n)%nat -> exists p, Tasd.ptds ta !! pi = Some p.
Proof. intros B L. apply lookup_lt_is_Some_2. by rewrite (bo_len _ _ _ _ B). Qed.

Lemma takes_on_port {D R} `{Shared D} (get : gptpsm_ptd_t -> D) put (f : D -> D * outcome R) md n k pi : (pi < n)%nat ->
  (forall d p, Ptd.painfd (put d p) = Ptd.painfd p) ->
  (forall g p, calm g -> calm (store (f (load g (get p))).1 g) /\ (f (load g (get p))).2 = Ret None) ->
  takes (booted md n k) (on_port get put f pi) (booted md n k).
Proof.
  intros L P F ta B. destruct (port_there _ _ _ _ _ B L) as [p E]. destruct (F (globals_of ta p) p) as [C O]; [by eapply booted_calm|].
  destruct (f (load (globals_of ta p) (get p))) as [d o] eqn:Q. cbn in C, O. subst o.
  eexists None, _. split; [by apply on_port_run|]. eapply put_booted; [done|done|done|].
  intros K. unfold informed_at. rewrite P. by apply (bo_info _ _ _ _ B).
Qed.

Lemma takes_painfd di md n pi : (pi < n)%nat ->
  takes (booted md n pi) (on_painfd (fun d => made (PAI.port_announce_information_sm_init di (Z.of_nat pi) (PAI.ptasg d) (PAI.ppg d)
                                              (PAI.bptasg d) (PAI.bppg d))) pi) (booted md n (S pi)).
Proof.
  intros L ta B. destruct (port_there _ _ _ _ _ B L) as [p E].
  eexists None, _. split; [apply (on_port_run _ _ _ _ _ p); [done|reflexivity]|]. set (d := PAI.port_announce_information_sm_init _ _ _ _ _ _).
  set (q := p <| Ptd.painfd := d |>). pose proof (booted_calm _ _ _ _ _ _ B E) as C.
  assert (C' : calm (store d (globals_of ta p))) by (split; [exact (proj1 C)|exact (proj2 C)]).
  destruct (put_booted md n pi ta pi p q (store d (globals_of ta p)) B E C' ltac:(lia)) as [S1 L1 P1 I1 W1 M1].
  split; [done..| |done|done]. intros i x Hi. destruct (decide (i = pi)) as [->|N].
  - cbn. rewrite list_lookup_insert_eq by (by eapply lookup_lt_Some). by intros [= <-].
  - apply I1. lia.
Qed.

Lemma put_ports_same ps qs : length qs = length ps ->
  (forall i p q, ps !! i = Some p -> qs !! i = Some q -> Ptd.ppglb q = Ptd.ppglb p /\ Ptd.bppglb q = Ptd.bppglb p) ->
  put_ports (map Ptd.ppglb ps) (map Ptd.bppglb ps) qs = qs.
Proof.
  intros L H. apply list_eq. intros i. unfold put_ports. rewrite list_lookup_imap.
  destruct (qs !! i) as [q|] eqn:Q; [|done]. destruct (lookup_lt_is_Some_2 ps i) as [p E]; [rewrite <- L; by eapply lookup_lt_Some|].
  destruct (H i p q E Q) as [H1 H2]. cbn. rewrite !list_lookup_fmap, E. cbn. rewrite <- H1, <- H2. by destruct q.
Qed.

(** *** The machines of a port *)

Ltac step := eapply takes_bind; [|intros ?].
Ltac made_port := apply takes_on_port; [done|done|intros g p C; split; [by destruct g|done]].

Lemma takes_pssextd di mp md n k pi : (pi < n)%nat ->
  takes (booted md n k)
    (on_pssextd (fun d => made (PSSE.port_state_setting_ext_sm_init di (Z.of_nat pi) mp (PSSE.ptasg d) (PSSE.ppgl d) (PSSE.bptasg d) (PSSE.bppgl d))) pi)
    (booted md n k).
Proof.
  intros L ta B. destruct (port_there _ _ _ _ _ B L) as [p E]. unfold on_pssextd. rewrite E. unfold made, returned.
  set (d := PSSE.port_state_setting_ext_sm_init di (Z.of_nat pi) mp (Tasd.tasglb ta) (ppglbl ta) (Tasd.btasglb ta) (bppglbl ta)).
  set (q := p <| Ptd.pssextd := d |>).
  assert (X : put_ports (PSSE.ppgl d) (PSSE.bppgl d) (<[pi := q]> (Tasd.ptds ta)) = <[pi := q]> (Tasd.ptds ta)).
  { apply (put_ports_same (Tasd.ptds ta)); [by rewrite length_insert|]. intros i x y X Y. destruct (decide (i = pi)) as [->|N].
    - rewrite list_lookup_insert_eq in Y by (by eapply lookup_lt_Some). rewrite E in X.
      apply Some_inj in X. apply Some_inj in Y. by subst.
    - rewrite list_lookup_insert_ne in Y by done. rewrite X in Y. apply Some_inj in Y. by subst. }
  pose proof (put_booted md n k ta pi p q (globals_of ta p) B E (booted_calm _ _ _ _ _ _ B E)
                (fun K => bo_info _ _ _ _ B pi p K E)) as [S1 L1 P1 I1 W1 M1].
  assert (Q : p <| Ptd.pssextd := d |> <| Ptd.ppglb := Glob.pp (globals_of ta p) |> <| Ptd.bppglb := Glob.bpp (globals_of ta p) |>
                <| Ptd.mdeglb := Glob.md (globals_of ta p) |> = q) by (by destruct p).
  unfold put_globals in L1, P1, I1. cbn [Tasd.ptds] in L1, P1, I1.
  exists None, (ta <| Tasd.tasglb := PSSE.ptasg d |> <| Tasd.btasglb := PSSE.bptasg d |>
    <| Tasd.ptds ::= fun ps => put_ports (PSSE.ppgl d) (PSSE.bppgl d) (<[pi := q]> ps) |>). split; [reflexivity|].
  split; [exact (bo_site _ _ _ _ B)|..|exact (bo_wf _ _ _ _ B)|exact (bo_max _ _ _ _ B)]; cbn [Tasd.ptds upd]; cbn; fold d; fold q;
    change (put_ports (ppglbl ta) (bppglbl ta)) with (put_ports (PSSE.ppgl d) (PSSE.bppgl d)); rewrite X.
  - by rewrite length_insert, (bo_len _ _ _ _ B).
  - rewrite <- Q. exact P1.
  - rewrite <- Q. exact I1.
Qed.

Lemma takes_zero_port md n k pi : (pi < n)%nat -> takes (booted md n k) (domain_zero_port_sm_init pi) (booted md n k).
Proof.
  intros L ta B. destruct (port_there _ _ _ _ _ B L) as [p E]. unfold domain_zero_port_sm_init. rewrite E.
  eexists tt, _. split; [reflexivity|]. set (q := p <| Ptd.mdpdreqd := _ |> <| Ptd.mdpdrespd := _ |> <| Ptd.ldisetd := _ |>).
  replace (ta <| Tasd.ptds ::= <[pi := q]> |>) with (put_globals pi (globals_of ta p) q ta) by (by destruct ta, p).
  eapply put_booted; [done|done|by eapply booted_calm|]. intros K. by apply (bo_info _ _ _ _ B pi p K).
Qed.

Lemma takes_information di md n pi : (pi < n)%nat ->
  takes (booted md n pi) (information_sm_init di pi) (booted md n (S pi)).
Proof.
  intros L. unfold information_sm_init. step; [by apply takes_painfd|]. step; [|apply takes_ret]. made_port.
Qed.

Lemma takes_sync di md n k pi : (pi < n)%nat -> takes (booted md n k) (sync_sm_init di pi) (booted md n k).
Proof.
  intros L. unfold sync_sm_init. step; [made_port|]. step; [made_port|]. step; [made_port|]. step; [|apply takes_ret].
  intros ta B. unfold on_mdssendd.
  match goal with |- context [on_port ?g ?p ?f pi ta] =>
    assert (T : takes (booted md n k) (on_port (R := unit) g p f pi) (booted md n k)) end; [|exact (T ta B)].
  apply takes_on_port; [done|done|]. intros g p C. by apply ssnd_init_calm.
Qed.

Lemma takes_announce di md n k pi : (pi < n)%nat -> takes (booted md n k) (announce_sm_init di pi) (booted md n k).
Proof.
  intros L. unfold announce_sm_init.
  step; [apply takes_on_port; [done|done|intros g p C; apply par_init_calm; [done|by destruct g]]|].
  step; [made_port|]. step; [made_port|].
  step; [apply takes_on_port; [done|done|intros g p C; split; [apply gcr_init_calm; [done|by destruct g]|done]]|].
  step; [made_port|apply takes_ret].
Qed.

Lemma takes_message di md n k pi : (pi < n)%nat -> takes (booted md n k) (message_sm_init di pi) (booted md n k).
Proof.
  intros L. unfold message_sm_init.
  step; [apply takes_on_port; [done|done|intros g p C; apply sis_init_calm; [done|by destruct g]]|].
  do 4 (step; [made_port|]). step; [made_port|apply takes_ret].
Qed.

Lemma takes_port_sm di md n pi : (pi < n)%nat -> takes (booted md n pi) (domain_port_sm_init di pi) (booted md n (S pi)).
Proof.
  intros L. unfold domain_port_sm_init. step; [by apply takes_information|]. destruct (Nat.eqb pi 0); [apply takes_ret|].
  step; [by apply takes_sync|]. step; [by apply takes_announce|by apply takes_message].
Qed.

(** *** A port *)

(** a further domain finds the ports of domain 0 *)
Definition first_ok (n : nat) (first : option gptpsm_tasd_t) : Prop :=
  match first with
  | None => True
  | Some t0 => length (Tasd.ptds t0) = n /\ forall i p, Tasd.ptds t0 !! i = Some p ->
                 PPGALL.asymmetryMeasurementMode (PPG.forAllDomain (Ptd.ppglb p)) = false
  end.

Lemma init_one_step_all i di p : PPG.forAllDomain (init_one_step i di p) = PPG.forAllDomain p.
Proof. unfold init_one_step. by destruct_cond. Qed.

Lemma new_port_new di first pi ta :
  match first with Some p0 => PPGALL.asymmetryMeasurementMode (PPG.forAllDomain (Ptd.ppglb p0)) = false | None => True end ->
  port_new (Ptd.ppglb (new_port di first pi ta)) (Ptd.bppglb (new_port di first pi ta)).
Proof.
  intros H. split; [|done]. unfold new_port. cbn [Ptd.ppglb upd]. unfold pp_glb_init. cbn.
  destruct (PTASG.perfmonEnable _); cbn; rewrite init_one_step_all; by destruct first.
Qed.

Lemma takes_port_globals di first md n pi : (pi < n)%nat -> first_ok n first ->
  takes (booted md pi pi) (port_globals_init di first pi) (booted md (S pi) pi).
Proof.
  intros L F ta [S1 L1 P1 I1 W1 M1].
  assert (G : forall o, match o with Some p0 => PPGALL.asymmetryMeasurementMode (PPG.forAllDomain (Ptd.ppglb p0)) = false | None => True end ->
    booted md (S pi) pi (ta <| Tasd.ptds ::= fun ps => ps ++ [new_port di o pi ta] |>)).
  { intros o O. split; [done| | | |done|done]; cbn.
    - rewrite length_app, L1. cbn. lia.
    - intros i p X. apply lookup_app_Some in X as [X|[_ X]]; [by eapply P1|]. apply list_lookup_singleton_Some in X as [_ <-]. by apply new_port_new.
    - intros i p K X. apply lookup_app_Some in X as [X|[Y X]]; [by eapply I1|]. lia. }
  unfold port_globals_init. destruct first as [t0|].
  - destruct F as [F1 F2]. destruct (lookup_lt_is_Some_2 (Tasd.ptds t0) pi) as [p0 E]; [by rewrite F1|]. rewrite E.
    eexists tt, _. split; [reflexivity|]. apply (G (Some p0)). by eapply F2.
  - eexists tt, _. split; [reflexivity|]. by apply (G None).
Qed.

Lemma takes_port mp di first md n pi : (pi < n)%nat -> first_ok n first ->
  takes (booted md pi pi) (gptpman_port_init mp di first pi) (booted md (S pi) (S pi)).
Proof.
  intros L F. unfold gptpman_port_init. step; [by eapply takes_port_globals|].
  step; [destruct (di =? 0); [apply takes_zero_port; lia|apply takes_ret]|].
  step; [apply takes_port_sm; lia|]. destruct (Nat.eqb pi 0); [apply takes_ret|]. step; [apply takes_pssextd; lia|apply takes_ret].
Qed.

(** ** A domain *)

Lemma same_clocks_booted md n k ta ta' : booted md n k ta -> Tasd.ptds ta' = Tasd.ptds ta -> Tasd.btasglb ta' = Tasd.btasglb ta ->
  same_run (Tasd.tasglb ta) (Tasd.tasglb ta') -> wf (GC.gcd (Tasd.clocks ta')) -> max_domains_of ta' = max_domains_of ta ->
  booted md n k ta'.
Proof.
  intros [(S1 & S2 & S3) L P I W M] Ep Eb (R1 & R2) W' M'. split; [|by rewrite Ep..|done|by rewrite M'].
  split; [by rewrite R1|]. split; [by rewrite R2|]. by rewrite Eb.
Qed.

Lemma takes_sssd di md n k :
  takes (booted md n k) (on_sssd (fun d => made (SSS.site_sync_sync_sm_init di (SSS.ptasg d) (SSS.gcd d)))) (booted md n k).
Proof.
  intros ta B. unfold on_sssd, made. cbn [SSS.ptasg SSS.gcd upd].
  change (SSS.ptasg (Tasd.sssd ta <| SSS.ptasg := Tasd.tasglb ta |> <| SSS.gcd := gcd_of ta |>)) with (Tasd.tasglb ta).
  change (SSS.gcd (Tasd.sssd ta <| SSS.ptasg := Tasd.tasglb ta |> <| SSS.gcd := gcd_of ta |>)) with (gcd_of ta).
  destruct (sss_init_site di (Tasd.tasglb ta) (gcd_of ta)) as [E1 E2]. revert E1 E2.
  generalize (SSS.site_sync_sync_sm_init di (Tasd.tasglb ta) (gcd_of ta)). intros d E1 E2. rewrite E1, E2.
  eexists None, _. split; [reflexivity|]. by apply (same_clocks_booted md n k ta); try apply B.
Qed.

(** all ports are made, PortStateSelection too *)
Definition up (md : Z) (n : nat) (ta : gptpsm_tasd_t) : Prop :=
  booted md n n ta /\ PSSEL.state (Tasd.pssd ta) = PSSEL.INIT /\ PSSEL.init_slave_ts (Tasd.pssd ta) = 0 /\
  PSSEL.max_ports (Tasd.pssd ta) = Z.of_nat n.

Lemma takes_selection_sm di md n : takes (booted md n n) (selection_sm_init n di) (up md n).
Proof.
  unfold selection_sm_init.
  step; [intros ta B; eexists None, _; split; [reflexivity|]; by apply (same_clocks_booted md n n ta); try apply B|].
  step; [|apply takes_ret]. intros ta B. unfold on_pssd, made, replayed. cbn [PSSEL.port_state_selection_sm_init].
  set (d := PSSEL.port_state_selection_sm_init di (Tasd.tasglb ta) (ppglbl ta) (Tasd.btasglb ta) (bppglbl ta) (Z.of_nat n) (gcd_of ta)).
  assert (X : put_ports (PSSEL.ppgl d) (PSSEL.bppgl d) (Tasd.ptds ta) = Tasd.ptds ta).
  { apply (put_ports_same (Tasd.ptds ta)); [done|]. intros i x y X Y. rewrite X in Y. apply Some_inj in Y. by subst. }
  exists None, (ta <| Tasd.tasglb := PSSEL.ptasg d |> <| Tasd.btasglb := PSSEL.bptasg d |> <| Tasd.pssd := d |>
    <| Tasd.ptds ::= put_ports (PSSEL.ppgl d) (PSSEL.bppgl d) |>). split; [by destruct ta|]. split; [|done].
  apply (same_clocks_booted md n n ta); [done|exact X|done|done|apply B|done].
Qed.

Context (alphas : PHASE_OFFSET_IIR_ALPHA_START_VALUE <> 0 /\ PHASE_OFFSET_IIR_ALPHA_STABLE_VALUE <> 0).

Lemma takes_cmsrecd di md n k :
  takes (booted md n k) (on_cmsrecd (fun s => CMSR.clock_master_sync_receive_sm_init di (CMSR.ptasg (sm s)) (ck s))) (booted md n k).
Proof.
  intros ta B. unfold on_cmsrecd, CMSR.clock_master_sync_receive_sm_init.
  match goal with |- context [CMSR.clock_master_sync_receive_sm ?x] => set (s0 := x) end.
  destruct (cmsr_same_run _ s0 (bo_wf _ _ _ _ B) alphas eq_refl) as (N & Sh & R). revert N Sh R.
  generalize (CMSR.clock_master_sync_receive_sm s0). intros [s o] N Sh R. destruct o as [r|]; [|done].
  eexists r, _. split; [reflexivity|]. cbn [fst] in Sh, R. apply (same_clocks_booted md n k ta); [done|done|done|exact R| |].
  - unfold wf in *. cbn. rewrite Sh. apply B.
  - exact (f_equal Sh.max_domains Sh).
Qed.

Lemma takes_clock_sm di md n k : takes (booted md n k) (clock_sm_init di) (booted md n k).
Proof.
  unfold clock_sm_init. step; [apply takes_sssd|].
  step; [intros ta B; eexists None, _; split; [reflexivity|]; by apply (same_clocks_booted md n k ta); try apply B|].
  step; [intros ta B; eexists None, _; split; [reflexivity|]; by apply (same_clocks_booted md n k ta); try apply B|].
  step; [apply takes_cmsrecd|].
  step; [intros ta B; eexists None, _; split; [reflexivity|]; by apply (same_clocks_booted md n k ta); try apply B|].
  apply takes_ret.
Qed.

Context (internal : forall di, u8 (get_yang EXTERNAL_PORT_CONFIG_ENABLE di) = VALUE_DISABLED).

Lemma takes_globals inst di md c : wf (GC.gcd c) -> Shm.max_domains (Gd.shm (GC.gcd c)) = md ->
  takes (fun ta => Tasd.clocks ta = c /\ Tasd.ptds ta = []) (domain_globals_init inst di) (booted md 0 0).
Proof.
  intros W M ta [C P]. eexists tt, _. split; [reflexivity|]. split; cbn; rewrite ?C, ?P; try done.
  - unfold ptas_glb_init. split; [by destruct_cond|]. split; [by destruct_cond|]. split; [apply internal|done].
  - unfold max_domains_of. cbn. by rewrite C.
Qed.

Lemma takes_domain inst n di first md c : wf (GC.gcd c) -> Shm.max_domains (Gd.shm (GC.gcd c)) = md -> first_ok n first ->
  takes (fun ta => Tasd.clocks ta = c /\ Tasd.ptds ta = []) (domain_init inst n di first) (up md n).
Proof.
  intros W M F. unfold domain_init. step; [by apply (takes_globals inst di md c)|]. step; [apply takes_clock_sm|].
  step; [|apply takes_selection_sm].
  apply (takes_ports (fun i => booted md i i)). intros i L. by apply (takes_port n di first md n i).
Qed.
End Ports.

(** ** The clocks *)

Section Clocks.
Import Start.
Context `{DEV : PtpDev} `{CV : Conversions} `{CF : Config} `{MC : ManConfig} `{SU : Startup}.
#[local] Set Default Proof Using "All".

Definition clocks_ok (md : Z) (c : GC.st) : Prop := wf (GC.gcd c) /\ Shm.max_domains (Gd.shm (GC.gcd c)) = md.

(** the operation returns and keeps the clocks well formed *)
Definition clock_safe {A} (md : Z) (m : GC.M A) : Prop :=
  forall c, clocks_ok md c -> exists a c', m c = Some (a, c') /\ clocks_ok md c'.

Lemma clock_safe_bind {A B} md (m : GC.M A) (f : A -> GC.M B) : clock_safe md m -> (forall a, clock_safe md (f a)) -> clock_safe md (m ≫= f).
Proof.
  intros H1 H2 c C. destruct (H1 c C) as (a & c1 & E1 & C1). destruct (H2 a c1 C1) as (b & c2 & E2 & C2).
  exists b, c2. split; [|done]. by rewrite (bind_run _ _ _ _ _ E1).
Qed.

Lemma clock_safe_ret {A} md (a : A) : clock_safe md (mret a).
Proof. intros c C. by exists a, c. Qed.

Lemma clock_safe_ok {A} md (m : GC.M A) : (forall sh, wf_shape sh -> ok sh m any) -> clock_safe md m.
Proof.
  intros H c [W M]. destruct (H _ W c eq_refl) as (a & c' & E & Sh & _). exists a, c'. split; [done|]. split.
  - unfold wf in *. by rewrite Sh.
  - rewrite <- M. exact (f_equal Sh.max_domains Sh).
Qed.

Lemma clock_safe_add_clock md ci dev di id : 0 <= di < md -> clock_safe md (GC.gptpclock_add_clock ci dev di id).
Proof.
  intros D c [W M]. destruct (add_clock_shape _ ci dev di id c W) as (r & c' & E & R); [|done|].
  { unfold domain. cbn. by rewrite M. }
  exists r, c'. split; [done|]. unfold clocks_ok. change (Shm.max_domains (Gd.shm (GC.gcd c'))) with (Sh.max_domains (shape (GC.gcd c'))).
  unfold wf. destruct R as [(_ & -> & N & L)|(_ & [->|[-> L]])]; cbn [Sh.max_domains grow ungrow].
  - split; [apply wf_grow|]; try done. unfold domain. cbn. by rewrite M.
  - done.
  - split; [apply wf_ungrow|]; try done. unfold domain. cbn. by rewrite M.
Qed.

(** the index of a port, or of a clock that has one *)
Definition a_port (i : Z) : Prop := 1 <= i <= Z.of_nat (length netdevices).

Lemma clock_safe_netdevice {A} md i (f : Ndev.netdevice_t -> GC.M A) : a_port i -> (forall d, clock_safe md (f d)) ->
  clock_safe md (netdevice (i - 1) ≫= f).
Proof.
  unfold a_port. intros I H. apply clock_safe_bind; [|done]. intros c C. unfold netdevice. rewrite (proj2 (Z.ltb_ge _ _)) by lia.
  destruct (lookup_lt_is_Some_2 netdevices (Z.to_nat (i - 1))) as [d E]; [lia|]. rewrite E. by exists d, c.
Qed.

Lemma clock_safe_ptpdev md i : a_port i -> clock_safe md (gptpnet_ptpdev (i - 1)).
Proof. intros I. apply clock_safe_netdevice; [done|]. intros d. apply clock_safe_ret. Qed.

Lemma clock_safe_clkid md i di : a_port i -> clock_safe md (gptpnet_create_clockid (i - 1) di).
Proof. intros I. apply clock_safe_netdevice; [done|]. intros d. apply clock_safe_ret. Qed.

Lemma clock_safe_add_clocks md di tci n i : 0 <= di < md -> 1 <= i -> i + Z.of_nat n <= Z.of_nat (length netdevices) + 1 ->
  clock_safe md (add_clocks di tci n i).
Proof.
  intros D. revert i. induction n as [|n IH]; intros i I1 I2; cbn [add_clocks]; [apply clock_safe_ret|].
  assert (N : clock_safe md (add_clocks di tci n (i + 1))) by (apply IH; lia).
  assert (P : a_port i) by (unfold a_port; lia).
  destruct (_ && _); [done|]. apply clock_safe_bind; [by apply clock_safe_ptpdev|]. intros dev. destruct (bool_decide _); [done|].
  apply clock_safe_bind; [by apply clock_safe_clkid|]. intros id. apply clock_safe_bind; [by apply clock_safe_add_clock|]. intros r.
  destruct (r =? 0); [done|apply clock_safe_ret].
Qed.

(** the loop over the clocks stays in the array *)
Lemma clock_safe_all_clocks md di tci : 0 <= di < md -> (1 <= length netdevices)%nat ->
  clock_safe md (add_clocks di tci (Z.to_nat ((if SINGLE_CLOCK_MODE =? 0 then Z.of_nat (S (length netdevices)) else 2) - 1)) 1).
Proof. intros D N. apply clock_safe_add_clocks; [done|lia|]. destruct (SINGLE_CLOCK_MODE =? 0); lia. Qed.

Lemma clock_safe_domain_clock md di tci : 0 <= di < md -> a_port tci ->
  clock_safe md (init_domain_clock (Z.of_nat (S (length netdevices))) di tci).
Proof.
  intros D P. unfold init_domain_clock. apply clock_safe_bind; [apply clock_safe_all_clocks; [done|unfold a_port in P; lia]|]. intros r.
  destruct (negb (r =? 0)); [apply clock_safe_ret|]. apply clock_safe_bind; [by apply clock_safe_clkid|]. intros id.
  apply clock_safe_bind; [by apply clock_safe_ptpdev|]. intros dev.
  apply clock_safe_bind; [by apply clock_safe_add_clock|]. intros r'. apply clock_safe_ret.
Qed.

(** with a clock index outside the array the clocks of the domain are not made *)
Lemma domain_clock_outside mp di tci c r c' : ~ a_port tci -> init_domain_clock mp di tci c = Some (r, c') -> r = -1.
Proof.
  intros O. unfold init_domain_clock, mbind at 1, GC.M_bind at 1. destruct (add_clocks _ _ _ _ c) as [[r1 c1]|]; [|done].
  destruct (negb (r1 =? 0)); [by intros [= <- _]|]. unfold gptpnet_create_clockid, netdevice, mbind, GC.M_bind.
  destruct (Z.ltb_spec (tci - 1) 0); [done|]. by rewrite lookup_ge_None_2 by (unfold a_port in O; lia).
Qed.

Lemma clock_safe_settime_str md t ci di : clock_safe md (gptpclock_settime_str t ci di).
Proof.
  unfold gptpclock_settime_str. apply clock_safe_bind.
  - unfold init_time_ts. destruct t; [|apply clock_safe_ret..].
    apply clock_safe_bind; [|intros ts; apply clock_safe_ret]. apply clock_safe_ok. intros sh W. by apply ok_act.
  - intros [ts|]; [|apply clock_safe_ret]. apply clock_safe_bind; [|intros r; apply clock_safe_ret]. apply clock_safe_ok. intros sh W. by apply ok_setts64.
Qed.

Lemma clock_safe_clockid md ci di : clock_safe md (GC.gptpclock_clockid ci di).
Proof. apply clock_safe_ok. intros sh W. unfold GC.gptpclock_clockid. ok_auto. Qed.
End Clocks.

(** ** The instance *)

Section Instance.
Import Gpm Start.
Context `{DEV : PtpDev} `{CV : Conversions} `{CF : Config} `{SC : ServoConfig} `{PL : Platform}
  `{WC : WireConfig} `{ME : Media} `{PD : PerfDb} `{HO : HostOrder} `{MC : ManConfig} `{GCFG : Gptpgcfg} `{SU : Startup}.
Context (alphas : PHASE_OFFSET_IIR_ALPHA_START_VALUE <> 0 /\ PHASE_OFFSET_IIR_ALPHA_STABLE_VALUE <> 0).
Context (internal : forall di, u8 (get_yang EXTERNAL_PORT_CONFIG_ENABLE di) = VALUE_DISABLED).
#[local] Set Default Proof Using "All".

Lemma takes_clocks {A} md n (m : GC.M A) : clock_safe md m -> takes (up md n) (Man.on_clocks m) (up md n).
Proof.
  intros H ta (B & U). destruct (H (Tasd.clocks ta) (conj (bo_wf _ _ _ _ B) (bo_max _ _ _ _ B))) as (a & c & E & W & M).
  exists a, (ta <| Tasd.clocks := c |>). split; [unfold Man.on_clocks; by rewrite E|]. split; [|exact U].
  destruct B as [S L P I W0 M0]. by split.
Qed.

Lemma takes_tasglb md n f : (forall g, same_run g (f g)) -> takes (up md n) (Man.on_tasglb f) (up md n).
Proof.
  intros F ta (B & U). exists tt, (ta <| Tasd.tasglb ::= f |>). split; [done|]. split; [|exact U].
  apply (same_clocks_booted md n n ta); try done; try apply B; try apply F.
Qed.

Lemma takes_time md n di tci tm : takes (up md n) (domain_time_init di tci tm) (up md n).
Proof.
  unfold domain_time_init. eapply takes_bind; [|intros ?; eapply takes_bind; [|intros ?]].
  - unfold set_domain_thisClock. eapply takes_bind; [by apply takes_tasglb|intros ?].
    eapply takes_bind; [apply takes_clocks, clock_safe_ok; intros sh W; by apply ok_set_thisClock|intros ?].
    eapply takes_bind; [apply takes_clocks, clock_safe_ok; intros sh W; by apply ok_setadj|intros ?].
    eapply takes_bind; [apply takes_clocks, clock_safe_clockid|intros [id|]; [|apply takes_ret]].
    eapply takes_bind; [by apply takes_tasglb|intros ?; apply takes_ret].
  - destruct tm as [t|]; [|apply takes_ret].
    eapply takes_bind; [apply takes_clocks, clock_safe_ok; intros sh W; by apply ok_setadj|intros ?].
    eapply takes_bind; [apply takes_clocks, clock_safe_settime_str|intros ?; apply takes_ret].
  - intros ta (B & U). eexists tt, _. split; [reflexivity|]. split; [|exact U].
    destruct B as [(S1 & S2 & S3 & S4) L P I W M]. split; try done. unfold bmcs_ptas_glb_update. cbn.
    split; [done|]. split; [done|]. by destruct (int_true _).
Qed.

(** *** Domains that are up *)

Definition all_up (md : Z) (n : nat) (s : gptpman_data) : Prop :=
  is_Some (domain s 0) /\ forall di t, domain s di = Some t -> up md n t.

Lemma share_up md n t0 t : up md n t0 -> up md n t -> up md n (share t0 t).
Proof.
  intros ([S0 L0 P0 I0 W0 M0] & U0) ([S L P I W M] & U). split; [|exact U]. rewrite share_eq. split; cbn; try done.
  - unfold ports_with. by rewrite length_imap.
  - intros i p. unfold ports_with. rewrite list_lookup_imap. destruct (Tasd.ptds t !! i) as [q|] eqn:E; [|done]. cbn.
    intros X. apply Some_inj in X. subst p. specialize (P i q E). destruct (Tasd.ptds t0 !! i) as [q0|] eqn:E0; [|done].
    destruct (P0 i q0 E0) as [Y _]. destruct P as (_ & P). by split.
  - intros i p K. unfold ports_with. rewrite list_lookup_imap. destruct (Tasd.ptds t !! i) as [q|] eqn:E; [|done]. cbn.
    intros X. apply Some_inj in X. subst p. specialize (I i q K E). by destruct (Tasd.ptds t0 !! i).
Qed.

Definition same_domains (s s' : gptpman_data) : Prop :=
  length (tasds s') = length (tasds s) /\ forall di, is_Some (domain s' di) <-> is_Some (domain s di).

Lemma put_up md n s di t : all_up md n s -> is_Some (domain s di) -> up md n t ->
  all_up md n (put_domain di t s) /\ same_domains s (put_domain di t s).
Proof.
  intros [Z A] D U. destruct (domain_put s di t D) as [Ds Do]. split; [split|split].
  - destruct (decide (di = 0%nat)) as [->|N]; [rewrite Ds; by eexists|by rewrite Do].
  - intros dj u. destruct (decide (dj = di)) as [->|N]; [rewrite Ds; intros X; apply Some_inj in X; by subst|rewrite Do by done; apply A].
  - cbn. apply length_insert.
  - intros dj. destruct (decide (dj = di)) as [->|N]; [rewrite Ds; split; [done|by eexists]|by rewrite Do].
Qed.

Lemma same_domains_trans a b c : same_domains a b -> same_domains b c -> same_domains a c.
Proof. intros [L1 D1] [L2 D2]. split; [congruence|]. intros di. rewrite D2. apply D1. Qed.

Lemma at_domain_up {A} md n di (m : Man.M A) s : takes (up md n) m (up md n) -> all_up md n s -> is_Some (domain s di) ->
  exists a s', at_domain di m s = Some (a, s') /\ all_up md n s' /\ same_domains s s'.
Proof.
  intros T U [t E]. pose proof U as [[t0 E0] Al]. unfold at_domain. rewrite E0, E.
  destruct (T (share t0 t)) as (a & t' & R & Ut); [apply share_up; eapply Al; done|]. rewrite R.
  destruct (Nat.eqb_spec di 0) as [->|N].
  - exists a, (put_domain 0 t' s). split; [done|]. apply put_up; [done|by eexists|done].
  - destruct (put_up md n s 0 (share t' t0) U) as [U1 D1]; [by eexists|apply share_up; [done|by eapply Al]|].
    destruct (put_up md n (put_domain 0 (share t' t0) s) di t' U1) as [U2 D2]; [apply D1; by eexists|done|].
    eexists a, _. split; [reflexivity|]. split; [exact U2|by eapply same_domains_trans].
Qed.

(** *** The domains are made *)

Lemma domain_empty di md tick : domain (Gpm.mk (replicate md None) tick) di = None.
Proof. unfold domain. cbn. destruct (replicate md None !! di) as [o|] eqn:E; [|done]. apply lookup_replicate in E as [-> _]. done. Qed.

(** domain 0 *)
Lemma domain0_made inst n md tick c : 0 < md -> clocks_ok md c ->
  exists s, gptpman_domain_init inst n c 0 (Gpm.mk (replicate (Z.to_nat md) None) tick) = Some (0, s) /\ all_up md n s /\
    length (tasds s) = Z.to_nat md /\ forall di, di <> 0%nat -> domain s di = None.
Proof.
  intros M [W X]. unfold gptpman_domain_init, place. cbn [tasds]. rewrite length_replicate.
  change (u8 0 =? 0) with true. rewrite (proj2 (Nat.ltb_lt _ _)) by lia. cbn [Nat.eqb].
  set (s0 := Gpm.mk (replicate (Z.to_nat md) None) tick).
  assert (Ic : instance_clocks c s0 = c) by (unfold instance_clocks, s0; by rewrite domain_empty). rewrite Ic.
  set (s1 := put_domain 0 (no_domain c) s0).
  assert (D0 : domain s1 0 = Some (no_domain c)).
  { unfold domain, s1, s0. cbn. rewrite list_lookup_insert_eq; [done|]. rewrite length_replicate. lia. }
  assert (Dn : forall di, di <> 0%nat -> domain s1 di = None).
  { intros di N. unfold domain, s1. cbn. rewrite list_lookup_insert_ne by done. apply (domain_empty di (Z.to_nat md) tick). }
  destruct (takes_domain alphas internal inst n 0 None md c W X I (share (no_domain c) (no_domain c))) as (a & t & E & U); [done|].
  assert (R : at_domain 0 (domain_init inst n 0 None) s1 = Some (a, put_domain 0 t s1)).
  { unfold at_domain. rewrite D0, E. done. }
  exists (put_domain 0 t s1). split; [|split; [split|split]].
  - unfold mbind, M_bind. change (Z.of_nat 0) with 0. by rewrite R.
  - destruct (domain_put s1 0 t) as [-> _]; [by rewrite D0|by eexists].
  - destruct (domain_put s1 0 t) as [Ds Do]; [by rewrite D0|]. intros di u.
    destruct (decide (di = 0%nat)) as [->|N]; [rewrite Ds; intros Y; apply Some_inj in Y; by subst|by rewrite Do, Dn].
  - cbn. by rewrite !length_insert, length_replicate.
  - destruct (domain_put s1 0 t) as [Ds Do]; [by rewrite D0|]. intros di N. by rewrite Do, Dn.
Qed.

(** another one, in the place after it *)
Lemma domain1_made inst n md c d s : u8 d <> 0 -> (2 <= length (tasds s))%nat -> all_up md n s -> domain s 1 = None ->
  exists s', gptpman_domain_init inst n c d s = Some (0, s') /\ all_up md n s' /\ is_Some (domain s' 1) /\
    forall di, di <> 1%nat -> is_Some (domain s' di) -> is_Some (domain s di).
Proof.
  intros Nz L [[t0 E0] A] E1. pose proof (A _ _ E0) as U0. unfold gptpman_domain_init, place. rewrite (proj2 (Z.eqb_neq _ _) Nz).
  assert (F : free_place (u8 d) 1 (drop 1 (tasds s)) = Some 1%nat).
  { unfold domain in E1. destruct (tasds s) as [|x [|y l]]; cbn in *; [lia..|]. by destruct y. }
  rewrite F. cbn [Nat.eqb]. rewrite E0. change (Z.of_nat 1) with 1.
  assert (Ic : instance_clocks c s = Tasd.clocks t0) by (unfold instance_clocks; by rewrite E0). rewrite Ic.
  set (x := no_domain (Tasd.clocks t0)). set (s1 := put_domain 1 x s).
  assert (D1 : domain s1 1 = Some x) by (unfold domain, s1; cbn; by rewrite list_lookup_insert_eq by lia).
  assert (Do : forall di, di <> 1%nat -> domain s1 di = domain s di).
  { intros di N. unfold domain, s1. cbn. by rewrite list_lookup_insert_ne. }
  assert (D0 : domain s1 0 = Some t0) by (by rewrite Do).
  destruct (takes_domain alphas internal inst n 1 (Some t0) md (Tasd.clocks t0) (bo_wf _ _ _ _ (proj1 U0)) (bo_max _ _ _ _ (proj1 U0)))
    with (ta := share t0 x) as (a & t & E & U); [|done|].
  { split; [apply U0|]. intros i p X. by apply (bo_port _ _ _ _ (proj1 U0) i p X). }
  pose (z := put_domain 0 (share t t0) s1).
  assert (R : at_domain 1 (domain_init inst n 1 (Some t0)) s1 = Some (a, put_domain 1 t z)).
  { unfold at_domain. rewrite D0, D1, E. done. }
  destruct (domain_put s1 0 (share t t0)) as [Zs Zo]; [by rewrite D0|]. fold z in Zs, Zo.
  destruct (domain_put z 1 t) as [Ys Yo]; [by rewrite Zo, D1|].
  exists (put_domain 1 t z). split; [|split; [split|split]].
  - unfold mbind, M_bind. by rewrite R.
  - rewrite Yo, Zs by done. by eexists.
  - intros di u. destruct (decide (di = 1%nat)) as [->|N1]; [rewrite Ys; intros Y; apply Some_inj in Y; by subst|].
    rewrite Yo by done. destruct (decide (di = 0%nat)) as [->|N0].
    + rewrite Zs. intros Y. apply Some_inj in Y. subst. by apply share_up.
    + rewrite Zo, Do by done. apply A.
  - rewrite Ys. by eexists.
  - intros di N1. rewrite Yo by done. destruct (decide (di = 0%nat)) as [->|N0]; [by rewrite E0|by rewrite Zo, Do].
Qed.

Lemma clocks_and_time inst md c di tci tm s s1 : let n := S (length netdevices) in 0 <= di < md -> a_port tci ->
  gptpman_domain_init inst n c di s = Some (0, s1) -> all_up md n s1 -> is_Some (domain s1 (Z.to_nat di)) ->
  exists r s', start_domain inst n c di tci tm s = Some (r, s') /\ all_up md n s' /\ same_domains s1 s' /\ (r = 0 \/ r = -1).
Proof.
  intros n D Pt E U Dd. unfold start_domain. rewrite (gbind_run _ _ _ _ _ E). cbn [Z.eqb negb].
  destruct (at_domain_up md n 0 (Man.on_clocks (init_domain_clock (Z.of_nat n) di tci)) s1) as (r & s2 & E2 & U2 & D2);
    [by apply takes_clocks, clock_safe_domain_clock|done|apply U|].
  rewrite (gbind_run _ _ _ _ _ E2). destruct (negb (r =? 0)).
  { exists (-1), s2. split; [done|]. split; [done|]. split; [done|by right]. }
  destruct (at_domain_up md n (Z.to_nat di) (domain_time_init di tci tm) s2) as (a & s3 & E3 & U3 & D3);
    [apply takes_time|done|by apply D2|].
  rewrite (gbind_run _ _ _ _ _ E3). exists 0, s3. split; [done|]. split; [done|]. split; [by eapply same_domains_trans|by left].
Qed.

(** *** The best-master machines of a domain that is up *)

Context (now : INITIAL_SLAVE_TIME = 0).

Lemma up_ready md n t pi : up md n t -> (1 <= pi < n)%nat -> (n <= XL4_DATA_ABS_MAX_NETDEVS)%nat -> exists p, bmcs_ready pi t p.
Proof.
  intros ([S L P I W M] & U1 & U2 & U3) Hp Hn. destruct (lookup_lt_is_Some_2 (Tasd.ptds t) pi) as [p E]; [lia|]. exists p.
  destruct S as (S1 & S2 & S3 & S4 & S5), (P pi p E) as (A & Pi & Pu & Pr), (I pi p ltac:(lia) E) as (I1 & I2 & I3).
  split; [done|done| | | |by left| |done].
  - done.
  - split.
    + unfold PAI.in_range, in_array. split; cbn; rewrite I1, ?S4, ?S5; lia.
    + intros X. exfalso. revert X. cbn. by rewrite Pr, I2.
    + split; [cbn; by rewrite I2|]. split; [done|]. split; [intros _; left; done|]. split; [cbn; by rewrite I2|].
      cbn. by rewrite Pu.
    + cbn. congruence.
    + cbn. rewrite I2. by left.
  - split; [done|]. split; [done|]. split; [done|]. cbn. lia.
  - rewrite U3. unfold PSSEL.NETDEVS. lia.
Qed.

Lemma seen_up md n s di t : all_up md n s -> seen s di = Some t -> up md n t.
Proof.
  intros [[t0 E0] A] E. unfold seen in E. rewrite E0 in E. cbn in E. destruct (domain s di) as [u|] eqn:D; [|done].
  apply Some_inj in E. subst. apply share_up; by eapply A.
Qed.

(** C13. The start of an instance with 1 to 14 network devices and up to 256 domains returns 0 or -1, when the
    clock index of the first domain, and of the second one if it is configured, is that of a port: the
    array of the network devices is then used only where it has devices ([this_clock_not_checked] tells
    what another index of the first domain does).  After 0 domain 0 is there, and in every domain that was made the best-master
    machines of every port are as [bmcs_ends] asks for, so that sm_bmcs_perform can be called on each
    (without a static slave port).  No domain has external port configuration, INITIAL_SLAVE_TIME is 0, no
    value of PHASE_OFFSET_IIR_ALPHA is 0, and the second domain, when one is configured, has the number 1. *)
Theorem start_makes_ready inst md tick w tm : let nd := length netdevices in 0 < md <= 256 -> (1 <= nd < 15)%nat ->
  a_port FIRST_DOMAIN_THIS_CLOCK ->
  SECOND_DOMAIN_THIS_CLOCK < 0 \/ (a_port SECOND_DOMAIN_THIS_CLOCK /\ u8 SECOND_DOMAIN_NUMBER = 1 /\ 2 <= md) ->
  exists r s, gptpman_start inst md tick w tm = Some (r, s) /\ (r = 0 \/ r = -1) /\
    (r = 0 -> is_Some (seen s 0) /\
       forall di t pi, seen s di = Some t -> (1 <= pi <= nd)%nat -> exists p, bmcs_ready pi t p).
Proof.
  intros nd Hm Hn First Sec. unfold gptpman_start. fold nd. rewrite (proj2 (Z.eqb_neq _ _)) by lia.
  rewrite (proj2 (Nat.leb_gt _ _)) by (unfold XL4_DATA_ABS_MAX_NETDEVS; lia). cbn [orb].
  set (c := GC.mkst _ w []). set (s0 := Gpm.mk _ tick).
  assert (C : clocks_ok md c) by (split; [by apply wf_init|done]).
  assert (Fin : forall s, all_up md (S nd) s -> is_Some (seen s 0) /\
    forall di t pi, seen s di = Some t -> (1 <= pi <= nd)%nat -> exists p, bmcs_ready pi t p).
  { intros s U. split.
    - destruct U as [[t0 E0] _]. unfold seen. rewrite E0. cbn. by eexists.
    - intros di t pi E Hp. eapply up_ready; [by eapply seen_up|lia|unfold XL4_DATA_ABS_MAX_NETDEVS; lia]. }
  destruct (domain0_made inst (S nd) md tick c) as (s1 & E1 & U1 & L1 & N1); [lia|done|].
  destruct (clocks_and_time inst md c 0 FIRST_DOMAIN_THIS_CLOCK tm s0 s1 ltac:(lia) First E1 U1 (proj1 U1)) as (r & s2 & E2 & U2 & D2 & R).
  unfold static_domains_init. rewrite (gbind_run _ _ _ _ _ E2). destruct R as [->| ->]; [|by exists (-1), s2; split; [|split; [by right|]]].
  cbn [Z.eqb negb]. destruct (proj1 U2) as [t0 E0]. pose proof (proj2 D2) as Sd.
  set (s3 := s2 <| tout := fold_left (port_tick (tout s2)) (drop 1 (Tasd.ptds t0)) (tout s2) |>).
  assert (E3 : domain0_tick s2 = Some (tt, s3)) by (unfold domain0_tick; by rewrite E0). rewrite (gbind_run _ _ _ _ _ E3).
  assert (U3 : all_up md (S nd) s3) by exact U2.
  destruct (Z.ltb_spec SECOND_DOMAIN_THIS_CLOCK 0).
  { exists 0, s3. split; [done|]. split; [by left|]. intros _. by apply Fin. }
  destruct Sec as [?|(Second & Sn & M2)]; [lia|]. unfold md_domain_number2index. rewrite Sn.
  destruct (domain1_made inst (S nd) md c 1 s3) as (s4 & E4 & U4 & D4 & _); [done| |done| |].
  - change (tasds s3) with (tasds s2). rewrite (proj1 D2), L1. lia.
  - change (domain s3 1) with (domain s2 1). destruct (domain s2 1) as [x|] eqn:X; [|done].
    assert (Y : is_Some (domain s1 1)) by (apply Sd; by rewrite X). rewrite N1 in Y by done. by destruct Y.
  - destruct (clocks_and_time inst md c 1 SECOND_DOMAIN_THIS_CLOCK tm s3 s4 ltac:(lia) Second E4 U4 D4) as (r & s5 & E5 & U5 & D5 & R).
    exists r, s5. split; [exact E5|]. split; [done|]. intros _. by apply Fin.
Qed.

(** *** A second domain with another number *)

(** no operation on a domain makes another one *)
Lemma at_domain_exists {A} di (m : Man.M A) s a s' dj : at_domain di m s = Some (a, s') -> is_Some (domain s' dj) -> is_Some (domain s dj).
Proof.
  unfold at_domain. destruct (domain s 0) as [t0|] eqn:E0; [|done]. destruct (domain s di) as [t|] eqn:E; [|done].
  destruct (m (share t0 t)) as [[a' t']|]; [|done]. destruct (Nat.eqb_spec di 0) as [->|N]; intros X; apply Some_inj in X; injection X as _ <-.
  - destruct (domain_put s 0 t') as [Ds Do]; [by rewrite E0|]. destruct (decide (dj = 0%nat)) as [->|Nj]; [by rewrite E0|by rewrite Do].
  - destruct (domain_put s 0 (share t' t0)) as [Ds Do]; [by rewrite E0|].
    destruct (domain_put (put_domain 0 (share t' t0) s) di t') as [Es Eo]; [by rewrite Do, E|].
    destruct (decide (dj = di)) as [->|Nj]; [by rewrite E|]. rewrite Eo by done.
    destruct (decide (dj = 0%nat)) as [->|Nz]; [by rewrite E0|by rewrite Do].
Qed.

(** The second domain is put in the place after domain 0, but its clocks and its time are set for the domain at
    the place of its number: with a number other than 0 and 1 the start never succeeds. *)
Theorem second_number_is_place inst md tick w tm r s : 2 <= md <= 256 -> (1 <= length netdevices < 15)%nat -> a_port FIRST_DOMAIN_THIS_CLOCK ->
  0 <= SECOND_DOMAIN_THIS_CLOCK -> 2 <= u8 SECOND_DOMAIN_NUMBER ->
  gptpman_start inst md tick w tm = Some (r, s) -> r = -1.
Proof.
  set (nd := length netdevices). intros Hm Hn First Sc Sn. unfold gptpman_start. fold nd. rewrite (proj2 (Z.eqb_neq _ _)) by lia.
  rewrite (proj2 (Nat.leb_gt _ _)) by (unfold XL4_DATA_ABS_MAX_NETDEVS; lia). cbn [orb].
  set (c := GC.mkst _ w []). set (s0 := Gpm.mk _ tick).
  assert (C : clocks_ok md c) by (split; [apply wf_init; lia|done]).
  destruct (domain0_made inst (S nd) md tick c) as (s1 & E1 & U1 & L1 & N1); [lia|done|].
  destruct (clocks_and_time inst md c 0 FIRST_DOMAIN_THIS_CLOCK tm s0 s1 ltac:(lia) First E1 U1 (proj1 U1)) as (r1 & s2 & E2 & U2 & D2 & R).
  unfold static_domains_init. rewrite (gbind_run _ _ _ _ _ E2). destruct R as [->| ->]; [|by intros [= <-]].
  cbn [Z.eqb negb]. destruct (proj1 U2) as [t0 E0]. pose proof (proj2 D2) as Sd.
  set (s3 := s2 <| tout := fold_left (port_tick (tout s2)) (drop 1 (Tasd.ptds t0)) (tout s2) |>).
  assert (E3 : domain0_tick s2 = Some (tt, s3)) by (unfold domain0_tick; by rewrite E0). rewrite (gbind_run _ _ _ _ _ E3).
  assert (U3 : all_up md (S nd) s3) by exact U2.
  assert (N3 : forall di, di <> 0%nat -> ~ is_Some (domain s3 di)).
  { intros di N X. apply Sd in X. rewrite N1 in X by done. by destruct X. }
  rewrite (proj2 (Z.ltb_ge _ _)) by lia. unfold md_domain_number2index, start_domain.
  set (d := u8 SECOND_DOMAIN_NUMBER) in *. assert (Ud : u8 d = d) by (apply wrap_id; unfold d, u8; apply wrap_fits; lia).
  destruct (domain1_made inst (S nd) md c d s3) as (s4 & E4 & U4 & _ & X4); [rewrite Ud; lia| |done| |].
  { change (tasds s3) with (tasds s2). rewrite (proj1 D2), L1. lia. }
  { destruct (domain s3 1) eqn:X; [|done]. destruct (N3 1%nat); [done|by rewrite X]. }
  rewrite (gbind_run _ _ _ _ _ E4). cbn [Z.eqb negb]. unfold mbind at 1, M_bind at 1.
  destruct (at_domain 0 _ s4) as [[r5 s5]|] eqn:E5; [|done]. destruct (negb (r5 =? 0)); [by intros [= <-]|].
  unfold mbind, M_bind. assert (Nd : domain s5 (Z.to_nat d) = None).
  { destruct (domain s5 (Z.to_nat d)) eqn:X; [|done]. exfalso. apply (N3 (Z.to_nat d)); [lia|].
    apply X4; [lia|]. apply (at_domain_exists _ _ _ _ _ _ E5). by rewrite X. }
  unfold at_domain at 1. rewrite Nd. by destruct (domain s5 0).
Qed.

(** *** A clock index that is that of no port *)

Lemma clocks_outside {A} tci mp di s (f : Z -> M A) r s' : ~ a_port tci ->
  (r0 ← at_domain 0 (Man.on_clocks (init_domain_clock mp di tci)); if negb (r0 =? 0) then mret (-1) else (_ ← f r0; mret 0)) s = Some (r, s') -> r = -1.
Proof.
  intros O. unfold mbind at 1, M_bind at 1. destruct (at_domain 0 _ s) as [[r1 s1]|] eqn:E; [|done].
  destruct (Z.eqb_spec r1 0) as [->|N]; cbn [negb]; [|by intros [= <-]]. exfalso. revert E. unfold at_domain.
  destruct (domain s 0) as [t0|]; [|done]. unfold Man.on_clocks.
  destruct (init_domain_clock _ _ _ _) as [[r2 c2]|] eqn:E2; [|done]. apply domain_clock_outside in E2; [|done]. subst r2.
  destruct (Nat.eqb 0 0); by intros [=].
Qed.

(** The index of the clock of the first domain is not checked: when it is that of no port the start never
    succeeds; if the clocks of the ports could be made, it reads outside the array of the network devices. *)
Theorem this_clock_not_checked inst md tick w tm r s : 0 < md <= 256 -> (1 <= length netdevices < 15)%nat ->
  ~ a_port FIRST_DOMAIN_THIS_CLOCK -> gptpman_start inst md tick w tm = Some (r, s) -> r = -1.
Proof.
  set (nd := length netdevices). intros Hm Hn First. unfold gptpman_start. fold nd. rewrite (proj2 (Z.eqb_neq _ _)) by lia.
  rewrite (proj2 (Nat.leb_gt _ _)) by (unfold XL4_DATA_ABS_MAX_NETDEVS; lia). cbn [orb].
  set (c := GC.mkst _ w []). assert (C : clocks_ok md c) by (split; [apply wf_init; lia|done]).
  destruct (domain0_made inst (S nd) md tick c) as (s1 & E1 & _); [lia|done|].
  unfold static_domains_init, mbind at 1, M_bind at 1.
  destruct (start_domain _ _ _ _ _ _ _) as [[r1 s2]|] eqn:E; [|done]. assert (R : r1 = -1).
  { revert E. unfold start_domain. rewrite (gbind_run _ _ _ _ _ E1). cbn [Z.eqb negb].
    apply (clocks_outside FIRST_DOMAIN_THIS_CLOCK _ 0 s1 (fun _ => at_domain (Z.to_nat 0) (domain_time_init 0 FIRST_DOMAIN_THIS_CLOCK tm)) r1 s2 First). }
  subst r1. by intros [= <-].
Qed.
End Instance.

(** ** Witness *)

Module StartupWitness.
Import ClockWitness ClockSyncWitness BestMasterWitness.
#[local] Existing Instances conversions0 ClockWitness.dev servo0 platform0 config5 media0 little_endian.
#[local] Instance wire7 : WireConfig := {| MINOR_VERSION_NUMBER := fun _ => 1; PTP_TIMESCALE := 1; MODE_8021_AS_2011 := false |}.
#[local] Instance perf7 : PerfDb := {| perf_result := fun _ => 0 |}.
#[local] Instance man7 : ManConfig := {|
  SINGLE_CLOCK_MODE := 0; MESSAGE_INTERVAL_REQ_LOGSYNC := 127; MESSAGE_INTERVAL_REQ_LOGANNOUNCE := 127;
  MESSAGE_INTERVAL_REQ_LOGLINKDELAY := 127 |}.
#[local] Instance items7 : Gptpgcfg := {|
  get_portds i _ _ := match i with LOG_SYNC_INTERVAL => -3 | PORT_ENABLE => 1 | SYNC_RECEIPT_TIMEOUT => 3 | _ => 0 end;
  get_yang i _ := match i with PRIORITY1_DS => 248 | _ => 0 end;
  get_item _ := 0; ingress_latency _ _ := 0; egress_latency _ _ := 0; now64 := 0 |}.

(** two virtual devices, and two domains on the clock of the first *)
#[local] Instance startup7 : Startup := {|
  netdevices := map (fun i => Ndev.mk (VC.CB_VIRTUAL_PTPDEV_PREFIX ++ [119; 48 + i]) (replicate 8 (i + 1))) [0; 1];
  FIRST_DOMAIN_THIS_CLOCK := 1; SECOND_DOMAIN_NUMBER := 1; SECOND_DOMAIN_THIS_CLOCK := 1;
  CB_MKTIME _ _ _ _ _ _ := 0 |}.

Definition result7 := Start.gptpman_start 1 2 125000000 world0 (Some Sysclk).

Lemma started7 : match result7 with Some (r, s) => (r =? 0) && bool_decide (is_Some (Gpm.domain s 1)) | None => false end = true.
Proof. vm_compute. reflexivity. Qed.

Lemma start_witness : exists s t p, Start.gptpman_start 1 2 125000000 world0 (Some Sysclk) = Some (0, s) /\
  seen s 1 = Some t /\ bmcs_ready 2 t p.
Proof.
  destruct (start_makes_ready (CF := config5) ltac:(split; discriminate) ltac:(intros ?; reflexivity) ltac:(reflexivity)
              1 2 125000000 world0 (Some Sysclk) ltac:(lia) ltac:(cbn; lia) ltac:(split; discriminate)
              ltac:(right; split; [split; discriminate|split; [reflexivity|lia]]))
    as (r & s & E & _ & Rd).
  pose proof started7 as T. unfold result7 in T. rewrite E in T. apply andb_true_iff in T as [T1 T2].
  apply Z.eqb_eq in T1. subst r. apply bool_decide_eq_true in T2 as [t1 D1]. destruct (Rd eq_refl) as [[t0 D0] K].
  assert (S1 : is_Some (seen s 1)).
  { unfold seen in *. destruct (Gpm.domain s 0); [|discriminate D0]. cbn. rewrite D1. by eexists. }
  destruct S1 as [t S1]. destruct (K 1%nat t 2%nat S1 ltac:(cbn; lia)) as [p B]. exists s, t, p. split; [exact E|]. split; [exact S1|exact B].
Defined.
End StartupWitness.
