(* ===== verification/Machines.v ===== *)
(** * Machines: the evaluation of every machine ends.

    The loop of [Driver] is fuelled; here the termination theorems of the
    components are put together.  Four machines end under a condition, each with
    a theorem of its own that the condition is needed or what it means:
    PortAnnounceInformation on its port index, PortAnnounceTransmit on its interval, MDPdelayReq
    on the driver being there, PortStateSettingExt on the port not being disabled
    from outside. *)

From stdpp Require Import gmap.
From S2P Require Import Prelude Types Floats Driver Common Clock AnnounceReceive AnnounceInformation.
From S2P Require Import StateSelection AnnounceTransmit IntervalSetting Capable GmStable SyncPath Wire.
From S2P Require Import Media MdSyncReceive MdSyncSend PdelayReq PdelayResp Signaling ExtPort.
From S2P Require Import Gptpclock VirtualClock ClockSync ClockSyncFacts ClockSyncSend.
#[local] Open Scope Z_scope.
#[local] Open Scope gptp_scope.

(** [f] is the result of the loop of machine [M], reached within [fuel] turns from every state with [P] *)
Definition ends_when {S E R : Type} `{EqDecision E} (P : S -> Prop) (M : StateMachine S E R) (fuel : nat)
    (f : S -> S * outcome R) : Prop :=
  forall sm, P sm -> run (M := M) fuel sm = Some (f sm).

Definition ends {S E R : Type} `{EqDecision E} (M : StateMachine S E R) (fuel : nat)
    (f : S -> S * outcome R) : Prop := ends_when (fun _ => True) M fuel f.

Lemma ends_of_run {S E R : Type} `{EqDecision E} (P : S -> Prop) (M : StateMachine S E R) n :
  (forall sm, P sm -> is_Some (run (M := M) n sm)) -> ends_when P M n (exec (M := M) n).
Proof. intros H sm X. by apply exec_run, H. Qed.

Section All.
Context `{PL : Platform} `{CF : Config} `{WC : WireConfig} `{CV : Conversions} `{ME : Media}.
Context `{DEV : PtpDev} `{SC : ServoConfig}.

(** C35. The evaluation of each machine returns, with any configuration, at any time and whatever the
    network answers: the fuel of the model never runs out.  Of the twenty-nine machines twenty-five
    return from every state; PortAnnounceInformation when its port index lies in the arrays of the instance,
    PortAnnounceTransmit when its interval is not zero, MDPdelayReq when the port has a driver, and
    PortStateSettingExt when the port is not disabled from outside.  An evaluation that uses a NULL pointer
    ends there. *)
Theorem machines_end cts64 (refuses : list (list Z) -> list Z -> bool) (ports : Z -> PerPortGlobalForAllDomain) :
  ends PAR.machine PAR.fuel PAR.port_announce_receive_sm /\
  ends_when PAI.in_range (PAI.machine cts64) PAI.fuel (PAI.port_announce_information_sm cts64) /\
  ends (PSSEL.machine cts64) PSSEL.fuel (PSSEL.port_state_selection_sm cts64) /\
  ends_when (PAT.interval_ok cts64) (PAT.machine cts64) PAT.fuel (PAT.port_announce_transmit_sm cts64) /\
  ends AIS.machine setting_fuel AIS.announce_interval_setting_sm /\
  ends SIS.machine setting_fuel SIS.sync_interval_setting_sm /\
  ends LDIS.machine setting_fuel LDIS.link_delay_interval_setting_sm /\
  ends GCIS.machine setting_fuel GCIS.gptp_capable_interval_setting_sm /\
  ends OST.machine setting_fuel OST.one_step_tx_oper_setting_sm /\
  ends (GCT.machine cts64) GCT.fuel (GCT.gptp_capable_transmit_sm cts64) /\
  ends (GCR.machine cts64) GCR.fuel (GCR.gptp_capable_receive_sm cts64) /\
  ends GMS.machine GMS.fuel GMS.gm_stable_sm /\
  ends (PSSR.machine cts64) PSSR.fuel (PSSR.port_sync_sync_receive_sm cts64) /\
  ends (SSS.machine cts64) SSS.fuel (SSS.site_sync_sync_sm cts64) /\
  ends (PSSS.machine cts64) PSSS.fuel (PSSS.port_sync_sync_send_sm cts64) /\
  ends (MDAS.machine refuses) MDAS.fuel (MDAS.md_announce_send_sm refuses) /\
  ends MDAR.machine MDAR.fuel MDAR.md_announce_receive_sm /\
  ends (SREC.machine cts64) SREC.fuel (SREC.md_sync_receive_sm cts64) /\
  ends (SSND.machine cts64) SSND.fuel (SSND.md_sync_send_sm cts64) /\
  ends_when (fun sm => is_Some (PREQ.gpnetd sm)) (PREQ.machine cts64) PREQ.fuel (PREQ.md_pdelay_req_sm cts64) /\
  ends (PRSP.machine cts64) PRSP.fuel (PRSP.md_pdelay_resp_sm cts64) /\
  ends MSGS.machine MSGS.fuel MSGS.md_signaling_send_sm /\
  ends MSGR.machine MSGR.fuel MSGR.md_signaling_receive_sm /\
  ends PAIE.machine PAIE.fuel PAIE.port_announce_information_ext_sm /\
  ends_when PSSE.not_disabled PSSE.machine PSSE.fuel PSSE.port_state_setting_ext_sm /\
  ends (CSS.machine ports) CSS.fuel (CSS.clock_slave_sync_sm ports) /\
  ends (CMSS.machine cts64) CMSS.fuel (CMSS.clock_master_sync_send_sm cts64) /\
  ends CMSO.machine CMSO.fuel CMSO.clock_master_sync_offset_sm /\
  ends CMSR.machine CMSR.fuel CMSR.clock_master_sync_receive_sm.
Proof.
  split_and!;
    [intros sm _; apply PAR.announce_receive_sm_ends
    |intros sm; apply PAI.announce_information_ends
    |intros sm _; apply PSSEL.state_selection_ends
    |intros sm; apply PAT.announce_transmit_ends
    |intros sm _; apply AIS.ais_ends
    |intros sm _; apply SIS.sis_ends
    |intros sm _; apply LDIS.ldis_ends
    |intros sm _; apply GCIS.gcis_ends
    |intros sm _; apply OST.ost_ends
    |intros sm _; apply GCT.gct_ends
    |intros sm _; apply GCR.gcr_ends
    |intros sm _; apply GMS.gm_stable_ends
    |intros sm _; apply PSSR.pssr_ends
    |intros sm _; apply SSS.sss_ends
    |intros sm _; apply PSSS.psss_ends
    |intros sm _; apply MDAS.mdas_ends
    |intros sm _; apply MDAR.mdar_ends
    |apply ends_of_run; intros sm _; apply SREC.md_sync_receive_ends
    |apply ends_of_run; intros sm _; apply SSND.md_sync_send_ends
    |apply ends_of_run; intros sm; apply PREQ.md_pdelay_req_ends
    |apply ends_of_run; intros sm _; apply PRSP.md_pdelay_resp_ends
    |intros sm _; apply MSGS.md_signaling_send_ends
    |intros sm _; apply MSGR.md_signaling_receive_ends
    |intros sm _; apply PAIE.port_announce_information_ext_ends
    |intros sm; apply PSSE.port_state_setting_ext_ends
    |intros sm _; apply css_ends
    |intros sm _; apply cmss_ends
    |intros sm _; apply cmso_ends
    |intros sm _; apply cmsr_ends].
Qed.

End All.

Module MachinesWitness.

(** The machines that end under a condition, at states that have it *)
Lemma machines_end_witness :
  run (M := PAI.machine (PL := platform0) 1000) PAI.fuel (PAI.port1 (PAI.announce 50)) =
    Some (PAI.port_announce_information_sm (PL := platform0) 1000 (PAI.port1 (PAI.announce 50))) /\
  run (M := PSSE.machine) PSSE.fuel (PSSE.port_state_setting_ext_sm_init 0 1 2 zero [zero; zero] zero [zero; zero]) =
    Some (PSSE.port_state_setting_ext_sm (PSSE.port_state_setting_ext_sm_init 0 1 2 zero [zero; zero] zero [zero; zero])).
Proof.
  pose proof (machines_end (PL := platform0) (CF := config0) (WC := WireWitness.wire0) (CV := conversions0)
    (ME := media0) (DEV := VirtualDev.virtual_dev 0) (SC := ClockSyncWitness.servo0) 1000 (fun _ _ => false)
    (fun _ => zero)) as H.
  destruct H as (_ & A & _ & _ & _ & _ & _ & _ & _ & _ & _ & _ & _ & _ & _ & _ & _ & _ & _ & _ & _ & _ & _ & _ & B & _).
  split; [apply A|apply B]; vm_compute; intuition discriminate.
Defined.
End MachinesWitness.
